(* ===== verification/_CoqProject ===== *)
-Q . S2P
Prelude.v
CString.v
DList.v
RingBuf.v
Bmap.v
BlockDev.v
HdQueue.v
Cofs.v
CofsBlocks.v
CofsInode.v
CofsFiles.v
CofsRW.v
Path.v
Pipe.v
Vsnprintf.v
Vsscanf.v
Sched.v
SchedInv.v
SchedRun.v
Malloc.v
Mem.v
MemSpec.v
Net.v
NetWire.v
NetSpec.v
NetTable.v
NetArp.v
NetIcmp.v
Dns.v
DnsSpec.v
Dhcp.v
DhcpSpec.v
Vfs.v
Sysfile.v
RamFs.v
SysSpec.v
SysFiles.v
SysCofs.v
Stdio.v
StdioSpec.v
StdioSys.v
Crt.v
CrtSpec.v
Tty.v
TtySpec.v
