(* ===== verification/Prelude.v ===== *)
(** * cOSiris: a verification library for the kernel and its C library

    cOSiris is a small operating system for the i386: a kernel with paging, a
    heap, tasks and signals, pipes, a file system on an ATA disk and a network
    stack, a C library shared by the kernel and the programs, and the programs
    themselves.  This library models its core in Gallina, function by function,
    and proves the theorems that make the parts correct.

    ** How the code is modelled

    A C function becomes a Rocq function of the same name.  A function that can
    stop the machine or leave the defined behaviour of its objects returns
    [res], or, when it works on a state, is an element of the state and error
    monad [st]; the errors are those of [err] below.  So a theorem that says
    that a call returns [Ok] says as well that no assertion fails, nothing
    outside of an object is read or written, no freed or null pointer is
    followed and no lock is taken twice.  Integers are elements of [Z]; the
    wrap-around is written out ([u8], [u16], [u32], [s8], [s32], [+u], [+i]).
    Memory is a list of cells (bytes) for an array, a map from addresses for
    the physical memory, a map from pointers for linked structures.  A loop is
    structural recursion where there is a structure, otherwise recursion on
    fuel; running out of fuel is the error [EFuel], and since the theorems say
    that the result is [Ok] they say that the fuel is enough.  The fuel is
    always a function of the state (the length of an array, the number of nodes
    or tasks, the number of blocks of a range), never a constant hypothesis.
    What is not in the repository (the disk, [malloc] where its size is not the
    subject, the free functions and data of generic lists, whatever runs while
    a task sleeps) is an argument.

    ** The files

    - [Prelude]: errors, monads, integers, byte arrays and their lemmas.
    - [CString] (src/lib/str*.c, mem*.c, ato*.c, is*.c, swap*.c, types.c):
      strings, memory blocks, conversions, byte order, with out-of-bounds
      accesses as errors.
    - [Path] (src/bname.c, src/canonize.c): path names.
    - [Vsnprintf], [Vsscanf] (src/lib/vsnprintf.c, src/lib/vsscanf.c): formatted
      output against a reference rendering, and formatted input, which reads
      back what the output wrote.
    - [DList] (src/list.c): doubly linked lists on a store of nodes, refined to
      sequences.  [RingBuf] (src/ring_buf.c): ring buffers as queues.  [Bmap]
      (src/bmap.c): bitmaps as sets.
    - [Pipe] (src/pipe.c): pipes as two step relations that interleave.
    - [Malloc] (src/lib/malloc.c, [_sbrk] of src/mem.c): the heap with its
      headers in memory, refined to a list of blocks: what is in use, what a
      free joins with its neighbours and which pages it gives back.
    - [Mem] (src/mem.c): physical memory, page tables as words of that memory,
      the free list through the frames; [MemSpec]: its invariant and what the
      operations do to the translation of addresses.
    - [Sched] (src/task.c, signal.c, thread.c, timer.c): tasks, the circular
      queue, waiting, signals; [SchedInv]: the invariant of the task table and
      its preservation; [SchedRun]: runs of the scheduler, fairness, exit and
      wait.
    - [HdQueue] (src/hd_queue.c, [hd_rw] of src/hd.c): the cache of disk
      buffers; [BlockDev] is the interface (a class with its laws) that the
      cache offers to the file system.
    - [Cofs] (src/cofs.c, src/cofs.h): the file system over [BlockDev]:
      superblock, bitmap, inodes, direct and indirect blocks, directories, the
      cache of nodes.  [CofsBlocks]: the allocation of blocks.  [CofsInode]:
      inodes on disk and the cache of nodes.  [CofsFiles]: the representation
      of a file by a map from block numbers to blocks.  [CofsRW]: reading,
      writing and truncating.
    - [Vfs] (src/vfs.c, vfs.h): nodes, the dispatch to their drivers and the
      walk of paths.  [Sysfile] (src/sysfile.c, [dev_open] of src/dev.c, the
      descriptors in src/task.c and src/thread.c): descriptors and the calls on
      files and paths.  [RamFs]: a file system in memory on which examples run.
      [SysSpec]: the balance of descriptors and file structures.  [SysFiles]:
      [fs_namei] as a walk, and descriptors as open files of bytes.  [SysCofs]:
      the files of [Cofs] are such files.
    - [Stdio] (src/lib/file.c, src/include/stdio.h): the buffered streams of the
      programs over the system calls (class [Unix]).  [StdioSpec]: streams as
      sequences of bytes over a descriptor that takes or gives bytes ([Sink],
      [Source]), and what errors do.  [StdioSys]: the streams on [Sysfile] and
      the files of [Cofs].
    - [Crt] (src/ansi.c, src/crt.c): escape sequences and the screen in the
      video memory; [CrtSpec]: what it may touch, what sequences and text do.
    - [Tty] (src/tty.c): terminals, the line editor, [tty_read], [tty_write];
      [TtySpec]: the editor against a reference, and text from [tty_write] to
      the screen of [Crt].
    - [Net] (src/net.c, ip.c, icmp.c, arp.c, route.c, sock.c, udp.c): frames as
      arrays of bytes, checksums, the ARP cache, routes, sockets, UDP and the
      echo of ICMP; what other tasks do during a sleep is an argument.
      [NetWire]: checksums and headers; [NetSpec]: a datagram from [udp_write]
      to [udp_read] of another host; [NetArp], [NetIcmp]: the exchange of a
      request and its answer; [NetTable]: routes.
    - [Dns] (src/dns.c): names, queries and answers over a socket of [Net];
      [DnsSpec]: round trip of names, names with references and the references that never end, resolution.
    - [Dhcp] (src/dhcp.c): the messages of the client, the options of the
      answers and the exchange over a socket of [Net]; the calls that the kernel
      stack has room for are an argument.  [DhcpSpec]: the format of messages,
      the parser on it and on any bytes, and the configuration that DISCOVER,
      OFFER, REQUEST and ACK lead to.
    ** The theorems

    The claims C1 to C40 are marked in the doc comments.  The first group says
    that files behave as byte sequences: a write stores its bytes and changes no
    other file ([cofs_write_spec]), a read returns them, truncation frees the
    blocks.  The second that the task table stays in order whatever the tasks
    do, that the scheduler is a fair round robin and that a status passes from
    exit to wait; a switch is a timer interrupt, with the signals it delivers.  The third is about descriptors: [read], [write], [lseek] and
    [dup] implement an open file with a shared position on every node that is a
    file of bytes, those of the disk among them; no call loses or doubles a file
    structure; paths are walked component by component; streams deliver and
    return their bytes in order, and stop at errors.  The next is about
    terminals: the line editor refines a reference, text that is written is on
    the screen, and the screen stays in its memory.  Then memory: mapping, allocation and release of frames change
    exactly the pages they should, and the heap is a map of disjoint blocks.
    The remaining groups concern the disk cache, block allocation, inodes,
    pipes, the network, formatted input and output, paths, lists, ring buffers, bitmaps
    and the C library.  The lemmas that show defects of the code end most files;
    they are named where they are reported.

    ** Interfaces

    [BlockDev.BlockDevLaws] is what [HdQueue] promises to [Cofs]: the theorems
    on files hold for every device with these laws.  The class [FsOps] of
    [Sched] is what the scheduler uses of the file system when a task forks or
    exits; [SchedRun] instantiates it with the reference counts of [Pipe].
    [Vfs.Kernel] holds the drivers that [Vfs] and [Sysfile] call, [QuietDrivers]
    the law that they leave descriptors alone, and [SysFiles.ByteFile] what a
    driver promises for a file of bytes; [SysCofs] derives it from [CofsRW].
    [Stdio.Unix] are the system calls of the library and [StdioSpec.Sink] and
    [StdioSpec.Source] the contracts of a descriptor, which [StdioSys] derives
    from [ByteFile].  [Tty.Host] is the kernel around the terminals and
    [Crt.Ports] are the ports of the display; [TtySpec.Calm] says what the
    editor needs of the other tasks.

    ** Not modelled

    Assembly, descriptor tables and interrupt entry (gdt.c, idt.c, int.c, irq.c,
    the .asm files); drivers whose effect is port I/O (the ATA protocol of hd.c,
    ne2000.c, pci.c, kbd.c, serial.c, rtc.c, mmio.c, port.c, delay.c);
    the console device and kernel messages (console.c); the entry of the
    system calls (sysproc.c, syscall.c), [dev_init] of dev.c, zero.c and
    initrd.c; [lstree] and the disabled [fs_mount] of vfs.c; the kernel
    debugger kdbg.c; the user programs (bin/) and the host tools
    (util/).  The switch of stacks and page directories and the jumps to user
    mode have no counterpart; what [thread_new] reads from its own registers is
    an argument.  Interrupts
    are disabled or locks held during the operations modelled as one step;
    where the code lets tasks interleave (pipes, sleeping) the model has
    separate steps. *)

From Stdlib Require Export ZArith Lia.
From stdpp Require Export base option numbers gmap list.
From stdpp Require Import tactics.
Export list_basics.list list_relations.list list_misc.list.

#[global] Open Scope Z_scope.

(** ** Errors and the result monad

    A C function that can stop the machine or leave the defined behaviour of
    its objects returns a [res].  [EPanic] is a call of [panic],
    [EAssert] a failed [assert]/[KASSERT], [EOob] an access outside the object
    a pointer points into, [ENull] a dereference of [NULL], [EUaf] an access
    to a freed object, [EDiv] a division by zero, [EDeadlock] a [spin_lock] on a lock that is already
    held, [EBlock] a task that goes to sleep in [sleep_on], [EFault] a page
    fault or an access to an address without memory, [EFuel] the
    exhaustion of the fuel of a loop. *)
Inductive err : Type :=
| EPanic | EAssert | EOob | ENull | EUaf | EDiv | EDeadlock | EBlock | EFault | EFuel.

#[global] Instance err_eq_dec : EqDecision err.
Proof. solve_decision. Defined.

Inductive res (A : Type) : Type :=
| Ok (a : A)
| Err (e : err).
Arguments Ok {A} a.
Arguments Err {A} e.

#[global] Instance res_eq_dec `{EqDecision A} : EqDecision (res A).
Proof. solve_decision. Defined.

#[global] Instance res_ret : MRet res := fun A a => Ok a.
#[global] Instance res_bind : MBind res := fun A B f m =>
  match m with Ok a => f a | Err e => Err e end.

(** The state-and-error monad of the components that thread a state. *)
Definition st (S A : Type) : Type := S -> res (A * S).

#[global] Instance st_ret S : MRet (st S) := fun A a s => Ok (a, s).
#[global] Instance st_bind S : MBind (st S) := fun A B f m s =>
  match m s with Ok (a, s') => f a s' | Err e => Err e end.

Definition fail {S A} (e : err) : st S A := fun _ => Err e.
Definition get {S} : st S S := fun s => Ok (s, s).
Definition put {S} (s : S) : st S unit := fun _ => Ok (tt, s).
Definition modify {S} (f : S -> S) : st S unit := fun s => Ok (tt, f s).
Definition lift {S A} (m : res A) : st S A := fun s =>
  match m with Ok a => Ok (a, s) | Err e => Err e end.
(** [KASSERT(b)] and [assert(b)]. *)
Definition kassert {S} (b : bool) : st S unit :=
  if b then mret tt else fail EAssert.
Definition rassert (b : bool) : res unit := if b then Ok tt else Err EAssert.

(** ** Machine integers

    An unsigned [w]-bit integer is a [Z] in [0, 2^w); each operation of the
    source that can leave the range is followed by its reduction.  A signed
    integer is a [Z] in [-2^(w-1), 2^(w-1)); conversions and overflows wrap
    (two's complement). *)
Definition u8 (x : Z) : Z := x mod 2 ^ 8.
Definition u16 (x : Z) : Z := x mod 2 ^ 16.
Definition u32 (x : Z) : Z := x mod 2 ^ 32.
Definition s8 (x : Z) : Z := (x + 2 ^ 7) mod 2 ^ 8 - 2 ^ 7.
Definition s32 (x : Z) : Z := (x + 2 ^ 31) mod 2 ^ 32 - 2 ^ 31.
Definition s64 (x : Z) : Z := (x + 2 ^ 63) mod 2 ^ 64 - 2 ^ 63.

Declare Scope c_scope.
Delimit Scope c_scope with C.
Notation "a +u b" := (u32 (a + b)) (at level 50, left associativity) : c_scope.
Notation "a -u b" := (u32 (a - b)) (at level 50, left associativity) : c_scope.
Notation "a *u b" := (u32 (a * b)) (at level 40, left associativity) : c_scope.
Notation "a +i b" := (s32 (a + b)) (at level 50, left associativity) : c_scope.
Notation "a -i b" := (s32 (a - b)) (at level 50, left associativity) : c_scope.
#[global] Open Scope c_scope.

(** A byte of memory and its reading as a (signed) [char]. *)
Definition is_byte (b : Z) : Prop := 0 <= b < 256.
Definition schar (b : Z) : Z := s8 b.

(** ** Byte arrays

    An object of memory is a list of cells; [rd] and [wr] are [p[i]] and
    [p[i] = v] and are errors outside of the object. *)
Definition rd {A} (l : list A) (i : nat) : res A :=
  match l !! i with Some v => Ok v | None => Err EOob end.
Definition wr {A} (l : list A) (i : nat) (v : A) : res (list A) :=
  if decide (i < length l)%nat then Ok (<[i:=v]> l) else Err EOob.

(** The sub-array of [n] cells at [i], as [memcpy] reads it. *)
Definition rd_block {A} (l : list A) (i n : nat) : res (list A) :=
  if decide (i + n <= length l)%nat then Ok (take n (drop i l)) else Err EOob.
(** Overwriting the cells at [i] with [v], as [memcpy] writes them. *)
Definition splice {A} (l : list A) (i : nat) (v : list A) : list A :=
  take i l ++ v ++ drop (i + length v) l.
Definition wr_block {A} (l : list A) (i : nat) (v : list A) : res (list A) :=
  if decide (i + length v <= length l)%nat then Ok (splice l i v) else Err EOob.

(** Little-endian words, the representation of integers on the i386. *)
Fixpoint le_combine (bs : list Z) : Z :=
  match bs with
  | [] => 0
  | b :: bs' => b + 256 * le_combine bs'
  end.
Fixpoint le_split (n : nat) (w : Z) : list Z :=
  match n with
  | O => []
  | S n' => w mod 256 :: le_split n' (w / 256)
  end.

(** ** Automation *)
Create HintDb cos.

Lemma bind_Ok {A B} (m : res A) (f : A -> res B) b :
  m ≫= f = Ok b <-> exists a, m = Ok a /\ f a = Ok b.
Proof. destruct m; simpl; naive_solver. Qed.

Lemma st_bind_Ok {S A B} (m : st S A) (f : A -> st S B) s r :
  (m ≫= f) s = Ok r <-> exists a s', m s = Ok (a, s') /\ f a s' = Ok r.
Proof.
  unfold mbind, st_bind. destruct (m s) as [[a s']|e]; naive_solver.
Qed.

Lemma st_bind_eq {S A B} (m : st S A) (f : A -> st S B) s a s' :
  m s = Ok (a, s') -> (m ≫= f) s = f a s'.
Proof. intros H. unfold mbind, st_bind. by rewrite H. Qed.

(** [inv_res] splits the equations [.. ≫= .. = Ok _] of the context. *)
Ltac inv_res :=
  repeat match goal with
  | H : mbind _ _ = Ok _ |- _ => apply bind_Ok in H as (? & ? & H)
  | H : mbind _ _ _ = Ok _ |- _ => apply st_bind_Ok in H as (? & ? & ? & H)
  | H : Ok _ = Ok _ |- _ => injection H as H
  | H : Err _ = Ok _ |- _ => discriminate H
  | H : Ok _ = Err _ |- _ => discriminate H
  end.

(** [st_run] executes the monadic primitives of the goal. *)
Ltac st_run :=
  unfold mbind, st_bind, mret, st_ret, get, put, modify, fail, lift, kassert;
  cbn beta iota zeta.

(** [to_prop] turns the comparisons on [Z] of the context to propositions. *)
Ltac to_prop :=
  repeat match goal with
  | H : (_ && _)%bool = true |- _ => apply andb_prop in H as [? H]
  | H : (_ || _)%bool = false |- _ => apply orb_false_elim in H as [? H]
  | H : negb _ = true |- _ => apply negb_true_iff in H
  | H : negb _ = false |- _ => apply negb_false_iff in H
  | H : (_ =? _) = true |- _ => apply Z.eqb_eq in H
  | H : (_ =? _) = false |- _ => apply Z.eqb_neq in H
  | H : (_ <? _) = true |- _ => apply Z.ltb_lt in H
  | H : (_ <? _) = false |- _ => apply Z.ltb_ge in H
  | H : (_ <=? _) = true |- _ => apply Z.leb_le in H
  | H : (_ <=? _) = false |- _ => apply Z.leb_gt in H
  end.

(** ** Lemmas on machine integers *)
Lemma u32_small x : 0 <= x < 2 ^ 32 -> u32 x = x.
Proof. apply Z.mod_small. Qed.
Lemma u32_range x : 0 <= u32 x < 2 ^ 32.
Proof. apply Z.mod_pos_bound. lia. Qed.
Lemma u16_small x : 0 <= x < 2 ^ 16 -> u16 x = x.
Proof. apply Z.mod_small. Qed.
Lemma u16_range x : 0 <= u16 x < 2 ^ 16.
Proof. apply Z.mod_pos_bound. lia. Qed.
Lemma u8_small x : 0 <= x < 256 -> u8 x = x.
Proof. apply Z.mod_small. Qed.
Lemma u8_range x : 0 <= u8 x < 256.
Proof. apply Z.mod_pos_bound. lia. Qed.
Lemma u32_add_l a b : u32 (u32 a + b) = u32 (a + b).
Proof. apply Z.add_mod_idemp_l. lia. Qed.
Lemma u32_add_r a b : u32 (a + u32 b) = u32 (a + b).
Proof. apply Z.add_mod_idemp_r. lia. Qed.
Lemma s32_small x : - 2 ^ 31 <= x < 2 ^ 31 -> s32 x = x.
Proof. intros. unfold s32. rewrite Z.mod_small; lia. Qed.
Lemma s8_small x : - 2 ^ 7 <= x < 2 ^ 7 -> s8 x = x.
Proof. intros. unfold s8. rewrite Z.mod_small; lia. Qed.
Lemma schar_ascii b : 0 <= b < 128 -> schar b = b.
Proof. intros. apply s8_small. lia. Qed.
Lemma schar_0 : schar 0 = 0.
Proof. done. Qed.
Lemma schar_inj a b : is_byte a -> is_byte b -> schar a = schar b -> a = b.
Proof.
  unfold is_byte, schar, s8. intros Ha Hb H.
  pose proof (Z.div_mod (a + 2 ^ 7) (2 ^ 8)).
  pose proof (Z.div_mod (b + 2 ^ 7) (2 ^ 8)).
  pose proof (Z.mod_pos_bound (a + 2 ^ 7) (2 ^ 8)).
  pose proof (Z.mod_pos_bound (b + 2 ^ 7) (2 ^ 8)). lia.
Qed.
#[export] Hint Resolve u32_range u16_range u8_range : cos.

(** Deciding that the cells of a concrete array are bytes. *)
Definition bytesb (l : list Z) : bool := forallb (fun b => (0 <=? b) && (b <? 256))%bool l.
Lemma bytesb_true l : bytesb l = true -> Forall is_byte l.
Proof.
  intros H. apply Forall_forall. intros b Hb. apply list_elem_of_In in Hb.
  apply (proj1 (forallb_forall _ l) H) in Hb. unfold is_byte. lia.
Qed.

(** ** Lemmas on arrays *)
Lemma rd_Ok {A} (l : list A) i v : rd l i = Ok v <-> l !! i = Some v.
Proof. unfold rd. destruct (l !! i); naive_solver. Qed.

Lemma wr_Ok {A} (l : list A) i v l' :
  wr l i v = Ok l' <-> (i < length l)%nat /\ l' = <[i:=v]> l.
Proof. unfold wr. case_decide; naive_solver. Qed.

Lemma wr_in {A} (l : list A) i v :
  (i < length l)%nat -> wr l i v = Ok (<[i:=v]> l).
Proof. intros. unfold wr. by rewrite decide_True. Qed.

Lemma length_splice {A} (l : list A) i v :
  (i + length v <= length l)%nat -> length (splice l i v) = length l.
Proof. intros. unfold splice. rewrite !length_app, length_take, length_drop. lia. Qed.

Lemma splice_nil {A} (l : list A) i : splice l i [] = l.
Proof. unfold splice. simpl. rewrite Nat.add_0_r. apply take_drop. Qed.

Lemma lookup_splice_in {A} (l : list A) i v k :
  (i + length v <= length l)%nat -> (i <= k < i + length v)%nat ->
  splice l i v !! k = v !! (k - i)%nat.
Proof.
  intros. unfold splice.
  rewrite lookup_app_r; rewrite length_take; [|lia].
  rewrite lookup_app_l by lia. f_equal. lia.
Qed.

Lemma lookup_splice_out {A} (l : list A) i v k :
  (i + length v <= length l)%nat -> (k < i \/ i + length v <= k)%nat ->
  splice l i v !! k = l !! k.
Proof.
  intros ? [?|?]; unfold splice.
  - rewrite lookup_app_l by (rewrite length_take; lia).
    by rewrite lookup_take_lt.
  - rewrite lookup_app_r; rewrite length_take; [|lia].
    rewrite lookup_app_r by lia. rewrite lookup_drop. f_equal. lia.
Qed.

(** Writing one more cell at the right end of a spliced block. *)
Lemma splice_snoc {A} (l : list A) i v x :
  (i + length v < length l)%nat ->
  <[(i + length v)%nat := x]> (splice l i v) = splice l i (v ++ [x]).
Proof.
  intros. apply list_eq. intros k.
  destruct (decide (k = i + length v)%nat) as [->|Hk].
  - rewrite list_lookup_insert_eq by (rewrite length_splice; lia).
    rewrite lookup_splice_in; rewrite ?length_app; simpl; [|lia..].
    replace (i + length v - i)%nat with (length v) by lia.
    by rewrite lookup_app_r, Nat.sub_diag by lia.
  - rewrite list_lookup_insert_ne by done.
    destruct (decide (i <= k < i + length v)%nat).
    + rewrite !lookup_splice_in by (rewrite ?length_app; simpl; lia).
      by rewrite lookup_app_l by lia.
    + rewrite !lookup_splice_out by (rewrite ?length_app; simpl; lia). done.
Qed.

Lemma splice_cons {A} (l : list A) i x v :
  (i + S (length v) <= length l)%nat ->
  splice (<[i:=x]> l) (S i) v = splice l i (x :: v).
Proof.
  intros Hl. apply list_eq. intros k. destruct (decide (k = i)) as [->|Hki].
  - rewrite lookup_splice_out by (rewrite ?length_insert; lia).
    rewrite list_lookup_insert_eq by lia.
    rewrite lookup_splice_in by (simpl; lia). by rewrite Nat.sub_diag.
  - destruct (decide (i < k < i + S (length v))%nat).
    + rewrite !lookup_splice_in by (rewrite ?length_insert; simpl; lia).
      replace (k - i)%nat with (S (k - S i)) by lia. done.
    + rewrite !lookup_splice_out by (rewrite ?length_insert; simpl; lia).
      by rewrite list_lookup_insert_ne.
Qed.

Lemma splice_single {A} (l : list A) i x :
  (i < length l)%nat -> <[i:=x]> l = splice l i [x].
Proof. intros. rewrite <- splice_cons by (simpl; lia). by rewrite splice_nil. Qed.

(** Reading back a spliced block. *)
Lemma splice_read {A} (l : list A) i v :
  (i + length v <= length l)%nat -> take (length v) (drop i (splice l i v)) = v.
Proof.
  intros. unfold splice.
  rewrite drop_app_length' by (rewrite length_take; lia).
  by rewrite take_app_length.
Qed.

Lemma splice_same {A} (l : list A) i n :
  (i + n <= length l)%nat -> splice l i (take n (drop i l)) = l.
Proof.
  intros. apply list_eq. intros k.
  destruct (decide (i <= k < i + n)%nat).
  - rewrite lookup_splice_in by (rewrite length_take, length_drop; lia).
    rewrite lookup_take_lt, lookup_drop by lia. f_equal. lia.
  - apply lookup_splice_out; rewrite length_take, length_drop; lia.
Qed.

Lemma splice_splice_same {A} (l : list A) i v w :
  (i + length v <= length l)%nat -> length w = length v ->
  splice (splice l i v) i w = splice l i w.
Proof.
  intros Hl Hw. apply list_eq. intros k.
  destruct (decide (i <= k < i + length w)%nat).
  - rewrite !lookup_splice_in by (rewrite ?length_splice; lia). done.
  - rewrite !lookup_splice_out by (rewrite ?length_splice; lia). done.
Qed.

Lemma splice_app {A} (l : list A) i v w :
  (i + length v + length w <= length l)%nat ->
  splice (splice l i v) (i + length v) w = splice l i (v ++ w).
Proof.
  intros Hl. apply list_eq. intros k.
  destruct (decide (i + length v <= k < i + length v + length w)%nat).
  - rewrite !lookup_splice_in by (rewrite ?length_splice, ?length_app; lia).
    rewrite lookup_app_r by lia. f_equal. lia.
  - rewrite lookup_splice_out by (rewrite ?length_splice; lia).
    destruct (decide (i <= k < i + length v)%nat).
    + rewrite !lookup_splice_in by (rewrite ?length_app; lia). by rewrite lookup_app_l by lia.
    + rewrite !lookup_splice_out by (rewrite ?length_app; lia). done.
Qed.

(** ** Lemmas on words *)
Lemma testbit_small b k n : 0 <= b < 2 ^ k -> k <= n -> Z.testbit b n = false.
Proof.
  intros Hb Hk. destruct (decide (b = 0)) as [->|]; [apply Z.bits_0|].
  apply Z.bits_above_log2; [lia|]. apply Z.log2_lt_pow2; [lia|].
  destruct (Z.lt_ge_cases k 0); [rewrite Z.pow_neg_r in Hb; lia|].
  apply Z.lt_le_trans with (2 ^ k); [lia|]. apply Z.pow_le_mono_r; lia.
Qed.

Lemma lor_u32 a b : 0 <= a < 2 ^ 32 -> 0 <= b < 2 ^ 32 -> 0 <= Z.lor a b < 2 ^ 32.
Proof.
  intros Ha Hb. split; [apply Z.lor_nonneg; lia|].
  destruct (decide (Z.lor a b = 0)) as [->|]; [lia|].
  assert (0 <= Z.lor a b) by (apply Z.lor_nonneg; lia).
  apply Z.log2_lt_cancel. rewrite Z.log2_lor, Z.log2_pow2 by lia.
  apply Z.max_lub_lt; destruct (decide (a = 0)) as [->|], (decide (b = 0)) as [->|]; simpl; try lia;
    apply Z.log2_lt_pow2; lia.
Qed.

Lemma land_u32 a b : 0 <= a < 2 ^ 32 -> 0 <= Z.land a b < 2 ^ 32.
Proof.
  intros Ha. replace (Z.land a b) with (Z.land a b mod 2 ^ 32); [apply Z.mod_pos_bound; lia|].
  rewrite <- Z.land_ones by lia. rewrite <- Z.land_assoc, (Z.land_comm b), Z.land_assoc.
  by rewrite Z.land_ones, Z.mod_small by lia.
Qed.

(** A disjoint [lor] is an addition. *)
Lemma lor_shiftl_add a b k :
  0 <= k -> 0 <= b < 2 ^ k -> Z.lor (Z.shiftl a k) b = a * 2 ^ k + b.
Proof.
  intros Hk Hb. rewrite <- (Z.shiftl_mul_pow2 a k) by done.
  assert (Hl : Z.land (Z.shiftl a k) b = 0).
  { apply Z.bits_inj'. intros n Hn. rewrite Z.land_spec, Z.bits_0.
    destruct (Z.ltb_spec n k); [by rewrite Z.shiftl_spec_low|].
    by rewrite (testbit_small b k n), andb_false_r. }
  by rewrite Z.add_nocarry_lxor, Z.lxor_lor.
Qed.

Lemma length_le_split n w : length (le_split n w) = n.
Proof. revert w. induction n; simpl; intros; auto. Qed.

Lemma le_split_bytes n w : Forall is_byte (le_split n w).
Proof.
  revert w. induction n; simpl; intros; constructor; auto.
  apply Z.mod_pos_bound. lia.
Qed.

Lemma le_combine_split n w :
  0 <= w < 256 ^ Z.of_nat n -> le_combine (le_split n w) = w.
Proof.
  revert w. induction n as [|n IH]; intros w Hw; [simpl in *; lia|].
  cbn [le_split le_combine].
  rewrite Nat2Z.inj_succ, Z.pow_succ_r in Hw by lia.
  rewrite IH; pose proof (Z.div_mod w 256);
    pose proof (Z.mod_pos_bound w 256); [lia|].
  split; [apply Z.div_pos; lia|]. apply Z.div_lt_upper_bound; lia.
Qed.

Lemma le_combine_bound bs :
  Forall is_byte bs -> 0 <= le_combine bs < 256 ^ Z.of_nat (length bs).
Proof.
  induction 1 as [|b bs Hb _ IH]; [simpl; lia|].
  cbn [le_combine length]. rewrite Nat2Z.inj_succ, Z.pow_succ_r by lia.
  unfold is_byte in Hb. lia.
Qed.

Lemma le_split_combine bs :
  Forall is_byte bs -> le_split (length bs) (le_combine bs) = bs.
Proof.
  induction 1 as [|b bs Hb _ IH]; [done|]. simpl length. cbn [le_split le_combine].
  unfold is_byte in Hb. f_equal.
  - rewrite Z.mul_comm, Z.mod_add, Z.mod_small by lia. done.
  - rewrite Z.mul_comm, Z.div_add, Z.div_small by lia. done.
Qed.
