(* ===== verification/CString.v ===== *)
(** * The C library: strings, memory blocks, byte order (src/lib)

    A [char *] that is only read is the list of the cells from the pointer to
    the end of its object; one that is written is the object and an offset.
    Reading or writing outside of the object is the error [EOob].  Cells hold
    unsigned bytes and [schar] is their value as a [char] of the i386 ABI. *)
From S2P Require Import Prelude.

(** ** Operations *)

(** strlen.c; the argument is [None] for [NULL]. *)
Fixpoint strlen_loop (s : list Z) (i : Z) : res Z :=
  match s with
  | [] => Err EOob
  | c :: s' => if c =? 0 then Ok i else strlen_loop s' (i +u 1)
  end.

Definition strlen (s : option (list Z)) : res Z :=
  match s with
  | Some m => strlen_loop m 0
  | None => Ok 0
  end.

(** strcmp.c *)
Fixpoint strcmp (s t : list Z) : res Z :=
  match s, t with
  | a :: s', b :: t' =>
      if a =? b then (if a =? 0 then Ok 0 else strcmp s' t')
      else Ok (schar a - schar b)
  | _, _ => Err EOob
  end.

(** strncmp.c: the loop stops at [n == 0] before it reads, and reads [*s2]
    only when [*s1] is not the terminator. *)
Fixpoint strncmp (s1 s2 : list Z) (n : nat) : res Z :=
  match n with
  | O => Ok 0
  | S n' =>
      a ← rd s1 0;
      b ← rd s2 0;
      if (negb (a =? 0) && (a =? b))%bool
      then strncmp (drop 1 s1) (drop 1 s2) n'
      else Ok (schar a - schar b)
  end.

(** strchr.c: the result is the offset of the returned pointer. *)
Fixpoint strchr_scan (s : list Z) (c : Z) (i : nat) : res (nat * Z) :=
  match s with
  | [] => Err EOob
  | a :: s' =>
      if (negb (a =? 0) && negb (schar a =? c))%bool
      then strchr_scan s' c (S i) else Ok (i, a)
  end.

Definition strchr (s : list Z) (c : Z) : res (option nat) :=
  '(i, a) ← strchr_scan s c 0;
  if ((c =? 0) || negb (a =? 0))%bool then Ok (Some i) else Ok None.

(** strstr.c: [p] is the offset of the C variable [p] in [str]. *)
Fixpoint strstr_loop (fuel : nat) (str substr : list Z) (len : Z) (p : nat)
  : res (option nat) :=
  match fuel with
  | O => Err EFuel
  | S f =>
      c ← rd substr 0;
      q ← strchr (drop p str) (schar c);
      match q with
      | None => Ok None
      | Some k =>
          d ← strncmp (drop (p + k) str) substr (Z.to_nat len);
          if d =? 0 then Ok (Some (p + k)%nat)
          else strstr_loop f str substr len (S (p + k))
      end
  end.

Definition strstr (str substr : list Z) : res (option nat) :=
  len ← strlen (Some substr);
  strstr_loop (S (length str)) str substr len 0.

(** strcpy.c, strcat.c and strncat.c write at an offset of [dest]. *)
Fixpoint strcpy_loop (dest : list Z) (i : nat) (src : list Z) : res (list Z) :=
  match src with
  | [] => Err EOob
  | c :: src' =>
      if c =? 0 then wr dest i 0
      else d ← wr dest i c; strcpy_loop d (S i) src'
  end.

Definition strcpy (dest src : list Z) : res (list Z) := strcpy_loop dest 0 src.

Definition strcat (dest src : list Z) : res (list Z) :=
  dlen ← strlen (Some dest);
  strcpy_loop dest (Z.to_nat dlen) src.

Fixpoint strncat_loop (dest : list Z) (i : nat) (src : list Z) (n : nat)
  : res (list Z) :=
  match n with
  | O => wr dest i 0
  | S n' =>
      c ← rd src 0;
      if c =? 0 then wr dest i 0
      else d ← wr dest i c; strncat_loop d (S i) (drop 1 src) n'
  end.

Definition strncat (dest src : list Z) (n : nat) : res (list Z) :=
  dlen ← strlen (Some dest);
  strncat_loop dest (Z.to_nat dlen) src n.

(** strncpy.c: the first loop copies, the second pads with zeroes. *)
Fixpoint strncpy_pad (dest : list Z) (i n : nat) : res (list Z) :=
  match n with
  | O => Ok dest
  | S n' => d ← wr dest i 0; strncpy_pad d (S i) n'
  end.

Fixpoint strncpy_loop (dest : list Z) (i : nat) (src : list Z) (n : nat)
  : res (list Z) :=
  match n with
  | O => Ok dest
  | S n' =>
      c ← rd src 0;
      if c =? 0 then strncpy_pad dest i n
      else d ← wr dest i c; strncpy_loop d (S i) (drop 1 src) n'
  end.

Definition strncpy (dest src : list Z) (n : nat) : res (list Z) :=
  strncpy_loop dest 0 src n.

(** strdup.c; [malloc] gives the cells of a new object of the given size. *)
Definition strdup (malloc : Z -> list Z) (src : list Z) : res (list Z) :=
  len ← strlen (Some src);
  ret ← strcpy (malloc (len +u 1)) src;
  wr ret (Z.to_nat len) 0.

(** memcpy.c for two different objects *)
Fixpoint memcpy_loop (d s : list Z) (i n : nat) : res (list Z) :=
  match n with
  | O => Ok d
  | S n' => v ← rd s i; d' ← wr d i v; memcpy_loop d' s (S i) n'
  end.

Definition memcpy (dest src : list Z) (n : nat) : res (list Z) :=
  memcpy_loop dest src 0 n.

(** memmove.c: [dst] and [src] are offsets into one object [m]. *)
Fixpoint memmove_up (m : list Z) (d s n : nat) : res (list Z) :=
  match n with
  | O => Ok m
  | S n' => v ← rd m s; m' ← wr m d v; memmove_up m' (S d) (S s) n'
  end.

Fixpoint memmove_down (m : list Z) (d s n : nat) : res (list Z) :=
  match n with
  | O => Ok m
  | S n' =>
      v ← rd m (s + n'); m' ← wr m (d + n') v; memmove_down m' d s n'
  end.

Definition memmove (m : list Z) (dst src : nat) (n : Z) : res (list Z) :=
  if decide (dst < src)%nat then memmove_up m dst src (Z.to_nat n)
  else memmove_down m dst src (Z.to_nat n).

(** memset.c at an offset of an object *)
Fixpoint memset (m : list Z) (p : nat) (c : Z) (n : nat) : res (list Z) :=
  match n with
  | O => Ok m
  | S n' => m' ← wr m p (u8 c); memset m' (S p) c n'
  end.

(** memcmp.c *)
Fixpoint memcmp_loop (s1 s2 : list Z) (i n : nat) : res Z :=
  match n with
  | O => Ok 0
  | S n' =>
      a ← rd s1 i;
      b ← rd s2 i;
      if negb (schar a =? schar b) then Ok (schar a - schar b)
      else memcmp_loop s1 s2 (S i) n'
  end.

Definition memcmp (s1 s2 : list Z) (n : nat) : res Z := memcmp_loop s1 s2 0 n.

(** atoi.c *)
Fixpoint atoi_loop (s : list Z) (n : Z) : res Z :=
  match s with
  | [] => Err EOob
  | c :: s' =>
      if ((48 <=? schar c) && (schar c <=? 57))%bool
      then atoi_loop s' (n * 10 + schar c -i 48)
      else Ok n
  end.

Definition atoi (s : list Z) : res Z := atoi_loop s 0.

(** isdigit.c, isprint.c, isspace.c *)
Definition isdigit (c : Z) : bool := c - 48 <? 10.
Definition isprint (c : Z) : bool := ((32 <=? c) && (c <=? 126))%bool.
Definition isspace (c : Z) : res bool :=
  r ← strchr [32; 12; 10; 13; 9; 11; 0] c;
  Ok (match r with Some _ => true | None => false end).

(** swap16.c, swap32.c: [data] holds the bytes of [num] as the little-endian
    machine stores them. *)
Definition swap16 (num : Z) : Z :=
  u16 (Z.lor (Z.shiftl (Z.land num 0xFF) 8) (Z.land (Z.shiftr num 8) 0xFF)).

Definition swap32 (num : Z) : Z :=
  match le_split 4 num with
  | [d0; d1; d2; d3] =>
      Z.lor (Z.lor (Z.lor (Z.shiftl d3 0) (Z.shiftl d2 8)) (Z.shiftl d1 16))
            (Z.shiftl d0 24)
  | _ => 0
  end.

Definition htons (hostshort : Z) : Z := swap16 hostshort.
Definition ntohs (netshort : Z) : Z := swap16 netshort.
Definition htonl (hostlong : Z) : Z := swap32 hostlong.
Definition ntohl (netlong : Z) : Z := swap32 netlong.

(** types.c: [dev_t] is an unsigned short. *)
Definition major (dev : Z) : Z := Z.shiftr (Z.land dev 0xFF00) 8.
Definition minor (dev : Z) : Z := Z.land dev 0xFF.
Definition makedev (maj min : Z) : Z :=
  u16 (Z.lor (Z.shiftl (Z.land maj 0xFF) 8) (Z.land min 0xFF)).

(** ** Specification vocabulary *)

(** A byte that can stand inside a C string, and the object [m] that holds
    the C string [s]. *)
Definition nzb (c : Z) : Prop := 0 < c < 256.
Definition is_cstr (m s : list Z) : Prop :=
  Forall nzb s /\ exists r, m = s ++ 0 :: r.

(** [t] occurs in [s] at offset [p]. *)
Definition occurs_at (s t : list Z) (p : nat) : Prop :=
  exists r, drop p s = t ++ r.

(** The value of a string of decimal digits. *)
Definition dec_value (s : list Z) : Z :=
  fold_left (fun n c => n * 10 + (c - 48)) s 0.

(** ** Lemmas *)
Lemma nzb_byte c : nzb c -> is_byte c.
Proof. unfold nzb, is_byte. lia. Qed.
#[export] Hint Resolve nzb_byte : cos.

Lemma nzb_schar_inj a b : nzb a -> nzb b -> (schar a =? schar b) = (a =? b).
Proof.
  intros Ha Hb. destruct (Z.eqb_spec a b) as [->|Hne]; [by rewrite Z.eqb_refl|].
  apply Z.eqb_neq. intros H. apply Hne, schar_inj; auto with cos.
Qed.

Lemma nzb_schar_0 a : nzb a -> (schar a =? 0) = false.
Proof.
  intros Ha. apply Z.eqb_neq. rewrite <- schar_0. intros H.
  apply schar_inj in H; [|auto with cos|by unfold is_byte; lia]. unfold nzb in Ha. lia.
Qed.

Lemma nzb_nz a : nzb a -> (a =? 0) = false.
Proof. unfold nzb. intros. apply Z.eqb_neq. lia. Qed.

Lemma is_cstr_nil r : is_cstr (0 :: r) [].
Proof. split; [done|]. by exists r. Qed.

Lemma is_cstr_cons c m s : nzb c -> is_cstr m s -> is_cstr (c :: m) (c :: s).
Proof. intros Hc [Hs [r ->]]. split; [by constructor|]. by exists r. Qed.

Lemma is_cstr_inv_nil m : is_cstr m [] -> exists r, m = 0 :: r.
Proof. intros [_ H]. exact H. Qed.

Lemma is_cstr_inv_cons m c s :
  is_cstr m (c :: s) -> exists m', m = c :: m' /\ nzb c /\ is_cstr m' s.
Proof.
  intros [Hs [r ->]]. inversion Hs; subst. exists (s ++ 0 :: r).
  split_and!; [done..|]. split; [done|]. by exists r.
Qed.

Lemma is_cstr_drop m s p :
  is_cstr m s -> (p <= length s)%nat -> is_cstr (drop p m) (drop p s).
Proof.
  intros [Hs [r ->]] Hp. split; [by apply Forall_drop|].
  exists r. by rewrite drop_app_le.
Qed.
#[export] Hint Resolve is_cstr_nil is_cstr_cons is_cstr_drop : cos.

(** [cstr_cases] opens one cell of each C string of the context. *)
Ltac cstr_cases :=
  repeat match goal with
  | H : is_cstr _ [] |- _ => apply is_cstr_inv_nil in H as [? ->]
  | H : is_cstr _ (_ :: _) |- _ => apply is_cstr_inv_cons in H as (? & -> & ? & ?)
  end.

Lemma strlen_loop_cstr m s i :
  is_cstr m s -> 0 <= i -> i + Z.of_nat (length s) < 2 ^ 32 ->
  strlen_loop m i = Ok (i + Z.of_nat (length s)).
Proof.
  revert m i. induction s as [|c s IH]; intros m i Hm Hi Hl; cstr_cases.
  - simpl. f_equal. lia.
  - cbn [length] in *. cbn [strlen_loop]. rewrite nzb_nz by done.
    rewrite u32_small by lia. rewrite IH; [f_equal; lia|done|lia..].
Qed.

Lemma strlen_cstr m s :
  is_cstr m s -> Z.of_nat (length s) < 2 ^ 32 ->
  strlen (Some m) = Ok (Z.of_nat (length s)).
Proof. intros. simpl. by rewrite (strlen_loop_cstr m s). Qed.

Lemma strcmp_cstr m1 m2 s t :
  is_cstr m1 s -> is_cstr m2 t ->
  exists d, strcmp m1 m2 = Ok d /\ (d = 0 <-> s = t).
Proof.
  revert m1 m2 t. induction s as [|a s IH]; intros m1 m2 [|b t] H1 H2; cstr_cases;
    cbn [strcmp].
  - exists 0. split; [done|]. naive_solver.
  - rewrite Z.eqb_sym, nzb_nz by done. eexists. split; [done|].
    pose proof (nzb_schar_0 b). rewrite schar_0. naive_solver lia.
  - rewrite nzb_nz by done. eexists. split; [done|].
    pose proof (nzb_schar_0 a). rewrite schar_0. naive_solver lia.
  - destruct (Z.eqb_spec a b) as [->|Hab].
    + rewrite nzb_nz by done.
      destruct (IH x0 x t) as (d & -> & Hd); [done..|]. exists d. naive_solver.
    + eexists. split; [done|]. pose proof (nzb_schar_inj a b). naive_solver lia.
Qed.

Lemma strncmp_prefix m1 m2 s t :
  is_cstr m1 s -> is_cstr m2 t ->
  exists d, strncmp m1 m2 (length t) = Ok d /\ (d = 0 <-> t `prefix_of` s).
Proof.
  revert m1 m2 s. induction t as [|b t IH]; intros m1 m2 s H1 H2.
  - exists 0. simpl. split; [done|]. split; [intros _; apply prefix_nil|done].
  - cstr_cases. cbn [strncmp length].
    destruct s as [|a s]; cstr_cases; unfold rd; cbn [lookup list_lookup mbind res_bind].
    + simpl. eexists. split; [done|]. pose proof (nzb_schar_0 b).
      rewrite schar_0. split; [naive_solver lia|].
      intros Hp. by apply prefix_nil_inv in Hp.
    + simpl. rewrite nzb_nz by done. simpl.
      destruct (Z.eqb_spec a b) as [->|Hab].
      * rewrite !drop_0. destruct (IH x0 x s) as (d & -> & Hd); [done..|].
        exists d. split; [done|]. rewrite Hd. split; [apply prefix_cons|apply prefix_cons_inv_2].
      * eexists. split; [done|]. pose proof (nzb_schar_inj a b).
        split; [naive_solver lia|]. intros Hp. apply prefix_cons_inv_1 in Hp. congruence.
Qed.

Lemma strchr_scan_cstr m s c i :
  is_cstr m s -> nzb c ->
  (exists k, strchr_scan m (schar c) i = Ok ((i + k)%nat, c) /\ s !! k = Some c /\
     forall j, (j < k)%nat -> s !! j <> Some c) \/
  (strchr_scan m (schar c) i = Ok ((i + length s)%nat, 0) /\ ~ In c s).
Proof.
  revert m i. induction s as [|a s IH]; intros m i Hm Hc; cstr_cases; cbn [strchr_scan].
  - right. simpl. rewrite Nat.add_0_r. auto.
  - rewrite nzb_nz, nzb_schar_inj by done. simpl.
    destruct (Z.eqb_spec a c) as [->|Hne]; simpl.
    + left. exists 0%nat. rewrite Nat.add_0_r. split_and!; [done..|]. intros. lia.
    + destruct (IH x (S i)) as [(k & -> & Hk & Hlt)|[-> Hn]]; [done..| |].
      * left. exists (S k). rewrite Nat.add_succ_r. split_and!; [done..|].
        intros [|j] Hj; simpl; [naive_solver|]. apply Hlt. lia.
      * right. rewrite Nat.add_succ_r. naive_solver.
Qed.

Lemma strchr_cstr m s c :
  is_cstr m s -> nzb c ->
  (exists k, strchr m (schar c) = Ok (Some k) /\ s !! k = Some c /\
     forall j, (j < k)%nat -> s !! j <> Some c) \/
  (strchr m (schar c) = Ok None /\ ~ In c s).
Proof.
  intros Hm Hc. unfold strchr.
  destruct (strchr_scan_cstr m s c 0 Hm Hc) as [(k & -> & ? & ?)|[-> ?]]; cbn.
  - left. exists k. rewrite nzb_schar_0, nzb_nz by done. auto.
  - right. rewrite nzb_schar_0 by done. auto.
Qed.

Lemma occurs_at_head s c t p :
  occurs_at s (c :: t) p -> s !! p = Some c.
Proof. intros [r Hr]. rewrite <- (Nat.add_0_r p), <- lookup_drop, Hr. done. Qed.

Lemma occurs_at_prefix s t p : occurs_at s t p <-> t `prefix_of` drop p s.
Proof. done. Qed.

Lemma strstr_loop_cstr f str substr s c t p :
  is_cstr str s -> is_cstr substr (c :: t) ->
  (p <= length s)%nat -> (length s - p < f)%nat ->
  (forall j, (j < p)%nat -> ~ occurs_at s (c :: t) j) ->
  exists r, strstr_loop f str substr (Z.of_nat (length (c :: t))) p = Ok r /\
    match r with
    | Some k => occurs_at s (c :: t) k /\
                forall j, (j < k)%nat -> ~ occurs_at s (c :: t) j
    | None => forall j, ~ occurs_at s (c :: t) j
    end.
Proof.
  intros Hs Ht. revert p. induction f as [|f IH]; intros p Hp Hf Hlt; [lia|].
  assert (Hc : nzb c) by (destruct Ht as [Ht _]; by inversion Ht).
  assert (Hrd : rd substr 0 = Ok c) by (destruct Ht as [_ [r ->]]; done).
  cbn [strstr_loop]. rewrite Hrd. cbn [mbind res_bind].
  destruct (strchr_cstr (drop p str) (drop p s) c) as [(k & -> & Hk & Hmin)|[-> Hn]];
    [auto with cos..| |]; cbn [mbind res_bind].
  - rewrite lookup_drop in Hk. pose proof (lookup_lt_Some _ _ _ Hk) as Hpk.
    rewrite Nat2Z.id.
    destruct (strncmp_prefix (drop (p + k) str) substr (drop (p + k) s) (c :: t))
      as (d & -> & Hd); [apply is_cstr_drop; [done|lia]|done|]. cbn [mbind res_bind].
    assert (Hbefore : forall j, (j < p + k)%nat -> ~ occurs_at s (c :: t) j).
    { intros j Hj. destruct (decide (j < p)%nat); [auto|]. intros Ho.
      apply occurs_at_head in Ho. apply (Hmin (j - p)%nat); [lia|].
      rewrite lookup_drop. by replace (p + (j - p))%nat with j by lia. }
    destruct (Z.eqb_spec d 0) as [->|Hd0].
    + eexists. split; [done|]. split; [|done]. by apply occurs_at_prefix, Hd.
    + apply IH; [lia..|]. intros j Hj. destruct (decide (j = p + k)%nat) as [->|].
      * rewrite occurs_at_prefix, <- Hd. done.
      * apply Hbefore. lia.
  - eexists. split; [done|]. intros j Ho. destruct (decide (j < p)%nat); [by eapply Hlt|].
    apply occurs_at_head in Ho. apply Hn. apply list_elem_of_In, list_elem_of_lookup.
    exists (j - p)%nat. rewrite lookup_drop. by replace (p + (j - p))%nat with j by lia.
Qed.

(** ** Copies *)
Lemma strcpy_loop_cstr dest i src s :
  is_cstr src s -> (i + length s < length dest)%nat ->
  strcpy_loop dest i src = Ok (splice dest i (s ++ [0])).
Proof.
  revert dest i src. induction s as [|c s IH]; intros dest i src Hs Hl; cstr_cases;
    cbn [strcpy_loop length] in *.
  - rewrite wr_in, splice_single by lia. done.
  - rewrite nzb_nz, wr_in by (done || lia). cbn [mbind res_bind].
    rewrite IH by (done || rewrite length_insert; lia).
    by rewrite splice_cons by (rewrite length_app; simpl; lia).
Qed.

Lemma is_cstr_room m s : is_cstr m s -> (length s < length m)%nat.
Proof. intros [_ [r ->]]. rewrite length_app. simpl. lia. Qed.

Lemma strcat_run dest src a b :
  is_cstr dest a -> is_cstr src b -> (length a + length b < length dest)%nat ->
  Z.of_nat (length a) < 2 ^ 32 ->
  strcat dest src = Ok (splice dest (length a) (b ++ [0])) /\
  is_cstr (splice dest (length a) (b ++ [0])) (a ++ b).
Proof.
  intros Ha Hb Hl Hm. split.
  - unfold strcat. rewrite (strlen_cstr dest a) by (done || lia). cbn [mbind res_bind].
    rewrite Nat2Z.id. apply strcpy_loop_cstr; [done|lia].
  - destruct Ha as [Ha [r ->]], Hb as [Hb _]. split; [by apply Forall_app|].
    unfold splice. rewrite take_app_length. eexists. rewrite <- !app_assoc. simpl. done.
Qed.

(** A copy to the beginning of an object. *)
Lemma strcpy_run dest src s :
  is_cstr src s -> (length s < length dest)%nat ->
  strcpy dest src = Ok (splice dest 0 (s ++ [0])) /\ is_cstr (splice dest 0 (s ++ [0])) s.
Proof.
  intros Hs Hl. split; [by apply strcpy_loop_cstr|]. destruct Hs as [Hs _]. split; [done|].
  unfold splice. cbn [take app]. eexists. by rewrite <- app_assoc.
Qed.

Lemma strncpy_pad_spec dest i n :
  (i + n <= length dest)%nat ->
  strncpy_pad dest i n = Ok (splice dest i (replicate n 0)).
Proof.
  revert dest i. induction n as [|n IH]; intros dest i Hl; cbn [strncpy_pad].
  - simpl. by rewrite splice_nil.
  - rewrite wr_in by lia. cbn [mbind res_bind]. rewrite IH by (rewrite length_insert; lia).
    by rewrite splice_cons by (rewrite length_replicate; lia).
Qed.


Lemma strncpy_loop_cstr dest i src s n :
  is_cstr src s -> (i + n <= length dest)%nat ->
  strncpy_loop dest i src n =
    Ok (splice dest i (take n s ++ replicate (n - length s) 0)).
Proof.
  revert dest i src n. induction s as [|c s IH]; intros dest i src n Hs Hl; cstr_cases;
    destruct n as [|n]; cbn [strncpy_loop]; [simpl; by rewrite splice_nil| |
      simpl; by rewrite splice_nil|].
  - cbn [rd lookup list_lookup mbind res_bind]. rewrite strncpy_pad_spec by lia. done.
  - unfold rd. cbn [lookup list_lookup mbind res_bind].
    rewrite nzb_nz, wr_in by (done || lia). cbn [mbind res_bind drop].
    rewrite IH by (done || rewrite length_insert; lia).
    rewrite splice_cons; [done|].
    rewrite length_app, length_take, length_replicate. lia.
Qed.

Lemma memcpy_loop_spec d s i n :
  (i + n <= length d)%nat -> (i + n <= length s)%nat ->
  memcpy_loop d s i n = Ok (splice d i (take n (drop i s))).
Proof.
  revert d i. induction n as [|n IH]; intros d i Hd Hs; cbn [memcpy_loop].
  - by rewrite take_0, splice_nil.
  - destruct (lookup_lt_is_Some_2 s i) as [v Hv]; [lia|].
    assert (Hrd : rd s i = Ok v) by by apply rd_Ok.
    rewrite Hrd. cbn [mbind res_bind]. rewrite wr_in by lia. cbn [mbind res_bind].
    rewrite IH by (rewrite ?length_insert; lia).
    rewrite (drop_S _ _ _ Hv), firstn_cons, splice_cons; [done|].
    rewrite length_take, length_drop. lia.
Qed.

Lemma memcpy_spec d s n :
  (n <= length d)%nat -> (n <= length s)%nat ->
  memcpy d s n = Ok (splice d 0 (take n s)).
Proof. intros. unfold memcpy. by rewrite memcpy_loop_spec. Qed.

Lemma memset_spec m p c n :
  (p + n <= length m)%nat ->
  memset m p c n = Ok (splice m p (replicate n (u8 c))).
Proof.
  revert m p. induction n as [|n IH]; intros m p Hl; cbn [memset].
  - simpl. by rewrite splice_nil.
  - rewrite wr_in by lia. cbn [mbind res_bind]. rewrite IH by (rewrite length_insert; lia).
    by rewrite splice_cons by (rewrite length_replicate; lia).
Qed.

Lemma memmove_up_spec m d s n :
  (d < s)%nat -> (s + n <= length m)%nat ->
  memmove_up m d s n = Ok (splice m d (take n (drop s m))).
Proof.
  revert m d s. induction n as [|n IH]; intros m d s Hds Hl; cbn [memmove_up].
  - by rewrite take_0, splice_nil.
  - destruct (lookup_lt_is_Some_2 m s) as [v Hv]; [lia|].
    assert (Hrd : rd m s = Ok v) by by apply rd_Ok.
    rewrite Hrd. cbn [mbind res_bind]. rewrite wr_in by lia. cbn [mbind res_bind].
    rewrite IH by (rewrite ?length_insert; lia).
    rewrite drop_insert_lt by lia.
    rewrite (drop_S _ _ _ Hv), firstn_cons, splice_cons; [done|].
    rewrite length_take, length_drop. lia.
Qed.

Lemma memmove_down_spec m d s n :
  (s <= d)%nat -> (d + n <= length m)%nat ->
  memmove_down m d s n = Ok (splice m d (take n (drop s m))).
Proof.
  revert m. induction n as [|n IH]; intros m Hds Hl; cbn [memmove_down].
  - by rewrite take_0, splice_nil.
  - destruct (lookup_lt_is_Some_2 m (s + n)) as [v Hv]; [lia|].
    assert (Hrd : rd m (s + n) = Ok v) by by apply rd_Ok.
    rewrite Hrd. cbn [mbind res_bind]. rewrite wr_in by lia. cbn [mbind res_bind].
    rewrite IH by (rewrite ?length_insert; lia). f_equal.
    rewrite (take_S_r _ n v) by by rewrite lookup_drop.
    set (w := take n (drop s m)).
    assert (Hw : length w = n) by (subst w; rewrite length_take, length_drop; lia).
    replace (take n (drop s (<[(d + n)%nat:=v]> m))) with w.
    + replace (d + n)%nat with (d + length w)%nat by lia.
      rewrite <- splice_snoc by lia. apply list_eq. intros k.
      destruct (decide (k = d + length w)%nat) as [->|Hk].
      * rewrite lookup_splice_out by (rewrite ?length_insert; lia).
        rewrite !list_lookup_insert_eq by (rewrite ?length_splice; lia). done.
      * rewrite (list_lookup_insert_ne (splice _ _ _)) by lia.
        destruct (decide (d <= k < d + length w)%nat).
        -- by rewrite !lookup_splice_in by (rewrite ?length_insert; lia).
        -- rewrite !lookup_splice_out by (rewrite ?length_insert; lia).
           by rewrite list_lookup_insert_ne.
    + subst w. apply list_eq. intros k. destruct (decide (k < n)%nat).
      * rewrite !lookup_take_lt, !lookup_drop by lia.
        by rewrite list_lookup_insert_ne by lia.
      * by rewrite !lookup_take_ge by lia.
Qed.

Lemma dec_fold_mono l k :
  0 <= k -> Forall (fun c => 48 <= c <= 57) l ->
  k <= fold_left (fun n c => n * 10 + (c - 48)) l k.
Proof.
  revert k. induction l as [|x l IHl]; intros k Hk Hf; simpl; [lia|]. inversion_clear Hf.
  etransitivity; [|apply IHl; [lia|done]]. lia.
Qed.

Lemma atoi_loop_digits s rest n :
  Forall (fun c => 48 <= c <= 57) s ->
  (match rest with c :: _ => ~ 48 <= schar c <= 57 | [] => False end) ->
  0 <= n -> fold_left (fun n c => n * 10 + (c - 48)) s n < 2 ^ 31 ->
  atoi_loop (s ++ rest) n = Ok (fold_left (fun n c => n * 10 + (c - 48)) s n).
Proof.
  revert n. induction s as [|c s IH]; intros n Hs Hr Hn Hb; simpl.
  - destruct rest as [|c rest]; [done|]. simpl.
    destruct (Z.leb_spec 48 (schar c)), (Z.leb_spec (schar c) 57); simpl; [lia|done..].
  - inversion_clear Hs. rewrite schar_ascii by lia.
    destruct (Z.leb_spec 48 c), (Z.leb_spec c 57); [|lia..]. cbn [andb].
    cbn [fold_left] in Hb.
    assert (n * 10 + (c - 48) <= fold_left (fun n c => n * 10 + (c - 48)) s (n * 10 + (c - 48)))
      by (apply dec_fold_mono; [lia|done]).
    rewrite s32_small by lia.
    replace (n * 10 + c - 48) with (n * 10 + (c - 48)) by lia. apply IH; auto; lia.
Qed.

(** ** Byte order *)
Lemma swap16_bytes a b : is_byte a -> is_byte b -> swap16 (a + 256 * b) = b + 256 * a.
Proof.
  unfold is_byte, swap16. intros Ha Hb.
  change 0xFF with (Z.ones 8). rewrite !Z.land_ones, Z.shiftr_div_pow2 by lia.
  change (2 ^ 8) with 256.
  replace ((a + 256 * b) mod 256) with a by (rewrite Z.mul_comm, Z.mod_add, Z.mod_small; lia).
  replace ((a + 256 * b) / 256) with b by (rewrite Z.mul_comm, Z.div_add, Z.div_small; lia).
  rewrite (Z.mod_small b), lor_shiftl_add by lia. rewrite u16_small; lia.
Qed.

Lemma swap32_rev num : swap32 num = le_combine (rev (le_split 4 num)).
Proof.
  unfold swap32. cbn [le_split rev app le_combine].
  set (d0 := num mod 256). set (d1 := (num / 256) mod 256).
  set (d2 := (num / 256 / 256) mod 256). set (d3 := (num / 256 / 256 / 256) mod 256).
  assert (0 <= d0 < 256 /\ 0 <= d1 < 256 /\ 0 <= d2 < 256 /\ 0 <= d3 < 256)
    by (subst d0 d1 d2 d3; split_and!; apply Z.mod_pos_bound; lia).
  rewrite Z.shiftl_0_r, (Z.lor_comm d3), lor_shiftl_add by lia.
  rewrite (Z.lor_comm _ (Z.shiftl d1 _)), lor_shiftl_add by lia.
  rewrite (Z.lor_comm _ (Z.shiftl d0 _)), lor_shiftl_add by lia. lia.
Qed.

Lemma swap32_involutive num : 0 <= num < 2 ^ 32 -> swap32 (swap32 num) = num.
Proof.
  intros Hn. rewrite !swap32_rev.
  assert (Hl : length (rev (le_split 4 num)) = 4%nat)
    by (rewrite length_rev; apply length_le_split).
  rewrite <- Hl at 1. rewrite le_split_combine.
  - rewrite rev_involutive. apply le_combine_split. done.
  - apply Forall_rev, le_split_bytes.
Qed.

Lemma swap16_involutive num : 0 <= num < 2 ^ 16 -> swap16 (swap16 num) = num.
Proof.
  intros Hn. pose proof (Z.div_mod num 256). pose proof (Z.mod_pos_bound num 256).
  assert (0 <= num / 256 < 256)
    by (split; [apply Z.div_pos|apply Z.div_lt_upper_bound]; lia).
  replace num with (num mod 256 + 256 * (num / 256)) at 1 by lia.
  rewrite swap16_bytes, swap16_bytes by (unfold is_byte; lia). lia.
Qed.

Lemma dev_bytes maj min :
  is_byte maj -> is_byte min ->
  major (makedev maj min) = maj /\ minor (makedev maj min) = min.
Proof.
  unfold is_byte, major, minor, makedev. intros Hm Hn.
  change 0xFF with (Z.ones 8). rewrite !Z.land_ones by lia.
  rewrite !(Z.mod_small _ (2 ^ 8)), lor_shiftl_add, u16_small by lia.
  split.
  - change 0xFF00 with (Z.shiftl (Z.ones 8) 8).
    replace (maj * 2 ^ 8 + min) with (Z.lor (Z.shiftl maj 8) min)
      by (apply lor_shiftl_add; lia).
    rewrite Z.shiftr_land, Z.shiftr_shiftl_l, Z.shiftr_lor, Z.shiftr_shiftl_l by lia.
    rewrite !Z.shiftl_0_r, (Z.shiftr_div_pow2 min), Z.div_small, Z.lor_0_r by lia.
    rewrite Z.land_ones, Z.mod_small; lia.
  - rewrite Z.add_comm, Z.mod_add, Z.mod_small; lia.
Qed.

(** ** Properties *)

(** [strstr(str, substr)], for a string [s] and a non-empty string [t],
    stays inside both objects, terminates, returns the offset of the first
    occurrence of [t] in [s] when there is one, and [NULL] exactly when there
    is none. *)
Theorem strstr_first_occurrence str substr s t :
  is_cstr str s -> is_cstr substr t -> t <> [] ->
  Z.of_nat (length t) < 2 ^ 32 ->
  exists r, strstr str substr = Ok r /\
    match r with
    | Some k => occurs_at s t k /\ forall j, (j < k)%nat -> ~ occurs_at s t j
    | None => forall j, ~ occurs_at s t j
    end.
Proof.
  intros Hs Ht Hne Hl. unfold strstr. destruct t as [|c t]; [done|].
  rewrite (strlen_cstr substr (c :: t)) by done. cbn [mbind res_bind].
  apply strstr_loop_cstr; [done..|lia| |].
  - pose proof (is_cstr_room _ _ Hs). lia.
  - intros. lia.
Qed.

Lemma strstr_first_occurrence_witness :
  exists r, strstr [97; 98; 97; 98; 99; 0] [98; 99; 0] = Ok r /\
    match r with
    | Some k => occurs_at [97; 98; 97; 98; 99] [98; 99] k /\
                forall j, (j < k)%nat -> ~ occurs_at [97; 98; 97; 98; 99] [98; 99] j
    | None => forall j, ~ occurs_at [97; 98; 97; 98; 99] [98; 99] j
    end.
Proof.
  apply (strstr_first_occurrence [97; 98; 97; 98; 99; 0] [98; 99; 0]
           [97; 98; 97; 98; 99] [98; 99]).
  - split; [repeat constructor; unfold nzb; lia|]. by exists [].
  - split; [repeat constructor; unfold nzb; lia|]. by exists [].
  - done.
  - simpl. lia.
Defined.

(** [memmove(dst, src, n)] inside one object ends with the [n] cells at
    [dst] equal to what the [n] cells at [src] held before the call, whether
    the two ranges overlap or not and in either direction, and every other
    cell unchanged. *)
Theorem memmove_overlap m dst src n :
  0 <= n -> (dst + Z.to_nat n <= length m)%nat -> (src + Z.to_nat n <= length m)%nat ->
  exists m', memmove m dst src n = Ok m' /\
    take (Z.to_nat n) (drop dst m') = take (Z.to_nat n) (drop src m) /\
    length m' = length m /\
    forall k, (k < dst \/ dst + Z.to_nat n <= k)%nat -> m' !! k = m !! k.
Proof.
  intros Hn Hd Hs. exists (splice m dst (take (Z.to_nat n) (drop src m))).
  assert (Hw : length (take (Z.to_nat n) (drop src m)) = Z.to_nat n)
    by (rewrite length_take, length_drop; lia).
  split_and!.
  - unfold memmove. case_decide; [by rewrite memmove_up_spec|].
    rewrite memmove_down_spec; [done|lia|done].
  - rewrite <- Hw at 1. apply splice_read. lia.
  - apply length_splice. lia.
  - intros k Hk. apply lookup_splice_out; lia.
Qed.

Lemma memmove_overlap_witness :
  exists m', memmove [1; 2; 3; 4; 5] 1 0 3 = Ok m' /\
    take (Z.to_nat 3) (drop 1 m') = take (Z.to_nat 3) (drop 0 [1; 2; 3; 4; 5]) /\
    length m' = length [1; 2; 3; 4; 5] /\
    forall k, (k < 1 \/ 1 + Z.to_nat 3 <= k)%nat -> m' !! k = [1; 2; 3; 4; 5] !! k.
Proof. apply (memmove_overlap [1; 2; 3; 4; 5] 1 0 3); simpl; lia. Defined.

(** [strcat(dest, src)], when [dest] holds [a], [src] holds [b] and
    [dest] has room for both and the terminator, ends with [dest] holding
    [a ++ b], leaves the cells after the new terminator unchanged and does not
    change the size of the object. *)
Theorem strcat_concat dest src a b :
  is_cstr dest a -> is_cstr src b ->
  (length a + length b < length dest)%nat -> Z.of_nat (length dest) < 2 ^ 32 ->
  exists dest', strcat dest src = Ok dest' /\ is_cstr dest' (a ++ b) /\
    length dest' = length dest /\
    forall k, (length a + length b < k)%nat -> dest' !! k = dest !! k.
Proof.
  intros Ha Hb Hl Hm. destruct (strcat_run dest src a b Ha Hb Hl ltac:(lia)) as [Hrun Hs].
  exists (splice dest (length a) (b ++ [0])).
  assert (Hlen : length (b ++ [0]) = S (length b)) by (rewrite length_app; simpl; lia).
  split_and!; [done|done| |].
  - apply length_splice. lia.
  - intros k Hk. apply lookup_splice_out; lia.
Qed.

Lemma strcat_concat_witness :
  exists dest', strcat [97; 0; 7; 7; 7] [98; 99; 0] = Ok dest' /\
    is_cstr dest' ([97] ++ [98; 99]) /\ length dest' = length [97; 0; 7; 7; 7] /\
    forall k, (1 + 2 < k)%nat -> dest' !! k = [97; 0; 7; 7; 7] !! k.
Proof.
  apply (strcat_concat [97; 0; 7; 7; 7] [98; 99; 0] [97] [98; 99]).
  - split; [repeat constructor; unfold nzb; lia|]. by exists [7; 7; 7].
  - split; [repeat constructor; unfold nzb; lia|]. by exists [].
  - simpl. lia.
  - simpl. lia.
Defined.

(** [atoi] of a string that starts with decimal digits returns the number
    they denote, whatever follows them, as long as that number is an [int]. *)
Theorem atoi_decimal s c rest :
  Forall (fun d => 48 <= d <= 57) s -> ~ 48 <= schar c <= 57 ->
  dec_value s < 2 ^ 31 ->
  atoi (s ++ c :: rest) = Ok (dec_value s).
Proof. intros. unfold atoi, dec_value. apply atoi_loop_digits; [done..|lia|done]. Qed.

Lemma atoi_decimal_witness : atoi ([50; 53; 54] ++ [0]) = Ok (dec_value [50; 53; 54]).
Proof.
  apply (atoi_decimal [50; 53; 54] 0 []).
  - repeat constructor; lia.
  - rewrite schar_0. lia.
  - vm_compute. reflexivity.
Defined.

(** [htonl] and [ntohl], [htons] and [ntohs] are inverse to each other on
    their widths, and [htonl] stores the bytes of its argument in the reverse
    order, most significant first. *)
Theorem byte_order_roundtrip x y :
  0 <= x < 2 ^ 32 -> 0 <= y < 2 ^ 16 ->
  ntohl (htonl x) = x /\ ntohs (htons y) = y /\
  le_split 4 (htonl x) = rev (le_split 4 x).
Proof.
  intros Hx Hy. split_and!; [by apply swap32_involutive|by apply swap16_involutive|].
  unfold htonl. rewrite swap32_rev.
  assert (Hl : length (rev (le_split 4 x)) = 4%nat)
    by (rewrite length_rev; apply length_le_split).
  rewrite <- Hl at 1. apply le_split_combine, Forall_rev, le_split_bytes.
Qed.

Lemma byte_order_roundtrip_witness :
  ntohl (htonl 0xC0A80001) = 0xC0A80001 /\ ntohs (htons 0x1234) = 0x1234 /\
  le_split 4 (htonl 0xC0A80001) = rev (le_split 4 0xC0A80001).
Proof. apply (byte_order_roundtrip 0xC0A80001 0x1234); lia. Defined.
