(* ===== verification/DList.v ===== *)
(** * The kernel's doubly linked list (src/list.c, src/list.h)

    The nodes live in a store of objects, a pointer is [None] for [NULL] or
    the location of an object, and a freed object is no longer in the store:
    an access to it is the error [EUaf].  The operations follow list.c pointer
    by pointer.  [is_list] says that the pointers of a store represent a
    sequence, and the theorems show that each operation acts on the sequence
    as its comment in list.h promises; the other components use sequences. *)
From S2P Require Import Prelude.

Module DList.
Section DList.
Context {D : Type}.

(** ** Data *)
Definition loc := positive.
Definition ptr := option loc.

Record node_t := Node { prev : ptr; next : ptr; data : D }.

Record list_t := List {
  head : ptr;
  tail : ptr;
  num_items : Z;
  free_function : bool (* is the pointer set? *)
}.

(** The store, the list structure and the data passed to the free function. *)
Record store := Store {
  nodes : gmap loc node_t;
  lst : list_t;
  released : list D
}.

(** ** Field accesses *)
Definition deref (p : ptr) : st store node_t := fun s =>
  match p with
  | None => Err ENull
  | Some l => match nodes s !! l with Some n => Ok (n, s) | None => Err EUaf end
  end.

Definition upd_node (p : ptr) (f : node_t -> node_t) : st store unit := fun s =>
  match p with
  | None => Err ENull
  | Some l =>
      match nodes s !! l with
      | Some n => Ok (tt, Store (<[l := f n]> (nodes s)) (lst s) (released s))
      | None => Err EUaf
      end
  end.

Definition set_prev (q : ptr) (n : node_t) : node_t := Node q (next n) (data n).
Definition set_next (q : ptr) (n : node_t) : node_t := Node (prev n) q (data n).

Definition upd_list (f : list_t -> list_t) : st store unit :=
  modify (fun s => Store (nodes s) (f (lst s)) (released s)).
Definition set_head (q : ptr) (l : list_t) : list_t :=
  List q (tail l) (num_items l) (free_function l).
Definition set_tail (q : ptr) (l : list_t) : list_t :=
  List (head l) q (num_items l) (free_function l).
Definition add_items (k : Z) (l : list_t) : list_t :=
  List (head l) (tail l) (u32 (num_items l + k)) (free_function l).

(** [free(node)] *)
Definition free_node (p : ptr) : st store unit := fun s =>
  match p with
  | None => Ok (tt, s)
  | Some l =>
      match nodes s !! l with
      | Some _ => Ok (tt, Store (delete l (nodes s)) (lst s) (released s))
      | None => Err EUaf
      end
  end.

(** [if (list->free_function) list->free_function(data)] *)
Definition call_free (d : D) : st store unit :=
  modify (fun s => if free_function (lst s)
                   then Store (nodes s) (lst s) (released s ++ [d]) else s).

(** ** Operations *)
Definition list_open (free_fn : bool) (h : gmap loc node_t) : store :=
  Store h (List None None 0 free_fn) [].

(** [malloc] returns the location of a new object. *)
Definition new_node (d : D) : st store ptr := fun s =>
  let l := fresh (dom (nodes s)) in
  Ok (Some l, Store (<[l := Node None None d]> (nodes s)) (lst s) (released s)).

Definition list_add_node (n : ptr) : st store unit :=
  s ← get;
  match head (lst s) with
  | None => upd_list (fun l => set_tail n (set_head n l))
  | Some _ =>
      let t := tail (lst s) in
      upd_node n (set_prev t);;
      upd_node t (set_next n);;
      upd_list (set_tail n)
  end;;
  upd_list (add_items 1).

Definition list_add (d : D) : st store ptr :=
  n ← new_node d;
  list_add_node n;;
  mret n.

Definition list_insert_before (node : ptr) (d : D) : st store ptr :=
  n ← new_node d;
  match node with
  | None => list_add_node n;; mret n
  | Some _ =>
      nd ← deref node;
      match prev nd with
      | Some _ => upd_node (prev nd) (set_next n)
      | None => upd_list (set_head n)
      end;;
      nd' ← deref node;
      upd_node n (set_prev (prev nd'));;
      upd_node n (set_next node);;
      upd_node node (set_prev n);;
      upd_list (add_items 1);;
      mret n
  end.

Definition list_del (node : ptr) : st store unit :=
  nd ← deref node;
  let p := prev nd in
  let q := next nd in
  match p with
  | Some _ => upd_node p (set_next q)
  | None => upd_list (set_head q)
  end;;
  match q with
  | Some _ => upd_node q (set_prev p)
  | None => upd_list (set_tail p)
  end;;
  nd' ← deref node;
  call_free (data nd');;
  free_node node;;
  upd_list (add_items (-1)).

(** The loop reads [node->next] after [free(node)]. *)
Fixpoint list_close_loop (fuel : nat) : st store unit :=
  match fuel with
  | O => fail EFuel
  | S f =>
      s ← get;
      match head (lst s) with
      | None => mret tt
      | Some _ =>
          let node := head (lst s) in
          nd ← deref node;
          call_free (data nd);;
          free_node node;;
          nd' ← deref node;
          upd_list (set_head (next nd'));;
          list_close_loop f
      end
  end.

(** One iteration per node of the store is enough for an acyclic list. *)
Definition list_close : st store unit := fun s =>
  list_close_loop (S (size (nodes s))) s.

Fixpoint list_for_each_loop (fuel : nat) (iterator : D -> bool) (node : ptr)
  : st store ptr :=
  match fuel with
  | O => fail EFuel
  | S f =>
      match node with
      | None => mret None
      | Some _ =>
          nd ← deref node;
          if iterator (data nd) then mret node
          else list_for_each_loop f iterator (next nd)
      end
  end.

Definition list_for_each (iterator : D -> bool) : st store ptr := fun s =>
  list_for_each_loop (S (size (nodes s))) iterator (head (lst s)) s.

(** [list_find] does not stop at a match. *)
Fixpoint list_find_loop (fuel : nat) (compare : D -> bool) (node last_node : ptr)
  : st store ptr :=
  match fuel with
  | O => fail EFuel
  | S f =>
      match node with
      | None => mret last_node
      | Some _ =>
          nd ← deref node;
          list_find_loop f compare (next nd)
            (if compare (data nd) then node else last_node)
      end
  end.

Definition list_find (compare : D -> bool) : st store ptr := fun s =>
  list_find_loop (S (size (nodes s))) compare (head (lst s)) None s.

(** ** The represented sequence *)
Definition first_loc (xs : list (loc * D)) (n : ptr) : ptr :=
  match xs with [] => n | (l, _) :: _ => Some l end.
Definition last_loc (xs : list (loc * D)) (p : ptr) : ptr :=
  match list.last xs with Some (l, _) => Some l | None => p end.

Fixpoint dseg (h : gmap loc node_t) (p : ptr) (xs : list (loc * D)) (n : ptr) : Prop :=
  match xs with
  | [] => True
  | (l, d) :: xs' => h !! l = Some (Node p (first_loc xs' n) d) /\ dseg h (Some l) xs' n
  end.

Definition is_list (s : store) (xs : list (loc * D)) : Prop :=
  NoDup xs.*1 /\ dseg (nodes s) None xs None /\
  head (lst s) = first_loc xs None /\ tail (lst s) = last_loc xs None /\
  num_items (lst s) = u32 (Z.of_nat (length xs)).

(** ** Lemmas on segments *)
Lemma first_loc_app xs ys n : first_loc (xs ++ ys) n = first_loc xs (first_loc ys n).
Proof. by destruct xs as [|[l d] xs]. Qed.

Lemma last_loc_snoc xs l d p : last_loc (xs ++ [(l, d)]) p = Some l.
Proof. unfold last_loc. by rewrite list.last_snoc. Qed.

Lemma last_loc_cons l d xs p : last_loc ((l, d) :: xs) p = last_loc xs (Some l).
Proof.
  unfold last_loc. rewrite list.last_cons. by destruct (list.last xs) as [[]|].
Qed.

Lemma last_loc_app xs ys p : last_loc (xs ++ ys) p = last_loc ys (last_loc xs p).
Proof.
  revert p. induction xs as [|[l d] xs IH]; intros p; [done|].
  rewrite <- app_comm_cons, !last_loc_cons. apply IH.
Qed.

Lemma dseg_app h p xs ys n :
  dseg h p (xs ++ ys) n <-> dseg h p xs (first_loc ys n) /\ dseg h (last_loc xs p) ys n.
Proof.
  revert p. induction xs as [|[l d] xs IH]; intros p; simpl; [naive_solver|].
  rewrite IH, first_loc_app, last_loc_cons. naive_solver.
Qed.

Lemma dseg_frame h p xs n l v :
  l ∉ xs.*1 -> dseg h p xs n -> dseg (<[l := v]> h) p xs n.
Proof.
  revert p. induction xs as [|[l' d] xs IH]; intros p Hl; simpl; [done|].
  csimpl in Hl. apply not_elem_of_cons in Hl as [Hne Hl].
  intros [? ?]. rewrite lookup_insert_ne by done. auto.
Qed.

Lemma dseg_delete h p xs n l :
  l ∉ xs.*1 -> dseg h p xs n -> dseg (delete l h) p xs n.
Proof.
  revert p. induction xs as [|[l' d] xs IH]; intros p Hl; simpl; [done|].
  csimpl in Hl. apply not_elem_of_cons in Hl as [Hne Hl].
  intros [? ?]. rewrite lookup_delete_ne by done. auto.
Qed.

Lemma dseg_dom h p xs n l : dseg h p xs n -> l ∈ xs.*1 -> l ∈ dom h.
Proof.
  revert p. induction xs as [|[l' d] xs IH]; intros p; simpl.
  - intros _ H. by apply elem_of_nil in H.
  - intros [Hl Hs] H. csimpl in H. apply elem_of_cons in H as [->|H]; [|eauto].
    apply elem_of_dom. by eexists.
Qed.

Lemma dseg_set_next h p xs l d n n' :
  NoDup (xs ++ [(l, d)]).*1 -> dseg h p (xs ++ [(l, d)]) n ->
  exists nd, h !! l = Some nd /\ dseg (<[l := set_next n' nd]> h) p (xs ++ [(l, d)]) n'.
Proof.
  rewrite fmap_app. csimpl. intros Hnd. rewrite dseg_app. simpl. intros (H1 & H2 & _).
  eexists. split; [exact H2|]. rewrite dseg_app. simpl. split_and!; [|by rewrite lookup_insert_eq|done].
  apply dseg_frame; [|done].
  apply NoDup_app in Hnd as (_ & Hnd & _). intros Hin. apply (Hnd l Hin). set_solver.
Qed.

Lemma dseg_set_prev h p p' l d ys n :
  NoDup ((l, d) :: ys).*1 -> dseg h p ((l, d) :: ys) n ->
  dseg (<[l := Node p' (first_loc ys n) d]> h) p' ((l, d) :: ys) n.
Proof.
  csimpl. intros [Hl _]%NoDup_cons [_ H2]. simpl. rewrite lookup_insert_eq.
  split; [done|]. by apply dseg_frame.
Qed.

(** The two forms of a sequence that the operations distinguish. *)
Lemma seq_snoc (xs : list (loc * D)) : xs = [] \/ exists ys l d, xs = ys ++ [(l, d)].
Proof.
  destruct xs as [|x xs _] using rev_ind; [by left|].
  right. destruct x as [l d]. by exists xs, l, d.
Qed.

(** What an operation leaves alone: the objects outside of the list, the
    released data and the free function. *)
Definition frame (s s' : store) (ls : list loc) : Prop :=
  (forall l, l ∉ ls -> nodes s' !! l = nodes s !! l) /\
  released s' = released s /\ free_function (lst s') = free_function (lst s).

Lemma deref_eq l nd s : nodes s !! l = Some nd -> deref (Some l) s = Ok (nd, s).
Proof. intros H. simpl. by rewrite H. Qed.

Lemma upd_node_eq l nd f s :
  nodes s !! l = Some nd ->
  upd_node (Some l) f s = Ok (tt, Store (<[l := f nd]> (nodes s)) (lst s) (released s)).
Proof. intros H. simpl. by rewrite H. Qed.

Lemma not_elem_locs_app l xs ys :
  l ∉ (xs ++ ys : list (loc * D)).*1 <-> l ∉ xs.*1 /\ l ∉ ys.*1.
Proof. rewrite fmap_app. set_solver. Qed.

Lemma NoDup_locs_snoc (xs : list (loc * D)) l d : NoDup xs.*1 -> l ∉ xs.*1 -> NoDup (xs ++ [(l, d)]).*1.
Proof.
  intros. rewrite fmap_app. csimpl. apply NoDup_app. split_and!; [done| |].
  - intros x Hx Hin. apply list_elem_of_singleton in Hin as ->. done.
  - apply NoDup_singleton.
Qed.

Lemma list_add_node_spec s xs n d :
  is_list s xs -> n ∉ xs.*1 -> nodes s !! n = Some (Node None None d) ->
  exists s', list_add_node (Some n) s = Ok (tt, s') /\ is_list s' (xs ++ [(n, d)]) /\
    frame s s' (n :: xs.*1).
Proof.
  intros (Hnd & Hseg & Hh & Ht & Hc) Hn Hnode. unfold list_add_node.
  destruct (seq_snoc xs) as [->|(ys & t & dt & ->)].
  - simpl in Hh. st_run. rewrite Hh. eexists. split; [done|].
    split; [|split_and!; done].
    split_and!; cbn; [apply NoDup_singleton|done|done|done|by rewrite Hc].
  - rewrite last_loc_snoc in Ht. rewrite first_loc_app in Hh.
    assert (Hne : n <> t) by (rewrite fmap_app in Hn; csimpl in Hn; set_solver).
    destruct (dseg_set_next (nodes s) None ys t dt None (Some n) Hnd Hseg)
      as (nd & Hnd' & Hseg').
    assert (exists z, head (lst s) = Some z) as [z Hz] by (rewrite Hh; by destruct ys as [|[]]; eexists).
    st_run. rewrite Hz, Ht, (upd_node_eq _ _ _ _ Hnode).
    rewrite (upd_node_eq t nd) by (cbn; by rewrite lookup_insert_ne).
    eexists. split; [done|]. split.
    + split_and!; cbn.
      * by apply NoDup_locs_snoc.
      * rewrite dseg_app, last_loc_snoc. simpl. split_and!; [|by rewrite lookup_insert_ne, lookup_insert_eq|done].
        rewrite insert_insert_ne by done. by apply dseg_frame.
      * rewrite first_loc_app; etrans; [exact Hh|]. by destruct ys as [|[]].
      * by rewrite last_loc_snoc.
      * rewrite Hc, u32_add_l, !length_app. simpl. f_equal. lia.
    + split_and!; cbn; [|done..]. intros l Hl. rewrite fmap_app in Hl. csimpl in Hl.
      rewrite !lookup_insert_ne by set_solver. done.
Qed.

(** Allocating a node leaves the represented sequence alone. *)
Lemma new_node_spec s xs d :
  is_list s xs ->
  exists n s', new_node d s = Ok (Some n, s') /\ n ∉ dom (nodes s) /\ n ∉ xs.*1 /\
    nodes s' = <[n := Node None None d]> (nodes s) /\ lst s' = lst s /\
    released s' = released s /\ is_list s' xs.
Proof.
  intros (Hnd & Hseg & Hh & Ht & Hc). unfold new_node.
  assert (Hf : fresh (dom (nodes s)) ∉ dom (nodes s)) by apply is_fresh.
  assert (Hx : fresh (dom (nodes s)) ∉ xs.*1)
    by (intros Hin; apply Hf; by eapply dseg_dom).
  do 2 eexists. split; [done|]. unfold is_list. cbn. split_and!; auto using dseg_frame.
Qed.

(** The sequence around a node. *)
Lemma is_list_mid s xs l d ys :
  is_list s (xs ++ (l, d) :: ys) ->
  nodes s !! l = Some (Node (last_loc xs None) (first_loc ys None) d) /\
  NoDup xs.*1 /\ NoDup ys.*1 /\ l ∉ xs.*1 /\ l ∉ ys.*1 /\
  (forall x, x ∈ xs.*1 -> x ∉ ys.*1) /\
  dseg (nodes s) None xs (Some l) /\ dseg (nodes s) (Some l) ys None.
Proof.
  intros (Hnd & Hseg & _). rewrite fmap_app in Hnd. csimpl in Hnd.
  apply NoDup_app in Hnd as (H1 & H2 & H3). apply NoDup_cons in H3 as [H3 H4].
  apply dseg_app in Hseg as [Hs1 [Hs2 Hs3]].
  split_and!; try done; set_solver.
Qed.

(** Redirecting the [next] pointer of the node before a position, or the head
    of the list when there is none. *)
Lemma relink_prev s (xs : list (loc * D)) q n :
  NoDup xs.*1 -> dseg (nodes s) None xs q -> head (lst s) = first_loc xs q ->
  exists s', match last_loc xs None with
             | Some _ => upd_node (last_loc xs None) (set_next n)
             | None => upd_list (set_head n)
             end s = Ok (tt, s') /\
    dseg (nodes s') None xs n /\ head (lst s') = first_loc xs n /\
    tail (lst s') = tail (lst s) /\ num_items (lst s') = num_items (lst s) /\
    frame s s' xs.*1.
Proof.
  intros Hnd Hseg Hh. destruct (seq_snoc xs) as [->|(ys & t & dt & ->)].
  - simpl. eexists. split; [done|]. split_and!; done.
  - rewrite last_loc_snoc.
    destruct (dseg_set_next (nodes s) None ys t dt q n Hnd Hseg) as (nd & Ht & Hseg').
    rewrite (upd_node_eq t nd) by done. eexists. split; [done|]. cbn.
    split_and!; [done| |done|done|].
    + rewrite Hh, !first_loc_app. by destruct ys as [|[]].
    + split_and!; cbn; [|done..]. intros l Hl. rewrite fmap_app in Hl. csimpl in Hl.
      rewrite lookup_insert_ne by set_solver. done.
Qed.

Lemma dseg_ext h h' p xs n :
  (forall l, l ∈ xs.*1 -> h' !! l = h !! l) -> dseg h p xs n -> dseg h' p xs n.
Proof.
  revert p. induction xs as [|[l d] xs IH]; intros p He; simpl; [done|].
  intros [H1 H2]. csimpl in He. split; [rewrite He; [done|set_solver]|].
  apply IH; [set_solver|done].
Qed.

Lemma list_insert_before_mid s xs l dl ys d :
  is_list s (xs ++ (l, dl) :: ys) ->
  exists n s', list_insert_before (Some l) d s = Ok (Some n, s') /\
    n ∉ dom (nodes s) /\ is_list s' (xs ++ (n, d) :: (l, dl) :: ys) /\
    frame s s' (n :: (xs ++ (l, dl) :: ys).*1).
Proof.
  intros Hl. destruct (new_node_spec s _ d Hl) as (n & s1 & Hnew & Hfr & Hn & Hn1 & Hlst1 & Hrel1 & Hl1).
  destruct (is_list_mid _ _ _ _ _ Hl1) as (Hnode & Hndx & Hndy & Hlx & Hly & Hdis & Hsx & Hsy).
  destruct Hl1 as (Hnd1 & _ & Hh1 & Ht1 & Hc1). rewrite first_loc_app in Hh1.
  destruct (relink_prev s1 xs (Some l) (Some n) Hndx Hsx Hh1)
    as (s2 & Hrun & Hsx2 & Hh2 & Ht2 & Hc2 & Hf2 & Hr2 & Hff2).
  apply not_elem_locs_app in Hn as [Hnx Hny]. csimpl in Hny. apply not_elem_of_cons in Hny as [Hnl Hny].
  assert (Hnode2 : nodes s2 !! l = Some (Node (last_loc xs None) (first_loc ys None) dl))
    by by rewrite Hf2.
  assert (Hn2 : nodes s2 !! n = Some (Node None None d))
    by (rewrite Hf2 by done; by rewrite Hn1, lookup_insert_eq).
  unfold list_insert_before. rewrite (st_bind_eq _ _ _ _ _ Hnew).
  rewrite (st_bind_eq _ _ _ _ _ (deref_eq _ _ _ Hnode)). cbn [prev].
  rewrite (st_bind_eq _ _ _ _ _ Hrun).
  rewrite (st_bind_eq _ _ _ _ _ (deref_eq _ _ _ Hnode2)). cbn [prev]. st_run.
  rewrite (upd_node_eq n _ _ _ Hn2). cbn [set_prev prev next data].
  rewrite (upd_node_eq n (Node (last_loc xs None) None d)) by (cbn; by rewrite lookup_insert_eq).
  cbn [nodes set_next prev next data].
  rewrite (upd_node_eq l (Node (last_loc xs None) (first_loc ys None) dl))
    by (cbn; by rewrite !lookup_insert_ne).
  do 2 eexists. split; [done|]. split; [done|]. split.
  - split_and!; cbn.
    + rewrite fmap_app in *. csimpl in *. apply NoDup_app in Hnd1 as (? & ? & ?).
      apply NoDup_app. split_and!; [done|set_solver|]. apply NoDup_cons. split; [set_solver|done].
    + rewrite dseg_app. cbn. rewrite lookup_insert_ne by done.
      rewrite insert_insert_eq, lookup_insert_eq, lookup_insert_eq. split_and!; [|done|done|].
      * apply dseg_frame; [done|]. by apply dseg_frame.
      * apply dseg_frame; [done|]. apply dseg_frame; [done|].
        eapply dseg_ext; [|exact Hsy]. intros x Hx. apply Hf2. intros ?. by eapply Hdis.
    + by rewrite Hh2, first_loc_app.
    + rewrite Ht2, Ht1, !last_loc_app, !last_loc_cons. done.
    + rewrite Hc2, Hc1, u32_add_l, !length_app. simpl. f_equal. lia.
  - split_and!; cbn; [|congruence..]. intros x Hx. rewrite fmap_app in Hx. csimpl in Hx.
    rewrite !lookup_insert_ne by set_solver. rewrite Hf2 by set_solver.
    rewrite Hn1, lookup_insert_ne by set_solver. done.
Qed.

Lemma relink_next s (ys : list (loc * D)) p0 p :
  NoDup ys.*1 -> dseg (nodes s) p0 ys None -> tail (lst s) = last_loc ys p0 ->
  exists s', match first_loc ys None with
             | Some _ => upd_node (first_loc ys None) (set_prev p)
             | None => upd_list (set_tail p)
             end s = Ok (tt, s') /\
    dseg (nodes s') p ys None /\ tail (lst s') = last_loc ys p /\
    head (lst s') = head (lst s) /\ num_items (lst s') = num_items (lst s) /\
    frame s s' ys.*1.
Proof.
  intros Hnd Hseg Ht. destruct ys as [|[y dy] ys].
  - simpl. eexists. split; [done|]. split_and!; done.
  - cbn [first_loc]. destruct Hseg as [Hy Hseg].
    rewrite (upd_node_eq y _ _ _ Hy). eexists. split; [done|]. cbn [nodes lst released].
    rewrite !last_loc_cons in *. split_and!; [|done..|].
    + by apply (dseg_set_prev (nodes s) p0).
    + split_and!; cbn; [|done..]. intros l Hl. csimpl in Hl.
      rewrite lookup_insert_ne by set_solver. done.
Qed.

Lemma list_del_mid s xs l d ys :
  is_list s (xs ++ (l, d) :: ys) ->
  exists s', list_del (Some l) s = Ok (tt, s') /\ is_list s' (xs ++ ys) /\
    nodes s' !! l = None /\
    released s' = released s ++ (if free_function (lst s) then [d] else []) /\
    forall x, x ∉ (xs ++ (l, d) :: ys).*1 -> nodes s' !! x = nodes s !! x.
Proof.
  intros Hl.
  destruct (is_list_mid _ _ _ _ _ Hl) as (Hnode & Hndx & Hndy & Hlx & Hly & Hdis & Hsx & Hsy).
  destruct Hl as (Hnd & _ & Hh & Ht & Hc). rewrite first_loc_app in Hh.
  rewrite last_loc_app, last_loc_cons in Ht.
  destruct (relink_prev s xs (Some l) (first_loc ys None) Hndx Hsx Hh)
    as (s2 & Hrun & Hsx2 & Hh2 & Ht2 & Hc2 & Hf2 & Hr2 & Hff2).
  assert (Hsy2 : dseg (nodes s2) (Some l) ys None).
  { eapply dseg_ext; [|exact Hsy]. intros x Hx. apply Hf2. intros ?. by eapply Hdis. }
  destruct (relink_next s2 ys (Some l) (last_loc xs None) Hndy Hsy2)
    as (s3 & Hrun3 & Hsy3 & Ht3 & Hh3 & Hc3 & Hf3 & Hr3 & Hff3); [by rewrite Ht2|].
  assert (Hnode3 : nodes s3 !! l = Some (Node (last_loc xs None) (first_loc ys None) d))
    by (rewrite Hf3, Hf2; done).
  unfold list_del. rewrite (st_bind_eq _ _ _ _ _ (deref_eq _ _ _ Hnode)). cbn [prev next].
  rewrite (st_bind_eq _ _ _ _ _ Hrun), (st_bind_eq _ _ _ _ _ Hrun3).
  rewrite (st_bind_eq _ _ _ _ _ (deref_eq _ _ _ Hnode3)).
  unfold call_free, free_node, upd_list. st_run. rewrite Hff3, Hff2.
  assert (Hsx3 : dseg (delete l (nodes s3)) None xs (first_loc ys None)).
  { apply dseg_delete; [done|]. eapply dseg_ext; [|exact Hsx2]. intros x Hx. apply Hf3. eauto. }
  assert (Hlen : u32 (u32 (Z.of_nat (length (xs ++ (l, d) :: ys))) + -1) =
                 u32 (Z.of_nat (length (xs ++ ys))))
    by (rewrite u32_add_l, !length_app; simpl; f_equal; lia).
  assert (Hndl : NoDup (xs ++ ys).*1)
    by (rewrite fmap_app; apply NoDup_app; split_and!; [done|eauto|done]).
  assert (Hfr : forall x, x ∉ (xs ++ (l, d) :: ys).*1 -> delete l (nodes s3) !! x = nodes s !! x).
  { intros x Hx. rewrite fmap_app in Hx. csimpl in Hx.
    rewrite lookup_delete_ne, Hf3, Hf2 by set_solver. done. }
  destruct (free_function (lst s)); cbn [nodes lst released]; rewrite Hnode3;
    (eexists; split; [done|]); unfold is_list; cbn;
    rewrite Hc3, Hc2, Hc, Hh3, Hh2, Ht3, dseg_app, last_loc_app, first_loc_app, lookup_delete_eq;
    split_and!; rewrite ?app_nil_r; try done; try congruence; by apply dseg_delete.
Qed.

(** Traversals *)
Lemma list_for_each_loop_spec s it xs p f :
  dseg (nodes s) p xs None -> (length xs < f)%nat ->
  exists r, list_for_each_loop f it (first_loc xs None) s = Ok (r, s) /\
    match r with
    | Some l => exists i d, xs !! i = Some (l, d) /\ it d = true /\
                forall j x, (j < i)%nat -> xs !! j = Some x -> it x.2 = false
    | None => forall x, x ∈ xs -> it x.2 = false
    end.
Proof.
  revert p f. induction xs as [|[l d] xs IH]; intros p [|f] Hseg Hf; simpl in Hf; try lia;
    cbn [first_loc list_for_each_loop].
  - exists None. split; [done|]. intros x Hx. by apply elem_of_nil in Hx.
  - destruct Hseg as [Hl Hseg].
    rewrite (st_bind_eq _ _ _ _ _ (deref_eq _ _ _ Hl)). cbn [data next].
    destruct (it d) eqn:E.
    + exists (Some l). split; [done|]. exists 0%nat, d. split_and!; [done..|]. intros. lia.
    + destruct (IH _ f Hseg) as (r & -> & Hr); [lia|]. exists r. split; [done|].
      destruct r as [l'|].
      * destruct Hr as (i & d' & ? & ? & Hlt). exists (S i), d'. split_and!; [done..|].
        intros [|j] x Hj Hx; simpl in Hx; [by simplify_eq|]. eapply Hlt; [|done]. lia.
      * intros x Hx. apply elem_of_cons in Hx as [->|Hx]; auto.
Qed.

Lemma list_find_loop_spec s cmp xs p f acc :
  dseg (nodes s) p xs None -> (length xs < f)%nat ->
  exists r, list_find_loop f cmp (first_loc xs None) acc s = Ok (r, s) /\
    ((exists l i d, r = Some l /\ xs !! i = Some (l, d) /\ cmp d = true /\
       forall j x, (i < j)%nat -> xs !! j = Some x -> cmp x.2 = false) \/
     (r = acc /\ forall x, x ∈ xs -> cmp x.2 = false)).
Proof.
  revert p f acc. induction xs as [|[l d] xs IH]; intros p [|f] acc Hseg Hf;
    simpl in Hf; try lia; cbn [first_loc list_find_loop].
  - exists acc. split; [done|]. right. split; [done|]. intros x Hx. by apply elem_of_nil in Hx.
  - destruct Hseg as [Hl Hseg].
    rewrite (st_bind_eq _ _ _ _ _ (deref_eq _ _ _ Hl)). cbn [data next].
    destruct (IH _ f (if cmp d then Some l else acc) Hseg) as (r & -> & Hr); [lia|].
    exists r. split; [done|]. destruct Hr as [(l' & i & d' & -> & ? & ? & Hlt)|[-> Hno]].
    + left. exists l', (S i), d'. split_and!; [done..|].
      intros [|j] x Hj Hx; simpl in Hx; [lia|]. eapply Hlt; [|done]. lia.
    + destruct (cmp d) eqn:E.
      * left. exists l, 0%nat, d. split_and!; [done..|].
        intros [|j] x Hj Hx; [lia|]. apply Hno. by eapply list_elem_of_lookup_2.
      * right. split; [done|]. intros x Hx. apply elem_of_cons in Hx as [->|Hx]; auto.
Qed.

(** A list has at most as many items as the store has objects. *)
Lemma is_list_size s xs : is_list s xs -> (length xs <= size (nodes s))%nat.
Proof.
  intros (Hnd & Hseg & _). rewrite <- (length_fmap fst xs), <- size_dom.
  rewrite <- (size_list_to_set (C:=gset loc)) by done.
  apply subseteq_size. intros l Hl. apply elem_of_list_to_set in Hl. by eapply dseg_dom.
Qed.

(** ** Properties *)

(** [list_insert_before(list, node, data)] on a list that represents
    [xs ++ ys], with [node] the first node of [ys] or [NULL] when [ys] is
    empty, succeeds with a new node and a list that represents
    [xs ++ (n, data) :: ys]: both directions of the links, head, tail and the
    counter are those of the new sequence, and no object outside of the list
    is changed. *)
Theorem list_insert_before_refines s xs ys d :
  is_list s (xs ++ ys) ->
  exists n s', list_insert_before (first_loc ys None) d s = Ok (Some n, s') /\
    n ∉ dom (nodes s) /\ is_list s' (xs ++ (n, d) :: ys) /\
    frame s s' (n :: (xs ++ ys).*1).
Proof.
  intros Hl. destruct ys as [|[l dl] ys]; [|by apply list_insert_before_mid].
  rewrite app_nil_r in *. cbn [first_loc].
  destruct (new_node_spec s _ d Hl) as (n & s1 & Hnew & Hfr & Hn & Hn1 & Hlst1 & Hrel1 & Hl1).
  destruct (list_add_node_spec s1 xs n d Hl1 Hn) as (s2 & Hadd & Hl2 & Hf & Hr & Hff);
    [by rewrite Hn1, lookup_insert_eq|].
  unfold list_insert_before. rewrite (st_bind_eq _ _ _ _ _ Hnew), (st_bind_eq _ _ _ _ _ Hadd).
  exists n, s2. split_and!; [done..|]. split_and!; [|congruence..].
  intros l Hl'. rewrite Hf by done. rewrite Hn1, lookup_insert_ne by set_solver. done.
Qed.

(** [list_add(list, data)] appends a new node with [data] at the tail of
    the represented sequence and changes no object outside of the list. *)
Theorem list_add_refines s xs d :
  is_list s xs ->
  exists n s', list_add d s = Ok (Some n, s') /\ n ∉ dom (nodes s) /\
    is_list s' (xs ++ [(n, d)]) /\ frame s s' (n :: xs.*1).
Proof.
  intros Hl.
  destruct (new_node_spec s _ d Hl) as (n & s1 & Hnew & Hfr & Hn & Hn1 & Hlst1 & Hrel1 & Hl1).
  destruct (list_add_node_spec s1 xs n d Hl1 Hn) as (s2 & Hadd & Hl2 & Hf & Hr & Hff);
    [by rewrite Hn1, lookup_insert_eq|].
  unfold list_add. rewrite (st_bind_eq _ _ _ _ _ Hnew), (st_bind_eq _ _ _ _ _ Hadd).
  exists n, s2. split_and!; [done..|]. split_and!; [|congruence..].
  intros l Hl'. rewrite Hf by done. rewrite Hn1, lookup_insert_ne by set_solver. done.
Qed.

(** [list_del(list, node)] on a node of the list removes exactly that
    node from the represented sequence, frees it, passes its data to the free
    function when there is one, and leaves the objects outside of the list
    unchanged. *)
Theorem list_del_refines s xs l d ys :
  is_list s (xs ++ (l, d) :: ys) ->
  exists s', list_del (Some l) s = Ok (tt, s') /\ is_list s' (xs ++ ys) /\
    nodes s' !! l = None /\
    released s' = released s ++ (if free_function (lst s) then [d] else []) /\
    forall x, x ∉ (xs ++ (l, d) :: ys).*1 -> nodes s' !! x = nodes s !! x.
Proof. apply list_del_mid. Qed.

(** The traversals terminate and change nothing: [list_for_each] returns
    the first node whose data satisfies the iterator, [list_find] the last
    node that compares equal, and both return [NULL] when there is no such
    node. *)
Theorem list_search_spec s xs (p : D -> bool) :
  is_list s xs ->
  (exists r, list_for_each p s = Ok (r, s) /\
    match r with
    | Some l => exists i d, xs !! i = Some (l, d) /\ p d = true /\
                forall j x, (j < i)%nat -> xs !! j = Some x -> p x.2 = false
    | None => forall x, x ∈ xs -> p x.2 = false
    end) /\
  (exists r, list_find p s = Ok (r, s) /\
    match r with
    | Some l => exists i d, xs !! i = Some (l, d) /\ p d = true /\
                forall j x, (i < j)%nat -> xs !! j = Some x -> p x.2 = false
    | None => forall x, x ∈ xs -> p x.2 = false
    end).
Proof.
  intros Hl. pose proof (is_list_size _ _ Hl) as Hsz. destruct Hl as (_ & Hseg & Hh & _).
  unfold list_for_each, list_find. rewrite Hh. split.
  - eapply list_for_each_loop_spec; [done|lia].
  - destruct (list_find_loop_spec s p xs None (S (size (nodes s))) None Hseg)
      as (r & Hr & Hcase); [lia|]. exists r. split; [done|].
    destruct Hcase as [(l & i & d & -> & ? & ? & ?)|[-> ?]]; [by exists i, d|done].
Qed.

(** [list_close] on a list with at least one node reads [node->next]
    after [free(node)], so it accesses a freed object. *)
Theorem list_close_use_after_free s xs :
  is_list s xs -> xs <> [] -> list_close s = Err EUaf.
Proof.
  intros (Hnd & Hseg & Hh & _) Hne. destruct xs as [|[l d] xs]; [done|].
  destruct Hseg as [Hl _]. cbn [first_loc] in Hh. unfold list_close.
  cbn [list_close_loop]. unfold call_free. st_run. rewrite Hh, (deref_eq _ _ _ Hl).
  cbn [data]. destruct (free_function (lst s)); cbn [free_node nodes lst released];
    rewrite Hl; cbn [deref nodes]; by rewrite lookup_delete_eq.
Qed.
End DList.

(** ** Witnesses: a list of three numbers *)
Definition ex3 : store (D := Z) :=
  match (list_add 10;; list_add 20;; list_add 30) (list_open true ∅) with
  | Ok (_, s) => s
  | Err _ => list_open true ∅
  end.

Definition ex3_seq : list (loc * Z) :=
  [(1%positive, 10); (2%positive, 20); (3%positive, 30)].

Lemma ex3_is_list : is_list ex3 ex3_seq.
Proof.
  split_and!; [|by vm_compute..].
  unfold ex3_seq. csimpl. repeat (apply NoDup_cons; split; [set_solver|]). apply NoDup_nil_2.
Defined.

Lemma list_insert_before_refines_witness :
  exists n s', list_insert_before (Some 2%positive) 15 ex3 = Ok (Some n, s') /\
    n ∉ dom (nodes ex3) /\
    is_list s' ([(1%positive, 10)] ++ (n, 15) :: [(2%positive, 20); (3%positive, 30)]) /\
    frame ex3 s' (n :: ([(1%positive, 10)] ++ [(2%positive, 20); (3%positive, 30)]).*1).
Proof.
  apply (list_insert_before_refines ex3 [(1%positive, 10)]
           [(2%positive, 20); (3%positive, 30)] 15). apply ex3_is_list.
Defined.

Lemma list_add_refines_witness :
  exists n s', list_add 40 ex3 = Ok (Some n, s') /\ n ∉ dom (nodes ex3) /\
    is_list s' (ex3_seq ++ [(n, 40)]) /\
    frame ex3 s' (n :: ex3_seq.*1).
Proof.
  apply (list_add_refines ex3 ex3_seq 40). apply ex3_is_list.
Defined.

Lemma list_del_refines_witness :
  exists s', list_del (Some 2%positive) ex3 = Ok (tt, s') /\
    is_list s' ([(1%positive, 10)] ++ [(3%positive, 30)]) /\ nodes s' !! 2%positive = None /\
    released s' = released ex3 ++ (if free_function (lst ex3) then [20] else []) /\
    forall x, x ∉ ([(1%positive, 10)] ++ (2%positive, 20) :: [(3%positive, 30)]).*1 ->
      nodes s' !! x = nodes ex3 !! x.
Proof.
  apply (list_del_refines ex3 [(1%positive, 10)] 2%positive 20 [(3%positive, 30)]).
  apply ex3_is_list.
Defined.

Lemma list_search_spec_witness :
  is_list ex3 ex3_seq /\
  (exists r, list_for_each (fun d => 15 <? d) ex3 = Ok (r, ex3) /\ r <> None).
Proof.
  split; [apply ex3_is_list|].
  destruct (list_search_spec ex3 ex3_seq (fun d => 15 <? d))
    as [(r & Hr & Hc) _]; [apply ex3_is_list|].
  exists r. split; [exact Hr|]. intros ->.
  specialize (Hc (2%positive, 20) ltac:(set_solver)). discriminate Hc.
Defined.

Lemma list_close_use_after_free_witness : list_close ex3 = Err EUaf.
Proof.
  apply (list_close_use_after_free ex3 ex3_seq).
  - apply ex3_is_list.
  - discriminate.
Defined.
End DList.
