(* ===== verification/RingBuf.v ===== *)
(** * Ring buffers (src/ring_buf.c, src/ring_buf.h)

    [head] and [tail] are free-running unsigned 32-bit counters; a cell is
    addressed modulo the size.  [ring_contents] is the queue a ring holds; the
    pipes of the kernel (src/pipe.c) use the same scheme and share its lemmas. *)
From S2P Require Import Prelude.

(** ** The cells between two free-running positions *)
Section Ring.
Variable size : Z.

Definition ring_index (pos : Z) : nat := Z.to_nat (pos mod size).

(** The [n] cells from position [pos]. *)
Fixpoint ring_contents (buf : list Z) (pos : Z) (n : nat) : list (option Z) :=
  match n with
  | O => []
  | S n' => buf !! ring_index pos :: ring_contents buf (u32 (pos + 1)) n'
  end.

(** The size of the ring divides the range of the counters. *)
Definition ring_size_ok : Prop := 0 < size < 2 ^ 32 /\ (size | 2 ^ 32).

Hypothesis Hsize : ring_size_ok.

Lemma ring_index_u32 x : ring_index (u32 x) = ring_index x.
Proof.
  unfold ring_index, u32. f_equal. destruct Hsize as [Hp [k Hk]]. rewrite Hk.
  rewrite (Z.mod_eq x (k * size)) by lia.
  replace (x - k * size * (x / (k * size))) with (x + (- k * (x / (k * size))) * size) by lia.
  apply Z.mod_add. lia.
Qed.

Lemma ring_index_lt x : (ring_index x < Z.to_nat size)%nat.
Proof.
  unfold ring_index. destruct Hsize as [Hp _].
  pose proof (Z.mod_pos_bound x size). lia.
Qed.

Lemma ring_index_inj x i j :
  0 <= i < size -> 0 <= j < size -> ring_index (x + i) = ring_index (x + j) -> i = j.
Proof.
  unfold ring_index. intros Hi Hj H. destruct Hsize as [Hp _].
  assert (Hm : (x + i) mod size = (x + j) mod size).
  { pose proof (Z.mod_pos_bound (x + i) size). pose proof (Z.mod_pos_bound (x + j) size). lia. }
  assert (Hd : (i - j) mod size = 0).
  { replace (i - j) with ((x + i) - (x + j)) by lia.
    rewrite Zminus_mod, Hm, Z.sub_diag. apply Z.mod_0_l. lia. }
  apply Z.mod_divide in Hd as [k Hk]; [|lia]. assert (k = 0) by nia. lia.
Qed.

Lemma length_ring_contents buf pos n : length (ring_contents buf pos n) = n.
Proof. revert pos. induction n; intros; simpl; auto. Qed.

Lemma lookup_ring_contents buf pos n i :
  (i < n)%nat -> ring_contents buf pos n !! i = Some (buf !! ring_index (pos + Z.of_nat i)).
Proof.
  revert pos i. induction n as [|n IH]; intros pos i Hi; [lia|].
  destruct i as [|i]; cbn [ring_contents]; simpl; [by rewrite Z.add_0_r|].
  rewrite IH by lia. rewrite <- ring_index_u32, u32_add_l, ring_index_u32.
  do 3 f_equal. lia.
Qed.

(** Writing the cell after the last one appends to the contents. *)
Lemma ring_contents_put buf pos n c :
  Z.of_nat n < size -> length buf = Z.to_nat size ->
  ring_contents (<[ring_index (pos + Z.of_nat n) := c]> buf) pos (S n) =
    ring_contents buf pos n ++ [Some c].
Proof.
  intros Hn Hl. apply list_eq. intros i. destruct (decide (i < n)%nat).
  - rewrite lookup_ring_contents, lookup_app_l by (rewrite ?length_ring_contents; lia).
    rewrite lookup_ring_contents by lia. f_equal. apply list_lookup_insert_ne.
    intros Heq. apply ring_index_inj in Heq; lia.
  - destruct (decide (i = n)) as [->|].
    + rewrite lookup_ring_contents by lia.
      rewrite lookup_app_r, length_ring_contents, Nat.sub_diag by (rewrite length_ring_contents; lia).
      rewrite list_lookup_insert_eq; [done|]. rewrite Hl. apply ring_index_lt.
    + rewrite !lookup_ge_None_2; [done|..]; rewrite ?length_app, length_ring_contents; simpl; lia.
Qed.

(** Every cell of the contents of a ring of the right size exists. *)
Lemma ring_contents_Some buf pos n :
  length buf = Z.to_nat size -> Forall is_Some (ring_contents buf pos n).
Proof.
  intros Hl. revert pos. induction n as [|n IH]; intros pos; simpl; constructor; auto.
  apply lookup_lt_is_Some_2. rewrite Hl. apply ring_index_lt.
Qed.

(** The distance of two positions: 0 when they are equal, and the size of the
    ring when the first is the size ahead. *)
Lemma ring_dist_0 head tail :
  0 <= head < 2 ^ 32 -> 0 <= tail < 2 ^ 32 -> head -u tail = 0 <-> head = tail.
Proof.
  intros Hh Ht. split; [|intros ->; by rewrite Z.sub_diag].
  unfold u32. intros Hz. apply Z.mod_divide in Hz as [k Hk]; lia.
Qed.

Lemma ring_dist_size head tail :
  0 <= head < 2 ^ 32 -> 0 <= tail < 2 ^ 32 -> head -u tail = size <-> head = tail +u size.
Proof.
  intros Hh Ht. destruct Hsize as [Hp _]. split.
  - intros <-. rewrite u32_add_r. replace (tail + (head - tail)) with head by lia. by rewrite u32_small.
  - intros ->. unfold u32. rewrite Zminus_mod_idemp_l. replace (tail + size - tail) with size by lia.
    apply Z.mod_small. lia.
Qed.

(** Appending a cell. *)
Lemma ring_put buf head tail c :
  length buf = Z.to_nat size -> 0 <= head < 2 ^ 32 -> 0 <= tail < 2 ^ 32 -> head -u tail < size ->
  (ring_index head < length buf)%nat /\ (head +u 1) -u tail = head -u tail + 1 /\
  ring_contents (<[ring_index head := c]> buf) tail (Z.to_nat (head -u tail + 1)) =
    ring_contents buf tail (Z.to_nat (head -u tail)) ++ [Some c].
Proof.
  intros Hl Hh Ht Hf. pose proof Hsize as [Hs _]. set (n := head -u tail) in *.
  assert (Hn : 0 <= n) by apply u32_range.
  assert (Hhead : head = u32 (tail + n)).
  { unfold n. rewrite u32_add_r. replace (tail + (head - tail)) with head by lia. by rewrite u32_small. }
  split; [rewrite Hl; apply ring_index_lt|]. split.
  - rewrite <- (u32_small (n + 1)) by lia. unfold n. rewrite u32_add_l.
    unfold Z.sub. rewrite u32_add_l. f_equal. lia.
  - rewrite Z2Nat.inj_add by lia. change (Z.to_nat 1) with 1%nat. rewrite Nat.add_1_r.
    rewrite <- ring_contents_put; [|lia|done].
    rewrite Z2Nat.id by lia. rewrite Hhead, ring_index_u32. done.
Qed.

(** Removing the oldest cell. *)
Lemma ring_get buf head tail :
  length buf = Z.to_nat size -> 0 <= head < 2 ^ 32 -> 0 <= tail < 2 ^ 32 -> head <> tail ->
  exists c, buf !! ring_index tail = Some c /\ 0 < head -u tail /\
    head -u (tail +u 1) = head -u tail - 1 /\
    ring_contents buf tail (Z.to_nat (head -u tail)) =
      Some c :: ring_contents buf (tail +u 1) (Z.to_nat (head -u tail - 1)).
Proof.
  intros Hl Hh Ht Hne. pose proof (ring_dist_0 head tail Hh Ht) as H0.
  assert (Hn : 0 < head -u tail < 2 ^ 32) by (pose proof (u32_range (head - tail)); lia).
  destruct (lookup_lt_is_Some_2 buf (ring_index tail)) as [c Hc]; [rewrite Hl; apply ring_index_lt|].
  exists c. split; [done|]. split; [lia|]. split.
  - rewrite <- (u32_small (head -u tail - 1)) by lia. unfold u32. rewrite Zminus_mod_idemp_r.
    unfold Z.sub. rewrite Zplus_mod_idemp_l. f_equal. lia.
  - replace (Z.to_nat (head -u tail)) with (S (Z.to_nat (head -u tail - 1))) by lia.
    cbn [ring_contents]. by rewrite Hc.
Qed.
End Ring.

Module RingBuf.
(** ** Data and operations *)
Record ring_buf_t := RB { buf : list Z; head : Z; tail : Z; size : Z }.

(** [malloc] gives the cells of a new object, or [None] when there is no
    memory; 16 is [sizeof(ring_buf_t)]. *)
Definition rb_new (malloc : Z -> option (list Z)) (size : Z) : option ring_buf_t :=
  match malloc 16 with
  | None => None
  | Some _ =>
      match malloc size with
      | None => None
      | Some b => Some (RB b 0 0 size)
      end
  end.

Definition rb_is_empty (rb : ring_buf_t) : bool := head rb =? tail rb.
Definition rb_is_full (rb : ring_buf_t) : bool := size rb <=? head rb -u tail rb.

Definition rb_putc (rb : ring_buf_t) (c : Z) : res ring_buf_t :=
  if size rb =? 0 then Err EDiv
  else b ← wr (buf rb) (ring_index (size rb) (head rb)) c;
       Ok (RB b (head rb +u 1) (tail rb) (size rb)).

Definition rb_getc (rb : ring_buf_t) : res (Z * ring_buf_t) :=
  if size rb =? 0 then Err EDiv
  else c ← rd (buf rb) (ring_index (size rb) (tail rb));
       Ok (c, RB (buf rb) (head rb) (tail rb +u 1) (size rb)).

Definition rb_reset (rb : ring_buf_t) : ring_buf_t := RB (buf rb) 0 0 (size rb).
Definition rb_num_chars (rb : ring_buf_t) : Z := head rb -u tail rb.

(** ** The queue a ring holds *)
Definition rb_wf (rb : ring_buf_t) : Prop :=
  ring_size_ok (size rb) /\ length (buf rb) = Z.to_nat (size rb) /\
  0 <= head rb < 2 ^ 32 /\ 0 <= tail rb < 2 ^ 32 /\ head rb -u tail rb <= size rb.

Definition rb_queue (rb : ring_buf_t) : list (option Z) :=
  ring_contents (size rb) (buf rb) (tail rb) (Z.to_nat (head rb -u tail rb)).

(** ** Properties *)

(** A ring buffer whose size divides 2^32 is a bounded queue of bytes,
    also when its 32-bit counters wrap around.  In a well-formed ring
    [rb_is_empty] and [rb_is_full] test for length 0 and [size];
    [rb_num_chars] is the length; [rb_putc] on a ring that is not full
    succeeds, keeps it well formed and appends the byte. *)
Theorem rb_putc_enqueues rb c :
  rb_wf rb -> rb_is_full rb = false ->
  exists rb', rb_putc rb c = Ok rb' /\ rb_wf rb' /\
    rb_queue rb' = rb_queue rb ++ [Some c] /\
    rb_num_chars rb' = rb_num_chars rb + 1 /\ rb_is_empty rb' = false.
Proof.
  intros (Hs & Hl & Hh & Ht & Hle) Hf. unfold rb_is_full in Hf. to_prop.
  destruct (ring_put (size rb) Hs (buf rb) (head rb) (tail rb) c) as (Hi & Hn & Hcont); [done..|].
  unfold rb_putc. pose proof Hs as [Hp _]. replace (size rb =? 0) with false by lia.
  rewrite wr_in by done. cbn [mbind res_bind]. eexists. split; [done|].
  unfold rb_wf, rb_queue, rb_num_chars, rb_is_empty. cbn [buf head tail size]. rewrite Hn, Hcont.
  pose proof (u32_range (head rb - tail rb)). split_and!; try done; try apply u32_range; try apply Hs; try lia.
  - by rewrite length_insert.
  - apply Z.eqb_neq. intros Heq. apply ring_dist_0 in Heq; [lia|apply u32_range|done].
Qed.

(** [rb_getc] on a well-formed ring that is not empty returns the oldest
    byte and removes it, and keeps the ring well formed. *)
Theorem rb_getc_dequeues rb :
  rb_wf rb -> rb_is_empty rb = false ->
  exists c rb', rb_getc rb = Ok (c, rb') /\ rb_wf rb' /\
    rb_queue rb = Some c :: rb_queue rb' /\
    rb_num_chars rb' = rb_num_chars rb - 1 /\ rb_is_full rb' = false.
Proof.
  intros (Hs & Hl & Hh & Ht & Hle) Hf. unfold rb_is_empty in Hf. to_prop.
  destruct (ring_get (size rb) Hs (buf rb) (head rb) (tail rb)) as (c & Hc & Hp & Hn & Hcont); [done..|].
  unfold rb_getc. pose proof Hs as [Hp' _]. replace (size rb =? 0) with false by lia.
  unfold rd. rewrite Hc. cbn [mbind res_bind]. do 2 eexists. split; [done|].
  unfold rb_wf, rb_queue, rb_num_chars, rb_is_full. cbn [buf head tail size]. rewrite Hn, Hcont.
  split_and!; try done; try apply u32_range; try apply Hs; try lia.
Qed.

(** A ring of four bytes one step before its counters wrap, with one byte. *)
Definition wrapping : ring_buf_t := RB [1; 2; 3; 4] (2 ^ 32 - 1) (2 ^ 32 - 2) 4.

Lemma wrapping_wf : rb_wf wrapping.
Proof.
  unfold rb_wf, ring_size_ok, wrapping. cbn. split_and!; try lia.
  - exists 1073741824. lia.
  - vm_compute. discriminate.
Defined.

Lemma rb_putc_enqueues_witness :
  exists rb', rb_putc wrapping 7 = Ok rb' /\ rb_wf rb' /\
    rb_queue rb' = rb_queue wrapping ++ [Some 7] /\
    rb_num_chars rb' = rb_num_chars wrapping + 1 /\ rb_is_empty rb' = false.
Proof. apply (rb_putc_enqueues wrapping 7); [apply wrapping_wf|reflexivity]. Defined.

Lemma rb_getc_dequeues_witness :
  exists c rb', rb_getc wrapping = Ok (c, rb') /\ rb_wf rb' /\
    rb_queue wrapping = Some c :: rb_queue rb' /\
    rb_num_chars rb' = rb_num_chars wrapping - 1 /\ rb_is_full rb' = false.
Proof. apply (rb_getc_dequeues wrapping); [apply wrapping_wf|reflexivity]. Defined.
End RingBuf.
