(* ===== verification/Bmap.v ===== *)
(** * Bitmaps (src/bmap.c, src/bmap.h)

    A bitmap of [size] bits in 32-bit words, used for the port numbers of the
    sockets.  [last] is where the next search starts. *)
From S2P Require Import Prelude.

Module Bmap.
(** ** Data and operations *)
Record bmap_t := BM { size : Z; last : Z; lock : Z; data : list Z }.

(** [calloc] returns zeroed memory or [NULL] ([ok] is false); the object has
    room for [size / 8] bytes of data, that is [size / 32] words. *)
Definition bmap_alloc (ok : bool) (size : Z) : option bmap_t :=
  if ok then Some (BM (s32 size) 0 0 (replicate (Z.to_nat (size / 32)) 0)) else None.

Definition spin_lock (b : bmap_t) : res bmap_t :=
  if lock b =? 0 then Ok (BM (size b) (last b) 1 (data b)) else Err EDeadlock.
Definition spin_unlock (b : bmap_t) : bmap_t := BM (size b) (last b) 0 (data b).

(** The inner loop, from bit [j] with [n] bits to go. *)
Fixpoint scan_word (w : Z) (j : Z) (n : nat) : option Z :=
  match n with
  | O => None
  | S n' =>
      if Z.land (Z.shiftr w j) 1 =? 0 then Some j else scan_word w (j + 1) n'
  end.

(** The outer loop, from word [i] with [n] words to go. *)
Fixpoint scan_words (b : bmap_t) (i n : nat) : res (Z * bmap_t) :=
  match n with
  | O => Ok (-1, b)
  | S n' =>
      w ← rd (data b) i;
      if w =? 0xFFFFFFFF then scan_words b (S i) n'
      else
        match scan_word w 0 32 with
        | Some j =>
            d ← wr (data b) i (Z.lor w (u32 (Z.shiftl 1 j)));
            Ok (Z.of_nat i * 32 + j, BM (size b) (Z.of_nat i * 32 + j) (lock b) d)
        | None => scan_words b (S i) n'
        end
  end.

Definition bmap_scan_range (b : bmap_t) (min max : Z) : res (Z * bmap_t) :=
  _ ← rassert (negb (lock b =? 0));
  scan_words b (Z.to_nat (Z.quot min 32))
    (Z.to_nat (Z.quot max 32) - Z.to_nat (Z.quot min 32)).

Definition bmap_get_free (b : bmap_t) : res (Z * bmap_t) :=
  b ← spin_lock b;
  '(bit, b) ← bmap_scan_range b (last b) (size b);
  if 0 <=? bit then Ok (bit, spin_unlock b)
  else
    '(bit, b) ← bmap_scan_range b 0 (last b);
    Ok (bit, spin_unlock b).

(** A negative [bit] is outside of the words (and of the defined shifts). *)
Definition bmap_free (b : bmap_t) (bit : Z) : res (Z * bmap_t) :=
  if size b <=? bit then Ok (-1, b)
  else if bit <? 0 then Err EOob
  else
    b ← spin_lock b;
    w ← rd (data b) (Z.to_nat (bit / 32));
    d ← wr (data b) (Z.to_nat (bit / 32))
          (Z.land w (u32 (Z.lnot (Z.shiftl 1 (bit mod 32)))));
    Ok (0, spin_unlock (BM (size b) bit (lock b) d)).

(** ** The set of bits *)
Definition bit_of (b : bmap_t) (k : Z) : bool :=
  match data b !! Z.to_nat (k / 32) with
  | Some w => Z.testbit w (k mod 32)
  | None => false
  end.

(** A bitmap as [bmap_alloc] makes it from a multiple of 32. *)
Definition wf (b : bmap_t) : Prop :=
  0 <= size b < 2 ^ 31 /\ size b mod 32 = 0 /\
  length (data b) = Z.to_nat (size b / 32) /\
  Forall (fun w => 0 <= w < 2 ^ 32) (data b) /\
  0 <= last b /\ (last b < size b \/ last b = 0).

(** ** Lemmas *)
Lemma land_shiftr_1 w j : 0 <= j -> (Z.land (Z.shiftr w j) 1 =? 0) = negb (Z.testbit w j).
Proof.
  intros Hj. change 1 with (Z.ones 1). rewrite Z.land_ones by lia. change (2 ^ 1) with 2.
  rewrite <- (Z.add_0_l j) at 2. rewrite <- Z.shiftr_spec by lia.
  rewrite <- Z.bit0_mod. destruct (Z.testbit (Z.shiftr w j) 0); done.
Qed.

Lemma scan_word_spec w j n :
  0 <= j ->
  match scan_word w j n with
  | Some k => j <= k < j + Z.of_nat n /\ Z.testbit w k = false
  | None => forall k, j <= k < j + Z.of_nat n -> Z.testbit w k = true
  end.
Proof.
  revert j. induction n as [|n IH]; intros j Hj; cbn [scan_word]; [intros; lia|].
  rewrite land_shiftr_1 by done. destruct (Z.testbit w j) eqn:E; cbn [negb]; [|split; [lia|done]].
  specialize (IH (j + 1)). destruct (scan_word w (j + 1) n).
  - destruct IH; [lia|]. split; [lia|done].
  - intros k Hk. destruct (decide (k = j)) as [->|]; [done|]. apply IH; lia.
Qed.

Lemma full_word k : 0 <= k < 32 -> Z.testbit 0xFFFFFFFF k = true.
Proof. intros. change 0xFFFFFFFF with (Z.ones 32). apply Z.ones_spec_low. lia. Qed.

Lemma one_bit_testbit j k : 0 <= j < 32 -> 0 <= k -> Z.testbit (u32 (Z.shiftl 1 j)) k = (k =? j).
Proof.
  intros Hj Hk. rewrite u32_small.
  - rewrite Z.shiftl_spec by done. destruct (Z.eqb_spec k j) as [->|]; [by rewrite Z.sub_diag|].
    destruct (Z.ltb_spec k j); [by rewrite Z.testbit_neg_r by lia|].
    apply (testbit_small 1 1); lia.
  - rewrite Z.shiftl_mul_pow2, Z.mul_1_l by lia. split; [apply Z.pow_nonneg; lia|].
    apply Z.pow_lt_mono_r; lia.
Qed.

(** What a search of the bits [lo, hi) of [b] may return: the number of a
    clear bit, which is now set, or -1 when all of them are set. *)
Definition scan_post (b : bmap_t) (lo hi : Z) (out : res (Z * bmap_t)) : Prop :=
  (exists r b', out = Ok (r, b') /\ lo <= r < hi /\ bit_of b r = false /\
     size b' = size b /\ last b' = r /\ lock b' = lock b /\
     length (data b') = length (data b) /\
     Forall (fun w => 0 <= w < 2 ^ 32) (data b') /\
     forall k, 0 <= k -> bit_of b' k = ((k =? r) || bit_of b k)%bool) \/
  (out = Ok (-1, b) /\ forall k, lo <= k < hi -> bit_of b k = true).

Lemma bit_of_word b i w k :
  data b !! i = Some w -> Z.of_nat i * 32 <= k < Z.of_nat i * 32 + 32 ->
  bit_of b k = Z.testbit w (k - Z.of_nat i * 32).
Proof.
  intros Hw Hk. unfold bit_of.
  replace (k / 32) with (Z.of_nat i) by (apply Z.div_unique with (k - Z.of_nat i * 32); lia).
  replace (k mod 32) with (k - Z.of_nat i * 32)
    by (apply Z.mod_unique with (Z.of_nat i); lia).
  by rewrite Nat2Z.id, Hw.
Qed.

Lemma scan_post_skip b lo mid hi out :
  lo <= mid -> (forall k, lo <= k < mid -> bit_of b k = true) ->
  scan_post b mid hi out -> scan_post b lo hi out.
Proof.
  intros Hle Hall [(r & b' & ? & ? & Hrest)|[-> Hno]].
  - left. exists r, b'. split; [done|]. split; [lia|done].
  - right. split; [done|]. intros k Hk. destruct (decide (k < mid)); [apply Hall|apply Hno]; lia.
Qed.

Lemma scan_post_hit b i w j hi :
  data b !! i = Some w -> Forall (fun w => 0 <= w < 2 ^ 32) (data b) ->
  0 <= j < 32 -> Z.testbit w j = false -> Z.of_nat i * 32 + 32 <= hi ->
  scan_post b (Z.of_nat i * 32) hi
    (Ok (Z.of_nat i * 32 + j, BM (size b) (Z.of_nat i * 32 + j) (lock b)
           (<[i := Z.lor w (u32 (Z.shiftl 1 j))]> (data b)))).
Proof.
  intros Hw Hf Hj Hbit Hhi. left. do 2 eexists. split; [done|]. cbn [size last lock data].
  pose proof (lookup_lt_Some _ _ _ Hw).
  split_and!; [lia|lia|..|done|done|done|by rewrite length_insert| |].
  - rewrite (bit_of_word b i w) by (done || lia). rewrite <- Hbit. f_equal. lia.
  - apply Forall_insert; [done|]. apply lor_u32; [|apply u32_range].
    by apply (Forall_lookup_1 _ _ _ _ Hf Hw).
  - intros k Hk. destruct (decide (Z.of_nat i * 32 <= k < Z.of_nat i * 32 + 32)).
    + rewrite (bit_of_word b i w), (bit_of_word _ i (Z.lor w (u32 (Z.shiftl 1 j))));
        [|cbn; by apply list_lookup_insert_eq|lia|done|lia].
      rewrite Z.lor_spec, one_bit_testbit, orb_comm by lia. f_equal.
      apply eq_true_iff_eq. rewrite !Z.eqb_eq. lia.
    + unfold bit_of. cbn [data]. rewrite list_lookup_insert_ne.
      * replace (k =? _) with false; [done|]. symmetry. apply Z.eqb_neq. lia.
      * pose proof (Z.div_mod k 32). pose proof (Z.mod_pos_bound k 32).
        assert (0 <= k / 32) by (apply Z.div_pos; lia). lia.
Qed.

(** The words of a range are searched in order. *)
Lemma scan_words_spec b i n :
  (i + n <= length (data b))%nat -> Forall (fun w => 0 <= w < 2 ^ 32) (data b) ->
  scan_post b (Z.of_nat i * 32) (Z.of_nat (i + n) * 32) (scan_words b i n).
Proof.
  revert i. induction n as [|n IH]; intros i Hl Hf; cbn [scan_words].
  - right. split; [done|]. intros. lia.
  - destruct (lookup_lt_is_Some_2 (data b) i) as [w Hw]; [lia|].
    unfold rd. rewrite Hw. cbn [mbind res_bind].
    assert (Hnext : (forall k, 0 <= k < 32 -> Z.testbit w k = true) ->
      scan_post b (Z.of_nat i * 32) (Z.of_nat (i + S n) * 32) (scan_words b (S i) n)).
    { intros Hall. apply scan_post_skip with (Z.of_nat (S i) * 32); [lia| |].
      - intros k Hk. rewrite (bit_of_word b i w) by (done || lia). apply Hall. lia.
      - rewrite Nat.add_succ_r, <- Nat.add_succ_l. apply IH; [lia|done]. }
    destruct (Z.eqb_spec w 0xFFFFFFFF) as [->|Hne]; [apply Hnext; apply full_word|].
    pose proof (scan_word_spec w 0 32 ltac:(lia)) as Hsw.
    destruct (scan_word w 0 32) as [j|]; [|apply Hnext; intros; apply Hsw; lia].
    destruct Hsw as [Hj Hbit]. rewrite wr_in by lia. cbn [mbind res_bind].
    apply scan_post_hit; [done..|lia].
Qed.

Lemma bmap_scan_range_spec b min max :
  Forall (fun w => 0 <= w < 2 ^ 32) (data b) -> lock b <> 0 ->
  0 <= min -> 0 <= max -> min / 32 <= max / 32 <= Z.of_nat (length (data b)) ->
  scan_post b (min / 32 * 32) (max / 32 * 32) (bmap_scan_range b min max).
Proof.
  intros Hf Hk Hmin Hmax Hle. unfold bmap_scan_range, rassert.
  replace (lock b =? 0) with false by (symmetry; by apply Z.eqb_neq). cbn [negb mbind res_bind].
  rewrite !Z.quot_div_nonneg by lia. assert (0 <= min / 32) by (apply Z.div_pos; lia).
  pose proof (scan_words_spec b (Z.to_nat (min / 32))
    (Z.to_nat (max / 32) - Z.to_nat (min / 32))) as H1.
  rewrite <- Nat.le_add_sub in H1 by lia. rewrite !Z2Nat.id in H1 by lia. apply H1; [lia|done].
Qed.

(** ** Properties *)

(** [bmap_get_free] on an unlocked, well-formed bitmap never accesses a
    word outside of it; it returns the number of a bit that was clear, with
    exactly that bit set in the new bitmap, or -1 with an unchanged set of
    bits, and the latter only when all the bits were set.  The bitmap stays
    well formed and is left unlocked. *)
Theorem bmap_get_free_spec b :
  wf b -> lock b = 0 ->
  exists r b', bmap_get_free b = Ok (r, b') /\ wf b' /\ lock b' = 0 /\
    ((0 <= r < size b /\ bit_of b r = false /\
      forall k, 0 <= k -> bit_of b' k = ((k =? r) || bit_of b k)%bool) \/
     (r = -1 /\ b' = b /\ forall k, 0 <= k < size b -> bit_of b k = true)).
Proof.
  intros (Hs & Hm & Hlen & Hf & Hl0 & Hl) Hk. unfold bmap_get_free, spin_lock.
  rewrite Hk. cbn [Z.eqb mbind res_bind last size].
  pose proof (Z.div_mod (size b) 32 ltac:(lia)) as Hdm.
  assert (Hsz : size b / 32 * 32 = size b) by lia.
  assert (0 <= size b / 32) by (apply Z.div_pos; lia).
  assert (last b / 32 <= size b / 32) by (apply Z.div_le_mono; lia).
  assert (0 <= last b / 32) by (apply Z.div_pos; lia).
  set (b1 := BM (size b) (last b) 1 (data b)).
  assert (Hb : forall k, bit_of b1 k = bit_of b k) by done.
  assert (Hok : forall r b', 0 <= r < size b -> bit_of b1 r = false ->
    size b' = size b -> last b' = r -> length (data b') = length (data b) ->
    Forall (fun w => 0 <= w < 2 ^ 32) (data b') ->
    (forall k, 0 <= k -> bit_of b' k = ((k =? r) || bit_of b1 k)%bool) ->
    wf (spin_unlock b') /\ lock (spin_unlock b') = 0 /\
    ((0 <= r < size b /\ bit_of b r = false /\
      forall k, 0 <= k -> bit_of (spin_unlock b') k = ((k =? r) || bit_of b k)%bool) \/
     (r = -1 /\ spin_unlock b' = b /\ forall k, 0 <= k < size b -> bit_of b k = true))).
  { intros r b' Hr Hbit E1 E2 E3 E4 E5. unfold wf, spin_unlock. cbn [size last data lock].
    rewrite E1, E2, E3. split_and!; try done; try lia. left. split_and!; done || lia. }
  destruct (bmap_scan_range_spec b1 (last b) (size b))
    as [(r & b' & -> & Hr & Hbit & E1 & E2 & _ & E3 & E4 & E5)|[-> Hfull]];
    [done|done|lia|lia|change (data b1) with (data b); rewrite ?Z.div_0_l by lia; lia| |];
      cbn [mbind res_bind].
  - rewrite (proj2 (Z.leb_le 0 r)) by lia. do 2 eexists. split; [done|].
    apply (Hok r b'); done || lia.
  - change (0 <=? -1) with false. change (last b1) with (last b). cbn beta iota.
    destruct (bmap_scan_range_spec b1 0 (last b))
      as [(r & b' & -> & Hr & Hbit & E1 & E2 & _ & E3 & E4 & E5)|[-> Hfull2]];
      [done|done|lia|lia|change (data b1) with (data b); rewrite ?Z.div_0_l by lia; lia| |];
      cbn [mbind res_bind].
    + do 2 eexists. split; [done|]. rewrite Z.div_0_l in Hr by lia. apply (Hok r b'); done || lia.
    + assert (Hu : spin_unlock b1 = b) by (destruct b; cbn in *; by subst).
      rewrite Hu. do 2 eexists. split; [done|]. split; [done|]. split; [done|].
      right. split; [done|]. split; [done|].
      intros k Hkk. destruct (decide (k < last b / 32 * 32)).
      * rewrite <- Hb. apply Hfull2. rewrite Z.div_0_l; lia.
      * rewrite <- Hb. apply Hfull. lia.
Qed.

Lemma clear_bit_testbit j k :
  0 <= j < 32 -> 0 <= k < 32 -> Z.testbit (u32 (Z.lnot (Z.shiftl 1 j))) k = negb (k =? j).
Proof.
  intros Hj Hk. unfold u32. rewrite Z.mod_pow2_bits_low, Z.lnot_spec by lia. f_equal.
  rewrite Z.shiftl_spec by lia. destruct (Z.eqb_spec k j) as [->|]; [by rewrite Z.sub_diag|].
  destruct (Z.ltb_spec k j); [by rewrite Z.testbit_neg_r by lia|].
  apply (testbit_small 1 1); lia.
Qed.

(** [bmap_free] of a bit of an unlocked, well-formed bitmap clears that
    bit and no other, returns 0 and leaves the bitmap well formed and
    unlocked; a bit at or after the size is refused with -1 and no change. *)
Theorem bmap_free_spec b bit :
  wf b -> lock b = 0 -> 0 <= bit ->
  exists r b', bmap_free b bit = Ok (r, b') /\ wf b' /\ lock b' = 0 /\
    (if bit <? size b
     then r = 0 /\ forall k, 0 <= k -> bit_of b' k = (negb (k =? bit) && bit_of b k)%bool
     else r = -1 /\ b' = b).
Proof.
  intros (Hs & Hm & Hlen & Hf & Hl0 & Hl) Hk Hbit. unfold bmap_free.
  destruct (Z.leb_spec (size b) bit) as [Hge|Hlt].
  { do 2 eexists. split; [done|]. rewrite (proj2 (Z.ltb_ge bit (size b))) by lia.
    split_and!; try done. }
  rewrite (proj2 (Z.ltb_lt bit (size b))), (proj2 (Z.ltb_ge bit 0)) by lia.
  unfold spin_lock. rewrite Hk. cbn [Z.eqb mbind res_bind data].
  pose proof (Z.div_mod bit 32 ltac:(lia)). pose proof (Z.mod_pos_bound bit 32 ltac:(lia)).
  pose proof (Z.div_mod (size b) 32 ltac:(lia)). assert (0 <= bit / 32) by (apply Z.div_pos; lia).
  destruct (lookup_lt_is_Some_2 (data b) (Z.to_nat (bit / 32))) as [w Hw]; [lia|].
  assert (Hwr : 0 <= w < 2 ^ 32) by (eapply (Forall_lookup_1 _ _ _ _ Hf Hw)).
  unfold rd. rewrite Hw. cbn [mbind res_bind]. rewrite wr_in by lia. cbn [mbind res_bind].
  do 2 eexists. split; [done|]. unfold wf, spin_unlock. cbn [size last lock data].
  rewrite length_insert. split_and!; try done; try lia.
  - apply Forall_insert; [done|]. by apply land_u32.
  - intros k Hk0. destruct (decide (bit / 32 * 32 <= k < bit / 32 * 32 + 32)).
    + rewrite (bit_of_word b (Z.to_nat (bit / 32)) w) by (done || lia).
      erewrite bit_of_word; [|cbn; apply list_lookup_insert_eq; lia|lia].
      rewrite Z.land_spec, clear_bit_testbit, andb_comm, Z2Nat.id by lia. do 2 f_equal.
      apply eq_true_iff_eq. rewrite !Z.eqb_eq. lia.
    + unfold bit_of. cbn [data]. rewrite list_lookup_insert_ne.
      * replace (k =? bit) with false; [done|]. symmetry. apply Z.eqb_neq. lia.
      * pose proof (Z.div_mod k 32). pose proof (Z.mod_pos_bound k 32).
        assert (0 <= k / 32) by (apply Z.div_pos; lia). lia.
Qed.

(** A bitmap of 64 bits whose first word is full. *)
Definition half_full : bmap_t := BM 64 31 0 [0xFFFFFFFF; 5].

Lemma half_full_wf : wf half_full.
Proof.
  unfold wf, half_full. cbn [size last lock data]. split_and!; [lia|lia|reflexivity|reflexivity| |lia|lia].
  repeat constructor; lia.
Defined.

Lemma bmap_get_free_spec_witness :
  exists r b', bmap_get_free half_full = Ok (r, b') /\ wf b' /\ lock b' = 0 /\
    ((0 <= r < size half_full /\ bit_of half_full r = false /\
      forall k, 0 <= k -> bit_of b' k = ((k =? r) || bit_of half_full k)%bool) \/
     (r = -1 /\ b' = half_full /\ forall k, 0 <= k < size half_full -> bit_of half_full k = true)).
Proof. apply (bmap_get_free_spec half_full); [apply half_full_wf|reflexivity]. Defined.

Lemma bmap_free_spec_witness :
  exists r b', bmap_free half_full 3 = Ok (r, b') /\ wf b' /\ lock b' = 0 /\
    r = 0 /\ forall k, 0 <= k -> bit_of b' k = (negb (k =? 3) && bit_of half_full k)%bool.
Proof. apply (bmap_free_spec half_full 3); [apply half_full_wf|reflexivity|lia]. Defined.
End Bmap.
