(* ===== verification/BlockDev.v ===== *)
(** * What a file system needs of the buffer queue

    The interface between src/cofs.c and src/hd_queue.c: a state with
    [get]/[put] of block buffers, reads and writes of a buffer that is held,
    and the laws the file system relies on.  [bview s b] is what block [b]
    contains as seen through the buffers, [bheld s] the buffers that are
    locked, with their block numbers. *)
From S2P Require Import Prelude.

Definition BLOCK_SIZE : Z := 512.

(** Block contents: 512 bytes. *)
Definition is_block (c : list Z) : Prop := length c = 512%nat /\ Forall is_byte c.

Class BlockDev (S : Type) := {
  bget : Z -> st S nat;              (* get_hd_buf *)
  bput : nat -> st S unit;           (* put_hd_buf *)
  bread : nat -> st S (list Z);      (* reading hdb->buf *)
  bwrite : nat -> list Z -> st S unit; (* hdb->buf = ..; hdb->is_dirty = true *)
  bview : S -> Z -> list Z;
  bheld : S -> gmap nat Z;
  bvalid : S -> Z -> Prop;
  binv : S -> Prop;
  bcap : nat
}.

Class BlockDevLaws (S : Type) `{BlockDev S} := {
  bcap_pos : (4 <= bcap)%nat;
  bview_block s b : binv s -> bvalid s b -> is_block (bview s b);
  bget_spec s b :
    binv s -> bvalid s b -> (forall h b', bheld s !! h = Some b' -> b' <> b) ->
    (size (bheld s) < bcap)%nat ->
    exists h s', bget b s = Ok (h, s') /\ binv s' /\ bheld s !! h = None /\
      bheld s' = <[h := b]> (bheld s) /\ (forall x, bvalid s' x <-> bvalid s x) /\
      (forall x, bvalid s x -> bview s' x = bview s x);
  bread_spec s h b :
    binv s -> bheld s !! h = Some b -> bread h s = Ok (bview s b, s);
  bwrite_spec s h b c :
    binv s -> bheld s !! h = Some b -> is_block c ->
    exists s', bwrite h c s = Ok (tt, s') /\ binv s' /\ bheld s' = bheld s /\
      (forall x, bvalid s' x <-> bvalid s x) /\
      (forall x, bvalid s x -> bview s' x = if decide (x = b) then c else bview s x);
  bput_spec s h b :
    binv s -> bheld s !! h = Some b ->
    exists s', bput h s = Ok (tt, s') /\ binv s' /\ bheld s' = delete h (bheld s) /\
      (forall x, bvalid s' x <-> bvalid s x) /\
      (forall x, bvalid s x -> bview s' x = bview s x);
  bheld_valid s h b : binv s -> bheld s !! h = Some b -> bvalid s b
}.
