(* ===== verification/HdQueue.v ===== *)
(** * Disk buffers (src/hd_queue.c, src/hd.c: hd_rw)

    The queue of the disk buffers over a disk of 512-byte sectors.  A
    [hd_buf_t *] is the position of the buffer in the queue: buffers are
    appended and never removed.  The disk itself, behind the ATA ports, is a
    map from sector numbers to their contents; a sector that was never
    written is zero. *)
From S2P Require Import Prelude BlockDev.

Module HdQueue.
Definition MAX_HD_BUFS : nat := 200.

(** ** Data *)
Record hd_buf_t := HB {
  block_no : Z;
  is_dirty : bool;
  ref_count : Z;
  lock : Z;
  buf : list Z
}.

Record hdq := HQ {
  bufs : list hd_buf_t;
  qlock : Z;
  disk : gmap Z (list Z);
  p_offs : Z
}.

Definition zero_block : list Z := replicate 512 0.

(** The address the four port writes of [hd_rw] give the controller. *)
Definition hd_lba (sector : Z) : Z :=
  Z.lor (Z.lor (Z.lor (Z.land sector 0xFF)
                      (Z.shiftl (Z.land (Z.shiftr sector 8) 0xFF) 8))
               (Z.shiftl (Z.land (Z.shiftr sector 16) 0xFF) 16))
        (Z.shiftl (Z.land (Z.shiftr sector 24) 0x0F) 24).

Definition sector_of (q : hdq) (block : Z) : Z := hd_lba (s32 (block + p_offs q)).
Definition disk_read (q : hdq) (n : Z) : list Z := default zero_block (disk q !! n).

Definition set_bufs (q : hdq) (l : list hd_buf_t) : hdq := HQ l (qlock q) (disk q) (p_offs q).
Definition set_qlock (q : hdq) (v : Z) : hdq := HQ (bufs q) v (disk q) (p_offs q).

Definition with_lock (h : hd_buf_t) (v : Z) : hd_buf_t :=
  HB (block_no h) (is_dirty h) (ref_count h) v (buf h).
Definition with_ref (h : hd_buf_t) (v : Z) : hd_buf_t :=
  HB (block_no h) (is_dirty h) v (lock h) (buf h).
Definition with_dirty (h : hd_buf_t) (v : bool) : hd_buf_t :=
  HB (block_no h) v (ref_count h) (lock h) (buf h).
Definition with_buf (h : hd_buf_t) (v : list Z) : hd_buf_t :=
  HB (block_no h) (is_dirty h) (ref_count h) (lock h) v.

(** ** Operations *)
Definition deref (i : nat) : st hdq hd_buf_t := fun q =>
  match bufs q !! i with Some h => Ok (h, q) | None => Err EOob end.
Definition store (i : nat) (h : hd_buf_t) : st hdq unit :=
  modify (fun q => set_bufs q (<[i := h]> (bufs q))).

Definition lock_queue : st hdq unit := fun q =>
  if qlock q =? 0 then Ok (tt, set_qlock q 1) else Err EDeadlock.
Definition unlock_queue : st hdq unit := modify (fun q => set_qlock q 0).
Definition lock_buf (i : nat) : st hdq unit :=
  h ← deref i;
  if lock h =? 0 then store i (with_lock h 1) else fail EDeadlock.

Definition hd_rw (i : nat) : st hdq unit :=
  h ← deref i;
  kassert (lock h =? 1);;
  q ← get;
  let sector := sector_of q (block_no h) in
  if is_dirty h
  then put (HQ (bufs q) (qlock q) (<[sector := buf h]> (disk q)) (p_offs q))
  else store i (with_buf h (disk_read q sector)).

(** [new_hd_buf] leaves the data of the buffer uninitialised; the queue reads
    the block into it before it is used. *)
Definition new_hd_buf : hd_buf_t := HB 0 false 0 0 zero_block.

Definition free_hd_buf (h : hd_buf_t) : res unit :=
  if negb (ref_count h =? 0) then Err EPanic else Ok tt.

(** The first buffer of a block, and the first reusable buffer. *)
Fixpoint find_block (l : list hd_buf_t) (block : Z) (i : nat) : option nat :=
  match l with
  | [] => None
  | h :: l' => if block_no h =? block then Some i else find_block l' block (S i)
  end.

(** The loop leaves [hdb] at the last buffer when it finds no free one. *)
Fixpoint find_reusable (l : list hd_buf_t) (i : nat) (hdb : option nat) : option nat :=
  match l with
  | [] => hdb
  | h :: l' =>
      if ((ref_count h =? 0) && negb (is_dirty h) && (lock h =? 0))%bool then Some i
      else find_reusable l' (S i) (Some i)
  end.

Definition get_hd_buf (block : Z) : st hdq nat :=
  lock_queue;;
  q ← get;
  let found := find_block (bufs q) block 0 in
  unlock_queue;;
  match found with
  | Some i =>
      h ← deref i;
      store i (with_ref h (ref_count h + 1));;
      lock_buf i;;
      mret i
  | None =>
      lock_queue;;
      q ← get;
      i ← (if decide (length (bufs q) < MAX_HD_BUFS)%nat
           then put (set_bufs q (bufs q ++ [new_hd_buf]));; mret (length (bufs q))
           else match find_reusable (bufs q) 0 None with
                | None => fail EPanic
                | Some i => mret i
                end);
      h ← deref i;
      store i (HB block false 1 0 (buf h));;
      lock_buf i;;
      unlock_queue;;
      hd_rw i;;
      mret i
  end.

Definition put_hd_buf (i : nat) : st hdq unit :=
  lock_queue;;
  h ← deref i;
  (if ref_count h <=? 0 then fail EPanic else mret tt);;
  store i (with_ref h (ref_count h - 1));;
  h ← deref i;
  (if (is_dirty h && (ref_count h =? 0))%bool
   then hd_rw i;; h ← deref i; store i (with_dirty h false)
   else mret tt);;
  h ← deref i;
  store i (with_lock h 0);;
  unlock_queue.

Definition hd_queue_init (d : gmap Z (list Z)) (p : Z) : hdq := HQ [] 0 d p.

(** Accesses of a client to the buffer it holds. *)
Definition read_buf (i : nat) : st hdq (list Z) := h ← deref i; mret (buf h).
Definition write_buf (i : nat) (c : list Z) : st hdq unit :=
  h ← deref i; store i (with_dirty (with_buf h c) true).

(** ** The abstract block store a queue represents *)
Definition view (q : hdq) (b : Z) : list Z :=
  match find_block (bufs q) b 0 with
  | Some i => match bufs q !! i with Some h => buf h | None => [] end
  | None => disk_read q (sector_of q b)
  end.

Definition held_block (h : hd_buf_t) : option Z :=
  if lock h =? 0 then None else Some (block_no h).
Definition held (q : hdq) : gmap nat Z := omap held_block (map_seq 0 (bufs q)).

(** The partition lies inside of the 28-bit address range of the disk. *)
Definition valid (q : hdq) (b : Z) : Prop := 0 <= b /\ 0 <= p_offs q /\ b + p_offs q < 2 ^ 28.

(** A buffer is either free and clean or locked by its one user; a clean
    buffer agrees with the disk. *)
Definition buf_ok (q : hdq) (h : hd_buf_t) : Prop :=
  is_block (buf h) /\ valid q (block_no h) /\
  ((lock h = 0 /\ ref_count h = 0 /\ is_dirty h = false) \/ (lock h = 1 /\ ref_count h = 1)) /\
  (is_dirty h = false -> buf h = disk_read q (sector_of q (block_no h))).

Definition inv (q : hdq) : Prop :=
  qlock q = 0 /\ NoDup (block_no <$> bufs q) /\ (length (bufs q) <= MAX_HD_BUFS)%nat /\
  (forall i h, bufs q !! i = Some h -> buf_ok q h) /\
  (forall n, is_block (disk_read q n)).

(** ** Lemmas *)
Lemma hd_lba_small n : 0 <= n < 2 ^ 28 -> hd_lba n = n.
Proof.
  intros Hn. unfold hd_lba.
  change 0xFF with (Z.ones 8). change 0x0F with (Z.ones 4).
  apply Z.bits_inj'. intros k Hk.
  rewrite !Z.lor_spec, Z.land_spec, !Z.shiftl_spec, !Z.land_spec by done.
  destruct (Z.ltb_spec k 28).
  - destruct (Z.ltb_spec k 8); [|destruct (Z.ltb_spec k 16); [|destruct (Z.ltb_spec k 24)]].
    all: repeat first
      [ rewrite Z.shiftr_spec by lia
      | rewrite (Z.ones_spec_low _ k) by lia
      | rewrite (Z.ones_spec_high _ k) by lia
      | rewrite (Z.ones_spec_low _ (k - _)) by lia
      | rewrite (Z.ones_spec_high _ (k - _)) by lia
      | rewrite (Z.testbit_neg_r _ (k - _)) by lia
      | rewrite andb_false_r | rewrite andb_true_r | rewrite orb_false_r | rewrite orb_false_l ].
    all: try done; f_equal; lia.
  - rewrite (testbit_small n 28 k), !Z.shiftr_spec by lia.
    rewrite !(testbit_small n 28) by lia. done.
Qed.

Lemma sector_of_valid q b : valid q b -> sector_of q b = b + p_offs q.
Proof.
  intros (? & ? & ?). unfold sector_of. rewrite s32_small by lia. apply hd_lba_small. lia.
Qed.

Lemma find_block_Some l b k i :
  find_block l b k = Some i ->
  (k <= i)%nat /\ exists h, l !! (i - k)%nat = Some h /\ block_no h = b.
Proof.
  revert k. induction l as [|h l IH]; intros k; simpl; [done|].
  destruct (Z.eqb_spec (block_no h) b) as [Hb|Hb].
  - intros [= <-]. split; [lia|]. exists h. by rewrite Nat.sub_diag.
  - intros (? & h' & Hl & Hbl)%IH. split; [lia|]. exists h'. split; [|done].
    replace (i - k)%nat with (S (i - S k)) by lia. done.
Qed.

Lemma find_block_None l b k :
  find_block l b k = None -> forall i h, l !! i = Some h -> block_no h <> b.
Proof.
  revert k. induction l as [|h l IH]; intros k; simpl; [done|].
  destruct (Z.eqb_spec (block_no h) b) as [Hb|Hb]; [done|].
  intros Hf [|i] h' Hi; simpl in Hi; [congruence|]. eapply IH; eauto.
Qed.

Lemma block_unique q i j h h' :
  inv q -> bufs q !! i = Some h -> bufs q !! j = Some h' -> block_no h = block_no h' -> i = j.
Proof.
  intros (_ & Hnd & _) Hi Hj He. apply (NoDup_lookup _ _ _ (block_no h) Hnd);
    rewrite list_lookup_fmap; [rewrite Hi|rewrite Hj]; cbn; congruence.
Qed.

Lemma find_block_at q i h :
  inv q -> bufs q !! i = Some h -> find_block (bufs q) (block_no h) 0 = Some i.
Proof.
  intros Hq Hi. destruct (find_block (bufs q) (block_no h) 0) as [j|] eqn:E.
  - apply find_block_Some in E as (_ & h' & Hj & Hb). rewrite Nat.sub_0_r in Hj.
    f_equal. by eapply block_unique.
  - by eapply find_block_None in E.
Qed.

Lemma view_cached q i h : inv q -> bufs q !! i = Some h -> view q (block_no h) = buf h.
Proof. intros Hq Hi. unfold view. rewrite (find_block_at q i h) by done. by rewrite Hi. Qed.

Lemma view_uncached q b :
  (forall i h, bufs q !! i = Some h -> block_no h <> b) ->
  view q b = disk_read q (sector_of q b).
Proof.
  intros Hn. unfold view. destruct (find_block (bufs q) b 0) as [i|] eqn:E; [|done].
  apply find_block_Some in E as (_ & h & Hh & Hb). by apply Hn in Hh.
Qed.

(** Either a block is cached, or its contents are those of the disk. *)
Lemma cached_or_not (q : hdq) b :
  (exists i h, bufs q !! i = Some h /\ block_no h = b) \/
  (forall i h, bufs q !! i = Some h -> block_no h <> b).
Proof.
  destruct (find_block (bufs q) b 0) as [i|] eqn:E.
  - left. apply find_block_Some in E as (_ & h & Hh & Hb). rewrite Nat.sub_0_r in Hh. eauto.
  - right. by eapply find_block_None.
Qed.

Lemma lookup_held q i b :
  held q !! i = Some b <-> exists h, bufs q !! i = Some h /\ lock h <> 0 /\ block_no h = b.
Proof.
  unfold held. rewrite lookup_omap, lookup_map_seq_0.
  destruct (bufs q !! i) as [h|]; cbn; [|naive_solver].
  unfold held_block. destruct (Z.eqb_spec (lock h) 0); naive_solver.
Qed.

Lemma held_None q i h :
  bufs q !! i = Some h -> lock h = 0 -> held q !! i = None.
Proof.
  intros Hi Hl. destruct (held q !! i) as [b|] eqn:E; [|done].
  apply lookup_held in E as (h' & ? & ? & ?). congruence.
Qed.

(** What the invariant says of a held buffer. *)
Lemma held_buf q i b :
  inv q -> held q !! i = Some b ->
  exists h, bufs q !! i = Some h /\ block_no h = b /\ lock h = 1 /\ ref_count h = 1 /\
    buf_ok q h /\ view q b = buf h.
Proof.
  intros Hq Hh. apply lookup_held in Hh as (h & Hi & Hl & <-).
  pose proof Hq as (_ & _ & _ & Hok & _). specialize (Hok i h Hi).
  exists h. rewrite (view_cached q i h) by done.
  pose proof Hok as (_ & _ & [[? ?]|[? ?]] & _); [done|].
  do 5 (split; [done|]). done.
Qed.

(** ** Running the operations *)
Lemma deref_run i h q : bufs q !! i = Some h -> deref i q = Ok (h, q).
Proof. intros H. unfold deref. by rewrite H. Qed.

Lemma lock_buf_run i h q :
  bufs q !! i = Some h -> lock h = 0 ->
  lock_buf i q = Ok (tt, set_bufs q (<[i := with_lock h 1]> (bufs q))).
Proof.
  intros Hi Hl. unfold lock_buf. rewrite (st_bind_eq _ _ _ _ _ (deref_run _ _ _ Hi)).
  by rewrite Hl.
Qed.

Lemma hd_rw_read i h q :
  bufs q !! i = Some h -> lock h = 1 -> is_dirty h = false ->
  hd_rw i q =
    Ok (tt, set_bufs q (<[i := with_buf h (disk_read q (sector_of q (block_no h)))]> (bufs q))).
Proof.
  intros Hi Hl Hd. unfold hd_rw. rewrite (st_bind_eq _ _ _ _ _ (deref_run _ _ _ Hi)).
  rewrite Hl. cbn [Z.eqb Pos.eqb]. unfold kassert. st_run. by rewrite Hd.
Qed.

Lemma hd_rw_write i h q :
  bufs q !! i = Some h -> lock h = 1 -> is_dirty h = true ->
  hd_rw i q =
    Ok (tt, HQ (bufs q) (qlock q) (<[sector_of q (block_no h) := buf h]> (disk q)) (p_offs q)).
Proof.
  intros Hi Hl Hd. unfold hd_rw. rewrite (st_bind_eq _ _ _ _ _ (deref_run _ _ _ Hi)).
  rewrite Hl. cbn [Z.eqb Pos.eqb]. unfold kassert. st_run. by rewrite Hd.
Qed.

Lemma lookup_upd (l : list hd_buf_t) i h h' :
  l !! i = Some h -> <[i := h']> l !! i = Some h'.
Proof. intros Hi. apply list_lookup_insert_eq. by eapply lookup_lt_Some. Qed.

Lemma get_hit q i h :
  inv q -> bufs q !! i = Some h -> lock h = 0 ->
  get_hd_buf (block_no h) q =
    Ok (i, set_bufs q (<[i := HB (block_no h) (is_dirty h) (ref_count h + 1) 1 (buf h)]> (bufs q))).
Proof.
  intros Hq Hi Hl. pose proof Hq as [Hk _]. unfold get_hd_buf, lock_queue, unlock_queue. st_run.
  rewrite Hk. cbn [Z.eqb]. change (bufs (set_qlock q 1)) with (bufs q).
  rewrite (find_block_at q i h) by done.
  rewrite (deref_run i h) by done. unfold store, modify. st_run.
  erewrite lock_buf_run; [|by eapply lookup_upd|done].
  destruct q; cbn in *; subst. unfold set_bufs, set_qlock. cbn.
  by rewrite list_insert_insert_eq.
Qed.

(** What a miss does with the buffer [i] of the queue [base] that it installs
    the block in. *)
Lemma get_install b i base d p h :
  base !! i = Some h ->
  (h0 ← deref i; store i (HB b false 1 0 (buf h0));; lock_buf i;; unlock_queue;; hd_rw i;; mret i)
    (HQ base 1 d p) =
  Ok (i, HQ (<[i := HB b false 1 1 (default zero_block (d !! hd_lba (s32 (b + p))))]> base) 0 d p).
Proof.
  intros Hi. rewrite (st_bind_eq _ _ _ _ _ (deref_run i h (HQ base 1 d p) Hi)).
  unfold store, modify, unlock_queue. st_run.
  erewrite lock_buf_run; [|cbn; by eapply lookup_upd|done]. st_run.
  erewrite hd_rw_read; [|cbn; eapply lookup_upd; by eapply lookup_upd|done..].
  cbn. by rewrite !list_insert_insert_eq.
Qed.

Lemma find_reusable_spec l k acc i h :
  l !! i = Some h -> ref_count h = 0 -> is_dirty h = false -> lock h = 0 ->
  exists j h', find_reusable l k acc = Some (k + j)%nat /\ l !! j = Some h' /\
    ref_count h' = 0 /\ is_dirty h' = false /\ lock h' = 0.
Proof.
  revert k acc i. induction l as [|x l IH]; intros k acc i Hi Hr Hd Hl; [done|].
  cbn [find_reusable].
  destruct ((ref_count x =? 0) && negb (is_dirty x) && (lock x =? 0))%bool eqn:E.
  - to_prop. exists 0%nat, x. rewrite Nat.add_0_r. done.
  - destruct i as [|i]; simpl in Hi.
    + simplify_eq. rewrite Hr, Hd, Hl in E. done.
    + destruct (IH (S k) (Some k) i) as (j & h' & -> & ?); [done..|].
      exists (S j), h'. rewrite Nat.add_succ_r. done.
Qed.

(** With fewer buffers held than the queue may have, a full queue has a
    buffer that can be reused. *)
Lemma free_buf_exists q :
  inv q -> (size (held q) < length (bufs q))%nat ->
  exists i h, bufs q !! i = Some h /\ ref_count h = 0 /\ is_dirty h = false /\ lock h = 0.
Proof.
  intros Hq Hs.
  destruct (decide (Exists (fun h => lock h = 0) (bufs q))) as [He|He].
  - apply Exists_exists in He as (h & Hin & Hl). apply list_elem_of_lookup in Hin as [i Hi].
    destruct Hq as (_ & _ & _ & Hok & _). destruct (Hok i h Hi) as (_ & _ & [(?&?&?)|(?&?)] & _);
      [by exists i, h|lia].
  - exfalso. apply not_Exists_Forall in He; [|apply _].
    assert (set_seq 0 (length (bufs q)) ⊆ dom (held q)) as Hsub.
    { intros i Hi. apply elem_of_set_seq in Hi as [_ Hi].
      destruct (lookup_lt_is_Some_2 (bufs q) i) as [h Hh]; [lia|].
      apply elem_of_dom. exists (block_no h). apply lookup_held. exists h.
      split_and!; [done| |done]. by apply (Forall_lookup_1 _ _ _ _ He Hh). }
    apply subseteq_size in Hsub. rewrite size_dom, size_set_seq in Hsub. lia.
Qed.

(** ** Changing one buffer *)
Definition upd (q : hdq) (i : nat) (h : hd_buf_t) : hdq := set_bufs q (<[i := h]> (bufs q)).

Lemma upd_fmap (l : list hd_buf_t) i h h' :
  l !! i = Some h -> block_no h' = block_no h -> block_no <$> <[i := h']> l = block_no <$> l.
Proof.
  intros Hi Hb. rewrite list_fmap_insert. apply list_insert_id.
  rewrite list_lookup_fmap, Hi. cbn. congruence.
Qed.

Lemma upd_inv q i h h' :
  inv q -> bufs q !! i = Some h -> block_no h' = block_no h -> buf_ok q h' ->
  inv (upd q i h').
Proof.
  intros (Hk & Hnd & Hl & Hok & Hd) Hi Hb Hh'. unfold inv, upd. cbn [qlock bufs set_bufs].
  rewrite (upd_fmap _ i h), length_insert by done.
  do 3 (split; [done|]). split; [|done]. intros j hj Hj.
  apply list_lookup_insert_Some in Hj as [(<- & <- & _)|[_ Hj]]; [done|by eapply Hok].
Qed.

Lemma upd_view q i h h' x :
  inv q -> bufs q !! i = Some h -> block_no h' = block_no h -> buf_ok q h' ->
  view (upd q i h') x = if decide (x = block_no h) then buf h' else view q x.
Proof.
  intros Hq Hi Hb Hh'. pose proof (upd_inv q i h h' Hq Hi Hb Hh') as Hq'.
  case_decide as Hx; [subst x|].
  - rewrite <- Hb. apply (view_cached _ i); [done|]. by eapply lookup_upd.
  - destruct (cached_or_not q x) as [(j & hj & Hj & Hbj)|Hn].
    + assert (i <> j) by (intros ->; congruence). subst x.
      rewrite (view_cached q j hj) by done. apply (view_cached _ j); [done|].
      cbn. by rewrite list_lookup_insert_ne.
    + rewrite (view_uncached q) by done. rewrite view_uncached; [done|].
      intros j hj Hj. cbn in Hj.
      apply list_lookup_insert_Some in Hj as [(_ & <- & _)|[_ Hj]]; [congruence|by eapply Hn].
Qed.

Lemma held_insert (l : list hd_buf_t) i h' k d p k' d' p' :
  (i < length l)%nat ->
  held (HQ (<[i := h']> l) k d p) =
    match held_block h' with
    | Some b => <[i := b]> (held (HQ l k' d' p'))
    | None => delete i (held (HQ l k' d' p'))
    end.
Proof.
  intros Hi. apply map_eq. intros j. unfold held. cbn [bufs].
  rewrite lookup_omap, lookup_map_seq_0. destruct (decide (i = j)) as [<-|Hne].
  - rewrite list_lookup_insert_eq by done. cbn. destruct (held_block h').
    + by rewrite lookup_insert_eq.
    + by rewrite lookup_delete_eq.
  - rewrite list_lookup_insert_ne by done.
    destruct (held_block h'); rewrite ?lookup_insert_ne, ?lookup_delete_ne, lookup_omap,
      lookup_map_seq_0 by done; done.
Qed.

Lemma held_snoc l h k d p k' d' p' :
  lock h = 0 -> held (HQ (l ++ [h]) k d p) = held (HQ l k' d' p').
Proof.
  intros Hl. apply map_eq. intros j. unfold held. cbn [bufs].
  rewrite !lookup_omap, !lookup_map_seq_0. destruct (decide (j < length l)%nat).
  - by rewrite lookup_app_l.
  - rewrite lookup_app_r by lia. rewrite (lookup_ge_None_2 l) by lia.
    destruct (j - length l)%nat as [|n0]; cbn; [|done].
    unfold held_block. by rewrite Hl.
Qed.

Lemma disk_read_insert q c n m bs k p :
  disk_read (HQ bs k (<[n := c]> (disk q)) p) m = if decide (m = n) then c else disk_read q m.
Proof.
  unfold disk_read. cbn. case_decide as Hm.
  - subst. by rewrite lookup_insert_eq.
  - by rewrite lookup_insert_ne.
Qed.

(** Writing a held buffer back and releasing it. *)
Definition flushed (q : hdq) (i : nat) (h : hd_buf_t) : hdq :=
  HQ (<[i := HB (block_no h) false 0 0 (buf h)]> (bufs q)) 0
     (<[sector_of q (block_no h) := buf h]> (disk q)) (p_offs q).

Lemma flush_inv q i h : inv q -> bufs q !! i = Some h -> inv (flushed q i h).
Proof.
  intros (Hk & Hnd & Hl & Hok & Hd) Hi. unfold inv, flushed. cbn [qlock bufs].
  pose proof (Hok i h Hi) as (Hblk & Hval & _).
  rewrite (upd_fmap _ i h), length_insert by done.
  do 3 (split; [done|]). split.
  - intros j hj Hj. apply list_lookup_insert_Some in Hj as [(<- & <- & _)|[Hne Hj]].
    + split_and!; try done; [by left|]. intros _. cbn [block_no buf].
      change (sector_of (HQ _ _ _ (p_offs q)) (block_no h)) with (sector_of q (block_no h)).
      rewrite disk_read_insert. by rewrite decide_True.
    + destruct (Hok j hj Hj) as (? & Hvj & ? & Hclean). do 3 (split; [done|]). intros Hdj.
      change (sector_of (HQ _ _ _ (p_offs q)) (block_no hj)) with (sector_of q (block_no hj)).
      rewrite disk_read_insert, decide_False; [by apply Hclean|].
      rewrite !sector_of_valid by done. intros He. apply Hne.
      assert (Hb : block_no hj = block_no h) by lia.
      eapply (NoDup_lookup _ i j (block_no h) Hnd); rewrite list_lookup_fmap;
        [rewrite Hi|rewrite Hj]; cbn; congruence.
  - intros n. rewrite disk_read_insert. case_decide; done.
Qed.

Lemma flush_view q i h x :
  inv q -> bufs q !! i = Some h -> valid q x -> view (flushed q i h) x = view q x.
Proof.
  intros Hq Hi Hx. pose proof (flush_inv q i h Hq Hi) as Hq'.
  destruct (cached_or_not q x) as [(j & hj & Hj & <-)|Hn].
  - rewrite (view_cached q j hj) by done. destruct (decide (i = j)) as [<-|Hne].
    + assert (hj = h) as -> by congruence.
      apply (view_cached _ i (HB (block_no h) false 0 0 (buf h)) Hq'). by eapply lookup_upd.
    + apply (view_cached _ j hj Hq'). cbn. by rewrite list_lookup_insert_ne.
  - rewrite (view_uncached q) by done. rewrite view_uncached.
    + change (sector_of (flushed q i h) x) with (sector_of q x). unfold flushed.
      rewrite disk_read_insert, decide_False; [done|].
      destruct Hq as (_ & _ & _ & Hok & _). destruct (Hok i h Hi) as (_ & Hval & _).
      rewrite !sector_of_valid by done. intros He. apply (Hn i h Hi). lia.
    + intros j hj Hj. cbn in Hj.
      apply list_lookup_insert_Some in Hj as [(_ & <- & _)|[_ Hj]]; [exact (Hn i h Hi)|by eapply Hn].
Qed.

(** ** The laws of the interface *)
#[global] Instance hdq_dev : BlockDev hdq := {
  bget := get_hd_buf;
  bput := put_hd_buf;
  bread := read_buf;
  bwrite := write_buf;
  bview := view;
  bheld := held;
  bvalid := valid;
  binv := inv;
  bcap := MAX_HD_BUFS
}.

Lemma buf_view_block q b : inv q -> is_block (view q b).
Proof.
  intros Hq. destruct (cached_or_not q b) as [(i & h & Hi & <-)|Hn].
  - rewrite (view_cached q i h) by done. destruct Hq as (_ & _ & _ & Hok & _).
    by destruct (Hok i h Hi).
  - rewrite view_uncached by done. by destruct Hq as (_ & _ & _ & _ & Hd).
Qed.

Lemma get_hit_spec q i h :
  inv q -> bufs q !! i = Some h -> lock h = 0 ->
  exists q', get_hd_buf (block_no h) q = Ok (i, q') /\ inv q' /\ held q !! i = None /\
    held q' = <[i := block_no h]> (held q) /\ (forall x, valid q' x <-> valid q x) /\
    (forall x, valid q x -> view q' x = view q x).
Proof.
  intros Hq Hi Hl. eexists. split; [by apply get_hit|].
  pose proof Hq as (_ & _ & _ & Hok & _). destruct (Hok i h Hi) as (Hb & Hv & Hst & Hcl).
  set (h' := HB _ _ _ 1 _).
  assert (Hh' : buf_ok q h').
  { split_and!; [done|done| |done]. right. cbn. destruct Hst as [(_ & Hr & _)|[? _]]; lia. }
  split; [exact (upd_inv q i h h' Hq Hi eq_refl Hh')|].
  split; [by eapply held_None|]. split.
  - unfold set_bufs. destruct q. erewrite held_insert; [done|]. by eapply lookup_lt_Some.
  - split; [done|]. intros x _. fold (upd q i h'). rewrite (upd_view q i h) by done.
    case_decide as Hx; [|done]. subst x. symmetry. exact (view_cached q i h Hq Hi).
Qed.

(** The queue after installing block [b] in the buffer [i] of [base]. *)
Definition installed (q : hdq) (base : list hd_buf_t) (i : nat) (b : Z) : hdq :=
  HQ (<[i := HB b false 1 1 (disk_read q (sector_of q b))]> base) 0 (disk q) (p_offs q).

Lemma install_inv q base i b :
  inv q -> valid q b -> (i < length base)%nat -> (length base <= MAX_HD_BUFS)%nat ->
  (forall j h, base !! j = Some h -> j <> i -> bufs q !! j = Some h) ->
  (forall j h, bufs q !! j = Some h -> block_no h <> b) ->
  inv (installed q base i b).
Proof.
  intros (Hk & Hnd & Hl & Hok & Hd) Hv Hi Hlen Hbase Hn. unfold installed.
  assert (Hcase : forall j h, <[i := HB b false 1 1 (disk_read q (sector_of q b))]> base !! j = Some h ->
    (j = i /\ h = HB b false 1 1 (disk_read q (sector_of q b))) \/ (j <> i /\ bufs q !! j = Some h)).
  { intros j h [(<- & <- & _)|[Hne Hj]]%list_lookup_insert_Some; [by left|right]. auto. }
  split_and!; cbn [qlock bufs]; [done| |by rewrite length_insert| |done].
  - apply NoDup_alt. intros j1 j2 x. rewrite !list_lookup_fmap.
    intros (h1 & H1 & ->)%fmap_Some (h2 & H2 & He)%fmap_Some.
    destruct (Hcase _ _ H1) as [[-> ->]|[Hne1 H1']], (Hcase _ _ H2) as [[-> ->]|[Hne2 H2']];
      cbn in He; [done|exfalso; by eapply Hn|exfalso; eapply Hn; [exact H1'|congruence]|].
    eapply (NoDup_lookup _ j1 j2 (block_no h1) Hnd); rewrite list_lookup_fmap;
      [rewrite H1'|rewrite H2']; cbn; congruence.
  - intros j h Hj. destruct (Hcase _ _ Hj) as [[-> ->]|[_ Hj']]; [|by apply (Hok j h)].
    split; [apply Hd|]. split; [done|]. split; [by right|done].
Qed.

Lemma install_view q base i b x :
  inv q -> valid q b -> (i < length base)%nat -> (length base <= MAX_HD_BUFS)%nat ->
  (forall j h, base !! j = Some h -> j <> i -> bufs q !! j = Some h) ->
  (forall j h, bufs q !! j = Some h -> j <> i -> base !! j = Some h) ->
  (forall j h, bufs q !! j = Some h -> block_no h <> b) ->
  (forall h, bufs q !! i = Some h -> is_dirty h = false) ->
  view (installed q base i b) x = view q x.
Proof.
  intros Hq Hv Hi Hlen Hbase Hbase' Hn Hclean.
  pose proof (install_inv q base i b Hq Hv Hi Hlen Hbase Hn) as Hq'.
  set (hn := HB b false 1 1 (disk_read q (sector_of q b))) in *.
  assert (Hin : bufs (installed q base i b) !! i = Some hn) by by apply list_lookup_insert_eq.
  destruct (decide (x = b)) as [->|Hxb].
  { rewrite (view_uncached q b) by done. exact (view_cached _ i hn Hq' Hin). }
  assert (Hun : (forall j h, bufs q !! j = Some h -> j <> i -> block_no h <> x) ->
    view (installed q base i b) x = disk_read q (sector_of q x)).
  { intros Hx. rewrite view_uncached; [done|]. intros j h Hj. cbn in Hj.
    apply list_lookup_insert_Some in Hj as [(_ & <- & _)|[Hne Hj]]; [cbn; congruence|]. eauto. }
  destruct (cached_or_not q x) as [(j & hj & Hj & <-)|Hx].
  - rewrite (view_cached q j hj) by done. destruct (decide (j = i)) as [->|Hne].
    + rewrite Hun.
      * symmetry. pose proof Hq as (_ & _ & _ & Hok & _).
        destruct (Hok i hj Hj) as (_ & _ & _ & Hc). apply Hc. auto.
      * intros k hk Hk Hki He. apply Hki. exact (block_unique q k i hk hj Hq Hk Hj He).
    + apply (view_cached _ j hj Hq'). cbn. rewrite list_lookup_insert_ne by done. auto.
  - rewrite (view_uncached q) by done. apply Hun. eauto.
Qed.

Lemma held_install q base i b :
  (i < length base)%nat -> held (HQ base 0 (disk q) (p_offs q)) = held q ->
  held (installed q base i b) = <[i := b]> (held q).
Proof. intros Hi <-. by apply (held_insert base i (HB b false 1 1 _)). Qed.

Lemma get_miss_spec q b :
  inv q -> valid q b -> (forall j h, bufs q !! j = Some h -> block_no h <> b) ->
  (size (held q) < MAX_HD_BUFS)%nat ->
  exists i q', get_hd_buf b q = Ok (i, q') /\ inv q' /\ held q !! i = None /\
    held q' = <[i := b]> (held q) /\ (forall x, valid q' x <-> valid q x) /\
    (forall x, valid q x -> view q' x = view q x).
Proof.
  intros Hq Hv Hn Hcap. pose proof Hq as (Hk & Hnd & Hlen & Hok & Hd).
  assert (Hf : find_block (bufs q) b 0 = None).
  { destruct (find_block (bufs q) b 0) as [i|] eqn:E; [|done].
    apply find_block_Some in E as (_ & h & Hh & Hb). by apply Hn in Hh. }
  unfold get_hd_buf, lock_queue, unlock_queue. st_run. rewrite Hk. cbn [Z.eqb].
  change (bufs (set_qlock q 1)) with (bufs q). rewrite Hf.
  change (qlock (set_qlock (set_qlock q 1) 0)) with 0. cbn [Z.eqb].
  change (bufs (set_qlock (set_qlock (set_qlock q 1) 0) 1)) with (bufs q).
  destruct (decide (length (bufs q) < MAX_HD_BUFS)%nat) as [Hroom|Hfull].
  - set (base := bufs q ++ [new_hd_buf]). set (i := length (bufs q)).
    assert (Hbi : base !! i = Some new_hd_buf) by by apply list_lookup_middle.
    assert (Hlb : (i < length base)%nat) by by eapply lookup_lt_Some.
    assert (Hold : forall j h, base !! j = Some h -> j <> i -> bufs q !! j = Some h).
    { intros j h Hj Hne. apply lookup_app_Some in Hj as [Hj|[Hge Hj]]; [done|].
      exfalso. apply lookup_lt_Some in Hj. simpl in Hj. lia. }
    assert (Hnew : forall j h, bufs q !! j = Some h -> base !! j = Some h)
      by (intros; by apply lookup_app_l_Some).
    assert (Hle : (length base <= MAX_HD_BUFS)%nat)
      by (unfold base; rewrite length_app; simpl; lia).
    exists i, (installed q base i b). split.
    { cbn beta iota. exact (get_install b i base (disk q) (p_offs q) _ Hbi). }
    split; [by apply install_inv|]. split.
    { unfold held. rewrite lookup_omap, lookup_map_seq_0, lookup_ge_None_2; [done|lia]. }
    split; [apply held_install; [done|]; destruct q; by apply held_snoc|].
    split; [done|]. intros x _. apply install_view; auto.
    intros h Hh. apply lookup_lt_Some in Hh. lia.
  - destruct (free_buf_exists q Hq) as (i0 & h0 & Hi0 & Hr0 & Hd0 & Hl0); [lia|].
    destruct (find_reusable_spec (bufs q) 0 None i0 h0) as (i & h & -> & Hi & Hr & Hdi & Hli); [done..|].
    cbn beta iota. rewrite Nat.add_0_l.
    assert (Hlb : (i < length (bufs q))%nat) by by eapply lookup_lt_Some.
    exists i, (installed q (bufs q) i b). split.
    { exact (get_install b i (bufs q) (disk q) (p_offs q) h Hi). }
    split; [apply install_inv; auto|]. split; [by eapply held_None|].
    split; [apply held_install; [done|]; by destruct q|].
    split; [done|]. intros x _. apply install_view; auto. intros h' Hh'. congruence.
Qed.

Lemma hd_put_run q i h :
  inv q -> bufs q !! i = Some h -> lock h = 1 -> ref_count h = 1 ->
  put_hd_buf i q =
    Ok (tt, if is_dirty h then flushed q i h
            else upd q i (HB (block_no h) false 0 0 (buf h))).
Proof.
  intros (Hk & _) Hi Hl Hr. unfold put_hd_buf, lock_queue, unlock_queue. st_run.
  rewrite Hk. cbn [Z.eqb]. rewrite (deref_run i h) by done. rewrite Hr. cbn [Z.leb Z.compare].
  unfold store, modify. st_run.
  erewrite deref_run by by eapply lookup_upd.
  destruct h as [bn [] rc lk bf]; cbn [is_dirty with_ref ref_count lock block_no buf] in *; subst.
  - change (true && (1 - 1 =? 0))%bool with true. cbn beta iota.
    erewrite hd_rw_write; [|by eapply lookup_upd|done..]. st_run.
    erewrite deref_run by by eapply lookup_upd. st_run.
    erewrite deref_run by (cbn; eapply lookup_upd; by eapply lookup_upd).
    unfold flushed, set_bufs, set_qlock. cbn. by rewrite !list_insert_insert_eq.
  - cbn [andb]. erewrite deref_run by by eapply lookup_upd.
    unfold upd, set_bufs, set_qlock. cbn. rewrite Hk. by rewrite list_insert_insert_eq.
Qed.

Lemma put_spec q i b :
  inv q -> held q !! i = Some b ->
  exists q', put_hd_buf i q = Ok (tt, q') /\ inv q' /\ held q' = delete i (held q) /\
    (forall x, valid q' x <-> valid q x) /\ (forall x, valid q x -> view q' x = view q x).
Proof.
  intros Hq Hh. destruct (held_buf q i b Hq Hh) as (h & Hi & <- & Hl & Hr & Hok & Hview).
  eexists. split; [by apply hd_put_run|]. pose proof (lookup_lt_Some _ _ _ Hi).
  destruct (is_dirty h) eqn:Hd.
  - split; [by apply flush_inv|]. split.
    + unfold flushed. destruct q. by erewrite held_insert.
    + split; [done|]. intros x Hx. by apply flush_view.
  - set (h' := HB (block_no h) false 0 0 (buf h)).
    assert (Hh' : buf_ok q h').
    { destruct Hok as (? & ? & _ & Hc). split; [done|]. split; [done|]. split; [by left|].
      intros _. by apply Hc. }
    split; [exact (upd_inv q i h h' Hq Hi eq_refl Hh')|]. split.
    + unfold upd, set_bufs. destruct q. by erewrite held_insert.
    + split; [done|]. intros x _. rewrite (upd_view q i h h' x Hq Hi eq_refl Hh').
      case_decide as Hx; [by subst x|done].
Qed.

Lemma write_spec q i b c :
  inv q -> held q !! i = Some b -> is_block c ->
  exists q', write_buf i c q = Ok (tt, q') /\ inv q' /\ held q' = held q /\
    (forall x, valid q' x <-> valid q x) /\
    (forall x, valid q x -> view q' x = if decide (x = b) then c else view q x).
Proof.
  intros Hq Hh Hc. destruct (held_buf q i b Hq Hh) as (h & Hi & <- & Hl & Hr & Hok & Hview).
  pose proof (lookup_lt_Some _ _ _ Hi). unfold write_buf.
  rewrite (st_bind_eq _ _ _ _ _ (deref_run i h q Hi)). eexists. split; [done|].
  set (h' := with_dirty (with_buf h c) true).
  assert (Hh' : buf_ok q h').
  { destruct Hok as (? & ? & _ & _). split; [done|]. split; [done|]. split; [by right|done]. }
  split; [exact (upd_inv q i h h' Hq Hi eq_refl Hh')|]. split.
  - destruct q as [l k d p]. unfold set_bufs. cbn [bufs qlock disk p_offs] in *.
    rewrite (held_insert l i h' k d p k d p) by done.
    unfold held_block. cbn. rewrite Hl. cbn. by rewrite insert_id.
  - split; [done|]. intros x _. exact (upd_view q i h h' x Hq Hi eq_refl Hh').
Qed.

Lemma get_spec q b :
  inv q -> valid q b -> (forall h b', held q !! h = Some b' -> b' <> b) ->
  (size (held q) < MAX_HD_BUFS)%nat ->
  exists i q', get_hd_buf b q = Ok (i, q') /\ inv q' /\ held q !! i = None /\
    held q' = <[i := b]> (held q) /\ (forall x, valid q' x <-> valid q x) /\
    (forall x, valid q x -> view q' x = view q x).
Proof.
  intros Hq Hv Hfree Hcap. destruct (cached_or_not q b) as [(i & h & Hi & <-)|Hn].
  - exists i. destruct (decide (lock h = 0)) as [Hl|Hl]; [by apply get_hit_spec|].
    exfalso. apply (Hfree i (block_no h)); [|done]. apply lookup_held. by exists h.
  - by apply get_miss_spec.
Qed.

Lemma read_spec q i b : inv q -> held q !! i = Some b -> read_buf i q = Ok (view q b, q).
Proof.
  intros Hq Hh. destruct (held_buf q i b Hq Hh) as (h & Hi & _ & _ & _ & _ & ->).
  unfold read_buf. by rewrite (st_bind_eq _ _ _ _ _ (deref_run i h q Hi)).
Qed.

#[global] Instance hdq_laws : BlockDevLaws hdq.
Proof.
  split; cbn [bget bput bread bwrite bview bheld bvalid binv bcap hdq_dev].
  - unfold MAX_HD_BUFS. lia.
  - intros q b Hq _. by apply buf_view_block.
  - exact get_spec.
  - exact read_spec.
  - exact write_spec.
  - exact put_spec.
  - intros q i b Hq Hh. destruct (held_buf q i b Hq Hh) as (h & _ & <- & _ & _ & (_ & Hv & _) & _).
    done.
Qed.

(** Overwriting one block, as the users of the queue do. *)
Definition update_block (b : Z) (c : list Z) : st hdq unit :=
  i ← get_hd_buf b; write_buf i c;; put_hd_buf i.

Lemma find_reusable_busy l k acc h :
  Forall (fun h => lock h <> 0) (l ++ [h]) ->
  find_reusable (l ++ [h]) k acc = Some (k + length l)%nat.
Proof.
  revert k acc. induction l as [|x l IH]; intros k acc Hf; inversion_clear Hf as [|? ? Hx Hl];
    cbn [app find_reusable].
  - rewrite (proj2 (Z.eqb_neq _ _) Hx), andb_false_r. f_equal. simpl. lia.
  - rewrite (proj2 (Z.eqb_neq _ _) Hx), andb_false_r. rewrite IH by done. f_equal. simpl. lia.
Qed.

(** ** Properties *)

(** C27: [get_hd_buf] of a block of the partition, when no task holds the
    block and fewer than 200 buffers are held, returns a locked buffer of that
    block without changing the contents of any block: whether the block was
    cached, a new buffer was appended or a free buffer was reused, the buffer
    holds what was last written to the block. *)
Theorem get_hd_buf_coherent q b :
  inv q -> valid q b -> (forall h b', held q !! h = Some b' -> b' <> b) ->
  (size (held q) < MAX_HD_BUFS)%nat ->
  exists i q', get_hd_buf b q = Ok (i, q') /\ inv q' /\
    held q' = <[i := b]> (held q) /\ held q !! i = None /\
    read_buf i q' = Ok (view q b, q') /\ forall x, valid q x -> view q' x = view q x.
Proof.
  intros Hq Hv Hfree Hcap.
  destruct (get_spec q b Hq Hv Hfree Hcap) as (i & q' & Hget & Hq' & Hno & Hheld & Hval & Hview).
  exists i, q'. split_and!; try done.
  rewrite <- (Hview b Hv). apply read_spec; [done|].
  rewrite Hheld. apply lookup_insert_eq.
Qed.

(** C28: a block update (get, write, put) reaches the disk before the buffer
    is released, changes no other block of the disk or of the queue, and
    releases the buffer: afterwards the disk holds the new contents. *)
Theorem update_block_durable q b c :
  inv q -> valid q b -> (forall h b', held q !! h = Some b' -> b' <> b) ->
  (size (held q) < MAX_HD_BUFS)%nat -> is_block c ->
  exists q', update_block b c q = Ok (tt, q') /\ inv q' /\ held q' = held q /\
    disk_read q' (sector_of q' b) = c /\
    forall x, valid q x -> view q' x = if decide (x = b) then c else view q x.
Proof.
  intros Hq Hv Hfree Hcap Hc.
  destruct (get_spec q b Hq Hv Hfree Hcap) as (i & q1 & Hget & Hq1 & Hno & Hheld1 & Hval1 & Hview1).
  assert (Hi1 : held q1 !! i = Some b) by (rewrite Hheld1; apply lookup_insert_eq).
  destruct (write_spec q1 i b c Hq1 Hi1 Hc) as (q2 & Hw & Hq2 & Hheld2 & Hval2 & Hview2).
  assert (Hi2 : held q2 !! i = Some b) by by rewrite Hheld2.
  destruct (put_spec q2 i b Hq2 Hi2) as (q3 & Hp & Hq3 & Hheld3 & Hval3 & Hview3).
  exists q3. unfold update_block. rewrite (st_bind_eq _ _ _ _ _ Hget), (st_bind_eq _ _ _ _ _ Hw), Hp.
  assert (Hv3 : forall x, valid q x -> view q3 x = if decide (x = b) then c else view q x).
  { intros x Hx. rewrite Hview3, Hview2 by (rewrite ?Hval2, ?Hval1; done).
    case_decide; [done|]. by apply Hview1. }
  split_and!; try done.
  - rewrite Hheld3, Hheld2, Hheld1. by apply delete_insert_id.
  - specialize (Hv3 b Hv). rewrite decide_True in Hv3 by done. rewrite <- Hv3.
    destruct (cached_or_not q3 b) as [(j & h & Hj & Hbj)|Hn]; [|by rewrite view_uncached].
    pose proof Hq3 as (_ & _ & _ & Hok & _). destruct (Hok j h Hj) as (_ & _ & Hst & Hcl).
    subst b. rewrite (view_cached q3 j h Hq3 Hj). symmetry. apply Hcl.
    destruct Hst as [(_ & _ & Hd)|[Hl _]]; [done|]. exfalso.
    assert (Hhj : held q3 !! j = Some (block_no h))
      by (apply lookup_held; exists h; split_and!; [done|lia|done]).
    rewrite Hheld3, Hheld2, Hheld1, delete_insert_id in Hhj by done. by eapply Hfree.
Qed.

(** the guard of [get_hd_buf] against a queue without a free buffer does
    not work: when all of the 200 buffers are locked by their users, a request
    for another block does not panic but takes the last buffer away from its
    user and reads the new block over the data. *)
Theorem get_hd_buf_steals q l h b :
  qlock q = 0 -> bufs q = l ++ [h] -> length (bufs q) = MAX_HD_BUFS ->
  Forall (fun h => lock h <> 0) (bufs q) ->
  (forall j h', bufs q !! j = Some h' -> block_no h' <> b) ->
  get_hd_buf b q =
    Ok (length l, HQ (l ++ [HB b false 1 1 (disk_read q (sector_of q b))]) 0 (disk q) (p_offs q)).
Proof.
  intros Hk Hl Hlen Hbusy Hn.
  assert (Hf : find_block (bufs q) b 0 = None).
  { destruct (find_block (bufs q) b 0) as [i|] eqn:E; [|done].
    apply find_block_Some in E as (_ & h' & Hh & Hb). by apply Hn in Hh. }
  unfold get_hd_buf, lock_queue, unlock_queue. st_run. rewrite Hk. cbn [Z.eqb].
  change (bufs (set_qlock q 1)) with (bufs q). rewrite Hf.
  change (qlock (set_qlock (set_qlock q 1) 0)) with 0. cbn [Z.eqb].
  change (bufs (set_qlock (set_qlock (set_qlock q 1) 0) 1)) with (bufs q).
  rewrite decide_False by lia. rewrite Hl in Hbusy |- *. rewrite find_reusable_busy by done.
  cbn beta iota.
  assert (Hi : (l ++ [h]) !! (0 + length l)%nat = Some h) by by apply list_lookup_middle.
  pose proof (get_install b (0 + length l) (l ++ [h]) (disk q) (p_offs q) h Hi) as Hrun.
  destruct q; cbn in *; subst. etrans; [exact Hrun|]. do 2 f_equal. f_equal.
  rewrite insert_app_r_alt by lia. by rewrite Nat.sub_diag.
Qed.

(** An empty queue over an empty disk. *)
Definition q0 : hdq := hd_queue_init ∅ 2048.

Lemma zero_block_ok : is_block zero_block.
Proof.
  unfold zero_block. split; [apply length_replicate|].
  apply Forall_replicate. unfold is_byte. lia.
Qed.

Lemma q0_inv : inv q0.
Proof.
  split_and!; cbn; [done|apply NoDup_nil_2|unfold MAX_HD_BUFS; lia|done|].
  intros n. unfold disk_read. cbn. rewrite lookup_empty. apply zero_block_ok.
Qed.

Lemma q0_not_held h b : held q0 !! h = Some b -> False.
Proof. intros (h' & Hh & _)%lookup_held. done. Qed.

Lemma get_hd_buf_coherent_witness :
  exists i q', get_hd_buf 7 q0 = Ok (i, q') /\ inv q' /\
    held q' = <[i := 7]> (held q0) /\ held q0 !! i = None /\
    read_buf i q' = Ok (view q0 7, q') /\ forall x, valid q0 x -> view q' x = view q0 x.
Proof.
  apply (get_hd_buf_coherent q0 7).
  - apply q0_inv.
  - unfold valid. cbn. lia.
  - intros h b' Hh. by apply q0_not_held in Hh.
  - vm_compute. lia.
Defined.

Lemma update_block_durable_witness :
  exists q', update_block 7 (replicate 512 9) q0 = Ok (tt, q') /\ inv q' /\ held q' = held q0 /\
    disk_read q' (sector_of q' 7) = replicate 512 9 /\
    forall x, valid q0 x -> view q' x = if decide (x = 7) then replicate 512 9 else view q0 x.
Proof.
  apply (update_block_durable q0 7 (replicate 512 9)).
  - apply q0_inv.
  - unfold valid. cbn. lia.
  - intros h b' Hh. by apply q0_not_held in Hh.
  - vm_compute. lia.
  - split; [apply length_replicate|]. apply Forall_replicate. unfold is_byte. lia.
Defined.

(** A queue whose 200 buffers are locked. *)
Definition busy_buf (n : nat) : hd_buf_t := HB (Z.of_nat n) false 1 1 zero_block.
Definition busy : hdq := HQ ((busy_buf <$> seq 0 199) ++ [busy_buf 199]) 0 ∅ 0.

Lemma get_hd_buf_steals_witness :
  get_hd_buf 500 busy =
    Ok (length (busy_buf <$> seq 0 199),
        HQ ((busy_buf <$> seq 0 199) ++ [HB 500 false 1 1 (disk_read busy (sector_of busy 500))])
           0 ∅ 0).
Proof.
  apply (get_hd_buf_steals busy (busy_buf <$> seq 0 199) (busy_buf 199) 500).
  - reflexivity.
  - reflexivity.
  - reflexivity.
  - apply Forall_app. split; [|by repeat constructor].
    apply Forall_fmap, Forall_forall. intros n _. done.
  - intros j h' Hj He. cbn [bufs busy] in Hj.
    assert (Hin : h' ∈ busy_buf <$> seq 0 200) by (apply list_elem_of_lookup; exists j; exact Hj).
    apply list_elem_of_fmap in Hin as (n & -> & Hn). apply elem_of_seq in Hn. cbn in He. lia.
Defined.
End HdQueue.
