(* ===== verification/Cofs.v ===== *)
(** * The cofs file system: definitions (src/cofs.c, src/cofs.h)

    The functions of cofs.c over an arbitrary block device that implements
    the interface of BlockDev.v.  A [fs_node_t *] is [None] for [NULL] or the
    position of the node in the inode cache (nodes are appended and recycled,
    never removed); a [char *] name is the list of cells of its object. *)
From S2P Require Import Prelude CString BlockDev.

Module Cofs.

(** ** Constants (cofs.h, vfs.h, cofs.c) *)
Definition COFS_MAGIC : Z := 0xC0517155.
Definition NUM_DIRECT : Z := 6.
Definition NUM_SIND : Z := 128.
Definition NUM_DIND : Z := 16384.
Definition SIND_IDX : nat := 6.
Definition DIND_IDX : nat := 7.
Definition NUM_INOPB : Z := 8.
Definition BITS_PER_BLOCK : Z := 4096.
Definition DIRSIZE : nat := 28.
Definition DIRENT_SIZE : nat := 32.
Definition MAX_CACHED_NODES : nat := 100.
Definition COFS_ROOT_INUM : Z := 1.
Definition FS_DIRECTORY : Z := 0x4000.
Definition FS_CHARDEVICE : Z := 0x2000.
Definition FS_BLOCKDEVICE : Z := 0x6000.
Definition FS_FILE : Z := 0x8000.
Definition FS_IFMT : Z := 0xF000.
(** [MAX_FILE_SIZE * BLOCK_SIZE] as the preprocessor expands it: the macro
    has no parentheses, so only its last term is multiplied. *)
Definition MAX_FILE_SIZE_times_BLOCK_SIZE : Z := NUM_DIRECT + NUM_SIND + NUM_DIND * BLOCK_SIZE.

(** ** Data *)
Record superblock := SB {
  magic : Z; size_blocks : Z; num_blocks : Z; num_inodes : Z;
  bitmap_start : Z; inode_start : Z; data_block : Z
}.

Record cofs_inode := Ino {
  i_type : Z; i_major : Z; i_minor : Z; i_uid : Z; i_gid : Z; i_num_links : Z;
  i_atime : Z; i_mtime : Z; i_ctime : Z; i_size : Z; i_addrs : list Z
}.

(** The in-memory inode; [addrs] is [None] while the pointer is [NULL]. *)
Record fs_node := Node {
  name : list Z; mask : Z; nmajor : Z; nminor : Z; uid : Z; gid : Z; type : Z;
  flags : Z; inode : Z; size : Z; ref_count : Z; num_links : Z;
  atime : Z; ctime : Z; mtime : Z; addrs : option (list Z); lock : Z
}.

Definition with_name (n : fs_node) v := Node v (mask n) (nmajor n) (nminor n) (uid n) (gid n)
  (type n) (flags n) (inode n) (size n) (ref_count n) (num_links n) (atime n) (ctime n) (mtime n) (addrs n) (lock n).
Definition with_mask (n : fs_node) v := Node (name n) v (nmajor n) (nminor n) (uid n) (gid n)
  (type n) (flags n) (inode n) (size n) (ref_count n) (num_links n) (atime n) (ctime n) (mtime n) (addrs n) (lock n).
Definition with_dev (n : fs_node) a b := Node (name n) (mask n) a b (uid n) (gid n)
  (type n) (flags n) (inode n) (size n) (ref_count n) (num_links n) (atime n) (ctime n) (mtime n) (addrs n) (lock n).
Definition with_type (n : fs_node) v := Node (name n) (mask n) (nmajor n) (nminor n) (uid n) (gid n)
  v (flags n) (inode n) (size n) (ref_count n) (num_links n) (atime n) (ctime n) (mtime n) (addrs n) (lock n).
Definition with_size (n : fs_node) v := Node (name n) (mask n) (nmajor n) (nminor n) (uid n) (gid n)
  (type n) (flags n) (inode n) v (ref_count n) (num_links n) (atime n) (ctime n) (mtime n) (addrs n) (lock n).
Definition with_ref (n : fs_node) v := Node (name n) (mask n) (nmajor n) (nminor n) (uid n) (gid n)
  (type n) (flags n) (inode n) (size n) v (num_links n) (atime n) (ctime n) (mtime n) (addrs n) (lock n).
Definition with_links (n : fs_node) v := Node (name n) (mask n) (nmajor n) (nminor n) (uid n) (gid n)
  (type n) (flags n) (inode n) (size n) (ref_count n) v (atime n) (ctime n) (mtime n) (addrs n) (lock n).
Definition with_addrs (n : fs_node) v := Node (name n) (mask n) (nmajor n) (nminor n) (uid n) (gid n)
  (type n) (flags n) (inode n) (size n) (ref_count n) (num_links n) (atime n) (ctime n) (mtime n) v (lock n).
Definition with_lock (n : fs_node) v := Node (name n) (mask n) (nmajor n) (nminor n) (uid n) (gid n)
  (type n) (flags n) (inode n) (size n) (ref_count n) (num_links n) (atime n) (ctime n) (mtime n) (addrs n) v.

(** ** Representation of words, inodes and directory entries in a block *)
Definition rd_word (c : list Z) (i : nat) : Z := le_combine (take 4 (drop (4 * i) c)).
Definition wr_word (c : list Z) (i : nat) (v : Z) : list Z := splice c (4 * i) (le_split 4 v).

Definition field (c : list Z) (off n : nat) : Z := le_combine (take n (drop off c)).

Definition encode_inode (i : cofs_inode) : list Z :=
  le_split 2 (i_type i) ++ le_split 2 (i_major i) ++ le_split 2 (i_minor i) ++
  le_split 2 (i_uid i) ++ le_split 2 (i_gid i) ++ le_split 2 (i_num_links i) ++
  le_split 4 (i_atime i) ++ le_split 4 (i_mtime i) ++ le_split 4 (i_ctime i) ++
  le_split 4 (i_size i) ++ (i_addrs i ≫= le_split 4).

Definition decode_inode (c : list Z) : cofs_inode :=
  Ino (field c 0 2) (field c 2 2) (field c 4 2) (field c 6 2) (field c 8 2) (field c 10 2)
      (field c 12 4) (field c 16 4) (field c 20 4) (field c 24 4)
      ((fun k => field c (28 + 4 * k) 4) <$> seq 0 9).

Definition ino_offset (inum : Z) : nat := Z.to_nat (inum mod NUM_INOPB) * 64.
Definition rd_inode (c : list Z) (inum : Z) : cofs_inode :=
  decode_inode (take 64 (drop (ino_offset inum) c)).
Definition wr_inode (c : list Z) (inum : Z) (i : cofs_inode) : list Z :=
  splice c (ino_offset inum) (encode_inode i).

Definition d_inode (d : list Z) : Z := field d 0 4.
Definition d_name (d : list Z) : list Z := drop 4 d.
Definition mk_dirent (ino : Z) (nm : list Z) : list Z := le_split 4 ino ++ nm.

Definition decode_superblock (c : list Z) : superblock :=
  SB (rd_word c 0) (rd_word c 1) (rd_word c 2) (rd_word c 3) (rd_word c 4) (rd_word c 5) (rd_word c 6).

(** A node after its [memset] to zero. *)
Definition zero_node : fs_node :=
  Node (replicate 256 0) 0 0 0 0 0 0 0 0 0 0 0 0 0 0 None 0.

Section Cofs.
Context {S : Type} `{BlockDev S}.

(** ** State *)
Record fs := FS {
  dev : S;
  superb : superblock;
  cache : list fs_node;
  cache_lock : Z;
  dirent : Z * list Z  (* the static [struct dirent] of [cofs_readdir] *)
}.

Definition on_dev {A} (m : st S A) : st fs A := fun s =>
  match m (dev s) with
  | Ok (a, d) => Ok (a, FS d (superb s) (cache s) (cache_lock s) (dirent s))
  | Err e => Err e
  end.
Definition get_hd_buf (b : Z) : st fs nat := on_dev (bget (s32 b)).
Definition put_hd_buf (h : nat) : st fs unit := on_dev (bput h).
Definition rd_buf (h : nat) : st fs (list Z) := on_dev (bread h).
Definition wr_buf (h : nat) (c : list Z) : st fs unit := on_dev (bwrite h c).

Definition node_of (n : nat) : st fs fs_node := fun s =>
  match cache s !! n with Some x => Ok (x, s) | None => Err EOob end.
Definition set_node (n : nat) (f : fs_node -> fs_node) : st fs unit :=
  modify (fun s => FS (dev s) (superb s) (alter f n (cache s)) (cache_lock s) (dirent s)).
Definition set_cache (l : list fs_node) : st fs unit :=
  modify (fun s => FS (dev s) (superb s) l (cache_lock s) (dirent s)).
Definition lock_cache : st fs unit := fun s =>
  if cache_lock s =? 0
  then Ok (tt, FS (dev s) (superb s) (cache s) 1 (dirent s)) else Err EDeadlock.
Definition unlock_cache : st fs unit :=
  modify (fun s => FS (dev s) (superb s) (cache s) 0 (dirent s)).
Definition set_dirent (d : Z * list Z) : st fs unit :=
  modify (fun s => FS (dev s) (superb s) (cache s) (cache_lock s) d).
Definition spin_lock_node (n : nat) : st fs unit :=
  x ← node_of n;
  if lock x =? 0 then set_node n (fun x => with_lock x 1) else fail EDeadlock.

(** A block of the inode table and of the bitmap. *)
Definition INO_BLK (ino : Z) (sb : superblock) : Z := u32 (ino / NUM_INOPB + inode_start sb).
Definition BITMAP_BLOCK (block : Z) (sb : superblock) : Z :=
  u32 (block / BITS_PER_BLOCK + bitmap_start sb).

(** ** Blocks *)
Definition get_superblock : st fs superblock :=
  h ← get_hd_buf 1;
  c ← rd_buf h;
  put_hd_buf h;;
  mret (decode_superblock c).

Definition block_zero (block : Z) : st fs unit :=
  h ← get_hd_buf block;
  wr_buf h (replicate 512 0);;
  put_hd_buf h.

(** The first word of a bitmap block that is not full, from word [scan]. *)
Fixpoint scan_full (c : list Z) (scan n : nat) : nat :=
  match n with
  | O => scan
  | Datatypes.S n' =>
      if rd_word c scan =? 0xFFFFFFFF then scan_full c (Datatypes.S scan) n' else scan
  end.

Definition bit_mask (idx : nat) : Z := Z.shiftl 1 (Z.of_nat (idx mod 8)).
Definition bit_clear (c : list Z) (idx : nat) : bool :=
  Z.land (default 0 (c !! (idx / 8)%nat)) (bit_mask idx) =? 0.
Definition set_bit (c : list Z) (idx : nat) : list Z :=
  alter (fun b => u8 (Z.lor b (bit_mask idx))) (idx / 8)%nat c.
Definition clr_bit (c : list Z) (idx : nat) : list Z :=
  alter (fun b => u8 (Z.land b (Z.lnot (bit_mask idx)))) (idx / 8)%nat c.

(** The first clear bit among the [n] bits from [idx]. *)
Fixpoint scan_bits (c : list Z) (idx n : nat) : option nat :=
  match n with
  | O => None
  | Datatypes.S n' =>
      if bit_clear c idx then Some idx else scan_bits c (Datatypes.S idx) n'
  end.

Definition find_clear (c : list Z) : option nat :=
  let scan := scan_full c 0 128 in
  if decide (scan = 128)%nat then None else scan_bits c (scan * 32) 32.

Fixpoint block_alloc_loop (fuel : nat) (block : Z) : st fs Z :=
  match fuel with
  | O => fail EFuel
  | Datatypes.S f =>
      s ← get;
      if block <? size_blocks (superb s)
      then
        h ← get_hd_buf (BITMAP_BLOCK block (superb s));
        c ← rd_buf h;
        match find_clear c with
        | Some idx =>
            wr_buf h (set_bit c idx);;
            put_hd_buf h;;
            block_zero (block +u Z.of_nat idx);;
            mret (block +u Z.of_nat idx)
        | None =>
            put_hd_buf h;;
            block_alloc_loop f (block +u BITS_PER_BLOCK)
        end
      else fail EPanic
  end.

(** One iteration per block of the bitmap, and the last test. *)
Definition block_alloc : st fs Z := fun s =>
  block_alloc_loop (Z.to_nat (size_blocks (superb s) / BITS_PER_BLOCK) + 2) 0 s.

Definition block_free (block : Z) : st fs unit :=
  s ← get;
  h ← get_hd_buf (BITMAP_BLOCK block (superb s));
  c ← rd_buf h;
  let idx := Z.to_nat (block mod BITS_PER_BLOCK) in
  if bit_clear c idx then fail EPanic
  else
    wr_buf h (clr_bit c idx);;
    put_hd_buf h.

(** ** Inodes *)
Inductive scan_cache :=
| Found (i : nat)
| NotFound (free_node : option nat).

Fixpoint get_node_loop (l : list fs_node) (inum : Z) (i : nat) (free_node : option nat)
  : scan_cache :=
  match l with
  | [] => NotFound free_node
  | x :: l' =>
      if inode x =? inum then Found i
      else get_node_loop l' inum (Datatypes.S i)
             (if ref_count x =? 0 then Some i else free_node)
  end.

(** The node a recycled or new entry of the cache becomes. *)
Definition fresh_node (inum : Z) : fs_node :=
  Node (replicate 256 0) 0 0 0 0 0 0 0 inum 0 1 0 0 0 0 None 0.

(** The limit is reported without releasing the lock of the cache. *)
Definition cofs_get_node (inum : Z) : st fs (option nat) :=
  lock_cache;;
  s ← get;
  match get_node_loop (cache s) inum 0 None with
  | Found i =>
      set_node i (fun x => with_ref x (s32 (ref_count x + 1)));;
      unlock_cache;;
      mret (Some i)
  | NotFound (Some i) =>
      set_node i (fun _ => fresh_node inum);;
      unlock_cache;;
      mret (Some i)
  | NotFound None =>
      if decide (MAX_CACHED_NODES <= length (cache s))%nat then mret None
      else
        set_cache (cache s ++ [fresh_node inum]);;
        unlock_cache;;
        mret (Some (length (cache s)))
  end.

Definition cofs_dup (n : nat) : st fs nat :=
  lock_cache;;
  set_node n (fun x => with_ref x (s32 (ref_count x + 1)));;
  unlock_cache;;
  mret n.

(** Looking for a free inode on the disk, from [ino_num]. *)
Fixpoint inode_alloc_loop (fuel : nat) (ino_num : Z) (ty : Z) : st fs (option nat) :=
  match fuel with
  | O => fail EFuel
  | Datatypes.S f =>
      s ← get;
      if ino_num <? num_inodes (superb s)
      then
        h ← get_hd_buf (INO_BLK ino_num (superb s));
        c ← rd_buf h;
        if i_type (rd_inode c ino_num) =? 0
        then
          let t := Z.land ty 0xF000 in
          let isdev := (negb (Z.land t FS_CHARDEVICE =? 0) || negb (Z.land t FS_BLOCKDEVICE =? 0))%bool in
          wr_buf h (wr_inode c ino_num
            (Ino t (if isdev then major ty else 0) (if isdev then minor ty else 0)
                 0 0 0 0 0 0 0 (replicate 9 0)));;
          put_hd_buf h;;
          cofs_get_node ino_num
        else
          put_hd_buf h;;
          inode_alloc_loop f (ino_num +u 1) ty
      else fail EPanic
  end.

Definition inode_alloc (ty : Z) : st fs (option nat) := fun s =>
  inode_alloc_loop (Z.to_nat (num_inodes (superb s)) + 1) 1 (u16 ty) s.

(** What [cofs_update_node] stores of a node; [None] when [addrs] is [NULL]. *)
Definition node_to_inode (x : fs_node) : option cofs_inode :=
  match addrs x with
  | None => None
  | Some a =>
      Some (Ino (u16 (Z.lor (Z.land (type x) 0xF000) (mask x))) (nmajor x) (nminor x)
                (uid x) (gid x) (num_links x) (atime x) (mtime x) (ctime x) (size x) (take 9 a))
  end.

Definition cofs_update_node (n : nat) : st fs unit :=
  s ← get;
  x ← node_of n;
  h ← get_hd_buf (INO_BLK (inode x) (superb s));
  c ← rd_buf h;
  match node_to_inode x with
  | None => fail ENull
  | Some i => wr_buf h (wr_inode c (inode x) i);; put_hd_buf h
  end.

(** What [cofs_lock] loads into a node from its inode on the disk. *)
Definition load_node (x : fs_node) (i : cofs_inode) : fs_node :=
  Node (name x) (Z.land (i_type i) (u16 (Z.lnot FS_IFMT))) (i_major i) (i_minor i)
       (i_uid i) (i_gid i) (Z.land (i_type i) FS_IFMT) (flags x) (inode x) (i_size i)
       (ref_count x) (i_num_links i) (i_atime i) (i_ctime i) (i_mtime i)
       (Some (i_addrs i)) (lock x).

Definition cofs_lock (n : option nat) : st fs unit :=
  match n with
  | None => fail EPanic
  | Some n =>
      x ← node_of n;
      (if ref_count x <=? 0 then fail EPanic else mret tt);;
      spin_lock_node n;;
      x ← node_of n;
      if type x =? 0
      then
        s ← get;
        h ← get_hd_buf (INO_BLK (inode x) (superb s));
        c ← rd_buf h;
        set_node n (fun x => load_node x (rd_inode c (inode x)));;
        put_hd_buf h;;
        x ← node_of n;
        if type x =? 0 then fail EPanic else mret tt
      else mret tt
  end.

Definition cofs_unlock (n : option nat) : st fs unit :=
  match n with
  | None => fail ENull
  | Some n =>
      x ← node_of n;
      if (negb (lock x =? 1) || (ref_count x <? 0))%bool then fail EPanic
      else set_node n (fun x => with_lock x 0)
  end.

(** ** The block map of a file *)
Definition addr_of (n : nat) (i : nat) : st fs Z :=
  x ← node_of n;
  match addrs x with None => fail ENull | Some a => lift (rd a i) end.
Definition set_addr (n : nat) (i : nat) (v : Z) : st fs unit :=
  x ← node_of n;
  match addrs x with
  | None => fail ENull
  | Some a => a' ← lift (wr a i v); set_node n (fun x => with_addrs x (Some a'))
  end.

(** Word [i] of a held buffer, after a new block is allocated for it when it
    is zero. *)
Definition word_or_alloc (h : nat) (i : nat) : st fs Z :=
  c ← rd_buf h;
  (if rd_word c i =? 0
   then b ← block_alloc; c ← rd_buf h; wr_buf h (wr_word c i b)
   else mret tt);;
  c ← rd_buf h;
  mret (rd_word c i).

(** The address [i] of a node, after a new block is allocated for it when it
    is zero. *)
Definition addr_or_alloc (n : nat) (i : nat) : st fs Z :=
  a ← addr_of n i;
  (if a =? 0 then b ← block_alloc; set_addr n i b else mret tt);;
  addr_of n i.

Definition block_map (n : nat) (fbn : Z) : st fs Z :=
  if fbn <? NUM_DIRECT then addr_or_alloc n (Z.to_nat fbn)
  else if fbn <? NUM_DIRECT + NUM_SIND then
    a ← addr_or_alloc n SIND_IDX;
    h ← get_hd_buf a;
    addr ← word_or_alloc h (Z.to_nat (fbn - NUM_DIRECT));
    put_hd_buf h;;
    mret addr
  else if fbn <? NUM_DIRECT + NUM_SIND + NUM_DIND then
    let midx := Z.to_nat ((fbn - NUM_DIRECT - NUM_SIND) / NUM_SIND) in
    let sidx := Z.to_nat ((fbn - NUM_DIRECT - NUM_SIND) mod NUM_SIND) in
    a ← addr_or_alloc n DIND_IDX;
    h ← get_hd_buf a;
    mblk ← word_or_alloc h midx;
    put_hd_buf h;;
    h ← get_hd_buf mblk;
    addr ← word_or_alloc h sidx;
    put_hd_buf h;;
    mret addr
  else fail EPanic.

(** The number of words of a block that are not zero. *)
Definition count_words (c : list Z) : Z :=
  Z.of_nat (length (filter (fun i => rd_word c i <> 0) (seq 0 128))).
Definition scan_block (blockno : Z) : st fs Z :=
  h ← get_hd_buf blockno;
  c ← rd_buf h;
  put_hd_buf h;;
  mret (count_words c).

(** The body of the loop of [cofs_truncate]. *)
Definition truncate_block (n : nat) (fbn : Z) : st fs unit :=
  if fbn <? NUM_DIRECT then
    a ← addr_of n (Z.to_nat fbn);
    if negb (a =? 0) then block_free a;; set_addr n (Z.to_nat fbn) 0 else mret tt
  else if fbn <? NUM_DIRECT + NUM_SIND then
    let i := Z.to_nat (fbn - NUM_DIRECT) in
    a ← addr_of n SIND_IDX;
    h ← get_hd_buf a;
    c ← rd_buf h;
    wr_buf h (wr_word c i 0);;
    block_free (rd_word c i);;
    put_hd_buf h;;
    a ← addr_of n SIND_IDX;
    k ← scan_block a;
    if k =? 0 then a ← addr_of n SIND_IDX; block_free a;; set_addr n SIND_IDX 0 else mret tt
  else if fbn <? NUM_DIRECT + NUM_SIND + NUM_DIND then
    let midx := Z.to_nat ((fbn - NUM_DIRECT - NUM_SIND) / NUM_SIND) in
    let sidx := Z.to_nat ((fbn - NUM_DIRECT - NUM_SIND) mod NUM_SIND) in
    a ← addr_of n DIND_IDX;
    h ← get_hd_buf a;
    c ← rd_buf h;
    let mblk := rd_word c midx in
    put_hd_buf h;;
    h ← get_hd_buf mblk;
    c ← rd_buf h;
    wr_buf h (wr_word c sidx 0);;
    block_free (rd_word c sidx);;
    put_hd_buf h;;
    x ← scan_block mblk;
    (if x =? 0 then
       block_free mblk;;
       a ← addr_of n DIND_IDX;
       h ← get_hd_buf a;
       c ← rd_buf h;
       wr_buf h (wr_word c midx 0);;
       put_hd_buf h
     else mret tt);;
    a ← addr_of n DIND_IDX;
    k ← scan_block a;
    if k =? 0 then a ← addr_of n DIND_IDX; block_free a;; set_addr n DIND_IDX 0 else mret tt
  else mret tt.

Fixpoint truncate_loop (n : nat) (fbn : Z) (k : nat) : st fs unit :=
  match k with
  | O => mret tt
  | Datatypes.S k' => truncate_block n fbn;; truncate_loop n (fbn + 1) k'
  end.

Definition cofs_truncate (n : nat) (length : Z) : st fs Z :=
  x ← node_of n;
  kassert (length <=? size x);;
  kassert (length mod BLOCK_SIZE =? 0);;
  let fbs := length / BLOCK_SIZE in
  let fbe := size x / BLOCK_SIZE + 1 in
  truncate_loop n fbs (Z.to_nat (fbe - fbs));;
  set_node n (fun x => with_size x length);;
  cofs_update_node n;;
  mret (s32 length).

(** ** Reading and writing; [bp] is the offset of the C variable [buffer] in
    the object of the caller. *)
Fixpoint cofs_read_loop (fuel : nat) (n : nat) (offset size total : Z)
    (buffer : list Z) (bp : nat) : st fs (list Z) :=
  match fuel with
  | O => fail EFuel
  | Datatypes.S f =>
      if total <? size
      then
        b ← block_map n (offset / BLOCK_SIZE);
        h ← get_hd_buf b;
        let num_bytes := Z.min (size - total) (BLOCK_SIZE - offset mod BLOCK_SIZE) in
        c ← rd_buf h;
        src ← lift (rd_block c (Z.to_nat (offset mod BLOCK_SIZE)) (Z.to_nat num_bytes));
        buffer ← lift (wr_block buffer bp src);
        put_hd_buf h;;
        cofs_read_loop f n (offset +u num_bytes) size (total + num_bytes) buffer
          (bp + Z.to_nat num_bytes)
      else mret buffer
  end.

(** At most one iteration per block the range touches, and the last test. *)
Definition loop_fuel (size : Z) : nat := Z.to_nat (size / BLOCK_SIZE) + 3.

Definition cofs_read (n : nat) (offset sz : Z) (buffer : list Z) : st fs (Z * list Z) :=
  x ← node_of n;
  if size x <? offset then mret (0, buffer)
  else
    let sz := if size x <? offset +u sz then size x - offset else sz in
    buffer ← cofs_read_loop (loop_fuel sz) n offset sz 0 buffer 0;
    mret (sz, buffer).

Fixpoint cofs_write_loop (fuel : nat) (n : nat) (offset size total : Z)
    (buffer : list Z) (bp : nat) : st fs Z :=
  match fuel with
  | O => fail EFuel
  | Datatypes.S f =>
      if total <? size
      then
        b ← block_map n (offset / BLOCK_SIZE);
        h ← get_hd_buf b;
        let num_bytes := Z.min (size - total) (BLOCK_SIZE - offset mod BLOCK_SIZE) in
        src ← lift (rd_block buffer bp (Z.to_nat num_bytes));
        c ← rd_buf h;
        c' ← lift (wr_block c (Z.to_nat (offset mod BLOCK_SIZE)) src);
        wr_buf h c';;
        put_hd_buf h;;
        cofs_write_loop f n (offset +u num_bytes) size (total + num_bytes) buffer
          (bp + Z.to_nat num_bytes)
      else mret offset
  end.

Definition cofs_write (n : nat) (offset sz : Z) (buffer : list Z) : st fs Z :=
  x ← node_of n;
  if size x <? offset then mret 0
  else if MAX_FILE_SIZE_times_BLOCK_SIZE <? offset +u sz then mret 0
  else
    offset ← cofs_write_loop (loop_fuel sz) n offset sz 0 buffer 0;
    x ← node_of n;
    (if ((0 <? sz) && (size x <? offset))%bool
     then set_node n (fun x => with_size x offset);; cofs_update_node n
     else mret tt);;
    mret sz.

(** ** Nodes *)
Definition cofs_put_node (n : nat) : st fs unit :=
  lock_cache;;
  x ← node_of n;
  (if ref_count x =? 0 then fail EPanic else mret tt);;
  (if ((ref_count x =? 1) && (0 <? type x) && (num_links x =? 0))%bool
   then
     unlock_cache;;
     cofs_truncate n 0;;
     set_node n (fun x => with_type x 0);;
     cofs_update_node n;;
     lock_cache
   else mret tt);;
  x ← node_of n;
  (if inode x =? 1
   then if 1 <? ref_count x then set_node n (fun x => with_ref x (ref_count x - 1)) else mret tt
   else set_node n (fun x => with_ref x (ref_count x - 1)));;
  unlock_cache.

Definition cofs_open (n : nat) (flags : Z) : st fs unit := cofs_lock (Some n).

Definition cofs_close (n : nat) : st fs unit :=
  x ← node_of n;
  (if negb (lock x =? 0) then cofs_unlock (Some n) else mret tt);;
  cofs_put_node n.

(** ** Directories

    A directory is a file of 32-byte entries.  [dir] is the local entry that
    [cofs_read] fills; it is not initialised in the source and is read only
    after a successful [cofs_read]. *)
Definition no_dirent : list Z := replicate DIRENT_SIZE 0.

(** The search loop: the inode number and the offset of the entry [name], or
    0 and the offset of the end. *)
Fixpoint find_entry (fuel : nat) (n : nat) (nm : list Z) (offs : Z) (dir : list Z)
  : st fs (option (Z * list Z)) :=
  match fuel with
  | O => fail EFuel
  | Datatypes.S f =>
      '(k, dir) ← cofs_read n offs (Z.of_nat DIRENT_SIZE) dir;
      if 0 <? k
      then
        d ← lift (strcmp (d_name dir) nm);
        if d =? 0 then mret (Some (offs, dir)) else find_entry f n nm (offs +u k) dir
      else mret None
  end.

(** One iteration per entry of the directory, and the last test. *)
Definition dir_fuel (x : fs_node) : nat := Z.to_nat (size x / Z.of_nat DIRENT_SIZE) + 2.

Definition cofs_finddir (n : nat) (nm : list Z) : st fs (option nat) :=
  x ← node_of n;
  if Z.land (type x) FS_DIRECTORY =? 0 then fail EPanic
  else
    r ← find_entry (dir_fuel x) n nm 0 no_dirent;
    let inum := match r with Some (_, dir) => d_inode dir | None => 0 end in
    if inum =? 0 then mret None
    else
      new_node ← cofs_get_node inum;
      cofs_lock new_node;;
      match new_node with
      | None => fail ENull
      | Some m =>
          y ← node_of m;
          (if negb (inode y =? 1)
           then nm' ← lift (strncpy (name y) nm 255); set_node m (fun y => with_name y nm')
           else mret tt);;
          cofs_unlock new_node;;
          mret new_node
      end.

(** The result says whether the pointer to the static entry is returned. *)
Definition cofs_readdir (n : nat) (index : Z) : st fs bool :=
  x ← node_of n;
  kassert (lock x =? 0);;
  cofs_lock (Some n);;
  set_dirent (0, replicate DIRSIZE 0);;
  let offs := index *u Z.of_nat DIRENT_SIZE in
  '(k, dir) ← cofs_read n offs (Z.of_nat DIRENT_SIZE) no_dirent;
  if 0 <? k
  then
    if d_inode dir =? 0 then cofs_unlock (Some n);; mret true
    else
      nm ← lift (strncpy (replicate DIRSIZE 0) (d_name dir) 27);
      set_dirent (d_inode dir, nm);;
      cofs_unlock (Some n);;
      mret true
  else cofs_unlock (Some n);; mret false.

(** The offset of the first recycled entry or of the end, and the entry. *)
Fixpoint find_slot (fuel : nat) (n : nat) (offs : Z) (dir : list Z) : st fs (Z * list Z) :=
  match fuel with
  | O => fail EFuel
  | Datatypes.S f =>
      '(k, dir) ← cofs_read n offs (Z.of_nat DIRENT_SIZE) dir;
      if 0 <? k
      then if d_inode dir =? 0 then mret (offs, dir) else find_slot f n (offs +u k) dir
      else mret (offs, dir)
  end.

Definition cofs_dirlink (n : nat) (nm : list Z) (inum : Z) : st fs Z :=
  r ← cofs_finddir n nm;
  match r with
  | Some m => cofs_put_node m;; mret (-1)
  | None =>
      x ← node_of n;
      '(offs, dir) ← find_slot (dir_fuel x) n 0 no_dirent;
      nm' ← lift (strncpy (d_name dir) nm DIRSIZE);
      k ← cofs_write n offs (Z.of_nat DIRENT_SIZE) (mk_dirent inum nm');
      if k =? Z.of_nat DIRENT_SIZE then mret 0 else fail EPanic
  end.

Definition cofs_link (parent node : nat) (nm : list Z) : st fs Z :=
  cofs_lock (Some node);;
  set_node node (fun x => with_links x (u32 (num_links x + 1)));;
  cofs_update_node node;;
  cofs_lock (Some parent);;
  x ← node_of node;
  ret ← cofs_dirlink parent nm (inode x);
  cofs_unlock (Some parent);;
  cofs_unlock (Some node);;
  mret ret.

(** A pointer that is dereferenced *)
Definition non_null (n : option nat) : st fs nat :=
  match n with Some i => mret i | None => fail ENull end.

Definition set_name (m : nat) (nm : list Z) : st fs unit :=
  y ← node_of m;
  nm' ← lift (strncpy (name y) nm 255);
  set_node m (fun y => with_name y nm').

Definition DOT : list Z := [46; 0].
Definition DOTDOT : list Z := [46; 46; 0].

Definition cofs_mkdir (n : nat) (nm : list Z) (mode : Z) : st fs (option nat) :=
  r ← cofs_finddir n nm;
  match r with
  | Some m => cofs_put_node m;; mret None
  | None =>
      new_dir ← inode_alloc FS_DIRECTORY;
      cofs_lock new_dir;;
      m ← non_null new_dir;
      set_name m nm;;
      set_node m (fun y => with_links (with_mask y mode) 1);;
      y ← node_of m;
      cofs_dirlink m DOT (inode y);;
      x ← node_of n;
      cofs_dirlink m DOTDOT (inode x);;
      cofs_update_node m;;
      cofs_unlock new_dir;;
      cofs_lock (Some n);;
      cofs_dirlink n nm (inode y);;
      cofs_unlock (Some n);;
      mret new_dir
  end.

Definition cofs_mknod (dir : nat) (nm : list Z) (mode dv : Z) : st fs (option nat) :=
  r ← cofs_finddir dir nm;
  match r with
  | Some m => cofs_put_node m;; mret None
  | None =>
      node ← inode_alloc (Z.lor (Z.land dv FS_IFMT) (Z.land mode 0xFF));
      cofs_lock node;;
      m ← non_null node;
      set_name m nm;;
      let dv := Z.land dv (u32 (Z.lnot FS_IFMT)) in
      set_node m (fun y => with_links (with_mask (with_dev y (major (u16 dv)) (minor (u16 dv))) mode) 1);;
      cofs_update_node m;;
      cofs_unlock node;;
      cofs_lock (Some dir);;
      y ← node_of m;
      cofs_dirlink dir nm (inode y);;
      cofs_unlock (Some dir);;
      mret node
  end.

Definition cofs_creat (n : nat) (nm : list Z) (mode : Z) : st fs (option nat) :=
  x ← node_of n;
  kassert (negb (Z.land (type x) FS_DIRECTORY =? 0));;
  r ← cofs_finddir n nm;
  match r with
  | Some m => cofs_put_node m;; mret None
  | None =>
      new_file ← inode_alloc FS_FILE;
      cofs_lock new_file;;
      m ← non_null new_file;
      set_name m nm;;
      set_node m (fun y => with_links (with_mask y mode) 1);;
      cofs_update_node m;;
      cofs_unlock new_file;;
      cofs_lock (Some n);;
      y ← node_of m;
      cofs_dirlink n nm (inode y);;
      cofs_unlock (Some n);;
      mret new_file
  end.

Definition cofs_unlink (parent : nat) (nm : list Z) : st fs Z :=
  r ← cofs_finddir parent nm;
  match r with
  | None => mret (-1)
  | Some node =>
      cofs_lock (Some node);;
      cofs_lock (Some parent);;
      p ← node_of parent;
      y ← node_of node;
      e ← find_entry (dir_fuel p) parent (name y) 0 no_dirent;
      match e with
      | None => fail EAssert
      | Some (offs, _) =>
          k ← cofs_write parent offs (Z.of_nat DIRENT_SIZE) no_dirent;
          (if k =? Z.of_nat DIRENT_SIZE then mret tt else fail EPanic);;
          cofs_update_node parent;;
          cofs_unlock (Some parent);;
          set_node node (fun y => with_links y (u32 (num_links y - 1)));;
          cofs_update_node node;;
          cofs_unlock (Some node);;
          cofs_put_node node;;
          cofs_put_node parent;;
          mret 0
      end
  end.

(** [cofs_init] on a device; the cache starts empty. *)
Definition cofs_init (d : S) : res (nat * fs) :=
  let s := FS d (SB 0 0 0 0 0 0 0) [] 0 (0, []) in
  '(sb, s) ← get_superblock s;
  if negb (magic sb =? COFS_MAGIC) then Err EPanic
  else
    let s := FS (dev s) sb [] 0 (0, []) in
    (root ← cofs_get_node COFS_ROOT_INUM;
     cofs_lock root;;
     r ← non_null root;
     x ← node_of r;
     (if negb (type x =? FS_DIRECTORY) then fail EPanic else mret tt);;
     nm ← lift (strcpy (name x) [47; 0]);
     set_node r (fun x => with_name x nm);;
     cofs_unlock root;;
     mret r) s.
End Cofs.
End Cofs.
