(* ===== verification/CofsBlocks.v ===== *)
(** * cofs: blocks, bitmap and inode table

    Running the primitives of cofs.c against the laws of the block device;
    the allocation bitmap, the representation of inodes, and the file system
    operations that allocate and free blocks. *)
From S2P Require Import Prelude CString BlockDev HdQueue Cofs.
Import Cofs.

Module CofsBlocks.

(** ** Bits of a bitmap block *)
Section Bits.
Local Open Scope nat_scope.

Lemma bit_mask_range idx : (0 < bit_mask idx < 256)%Z.
Proof.
  unfold bit_mask. assert (idx mod 8 < 8) by (apply Nat.mod_upper_bound; lia).
  rewrite Z.shiftl_mul_pow2, Z.mul_1_l by lia.
  split; [apply Z.pow_pos_nonneg; lia|].
  change 256%Z with (2 ^ 8)%Z. apply Z.pow_lt_mono_r; lia.
Qed.

Lemma bit_mask_testbit idx k :
  (0 <= k)%Z -> Z.testbit (bit_mask idx) k = (k =? Z.of_nat (idx mod 8))%Z.
Proof.
  intros Hk. unfold bit_mask. rewrite Z.shiftl_spec by done.
  destruct (Z.eqb_spec k (Z.of_nat (idx mod 8))) as [->|Hne]; [by rewrite Z.sub_diag|].
  destruct (Z.ltb_spec k (Z.of_nat (idx mod 8))); [by rewrite Z.testbit_neg_r by lia|].
  apply (testbit_small 1 1); lia.
Qed.

(** A bit is clear when the corresponding bit of its byte is. *)
Lemma bit_clear_testbit c idx :
  bit_clear c idx = negb (Z.testbit (default 0%Z (c !! (idx / 8))) (Z.of_nat (idx mod 8))).
Proof.
  unfold bit_clear. set (b := default 0%Z (c !! (idx / 8))). set (k := Z.of_nat (idx mod 8)).
  destruct (Z.testbit b k) eqn:E; cbn [negb].
  - apply Z.eqb_neq. intros Hz. apply (f_equal (fun x => Z.testbit x k)) in Hz.
    rewrite Z.land_spec, bit_mask_testbit, E, Z.bits_0 in Hz by lia.
    fold k in Hz. rewrite Z.eqb_refl in Hz. done.
  - apply Z.eqb_eq, Z.bits_inj'. intros n Hn. rewrite Z.land_spec, bit_mask_testbit, Z.bits_0 by done.
    fold k. destruct (Z.eqb_spec n k) as [->|]; [by rewrite E|by rewrite andb_false_r].
Qed.

Lemma same_bit i j : i / 8 = j / 8 -> i mod 8 = j mod 8 -> i = j.
Proof. intros. rewrite (Nat.div_mod_eq i 8), (Nat.div_mod_eq j 8). lia. Qed.

Lemma testbit_u8 x k : (0 <= k < 8)%Z -> Z.testbit (u8 x) k = Z.testbit x k.
Proof. intros. unfold u8. apply Z.mod_pow2_bits_low. lia. Qed.

Lemma bit_clear_set c i j :
  i / 8 < length c -> bit_clear (set_bit c i) j = if decide (i = j) then false else bit_clear c j.
Proof.
  intros Hi. rewrite !bit_clear_testbit. unfold set_bit.
  assert (Hm : (Z.of_nat (j mod 8) < 8)%Z) by (pose proof (Nat.mod_upper_bound j 8); lia).
  destruct (lookup_lt_is_Some_2 c (i / 8) Hi) as [b Hb].
  destruct (decide (i / 8 = j / 8)) as [Hd|Hd].
  - rewrite <- Hd, list_lookup_alter_eq, Hb. cbn [fmap option_fmap option_map from_option id].
    rewrite testbit_u8, Z.lor_spec, bit_mask_testbit by lia. case_decide as Hij.
    + subst j. by rewrite Z.eqb_refl, orb_true_r.
    + replace (_ =? _)%Z with false; [by rewrite orb_false_r|].
      symmetry. apply Z.eqb_neq. intros He. apply Hij, same_bit; lia.
  - rewrite list_lookup_alter_ne by done. rewrite decide_False; [done|congruence].
Qed.

Lemma bit_clear_clr c i j :
  i / 8 < length c -> bit_clear (clr_bit c i) j = if decide (i = j) then true else bit_clear c j.
Proof.
  intros Hi. rewrite !bit_clear_testbit. unfold clr_bit.
  assert (Hm : (Z.of_nat (j mod 8) < 8)%Z) by (pose proof (Nat.mod_upper_bound j 8); lia).
  destruct (lookup_lt_is_Some_2 c (i / 8) Hi) as [b Hb].
  destruct (decide (i / 8 = j / 8)) as [Hd|Hd].
  - rewrite <- Hd, list_lookup_alter_eq, Hb. cbn [fmap option_fmap option_map from_option id].
    rewrite testbit_u8, Z.land_spec, Z.lnot_spec, bit_mask_testbit by lia. case_decide as Hij.
    + subst j. by rewrite Z.eqb_refl, andb_false_r.
    + replace (_ =? _)%Z with false; [by rewrite andb_true_r|].
      symmetry. apply Z.eqb_neq. intros He. apply Hij, same_bit; lia.
  - rewrite list_lookup_alter_ne by done. rewrite decide_False; [done|congruence].
Qed.

Lemma is_block_alter c f i : is_block c -> (forall b, is_byte (f b)) -> is_block (alter f i c).
Proof.
  intros [Hl Hb] Hf. split; [by rewrite length_alter|].
  apply Forall_alter; [done|auto].
Qed.

Lemma set_bit_block c i : is_block c -> is_block (set_bit c i).
Proof. intros. apply is_block_alter; [done|]. intros. apply u8_range. Qed.
Lemma clr_bit_block c i : is_block c -> is_block (clr_bit c i).
Proof. intros. apply is_block_alter; [done|]. intros. apply u8_range. Qed.

(** ** The search for a clear bit *)
Lemma scan_bits_spec c idx n :
  match scan_bits c idx n with
  | Some k => idx <= k < idx + n /\ bit_clear c k = true /\
      forall j, idx <= j < k -> bit_clear c j = false
  | None => forall k, idx <= k < idx + n -> bit_clear c k = false
  end.
Proof.
  revert idx. induction n as [|n IH]; intros idx; cbn [scan_bits]; [intros; lia|].
  destruct (bit_clear c idx) eqn:E; [split_and!; [lia|lia|done|intros; lia]|].
  specialize (IH (S idx)). destruct (scan_bits c (S idx) n).
  - destruct IH as (? & ? & Hj). split_and!; [lia|lia|done|].
    intros j Hjr. destruct (decide (j = idx)) as [->|]; [done|]. apply Hj. lia.
  - intros k Hk. destruct (decide (k = idx)) as [->|]; [done|]. apply IH. lia.
Qed.

Lemma scan_full_spec c scan n :
  (scan <= scan_full c scan n <= scan + n) /\
  (forall k, scan <= k < scan_full c scan n -> rd_word c k = 0xFFFFFFFF%Z) /\
  (scan_full c scan n < scan + n -> rd_word c (scan_full c scan n) <> 0xFFFFFFFF%Z).
Proof.
  revert scan. induction n as [|n IH]; intros scan; cbn [scan_full]; [split_and!; intros; lia|].
  destruct (Z.eqb_spec (rd_word c scan) 0xFFFFFFFF) as [He|Hne].
  - destruct (IH (S scan)) as (? & Hall & Hend). split_and!; [lia|lia| |].
    + intros k Hk. destruct (decide (k = scan)) as [->|]; [done|]. apply Hall. lia.
    + intros. apply Hend. lia.
  - split_and!; [lia|lia| |done]. intros. lia.
Qed.

(** The bit [8 j + k] of a little-endian word is bit [k] of its byte [j]. *)
Lemma le_combine_testbit bs j k :
  Forall is_byte bs -> (0 <= k < 8)%Z ->
  Z.testbit (le_combine bs) (8 * Z.of_nat j + k) = Z.testbit (default 0%Z (bs !! j)) k.
Proof.
  intros Hb Hk. revert j. induction Hb as [|b bs Hb1 Hb2 IH]; intros j; cbn [le_combine].
  - by rewrite !Z.bits_0.
  - replace (b + 256 * le_combine bs)%Z with (Z.lor (Z.shiftl (le_combine bs) 8) b)
      by (rewrite lor_shiftl_add by (unfold is_byte in Hb1; lia); lia).
    unfold is_byte in Hb1. rewrite Z.lor_spec, Z.shiftl_spec by lia. destruct j as [|j]; simpl.
    + by rewrite Z.testbit_neg_r by lia.
    + rewrite (testbit_small b 8) by lia. rewrite orb_false_r, <- IH. f_equal. lia.
Qed.

Lemma word_full c i :
  is_block c -> i < 128 ->
  rd_word c i = 0xFFFFFFFF%Z <-> forall k, i * 32 <= k < i * 32 + 32 -> bit_clear c k = false.
Proof.
  intros [Hl Hb] Hi. unfold rd_word. set (w := take 4 (drop (4 * i) c)).
  assert (Hw : Forall is_byte w) by by apply Forall_take, Forall_drop.
  assert (Hlw : length w = 4) by (subst w; rewrite length_take, length_drop; lia).
  assert (Hbit : forall k, i * 32 <= k < i * 32 + 32 ->
    bit_clear c k = negb (Z.testbit (le_combine w) (Z.of_nat (k - i * 32)))).
  { intros k Hk. rewrite bit_clear_testbit. f_equal.
    assert (Hkd : k / 8 = 4 * i + (k - i * 32) / 8)
      by (replace k with ((k - i * 32) + (4 * i) * 8) at 1 by lia; rewrite Nat.div_add; lia).
    assert (Hkm : k mod 8 = (k - i * 32) mod 8)
      by (replace k with ((k - i * 32) + (4 * i) * 8) at 1 by lia; by rewrite Nat.Div0.mod_add).
    assert ((k - i * 32) / 8 < 4) by (apply Nat.Div0.div_lt_upper_bound; lia).
    pose proof (Nat.div_mod_eq (k - i * 32) 8).
    pose proof (Nat.mod_upper_bound (k - i * 32) 8).
    replace (Z.of_nat (k - i * 32)) with
      (8 * Z.of_nat ((k - i * 32) / 8) + Z.of_nat (k mod 8))%Z by lia.
    rewrite le_combine_testbit by (done || lia). subst w.
    rewrite lookup_take_lt, lookup_drop by lia. by rewrite Hkd. }
  split.
  - intros He k Hk. rewrite Hbit, He by done. change 0xFFFFFFFF%Z with (Z.ones 32).
    rewrite Z.ones_spec_low by lia. done.
  - intros Hall. pose proof (le_combine_bound w Hw) as Hr. rewrite Hlw in Hr.
    change (256 ^ Z.of_nat 4)%Z with (2 ^ 32)%Z in Hr.
    apply Z.bits_inj'. intros n Hn. change 0xFFFFFFFF%Z with (Z.ones 32).
    destruct (Z.ltb_spec n 32).
    + rewrite Z.ones_spec_low by lia. specialize (Hbit (i * 32 + Z.to_nat n)).
      rewrite Hall in Hbit by lia.
      replace (Z.of_nat (i * 32 + Z.to_nat n - i * 32)) with n in Hbit by lia.
      destruct (Z.testbit (le_combine w) n); [done|]. by discriminate Hbit; lia.
    + rewrite Z.ones_spec_high by lia. by rewrite (testbit_small _ 32).
Qed.

(** The accelerated search finds the first clear bit of a bitmap block. *)
Lemma find_clear_spec c :
  is_block c ->
  match find_clear c with
  | Some k => k < 4096 /\ bit_clear c k = true /\ forall j, j < k -> bit_clear c j = false
  | None => forall k, k < 4096 -> bit_clear c k = false
  end.
Proof.
  intros Hc. unfold find_clear. destruct (scan_full_spec c 0 128) as (Hr & Hall & Hend).
  set (s := scan_full c 0 128) in *.
  assert (Hfull : forall k, k < s * 32 -> bit_clear c k = false).
  { intros k Hk. assert (k / 32 < s) by (apply Nat.Div0.div_lt_upper_bound; lia).
    apply (proj1 (word_full c (k / 32) Hc ltac:(lia))); [apply Hall; lia|].
    pose proof (Nat.div_mod_eq k 32). pose proof (Nat.mod_upper_bound k 32). lia. }
  case_decide as Hs; [intros k Hk; apply Hfull; lia|].
  pose proof (scan_bits_spec c (s * 32) 32) as Hb. destruct (scan_bits c (s * 32) 32) as [k|].
  - destruct Hb as (? & ? & Hj). split_and!; [lia|done|].
    intros j Hjk. destruct (decide (j < s * 32)); [by apply Hfull|apply Hj; lia].
  - exfalso. apply Hend; [lia|]. apply word_full; [done|lia|done].
Qed.
End Bits.

Section Blocks.
Context {S : Type} `{Hd : BlockDev S} `{!BlockDevLaws S}.
Notation fs := (Cofs.fs (S:=S)).

(** ** Running the buffer operations *)
Definition set_dev (s : fs) (d : S) : fs := FS d (superb s) (cache s) (cache_lock s) (dirent s).

(** [eff s s' V]: only the device changes from [s] to [s'], it keeps its
    invariant and its blocks now contain [V]. *)
Definition eff (s s' : fs) (V : Z -> list Z) : Prop :=
  s' = set_dev s (dev s') /\ binv (dev s') /\
  (forall x, bvalid (dev s') x <-> bvalid (dev s) x) /\
  (forall x, bvalid (dev s) x -> bview (dev s') x = V x).

(** What a request for block [b] needs. *)
Definition ready (s : fs) (b : Z) : Prop :=
  binv (dev s) /\ bvalid (dev s) b /\ 0 <= b < 2 ^ 31 /\
  (forall h b', bheld (dev s) !! h = Some b' -> b' <> b) /\
  (base.size (bheld (dev s)) < bcap)%nat.

(** The state [s1] reached from [s] by getting block [b] in buffer [h]. *)
Definition opened (s s1 : fs) (h : nat) (b : Z) : Prop :=
  eff s s1 (bview (dev s)) /\ bheld (dev s) !! h = None /\
  bheld (dev s1) = <[h := b]> (bheld (dev s)) /\ bvalid (dev s) b.

Lemma set_dev_id s : set_dev s (dev s) = s.
Proof. by destruct s. Qed.

Lemma eff_refl s : binv (dev s) -> eff s s (bview (dev s)).
Proof. intros. split_and!; try done. by rewrite set_dev_id. Qed.

Lemma eff_trans s s1 s2 V W : eff s s1 V -> eff s1 s2 W -> eff s s2 W.
Proof.
  intros (E1 & H1 & Hv1 & HV1) (E2 & H2 & Hv2 & HV2). split_and!; [|done| |].
  - rewrite E2, E1. done.
  - intros x. by rewrite Hv2, Hv1.
  - intros x Hx. apply HV2. by apply Hv1.
Qed.

Lemma eff_ext s s' V W : (forall x, bvalid (dev s) x -> V x = W x) -> eff s s' V -> eff s s' W.
Proof.
  intros He (E & H1 & Hv & HV). split_and!; [done..|].
  intros x Hx. rewrite <- He by done. auto.
Qed.

Lemma get_run s b :
  ready s b -> exists h s1, get_hd_buf b s = Ok (h, s1) /\ opened s s1 h b.
Proof.
  intros (Hi & Hv & Hb & Hn & Hc).
  destruct (bget_spec (dev s) b Hi Hv Hn Hc) as (h & d & Hg & Hi' & Hh & Hh' & Hv' & HV).
  exists h, (set_dev s d). split.
  - unfold get_hd_buf, on_dev. rewrite s32_small by lia. by rewrite Hg.
  - split_and!; done.
Qed.

Lemma opened_held s s1 h b : opened s s1 h b -> bheld (dev s1) !! h = Some b.
Proof. intros (_ & _ & -> & _). apply lookup_insert_eq. Qed.

Lemma rd_run s s1 h b : opened s s1 h b -> rd_buf h s1 = Ok (bview (dev s) b, s1).
Proof.
  intros Ho. pose proof (opened_held _ _ _ _ Ho) as Hh.
  destruct Ho as ((E & Hi & Hv & HV) & _ & _ & Hb). unfold rd_buf, on_dev.
  rewrite (bread_spec (dev s1) h b Hi Hh). rewrite (HV b Hb). by destruct s1.
Qed.

Lemma put_run s s1 h b :
  opened s s1 h b -> exists s2, put_hd_buf h s1 = Ok (tt, s2) /\
    eff s s2 (bview (dev s)) /\ bheld (dev s2) = bheld (dev s).
Proof.
  intros Ho. pose proof (opened_held _ _ _ _ Ho) as Hh.
  destruct Ho as ((E & Hi & Hv & HV) & Hno & Heq & Hb).
  destruct (bput_spec (dev s1) h b Hi Hh) as (d & Hp & Hi2 & Hh2 & Hv2 & HV2).
  exists (set_dev s1 d). split; [unfold put_hd_buf, on_dev; by rewrite Hp|]. split.
  - split_and!; [rewrite E; done|done|intros x; cbn; by rewrite Hv2, Hv|].
    intros x Hx. cbn. rewrite HV2 by by apply Hv. auto.
  - cbn. rewrite Hh2, Heq. by apply delete_insert_id.
Qed.

(** A block map with one block replaced. *)
Definition upd_view (V : Z -> list Z) (b : Z) (c : list Z) (x : Z) : list Z :=
  if decide (x = b) then c else V x.

Lemma wr_run s s1 h b c :
  opened s s1 h b -> is_block c ->
  exists s2, wr_buf h c s1 = Ok (tt, s2) /\ eff s s2 (upd_view (bview (dev s)) b c) /\
    bheld (dev s2) = bheld (dev s1).
Proof.
  intros Ho Hc. pose proof (opened_held _ _ _ _ Ho) as Hh.
  destruct Ho as ((E & Hi & Hv & HV) & Hno & Heq & Hb).
  destruct (bwrite_spec (dev s1) h b c Hi Hh Hc) as (d & Hw & Hi2 & Hh2 & Hv2 & HV2).
  exists (set_dev s1 d). split; [unfold wr_buf, on_dev; by rewrite Hw|]. split; [|done].
  split_and!; [rewrite E; done|done|intros x; cbn; by rewrite Hv2, Hv|].
  intros x Hx. cbn. rewrite HV2 by by apply Hv. unfold upd_view. case_decide; auto.
Qed.

Lemma wr_put_run s s1 h b c :
  opened s s1 h b -> is_block c ->
  exists s2 s3, wr_buf h c s1 = Ok (tt, s2) /\ put_hd_buf h s2 = Ok (tt, s3) /\
    eff s s3 (upd_view (bview (dev s)) b c) /\ bheld (dev s3) = bheld (dev s).
Proof.
  intros Ho Hc. pose proof (opened_held _ _ _ _ Ho) as Hh.
  destruct (wr_run s s1 h b c Ho Hc) as (s2 & Hw & (E2 & Hi2 & Hv2 & HV2) & Hh2).
  destruct Ho as (_ & Hno & Heq & Hb).
  rewrite <- Hh2 in Hh. destruct (bput_spec (dev s2) h b Hi2 Hh) as (d & Hp & Hi3 & Hh3 & Hv3 & HV3).
  exists s2, (set_dev s2 d). split; [done|]. split; [unfold put_hd_buf, on_dev; by rewrite Hp|]. split.
  - split_and!; [rewrite E2; done|done|intros x; cbn; by rewrite Hv3, Hv2|].
    intros x Hx. cbn. rewrite HV3 by by apply Hv2. auto.
  - cbn. rewrite Hh3, Hh2, Heq. by apply delete_insert_id.
Qed.

Lemma view_block s b : binv (dev s) -> bvalid (dev s) b -> is_block (bview (dev s) b).
Proof. apply bview_block. Qed.

(** ** The allocation bitmap *)
Definition bitmap_blk (s : fs) (b : Z) : Z := BITMAP_BLOCK b (superb s).
Definition bit_index (b : Z) : nat := Z.to_nat (b mod BITS_PER_BLOCK).
(** Is block [b] marked as allocated? *)
Definition allocated (s : fs) (b : Z) : bool :=
  negb (bit_clear (bview (dev s) (bitmap_blk s b)) (bit_index b)).

Lemma bit_index_lt b : (bit_index b < 4096)%nat.
Proof.
  unfold bit_index, BITS_PER_BLOCK. pose proof (Z.mod_pos_bound b 4096). lia.
Qed.

Lemma bit_index_byte c b : is_block c -> (bit_index b / 8 < length c)%nat.
Proof.
  intros [-> _]. pose proof (bit_index_lt b). apply Nat.Div0.div_lt_upper_bound. lia.
Qed.

(** The number of bits the allocator looks at: whole bitmap blocks. *)
Definition num_bits (s : fs) : Z :=
  ((size_blocks (superb s) - 1) / BITS_PER_BLOCK + 1) * BITS_PER_BLOCK.

(** The bitmap is inside the partition and below 2^30. *)
Definition bitmap_ok (s : fs) : Prop :=
  0 <= bitmap_start (superb s) < 2 ^ 30 /\ 0 < size_blocks (superb s) < 2 ^ 30 /\
  forall x, 0 <= x < num_bits s -> bvalid (dev s) (bitmap_blk s x).

Lemma num_bits_range s :
  bitmap_ok s -> size_blocks (superb s) <= num_bits s < size_blocks (superb s) + BITS_PER_BLOCK.
Proof.
  intros (_ & Hs & _). unfold num_bits, BITS_PER_BLOCK.
  pose proof (Z.div_mod (size_blocks (superb s) - 1) 4096).
  pose proof (Z.mod_pos_bound (size_blocks (superb s) - 1) 4096). lia.
Qed.

Lemma bitmap_blk_eq s b :
  bitmap_ok s -> 0 <= b < num_bits s ->
  bitmap_blk s b = b / BITS_PER_BLOCK + bitmap_start (superb s) /\ 0 <= bitmap_blk s b < 2 ^ 31.
Proof.
  intros Hok Hb. pose proof (num_bits_range s Hok) as Hr. destruct Hok as (H1 & H2 & _).
  unfold bitmap_blk, BITMAP_BLOCK. unfold BITS_PER_BLOCK in *.
  assert (0 <= b / 4096) by (apply Z.div_pos; lia).
  assert (b / 4096 < 2 ^ 30) by (apply Z.div_lt_upper_bound; lia).
  rewrite u32_small; lia.
Qed.

(** ** Freeing a block *)
Lemma block_free_run s b :
  ready s (bitmap_blk s b) -> allocated s b = true ->
  exists s', block_free b s = Ok (tt, s') /\ bheld (dev s') = bheld (dev s) /\
    eff s s' (upd_view (bview (dev s)) (bitmap_blk s b)
                (clr_bit (bview (dev s) (bitmap_blk s b)) (bit_index b))).
Proof.
  intros Hr Ha. pose proof Hr as (Hi & Hv & _). unfold block_free. st_run.
  destruct (get_run s _ Hr) as (h & s1 & Hg & Ho).
  unfold bitmap_blk in Hg. rewrite Hg, (rd_run _ _ _ _ Ho).
  unfold allocated, bit_index, bitmap_blk in Ha. apply negb_true_iff in Ha.
  unfold bitmap_blk. rewrite Ha.
  destruct (wr_put_run s s1 h _ (clr_bit (bview (dev s) (bitmap_blk s b)) (bit_index b)) Ho)
    as (s2 & s3 & Hw & Hp & He & Hh).
  { apply clr_bit_block, view_block; done. }
  unfold bitmap_blk, bit_index in Hw. rewrite Hw, Hp. eauto.
Qed.

Lemma block_free_double s b :
  ready s (bitmap_blk s b) -> allocated s b = false -> block_free b s = Err EPanic.
Proof.
  intros Hr Ha. unfold block_free. st_run.
  destruct (get_run s _ Hr) as (h & s1 & Hg & Ho).
  unfold bitmap_blk in Hg. rewrite Hg, (rd_run _ _ _ _ Ho).
  unfold allocated, bit_index, bitmap_blk in Ha. apply negb_false_iff in Ha.
  unfold bitmap_blk. by rewrite Ha.
Qed.

Lemma allocated_upd s s' b c x :
  eff s s' (upd_view (bview (dev s)) (bitmap_blk s b) c) ->
  bvalid (dev s) (bitmap_blk s x) ->
  allocated s' x =
    negb (bit_clear (if decide (bitmap_blk s x = bitmap_blk s b) then c
                     else bview (dev s) (bitmap_blk s x)) (bit_index x)).
Proof.
  intros (E & _ & _ & HV) Hx. unfold allocated.
  replace (bitmap_blk s' x) with (bitmap_blk s x) by (rewrite E; done).
  by rewrite HV.
Qed.

(** Blocks with the same bitmap block and the same bit are equal. *)
Lemma same_bit_block s x b :
  bitmap_ok s -> 0 <= x < num_bits s -> 0 <= b < num_bits s ->
  bitmap_blk s x = bitmap_blk s b -> bit_index x = bit_index b -> x = b.
Proof.
  intros Hok Hx Hb.
  destruct (bitmap_blk_eq s x Hok Hx) as [-> _], (bitmap_blk_eq s b Hok Hb) as [-> _].
  unfold bit_index. intros H1 H2.
  pose proof (Z.mod_pos_bound x BITS_PER_BLOCK). pose proof (Z.mod_pos_bound b BITS_PER_BLOCK).
  unfold BITS_PER_BLOCK in *.
  rewrite (Z.div_mod x 4096), (Z.div_mod b 4096); lia.
Qed.

(** [same s s']: the device may have moved blocks in and out of its buffers,
    and nothing else changed. *)
Definition same (s s' : fs) : Prop :=
  eff s s' (bview (dev s)) /\ bheld (dev s') = bheld (dev s).

Lemma same_refl s : binv (dev s) -> same s s.
Proof. intros. split; [by apply eff_refl|done]. Qed.

Lemma same_trans s1 s2 s3 : same s1 s2 -> same s2 s3 -> same s1 s3.
Proof.
  intros [H1 Hh1] [H2 Hh2]. split; [|congruence]. eapply eff_trans; [exact H1|].
  eapply eff_ext; [|exact H2]. intros x Hx.
  destruct H1 as (_ & _ & Hv & HV). apply HV. by apply Hv.
Qed.

Lemma same_ready s s' b : same s s' -> ready s b -> ready s' b.
Proof.
  intros [(E & Hi & Hv & HV) Hh] (_ & Hb & Hr & Hn & Hc).
  split; [done|]. split; [by apply Hv|]. split; [done|]. by rewrite Hh.
Qed.

Lemma same_allocated s s' x :
  same s s' -> bvalid (dev s) (bitmap_blk s x) -> allocated s' x = allocated s x.
Proof.
  intros [(E & _ & _ & HV) _] Hx. unfold allocated.
  replace (bitmap_blk s' x) with (bitmap_blk s x) by (rewrite E; done). by rewrite HV.
Qed.

(** ** Allocating a block *)

(** What the allocator relies on: the bitmap blocks and the blocks that are
    held by the caller are marked, the latter are not bitmap blocks, and what
    is not marked is a block of the device. *)
Definition alloc_pre (s : fs) : Prop :=
  binv (dev s) /\ bitmap_ok s /\ (base.size (bheld (dev s)) < bcap)%nat /\
  (forall h b', bheld (dev s) !! h = Some b' ->
     0 <= b' < num_bits s /\ allocated s b' = true /\
     forall x, 0 <= x < num_bits s -> bitmap_blk s x <> b') /\
  (forall x, 0 <= x < num_bits s ->
     0 <= bitmap_blk s x < num_bits s /\ allocated s (bitmap_blk s x) = true) /\
  (forall x, 0 <= x < num_bits s -> allocated s x = false -> bvalid (dev s) x).

(** The effect of allocating [b]: its bit is set and it is zeroed. *)
Definition alloc_view (s : fs) (b : Z) : Z -> list Z :=
  upd_view (upd_view (bview (dev s)) (bitmap_blk s b)
              (set_bit (bview (dev s) (bitmap_blk s b)) (bit_index b)))
           b (replicate 512 0).

Definition alloc_post (s : fs) (out : res (Z * fs)) : Prop :=
  (exists b s', out = Ok (b, s') /\ 0 <= b < num_bits s /\ allocated s b = false /\
     (forall x, 0 <= x < b -> allocated s x = true) /\ eff s s' (alloc_view s b) /\ bheld (dev s') = bheld (dev s)) \/
  (out = Err EPanic /\ forall x, 0 <= x < num_bits s -> allocated s x = true).

Lemma alloc_ready s x :
  alloc_pre s -> 0 <= x < num_bits s -> ready s (bitmap_blk s x).
Proof.
  intros (Hi & Hok & Hc & Hh & _) Hx. pose proof Hok as (_ & _ & Hv).
  destruct (bitmap_blk_eq s x Hok Hx) as [_ Hr].
  split; [done|]. split; [auto|]. split; [done|]. split; [|done].
  intros h b' Hb He. destruct (Hh h b' Hb) as (_ & _ & Hne). by apply (Hne x Hx).
Qed.

(** They are kept when the marks can only grow. *)
Lemma alloc_pre_grow s s' W :
  alloc_pre s -> eff s s' W -> bheld (dev s') = bheld (dev s) ->
  (forall x, 0 <= x < num_bits s -> allocated s x = true -> allocated s' x = true) ->
  alloc_pre s'.
Proof.
  intros (Hi & Hok & Hc & Hh & Hm & Hcl) (E & Hi' & Hv & _) Hh' Hup.
  assert (Hnb : num_bits s' = num_bits s) by (rewrite E; done).
  assert (Hbb : forall x, bitmap_blk s' x = bitmap_blk s x) by (intros; rewrite E; done).
  pose proof Hok as (H1 & H2 & H3).
  split; [done|]. split.
  { split; [by rewrite E|]. split; [by rewrite E|]. intros x Hx. rewrite Hbb. apply Hv, H3. lia. }
  split; [by rewrite Hh'|]. split.
  { intros h b' Hb'. rewrite Hh' in Hb'. destruct (Hh h b' Hb') as (Hr & Ha & Hne).
    rewrite Hnb. split; [done|]. split; [by apply Hup|]. intros x Hx. rewrite Hbb. auto. }
  split.
  { intros x Hx. rewrite Hnb in *. rewrite Hbb. destruct (Hm x Hx). auto. }
  intros x Hx Ha. rewrite Hnb in Hx. apply Hv, Hcl; [done|].
  destruct (allocated s x) eqn:Ea; [|done]. by rewrite Hup in Ha.
Qed.

Lemma alloc_pre_same s s' : same s s' -> alloc_pre s -> alloc_pre s'.
Proof.
  intros Hs Hpre. pose proof Hs as [He Hh]. pose proof Hpre as (_ & (_ & _ & H3) & _).
  apply (alloc_pre_grow s s' _ Hpre He Hh). intros x Hx Ha. by rewrite (same_allocated s s') by auto.
Qed.

Lemma alloc_view_same s s' b x :
  same s s' -> bvalid (dev s) (bitmap_blk s b) -> bvalid (dev s) x ->
  alloc_view s' b x = alloc_view s b x.
Proof.
  intros [(E & _ & _ & HV) _] Hb Hx. unfold alloc_view, upd_view.
  replace (bitmap_blk s' b) with (bitmap_blk s b) by (rewrite E; done).
  rewrite !HV by done. done.
Qed.

(** Zeroing a block that nobody holds. *)
Lemma block_zero_run s b :
  ready s b -> exists s', block_zero b s = Ok (tt, s') /\
    eff s s' (upd_view (bview (dev s)) b (replicate 512 0)) /\ bheld (dev s') = bheld (dev s).
Proof.
  intros Hr. destruct (get_run s b Hr) as (h & s1 & Hg & Ho). unfold block_zero. st_run. rewrite Hg.
  destruct (wr_put_run s s1 h b (replicate 512 0) Ho) as (s2 & s3 & Hw & Hp & He & Hh).
  { split; [apply length_replicate|]. apply Forall_replicate. unfold is_byte. lia. }
  rewrite Hw, Hp. eauto.
Qed.

(** Bit [idx] of the bitmap block of [block]. *)
Lemma bit_index_add blk idx :
  blk mod BITS_PER_BLOCK = 0 -> (idx < 4096)%nat -> 0 <= blk ->
  bit_index (blk + Z.of_nat idx) = idx /\ (blk + Z.of_nat idx) / BITS_PER_BLOCK = blk / BITS_PER_BLOCK.
Proof.
  unfold bit_index, BITS_PER_BLOCK. intros Hm Hi Hb. pose proof (Z.div_mod blk 4096).
  assert (Hq : (blk + Z.of_nat idx) / 4096 = blk / 4096)
    by (symmetry; apply Z.div_unique with (Z.of_nat idx); lia).
  pose proof (Z.div_mod (blk + Z.of_nat idx) 4096). lia.
Qed.

(** The iteration that finds a clear bit in the bitmap block of [blk]. *)
Lemma block_alloc_hit s blk idx :
  alloc_pre s -> blk mod BITS_PER_BLOCK = 0 -> 0 <= blk < size_blocks (superb s) ->
  (forall x, 0 <= x < blk -> allocated s x = true) ->
  find_clear (bview (dev s) (bitmap_blk s blk)) = Some idx ->
  exists s', (h ← get_hd_buf (bitmap_blk s blk);
     c ← rd_buf h;
     match find_clear c with
     | Some idx =>
         wr_buf h (set_bit c idx);; put_hd_buf h;;
         block_zero (blk +u Z.of_nat idx);; mret (blk +u Z.of_nat idx)
     | None => fail EPanic
     end) s = Ok (blk + Z.of_nat idx, s') /\
    alloc_post s (Ok (blk + Z.of_nat idx, s')).
Proof.
  intros Hpre Hmod Hblk Hbefore Hf. pose proof Hpre as (Hi & Hok & Hc & Hh & Hm & Hcl).
  pose proof (num_bits_range s Hok) as Hnb. pose proof Hok as (H1 & H2 & H3).
  assert (Hr : ready s (bitmap_blk s blk)) by (apply alloc_ready; [done|lia]).
  assert (Hbk : is_block (bview (dev s) (bitmap_blk s blk))) by (apply view_block; [done|apply H3; lia]).
  pose proof (find_clear_spec _ Hbk) as Hfc. rewrite Hf in Hfc. destruct Hfc as (Hidx & Hclear & Hfirst).
  destruct (bit_index_add blk idx Hmod Hidx ltac:(lia)) as [Hbi Hdiv].
  set (b := blk + Z.of_nat idx) in *.
  assert (Hb : 0 <= b < num_bits s).
  { unfold num_bits in *. unfold b, BITS_PER_BLOCK in *.
    pose proof (Z.div_mod blk 4096). assert (blk / 4096 <= (size_blocks (superb s) - 1) / 4096)
      by (apply Z.div_le_mono; lia). lia. }
  assert (Hbb : bitmap_blk s b = bitmap_blk s blk)
    by (unfold bitmap_blk, BITMAP_BLOCK; by rewrite Hdiv).
  assert (Hal : allocated s b = false) by (unfold allocated; by rewrite Hbb, Hbi, Hclear).
  destruct (get_run s _ Hr) as (h & s1 & Hg & Ho). st_run. rewrite Hg, (rd_run _ _ _ _ Ho), Hf.
  destruct (wr_put_run s s1 h _ (set_bit (bview (dev s) (bitmap_blk s blk)) idx) Ho (set_bit_block _ _ Hbk))
    as (s2 & s3 & Hw & Hp & He3 & Hh3). rewrite Hw, Hp.
  fold b. unfold BITS_PER_BLOCK in *. rewrite !(u32_small b) by lia.
  pose proof He3 as (E3 & Hi3 & Hv3 & HV3).
  destruct (block_zero_run s3 b) as (s4 & -> & He4 & Hh4).
  { split; [done|]. split; [by apply Hv3, Hcl|]. split; [lia|]. rewrite Hh3. split; [|done].
    intros h' b' Hb' ->. destruct (Hh h' b Hb') as (_ & Ha & _). congruence. }
  exists s4. split; [done|]. left. exists b, s4. split_and!; [done|lia|lia|done| | |congruence].
  { intros x Hx. destruct (decide (x < blk)); [apply Hbefore; lia|].
    destruct (bit_index_add blk (Z.to_nat (x - blk)) Hmod ltac:(lia) ltac:(lia)) as [Hbx Hdx].
    rewrite Z2Nat.id in * by lia. replace (blk + (x - blk)) with x in * by lia.
    unfold allocated. replace (bitmap_blk s x) with (bitmap_blk s blk)
      by (unfold bitmap_blk, BITMAP_BLOCK, BITS_PER_BLOCK in *; by rewrite Hdx).
    rewrite Hbx, Hfirst by lia. done. }
  eapply eff_trans; [exact He3|]. eapply eff_ext; [|exact He4]. intros x Hx.
  unfold alloc_view, upd_view. case_decide; [done|]. rewrite HV3 by by apply Hv3.
  unfold upd_view. by rewrite Hbb, Hbi.
Qed.

Lemma alloc_post_same s s2 out :
  same s s2 -> alloc_pre s -> alloc_post s2 out -> alloc_post s out.
Proof.
  intros Hs (Hi & Hok & _ & _ & _ & Hcl). pose proof Hok as (_ & _ & H3).
  pose proof Hs as [He Hh]. assert (Hnb : num_bits s2 = num_bits s) by (destruct He as (-> & _); done).
  assert (Hal : forall x, 0 <= x < num_bits s -> allocated s2 x = allocated s x)
    by (intros; apply same_allocated; auto).
  intros [(b & s' & -> & Hb & Hab & Hmin & Heff & Hh')|[-> Hall]].
  - left. exists b, s'. rewrite Hnb in Hb. rewrite Hal in Hab by done.
    split_and!; [done|lia|lia|done|intros x Hx; rewrite <- Hal by lia; by apply Hmin| |congruence].
    eapply eff_trans; [exact He|]. eapply eff_ext; [|exact Heff]. intros x Hx.
    apply alloc_view_same; [done|auto|]. destruct He as (_ & _ & Hv & _). by apply Hv.
  - right. split; [done|]. intros x Hx. rewrite <- Hal by done. apply Hall. lia.
Qed.

(** The bits of one bitmap block: none is clear when the search fails. *)
Lemma block_full s blk x :
  blk mod BITS_PER_BLOCK = 0 -> 0 <= blk -> blk <= x < blk + BITS_PER_BLOCK ->
  is_block (bview (dev s) (bitmap_blk s blk)) ->
  find_clear (bview (dev s) (bitmap_blk s blk)) = None -> allocated s x = true.
Proof.
  intros Hmod Hblk Hx Hbk Hf. pose proof (find_clear_spec _ Hbk) as Hfc. rewrite Hf in Hfc.
  unfold allocated. unfold BITS_PER_BLOCK in *.
  destruct (bit_index_add blk (Z.to_nat (x - blk)) Hmod ltac:(lia) ltac:(lia)) as [Hb1 Hb2].
  rewrite Z2Nat.id in * by lia. replace (blk + (x - blk)) with x in * by lia.
  replace (bitmap_blk s x) with (bitmap_blk s blk)
    by (unfold bitmap_blk, BITMAP_BLOCK; by rewrite Hb2).
  rewrite Hb1, Hfc by lia. done.
Qed.

(** The blocks the allocator visits are multiples of 4096 up to the number of
    bits. *)
Lemma next_blk s blk :
  blk mod BITS_PER_BLOCK = 0 -> 0 <= blk ->
  (blk < size_blocks (superb s) -> blk + BITS_PER_BLOCK <= num_bits s) /\
  (size_blocks (superb s) <= blk -> 0 < size_blocks (superb s) -> num_bits s <= blk).
Proof.
  intros Hmod Hblk. unfold num_bits, BITS_PER_BLOCK in *. pose proof (Z.div_mod blk 4096).
  split; intros Hlt.
  - assert (blk / 4096 <= (size_blocks (superb s) - 1) / 4096) by (apply Z.div_le_mono; lia). lia.
  - intros Hp. assert ((size_blocks (superb s) - 1) / 4096 < blk / 4096); [|lia].
    apply Z.div_lt_upper_bound; lia.
Qed.

Lemma block_alloc_loop_run f s blk :
  alloc_pre s -> blk mod BITS_PER_BLOCK = 0 -> 0 <= blk <= num_bits s ->
  (forall x, 0 <= x < blk -> allocated s x = true) ->
  num_bits s - blk < Z.of_nat f * BITS_PER_BLOCK ->
  alloc_post s (block_alloc_loop f blk s).
Proof.
  revert s blk. induction f as [|f IH]; intros s blk Hpre Hmod Hblk Hbefore Hf; [lia|].
  pose proof Hpre as (Hi & Hok & Hc & Hh & Hm & Hcl). pose proof (num_bits_range s Hok) as Hnb.
  pose proof Hok as (H1 & H2 & H3). cbn [block_alloc_loop]. st_run.
  destruct (next_blk s blk Hmod ltac:(lia)) as [Hnxt Hend].
  destruct (Z.ltb_spec blk (size_blocks (superb s))) as [Hlt|Hge].
  - fold (bitmap_blk s blk). assert (Hr : ready s (bitmap_blk s blk)) by (apply alloc_ready; [done|lia]).
    destruct (find_clear (bview (dev s) (bitmap_blk s blk))) as [idx|] eqn:Ef.
    + destruct (block_alloc_hit s blk idx Hpre Hmod ltac:(lia) Hbefore Ef) as (s' & Hrun & Hpost).
      destruct (get_run s _ Hr) as (h & s1 & Hg & Ho). revert Hrun. st_run.
      rewrite Hg, (rd_run _ _ _ _ Ho), Ef. intros ->. done.
    + assert (Hbk : is_block (bview (dev s) (bitmap_blk s blk))) by (apply view_block; [done|apply H3; lia]).
      destruct (get_run s _ Hr) as (h & s1 & Hg & Ho). rewrite Hg, (rd_run _ _ _ _ Ho), Ef.
      destruct (put_run s s1 h _ Ho) as (s2 & -> & He2 & Hh2). assert (Hs : same s s2) by done.
      assert (Hnb2 : num_bits s2 = num_bits s) by (destruct He2 as (-> & _); done).
      specialize (Hnxt Hlt). rewrite u32_small by (unfold BITS_PER_BLOCK in *; lia).
      apply (alloc_post_same s s2 _ Hs Hpre). apply IH.
      * by apply (alloc_pre_same s).
      * unfold BITS_PER_BLOCK in *. rewrite <- Hmod. apply (Z.mod_add blk 1 4096). lia.
      * unfold BITS_PER_BLOCK in *. lia.
      * intros x Hx. rewrite (same_allocated s s2) by (done || apply H3; lia).
        destruct (decide (x < blk)); [apply Hbefore; lia|]. apply (block_full s blk x); done || lia.
      * rewrite Hnb2. unfold BITS_PER_BLOCK in *. lia.
  - right. split; [done|]. intros x Hx. apply Hbefore. specialize (Hend Hge ltac:(lia)). lia.
Qed.

Lemma block_alloc_run s : alloc_pre s -> alloc_post s (block_alloc s).
Proof.
  intros Hpre. pose proof Hpre as (_ & Hok & _). pose proof (num_bits_range s Hok) as Hnb.
  destruct Hok as (_ & Hs & _). unfold block_alloc. apply block_alloc_loop_run; try done.
  - unfold BITS_PER_BLOCK in *. lia.
  - intros. lia.
  - unfold BITS_PER_BLOCK in *. pose proof (Z.div_mod (size_blocks (superb s)) 4096).
    pose proof (Z.mod_pos_bound (size_blocks (superb s)) 4096).
    assert (0 <= size_blocks (superb s) / 4096) by (apply Z.div_pos; lia). lia.
Qed.

(** The bits after an allocation. *)
Lemma allocated_after s s' b x :
  alloc_pre s -> 0 <= b < num_bits s -> allocated s b = false ->
  eff s s' (alloc_view s b) -> 0 <= x < num_bits s ->
  allocated s' x = ((x =? b) || allocated s x)%bool.
Proof.
  intros Hpre Hb Hab (E & _ & _ & HV) Hx. pose proof Hpre as (Hi & Hok & _ & _ & Hm & _).
  pose proof Hok as (_ & _ & H3). unfold allocated at 1.
  replace (bitmap_blk s' x) with (bitmap_blk s x) by (rewrite E; done).
  rewrite HV by auto. unfold alloc_view, upd_view.
  rewrite decide_False; [|intros He; destruct (Hm x Hx) as [_ Ha]; congruence].
  assert (Hbk : is_block (bview (dev s) (bitmap_blk s b))) by (apply view_block; auto).
  case_decide as Hbb.
  - rewrite bit_clear_set by by apply bit_index_byte. case_decide as Hbi.
    + rewrite (same_bit_block s x b) by auto. by rewrite Z.eqb_refl.
    + replace (x =? b) with false; [unfold allocated; by rewrite Hbb|].
      symmetry. apply Z.eqb_neq. intros ->. done.
  - replace (x =? b) with false; [done|]. symmetry. apply Z.eqb_neq. intros ->. done.
Qed.

(** The conditions of the allocator are kept by an allocation ... *)
Lemma alloc_pre_after s s' b :
  alloc_pre s -> 0 <= b < num_bits s -> allocated s b = false ->
  eff s s' (alloc_view s b) -> bheld (dev s') = bheld (dev s) -> alloc_pre s'.
Proof.
  intros Hpre Hb Hab He Hh. apply (alloc_pre_grow s s' _ Hpre He Hh).
  intros x Hx Ha. rewrite (allocated_after s s' b x), Ha by done. apply orb_true_r.
Qed.

Lemma allocated_free s s' b x :
  alloc_pre s -> 0 <= b < num_bits s ->
  eff s s' (upd_view (bview (dev s)) (bitmap_blk s b)
              (clr_bit (bview (dev s) (bitmap_blk s b)) (bit_index b))) ->
  0 <= x < num_bits s -> allocated s' x = (negb (x =? b) && allocated s x)%bool.
Proof.
  intros (Hi & Hok & _) Hb He Hx. pose proof Hok as (_ & _ & H3).
  rewrite (allocated_upd s s' b _ x He) by auto.
  assert (Hbk : is_block (bview (dev s) (bitmap_blk s b))) by (apply view_block; auto).
  case_decide as Hbb.
  - rewrite bit_clear_clr by by apply bit_index_byte. case_decide as Hbi.
    + rewrite (same_bit_block s x b) by auto. by rewrite Z.eqb_refl.
    + replace (x =? b) with false; [unfold allocated; by rewrite Hbb|].
      symmetry. apply Z.eqb_neq. intros ->. done.
  - replace (x =? b) with false; [done|]. symmetry. apply Z.eqb_neq. intros ->. done.
Qed.

(** ... and by freeing a block that is neither held nor in the bitmap. *)
Lemma alloc_pre_free s s' b :
  alloc_pre s -> 0 <= b < num_bits s -> bvalid (dev s) b ->
  (forall x, 0 <= x < num_bits s -> bitmap_blk s x <> b) ->
  (forall h, bheld (dev s) !! h <> Some b) ->
  eff s s' (upd_view (bview (dev s)) (bitmap_blk s b)
              (clr_bit (bview (dev s) (bitmap_blk s b)) (bit_index b))) ->
  bheld (dev s') = bheld (dev s) -> alloc_pre s'.
Proof.
  intros Hpre Hb Hvb Hnb Hnh He Hh'. pose proof Hpre as (Hi & Hok & Hc & Hh & Hm & Hcl).
  pose proof (allocated_free s s' b) as Hal. pose proof He as (E & Hi' & Hv & _).
  assert (Hnum : num_bits s' = num_bits s) by (rewrite E; done).
  assert (Hbb : forall x, bitmap_blk s' x = bitmap_blk s x) by (intros; rewrite E; done).
  assert (Hup : forall x, 0 <= x < num_bits s -> x <> b -> allocated s' x = allocated s x).
  { intros x Hx Hax. rewrite Hal by done. by rewrite (proj2 (Z.eqb_neq x b) Hax). }
  pose proof Hok as (H1 & H2 & H3).
  split; [done|]. split.
  { split; [by rewrite E|]. split; [by rewrite E|]. intros x Hx. rewrite Hbb. apply Hv, H3. lia. }
  split; [by rewrite Hh'|]. split.
  { intros h b' Hb'. rewrite Hh' in Hb'. destruct (Hh h b' Hb') as (Hr & Ha & Hne).
    rewrite Hnum. split; [done|]. rewrite Hup by (done || congruence).
    split; [done|]. intros x Hx. rewrite Hbb. auto. }
  split.
  { intros x Hx. rewrite Hnum in *. rewrite Hbb. destruct (Hm x Hx). rewrite Hup; auto. }
  intros x Hx Ha. rewrite Hnum in Hx. apply Hv. destruct (decide (x = b)) as [->|]; [done|].
  apply Hcl; [done|]. by rewrite <- Hup.
Qed.

(** ** Properties of the block allocator *)

(** [block_alloc] returns the first block whose bit is clear, sets this
    bit and no other, fills the block with zeros, changes no other block than
    that one and its bitmap block, and leaves the allocator ready for the next
    call; it panics exactly when every bit is set. *)
Theorem block_alloc_spec s :
  alloc_pre s ->
  (exists b s', block_alloc s = Ok (b, s') /\ 0 <= b < num_bits s /\
     allocated s b = false /\ (forall x, 0 <= x < b -> allocated s x = true) /\
     (forall x, 0 <= x < num_bits s -> allocated s' x = ((x =? b) || allocated s x)%bool) /\
     bview (dev s') b = replicate 512 0 /\
     (forall x, bvalid (dev s) x -> x <> b -> x <> bitmap_blk s b ->
        bview (dev s') x = bview (dev s) x) /\
     superb s' = superb s /\ cache s' = cache s /\ alloc_pre s') \/
  (block_alloc s = Err EPanic /\ forall x, 0 <= x < num_bits s -> allocated s x = true).
Proof.
  intros Hpre. destruct (block_alloc_run s Hpre) as [(b & s' & Hr & Hb & Hab & Hmin & He & Hh)|[Hr Hall]];
    [left|right; done].
  pose proof He as (E & _ & _ & HV). pose proof Hpre as (_ & _ & _ & _ & _ & Hcl).
  exists b, s'. split_and!; try done; try lia; try (by rewrite E).
  - intros x Hx. by apply (allocated_after s s' b x).
  - rewrite HV by auto. unfold alloc_view, upd_view. by rewrite decide_True.
  - intros x Hv Hxb Hxm. rewrite HV by done. unfold alloc_view, upd_view. by rewrite !decide_False.
  - by apply (alloc_pre_after s s' b).
Qed.

(** [block_free] of an allocated block that is neither held nor a bitmap
    block clears its bit and no other and changes nothing but its bitmap
    block; of a block that is not allocated it panics. *)
Theorem block_free_spec s b :
  alloc_pre s -> 0 <= b < num_bits s -> bvalid (dev s) b ->
  (forall x, 0 <= x < num_bits s -> bitmap_blk s x <> b) ->
  (forall h, bheld (dev s) !! h <> Some b) ->
  if allocated s b then
    exists s', block_free b s = Ok (tt, s') /\
     (forall x, 0 <= x < num_bits s -> allocated s' x = (negb (x =? b) && allocated s x)%bool) /\
     (forall x, bvalid (dev s) x -> x <> bitmap_blk s b -> bview (dev s') x = bview (dev s) x) /\
     superb s' = superb s /\ cache s' = cache s /\ alloc_pre s'
  else block_free b s = Err EPanic.
Proof.
  intros Hpre Hb Hv Hnb Hnh. pose proof (alloc_ready s b Hpre Hb) as Hr.
  destruct (allocated s b) eqn:Ha; [|by apply block_free_double].
  destruct (block_free_run s b Hr Ha) as (s' & Hrun & Hh & He). pose proof He as (E & _ & _ & HV).
  exists s'. split_and!; try done; try (by rewrite E).
  - intros x Hx. by apply (allocated_free s s' b x).
  - intros x Hx Hne. rewrite HV by done. unfold upd_view. by rewrite decide_False.
  - by apply (alloc_pre_free s s' b).
Qed.
End Blocks.

(** ** A partition of 100 blocks: bitmap in block 2, inodes in blocks 3 and 4 *)
Definition small_disk : gmap Z (list Z) :=
  <[1 := splice HdQueue.zero_block 0 (le_split 4 COFS_MAGIC ++ le_split 4 100 ++ le_split 4 95 ++
           le_split 4 16 ++ le_split 4 2 ++ le_split 4 3 ++ le_split 4 5)]>
  (<[2 := splice HdQueue.zero_block 0 [63]]>
  (<[3 := wr_inode HdQueue.zero_block 1
            (Ino 0x41ED 0 0 0 0 1 0 0 0 64 [5; 0; 0; 0; 0; 0; 0; 0; 0])]>
  (<[5 := splice HdQueue.zero_block 0
            (mk_dirent 1 (splice (replicate 28 0) 0 [46]) ++
             mk_dirent 1 (splice (replicate 28 0) 0 [46; 46]))]> ∅))).
Definition small_sb : superblock := SB COFS_MAGIC 100 95 16 2 3 5.
Lemma small_blocks b c : small_disk !! b = Some c -> is_block c.
Proof.
  unfold small_disk. intros H. repeat (apply lookup_insert_Some in H as [[_ <-]|[_ H]];
    [split; [reflexivity|apply bytesb_true; vm_compute; exact eq_refl]|]).
  by rewrite lookup_empty in H.
Qed.

(** A file system of this layout before any buffer is read, with any contents
    of the blocks and of the inode cache. *)
Section Small.
Context (d : gmap Z (list Z)) (c : list fs_node).
Hypothesis Hd : forall b v, d !! b = Some v -> is_block v.
Definition on_disk : Cofs.fs (S:=HdQueue.hdq) :=
  FS (HdQueue.hd_queue_init d 0) small_sb c 0 (0, []).

Lemma on_disk_inv : binv (dev on_disk).
Proof.
  split_and!; cbn; [done|apply NoDup_nil_2|unfold HdQueue.MAX_HD_BUFS; lia|done|].
  intros n. unfold HdQueue.disk_read. cbn. destruct (d !! n) as [v|] eqn:E; cbn.
  - by apply (Hd n).
  - apply HdQueue.zero_block_ok.
Qed.

Lemma on_disk_not_held h b : bheld (dev on_disk) !! h <> Some b.
Proof. intros (h' & Hh & _)%HdQueue.lookup_held. done. Qed.

Lemma on_disk_bitmap x : 0 <= x < 4096 -> bitmap_blk on_disk x = 2.
Proof.
  intros Hx. unfold bitmap_blk, BITMAP_BLOCK, BITS_PER_BLOCK. cbn [superb on_disk bitmap_start small_sb].
  by rewrite Z.div_small.
Qed.

Lemma on_disk_valid x : 0 <= x < 4096 -> bvalid (dev on_disk) x.
Proof. intros. unfold bvalid. cbn. unfold HdQueue.valid. cbn. lia. Qed.

Lemma on_disk_alloc_pre : allocated on_disk 2 = true -> alloc_pre on_disk.
Proof.
  intros H2. unfold alloc_pre, bitmap_ok. change (num_bits on_disk) with 4096. split_and!.
  - apply on_disk_inv.
  - cbn. lia.
  - cbn. lia.
  - cbn. lia.
  - cbn. lia.
  - intros x Hx. rewrite on_disk_bitmap by done. apply on_disk_valid. lia.
  - vm_compute. lia.
  - intros h b' Hb. by apply on_disk_not_held in Hb.
  - intros x Hx. rewrite on_disk_bitmap by done. split; [lia|done].
  - intros x Hx _. by apply on_disk_valid.
Qed.
End Small.

Definition small_fs : Cofs.fs (S:=HdQueue.hdq) := on_disk small_disk [].

Lemma small_alloc_pre : alloc_pre small_fs.
Proof. apply on_disk_alloc_pre; [exact small_blocks|]. vm_compute. reflexivity. Qed.

Lemma block_alloc_spec_witness :
  (exists b s', block_alloc small_fs = Ok (b, s') /\ 0 <= b < num_bits small_fs /\
     allocated small_fs b = false /\ (forall x, 0 <= x < b -> allocated small_fs x = true) /\
     (forall x, 0 <= x < num_bits small_fs ->
        allocated s' x = ((x =? b) || allocated small_fs x)%bool) /\
     bview (dev s') b = replicate 512 0 /\
     (forall x, bvalid (dev small_fs) x -> x <> b -> x <> bitmap_blk small_fs b ->
        bview (dev s') x = bview (dev small_fs) x) /\
     superb s' = superb small_fs /\ cache s' = cache small_fs /\ alloc_pre s') \/
  (block_alloc small_fs = Err EPanic /\
   forall x, 0 <= x < num_bits small_fs -> allocated small_fs x = true).
Proof. apply (block_alloc_spec small_fs). apply small_alloc_pre. Defined.

Lemma block_free_spec_witness :
  if allocated small_fs 5 then
    exists s', block_free 5 small_fs = Ok (tt, s') /\
      (forall x, 0 <= x < num_bits small_fs ->
         allocated s' x = (negb (x =? 5) && allocated small_fs x)%bool) /\
      (forall x, bvalid (dev small_fs) x -> x <> bitmap_blk small_fs 5 ->
         bview (dev s') x = bview (dev small_fs) x) /\
      superb s' = superb small_fs /\ cache s' = cache small_fs /\ alloc_pre s'
  else block_free 5 small_fs = Err EPanic.
Proof.
  apply (block_free_spec small_fs 5).
  - apply small_alloc_pre.
  - vm_compute. split; [discriminate|reflexivity].
  - apply on_disk_valid. lia.
  - intros x Hx. unfold small_fs. rewrite on_disk_bitmap by exact Hx. lia.
  - intros h Hb. by apply on_disk_not_held in Hb.
Defined.

(** The last bitmap block has more bits than the partition has blocks, and
    [block_alloc] does not compare the block with the size: on a partition
    whose 100 blocks are in use it returns block 100. *)
Definition full_fs : Cofs.fs (S:=HdQueue.hdq) :=
  FS (HdQueue.hd_queue_init
        (<[2 := splice HdQueue.zero_block 0 (replicate 12 255 ++ [15])]> small_disk) 0)
     small_sb [] 0 (0, []).

Lemma block_alloc_past_end :
  forallb (fun b => allocated full_fs (Z.of_nat b)) (seq 0 100) = true /\
  exists s', block_alloc full_fs = Ok (size_blocks (superb full_fs), s').
Proof. split; [vm_compute; reflexivity|]. eexists. vm_compute. reflexivity. Qed.
End CofsBlocks.
