(* ===== verification/CofsInode.v ===== *)
(** * cofs: the inode table

    The 64-byte representation of an inode, its place in a block of the inode
    table, and what [cofs_update_node] and [cofs_lock] do to the table and to
    the node in the cache. *)
From S2P Require Import Prelude CString BlockDev HdQueue Cofs CofsBlocks.
Import Cofs CofsBlocks.

Module CofsInode.

(** ** The representation of an inode *)
Definition inode_wf (i : cofs_inode) : Prop :=
  0 <= i_type i < 2 ^ 16 /\ 0 <= i_major i < 2 ^ 16 /\ 0 <= i_minor i < 2 ^ 16 /\
  0 <= i_uid i < 2 ^ 16 /\ 0 <= i_gid i < 2 ^ 16 /\ 0 <= i_num_links i < 2 ^ 16 /\
  0 <= i_atime i < 2 ^ 32 /\ 0 <= i_mtime i < 2 ^ 32 /\ 0 <= i_ctime i < 2 ^ 32 /\
  0 <= i_size i < 2 ^ 32 /\ length (i_addrs i) = 9%nat /\
  Forall (fun v => 0 <= v < 2 ^ 32) (i_addrs i).

Lemma length_words (l : list Z) : length (l ≫= le_split 4) = (4 * length l)%nat.
Proof.
  induction l as [|v l IH]; [done|]. rewrite bind_cons, length_app, IH, length_le_split. cbn. lia.
Qed.

Lemma length_encode i : length (i_addrs i) = 9%nat -> length (encode_inode i) = 64%nat.
Proof.
  intros Hl. unfold encode_inode. rewrite !length_app, !length_le_split, length_words, Hl. done.
Qed.

Lemma encode_bytes i : Forall is_byte (encode_inode i).
Proof.
  unfold encode_inode. rewrite !Forall_app. split_and!; try apply le_split_bytes.
  apply Forall_bind, Forall_forall. intros v _. apply le_split_bytes.
Qed.

Lemma decode_encode i : inode_wf i -> decode_inode (encode_inode i) = i.
Proof.
  intros (H1 & H2 & H3 & H4 & H5 & H6 & H7 & H8 & H9 & H10 & Hl & Ha).
  destruct i as [t ma mi u g nl at_ mt ct sz l]. cbn [i_type i_major i_minor i_uid i_gid i_num_links
    i_atime i_mtime i_ctime i_size i_addrs] in *.
  do 9 (destruct l as [|? l]; [discriminate Hl|]). destruct l; [|discriminate Hl].
  rewrite !Forall_cons in Ha. destruct Ha as (A1 & A2 & A3 & A4 & A5 & A6 & A7 & A8 & A9 & _).
  unfold decode_inode, field. cbn [fmap list_fmap seq encode_inode i_type i_major i_minor i_uid
    i_gid i_num_links i_atime i_mtime i_ctime i_size i_addrs].
  assert (E2 : forall w, 0 <= w < 2 ^ 16 -> le_combine (le_split 2 w) = w) by (intros; by apply le_combine_split).
  assert (E4 : forall w, 0 <= w < 2 ^ 32 -> le_combine (le_split 4 w) = w) by (intros; by apply le_combine_split).
  f_equal; [exact (E2 _ H1)|exact (E2 _ H2)|exact (E2 _ H3)|exact (E2 _ H4)|exact (E2 _ H5)|exact (E2 _ H6)
    |exact (E4 _ H7)|exact (E4 _ H8)|exact (E4 _ H9)|exact (E4 _ H10)|].
  exact (f_equal2 cons (E4 _ A1) (f_equal2 cons (E4 _ A2) (f_equal2 cons (E4 _ A3)
    (f_equal2 cons (E4 _ A4) (f_equal2 cons (E4 _ A5) (f_equal2 cons (E4 _ A6)
    (f_equal2 cons (E4 _ A7) (f_equal2 cons (E4 _ A8) (f_equal2 cons (E4 _ A9) eq_refl))))))))).
Qed.

(** ** Inodes in a block *)
Lemma ino_offset_bound inum : (ino_offset inum + 64 <= 512)%nat.
Proof. unfold ino_offset, NUM_INOPB. pose proof (Z.mod_pos_bound inum 8). lia. Qed.

Lemma wr_inode_block c inum i :
  is_block c -> length (i_addrs i) = 9%nat -> is_block (wr_inode c inum i).
Proof.
  intros [Hl Hb] Ha. pose proof (ino_offset_bound inum). pose proof (length_encode i Ha).
  split; unfold wr_inode; [rewrite length_splice; lia|]. unfold splice. rewrite !Forall_app.
  split_and!; [by apply Forall_take|apply encode_bytes|by apply Forall_drop].
Qed.

Lemma rd_wr_inode c inum i :
  is_block c -> inode_wf i -> rd_inode (wr_inode c inum i) inum = i.
Proof.
  intros [Hl _] Hi. pose proof (ino_offset_bound inum). unfold rd_inode, wr_inode.
  assert (Hle : length (encode_inode i) = 64%nat) by (apply length_encode, Hi).
  replace 64%nat with (length (encode_inode i)). rewrite splice_read by lia. by apply decode_encode.
Qed.

Lemma rd_wr_inode_ne c inum inum' i :
  is_block c -> length (i_addrs i) = 9%nat -> inum mod NUM_INOPB <> inum' mod NUM_INOPB ->
  rd_inode (wr_inode c inum i) inum' = rd_inode c inum'.
Proof.
  intros [Hl _] Ha Hne. unfold rd_inode, wr_inode. f_equal. apply list_eq. intros k.
  destruct (decide (k < 64)%nat); [|rewrite !lookup_take_ge by lia; done].
  rewrite !lookup_take_lt, !lookup_drop by lia.
  pose proof (ino_offset_bound inum). pose proof (length_encode i Ha).
  apply lookup_splice_out; [lia|]. unfold ino_offset, NUM_INOPB in *.
  pose proof (Z.mod_pos_bound inum 8). pose proof (Z.mod_pos_bound inum' 8). lia.
Qed.

(** The representation of inodes.  An inode whose fields fit their widths
    is read back after it is stored in its slot of a block of the inode table,
    and storing it changes none of the other seven slots. *)
Theorem inode_roundtrip c inum inum' i :
  is_block c -> inode_wf i ->
  is_block (wr_inode c inum i) /\
  rd_inode (wr_inode c inum i) inum' =
    if decide (inum mod NUM_INOPB = inum' mod NUM_INOPB) then i else rd_inode c inum'.
Proof.
  intros Hc Hi. split; [apply wr_inode_block; [done|apply Hi]|].
  case_decide as He; [|by apply rd_wr_inode_ne; [|apply Hi|]].
  rewrite <- (rd_wr_inode c inum i) at 2 by done. unfold rd_inode, ino_offset. by rewrite He.
Qed.

Definition sample_inode : cofs_inode :=
  Ino 0x81A4 0 0 0 0 1 0 0 0 0x12345678 [7; 8; 9; 10; 11; 12; 13; 0xFFFFFFFF; 0].

Lemma inode_roundtrip_witness :
  is_block (wr_inode HdQueue.zero_block 13 sample_inode) /\
  rd_inode (wr_inode HdQueue.zero_block 13 sample_inode) 5 =
    if decide (13 mod NUM_INOPB = 5 mod NUM_INOPB) then sample_inode
    else rd_inode HdQueue.zero_block 5.
Proof.
  apply (inode_roundtrip HdQueue.zero_block 13 5 sample_inode).
  - apply HdQueue.zero_block_ok.
  - unfold inode_wf, sample_inode. cbn. split_and!; try lia. repeat (apply Forall_cons; split; [lia|]).
    apply Forall_nil. exact I.
Defined.

Section Inode.
Context {S : Type} `{Hd : BlockDev S} `{!BlockDevLaws S}.
Notation fs := (Cofs.fs (S:=S)).

(** The block of the inode table that holds inode [inum]. *)
Definition inode_blk (s : fs) (inum : Z) : Z := INO_BLK inum (superb s).

(** The fields of a node fit the fields of an inode. *)
Definition node_fits (x : fs_node) : Prop :=
  exists i, node_to_inode x = Some i /\ inode_wf i.

(** ** Storing a node *)
Lemma update_node_run s n x i :
  cache s !! n = Some x -> node_to_inode x = Some i -> length (i_addrs i) = 9%nat ->
  ready s (inode_blk s (inode x)) ->
  exists s', cofs_update_node n s = Ok (tt, s') /\ bheld (dev s') = bheld (dev s) /\
    eff s s' (upd_view (bview (dev s)) (inode_blk s (inode x))
                (wr_inode (bview (dev s) (inode_blk s (inode x))) (inode x) i)).
Proof.
  intros Hx Hi Hl Hr. destruct (get_run s _ Hr) as (h & s1 & Hg & Ho).
  destruct (wr_put_run s s1 h _ (wr_inode (bview (dev s) (inode_blk s (inode x))) (inode x) i) Ho)
    as (s2 & s3 & Hw & Hp & He & Hh).
  { apply wr_inode_block; [|done]. destruct Hr as (Hb & Hv & _). by apply view_block. }
  exists s3. split; [|done]. unfold cofs_update_node, node_of. st_run. rewrite Hx.
  unfold inode_blk in *. by rewrite Hg, (rd_run _ _ _ _ Ho), Hi, Hw, Hp.
Qed.

(** ** Locking a node *)
Definition set_nth (s : fs) (n : nat) (f : fs_node -> fs_node) (d : S) : fs :=
  FS d (superb s) (alter f n (cache s)) (cache_lock s) (dirent s).

Lemma alter_lookup {A} (f : A -> A) (l : list A) n x :
  l !! n = Some x -> alter f n l !! n = Some (f x).
Proof. intros Hx. by rewrite list_lookup_alter_eq, Hx. Qed.

Lemma alter_alter {A} (f g : A -> A) (l : list A) n :
  alter f n (alter g n l) = alter (fun x => f (g x)) n l.
Proof.
  apply list_eq. intros i. destruct (decide (i = n)) as [->|].
  - rewrite !list_lookup_alter_eq. by destruct (l !! n).
  - by rewrite !list_lookup_alter_ne.
Qed.

(** Locking a node that is not loaded reads its inode. *)
Lemma lock_load_run s n x :
  cache s !! n = Some x -> 0 < ref_count x -> lock x = 0 -> type x = 0 ->
  ready s (inode_blk s (inode x)) ->
  Z.land (i_type (rd_inode (bview (dev s) (inode_blk s (inode x))) (inode x))) FS_IFMT <> 0 ->
  exists s', cofs_lock (Some n) s = Ok (tt, s') /\
    s' = set_nth s n (fun x => load_node (with_lock x 1)
           (rd_inode (bview (dev s) (inode_blk s (inode x))) (inode x))) (dev s') /\
    binv (dev s') /\ bheld (dev s') = bheld (dev s) /\
    (forall b, bvalid (dev s') b <-> bvalid (dev s) b) /\
    (forall b, bvalid (dev s) b -> bview (dev s') b = bview (dev s) b).
Proof.
  intros Hx Hr Hl Ht Hrdy Hty.
  unfold cofs_lock, spin_lock_node, node_of. st_run. rewrite Hx. cbn beta iota zeta.
  replace (ref_count x <=? 0) with false by (symmetry; apply Z.leb_gt; lia).
  cbn beta iota zeta. rewrite Hx. cbn beta iota zeta. rewrite Hl. cbn [Z.eqb]. unfold set_node. st_run. cbn [cache].
  rewrite (alter_lookup _ _ _ _ Hx). cbn [type with_lock inode]. rewrite Ht. cbn [Z.eqb superb].
  set (s1 := FS _ _ _ _ _).
  assert (Hrdy1 : ready s1 (inode_blk s (inode x))) by exact Hrdy.
  destruct (get_run s1 _ Hrdy1) as (h & s2 & Hg & Ho). unfold inode_blk in Hg. rewrite Hg.
  fold (inode_blk s (inode x)) in *. rewrite (rd_run _ _ _ _ Ho).
  pose proof Ho as ((E2 & Hi2 & Hv2 & HV2) & Hno & Hins & Hvb).
  change (dev s1) with (dev s) in *. set (c := bview (dev s) (inode_blk s (inode x))) in *.
  set (s3 := FS _ _ _ _ _).
  assert (Hh3 : bheld (dev s3) !! h = Some (inode_blk s (inode x))) by by apply (opened_held _ _ _ _ Ho).
  destruct (bput_spec (dev s3) h _ Hi2 Hh3) as (d & Hput & Hi4 & Hh4 & Hv4 & HV4).
  unfold put_hd_buf, on_dev. rewrite Hput. change (dev s3) with (dev s2) in *. cbn [cache].
  assert (Hcache : cache s3 = alter (fun x => load_node (with_lock x 1) (rd_inode c (inode x))) n (cache s)).
  { subst s3. cbn [cache]. rewrite E2. unfold s1. cbn [cache set_dev]. apply alter_alter. }
  rewrite Hcache, (alter_lookup _ _ _ _ Hx). cbn [type load_node].
  rewrite (proj2 (Z.eqb_neq _ _) Hty). eexists. split; [done|]. cbn [dev]. split.
  { unfold set_nth. subst s3 c. cbn [superb cache_lock dirent]. rewrite E2. cbn.
    f_equal. apply list_alter_ext; [|done]. intros y Hy. congruence. }
  split; [done|]. split; [rewrite Hh4, Hins; by apply delete_insert_id|].
  split; [intros b; by rewrite Hv4, Hv2|]. intros b Hb. rewrite HV4 by by apply Hv2. by apply HV2.
Qed.

(** ** A node survives its eviction from the cache *)

(** What of a node is kept on the disk. *)
Definition meta (x : fs_node) :=
  (mask x, type x, (nmajor x, nminor x, uid x, gid x), (size x, num_links x),
   (atime x, mtime x, ctime x), addrs x).

(** The mode bits and the type of a node do not overlap. *)
Definition mode_ok (x : fs_node) : Prop :=
  0 <= mask x < 2 ^ 12 /\ exists t, 0 <= t < 2 ^ 4 /\ type x = t * 2 ^ 12.

Lemma mode_split x :
  mode_ok x ->
  let v := u16 (Z.lor (Z.land (type x) 0xF000) (mask x)) in
  Z.land v FS_IFMT = type x /\ Z.land v (u16 (Z.lnot FS_IFMT)) = mask x.
Proof.
  intros (Hm & t & Ht & Hty). cbn zeta. rewrite Hty. unfold FS_IFMT.
  replace (Z.land (t * 2 ^ 12) 0xF000) with (Z.shiftl t 12).
  - rewrite lor_shiftl_add by lia. rewrite u16_small by lia.
    change (u16 (Z.lnot 0xF000)) with (Z.ones 12). rewrite Z.land_ones by lia. split.
    + change 0xF000 with (Z.shiftl (Z.ones 4) 12).
      apply Z.bits_inj'. intros k Hk. rewrite Z.land_spec.
      replace (t * 2 ^ 12 + mask x) with (Z.lor (Z.shiftl t 12) (mask x)) by (apply lor_shiftl_add; lia).
      rewrite <- Z.shiftl_mul_pow2, Z.lor_spec, !Z.shiftl_spec by lia.
      destruct (Z.ltb_spec k 12).
      * by rewrite !(Z.testbit_neg_r _ (k - 12)) by lia; rewrite andb_false_r.
      * rewrite (testbit_small (mask x) 12) by lia. rewrite orb_false_r.
        destruct (Z.ltb_spec (k - 12) 4).
        -- by rewrite Z.ones_spec_low, andb_true_r by lia.
        -- by rewrite (testbit_small t 4), andb_false_l by lia.
    + rewrite Z.add_comm, Z.mod_add, Z.mod_small by lia. done.
  - change 0xF000 with (Z.shiftl (Z.ones 4) 12). rewrite <- Z.shiftl_mul_pow2 by lia.
    rewrite <- Z.shiftl_land. rewrite Z.land_ones, Z.mod_small by lia. done.
Qed.

(** What [cofs_update_node] stores is what [cofs_lock] loads.  After a
    node is written to the inode table, locking an unloaded node of the same
    inode gives it the same type, mode, owner, device numbers, size, link
    count, times and block addresses, takes its lock and keeps its name and
    reference count. *)
Theorem update_then_lock s n m x y i :
  cache s !! n = Some x -> node_to_inode x = Some i -> inode_wf i -> mode_ok x -> type x <> 0 ->
  (exists a, addrs x = Some a /\ length a = 9%nat) ->
  cache s !! m = Some y -> inode y = inode x -> type y = 0 -> lock y = 0 -> 0 < ref_count y ->
  ready s (inode_blk s (inode x)) ->
  exists s1 s2 z, cofs_update_node n s = Ok (tt, s1) /\ cofs_lock (Some m) s1 = Ok (tt, s2) /\
    cache s2 !! m = Some z /\ meta z = meta x /\
    lock z = 1 /\ name z = name y /\ ref_count z = ref_count y /\ inode z = inode x.
Proof.
  intros Hx Hi Hw Hmode Hty (a & Ha & Hla) Hy Hino Hty0 Hl Hr Hrdy.
  destruct (update_node_run s n x i Hx Hi ltac:(apply Hw) Hrdy) as (s1 & Hrun & Hh & He).
  pose proof He as (E & Hinv & Hv & HV). pose proof Hrdy as (Hbi & Hvb & Hbr & Hnh & Hc).
  assert (Hview : bview (dev s1) (inode_blk s1 (inode y)) =
    wr_inode (bview (dev s) (inode_blk s (inode x))) (inode x) i).
  { rewrite Hino. replace (inode_blk s1 (inode x)) with (inode_blk s (inode x))
      by (unfold inode_blk; rewrite E; done).
    rewrite HV by done. unfold upd_view. by rewrite decide_True. }
  assert (Hino1 : rd_inode (bview (dev s1) (inode_blk s1 (inode y))) (inode y) = i).
  { rewrite Hview, Hino. apply rd_wr_inode; [by apply view_block|done]. }
  assert (Hit : Z.land (i_type i) FS_IFMT = type x /\ Z.land (i_type i) (u16 (Z.lnot FS_IFMT)) = mask x).
  { pose proof (mode_split x Hmode). unfold node_to_inode in Hi. rewrite Ha in Hi.
    injection Hi as <-. done. }
  destruct (lock_load_run s1 m y) as (s2 & Hrun2 & E2 & _); try done.
  - rewrite E. done.
  - assert (Hb1 : inode_blk s1 (inode y) = inode_blk s (inode x)) by (unfold inode_blk; rewrite E, Hino; done).
    rewrite Hb1. split; [done|]. split; [by apply Hv|]. split; [done|]. by rewrite Hh.
  - rewrite Hino1. by rewrite (proj1 Hit).
  - exists s1, s2, (load_node (with_lock y 1) i). split; [done|]. split; [done|]. split.
    { rewrite E2. cbn [set_nth cache]. rewrite (alter_lookup _ _ m y) by (rewrite E; done).
      rewrite Hino1. done. }
    split; [|done]. unfold meta. destruct Hit as [H1 H2]. cbn. rewrite H1, H2.
    unfold node_to_inode in Hi. rewrite Ha in Hi. injection Hi as <-. cbn. rewrite Ha.
    rewrite take_ge by lia. done.
Qed.

(** ** The inode cache *)
Lemma get_node_loop_spec (l : list fs_node) inum i acc :
  match get_node_loop l inum i acc with
  | Found k => exists j x, k = (i + j)%nat /\ l !! j = Some x /\ inode x = inum
  | NotFound r => inum ∉ inode <$> l /\
      match r with
      | Some k => acc = Some k \/ exists j x, k = (i + j)%nat /\ l !! j = Some x /\ ref_count x = 0
      | None => acc = None /\ Forall (fun x => ref_count x <> 0) l
      end
  end.
Proof.
  revert i acc. induction l as [|x l IH]; intros i acc; cbn [get_node_loop].
  - split; [apply not_elem_of_nil|]. destruct acc; [by left|done].
  - destruct (Z.eqb_spec (inode x) inum) as [He|Hne].
    + exists 0%nat, x. split; [lia|done].
    + specialize (IH (Datatypes.S i) (if ref_count x =? 0 then Some i else acc)).
      destruct (get_node_loop l inum (Datatypes.S i) _) as [k|r].
      * destruct IH as (j & y & -> & Hy & Hi). exists (Datatypes.S j), y. split; [lia|done].
      * destruct IH as [Hn Hr]. split; [cbn; rewrite not_elem_of_cons; split; [congruence|done]|].
        destruct r as [k|].
        -- destruct Hr as [Hacc|(j & y & -> & Hy & Hz)];
             [|right; exists (Datatypes.S j), y; split; [lia|done]].
           destruct (Z.eqb_spec (ref_count x) 0) as [Hz|]; [|by left].
           injection Hacc as <-. right. exists 0%nat, x. split; [lia|done].
        -- destruct Hr as [Hacc Hall]. destruct (Z.eqb_spec (ref_count x) 0); [done|].
           split; [done|]. by constructor.
Qed.

(** The entries of the cache are for different inodes. *)
Definition cache_ok (s : fs) : Prop :=
  NoDup (inode <$> cache s) /\ (length (cache s) <= MAX_CACHED_NODES)%nat /\
  Forall (fun x => 0 <= ref_count x < 2 ^ 31 - 1) (cache s).

Lemma fmap_inode_alter (l : list fs_node) i (f : fs_node -> fs_node) :
  (forall x, inode (f x) = inode x) -> inode <$> alter f i l = inode <$> l.
Proof.
  intros Hf. apply list_eq. intros j. rewrite !list_lookup_fmap.
  destruct (decide (j = i)) as [->|].
  - rewrite list_lookup_alter_eq. destruct (l !! i); cbn; [by rewrite Hf|done].
  - by rewrite list_lookup_alter_ne.
Qed.

Lemma nodup_recycle (l : list fs_node) i inum :
  NoDup (inode <$> l) -> inum ∉ inode <$> l -> NoDup (inode <$> alter (fun _ => fresh_node inum) i l).
Proof.
  intros Hn Hnot. rewrite NoDup_alt in *. intros j k v Hj Hk.
  rewrite !list_lookup_fmap in Hj, Hk.
  destruct (decide (j = i)) as [->|Hji], (decide (k = i)) as [->|Hki]; [done|..].
  - rewrite list_lookup_alter_eq in Hj. rewrite list_lookup_alter_ne in Hk by done.
    destruct (l !! i); [|done]. injection Hj as <-. exfalso. apply Hnot.
    apply (list_elem_of_lookup_2 _ k). by rewrite list_lookup_fmap.
  - rewrite list_lookup_alter_eq in Hk. rewrite list_lookup_alter_ne in Hj by done.
    destruct (l !! i); [|done]. injection Hk as <-. exfalso. apply Hnot.
    apply (list_elem_of_lookup_2 _ j). by rewrite list_lookup_fmap.
  - rewrite list_lookup_alter_ne in Hj, Hk by done. apply (Hn j k v); by rewrite list_lookup_fmap.
Qed.

(** What [cofs_get_node] may return for a cache [s]. *)
Definition got (s : fs) (inum : Z) (r : option nat) (s' : fs) : Prop :=
  match r with
  | Some i =>
      cache_lock s' = 0 /\ NoDup (inode <$> cache s') /\ (length (cache s') <= MAX_CACHED_NODES)%nat /\
      (forall j, j <> i -> cache s' !! j = cache s !! j) /\
      ((exists x, cache s !! i = Some x /\ inode x = inum /\
          cache s' !! i = Some (with_ref x (ref_count x + 1))) \/
       (inum ∉ inode <$> cache s /\ cache s' !! i = Some (fresh_node inum) /\
          forall x, cache s !! i = Some x -> ref_count x = 0))
  | None =>
      length (cache s) = MAX_CACHED_NODES /\ inum ∉ inode <$> cache s /\
      Forall (fun x => ref_count x <> 0) (cache s) /\ cache s' = cache s /\ cache_lock s' = 1
  end.

(** The inode cache.  [cofs_get_node] returns the entry of the inode with
    one more reference, or turns an unreferenced or new entry into one for the
    inode with one reference; entries stay unique per inode and the others are
    not touched.  It returns [NULL] exactly when 100 other inodes are
    referenced, and then the lock of the cache is still held. *)
Theorem cofs_get_node_spec s inum :
  cache_lock s = 0 -> cache_ok s ->
  exists r s', cofs_get_node inum s = Ok (r, s') /\ got s inum r s' /\
    dev s' = dev s /\ superb s' = superb s.
Proof.
  intros Hl (Hn & Hlen & Href). unfold cofs_get_node, lock_cache. st_run. rewrite Hl. cbn [Z.eqb cache].
  pose proof (get_node_loop_spec (cache s) inum 0 None) as Hspec.
  destruct (get_node_loop (cache s) inum 0 None) as [i|[i|]].
  - destruct Hspec as (j & x & -> & Hx & Hi). cbn [Nat.add]. unfold set_node, unlock_cache. st_run. eexists _, _.
    split; [done|]. split; [|done]. cbn [got cache cache_lock].
    rewrite Forall_lookup in Href. pose proof (Href _ _ Hx) as Hr. split; [done|].
    split; [by rewrite fmap_inode_alter|]. split; [by rewrite length_alter|].
    split; [intros k Hk; by apply list_lookup_alter_ne|]. left. exists x. split; [done|]. split; [done|].
    rewrite list_lookup_alter_eq, Hx. cbn. by rewrite s32_small by lia.
  - destruct Hspec as [Hnot [|(j & x & -> & Hx & Hz)]]; [done|]. cbn [Nat.add]. unfold set_node, unlock_cache. st_run.
    eexists _, _. split; [done|]. split; [|done]. cbn [got cache cache_lock]. split; [done|].
    split; [by apply nodup_recycle|]. split; [by rewrite length_alter|].
    split; [intros k Hk; by apply list_lookup_alter_ne|]. right. split; [done|].
    rewrite list_lookup_alter_eq, Hx. split; [done|]. intros y Hy. congruence.
  - destruct Hspec as [Hnot [_ Hall]]. case_decide as Hfull.
    + eexists _, _. split; [done|]. split; [|done]. cbn [got cache cache_lock]. by split_and!; try lia.
    + unfold set_cache, unlock_cache. st_run. eexists _, _. split; [done|]. split; [|done].
      cbn [got cache cache_lock]. split; [done|]. split.
      { rewrite fmap_app. cbn. apply NoDup_app. split; [done|]. split; [|apply NoDup_singleton].
        intros y Hy ->%list_elem_of_singleton. done. }
      split; [rewrite length_app; cbn; lia|]. split.
      { intros j Hj. destruct (decide (j < length (cache s))%nat); [by rewrite lookup_app_l|].
        rewrite !lookup_ge_None_2; [done|lia|rewrite length_app; cbn; lia]. }
      right. split; [done|]. rewrite lookup_app_r, Nat.sub_diag by done. split; [done|].
      intros x Hx. apply lookup_lt_Some in Hx. lia.
Qed.
End Inode.

(** A loaded node of inode 2 and a recycled entry for the same inode. *)
Definition loaded : fs_node :=
  Node (replicate 256 0) 0x1A4 0 0 3 4 FS_FILE 0 2 700 1 1 11 12 13
       (Some [7; 8; 0; 0; 0; 0; 0; 0; 0]) 0.
Definition reload_fs : Cofs.fs (S:=HdQueue.hdq) :=
  on_disk small_disk [loaded; fresh_node 2].

Lemma update_then_lock_witness :
  exists s1 s2 z, cofs_update_node 0 reload_fs = Ok (tt, s1) /\
    cofs_lock (Some 1%nat) s1 = Ok (tt, s2) /\ cache s2 !! 1%nat = Some z /\
    meta z = meta loaded /\ lock z = 1 /\ name z = name (fresh_node 2) /\
    ref_count z = ref_count (fresh_node 2) /\ inode z = inode loaded.
Proof.
  apply (update_then_lock reload_fs 0 1 loaded (fresh_node 2)
    (Ino 0x81A4 0 0 3 4 1 11 13 12 700 [7; 8; 0; 0; 0; 0; 0; 0; 0])); try reflexivity.
  - unfold inode_wf. cbn. split_and!; try lia.
    repeat (apply Forall_cons; split; [lia|]). apply Forall_nil. exact I.
  - unfold mode_ok. cbn. split; [lia|]. exists 8. split; [lia|reflexivity].
  - discriminate.
  - eexists. split; reflexivity.
  - split; [exact (on_disk_inv _ _ small_blocks)|]. split; [apply on_disk_valid; vm_compute; split; [discriminate|reflexivity]|].
    split; [vm_compute; split; [discriminate|reflexivity]|].
    split; [intros h b Hb; by apply on_disk_not_held in Hb|]. vm_compute. lia.
Defined.

(** One entry in use and one that nobody refers to. *)
Definition cache_fs : Cofs.fs (S:=HdQueue.hdq) :=
  on_disk small_disk [loaded; with_ref (fresh_node 5) 0].

Lemma cofs_get_node_spec_witness :
  exists r s', cofs_get_node 7 cache_fs = Ok (r, s') /\ got cache_fs 7 r s' /\
    dev s' = dev cache_fs /\ superb s' = superb cache_fs.
Proof.
  apply (cofs_get_node_spec cache_fs 7); [reflexivity|]. split; [|split].
  - apply (bool_decide_unpack _). vm_compute. exact I.
  - vm_compute. lia.
  - repeat (apply Forall_cons; split; [cbn; lia|]). apply Forall_nil. exact I.
Defined.
End CofsInode.
