(* ===== verification/CofsFiles.v ===== *)
(** * cofs: the block map of a file, reading and writing

    The tree of blocks of a file (direct, indirect and doubly indirect
    blocks), the invariant that its blocks are marked in the bitmap and
    distinct, what [block_map], [cofs_read], [cofs_write] and [cofs_truncate]
    do to the bytes of the file and to the rest of the partition. *)
From S2P Require Import Prelude CString BlockDev HdQueue Cofs CofsBlocks.
Import Cofs CofsBlocks.

Module CofsFiles.

(** ** Words of a block *)
Lemma length_wr_word c i v : is_block c -> (i < 128)%nat -> length (wr_word c i v) = 512%nat.
Proof. intros [Hl _] Hi. unfold wr_word. rewrite length_splice; rewrite ?length_le_split; lia. Qed.

Lemma wr_word_block c i v : is_block c -> (i < 128)%nat -> is_block (wr_word c i v).
Proof.
  intros Hc Hi. split; [by apply length_wr_word|]. destruct Hc as [_ Hb]. unfold wr_word, splice.
  apply Forall_app_2; [by apply Forall_take|].
  apply Forall_app_2; [apply le_split_bytes|by apply Forall_drop].
Qed.

Lemma rd_wr_word c i v :
  is_block c -> (i < 128)%nat -> 0 <= v < 2 ^ 32 -> rd_word (wr_word c i v) i = v.
Proof.
  intros [Hl _] Hi Hv. unfold rd_word, wr_word.
  pose proof (splice_read c (4 * i) (le_split 4 v)) as Hr. rewrite length_le_split in Hr.
  rewrite Hr by lia. apply le_combine_split. exact Hv.
Qed.

Lemma rd_wr_word_ne c i j v :
  is_block c -> (i < 128)%nat -> (j < 128)%nat -> i <> j -> rd_word (wr_word c i v) j = rd_word c j.
Proof.
  intros [Hl _] Hi Hj Hne. unfold rd_word, wr_word. f_equal. apply list_eq. intros k.
  destruct (decide (k < 4)%nat); [|rewrite !lookup_take_ge by lia; done].
  rewrite !lookup_take_lt, !lookup_drop by lia.
  apply lookup_splice_out; rewrite length_le_split; lia.
Qed.

Lemma rd_word_zero i : rd_word (replicate 512 0) i = 0.
Proof.
  unfold rd_word. rewrite drop_replicate, take_replicate.
  set (n := Nat.min 4 (512 - 4 * i)). clearbody n. induction n as [|n IH]; [done|].
  cbn [replicate le_combine]. by rewrite IH.
Qed.

Lemma rd_word_range c i : is_block c -> 0 <= rd_word c i < 2 ^ 32.
Proof.
  intros [_ Hb]. unfold rd_word. set (w := take 4 (drop (4 * i) c)).
  pose proof (le_combine_bound w) as H. rewrite Forall_forall in Hb.
  assert (Hw : Forall is_byte w) by by apply Forall_take, Forall_drop, Forall_forall.
  specialize (H Hw). assert (length w <= 4)%nat by (subst w; rewrite length_take; lia).
  assert (256 ^ Z.of_nat (length w) <= 256 ^ 4) by (apply Z.pow_le_mono_r; lia). lia.
Qed.

(** ** The tree of blocks of a file

    A path is an index of [addrs] and the indices of the words to follow. *)
Definition fpath : Type := nat * list nat.

Fixpoint walk (V : Z -> list Z) (b : Z) (l : list nat) : Z :=
  match l with
  | [] => b
  | i :: l' => if b =? 0 then 0 else walk V (rd_word (V b) i) l'
  end.
Definition node_at (V : Z -> list Z) (a : list Z) (p : fpath) : Z :=
  walk V (default 0 (a !! p.1)) p.2.

(** The depth of the tree below an index of [addrs]. *)
Definition depth (r : nat) : nat :=
  if decide (r < 6)%nat then 0%nat else if decide (r = 6)%nat then 1%nat else 2%nat.
Definition legal (p : fpath) : Prop :=
  (p.1 < 8)%nat /\ (length p.2 <= depth p.1)%nat /\ Forall (fun i => i < 128)%nat p.2.
(** The paths of the blocks that hold the bytes of the file. *)
Definition leaf (p : fpath) : Prop := legal p /\ length p.2 = depth p.1.

Definition path (fbn : Z) : fpath :=
  if fbn <? NUM_DIRECT then (Z.to_nat fbn, [])
  else if fbn <? NUM_DIRECT + NUM_SIND then (SIND_IDX, [Z.to_nat (fbn - NUM_DIRECT)])
  else (DIND_IDX, [Z.to_nat ((fbn - NUM_DIRECT - NUM_SIND) / NUM_SIND);
                   Z.to_nat ((fbn - NUM_DIRECT - NUM_SIND) mod NUM_SIND)]).
Definition MAX_FBN : Z := NUM_DIRECT + NUM_SIND + NUM_DIND.

Lemma path_leaf fbn : 0 <= fbn < MAX_FBN -> leaf (path fbn).
Proof.
  assert (Hd : forall n, (n < 6)%nat -> depth n = 0%nat) by (intros; unfold depth; by rewrite decide_True).
  unfold path, leaf, legal, MAX_FBN, NUM_DIRECT, NUM_SIND, NUM_DIND, SIND_IDX, DIND_IDX.
  intros Hf. destruct (Z.ltb_spec fbn 6); [|destruct (Z.ltb_spec fbn (6 + 128))]; cbn [fst snd length].
  - rewrite Hd by lia. split_and!; [lia|lia|constructor|lia].
  - change (depth 6) with 1%nat. cbn [length]. split_and!; [lia|lia| |done]. apply Forall_cons. split; [lia|constructor].
  - change (depth 7) with 2%nat. cbn [length]. pose proof (Z.mod_pos_bound (fbn - 6 - 128) 128).
    assert ((fbn - 6 - 128) / 128 < 128) by (apply Z.div_lt_upper_bound; lia).
    assert (0 <= (fbn - 6 - 128) / 128) by (apply Z.div_pos; lia).
    split_and!; [lia|lia| |done]. apply Forall_cons. split; [lia|].
    apply Forall_cons. split; [lia|constructor].
Qed.

Lemma path_inj f g : 0 <= f < MAX_FBN -> 0 <= g < MAX_FBN -> path f = path g -> f = g.
Proof.
  unfold path, MAX_FBN, NUM_DIRECT, NUM_SIND, NUM_DIND, SIND_IDX, DIND_IDX. intros Hf Hg.
  pose proof (Z.div_mod (f - 6 - 128) 128). pose proof (Z.div_mod (g - 6 - 128) 128).
  pose proof (Z.mod_pos_bound (f - 6 - 128) 128). pose proof (Z.mod_pos_bound (g - 6 - 128) 128).
  destruct (Z.ltb_spec f 6), (Z.ltb_spec g 6);
    [|destruct (Z.ltb_spec g (6 + 128))|destruct (Z.ltb_spec f (6 + 128))|
     destruct (Z.ltb_spec f (6 + 128)), (Z.ltb_spec g (6 + 128))]; intros He; simplify_eq; try lia.
Qed.

Lemma walk_snoc V b l i :
  walk V b (l ++ [i]) = if walk V b l =? 0 then 0 else rd_word (V (walk V b l)) i.
Proof.
  revert b. induction l as [|j l IH]; intros b; cbn [walk app].
  - destruct (b =? 0) eqn:E; [done|]. done.
  - destruct (b =? 0) eqn:E; [by rewrite Z.eqb_refl|]. apply IH.
Qed.

Lemma node_at_snoc V a r l i :
  node_at V a (r, l ++ [i]) =
    if node_at V a (r, l) =? 0 then 0 else rd_word (V (node_at V a (r, l))) i.
Proof. apply walk_snoc. Qed.

Lemma legal_prefix r l i : legal (r, l ++ [i]) -> legal (r, l) /\ (i < 128)%nat.
Proof.
  intros (H1 & H2 & H3). cbn in *. rewrite length_app in H2. cbn in H2.
  apply Forall_app in H3 as [H3 H4]. inversion H4; subst. split; [|done].
  split_and!; cbn; [done|lia|done].
Qed.

Lemma leaf_not_prefix r l i : leaf (r, l) -> ~ legal (r, l ++ [i]).
Proof. intros [_ Hl] (_ & H & _). cbn in *. rewrite length_app in H. cbn in H. lia. Qed.

(** A tree in which the unmapped path [p] gets block [b]. *)
Lemma node_at_graft V a V' a' p b :
  b <> 0 -> V' b = replicate 512 0 -> node_at V a p = 0 ->
  (forall l r i, p = (r, l ++ [i]) -> node_at V a (r, l) <> 0) ->
  (forall r, (r < 8)%nat -> default 0 (a' !! r) = if decide (p = (r, [])) then b else default 0 (a !! r)) ->
  (forall r l i, legal (r, l ++ [i]) -> node_at V a (r, l) <> 0 ->
     rd_word (V' (node_at V a (r, l))) i =
       if decide (p = (r, l ++ [i])) then b else rd_word (V (node_at V a (r, l))) i) ->
  forall q, legal q -> node_at V' a' q = if decide (p = q) then b else node_at V a q.
Proof.
  intros Hb0 Hz Hp0 Hpar Hroot Hch [r l]. induction l as [|i l IH] using rev_ind; intros Hq.
  - unfold node_at. cbn [fst snd walk]. apply Hroot. apply Hq.
  - destruct (legal_prefix _ _ _ Hq) as [Hl Hi]. rewrite !node_at_snoc, (IH Hl). clear IH.
    destruct (decide (p = (r, l))) as [->|Hne].
    + rewrite (proj2 (Z.eqb_neq b 0)), Hz, rd_word_zero, Hp0, Z.eqb_refl by done.
      rewrite decide_False; [done|]. intros He. injection He as He.
      apply (f_equal length) in He. rewrite length_app in He. cbn in He. lia.
    + destruct (Z.eqb_spec (node_at V a (r, l)) 0) as [Hc|Hc]; [|by apply Hch].
      rewrite decide_False; [done|]. intros ->. by apply (Hpar l r i).
Qed.

(** A write to a block that is no inner node of the tree. *)
Lemma node_at_ext V V' a q :
  legal q ->
  (forall r l i, legal (r, l ++ [i]) -> node_at V a (r, l) <> 0 ->
     rd_word (V' (node_at V a (r, l))) i = rd_word (V (node_at V a (r, l))) i) ->
  node_at V' a q = node_at V a q.
Proof.
  destruct q as [r l]. intros Hq Hv. induction l as [|i l IH] using rev_ind; [done|].
  destruct (legal_prefix _ _ _ Hq) as [Hl _]. rewrite !node_at_snoc, (IH Hl).
  destruct (Z.eqb_spec (node_at V a (r, l)) 0); [done|]. by apply Hv.
Qed.

Section Files.
Context {S : Type} `{Hd : BlockDev S} `{!BlockDevLaws S}.
Notation fs := (Cofs.fs (S:=S)).

(** ** Buffers that are held *)
Lemma rd_held s h b :
  binv (dev s) -> bheld (dev s) !! h = Some b -> rd_buf h s = Ok (bview (dev s) b, s).
Proof.
  intros Hi Hh. unfold rd_buf, on_dev. rewrite (bread_spec (dev s) h b Hi Hh). by destruct s.
Qed.

Lemma wr_held s h b c :
  binv (dev s) -> bheld (dev s) !! h = Some b -> is_block c ->
  exists s', wr_buf h c s = Ok (tt, s') /\ eff s s' (upd_view (bview (dev s)) b c) /\
    bheld (dev s') = bheld (dev s).
Proof.
  intros Hi Hh Hc. destruct (bwrite_spec (dev s) h b c Hi Hh Hc) as (d & Hw & Hi2 & Hh2 & Hv2 & HV2).
  exists (set_dev s d). split; [unfold wr_buf, on_dev; by rewrite Hw|]. by split_and!.
Qed.

Lemma put_held s h b :
  binv (dev s) -> bheld (dev s) !! h = Some b ->
  exists s', put_hd_buf h s = Ok (tt, s') /\ eff s s' (bview (dev s)) /\
    bheld (dev s') = delete h (bheld (dev s)).
Proof.
  intros Hi Hh. destruct (bput_spec (dev s) h b Hi Hh) as (d & Hp & Hi2 & Hh2 & Hv2 & HV2).
  exists (set_dev s d). split; [unfold put_hd_buf, on_dev; by rewrite Hp|]. by split_and!.
Qed.

Lemma eff_then_write s s1 s2 V b c :
  eff s s1 V -> eff s1 s2 (upd_view (bview (dev s1)) b c) -> eff s s2 (upd_view V b c).
Proof.
  intros He1 He2. eapply eff_trans; [exact He1|]. eapply eff_ext; [|exact He2].
  intros x Hx. destruct He1 as (_ & _ & Hv & HV). unfold upd_view. case_decide; [done|].
  apply HV. by apply Hv.
Qed.

Lemma eff_then_keep s s1 s2 V : eff s s1 V -> eff s1 s2 (bview (dev s1)) -> eff s s2 V.
Proof.
  intros He1 He2. eapply eff_trans; [exact He1|]. eapply eff_ext; [|exact He2].
  intros x Hx. destruct He1 as (_ & _ & Hv & HV). apply HV. by apply Hv.
Qed.

(** ** Free blocks *)
Definition has_free (s : fs) (k : nat) : Prop :=
  exists l : list Z, NoDup l /\ (k <= length l)%nat /\
    forall x, x ∈ l -> 0 <= x < num_bits s /\ allocated s x = false.

Lemma has_free_le s j k : has_free s k -> (j <= k)%nat -> has_free s j.
Proof. intros (l & Hn & Hl & Hx) Hj. exists l. split_and!; [done|lia|done]. Qed.

Lemma has_free_same s s' k :
  num_bits s' = num_bits s -> (forall x, 0 <= x < num_bits s -> allocated s' x = allocated s x) ->
  has_free s k -> has_free s' k.
Proof.
  intros Hnb Ha (l & Hn & Hl & Hx). exists l. split_and!; [done..|].
  intros x Hin. destruct (Hx x Hin). rewrite Hnb, Ha by done. done.
Qed.

Lemma has_free_alloc s s' b k :
  num_bits s' = num_bits s ->
  (forall x, 0 <= x < num_bits s -> allocated s' x = ((x =? b) || allocated s x)%bool) ->
  has_free s (Datatypes.S k) -> has_free s' k.
Proof.
  intros Hnb Ha (l & Hn & Hl & Hx). exists (filter (fun x => x <> b) l). split_and!.
  - by apply NoDup_filter.
  - assert (Hlen : (length l <= length (b :: filter (fun x => x <> b) l))%nat); [|cbn in Hlen; lia].
    apply submseteq_length, NoDup_submseteq; [done|]. intros x Hin.
    destruct (decide (x = b)) as [->|]; [by left|right]. by apply list_elem_of_filter.
  - intros x Hin. apply list_elem_of_filter in Hin as [Hne Hin]. destruct (Hx x Hin) as [Hr Hf].
    rewrite Hnb, Ha, Hf by done. split; [done|]. by rewrite (proj2 (Z.eqb_neq x b) Hne).
Qed.

(** A successful allocation. *)
Lemma block_alloc_ok s k :
  alloc_pre s -> has_free s (Datatypes.S k) ->
  exists b s', block_alloc s = Ok (b, s') /\ 0 <= b < num_bits s /\ allocated s b = false /\
    eff s s' (alloc_view s b) /\ bheld (dev s') = bheld (dev s).
Proof.
  intros Hpre ([|x l] & _ & Hl & Hx); [cbn in Hl; lia|].
  destruct (block_alloc_run s Hpre) as [(b & s' & Hr & Hb & Hab & _ & He & Hh)|[_ Hall]].
  - by exists b, s'.
  - destruct (Hx x) as [Hrx Hfx]; [by constructor|]. rewrite Hall in Hfx; done.
Qed.

(** ** The invariant of a file with block map [a] *)
Definition in_tree (s : fs) (a : list Z) (z : Z) : Prop :=
  exists q, legal q /\ node_at (bview (dev s)) a q = z.

Record file_inv (s : fs) (a : list Z) : Prop := {
  fi_len : length a = 9%nat;
  fi_alloc : alloc_pre s;
  fi_cap : (base.size (bheld (dev s)) + 1 < bcap)%nat;
  fi_zero : allocated s 0 = true;
  fi_node : forall p, legal p -> node_at (bview (dev s)) a p <> 0 ->
    let b := node_at (bview (dev s)) a p in
    0 <= b < num_bits s /\ allocated s b = true /\ bvalid (dev s) b /\
    (forall x, 0 <= x < num_bits s -> bitmap_blk s x <> b) /\
    (forall h, bheld (dev s) !! h <> Some b);
  fi_inj : forall p q, legal p -> legal q -> node_at (bview (dev s)) a p <> 0 ->
    node_at (bview (dev s)) a p = node_at (bview (dev s)) a q -> p = q
}.

(** What happens to a file and its partition while blocks are added. *)
Record extends (s s' : fs) (a a' : list Z) : Prop := {
  ex_super : superb s' = superb s;
  ex_held : bheld (dev s') = bheld (dev s);
  ex_valid : forall x, bvalid (dev s') x <-> bvalid (dev s) x;
  ex_inv : file_inv s' a';
  ex_path : forall q, legal q -> node_at (bview (dev s)) a q <> 0 ->
    node_at (bview (dev s')) a' q = node_at (bview (dev s)) a q;
  ex_new : forall q, legal q -> node_at (bview (dev s)) a q = 0 ->
    node_at (bview (dev s')) a' q = 0 \/ allocated s (node_at (bview (dev s')) a' q) = false;
  ex_alloc : forall x, 0 <= x < num_bits s -> allocated s x = true -> allocated s' x = true;
  ex_frame : forall z, 0 <= z < num_bits s -> bvalid (dev s) z -> allocated s z = true ->
    (forall x, 0 <= x < num_bits s -> bitmap_blk s x <> z) -> ~ in_tree s a z ->
    bview (dev s') z = bview (dev s) z
}.

(** ... and the blocks with the bytes of the file are not written. *)
Record grown (s s' : fs) (a a' : list Z) : Prop := {
  gr_ex : extends s s' a a';
  gr_data : forall q, leaf q -> node_at (bview (dev s)) a q <> 0 ->
    bview (dev s') (node_at (bview (dev s)) a q) = bview (dev s) (node_at (bview (dev s)) a q)
}.

Lemma super_num (s s' : fs) : superb s' = superb s -> num_bits s' = num_bits s.
Proof. intros E. unfold num_bits. by rewrite E. Qed.
Lemma super_bm (s s' : fs) x : superb s' = superb s -> bitmap_blk s' x = bitmap_blk s x.
Proof. intros E. unfold bitmap_blk. by rewrite E. Qed.

Lemma extends_refl s a : file_inv s a -> extends s s a a.
Proof. intros Hf. constructor; try done. by left. Qed.

Lemma extends_trans s s1 s2 a a1 a2 : extends s s1 a a1 -> extends s1 s2 a1 a2 -> extends s s2 a a2.
Proof.
  intros G1 G2. pose proof (super_num _ _ (ex_super _ _ _ _ G1)) as Hnb.
  assert (Hkeep : forall x, 0 <= x < num_bits s -> allocated s1 x = false -> allocated s x = false).
  { intros x Hx Ha. destruct (allocated s x) eqn:E; [|done].
    rewrite (ex_alloc _ _ _ _ G1) in Ha; done. }
  pose proof (ex_inv _ _ _ _ G2) as Hf2.
  constructor.
  - by rewrite (ex_super _ _ _ _ G2), (ex_super _ _ _ _ G1).
  - by rewrite (ex_held _ _ _ _ G2), (ex_held _ _ _ _ G1).
  - intros x. by rewrite (ex_valid _ _ _ _ G2), (ex_valid _ _ _ _ G1).
  - done.
  - intros q Hq Hn. pose proof (ex_path _ _ _ _ G1 q Hq Hn) as E1.
    rewrite (ex_path _ _ _ _ G2 q Hq); rewrite E1; done.
  - intros q Hq Hn. destruct (decide (node_at (bview (dev s1)) a1 q = 0)) as [E1|E1].
    + destruct (ex_new _ _ _ _ G2 q Hq E1) as [|Ha]; [by left|].
      destruct (decide (node_at (bview (dev s2)) a2 q = 0)) as [|E2]; [by left|right].
      apply Hkeep; [|done]. destruct (fi_node _ _ Hf2 q Hq E2) as [Hr _].
      rewrite (super_num _ _ (ex_super _ _ _ _ G2)), Hnb in Hr. done.
    + rewrite (ex_path _ _ _ _ G2 q Hq E1). apply (ex_new _ _ _ _ G1 q Hq Hn).
  - intros x Hx Ha. apply (ex_alloc _ _ _ _ G2); [by rewrite Hnb|]. by apply (ex_alloc _ _ _ _ G1).
  - intros z Hz Hv Ha Hbm Ht. rewrite <- (ex_frame _ _ _ _ G1 z Hz Hv Ha Hbm Ht).
    apply (ex_frame _ _ _ _ G2).
    + by rewrite Hnb.
    + by apply (ex_valid _ _ _ _ G1).
    + by apply (ex_alloc _ _ _ _ G1).
    + intros x Hx. rewrite Hnb in Hx. rewrite (super_bm s s1) by apply G1. auto.
    + intros (q & Hq & E1). destruct (decide (node_at (bview (dev s)) a q = 0)) as [E0|E0].
      * destruct (ex_new _ _ _ _ G1 q Hq E0) as [Hz0|Hz0]; [|congruence].
        apply Ht. exists q. split; [done|congruence].
      * apply Ht. exists q. split; [done|]. rewrite <- E1. symmetry. by apply (ex_path _ _ _ _ G1).
Qed.

Lemma grown_trans s s1 s2 a a1 a2 : grown s s1 a a1 -> grown s1 s2 a1 a2 -> grown s s2 a a2.
Proof.
  intros [G1 D1] [G2 D2]. constructor; [by eapply extends_trans|].
  intros q Hq Hn. pose proof (ex_path _ _ _ _ G1 q (proj1 Hq) Hn) as E1.
  rewrite <- (D1 q Hq Hn). rewrite <- E1. apply (D2 q Hq). by rewrite E1.
Qed.

(** ** Adding a block at an unmapped path *)
Definition parent_of (p : fpath) (q : fpath) (i : nat) : Prop := p = (q.1, q.2 ++ [i]).

Lemma path_parent (p : fpath) : p.2 = [] \/ exists q i, parent_of p q i.
Proof.
  destruct p as [r l]. destruct l as [|i l _] using rev_ind; [by left|right].
  by exists (r, l), i.
Qed.

Lemma parent_inj p q q' i i' : parent_of p q i -> parent_of p q' i' -> q = q' /\ i = i'.
Proof.
  destruct q as [r l], q' as [r' l']. unfold parent_of. cbn. intros -> He.
  injection He as -> He. apply app_inj_tail in He as [-> ->]. done.
Qed.

(** What the new block and the pointer to it make of the blocks. *)
Record added (s s' : fs) (a a' : list Z) (p : fpath) (b : Z) : Prop := {
  ad_eff : exists W, eff s s' W;
  ad_held : bheld (dev s') = bheld (dev s);
  ad_bits : forall x, 0 <= x < num_bits s -> allocated s' x = ((x =? b) || allocated s x)%bool;
  ad_zero : bview (dev s') b = replicate 512 0;
  ad_other : forall x, bvalid (dev s) x -> x <> b -> x <> bitmap_blk s b ->
    (forall q i, parent_of p q i -> node_at (bview (dev s)) a q <> x) ->
    bview (dev s') x = bview (dev s) x;
  ad_parent : forall q i, parent_of p q i ->
    bview (dev s') (node_at (bview (dev s)) a q) = wr_word (bview (dev s) (node_at (bview (dev s)) a q)) i b;
  ad_len : length a' = 9%nat;
  ad_root : forall r, (r < 8)%nat ->
    default 0 (a' !! r) = if decide (p = (r, [])) then b else default 0 (a !! r)
}.

Section Added.
Context (s s' : fs) (a a' : list Z) (p : fpath) (b : Z).
Hypothesis Hf : file_inv s a.
Hypothesis Hp : legal p.
Hypothesis Hp0 : node_at (bview (dev s)) a p = 0.
Hypothesis Hpar : forall q i, parent_of p q i -> node_at (bview (dev s)) a q <> 0.
Hypothesis Hb : 0 <= b < num_bits s.
Hypothesis Hfree : allocated s b = false.
Hypothesis Had : added s s' a a' p b.

Lemma added_nonzero : b <> 0.
Proof. intros ->. pose proof (fi_zero _ _ Hf). congruence. Qed.

Lemma added_child r l i :
  legal (r, l ++ [i]) -> node_at (bview (dev s)) a (r, l) <> 0 ->
  rd_word (bview (dev s') (node_at (bview (dev s)) a (r, l))) i =
    if decide (p = (r, l ++ [i])) then b
    else rd_word (bview (dev s) (node_at (bview (dev s)) a (r, l))) i.
Proof.
  intros Hl Hc. destruct (legal_prefix _ _ _ Hl) as [Hl' Hi].
  destruct (fi_node _ _ Hf _ Hl' Hc) as (Hr & Ha & Hv & Hbm & _).
  set (c := node_at (bview (dev s)) a (r, l)) in *.
  assert (Hcb : c <> b) by (intros ->; congruence).
  assert (Hcm : c <> bitmap_blk s b) by (intros He; by apply (Hbm b Hb)).
  assert (Hblk : is_block (bview (dev s) c)) by (apply view_block; [apply (fi_alloc _ _ Hf)|done]).
  assert (Hkeep : (forall q j, parent_of p q j -> node_at (bview (dev s)) a q <> c) ->
    rd_word (bview (dev s') c) i = if decide (p = (r, l ++ [i])) then b else rd_word (bview (dev s) c) i).
  { intros Hno. rewrite (ad_other _ _ _ _ _ _ Had) by done.
    rewrite decide_False; [done|]. intros He. by apply (Hno (r, l) i). }
  destruct (path_parent p) as [Hnil|(q & j & Hq)].
  - apply Hkeep. intros q j Hq. rewrite Hq in Hnil. cbn in Hnil. by destruct q.2.
  - destruct (decide (node_at (bview (dev s)) a q = c)) as [He|Hne].
    + assert (Hlq : legal q) by (destruct q as [rq lq]; rewrite Hq in Hp; by apply legal_prefix in Hp as []).
      apply (fi_inj _ _ Hf) in He as ->; [|done|done|by rewrite He].
      unfold c. rewrite (ad_parent _ _ _ _ _ _ Had _ _ Hq). fold c.
      assert (Hj : (j < 128)%nat) by (rewrite Hq in Hp; by apply legal_prefix in Hp as []).
      pose proof (num_bits_range s (proj1 (proj2 (fi_alloc _ _ Hf)))) as Hnb.
      destruct (fi_alloc _ _ Hf) as (_ & (_ & Hsz & _) & _).
      unfold BITS_PER_BLOCK in Hnb. unfold parent_of in Hq. cbn in Hq.
      case_decide as Hij; rewrite Hq in Hij.
      * injection Hij as Hij. apply app_inj_tail in Hij as [_ <-]. apply rd_wr_word; done || lia.
      * apply rd_wr_word_ne; try done. intros ->. done.
    + apply Hkeep. intros q' j' Hq'. by destruct (parent_inj _ _ _ _ _ Hq Hq') as [<- <-].
Qed.

Lemma added_nodes q :
  legal q -> node_at (bview (dev s')) a' q = if decide (p = q) then b else node_at (bview (dev s)) a q.
Proof.
  apply node_at_graft; try done.
  - apply added_nonzero.
  - apply Had.
  - intros l r i He. by apply (Hpar (r, l) i).
  - apply Had.
  - apply added_child.
Qed.

Lemma added_alloc x : 0 <= x < num_bits s -> allocated s x = true -> allocated s' x = true.
Proof. intros Hx Ha. rewrite (ad_bits _ _ _ _ _ _ Had), Ha by done. apply orb_true_r. Qed.

(** The new block is none of those that are in use. *)
Lemma fresh_ne x : allocated s x = true -> x <> b.
Proof. intros Ha ->. congruence. Qed.

Lemma added_inv : file_inv s' a'.
Proof.
  destruct (ad_eff _ _ _ _ _ _ Had) as [W He]. pose proof He as (E & _ & Hv & _).
  pose proof (ad_held _ _ _ _ _ _ Had) as Hh. pose proof (fi_alloc _ _ Hf) as Hpre.
  pose proof Hpre as (_ & _ & _ & Hheld & Hbms & Hcl).
  assert (Hs : superb s' = superb s) by (rewrite E; done).
  assert (Hnb : num_bits s' = num_bits s) by by apply super_num.
  constructor.
  - apply Had.
  - apply (alloc_pre_grow s s' W Hpre He Hh). apply added_alloc.
  - rewrite Hh. apply Hf.
  - apply added_alloc; [|apply Hf]. pose proof (fi_zero _ _ Hf). lia.
  - intros q Hq. rewrite added_nodes by done. case_decide as Hpq; intros Hn; cbn zeta.
    + rewrite (ad_bits _ _ _ _ _ _ Had), Z.eqb_refl by done. rewrite Hnb.
      split; [done|]. split; [done|]. split; [by apply Hv, Hcl|]. split.
      * intros x Hx. rewrite (super_bm s s') by done. apply fresh_ne. by apply Hbms.
      * intros h. rewrite Hh. intros Hb'. destruct (Hheld h b Hb') as (_ & Ha & _). by apply fresh_ne in Ha.
    + destruct (fi_node _ _ Hf q Hq Hn) as (Hr & Ha & Hvq & Hbm & Hnh). rewrite Hnb, Hh.
      split; [done|]. split; [by apply added_alloc|]. split; [by apply Hv|]. split; [|done].
      intros x Hx. rewrite (super_bm s s') by done. auto.
  - intros q q' Hq Hq'. rewrite !added_nodes by done.
    case_decide as H1; case_decide as H2; intros Hn He'.
    + congruence.
    + exfalso. assert (Hn' : node_at (bview (dev s)) a q' <> 0) by by rewrite <- He'.
      destruct (fi_node _ _ Hf q' Hq' Hn') as (_ & Ha & _). by apply (fresh_ne _ Ha).
    + exfalso. destruct (fi_node _ _ Hf q Hq Hn) as (_ & Ha & _). by apply (fresh_ne _ Ha).
    + by apply (fi_inj _ _ Hf).
Qed.

Lemma added_grown : grown s s' a a'.
Proof.
  destruct (ad_eff _ _ _ _ _ _ Had) as [W He]. pose proof He as (E & _ & Hv & _).
  pose proof (fi_alloc _ _ Hf) as Hpre.
  constructor; [constructor|].
  - rewrite E; done.
  - apply Had.
  - done.
  - apply added_inv.
  - intros q Hq Hn. rewrite added_nodes by done. case_decide; [|done]. by subst.
  - intros q Hq Hn. rewrite added_nodes by done. case_decide; [by right|by left].
  - apply added_alloc.
  - intros z Hz Hvz Ha Hbm Ht. apply (ad_other _ _ _ _ _ _ Had); [done|by apply fresh_ne| |].
    + intros Hx. by apply (Hbm b Hb).
    + intros q' i Hq' Hx. apply Ht. exists q'. split; [|done].
      rewrite Hq' in Hp. destruct q'. by apply legal_prefix in Hp as [].
  - intros q Hq Hn. destruct (fi_node _ _ Hf q (proj1 Hq) Hn) as (Hr & Ha & Hvq & Hbm & Hnh).
    apply (ad_other _ _ _ _ _ _ Had); [done|by apply fresh_ne| |].
    + intros Hx. by apply (Hbm b Hb).
    + intros q' i Hq' Hx. assert (Hlq : legal q' /\ legal (q'.1, q'.2 ++ [i])).
      { rewrite Hq' in Hp. split; [|done]. destruct q'. by apply legal_prefix in Hp as []. }
      apply (fi_inj _ _ Hf) in Hx as ->; [|apply Hlq|apply Hq|by rewrite Hx].
      destruct q. apply (leaf_not_prefix _ _ i Hq). apply Hlq.
Qed.
End Added.

(** ** One level of [block_map]

    [changed n s s' a']: of the inode cache only the block map of node [n]
    differs. *)
Definition changed (n : nat) (s s' : fs) (a' : list Z) : Prop :=
  cache s' = alter (fun x => with_addrs x (Some a')) n (cache s) /\
  cache_lock s' = cache_lock s /\ dirent s' = dirent s.

(** The node [n] has block map [a]. *)
Definition has_map (s : fs) (n : nat) (a : list Z) : Prop :=
  exists x, cache s !! n = Some x /\ addrs x = Some a.

(** The result of a level: the block at path [p], which is mapped after it. *)
Definition level (n : nat) (s s' : fs) (a a' : list Z) (p : fpath) (b : Z) (k : nat) : Prop :=
  grown s s' a a' /\ changed n s s' a' /\ has_map s' n a' /\ has_free s' k /\ b <> 0 /\
  node_at (bview (dev s')) a' p = b /\
  (node_at (bview (dev s)) a p <> 0 -> same s s' /\ a' = a).

Lemma rd_addr a r : length a = 9%nat -> (r < 8)%nat -> rd a r = Ok (default 0 (a !! r)).
Proof.
  intros Hl Hr. unfold rd. destruct (lookup_lt_is_Some_2 a r) as [v Hv]; [lia|]. by rewrite Hv.
Qed.

Lemma addr_of_run s n a r :
  has_map s n a -> length a = 9%nat -> (r < 8)%nat -> addr_of n r s = Ok (default 0 (a !! r), s).
Proof.
  intros (x & Hx & Ha) Hl Hr. unfold addr_of, node_of. st_run. rewrite Hx, Ha.
  by rewrite rd_addr by done.
Qed.

Lemma changed_same n s s' a :
  has_map s n a -> same s s' -> changed n s s' a /\ has_map s' n a.
Proof.
  intros (x & Hx & Ha) [(E & _) _]. unfold changed. rewrite E. cbn. split.
  - split; [|done]. symmetry. apply list_eq. intros i. destruct (decide (i = n)) as [->|].
    + rewrite list_lookup_alter_eq, Hx. cbn. f_equal. destruct x. cbn in *. by subst.
    + by rewrite list_lookup_alter_ne.
  - by exists x.
Qed.

Lemma changed_trans n s s1 s2 a1 a2 : changed n s s1 a1 -> changed n s1 s2 a2 -> changed n s s2 a2.
Proof.
  intros (C1 & L1 & D1) (C2 & L2 & D2). unfold changed. rewrite C2, C1, L2, D2.
  split; [|done]. apply list_eq. intros i. destruct (decide (i = n)) as [->|].
  - rewrite !list_lookup_alter_eq. by destruct (cache s !! n).
  - by rewrite !list_lookup_alter_ne.
Qed.

Lemma file_inv_dev s d a c l e :
  file_inv s a -> d = dev s -> file_inv (FS d (superb s) c l e) a.
Proof. intros [] ->. destruct s. constructor; assumption. Qed.

Lemma grown_dev s s' a a' c l e :
  grown s s' a a' -> grown s (FS (dev s') (superb s') c l e) a a'.
Proof.
  intros [[H1 H2 H3 H4 H5 H6 H7 H8] H9]. constructor; [constructor|]; try assumption.
  by apply file_inv_dev.
Qed.

Lemma file_ready s a p :
  file_inv s a -> legal p -> node_at (bview (dev s)) a p <> 0 ->
  ready s (node_at (bview (dev s)) a p).
Proof.
  intros Hf Hp Hn. destruct (fi_node _ _ Hf p Hp Hn) as (Hr & _ & Hv & _ & Hh).
  pose proof (fi_alloc _ _ Hf) as (Hi & Hok & Hc & _). pose proof (num_bits_range s Hok).
  destruct Hok as (_ & Hs & _). unfold BITS_PER_BLOCK in *.
  split; [done|]. split; [done|]. split; [lia|]. split; [|done].
  intros h b Hb ->. by apply (Hh h).
Qed.

Lemma file_inv_same s s' a : same s s' -> file_inv s a -> grown s s' a a.
Proof.
  intros Hs Hf. pose proof Hs as [(E & Hi & Hv & HV) Hh]. pose proof (fi_alloc _ _ Hf) as Hpre.
  assert (Hsup : superb s' = superb s) by (rewrite E; done).
  pose proof (super_num _ _ Hsup) as Hnb. pose proof Hpre as (_ & (_ & _ & Hbv) & _).
  assert (Hal : forall x, 0 <= x < num_bits s -> allocated s' x = allocated s x)
    by (intros; apply same_allocated; auto).
  assert (Hnode : forall q, legal q -> node_at (bview (dev s')) a q = node_at (bview (dev s)) a q).
  { intros q Hq. apply node_at_ext; [done|]. intros r l i Hl Hn.
    destruct (legal_prefix _ _ _ Hl) as [Hl' _].
    destruct (fi_node _ _ Hf _ Hl' Hn) as (_ & _ & Hvn & _). by rewrite HV. }
  constructor; [constructor; try done|].
  - constructor.
    + apply Hf.
    + by apply (alloc_pre_same s).
    + rewrite Hh. apply Hf.
    + rewrite Hal; [apply Hf|]. pose proof (num_bits_range s (proj1 (proj2 Hpre))).
      destruct Hpre as (_ & (_ & ? & _) & _). lia.
    + intros p Hp. rewrite Hnode by done. intros Hn. cbn zeta.
      destruct (fi_node _ _ Hf p Hp Hn) as (Hr & Ha & Hvp & Hbm & Hnh). rewrite Hnb, Hal, Hh by done.
      split; [done|]. split; [done|]. split; [by apply Hv|]. split; [|done].
      intros x Hx. rewrite (super_bm s s') by done. auto.
    + intros p q Hp Hq. rewrite !Hnode by done. by apply Hf.
  - intros q Hq Hn. by apply Hnode.
  - intros q Hq Hn. left. by rewrite Hnode.
  - intros x Hx Ha. by rewrite Hal.
  - intros z _ Hvz _ _ _. by apply HV.
  - intros q Hq Hn. destruct (fi_node _ _ Hf q (proj1 Hq) Hn) as (_ & _ & Hvq & _). by apply HV.
Qed.

Lemma level_same n s s' a p k :
  file_inv s a -> has_map s n a -> has_free s k -> legal p -> same s s' ->
  node_at (bview (dev s)) a p <> 0 ->
  level n s s' a a p (node_at (bview (dev s)) a p) k.
Proof.
  intros Hf Hm Hk Hp Hs Hn. pose proof (file_inv_same s s' a Hs Hf) as G.
  destruct (changed_same n s s' a Hm Hs).
  split; [done|]. split; [done|]. split; [done|]. split; [|split; [done|split; [|done]]].
  - apply (has_free_same s); [apply super_num; apply G| |done]. intros x Hx.
    apply same_allocated; [done|]. pose proof (fi_alloc _ _ Hf) as (_ & (_ & _ & Hbv) & _). auto.
  - by apply (ex_path _ _ _ _ (gr_ex _ _ _ _ G)).
Qed.

Lemma level_root s n a r k :
  file_inv s a -> has_map s n a -> (r < 8)%nat -> has_free s (Datatypes.S k) ->
  exists b s' a', addr_or_alloc n r s = Ok (b, s') /\ level n s s' a a' (r, []) b k.
Proof.
  intros Hf Hm Hr Hk. pose proof (fi_len _ _ Hf) as Hl. pose proof (fi_alloc _ _ Hf) as Hpre.
  assert (Hp : legal (r, [])) by (split_and!; cbn; [done|lia|constructor]).
  assert (Hn : node_at (bview (dev s)) a (r, []) = default 0 (a !! r)) by done.
  unfold addr_or_alloc. st_run. rewrite (addr_of_run s n a r) by done.
  destruct (Z.eqb_spec (default 0 (a !! r)) 0) as [Hz|Hnz].
  - destruct (block_alloc_ok s k Hpre Hk) as (b & s1 & Hrun & Hb & Hab & He & Hh). rewrite Hrun.
    pose proof He as (E & _ & _ & HV). destruct Hm as (x & Hx & Ha).
    assert (Hx1 : cache s1 !! n = Some x) by (rewrite E; done).
    unfold set_addr, node_of. st_run. rewrite Hx1, Ha, wr_in by lia. unfold set_node. st_run.
    set (a' := <[r := b]> a). set (s2 := FS _ _ _ _ _).
    assert (Hm2 : has_map s2 n a').
    { exists (with_addrs x (Some a')). split; [|done]. unfold s2. cbn [cache].
      by rewrite list_lookup_alter_eq, Hx1. }
    assert (Hl' : length a' = 9%nat) by (unfold a'; by rewrite length_insert).
    assert (Had : added s s1 a a' (r, []) b).
    { constructor; [by eexists|done| | | | |done|].
      - intros y Hy. by apply (allocated_after s s1 b).
      - pose proof Hpre as (_ & _ & _ & _ & _ & Hcl). rewrite HV by auto.
        unfold alloc_view, upd_view. by rewrite decide_True.
      - intros y Hvy Hyb Hym _. rewrite HV by done. unfold alloc_view, upd_view. by rewrite !decide_False.
      - intros q i Hq. unfold parent_of in Hq. injection Hq as _ Hq. by destruct q.2.
      - intros r' Hr'. unfold a'. destruct (decide (r = r')) as [->|Hne].
        + rewrite list_lookup_insert_eq, decide_True by (done || lia). done.
        + rewrite list_lookup_insert_ne, decide_False by (done || congruence). done. }
    assert (Hpar : forall q i, parent_of (r, []) q i -> node_at (bview (dev s)) a q <> 0).
    { intros q i Hq. unfold parent_of in Hq. injection Hq as _ Hq. by destruct q.2. }
    rewrite (addr_of_run s2 n a' r) by done.
    exists b, s2, a'. split.
    { do 2 f_equal. unfold a'. rewrite list_lookup_insert_eq by lia. done. }
    split; [apply grown_dev; by apply (added_grown s s1 a a' (r, []) b)|].
    split; [unfold changed, s2; cbn; by rewrite E|]. split; [done|]. split.
    { apply (has_free_alloc s _ b); [apply super_num; cbn; by rewrite E| |done].
      apply (ad_bits _ _ _ _ _ _ Had). }
    split; [by apply (added_nonzero s s1 a a' (r, []) b)|]. split; [|intros Hc; by rewrite Hn in Hc].
    unfold s2. cbn [dev]. rewrite (added_nodes s s1 a a' (r, []) b) by done. by rewrite decide_True.
  - rewrite (addr_of_run s n a r) by done. exists (default 0 (a !! r)), s, a. split; [done|].
    rewrite <- Hn. apply level_same; try done.
    + apply (has_free_le s k (Datatypes.S k)); [done|lia].
    + by apply same_refl, Hpre.
Qed.

Lemma allocated_view s s' x :
  superb s' = superb s -> bview (dev s') (bitmap_blk s x) = bview (dev s) (bitmap_blk s x) ->
  allocated s' x = allocated s x.
Proof. intros E HV. unfold allocated. by rewrite (super_bm s s' x E), HV. Qed.

(** The allocator can run while a block of the file is held. *)
Lemma alloc_pre_opened s s1 h a p :
  file_inv s a -> legal p -> node_at (bview (dev s)) a p <> 0 ->
  opened s s1 h (node_at (bview (dev s)) a p) ->
  alloc_pre s1 /\ num_bits s1 = num_bits s /\
  forall x, 0 <= x < num_bits s -> allocated s1 x = allocated s x.
Proof.
  intros Hf Hp Hn (He & Hno & Hins & _). pose proof He as (E & Hi & Hv & HV).
  destruct (fi_node _ _ Hf p Hp Hn) as (Hr & Ha & _ & Hbm & _).
  set (b0 := node_at (bview (dev s)) a p) in *.
  pose proof (fi_alloc _ _ Hf) as (_ & (Hs1 & Hs2 & Hbv) & _ & Hheld & Hms & Hcl).
  assert (Hsup : superb s1 = superb s) by (rewrite E; done).
  pose proof (super_num _ _ Hsup) as Hnb.
  assert (Hal : forall x, 0 <= x < num_bits s -> allocated s1 x = allocated s x)
    by (intros x Hx; apply allocated_view; auto).
  assert (Hbb : forall x, bitmap_blk s1 x = bitmap_blk s x) by (intros; by apply super_bm).
  split; [|done]. split; [done|]. split.
  { rewrite <- Hsup in Hs1, Hs2. split; [done|]. split; [done|].
    intros x Hx. rewrite Hbb. apply Hv, Hbv. lia. }
  split.
  { rewrite Hins, map_size_insert_None by done. pose proof (fi_cap _ _ Hf). lia. }
  split.
  { intros h' b' Hh'. rewrite Hins in Hh'. rewrite Hnb.
    apply lookup_insert_Some in Hh' as [[_ <-]|[_ Hh']].
    - rewrite Hal by done. split; [done|]. split; [done|]. intros x Hx. rewrite Hbb. auto.
    - destruct (Hheld h' b' Hh') as (Hr' & Ha' & Hne). rewrite Hal by done.
      split; [done|]. split; [done|]. intros x Hx. rewrite Hbb. auto. }
  split.
  { intros x Hx. rewrite Hnb in *. rewrite Hbb. destruct (Hms x Hx). rewrite Hal; auto. }
  intros x Hx Hax. rewrite Hnb in Hx. rewrite Hal in Hax by done. apply Hv. auto.
Qed.

(** The body of [word_or_alloc] when the word is zero. *)
Lemma word_alloc_run s s1 h a q i k :
  file_inv s a -> legal (q.1, q.2 ++ [i]) -> node_at (bview (dev s)) a q <> 0 ->
  node_at (bview (dev s)) a (q.1, q.2 ++ [i]) = 0 ->
  opened s s1 h (node_at (bview (dev s)) a q) -> has_free s (Datatypes.S k) ->
  exists b s2 s3, word_or_alloc h i s1 = Ok (b, s2) /\ put_hd_buf h s2 = Ok (tt, s3) /\
    0 <= b < num_bits s /\ allocated s b = false /\ added s s3 a a (q.1, q.2 ++ [i]) b /\
    eff s s3 (upd_view (alloc_view s1 b) (node_at (bview (dev s)) a q)
                (wr_word (bview (dev s) (node_at (bview (dev s)) a q)) i b)).
Proof.
  intros Hf Hpi Hn Hz Ho Hk. destruct q as [r l]. cbn [fst snd] in *.
  destruct (legal_prefix _ _ _ Hpi) as [Hp Hi128].
  destruct (fi_node _ _ Hf _ Hp Hn) as (Hr & Ha & Hv0 & Hbm & _).
  destruct (alloc_pre_opened s s1 h a _ Hf Hp Hn Ho) as (Hpre1 & Hnb1 & Hal1).
  rewrite node_at_snoc, (proj2 (Z.eqb_neq _ _) Hn) in Hz.
  set (b0 := node_at (bview (dev s)) a (r, l)) in *.
  assert (Hk1 : has_free s1 (Datatypes.S k)) by by apply (has_free_same s).
  destruct (block_alloc_ok s1 k Hpre1 Hk1) as (b & s2 & Hrun & Hb & Hab & He2 & Hh2).
  rewrite Hnb1 in Hb. rewrite Hal1 in Hab by done.
  pose proof (opened_held _ _ _ _ Ho) as Hh1. pose proof Ho as (He1 & Hno & Hins & _).
  pose proof He1 as (E1 & _ & Hv1 & HV1). pose proof He2 as (E2 & Hi2 & Hv2 & HV2).
  assert (Hb0b : b0 <> b) by (intros He; rewrite He in Ha; congruence).
  assert (Hbmb : bitmap_blk s1 b = bitmap_blk s b) by (apply super_bm; by rewrite E1).
  assert (Hview0 : bview (dev s2) b0 = bview (dev s) b0).
  { rewrite HV2 by by apply Hv1. unfold alloc_view, upd_view. rewrite Hbmb.
    rewrite !decide_False; [by apply HV1| |done]. intros He. symmetry in He. by apply (Hbm b Hb). }
  assert (Hh2' : bheld (dev s2) !! h = Some b0) by by rewrite Hh2.
  assert (Hblk : is_block (wr_word (bview (dev s) b0) i b))
    by (apply wr_word_block; [apply view_block; [apply (fi_alloc _ _ Hf)|done]|done]).
  destruct (wr_held s2 h b0 _ Hi2 Hh2' Hblk) as (s3 & Hw & He3 & Hh3).
  pose proof He3 as (_ & Hi3 & Hv3 & HV3).
  assert (Hh3' : bheld (dev s3) !! h = Some b0) by by rewrite Hh3.
  destruct (put_held s3 h b0 Hi3 Hh3') as (s4 & Hput & He4 & Hh4).
  exists b, s3, s4. split.
  { unfold word_or_alloc. st_run. rewrite (rd_run _ _ _ _ Ho), Hz. cbn [Z.eqb].
    rewrite Hrun, (rd_held s2 h b0), Hview0, Hw, (rd_held s3 h b0) by done.
    rewrite HV3 by by apply Hv2, Hv1. unfold upd_view. rewrite decide_True by done.
    rewrite rd_wr_word; [done|apply view_block; [apply (fi_alloc _ _ Hf)|done]|done|].
    pose proof (num_bits_range s (proj1 (proj2 (fi_alloc _ _ Hf)))).
    destruct (fi_alloc _ _ Hf) as (_ & (_ & ? & _) & _). unfold BITS_PER_BLOCK in *. lia. }
  split; [done|]. split; [done|]. split; [done|].
  assert (He : eff s s4 (upd_view (alloc_view s1 b) b0 (wr_word (bview (dev s) b0) i b))).
  { eapply eff_then_keep; [|exact He4]. eapply eff_then_write; [|exact He3].
    eapply eff_trans; [exact He1|exact He2]. }
  split; [|done]. pose proof He as (E & _ & _ & HV).
  pose proof (fi_alloc _ _ Hf) as (_ & (_ & _ & Hbv) & _ & _ & _ & Hcl).
  constructor; [by eexists| | | | | |apply Hf|].
  - rewrite Hh4, Hh3, Hh2, Hins. by apply delete_insert_id.
  - intros x Hx. rewrite <- Hal1 by done.
    rewrite <- (allocated_after s1 s2 b x) by (try done; try lia; by rewrite Hal1).
    assert (Hb2 : bitmap_blk s2 x = bitmap_blk s x) by (apply super_bm; rewrite E2, E1; done).
    apply allocated_view; [rewrite E, E2, E1; done|]. rewrite Hb2, HV by auto.
    unfold upd_view at 1. rewrite decide_False by auto. rewrite HV2; [done|]. by apply Hv1, Hbv.
  - rewrite HV by auto. unfold upd_view at 1. rewrite decide_False by done.
    unfold alloc_view, upd_view. by rewrite decide_True.
  - intros x Hvx Hxb Hxm Hxp. rewrite HV by done. unfold upd_view at 1. rewrite decide_False.
    + unfold alloc_view, upd_view. rewrite Hbmb, !decide_False by done. by apply HV1.
    + intros ->. by apply (Hxp (r, l) i).
  - intros q j Hq. destruct (parent_inj _ _ (r, l) _ i Hq eq_refl) as [-> ->].
    rewrite HV by done. unfold upd_view. by rewrite decide_True.
  - intros r' Hr'. rewrite decide_False; [done|]. intros Heq. injection Heq as _ Heq. by destruct l.
Qed.

(** A mapped child of a block that is held. *)
Lemma hit_child_at s s1 h a q i :
  node_at (bview (dev s)) a q <> 0 -> node_at (bview (dev s)) a (q.1, q.2 ++ [i]) <> 0 ->
  opened s s1 h (node_at (bview (dev s)) a q) ->
  exists s3, word_or_alloc h i s1 = Ok (node_at (bview (dev s)) a (q.1, q.2 ++ [i]), s1) /\
    put_hd_buf h s1 = Ok (tt, s3) /\ same s s3.
Proof.
  intros Hn Hnz Ho. destruct (put_run s s1 h _ Ho) as (s3 & Hput & He & Hh). exists s3.
  assert (Hw : rd_word (bview (dev s) (node_at (bview (dev s)) a q)) i =
               node_at (bview (dev s)) a (q.1, q.2 ++ [i])).
  { destruct q as [r l]. cbn [fst snd]. by rewrite node_at_snoc, (proj2 (Z.eqb_neq _ _) Hn). }
  split; [|done]. unfold word_or_alloc. st_run. rewrite (rd_run _ _ _ _ Ho), Hw.
  rewrite (proj2 (Z.eqb_neq _ _) Hnz), (rd_run _ _ _ _ Ho), Hw. done.
Qed.

Lemma level_child s n a q i k :
  file_inv s a -> has_map s n a -> legal (q.1, q.2 ++ [i]) ->
  node_at (bview (dev s)) a q <> 0 -> has_free s (Datatypes.S k) ->
  exists h s1 b s2 s3,
    get_hd_buf (node_at (bview (dev s)) a q) s = Ok (h, s1) /\
    word_or_alloc h i s1 = Ok (b, s2) /\ put_hd_buf h s2 = Ok (tt, s3) /\
    level n s s3 a a (q.1, q.2 ++ [i]) b k.
Proof.
  intros Hf Hm Hpi Hn Hk. pose proof (legal_prefix _ _ _ Hpi) as [Hp _].
  assert (Hq : legal q) by by destruct q.
  destruct (get_run s _ (file_ready s a q Hf Hq Hn)) as (h & s1 & Hg & Ho). exists h, s1.
  destruct (decide (node_at (bview (dev s)) a (q.1, q.2 ++ [i]) = 0)) as [Hz|Hnz].
  - destruct (word_alloc_run s s1 h a q i k) as (b & s2 & s3 & Hw & Hput & Hb & Hab & Had & He); try done.
    assert (Hpar : forall q' j, parent_of (q.1, q.2 ++ [i]) q' j -> node_at (bview (dev s)) a q' <> 0).
    { intros q' j Hq'. by destruct (parent_inj _ _ q _ i Hq' eq_refl) as [-> _]. }
    pose proof He as (E & _). exists b, s2, s3. split; [done|]. split; [done|]. split; [done|].
    split; [by apply (added_grown s s3 a a (q.1, q.2 ++ [i]) b)|].
    assert (Hsame : cache s3 = cache s) by (rewrite E; done). destruct Hm as (x & Hx & Ha).
    split.
    { unfold changed. rewrite E. cbn. split; [|done]. symmetry. apply list_eq. intros y.
      destruct (decide (y = n)) as [->|]; [|by rewrite list_lookup_alter_ne].
      rewrite list_lookup_alter_eq, Hx. cbn. f_equal. destruct x. cbn in *. by subst. }
    split; [exists x; by rewrite Hsame|]. split.
    { apply (has_free_alloc s _ b); [apply super_num; by rewrite E| |done].
      apply (ad_bits _ _ _ _ _ _ Had). }
    split; [by apply (added_nonzero s s3 a a (q.1, q.2 ++ [i]) b)|].
    split; [|by intros Hc].
    rewrite (added_nodes s s3 a a (q.1, q.2 ++ [i]) b) by done. by rewrite decide_True.
  - destruct (hit_child_at s s1 h a q i Hn Hnz Ho) as (s3 & Hw & Hput & Hs).
    exists (node_at (bview (dev s)) a (q.1, q.2 ++ [i])), s1, s3. split; [done|].
    split; [done|]. split; [done|].
    apply level_same; try done. apply (has_free_le s k (Datatypes.S k)); [done|lia].
Qed.

(** Chaining the levels. *)
Lemma level_chain n s s1 s2 a a1 a2 q i b1 b k1 k :
  legal (q.1, q.2 ++ [i]) -> level n s s1 a a1 q b1 k1 -> level n s1 s2 a1 a2 (q.1, q.2 ++ [i]) b k ->
  level n s s2 a a2 (q.1, q.2 ++ [i]) b k.
Proof.
  intros Hl (G1 & C1 & M1 & F1 & N1 & P1 & S1) (G2 & C2 & M2 & F2 & N2 & P2 & S2).
  split; [by eapply grown_trans|]. split; [by eapply changed_trans|].
  split; [done|]. split; [done|]. split; [done|]. split; [done|]. intros Hn.
  assert (Hq : node_at (bview (dev s)) a q <> 0).
  { destruct q as [r l]. cbn [fst snd] in Hn. rewrite node_at_snoc in Hn. intros Hz.
    by rewrite Hz, Z.eqb_refl in Hn. }
  destruct (S1 Hq) as [Hs1 ->].
  rewrite <- (ex_path _ _ _ _ (gr_ex _ _ _ _ G1) _ Hl Hn) in Hn.
  destruct (S2 Hn) as [Hs2 ->]. split; [|done]. by eapply same_trans.
Qed.

Lemma block_map_run s n a fbn k :
  file_inv s a -> has_map s n a -> 0 <= fbn < MAX_FBN -> has_free s (3 + k) ->
  exists b s' a', block_map n fbn s = Ok (b, s') /\ level n s s' a a' (path fbn) b k.
Proof.
  intros Hf Hm Hfbn Hk. pose proof (path_leaf fbn Hfbn) as [Hleg _].
  unfold block_map, path in *. destruct (fbn <? NUM_DIRECT) eqn:E1.
  - apply level_root; try done; [unfold NUM_DIRECT in *; lia|].
    by apply (has_free_le s _ (3 + k)); [|lia].
  - change (3 + k)%nat with (Datatypes.S (2 + k)) in Hk. destruct (fbn <? NUM_DIRECT + NUM_SIND) eqn:E2.
    + destruct (level_root s n a SIND_IDX (2 + k) Hf Hm) as (b1 & s1 & a1 & Hr1 & L1);
        [unfold SIND_IDX; lia|done|]. pose proof L1 as (G1 & _ & M1 & F1 & N1 & P1 & _).
      destruct (level_child s1 n a1 (SIND_IDX, []) (Z.to_nat (fbn - NUM_DIRECT)) k) as
        (h & s2 & b & s3 & s4 & Hg & Hw & Hput & L2); try done; [apply G1|by rewrite P1| |].
      { by apply (has_free_le s1 _ (2 + k)); [|lia]. }
      rewrite P1 in Hg. st_run. rewrite Hr1, Hg, Hw, Hput. exists b, s4, a1. split; [done|].
      by apply (level_chain n s s1 s4 a a1 a1 (SIND_IDX, []) _ b1 b (2 + k) k).
    + replace (fbn <? NUM_DIRECT + NUM_SIND + NUM_DIND) with true
        by (symmetry; apply Z.ltb_lt; apply Hfbn).
      set (midx := Z.to_nat ((fbn - NUM_DIRECT - NUM_SIND) / NUM_SIND)) in *.
      set (sidx := Z.to_nat ((fbn - NUM_DIRECT - NUM_SIND) mod NUM_SIND)) in *.
      destruct (level_root s n a DIND_IDX (2 + k) Hf Hm) as (b1 & s1 & a1 & Hr1 & L1);
        [unfold DIND_IDX; lia|done|]. pose proof L1 as (G1 & _ & M1 & F1 & N1 & P1 & _).
      destruct (level_child s1 n a1 (DIND_IDX, []) midx (1 + k)) as
        (h & s2 & mb & s3 & s4 & Hg & Hw & Hput & L2);
        [apply G1|done|apply (legal_prefix DIND_IDX [midx] sidx Hleg)|by rewrite P1|done|].
      pose proof L2 as (G2 & _ & M2 & F2 & N2 & P2 & _). cbn [fst snd app] in P2.
      destruct (level_child s4 n a1 (DIND_IDX, [midx]) sidx k) as
        (h' & s5 & b & s6 & s7 & Hg' & Hw' & Hput' & L3);
        [apply G2|done|done|by rewrite P2|done|].
      rewrite P1 in Hg. rewrite P2 in Hg'. st_run. rewrite Hr1, Hg, Hw, Hput, Hg', Hw', Hput'.
      exists b, s7, a1. split; [done|].
      apply (level_chain n s s4 s7 a a1 a1 (DIND_IDX, [midx]) _ mb b (1 + k) k); [done| |done].
      by apply (level_chain n s s1 s4 a a1 a1 (DIND_IDX, []) _ b1 mb (2 + k) (1 + k)); [apply (legal_prefix DIND_IDX [midx] sidx Hleg)|..].
Qed.

(** [block_map] on a block that is mapped. *)
Lemma hit_root s n a r :
  file_inv s a -> has_map s n a -> (r < 8)%nat -> node_at (bview (dev s)) a (r, []) <> 0 ->
  addr_or_alloc n r s = Ok (node_at (bview (dev s)) a (r, []), s).
Proof.
  intros Hf Hm Hr Hn. unfold addr_or_alloc. st_run.
  rewrite (addr_of_run s n a r Hm (fi_len _ _ Hf) Hr).
  change (node_at (bview (dev s)) a (r, [])) with (default 0 (a !! r)) in *.
  rewrite (proj2 (Z.eqb_neq _ _) Hn). by rewrite (addr_of_run s n a r Hm (fi_len _ _ Hf) Hr).
Qed.

Lemma parent_mapped V a r l i : node_at V a (r, l ++ [i]) <> 0 -> node_at V a (r, l) <> 0.
Proof. rewrite node_at_snoc. intros Hn Hz. by rewrite Hz, Z.eqb_refl in Hn. Qed.

Lemma hit_child s n a q i :
  file_inv s a -> has_map s n a -> legal (q.1, q.2 ++ [i]) ->
  node_at (bview (dev s)) a (q.1, q.2 ++ [i]) <> 0 ->
  exists h s1 s3, get_hd_buf (node_at (bview (dev s)) a q) s = Ok (h, s1) /\
    word_or_alloc h i s1 = Ok (node_at (bview (dev s)) a (q.1, q.2 ++ [i]), s1) /\
    put_hd_buf h s1 = Ok (tt, s3) /\ same s s3 /\ file_inv s3 a /\ has_map s3 n a /\
    (forall p, legal p -> node_at (bview (dev s)) a p <> 0 ->
       node_at (bview (dev s3)) a p = node_at (bview (dev s)) a p).
Proof.
  intros Hf Hm Hl Hnz. pose proof (legal_prefix _ _ _ Hl) as [Hp _].
  assert (Hn : node_at (bview (dev s)) a q <> 0) by (destruct q as [r l]; exact (parent_mapped _ _ _ _ _ Hnz)).
  assert (Hq : legal q) by by destruct q.
  destruct (get_run s _ (file_ready s a q Hf Hq Hn)) as (h & s1 & Hg & Ho).
  destruct (hit_child_at s s1 h a q i Hn Hnz Ho) as (s3 & Hw & Hput & Hs).
  pose proof (file_inv_same s s3 a Hs Hf) as G. exists h, s1, s3.
  split; [done|]. split; [done|]. split; [done|]. split; [done|]. split; [apply G|]. split.
  - destruct (changed_same n s s3 a Hm Hs). done.
  - apply G.
Qed.

Lemma block_map_hit s n a fbn :
  file_inv s a -> has_map s n a -> 0 <= fbn < MAX_FBN ->
  node_at (bview (dev s)) a (path fbn) <> 0 ->
  exists s', block_map n fbn s = Ok (node_at (bview (dev s)) a (path fbn), s') /\ same s s' /\
    file_inv s' a /\ has_map s' n a /\
    forall p, legal p -> node_at (bview (dev s)) a p <> 0 ->
      node_at (bview (dev s')) a p = node_at (bview (dev s)) a p.
Proof.
  intros Hf Hm Hfbn Hn. pose proof (path_leaf fbn Hfbn) as [Hleg _].
  unfold block_map, path in *. destruct (fbn <? NUM_DIRECT) eqn:E1.
  - exists s. split; [apply hit_root; try done; unfold NUM_DIRECT in *; lia|].
    split; [apply same_refl, (fi_alloc _ _ Hf)|done].
  - destruct (fbn <? NUM_DIRECT + NUM_SIND) eqn:E2.
    + destruct (hit_child s n a (SIND_IDX, []) (Z.to_nat (fbn - NUM_DIRECT)))
        as (h & s1 & s3 & Hg & Hw & Hput & Hs & Hrest); [done..|].
      st_run. rewrite (hit_root s n a SIND_IDX), Hg, Hw, Hput; try done; [by exists s3|unfold SIND_IDX; lia|].
      by apply (parent_mapped _ _ _ [] (Z.to_nat (fbn - NUM_DIRECT))).
    + replace (fbn <? NUM_DIRECT + NUM_SIND + NUM_DIND) with true
        by (symmetry; apply Z.ltb_lt; apply Hfbn).
      set (midx := Z.to_nat ((fbn - NUM_DIRECT - NUM_SIND) / NUM_SIND)) in *.
      set (sidx := Z.to_nat ((fbn - NUM_DIRECT - NUM_SIND) mod NUM_SIND)) in *.
      pose proof (parent_mapped _ _ _ [midx] sidx Hn) as Hn1.
      pose proof (parent_mapped _ _ _ [] midx Hn1) as Hn0.
      destruct (legal_prefix DIND_IDX [midx] sidx Hleg) as [Hl1 _].
      destruct (hit_child s n a (DIND_IDX, []) midx)
        as (h & s1 & s3 & Hg & Hw & Hput & Hs & Hf3 & Hm3 & Hnodes); [done..|].
      cbn [fst snd app] in *.
      destruct (hit_child s3 n a (DIND_IDX, [midx]) sidx)
        as (h' & s4 & s6 & Hg' & Hw' & Hput' & Hs' & Hf6 & Hm6 & Hnodes'); [done..|by rewrite Hnodes|].
      cbn [fst snd app] in *. rewrite !Hnodes in Hg', Hw' by done.
      st_run. rewrite (hit_root s n a DIND_IDX), Hg, Hw, Hput, Hg', Hw', Hput'; try done; [|unfold DIND_IDX; lia].
      exists s6. split; [done|]. split; [by eapply same_trans|]. split; [done|]. split; [done|].
      intros p Hp Hpn. rewrite Hnodes'; rewrite ?Hnodes; done.
Qed.

(** ** The bytes of a file *)
Definition fbyte (V : Z -> list Z) (a : list Z) (k : Z) : Z :=
  default 0 (V (node_at V a (path (k / BLOCK_SIZE))) !! Z.to_nat (k mod BLOCK_SIZE)).
Definition fbytes (V : Z -> list Z) (a : list Z) (off n : Z) : list Z :=
  (fun i => fbyte V a (off + Z.of_nat i)) <$> seq 0 (Z.to_nat n).
(** Every block of the bytes [off .. off + n) is mapped. *)
Definition covered (V : Z -> list Z) (a : list Z) (off n : Z) : Prop :=
  forall k, off <= k < off + n -> node_at V a (path (k / BLOCK_SIZE)) <> 0.
(** The largest file the block map can describe. *)
Definition MAX_BYTES : Z := MAX_FBN * BLOCK_SIZE.

Lemma length_fbytes V a off n : length (fbytes V a off n) = Z.to_nat n.
Proof. unfold fbytes. by rewrite length_fmap, length_seq. Qed.

Lemma lookup_fbytes V a off n i :
  (i < Z.to_nat n)%nat -> fbytes V a off n !! i = Some (fbyte V a (off + Z.of_nat i)).
Proof. intros Hi. unfold fbytes. rewrite list_lookup_fmap, lookup_seq_lt by done. done. Qed.

Lemma fbytes_ext V V' a a' off n :
  (forall k, off <= k < off + n -> fbyte V' a' k = fbyte V a k) ->
  fbytes V' a' off n = fbytes V a off n.
Proof.
  intros He. apply list_eq. intros i. destruct (decide (i < Z.to_nat n)%nat).
  - rewrite !lookup_fbytes by done. f_equal. apply He. lia.
  - rewrite !lookup_ge_None_2 by (rewrite length_fbytes; lia). done.
Qed.

Lemma fbytes_app V a off m n :
  0 <= m -> 0 <= n -> fbytes V a off m ++ fbytes V a (off + m) n = fbytes V a off (m + n).
Proof.
  intros Hm Hn. apply list_eq. intros i. destruct (decide (i < Z.to_nat m)%nat).
  - rewrite lookup_app_l by (rewrite length_fbytes; lia). by rewrite !lookup_fbytes by lia.
  - rewrite lookup_app_r by (rewrite length_fbytes; lia). rewrite length_fbytes.
    destruct (decide (i < Z.to_nat (m + n))%nat).
    + rewrite !lookup_fbytes by lia. do 2 f_equal. lia.
    + rewrite !lookup_ge_None_2 by (rewrite ?length_fbytes; lia). done.
Qed.

Lemma fbn_range k : 0 <= k < MAX_BYTES -> 0 <= k / BLOCK_SIZE < MAX_FBN.
Proof.
  unfold MAX_BYTES, BLOCK_SIZE. intros Hk. split; [apply Z.div_pos; lia|].
  apply Z.div_lt_upper_bound; lia.
Qed.

(** Two offsets in the same block. *)
Lemma same_block off j :
  0 <= j < BLOCK_SIZE - off mod BLOCK_SIZE ->
  (off + j) / BLOCK_SIZE = off / BLOCK_SIZE /\ (off + j) mod BLOCK_SIZE = off mod BLOCK_SIZE + j.
Proof.
  unfold BLOCK_SIZE. intros Hj. pose proof (Z.div_mod off 512). pose proof (Z.mod_pos_bound off 512).
  assert (Hq : (off + j) / 512 = off / 512)
    by (symmetry; apply Z.div_unique with (off mod 512 + j); lia).
  pose proof (Z.div_mod (off + j) 512). lia.
Qed.

(** A part of one block as bytes of the file. *)
Lemma chunk_fbytes V a off n :
  is_block (V (node_at V a (path (off / BLOCK_SIZE)))) ->
  0 <= n <= BLOCK_SIZE - off mod BLOCK_SIZE ->
  take (Z.to_nat n) (drop (Z.to_nat (off mod BLOCK_SIZE)) (V (node_at V a (path (off / BLOCK_SIZE))))) =
    fbytes V a off n.
Proof.
  intros [Hl _] Hn. pose proof (Z.mod_pos_bound off BLOCK_SIZE) as Hm. unfold BLOCK_SIZE in Hm.
  apply list_eq. intros i. destruct (decide (i < Z.to_nat n)%nat) as [Hi|Hi].
  - rewrite lookup_take_lt, lookup_drop, lookup_fbytes by done. unfold fbyte.
    destruct (same_block off (Z.of_nat i)) as [-> ->]; [lia|].
    replace (Z.to_nat (off mod BLOCK_SIZE + Z.of_nat i)) with (Z.to_nat (off mod BLOCK_SIZE) + i)%nat
      by (unfold BLOCK_SIZE in *; lia).
    set (c := V _) in *. unfold BLOCK_SIZE in *.
    destruct (lookup_lt_is_Some_2 c (Z.to_nat (off mod 512) + i)) as [v ->]; [lia|done].
  - rewrite !lookup_ge_None_2; [done|rewrite length_fbytes; lia|rewrite length_take; lia].
Qed.

Lemma fbyte_same s s' a k :
  same s s' -> file_inv s a -> 0 <= k < MAX_BYTES ->
  node_at (bview (dev s)) a (path (k / BLOCK_SIZE)) <> 0 ->
  fbyte (bview (dev s')) a k = fbyte (bview (dev s)) a k.
Proof.
  intros Hs Hf Hk Hn. pose proof (file_inv_same s s' a Hs Hf) as G.
  pose proof (path_leaf _ (fbn_range k Hk)) as Hl. unfold fbyte.
  rewrite (ex_path _ _ _ _ (gr_ex _ _ _ _ G) _ (proj1 Hl) Hn). by rewrite (gr_data _ _ _ _ G _ Hl Hn).
Qed.

(** ** Reading *)

(** The condition on the fuel of the loops: [rem] bytes are left at [off]. *)
Definition enough (f : nat) (off rem : Z) : Prop :=
  (0 < f)%nat /\ (rem = 0 \/ rem + off mod BLOCK_SIZE <= BLOCK_SIZE * (Z.of_nat f - 1)).

Lemma enough_step f off rem :
  enough (Datatypes.S f) off rem -> 0 < rem -> 0 <= off ->
  let n := Z.min rem (BLOCK_SIZE - off mod BLOCK_SIZE) in
  0 < n <= rem /\ n <= BLOCK_SIZE - off mod BLOCK_SIZE /\ enough f (off + n) (rem - n).
Proof.
  unfold enough, BLOCK_SIZE. intros [_ [Hz|Hf]] Hr Ho; [lia|]. cbn zeta.
  pose proof (Z.mod_pos_bound off 512). split; [lia|]. split; [lia|]. split; [lia|].
  destruct (Z.min_spec rem (512 - off mod 512)) as [[? ->]|[? ->]]; [left; lia|right].
  replace (off + (512 - off mod 512)) with (0 + (off / 512 + 1) * 512)
    by (pose proof (Z.div_mod off 512); lia).
  rewrite Z.mod_add by lia. rewrite Z.mod_0_l by lia. lia.
Qed.

Lemma enough_loop_fuel off sz : 0 <= off -> 0 <= sz -> enough (loop_fuel sz) off sz.
Proof.
  unfold enough, loop_fuel, BLOCK_SIZE. intros Ho Hs. split; [lia|right].
  pose proof (Z.mod_pos_bound off 512). pose proof (Z.div_mod sz 512).
  pose proof (Z.mod_pos_bound sz 512). assert (0 <= sz / 512) by (apply Z.div_pos; lia). lia.
Qed.

(** One block of a read. *)
Lemma read_block_run s n a off m buffer bp :
  file_inv s a -> has_map s n a -> 0 <= off < MAX_BYTES ->
  node_at (bview (dev s)) a (path (off / BLOCK_SIZE)) <> 0 ->
  0 <= m <= BLOCK_SIZE - off mod BLOCK_SIZE -> (bp + Z.to_nat m <= length buffer)%nat ->
  exists b s1 h s2 s3, block_map n (off / BLOCK_SIZE) s = Ok (b, s1) /\
    get_hd_buf b s1 = Ok (h, s2) /\
    rd_buf h s2 = Ok (bview (dev s) b, s2) /\
    rd_block (bview (dev s) b) (Z.to_nat (off mod BLOCK_SIZE)) (Z.to_nat m) =
      Ok (fbytes (bview (dev s)) a off m) /\
    wr_block buffer bp (fbytes (bview (dev s)) a off m) =
      Ok (splice buffer bp (fbytes (bview (dev s)) a off m)) /\
    put_hd_buf h s2 = Ok (tt, s3) /\ same s s3.
Proof.
  intros Hf Hm Ho Hn Hlen Hbuf. pose proof (fbn_range off Ho) as Hfbn.
  pose proof (path_leaf _ Hfbn) as [Hleg _].
  destruct (block_map_hit s n a _ Hf Hm Hfbn Hn) as (s1 & Hrun & Hs1 & Hf1 & Hm1 & Hnodes).
  set (b := node_at (bview (dev s)) a (path (off / BLOCK_SIZE))) in *.
  destruct (fi_node _ _ Hf _ Hleg Hn) as (_ & _ & Hv & _).
  pose proof (Hnodes _ Hleg Hn) as Hb1. fold b in Hb1.
  assert (Hr1 : ready s1 b) by (rewrite <- Hb1; apply (file_ready s1 a); [done|done|by rewrite Hb1]).
  destruct (get_run s1 b Hr1) as (h & s2 & Hg & Hop). destruct (put_run s1 s2 h b Hop) as (s3 & Hput & He & Hh).
  assert (Hview : bview (dev s1) b = bview (dev s) b) by by apply Hs1.
  assert (Hblk : is_block (bview (dev s) b)) by (apply view_block; [apply (fi_alloc _ _ Hf)|done]).
  exists b, s1, h, s2, s3. split; [done|]. split; [done|].
  split; [by rewrite (rd_run _ _ _ _ Hop), Hview|]. split.
  { unfold rd_block. rewrite decide_True.
    - f_equal. by apply (chunk_fbytes (bview (dev s)) a off m).
    - destruct Hblk as [-> _]. unfold BLOCK_SIZE in *. pose proof (Z.mod_pos_bound off 512). lia. }
  split; [|split; [done|by apply (same_trans s s1)]].
  unfold wr_block. rewrite decide_True; [done|]. rewrite length_fbytes. lia.
Qed.

Lemma read_loop_run f s n a off sz total buffer :
  file_inv s a -> has_map s n a -> 0 <= off -> 0 <= total <= sz ->
  off + (sz - total) <= MAX_BYTES -> covered (bview (dev s)) a off (sz - total) ->
  (Z.to_nat sz <= length buffer)%nat -> enough f off (sz - total) ->
  exists s', cofs_read_loop f n off sz total buffer (Z.to_nat total) s =
      Ok (splice buffer (Z.to_nat total) (fbytes (bview (dev s)) a off (sz - total)), s') /\
    same s s'.
Proof.
  revert s off total buffer. induction f as [|f IH];
    intros s off total buffer Hf Hm Ho Ht Hmax Hcov Hbuf Hen; [by destruct Hen; lia|].
  cbn [cofs_read_loop]. destruct (Z.ltb_spec total sz) as [Hlt|Hge].
  - destruct (enough_step f off (sz - total) Hen ltac:(lia) Ho) as (Hn & Hn' & Hen'). cbn zeta in *.
    set (m := Z.min (sz - total) (BLOCK_SIZE - off mod BLOCK_SIZE)) in *.
    destruct (read_block_run s n a off m buffer (Z.to_nat total)) as
      (b & s1 & h & s2 & s3 & Hmap & Hg & Hrd & Hsrc & Hwr & Hput & Hs); try done; try lia.
    { apply Hcov. lia. }
    st_run. rewrite Hmap, Hg, Hrd, Hsrc, Hwr, Hput.
    pose proof (file_inv_same s s3 a Hs Hf) as G. destruct (changed_same n s s3 a Hm Hs) as [_ Hm3].
    assert (Hmx : MAX_BYTES < 2 ^ 32) by (vm_compute; done).
    rewrite u32_small by lia. replace (Z.to_nat total + Z.to_nat m)%nat with (Z.to_nat (total + m)) by lia.
    set (data := fbytes (bview (dev s)) a off m).
    assert (Hld : length data = Z.to_nat m) by apply length_fbytes.
    destruct (IH s3 (off + m) (total + m) (splice buffer (Z.to_nat total) data)) as (s' & Hrun & Hs');
      [apply G|done|lia|lia|lia| |rewrite length_splice; lia|by replace (sz - (total + m)) with (sz - total - m) by lia|].
    { intros k Hk. pose proof (path_leaf _ (fbn_range k ltac:(lia))) as [Hleg _].
      rewrite (ex_path _ _ _ _ (gr_ex _ _ _ _ G) _ Hleg); apply Hcov; lia. }
    exists s'. split; [|by apply (same_trans s s3)]. rewrite Hrun. do 2 f_equal.
    replace (Z.to_nat (total + m)) with (Z.to_nat total + length data)%nat by lia.
    rewrite splice_app by (rewrite length_fbytes; lia). f_equal.
    rewrite (fbytes_ext (bview (dev s)) (bview (dev s3)) a a).
    + unfold data. rewrite fbytes_app by lia. f_equal. lia.
    + intros k Hk. apply fbyte_same; try done; [lia|]. apply Hcov. lia.
  - assert (total = sz) as -> by lia. rewrite Z.sub_diag. exists s. st_run.
    change (fbytes (bview (dev s)) a off 0) with (@nil Z). rewrite splice_nil.
    split; [done|]. apply same_refl, (fi_alloc _ _ Hf).
Qed.

(** ** Writing *)

(** Writing a block that is neither an inner node of the tree nor in the
    bitmap leaves the tree and the marks alone. *)
Lemma quiet_write s s' a z c :
  file_inv s a -> (forall x, 0 <= x < num_bits s -> bitmap_blk s x <> z) ->
  (forall r l i, legal (r, l ++ [i]) -> node_at (bview (dev s)) a (r, l) <> 0 ->
     node_at (bview (dev s)) a (r, l) <> z) ->
  eff s s' (upd_view (bview (dev s)) z c) -> bheld (dev s') = bheld (dev s) ->
  file_inv s' a /\
  (forall q, legal q -> node_at (bview (dev s')) a q = node_at (bview (dev s)) a q) /\
  (forall x, 0 <= x < num_bits s -> allocated s' x = allocated s x).
Proof.
  intros Hf Hbmz Hin He Hh. pose proof He as (E & Hi & Hv & HV). pose proof (fi_alloc _ _ Hf) as Hpre.
  assert (Hsup : superb s' = superb s) by (rewrite E; done).
  pose proof (super_num _ _ Hsup) as Hnb. pose proof Hpre as (_ & (_ & _ & Hbv) & _).
  assert (Hal : forall x, 0 <= x < num_bits s -> allocated s' x = allocated s x).
  { intros x Hx. apply allocated_view; [done|]. rewrite HV by auto. unfold upd_view.
    by rewrite decide_False by auto. }
  assert (Hnode : forall q, legal q -> node_at (bview (dev s')) a q = node_at (bview (dev s)) a q).
  { intros q Hq. apply node_at_ext; [done|]. intros r l i Hl Hc.
    destruct (legal_prefix _ _ _ Hl) as [Hl' _].
    destruct (fi_node _ _ Hf _ Hl' Hc) as (_ & _ & Hvn & _). rewrite HV by done.
    unfold upd_view. by rewrite decide_False by by apply (Hin r l i). }
  split; [|done]. constructor.
  - apply Hf.
  - apply (alloc_pre_grow s s' _ Hpre He Hh). intros x Hx Ha. by rewrite Hal.
  - rewrite Hh. apply Hf.
  - rewrite Hal; [apply Hf|]. pose proof (num_bits_range s (proj1 (proj2 Hpre))).
    destruct Hpre as (_ & (_ & ? & _) & _). lia.
  - intros q Hq. rewrite Hnode by done. intros Hnq. cbn zeta.
    destruct (fi_node _ _ Hf q Hq Hnq) as (Hr & Ha & Hvq & Hbm & Hnh). rewrite Hnb, Hal, Hh by done.
    split; [done|]. split; [done|]. split; [by apply Hv|]. split; [|done].
    intros x Hx. rewrite (super_bm s s') by done. auto.
  - intros q q' Hq Hq'. rewrite !Hnode by done. by apply Hf.
Qed.

(** So does writing a block that holds bytes of the file ... *)
Lemma leaf_write s s' a p c :
  file_inv s a -> leaf p -> node_at (bview (dev s)) a p <> 0 ->
  eff s s' (upd_view (bview (dev s)) (node_at (bview (dev s)) a p) c) ->
  bheld (dev s') = bheld (dev s) ->
  extends s s' a a /\
  forall q, legal q -> node_at (bview (dev s')) a q = node_at (bview (dev s)) a q.
Proof.
  intros Hf Hp Hn He Hh. destruct (fi_node _ _ Hf p (proj1 Hp) Hn) as (_ & _ & _ & Hbmp & _).
  destruct (quiet_write s s' a _ c Hf Hbmp) as (Hf' & Hnode & Hal); [|done|done|].
  { intros r l i Hl Hc Heq. destruct (legal_prefix _ _ _ Hl) as [Hl' _].
    apply (fi_inj _ _ Hf) in Heq; [|done|apply Hp|done]. subst p. by apply (leaf_not_prefix _ _ i Hp). }
  pose proof He as (E & Hi & Hv & HV). split; [|done]. constructor; try done.
  - rewrite E; done.
  - intros q Hq Hnq. by apply Hnode.
  - intros q Hq Hnq. left. by rewrite Hnode.
  - intros x Hx Ha. by rewrite Hal.
  - intros z Hz Hvz Ha Hbm Ht. rewrite HV by done. unfold upd_view. rewrite decide_False; [done|].
    intros ->. apply Ht. exists p. split; [apply Hp|done].
Qed.

(** ... and writing a block that is not in the tree, which keeps the bytes of
    the file too. *)
Lemma outside_write s s' a z c :
  file_inv s a -> (forall x, 0 <= x < num_bits s -> bitmap_blk s x <> z) -> ~ in_tree s a z ->
  eff s s' (upd_view (bview (dev s)) z c) -> bheld (dev s') = bheld (dev s) ->
  file_inv s' a /\
  (forall q, legal q -> node_at (bview (dev s')) a q = node_at (bview (dev s)) a q) /\
  (forall k, 0 <= k < MAX_BYTES -> node_at (bview (dev s)) a (path (k / BLOCK_SIZE)) <> 0 ->
     fbyte (bview (dev s')) a k = fbyte (bview (dev s)) a k).
Proof.
  intros Hf Hbm Ht He Hh. destruct (quiet_write s s' a z c Hf Hbm) as (Hf' & Hnode & _); [|done|done|].
  { intros r l i Hl _ <-. apply Ht. exists (r, l). by destruct (legal_prefix _ _ _ Hl). }
  split; [done|]. split; [done|]. intros k Hk Hn. pose proof (path_leaf _ (fbn_range k Hk)) as [Hl _].
  unfold fbyte. rewrite Hnode by done. destruct (fi_node _ _ Hf _ Hl Hn) as (_ & _ & Hvk & _).
  destruct He as (_ & _ & _ & HV). rewrite HV by done. unfold upd_view. rewrite decide_False; [done|].
  intros Heq. apply Ht. by eexists.
Qed.

(** The effect of writing [data] at [off]. *)
Record wrote (s s' : fs) (a a' : list Z) (off : Z) (data : list Z) : Prop := {
  wr_ex : extends s s' a a';
  wr_keep : forall k, 0 <= k < MAX_BYTES -> node_at (bview (dev s)) a (path (k / BLOCK_SIZE)) <> 0 ->
    ~ off <= k < off + Z.of_nat (length data) -> fbyte (bview (dev s')) a' k = fbyte (bview (dev s)) a k;
  wr_data : forall k, off <= k < off + Z.of_nat (length data) ->
    node_at (bview (dev s')) a' (path (k / BLOCK_SIZE)) <> 0 /\
    data !! Z.to_nat (k - off) = Some (fbyte (bview (dev s')) a' k)
}.

Lemma wrote_nil s a off : file_inv s a -> wrote s s a a off [].
Proof.
  intros Hf. constructor; [by apply extends_refl|done|]. intros k. cbn [length]. lia.
Qed.

Lemma wrote_app s s1 s2 a a1 a2 off d1 d2 :
  0 <= off -> off + Z.of_nat (length d1 + length d2) <= MAX_BYTES ->
  wrote s s1 a a1 off d1 -> wrote s1 s2 a1 a2 (off + Z.of_nat (length d1)) d2 ->
  wrote s s2 a a2 off (d1 ++ d2).
Proof.
  intros Ho Hmax W1 W2. pose proof (wr_ex _ _ _ _ _ _ W1) as G1.
  constructor; [by eapply extends_trans; [apply W1|apply W2]| |].
  - rewrite length_app. intros k Hk Hn Hout.
    pose proof (path_leaf _ (fbn_range k Hk)) as [Hleg _].
    rewrite (wr_keep _ _ _ _ _ _ W2) by (try done; try lia; by rewrite (ex_path _ _ _ _ G1)).
    by apply (wr_keep _ _ _ _ _ _ W1); [| |lia].
  - rewrite length_app. intros k Hk. destruct (decide (k < off + Z.of_nat (length d1))).
    + destruct (wr_data _ _ _ _ _ _ W1 k ltac:(lia)) as [Hn1 Hd1].
      pose proof (path_leaf _ (fbn_range k ltac:(lia))) as [Hleg _].
      rewrite (wr_keep _ _ _ _ _ _ W2 k) by (done || lia). rewrite lookup_app_l by lia.
      split; [|done]. by rewrite (ex_path _ _ _ _ (wr_ex _ _ _ _ _ _ W2)).
    + destruct (wr_data _ _ _ _ _ _ W2 k ltac:(lia)) as [Hn2 Hdd2]. split; [done|].
      rewrite lookup_app_r by lia. rewrite <- Hdd2. f_equal. lia.
Qed.

(** Overwriting a part of a mapped block. *)
Lemma wrote_chunk s s' a off data :
  file_inv s a -> 0 <= off < MAX_BYTES ->
  node_at (bview (dev s)) a (path (off / BLOCK_SIZE)) <> 0 ->
  Z.of_nat (length data) <= BLOCK_SIZE - off mod BLOCK_SIZE ->
  eff s s' (upd_view (bview (dev s)) (node_at (bview (dev s)) a (path (off / BLOCK_SIZE)))
              (splice (bview (dev s) (node_at (bview (dev s)) a (path (off / BLOCK_SIZE))))
                 (Z.to_nat (off mod BLOCK_SIZE)) data)) ->
  bheld (dev s') = bheld (dev s) -> wrote s s' a a off data.
Proof.
  intros Hf Ho Hn Hlen He Hh. pose proof (path_leaf _ (fbn_range off Ho)) as Hp.
  destruct (leaf_write s s' a _ _ Hf Hp Hn He Hh) as [Hex Hnode].
  destruct (fi_node _ _ Hf _ (proj1 Hp) Hn) as (_ & _ & Hvb & _).
  set (b := node_at (bview (dev s)) a (path (off / BLOCK_SIZE))) in *.
  assert (Hbl : length (bview (dev s) b) = 512%nat)
    by (apply view_block; [apply (fi_alloc _ _ Hf)|done]).
  destruct He as (_ & _ & _ & HV). pose proof (Z.mod_pos_bound off BLOCK_SIZE) as Hm.
  unfold BLOCK_SIZE in Hm. constructor; [done| |].
  - intros k Hk Hnk Hout. pose proof (path_leaf _ (fbn_range k Hk)) as Hpk. unfold fbyte.
    rewrite Hnode by apply Hpk.
    destruct (fi_node _ _ Hf _ (proj1 Hpk) Hnk) as (_ & _ & Hvk & _). rewrite HV by done.
    unfold upd_view. case_decide as Hkb; [|done]. rewrite Hkb.
    apply (fi_inj _ _ Hf) in Hkb; [|apply Hpk|apply Hp|done].
    apply path_inj in Hkb; [|by apply fbn_range..]. rewrite lookup_splice_out; [done|unfold BLOCK_SIZE in *; lia|].
    unfold BLOCK_SIZE in *. pose proof (Z.div_mod off 512). pose proof (Z.div_mod k 512).
    pose proof (Z.mod_pos_bound k 512). lia.
  - intros k Hk. destruct (same_block off (k - off)) as [Hdiv Hmod]; [lia|].
    replace (off + (k - off)) with k in * by lia. unfold fbyte. rewrite Hdiv, Hnode by apply Hp.
    split; [done|]. fold b. rewrite HV by done. unfold upd_view. rewrite decide_True by done.
    rewrite lookup_splice_in by (unfold BLOCK_SIZE in *; lia).
    replace (Z.to_nat (k mod BLOCK_SIZE) - Z.to_nat (off mod BLOCK_SIZE))%nat with (Z.to_nat (k - off))
      by (unfold BLOCK_SIZE in *; lia).
    destruct (lookup_lt_is_Some_2 data (Z.to_nat (k - off))) as [v ->]; [lia|done].
Qed.
End Files.
End CofsFiles.
