(* ===== verification/CofsRW.v ===== *)
(** * cofs: reading, writing and truncating files

    The contracts of [block_map], [cofs_read], [cofs_write] and
    [cofs_truncate] on a file that satisfies the invariant of CofsFiles.v. *)
From S2P Require Import Prelude CString BlockDev HdQueue Cofs CofsBlocks CofsInode CofsFiles.
Import Cofs CofsBlocks CofsInode CofsFiles.

Module CofsRW.
Section RW.
Context {S : Type} `{Hd : BlockDev S} `{!BlockDevLaws S}.
Notation fs := (Cofs.fs (S:=S)).

(** A file in the cache: node [n] is [x], its block map is [a], and all of its
    bytes are in mapped blocks. *)
Record file_ok (s : fs) (n : nat) (x : fs_node) (a : list Z) : Prop := {
  fo_node : cache s !! n = Some x;
  fo_addrs : addrs x = Some a;
  fo_inv : file_inv s a;
  fo_size : 0 <= size x <= MAX_BYTES;
  fo_covered : covered (bview (dev s)) a 0 (size x)
}.

(** The contents of the file. *)
Definition contents (s : fs) (x : fs_node) (a : list Z) : list Z :=
  fbytes (bview (dev s)) a 0 (size x).

Lemma fo_map s n x a : file_ok s n x a -> has_map s n a.
Proof. intros H. exists x. split; apply H. Qed.

Lemma max_bytes_val : MAX_BYTES = 8457216.
Proof. reflexivity. Qed.

Lemma fbytes_contents s x a off n :
  0 <= off -> 0 <= n -> off + n <= size x ->
  fbytes (bview (dev s)) a off n = take (Z.to_nat n) (drop (Z.to_nat off) (contents s x a)).
Proof.
  intros Ho Hn Hs. unfold contents. apply list_eq. intros i.
  destruct (decide (i < Z.to_nat n)%nat).
  - rewrite lookup_take_lt, lookup_drop, !lookup_fbytes by lia. do 2 f_equal. lia.
  - rewrite !lookup_ge_None_2; [done|rewrite length_take; lia|rewrite length_fbytes; lia].
Qed.

Lemma cofs_read_run s n x a off sz buffer :
  file_ok s n x a -> 0 <= off <= size x -> 0 <= sz -> off + sz < 2 ^ 32 ->
  let count := Z.min sz (size x - off) in
  (Z.to_nat count <= length buffer)%nat ->
  exists s', cofs_read n off sz buffer s =
      Ok (count, splice buffer 0 (take (Z.to_nat count) (drop (Z.to_nat off) (contents s x a))), s') /\
    same s s'.
Proof.
  intros Hf Ho Hs Hov count Hbuf. pose proof (fo_inv _ _ _ _ Hf) as Hi.
  pose proof (fo_size _ _ _ _ Hf) as Hsz. rewrite max_bytes_val in Hsz.
  unfold cofs_read, node_of. st_run. rewrite (fo_node _ _ _ _ Hf). cbn beta iota.
  replace (size x <? off) with false by lia. rewrite u32_small by lia.
  assert (Hc : (if size x <? off + sz then size x - off else sz) = count).
  { unfold count. destruct (Z.ltb_spec (size x) (off + sz)); lia. }
  rewrite Hc.
  destruct (read_loop_run (loop_fuel count) s n a off count 0 buffer) as (s' & Hrun & Hsame);
    [done|by apply (fo_map s n x)|lia|lia|rewrite max_bytes_val; lia| |lia
    |rewrite Z.sub_0_r; apply enough_loop_fuel; lia|].
  { intros k Hk. apply (fo_covered _ _ _ _ Hf). lia. }
  change (Z.to_nat 0) with 0%nat in Hrun. rewrite Hrun. exists s'. split; [|done].
  rewrite Z.sub_0_r, (fbytes_contents s x a off count) by lia. done.
Qed.

(** C3: [cofs_read].  Reading [sz] bytes at [off] of a file returns the
    number of bytes that are left, at most [sz] (0 after the end), stores
    exactly these bytes of the contents at the beginning of the buffer, and
    changes neither the file nor the partition.  The sum [off + sz] has to fit
    32 bits. *)
Theorem cofs_read_spec s n x a off sz buffer :
  file_ok s n x a -> 0 <= off -> 0 <= sz -> off + sz < 2 ^ 32 ->
  let count := if size x <? off then 0 else Z.min sz (size x - off) in
  (Z.to_nat count <= length buffer)%nat ->
  exists s', cofs_read n off sz buffer s =
      Ok (count, splice buffer 0 (take (Z.to_nat count) (drop (Z.to_nat off) (contents s x a))), s') /\
    same s s'.
Proof.
  intros Hf Ho Hs Hov. cbn zeta. destruct (size x <? off) eqn:E; to_prop; intros Hbuf.
  - exists s. unfold cofs_read, node_of. st_run. rewrite (fo_node _ _ _ _ Hf). cbn beta iota.
    replace (size x <? off) with true by lia. rewrite take_0, splice_nil. split; [done|].
    apply same_refl, (fi_alloc _ _ (fo_inv _ _ _ _ Hf)).
  - by apply cofs_read_run.
Qed.

(** ** Writing *)
Lemma grown_wrote s s' a a' off : file_inv s a -> grown s s' a a' -> wrote s s' a a' off [].
Proof.
  intros Hf [G D]. constructor; [done| |intros k; cbn [length]; lia].
  intros k Hk Hn _. pose proof (path_leaf _ (fbn_range k Hk)) as Hl. unfold fbyte.
  rewrite (ex_path _ _ _ _ G _ (proj1 Hl) Hn). by rewrite D.
Qed.

(** One block of a write. *)
Lemma write_block_run s n a off m buffer bp k :
  file_inv s a -> has_map s n a -> 0 <= off -> off + m <= MAX_BYTES -> Forall is_byte buffer ->
  0 < m <= BLOCK_SIZE - off mod BLOCK_SIZE -> (bp + Z.to_nat m <= length buffer)%nat ->
  has_free s (3 + k) ->
  let src := take (Z.to_nat m) (drop bp buffer) in
  exists b s1 h s2 c c' s3 s4 a', block_map n (off / BLOCK_SIZE) s = Ok (b, s1) /\
    get_hd_buf b s1 = Ok (h, s2) /\
    rd_block buffer bp (Z.to_nat m) = Ok src /\
    rd_buf h s2 = Ok (c, s2) /\
    wr_block c (Z.to_nat (off mod BLOCK_SIZE)) src = Ok c' /\
    wr_buf h c' s2 = Ok (tt, s3) /\ put_hd_buf h s3 = Ok (tt, s4) /\
    wrote s s4 a a' off src /\ changed n s s4 a' /\ has_map s4 n a' /\ has_free s4 k.
Proof.
  intros Hf Hm Ho Hmax Hby Hlen Hbuf Hk src. assert (Hor : 0 <= off < MAX_BYTES) by lia.
  pose proof (fbn_range off Hor) as Hfbn. pose proof (path_leaf _ Hfbn) as Hleg.
  destruct (block_map_run s n a _ k Hf Hm Hfbn Hk) as (b & s1 & a' & Hrun & L).
  destruct L as (G & Hch & Hm1 & Hk1 & Hb & Hp & _). pose proof (ex_inv _ _ _ _ (gr_ex _ _ _ _ G)) as Hf1.
  assert (Hn1 : node_at (bview (dev s1)) a' (path (off / BLOCK_SIZE)) <> 0) by by rewrite Hp.
  pose proof (file_ready s1 a' _ Hf1 (proj1 Hleg) Hn1) as Hr. rewrite Hp in Hr.
  destruct (get_run s1 b Hr) as (h & s2 & Hg & Hop). destruct Hr as (Hi1 & Hv1 & _).
  pose proof (view_block s1 b Hi1 Hv1) as Hblk.
  assert (Hsrc : length src = Z.to_nat m) by (unfold src; rewrite length_take, length_drop; lia).
  pose proof (Z.mod_pos_bound off BLOCK_SIZE) as Hmod. unfold BLOCK_SIZE in Hmod.
  set (c := bview (dev s1) b) in *. set (c' := splice c (Z.to_nat (off mod BLOCK_SIZE)) src).
  assert (Hfit : (Z.to_nat (off mod BLOCK_SIZE) + length src <= length c)%nat)
    by (destruct Hblk as [-> _]; unfold BLOCK_SIZE in *; lia).
  assert (Hc' : is_block c').
  { destruct Hblk as [Hl Hb']. split; [unfold c'; by rewrite length_splice|].
    unfold c', splice. rewrite !Forall_app. split_and!; [by apply Forall_take| |by apply Forall_drop].
    by apply Forall_take, Forall_drop. }
  destruct (wr_put_run s1 s2 h b c' Hop Hc') as (s3 & s4 & Hw & Hput & He & Hh).
  exists b, s1, h, s2, c, c', s3, s4, a'. split; [done|]. split; [done|].
  split; [unfold rd_block; by rewrite decide_True by lia|].
  split; [apply (rd_run _ _ _ _ Hop)|].
  split; [unfold wr_block; by rewrite decide_True|]. split; [done|]. split; [done|].
  pose proof He as (E & _ & _ & _).
  assert (Hw1 : wrote s1 s4 a' a' off src) by (apply wrote_chunk; rewrite ?Hp; done || lia).
  split.
  { apply (wrote_app s s1 s4 a a' a' off [] src); cbn [length]; rewrite ?Z.add_0_r; try done; [lia|].
    by apply grown_wrote. }
  destruct Hch as (C1 & C2 & C3). split; [unfold changed; rewrite E; by split_and!|].
  split; [destruct Hm1 as (x & Hx & Ha); exists x; by rewrite E|].
  apply (has_free_same s1); [apply super_num; by rewrite E| |done]. intros x Hx.
  destruct (fi_node _ _ Hf1 _ (proj1 Hleg) Hn1) as (_ & _ & _ & Hbm & _). rewrite Hp in Hbm.
  apply allocated_view; [by rewrite E|]. destruct He as (_ & _ & _ & HV).
  pose proof (fi_alloc _ _ Hf1) as (_ & (_ & _ & Hbv) & _). rewrite HV by auto.
  unfold upd_view. by rewrite decide_False by auto.
Qed.

Lemma write_loop_run f s n a off sz total buffer k :
  file_inv s a -> has_map s n a -> 0 <= off -> 0 <= total <= sz ->
  off + (sz - total) <= MAX_BYTES -> Forall is_byte buffer -> (Z.to_nat sz <= length buffer)%nat ->
  enough f off (sz - total) -> has_free s (3 * f + k) ->
  exists s' a', cofs_write_loop f n off sz total buffer (Z.to_nat total) s = Ok (off + (sz - total), s') /\
    wrote s s' a a' off (take (Z.to_nat (sz - total)) (drop (Z.to_nat total) buffer)) /\
    changed n s s' a' /\ has_map s' n a' /\ has_free s' k.
Proof.
  revert s a off total. induction f as [|f IH];
    intros s a off total Hf Hm Ho Ht Hmax Hby Hbuf Hen Hk; [by destruct Hen; lia|].
  cbn [cofs_write_loop]. destruct (Z.ltb_spec total sz) as [Hlt|Hge].
  - destruct (enough_step f off (sz - total) Hen ltac:(lia) Ho) as (Hn & Hn' & Hen'). cbn zeta in *.
    set (m := Z.min (sz - total) (BLOCK_SIZE - off mod BLOCK_SIZE)) in *.
    destruct (write_block_run s n a off m buffer (Z.to_nat total) (3 * f + k)) as
      (b & s1 & h & s2 & c & c' & s3 & s4 & a' & Hmap & Hg & Hsrc & Hrd & Hwr & Hw & Hput & Hwrote & Hch & Hm4 & Hk4);
      try done; try lia; [by replace (3 + (3 * f + k))%nat with (3 * Datatypes.S f + k)%nat by lia|].
    st_run. rewrite Hmap, Hg, Hsrc, Hrd, Hwr, Hw, Hput. pose proof max_bytes_val as Hmv.
    rewrite u32_small by lia. replace (Z.to_nat total + Z.to_nat m)%nat with (Z.to_nat (total + m)) by lia.
    destruct (IH s4 a' (off + m) (total + m)) as (s' & a2 & Hrun & Hw2 & Hch2 & Hm2 & Hk2);
      [apply (wr_ex _ _ _ _ _ _ Hwrote)|done|lia|lia|lia|done|done| |done|].
    { by replace (sz - (total + m)) with (sz - total - m) by lia. }
    exists s', a2. split; [rewrite Hrun; do 2 f_equal; lia|].
    split; [|split; [by eapply changed_trans|done]].
    set (src := take (Z.to_nat m) _) in *.
    assert (Hls : length src = Z.to_nat m) by (unfold src; rewrite length_take, length_drop; lia).
    replace (take (Z.to_nat (sz - total)) (drop (Z.to_nat total) buffer)) with
      (src ++ take (Z.to_nat (sz - (total + m))) (drop (Z.to_nat (total + m)) buffer)).
    + apply (wrote_app s s4 s' a a' a2); [done| |done|].
      * rewrite Hls, length_take, length_drop. lia.
      * by rewrite Hls, Z2Nat.id by lia.
    + unfold src. replace (Z.to_nat (total + m)) with (Z.to_nat total + Z.to_nat m)%nat by lia.
      rewrite <- drop_drop. replace (Z.to_nat (sz - total)) with (Z.to_nat m + Z.to_nat (sz - (total + m)))%nat by lia.
      by rewrite take_take_drop.
  - assert (total = sz) as -> by lia. rewrite Z.sub_diag, Z.add_0_r. exists s, a. st_run.
    split; [done|]. split; [by apply wrote_nil|].
    destruct (changed_same n s s a Hm) as [Hch _]; [apply same_refl, (fi_alloc _ _ Hf)|].
    split; [done|]. split; [done|]. apply (has_free_le s k (3 * Datatypes.S f + k)); [done|lia].
Qed.

(** ** The block of the inode table *)

(** The block with the inode of a file is allocated, outside of the bitmap and
    of the file, and not held. *)
Record inode_ok (s : fs) (a : list Z) (inum : Z) : Prop := {
  io_range : 0 < inode_blk s inum < num_bits s;
  io_valid : bvalid (dev s) (inode_blk s inum);
  io_alloc : allocated s (inode_blk s inum) = true;
  io_bm : forall x, 0 <= x < num_bits s -> bitmap_blk s x <> inode_blk s inum;
  io_tree : ~ in_tree s a (inode_blk s inum);
  io_held : forall h, bheld (dev s) !! h <> Some (inode_blk s inum)
}.

Lemma in_tree_extends s s' a a' z :
  extends s s' a a' -> z <> 0 -> allocated s z = true -> in_tree s' a' z -> in_tree s a z.
Proof.
  intros G Hz Ha (q & Hq & E). destruct (decide (node_at (bview (dev s)) a q = 0)) as [E0|E0].
  - destruct (ex_new _ _ _ _ G q Hq E0); congruence.
  - exists q. split; [done|]. rewrite <- E. symmetry. by apply (ex_path _ _ _ _ G).
Qed.

Lemma inode_ok_extends s s' a a' inum :
  extends s s' a a' -> inode_ok s a inum -> inode_ok s' a' inum.
Proof.
  intros G [H1 H2 H3 H4 H5 H6]. pose proof (ex_super _ _ _ _ G) as Hs.
  assert (Hib : inode_blk s' inum = inode_blk s inum) by (unfold inode_blk; by rewrite Hs).
  pose proof (super_num _ _ Hs) as Hnb. constructor; rewrite ?Hib, ?Hnb.
  - done.
  - by apply (ex_valid _ _ _ _ G).
  - apply (ex_alloc _ _ _ _ G); [lia|done].
  - intros x Hx. rewrite (super_bm s s') by done. auto.
  - intros Ht. apply H5. apply (in_tree_extends s s' a a'); done || lia.
  - rewrite (ex_held _ _ _ _ G). done.
Qed.

Lemma inode_ok_ready s a inum :
  file_inv s a -> inode_ok s a inum -> ready s (inode_blk s inum).
Proof.
  intros Hf [H1 H2 H3 H4 H5 H6]. pose proof (fi_alloc _ _ Hf) as (Hi & Hok & Hc & _).
  pose proof (num_bits_range s Hok). destruct Hok as (_ & ? & _). unfold BITS_PER_BLOCK in *.
  split; [done|]. split; [done|]. split; [lia|]. split; [|done]. intros h b' Hb ->. by apply (H6 h).
Qed.

(** ** The contract of [cofs_write] *)

(** The contents after [data] is written at [off]. *)
Definition overwrite (old : list Z) (off : Z) (data : list Z) : list Z :=
  take (Z.to_nat off) old ++ data ++ drop (Z.to_nat off + length data) old.

Lemma wrote_contents s s' a a' off data size0 :
  wrote s s' a a' off data -> 0 <= off <= size0 -> covered (bview (dev s)) a 0 size0 ->
  size0 <= MAX_BYTES -> off + Z.of_nat (length data) <= MAX_BYTES ->
  fbytes (bview (dev s')) a' 0 (Z.max size0 (off + Z.of_nat (length data))) =
    overwrite (fbytes (bview (dev s)) a 0 size0) off data /\
  covered (bview (dev s')) a' 0 (Z.max size0 (off + Z.of_nat (length data))).
Proof.
  intros W Ho Hc Hs Hmax. set (len := Z.of_nat (length data)) in *. split.
  - apply list_eq. intros i. unfold overwrite.
    set (old := fbytes (bview (dev s)) a 0 size0).
    assert (Hold : length old = Z.to_nat size0) by apply length_fbytes.
    assert (Htake : length (take (Z.to_nat off) old) = Z.to_nat off) by (rewrite length_take; lia).
    destruct (decide (Z.of_nat i < Z.max size0 (off + len))) as [Hi|Hi].
    + rewrite lookup_fbytes by lia. rewrite Z.add_0_l.
      destruct (decide (off <= Z.of_nat i < off + len)) as [Hin|Hout].
      * rewrite lookup_app_r, Htake, lookup_app_l by lia.
        destruct (wr_data _ _ _ _ _ _ W (Z.of_nat i) Hin) as [_ <-]. f_equal. lia.
      * rewrite (wr_keep _ _ _ _ _ _ W (Z.of_nat i)) by (lia || done || apply Hc; lia).
        destruct (decide (i < Z.to_nat off)%nat).
        -- rewrite lookup_app_l, lookup_take_lt by lia. unfold old. by rewrite lookup_fbytes by lia.
        -- rewrite lookup_app_r, Htake, lookup_app_r, lookup_drop by lia.
           unfold old. rewrite lookup_fbytes by lia. do 2 f_equal. lia.
    + rewrite !lookup_ge_None_2; [done| |rewrite length_fbytes; lia].
      rewrite !length_app, Htake, length_drop. lia.
  - intros k Hk. destruct (decide (off <= k < off + len)) as [Hin|Hout].
    + by apply (wr_data _ _ _ _ _ _ W).
    + pose proof (path_leaf _ (fbn_range k ltac:(lia))) as [Hl _].
      rewrite (ex_path _ _ _ _ (wr_ex _ _ _ _ _ _ W) _ Hl); apply Hc; lia.
Qed.

(** The last step of [cofs_write] when the file grows: the new size goes to
    the node and to the inode table. *)
Lemma resize_run s n x a sz :
  cache s !! n = Some x -> addrs x = Some a -> file_inv s a -> inode_ok s a (inode x) ->
  let x' := with_size x sz in
  exists s' i, (set_node n (fun x => with_size x sz);; cofs_update_node n) s = Ok (tt, s') /\
    node_to_inode x' = Some i /\ length (i_addrs i) = 9%nat /\
    cache s' = alter (fun x => with_size x sz) n (cache s) /\
    superb s' = superb s /\ cache_lock s' = cache_lock s /\ dirent s' = dirent s /\
    bheld (dev s') = bheld (dev s) /\
    eff (set_nth s n (fun x => with_size x sz) (dev s)) s'
      (upd_view (bview (dev s)) (inode_blk s (inode x))
         (wr_inode (bview (dev s) (inode_blk s (inode x))) (inode x) i)).
Proof.
  intros Hx Ha Hf Hio x'. set (s1 := set_nth s n (fun x => with_size x sz) (dev s)).
  assert (Hx1 : cache s1 !! n = Some x') by (unfold s1; cbn; by rewrite (alter_lookup _ _ n x)).
  assert (Hi : exists i, node_to_inode x' = Some i /\ length (i_addrs i) = 9%nat).
  { unfold node_to_inode, x'. cbn. rewrite Ha. eexists. split; [done|]. cbn.
    pose proof (fi_len _ _ Hf). rewrite length_take. lia. }
  destruct Hi as (i & Hi & Hl).
  assert (Hr : ready s1 (inode_blk s1 (inode x'))) by apply (inode_ok_ready s a (inode x) Hf Hio).
  destruct (update_node_run s1 n x' i Hx1 Hi Hl Hr) as (s' & Hrun & Hh & He).
  pose proof He as (E & _). exists s', i. split.
  { unfold set_node. st_run. exact Hrun. }
  split; [done|]. split; [done|]. split; [rewrite E; done|]. split; [rewrite E; done|].
  split; [rewrite E; done|]. split; [rewrite E; done|]. split; [done|]. exact He.
Qed.

(** The blocks that a write to the file does not concern: allocated, not in
    the bitmap, not of the file and not the one with its inode. *)
Definition elsewhere (s : fs) (a : list Z) (inum z : Z) : Prop :=
  0 <= z < num_bits s /\ bvalid (dev s) z /\ allocated s z = true /\
  (forall x, 0 <= x < num_bits s -> bitmap_blk s x <> z) /\ ~ in_tree s a z /\ z <> inode_blk s inum.

(** The result of [cofs_write]. *)
Record written (s s' : fs) (n : nat) (x : fs_node) (a a' : list Z) (off : Z) (data : list Z) : Prop := {
  wn_ok : file_ok s' n (with_size (with_addrs x (Some a')) (Z.max (size x) (off + Z.of_nat (length data)))) a';
  wn_contents : contents s' (with_size (with_addrs x (Some a')) (Z.max (size x) (off + Z.of_nat (length data)))) a' =
    overwrite (contents s x a) off data;
  wn_inode : size x < off + Z.of_nat (length data) -> exists i,
    node_to_inode (with_size (with_addrs x (Some a')) (off + Z.of_nat (length data))) = Some i /\
    bview (dev s') (inode_blk s (inode x)) = wr_inode (bview (dev s) (inode_blk s (inode x))) (inode x) i;
  wn_frame : forall z, elsewhere s a (inode x) z -> bview (dev s') z = bview (dev s) z;
  wn_nodes : forall m, m <> n -> cache s' !! m = cache s !! m;
  wn_locks : cache_lock s' = cache_lock s /\ bheld (dev s') = bheld (dev s)
}.

Lemma with_size_same x v : v = size x -> with_size x v = x.
Proof. intros ->. by destruct x. Qed.

Lemma wrote_written s s' n x a a' off data :
  file_ok s n x a -> inode_ok s a (inode x) -> 0 <= off <= size x -> off + Z.of_nat (length data) <= size x ->
  wrote s s' a a' off data -> changed n s s' a' -> written s s' n x a a' off data.
Proof.
  intros Hf Hio Ho Hmax W (Hca & Hlk & _). pose proof (fo_size _ _ _ _ Hf) as Hsz.
  pose proof (wr_ex _ _ _ _ _ _ W) as G.
  destruct (wrote_contents s s' a a' off data (size x) W Ho (fo_covered _ _ _ _ Hf)) as [Hcont Hcov]; [lia..|].
  rewrite Z.max_l in * by lia. constructor; rewrite ?Z.max_l by lia.
  - rewrite with_size_same by (by destruct x). constructor.
    + rewrite Hca, (alter_lookup _ _ n x); [done|apply Hf].
    + done.
    + apply G.
    + by destruct x.
    + by destruct x.
  - unfold contents. cbn [size with_size]. exact Hcont.
  - lia.
  - intros z (Hz & Hv & Ha & Hbm & Ht & _). by apply (ex_frame _ _ _ _ G).
  - intros m Hm. rewrite Hca. by apply list_lookup_alter_ne.
  - split; [done|]. apply (ex_held _ _ _ _ G).
Qed.

Lemma resized_written s s1 s2 n x a a' off data i :
  file_ok s n x a -> inode_ok s a (inode x) -> 0 <= off <= size x ->
  size x < off + Z.of_nat (length data) -> off + Z.of_nat (length data) <= MAX_BYTES ->
  wrote s s1 a a' off data -> changed n s s1 a' ->
  let sz := off + Z.of_nat (length data) in let x1 := with_addrs x (Some a') in
  node_to_inode (with_size x1 sz) = Some i -> length (i_addrs i) = 9%nat ->
  cache s2 = alter (fun x => with_size x sz) n (cache s1) -> superb s2 = superb s1 ->
  cache_lock s2 = cache_lock s1 -> bheld (dev s2) = bheld (dev s1) ->
  eff (set_nth s1 n (fun x => with_size x sz) (dev s1)) s2
    (upd_view (bview (dev s1)) (inode_blk s1 (inode x))
       (wr_inode (bview (dev s1) (inode_blk s1 (inode x))) (inode x) i)) ->
  written s s2 n x a a' off data.
Proof.
  intros Hf Hio Ho Hgrow Hmax W (Hca & Hlk & _) sz x1 Hi Hli Hc2 Hs2 Hl2 Hh2 He.
  pose proof (fo_size _ _ _ _ Hf) as Hsz. pose proof (wr_ex _ _ _ _ _ _ W) as G.
  destruct (wrote_contents s s1 a a' off data (size x) W Ho (fo_covered _ _ _ _ Hf)) as [Hcont Hcov]; [lia..|].
  rewrite Z.max_r in * by lia. fold sz in Hcont, Hcov.
  pose proof (ex_inv _ _ _ _ G) as Hf1. pose proof (inode_ok_extends _ _ _ _ _ G Hio) as Hio1.
  assert (Hib : inode_blk s1 (inode x) = inode_blk s (inode x))
    by (unfold inode_blk; by rewrite (ex_super _ _ _ _ G)).
  set (t := set_nth s1 n (fun x => with_size x sz) (dev s1)) in *.
  assert (Hft : file_inv t a') by (apply file_inv_dev; done).
  destruct (outside_write t s2 a' (inode_blk s1 (inode x))
    (wr_inode (bview (dev s1) (inode_blk s1 (inode x))) (inode x) i)) as (Hf2 & Hnode & Hbyte); try done.
  { apply (io_bm _ _ _ Hio1). }
  { apply (io_tree _ _ _ Hio1). }
  change (dev t) with (dev s1) in *. pose proof He as (_ & _ & _ & HV). change (dev t) with (dev s1) in HV.
  constructor; rewrite ?Z.max_r by lia; fold sz.
  - constructor.
    + rewrite Hc2. rewrite (alter_lookup _ _ n x1); [done|]. rewrite Hca, (alter_lookup _ _ n x); [done|apply Hf].
    + done.
    + done.
    + cbn. lia.
    + cbn [size with_size]. intros k Hk. pose proof (path_leaf _ (fbn_range k ltac:(lia))) as [Hl _].
      rewrite Hnode by done. by apply Hcov.
  - unfold contents. cbn [size with_size]. rewrite <- Hcont. apply fbytes_ext.
    intros k Hk. apply Hbyte; [lia|by apply Hcov].
  - intros _. exists i. split; [done|]. rewrite <- Hib. rewrite HV by apply (io_valid _ _ _ Hio1).
    unfold upd_view. rewrite decide_True by done. f_equal. destruct Hio. rewrite Hib.
    apply (ex_frame _ _ _ _ G); done || lia.
  - intros z (Hz & Hv & Ha & Hbm & Ht & Hne). rewrite HV by by apply (ex_valid _ _ _ _ G).
    unfold upd_view. rewrite decide_False by congruence. by apply (ex_frame _ _ _ _ G).
  - intros m Hm. rewrite Hc2, list_lookup_alter_ne, Hca by done. by apply list_lookup_alter_ne.
  - split; [congruence|]. rewrite Hh2. apply (ex_held _ _ _ _ G).
Qed.

(** Storing the inode keeps what the next write needs. *)
Lemma resized_keeps s1 s2 n sz a inum c k :
  file_inv s1 a -> inode_ok s1 a inum -> superb s2 = superb s1 -> bheld (dev s2) = bheld (dev s1) ->
  eff (set_nth s1 n (fun x => with_size x sz) (dev s1)) s2 (upd_view (bview (dev s1)) (inode_blk s1 inum) c) ->
  has_free s1 k -> inode_ok s2 a inum /\ has_free s2 k.
Proof.
  intros Hf Hio Hs Hh He Hk. set (t := set_nth s1 n _ _) in *.
  assert (Hft : file_inv t a) by (apply file_inv_dev; done).
  destruct (outside_write t s2 a (inode_blk s1 inum) c) as (_ & Hnode & _); try done.
  { apply (io_bm _ _ _ Hio). }
  { apply (io_tree _ _ _ Hio). }
  destruct He as (_ & _ & Hv & HV). change (dev t) with (dev s1) in *. pose proof (super_num _ _ Hs) as Hnb.
  assert (Hib : inode_blk s2 inum = inode_blk s1 inum) by (unfold inode_blk; by rewrite Hs).
  assert (Hal : forall x, 0 <= x < num_bits s1 -> allocated s2 x = allocated s1 x).
  { intros x Hx. apply allocated_view; [done|]. pose proof (fi_alloc _ _ Hf) as (_ & (_ & _ & Hbv) & _).
    rewrite HV by auto. unfold upd_view. rewrite decide_False; [done|]. by apply (io_bm _ _ _ Hio). }
  split; [|by apply (has_free_same s1)]. destruct Hio as [H1 H2 H3 H4 H5 H6]. constructor; rewrite ?Hib, ?Hnb.
  - done.
  - by apply Hv.
  - rewrite Hal by lia. done.
  - intros x Hx. rewrite (super_bm s1 s2) by done. auto.
  - intros (q & Hq & E). apply H5. exists q. split; [done|]. by rewrite <- Hnode.
  - by rewrite Hh.
Qed.

Lemma cofs_write_run s n x a off sz buffer k :
  file_ok s n x a -> inode_ok s a (inode x) -> 0 <= off <= size x -> 0 <= sz ->
  off + sz <= MAX_FILE_SIZE_times_BLOCK_SIZE -> Forall is_byte buffer ->
  (Z.to_nat sz <= length buffer)%nat -> has_free s (3 * loop_fuel sz + k) ->
  exists s' a', cofs_write n off sz buffer s = Ok (sz, s') /\
    written s s' n x a a' off (take (Z.to_nat sz) buffer) /\ inode_ok s' a' (inode x) /\ has_free s' k.
Proof.
  intros Hf Hio Ho Hs Hlim Hby Hbuf Hk. pose proof (fo_inv _ _ _ _ Hf) as Hi.
  pose proof max_bytes_val as Hmv.
  assert (Hmac : MAX_FILE_SIZE_times_BLOCK_SIZE = 8388742) by reflexivity.
  assert (Hlen : Z.of_nat (length (take (Z.to_nat sz) buffer)) = sz) by (rewrite length_take; lia).
  unfold cofs_write, node_of. st_run. rewrite (fo_node _ _ _ _ Hf). cbn beta iota.
  replace (size x <? off) with false by lia. rewrite (u32_small (off + sz)) by lia.
  replace (_ <? off + sz) with false by lia.
  destruct (write_loop_run (loop_fuel sz) s n a off sz 0 buffer k) as (s1 & a' & Hrun & W & Hch & Hm1 & Hk1);
    [done|by apply (fo_map s n x)|lia|lia|lia|done|done|rewrite Z.sub_0_r; apply enough_loop_fuel; lia|done|].
  pose proof (wr_ex _ _ _ _ _ _ W) as G. pose proof (inode_ok_extends _ _ _ _ _ G Hio) as Hio1.
  rewrite Z.sub_0_r in *. change (Z.to_nat 0) with 0%nat in *. rewrite drop_0 in W. rewrite Hrun.
  pose proof Hch as (Hca & Hlk & Hdi).
  assert (Hx1 : cache s1 !! n = Some (with_addrs x (Some a')))
    by (rewrite Hca, (alter_lookup _ _ n x); [done|apply Hf]).
  rewrite Hx1. cbn [size with_addrs].
  destruct ((0 <? sz) && (size x <? off + sz))%bool eqn:Egrow.
  - apply andb_prop in Egrow as [E1 E2].
    destruct (resize_run s1 n _ a' (off + sz) Hx1 eq_refl) as
      (s2 & i & Hr & Hn & Hli & Hc2 & Hs2 & Hl2 & Hd2 & Hh2 & He).
    { apply G. }
    { done. }
    revert Hr. st_run. intros Hr. rewrite Hr. exists s2, a'. split; [done|].
    split; [|apply (resized_keeps s1 s2 n _ a' _ _ k (ex_inv _ _ _ _ G) Hio1 Hs2 Hh2 He Hk1)].
    apply (resized_written s s1 s2 n x a a' off _ i); rewrite ?Hlen; try done; try lia.
  - exists s1, a'. split; [done|]. split; [|done]. destruct (decide (sz = 0)) as [->|].
    + apply wrote_written; try done; lia.
    + apply wrote_written; try done. rewrite Hlen. destruct (Z.ltb_spec 0 sz); [|lia]. cbn in Egrow. lia.
Qed.

(** C1: [cofs_write].  At an offset after the end of the file, and beyond
    the limit of the file system, it returns 0 and does nothing.  Otherwise, on
    a file in order and with room for the blocks it may need, it writes all of
    the [sz] bytes; the new contents are the old ones with the bytes in place;
    the file stays in order, its size grows to the end of the write, a grown
    size and the block addresses are stored in its inode; no other node of the
    cache and no block of the rest of the partition changes. *)
Theorem cofs_write_spec s n x a off sz buffer :
  file_ok s n x a -> inode_ok s a (inode x) -> 0 <= off -> 0 <= sz -> off + sz < 2 ^ 32 ->
  Forall is_byte buffer -> (Z.to_nat sz <= length buffer)%nat -> has_free s (3 * loop_fuel sz) ->
  if ((size x <? off) || (MAX_FILE_SIZE_times_BLOCK_SIZE <? off + sz))%bool
  then cofs_write n off sz buffer s = Ok (0, s)
  else exists s' a', cofs_write n off sz buffer s = Ok (sz, s') /\
    written s s' n x a a' off (take (Z.to_nat sz) buffer).
Proof.
  intros Hf Hio Ho Hs Hov Hby Hbuf Hk.
  destruct (size x <? off) eqn:E1; cbn [orb]; [|destruct (_ <? off + sz) eqn:E2].
  - unfold cofs_write, node_of. st_run. rewrite (fo_node _ _ _ _ Hf). cbn beta iota. by rewrite E1.
  - unfold cofs_write, node_of. st_run. rewrite (fo_node _ _ _ _ Hf). cbn beta iota.
    by rewrite E1, u32_small, E2 by lia.
  - to_prop. destruct (cofs_write_run s n x a off sz buffer 0) as (s' & a' & H1 & H2 & _); try done; [by rewrite Nat.add_0_r|by exists s', a'].
Qed.

(** C2: reading back what was written.  After [cofs_write] of [sz] bytes at
    [off], [cofs_read] of [sz] bytes at [off] returns [sz] and these bytes,
    whatever blocks had to be allocated. *)
Theorem cofs_write_read s n x a off sz buffer target :
  file_ok s n x a -> inode_ok s a (inode x) -> 0 <= off <= size x -> 0 <= sz ->
  off + sz <= MAX_FILE_SIZE_times_BLOCK_SIZE -> Forall is_byte buffer ->
  (Z.to_nat sz <= length buffer)%nat -> has_free s (3 * loop_fuel sz) ->
  length target = Z.to_nat sz ->
  exists s1 s2, cofs_write n off sz buffer s = Ok (sz, s1) /\
    cofs_read n off sz target s1 = Ok (sz, take (Z.to_nat sz) buffer, s2).
Proof.
  intros Hf Hio Ho Hs Hlim Hby Hbuf Hk Ht.
  destruct (cofs_write_run s n x a off sz buffer 0) as (s1 & a' & Hrun & [Hok Hcont _ _ _ _] & _); try done; [by rewrite Nat.add_0_r|].
  assert (Hlen : length (take (Z.to_nat sz) buffer) = Z.to_nat sz) by (rewrite length_take; lia).
  rewrite Hlen, Z2Nat.id in * by lia. set (x' := with_size _ _) in *.
  assert (Hsx : size x' = Z.max (size x) (off + sz)) by done.
  assert (Hmac : MAX_FILE_SIZE_times_BLOCK_SIZE = 8388742) by reflexivity.
  destruct (cofs_read_run s1 n x' a' off sz target Hok) as (s2 & Hread & _); rewrite ?Hsx; try lia.
  rewrite Hsx in Hread. replace (Z.min sz (Z.max (size x) (off + sz) - off)) with sz in Hread by lia.
  exists s1, s2. split; [done|]. rewrite Hread. do 3 f_equal. rewrite Hcont. unfold overwrite.
  assert (Hlo : length (take (Z.to_nat off) (contents s x a)) = Z.to_nat off)
    by (unfold contents; rewrite length_take, length_fbytes; lia).
  rewrite drop_app_length' by done. rewrite take_app_length' by done.
  unfold splice. cbn [take app]. rewrite drop_ge by lia. by rewrite app_nil_r.
Qed.

(** ** The contract of [block_map] *)

(** The block that holds block [fbn] of the file, 0 when there is none yet. *)
Definition block_of (s : fs) (a : list Z) (fbn : Z) : Z := node_at (bview (dev s)) a (path fbn).

(** [block_map].  In a file whose invariant holds and with three free
    blocks, every block number below the maximum gets a block: one that is
    mapped is returned and nothing changes; otherwise the missing blocks of
    its path are allocated, all other block numbers and the bytes of the file
    keep their place, and no block in use elsewhere is written. *)
Theorem block_map_spec s n a fbn k :
  file_inv s a -> has_map s n a -> 0 <= fbn < MAX_FBN -> has_free s (3 + k) ->
  exists b s' a', block_map n fbn s = Ok (b, s') /\ b <> 0 /\
    grown s s' a a' /\ has_map s' n a' /\ changed n s s' a' /\ has_free s' k /\
    block_of s' a' fbn = b /\
    (block_of s a fbn <> 0 -> same s s' /\ a' = a).
Proof.
  intros Hf Hm Hr Hk. destruct (block_map_run s n a fbn k Hf Hm Hr Hk) as (b & s' & a' & Hrun & L).
  destruct L as (G & Hc & Hm' & Hk' & Hb & Hp & Hs). exists b, s', a'. by repeat (split; [done|]).
Qed.

(** ** Truncating *)

(** The addresses from [fbs] on are cleared, [k] of them. *)
Fixpoint zeroed (a : list Z) (fbs k : nat) : list Z :=
  match k with
  | O => a
  | Datatypes.S k' => zeroed (<[fbs := 0]> a) (Datatypes.S fbs) k'
  end.

Lemma length_zeroed a fbs k : length (zeroed a fbs k) = length a.
Proof. revert a fbs. induction k as [|k IH]; intros; cbn; [done|]. by rewrite IH, length_insert. Qed.

Lemma lookup_zeroed a fbs k r :
  (r < length a)%nat ->
  zeroed a fbs k !! r = if decide (fbs <= r < fbs + k)%nat then Some 0 else a !! r.
Proof.
  revert a fbs. induction k as [|k IH]; intros a fbs Hr; cbn [zeroed]; [by rewrite decide_False by lia|].
  rewrite IH by by rewrite length_insert. destruct (decide (r = fbs)) as [->|Hne].
  - rewrite decide_False, decide_True by lia. by apply list_lookup_insert_eq.
  - rewrite list_lookup_insert_ne by done. repeat case_decide; done || lia.
Qed.

(** Freeing direct blocks: the addresses [a] become [a'], the marks of the
    blocks in [l] are removed, and only bitmap blocks are written. *)
Record shrunk (s s' : fs) (a a' l : list Z) : Prop := {
  sk_super : superb s' = superb s;
  sk_held : bheld (dev s') = bheld (dev s);
  sk_valid : forall x, bvalid (dev s') x <-> bvalid (dev s) x;
  sk_inv : file_inv s' a';
  sk_bits : forall x, 0 <= x < num_bits s ->
    allocated s' x = (allocated s x && negb (bool_decide (x <> 0 /\ x ∈ l)))%bool;
  sk_view : forall z, bvalid (dev s) z -> (forall x, 0 <= x < num_bits s -> bitmap_blk s x <> z) ->
    bview (dev s') z = bview (dev s) z;
  sk_tree : forall z, z <> 0 -> in_tree s' a' z -> in_tree s a z
}.

Lemma shrunk_refl s a l : file_inv s a -> (forall x, x ∈ l -> x = 0) -> shrunk s s a a l.
Proof.
  intros Hf Hl. constructor; try done. intros x Hx. rewrite bool_decide_false; [by rewrite andb_true_r|].
  intros [Hn Hin]. by apply Hn, Hl.
Qed.

Lemma shrunk_trans s s1 s2 a a1 a2 l1 l2 :
  shrunk s s1 a a1 l1 -> shrunk s1 s2 a1 a2 l2 -> shrunk s s2 a a2 (l1 ++ l2).
Proof.
  intros H1 H2. pose proof (super_num _ _ (sk_super _ _ _ _ _ H1)) as Hnb. constructor.
  - by rewrite (sk_super _ _ _ _ _ H2), (sk_super _ _ _ _ _ H1).
  - by rewrite (sk_held _ _ _ _ _ H2), (sk_held _ _ _ _ _ H1).
  - intros x. by rewrite (sk_valid _ _ _ _ _ H2), (sk_valid _ _ _ _ _ H1).
  - apply H2.
  - intros x Hx. rewrite (sk_bits _ _ _ _ _ H2), (sk_bits _ _ _ _ _ H1) by lia.
    rewrite <- andb_assoc. f_equal. rewrite <- negb_orb. f_equal.
    apply eq_true_iff_eq. rewrite orb_true_iff, !bool_decide_eq_true, elem_of_app. tauto.
  - intros z Hz Hbm. rewrite (sk_view _ _ _ _ _ H2).
    + by apply (sk_view _ _ _ _ _ H1).
    + by apply (sk_valid _ _ _ _ _ H1).
    + intros x Hx. rewrite (super_bm s s1) by apply H1. apply Hbm. lia.
  - intros z Hz Ht. apply (sk_tree _ _ _ _ _ H1); [done|]. by apply (sk_tree _ _ _ _ _ H2).
Qed.

Lemma free_direct s s1 a r :
  file_inv s a -> (r < 6)%nat -> let b := default 0 (a !! r) in b <> 0 ->
  eff s s1 (upd_view (bview (dev s)) (bitmap_blk s b)
              (clr_bit (bview (dev s) (bitmap_blk s b)) (bit_index b))) ->
  bheld (dev s1) = bheld (dev s) -> shrunk s s1 a (<[r := 0]> a) [b].
Proof.
  intros Hf Hr b Hb He Hh. pose proof (fi_alloc _ _ Hf) as Hpre. pose proof He as (E & Hi & Hv & HV).
  assert (Hl : legal (r, [])) by (split_and!; cbn; [lia|lia|constructor]).
  destruct (fi_node _ _ Hf (r, []) Hl Hb) as (Hrg & Ha & Hvb & Hbm & Hnh).
  change (node_at (bview (dev s)) a (r, [])) with b in *. pose proof (fi_len _ _ Hf) as Hla.
  assert (Hsup : superb s1 = superb s) by (rewrite E; done). pose proof (super_num _ _ Hsup) as Hnb.
  assert (Hbits : forall x, 0 <= x < num_bits s -> allocated s1 x = (negb (x =? b) && allocated s x)%bool)
    by (intros; by apply allocated_free).
  assert (Hview : forall z, bvalid (dev s) z -> (forall x, 0 <= x < num_bits s -> bitmap_blk s x <> z) ->
    bview (dev s1) z = bview (dev s) z).
  { intros z Hz Hzb. rewrite HV by done. unfold upd_view. by rewrite decide_False by (symmetry; auto). }
  assert (Hnode : forall q, legal q -> node_at (bview (dev s1)) (<[r:=0]> a) q =
    if decide (q = (r, [])) then 0 else node_at (bview (dev s)) a q).
  { intros [r' l] Hq. destruct (decide (r' = r)) as [->|Hne].
    - assert (l = []) as -> by (destruct Hq as (_ & Hq & _); cbn in Hq; unfold depth in Hq;
        rewrite decide_True in Hq by done; destruct l; [done|cbn in Hq; lia]).
      rewrite decide_True by done. unfold node_at. cbn [fst snd walk]. by rewrite list_lookup_insert_eq by lia.
    - rewrite decide_False by congruence.
      rewrite <- (node_at_ext (bview (dev s)) (bview (dev s1)) a (r', l) Hq).
      + unfold node_at. cbn [fst snd]. rewrite list_lookup_insert_ne; [done|congruence].
      + intros r0 l0 i Hl0 Hn. destruct (legal_prefix _ _ _ Hl0) as [Hl' _].
        destruct (fi_node _ _ Hf _ Hl' Hn) as (_ & _ & Hvn & Hbn & _). by rewrite Hview. }
  constructor; try done.
  - constructor.
    + by rewrite length_insert.
    + by apply (alloc_pre_free s s1 b).
    + rewrite Hh. apply Hf.
    + rewrite Hbits, (fi_zero _ _ Hf) by lia. rewrite (proj2 (Z.eqb_neq 0 b)) by congruence. done.
    + intros q Hq. rewrite Hnode by done. case_decide as Hqr; intros Hn; [done|]. cbn zeta.
      destruct (fi_node _ _ Hf q Hq Hn) as (Hr' & Ha' & Hv' & Hbm' & Hnh'). rewrite Hnb, Hh, Hbits, Ha' by done.
      split; [done|]. split.
      { rewrite (proj2 (Z.eqb_neq _ _)); [done|]. intros Heq. apply Hqr.
        by apply (fi_inj _ _ Hf). }
      split; [by apply Hv|]. split; [|done]. intros x Hx. rewrite (super_bm s s1) by done. auto.
    + intros q q' Hq Hq'. rewrite !Hnode by done. intros Hn Heq.
      repeat case_decide; try congruence. by apply (fi_inj _ _ Hf).
  - intros x Hx. rewrite Hbits, andb_comm by done. f_equal. f_equal.
    apply eq_true_iff_eq. rewrite Z.eqb_eq, bool_decide_eq_true, list_elem_of_singleton.
    split; [intros ->; done|tauto].
  - intros z Hz (q & Hq & Heq). rewrite Hnode in Heq by done. case_decide; [congruence|]. by exists q.
Qed.

Lemma shrunk_dev s s' a a' l c k e :
  shrunk s s' a a' l -> shrunk s (FS (dev s') (superb s') c k e) a a' l.
Proof.
  intros [H1 H2 H3 H4 H5 H6 H7]. constructor; try assumption. by apply file_inv_dev.
Qed.

Lemma truncate_block_run s n a r :
  file_inv s a -> has_map s n a -> (r < 6)%nat ->
  exists s', truncate_block n (Z.of_nat r) s = Ok (tt, s') /\
    shrunk s s' a (<[r := 0]> a) [default 0 (a !! r)] /\
    changed n s s' (<[r := 0]> a) /\ has_map s' n (<[r := 0]> a).
Proof.
  intros Hf Hm Hr. pose proof (fi_len _ _ Hf) as Hla. pose proof (fi_alloc _ _ Hf) as Hpre.
  unfold truncate_block, NUM_DIRECT. replace (Z.of_nat r <? 6) with true by lia. rewrite Nat2Z.id.
  st_run. rewrite (addr_of_run s n a r) by (done || lia).
  destruct (Z.eqb_spec (default 0 (a !! r)) 0) as [Hz|Hnz]; cbn [negb].
  - exists s. destruct (lookup_lt_is_Some_2 a r) as [v Hv]; [lia|]. rewrite Hv in *. cbn in Hz. subst v.
    rewrite list_insert_id by done. split; [done|]. split.
    { apply shrunk_refl; [done|]. intros x Hx. by apply list_elem_of_singleton in Hx. }
    apply changed_same; [done|by apply same_refl, Hpre].
  - assert (Hl : legal (r, [])) by (split_and!; cbn; [lia|lia|constructor]).
    destruct (fi_node _ _ Hf (r, []) Hl Hnz) as (Hrg & Ha & _).
    change (node_at (bview (dev s)) a (r, [])) with (default 0 (a !! r)) in *.
    set (b := default 0 (a !! r)) in *.
    destruct (block_free_run s b (alloc_ready s b Hpre Hrg) Ha) as (s1 & Hrun & Hh & He). rewrite Hrun.
    destruct Hm as (x & Hx & Hax). pose proof He as (E & _).
    assert (Hx1 : cache s1 !! n = Some x) by by rewrite E.
    unfold set_addr, node_of. st_run. rewrite Hx1, Hax, wr_in by lia. unfold set_node. st_run.
    eexists. split; [done|]. split; [apply shrunk_dev; by apply free_direct|]. split.
    + unfold changed. rewrite E. done.
    + exists (with_addrs x (Some (<[r := 0]> a))). cbn [cache]. by rewrite (alter_lookup _ _ n x).
Qed.

Lemma truncate_loop_run s n a fbs k :
  file_inv s a -> has_map s n a -> (fbs + k <= 6)%nat ->
  exists s', truncate_loop n (Z.of_nat fbs) k s = Ok (tt, s') /\
    shrunk s s' a (zeroed a fbs k) (take k (drop fbs a)) /\
    changed n s s' (zeroed a fbs k) /\ has_map s' n (zeroed a fbs k).
Proof.
  revert s a fbs. induction k as [|k IH]; intros s a fbs Hf Hm Hk; cbn [truncate_loop zeroed].
  - exists s. st_run. split; [done|]. rewrite take_0. split.
    + apply shrunk_refl; [done|]. intros x Hx. by apply elem_of_nil in Hx.
    + apply changed_same; [done|]. apply same_refl, (fi_alloc _ _ Hf).
  - destruct (truncate_block_run s n a fbs Hf Hm ltac:(lia)) as (s1 & Hrun & H1 & C1 & M1).
    destruct (IH s1 (<[fbs := 0]> a) (Datatypes.S fbs)) as (s2 & Hrun2 & H2 & C2 & M2); [apply H1|done|lia|].
    exists s2. split.
    { st_run. rewrite Hrun. replace (Z.of_nat fbs + 1) with (Z.of_nat (Datatypes.S fbs)) by lia. done. }
    split; [|split; [by eapply changed_trans|done]].
    pose proof (fi_len _ _ Hf) as Hla. destruct (lookup_lt_is_Some_2 a fbs) as [v Hv]; [lia|].
    rewrite (drop_S a v fbs Hv). cbn [take]. change (v :: ?l) with ([v] ++ l).
    replace v with (default 0 (a !! fbs)) by by rewrite Hv.
    eapply shrunk_trans; [exact H1|]. by rewrite drop_insert_lt in H2 by lia.
Qed.

(** The bytes below the truncation are kept. *)
Lemma shrunk_bytes s s' a fbs k len l :
  file_inv s a -> shrunk s s' a (zeroed a fbs k) l -> len = Z.of_nat fbs * BLOCK_SIZE ->
  (fbs + k <= 6)%nat -> covered (bview (dev s)) a 0 len ->
  fbytes (bview (dev s')) (zeroed a fbs k) 0 len = fbytes (bview (dev s)) a 0 len /\
  covered (bview (dev s')) (zeroed a fbs k) 0 len.
Proof.
  intros Hf Hs Hlen Hk Hc. pose proof (fi_len _ _ Hf) as Hla.
  assert (Hpath : forall j, 0 <= j < len -> exists r, (r < fbs)%nat /\ path (j / BLOCK_SIZE) = (r, [])).
  { intros j Hj. subst len. unfold BLOCK_SIZE in *. exists (Z.to_nat (j / 512)).
    assert (0 <= j / 512 < Z.of_nat fbs) by (split; [apply Z.div_pos|apply Z.div_lt_upper_bound]; lia).
    split; [lia|]. unfold path, NUM_DIRECT. by replace (j / 512 <? 6) with true by lia. }
  assert (Hnode : forall j, 0 <= j < len -> node_at (bview (dev s')) (zeroed a fbs k) (path (j / BLOCK_SIZE)) =
    node_at (bview (dev s)) a (path (j / BLOCK_SIZE))).
  { intros j Hj. destruct (Hpath j Hj) as (r & Hr & ->). unfold node_at. cbn [fst snd walk].
    by rewrite lookup_zeroed, decide_False by lia. }
  split.
  - apply fbytes_ext. intros j Hj. unfold fbyte. rewrite Hnode by lia.
    destruct (Hpath j ltac:(lia)) as (r & Hr & Hp). pose proof (Hc j ltac:(lia)) as Hn. rewrite Hp in *.
    assert (Hl : legal (r, [])) by (split_and!; cbn; [lia|lia|constructor]).
    destruct (fi_node _ _ Hf _ Hl Hn) as (_ & _ & Hv & Hbm & _). by rewrite (sk_view _ _ _ _ _ Hs).
  - intros j Hj. rewrite Hnode by lia. by apply Hc.
Qed.

Lemma inode_ok_shrunk s s' a a' l inum :
  (forall x, x ∈ l -> in_tree s a x) -> shrunk s s' a a' l -> inode_ok s a inum -> inode_ok s' a' inum.
Proof.
  intros Hl Hs [H1 H2 H3 H4 H5 H6]. pose proof (sk_super _ _ _ _ _ Hs) as Hsup.
  assert (Hib : inode_blk s' inum = inode_blk s inum) by (unfold inode_blk; by rewrite Hsup).
  pose proof (super_num _ _ Hsup) as Hnb. constructor; rewrite ?Hib, ?Hnb.
  - done.
  - by apply (sk_valid _ _ _ _ _ Hs).
  - rewrite (sk_bits _ _ _ _ _ Hs), H3 by lia. rewrite bool_decide_false; [done|].
    intros [_ Hin]. by apply H5, Hl.
  - intros x Hx. rewrite (super_bm s s') by done. auto.
  - intros Ht. apply H5. apply (sk_tree _ _ _ _ _ Hs); [lia|done].
  - rewrite (sk_held _ _ _ _ _ Hs). done.
Qed.

(** The result of [cofs_truncate]: [freed] are the addresses it clears. *)
Record truncated (s s' : fs) (n : nat) (x : fs_node) (a a' freed : list Z) (len : Z) : Prop := {
  tr_ok : file_ok s' n (with_size (with_addrs x (Some a')) len) a';
  tr_contents : contents s' (with_size (with_addrs x (Some a')) len) a' =
    take (Z.to_nat len) (contents s x a);
  tr_bits : forall b, 0 <= b < num_bits s ->
    allocated s' b = (allocated s b && negb (bool_decide (b <> 0 /\ b ∈ freed)))%bool;
  tr_inode : exists i, node_to_inode (with_size (with_addrs x (Some a')) len) = Some i /\
    bview (dev s') (inode_blk s (inode x)) = wr_inode (bview (dev s) (inode_blk s (inode x))) (inode x) i;
  tr_frame : forall z, elsewhere s a (inode x) z -> bview (dev s') z = bview (dev s) z;
  tr_nodes : forall m, m <> n -> cache s' !! m = cache s !! m
}.

Lemma fbytes_take V a len size0 :
  0 <= len <= size0 -> take (Z.to_nat len) (fbytes V a 0 size0) = fbytes V a 0 len.
Proof.
  intros Hl. replace size0 with (len + (size0 - len)) at 1 by lia.
  rewrite <- fbytes_app by lia. apply take_app_length'. by rewrite length_fbytes.
Qed.

Lemma shrunk_truncated s s1 s2 n x a fbs k len i :
  file_ok s n x a -> inode_ok s a (inode x) -> 0 <= len <= size x -> len = Z.of_nat fbs * BLOCK_SIZE ->
  (fbs + k <= 6)%nat ->
  let a' := zeroed a fbs k in let x1 := with_addrs x (Some a') in
  shrunk s s1 a a' (take k (drop fbs a)) -> changed n s s1 a' -> inode_ok s1 a' (inode x) ->
  node_to_inode (with_size x1 len) = Some i ->
  cache s2 = alter (fun x => with_size x len) n (cache s1) -> superb s2 = superb s1 ->
  bheld (dev s2) = bheld (dev s1) ->
  eff (set_nth s1 n (fun x => with_size x len) (dev s1)) s2
    (upd_view (bview (dev s1)) (inode_blk s1 (inode x))
       (wr_inode (bview (dev s1) (inode_blk s1 (inode x))) (inode x) i)) ->
  truncated s s2 n x a a' (take k (drop fbs a)) len.
Proof.
  intros Hf Hio Hlen Hfbs Hk a' x1 Hs (Hca & _ & _) Hio1 Hi Hc2 Hs2 Hh2 He.
  pose proof (fo_inv _ _ _ _ Hf) as Hfi. pose proof (fo_size _ _ _ _ Hf) as Hsz.
  destruct (shrunk_bytes s s1 a fbs k len _ Hfi Hs Hfbs Hk) as [Hb Hc].
  { intros j Hj. apply (fo_covered _ _ _ _ Hf). lia. }
  fold a' in Hb, Hc. pose proof (sk_super _ _ _ _ _ Hs) as Hsup1.
  assert (Hib : inode_blk s1 (inode x) = inode_blk s (inode x)) by (unfold inode_blk; by rewrite Hsup1).
  set (t := set_nth s1 n (fun x => with_size x len) (dev s1)) in *.
  assert (Hft : file_inv t a') by (apply file_inv_dev; [apply Hs|done]).
  destruct (quiet_write t s2 a' (inode_blk s1 (inode x))
    (wr_inode (bview (dev s1) (inode_blk s1 (inode x))) (inode x) i)) as (_ & _ & Hal); try done.
  { apply (io_bm _ _ _ Hio1). }
  { intros r l j Hl _ Heq. apply (io_tree _ _ _ Hio1). exists (r, l). by destruct (legal_prefix _ _ _ Hl). }
  destruct (outside_write t s2 a' (inode_blk s1 (inode x))
    (wr_inode (bview (dev s1) (inode_blk s1 (inode x))) (inode x) i)) as (Hf2 & Hnode & Hbyte); try done.
  { apply (io_bm _ _ _ Hio1). }
  { apply (io_tree _ _ _ Hio1). }
  change (dev t) with (dev s1) in *. pose proof He as (_ & _ & _ & HV). change (dev t) with (dev s1) in HV.
  pose proof (super_num _ _ Hsup1) as Hnb1. constructor.
  - constructor; [|done|done|cbn; lia|].
    + rewrite Hc2, (alter_lookup _ _ n x1); [done|]. rewrite Hca, (alter_lookup _ _ n x); [done|apply Hf].
    + cbn [size with_size]. intros j Hj. pose proof (path_leaf _ (fbn_range j ltac:(lia))) as [Hl _].
      rewrite Hnode by done. by apply Hc.
  - unfold contents. cbn [size with_size]. rewrite fbytes_take, <- Hb by lia. apply fbytes_ext.
    intros j Hj. apply Hbyte; [lia|by apply Hc].
  - intros b Hr. rewrite Hal by (change (num_bits t) with (num_bits s1); lia).
    change (allocated t b) with (allocated s1 b). by apply (sk_bits _ _ _ _ _ Hs).
  - exists i. split; [done|]. rewrite <- Hib. rewrite HV by apply (io_valid _ _ _ Hio1).
    unfold upd_view. rewrite decide_True by done. f_equal. rewrite Hib.
    apply (sk_view _ _ _ _ _ Hs); apply Hio.
  - intros z (Hz & Hv & Ha & Hbm & Ht & Hne). rewrite HV by by apply (sk_valid _ _ _ _ _ Hs).
    unfold upd_view. rewrite decide_False by congruence. by apply (sk_view _ _ _ _ _ Hs).
  - intros m Hm. rewrite Hc2, list_lookup_alter_ne, Hca by done. by apply list_lookup_alter_ne.
Qed.

(** C4: [cofs_truncate] of a file that uses direct blocks only.  A length
    that exceeds the size or is no multiple of the block size fails an
    assertion.  Otherwise the file keeps its first [length] bytes, exactly the
    blocks from there on are released in the bitmap, their addresses are
    cleared, the new size and addresses reach the inode table, and no other
    block changes. *)
Theorem cofs_truncate_spec s n x a len :
  file_ok s n x a -> inode_ok s a (inode x) -> size x < NUM_DIRECT * BLOCK_SIZE -> 0 <= len ->
  if ((len <=? size x) && (len mod BLOCK_SIZE =? 0))%bool then
    let fbs := Z.to_nat (len / BLOCK_SIZE) in
    let k := (Z.to_nat (size x / BLOCK_SIZE + 1) - fbs)%nat in
    exists s', cofs_truncate n len s = Ok (len, s') /\
      truncated s s' n x a (zeroed a fbs k) (take k (drop fbs a)) len
  else cofs_truncate n len s = Err EAssert.
Proof.
  intros Hf Hio Hsz Hl. unfold cofs_truncate, node_of. st_run. rewrite (fo_node _ _ _ _ Hf). cbn beta iota.
  destruct (len <=? size x) eqn:E1; [|done]. destruct (len mod BLOCK_SIZE =? 0) eqn:E2; [|done].
  cbn [andb]. to_prop. set (fbs := Z.to_nat (len / BLOCK_SIZE)).
  set (k := (Z.to_nat (size x / BLOCK_SIZE + 1) - fbs)%nat).
  unfold NUM_DIRECT in Hsz. assert (Hq : 0 <= len / BLOCK_SIZE <= size x / BLOCK_SIZE).
  { unfold BLOCK_SIZE in *. split; [apply Z.div_pos; lia|apply Z.div_le_mono; lia]. }
  assert (Hq6 : size x / BLOCK_SIZE < 6) by (unfold BLOCK_SIZE in *; apply Z.div_lt_upper_bound; lia).
  replace (len / BLOCK_SIZE) with (Z.of_nat fbs) by lia.
  replace (Z.to_nat (size x / BLOCK_SIZE + 1 - Z.of_nat fbs)) with k by lia.
  pose proof (fo_inv _ _ _ _ Hf) as Hfi. pose proof (fi_len _ _ Hfi) as Hla.
  destruct (truncate_loop_run s n a fbs k Hfi (fo_map _ _ _ _ Hf)) as (s1 & Hrun & Hs & Hch & Hm1); [lia|].
  st_run. rewrite Hrun. set (a' := zeroed a fbs k) in *.
  assert (Hx1 : cache s1 !! n = Some (with_addrs x (Some a'))).
  { destruct Hch as (-> & _). rewrite (alter_lookup _ _ n x); [done|apply Hf]. }
  assert (Hio1 : inode_ok s1 a' (inode x)).
  { apply (inode_ok_shrunk s s1 a a' (take k (drop fbs a))); [|done|done].
    intros y (j & Hj)%list_elem_of_lookup. apply lookup_take_Some in Hj as [Hj Hjk].
    rewrite lookup_drop in Hj. exists ((fbs + j)%nat, []).
    split; [split_and!; cbn; [lia|lia|constructor]|]. unfold node_at. cbn. by rewrite Hj. }
  destruct (resize_run s1 n _ a' len Hx1 eq_refl (sk_inv _ _ _ _ _ Hs) Hio1) as
    (s2 & i & Hr & Hn & Hli & Hc2 & Hs2 & Hl2 & Hd2 & Hh2 & He).
  revert Hr. st_run. unfold set_node. st_run. intros ->. exists s2. split.
  { rewrite s32_small; [done|]. unfold BLOCK_SIZE in *. lia. }
  apply (shrunk_truncated s s1 s2 n x a fbs k len i); try done; try lia.
  unfold fbs, BLOCK_SIZE in *. pose proof (Z.div_mod len 512). lia.
Qed.
End RW.

(** ** A file with five bytes in block 6 *)
Definition demo_disk : gmap Z (list Z) :=
  <[2 := splice HdQueue.zero_block 0 [127]]>
  (<[6 := splice HdQueue.zero_block 0 [104; 101; 108; 108; 111]]> small_disk).
Definition demo_addrs : list Z := [6; 0; 0; 0; 0; 0; 0; 0; 0].
Definition demo_node : fs_node :=
  Node (replicate 256 0) 0x1A4 0 0 0 0 FS_FILE 0 2 5 1 1 0 0 0 (Some demo_addrs) 1.
Definition demo : Cofs.fs (S:=HdQueue.hdq) := on_disk demo_disk [demo_node].

Lemma demo_blocks b c : demo_disk !! b = Some c -> is_block c.
Proof.
  unfold demo_disk. intros H. do 2 (apply lookup_insert_Some in H as [[_ <-]|[_ H]];
    [split; [reflexivity|apply bytesb_true; vm_compute; exact eq_refl]|]).
  by apply (small_blocks b).
Qed.

Lemma walk_zero V l : walk V 0 l = 0.
Proof. by destruct l. Qed.

Lemma demo_nodes p : legal p -> node_at (bview (dev demo)) demo_addrs p = if decide (p = (0%nat, [])) then 6 else 0.
Proof.
  destruct p as [r l]. intros (Hr & Hl & _). cbn [fst snd] in *. unfold node_at. cbn [fst snd].
  destruct r as [|r].
  - change (depth 0) with 0%nat in Hl. assert (l = []) as -> by (destruct l; [done|cbn in Hl; lia]).
    reflexivity.
  - rewrite decide_False by done.
    do 7 (destruct r as [|r]; [apply walk_zero|]). lia.
Qed.

Lemma demo_inv : file_inv demo demo_addrs.
Proof.
  constructor.
  - reflexivity.
  - apply on_disk_alloc_pre; [exact demo_blocks|]. vm_compute. reflexivity.
  - vm_compute. lia.
  - vm_compute. reflexivity.
  - intros p Hp. rewrite demo_nodes by done. case_decide; [|done]. intros _. cbn zeta.
    change (num_bits demo) with 4096. split; [lia|]. split; [vm_compute; reflexivity|].
    split; [apply on_disk_valid; lia|].
    split; [intros x Hx; unfold demo; rewrite on_disk_bitmap by done; lia|]. intros h. apply on_disk_not_held.
  - intros p q Hp Hq. rewrite !demo_nodes by done. repeat case_decide; congruence.
Qed.

Lemma demo_ok : file_ok demo 0 demo_node demo_addrs.
Proof.
  constructor; [done|done|apply demo_inv|rewrite max_bytes_val; cbn; lia|].
  intros k Hk. cbn [size demo_node] in Hk. unfold BLOCK_SIZE. rewrite Z.div_small by lia. vm_compute. discriminate.
Qed.

Lemma demo_inode_ok : inode_ok demo demo_addrs (inode demo_node).
Proof.
  change (inode demo_node) with 2. assert (Hb : inode_blk demo 2 = 3) by (vm_compute; reflexivity).
  constructor; rewrite ?Hb.
  - change (num_bits demo) with 4096. lia.
  - apply on_disk_valid. lia.
  - vm_compute. reflexivity.
  - intros x Hx. unfold demo. rewrite on_disk_bitmap by exact Hx. lia.
  - intros (q & Hq & Hn). rewrite demo_nodes in Hn by done. by case_decide.
  - intros h. apply on_disk_not_held.
Qed.

Lemma demo_free k : (k <= 30)%nat -> has_free demo k.
Proof.
  intros Hk. exists (Z.of_nat <$> seq 10 30). split; [|split].
  - apply NoDup_fmap_2; [apply _|apply NoDup_seq].
  - rewrite length_fmap, length_seq. done.
  - intros x Hx. apply list_elem_of_fmap in Hx as (i & -> & Hi%elem_of_seq).
    split; [change (num_bits demo) with 4096; lia|].
    assert (Hall : forallb (fun i => negb (allocated demo (Z.of_nat i))) (seq 10 30) = true) by (vm_compute; reflexivity).
    apply negb_true_iff. apply (proj1 (forallb_forall _ _) Hall). apply in_seq. lia.
Qed.

Definition new_data : list Z := replicate 600 7.
Lemma new_data_bytes : Forall is_byte new_data.
Proof. apply bytesb_true. vm_compute. reflexivity. Qed.

Lemma cofs_read_spec_witness :
  (let count := if size demo_node <? 1 then 0 else Z.min 10 (size demo_node - 1) in
   exists s', cofs_read 0 1 10 (replicate 10 0) demo =
      Ok (count, splice (replicate 10 0) 0 (take (Z.to_nat count) (drop (Z.to_nat 1) (contents demo demo_node demo_addrs))), s') /\
    same demo s') /\
  take 4 (drop 1 (contents demo demo_node demo_addrs)) = [101; 108; 108; 111].
Proof.
  split; [|vm_compute; reflexivity].
  apply (cofs_read_spec demo 0 demo_node demo_addrs 1 10 (replicate 10 0)); [apply demo_ok|lia|lia|lia|].
  vm_compute. lia.
Defined.

Lemma cofs_write_spec_witness :
  if ((size demo_node <? 5) || (MAX_FILE_SIZE_times_BLOCK_SIZE <? 5 + 600))%bool
  then cofs_write 0 5 600 new_data demo = Ok (0, demo)
  else exists s' a', cofs_write 0 5 600 new_data demo = Ok (600, s') /\
    written demo s' 0 demo_node demo_addrs a' 5 (take (Z.to_nat 600) new_data).
Proof.
  apply (cofs_write_spec demo 0 demo_node demo_addrs 5 600 new_data);
    [apply demo_ok|apply demo_inode_ok|lia|lia|lia|apply new_data_bytes| |].
  - vm_compute. lia.
  - apply demo_free. vm_compute. lia.
Defined.

Lemma cofs_write_read_witness :
  exists s1 s2, cofs_write 0 5 600 new_data demo = Ok (600, s1) /\
    cofs_read 0 5 600 (replicate 600 0) s1 = Ok (600, take (Z.to_nat 600) new_data, s2).
Proof.
  apply (cofs_write_read demo 0 demo_node demo_addrs 5 600 new_data (replicate 600 0));
    [apply demo_ok|apply demo_inode_ok|cbn; lia|lia|vm_compute; discriminate|apply new_data_bytes| | |reflexivity].
  - vm_compute. lia.
  - apply demo_free. vm_compute. lia.
Defined.

Lemma block_map_spec_witness :
  exists b s' a', block_map 0 200 demo = Ok (b, s') /\ b <> 0 /\
    grown demo s' demo_addrs a' /\ has_map s' 0 a' /\ changed 0 demo s' a' /\ has_free s' 5 /\
    node_at (bview (dev s')) a' (path 200) = b /\
    (node_at (bview (dev demo)) demo_addrs (path 200) <> 0 -> same demo s' /\ a' = demo_addrs).
Proof.
  apply (block_map_spec demo 0 demo_addrs 200 5).
  - apply demo_inv.
  - exists demo_node. split; reflexivity.
  - vm_compute. split; [discriminate|reflexivity].
  - apply demo_free. lia.
Defined.

Lemma cofs_truncate_spec_witness :
  if ((0 <=? size demo_node) && (0 mod BLOCK_SIZE =? 0))%bool then
    let fbs := Z.to_nat (0 / BLOCK_SIZE) in
    let k := (Z.to_nat (size demo_node / BLOCK_SIZE + 1) - fbs)%nat in
    exists s', cofs_truncate 0 0 demo = Ok (0, s') /\
      truncated demo s' 0 demo_node demo_addrs (zeroed demo_addrs fbs k) (take k (drop fbs demo_addrs)) 0
  else cofs_truncate 0 0 demo = Err EAssert.
Proof.
  apply (cofs_truncate_spec demo 0 demo_node demo_addrs 0);
    [apply demo_ok|apply demo_inode_ok|vm_compute; reflexivity|lia].
Defined.

(** ** Where the code leaves its intent *)

(** The number of blocks [cofs_truncate] visits is [size / 512 + 1] also for a
    size that is a multiple of 512: for a file of 3072 bytes, whose six direct
    blocks are full, it goes on to the indirect block, which does not exist.
    It takes block 0 for it, overwrites its first word, frees the block that
    this word names, and panics when it frees block 0 once more. *)
Definition write_then_truncate (sz : Z) : st (Cofs.fs (S:=HdQueue.hdq)) Z :=
  cofs_write 0 0 sz (replicate (Z.to_nat sz) 7);; cofs_truncate 0 0.

Lemma truncate_full_direct :
  (exists s, write_then_truncate 3071 demo = Ok (0, s)) /\
  write_then_truncate 3072 demo = Err EPanic.
Proof. split; [eexists|]; vm_compute; reflexivity. Qed.

(** [offset + size] wraps: a read of 2^32 - 1 bytes at offset 1 is not cut at
    the end of the file of 5 bytes, so it runs over a buffer that has room for
    all of them, while a read of 1022 bytes returns the 4 bytes that are left. *)
Lemma read_size_wraps :
  cofs_read 0 1 (2 ^ 32 - 1) (replicate 8 0) demo = Err EOob /\
  exists s, cofs_read 0 1 1022 (replicate 8 0) demo =
    Ok (4, splice (replicate 8 0) 0 [101; 108; 108; 111], s).
Proof. split; [|eexists]; vm_compute; reflexivity. Qed.
End CofsRW.
