(* ===== verification/Path.v ===== *)
(** * Path names (src/bname.c, src/canonize.c)

    Splitting a path into directory and base name, and cleaning a path in
    place.  A path is the list of cells of its object. *)
From S2P Require Import Prelude CString.

Module Path.
Local Open Scope nat_scope.

Definition SLASH : Z := 47.
Definition DOT : Z := 46.
Definition MAX_PATH_LEN : Z := 512.

(** ** bname *)

(** [for (p = path + len; p > path; p--) if ( *p == '/') break;] *)
Fixpoint last_slash (path : list Z) (p : nat) : res nat :=
  match p with
  | O => Ok 0
  | S p' => c ← rd path p; if (c =? SLASH)%Z then Ok p else last_slash path p'
  end.

Definition bname (path dirname basename : list Z) : res (list Z * list Z) :=
  len ← strlen (Some path);
  let len := Z.to_nat len in
  p ← last_slash path len;
  c ← rd path p;
  let p := if (c =? SLASH)%Z then S p else p in
  rassert (Z.of_nat p <=? MAX_PATH_LEN)%Z;;
  d ← strncpy dirname path p;
  d ← wr d p 0%Z;
  d ← (if 1 <? p
       then c ← rd d (p - 1); if (c =? SLASH)%Z then wr d (p - 1) 0%Z else Ok d
       else Ok d);
  rassert (Z.of_nat len - Z.of_nat p <=? MAX_PATH_LEN)%Z;;
  b ← strncpy basename (drop p path) (len - p);
  b ← wr b (len - p) 0%Z;
  Ok (d, b).

(** ** clean_path *)

(** [while (i < len && path[i] == '/') i++;] *)
Fixpoint skip_slashes (fuel : nat) (path : list Z) (i len : nat) : res nat :=
  match fuel with
  | O => Err EFuel
  | S f =>
      if i <? len
      then c ← rd path i; if (c =? SLASH)%Z then skip_slashes f path (S i) len else Ok i
      else Ok i
  end.

(** [while (j > 1 && path[j - 1] != '/') j--;] *)
Fixpoint back_up (path : list Z) (j : nat) : res nat :=
  match j with
  | O => Ok j
  | S j' =>
      if j' =? 0 then Ok j
      else c ← rd path j'; if (c =? SLASH)%Z then Ok j else back_up path j'
  end.

(** [i == len || path[i] == '/'] *)
Definition at_end (path : list Z) (i len : nat) : res bool :=
  if i =? len then Ok true else c ← rd path i; Ok (c =? SLASH)%Z.

(** The tests for the components [.] and [..] after the slashes; [Some (i, j)]
    when the iteration ends in one of their [continue]s. *)
Definition dot_component (path : list Z) (i j len : nat) : res (option (nat * nat)) :=
  if i <? len then
    c ← rd path i;
    if (c =? DOT)%Z then
      e ← at_end path (i + 1) len;
      if (e : bool) then Ok (Some (i, j))
      else
        c ← rd path (i + 1);
        if (c =? DOT)%Z then
          e ← at_end path (i + 2) len;
          if (e : bool) then
            let i := i + 2 in
            j ← (if 1 <? j then c ← rd path j; Ok (if (c =? SLASH)%Z then j - 1 else j) else Ok j);
            j ← back_up path j;
            j ← (if (i + 1 =? len) && (1 <? j)
                 then c ← rd path (j - 1); Ok (if (c =? SLASH)%Z then j - 1 else j) else Ok j);
            Ok (Some (i, j))
          else Ok None
        else Ok None
    else Ok None
  else Ok None.

(** The end of an iteration: copying a character. *)
Definition copy_char (path : list Z) (i j : nat) : res (list Z * nat) :=
  rassert (j <=? i);;
  c ← rd path i;
  p ← wr path j c;
  Ok (p, S j).

Fixpoint clean_loop (fuel : nat) (path : list Z) (i j len : nat) : res (list Z * nat) :=
  match fuel with
  | O => Err EFuel
  | S f =>
      if (i <? len) && (j <? len)
      then
        c ← rd path i;
        if (c =? SLASH)%Z
        then
          i ← skip_slashes (S len) path i len;
          r ← dot_component path i j len;
          match r with
          | Some (i, j) => clean_loop f path (S i) j len
          | None =>
              rassert (j <=? i);;
              '(path, j) ← (if (i <? len) || (j =? 0)
                            then p ← wr path j SLASH; Ok (p, S j) else Ok (path, j));
              if j =? len then Ok (path, j)
              else '(path, j) ← copy_char path i j; clean_loop f path (S i) j len
          end
        else '(path, j) ← copy_char path i j; clean_loop f path (S i) j len
      else Ok (path, j)
  end.

Definition clean_path (path : list Z) : res (list Z) :=
  len ← strlen (Some path);
  let len := Z.to_nat len in
  '(path, j) ← clean_loop (S len) path 0 0 len;
  let j := if j =? 0 then S j else j in
  path ← wr path j 0%Z;
  j ← (if 1 <? j then c ← rd path (j - 1); Ok (if (c =? SLASH)%Z then j - 1 else j) else Ok j);
  path ← wr path j 0%Z;
  rassert (j <=? len);;
  rassert (0 <? j);;
  Ok path.

Definition canonize_path (malloc : Z -> list Z) (prefix path : list Z) : res (list Z) :=
  c ← rd path 0;
  p ← (if (c =? SLASH)%Z then strdup malloc path
       else
         c ← rd prefix 0;
         if negb (c =? SLASH)%Z then Err EPanic
         else
           n ← strlen (Some prefix);
           m ← strlen (Some path);
           p ← strcpy (malloc (n + m + 2)%Z) prefix;
           p ← strcat p [SLASH; 0%Z];
           strcat p path);
  clean_path p.

(** ** Paths as lists of components *)
Definition enc (cs : list (list Z)) : list Z := cs ≫= (fun c => SLASH :: c).
Definition component (c : list Z) : Prop := Forall nzb c /\ SLASH ∉ c.
Definition plain (c : list Z) : Prop := component c /\ c <> [DOT; DOT].
Definition kept (cs : list (list Z)) : list (list Z) :=
  filter (fun c => c <> [] /\ c <> [DOT]) cs.
(** The clean form of a path. *)
Definition normal (cs : list (list Z)) : list Z :=
  match kept cs with [] => [SLASH] | l => enc l end.

Lemma enc_cons c cs : enc (c :: cs) = SLASH :: c ++ enc cs.
Proof. done. Qed.

Lemma enc_app cs ds : enc (cs ++ ds) = enc cs ++ enc ds.
Proof. apply bind_app. Qed.

Lemma kept_length cs : length (enc (kept cs)) <= length (enc cs).
Proof.
  induction cs as [|c cs IH]; [done|]. unfold kept in *. rewrite filter_cons.
  case_decide; rewrite !enc_cons; cbn; rewrite !length_app; lia.
Qed.

Lemma enc_nzb cs : Forall component cs -> Forall nzb (enc cs).
Proof.
  induction 1 as [|c cs [Hc _] _ IH]; [done|]. rewrite enc_cons. constructor; [unfold nzb, SLASH; lia|].
  by apply Forall_app.
Qed.

(** ** Lemmas *)
Lemma drop_cons_inv {A} i (l : list A) x r : drop i l = x :: r -> l !! i = Some x /\ drop (S i) l = r.
Proof.
  intros Hd. assert (Hx : l !! i = Some x) by (rewrite <- (Nat.add_0_r i), <- lookup_drop, Hd; done).
  split; [done|]. rewrite (drop_S l x i Hx) in Hd. congruence.
Qed.

Lemma drop_app_inv {A} i (l a r : list A) : drop i l = a ++ r -> drop (i + length a) l = r.
Proof. intros Hd. rewrite <- drop_drop, Hd. apply drop_app_length. Qed.

Lemma rd_at {A} (l : list A) i x r : drop i l = x :: r -> rd l i = Ok x.
Proof. intros [Hx _]%drop_cons_inv. by apply rd_Ok. Qed.

Lemma take_insert_snoc {A} (l : list A) j x :
  j < length l -> take (S j) (<[j := x]> l) = take j l ++ [x].
Proof.
  intros Hj. rewrite (take_S_r _ _ x) by by apply list_lookup_insert_eq.
  by rewrite take_insert_ge by lia.
Qed.

Lemma kept_empties k cs : kept (replicate k [] ++ cs) = kept cs.
Proof.
  unfold kept. rewrite filter_app. replace (filter _ (replicate k [])) with (@nil (list Z)); [done|].
  induction k as [|k IH]; [done|]. cbn [replicate]. rewrite filter_cons_False; [done|]. by intros [? _].
Qed.

Lemma length_enc_empties k cs : length (enc (replicate k [] ++ cs)) = k + length (enc cs).
Proof. induction k as [|k IH]; [done|]. cbn [replicate app]. rewrite enc_cons. cbn. by rewrite IH. Qed.

Lemma skip_spec f path i len cs r :
  drop i path = enc cs ++ 0%Z :: r -> len = i + length (enc cs) -> length (enc cs) < f ->
  Forall component cs ->
  exists k cs1, cs = replicate k [] ++ cs1 /\
    match cs1 with
    | [] => i + k = len /\ skip_slashes f path i len = Ok len
    | c :: _ => c <> [] /\ skip_slashes f path i len = Ok (i + k + 1)
    end.
Proof.
  revert i f. induction cs as [|c cs IH]; intros i f Hd Hlen Hf Hc.
  - destruct f as [|f]; [lia|]. cbn in Hlen. exists 0, []. split; [done|]. split; [lia|].
    cbn [skip_slashes]. replace (i <? len) with false by (symmetry; apply Nat.ltb_ge; lia). f_equal. lia.
  - rewrite enc_cons in *. cbn [length app] in *. rewrite length_app in *.
    destruct f as [|f]; [lia|]. cbn [skip_slashes].
    replace (i <? len) with true by (symmetry; apply Nat.ltb_lt; lia).
    destruct (drop_cons_inv _ _ _ _ Hd) as [_ Hd']. rewrite (rd_at _ _ _ _ Hd). cbn [mbind res_bind].
    rewrite Z.eqb_refl. apply Forall_cons in Hc as [[Hc1 Hc2] Hcs]. destruct c as [|x c].
    + destruct (IH (S i) f) as (k & cs1 & -> & Hk); [done|cbn in *; lia|cbn in *; lia|done|].
      exists (S k), cs1. split; [done|]. destruct cs1.
      * destruct Hk. split; [lia|done].
      * destruct Hk as [? ->]. split; [done|]. f_equal. lia.
    + exists 0, ((x :: c) :: cs). split; [done|]. split; [done|]. destruct f as [|f]; [cbn in *; lia|].
      cbn [skip_slashes]. replace (S i <? len) with true by (symmetry; apply Nat.ltb_lt; cbn in *; lia).
      rewrite (rd_at _ _ _ _ Hd'). cbn [mbind res_bind].
      rewrite (proj2 (Z.eqb_neq x SLASH)); [f_equal; lia|]. intros ->. apply Hc2. by left.
Qed.

Lemma at_end_true path i len cs r :
  drop i path = enc cs ++ 0%Z :: r -> len = i + length (enc cs) -> at_end path i len = Ok true.
Proof.
  intros Hd Hlen. unfold at_end. destruct (Nat.eqb_spec i len); [done|].
  destruct cs as [|c cs]; [cbn in Hlen; lia|]. rewrite enc_cons in Hd.
  by rewrite (rd_at _ _ _ _ Hd).
Qed.

Lemma at_end_false path i len x r :
  drop i path = x :: r -> i < len -> x <> SLASH -> at_end path i len = Ok false.
Proof.
  intros Hd Hlen Hx. unfold at_end. replace (i =? len) with false by (symmetry; apply Nat.eqb_neq; lia).
  rewrite (rd_at _ _ _ _ Hd). cbn. by rewrite (proj2 (Z.eqb_neq _ _) Hx).
Qed.

(** In front of a component other than [..]. *)
Lemma dot_component_spec path i j len c cs r :
  plain c -> c <> [] -> drop i path = c ++ enc cs ++ 0%Z :: r -> len = i + length (c ++ enc cs) ->
  dot_component path i j len = Ok (if decide (c = [DOT]) then Some (i, j) else None).
Proof.
  intros [[_ Hs] Hdd] Hne Hd Hlen. unfold dot_component.
  destruct c as [|x c]; [done|]. cbn [app length] in *.
  replace (i <? len) with true by (symmetry; apply Nat.ltb_lt; lia).
  destruct (drop_cons_inv _ _ _ _ Hd) as [_ Hd1]. rewrite (rd_at _ _ _ _ Hd). cbn [mbind res_bind].
  destruct (Z.eqb_spec x DOT) as [->|Hx]; [|rewrite decide_False; [done|congruence]].
  replace (i + 1) with (S i) by lia. apply not_elem_of_cons in Hs as [_ Hs].
  destruct c as [|y c]; cbn [app length] in *.
  - rewrite (at_end_true path (S i) len cs r) by (done || lia). cbn [mbind res_bind].
    by rewrite decide_True by done.
  - rewrite decide_False by done. apply not_elem_of_cons in Hs as [Hy Hs].
    rewrite (at_end_false path (S i) len y _ Hd1) by (try congruence; lia). cbn [mbind res_bind].
    rewrite (rd_at _ _ _ _ Hd1). cbn [mbind res_bind].
    destruct (Z.eqb_spec y DOT) as [->|]; [|done]. replace (i + 2) with (S (S i)) by lia.
    destruct (drop_cons_inv _ _ _ _ Hd1) as [_ Hd2].
    destruct c as [|z c]; cbn [app length] in *; [done|]. apply not_elem_of_cons in Hs as [Hz Hs].
    rewrite (at_end_false path (S (S i)) len z _ Hd2) by (try congruence; lia). done.
Qed.

(** The state of the loop of [clean_path]: the rest of the component at [i]
    is [c], then come [cs]; [out] is the output so far. *)
Record at_head (path : list Z) (i j len : nat) (out c : list Z) (cs : list (list Z)) (r : list Z) : Prop := {
  hd_rest : drop i path = c ++ enc cs ++ 0%Z :: r;
  hd_len : len = i + length (c ++ enc cs);
  hd_comp : SLASH ∉ c;
  hd_plain : Forall plain cs;
  hd_le : j <= i;
  hd_out : take j path = out;
  hd_first : path !! 0 = Some SLASH;
  hd_in : c <> [] -> 0 < j
}.

(** What the loop leaves: the clean path, perhaps with a terminator already. *)
Definition cleaned (n : nat) (o : list Z) (path' : list Z) (j' len : nat) : Prop :=
  length path' = n /\ path' !! 0 = Some SLASH /\ j' <= len /\
  (take j' path' = o \/ take j' path' = (if decide (o = []) then [SLASH] else o) ++ [0%Z] \/
   (o = [] /\ take j' path' = [SLASH])).

Lemma hd_room path i j len out c cs r :
  at_head path i j len out c cs r -> length path = len + S (length r).
Proof.
  intros H. pose proof (hd_rest _ _ _ _ _ _ _ _ H) as Hd. pose proof (hd_len _ _ _ _ _ _ _ _ H).
  assert (Hl : length (drop i path) = length (c ++ enc cs) + S (length r))
    by (rewrite Hd, !length_app; cbn; lia).
  rewrite length_drop in Hl. lia.
Qed.

(** Copying one character. *)
Lemma head_copy path i j len out x c cs r :
  at_head path i j len out (x :: c) cs r ->
  copy_char path i j = Ok (<[j := x]> path, S j) /\
  at_head (<[j := x]> path) (S i) (S j) len (out ++ [x]) c cs r.
Proof.
  intros H. pose proof (hd_room _ _ _ _ _ _ _ _ H) as Hroom. destruct H as [Hd Hl Hs Hp Hle Ho H0 Hin].
  cbn [app length] in *. destruct (drop_cons_inv _ _ _ _ Hd) as [Hx Hd'].
  apply not_elem_of_cons in Hs as [_ Hs]. specialize (Hin ltac:(done)). split.
  - unfold copy_char, rassert. rewrite (proj2 (Nat.leb_le _ _) Hle). cbn [mbind res_bind].
    rewrite (rd_at _ _ _ _ Hd). cbn [mbind res_bind]. rewrite wr_in by lia. done.
  - constructor; try done; [by rewrite drop_insert_lt by lia|lia|lia| | |lia].
    + rewrite take_insert_snoc by lia. by rewrite Ho.
    + rewrite list_lookup_insert_ne by lia. done.
Qed.

(** Only slashes are left. *)
Lemma clean_trailing f path i j len k r :
  0 < f -> drop i path = enc (replicate k []) ++ 0%Z :: r -> i + k = len -> i < len -> j <= i ->
  path !! 0 = Some SLASH -> length path = len + S (length r) ->
  exists path' j',
    ('(path, j) ← (if (len <? len) || (j =? 0) then p ← wr path j SLASH; Ok (p, S j) else Ok (path, j));
     if j =? len then Ok (path, j)
     else '(path, j) ← copy_char path len j; clean_loop f path (S len) j len) = Ok (path', j') /\
    cleaned (length path) (take j path) path' j' len.
Proof.
  intros Hf Hd Hik Hi Hj H0 Hroom. rewrite Nat.ltb_irrefl. cbn [orb].
  assert (Hstop : forall p q, clean_loop f p (S len) q len = Ok (p, q)).
  { intros p q. destruct f; [lia|]. cbn [clean_loop].
    by replace (S len <? len) with false by (symmetry; apply Nat.ltb_ge; lia). }
  assert (Hend : path !! len = Some 0%Z).
  { apply (drop_app_inv i path (enc (replicate k [])) (0%Z :: r)) in Hd.
    rewrite <- (app_nil_r (replicate k [])), length_enc_empties in Hd. cbn in Hd.
    rewrite Nat.add_0_r, Hik in Hd. by apply drop_cons_inv in Hd as []. }
  destruct (Nat.eqb_spec j 0) as [->|Hj0].
  - rewrite wr_in by lia. cbn [mbind res_bind].
    assert (Hid : <[0 := SLASH]> path = path) by by apply list_insert_id. rewrite Hid.
    assert (H1 : take 1 path = [SLASH]) by by rewrite (take_S_r path 0 SLASH).
    destruct (Nat.eqb_spec 1 len) as [<-|Hne].
    + exists path, 1. split; [done|]. split; [done|]. split; [done|]. split; [lia|]. right. right. done.
    + unfold copy_char, rassert. rewrite (proj2 (Nat.leb_le 1 len)) by lia. cbn [mbind res_bind].
      unfold rd. rewrite Hend. cbn [mbind res_bind]. rewrite wr_in by lia. cbn [mbind res_bind].
      eexists _, 2. split; [apply Hstop|]. split; [by rewrite length_insert|].
      split; [by rewrite list_lookup_insert_ne|]. split; [lia|]. right. left.
      rewrite take_insert_snoc, H1 by lia. done.
  - cbn [mbind res_bind]. replace (j =? len) with false by (symmetry; apply Nat.eqb_neq; lia).
    unfold copy_char, rassert. rewrite (proj2 (Nat.leb_le j len)) by lia. cbn [mbind res_bind].
    unfold rd. rewrite Hend. cbn [mbind res_bind]. rewrite wr_in by lia. cbn [mbind res_bind].
    eexists _, (S j). split; [apply Hstop|]. split; [by rewrite length_insert|].
    split; [by rewrite list_lookup_insert_ne|]. split; [lia|]. right. left.
    rewrite take_insert_snoc by lia. rewrite decide_False; [done|].
    intros Hn. apply (f_equal length) in Hn. rewrite length_take in Hn. cbn in Hn. lia.
Qed.

(** The slash and the first character of an ordinary component. *)
Lemma head_component path i j len out k x c cs r :
  at_head path i j len out [] (replicate k [] ++ (x :: c) :: cs) r ->
  at_head (<[j := SLASH]> path) (i + k + 1) (S j) len (out ++ [SLASH]) (x :: c) cs r.
Proof.
  intros H. pose proof (hd_room _ _ _ _ _ _ _ _ H) as Hroom. destruct H as [Hd Hl Hs Hp Hle Ho H0 Hin].
  cbn [app] in Hd, Hl. rewrite enc_app in Hd, Hl. rewrite length_app in Hl.
  assert (Hk : length (enc (replicate k [])) = k)
    by (rewrite <- (app_nil_r (replicate k [])), length_enc_empties; cbn; lia).
  rewrite Hk in Hl. rewrite <- app_assoc in Hd. apply drop_app_inv in Hd. rewrite Hk in Hd.
  rewrite enc_cons in Hd, Hl. cbn [app length] in Hd, Hl. apply drop_cons_inv in Hd as [_ Hd].
  apply Forall_app in Hp as [_ Hp]. apply Forall_cons in Hp as [[[Hc1 Hc2] _] Hp].
  rewrite <- app_assoc in Hd. cbn [app length] in *. rewrite length_app in Hl. constructor; try done.
  - rewrite drop_insert_lt by lia. replace (i + k + 1) with (S (i + k)) by lia. done.
  - cbn [app length]. rewrite length_app. lia.
  - lia.
  - rewrite take_insert_snoc by lia. by rewrite Ho.
  - destruct j; [|by rewrite list_lookup_insert_ne]. by rewrite list_lookup_insert_eq by lia.
  - lia.
Qed.

Lemma clean_loop_run f path i j len out c cs r :
  at_head path i j len out c cs r -> length (c ++ enc cs) < f ->
  exists path' j', clean_loop f path i j len = Ok (path', j') /\
    cleaned (length path) (out ++ c ++ enc (kept cs)) path' j' len.
Proof.
  revert path i j out c cs. induction f as [|f IH]; intros path i j out c cs H Hf; [lia|].
  pose proof (hd_room _ _ _ _ _ _ _ _ H) as Hroom. pose proof H as [Hd Hl Hs Hp Hle Ho H0 Hin].
  cbn [clean_loop]. destruct c as [|x c]; [destruct cs as [|c0 cs]|].
  - cbn in Hl. replace (i <? len) with false by (symmetry; apply Nat.ltb_ge; lia). cbn [andb].
    exists path, j. split; [done|]. split; [done|]. split; [done|]. split; [lia|]. left.
    by rewrite app_nil_r.
  - cbn [app] in Hd, Hl, Hf. set (cs0 := c0 :: cs) in *.
    assert (Hi : i < len) by (rewrite Hl; subst cs0; rewrite enc_cons; cbn; lia).
    replace (i <? len) with true by (symmetry; apply Nat.ltb_lt; lia).
    replace (j <? len) with true by (symmetry; apply Nat.ltb_lt; lia). cbn [andb].
    assert (Hrd : rd path i = Ok SLASH) by (subst cs0; rewrite enc_cons in Hd; by apply rd_at in Hd).
    rewrite Hrd. cbn [mbind res_bind]. rewrite Z.eqb_refl.
    destruct (skip_spec (S len) path i len cs0 r Hd Hl) as (k & cs1 & Hcs & Hk);
      [lia|by eapply Forall_impl; [exact Hp|]; intros ? []|].
    destruct cs1 as [|c1 cs1].
    + destruct Hk as [Hk ->]. cbn [mbind res_bind]. rewrite app_nil_r in Hcs. unfold dot_component.
      rewrite Nat.ltb_irrefl. cbn [mbind res_bind]. unfold rassert at 1.
      rewrite (proj2 (Nat.leb_le j len)) by lia. cbn [mbind res_bind]. rewrite Hcs in Hd.
      destruct (clean_trailing f path i j len k r) as (path' & j' & Hrun & Hcl); try done; [lia|].
      rewrite Nat.ltb_irrefl in Hrun.
      exists path', j'. rewrite Hcs, <- (app_nil_r (replicate k [])), kept_empties. cbn [app].
      rewrite app_nil_r, <- Ho. split; [exact Hrun|done].
    + destruct Hk as [Hne ->]. cbn [mbind res_bind]. subst cs0. rewrite Hcs in *. clear Hcs.
      destruct c1 as [|x c1]; [done|].
      pose proof (head_component _ _ _ _ _ _ _ _ _ _ H) as H1.
      assert (Hdot : dot_component path (i + k + 1) j len =
        Ok (if decide (x :: c1 = [DOT]) then Some (i + k + 1, j) else None)).
      { pose proof (hd_rest _ _ _ _ _ _ _ _ H1) as Hr. rewrite drop_insert_lt in Hr by lia.
        apply (dot_component_spec _ _ _ _ _ cs1 r); [|done|done|apply H1].
        apply Forall_app in Hp as [_ Hp]. by apply Forall_cons in Hp as [Hp _]. }
      rewrite Hdot. cbn [mbind res_bind]. rewrite kept_empties.
      rewrite enc_app, length_app in Hf. rewrite enc_cons in Hf. cbn [app length] in Hf. rewrite length_app in Hf.
      case_decide as Hx.
      * injection Hx as -> ->. assert (H2 : at_head path (S (i + k + 1)) j len out [] cs1 r).
        { destruct H1 as [Hr1 Hl1 _ Hp1 _ _ _ _]. rewrite drop_insert_lt in Hr1 by lia.
          cbn [app length] in *. apply drop_cons_inv in Hr1 as [_ Hr1].
          constructor; try done; cbn [app]; lia. }
        destruct (IH _ _ _ _ _ _ H2) as (path' & j' & Hrun & Hcl); [cbn; lia|].
        exists path', j'. split; [done|]. unfold kept at 1. by rewrite filter_cons_False by (intros [_ ?]; done).
      * pose proof (hd_len _ _ _ _ _ _ _ _ H1) as Hl1. cbn [app length] in Hl1. rewrite length_app in Hl1.
        unfold rassert. rewrite (proj2 (Nat.leb_le j (i + k + 1))) by lia. cbn [mbind res_bind].
        replace (i + k + 1 <? len) with true by (symmetry; apply Nat.ltb_lt; lia). cbn [orb].
        rewrite wr_in by lia. cbn [mbind res_bind].
        replace (S j =? len) with false by (symmetry; apply Nat.eqb_neq; lia).
        destruct (head_copy _ _ _ _ _ _ _ _ _ H1) as [Hcp H2]. rewrite Hcp. cbn [mbind res_bind].
        destruct (IH _ _ _ _ _ _ H2) as (path' & j' & Hrun & Hcl); [rewrite length_app; lia|].
        exists path', j'. split; [done|]. rewrite !length_insert in Hcl.
        unfold kept at 1. rewrite filter_cons_True by done. rewrite enc_cons.
        rewrite <- !app_assoc in Hcl. exact Hcl.
  - destruct (head_copy _ _ _ _ _ _ _ _ _ H) as [Hcp H1]. cbn [app] in Hd, Hl, Hf. cbn [length] in Hl, Hf.
    replace (i <? len) with true by (symmetry; apply Nat.ltb_lt; lia).
    replace (j <? len) with true by (symmetry; apply Nat.ltb_lt; lia). cbn [andb].
    rewrite (rd_at _ _ _ _ Hd). cbn [mbind res_bind]. apply not_elem_of_cons in Hs as [Hx Hs].
    rewrite (proj2 (Z.eqb_neq x SLASH)) by congruence. rewrite Hcp. cbn [mbind res_bind].
    destruct (IH _ _ _ _ _ _ H1) as (path' & j' & Hrun & Hcl); [lia|].
    exists path', j'. split; [done|]. rewrite length_insert, <- app_assoc in Hcl. exact Hcl.
Qed.

(** The end of [clean_path], after the loop. *)
Lemma finish_run n o path' j' len :
  cleaned n o path' j' len -> n = S len \/ S len < n -> 0 < len ->
  Forall nzb o -> (forall o', o <> o' ++ [SLASH]) ->
  exists m, (let j := if j' =? 0 then S j' else j' in
     path ← wr path' j 0%Z;
     j ← (if 1 <? j then c ← rd path (j - 1); Ok (if (c =? SLASH)%Z then j - 1 else j) else Ok j);
     path ← wr path j 0%Z;
     rassert (j <=? len);; rassert (0 <? j);; Ok path) = Ok m /\
    is_cstr m (if decide (o = []) then [SLASH] else o).
Proof.
  intros (Hn & H0 & Hj & Hcase) Hlen Hpos Hnz Hlast. cbn zeta.
  set (j := if j' =? 0 then S j' else j').
  set (o1 := if decide (o = []) then [SLASH] else o).
  assert (Hj1 : 0 < j /\ j <= len) by (unfold j; destruct (Nat.eqb_spec j' 0); lia).
  assert (Hend : exists z, take j path' = o1 ++ z /\ (z = [] \/ z = [0%Z])).
  { unfold j, o1. destruct Hcase as [Ht|[Ht|[-> Ht]]].
    - case_decide as Ho; [rewrite Ho in Ht|].
      + exists []. split; [|by left]. apply (f_equal length) in Ht. rewrite length_take in Ht. cbn in Ht.
        replace j' with 0 by lia. cbn [Nat.eqb]. by rewrite (take_S_r path' 0 SLASH).
      + exists []. split; [|by left]. destruct (Nat.eqb_spec j' 0) as [->|]; [by rewrite take_0 in Ht|].
        by rewrite app_nil_r.
    - exists [0%Z]. split; [|by right]. destruct (Nat.eqb_spec j' 0) as [->|]; [|done].
      rewrite take_0 in Ht. symmetry in Ht. by apply app_eq_nil in Ht as [_ ?].
    - exists []. split; [|by left]. destruct (Nat.eqb_spec j' 0) as [->|]; [by rewrite take_0 in Ht|done]. }
  destruct Hend as (z & Hz & Hzz). rewrite wr_in by lia. cbn [mbind res_bind].
  assert (Hlz : length (o1 ++ z) = j) by (rewrite <- Hz, length_take; lia). rewrite length_app in Hlz.
  assert (Hkeep : (if 1 <? j then c ← rd (<[j:=0%Z]> path') (j - 1); Ok (if (c =? SLASH)%Z then j - 1 else j) else Ok j) = Ok j).
  { destruct (Nat.ltb_spec 1 j); [|done].
    assert (Hl : (o1 ++ z) !! (j - 1) = path' !! (j - 1)) by (rewrite <- Hz; by rewrite lookup_take_lt by lia).
    destruct (lookup_lt_is_Some_2 path' (j - 1)) as [c Hc]; [lia|].
    unfold rd. rewrite list_lookup_insert_ne, Hc by lia. cbn [mbind res_bind].
    rewrite (proj2 (Z.eqb_neq c SLASH)); [done|]. intros ->. rewrite Hc in Hl. destruct Hzz as [->| ->].
    - rewrite app_nil_r in *. cbn in Hlz. unfold o1 in *. case_decide; [cbn in Hlz; lia|].
      destruct o as [|x o] using rev_ind; [done|]. rewrite length_app in Hlz. cbn in Hlz.
      replace (j - 1) with (length o) in Hl by lia. rewrite lookup_app_r, Nat.sub_diag in Hl by lia.
      injection Hl as ->. by apply (Hlast o).
    - cbn in Hlz. rewrite lookup_app_r in Hl by lia. replace (j - 1 - length o1) with 0 in Hl by lia. done. }
  rewrite Hkeep. cbn [mbind res_bind]. rewrite wr_in by (rewrite length_insert; lia). cbn [mbind res_bind].
  unfold rassert. rewrite (proj2 (Nat.leb_le j len)), (proj2 (Nat.ltb_lt 0 j)) by lia. cbn [mbind res_bind].
  eexists. split; [done|]. split.
  { unfold o1. case_decide; [|done]. repeat constructor; unfold nzb, SLASH; lia. }
  rewrite list_insert_insert. rewrite decide_True by done.
  rewrite (insert_take_drop path' j) by lia. rewrite Hz, <- app_assoc.
  destruct Hzz as [->| ->]; cbn [app]; eexists; done.
Qed.

Lemma enc_last cs : Forall component cs -> Forall (fun c => c <> []) cs -> forall o, enc cs <> o ++ [SLASH].
Proof.
  intros Hc Hn o. destruct cs as [|c cs _] using rev_ind; [by destruct o|].
  apply Forall_app in Hc as [_ Hc]. apply Forall_cons in Hc as [[_ Hs] _].
  apply Forall_app in Hn as [_ Hn]. apply Forall_cons in Hn as [Hn _].
  rewrite enc_app. cbn [enc mbind list_bind]. rewrite app_nil_r.
  destruct c as [|x c _] using rev_ind; [done|]. change (SLASH :: c ++ [x]) with ((SLASH :: c) ++ [x]).
  rewrite app_assoc. intros He. apply app_inj_tail in He as [_ ->]. apply Hs, elem_of_app. right. by left.
Qed.

Lemma kept_component cs : Forall plain cs -> Forall component (kept cs) /\ Forall (fun c => c <> []) (kept cs).
Proof.
  intros Hp. rewrite !Forall_forall in *. split; intros c Hc; apply list_elem_of_filter in Hc as [[Hne _] Hin]; [|done].
  by apply Hp.
Qed.

Lemma clean_path_run cs (r : list Z) :
  cs <> [] -> Forall plain cs -> (Z.of_nat (length (enc cs)) < 2 ^ 31)%Z ->
  exists m, clean_path (enc cs ++ 0%Z :: r) = Ok m /\ is_cstr m (normal cs).
Proof.
  intros Hne Hp Hlen. assert (Hc : Forall component cs) by (eapply Forall_impl; [exact Hp|]; by intros ? []).
  assert (Hs : is_cstr (enc cs ++ 0%Z :: r) (enc cs)) by (split; [by apply enc_nzb|by eexists]).
  unfold clean_path. rewrite (strlen_cstr _ _ Hs) by lia. cbn [mbind res_bind]. rewrite Nat2Z.id.
  assert (H : at_head (enc cs ++ 0%Z :: r) 0 0 (length (enc cs)) [] [] cs r).
  { constructor; try done; [by apply not_elem_of_nil|]. destruct cs as [|c cs]; [done|]. by rewrite enc_cons. }
  destruct (clean_loop_run (S (length (enc cs))) _ _ _ _ _ _ _ _ H) as (path' & j' & Hrun & Hcl); [cbn; lia|].
  rewrite Hrun. cbn [mbind res_bind app] in *. destruct (kept_component cs Hp) as [Hk1 Hk2].
  destruct (finish_run _ _ _ _ _ Hcl) as (m & Hm & Hcs).
  - rewrite length_app. cbn. lia.
  - destruct cs as [|c cs]; [done|]. rewrite enc_cons. cbn. lia.
  - by apply enc_nzb.
  - by apply enc_last.
  - exists m. split; [exact Hm|]. unfold normal. case_decide as Hk.
    + destruct (kept cs); [done|by rewrite enc_cons in Hk].
    + by destruct (kept cs).
Qed.

(** ** Properties *)

(** [canonize_path].  For a path without [..] it terminates, stays inside
    of its strings, passes the assertions of [clean_path], and returns the
    normal form of an absolute path, or of the prefix followed by a relative
    path: the components that are neither empty nor [.], each after one slash,
    or a single slash if there are none. *)
Theorem canonize_path_spec malloc ps cs (r r' : list Z) :
  (forall n, Z.to_nat n <= length (malloc n)) ->
  ps <> [] -> cs <> [] -> Forall plain ps -> Forall plain cs -> hd [] cs <> [] ->
  (Z.of_nat (length (enc ps) + length (enc cs)) + 2 < 2 ^ 31)%Z ->
  (exists m, canonize_path malloc (enc ps ++ 0%Z :: r) (enc cs ++ 0%Z :: r') = Ok m /\ is_cstr m (normal cs)) /\
  (exists m, canonize_path malloc (enc ps ++ 0%Z :: r) (drop 1 (enc cs) ++ 0%Z :: r') = Ok m /\
     is_cstr m (normal (ps ++ cs))).
Proof.
  intros Hmal Hps Hcs Hpp Hpc Hhd Hlen.
  assert (Hnz : forall l, Forall plain l -> Forall nzb (enc l))
    by (intros l Hl; apply enc_nzb; eapply Forall_impl; [exact Hl|]; by intros ? []).
  assert (Hs : is_cstr (enc ps ++ 0%Z :: r) (enc ps)) by (split; [by apply Hnz|by eexists]).
  assert (Ht : is_cstr (enc cs ++ 0%Z :: r') (enc cs)) by (split; [by apply Hnz|by eexists]).
  destruct ps as [|p ps]; [done|]. destruct cs as [|c cs]; [done|]. cbn [hd] in Hhd. split.
  - assert (H0 : rd (enc (c :: cs) ++ 0%Z :: r') 0 = Ok SLASH) by done.
    unfold canonize_path, strdup. rewrite H0. cbn [mbind res_bind]. rewrite Z.eqb_refl. rewrite (strlen_cstr _ _ Ht) by lia.
    cbn [mbind res_bind]. rewrite u32_small by lia.
    pose proof (Hmal (Z.of_nat (length (enc (c :: cs))) + 1)%Z) as Hm.
    destruct (strcpy_run (malloc (Z.of_nat (length (enc (c :: cs))) + 1)%Z) _ _ Ht ltac:(lia)) as [-> [_ (z & Hz)]].
    cbn [mbind res_bind]. rewrite Hz, wr_in by (rewrite length_app; cbn; lia). cbn [mbind res_bind].
    rewrite Nat2Z.id, list_insert_id by by rewrite list_lookup_middle.
    apply clean_path_run; [done|done|lia].
  - assert (Hu : is_cstr (drop 1 (enc (c :: cs)) ++ 0%Z :: r') (drop 1 (enc (c :: cs))))
      by (split; [by apply Forall_drop, Hnz|by eexists]).
    assert (Hd1 : drop 1 (enc (c :: cs)) = c ++ enc cs) by by rewrite enc_cons.
    destruct c as [|x c]; [done|]. apply Forall_cons in Hpc as Hx. destruct Hx as [[[Hx1 Hx2] _] _].
    assert (Hlx : length (drop 1 (enc ((x :: c) :: cs))) + 1 = length (enc ((x :: c) :: cs)))
      by (rewrite enc_cons; cbn; lia).
    assert (H0 : rd (drop 1 (enc ((x :: c) :: cs)) ++ 0%Z :: r') 0 = Ok x) by by rewrite Hd1.
    assert (H1 : rd (enc (p :: ps) ++ 0%Z :: r) 0 = Ok SLASH) by done.
    unfold canonize_path. rewrite H0, H1. cbn [mbind res_bind].
    rewrite (proj2 (Z.eqb_neq x SLASH)) by (intros ->; apply Hx2; by left). cbn [mbind res_bind].
    rewrite Z.eqb_refl. cbn [negb].
    rewrite (strlen_cstr _ _ Hs), (strlen_cstr _ _ Hu) by lia. cbn [mbind res_bind].
    pose proof (Hmal (Z.of_nat (length (enc (p :: ps))) +
      Z.of_nat (length (drop 1 (enc ((x :: c) :: cs)))) + 2)%Z) as Hm.
    set (buf := malloc _) in *.
    assert (Hfit : length (enc (p :: ps)) < length buf) by (clear -Hm; lia).
    destruct (strcpy_run buf _ _ Hs Hfit) as [-> Hs1]. cbn [mbind res_bind].
    assert (Hsl : is_cstr [SLASH; 0%Z] [SLASH]) by (split; [repeat constructor; unfold nzb, SLASH; lia|by exists []]).
    assert (Hl1 : length (splice buf 0 (enc (p :: ps) ++ [0%Z])) = length buf)
      by (apply length_splice; rewrite length_app; cbn [length]; lia).
    destruct (strcat_run _ _ _ _ Hs1 Hsl) as [-> Hs2]; [rewrite Hl1; cbn [length]; lia|lia|]. cbn [mbind res_bind].
    set (b2 := splice _ (length (enc (p :: ps))) _) in *.
    assert (Hl2 : length b2 = length buf) by (unfold b2; rewrite length_splice; [done|rewrite Hl1; cbn [length app]; lia]).
    destruct (strcat_run _ _ _ _ Hs2 Hu) as [-> [_ (z & Hz)]];
      [rewrite Hl2, length_app; cbn [length]; lia|rewrite length_app; cbn [length]; lia|]. cbn [mbind res_bind].
    rewrite Hz, Hd1, <- (app_assoc _ [SLASH]). change ([SLASH] ++ (x :: c) ++ enc cs) with (enc ((x :: c) :: cs)).
    rewrite <- enc_app. apply clean_path_run; [done|by apply Forall_app|]. rewrite enc_app, length_app. lia.
Qed.

(** The prefix "/usr" and the paths "//b/./c" and "b". *)
Lemma canonize_path_spec_witness :
  (exists m, canonize_path (fun n => replicate (Z.to_nat n) 7%Z) (enc [[117; 115; 114]%Z] ++ 0%Z :: [])
      (enc [[98]; [46]; []; [99]]%Z ++ 0%Z :: []) = Ok m /\ is_cstr m (normal [[98]; [46]; []; [99]]%Z)) /\
  (exists m, canonize_path (fun n => replicate (Z.to_nat n) 7%Z) (enc [[117; 115; 114]%Z] ++ 0%Z :: [])
      (drop 1 (enc [[98]; [46]; []; [99]]%Z) ++ 0%Z :: []) = Ok m /\
     is_cstr m (normal ([[117; 115; 114]%Z] ++ [[98]; [46]; []; [99]]%Z))).
Proof.
  assert (Hb : forall c, forallb (fun x => (0 <? x) && (x <? 256) && negb (x =? SLASH))%Z c = true -> component c).
  { intros c Hc. rewrite forallb_forall in Hc. split.
    - apply Forall_forall. intros x Hx. apply list_elem_of_In in Hx. apply Hc in Hx. unfold nzb. lia.
    - intros Hx. apply list_elem_of_In in Hx. apply Hc in Hx. unfold SLASH in Hx. lia. }
  apply (canonize_path_spec (fun n => replicate (Z.to_nat n) 7%Z) [[117; 115; 114]%Z] [[98]; [46]; []; [99]]%Z [] []).
  - intros n. by rewrite length_replicate.
  - discriminate.
  - discriminate.
  - repeat (apply Forall_cons; split; [split; [apply Hb; reflexivity|discriminate]|]). apply Forall_nil. exact I.
  - repeat (apply Forall_cons; split; [split; [apply Hb; reflexivity|discriminate]|]). apply Forall_nil. exact I.
  - discriminate.
  - vm_compute. reflexivity.
Defined.

(** ** Parent directories

    After [..] the slash that ends the component is skipped together with it,
    so the next component is copied without the tests: two [..] in a row, or a
    [.] after [..], are not resolved, and at the root even the leading slash
    is lost. *)
Lemma clean_path_parent :
  (* "/a/b/../.." *)
  (exists m, clean_path [47; 97; 47; 98; 47; 46; 46; 47; 46; 46; 0]%Z = Ok m /\ take 6 m = [47; 97; 47; 46; 46; 0]%Z) /\
  (* "/../a" *)
  (exists m, clean_path [47; 46; 46; 47; 97; 0]%Z = Ok m /\ take 2 m = [97; 0]%Z) /\
  (* "/a/../b" *)
  (exists m, clean_path [47; 97; 47; 46; 46; 47; 98; 0]%Z = Ok m /\ take 3 m = [47; 98; 0]%Z).
Proof. split; [|split]; (eexists; split; [vm_compute; reflexivity|reflexivity]). Qed.

(** ** Splitting a path *)
(** Going left over characters that are no slash. *)
Lemma last_slash_skip path p q :
  p <= q -> (forall k, p < k <= q -> exists c, path !! k = Some c /\ c <> SLASH) ->
  last_slash path q = last_slash path p.
Proof.
  intros Hle Hk. induction q as [|q IH]; [by replace p with 0 by lia|].
  destruct (decide (p = S q)) as [->|]; [done|]. cbn [last_slash].
  destruct (Hk (S q)) as (c & Hc & Hne); [lia|]. unfold rd. rewrite Hc. cbn [mbind res_bind].
  rewrite (proj2 (Z.eqb_neq c SLASH)) by done. apply IH; [lia|]. intros k Hkk. apply Hk. lia.
Qed.

(** The position after the last slash. *)
Lemma split_point path s a b :
  is_cstr path s -> s = a ++ b -> SLASH ∉ b -> a = [] \/ (exists a', a = a' ++ [SLASH]) ->
  exists p c, last_slash path (length s) = Ok p /\ rd path p = Ok c /\
    (if (c =? SLASH)%Z then S p else p) = length a.
Proof.
  intros [Hs [r ->]] -> Hb Ha. rewrite <- app_assoc, length_app.
  assert (Hin : forall k, length a <= k <= length a + length b ->
    exists c, (a ++ b ++ 0%Z :: r) !! k = Some c /\ c <> SLASH).
  { intros k Hk. rewrite lookup_app_r by lia. destruct (decide (k - length a < length b)) as [Hlt|Hge].
    - destruct (lookup_lt_is_Some_2 b _ Hlt) as [c Hc]. exists c. rewrite lookup_app_l by lia.
      split; [done|]. intros ->. by apply Hb, list_elem_of_lookup_2 with (k - length a).
    - exists 0%Z. rewrite lookup_app_r by lia. by replace (k - length a - length b) with 0 by lia. }
  destruct Ha as [->|[a' ->]].
  - rewrite (last_slash_skip _ 0) by (lia || (intros; apply Hin; cbn [length] in *; lia)).
    destruct (Hin 0) as (c & Hc & Hne); [cbn; lia|]. exists 0, c. split; [done|].
    split; [by apply rd_Ok|]. by rewrite (proj2 (Z.eqb_neq c SLASH)).
  - assert (Hlen : length (a' ++ [SLASH]) = S (length a')) by (rewrite length_app; cbn [length]; lia).
    rewrite (last_slash_skip _ (length a')) by (lia || (intros; apply Hin; lia)).
    assert (Hc : ((a' ++ [SLASH]) ++ b ++ 0%Z :: r) !! length a' = Some SLASH)
      by (rewrite lookup_app_l by lia; by apply list_lookup_middle).
    exists (length a'), SLASH. split; [|split; [by apply rd_Ok|by rewrite Z.eqb_refl]].
    destruct (length a') as [|n]; [done|]. cbn [last_slash]. unfold rd. by rewrite Hc.
Qed.

(** Copying [n] characters and terminating them. *)
Lemma copy_part dest src s n :
  is_cstr src s -> n <= length s -> n < length dest ->
  (d ← strncpy dest src n; wr d n 0%Z) = Ok (splice dest 0 (take n s ++ [0%Z])).
Proof.
  intros Hs Hn Hd. unfold strncpy. rewrite (strncpy_loop_cstr dest 0 src s n) by (done || lia).
  replace (n - length s) with 0 by lia. cbn [replicate mbind res_bind]. rewrite app_nil_r.
  assert (Hl : length (take n s) = n) by (rewrite length_take; lia).
  rewrite wr_in by (rewrite length_splice; lia). f_equal.
  rewrite <- splice_snoc by lia. by rewrite Hl.
Qed.

Lemma splice_cstr dest s : Forall nzb s -> is_cstr (splice dest 0 (s ++ [0%Z])) s.
Proof. intros Hs. split; [done|]. unfold splice. cbn [take app]. eexists. by rewrite <- app_assoc. Qed.

(** [bname].  A path is split after its last slash: the base name is what
    follows, the directory name what precedes, without its last slash unless
    it is the root itself; both are terminated and nothing is written outside
    of the two buffers. *)
Theorem bname_splits path dirname basename a b :
  is_cstr path (a ++ b) -> SLASH ∉ b -> a = [] \/ (exists a', a = a' ++ [SLASH]) ->
  length a < length dirname -> length b < length basename ->
  (Z.of_nat (length a) <= MAX_PATH_LEN)%Z -> (Z.of_nat (length b) <= MAX_PATH_LEN)%Z ->
  exists d n, bname path dirname basename = Ok (d, n) /\
    length d = length dirname /\ length n = length basename /\
    is_cstr d (if 1 <? length a then take (length a - 1) a else a) /\ is_cstr n b.
Proof.
  intros Hs Hb Ha Hd Hn Hma Hmb. unfold MAX_PATH_LEN in *.
  pose proof Hs as [Hnz _]. apply Forall_app in Hnz as [Hnza Hnzb].
  destruct (split_point path (a ++ b) a b Hs eq_refl Hb Ha) as (p & c & Hp & Hc & Hpa).
  unfold bname. rewrite (strlen_cstr _ _ Hs) by (rewrite length_app; lia). cbn [mbind res_bind].
  rewrite Nat2Z.id, Hp. cbn [mbind res_bind]. rewrite Hc. cbn [mbind res_bind]. rewrite Hpa.
  unfold rassert, MAX_PATH_LEN. rewrite (proj2 (Z.leb_le _ _) Hma). cbn [mbind res_bind].
  pose proof (copy_part dirname path (a ++ b) (length a) Hs) as Hcp. rewrite take_app_length, length_app in Hcp.
  specialize (Hcp ltac:(lia) ltac:(lia)). revert Hcp. destruct (strncpy dirname path (length a)) as [d1|]; [|done].
  cbn [mbind res_bind]. intros ->. cbn [mbind res_bind]. set (d2 := splice dirname 0 (a ++ [0%Z])).
  assert (Hl2 : length d2 = length dirname) by (apply length_splice; rewrite length_app; cbn; lia).
  assert (Hdir : exists d, (if 1 <? length a
      then c ← rd d2 (length a - 1); if (c =? SLASH)%Z then wr d2 (length a - 1) 0%Z else Ok d2 else Ok d2) = Ok d /\
    length d = length dirname /\ is_cstr d (if 1 <? length a then take (length a - 1) a else a)).
  { destruct (Nat.ltb_spec 1 (length a)) as [H1|H1]; [|exists d2; split; [done|]; split; [done|by apply splice_cstr]].
    destruct Ha as [->|[a' ->]]; [cbn in H1; lia|]. rewrite length_app in *. cbn [length] in *.
    replace (length a' + 1 - 1) with (length a') by lia. rewrite take_app_length.
    apply Forall_app in Hnza as [Hnza _].
    assert (Hd2 : d2 = a' ++ SLASH :: 0%Z :: drop (length a' + 2) dirname).
    { unfold d2, splice. cbn [take app]. rewrite !length_app. cbn [length]. rewrite <- !app_assoc. cbn [app].
      by replace (0 + (length a' + 1 + 1)) with (length a' + 2) by lia. }
    assert (Hrd : rd d2 (length a') = Ok SLASH) by (apply rd_Ok; rewrite Hd2; by apply list_lookup_middle).
    rewrite Hrd. cbn [mbind res_bind]. rewrite Z.eqb_refl.
    rewrite wr_in by lia. eexists. split; [done|]. split; [by rewrite length_insert|]. split; [done|].
    rewrite Hd2, insert_app_r_alt, Nat.sub_diag by lia. cbn. by eexists. }
  destruct Hdir as (d & -> & Hld & Hcd). cbn [mbind res_bind].
  rewrite length_app. rewrite (proj2 (Z.leb_le _ 512)) by lia. cbn [mbind res_bind].
  assert (Hdb : is_cstr (drop (length a) path) b).
  { destruct Hs as [_ [r ->]]. split; [done|]. exists r. by rewrite <- app_assoc, drop_app_length. }
  replace (length a + length b - length a) with (length b) by lia.
  pose proof (copy_part basename _ b (length b) Hdb ltac:(lia) Hn) as Hcb. rewrite take_ge in Hcb by lia.
  revert Hcb. destruct (strncpy basename (drop (length a) path) (length b)) as [n1|]; [|done].
  cbn [mbind res_bind]. intros ->. cbn [mbind res_bind]. eexists _, _. split; [done|]. split; [done|].
  split; [apply length_splice; rewrite length_app; cbn; lia|]. split; [done|]. by apply splice_cstr.
Qed.

(** "/usr/bin" *)
Lemma bname_splits_witness :
  exists d n, bname [47; 117; 115; 114; 47; 98; 105; 110; 0]%Z (replicate 20 1%Z) (replicate 20 1%Z) = Ok (d, n) /\
    length d = 20 /\ length n = 20 /\ is_cstr d [47; 117; 115; 114]%Z /\ is_cstr n [98; 105; 110]%Z.
Proof.
  apply (bname_splits [47; 117; 115; 114; 47; 98; 105; 110; 0]%Z (replicate 20 1%Z) (replicate 20 1%Z)
           [47; 117; 115; 114; 47]%Z [98; 105; 110]%Z).
  - split; [|by exists []]. repeat (apply Forall_cons; split; [unfold nzb; lia|]). apply Forall_nil. exact I.
  - apply (bool_decide_unpack _). vm_compute. exact I.
  - right. by exists [47; 117; 115; 114]%Z.
  - cbn. lia.
  - cbn. lia.
  - vm_compute. discriminate.
  - vm_compute. discriminate.
Defined.
End Path.
