(* ===== verification/Pipe.v ===== *)
(** * Pipes (src/pipe.c)

    Readers and writers are tasks that interleave at the statements of
    [pipe_read] and [pipe_write]; a task that runs [sleep_on] does not run
    until a [wakeup] on the same address.  The buffer is the ring of
    RingBuf.v. *)
From S2P Require Import Prelude RingBuf.

Module Pipe.

Definition O_RDONLY : Z := 0.
Definition O_WRONLY : Z := 1.
Definition PIPE_BUFFER_SIZE : Z := 1024.

(** ** Data *)
Record vfs_pipe := Pipe {
  buffer : list Z; size : Z; readers : Z; writers : Z; read_pos : Z; write_pos : Z; lock : Z
}.

Definition set_lock (p : vfs_pipe) (v : Z) : vfs_pipe :=
  Pipe (buffer p) (size p) (readers p) (writers p) (read_pos p) (write_pos p) v.
Definition set_counts (p : vfs_pipe) (r w : Z) : vfs_pipe :=
  Pipe (buffer p) (size p) r w (read_pos p) (write_pos p) (lock p).

(** The two events tasks sleep on: [&pipe->read_pos] and [&pipe->write_pos]. *)
Inductive event := ReadPos | WritePos.
#[global] Instance event_eq_dec : EqDecision event.
Proof. solve_decision. Defined.

(** Where a call is: the names follow the statements of the source. *)
Inductive rpc :=
| RLock        (* line 76: spin_lock *)
| RTest        (* line 77: the condition of the loop *)
| RUnlock      (* line 78 *)
| RSleep       (* line 79: about to call sleep_on *)
| RAsleep      (* inside sleep_on *)
| RRelock      (* line 80 *)
| RCopy        (* lines 82-87 *)
| RWake        (* line 88 *)
| RRelease     (* line 89 *)
| RDone.       (* line 91 *)

Inductive wpc :=
| WLock        (* line 100 *)
| WCheck       (* lines 101-103 *)
| WTest        (* lines 104-105 *)
| WFail        (* lines 107-108 *)
| WWake        (* line 110 *)
| WUnlock      (* line 111 *)
| WSleep       (* line 112 *)
| WAsleep
| WRelock      (* line 113 *)
| WEnd         (* line 117 *)
| WRelease     (* line 118 *)
| WDone (ret : Z).
#[global] Instance rpc_eq_dec : EqDecision rpc.
Proof. solve_decision. Defined.
#[global] Instance wpc_eq_dec : EqDecision wpc.
Proof. solve_decision. Defined.

(** A call of [pipe_read] with what it has copied, or of [pipe_write] with the
    bytes it has to write and the number it has written. *)
Inductive call :=
| Reader (pc : rpc) (flags : Z) (want : nat) (got : list Z)
| Writer (pc : wpc) (flags : Z) (bytes : list Z) (i : nat).

(** [written] records the bytes that calls of [pipe_write] count as written,
    [consumed] those that calls of [pipe_read] have stored for their callers,
    each with the number of the call and in the order of the steps. *)
Record state := State {
  pipe : vfs_pipe;
  tasks : list call;
  written : list (nat * Z);
  consumed : list (nat * Z)
}.
(** The bytes of one call. *)
Definition of_call (k : nat) (l : list (nat * Z)) : list Z := snd <$> filter (fun x => x.1 = k) l.

(** ** The scheduler's [wakeup] *)
Definition wake (e : event) (c : call) : call :=
  match c, e with
  | Reader RAsleep f w g, ReadPos => Reader RRelock f w g
  | Writer WAsleep f b i, WritePos => Writer WRelock f b i
  | _, _ => c
  end.
Definition wakeup (e : event) (l : list call) : list call := wake e <$> l.

(** ** One statement of a call *)

(** The result: the new pipe, the new call and an event to wake up. *)
Record effect := Eff { e_pipe : vfs_pipe; e_call : call; e_wake : option event }.

Definition quiet (p : vfs_pipe) (c : call) : res effect := Ok (Eff p c None).

Definition read_step (p : vfs_pipe) (pc : rpc) (flags : Z) (want : nat) (got : list Z) : res effect :=
  let goto pc := Reader pc flags want got in
  match pc with
  | RLock =>
      if negb (flags =? O_RDONLY) then Err EPanic
      else if lock p =? 0 then quiet (set_lock p 1) (goto RTest) else Err EBlock
  | RTest =>
      if ((read_pos p =? write_pos p) && (0 <? writers p))%bool
      then quiet p (goto RUnlock) else quiet p (goto RCopy)
  | RUnlock => quiet (set_lock p 0) (goto RSleep)
  | RSleep => quiet p (goto RAsleep)
  | RAsleep => Err EBlock
  | RRelock => if lock p =? 0 then quiet (set_lock p 1) (goto RTest) else Err EBlock
  | RCopy =>
      if decide (length got < want)%nat then
        if read_pos p =? write_pos p then quiet p (goto RWake)
        else if size p =? 0 then Err EDiv
        else
          c ← rd (buffer p) (ring_index (size p) (read_pos p));
          Ok (Eff (Pipe (buffer p) (size p) (readers p) (writers p) (read_pos p +u 1) (write_pos p) (lock p))
                (Reader RCopy flags want (got ++ [c])) None)
      else quiet p (goto RWake)
  | RWake => Ok (Eff p (goto RRelease) (Some WritePos))
  | RRelease => quiet (set_lock p 0) (goto RDone)
  | RDone => Err EBlock
  end.

Definition write_step (p : vfs_pipe) (pc : wpc) (flags : Z) (bytes : list Z) (i : nat) : res effect :=
  let goto pc := Writer pc flags bytes i in
  match pc with
  | WLock => if lock p =? 0 then quiet (set_lock p 1) (goto WCheck) else Err EBlock
  | WCheck => if negb (flags =? O_WRONLY) then Err EPanic else quiet p (goto WTest)
  | WTest =>
      match bytes !! i with
      | None => quiet p (goto WEnd)
      | Some c =>
          if write_pos p =? read_pos p +u size p
          then if readers p =? 0 then quiet p (goto WFail) else quiet p (goto WWake)
          else if size p =? 0 then Err EDiv
          else
            b ← wr (buffer p) (ring_index (size p) (write_pos p)) c;
            Ok (Eff (Pipe b (size p) (readers p) (writers p) (read_pos p) (write_pos p +u 1) (lock p))
                  (Writer WTest flags bytes (S i)) None)
      end
  | WFail => quiet (set_lock p 0) (goto (WDone 0))
  | WWake => Ok (Eff p (goto WUnlock) (Some ReadPos))
  | WUnlock => quiet (set_lock p 0) (goto WSleep)
  | WSleep => quiet p (goto WAsleep)
  | WAsleep => Err EBlock
  | WRelock => if lock p =? 0 then quiet (set_lock p 1) (goto WTest) else Err EBlock
  | WEnd => Ok (Eff p (goto WRelease) (Some ReadPos))
  | WRelease => quiet (set_lock p 0) (goto (WDone (Z.of_nat (length bytes))))
  | WDone _ => Err EBlock
  end.

Definition call_step (p : vfs_pipe) (c : call) : res effect :=
  match c with
  | Reader pc flags want got => read_step p pc flags want got
  | Writer pc flags bytes i => write_step p pc flags bytes i
  end.

(** What a call has counted as written, or stored for its caller, in a step. *)
Definition put_in (c c' : call) : list Z :=
  match c, c' with Writer _ _ bytes i, Writer _ _ _ i' => take (i' - i) (drop i bytes) | _, _ => [] end.
Definition taken_out (c c' : call) : list Z :=
  match c, c' with Reader _ _ _ got, Reader _ _ _ got' => drop (length got) got' | _, _ => [] end.

(** Task [k] runs one statement. *)
Definition step_task (k : nat) (s : state) : res state :=
  match tasks s !! k with
  | None => Err EBlock
  | Some c =>
      e ← call_step (pipe s) c;
      let l := <[k := e_call e]> (tasks s) in
      Ok (State (e_pipe e) (match e_wake e with Some ev => wakeup ev l | None => l end)
            (written s ++ ((k,.) <$> put_in c (e_call e))) (consumed s ++ ((k,.) <$> taken_out c (e_call e))))
  end.

(** ** Opening, closing, creating *)
Record pipe_node := PNode { flags : Z; ref_count : Z }.

Definition pipe_open (n : pipe_node) (p : vfs_pipe) (mode : Z) : res (pipe_node * vfs_pipe) :=
  if negb (lock p =? 0) then Err EDeadlock
  else if mode =? O_RDONLY then
    if negb (flags n =? O_RDONLY) then Err EPanic
    else Ok (PNode (flags n) (s32 (ref_count n + 1)), set_counts p (readers p +u 1) (writers p))
  else if mode =? O_WRONLY then
    if negb (flags n =? O_WRONLY) then Err EPanic
    else Ok (PNode (flags n) (s32 (ref_count n + 1)), set_counts p (readers p) (writers p +u 1))
  else Err EPanic.

(** What remains: the node and the pipe, each until it is freed. *)
Definition pipe_close (n : pipe_node) (p : vfs_pipe) (l : list call)
  : res (option pipe_node * option vfs_pipe * list call) :=
  if negb (lock p =? 0) then Err EDeadlock
  else
    p ← (if flags n =? O_RDONLY then Ok (set_counts p (readers p -u 1) (writers p))
         else if flags n =? O_WRONLY then Ok (set_counts p (readers p) (writers p -u 1))
         else Err EPanic);
    let n' := PNode (flags n) (s32 (ref_count n - 1)) in
    let l := wakeup (if flags n =? O_RDONLY then WritePos else ReadPos) l in
    let node := if ref_count n' =? 0 then None else Some n' in
    (* the counts are unsigned *)
    if ((readers p <=? 0) && (writers p <=? 0))%bool then Ok (node, None, l)
    else Ok (node, Some p, l).

(** [malloc] gives the cells of the buffer. *)
Definition pipe_new (malloc : Z -> list Z) : pipe_node * pipe_node * vfs_pipe :=
  (PNode O_RDONLY 0, PNode O_WRONLY 0,
   Pipe (malloc PIPE_BUFFER_SIZE) PIPE_BUFFER_SIZE 0 0 0 0 0).

(** ** Interleavings *)

(** Any runnable task may run next, and the pipe may be opened and closed while
    its lock is free; a pipe that [pipe_close] frees is gone. *)
Inductive step : state -> state -> Prop :=
| step_run k s s' : step_task k s = Ok s' -> step s s'
| step_open n mode n' p' s :
    pipe_open n (pipe s) mode = Ok (n', p') ->
    step s (State p' (tasks s) (written s) (consumed s))
| step_close n n' p' l s :
    pipe_close n (pipe s) (tasks s) = Ok (n', Some p', l) ->
    step s (State p' l (written s) (consumed s)).

(** Calls that have not started yet. *)
Definition fresh (c : call) : bool :=
  match c with
  | Reader RLock _ _ [] => true
  | Writer WLock _ _ 0%nat => true
  | _ => false
  end.

(** ** The invariant *)

(** Is the call between taking and releasing the lock? *)
Definition in_cs (c : call) : bool :=
  match c with
  | Reader pc _ _ _ =>
      match pc with RTest | RUnlock | RCopy | RWake | RRelease => true | _ => false end
  | Writer pc _ _ _ =>
      match pc with WCheck | WTest | WFail | WWake | WUnlock | WEnd | WRelease => true | _ => false end
  end.

(** The bytes in the buffer, oldest first. *)
Definition in_pipe (p : vfs_pipe) : list (option Z) :=
  ring_contents (size p) (buffer p) (read_pos p) (Z.to_nat (write_pos p -u read_pos p)).

Definition pipe_wf (p : vfs_pipe) : Prop :=
  ring_size_ok (size p) /\ length (buffer p) = Z.to_nat (size p) /\
  0 <= read_pos p < 2 ^ 32 /\ 0 <= write_pos p < 2 ^ 32 /\ write_pos p -u read_pos p <= size p.

(** What a call has copied so far. *)
Definition call_ok (c : call) : Prop :=
  match c with
  | Reader _ _ want got => (length got <= want)%nat
  | Writer pc _ bytes i => (i <= length bytes)%nat /\
      match pc with WEnd | WRelease => i = length bytes | WDone r => r <> 0 -> i = length bytes /\ r = Z.of_nat i | _ => True end
  end.

(** What the call [k] has done is what the record says of it. *)
Definition recorded (s : state) (k : nat) (c : call) : Prop :=
  match c with
  | Reader _ _ _ got => of_call k (consumed s) = got
  | Writer _ _ bytes i => of_call k (written s) = take i bytes
  end.

Definition inv (s : state) : Prop :=
  pipe_wf (pipe s) /\ Forall call_ok (tasks s) /\
  lock (pipe s) = Z.of_nat (length (filter in_cs (tasks s))) /\ 0 <= lock (pipe s) <= 1 /\
  (Some <$> (written s).*2) = (Some <$> (consumed s).*2) ++ in_pipe (pipe s) /\
  (forall k c, tasks s !! k = Some c -> recorded s k c).

(** ** Lemmas *)
Definition cs_count (c : call) : Z := if in_cs c then 1 else 0.

Lemma filter_cs_update (l : list call) k c c' :
  l !! k = Some c ->
  Z.of_nat (length (filter in_cs (<[k := c']> l))) + cs_count c =
  Z.of_nat (length (filter in_cs l)) + cs_count c'.
Proof.
  revert k. induction l as [|x l IH]; intros k Hk; [done|]. unfold cs_count in *.
  destruct k as [|k].
  - injection Hk as ->. change (<[0%nat := c']> (c :: l)) with (c' :: l). rewrite !filter_cons.
    destruct (in_cs c) eqn:E1, (in_cs c') eqn:E2;
      repeat case_decide; rewrite ?E1, ?E2 in *; cbn [Is_true length] in *; try done; lia.
  - specialize (IH k Hk). change (<[S k := c']> (x :: l)) with (x :: <[k := c']> l).
    rewrite !filter_cons. case_decide; cbn [length]; lia.
Qed.

Lemma wake_cs e c : in_cs (wake e c) = in_cs c.
Proof. by destruct c as [[]|[]], e. Qed.
Lemma wake_ok e c : call_ok c -> call_ok (wake e c).
Proof. destruct c as [[]|[]], e; cbn; tauto. Qed.

Lemma wakeup_count e l : length (filter in_cs (wakeup e l)) = length (filter in_cs l).
Proof.
  unfold wakeup. induction l as [|c l IH]; [done|]. cbn [fmap list_fmap]. rewrite !filter_cons, wake_cs.
  case_decide; cbn [length]; by rewrite IH.
Qed.

(** One statement of a call that is in the critical section only when it
    holds the lock. *)
Definition eff_ok (p : vfs_pipe) (c : call) (e : effect) : Prop :=
  pipe_wf (e_pipe e) /\ call_ok (e_call e) /\
  lock (e_pipe e) = lock p + cs_count (e_call e) - cs_count c /\ 0 <= lock (e_pipe e) <= 1 /\
  in_pipe p ++ (Some <$> put_in c (e_call e)) = (Some <$> taken_out c (e_call e)) ++ in_pipe (e_pipe e) /\
  match c, e_call e with
  | Reader _ _ _ got, Reader _ _ _ got' => got' = got ++ taken_out c (e_call e)
  | Writer _ _ bytes i, Writer _ _ bytes' i' => bytes' = bytes /\ take i' bytes = take i bytes ++ put_in c (e_call e)
  | _, _ => False
  end.
(** A step that neither reads nor writes a byte. *)
Definition same_bytes (c c' : call) : Prop :=
  match c, c' with
  | Reader _ _ _ got, Reader _ _ _ got' => got' = got
  | Writer _ _ bytes i, Writer _ _ bytes' i' => bytes' = bytes /\ i' = i
  | _, _ => False
  end.
Lemma same_bytes_none c c' : same_bytes c c' -> put_in c c' = [] /\ taken_out c c' = [] /\
  match c, c' with
  | Reader _ _ _ got, Reader _ _ _ got' => got' = got ++ taken_out c c'
  | Writer _ _ bytes i, Writer _ _ bytes' i' => bytes' = bytes /\ take i' bytes = take i bytes ++ put_in c c'
  | _, _ => False
  end.
Proof.
  destruct c as [? ? ? got|? ? bytes i], c' as [? ? ? got'|? ? bytes' i']; cbn; try done.
  - intros ->. rewrite drop_all, app_nil_r. done.
  - intros [-> ->]. rewrite Nat.sub_diag. cbn. rewrite app_nil_r. done.
Qed.
Lemma still_ok p q c c' w :
  pipe_wf q -> call_ok c' -> 0 <= lock q <= 1 -> lock q = lock p + cs_count c' - cs_count c -> in_pipe q = in_pipe p -> same_bytes c c' ->
  eff_ok p c (Eff q c' w).
Proof.
  intros Hq Hc Hl Hn Hin Hs. apply same_bytes_none in Hs as (E1 & E2 & Hs). unfold eff_ok. cbn [e_pipe e_call].
  rewrite E1, E2, Hin in *. cbn [fmap list_fmap app]. rewrite app_nil_r. done.
Qed.

Lemma read_step_ok p pc fl want got e :
  pipe_wf p -> call_ok (Reader pc fl want got) -> 0 <= lock p <= 1 ->
  (in_cs (Reader pc fl want got) = true -> lock p = 1) ->
  read_step p pc fl want got = Ok e -> eff_ok p (Reader pc fl want got) e.
Proof.
  intros Hp Hc Hl Hcs Hrun. destruct pc; cbn [read_step] in Hrun; try discriminate;
    repeat match type of Hrun with (if ?b then _ else _) = _ => destruct b eqn:?; try discriminate end;
    unfold quiet in Hrun; to_prop;
    try (injection Hrun as <-; apply still_ok; cbn; try done; try (specialize (Hcs eq_refl)); lia).
  - apply bind_Ok in Hrun as (c & Hrd & Hrun). injection Hrun as <-. apply rd_Ok in Hrd.
    destruct Hp as (Hs & Hlb & Hrp & Hwp & Hle).
    destruct (ring_get (size p) Hs (buffer p) (write_pos p) (read_pos p)) as (c' & Hc' & Hpos & Hn & Hcont);
      [done..|congruence|]. assert (c' = c) as -> by congruence.
    split; [|split; [|split; [|split; [|split]]]]; cbn [e_pipe e_call put_in taken_out lock].
    + unfold pipe_wf. cbn. split; [done|]. split; [done|]. split; [apply u32_range|]. split; [done|]. lia.
    + cbn in *. rewrite length_app. cbn. lia.
    + cbn. lia.
    + done.
    + rewrite drop_app_length. unfold in_pipe. cbn [size buffer read_pos write_pos fmap list_fmap app]. rewrite Hn, Hcont.
      by rewrite app_nil_r.
    + by rewrite drop_app_length.
Qed.

Lemma write_step_ok p pc fl bytes i e :
  pipe_wf p -> call_ok (Writer pc fl bytes i) -> 0 <= lock p <= 1 ->
  (in_cs (Writer pc fl bytes i) = true -> lock p = 1) ->
  write_step p pc fl bytes i = Ok e -> eff_ok p (Writer pc fl bytes i) e.
Proof.
  intros Hp Hc Hl Hcs Hrun. destruct pc; cbn [write_step] in Hrun; try discriminate;
    try (destruct (bytes !! i) as [c|] eqn:Hi);
    repeat match type of Hrun with (if ?b then _ else _) = _ => destruct b eqn:?; try discriminate end;
    unfold quiet in Hrun; to_prop;
    try (injection Hrun as <-; apply still_ok; cbn in *; try done; try (specialize (Hcs eq_refl)); lia).
  - apply bind_Ok in Hrun as (b & Hwr & Hrun). injection Hrun as <-. apply wr_Ok in Hwr as [_ ->].
    destruct Hp as (Hs & Hlb & Hrp & Hwp & Hle).
    assert (Hnf : write_pos p -u read_pos p < size p).
    { assert (write_pos p -u read_pos p <> size p); [|lia]. intros He.
      apply (ring_dist_size (size p) Hs) in He; done. }
    destruct (ring_put (size p) Hs (buffer p) (write_pos p) (read_pos p) c) as (Hix & Hn & Hcont); [done..|].
    split; [|split; [|split; [|split; [|split]]]]; cbn [e_pipe e_call put_in taken_out lock].
    + unfold pipe_wf. cbn. split; [done|]. split; [by rewrite length_insert|]. split; [done|].
      split; [apply u32_range|]. lia.
    + cbn in *. apply lookup_lt_Some in Hi. lia.
    + cbn. lia.
    + done.
    + rewrite Nat.sub_succ_l, Nat.sub_diag, (drop_S bytes c i) by (done || lia). unfold in_pipe.
      cbn [size buffer read_pos write_pos fmap list_fmap app take]. by rewrite Hn, Hcont.
    + rewrite Nat.sub_succ_l, Nat.sub_diag, (drop_S bytes c i) by (done || lia). cbn [take]. split; [done|]. by apply take_S_r.
  - injection Hrun as <-. apply lookup_ge_None in Hi. apply still_ok; cbn in *; try done; lia.
Qed.

Lemma call_step_ok p c e :
  pipe_wf p -> call_ok c -> 0 <= lock p <= 1 -> (in_cs c = true -> lock p = 1) ->
  call_step p c = Ok e -> eff_ok p c e.
Proof. destruct c; [apply read_step_ok|apply write_step_ok]. Qed.

Lemma wakeup_ok e l : Forall call_ok l -> Forall call_ok (wakeup e l).
Proof. intros H. apply Forall_fmap. eapply Forall_impl; [done|]. intros c Hc. by apply wake_ok. Qed.

Lemma count_pos l k c : l !! k = Some c -> in_cs c = true -> 0 < Z.of_nat (length (filter in_cs l)).
Proof.
  intros Hk Hc. assert (c ∈ filter in_cs l) as He.
  { apply list_elem_of_filter. split; [by rewrite Hc|]. by eapply list_elem_of_lookup_2. }
  destruct (filter in_cs l); [by apply elem_of_nil in He|]. cbn [length]. lia.
Qed.

Lemma of_call_app k l bs : of_call k (l ++ ((k,.) <$> bs)) = of_call k l ++ bs.
Proof.
  unfold of_call. rewrite filter_app, fmap_app. f_equal. induction bs as [|b bs IH]; [done|]. cbn [fmap list_fmap].
  rewrite filter_cons_True by done. cbn [fmap list_fmap]. by rewrite IH.
Qed.
Lemma of_call_other j k l bs : j <> k -> of_call j (l ++ ((k,.) <$> bs)) = of_call j l.
Proof.
  intros Hn. unfold of_call. rewrite filter_app, fmap_app. rewrite <- (app_nil_r (_ <$> filter _ l)) at 2. f_equal.
  induction bs as [|b bs IH]; [done|]. cbn [fmap list_fmap]. by rewrite filter_cons_False by (cbn; congruence).
Qed.
Lemma wake_recorded e s k c : recorded s k (wake e c) <-> recorded s k c.
Proof. by destruct c as [[]|[]], e. Qed.
Lemma snd_tagged (k : nat) (bs : list Z) : ((k,.) <$> bs).*2 = bs.
Proof. induction bs as [|b bs IH]; [done|]. cbn. by rewrite IH. Qed.

Lemma step_task_inv k s s' : inv s -> step_task k s = Ok s' -> inv s'.
Proof.
  intros (Hp & Hc & Hl & Hl1 & Hq & Hrec) Hrun. unfold step_task in Hrun.
  destruct (tasks s !! k) as [c|] eqn:Hk; [|discriminate].
  apply bind_Ok in Hrun as (e & He & Hrun). injection Hrun as <-.
  apply call_step_ok in He as (Hp' & Hc' & Hlk & Hlk1 & Hq' & Hby); [|done| |done|].
  - pose proof (filter_cs_update (tasks s) k c (e_call e) Hk) as Hn.
    assert (Forall call_ok (<[k := e_call e]> (tasks s))) by by apply Forall_insert.
    split; [done|]. cbn [pipe tasks written consumed]. split; [|split; [|split; [done|split]]].
    + destruct (e_wake e); [by apply wakeup_ok|done].
    + destruct (e_wake e); rewrite ?wakeup_count; lia.
    + rewrite !fmap_app, !snd_tagged, Hq, <- !app_assoc. by rewrite <- Hq'.
    + intros j d Hj. assert (Hd : exists d0, <[k := e_call e]> (tasks s) !! j = Some d0 /\ exists w, d = d0 \/ d = wake w d0).
      { destruct (e_wake e) as [w|]; [|exists d; split; [done|]; exists ReadPos; by left].
        unfold wakeup in Hj. rewrite list_lookup_fmap in Hj. destruct (_ !! j) as [d0|]; [|done]. injection Hj as <-. eauto. }
      destruct Hd as (d0 & Hd0 & w & Hd). set (s1 := State _ _ _ _). assert (Hr : recorded s1 j d0); [|destruct Hd as [-> | ->]; [done|by apply wake_recorded]].
      pose proof (Hrec k c Hk) as Hrk. destruct (decide (j = k)) as [->|Hne].
      * rewrite list_lookup_insert_eq in Hd0 by (by eapply lookup_lt_Some). injection Hd0 as <-.
        destruct c as [? ? ? got|? ? bytes i], (e_call e) as [? ? ? got'|? ? bytes' i']; cbn [recorded] in *; try done.
        -- cbn [s1 consumed]. by rewrite of_call_app, Hrk.
        -- cbn [s1 written]. destruct Hby as [-> Hby]. by rewrite of_call_app, Hrk.
      * rewrite list_lookup_insert_ne in Hd0 by done. specialize (Hrec j d0 Hd0).
        destruct d0; cbn [recorded s1 written consumed] in *; by rewrite of_call_other by done.
  - by eapply Forall_lookup_1.
  - intros Hcs. pose proof (count_pos _ _ _ Hk Hcs). lia.
Qed.

Lemma set_counts_inv s r w l :
  inv s -> Forall call_ok l -> length (filter in_cs l) = length (filter in_cs (tasks s)) ->
  (forall k c, l !! k = Some c -> recorded s k c) ->
  inv (State (set_counts (pipe s) r w) l (written s) (consumed s)).
Proof.
  intros (Hp & Hc & Hl & Hl1 & Hq & _) Hc' Hn Hrec. split; [done|]. split; [done|].
  cbn [pipe tasks written consumed lock set_counts]. rewrite Hn. done.
Qed.

(** Every step keeps the invariant. *)
Lemma step_inv s s' : inv s -> step s s' -> inv s'.
Proof.
  intros Hi Hs. destruct Hs as [k s s' Hs|n mode n' p' s Hs|n n' p' l s Hs].
  - by eapply step_task_inv.
  - unfold pipe_open in Hs.
    repeat match type of Hs with (if ?b then _ else _) = _ => destruct b; try discriminate end;
      injection Hs as _ <-; apply set_counts_inv; try done; apply Hi.
  - unfold pipe_close in Hs. destruct (negb _); [discriminate|]. apply bind_Ok in Hs as (p & Hp & Hs).
    assert (exists r w, p = set_counts (pipe s) r w) as (r & w & ->).
    { destruct (_ =? _) in Hp; [injection Hp as <-; eauto|].
      destruct (_ =? _) in Hp; [injection Hp as <-; eauto|discriminate]. }
    destruct (_ && _)%bool in Hs; [discriminate|]. injection Hs as _ <- <-.
    apply set_counts_inv; [done|apply wakeup_ok, Hi|apply wakeup_count|]. intros k c Hk. unfold wakeup in Hk.
    rewrite list_lookup_fmap in Hk. destruct (tasks s !! k) as [c0|] eqn:Ek; [|done]. injection Hk as <-. by apply wake_recorded, Hi.
Qed.

Lemma start_inv p l :
  pipe_wf p -> lock p = 0 -> read_pos p = write_pos p -> forallb fresh l = true -> inv (State p l [] []).
Proof.
  intros Hp Hl Hpos Hf. split; [done|].
  assert (Hall : Forall (fun c => call_ok c /\ in_cs c = false) l).
  { apply Forall_forall. intros c Hc. apply list_elem_of_In in Hc.
    apply (proj1 (forallb_forall _ _) Hf) in Hc.
    destruct c as [[] ? ? []|[] ? ? []]; cbn in *; try discriminate; split_and!; done || lia. }
  assert (Hno : filter in_cs l = []).
  { clear -Hall. induction Hall as [|c l [_ Hc] _ IH]; [done|]. rewrite filter_cons, Hc. by rewrite decide_False by auto. }
  cbn [tasks pipe written consumed]. rewrite Hno. split; [|split; [done|split; [lia|split]]].
  - eapply Forall_impl; [done|]. by intros c [].
  - unfold in_pipe. by rewrite Hpos, Z.sub_diag.
  - intros k c Hk. assert (Hfr : fresh c = true).
    { apply (proj1 (forallb_forall _ _) Hf), list_elem_of_In. by eapply list_elem_of_lookup_2. }
    destruct c as [[] ? ? []|[] ? ? []]; done.
Qed.

Lemma steps_inv s s' : rtc step s s' -> inv s -> inv s'.
Proof. induction 1; eauto using step_inv. Qed.

(** The size never changes. *)
Lemma call_step_size p c e : call_step p c = Ok e -> size (e_pipe e) = size p.
Proof.
  destruct c as [pc fl want got|pc fl bytes i]; destruct pc; cbn; unfold quiet; intros Hrun; try discriminate;
    try (destruct (bytes !! i));
    repeat match type of Hrun with (if ?b then _ else _) = _ => destruct b; try discriminate end;
    try (apply bind_Ok in Hrun as (? & _ & Hrun)); by injection Hrun as <-.
Qed.
Lemma steps_size s s' : rtc step s s' -> size (pipe s') = size (pipe s).
Proof.
  induction 1 as [|s s1 s2 Hs _ ->]; [done|]. destruct Hs as [k s s1 Hs|n mode n' p' s Hs|n n' p' l s Hs]; cbn.
  - unfold step_task in Hs. destruct (tasks s !! k); [|done]. apply bind_Ok in Hs as (e & He & Hs). injection Hs as <-. by eapply call_step_size.
  - unfold pipe_open in Hs. repeat match type of Hs with (if ?b then _ else _) = _ => destruct b; try discriminate end; by injection Hs as _ <-.
  - unfold pipe_close in Hs. destruct (negb _); [discriminate|]. apply bind_Ok in Hs as (p & Hp & Hs).
    destruct (_ =? _) in Hp; [injection Hp as <-|destruct (_ =? _) in Hp; [injection Hp as <-|discriminate]];
      (destruct (_ && _)%bool in Hs; [discriminate|]; by injection Hs as _ <- _).
Qed.

(** ** Properties *)

(** C38: in every interleaving of the statements of any number of
    [pipe_read]s and [pipe_write]s with openings and closings, at most one
    call is between taking and releasing the lock of the pipe and the lock
    counts it.  The bytes that calls of [pipe_read] have stored for their
    callers, in the order of the steps, followed by what is in the buffer, are
    the bytes that calls of [pipe_write] count as written, and at most 1024 are
    in the buffer; of each call these are a prefix of its bytes, and exactly
    what it has stored.  A [pipe_write] that has returned something else than 0
    has put in all of its bytes and returned their number. *)
Theorem pipe_fifo malloc l s :
  length (malloc PIPE_BUFFER_SIZE) = Z.to_nat PIPE_BUFFER_SIZE -> forallb fresh l = true ->
  rtc step (State (snd (pipe_new malloc)) l [] []) s ->
  lock (pipe s) = Z.of_nat (length (filter in_cs (tasks s))) /\ 0 <= lock (pipe s) <= 1 /\
  (Some <$> (written s).*2) = (Some <$> (consumed s).*2) ++ in_pipe (pipe s) /\
  Z.of_nat (length (in_pipe (pipe s))) <= 1024 /\
  (forall k pc fl want got, tasks s !! k = Some (Reader pc fl want got) -> of_call k (consumed s) = got /\ (length got <= want)%nat) /\
  (forall k pc fl bytes i, tasks s !! k = Some (Writer pc fl bytes i) -> of_call k (written s) = take i bytes) /\
  (forall k fl bytes i r, tasks s !! k = Some (Writer (WDone r) fl bytes i) -> r <> 0 ->
    r = Z.of_nat (length bytes) /\ of_call k (written s) = bytes).
Proof.
  intros Hm Hf Hr. assert (Hsz : forall s s', rtc step s s' -> size (pipe s') = size (pipe s)) by apply steps_size.
  specialize (Hsz _ _ Hr). apply steps_inv in Hr as (Hp & Hc & Hl & Hl1 & Hq & Hrec).
  - split; [done|]. split; [done|]. split; [done|]. split; [|split; [|split]].
    + unfold in_pipe. rewrite length_ring_contents. destruct Hp as (_ & _ & _ & _ & Hle). rewrite Hsz in Hle. cbn in Hle. unfold PIPE_BUFFER_SIZE in Hle.
      pose proof (u32_range (write_pos (pipe s) - read_pos (pipe s))). lia.
    + intros k pc fl want got Hk. split; [by apply (Hrec k _ Hk)|]. by apply (Forall_lookup_1 _ _ _ _ Hc) in Hk.
    + intros k pc fl bytes i Hk. by apply (Hrec k _ Hk).
    + intros k fl bytes i r Hk Hr0. pose proof (Hrec k _ Hk) as Hw. apply (Forall_lookup_1 _ _ _ _ Hc) in Hk as [Hi Hd].
      destruct (Hd Hr0) as [-> ->]. split; [done|]. by rewrite Hw, firstn_all.
  - apply start_inv; try done. unfold pipe_wf, ring_size_ok. cbn.
    split_and!; try done; try lia. exists 4194304. done.
Qed.

(** A 1024-byte buffer of zeros, a reader and a writer of two bytes. *)
Definition zeros (n : Z) : list Z := replicate (Z.to_nat n) 0.
Definition two_calls : list call := [Reader RLock O_RDONLY 8 []; Writer WLock O_WRONLY [65; 66] 0].

(** The tasks run one statement each in the order of the list. *)
Fixpoint run (ks : list nat) (s : state) : res state :=
  match ks with
  | [] => Ok s
  | k :: ks' => s' ← step_task k s; run ks' s'
  end.

Lemma run_steps ks s s' : run ks s = Ok s' -> rtc step s s'.
Proof.
  revert s. induction ks as [|k ks IH]; intros s Hr; cbn [run] in Hr; [injection Hr as ->; constructor|].
  apply bind_Ok in Hr as (s1 & H1 & Hr). eapply rtc_l; [by eapply step_run|]. by apply IH.
Qed.

(** The pipe after both ends were opened. *)
Definition opened (malloc : Z -> list Z) : vfs_pipe := set_counts (snd (pipe_new malloc)) 1 1.

Lemma opened_steps malloc l :
  rtc step (State (snd (pipe_new malloc)) l [] []) (State (opened malloc) l [] []).
Proof.
  eapply rtc_l; [by apply (step_open (PNode O_RDONLY 0) O_RDONLY (PNode O_RDONLY 1) (set_counts (snd (pipe_new malloc)) 1 0))|].
  eapply rtc_l; [by apply (step_open (PNode O_WRONLY 0) O_WRONLY (PNode O_WRONLY 1) (opened malloc))|].
  constructor.
Qed.

Lemma pipe_fifo_witness :
  exists s, rtc step (State (snd (pipe_new zeros)) two_calls [] []) s /\
    (consumed s).*2 = [65; 66] /\ lock (pipe s) = Z.of_nat (length (filter in_cs (tasks s))).
Proof.
  destruct (run (replicate 7 1%nat ++ replicate 4 0%nat) (State (opened zeros) two_calls [] [])) as [s|] eqn:Hs;
    [|vm_compute in Hs; discriminate].
  assert (Hr : rtc step (State (snd (pipe_new zeros)) two_calls [] []) s).
  { etrans; [apply opened_steps|]. by apply run_steps in Hs. }
  exists s. split; [done|]. split; [vm_compute in Hs; by injection Hs as <-|].
  apply (pipe_fifo zeros two_calls s); [reflexivity|reflexivity|done].
Defined.

(** a wakeup can be lost.  A reader that found the pipe empty has released
    the lock and is about to sleep when the writer runs [pipe_write] to its
    end; the reader then sleeps although the bytes it waits for are in the
    buffer, the lock is free and the writer has returned 2: no task can run. *)
Theorem lost_wakeup :
  exists s, rtc step (State (snd (pipe_new zeros)) two_calls [] []) s /\
    tasks s = [Reader RAsleep O_RDONLY 8 []; Writer (WDone 2) O_WRONLY [65; 66] 2] /\
    in_pipe (pipe s) = [Some 65; Some 66] /\ lock (pipe s) = 0 /\ 
    forall k s', step_task k s <> Ok s'.
Proof.
  destruct (run ([0; 0; 0] ++ replicate 7 1 ++ [0])%nat (State (opened zeros) two_calls [] [])) as [s|] eqn:Hs;
    [|vm_compute in Hs; discriminate].
  exists s. split; [etrans; [apply opened_steps|]; by apply run_steps in Hs|].
  vm_compute in Hs. injection Hs as <-. split; [done|]. split; [by vm_compute|]. split; [done|].
  by intros [|[|k]] s'.
Qed.
End Pipe.
