(* ===== verification/Vsnprintf.v ===== *)
(** * Formatted output (src/lib/vsnprintf.c)

    The formatter with its states, character by character, on a buffer whose
    cells outside are errors.  A format is an array of bytes with its
    terminator; the arguments are the 32-bit words of the caller's frame; [mem]
    gives the object a [char] pointer points to. *)
From S2P Require Import Prelude CString.

Module Vsnprintf.

(** ** Flags, states, lengths *)
Definition F_ALTERNATE : Z := 1.
Definition F_ZEROPAD : Z := 2.
Definition F_LEFT : Z := 4.
Definition F_SPACE : Z := 8.
Definition F_PLUS : Z := 16.
Definition F_SIGNED : Z := 32.
Definition F_SMALL : Z := 64.
Definition has (flags f : Z) : bool := negb (Z.land flags f =? 0).

Inductive pstate := S_DEFAULT | S_FLAGS | S_WIDTH | S_PRECIS | S_LENGTH | S_CONV.

Definition L_CHAR : Z := 1.
Definition L_SHORT : Z := 2.
Definition L_LONG : Z := 3.
Definition L_LLONG : Z := 4.
Definition L_DOUBLE : Z := 5.

Definition is_digit (c : Z) : bool := ((48 <=? c) && (c <=? 57))%bool.

(** [get_atoi(&str)]: the number and the position after it. *)
Fixpoint get_atoi (s : list Z) (k : nat) (n : Z) : res (Z * nat) :=
  match s with
  | [] => Err EOob
  | c :: s' => if is_digit c then get_atoi s' (S k) (n * 10 + c -i 48) else Ok (n, k)
  end.

(** ** The buffer *)
Record out := Out { o_buf : list Z; o_pos : Z }.

Section Buffer.
Variable max : Z.

Definition bputc (c : Z) (o : out) : res out :=
  b ← (if o_pos o <? max then wr (o_buf o) (Z.to_nat (o_pos o)) c else Ok (o_buf o));
  Ok (Out b (o_pos o +u 1)).

(** [while (npad-- > 0) bputc(c)] *)
Fixpoint bput_rep (npad : nat) (c : Z) (o : out) : res out :=
  match npad with
  | O => Ok o
  | S npad' => o ← bputc c o; bput_rep npad' c o
  end.

(** [while ( *s) bputc( *s++)] *)
Fixpoint bput_str (s : list Z) (o : out) : res out :=
  match s with
  | [] => Err EOob
  | c :: s' => if c =? 0 then Ok o else o ← bputc c o; bput_str s' o
  end.

(** [while (i-- > 0) bputc(nbuf[i])] *)
Fixpoint bput_down (nbuf : list Z) (i : nat) (o : out) : res out :=
  match i with
  | O => Ok o
  | S i' => c ← rd nbuf i'; o ← bputc c o; bput_down nbuf i' o
  end.

(** ** Integers *)
Definition DIGITS : list Z := [48; 49; 50; 51; 52; 53; 54; 55; 56; 57; 65; 66; 67; 68; 69; 70; 0].
Definition LDIGITS : list Z := [48; 49; 50; 51; 52; 53; 54; 55; 56; 57; 97; 98; 99; 100; 101; 102; 0].

(** The digits, least significant first. *)
Fixpoint digits_loop (fuel : nat) (digits nbuf : list Z) (i : nat) (n base : Z) : res (list Z * nat) :=
  match fuel with
  | O => Err EFuel
  | S f =>
      d ← rd digits (Z.to_nat (n mod base));
      nbuf ← wr nbuf i d;
      let n := n / base in
      if 0 <? n then digits_loop f digits nbuf (S i) n base else Ok (nbuf, S i)
  end.

(** The sign and what [#] asks for. *)
Definition fill_altb (sign base flags : Z) : res (list Z * nat) :=
  let altb := replicate 8 0 in
  '(altb, j) ← (if negb (sign =? 0) then a ← wr altb 0 sign; Ok (a, 1%nat) else Ok (altb, 0%nat));
  '(altb, j) ←
    (if (has flags F_ALTERNATE && ((base =? 8) || (base =? 16)))%bool then
       a ← wr altb j 48;
       if base =? 16 then a ← wr a (S j) (if has flags F_SMALL then 120 else 88); Ok (a, S (S j))
       else Ok (a, S j)
     else Ok (altb, j));
  a ← wr altb j 0;
  Ok (a, j).

(** Lines 109-131: the padding, the prefix and the digits. *)
Definition put_int (altb : list Z) (j : nat) (nbuf : list Z) (i : nat) (width flags : Z) (o : out) : res out :=
  let len := Z.of_nat i + Z.of_nat j in
  let npad := if len <? width then width - len else 0 in
  '(altb, npad, o) ←
    (if ((0 <? npad) && negb (has flags F_LEFT))%bool then
       '(altb, o) ←
         (if has flags F_ZEROPAD then o ← bput_str altb o; a ← wr altb 0 0; Ok (a, o)
          else Ok (altb, o));
       o ← bput_rep (Z.to_nat npad) (if has flags F_ZEROPAD then 48 else 32) o;
       Ok (altb, -1, o)
     else Ok (altb, npad, o));
  o ← bput_str altb o;
  o ← bput_down nbuf i o;
  if ((0 <? npad) && has flags F_LEFT)%bool then bput_rep (Z.to_nat npad) 32 o else Ok o.

Definition fmt_int (num base width flags : Z) (o : out) : res out :=
  if ((base <? 2) || (16 <? base))%bool then Ok o
  else
    let digits := if has flags F_SMALL then LDIGITS else DIGITS in
    let flags := if has flags F_LEFT then Z.land flags (Z.lnot F_ZEROPAD) else flags in
    let '(n, sign) :=
      if (has flags F_SIGNED && (num <? 0))%bool then (u32 (s64 (- num)), 45)
      else if has flags F_PLUS then (u32 num, 43)
      else if has flags F_SPACE then (u32 num, 32)
      else (u32 num, 0) in
    '(nbuf, i) ← digits_loop 65 digits (replicate 64 0) 0 n base;
    '(altb, j) ← fill_altb sign base flags;
    put_int altb j nbuf i width flags o.

(** ** Characters and strings *)
Definition fmt_chr (c width flags : Z) (o : out) : res out :=
  let npad := if 0 <? width then width - 1 else 0 in
  o ← (if (negb (npad =? 0) && negb (has flags F_LEFT))%bool then bput_rep (Z.to_nat npad) 32 o else Ok o);
  o ← bputc c o;
  if (negb (npad =? 0) && has flags F_LEFT)%bool then bput_rep (Z.to_nat npad) 32 o else Ok o.

Fixpoint slen (s : list Z) (i : Z) : res Z :=
  match s with
  | [] => Err EOob
  | c :: s' => if c =? 0 then Ok i else slen s' (i +u 1)
  end.

Definition fmt_str (s : list Z) (width flags : Z) (o : out) : res out :=
  npad ← (if 0 <? width then l ← slen s 0; Ok (s32 (width -u l)) else Ok 0);
  let npad := if npad <? 0 then 0 else npad in
  o ← (if (negb (npad =? 0) && negb (has flags F_LEFT))%bool then bput_rep (Z.to_nat npad) 32 o else Ok o);
  o ← bput_str s o;
  if (negb (npad =? 0) && has flags F_LEFT)%bool then bput_rep (Z.to_nat npad) 32 o else Ok o.
End Buffer.

(** ** Arguments *)
Definition va_word (ap : list Z) : res (Z * list Z) :=
  match ap with [] => Err EOob | w :: ap' => Ok (w, ap') end.
Definition va_int (ap : list Z) : res (Z * list Z) := '(w, ap) ← va_word ap; Ok (s32 w, ap).
Definition va_llong (ap : list Z) : res (Z * list Z) :=
  '(lo, ap) ← va_word ap; '(hi, ap) ← va_word ap; Ok (s64 (lo + 2 ^ 32 * hi), ap).

(** The number a conversion takes, by its length and its letter. *)
Definition va_num (lflags c : Z) (ap : list Z) : res (Z * list Z) :=
  if lflags =? L_LONG then va_int ap
  else if negb (Z.land lflags (Z.lor L_LLONG L_DOUBLE) =? 0) then va_llong ap
  else if ((c =? 100) || (c =? 105))%bool then va_int ap
  else '(i, ap) ← va_int ap; Ok (u32 i, ap).

(** ** The format *)
Record vs := VS {
  k : nat; state : pstate; flags : Z; width : Z; precision : Z; lflags : Z; ap : list Z; o : out
}.

Section Format.
Variables (mem : Z -> list Z) (size : Z) (fmt : list Z).

(** "(null)" *)
Definition NULL_TEXT : list Z := [40; 110; 117; 108; 108; 41; 0].

Definition is_int_conv (c : Z) : bool :=
  ((c =? 100) || (c =? 105) || (c =? 111) || (c =? 98) || (c =? 117) || (c =? 120) || (c =? 88))%bool.

(** [S_CONV]: what is printed, the arguments left, and the character the loop
    then tests. *)
Definition convert (c flags width lflags : Z) (ap : list Z) (o : out) : res (out * list Z * Z) :=
  if is_int_conv c then
    '(num, ap) ← va_num lflags c ap;
    let '(flags, base) :=
      if ((c =? 100) || (c =? 105))%bool then (Z.lor flags F_SIGNED, 10)
      else if ((c =? 120) || (c =? 88))%bool then (Z.lor flags (if c =? 120 then F_SMALL else 0), 16)
      else if c =? 111 then (flags, 8)
      else if c =? 98 then (flags, 2)
      else (flags, 10) in
    o ← fmt_int size num base width flags o;
    Ok (o, ap, c)
  else if c =? 112 then
    '(w, ap) ← va_word ap;
    o ← fmt_int size (u32 w) 16 width (Z.lor flags (Z.lor F_SMALL F_ALTERNATE)) o;
    Ok (o, ap, c)
  else if c =? 115 then
    '(w, ap) ← va_word ap;
    o ← fmt_str size (if w =? 0 then NULL_TEXT else mem w) width flags o;
    Ok (o, ap, c)
  else if c =? 99 then
    '(w, ap) ← va_int ap;
    let c := u8 w in
    o ← fmt_chr size c width flags o;
    Ok (o, ap, c)
  else if c =? 37 then o ← bputc size c o; Ok (o, ap, c)
  else o ← bputc size 37 o; o ← bputc size c o; Ok (o, ap, c).

(** One iteration of the loop: the new state and [c]. *)
Definition iter (s : vs) : res (vs * Z) :=
  let 'VS k state flags width precision lflags ap o := s in
  c ← rd fmt k;
  match state with
  | S_DEFAULT =>
      if c =? 37 then Ok (VS (S k) S_FLAGS 0 width precision lflags ap o, c)
      else o ← bputc size c o; Ok (VS (S k) S_DEFAULT flags width precision lflags ap o, c)
  | S_FLAGS =>
      let flag f := Ok (VS (S k) S_FLAGS (Z.lor flags f) width precision lflags ap o, c) in
      if c =? 35 then flag F_ALTERNATE
      else if c =? 48 then flag F_ZEROPAD
      else if c =? 45 then flag F_LEFT
      else if c =? 32 then flag F_SPACE
      else if c =? 43 then flag F_PLUS
      else if ((c =? 39) || (c =? 73))%bool then Ok (VS (S k) S_FLAGS flags width precision lflags ap o, c)
      else Ok (VS k S_WIDTH flags 0 precision lflags ap o, c)
  | S_WIDTH =>
      if c =? 42 then
        '(w, ap) ← va_int ap;
        if w <? 0 then Ok (VS (S k) S_WIDTH (Z.lor flags F_LEFT) (s32 (- w)) precision lflags ap o, c)
        else Ok (VS (S k) S_WIDTH flags w precision lflags ap o, c)
      else if (is_digit c && (48 <? c))%bool then
        '(w, k') ← get_atoi (drop k fmt) k 0;
        Ok (VS k' S_WIDTH flags w precision lflags ap o, c)
      else Ok (VS k S_PRECIS flags width (-1) lflags ap o, c)
  | S_PRECIS =>
      if c =? 46 then
        d ← rd fmt (S k);
        '(p, k', ap) ←
          (if is_digit d then '(p, k') ← get_atoi (drop (S k) fmt) (S k) 0; Ok (p, k', ap)
           else if d =? 42 then '(p, ap) ← va_int ap; Ok (p, S k, ap)
           else Ok (precision, S k, ap));
        Ok (VS k' S_LENGTH flags width (if p <? 0 then 0 else p) 0 ap o, c)
      else Ok (VS k S_LENGTH flags width precision 0 ap o, c)
  | S_LENGTH =>
      if c =? 104 then
        Ok (VS (S k) S_LENGTH flags width precision (if lflags =? L_CHAR then L_SHORT else L_CHAR) ap o, c)
      else if c =? 108 then
        Ok (VS (S k) S_LENGTH flags width precision (if lflags =? L_LONG then L_LLONG else L_LONG) ap o, c)
      else if c =? 76 then Ok (VS (S k) S_LENGTH flags width precision L_DOUBLE ap o, c)
      else Ok (VS k S_CONV flags width precision lflags ap o, c)
  | S_CONV =>
      '(o, ap, c) ← convert c flags width lflags ap o;
      Ok (VS (S k) S_DEFAULT flags width precision lflags ap o, c)
  end.

Fixpoint loop (fuel : nat) (s : vs) : res vs :=
  match fuel with
  | O => Err EFuel
  | S f => '(s, c) ← iter s; if c =? 0 then Ok s else loop f s
  end.
End Format.

(** Lines 314-320. *)
Definition terminate (size : Z) (o : out) : res (Z * list Z) :=
  let n := o_pos o -u 1 in
  b ← (if n <? size then wr (o_buf o) (Z.to_nat n) 0
       else if 0 <? size then wr (o_buf o) (Z.to_nat (size - 1)) 0
       else Ok (o_buf o));
  Ok (s32 n, b).

(** Six iterations per character are enough, see [run_item]. *)
Definition vsnprintf (mem : Z -> list Z) (buf : option (list Z)) (size : Z) (fmt ap : list Z)
  : res (Z * list Z) :=
  let '(b, size) := match buf with None => ([], 0) | Some b => (b, size) end in
  s ← loop mem size fmt (6 * length fmt + 6) (VS 0 S_DEFAULT 0 0 0 0 ap (Out b 0));
  terminate size (o s).

(** ** Specification: the text of a conversion *)
Definition spaces (n : Z) : list Z := replicate (Z.to_nat n) 32.

(** [text] in a field of [width] characters. *)
Definition field (flags width : Z) (text : list Z) : list Z :=
  let pad := spaces (width - Z.of_nat (length text)) in
  if has flags F_LEFT then text ++ pad else pad ++ text.

(** The digits of [n] in base [base], least significant first. *)
Fixpoint digits_of (fuel : nat) (base n : Z) : list Z :=
  match fuel with
  | O => []
  | S f => n mod base :: (if 0 <? n / base then digits_of f base (n / base) else [])
  end.
Definition digit_char (small : bool) (d : Z) : Z :=
  if d <? 10 then 48 + d else if small then 87 + d else 55 + d.
Definition number (small : bool) (base n : Z) : list Z :=
  rev (digit_char small <$> digits_of 32 base n).

Definition magnitude (flags num : Z) : Z :=
  if (has flags F_SIGNED && (num <? 0))%bool then u32 (s64 (- num)) else u32 num.
Definition sign_text (flags num : Z) : list Z :=
  if (has flags F_SIGNED && (num <? 0))%bool then [45]
  else if has flags F_PLUS then [43]
  else if has flags F_SPACE then [32] else [].
Definition alt_text (flags base : Z) : list Z :=
  if has flags F_ALTERNATE then
    if base =? 16 then [48; if has flags F_SMALL then 120 else 88]
    else if base =? 8 then [48] else []
  else [].

(** A prefix and digits in a field; zeros go between the two. *)
Definition layout (flags width : Z) (prefix digits : list Z) : list Z :=
  if (has flags F_ZEROPAD && negb (has flags F_LEFT))%bool
  then prefix ++ replicate (Z.to_nat (width - Z.of_nat (length (prefix ++ digits)))) 48 ++ digits
  else field flags width (prefix ++ digits).

Definition int_text (num base width flags : Z) : list Z :=
  layout flags width (sign_text flags num ++ alt_text flags base)
    (number (has flags F_SMALL) base (magnitude flags num)).

(** ** Specification: formats *)
Inductive wspec := WNone | WNum (ds : list Z) | WStar.
Record directive := Dir {
  d_flags : list Z; d_width : wspec; d_prec : option (list Z); d_len : list Z; d_conv : Z
}.
Inductive item := Lit (c : Z) | Conv (d : directive).

Definition enc_width (w : wspec) : list Z :=
  match w with WNone => [] | WNum ds => ds | WStar => [42] end.
Definition enc_prec (p : option (list Z)) : list Z :=
  match p with None => [] | Some ds => 46 :: ds end.
Definition enc_dir (d : directive) : list Z :=
  d_flags d ++ enc_width (d_width d) ++ enc_prec (d_prec d) ++ d_len d ++ [d_conv d].
Definition enc_item (i : item) : list Z :=
  match i with Lit c => [c] | Conv d => 37 :: enc_dir d end.
Definition enc (l : list item) : list Z := l ≫= enc_item.

Definition in_list (l : list Z) (c : Z) : bool := existsb (Z.eqb c) l.
Definition is_flag : Z -> bool := in_list [35; 48; 45; 32; 43; 39; 73].
Definition is_len : Z -> bool := in_list [104; 108; 76].
(** d i o b u x X p s c % *)
Definition is_conv : Z -> bool := in_list [100; 105; 111; 98; 117; 120; 88; 112; 115; 99; 37].

(** Decimal digits of an [int]. *)
Definition int_digits (ds : list Z) : bool := (forallb is_digit ds && (dec_value ds <? 2 ^ 31))%bool.

Definition dir_ok (d : directive) : bool :=
  (forallb is_flag (d_flags d) &&
   match d_width d with
   | WNum (c :: ds) => negb (c =? 48) && int_digits (c :: ds)
   | WNum [] => false
   | _ => true
   end &&
   match d_prec d with Some ds => int_digits ds | None => true end &&
   forallb is_len (d_len d) && is_conv (d_conv d))%bool.
Definition item_ok (i : item) : bool :=
  match i with Lit c => (0 <? c) && (c <? 256) && negb (c =? 37) | Conv d => dir_ok d end.

Definition flag_bit (c : Z) : Z :=
  if c =? 35 then F_ALTERNATE else if c =? 48 then F_ZEROPAD else if c =? 45 then F_LEFT
  else if c =? 32 then F_SPACE else if c =? 43 then F_PLUS else 0.
Definition flags_of (l : list Z) : Z := fold_left (fun f c => Z.lor f (flag_bit c)) l 0.
Definition len_step (lf c : Z) : Z :=
  if c =? 104 then (if lf =? L_CHAR then L_SHORT else L_CHAR)
  else if c =? 108 then (if lf =? L_LONG then L_LLONG else L_LONG)
  else L_DOUBLE.
Definition lflags_of (l : list Z) : Z := fold_left len_step l 0.

(** The flags and the width, with the arguments left. *)
Definition eval_width (w : wspec) (flags : Z) (ap : list Z) : res (Z * Z * list Z) :=
  match w with
  | WNone => Ok (flags, 0, ap)
  | WNum ds => Ok (flags, dec_value ds, ap)
  | WStar => '(w, ap) ← va_int ap;
      Ok (if w <? 0 then (Z.lor flags F_LEFT, s32 (- w), ap) else (flags, w, ap))
  end.

(** The string in an object. *)
Fixpoint c_str (m : list Z) : res (list Z) :=
  match m with
  | [] => Err EOob
  | c :: m' => if c =? 0 then Ok [] else s ← c_str m'; Ok (c :: s)
  end.

Section Render.
Variable mem : Z -> list Z.

(** The text of a conversion.  A [%c] of the character 0 is left out: the
    function stops there. *)
Definition conv_text (c flags width lflags : Z) (ap : list Z) : res (list Z * list Z) :=
  if is_int_conv c then
    '(num, ap) ← va_num lflags c ap;
    let int base flags := Ok (int_text num base width flags, ap) in
    if ((c =? 100) || (c =? 105))%bool then int 10 (Z.lor flags F_SIGNED)
    else if c =? 120 then int 16 (Z.lor flags F_SMALL)
    else if c =? 88 then int 16 flags
    else if c =? 111 then int 8 flags
    else if c =? 98 then int 2 flags
    else int 10 flags
  else if c =? 112 then
    '(w, ap) ← va_word ap;
    Ok (int_text (u32 w) 16 width (Z.lor flags (Z.lor F_SMALL F_ALTERNATE)), ap)
  else if c =? 115 then
    '(w, ap) ← va_word ap;
    s ← c_str (if w =? 0 then NULL_TEXT else mem w);
    Ok (field flags width s, ap)
  else if c =? 99 then
    '(w, ap) ← va_int ap;
    if u8 w =? 0 then Err EAssert else Ok (field flags width [u8 w], ap)
  else Ok ([37], ap).

Definition item_text (i : item) (ap : list Z) : res (list Z * list Z) :=
  match i with
  | Lit c => Ok ([c], ap)
  | Conv d =>
      '(fl, w, ap) ← eval_width (d_width d) (flags_of (d_flags d)) ap;
      conv_text (d_conv d) fl w (lflags_of (d_len d)) ap
  end.

Fixpoint render (l : list item) (ap : list Z) : res (list Z) :=
  match l with
  | [] => Ok []
  | i :: l' => '(t, ap) ← item_text i ap; r ← render l' ap; Ok (t ++ r)
  end.
End Render.

(** ** Lemmas *)

(** *** Fields *)
Lemma length_field flags width text :
  Z.of_nat (length (field flags width text)) = Z.max width (Z.of_nat (length text)).
Proof. unfold field, spaces. destruct (has flags F_LEFT); rewrite length_app, length_replicate; lia. Qed.

(** *** The buffer *)
Section Conc.
Variables (max : Z) (buf0 : list Z).
Hypothesis Hmax : 0 <= max <= Z.of_nat (length buf0).

(** The buffer after the characters of [text]: the first [max] of them are in
    the cells, all of them are counted. *)
Definition conc (text : list Z) : out :=
  Out (splice buf0 0 (take (Z.to_nat max) text)) (Z.of_nat (length text)).
Definition fits (text : list Z) : Prop := Z.of_nat (length text) < 2 ^ 32.

Lemma snoc_app (text s : list Z) c : text ++ c :: s = (text ++ [c]) ++ s.
Proof. by rewrite <- app_assoc. Qed.

Lemma fits_app_l a b : fits (a ++ b) -> fits a.
Proof. unfold fits. rewrite length_app. lia. Qed.

Lemma bputc_conc c text : fits (text ++ [c]) -> bputc max c (conc text) = Ok (conc (text ++ [c])).
Proof.
  unfold fits, bputc, conc. rewrite length_app. cbn [length o_buf o_pos]. intros Hf.
  rewrite u32_small by lia. rewrite Nat2Z.inj_add, Nat2Z.id. destruct (Z.ltb_spec (Z.of_nat (length text)) max).
  - rewrite (take_ge text), (take_ge (text ++ [c])) by (rewrite ?length_app; cbn; lia).
    rewrite wr_in by (rewrite length_splice; lia). cbn [mbind res_bind].
    by rewrite <- splice_snoc by (cbn; lia).
  - cbn [mbind res_bind]. by rewrite take_app_le by lia.
Qed.

Lemma bput_rep_conc n c text :
  fits (text ++ replicate n c) -> bput_rep max n c (conc text) = Ok (conc (text ++ replicate n c)).
Proof.
  revert text. induction n as [|n IH]; intros text Hf; cbn [bput_rep replicate]; [by rewrite app_nil_r|].
  cbn [replicate] in Hf. rewrite (snoc_app text) in Hf |- *.
  rewrite bputc_conc by (by eapply fits_app_l). cbn [mbind res_bind]. by apply IH.
Qed.

Lemma bput_str_conc s r text :
  0 ∉ s -> fits (text ++ s) -> bput_str max (s ++ 0 :: r) (conc text) = Ok (conc (text ++ s)).
Proof.
  revert text. induction s as [|c s IH]; intros text Hs Hf; cbn [app bput_str]; [by rewrite app_nil_r|].
  apply not_elem_of_cons in Hs as [Hc Hs]. replace (c =? 0) with false by lia.
  rewrite (snoc_app text) in Hf |- *.
  rewrite bputc_conc by (by eapply fits_app_l). cbn [mbind res_bind]. by apply IH.
Qed.

Lemma bput_down_conc nbuf i text :
  (i <= length nbuf)%nat -> fits (text ++ rev (take i nbuf)) ->
  bput_down max nbuf i (conc text) = Ok (conc (text ++ rev (take i nbuf))).
Proof.
  revert text. induction i as [|i IH]; intros text Hi Hf; cbn [bput_down]; [by rewrite app_nil_r|].
  destruct (lookup_lt_is_Some_2 nbuf i) as [c Hc]; [lia|].
  rewrite (take_S_r _ _ c Hc), rev_app_distr in Hf |- *. cbn [rev app] in Hf |- *.
  unfold rd. rewrite Hc. cbn [mbind res_bind].
  rewrite (snoc_app text) in Hf |- *.
  rewrite bputc_conc by (by eapply fits_app_l). cbn [mbind res_bind]. apply IH; [lia|done].
Qed.

(** The two loops around the text of [fmt_chr] and [fmt_str]. *)
Lemma padded_conc flags width npad text (body : out -> res out) (t : list Z) :
  npad = Z.max 0 (width - Z.of_nat (length t)) ->
  fits (text ++ field flags width t) ->
  (forall text', fits (text' ++ t) -> body (conc text') = Ok (conc (text' ++ t))) ->
  (o ← (if (negb (npad =? 0) && negb (has flags F_LEFT))%bool then bput_rep max (Z.to_nat npad) 32 (conc text)
        else Ok (conc text));
   o ← body o;
   if (negb (npad =? 0) && has flags F_LEFT)%bool then bput_rep max (Z.to_nat npad) 32 o else Ok o) =
  Ok (conc (text ++ field flags width t)).
Proof.
  intros Hn Hf Hbody. unfold field in *.
  assert (Hsp : spaces (width - Z.of_nat (length t)) = replicate (Z.to_nat npad) 32).
  { unfold spaces. f_equal. lia. }
  rewrite Hsp in *. destruct (has flags F_LEFT); rewrite ?andb_false_r, ?andb_true_r; cbn [negb].
  - cbn [mbind res_bind]. rewrite app_assoc in Hf |- *.
    rewrite Hbody by (by eapply fits_app_l). cbn [mbind res_bind].
    destruct (Z.eqb_spec npad 0) as [->|]; cbn [negb]; [by rewrite app_nil_r|].
    by rewrite bput_rep_conc.
  - rewrite app_assoc in Hf |- *.
    transitivity (o ← body (conc (text ++ replicate (Z.to_nat npad) 32)); Ok o).
    + destruct (Z.eqb_spec npad 0) as [->|]; cbn [negb]; [by rewrite app_nil_r|].
      by rewrite bput_rep_conc by (by eapply fits_app_l).
    + by rewrite Hbody.
Qed.

Lemma fmt_chr_conc c width flags text :
  fits (text ++ field flags width [c]) ->
  fmt_chr max c width flags (conc text) = Ok (conc (text ++ field flags width [c])).
Proof.
  intros Hf. unfold fmt_chr. apply (padded_conc flags width _ text (bputc max c) [c]); [|done|].
  - cbn [length]. destruct (Z.ltb_spec 0 width); lia.
  - intros. by apply bputc_conc.
Qed.

Lemma slen_app s r i :
  0 ∉ s -> 0 <= i -> i + Z.of_nat (length s) < 2 ^ 32 ->
  slen (s ++ 0 :: r) i = Ok (i + Z.of_nat (length s)).
Proof.
  revert i. induction s as [|c s IH]; intros i Hs Hi Hl; cbn [app slen length]; [f_equal; cbn; lia|].
  apply not_elem_of_cons in Hs as [Hc Hs]. replace (c =? 0) with false by lia. cbn [length] in Hl.
  rewrite u32_small by lia. rewrite IH by (done || lia). f_equal. lia.
Qed.

Lemma fmt_str_conc s r width flags text :
  0 ∉ s -> width < 2 ^ 31 -> Z.of_nat (length s) < 2 ^ 31 -> fits (text ++ field flags width s) ->
  fmt_str max (s ++ 0 :: r) width flags (conc text) = Ok (conc (text ++ field flags width s)).
Proof.
  intros Hs Hw Hl Hf. unfold fmt_str. rewrite slen_app by (done || lia). cbn [mbind res_bind].
  transitivity (npad ← Ok (if 0 <? width then width - Z.of_nat (length s) else 0);
    let npad := if npad <? 0 then 0 else npad in
    o ← (if (negb (npad =? 0) && negb (has flags F_LEFT))%bool then bput_rep max (Z.to_nat npad) 32 (conc text) else Ok (conc text));
    o ← bput_str max (s ++ 0 :: r) o;
    if (negb (npad =? 0) && has flags F_LEFT)%bool then bput_rep max (Z.to_nat npad) 32 o else Ok o).
  - destruct (Z.ltb_spec 0 width); [|done]. cbn [mbind res_bind]. rewrite Z.add_0_l.
    replace (s32 (width -u Z.of_nat (length s))) with (width - Z.of_nat (length s)); [done|].
    unfold s32, u32. rewrite Zplus_mod_idemp_l. rewrite Z.mod_small; lia.
  - cbn [mbind res_bind]. apply (padded_conc flags width _ text (bput_str max (s ++ 0 :: r)) s); [|done|].
    + destruct (Z.ltb_spec 0 width); destruct (Z.ltb_spec (width - Z.of_nat (length s)) 0); cbn; lia.
    + intros. by apply bput_str_conc.
Qed.
End Conc.

(** *** Digits *)
Lemma digits_of_length f base n : (1 <= length (digits_of (S f) base n) <= S f)%nat.
Proof.
  revert n. induction f as [|f IH]; intros n.
  - cbn. destruct (0 <? n / base); cbn; lia.
  - remember (S f) as m. cbn [digits_of length]. subst m. destruct (0 <? n / base); [specialize (IH (n / base)); lia|cbn; lia].
Qed.

Lemma digit_rd (small : bool) d :
  0 <= d < 16 -> rd (if small then LDIGITS else DIGITS) (Z.to_nat d) = Ok (digit_char small d).
Proof.
  intros Hd. assert (Hk : exists m : nat, (m < 16)%nat /\ d = Z.of_nat m) by (exists (Z.to_nat d); lia).
  destruct Hk as (m & Hk & ->). rewrite Nat2Z.id.
  do 16 (destruct m as [|m]; [by destruct small|]). lia.
Qed.

Lemma digits_loop_S f digits nbuf i n base :
  digits_loop (S f) digits nbuf i n base =
  (d ← rd digits (Z.to_nat (n mod base));
   nbuf ← wr nbuf i d;
   if 0 <? n / base then digits_loop f digits nbuf (S i) (n / base) base else Ok (nbuf, S i)).
Proof. done. Qed.

Lemma digits_loop_spec m f (small : bool) nbuf i n base :
  2 <= base <= 16 -> 0 <= n < base ^ Z.of_nat (S m) -> (S m + i <= length nbuf)%nat ->
  digits_loop (S m + f) (if small then LDIGITS else DIGITS) nbuf i n base =
    let ds := digit_char small <$> digits_of (S m) base n in
    Ok (splice nbuf i ds, (i + length ds)%nat).
Proof.
  revert nbuf i n. induction m as [|m IH]; intros nbuf i n Hb Hn Hi; rewrite Nat.add_succ_l;
    rewrite digits_loop_S; assert (0 <= n mod base < 16) by (pose proof (Z.mod_pos_bound n base); lia);
    rewrite digit_rd by done; cbn [mbind res_bind]; rewrite wr_in by lia; cbn [mbind res_bind].
  - change (Z.of_nat 1) with 1 in Hn. rewrite Z.pow_1_r in Hn. rewrite Z.div_small by lia. cbn [Z.ltb Z.compare].
    cbn [digits_of]. rewrite Z.div_small by lia. cbn. rewrite <- splice_single by lia. f_equal. f_equal. lia.
  - assert (Hd : 0 <= n / base < base ^ Z.of_nat (S m)).
    { split; [apply Z.div_pos; lia|]. apply Z.div_lt_upper_bound; [lia|].
      rewrite <- Z.pow_succ_r by lia. rewrite <- Nat2Z.inj_succ. apply Hn. }
    remember (S m) as m'. cbn [digits_of]. destruct (Z.ltb_spec 0 (n / base)).
    + subst m'. rewrite IH by (rewrite ?length_insert; lia || done). cbn zeta. cbn [fmap list_fmap length].
      pose proof (digits_of_length m base (n / base)).
      rewrite splice_cons by (rewrite length_fmap; lia). f_equal. f_equal. lia.
    + cbn. rewrite <- splice_single by lia. f_equal. f_equal. lia.
Qed.

Lemma fill_altb_spec sign base flags :
  exists r, let p := (if sign =? 0 then [] else [sign]) ++ alt_text flags base in
    fill_altb sign base flags = Ok (p ++ 0 :: r, length p) /\ 0 ∉ p.
Proof.
  assert (H0 : 0 ∉ (if sign =? 0 then [] else [sign]) ++ alt_text flags base).
  { rewrite not_elem_of_app. split.
    - destruct (Z.eqb_spec sign 0); [apply not_elem_of_nil|]. rewrite list_elem_of_singleton. lia.
    - unfold alt_text. repeat case_match; rewrite ?not_elem_of_cons; auto using not_elem_of_nil. }
  unfold fill_altb, alt_text in *.
  destruct (sign =? 0), (has flags F_ALTERNATE), (base =? 16) eqn:E16, (base =? 8) eqn:E8; try lia;
    cbn [orb andb negb mbind res_bind app] in *; eexists; split; try apply H0; cbn; reflexivity.
Qed.

Lemma magnitude_range flags num : 0 <= magnitude flags num < 2 ^ 32.
Proof. unfold magnitude. case_match; apply u32_range. Qed.

Lemma base_pow_32 base : 2 <= base <= 16 -> 2 ^ 32 <= base ^ Z.of_nat 32.
Proof. intros. change (2 ^ 32) with (2 ^ Z.of_nat 32). apply Z.pow_le_mono_l. lia. Qed.

Lemma has_clear flags f : has (Z.land flags (Z.lnot F_ZEROPAD)) F_ZEROPAD = false /\
  (f = F_LEFT \/ f = F_ALTERNATE \/ f = F_SMALL \/ f = F_SPACE \/ f = F_PLUS \/ f = F_SIGNED ->
   has (Z.land flags (Z.lnot F_ZEROPAD)) f = has flags f).
Proof.
  unfold has. rewrite <- !Z.land_assoc. split; [by rewrite Z.land_0_r|].
  by intros [->|[->|[->|[->|[->| ->]]]]].
Qed.

(** The flags after [F_LEFT] has cancelled [F_ZEROPAD]. *)
Definition left_flags (flags : Z) : Z := if has flags F_LEFT then Z.land flags (Z.lnot F_ZEROPAD) else flags.
Lemma left_flags_has flags :
  has (left_flags flags) F_LEFT = has flags F_LEFT /\
  has (left_flags flags) F_ZEROPAD = (has flags F_ZEROPAD && negb (has flags F_LEFT))%bool /\
  has (left_flags flags) F_ALTERNATE = has flags F_ALTERNATE /\
  has (left_flags flags) F_SMALL = has flags F_SMALL /\
  has (left_flags flags) F_PLUS = has flags F_PLUS /\
  has (left_flags flags) F_SPACE = has flags F_SPACE /\
  has (left_flags flags) F_SIGNED = has flags F_SIGNED.
Proof.
  unfold left_flags. destruct (has flags F_LEFT) eqn:E; cbn [negb]; rewrite ?andb_false_r, ?andb_true_r; [|done].
  pose proof (fun f => proj2 (has_clear flags f)) as Hc. destruct (has_clear flags 0) as [H0 _].
  rewrite <- E. split_and!; first [done|apply Hc; by auto 10].
Qed.

Lemma put_int_conc max buf0 p r nbuf ds width flags text :
  0 <= max <= Z.of_nat (length buf0) -> 0 ∉ p -> take (length ds) nbuf = rev ds ->
  (length ds <= length nbuf)%nat -> (has flags F_LEFT = true -> has flags F_ZEROPAD = false) ->
  fits (text ++ layout flags width p ds) ->
  put_int max (p ++ 0 :: r) (length p) nbuf (length ds) width flags (conc max buf0 text) =
    Ok (conc max buf0 (text ++ layout flags width p ds)).
Proof.
  intros Hmax H0 Hnb Hnl HLZ Hf. unfold put_int.
  replace (Z.of_nat (length ds) + Z.of_nat (length p)) with (Z.of_nat (length (p ++ ds)))
    by (rewrite length_app; lia).
  set (len := Z.of_nat (length (p ++ ds))). unfold layout, field in *. fold len in Hf |- *.
  assert (Hdown : forall text', fits (text' ++ ds) ->
    bput_down max nbuf (length ds) (conc max buf0 text') = Ok (conc max buf0 (text' ++ ds))).
  { intros text' Hf'. rewrite bput_down_conc; rewrite ?Hnb, ?rev_involutive; done. }
  assert (Hpad : Z.to_nat (if len <? width then width - len else 0) = Z.to_nat (width - len)) by (destruct (Z.ltb_spec len width); lia).
  rewrite Hpad. unfold spaces in *. destruct (has flags F_LEFT) eqn:HL.
  - rewrite HLZ in * by done. cbn [andb negb] in *. rewrite andb_false_r. cbn [mbind res_bind].
    rewrite !app_assoc in Hf |- *.
    rewrite bput_str_conc by eauto using fits_app_l. cbn [mbind res_bind].
    rewrite Hdown by eauto using fits_app_l. cbn [mbind res_bind]. rewrite Hpad, andb_true_r.
    destruct (0 <? (if len <? width then width - len else 0)) eqn:Hw; [by rewrite bput_rep_conc|].
    replace (Z.to_nat (width - len)) with O by (destruct (Z.ltb_spec len width); lia). by rewrite app_nil_r.
  - rewrite andb_true_r. cbn [negb andb] in *. rewrite andb_true_r in *.
    destruct (0 <? (if len <? width then width - len else 0)) eqn:Hw; cbn [andb] in *.
    + destruct (has flags F_ZEROPAD); cbn [mbind res_bind] in *.
      * rewrite !app_assoc in Hf |- *.
        rewrite bput_str_conc by eauto using fits_app_l. cbn [mbind res_bind].
        rewrite wr_in by (rewrite length_app; cbn; lia). cbn [mbind res_bind].
        rewrite bput_rep_conc by eauto using fits_app_l. cbn [mbind res_bind].
        replace (<[0%nat := 0]> (p ++ 0 :: r)) with ([] ++ 0 :: tail (p ++ 0 :: r)) by (by destruct p).
        rewrite bput_str_conc; [|done|apply not_elem_of_nil|rewrite app_nil_r; by eapply fits_app_l].
        cbn [mbind res_bind]. rewrite app_nil_r, Hdown by done. by rewrite andb_false_r.
      * rewrite app_assoc in Hf |- *.
        rewrite bput_rep_conc by eauto using fits_app_l. cbn [mbind res_bind].
        rewrite app_assoc in Hf |- *.
        rewrite bput_str_conc by eauto using fits_app_l. cbn [mbind res_bind].
        rewrite Hdown by done. cbn [mbind res_bind]. by rewrite andb_false_r.
    + replace (Z.to_nat (width - len)) with O in * by (destruct (Z.ltb_spec len width); lia). cbn [replicate app mbind res_bind] in *.
      assert (Hgen : fits (text ++ p ++ ds)) by (by destruct (has flags F_ZEROPAD)).
      rewrite app_assoc in Hgen.
      rewrite bput_str_conc by eauto using fits_app_l. cbn [mbind res_bind].
      rewrite Hdown by done. cbn [mbind res_bind]. rewrite andb_false_r, <- app_assoc.
      by destruct (has flags F_ZEROPAD).
Qed.

Lemma fmt_int_conc max buf0 num base width flags text :
  0 <= max <= Z.of_nat (length buf0) -> 2 <= base <= 16 ->
  fits (text ++ int_text num base width flags) ->
  fmt_int max num base width flags (conc max buf0 text) =
    Ok (conc max buf0 (text ++ int_text num base width flags)).
Proof.
  intros Hmax Hb Hf. unfold fmt_int. replace ((base <? 2) || (16 <? base))%bool with false by lia.
  fold (left_flags flags). pose proof (left_flags_has flags) as (HL & HZ & HA & HSm & HP & HSp & HSi).
  set (fl := left_flags flags) in *. rewrite HP, HSp, HSi.
  set (sign := if (has flags F_SIGNED && (num <? 0))%bool then 45 else if has flags F_PLUS then 43
    else if has flags F_SPACE then 32 else 0).
  match goal with |- context [let '(_, _) := ?x in _] => replace x with (magnitude flags num, sign) end.
  2:{ unfold magnitude, sign. by repeat case_match. }
  rewrite (digits_loop_spec 31 33 (has flags F_SMALL) (replicate 64 0) 0);
    [|done| |rewrite length_replicate; lia].
  2:{ pose proof (magnitude_range flags num). pose proof (base_pow_32 base Hb). lia. }
  cbn zeta. cbn [mbind res_bind]. set (ds := digit_char (has flags F_SMALL) <$> digits_of 32 base (magnitude flags num)).
  pose proof (digits_of_length 31 base (magnitude flags num)) as Hdl.
  destruct (fill_altb_spec sign base fl) as (r & Hfill & H0). rewrite Hfill. cbn [mbind res_bind].
  assert (Hp : (if sign =? 0 then [] else [sign]) ++ alt_text fl base = sign_text flags num ++ alt_text flags base).
  { unfold alt_text, sign_text, sign. rewrite HA, HSm. by repeat case_match. }
  rewrite Hp in *. unfold int_text in *.
  change (number (has flags F_SMALL) base (magnitude flags num)) with (rev ds) in *.
  replace (layout flags width) with (layout fl width) in *.
  2:{ unfold layout, field. rewrite HL, HZ. by destruct (has flags F_LEFT); rewrite ?andb_false_r, ?andb_true_r. }
  rewrite Nat.add_0_l. rewrite <- (length_rev ds). apply put_int_conc; try done.
  - rewrite length_rev, rev_involutive. apply (splice_read (replicate 64 0) 0). rewrite length_replicate.
    unfold ds. rewrite length_fmap. lia.
  - rewrite length_rev, length_splice; rewrite length_replicate; unfold ds; rewrite length_fmap; lia.
  - rewrite HL, HZ. intros ->. by rewrite andb_false_r.
Qed.

(** *** The states *)
Lemma get_atoi_digits ds c r k n :
  forallb is_digit ds = true -> is_digit c = false -> 0 <= n ->
  fold_left (fun n c => n * 10 + (c - 48)) ds n < 2 ^ 31 ->
  get_atoi (ds ++ c :: r) k n = Ok (fold_left (fun n c => n * 10 + (c - 48)) ds n, (k + length ds)%nat).
Proof.
  revert k n. induction ds as [|d ds IH]; intros k n Hd Hc Hn Hb; cbn [app get_atoi fold_left length] in *.
  - rewrite Hc. f_equal. f_equal. lia.
  - apply andb_prop in Hd as [Hd Hds]. rewrite Hd. unfold is_digit in Hd.
    assert (Hds' : Forall (fun c => 48 <= c <= 57) ds).
    { apply Forall_forall. intros x Hx. apply list_elem_of_In in Hx.
      apply (proj1 (forallb_forall _ _) Hds) in Hx. unfold is_digit in Hx. lia. }
    pose proof (dec_fold_mono ds (n * 10 + (d - 48)) ltac:(lia) Hds').
    rewrite s32_small by lia. replace (n * 10 + d - 48) with (n * 10 + (d - 48)) by lia.
    rewrite IH by (done || lia). f_equal. f_equal. lia.
Qed.

Lemma spaces_neg n : n <= 0 -> spaces n = [].
Proof. intros. unfold spaces. by replace (Z.to_nat n) with O by lia. Qed.

Lemma c_str_app m s : c_str m = Ok s -> 0 ∉ s /\ exists r, m = s ++ 0 :: r.
Proof.
  revert s. induction m as [|c m IH]; intros s Hs; [discriminate|]. cbn [c_str] in Hs.
  destruct (Z.eqb_spec c 0) as [->|Hc].
  - injection Hs as <-. split; [apply not_elem_of_nil|]. by eexists.
  - apply bind_Ok in Hs as (s' & Hs' & Hs). injection Hs as <-. apply IH in Hs' as [H0 [r ->]].
    split; [apply not_elem_of_cons; split; [lia|done]|]. by eexists.
Qed.

Lemma in_list_elem l c : in_list l c = true -> c ∈ l.
Proof.
  unfold in_list. intros H. apply existsb_exists in H as (x & Hx & He). apply list_elem_of_In.
  by replace c with x by lia.
Qed.
(** [in_cases H] splits [c] into the characters of a class. *)
Ltac in_cases H :=
  apply in_list_elem in H;
  repeat (apply elem_of_cons in H as [->|H]); [..|by apply elem_of_nil in H].

Lemma convert_spec mem size buf0 c flags width lflags ap text t ap' :
  0 <= size <= Z.of_nat (length buf0) -> is_conv c = true -> width < 2 ^ 31 ->
  conv_text mem c flags width lflags ap = Ok (t, ap') -> Z.of_nat (length (text ++ t)) < 2 ^ 31 ->
  exists c', c' <> 0 /\
    convert mem size c flags width lflags ap (conc size buf0 text) = Ok (conc size buf0 (text ++ t), ap', c').
Proof.
  intros Hs Hc Hw Ht Hlen. assert (Hf : fits (text ++ t)) by (unfold fits; lia).
  in_cases Hc; unfold conv_text in Ht; unfold convert; cbn [is_int_conv Z.eqb Pos.eqb orb andb] in Ht |- *;
    apply bind_Ok in Ht as ([num ap1] & Hva & Ht) || idtac; rewrite ?Hva; cbn [mbind res_bind];
    try (injection Ht as <- <-; eexists; split; [|rewrite ?Z.lor_0_r, fmt_int_conc by (done || lia); done]; done).
  - apply bind_Ok in Ht as (s & Hcs & Ht). injection Ht as <- <-. apply c_str_app in Hcs as (H0 & r & Hm).
    rewrite Hm. eexists. split; [|rewrite fmt_str_conc; [done|done|done|done| |done]]; [done|].
    pose proof (length_field flags width s). rewrite length_app in Hlen. lia.
  - destruct (Z.eqb_spec (u8 num) 0) as [|Hn]; [discriminate|]. injection Ht as <- <-.
    exists (u8 num). split; [done|]. by rewrite fmt_chr_conc.
  - injection Ht as <- <-. eexists. split; [|by rewrite bputc_conc]. done.
Qed.

Section Runs.
Variables (mem : Z -> list Z) (size : Z) (fmt : list Z).

(** [n] iterations of the loop lead from [s] to [s']. *)
Definition runs (n : nat) (s s' : vs) : Prop :=
  forall f, loop mem size fmt (n + f) s = loop mem size fmt f s'.

Lemma runs_0 s : runs 0 s s.
Proof. by intros f. Qed.
Lemma runs_trans n m s1 s2 s3 : runs n s1 s2 -> runs m s2 s3 -> runs (n + m) s1 s3.
Proof. intros H1 H2 f. rewrite <- Nat.add_assoc, H1. apply H2. Qed.
Lemma runs_1 s s' c : iter mem size fmt s = Ok (s', c) -> c <> 0 -> runs 1 s s'.
Proof. intros Hi Hc f. cbn [Nat.add loop]. rewrite Hi. cbn [mbind res_bind]. by replace (c =? 0) with false by lia. Qed.

Lemma drop_rd k c r : drop k fmt = c :: r -> rd fmt k = Ok c.
Proof. intros H. apply rd_Ok. rewrite <- (Nat.add_0_r k), <- lookup_drop, H. done. Qed.
Lemma drop_next k c r : drop k fmt = c :: r -> drop (S k) fmt = r.
Proof. intros H. rewrite <- Nat.add_1_r, <- drop_drop, H. done. Qed.
Lemma drop_app k (a r : list Z) : drop k fmt = a ++ r -> drop (k + length a) fmt = r.
Proof. intros H. rewrite <- drop_drop, H. apply drop_app_length. Qed.

(** [step_iter Hk] runs one iteration on the character that [Hk] gives. *)
Ltac step_iter Hk :=
  cbn [app] in Hk;
  lazymatch type of Hk with
  | _ = ?c :: _ =>
      apply (runs_1 _ _ c); [unfold iter; rewrite (drop_rd _ _ _ Hk); cbn [mbind res_bind app Z.eqb Pos.eqb orb]|]
  end.

Lemma run_flags fl k f w p lf ap o r :
  forallb is_flag fl = true -> drop k fmt = fl ++ r ->
  runs (length fl) (VS k S_FLAGS f w p lf ap o)
    (VS (k + length fl) S_FLAGS (fold_left (fun f c => Z.lor f (flag_bit c)) fl f) w p lf ap o).
Proof.
  revert k f. induction fl as [|c fl IH]; intros k f Hfl Hk; cbn [length fold_left].
  - rewrite Nat.add_0_r. apply runs_0.
  - cbn [forallb] in Hfl. apply andb_prop in Hfl as [Hc Hfl].
    apply (runs_trans 1 _ _ (VS (S k) S_FLAGS (Z.lor f (flag_bit c)) w p lf ap o)).
    + in_cases Hc; step_iter Hk; try done; cbn [flag_bit Z.eqb Pos.eqb]; by rewrite Z.lor_0_r.
    + rewrite <- Nat.add_succ_comm. apply IH; [done|]. by apply (drop_next _ c).
Qed.

Lemma run_len ls k f w p lf ap o r :
  forallb is_len ls = true -> drop k fmt = ls ++ r ->
  runs (length ls) (VS k S_LENGTH f w p lf ap o)
    (VS (k + length ls) S_LENGTH f w p (fold_left len_step ls lf) ap o).
Proof.
  revert k lf. induction ls as [|c ls IH]; intros k lf Hl Hk; cbn [length fold_left].
  - rewrite Nat.add_0_r. apply runs_0.
  - cbn [forallb] in Hl. apply andb_prop in Hl as [Hc Hl].
    apply (runs_trans 1 _ _ (VS (S k) S_LENGTH f w p (len_step lf c) ap o)).
    + in_cases Hc; step_iter Hk; done.
    + rewrite <- Nat.add_succ_comm. apply IH; [done|]. by apply (drop_next _ c).
Qed.

(** A character at which flags and width end. *)
Definition stops (c : Z) : Prop := is_flag c = false /\ is_digit c = false /\ c <> 42 /\ c <> 0.

Lemma not_in_list l c : in_list l c = false -> Forall (fun x => c <> x) l.
Proof.
  intros H. apply Forall_forall. intros x Hx ->. assert (in_list l x = true); [|congruence].
  apply existsb_exists. exists x. split; [by apply list_elem_of_In|lia].
Qed.

Lemma run_to_width c r k f w p lf ap o :
  is_flag c = false -> c <> 0 -> drop k fmt = c :: r ->
  runs 1 (VS k S_FLAGS f w p lf ap o) (VS k S_WIDTH f 0 p lf ap o).
Proof.
  intros Hc H0 Hk. apply not_in_list in Hc. decompose_Forall. step_iter Hk; [|done].
  repeat match goal with |- context [c =? ?x] => replace (c =? x) with false by lia end. done.
Qed.

Lemma run_to_prec c r k f w p lf ap o :
  stops c -> drop k fmt = c :: r ->
  runs 1 (VS k S_WIDTH f w p lf ap o) (VS k S_PRECIS f w (-1) lf ap o).
Proof.
  intros (_ & Hd & H42 & H0) Hk. step_iter Hk; [|done]. rewrite Hd. by replace (c =? 42) with false by lia.
Qed.

Lemma run_to_conv c r k f w p lf ap o :
  is_len c = false -> c <> 0 -> drop k fmt = c :: r ->
  runs 1 (VS k S_LENGTH f w p lf ap o) (VS k S_CONV f w p lf ap o).
Proof.
  intros Hc H0 Hk. apply not_in_list in Hc. decompose_Forall. step_iter Hk; [|done].
  repeat match goal with |- context [c =? ?x] => replace (c =? x) with false by lia end. done.
Qed.

Lemma int_digits_elim ds c r k :
  int_digits ds = true -> is_digit c = false -> get_atoi (ds ++ c :: r) k 0 = Ok (dec_value ds, (k + length ds)%nat).
Proof.
  unfold int_digits. intros Hd Hc. apply andb_prop in Hd as [Hd Hv]. apply get_atoi_digits; try done. apply Z.ltb_lt, Hv.
Qed.

Definition width_ok (w : wspec) : bool :=
  match w with WNum (c :: ds) => negb (c =? 48) && int_digits (c :: ds) | WNum [] => false | _ => true end.

Lemma run_width ws k f p lf ap o c r f' w' ap' :
  width_ok ws = true -> stops c -> drop k fmt = enc_width ws ++ c :: r ->
  eval_width ws f ap = Ok (f', w', ap') ->
  exists n, (n <= length (enc_width ws))%nat /\
    runs n (VS k S_WIDTH f 0 p lf ap o) (VS (k + length (enc_width ws)) S_WIDTH f' w' p lf ap' o).
Proof.
  intros Hw (Hfl & Hd & H42 & H0) Hk He.
  destruct ws as [|[|d ds]|]; cbn [enc_width width_ok eval_width length app] in *; try discriminate.
  - injection He as <- <- <-. exists 0%nat. split; [done|]. rewrite Nat.add_0_r. apply runs_0.
  - injection He as <- <- <-. exists 1%nat. split; [lia|]. apply andb_prop in Hw as [Hd0 Hw].
    assert (Hdd : is_digit d = true).
    { unfold int_digits in Hw. cbn [forallb] in Hw. destruct (is_digit d); done. }
    assert (d <> 48 /\ d <> 42 /\ d <> 0 /\ 48 < d) by (unfold is_digit in Hdd; lia).
    step_iter Hk; [|lia]. replace (d =? 42) with false by lia. rewrite Hdd. replace (48 <? d) with true by lia.
    cbn [andb]. rewrite Hk. change (d :: ds ++ c :: r) with ((d :: ds) ++ c :: r).
    by rewrite int_digits_elim.
  - exists 1%nat. split; [done|]. rewrite Nat.add_1_r. step_iter Hk; [|done].
    apply bind_Ok in He as ([a ap1] & Ha & He). rewrite Ha. cbn [mbind res_bind].
    destruct (a <? 0); by injection He as <- <- <-.
Qed.

Lemma run_prec ps k f w p lf ap o c r :
  match ps with Some ds => int_digits ds | None => true end = true ->
  stops c -> c <> 46 -> drop k fmt = enc_prec ps ++ c :: r ->
  exists p', runs 1 (VS k S_PRECIS f w p lf ap o) (VS (k + length (enc_prec ps)) S_LENGTH f w p' 0 ap o).
Proof.
  intros Hp (Hfl & Hd & H42 & H0) H46 Hk.
  destruct ps as [[|d ds]|]; cbn [enc_prec length app] in *; eexists; step_iter Hk; try done.
  - rewrite (drop_rd _ c r) by (by apply (drop_next _ 46)). cbn [mbind res_bind]. rewrite Hd.
    replace (c =? 42) with false by lia. cbn [mbind res_bind]. by rewrite Nat.add_1_r.
  - pose proof (drop_next _ _ _ Hk) as Hk'. rewrite (drop_rd _ _ _ Hk'). cbn [mbind res_bind].
    assert (Hdd : is_digit d = true).
    { unfold int_digits in Hp. cbn [forallb] in Hp. destruct (is_digit d); done. }
    rewrite Hdd, Hk'. change (d :: ds ++ c :: r) with ((d :: ds) ++ c :: r). rewrite int_digits_elim by done.
    cbn [mbind res_bind length]. by rewrite Nat.add_succ_comm.
  - replace (c =? 46) with false by lia. by rewrite Nat.add_0_r.
Qed.

(** *** The first character after a part of a directive *)
Lemma conv_stops c : is_conv c = true -> stops c /\ c <> 46 /\ is_len c = false.
Proof. intros Hc. in_cases Hc; unfold stops; split_and!; done. Qed.

Lemma len_head ls c r :
  forallb is_len ls = true -> is_conv c = true ->
  exists d r', ls ++ c :: r = d :: r' /\ stops d /\ d <> 46.
Proof.
  intros Hl Hc. destruct ls as [|l ls].
  - exists c, r. destruct (conv_stops c Hc) as (? & ? & _). done.
  - cbn [forallb] in Hl. apply andb_prop in Hl as [Hl _]. eexists _, _. split; [done|].
    in_cases Hl; unfold stops; split_and!; done.
Qed.

Lemma prec_head ps d r : stops d -> exists c r', enc_prec ps ++ d :: r = c :: r' /\ stops c.
Proof. intros Hd. destruct ps; eexists _, _; split; done. Qed.

Lemma width_head ws d r :
  width_ok ws = true -> stops d -> exists c r', enc_width ws ++ d :: r = c :: r' /\ is_flag c = false /\ c <> 0.
Proof.
  intros Hw (Hf & _ & _ & H0). destruct ws as [|[|c ds]|]; try discriminate; eexists _, _; split; try done.
  cbn [width_ok] in Hw. apply andb_prop in Hw as [Hc Hd]. unfold int_digits in Hd. cbn [forallb] in Hd.
  unfold is_flag, in_list, is_digit in *. cbn [existsb]. lia.
Qed.

Lemma eval_width_bound ws f ap f' w' ap' :
  width_ok ws = true -> eval_width ws f ap = Ok (f', w', ap') -> w' < 2 ^ 31.
Proof.
  intros Hw He. assert (Hs : forall x, s32 x < 2 ^ 31).
  { intros x. unfold s32. pose proof (Z.mod_pos_bound (x + 2 ^ 31) (2 ^ 32)). lia. }
  destruct ws as [|[|d ds]|]; cbn [eval_width width_ok] in *; try discriminate.
  - injection He as _ <- _. lia.
  - injection He as _ <- _. apply andb_prop in Hw as [_ Hw]. unfold int_digits in Hw. lia.
  - apply bind_Ok in He as ([a ap1] & Ha & He). unfold va_int in Ha. apply bind_Ok in Ha as ([x y] & _ & Ha).
    injection Ha as <- <-. destruct (_ <? 0); injection He as _ <- _; apply Hs.
Qed.

Section Items.
Variable buf0 : list Z.
Hypothesis Hsize : 0 <= size <= Z.of_nat (length buf0).

Lemma run_dir d k w0 p0 lf0 ap text r fl w ap1 t ap2 :
  dir_ok d = true -> drop k fmt = enc_dir d ++ r ->
  eval_width (d_width d) (flags_of (d_flags d)) ap = Ok (fl, w, ap1) ->
  conv_text mem (d_conv d) fl w (lflags_of (d_len d)) ap1 = Ok (t, ap2) ->
  Z.of_nat (length (text ++ t)) < 2 ^ 31 ->
  exists n p lf, (n <= 5 + length (enc_dir d))%nat /\
    runs n (VS k S_FLAGS 0 w0 p0 lf0 ap (conc size buf0 text))
      (VS (k + length (enc_dir d)) S_DEFAULT fl w p lf ap2 (conc size buf0 (text ++ t))).
Proof.
  intros Hok Hk Hw Ht Hlen. unfold dir_ok in Hok. to_prop. unfold enc_dir in *.
  destruct d as [fs ws ps ls c]. cbn [d_flags d_width d_prec d_len d_conv] in *. fold (width_ok ws) in *.
  rewrite <- !app_assoc in Hk. cbn [app] in Hk.
  destruct (len_head ls c r) as (d1 & r1 & Hr1 & Hd1 & H46); [done..|].
  destruct (prec_head ps d1 r1 Hd1) as (d2 & r2 & Hr2 & Hd2).
  destruct (width_head ws d2 r2) as (d3 & r3 & Hr3 & Hd3 & H03); [done..|].
  pose proof (drop_app _ _ _ Hk) as Hk1.
  pose proof (drop_app _ _ _ Hk1) as Hk2. pose proof (drop_app _ _ _ Hk2) as Hk3.
  pose proof (drop_app _ _ _ Hk3) as Hk4.
  pose proof (run_flags fs k 0 w0 p0 lf0 ap (conc size buf0 text) _ ltac:(done) Hk) as R1.
  rewrite Hr1, Hr2 in Hk1. pose proof Hk1 as Hk1'. rewrite Hr3 in Hk1'.
  pose proof (run_to_width _ _ _ (flags_of fs) w0 p0 lf0 ap (conc size buf0 text) Hd3 H03 Hk1') as R2.
  destruct (run_width ws (k + length fs) (flags_of fs) p0 lf0 ap (conc size buf0 text) d2 r2 fl w ap1)
    as (n3 & Hn3 & R3); [done..|].
  rewrite Hr1, Hr2 in Hk2. 
  pose proof (run_to_prec d2 r2 _ fl w p0 lf0 ap1 (conc size buf0 text) Hd2 Hk2) as R4.
  rewrite <- Hr2 in Hk2.
  destruct (run_prec ps _ fl w (-1) lf0 ap1 (conc size buf0 text) d1 r1 ltac:(done) Hd1 H46 Hk2) as (p & R5).
  pose proof (run_len ls _ fl w p 0 ap1 (conc size buf0 text) _ ltac:(done) Hk3) as R6.
  fold (lflags_of ls) in R6. destruct (conv_stops c) as (Hc & _ & Hcl); [done|].
  pose proof (run_to_conv c r _ fl w p (lflags_of ls) ap1 (conc size buf0 text) Hcl (proj2 (proj2 (proj2 Hc))) Hk4) as R7.
  destruct (convert_spec mem size buf0 c fl w (lflags_of ls) ap1 text t ap2) as (c' & Hc' & Hconv); [done..|by eapply eval_width_bound|done|done|].
  eexists _, p, (lflags_of ls). split; cycle 1.
  - eapply runs_trans; [exact R1|]. eapply runs_trans; [exact R2|]. eapply runs_trans; [exact R3|].
    eapply runs_trans; [exact R4|]. eapply runs_trans; [exact R5|]. eapply runs_trans; [exact R6|].
    eapply runs_trans; [exact R7|]. apply (runs_1 _ _ c'); [|done].
    unfold iter. rewrite (drop_rd _ _ _ Hk4). cbn [mbind res_bind]. rewrite Hconv. cbn [mbind res_bind].
    do 3 f_equal. rewrite !length_app. cbn [length]. lia.
  - rewrite !length_app. cbn [length]. lia.
Qed.

Lemma run_item it k f0 w0 p0 lf0 ap text r t ap' :
  item_ok it = true -> drop k fmt = enc_item it ++ r -> item_text mem it ap = Ok (t, ap') ->
  Z.of_nat (length (text ++ t)) < 2 ^ 31 ->
  exists n f w p lf, (n <= 6 * length (enc_item it))%nat /\
    runs n (VS k S_DEFAULT f0 w0 p0 lf0 ap (conc size buf0 text))
      (VS (k + length (enc_item it)) S_DEFAULT f w p lf ap' (conc size buf0 (text ++ t))).
Proof.
  intros Hok Hk Ht Hlen. destruct it as [c|d]; cbn [item_ok enc_item item_text length] in *.
  - injection Ht as <- <-. exists 1%nat, f0, w0, p0, lf0. split; [lia|]. rewrite Nat.add_1_r.
    step_iter Hk; [|lia]. replace (c =? 37) with false by lia.
    rewrite bputc_conc; [done|done|unfold fits; lia].
  - apply bind_Ok in Ht as ([[fl w] ap1] & Hw & Ht).
    destruct (run_dir d (S k) w0 p0 lf0 ap text r fl w ap1 t ap') as (n & p & lf & Hn & R); [done| |done..|].
    + by apply (drop_next _ 37).
    + exists (1 + n)%nat, fl, w, p, lf. split; [lia|].
      eapply runs_trans; [|rewrite <- Nat.add_succ_comm; exact R]. by step_iter Hk.
Qed.

Lemma run_items l k f0 w0 p0 lf0 ap text r t :
  forallb item_ok l = true -> drop k fmt = enc l ++ r -> render mem l ap = Ok t ->
  Z.of_nat (length (text ++ t)) < 2 ^ 31 ->
  exists n f w p lf ap', (n <= 6 * length (enc l))%nat /\
    runs n (VS k S_DEFAULT f0 w0 p0 lf0 ap (conc size buf0 text))
      (VS (k + length (enc l)) S_DEFAULT f w p lf ap' (conc size buf0 (text ++ t))).
Proof.
  revert k f0 w0 p0 lf0 ap text t. induction l as [|it l IH]; intros k f0 w0 p0 lf0 ap text t Hok Hk Ht Hlen.
  - injection Ht as <-. rewrite app_nil_r. exists 0%nat, f0, w0, p0, lf0, ap. split; [cbn; lia|].
    cbn [enc mbind list_bind length]. rewrite Nat.add_0_r. apply runs_0.
  - cbn [forallb] in Hok. apply andb_prop in Hok as [Hi Hok]. cbn [render] in Ht.
    apply bind_Ok in Ht as ([t1 ap1] & Hit & Ht). apply bind_Ok in Ht as (t2 & Ht2 & Ht). injection Ht as <-.
    change (enc (it :: l)) with (enc_item it ++ enc l) in *. rewrite <- app_assoc in Hk. rewrite app_assoc in Hlen.
    destruct (run_item it k f0 w0 p0 lf0 ap text (enc l ++ r) t1 ap1) as (n & f & w & p & lf & Hn & R); [done..| |].
    { rewrite length_app in Hlen. lia. }
    destruct (IH (k + length (enc_item it))%nat f w p lf ap1 (text ++ t1) t2)
      as (n' & f' & w' & p' & lf' & ap' & Hn' & R'); [done| |done..|].
    { by apply drop_app. }
    exists (n + n')%nat, f', w', p', lf', ap'. rewrite !length_app. split; [lia|].
    eapply runs_trans; [exact R|]. by rewrite Nat.add_assoc, app_assoc.
Qed.
End Items.
End Runs.

(** *** The value of a number's digits *)
Lemma digits_of_value m base n :
  2 <= base -> 0 <= n < base ^ Z.of_nat (S m) ->
  fold_right (fun d v => v * base + d) 0 (digits_of (S m) base n) = n /\
  Forall (fun d => 0 <= d < base) (digits_of (S m) base n).
Proof.
  revert n. induction m as [|m IH]; intros n Hb Hn; pose proof (Z.mod_pos_bound n base ltac:(lia));
    pose proof (Z.div_mod n base ltac:(lia)).
  - change (Z.of_nat 1) with 1 in Hn. rewrite Z.pow_1_r in Hn. cbn [digits_of].
    rewrite Z.div_small, Z.mod_small by lia. cbn. split; [lia|]. by apply Forall_singleton.
  - assert (Hd : 0 <= n / base < base ^ Z.of_nat (S m)).
    { split; [apply Z.div_pos; lia|]. apply Z.div_lt_upper_bound; [lia|].
      rewrite <- Z.pow_succ_r by lia. rewrite <- Nat2Z.inj_succ. apply Hn. }
    remember (S m) as m'. cbn [digits_of]. destruct (Z.ltb_spec 0 (n / base)).
    + destruct (IH (n / base)) as [Hv Hf]; [done..|]. cbn [fold_right]. rewrite Hv. split; [lia|]. by constructor.
    + cbn. split; [nia|]. by apply Forall_singleton.
Qed.

(** The digits of [number], most significant first. *)
Definition msd (base n : Z) : list Z := rev (digits_of 32 base n).
Lemma number_msd small base n : number small base n = digit_char small <$> msd base n.
Proof. unfold number, msd. by rewrite <- map_rev. Qed.

Lemma msd_value base n :
  2 <= base <= 16 -> 0 <= n < 2 ^ 32 ->
  fold_left (fun v d => v * base + d) (msd base n) 0 = n /\ Forall (fun d => 0 <= d < base) (msd base n).
Proof.
  intros Hb Hn. destruct (digits_of_value 31 base n) as [Hv Hf]; [lia|pose proof (base_pow_32 base); lia|].
  unfold msd. split; [|by apply Forall_rev]. rewrite <- Hv at 2. rewrite <- fold_left_rev_right. by rewrite rev_involutive.
Qed.

Lemma number_10 small n :
  0 <= n < 2 ^ 32 -> dec_value (number small 10 n) = n /\ Forall (fun c => 48 <= c <= 57) (number small 10 n).
Proof.
  intros Hn. destruct (msd_value 10 n) as [Hv Hf]; [lia|done|]. rewrite number_msd. split.
  - rewrite <- Hv at 2. unfold dec_value. generalize 0. clear Hv. induction Hf as [|d l Hd Hf IH]; intros v; [done|].
    cbn [fmap list_fmap fold_left]. fold (fmap (M:=list) (digit_char small)). rewrite IH. f_equal.
    unfold digit_char. replace (d <? 10) with true by lia. lia.
  - apply Forall_fmap. eapply Forall_impl; [done|]. intros d Hd. cbn in Hd. unfold digit_char. cbn.
    replace (d <? 10) with true by lia. lia.
Qed.

Lemma digits_10 n : 0 <= n < 2 ^ 32 -> (1 <= length (digits_of 32 10 n) <= 10)%nat.
Proof.
  intros Hn. split; [apply (digits_of_length 31)|].
  assert (Hl : forall m f n, 0 <= n < 10 ^ Z.of_nat (S m) -> (length (digits_of f 10 n) <= S m)%nat).
  { clear n Hn. induction m as [|m IH]; intros f n Hn; (destruct f as [|f]; [cbn; lia|]); cbn [digits_of length].
    - change (Z.of_nat 1) with 1 in Hn. rewrite Z.pow_1_r in Hn. by rewrite Z.div_small by lia.
    - destruct (0 <? n / 10); [|cbn; lia]. apply le_n_S, IH. split; [apply Z.div_pos; lia|].
      apply Z.div_lt_upper_bound; [lia|]. rewrite <- Z.pow_succ_r by lia. rewrite <- Nat2Z.inj_succ. apply Hn. }
  apply Hl. change (10 ^ Z.of_nat 10) with 10000000000. lia.
Qed.

Lemma unsigned_text x : 0 <= x < 2 ^ 31 -> int_text (u32 (s32 x)) 10 0 0 = number false 10 x.
Proof.
  intros Hx. rewrite s32_small, u32_small by lia. unfold int_text, layout, field, magnitude.
  change (has 0 F_ZEROPAD) with false. change (has 0 F_LEFT) with false. change (has 0 F_SMALL) with false.
  change (has 0 F_SIGNED) with false. cbn [andb].
  change (sign_text 0 x ++ alt_text 0 10) with (@nil Z). cbn [app].
  rewrite spaces_neg by lia. by rewrite u32_small by lia.
Qed.

(** The end of [vsnprintf] when the text fits. *)
Lemma finish_in s b size text :
  Z.of_nat (length text) < size <= Z.of_nat (length b) -> Z.of_nat (length text) < 2 ^ 31 - 1 ->
  o s = conc size b (text ++ [0]) ->
  terminate size (o s) = Ok (Z.of_nat (length text), splice b 0 (text ++ [0])).
Proof.
  intros Hs Hlen ->. unfold terminate. cbn [o_pos o_buf conc]. rewrite length_app, Nat2Z.inj_add. cbn [length].
  replace (Z.of_nat (length text) + Z.of_nat 1 -u 1) with (Z.of_nat (length text)) by (rewrite u32_small; lia).
  rewrite s32_small by lia. replace (Z.of_nat (length text) <? size) with true by lia.
  rewrite take_ge by (rewrite ?length_app; cbn; lia).
  rewrite wr_in by (rewrite length_splice; rewrite ?length_app; cbn; lia). cbn [mbind res_bind].
  do 2 f_equal. rewrite Nat2Z.id, <- splice_snoc by lia. by rewrite list_insert_insert_eq.
Qed.

Lemma format_run mem b size l ap text :
  0 <= size <= Z.of_nat (length b) -> forallb item_ok l = true ->
  render mem l ap = Ok text -> Z.of_nat (length text) < 2 ^ 31 - 1 ->
  exists s, o s = conc size b (text ++ [0]) /\
    loop mem size (enc l ++ [0]) (6 * length (enc l ++ [0]) + 6) (VS 0 S_DEFAULT 0 0 0 0 ap (Out b 0)) = Ok s.
Proof.
  intros Hs Hok Ht Hlen.
  destruct (run_items mem size (enc l ++ [0]) b Hs l 0 0 0 0 0 ap [] [0] text)
    as (n & f & w & p & lf & ap' & Hn & R); [done..|cbn [app]; lia|].
  exists (VS (S (length (enc l))) S_DEFAULT f w p lf ap' (conc size b (text ++ [0]))). split; [done|].
  replace (Out b 0) with (conc size b []) by (unfold conc; by rewrite take_nil, splice_nil).
  rewrite length_app. cbn [length].
  replace (6 * (length (enc l) + 1) + 6)%nat with (n + S (6 * length (enc l) + 11 - n))%nat by lia.
  rewrite R. cbn [loop app]. unfold iter, rd. rewrite Nat.add_0_l, lookup_app_r, Nat.sub_diag by done.
  cbn [lookup list_lookup mbind res_bind Z.eqb]. rewrite bputc_conc; [done|done|].
  unfold fits. rewrite length_app. cbn. lia.
Qed.

(** [vsnprintf] with a buffer that is large enough. *)
Lemma vsnprintf_fits mem buf size l ap text :
  Z.of_nat (length text) < size <= Z.of_nat (length buf) -> Z.of_nat (length text) < 2 ^ 31 - 1 ->
  forallb item_ok l = true -> render mem l ap = Ok text ->
  vsnprintf mem (Some buf) size (enc l ++ [0]) ap = Ok (Z.of_nat (length text), splice buf 0 (text ++ [0])).
Proof.
  intros Hs Hlen Hok Ht. destruct (format_run mem buf size l ap text) as (s & Ho & Hl); [lia|done..|].
  unfold vsnprintf. rewrite Hl. cbn [mbind res_bind]. by apply finish_in.
Qed.

(** A spliced text and its terminator. *)
Lemma splice_text (buf text : list Z) : splice buf 0 (text ++ [0]) = text ++ 0 :: drop (S (length text)) buf.
Proof.
  unfold splice. change (take 0 buf) with (@nil Z). rewrite <- app_assoc. cbn [app]. rewrite length_app. cbn [length].
  do 3 f_equal. lia.
Qed.

(** ** The contract

    The text of a format in the terms of its characters: nothing here depends
    on the flags and the lengths of the formatter. *)
Definition left_flag : Z := 45.
Definition zero_flag : Z := 48.
Definition alt_flag : Z := 35.
Definition plus_flag : Z := 43.
Definition space_flag : Z := 32.
(** d i, and o b u x X p. *)
Definition signed_conv : Z -> bool := in_list [100; 105].
Definition unsigned_conv : Z -> bool := in_list [111; 98; 117; 120; 88; 112].

(** The lengths: none, hh and l take one word of the arguments, ll and L two. *)
Definition len_words (len : list Z) : option nat :=
  if bool_decide (len ∈ [[]; [104; 104]; [108]]) then Some 1%nat
  else if bool_decide (len ∈ [[108; 108]; [76]]) then Some 2%nat else None.

(** Flags, a width of digits or [*], a precision of digits, a length and a
    conversion; [+] and the space only for d and i, [#] not for b, a length only
    for the integers. *)
Definition spec_dir (d : directive) : bool :=
  (forallb (in_list [35; 48; 45; 32; 43; 39; 73]) (d_flags d) &&
   match d_width d with
   | WNum (c :: ds) => negb (c =? 48) && int_digits (c :: ds)
   | WNum [] => false
   | _ => true
   end &&
   match d_prec d with Some ds => int_digits ds | None => true end &&
   (signed_conv (d_conv d) || unsigned_conv (d_conv d) || in_list [115; 99; 37] (d_conv d)) &&
   negb (unsigned_conv (d_conv d) && (in_list (d_flags d) plus_flag || in_list (d_flags d) space_flag)) &&
   negb ((d_conv d =? 98) && in_list (d_flags d) alt_flag) &&
   (if in_list [112; 115; 99; 37] (d_conv d) then bool_decide (d_len d = []) else bool_decide (is_Some (len_words (d_len d)))))%bool.
Definition spec_item (i : item) : bool :=
  match i with Lit c => (0 <? c) && (c <? 256) && negb (c =? 37) | Conv d => spec_dir d end.

(** [prefix] and [body] in a field of [width] characters. *)
Definition in_field (left zeros : bool) (width : Z) (prefix body : list Z) : list Z :=
  let n := Z.to_nat (width - Z.of_nat (length (prefix ++ body))) in
  if left then prefix ++ body ++ replicate n 32
  else if zeros then prefix ++ replicate n 48 ++ body
  else replicate n 32 ++ prefix ++ body.

(** The digits show the low 32 bits of the number. *)
Definition integer_text (fs : list Z) (left : bool) (width c num : Z) : list Z :=
  let small := in_list [120; 112] c in
  let base := if in_list [120; 88; 112] c then 16 else if c =? 111 then 8 else if c =? 98 then 2 else 10 in
  let minus := (signed_conv c && (num <? 0))%bool in
  let sign := if minus then [45] else if in_list fs plus_flag then [43] else if in_list fs space_flag then [32] else [] in
  let alt := if (in_list fs alt_flag || (c =? 112))%bool then
      if base =? 16 then [48; if small then 120 else 88] else if base =? 8 then [48] else [] else [] in
  in_field left (in_list fs zero_flag) width (sign ++ alt) (number small base (Z.abs num mod 2 ^ 32)).

Definition next_arg (ap : list Z) : res (Z * list Z) := match ap with w :: ap => Ok (w, ap) | [] => Err EOob end.
(** A number of one or two words, lower word first. *)
Definition next_num (len : list Z) (signed : bool) (ap : list Z) : res (Z * list Z) :=
  match len_words len with
  | Some 1%nat => '(w, ap) ← next_arg ap; Ok (if signed then s32 w else w mod 2 ^ 32, ap)
  | Some 2%nat =>
      '(lo, ap) ← next_arg ap;
      '(hi, ap) ← next_arg ap;
      Ok (if signed then s64 (lo + 2 ^ 32 * hi) else (lo + 2 ^ 32 * hi) mod 2 ^ 64, ap)
  | _ => Err EOob
  end.

Section Contract.
Variable mem : Z -> list Z.

Definition spec_conv (d : directive) (left : bool) (width : Z) (ap : list Z) : res (list Z * list Z) :=
  let c := d_conv d in
  let fs := d_flags d in
  if c =? 37 then Ok ([37], ap)
  else if c =? 112 then '(w, ap) ← next_arg ap; Ok (integer_text fs left width c (w mod 2 ^ 32), ap)
  else if c =? 115 then
    '(w, ap) ← next_arg ap;
    s ← (if w =? 0 then Ok [40; 110; 117; 108; 108; 41] else c_str (mem w));
    Ok (in_field left false width [] s, ap)
  else if c =? 99 then
    '(w, ap) ← next_arg ap;
    if w mod 2 ^ 8 =? 0 then Err EAssert else Ok (in_field left false width [] [w mod 2 ^ 8], ap)
  else '(num, ap) ← next_num (d_len d) (signed_conv c) ap; Ok (integer_text fs left width c num, ap).

(** A negative width of [*] is one to the left. *)
Definition spec_item_text (i : item) (ap : list Z) : res (list Z * list Z) :=
  match i with
  | Lit c => Ok ([c], ap)
  | Conv d =>
      '(lj, w, ap) ←
        match d_width d with
        | WNone => Ok (false, 0, ap)
        | WNum ds => Ok (false, dec_value ds, ap)
        | WStar => '(w, ap) ← next_arg ap; if s32 w =? - 2 ^ 31 then Err EAssert else Ok (s32 w <? 0, Z.abs (s32 w), ap)
        end;
      spec_conv d (in_list (d_flags d) left_flag || lj) w ap
  end.
Fixpoint spec_text (l : list item) (ap : list Z) : res (list Z) :=
  match l with
  | [] => Ok []
  | i :: l' => '(t, ap) ← spec_item_text i ap; r ← spec_text l' ap; Ok (t ++ r)
  end.
End Contract.

(** *** The contract is the text of the formatter *)
Lemma flag_lor a b n : 0 <= n -> has (Z.lor a b) (2 ^ n) = (has a (2 ^ n) || has b (2 ^ n))%bool.
Proof.
  intros Hn. assert (H : forall x, has x (2 ^ n) = Z.testbit x n).
  { intros x. unfold has. destruct (Z.testbit x n) eqn:E.
    - destruct (Z.eqb_spec (Z.land x (2 ^ n)) 0) as [E0|]; [|done]. apply (f_equal (fun z => Z.testbit z n)) in E0.
      rewrite Z.land_spec, Z.pow2_bits_true, Z.bits_0, E in E0 by done. done.
    - replace (Z.land x (2 ^ n)) with 0; [done|]. symmetry. apply Z.bits_inj'. intros k Hk. rewrite Z.land_spec, Z.bits_0.
      destruct (decide (k = n)) as [->|]; [by rewrite E|]. by rewrite Z.pow2_bits_false, andb_false_r by done. }
  by rewrite !H, Z.lor_spec.
Qed.
Lemma flags_of_has fs n x : 0 <= n -> (forall c, has (flag_bit c) (2 ^ n) = (c =? x)) -> has (flags_of fs) (2 ^ n) = in_list fs x.
Proof.
  intros Hn Hx. unfold flags_of, in_list. assert (H : forall f, has (fold_left (fun f c => Z.lor f (flag_bit c)) fs f) (2 ^ n) = (has f (2 ^ n) || existsb (Z.eqb x) fs)%bool).
  { induction fs as [|c fs IH]; intros f; cbn [fold_left existsb]; [by rewrite orb_false_r|].
    by rewrite IH, flag_lor, Hx, Z.eqb_sym, orb_assoc by done. }
  rewrite H. unfold has. by rewrite Z.land_0_l.
Qed.
Ltac flag_cases := intros c; unfold flag_bit, alt_flag, zero_flag, left_flag, space_flag, plus_flag; repeat match goal with |- context [c =? ?x] => destruct (Z.eqb_spec c x); [by subst|] end; done.
Lemma flags_alt fs : has (flags_of fs) F_ALTERNATE = in_list fs alt_flag.
Proof. apply (flags_of_has fs 0 alt_flag); [done|]. flag_cases. Qed.
Lemma flags_zero fs : has (flags_of fs) F_ZEROPAD = in_list fs zero_flag.
Proof. apply (flags_of_has fs 1 zero_flag); [done|]. flag_cases. Qed.
Lemma flags_left fs : has (flags_of fs) F_LEFT = in_list fs left_flag.
Proof. apply (flags_of_has fs 2 left_flag); [done|]. flag_cases. Qed.
Lemma flags_space fs : has (flags_of fs) F_SPACE = in_list fs space_flag.
Proof. apply (flags_of_has fs 3 space_flag); [done|]. flag_cases. Qed.
Lemma flags_plus fs : has (flags_of fs) F_PLUS = in_list fs plus_flag.
Proof. apply (flags_of_has fs 4 plus_flag); [done|]. flag_cases. Qed.
Lemma flags_none fs n : 5 <= n -> has (flags_of fs) (2 ^ n) = false.
Proof.
  intros Hn. unfold flags_of. assert (H : forall f, has f (2 ^ n) = false -> has (fold_left (fun f c => Z.lor f (flag_bit c)) fs f) (2 ^ n) = false).
  { induction fs as [|c fs IH]; intros f Hf; [done|]. cbn [fold_left]. apply IH. rewrite flag_lor, Hf by lia. cbn [orb].
    assert (Hz : forall k, 0 <= k < 5 -> has (2 ^ k) (2 ^ n) = false).
    { intros k Hk. unfold has. replace (Z.land (2 ^ k) (2 ^ n)) with 0; [done|]. symmetry. apply Z.bits_inj'. intros i Hi.
      rewrite Z.land_spec, Z.bits_0. destruct (decide (i = n)) as [->|]; [by rewrite Z.pow2_bits_false by lia|].
      by rewrite (Z.pow2_bits_false n), andb_false_r by done. }
    unfold flag_bit. repeat match goal with |- context [if ?b then _ else _] => destruct b end;
      [apply (Hz 0)|apply (Hz 1)|apply (Hz 2)|apply (Hz 3)|apply (Hz 4)|]; try lia. unfold has. by rewrite Z.land_0_l. }
  apply H. unfold has. by rewrite Z.land_0_l.
Qed.
Lemma s64_mod32 x : s64 x mod 2 ^ 32 = x mod 2 ^ 32.
Proof. unfold s64. rewrite Zminus_mod. assert (H : forall y, (y mod 2 ^ 64) mod 2 ^ 32 = y mod 2 ^ 32) by (intros y; apply Z.mod_mod_divide; by exists (2 ^ 32)). rewrite H, <- Zminus_mod. f_equal. lia. Qed.
Lemma s32_mod32 x : s32 x mod 2 ^ 32 = x mod 2 ^ 32.
Proof. unfold s32. rewrite Zminus_mod, Zmod_mod, <- Zminus_mod. f_equal. lia. Qed.

Lemma layout_in_field flags width prefix digits :
  layout flags width prefix digits = in_field (has flags F_LEFT) (has flags F_ZEROPAD) width prefix digits.
Proof.
  unfold layout, in_field, field, spaces. destruct (has flags F_LEFT), (has flags F_ZEROPAD); cbn [andb negb]; by rewrite <- ?app_assoc.
Qed.
Lemma int_text_spec fl fs width base num num' :
  has fl F_ZEROPAD = in_list fs zero_flag -> has fl F_PLUS = in_list fs plus_flag -> has fl F_SPACE = in_list fs space_flag ->
  (if has fl F_SIGNED then num' = num else 0 <= num /\ num' mod 2 ^ 32 = num mod 2 ^ 32) ->
  int_text num' base width fl = in_field (has fl F_LEFT) (in_list fs zero_flag) width
    ((if (has fl F_SIGNED && (num <? 0))%bool then [45]
      else if in_list fs plus_flag then [43] else if in_list fs space_flag then [32] else []) ++ alt_text fl base)
    (number (has fl F_SMALL) base (Z.abs num mod 2 ^ 32)).
Proof.
  intros Hz Hp Hs Hn. unfold int_text. rewrite layout_in_field, Hz. f_equal.
  - f_equal. unfold sign_text. rewrite Hp, Hs. destruct (has fl F_SIGNED); [by subst|done].
  - f_equal. unfold magnitude, u32. destruct (has fl F_SIGNED); cbn [andb].
    + subst num'. destruct (Z.ltb_spec num 0); [rewrite s64_mod32; f_equal; lia|]. f_equal. lia.
    + destruct Hn as [? ->]. f_equal. lia.
Qed.

(** The flags of the formatter for a directive, with [lj] for a negative width. *)
Definition means (fl : Z) (fs : list Z) (lj : bool) : Prop :=
  has fl F_ALTERNATE = in_list fs alt_flag /\ has fl F_ZEROPAD = in_list fs zero_flag /\ has fl F_LEFT = (in_list fs left_flag || lj)%bool /\
  has fl F_SPACE = in_list fs space_flag /\ has fl F_PLUS = in_list fs plus_flag /\ has fl F_SIGNED = false /\ has fl F_SMALL = false.
Lemma means_flags fs : means (flags_of fs) fs false.
Proof.
  unfold means. rewrite flags_alt, flags_zero, flags_left, flags_space, flags_plus, orb_false_r.
  split_and!; try done; [apply (flags_none fs 5)|apply (flags_none fs 6)]; lia.
Qed.
Lemma has_lor_bit a b f n : f = 2 ^ n -> 0 <= n -> has (Z.lor a b) f = (has a f || has b f)%bool.
Proof. intros -> Hn. by apply flag_lor. Qed.
Ltac has_lors := repeat first
  [ rewrite (has_lor_bit _ _ F_ALTERNATE 0) by (done || lia) | rewrite (has_lor_bit _ _ F_ZEROPAD 1) by (done || lia)
  | rewrite (has_lor_bit _ _ F_LEFT 2) by (done || lia) | rewrite (has_lor_bit _ _ F_SPACE 3) by (done || lia)
  | rewrite (has_lor_bit _ _ F_PLUS 4) by (done || lia) | rewrite (has_lor_bit _ _ F_SIGNED 5) by (done || lia)
  | rewrite (has_lor_bit _ _ F_SMALL 6) by (done || lia) ].
Lemma means_left fs : means (Z.lor (flags_of fs) F_LEFT) fs true.
Proof.
  destruct (means_flags fs) as (A & B & C & D & E & F & G). unfold means. has_lors. rewrite A, B, C, D, E, F, G.
  split_and!; by rewrite ?orb_false_r, ?orb_true_r.
Qed.

Lemma len_words_lflags len n : len_words len = Some n -> (n = 1%nat /\
    (lflags_of len = 0 \/ lflags_of len = L_SHORT \/ lflags_of len = L_LONG) \/ n = 2%nat /\ (lflags_of len = L_LLONG \/ lflags_of len = L_DOUBLE)) /\
  forallb is_len len = true.
Proof.
  unfold len_words. case_bool_decide as H1.
  - intros E. injection E as <-. rewrite !elem_of_cons in H1. destruct H1 as [->|[->|[->|H1]]]; [..|by apply elem_of_nil in H1];
      (split; [|reflexivity]); left; (split; [done|]); auto.
  - case_bool_decide as H2; [|done]. intros E. injection E as <-. rewrite !elem_of_cons in H2.
    destruct H2 as [->|[->|H2]]; [..|by apply elem_of_nil in H2]; (split; [|reflexivity]); right; (split; [done|]); auto.
Qed.
(** The number that the formatter takes for a conversion of integers. *)
Lemma next_num_va len c ap num ap' : next_num len (signed_conv c) ap = Ok (num, ap') ->
  exists num', va_num (lflags_of len) c ap = Ok (num', ap') /\
    if signed_conv c then num' = num else 0 <= num /\ num' mod 2 ^ 32 = num mod 2 ^ 32.
Proof.
  unfold next_num. intros Hn. destruct (len_words len) as [n|] eqn:Hl; [|done]. apply len_words_lflags in Hl as [Hl _].
  assert (Hsg : signed_conv c = ((c =? 100) || (c =? 105))%bool).
  { unfold signed_conv, in_list. cbn [existsb]. by rewrite orb_false_r. }
  destruct Hl as [[-> Hl]|[-> Hl]].
  - destruct ap as [|w ap1]; [done|]. cbn [next_arg mbind res_bind] in Hn. injection Hn as Hnum <-.
    assert (Hs : va_int (w :: ap1) = Ok (s32 w, ap1)) by done. pose proof (s32_mod32 w). pose proof (Z.mod_pos_bound w (2 ^ 32)).
    assert (Hmod : num mod 2 ^ 32 = w mod 2 ^ 32) by (subst num; destruct (signed_conv c); [done|by rewrite Zmod_mod]).
    destruct Hl as [-> |[-> | ->]]; unfold va_num; cbn [Z.eqb]; rewrite <- ?Hsg.
    1,2: change (negb _) with false; cbn iota; destruct (signed_conv c) eqn:E; rewrite Hs; cbn [mbind res_bind];
      eexists; (split; [done|]); [done|]; split; [lia|]; unfold u32; rewrite Zmod_mod; congruence.
    rewrite Z.eqb_refl, Hs. eexists. split; [done|]. destruct (signed_conv c); [done|]. split; [lia|congruence].
  - destruct ap as [|lo [|hi ap1]]; [done..|]. cbn [next_arg mbind res_bind] in Hn. injection Hn as Hnum <-.
    assert (Hs : va_llong (lo :: hi :: ap1) = Ok (s64 (lo + 2 ^ 32 * hi), ap1)) by done.
    exists (s64 (lo + 2 ^ 32 * hi)). split; [by destruct Hl as [-> | ->]|]. pose proof (Z.mod_pos_bound (lo + 2 ^ 32 * hi) (2 ^ 64)).
    destruct (signed_conv c); [done|]. split; [lia|]. rewrite s64_mod32, <- Hnum. symmetry. apply Z.mod_mod_divide. by exists (2 ^ 32).
Qed.

Section Same.
Variable mem : Z -> list Z.

Lemma spec_integer d fl lj width num num' :
  means fl (d_flags d) lj -> is_int_conv (d_conv d) = true ->
  (if signed_conv (d_conv d) then num' = num else 0 <= num /\ num' mod 2 ^ 32 = num mod 2 ^ 32) ->
  (let c := d_conv d in
   if ((c =? 100) || (c =? 105))%bool then int_text num' 10 width (Z.lor fl F_SIGNED)
   else if c =? 120 then int_text num' 16 width (Z.lor fl F_SMALL)
   else if c =? 88 then int_text num' 16 width fl
   else if c =? 111 then int_text num' 8 width fl
   else if c =? 98 then int_text num' 2 width fl
   else int_text num' 10 width fl) =
  integer_text (d_flags d) (in_list (d_flags d) left_flag || lj) width (d_conv d) num.
Proof.
  destruct d as [fs dw dp dl c]. cbn [d_flags d_conv]. intros (A & B & C & D & E & F & G) Hc Hn. unfold is_int_conv in Hc.
  rewrite !orb_true_iff, !Z.eqb_eq in Hc. cbn zeta.
  unfold integer_text. destruct Hc as [[[[[[-> | ->] | ->] | ->] | ->] | ->] | ->]; cbn [Z.eqb Pos.eqb orb];
    (erewrite int_text_spec; [| | | |has_lors; rewrite ?F; first [exact Hn|by rewrite ?F]]; has_lors; rewrite ?B, ?D, ?E, ?orb_false_r; try done);
    unfold alt_text; has_lors; rewrite ?A, ?C, ?F, ?G, ?orb_false_r; done.
Qed.

Lemma spec_conv_same d fl lj width ap t ap' :
  spec_dir d = true -> means fl (d_flags d) lj -> spec_conv mem d (in_list (d_flags d) left_flag || lj) width ap = Ok (t, ap') ->
  conv_text mem (d_conv d) fl width (lflags_of (d_len d)) ap = Ok (t, ap').
Proof.
  intros Hd Hm Ht. unfold spec_dir in Hd. rewrite !andb_true_iff in Hd. destruct Hd as ((((_ & Hc) & _) & _) & _).
  unfold spec_conv in Ht. unfold conv_text. destruct (is_int_conv (d_conv d)) eqn:Hi.
  - assert (Hno : (d_conv d =? 37) = false /\ (d_conv d =? 112) = false /\ (d_conv d =? 115) = false /\ (d_conv d =? 99) = false).
    { unfold is_int_conv in Hi. rewrite !orb_true_iff, !Z.eqb_eq in Hi. lia. }
    destruct Hno as (E1 & E2 & E3 & E4). rewrite E1, E2, E3, E4 in Ht. apply bind_Ok in Ht as ([num ap1] & Hnum & Ht). injection Ht as <- <-.
    apply next_num_va in Hnum as (num' & -> & Hn). cbn [mbind res_bind]. rewrite <- (spec_integer d fl lj width num num' Hm Hi Hn). cbn zeta.
    repeat match goal with |- context [if ?b then _ else _] => destruct b end; done.
  - assert (Hcs : d_conv d = 112 \/ d_conv d = 115 \/ d_conv d = 99 \/ d_conv d = 37).
    { unfold is_int_conv in Hi. rewrite !orb_false_iff, !Z.eqb_neq in Hi. unfold signed_conv, unsigned_conv in Hc.
      rewrite !orb_true_iff in Hc. destruct Hc as [[Hc|Hc]|Hc]; apply in_list_elem in Hc; rewrite !elem_of_cons, elem_of_nil in Hc; lia. }
    destruct d as [fs dw dp dl c]. cbn [d_flags d_conv d_len] in *. destruct Hm as (A & B & C & D & E & F & G).
    assert (Hfield : forall s, field fl width s = in_field (in_list fs left_flag || lj) false width [] s).
    { intros s. unfold field, in_field, spaces. rewrite C. by destruct (_ || _)%bool. }
    destruct Hcs as [->|[->|[-> | ->]]]; cbn [Z.eqb Pos.eqb] in *.
    + destruct ap as [|w ap1]; [done|]. cbn [next_arg va_word mbind res_bind] in *. injection Ht as <- <-.
      pose proof (Z.mod_pos_bound w (2 ^ 32)). do 2 f_equal. rewrite Z.lor_assoc.
      erewrite int_text_spec with (num := u32 w); [| | | |has_lors; rewrite F; split; [apply u32_range|done]]; has_lors; rewrite ?B, ?D, ?E, ?orb_false_r; try done.
      unfold alt_text, integer_text. has_lors. rewrite A, C, F, G. unfold u32. cbn. by rewrite !orb_true_r, ?orb_false_r.
    + destruct ap as [|w ap1]; [done|]. cbn [next_arg va_word mbind res_bind] in *. apply bind_Ok in Ht as (s & Hs & Ht). injection Ht as <- <-.
      assert (Hs' : c_str (if w =? 0 then NULL_TEXT else mem w) = Ok s) by (destruct (w =? 0); [by injection Hs as <-|done]).
      rewrite Hs'. cbn [mbind res_bind]. by rewrite Hfield.
    + destruct ap as [|w ap1]; [done|]. unfold va_int. cbn [next_arg va_word mbind res_bind] in *.
      assert (Hu : u8 (s32 w) = w mod 2 ^ 8).
      { unfold u8. transitivity ((s32 w mod 2 ^ 32) mod 2 ^ 8); [symmetry; apply Z.mod_mod_divide; by exists (2 ^ 24)|].
        rewrite s32_mod32. apply Z.mod_mod_divide. by exists (2 ^ 24). }
      rewrite Hu. destruct (_ =? 0); [done|]. injection Ht as <- <-. by rewrite Hfield.
    + injection Ht as <- <-. done.
Qed.

Lemma spec_item_same i ap t ap' : spec_item i = true -> spec_item_text mem i ap = Ok (t, ap') ->
  item_ok i = true /\ item_text mem i ap = Ok (t, ap').
Proof.
  intros Hi Ht. destruct i as [c|d]; [done|]. cbn [spec_item item_ok spec_item_text item_text] in *. split.
  - unfold spec_dir in Hi. rewrite !andb_true_iff in Hi. destruct Hi as ((((((Hf & Hw) & Hp) & Hc) & _) & _) & Hl).
    unfold dir_ok. rewrite !andb_true_iff. split_and!; [exact Hf|exact Hw|exact Hp| |].
    + destruct (in_list [112; 115; 99; 37] (d_conv d)).
      * apply bool_decide_eq_true in Hl. by rewrite Hl.
      * apply bool_decide_eq_true in Hl as (n & Hl). by apply len_words_lflags in Hl as [_ Hl].
    + unfold is_conv, signed_conv, unsigned_conv, in_list in *. cbn [existsb] in *. rewrite !orb_true_iff, ?orb_false_r in *. tauto.
  - apply bind_Ok in Ht as ([[lj w] ap1] & Hw & Ht). unfold eval_width. destruct (d_width d) as [|ds|].
    + injection Hw as <- <- <-. cbn [mbind res_bind]. by apply (spec_conv_same d _ false); [|apply means_flags|].
    + injection Hw as <- <- <-. cbn [mbind res_bind]. by apply (spec_conv_same d _ false); [|apply means_flags|].
    + destruct ap as [|v ap2]; [done|]. cbn [next_arg mbind res_bind] in Hw. destruct (Z.eqb_spec (s32 v) (- 2 ^ 31)) as [|Hv]; [done|].
      injection Hw as <- <- <-. unfold va_int. cbn [va_word mbind res_bind]. assert (- 2 ^ 31 <= s32 v < 2 ^ 31) by (unfold s32; pose proof (Z.mod_pos_bound (v + 2 ^ 31) (2 ^ 32)); lia).
      destruct (Z.ltb_spec (s32 v) 0).
      * rewrite (s32_small (- _)) by lia. rewrite Z.abs_neq in Ht by lia. by apply (spec_conv_same d _ true); [|apply means_left|].
      * rewrite Z.abs_eq in Ht by lia. by apply (spec_conv_same d _ false); [|apply means_flags|].
Qed.
Lemma spec_text_same l : forall ap t, forallb spec_item l = true -> spec_text mem l ap = Ok t ->
  forallb item_ok l = true /\ render mem l ap = Ok t.
Proof.
  induction l as [|i l IH]; intros ap t Hl Ht; [done|]. cbn [forallb spec_text render] in *. apply andb_prop in Hl as [Hi Hl].
  apply bind_Ok in Ht as ([t1 ap1] & H1 & Ht). apply bind_Ok in Ht as (r & Hr & Ht).
  apply spec_item_same in H1 as [Hi1 H1]; [|done]. apply IH in Hr as [Hl1 Hr]; [|done].
  rewrite Hi1, Hl1, H1. cbn [mbind res_bind]. by rewrite Hr.
Qed.
End Same.

(** ** Properties *)

(** C39: [vsnprintf] implements its contract.  A format of it is made of plain
    characters and directives: any flags (the plus sign and the space only for
    d and i, [#] not for b), a width of digits or a star, a precision of
    digits, which is skipped, one of the lengths hh, l, ll and L or none, and
    one of the conversions d i o b u x X p s c %.  For arguments for which the
    text of the contract is defined (enough words, strings that end, no c of
    the character 0) it stops, returns the length of the text, stores as much of
    the text as fits before the last cell of the buffer, terminates it with 0
    and leaves the cells behind as they were; with size 0 or no buffer it writes
    nothing.  Of a number of 64 bits the contract asks for the low 32. *)
Theorem vsnprintf_renders mem buf size l ap text :
  0 <= size <= Z.of_nat (length buf) -> size < 2 ^ 32 -> forallb spec_item l = true ->
  spec_text mem l ap = Ok text -> Z.of_nat (length text) < 2 ^ 31 - 1 ->
  vsnprintf mem (Some buf) size (enc l ++ [0]) ap =
    Ok (Z.of_nat (length text),
        if size =? 0 then buf else splice buf 0 (take (Z.to_nat (size - 1)) text ++ [0])) /\
  vsnprintf mem None size (enc l ++ [0]) ap = Ok (Z.of_nat (length text), []).
Proof.
  intros Hs H32 Hsp Hst Hlen. destruct (spec_text_same mem l ap text Hsp Hst) as [Hok Ht]. clear Hsp Hst. unfold vsnprintf. split.
  - destruct (format_run mem buf size l ap text) as (s & Ho & ->); [done..|]. cbn [mbind res_bind].
    destruct (Z.ltb_spec (Z.of_nat (length text)) size).
    + rewrite (finish_in s buf size text) by (done || lia).
      replace (size =? 0) with false by lia. by rewrite take_ge by lia.
    + unfold terminate. rewrite Ho. cbn [o_pos o_buf conc]. rewrite length_app, Nat2Z.inj_add. cbn [length].
      replace (Z.of_nat (length text) + Z.of_nat 1 -u 1) with (Z.of_nat (length text)) by (rewrite u32_small; lia).
      rewrite s32_small by lia. replace (Z.of_nat (length text) <? size) with false by lia.
      rewrite take_app_le by lia. destruct (Z.ltb_spec 0 size).
      * replace (size =? 0) with false by lia.
        rewrite wr_in by (rewrite length_splice; rewrite ?length_take; lia). cbn [mbind res_bind].
        do 2 f_equal. destruct (lookup_lt_is_Some_2 text (Z.to_nat (size - 1))) as [c Hc]; [lia|].
        replace (Z.to_nat size) with (S (Z.to_nat (size - 1))) by lia.
        rewrite (take_S_r _ _ c Hc).
        assert (Hk : Z.to_nat (size - 1) = (0 + length (take (Z.to_nat (size - 1)) text))%nat)
          by (rewrite length_take; lia).
        rewrite Hk at 1. rewrite <- !splice_snoc by (rewrite length_take; lia). by rewrite list_insert_insert_eq.
      * replace size with 0 by lia. change (take (Z.to_nat 0) text) with (@nil Z). by rewrite splice_nil.
  - destruct (format_run mem [] 0 l ap text) as (s & Ho & ->); [done..|]. cbn [mbind res_bind].
    unfold terminate. rewrite Ho. cbn [o_pos o_buf conc]. rewrite length_app, Nat2Z.inj_add. cbn [length].
    replace (Z.of_nat (length text) + Z.of_nat 1 -u 1) with (Z.of_nat (length text))
      by (rewrite u32_small; lia).
    rewrite s32_small by lia. by replace (Z.of_nat (length text) <? 0) with false by lia.
Qed.

(** "a%5d|%-4x|%s%%" with 12, 255 and a pointer to "hi". *)
Definition sample : list item :=
  [Lit 97; Conv (Dir [] (WNum [53]) None [] 100); Lit 124; Conv (Dir [45] (WNum [52]) None [] 120);
   Lit 124; Conv (Dir [] WNone None [] 115); Conv (Dir [] WNone None [] 37)].
Definition hi (p : Z) : list Z := [104; 105; 0].

Lemma vsnprintf_renders_witness :
  vsnprintf hi (Some (replicate 10 33)) 9 (enc sample ++ [0]) [12; 255; 4096] =
    Ok (15, [97; 32; 32; 32; 49; 50; 124; 102; 0; 33]).
Proof.
  exact (proj1 (vsnprintf_renders hi (replicate 10 33) 9 sample [12; 255; 4096]
    [97; 32; 32; 32; 49; 50; 124; 102; 102; 32; 32; 124; 104; 105; 37]
    ltac:(cbn; lia) eq_refl eq_refl eq_refl eq_refl)).
Defined.

(** [atoi] reads back what [vsnprintf] prints for "%u", for every number
    that is an [int], and [vsnprintf] returns the number of its digits. *)
Theorem printf_atoi mem buf size x :
  11 <= size <= Z.of_nat (length buf) -> size < 2 ^ 32 -> 0 <= x < 2 ^ 31 ->
  exists n b, vsnprintf mem (Some buf) size [37; 117; 0] [x] = Ok (n, b) /\ atoi b = Ok x /\
    1 <= n <= 10 /\ length b = length buf.
Proof.
  intros Hs H32 Hx. destruct (number_10 false x) as [Hv Hd]; [lia|].
  set (t := number false 10 x) in *.
  assert (Ht : render mem [Conv (Dir [] WNone None [] 117)] [x] = Ok t).
  { transitivity (@Ok (list Z) (int_text (u32 (s32 x)) 10 0 0 ++ [])); [reflexivity|].
    by rewrite app_nil_r, unsigned_text by lia. }
  assert (Hlen : (1 <= length t <= 10)%nat).
  { unfold t, number. rewrite length_rev, length_fmap. apply digits_10. lia. }
  exists (Z.of_nat (length t)), (splice buf 0 (t ++ [0])). split; [|split; [|split]].
  - change [37; 117; 0] with (enc [Conv (Dir [] WNone None [] 117)] ++ [0]). apply vsnprintf_fits; [lia..|done|done].
  - rewrite splice_text. unfold atoi.
    rewrite atoi_loop_digits; [f_equal; exact Hv|done|rewrite schar_0; lia|lia|fold (dec_value t); lia].
  - lia.
  - rewrite length_splice; [done|]. rewrite length_app. cbn [length]. lia.
Qed.

Lemma printf_atoi_witness :
  exists n b, vsnprintf hi (Some (replicate 12 33)) 12 [37; 117; 0] [1024] = Ok (n, b) /\ atoi b = Ok 1024 /\
    1 <= n <= 10 /\ length b = 12%nat.
Proof. apply (printf_atoi hi (replicate 12 33) 12 1024); cbn; lia. Defined.

(** "%hd" takes two words of the arguments: [L_CHAR] shares a bit with
    [L_DOUBLE] in the test of line 271. *)
Lemma short_takes_two_words mem : va_num L_CHAR 100 [1; 2] = Ok (s64 (1 + 2 ^ 32 * 2), []) /\
  vsnprintf mem (Some (replicate 8 33)) 8 [37; 104; 100; 32; 37; 100; 0] [1; 2] = Err EOob.
Proof. split; reflexivity. Qed.

(** "%#b" prints no prefix, though the comment on [F_ALTERNATE] promises one;
    "%+u" prints a plus sign, which that on [F_PLUS] keeps for signed numbers. *)
Lemma flags_against_comments mem :
  vsnprintf mem (Some (replicate 6 33)) 6 [37; 35; 98; 0] [5] = Ok (3, [49; 48; 49; 0; 33; 33]) /\
  vsnprintf mem (Some (replicate 6 33)) 6 [37; 43; 117; 0] [5] = Ok (2, [43; 53; 0; 33; 33; 33]).
Proof. split; reflexivity. Qed.

(** A format that ends inside a directive loses the last character before it;
    "%" alone makes the result -1. *)
Lemma trailing_percent mem :
  vsnprintf mem (Some (replicate 4 33)) 4 [97; 98; 37; 0] [] = Ok (1, [97; 0; 33; 33]) /\
  vsnprintf mem (Some (replicate 4 33)) 4 [37; 0] [] = Ok (-1, [33; 33; 33; 0]).
Proof. split; reflexivity. Qed.

(** "%.*d" prints "%*d" and "%cx" with the character 0 prints nothing more. *)
Lemma star_precision mem :
  vsnprintf mem (Some (replicate 6 33)) 6 [37; 46; 42; 100; 0] [2; 7] = Ok (3, [37; 42; 100; 0; 33; 33]) /\
  vsnprintf mem (Some (replicate 6 33)) 6 [37; 99; 120; 0] [0] = Ok (0, [0; 33; 33; 33; 33; 33]).
Proof. split; reflexivity. Qed.
End Vsnprintf.
