(* ===== verification/Vsscanf.v ===== *)
(** * Formatted input (src/lib/vsscanf.c)

    The scanner over two arrays of bytes, the string and the format; what it
    stores through its pointer arguments is the list of its writes. *)
From S2P Require Import Prelude CString Vsnprintf.

Module Vsscanf.

Definition isdigit (c : Z) : bool := ((48 <=? c) && (c <=? 57))%bool.
Definition isspace (c : Z) : bool :=
  ((c =? 32) || (c =? 12) || (c =? 10) || (c =? 13) || (c =? 9) || (c =? 11))%bool.

(** ** build_set *)

(** [for (i = prev; i <= next; i++) set[i] = v;] *)
Fixpoint set_range (n : nat) (set : list Z) (i : nat) (v : Z) : res (list Z) :=
  match n with
  | O => Ok set
  | S n' => set ← wr set i v; set_range n' set (S i) v
  end.

(** The loop of lines 66-84: the position of the closing bracket and the table, or
    [None] at the end of the format. *)
Fixpoint set_loop (fuel : nat) (fmt : list Z) (f : nat) (set : list Z) (neg : Z) : res (option (nat * list Z)) :=
  match fuel with
  | O => Err EFuel
  | S fl =>
      let v := if neg =? 0 then 1 else 0 in
      c ← rd fmt f;
      if c =? 0 then Ok None
      else if c =? 45 then
        prev ← rd fmt (f - 1);
        next ← rd fmt (S f);
        set ← (if ((prev =? 91) || (next =? 93))%bool then wr set (Z.to_nat c) v
               else set_range (Z.to_nat (next - prev + 1)) set (Z.to_nat prev) v);
        set_loop fl fmt (S f) set neg
      else if c =? 93 then Ok (Some (f, set))
      else set ← wr set (Z.to_nat c) v; set_loop fl fmt (S f) set neg
  end.

Definition build_set (fmt : list Z) (f len : nat) : res (option (nat * list Z)) :=
  c ← rd fmt f;
  if negb (c =? 91) then Ok None
  else
    let f := S f in
    c ← rd fmt f;
    let '(f, neg) := if c =? 94 then (S f, 1) else (f, 0) in
    f ← (if neg =? 1 then c ← rd fmt f; Ok (if c =? 93 then S f else f) else Ok f);
    set_loop (S (length fmt)) fmt f (replicate len neg) neg.

(** ** Numbers *)
Definition valid_sint (c base : Z) (sign : bool) : bool :=
  if ((base =? 2) && (48 <=? c) && (c <? 50))%bool then true
  else if ((base =? 8) && (48 <=? c) && (c <? 56))%bool then true
  else if ((base =? 10) && (isdigit c || (sign && ((c =? 45) || (c =? 43)))))%bool then true
  else if ((base =? 16) && (isdigit c || ((97 <=? c) && (c <=? 102)) || ((65 <=? c) && (c <=? 70))))%bool then true
  else false.

(** The test of the character [c], in upper case, in the loop of [get_int]. *)
Definition digit_stops (c base : Z) : bool :=
  ((negb (isdigit c) && (negb (base =? 16) || (c <? 65) || (70 <? c))) ||
   (if base =? 2 then 49 <? c else (base =? 8) && (55 <? c)))%bool.

Fixpoint get_int_loop (str : list Z) (s : nat) (width base : Z) (w sign neg xskip : bool) (n : Z)
  : res (Z * nat * bool) :=
  match str with
  | [] => Err EOob
  | c :: str' =>
      let c := schar c in
      if c =? 0 then Ok (n, s, neg)
      else if (sign && negb neg && (base =? 10) && (c =? 45))%bool then
        get_int_loop str' (S s) (if w then s32 (width - 1) else width) base w sign true xskip n
      else if ((base =? 16) && negb xskip && ((c =? 120) || (c =? 88)))%bool then
        get_int_loop str' (S s) width base w sign neg true 0
      else if (w && (width =? 0))%bool then Ok (n, s, neg)
      else
        let width := if w then s32 (width - 1) else width in
        let c := if 97 <=? c then c - 32 else c in
        if digit_stops c base then Ok (n, s, neg)
        else
          let c := if ((base =? 16) && (65 <=? c))%bool then c - 65 + 10 + 48 else c in
          get_int_loop str' (S s) width base w sign neg xskip (s64 (n * base + c - 48))
  end.

(** [get_int(&str, width, base, sign)]: the number and the new position. *)
Definition get_int (str : list Z) (s : nat) (width base : Z) (sign : bool) : res (Z * nat) :=
  if negb ((base =? 2) || (base =? 8) || (base =? 10) || (base =? 16))%bool then Ok (0, s)
  else
    '(n, s, neg) ← get_int_loop (drop s str) s width base (0 <? width) sign false false 0;
    Ok (if ((neg : bool) && (0 <? n))%bool then s64 (- n) else n, s).

(** ** Strings *)

(** [get_str]: the characters taken and the new position; what is stored is
    these characters and a 0. *)
Fixpoint get_str_loop (str : list Z) (s : nat) (set : option (list Z)) (w : bool) (width : Z)
  : res (list Z * nat) :=
  match str with
  | [] => Err EOob
  | c :: str' =>
      if c =? 0 then Ok ([], s)
      else if (w && (width =? 0))%bool then Ok ([], s)
      else
        let width := if w then s32 (width - 1) else width in
        stop ← match set with
               | None => Ok (isspace c)
               | Some t => v ← rd t (Z.to_nat c); Ok (v =? 0)
               end;
        if (stop : bool) then Ok ([], s)
        else '(t, s) ← get_str_loop str' (S s) set w width; Ok (c :: t, s)
  end.
Definition get_str (str : list Z) (s : nat) (set : option (list Z)) (width : Z) : res (list Z * nat) :=
  get_str_loop (drop s str) s set (0 <? width) width.

(** ** The scanner *)
Definition F_SKIP : Z := 1.
Definition F_ALLOC : Z := 2.
Inductive pstate := S_DEFAULT | S_FLAGS | S_WIDTH | S_PRECIS | S_LENGTH | S_CONV.
Definition L_CHAR : Z := 1.
Definition L_SHORT : Z := 2.
Definition L_LONG : Z := 3.
Definition L_LLONG : Z := 4.
Definition L_DOUBLE : Z := 5.

Record sst := SSt {
  fp : nat; sp : nat; state : pstate; flags : Z; width : Z; lflags : Z;
  ap : list Z; writes : list (Z * list Z); n : Z
}.

(** An iteration goes on with the next character of the format or leaves the
    loop. *)
Inductive outcome := Continue (s : sst) | Break (s : sst).

Section Scan.
Variables (str fmt : list Z).

(** [while (isspace( *str)) str++;] *)
Fixpoint skip_space (fuel : nat) (s : nat) : res nat :=
  match fuel with
  | O => Err EFuel
  | S f => c ← rd str s; if isspace c then skip_space f (S s) else Ok s
  end.

(** The bytes of [num] at its length. *)
Definition num_bytes (lflags num : Z) : list Z :=
  if ((lflags =? L_DOUBLE) || (lflags =? L_LLONG))%bool then le_split 8 num
  else if lflags =? L_LONG then le_split 4 num
  else if lflags =? L_SHORT then le_split 2 num
  else if lflags =? L_CHAR then le_split 1 num
  else le_split 4 num.

(** [strchr("douixXb", c)], which finds the terminator too. *)
Definition int_conv (c : Z) : bool :=
  ((c =? 100) || (c =? 111) || (c =? 117) || (c =? 105) || (c =? 120) || (c =? 88) || (c =? 98) || (c =? 0))%bool.

(** Lines 265-338. *)
Definition scan_conv (x : sst) : res outcome :=
  let 'SSt f s _ flags width lflags ap wr n := x in
  let skip := negb (Z.land flags F_SKIP =? 0) in
  c ← rd fmt f;
  if int_conv c then
    let base := if c =? 98 then 2 else if c =? 111 then 8 else if ((c =? 120) || (c =? 88))%bool then 16 else 10 in
    let sign := ((c =? 100) || (c =? 105))%bool in
    s ← skip_space (S (length str)) s;
    d ← rd str s;
    if negb (valid_sint (schar d) base sign) then Ok (Break (SSt f s S_DEFAULT flags width lflags ap wr n))
    else
      '(num, s) ← get_int str s width base sign;
      if skip then Ok (Continue (SSt f s S_DEFAULT flags width lflags ap wr n))
      else
        '(p, ap) ← Vsnprintf.va_word ap;
        Ok (Continue (SSt f s S_DEFAULT flags width lflags ap (wr ++ [(p, num_bytes lflags num)]) (n +u 1)))
  else if c =? 99 then
    if skip then Ok (Continue (SSt f (S s) S_DEFAULT flags width lflags ap wr n))
    else
      '(p, ap) ← Vsnprintf.va_word ap;
      d ← rd str s;
      Ok (Continue (SSt f (S s) S_DEFAULT flags width lflags ap (wr ++ [(p, [d])]) (n +u 1)))
  else if c =? 115 then
    if skip then '(_, s) ← get_str str s None width; Ok (Continue (SSt f s S_DEFAULT flags width lflags ap wr n))
    else
      '(p, ap) ← Vsnprintf.va_word ap;
      '(t, s) ← get_str str s None width;
      Ok (Continue (SSt f s S_DEFAULT flags width lflags ap (wr ++ [(p, t ++ [0])]) (n +u 1)))
  else if c =? 91 then
    r ← build_set fmt f 256;
    match r with
    | None => Ok (Break (SSt f s S_DEFAULT flags width lflags ap wr n))
    | Some (f, set) =>
        if skip then '(_, s) ← get_str str s (Some set) width; Ok (Continue (SSt f s S_DEFAULT flags width lflags ap wr n))
        else
          '(p, ap) ← Vsnprintf.va_word ap;
          '(t, s) ← get_str str s (Some set) width;
          Ok (Continue (SSt f s S_DEFAULT flags width lflags ap (wr ++ [(p, t ++ [0])]) n))
    end
  else if c =? 37 then
    d ← rd str s;
    if negb (d =? 37) then Ok (Break (SSt f s S_DEFAULT flags width lflags ap wr n))
    else Ok (Continue (SSt f (S s) S_DEFAULT flags width lflags ap wr n))
  else Ok (Break x).

(** Lines 257-264 and what follows. *)
Definition scan_length (x : sst) : res outcome :=
  let 'SSt f s _ flags width lflags ap wr n := x in
  c ← rd fmt f;
  let len l := Ok (Continue (SSt f s S_LENGTH flags width l ap wr n)) in
  if c =? 104 then len (if lflags =? L_CHAR then L_SHORT else L_CHAR)
  else if c =? 108 then len (if lflags =? L_LONG then L_LLONG else L_LONG)
  else if c =? 76 then len L_DOUBLE
  else scan_conv (SSt f s S_CONV flags width lflags ap wr n).

(** Lines 251-256 and what follows. *)
Definition scan_width (x : sst) : res outcome :=
  let 'SSt f s _ flags width _ ap wr n := x in
  c ← rd fmt f;
  '(width, f) ← (if (isdigit c && (48 <? c))%bool then '(w, f) ← get_int fmt f 0 10 false; Ok (s32 w, f) else Ok (width, f));
  scan_length (SSt f s S_LENGTH flags width 0 ap wr n).

(** The body of the loop. *)
Definition scan_step (x : sst) : res outcome :=
  let 'SSt f s state flags width lflags ap wr n := x in
  c ← rd fmt f;
  match state with
  | S_DEFAULT =>
      if c =? 37 then Ok (Continue (SSt f s S_FLAGS 0 width lflags ap wr n))
      else if isspace c then s ← skip_space (S (length str)) s; Ok (Continue (SSt f s S_DEFAULT flags width lflags ap wr n))
      else
        d ← rd str s;
        let y := SSt f (S s) S_DEFAULT flags width lflags ap wr n in
        Ok (if c =? d then Continue y else Break y)
  | S_FLAGS =>
      if c =? 42 then Ok (Continue (SSt f s S_FLAGS F_SKIP width lflags ap wr n))
      else if c =? 109 then
        Ok (Continue (SSt f s S_FLAGS (if Z.land flags F_SKIP =? 0 then F_ALLOC else flags) width lflags ap wr n))
      else scan_width (SSt f s S_WIDTH flags 0 lflags ap wr n)
  | S_LENGTH => scan_length x
  | _ => Ok (Continue x)
  end.

Fixpoint scan_loop (fuel : nat) (x : sst) : res sst :=
  match fuel with
  | O => Err EFuel
  | S fl =>
      c ← rd fmt (fp x);
      if c =? 0 then Ok x
      else
        d ← rd str (sp x);
        if d =? 0 then Ok x
        else
          r ← scan_step x;
          match r with
          | Break x => Ok x
          | Continue (SSt f s st flags width lflags ap wr n) =>
              scan_loop fl (SSt (S f) s st flags width lflags ap wr n)
          end
  end.
End Scan.

(** The result and the writes. *)
Definition vsscanf (str fmt ap : list Z) : res (Z * list (Z * list Z)) :=
  x ← scan_loop str fmt (S (length fmt)) (SSt 0 0 S_DEFAULT 0 0 0 ap [] 0);
  Ok (s32 (n x), writes x).
(** ** Specification: fields

    The formats that [vsnprintf] and [vsscanf] both understand: conversions
    with a separator between two of them. *)
Inductive field := FInt (x : Z) | FUns (x : Z) | FHex (x : Z) | FStr (p : Z).

Definition conv_of (f : field) : Z :=
  match f with FInt _ => 100 | FUns _ => 117 | FHex _ => 120 | FStr _ => 115 end.
(** The argument of [vsnprintf]. *)
Definition word_of (f : field) : Z :=
  match f with FInt x => u32 x | FUns x | FHex x => x | FStr p => p end.

Definition field_items (f : field) : list Vsnprintf.item :=
  [Vsnprintf.Conv (Vsnprintf.Dir [] Vsnprintf.WNone None [] (conv_of f))].
Fixpoint items (l : list (Z * field)) : list Vsnprintf.item :=
  match l with
  | [] => []
  | (sep, f) :: l' => Vsnprintf.Lit sep :: field_items f ++ items l'
  end.

Section Fields.
Variable mem : Z -> list Z.

Definition text_of (f : field) : list Z :=
  match f with
  | FInt x => if x <? 0 then 45 :: Vsnprintf.number false 10 (- x) else Vsnprintf.number false 10 x
  | FUns x => Vsnprintf.number false 10 x
  | FHex x => Vsnprintf.number true 16 x
  | FStr p => match Vsnprintf.c_str (mem p) with Ok s => s | Err _ => [] end
  end.
Fixpoint texts (l : list (Z * field)) : list Z :=
  match l with [] => [] | (sep, f) :: l' => sep :: text_of f ++ texts l' end.

(** The bytes that [vsscanf] stores for the field. *)
Definition stored (f : field) : list Z :=
  match f with FStr _ => text_of f ++ [0] | _ => le_split 4 (word_of f) end.

(** The numbers fit their types, the strings are words without spaces. *)
Definition field_ok (f : field) : Prop :=
  match f with
  | FInt x => - 2 ^ 31 <= x < 2 ^ 31
  | FUns x | FHex x => 0 <= x < 2 ^ 32
  | FStr p => p <> 0 /\ exists s r, mem p = s ++ 0 :: r /\ s <> [] /\
      Forall (fun c => nzb c /\ isspace c = false) s /\ Z.of_nat (length s) < 2 ^ 31
  end.
End Fields.

(** A character at which the text of the field ends. *)
Definition ends (f : field) (c : Z) : bool :=
  match f with
  | FStr _ => isspace c
  | _ => (negb (isdigit c) && negb (c =? 45) && negb ((97 <=? c) && (c <=? 102)) && negb ((65 <=? c) && (c <=? 70)) &&
          negb (c =? 120) && negb (c =? 88))%bool
  end.
Definition sep_ok (f : field) (c : Z) : bool := ((0 <? c) && (c <? 128) && negb (c =? 37) && ends f c)%bool.
(** Each separator ends the field before it. *)
Fixpoint seps_ok (f : field) (l : list (Z * field)) : bool :=
  match l with [] => true | (sep, g) :: l' => sep_ok f sep && seps_ok g l' end.

(** ** Lemmas: printing *)
Lemma u32_idem x : u32 (u32 x) = u32 x.
Proof. apply u32_small, u32_range. Qed.
Lemma s32_u32 x : - 2 ^ 31 <= x < 2 ^ 31 -> s32 (u32 x) = x.
Proof. intros Hx. unfold s32, u32. rewrite Zplus_mod_idemp_l. rewrite Z.mod_small; lia. Qed.

Lemma plain_text num base fl :
  fl = 0 \/ fl = Vsnprintf.F_SIGNED \/ fl = Vsnprintf.F_SMALL ->
  Vsnprintf.int_text num base 0 fl =
    Vsnprintf.sign_text fl num ++ Vsnprintf.number (Vsnprintf.has fl Vsnprintf.F_SMALL) base (Vsnprintf.magnitude fl num).
Proof.
  intros Hfl. unfold Vsnprintf.int_text, Vsnprintf.layout, Vsnprintf.field.
  assert (Hz : Vsnprintf.has fl Vsnprintf.F_ZEROPAD = false /\ Vsnprintf.has fl Vsnprintf.F_LEFT = false /\
    Vsnprintf.has fl Vsnprintf.F_ALTERNATE = false) by (destruct Hfl as [->|[->| ->]]; done).
  destruct Hz as (-> & -> & Ha). unfold Vsnprintf.alt_text. rewrite Ha. cbn [andb].
  rewrite Vsnprintf.spaces_neg by lia. cbn [app]. by rewrite app_nil_r.
Qed.

Lemma magnitude_small fl x :
  - 2 ^ 31 <= x < 2 ^ 32 -> (x < 0 -> fl = Vsnprintf.F_SIGNED) -> Vsnprintf.magnitude fl x = Z.abs x.
Proof.
  intros Hx Hs. unfold Vsnprintf.magnitude. destruct (Z.ltb_spec x 0) as [Hn|Hn].
  - rewrite Hs by done. change (Vsnprintf.has Vsnprintf.F_SIGNED Vsnprintf.F_SIGNED) with true. cbn [andb].
    unfold s64. rewrite Z.mod_small by lia. rewrite u32_small by lia. lia.
  - rewrite andb_false_r, u32_small by lia. lia.
Qed.

Lemma c_str_word s r :
  Forall (fun c => nzb c /\ isspace c = false) s -> Vsnprintf.c_str (s ++ 0 :: r) = Ok s.
Proof.
  induction 1 as [|c s [Hc _] _ IH]; [done|]. cbn [app Vsnprintf.c_str]. by rewrite (nzb_nz c Hc), IH.
Qed.
Lemma va_num_d w ap : Vsnprintf.va_num 0 100 (w :: ap) = Ok (s32 w, ap).
Proof. done. Qed.
Lemma va_num_u c w ap : c = 117 \/ c = 120 -> Vsnprintf.va_num 0 c (w :: ap) = Ok (u32 (s32 w), ap).
Proof. by intros [-> | ->]. Qed.
Lemma u32_s32 x : 0 <= x < 2 ^ 32 -> u32 (s32 x) = x.
Proof. intros Hx. unfold u32, s32. rewrite Zminus_mod_idemp_l. rewrite Z.mod_small; lia. Qed.

Lemma field_text mem f ap :
  field_ok mem f ->
  Vsnprintf.conv_text mem (conv_of f) 0 0 0 (word_of f :: ap) = Ok (text_of mem f, ap).
Proof.
  destruct f as [x|x|x|p]; cbn [field_ok conv_of word_of text_of]; intros Hf;
    unfold Vsnprintf.conv_text; cbn [Vsnprintf.is_int_conv Z.eqb Pos.eqb orb andb].
  - rewrite va_num_d, s32_u32 by lia. cbn [mbind res_bind].
    rewrite plain_text, magnitude_small by (auto || lia). do 2 f_equal. unfold Vsnprintf.sign_text.
    change (Vsnprintf.has (Z.lor 0 Vsnprintf.F_SIGNED) Vsnprintf.F_SIGNED) with true. cbn [andb].
    destruct (Z.ltb_spec x 0); cbn [app]; [by rewrite Z.abs_neq by lia|by rewrite Z.abs_eq by lia].
  - rewrite va_num_u, u32_s32 by (auto || lia). cbn [mbind res_bind].
    rewrite plain_text, magnitude_small by (auto || lia). by rewrite Z.abs_eq by lia.
  - rewrite va_num_u, u32_s32 by (auto || lia). cbn [mbind res_bind].
    rewrite plain_text, magnitude_small by (auto || lia). by rewrite Z.abs_eq by lia.
  - destruct Hf as (Hp & s & r & Hm & _ & Hs & _). cbn [Vsnprintf.va_word mbind res_bind].
    replace (p =? 0) with false by lia.
    assert (Hc : Vsnprintf.c_str (mem p) = Ok s) by (rewrite Hm; by apply c_str_word).
    rewrite Hc. cbn [mbind res_bind]. unfold Vsnprintf.field. change (Vsnprintf.has 0 Vsnprintf.F_LEFT) with false.
    cbn iota. by rewrite Vsnprintf.spaces_neg by lia.
Qed.

Lemma render_fields mem l ap :
  Forall (fun f => field_ok mem f.2) l ->
  Vsnprintf.render mem (items l) ((word_of <$> l.*2) ++ ap) = Ok (texts mem l).
Proof.
  induction 1 as [|[sep f] l Hf _ IH]; [done|]. cbn [items field_items app fmap list_fmap snd].
  cbn [Vsnprintf.render Vsnprintf.item_text mbind res_bind Vsnprintf.d_width Vsnprintf.d_flags Vsnprintf.d_conv Vsnprintf.d_len
       Vsnprintf.eval_width Vsnprintf.flags_of Vsnprintf.lflags_of fold_left].
  rewrite (field_text mem f _ Hf). cbn [mbind res_bind]. fold (fmap (M:=list) word_of). rewrite IH. done.
Qed.
(** ** Lemmas: scanning *)
Lemma fold_base_mono base l v :
  1 <= base -> Forall (fun d => 0 <= d < base) l -> 0 <= v -> v <= fold_left (fun v d => v * base + d) l v.
Proof.
  intros Hb Hl. revert v. induction Hl as [|d l Hd _ IH]; intros v Hv; cbn [fold_left]; [lia|].
  specialize (IH (v * base + d)). nia.
Qed.

Lemma schar_small c : 0 <= c < 128 -> schar c = c.
Proof. intros Hc. unfold schar, s8. rewrite Z.mod_small; lia. Qed.

(** The character [e] ends a number. *)
Definition num_end (e : Z) : bool := ((e =? 0) || ends (FInt 0) e)%bool.

Lemma get_int_stop base sign neg xskip e rest s v :
  base = 10 \/ base = 16 -> 0 <= e < 128 -> num_end e = true ->
  get_int_loop (e :: rest) s 0 base false sign neg xskip v = Ok (v, s, neg).
Proof.
  intros Hb He Hend. cbn [get_int_loop]. rewrite schar_small by done. unfold num_end in Hend.
  destruct (Z.eqb_spec e 0); [done|]. cbn [orb] in Hend. cbn [ends] in Hend. rewrite !andb_true_iff, !negb_true_iff in Hend.
  destruct Hend as [[[[[H1 H2] H3] H4] H5] H6]. rewrite H2, H5, H6. cbn [orb]. rewrite !andb_false_r. cbn [andb].
  enough (digit_stops (if 97 <=? e then e - 32 else e) base = true) as ->; [done|].
  unfold digit_stops, isdigit in *. destruct Hb as [-> | ->]; destruct (97 <=? e) eqn:?; cbn [Z.eqb Pos.eqb negb orb]; lia.
Qed.

Lemma get_int_digits base small sign neg xskip e rest ds s v :
  (base = 10 \/ base = 16 /\ small = true) -> Forall (fun d => 0 <= d < base) ds -> 0 <= v ->
  fold_left (fun v d => v * base + d) ds v < 2 ^ 63 -> 0 <= e < 128 -> num_end e = true ->
  get_int_loop ((Vsnprintf.digit_char small <$> ds) ++ e :: rest) s 0 base false sign neg xskip v =
    Ok (fold_left (fun v d => v * base + d) ds v, (s + length ds)%nat, neg).
Proof.
  intros Hb Hds Hv Hbound He Hend. revert s v Hv Hbound.
  induction Hds as [|d ds Hd Hds IH]; intros s v Hv Hbound.
  { cbn [fmap list_fmap app fold_left length]. rewrite Nat.add_0_r. apply get_int_stop; [naive_solver|done..]. }
  cbn [fmap list_fmap app fold_left length] in *. fold (fmap (M:=list) (Vsnprintf.digit_char small)).
  pose proof (fold_base_mono base ds (v * base + d) ltac:(lia) Hds ltac:(nia)) as Hm.
  cbn [get_int_loop]. set (c := Vsnprintf.digit_char small d).
  assert (Hc : d < 10 /\ c = 48 + d \/ 10 <= d < 16 /\ base = 16 /\ c = 87 + d).
  { unfold c, Vsnprintf.digit_char. destruct (Z.ltb_spec d 10); [lia|].
    destruct Hb as [-> |[-> ->]]; [lia|]. lia. }
  assert (Hs : schar c = c) by (apply schar_small; lia). rewrite Hs.
  replace (c =? 0) with false by lia. replace (c =? 45) with false by lia.
  replace ((c =? 120) || (c =? 88))%bool with false by lia. rewrite !andb_false_r. cbn [andb].
  set (c' := if 97 <=? c then c - 32 else c).
  assert (Hc' : d < 10 /\ c' = 48 + d \/ 10 <= d < 16 /\ base = 16 /\ c' = 55 + d).
  { unfold c'. destruct (Z.leb_spec 97 c); lia. }
  assert (Hstop : digit_stops c' base = false) by (unfold digit_stops, isdigit; destruct Hb as [-> |[-> _]]; cbn [Z.eqb Pos.eqb negb orb andb]; lia).
  rewrite Hstop.
  assert (Hn : s64 (v * base + (if ((base =? 16) && (65 <=? c'))%bool then c' - 65 + 10 + 48 else c') - 48) = v * base + d).
  { replace (v * base + (if ((base =? 16) && (65 <=? c'))%bool then c' - 65 + 10 + 48 else c') - 48) with (v * base + d).
    - unfold s64. rewrite Z.mod_small; nia.
    - destruct Hb as [-> |[-> _]]; cbn [Z.eqb Pos.eqb andb]; [lia|]. destruct (Z.leb_spec 65 c'); lia. }
  rewrite Hn, IH by (done || nia). do 3 f_equal. lia.
Qed.

Lemma get_int_number base small sign x e rest str s :
  (base = 10 \/ base = 16 /\ small = true) -> 0 <= x < 2 ^ 32 -> 0 <= e < 128 -> num_end e = true ->
  drop s str = Vsnprintf.number small base x ++ e :: rest ->
  get_int str s 0 base sign = Ok (x, (s + length (Vsnprintf.number small base x))%nat).
Proof.
  intros Hb Hx He Hend Hd. destruct (Vsnprintf.msd_value base x) as [Hv Hf]; [lia|done|].
  unfold get_int. rewrite Hd, Vsnprintf.number_msd, length_fmap.
  replace (negb ((base =? 2) || (base =? 8) || (base =? 10) || (base =? 16))) with false by lia.
  change (0 <? 0) with false. rewrite get_int_digits by (done || lia). cbn [mbind res_bind]. by rewrite Hv.
Qed.

Lemma get_int_negative x e rest str s :
  0 < x < 2 ^ 32 -> 0 <= e < 128 -> num_end e = true ->
  drop s str = 45 :: Vsnprintf.number false 10 x ++ e :: rest ->
  get_int str s 0 10 true = Ok (- x, (s + S (length (Vsnprintf.number false 10 x)))%nat).
Proof.
  intros Hx He Hend Hd. destruct (Vsnprintf.msd_value 10 x) as [Hv Hf]; [lia|lia|].
  unfold get_int. rewrite Hd, Vsnprintf.number_msd, length_fmap. cbn [negb Z.eqb Pos.eqb orb Z.ltb Z.compare].
  cbn [get_int_loop]. rewrite schar_small by lia. cbn [negb Z.eqb Pos.eqb orb andb].
  rewrite get_int_digits; [|by left|done|lia|lia|done|done]. cbn [mbind res_bind]. rewrite Hv.
  replace (0 <? x) with true by lia. cbn [andb]. unfold s64. rewrite Z.mod_small by lia. do 2 f_equal; [lia|].
  lia.
Qed.

Lemma get_str_word t e rest str s :
  Forall (fun c => nzb c /\ isspace c = false) t -> e = 0 \/ isspace e = true ->
  drop s str = t ++ e :: rest -> get_str str s None 0 = Ok (t, (s + length t)%nat).
Proof.
  intros Ht He Hd. unfold get_str. rewrite Hd. clear Hd. change (0 <? 0) with false. revert s.
  induction Ht as [|c t [Hc Hsp] _ IH]; intros s; cbn [app get_str_loop length].
  - rewrite Nat.add_0_r. destruct (Z.eqb_spec e 0); [done|]. destruct He as [|He]; [done|].
    cbn [andb mbind res_bind]. by rewrite He.
  - rewrite (nzb_nz c Hc). cbn [andb mbind res_bind]. rewrite Hsp. rewrite IH. cbn [mbind res_bind].
    do 2 f_equal. lia.
Qed.

Lemma drop_cons_rd (l : list Z) s c r : drop s l = c :: r -> rd l s = Ok c /\ drop (S s) l = r /\ (s < length l)%nat.
Proof.
  intros H. assert (Hl : l !! s = Some c) by (rewrite <- (Nat.add_0_r s), <- lookup_drop, H; done). split; [|split].
  - unfold rd. by rewrite Hl.
  - replace (S s) with (s + 1)%nat by lia. by rewrite <- drop_drop, H.
  - by apply lookup_lt_Some in Hl.
Qed.

Lemma skip_space_one str n s c r :
  drop s str = c :: r -> isspace c = false -> skip_space str (S n) s = Ok s.
Proof. intros H Hc. cbn [skip_space]. destruct (drop_cons_rd _ _ _ _ H) as (-> & _). cbn [mbind res_bind]. by rewrite Hc. Qed.

(** The text of a field begins with a character that is not a space. *)
Lemma text_head mem f :
  field_ok mem f -> exists c t, text_of mem f = c :: t /\ c <> 0 /\ isspace c = false /\
    match f with
    | FInt _ => valid_sint (schar c) 10 true = true
    | FUns _ => valid_sint (schar c) 10 false = true
    | FHex _ => valid_sint (schar c) 16 false = true
    | FStr _ => True
    end.
Proof.
  assert (Hnum : forall base small x, base = 10 \/ base = 16 /\ small = true -> 0 <= x < 2 ^ 32 ->
    exists c t, Vsnprintf.number small base x = c :: t /\ c <> 0 /\ isspace c = false /\
      forall sign, valid_sint (schar c) base sign = true).
  { intros base small x Hb Hx. destruct (Vsnprintf.msd_value base x) as [_ Hf]; [lia|done|].
    rewrite Vsnprintf.number_msd. destruct (Vsnprintf.msd base x) as [|d l] eqn:E.
    - exfalso. apply (f_equal length) in E. unfold Vsnprintf.msd in E. rewrite length_rev in E.
      pose proof (Vsnprintf.digits_of_length 31 base x). cbn [length] in E. lia.
    - apply Forall_cons_1 in Hf as [Hd _]. exists (Vsnprintf.digit_char small d), (Vsnprintf.digit_char small <$> l).
      assert (Hc : d < 10 /\ Vsnprintf.digit_char small d = 48 + d \/ 10 <= d < 16 /\ base = 16 /\ Vsnprintf.digit_char small d = 87 + d).
      { unfold Vsnprintf.digit_char. destruct (Z.ltb_spec d 10); [lia|]. destruct Hb as [-> |[-> ->]]; [lia|]. lia. }
      set (c := Vsnprintf.digit_char small d) in *. split; [done|]. split; [lia|]. split; [unfold isspace; lia|].
      intros sign. rewrite schar_small by lia. unfold valid_sint, isdigit.
      destruct Hb as [-> |[-> _]]; cbn [Z.eqb Pos.eqb andb]; [|destruct ((48 <=? c) && (c <=? 57))%bool eqn:?; cbn [orb]; [done|]].
      + by replace ((48 <=? c) && (c <=? 57))%bool with true by lia.
      + by replace ((97 <=? c) && (c <=? 102))%bool with true by lia. }
  destruct f as [x|x|x|p]; cbn [field_ok text_of]; intros Hf.
  - destruct (Z.ltb_spec x 0).
    + exists 45, (Vsnprintf.number false 10 (- x)). done.
    + destruct (Hnum 10 false x) as (c & t & ? & ? & ? & ?); [auto|lia|]. exists c, t. auto.
  - destruct (Hnum 10 false x) as (c & t & ? & ? & ? & ?); [auto|lia|]. exists c, t. auto.
  - destruct (Hnum 16 true x) as (c & t & ? & ? & ? & ?); [auto|lia|]. exists c, t. auto.
  - destruct Hf as (_ & s & r & -> & Hs & Hw & _). rewrite (c_str_word s r Hw).
    destruct s as [|c s]; [done|]. apply Forall_cons_1 in Hw as [[Hc Hsp] _]. exists c, s.
    split; [done|]. split; [|done]. apply nzb_nz in Hc. lia.
Qed.

Lemma num_end_ends f e : (e = 0 \/ sep_ok f e = true) ->
  match f with FStr _ => e = 0 \/ isspace e = true | _ => 0 <= e < 128 /\ num_end e = true end.
Proof.
  intros [-> |He]; [by destruct f; auto|]. unfold sep_ok in He. rewrite !andb_true_iff in He.
  destruct He as [[[H1 H2] _] H4]. destruct f; [..|auto]; (split; [lia|]); unfold num_end; cbn [ends] in *; by rewrite H4, orb_true_r.
Qed.

Lemma le_split_mod n w : le_split n (w mod 256 ^ Z.of_nat n) = le_split n w.
Proof.
  revert w. induction n as [|n IH]; intros w; [done|]. cbn [le_split].
  rewrite Nat2Z.inj_succ, Z.pow_succ_r by lia. rewrite Z.rem_mul_r by lia.
  rewrite (Z.mul_comm 256), Z.mod_add, Z.mod_mod, Z.div_add by lia.
  rewrite (Z.div_small (w mod 256)) by (apply Z.mod_pos_bound; lia). by rewrite Z.add_0_l, IH.
Qed.
Lemma le_split_u32 x : le_split 4 x = le_split 4 (u32 x).
Proof. symmetry. apply (le_split_mod 4). Qed.

(** The pieces of the state that one conversion changes. *)
Lemma scan_conv_field mem str fmt f e rest fpos s p ap wr n :
  field_ok mem f -> (e = 0 \/ sep_ok f e = true) -> rd fmt fpos = Ok (conv_of f) ->
  drop s str = text_of mem f ++ e :: rest ->
  scan_conv str fmt (SSt fpos s S_CONV 0 0 0 (p :: ap) wr n) =
    Ok (Continue (SSt fpos (s + length (text_of mem f)) S_DEFAULT 0 0 0 ap (wr ++ [(p, stored mem f)]) (n +u 1))).
Proof.
  intros Hf He Hc Hd. destruct (text_head mem f Hf) as (c & t & Ht & Hnz & Hsp & Hval).
  pose proof (num_end_ends f e He) as Hend.
  assert (Hd' : drop s str = c :: t ++ e :: rest) by (by rewrite Hd, Ht).
  pose proof (skip_space_one str (length str) s c _ Hd' Hsp) as Hskip.
  destruct (drop_cons_rd _ _ _ _ Hd') as (Hr & _).
  assert (Hnum : forall base sign v, get_int str s 0 base sign = Ok (v, (s + length (text_of mem f))%nat) ->
    le_split 4 v = stored mem f -> valid_sint (schar c) base sign = true ->
    forall k : res (Z * nat) -> res outcome,
    (forall r, k r = ('(num, s) ← r; '(p, ap) ← Vsnprintf.va_word (p :: ap);
         Ok (Continue (SSt fpos s S_DEFAULT 0 0 0 ap (wr ++ [(p, num_bytes 0 num)]) (n +u 1))))) ->
    (s ← skip_space str (S (length str)) s; d ← rd str s;
     if negb (valid_sint (schar d) base sign) then Ok (Break (SSt fpos s S_DEFAULT 0 0 0 (p :: ap) wr n))
     else k (get_int str s 0 base sign)) =
    Ok (Continue (SSt fpos (s + length (text_of mem f)) S_DEFAULT 0 0 0 ap (wr ++ [(p, stored mem f)]) (n +u 1)))).
  { intros base sign v Hg Hst Hv k Hk. rewrite Hskip. cbn [mbind res_bind]. rewrite Hr. cbn [mbind res_bind].
    rewrite Hv. cbn [negb]. rewrite Hk, Hg. cbn [mbind res_bind Vsnprintf.va_word]. change (num_bytes 0 v) with (le_split 4 v).
    by rewrite Hst. }
  unfold scan_conv. rewrite Hc. destruct f as [x|x|x|q]; cbn [field_ok conv_of text_of] in *;
    cbn [mbind res_bind]; cbn [int_conv Z.eqb Pos.eqb orb Z.land negb].
  - refine (Hnum 10 true x _ _ Hval _ _); [|cbn [stored word_of]; apply le_split_u32|done].
    destruct (Z.ltb_spec x 0).
    + rewrite <- (Z.opp_involutive x) at 1. eapply get_int_negative; [lia|apply Hend..|exact Hd].
    + eapply get_int_number; [by left|lia|apply Hend..|exact Hd].
  - refine (Hnum 10 false x _ _ Hval _ _); [|done|done]. eapply get_int_number; [by left|lia|apply Hend..|exact Hd].
  - refine (Hnum 16 false x _ _ Hval _ _); [|done|done]. eapply get_int_number; [by right|lia|apply Hend..|exact Hd].
  - cbn [Vsnprintf.va_word mbind res_bind]. destruct Hf as (_ & w & r & Hm & _ & Hw & _).
    rewrite Hm in *. rewrite (c_str_word w r Hw) in *. rewrite (get_str_word w e rest str s Hw Hend Hd). cbn [mbind res_bind].
    cbn [stored text_of]. by rewrite Hm, (c_str_word w r Hw).
Qed.

(** From the '%' of a field to behind its conversion. *)
Lemma loop_field mem str fmt f e rest fpos s p ap wr n fr k :
  field_ok mem f -> (e = 0 \/ sep_ok f e = true) ->
  drop fpos fmt = 37 :: conv_of f :: fr -> drop s str = text_of mem f ++ e :: rest ->
  scan_loop str fmt (2 + k) (SSt fpos s S_DEFAULT 0 0 0 (p :: ap) wr n) =
    scan_loop str fmt k (SSt (2 + fpos) (s + length (text_of mem f)) S_DEFAULT 0 0 0 ap (wr ++ [(p, stored mem f)]) (n +u 1)).
Proof.
  intros Hf He Hfmt Hd. destruct (text_head mem f Hf) as (c & t & Ht & Hnz & _).
  destruct (drop_cons_rd _ _ _ _ Hfmt) as (Hr1 & Hfmt' & _). destruct (drop_cons_rd _ _ _ _ Hfmt') as (Hr2 & _).
  assert (Hd' : drop s str = c :: t ++ e :: rest) by (by rewrite Hd, Ht).
  destruct (drop_cons_rd _ _ _ _ Hd') as (Hrs & _). change (2 + k)%nat with (S (S k)).
  assert (Hpct : scan_step str fmt (SSt fpos s S_DEFAULT 0 0 0 (p :: ap) wr n) =
    Ok (Continue (SSt fpos s S_FLAGS 0 0 0 (p :: ap) wr n))) by (unfold scan_step; by rewrite Hr1).
  cbn [scan_loop fp sp]. rewrite Hr1, Hrs, Hpct. cbn [mbind res_bind Z.eqb].
  replace (c =? 0) with false by lia.
  rewrite Hr2, Hrs. cbn [mbind res_bind]. replace (c =? 0) with false by lia.
  replace (conv_of f =? 0) with false by (by destruct f).
  assert (Hstep : scan_step str fmt (SSt (S fpos) s S_FLAGS 0 0 0 (p :: ap) wr n) =
    scan_conv str fmt (SSt (S fpos) s S_CONV 0 0 0 (p :: ap) wr n)).
  { assert (Hlen : forall x, x = SSt (S fpos) s S_LENGTH 0 0 0 (p :: ap) wr n ->
      scan_length str fmt x = scan_conv str fmt (SSt (S fpos) s S_CONV 0 0 0 (p :: ap) wr n)).
    { intros x ->. unfold scan_length. rewrite Hr2. cbn [mbind res_bind]. by destruct f. }
    unfold scan_step, scan_width. rewrite !Hr2. cbn [mbind res_bind]. destruct f; cbn -[scan_length scan_conv]; rewrite ?Hr2; by apply Hlen. }
  rewrite Hstep, (scan_conv_field mem str fmt f e rest (S fpos) s p ap wr n Hf He Hr2 Hd). done.
Qed.

(** A separator. *)
Lemma loop_sep str fmt f c sep d t fpos s ap wr n fr k :
  sep_ok f sep = true -> isspace d = false -> c = sep ->
  drop fpos fmt = sep :: fr -> drop s str = c :: d :: t ->
  scan_loop str fmt (1 + k) (SSt fpos s S_DEFAULT 0 0 0 ap wr n) =
    scan_loop str fmt k (SSt (1 + fpos) (1 + s) S_DEFAULT 0 0 0 ap wr n).
Proof.
  intros Hsep Hsp -> Hfmt Hd. destruct (drop_cons_rd _ _ _ _ Hfmt) as (Hr1 & _). destruct (drop_cons_rd _ _ _ _ Hd) as (Hrs & Hd2 & Hlt).
  unfold sep_ok in Hsep. rewrite !andb_true_iff, negb_true_iff in Hsep. destruct Hsep as [[[H1 H2] H3] _].
  change (1 + k)%nat with (S k). cbn [scan_loop fp sp]. rewrite Hr1, Hrs. cbn [mbind res_bind].
  replace (sep =? 0) with false by lia. unfold scan_step. rewrite Hr1. cbn [mbind res_bind]. rewrite H3.
  destruct (isspace sep) eqn:Hs.
  - cbn [skip_space]. rewrite Hrs. cbn [mbind res_bind]. rewrite Hs.
    destruct (length str) as [|m] eqn:Em; [lia|]. by rewrite (skip_space_one str m (S s) d t Hd2 Hsp).
  - rewrite Hrs. cbn [mbind res_bind]. by rewrite Z.eqb_refl.
Qed.

Definition filled (mem : Z -> list Z) (pl : list (Z * field)) : list (Z * list Z) :=
  (fun pf => (pf.1, stored mem pf.2)) <$> pl.

(** The character behind a field. *)
Lemma texts_head mem f l tail :
  seps_ok f l = true -> exists e rest, texts mem l ++ 0 :: tail = e :: rest /\ (e = 0 \/ sep_ok f e = true).
Proof.
  destruct l as [|[e g] l]; intros Hs; [by exists 0, tail; auto|]. cbn [seps_ok] in Hs. apply andb_prop in Hs as [Hs _].
  exists e, (text_of mem g ++ texts mem l ++ 0 :: tail). cbn [texts]. cbn [app]. rewrite <- app_assoc. auto.
Qed.

(** All the fields behind the first. *)
Lemma loop_fields mem str fmt l ps f0 fpos s wr n k tail :
  Forall (fun f => field_ok mem f.2) l -> seps_ok f0 l = true -> length ps = length l ->
  drop fpos fmt = Vsnprintf.enc (items l) ++ [0] -> drop s str = texts mem l ++ 0 :: tail ->
  exists x, scan_loop str fmt (S (3 * length l) + k) (SSt fpos s S_DEFAULT 0 0 0 ps wr (u32 n)) = Ok x /\
    writes x = wr ++ filled mem (zip ps l.*2) /\ Vsscanf.n x = u32 (n + Z.of_nat (length l)).
Proof.
  intros Hl. revert ps f0 fpos s wr n. induction Hl as [|[sep f] l Hf Hl IH]; intros ps f0 fpos s wr n Hsep Hps Hfmt Hd.
  - destruct ps; [|done]. cbn [items Vsnprintf.enc texts app] in Hfmt, Hd. destruct (drop_cons_rd _ _ _ _ Hfmt) as (Hr & _).
    eexists. cbn [length Nat.mul Nat.add scan_loop fp]. rewrite Hr. cbn [mbind res_bind Z.eqb]. split; [done|]. cbn [writes Vsscanf.n].
    split; [by rewrite app_nil_r|]. f_equal. lia.
  - destruct ps as [|p ps]; [done|]. cbn [seps_ok] in Hsep. apply andb_prop in Hsep as [Hs1 Hs2].
    cbn [texts] in Hd. cbn [items field_items] in Hfmt.
    assert (Hfmt' : drop fpos fmt = sep :: 37 :: conv_of f :: (Vsnprintf.enc (items l) ++ [0])) by exact Hfmt.
    destruct (text_head mem f Hf) as (c & t & Ht & _ & Hsp & _).
    destruct (texts_head mem f l tail Hs2) as (e & rest & Het & He).
    assert (Hd1 : drop s str = sep :: text_of mem f ++ e :: rest) by (by rewrite Hd; cbn [app]; rewrite <- app_assoc, Het).
    destruct (drop_cons_rd _ _ _ _ Hfmt') as (_ & Hfmt1 & _). destruct (drop_cons_rd _ _ _ _ Hd1) as (_ & Hd2 & _).
    replace (S (3 * length ((sep, f) :: l)) + k)%nat with (1 + (2 + (S (3 * length l) + k)))%nat by (cbn [length]; lia).
    rewrite (loop_sep str fmt f0 sep sep c (t ++ e :: rest) fpos s (p :: ps) wr (u32 n) _ _ Hs1 Hsp eq_refl Hfmt');
      [|by rewrite Hd1, Ht].
    rewrite (loop_field mem str fmt f e rest (1 + fpos) (1 + s) p ps wr (u32 n) _ _ Hf He Hfmt1 Hd2).
    replace (u32 n +u 1) with (u32 (n + 1)) by (unfold u32; by rewrite Zplus_mod_idemp_l).
    destruct (IH ps f (2 + (1 + fpos))%nat (1 + s + length (text_of mem f))%nat (wr ++ [(p, stored mem f)]) (n + 1))
      as (x & Hx & Hw & Hn); [done|cbn [length] in Hps; lia|..].
    + destruct (drop_cons_rd _ _ _ _ Hfmt1) as (_ & Hfmt2 & _). destruct (drop_cons_rd _ _ _ _ Hfmt2) as (_ & Hfmt3 & _). exact Hfmt3.
    + rewrite <- drop_drop. change (drop (1 + s) str) with (drop (S s) str). rewrite Hd2, drop_app_length. by rewrite Het.
    + exists x. split; [exact Hx|]. split; [rewrite Hw, <- app_assoc; done|]. rewrite Hn. f_equal. cbn [length]. lia.
Qed.

Lemma items_ok l f0 : seps_ok f0 l = true -> forallb Vsnprintf.item_ok (items l) = true.
Proof.
  revert f0. induction l as [|[sep f] l IH]; intros f0 H; [done|]. cbn [seps_ok] in H. apply andb_prop in H as [H1 H2].
  cbn [items field_items app forallb]. rewrite (IH f H2). unfold sep_ok in H1. rewrite !andb_true_iff in H1.
  destruct H1 as [[[Ha Hb] Hc] _]. cbn [Vsnprintf.item_ok]. rewrite Ha, Hc. replace (sep <? 256) with true by lia.
  by destruct f.
Qed.

(** ** Properties *)

(** C40: [vsscanf] reads back what [vsnprintf] writes, for formats of bare
    conversions %d, %u, %x and %s (no flags, widths or lengths) with exactly one
    separator between two of them: white space after a word; after a number any
    ASCII character but the per cent sign, digits, the minus sign, and the
    letters a to f and x of both cases.  The numbers fit their types; the words
    are not empty and contain no white space.  When the text fits in the buffer,
    [vsscanf] with the same format counts every field and stores through its
    pointers the arguments of [vsnprintf]. *)
Theorem sscanf_reads_back mem buf size f0 l ps :
  field_ok mem f0 -> Forall (fun f => field_ok mem f.2) l -> seps_ok f0 l = true ->
  length ps = S (length l) -> Z.of_nat (S (length l)) < 2 ^ 31 ->
  Z.of_nat (length (text_of mem f0 ++ texts mem l)) < 2 ^ 31 - 1 ->
  Z.of_nat (length (text_of mem f0 ++ texts mem l)) < size <= Z.of_nat (length buf) ->
  let fmt := Vsnprintf.enc (field_items f0 ++ items l) ++ [0] in
  exists b, Vsnprintf.vsnprintf mem (Some buf) size fmt (word_of <$> f0 :: l.*2) =
      Ok (Z.of_nat (length (text_of mem f0 ++ texts mem l)), b) /\
    vsscanf b fmt ps = Ok (Z.of_nat (S (length l)), filled mem (zip ps (f0 :: l.*2))).
Proof.
  intros Hf Hl Hsep Hps Hn Hlen Hsize fmt. set (t := text_of mem f0 ++ texts mem l) in *.
  exists (splice buf 0 (t ++ [0])). split.
  - apply Vsnprintf.vsnprintf_fits; [done|done| |].
    + rewrite forallb_app. rewrite (items_ok l f0 Hsep). by destruct f0.
    + assert (Hr := render_fields mem ((32, f0) :: l) []). cbn [fmap list_fmap snd] in Hr. rewrite app_nil_r in Hr.
      assert (Hfirst : Vsnprintf.render mem (items ((32, f0) :: l)) (word_of <$> f0 :: l.*2) = Ok (32 :: t)).
      { apply Hr. by constructor. }
      cbn [items app] in Hfirst. cbn [Vsnprintf.render Vsnprintf.item_text mbind res_bind] in Hfirst.
      destruct (Vsnprintf.render mem (field_items f0 ++ items l) (word_of <$> f0 :: l.*2)) as [u|]; [|done].
      cbn [app] in Hfirst. by injection Hfirst as ->.
  - rewrite Vsnprintf.splice_text. destruct ps as [|p ps]; [done|]. set (tail := drop (S (length t)) buf).
    destruct (texts_head mem f0 l tail Hsep) as (e & rest & Het & He).
    assert (Hfm : fmt = 37 :: conv_of f0 :: Vsnprintf.enc (items l) ++ [0]) by done.
    assert (Hfl : length fmt = (2 + length (Vsnprintf.enc (items l) ++ [0%Z]))%nat) by (by rewrite Hfm).
    assert (Hil : forall l, length (Vsnprintf.enc (items l)) = (3 * length l)%nat).
    { clear. induction l as [|[sep f] l IH]; [done|]. cbn [length].
      change (length (Vsnprintf.enc (items ((sep, f) :: l)))) with (3 + length (Vsnprintf.enc (items l)))%nat. lia. }
    unfold vsscanf. rewrite Hfl, length_app, Hil. cbn [length].
    replace (S (2 + (3 * length l + 1))) with (2 + (S (3 * length l) + 1))%nat by lia.
    rewrite (loop_field mem _ _ f0 e rest 0 0 p ps [] 0 (Vsnprintf.enc (items l) ++ [0]) _ Hf He);
      [|exact Hfm|unfold t; rewrite <- app_assoc; cbn [drop]; by rewrite Het].
    change (0 +u 1) with (u32 1).
    destruct (loop_fields mem (t ++ 0 :: tail) fmt l ps f0 2 (0 + length (text_of mem f0)) [(p, stored mem f0)] 1 1 tail)
      as (x & Hx & Hw & Hxn); [done|done|cbn [length] in Hps; lia|by rewrite Hfm| |].
    + unfold t. by rewrite <- app_assoc, Nat.add_0_l, drop_app_length.
    + change (2 + 0)%nat with 2%nat. rewrite app_nil_l, Hx. cbn [mbind res_bind]. rewrite Hw, Hxn, u32_small, s32_small by lia.
      do 2 f_equal. lia.
Qed.

(** "%d %x,%s" with -12, 255 and "hi". *)
Lemma sscanf_reads_back_witness :
  exists b, Vsnprintf.vsnprintf Vsnprintf.hi (Some (replicate 12 33)) 12 [37; 100; 32; 37; 120; 44; 37; 115; 0] [u32 (-12); 255; 4096] = Ok (9, b) /\
    vsscanf b [37; 100; 32; 37; 120; 44; 37; 115; 0] [100; 200; 300] =
      Ok (3, [(100, [244; 255; 255; 255]); (200, [255; 0; 0; 0]); (300, [104; 105; 0])]).
Proof.
  refine (sscanf_reads_back Vsnprintf.hi (replicate 12 33) 12 (FInt (-12)) [(32, FHex 255); (44, FStr 4096)] [100; 200; 300]
    _ _ eq_refl eq_refl _ _ _); cbn [field_ok]; [lia| |done|by vm_compute|by vm_compute].
  constructor; [cbn; lia|]. constructor; [|constructor]. split; [done|]. exists [104; 105], []. split; [done|]. split; [done|].
  split; [repeat constructor; cbn; lia|cbn; lia].
Defined.

(** [get_int] takes a '-' anywhere in the number and stops at a '+', which
    [valid_sint] accepts: "12-34" is read as -1234, "+5" as 0. *)
Lemma minus_in_the_middle :
  vsscanf [49; 50; 45; 51; 52; 0] [37; 100; 0] [64] = Ok (1, [(64, le_split 4 (-1234))]) /\
  vsscanf [43; 53; 0] [37; 100; 0] [64] = Ok (1, [(64, [0; 0; 0; 0])]).
Proof. split; reflexivity. Qed.

(** An 'x' anywhere in a hexadecimal number starts it again: "12x34" with %x
    is 0x34. *)
Lemma x_in_the_middle : vsscanf [49; 50; 120; 51; 52; 0] [37; 120; 0] [64] = Ok (1, [(64, [52; 0; 0; 0])]).
Proof. reflexivity. Qed.

(** A format that ends after a width: [strchr] finds its terminator, the loop
    goes on behind it. *)
Lemma width_at_the_end : vsscanf [49; 50; 0] [37; 53; 0] [64] = Err EOob.
Proof. reflexivity. Qed.

(** A %[...] stores its text but is not counted. *)
Lemma set_not_counted : vsscanf [97; 98; 0] [37; 91; 97; 45; 122; 93; 0] [64] = Ok (0, [(64, [97; 98; 0])]).
Proof. vm_compute. reflexivity. Qed.
End Vsscanf.
