(* ===== verification/Sched.v ===== *)
(** * Tasks and the scheduler (src/task.c, signal.c, thread.c, timer.c)

    The tasks are objects of a store that are linked by their [next] fields
    into the queue of the scheduler.  An exited task leaves the queue and waits
    in the [wait_queue] of its parent, which frees it in [task_wait]. *)
From S2P Require Import Prelude Pipe.

Module Sched.

(** ** Data *)
Inductive task_states := TASK_CREATING | TASK_RUNNING | TASK_AWAKEN | TASK_SLEEPING | TASK_EXITING.
#[global] Instance task_states_eq_dec : EqDecision task_states.
Proof. solve_decision. Defined.

(** The registers that an interrupt saves. *)
Record iregs := Regs {
  gs : Z; fs : Z; es : Z; ds : Z; edi : Z; esi : Z; ebp : Z; esp : Z; ebx : Z; edx : Z; ecx : Z; eax : Z;
  int_no : Z; err_code : Z; eip : Z; cs : Z; eflags : Z; useresp : Z; ss : Z
}.
Definition regs0 : iregs := Regs 0 0 0 0 0 0 0 0 0 0 0 0 0 0 0 0 0 0 0.
Definition set_eax (r : iregs) (v : Z) : iregs :=
  Regs (gs r) (fs r) (es r) (ds r) (edi r) (esi r) (ebp r) (esp r) (ebx r) (edx r) (ecx r) v
    (int_no r) (err_code r) (eip r) (cs r) (eflags r) (useresp r) (ss r).

Record file := File { f_mode : Z; f_flags : Z; f_offs : Z; f_node : Z; dup_cnt : Z }.
Record fs_node := FsNode { ref_count : Z; n_lock : Z; n_type : Z; n_flags : Z; n_ptr : Z }.
Record heap := Heap { start_addr : Z; end_addr : Z; max_addr : Z }.

(** The part of [struct task] that the scheduler does not look at. *)
Record image := Image {
  parent : Z; uid : Z; gid : Z; ring : Z; page_directory : Z; sig_handlers : list Z; uheap : heap;
  name : Z; root_dir : Z; cwd : list Z; files : list Z; sid : Z; pgrp : Z; leads : bool; tty : Z; regs : iregs
}.
Record task := Task {
  pid : Z; ppid : Z; next : Z; state : task_states; sleep_addr : Z; sleep_end_tick : Z; exit_status : Z;
  wait_queue : list Z; is_thread : bool; img : image
}.
Record signal_t := Signal { signum : Z; s_pid : Z }.

(** [saved] are the copies that the [s_task] fields of the tasks point to. *)
Record sys := Sys {
  tasks : gmap Z task; current_task : Z; task_queue : Z; next_pid : Z; switch_locked : bool; timer_ticks : Z;
  sigs_queue : list signal_t; fobjs : gmap Z file; nodes : gmap Z fs_node; pipes : gmap Z Pipe.vfs_pipe;
  saved : gmap Z task
}.

Definition set_next (t : task) (v : Z) : task :=
  Task (pid t) (ppid t) v (state t) (sleep_addr t) (sleep_end_tick t) (exit_status t) (wait_queue t) (is_thread t) (img t).
Definition set_ppid (t : task) (v : Z) : task :=
  Task (pid t) v (next t) (state t) (sleep_addr t) (sleep_end_tick t) (exit_status t) (wait_queue t) (is_thread t) (img t).
Definition set_state (t : task) (v : task_states) : task :=
  Task (pid t) (ppid t) (next t) v (sleep_addr t) (sleep_end_tick t) (exit_status t) (wait_queue t) (is_thread t) (img t).
Definition set_addr (t : task) (v : Z) : task :=
  Task (pid t) (ppid t) (next t) (state t) v (sleep_end_tick t) (exit_status t) (wait_queue t) (is_thread t) (img t).
Definition set_end (t : task) (v : Z) : task :=
  Task (pid t) (ppid t) (next t) (state t) (sleep_addr t) v (exit_status t) (wait_queue t) (is_thread t) (img t).
Definition set_status (t : task) (v : Z) : task :=
  Task (pid t) (ppid t) (next t) (state t) (sleep_addr t) (sleep_end_tick t) v (wait_queue t) (is_thread t) (img t).
Definition set_waitq (t : task) (v : list Z) : task :=
  Task (pid t) (ppid t) (next t) (state t) (sleep_addr t) (sleep_end_tick t) (exit_status t) v (is_thread t) (img t).

Definition with_tasks (s : sys) (m : gmap Z task) : sys :=
  Sys m (current_task s) (task_queue s) (next_pid s) (switch_locked s) (timer_ticks s) (sigs_queue s) (fobjs s) (nodes s) (pipes s) (saved s).
Definition with_current (s : sys) (c : Z) : sys :=
  Sys (tasks s) c (task_queue s) (next_pid s) (switch_locked s) (timer_ticks s) (sigs_queue s) (fobjs s) (nodes s) (pipes s) (saved s).
Definition with_lock (s : sys) (b : bool) : sys :=
  Sys (tasks s) (current_task s) (task_queue s) (next_pid s) b (timer_ticks s) (sigs_queue s) (fobjs s) (nodes s) (pipes s) (saved s).
Definition with_pid (s : sys) (n : Z) : sys :=
  Sys (tasks s) (current_task s) (task_queue s) n (switch_locked s) (timer_ticks s) (sigs_queue s) (fobjs s) (nodes s) (pipes s) (saved s).
Definition with_ticks (s : sys) (n : Z) : sys :=
  Sys (tasks s) (current_task s) (task_queue s) (next_pid s) (switch_locked s) n (sigs_queue s) (fobjs s) (nodes s) (pipes s) (saved s).
Definition with_sigs (s : sys) (q : list signal_t) : sys :=
  Sys (tasks s) (current_task s) (task_queue s) (next_pid s) (switch_locked s) (timer_ticks s) q (fobjs s) (nodes s) (pipes s) (saved s).
Definition with_files (s : sys) (f : gmap Z file) (n : gmap Z fs_node) (p : gmap Z Pipe.vfs_pipe) : sys :=
  Sys (tasks s) (current_task s) (task_queue s) (next_pid s) (switch_locked s) (timer_ticks s) (sigs_queue s) f n p (saved s).
Definition with_saved (s : sys) (m : gmap Z task) : sys :=
  Sys (tasks s) (current_task s) (task_queue s) (next_pid s) (switch_locked s) (timer_ticks s) (sigs_queue s) (fobjs s) (nodes s) (pipes s) m.

(** ** Access to the objects: NULL and freed objects are errors *)
Definition deref {A} (m : gmap Z A) (p : Z) : res A :=
  if p =? 0 then Err ENull else match m !! p with Some v => Ok v | None => Err EUaf end.
Definition task_at (p : Z) : st sys task := fun s => t ← deref (tasks s) p; Ok (t, s).
Definition put_task (p : Z) (t : task) : st sys unit := modify (fun s => with_tasks s (<[p:=t]> (tasks s))).
Definition upd_task (p : Z) (f : task -> task) : st sys unit := t ← task_at p; put_task p (f t).
Definition lock (b : bool) : st sys unit := modify (fun s => with_lock s b).
Definition fuel (s : sys) : nat := S (size (tasks s)).

(** [&t->wait_queue] *)
Definition wait_addr (t : Z) : Z := t + 56.

Definition NUM_SIGS : nat := 32.
Definition SIG_DFL : Z := 0.
Definition UHEAP_START : Z := 0x20000000.
Definition UHEAP_END : Z := 0x30000000.
Definition MS_PER_TICK : Z := 10.
Definition FS_PIPE : Z := 0x1000.
Definition TASK_INITIAL_NUM_FILES : nat := 6.

Definition set_default_signals : list Z := replicate NUM_SIGS SIG_DFL.

(** [task_new], where [a] is the address that [calloc] returns. *)
Definition task_new (a : Z) : st sys Z :=
  s ← get;
  let im := Image 0 0 0 0 0 set_default_signals (Heap UHEAP_START UHEAP_START UHEAP_END) 0 0 [] [] 0 0 false 0 regs0 in
  put_task a (Task (next_pid s) 0 0 TASK_CREATING 0 0 0 [] false im);;
  modify (fun s => with_saved s (delete a (saved s)));;
  modify (fun s => with_pid s (next_pid s +i 1));;
  mret a.

Definition getpid : st sys Z :=
  s ← get; if current_task s =? 0 then mret (-1) else t ← task_at (current_task s); mret (pid t).
Definition getring : st sys Z :=
  s ← get; if current_task s =? 0 then mret (-1) else t ← task_at (current_task s); mret (Z.land (cs (regs (img t))) 3).

(** The loops over the queue that stop at the first task with a property. *)
Fixpoint find_task (n : nat) (m : gmap Z task) (test : task -> bool) (p : Z) : res Z :=
  match n with
  | O => Err EFuel
  | S n' =>
      if p =? 0 then Ok 0
      else t ← deref m p; if test t then Ok p else find_task n' m test (next t)
  end.
Definition get_task_by_pid (i : Z) : st sys Z := fun s =>
  p ← find_task (fuel s) (tasks s) (fun t => pid t =? i) (task_queue s); Ok (p, s).

Fixpoint last_loop (n : nat) (m : gmap Z task) (p : Z) : res Z :=
  match n with
  | O => Err EFuel
  | S n' => t ← deref m p; if next t =? 0 then Ok p else last_loop n' m (next t)
  end.
Definition get_last_task : st sys Z :=
  lock true;;
  s ← get;
  t ← lift (last_loop (fuel s) (tasks s) (task_queue s));
  lock false;;
  mret t.

(** ** Switching *)
Definition wake_check (ticks : Z) (t : task) : task :=
  if (bool_decide (state t = TASK_SLEEPING) && (0 <? sleep_end_tick t) && (sleep_end_tick t <? ticks))%bool
  then set_end (set_state t TASK_RUNNING) 0 else t.
Definition ready (t : task) : bool :=
  (bool_decide (state t = TASK_RUNNING) || bool_decide (state t = TASK_AWAKEN))%bool.

(** One of the two loops of [task_switch_inner]. *)
Fixpoint pick_loop (n : nat) (m : gmap Z task) (ticks p : Z) : res (Z * gmap Z task) :=
  match n with
  | O => Err EFuel
  | S n' =>
      if p =? 0 then Ok (0, m)
      else
        t ← deref m p;
        let t := wake_check ticks t in
        let m := <[p:=t]> m in
        if ready t then Ok (p, m) else pick_loop n' m ticks (next t)
  end.

Definition task_switch_inner : st sys Z :=
  s ← get;
  if switch_locked s then mret (current_task s)
  else
    c ← task_at (current_task s);
    '(n, m) ← lift (pick_loop (fuel s) (tasks s) (timer_ticks s) (next c));
    '(n, m) ← (if n =? 0 then lift (pick_loop (fuel s) m (timer_ticks s) (task_queue s)) else mret (n, m));
    if n =? 0 then fail EPanic
    else modify (fun s => with_current (with_tasks s m) n);; mret n.

(** [current_task = task_switch_inner()], the first line of [task_switch_int]. *)
Definition pick_task : st sys unit :=
  n ← task_switch_inner; modify (fun s => with_current s n).

(** ** Waking up *)
Definition sleeps_on (addr : Z) (t : task) : bool := (bool_decide (state t = TASK_SLEEPING) && (sleep_addr t =? addr))%bool.
Definition woken (t : task) : task := set_end (set_addr (set_state t TASK_RUNNING) 0) 0.
Fixpoint wakeup_loop (n : nat) (m : gmap Z task) (addr p cnt : Z) : res (Z * gmap Z task) :=
  match n with
  | O => Err EFuel
  | S n' =>
      if p =? 0 then Ok (cnt, m)
      else
        t ← deref m p;
        if sleeps_on addr t then wakeup_loop n' (<[p:=woken t]> m) addr (next t) (cnt +i 1)
        else wakeup_loop n' m addr (next t) cnt
  end.
Definition wakeup (addr : Z) : st sys Z :=
  lock true;;
  s ← get;
  '(cnt, m) ← lift (wakeup_loop (fuel s) (tasks s) addr (task_queue s) 0);
  modify (fun s => with_tasks s m);;
  lock false;;
  mret cnt.

(** ** fork *)
Definition spin_lock (l : Z) : res Z := if l =? 0 then Ok 1 else Err EDeadlock.
Definition fs_dup (n : Z) : st sys unit := fun s =>
  d ← deref (nodes s) n;
  _ ← spin_lock (n_lock d);
  Ok (tt, with_files s (fobjs s) (<[n:=FsNode (ref_count d +i 1) 0 (n_type d) (n_flags d) (n_ptr d)]> (nodes s)) (pipes s)).

Definition pipe_share (n : Z) : st sys unit := fun s =>
  d ← deref (nodes s) n;
  if Z.land (n_type d) FS_PIPE =? 0 then Ok (tt, s)
  else
    p ← deref (pipes s) (n_ptr d);
    let p := if n_flags d =? Pipe.O_RDONLY then Pipe.set_counts p (Pipe.readers p +u 1) (Pipe.writers p)
             else Pipe.set_counts p (Pipe.readers p) (Pipe.writers p +u 1) in
    Ok (tt, with_files s (fobjs s) (nodes s) (<[n_ptr d:=p]> (pipes s))).

(** The loop that clones the files; [news] are the addresses of the new file
    structures. *)
Fixpoint clone_files (fs news : list Z) : st sys (list Z) :=
  match fs with
  | [] => mret []
  | f :: fs' =>
      if f =? 0 then r ← clone_files fs' news; mret (0 :: r)
      else
        match news with
        | [] => fail EOob
        | a :: news' =>
            s ← get;
            x ← lift (deref (fobjs s) f);
            (if f_node x =? 0 then fail EPanic else mret tt);;
            modify (fun s => with_files s (<[a:=x]> (fobjs s)) (nodes s) (pipes s));;
            fs_dup (f_node x);;
            pipe_share (f_node x);;
            r ← clone_files fs' news';
            mret (a :: r)
        end
  end.

(** [fork_int]; [a] is the address of the new task, [pd] the result of
    [clone_directory], [news] the addresses of the new file structures. *)
Definition fork_int (a pd : Z) (news : list Z) : st sys Z :=
  lock true;;
  t ← task_new a;
  s ← get;
  c ← task_at (current_task s);
  fs ← clone_files (files (img c)) news;
  n ← task_at t;
  let i := img c in
  let im := Image (current_task s) (uid i) (gid i) (ring i) pd (sig_handlers i)
    (Heap (start_addr (uheap (img n))) (end_addr (uheap i)) (max_addr (uheap (img n))))
    (name (img n)) (root_dir i) (cwd i) fs (sid i) (pgrp i) (leads (img n)) (tty (img n)) (set_eax (regs i) 0) in
  put_task t (Task (pid n) (pid c) (next n) TASK_RUNNING (sleep_addr n) (sleep_end_tick n) (exit_status n)
    (wait_queue n) (is_thread n) im);;
  l ← get_last_task;
  upd_task l (fun x => set_next x t);;
  lock false;;
  mret (pid n).

(** ** Threads (thread.c) *)

(** A thread uses the file structures of its parent. *)
Fixpoint share_files (fs : list Z) : st sys (list Z) :=
  match fs with
  | [] => mret []
  | f :: fs' =>
      (if f =? 0 then mret tt else s ← get; x ← lift (deref (fobjs s) f); fs_dup (f_node x));;
      r ← share_files fs';
      mret (f :: r)
  end.
Definition thread_regs (ebp0 esp0 eip0 : Z) : iregs := Regs 0 0 0 0 0 0 ebp0 esp0 0 0 0 0 0 0 eip0 0 0 0 0.
(** [thread_new] for the parent; [pd] is the result of
    [thread_clone_directory], [ebp0], [esp0] and [eip0] what it reads from its
    own registers. *)
Definition thread_new (a pd ebp0 esp0 eip0 : Z) : st sys Z :=
  lock true;;
  t ← task_new a;
  s ← get;
  c ← task_at (current_task s);
  fs ← share_files (files (img c));
  n ← task_at t;
  let i := img c in
  let j := img n in
  let im := Image (current_task s) (uid i) (gid i) (ring i) pd (sig_handlers j)
    (Heap (start_addr (uheap j)) (end_addr (uheap i)) (max_addr (uheap j)))
    (name j) (root_dir i) (cwd i) fs (sid j) (pgrp j) (leads j) (tty j) (thread_regs ebp0 esp0 0) in
  put_task t (Task (pid n) (pid c) (next n) (state n) (sleep_addr n) (sleep_end_tick n) (exit_status n) (wait_queue n) true im);;
  l ← get_last_task;
  upd_task l (fun x => set_next x t);;
  upd_task t (fun x =>
    let i := img x in
    Task (pid x) (ppid x) (next x) TASK_RUNNING (sleep_addr x) (sleep_end_tick x) (exit_status x) (wait_queue x) (is_thread x)
      (Image (parent i) (uid i) (gid i) (ring i) (page_directory i) (sig_handlers i) (uheap i) (name i) (root_dir i) (cwd i)
         (files i) (sid i) (pgrp i) (leads i) (tty i) (thread_regs ebp0 esp0 eip0)));;
  lock false;;
  mret t.

(** ** What closing a file does to the tasks

    [fs_close] calls the [close] function of the node.  The scheduler relies on
    one promise: the tasks stay as they are, except that sleeping ones may be
    woken up. *)
Definition woke (o o' : option task) : Prop :=
  o' = o \/ exists t, o = Some t /\ state t = TASK_SLEEPING /\ o' = Some (woken t).
Definition only_wakes (s s' : sys) : Prop :=
  (forall a, woke (tasks s !! a) (tasks s' !! a)) /\ current_task s' = current_task s /\
  task_queue s' = task_queue s /\ next_pid s' = next_pid s /\ sigs_queue s' = sigs_queue s /\ saved s' = saved s.

Class FsOps := {
  close_node : Z -> st sys unit;
  open_node : Z -> Z -> st sys unit;
  close_only_wakes : forall n s r s', close_node n s = Ok (r, s') -> only_wakes s s';
  open_only_wakes : forall n mode s r s', open_node n mode s = Ok (r, s') -> only_wakes s s'
}.

Section Ops.
Context `{FsOps}.

Definition fs_close (n : Z) : st sys unit := if n =? 0 then fail EPanic else close_node n.

(** The loop over the files of a task that is freed. *)
Fixpoint close_files (fs : list Z) : st sys unit :=
  match fs with
  | [] => mret tt
  | f :: fs' =>
      if f =? 0 then close_files fs'
      else
        s ← get;
        x ← lift (deref (fobjs s) f);
        kassert (negb (f_node x =? 0));;
        fs_close (f_node x);;
        s ← get;
        x ← lift (deref (fobjs s) f);
        modify (fun s =>
          if dup_cnt x =? 0 then with_files s (delete f (fobjs s)) (nodes s) (pipes s)
          else with_files s (<[f:=File (f_mode x) (f_flags x) (f_offs x) (f_node x) (dup_cnt x -i 1)]> (fobjs s)) (nodes s) (pipes s));;
        close_files fs'
  end.
Definition task_free (p : Z) : st sys unit :=
  kassert (negb (p =? 0));;
  t ← task_at p;
  kassert (bool_decide (state t = TASK_EXITING));;
  kassert (bool_decide (wait_queue t = []));;
  kassert (negb (is_thread t));;
  lock true;;
  close_files (files (img t));;
  modify (fun s => with_tasks s (delete p (tasks s)));;
  lock false.

(** The same for a thread: its files are shared and only counted down. *)
Fixpoint close_shared (fs : list Z) : st sys unit :=
  match fs with
  | [] => mret tt
  | f :: fs' =>
      if f =? 0 then close_shared fs'
      else
        s ← get;
        x ← lift (deref (fobjs s) f);
        fs_close (f_node x);;
        s ← get;
        x ← lift (deref (fobjs s) f);
        modify (fun s =>
          with_files s (<[f:=File (f_mode x) (f_flags x) (f_offs x) (f_node x) (dup_cnt x -i 1)]> (fobjs s)) (nodes s) (pipes s));;
        close_shared fs'
  end.
Definition thread_free (p : Z) : st sys unit :=
  t ← task_at p;
  lock true;;
  close_shared (files (img t));;
  modify (fun s => with_tasks s (delete p (tasks s)));;
  lock false.
Definition free_any (p : Z) : st sys unit := t ← task_at p; if is_thread t then thread_free p else task_free p.

(** ** exit *)

(** Lines 416-424, with the variable [parent]. *)
Fixpoint exit_loop (n : nat) (m : gmap Z task) (cur p par : Z) : res (Z * gmap Z task) :=
  match n with
  | O => Err EFuel
  | S n' =>
      if p =? 0 then Ok (par, m)
      else
        c ← deref m cur;
        t ← deref m p;
        let par := if pid t =? ppid c then p else par in
        let m := if pid c =? ppid t then <[p:=set_ppid t 1]> m else m in
        c ← deref m cur;
        t ← deref m p;
        let m := if cur =? next t then <[p:=set_next t (next c)]> m else m in
        t ← deref m p;
        exit_loop n' m cur (next t) par
  end.

(** Lines 425-432: the node is read again after [list_del] has freed it. *)
Definition reap_children (q : list Z) : st sys unit :=
  match q with [] => mret tt | z :: _ => free_any z;; fail EUaf end.
(** Lines 433-439. *)
Definition drop_signals (i : Z) : st sys unit := fun s =>
  if existsb (fun g => s_pid g =? i) (sigs_queue s) then Err EUaf else Ok (tt, s).

(** [task_exit] up to its [task_switch]: whether that follows, for the first
    task returns at once.  [par0] is the value that [parent] holds before it is
    assigned. *)
Definition exit_begin (par0 status : Z) : st sys bool :=
  lock true;;
  s ← get;
  c ← task_at (current_task s);
  if pid c =? 1 then mret false
  else
    '(par, m) ← lift (exit_loop (fuel s) (tasks s) (current_task s) (task_queue s) par0);
    modify (fun s => with_tasks s m);;
    c ← task_at (current_task s);
    reap_children (wait_queue c);;
    drop_signals (pid c);;
    par ← (if par =? 0 then get_task_by_pid 1 else mret par);
    upd_task (current_task s) (fun t => set_state (set_status t status) TASK_EXITING);;
    upd_task par (fun t => set_waitq t (wait_queue t ++ [current_task s]));;
    (if is_thread c then mret tt else wakeup (wait_addr par);; mret tt);;
    lock false;;
    mret true.

(** ** Signals (src/signal.c) *)
Definition SIG_ERR : Z := -1.
Definition SIG_IGN : Z := 1.
Definition SIGHUP : Z := 1.
Definition SIGINT : Z := 2.
Definition SIGQUIT : Z := 3.
Definition SIGILL : Z := 4.
Definition SIGABRT : Z := 6.
Definition SIGFPE : Z := 8.
Definition SIGKILL : Z := 9.
Definition SIGSEGV : Z := 11.
Definition SIGTERM : Z := 15.
Definition SIGCONT : Z := 18.
Definition SIGSTOP : Z := 19.
Definition SIGTSTP : Z := 20.

Definition signal (sn handler : Z) : st sys Z :=
  if sn <? Z.of_nat NUM_SIGS then
    if (negb (sn =? SIGKILL) && negb (sn =? SIGSTOP))%bool then
      s ← get;
      c ← task_at (current_task s);
      (if sn <? 0 then fail EOob else mret tt);;
      old ← lift (rd (sig_handlers (img c)) (Z.to_nat sn));
      h ← lift (wr (sig_handlers (img c)) (Z.to_nat sn) handler);
      let i := img c in
      put_task (current_task s) (Task (pid c) (ppid c) (next c) (state c) (sleep_addr c) (sleep_end_tick c)
        (exit_status c) (wait_queue c) (is_thread c)
        (Image (parent i) (uid i) (gid i) (ring i) (page_directory i) h (uheap i) (name i) (root_dir i) (cwd i)
           (files i) (sid i) (pgrp i) (leads i) (tty i) (regs i)));;
      mret old
    else mret SIG_ERR
  else mret SIG_ERR.

Definition kill (i sn : Z) : st sys Z :=
  t ← get_task_by_pid i;
  if t =? 0 then mret (-1)
  else modify (fun s => with_sigs s (sigs_queue s ++ [Signal (u32 sn) i]));; mret 0.

(** The table [sig_default]: what the default of a signal does ([None]: no
    function, the call jumps to 0). *)
Inductive sig_action := Terminate | Announce.
Definition sig_default (sn : Z) : option sig_action :=
  if existsb (Z.eqb sn) [SIGHUP; SIGINT; SIGQUIT; SIGILL; SIGABRT; SIGFPE; SIGKILL; SIGSEGV; SIGTERM] then Some Terminate
  else if existsb (Z.eqb sn) [SIGCONT; SIGSTOP; SIGTSTP] then Some Announce
  else None.

(** Saving the running task before its handler runs: the copy is made before
    [switch_to_user_mode] sets [ring]. *)
Definition save_task : st sys unit :=
  s ← get;
  c ← task_at (current_task s);
  modify (fun s => with_saved s (<[current_task s := c]> (saved s)));;
  let i := img c in
  put_task (current_task s) (Task (pid c) (ppid c) (next c) (state c) (sleep_addr c) (sleep_end_tick c) (exit_status c) (wait_queue c) (is_thread c)
    (Image (parent i) (uid i) (gid i) 3 (page_directory i) (sig_handlers i) (uheap i) (name i) (root_dir i) (cwd i)
       (files i) (sid i) (pgrp i) (leads i) (tty i) (regs i))).

Section Deliver.
(** The [task_switch] at the end of [task_exit], and what [parent] holds there. *)
Variables (switch : st sys unit) (par0 : Z).

(** [task_exit(status)]: whether another task runs now. *)
Definition exit_with (status : Z) : st sys bool :=
  b ← exit_begin par0 status;
  if (b : bool) then switch;; mret true else mret false.
(** A signal of the running task: whether control leaves [process_signals]. *)
Definition deliver (sn h : Z) : st sys bool :=
  if h =? SIG_DFL then
    match sig_default sn with
    | None => fail ENull
    | Some Terminate => exit_with (s32 (128 + sn))
    | Some Announce => mret false
    end
  else if h =? SIG_IGN then mret false
  else save_task;; mret true.
(** The loop of [process_signals], with the signals visited and those to go.
    A signal that returns here was deleted, and its node is read again. *)
Fixpoint signals_loop (done todo : list signal_t) : st sys unit :=
  match todo with
  | [] => mret tt
  | g :: todo' =>
      s ← get;
      c ← task_at (current_task s);
      if negb (pid c =? s_pid g) then
        p ← get_task_by_pid (s_pid g);
        upd_task p (fun t => if bool_decide (state t = TASK_SLEEPING) then set_state t TASK_AWAKEN else t);;
        signals_loop (done ++ [g]) todo'
      else
        modify (fun s => with_sigs s (done ++ todo'));;
        h ← lift (rd (sig_handlers (img c)) (Z.to_nat (signum g)));
        b ← deliver (signum g) h;
        if (b : bool) then mret tt else fail EUaf
  end.
Definition process_signals : st sys unit := s ← get; signals_loop [] (sigs_queue s).
Definition switch_int : st sys unit := pick_task;; process_signals.
End Deliver.

(** ** The timer interrupt and the switch of tasks *)
Section Switching.
Variable par0 : Z.

(** [timer_handler], which also is [int $32].  A signal may end the task that
    was chosen, which switches again: at most [n] of them. *)
Fixpoint timer_loop (n : nat) : st sys unit :=
  match n with
  | O => fail EFuel
  | S n' =>
      modify (fun s => with_ticks s (timer_ticks s +u 1));;
      s ← get;
      if current_task s =? 0 then mret tt else switch_int (timer_loop n') par0
  end.
(** Every switch in a switch takes a signal from the queue. *)
Definition timer_handler : st sys unit := fun s => timer_loop (S (length (sigs_queue s))) s.
Definition task_switch : st sys unit := timer_handler.
Definition task_switch_int : st sys unit := switch_int timer_handler par0.

(** ** Sleeping *)

(** [sleep_on] up to its [task_switch]. *)
Definition sleep_mark (addr : Z) : st sys unit :=
  lock true;;
  s ← get;
  upd_task (current_task s) (fun t => set_addr (set_state t TASK_SLEEPING) addr);;
  lock false.
Definition sleep_on (addr : Z) : st sys unit := sleep_mark addr;; task_switch.
Definition sleep_onms (addr ms : Z) : st sys unit :=
  s ← get;
  let ticks := if ms mod MS_PER_TICK =? 0 then ms / MS_PER_TICK else ms / MS_PER_TICK +u 1 in
  upd_task (current_task s) (fun t => set_end t (timer_ticks s +u ticks));;
  sleep_on addr.

(** ** wait *)
Inductive wait_res := Returned (r : Z) | Slept | Ready.

(** Lines 363-375: the task returns, goes to sleep or goes on. *)
Definition task_wait_begin : st sys wait_res :=
  s ← get;
  c ← task_at (current_task s);
  if bool_decide (wait_queue c = []) then
    lock true;;
    t ← lift (find_task (fuel s) (tasks s) (fun t => ppid t =? pid c) (task_queue s));
    if t =? 0 then lock false;; mret (Returned (-1))
    else sleep_on (wait_addr (current_task s));; mret Slept
  else mret Ready.

(** Lines 376-394: the result and the status. *)
Definition task_wait_end : st sys (Z * option Z) :=
  lock true;;
  s ← get;
  c ← task_at (current_task s);
  match wait_queue c with
  | [] => lock false;; mret (-2, None)
  | z :: q =>
      t ← task_at z;
      put_task (current_task s) (set_waitq c q);;
      free_any z;;
      lock false;;
      mret (pid t, Some (exit_status t))
  end.

(** [task_exit]. *)
Definition task_exit (status : Z) : st sys unit := exit_with task_switch par0 status;; mret tt.

(** The return from a handler: the copy is written over the task.  The objects
    that the task points to (its wait queue, heap and array of files) are not
    copied. *)
Definition restored (c t : task) : task :=
  let i := img t in
  Task (pid t) (ppid t) (next t) (state t) (sleep_addr t) (sleep_end_tick t) (exit_status t) (wait_queue c) (is_thread t)
    (Image (parent i) (uid i) (gid i) (ring i) (page_directory i) (sig_handlers i) (uheap (img c)) (name i) (root_dir i) (cwd i)
       (files (img c)) (sid i) (pgrp i) (leads i) (tty i) (regs i)).
Definition signal_handler_return : st sys unit :=
  s ← get;
  match saved s !! current_task s with
  | None => fail ENull
  | Some t =>
      c ← task_at (current_task s);
      put_task (current_task s) (restored c t);;
      modify (fun s => with_saved s (delete (current_task s) (saved s)));;
      if bool_decide (state t = TASK_AWAKEN) then upd_task (current_task s) (fun t => set_state t TASK_SLEEPING);; task_switch_int
      else mret tt
  end.
End Switching.

(** ** The first task *)
Definition O_RDONLY : Z := 0.
Definition O_WRONLY : Z := 1.

(** Lines 79-85: the three files of the first task, at the addresses [news];
    [tty0] is the node that [fs_namei] finds. *)
Fixpoint init_files (i : nat) (tty0 : Z) (news : list Z) : st sys (list Z) :=
  match news with
  | [] => mret []
  | a :: news' =>
      let mode := if (i =? 0)%nat then O_RDONLY else O_WRONLY in
      modify (fun s => with_files s (<[a:=File mode 0 0 tty0 0]> (fobjs s)) (nodes s) (pipes s));;
      open_node tty0 mode;;
      r ← init_files (S i) tty0 news';
      mret (a :: r)
  end.

(** [task_init]; [a] is the address of the task, [pd] its page directory,
    [f0], [f1], [f2] the addresses of its files. *)
Definition task_init (a pd root name0 tty0 f0 f1 f2 : Z) : st sys unit :=
  lock true;;
  modify (fun s => with_pid s 1);;
  t ← task_new a;
  modify (fun s => with_current s t);;
  upd_task t (fun t =>
    let i := img t in
    Task (pid t) (ppid t) (next t) TASK_RUNNING (sleep_addr t) (sleep_end_tick t) (exit_status t) (wait_queue t) (is_thread t)
      (Image (parent i) 0 0 (ring i) pd (sig_handlers i) (uheap i) name0 root [47; 0]
         (files i) (sid i) (pgrp i) (leads i) (tty i) (regs i)));;
  modify (fun s => Sys (tasks s) (current_task s) t (next_pid s) (switch_locked s) (timer_ticks s) [] (fobjs s) (nodes s) (pipes s) (saved s));;
  fs ← init_files 0 tty0 [f0; f1; f2];
  upd_task t (fun t =>
    let i := img t in
    Task (pid t) (ppid t) (next t) (state t) (sleep_addr t) (sleep_end_tick t) (exit_status t) (wait_queue t) (is_thread t)
      (Image (parent i) (uid i) (gid i) (ring i) (page_directory i) (sig_handlers i) (uheap i) (name i) (root_dir i) (cwd i)
         (fs ++ replicate (TASK_INITIAL_NUM_FILES - 3) 0) (sid i) (pgrp i) (leads i) (tty i) (regs i)));;
  lock false.
End Ops.

(** ** The queue as a list *)

(** From [p] the [next] fields lead through the tasks [l] to [q]. *)
Fixpoint seg (m : gmap Z task) (p : Z) (l : list Z) (q : Z) : Prop :=
  match l with
  | [] => p = q
  | a :: l' => p = a /\ a <> 0 /\ exists t, m !! a = Some t /\ seg m (next t) l' q
  end.
Definition chain (m : gmap Z task) (p : Z) (l : list Z) : Prop := seg m p l 0.

Lemma deref_Some {A} (m : gmap Z A) p v : p <> 0 -> m !! p = Some v -> deref m p = Ok v.
Proof. intros Hp Hv. unfold deref. replace (p =? 0) with false by lia. by rewrite Hv. Qed.

Lemma seg_app m p l1 l2 q : seg m p (l1 ++ l2) q <-> exists r, seg m p l1 r /\ seg m r l2 q.
Proof.
  revert p. induction l1 as [|a l1 IH]; intros p; cbn [app seg]; [naive_solver|]. split.
  - intros (-> & Ha & t & Ht & Hs). apply IH in Hs as (r & H1 & H2). eauto 10.
  - intros (r & (-> & Ha & t & Ht & H1) & H2). split; [done|]. split; [done|]. exists t. split; [done|]. apply IH. eauto.
Qed.

(** The segment depends on the [next] fields only. *)
Lemma seg_frame m m' p l q :
  seg m p l q -> (forall a, a ∈ l -> next <$> m' !! a = next <$> m !! a) -> seg m' p l q.
Proof.
  revert p. induction l as [|a l IH]; intros p; [done|]. intros (-> & Ha & t & Ht & Hc) Hn. split; [done|]. split; [done|].
  pose proof (Hn a ltac:(set_solver)) as E. rewrite Ht in E. destruct (m' !! a) as [t'|] eqn:Et; [|done].
  exists t'. split; [done|]. injection E as ->. apply IH; [done|]. set_solver.
Qed.

Lemma seg_lookup m p l q a : seg m p l q -> a ∈ l -> a <> 0 /\ exists t, m !! a = Some t.
Proof.
  revert p. induction l as [|b l IH]; intros p; [set_solver|]. intros (-> & Hb & t & Ht & Hc) [-> | Hin]%elem_of_cons; eauto.
Qed.

Lemma seg_size m p l q : seg m p l q -> NoDup l -> (length l <= size m)%nat.
Proof.
  intros Hs Hn. rewrite <- size_dom, <- (size_list_to_set (C := gset Z) l Hn). apply subseteq_size. intros a Ha.
  apply elem_of_list_to_set in Ha. apply elem_of_dom. destruct (seg_lookup _ _ _ _ _ Hs Ha) as (_ & t & ->). eauto.
Qed.

(** The first element with a property. *)
Lemma list_first {A} (P : A -> Prop) `{forall x, Decision (P x)} (l : list A) :
  (exists l1 a l2, l = l1 ++ a :: l2 /\ P a /\ Forall (fun x => ~ P x) l1) \/ Forall (fun x => ~ P x) l.
Proof.
  induction l as [|a l IH]; [by right|]. destruct (decide (P a)) as [Ha|Ha]; [left; by exists [], a, l|].
  destruct IH as [(l1 & b & l2 & -> & Hb & Hl)|Hl]; [|right; by constructor].
  left. exists (a :: l1), b, l2. split; [done|]. split; [done|]. by constructor.
Qed.

(** ** The loops over the queue *)
Definition holds (m : gmap Z task) (test : task -> bool) (a : Z) : Prop := exists t, m !! a = Some t /\ test t = true.
#[global] Instance holds_dec m test a : Decision (holds m test a).
Proof.
  unfold holds. destruct (m !! a) as [t|]; [|right; by intros (t & ? & _)].
  destruct (test t) eqn:E; [left; by exists t|right; intros (u & Hu & Ht); congruence].
Defined.

Lemma find_task_skip n m test p l1 q :
  seg m p l1 q -> Forall (fun a => ~ holds m test a) l1 ->
  find_task (length l1 + n) m test p = find_task n m test q.
Proof.
  revert p. induction l1 as [|a l1 IH]; intros p; cbn [seg length Nat.add find_task]; [by intros ->|].
  intros (-> & Ha & t & Ht & Hs) Hf. apply Forall_cons_1 in Hf as [Hna Hf]. replace (a =? 0) with false by lia.
  rewrite (deref_Some m a t) by done. cbn [mbind res_bind]. destruct (test t) eqn:E; [exfalso; apply Hna; by exists t|].
  by apply IH.
Qed.

Lemma find_task_hit n m test p l1 a l2 q :
  seg m p (l1 ++ a :: l2) q -> holds m test a -> Forall (fun a => ~ holds m test a) l1 -> (length l1 < n)%nat ->
  find_task n m test p = Ok a.
Proof.
  intros Hs (t & Ht & Htest) Hf Hn. apply seg_app in Hs as (r & H1 & -> & Ha & _).
  replace n with (length l1 + S (n - S (length l1)))%nat by lia. rewrite (find_task_skip _ _ _ _ _ a) by done.
  cbn [find_task]. replace (a =? 0) with false by lia. rewrite (deref_Some m a t) by done. cbn [mbind res_bind].
  by rewrite Htest.
Qed.

Lemma find_task_miss n m test p l :
  chain m p l -> Forall (fun a => ~ holds m test a) l -> (length l < n)%nat -> find_task n m test p = Ok 0.
Proof.
  intros Hs Hf Hn. replace n with (length l + S (n - S (length l)))%nat by lia.
  by rewrite (find_task_skip _ _ _ _ _ 0).
Qed.

(** One visit of a loop of the scheduler, and all of them. *)
Definition visit (ticks : Z) (m : gmap Z task) (a : Z) : gmap Z task := alter (wake_check ticks) a m.
Definition visits (ticks : Z) (m : gmap Z task) (l : list Z) : gmap Z task := fold_left (visit ticks) l m.

Definition awake (ticks : Z) (m : gmap Z task) (a : Z) : Prop := holds m (fun t => ready (wake_check ticks t)) a.

Lemma next_wake_check ticks t : next (wake_check ticks t) = next t.
Proof. unfold wake_check. by destruct (_ && _)%bool. Qed.
Lemma wake_check_idem ticks t : wake_check ticks (wake_check ticks t) = wake_check ticks t.
Proof.
  unfold wake_check at 2 3. destruct (_ && _ && _)%bool eqn:E; [done|]. unfold wake_check. by rewrite E.
Qed.

Lemma lookup_visits ticks m l a :
  visits ticks m l !! a = if decide (a ∈ l) then wake_check ticks <$> m !! a else m !! a.
Proof.
  unfold visits. revert m. induction l as [|b l IH]; intros m; cbn [fold_left]; [done|]. rewrite IH. unfold visit.
  destruct (decide (a = b)) as [->|Hab].
  - rewrite lookup_alter_eq. rewrite (decide_True _ _ (P := b ∈ b :: l)) by set_solver. case_decide; [|done].
    destruct (m !! b); [|done]. cbn. by rewrite wake_check_idem.
  - rewrite lookup_alter_ne by done. destruct (decide (a ∈ l)).
    + by rewrite decide_True by set_solver.
    + by rewrite decide_False by set_solver.
Qed.

Lemma seg_visits ticks m l p l' q : seg m p l' q -> seg (visits ticks m l) p l' q.
Proof.
  intros Hs. eapply seg_frame; [done|]. intros a _. rewrite lookup_visits. case_decide; [|done].
  destruct (m !! a); [|done]. cbn. by rewrite next_wake_check.
Qed.

Lemma pick_loop_skip n m ticks p l1 q :
  seg m p l1 q -> NoDup l1 -> Forall (fun a => ~ awake ticks m a) l1 ->
  pick_loop (length l1 + n) m ticks p = pick_loop n (visits ticks m l1) ticks q.
Proof.
  revert m p. induction l1 as [|a l1 IH]; intros m p; cbn [seg length Nat.add pick_loop]; [by intros ->|].
  intros (-> & Ha & t & Ht & Hs) [Hin Hnd]%NoDup_cons Hf. apply Forall_cons_1 in Hf as [Hna Hf].
  replace (a =? 0) with false by lia. rewrite (deref_Some m a t) by done. cbn [mbind res_bind].
  destruct (ready (wake_check ticks t)) eqn:E; [exfalso; apply Hna; by exists t|].
  rewrite next_wake_check.
  assert (Hm : <[a:=wake_check ticks t]> m = visit ticks m a).
  { unfold visit. apply map_eq. intros b. destruct (decide (b = a)) as [->|].
    - by rewrite lookup_insert_eq, lookup_alter_eq, Ht.
    - by rewrite lookup_insert_ne, lookup_alter_ne by done. }
  rewrite Hm. apply IH; [|done|].
  - eapply (seg_visits ticks m [a]); done.
  - eapply Forall_impl; [done|]. intros b Hb (u & Hu & Hr). apply Hb. unfold visit in Hu.
    destruct (decide (b = a)) as [->|]; [rewrite lookup_alter_eq, Ht in Hu|rewrite lookup_alter_ne in Hu by done; by exists u].
    injection Hu as <-. rewrite wake_check_idem in Hr. congruence.
Qed.

Lemma pick_loop_hit n m ticks p l1 a l2 q :
  seg m p (l1 ++ a :: l2) q -> NoDup (l1 ++ [a]) -> awake ticks m a -> Forall (fun a => ~ awake ticks m a) l1 ->
  (length l1 < n)%nat -> pick_loop n m ticks p = Ok (a, visits ticks m (l1 ++ [a])).
Proof.
  intros Hs Hnd (t & Ht & Hr) Hf Hn. apply seg_app in Hs as (r & H1 & -> & Ha & _).
  apply NoDup_app in Hnd as (Hnd & Hni & _).
  replace n with (length l1 + S (n - S (length l1)))%nat by lia. rewrite (pick_loop_skip _ _ _ _ _ a) by done.
  cbn [pick_loop]. replace (a =? 0) with false by lia.
  assert (Hv : visits ticks m l1 !! a = Some t) by (rewrite lookup_visits, decide_False; [done|set_solver]).
  rewrite (deref_Some _ a t) by done. cbn [mbind res_bind]. rewrite Hr. do 2 f_equal.
  unfold visits. rewrite fold_left_app. cbn [fold_left]. fold (visits ticks m l1). unfold visit. apply map_eq. intros b.
  destruct (decide (b = a)) as [->|]; [by rewrite lookup_insert_eq, lookup_alter_eq, Hv|by rewrite lookup_insert_ne, lookup_alter_ne].
Qed.

Lemma pick_loop_miss n m ticks p l :
  chain m p l -> NoDup l -> Forall (fun a => ~ awake ticks m a) l -> (length l < n)%nat ->
  pick_loop n m ticks p = Ok (0, visits ticks m l).
Proof.
  intros Hs Hnd Hf Hn. replace n with (length l + S (n - S (length l)))%nat by lia. by rewrite (pick_loop_skip _ _ _ _ _ 0).
Qed.

(** [wakeup] *)
Definition wake_on (addr : Z) (t : task) : task := if sleeps_on addr t then woken t else t.
Definition count_on (addr : Z) (m : gmap Z task) (l : list Z) : Z :=
  Z.of_nat (length (filter (holds m (sleeps_on addr)) l)).

(** *** The loop of wakeup *)
Lemma s32_add_l a b : s32 (s32 a + b) = s32 (a + b).
Proof.
  unfold s32. replace ((a + 2 ^ 31) mod 2 ^ 32 - 2 ^ 31 + b + 2 ^ 31) with ((a + 2 ^ 31) mod 2 ^ 32 + b) by lia.
  rewrite Zplus_mod_idemp_l. do 2 f_equal. lia.
Qed.

Lemma filter_ext_in {A} (P Q : A -> Prop) `{forall x, Decision (P x)} `{forall x, Decision (Q x)} (l : list A) :
  (forall x, x ∈ l -> P x <-> Q x) -> filter P l = filter Q l.
Proof.
  induction l as [|x l IH]; intros Hl; [done|]. specialize (IH ltac:(set_solver)). pose proof (Hl x ltac:(set_solver)).
  destruct (decide (P x)); [rewrite !filter_cons_True by tauto; by f_equal|by rewrite !filter_cons_False by tauto].
Qed.

Lemma wakeup_loop_chain n m addr p l x :
  chain m p l -> NoDup l -> (length l < n)%nat ->
  exists m', wakeup_loop n m addr p (s32 x) = Ok (s32 (x + count_on addr m l), m') /\
    forall a, m' !! a = if decide (a ∈ l) then wake_on addr <$> m !! a else m !! a.
Proof.
  revert n m p x. induction l as [|a l IH]; intros n m p x; (destruct n as [|n]; [cbn [length]; lia|]).
  { cbn [chain seg wakeup_loop]. intros -> _ _. exists m. split; [|done]. cbn [Z.eqb]. do 3 f_equal. unfold count_on. cbn. lia. }
  intros (-> & Ha & t & Ht & Hs) [Hin Hnd]%NoDup_cons Hlen. cbn [wakeup_loop length] in *. replace (a =? 0) with false by lia.
  rewrite (deref_Some m a t) by done. cbn [mbind res_bind].
  assert (Hcount : count_on addr m (a :: l) = (if sleeps_on addr t then 1 else 0) + count_on addr m l).
  { unfold count_on. destruct (sleeps_on addr t) eqn:E.
    - rewrite filter_cons_True by (by exists t). cbn [length]. lia.
    - rewrite filter_cons_False; [lia|]. intros (u & Hu & Hs'). congruence. }
  destruct (sleeps_on addr t) eqn:E.
  - destruct (IH n (<[a:=woken t]> m) (next t) (x + 1)) as (m' & Hm' & Hl); [|done|lia|].
    { eapply seg_frame; [done|]. intros b Hb. by rewrite lookup_insert_ne by set_solver. }
    assert (Hsame : count_on addr (<[a:=woken t]> m) l = count_on addr m l).
    { unfold count_on. do 2 f_equal. apply filter_ext_in. intros b Hb. unfold holds.
      by rewrite lookup_insert_ne by set_solver. }
    exists m'. rewrite s32_add_l, Hm', Hsame, Hcount. split; [do 3 f_equal; lia|]. intros b. rewrite Hl.
    destruct (decide (b = a)) as [->|Hb].
    + rewrite decide_False, decide_True, lookup_insert_eq, Ht by set_solver. cbn. unfold wake_on. by rewrite E.
    + rewrite lookup_insert_ne by done. destruct (decide (b ∈ l)); [by rewrite decide_True by set_solver|].
      by rewrite decide_False by set_solver.
  - destruct (IH n m (next t) x) as (m' & Hm' & Hl); [done|done|lia|].
    exists m'. rewrite Hm', Hcount. split; [do 3 f_equal; lia|]. intros b. rewrite Hl.
    destruct (decide (b = a)) as [->|Hb].
    + rewrite decide_False, decide_True, Ht by set_solver. cbn. unfold wake_on. by rewrite E.
    + destruct (decide (b ∈ l)); [by rewrite decide_True by set_solver|]. by rewrite decide_False by set_solver.
Qed.

Lemma last_loop_chain n m p l z :
  chain m p (l ++ [z]) -> (length l < n)%nat -> last_loop n m p = Ok z.
Proof.
  revert n p. induction l as [|a l IH]; intros n p Hs Hn; (destruct n as [|n]; [lia|]); cbn [app last_loop].
  - destruct Hs as (-> & Hz & t & Ht & Hn0). cbn [seg] in Hn0. rewrite (deref_Some m z t) by done. cbn [mbind res_bind]. by rewrite Hn0.
  - destruct Hs as (-> & Hz & t & Ht & Hs). rewrite (deref_Some m a t) by done. cbn [mbind res_bind].
    destruct (Z.eqb_spec (next t) 0) as [E|E].
    + exfalso. rewrite E in Hs. destruct l; cbn [app] in Hs; destruct Hs as (<- & ? & _); done.
    + apply IH; [done|]. cbn [length] in Hn. lia.
Qed.

(** *** The loop of exit *)

(** What the loop makes of a task that stays in the queue. *)
Definition reparent (c t : task) : task := if pid c =? ppid t then set_ppid t 1 else t.
Definition unlink (cur : Z) (c t : task) : task := if cur =? next t then set_next t (next c) else t.
Definition orphan (cur : Z) (c t : task) : task := unlink cur c (reparent c t).

Lemma exit_step n m cur c a t par :
  m !! cur = Some c -> cur <> 0 -> m !! a = Some t -> a <> 0 -> a <> cur ->
  exit_loop (S n) m cur a par =
    exit_loop n (<[a := orphan cur c t]> m) cur (next (orphan cur c t)) (if pid t =? ppid c then a else par).
Proof.
  intros Hc Hc0 Ht Ha Hne. cbn [exit_loop]. replace (a =? 0) with false by lia.
  rewrite (deref_Some m cur c), (deref_Some m a t) by done. cbn [mbind res_bind].
  set (m1 := if pid c =? ppid t then <[a:=set_ppid t 1]> m else m).
  assert (H1 : m1 !! cur = Some c /\ m1 !! a = Some (reparent c t) /\ <[a:=orphan cur c t]> m1 = <[a:=orphan cur c t]> m).
  { unfold m1, reparent. destruct (pid c =? ppid t).
    - rewrite lookup_insert_ne, lookup_insert_eq, insert_insert_eq by done. done.
    - done. }
  destruct H1 as (Hc1 & Ht1 & Hm1). rewrite (deref_Some m1 cur c), (deref_Some m1 a (reparent c t)) by done. cbn [mbind res_bind].
  set (m2 := if cur =? next (reparent c t) then <[a:=set_next (reparent c t) (next c)]> m1 else m1).
  assert (H2 : m2 = <[a:=orphan cur c t]> m).
  { rewrite <- Hm1. unfold m2, orphan, unlink. destruct (cur =? next (reparent c t)); [done|]. by rewrite insert_id. }
  rewrite H2, (deref_Some _ a (orphan cur c t)) by (try done; by rewrite lookup_insert_eq). cbn [mbind res_bind]. done.
Qed.
(** *** The loop of exit, over the queue *)
Definition par_step (m : gmap Z task) (c : task) (par a : Z) : Z :=
  match m !! a with Some t => if pid t =? ppid c then a else par | None => par end.
Definition par_of (m : gmap Z task) (c : task) (l : list Z) (par : Z) : Z := fold_left (par_step m c) l par.

Lemma par_of_ext m m' c l par : (forall a, a ∈ l -> pid <$> m' !! a = pid <$> m !! a) -> par_of m' c l par = par_of m c l par.
Proof.
  unfold par_of. revert par. induction l as [|a l IH]; intros par Hl; [done|]. cbn [fold_left].
  assert (E : par_step m' c par a = par_step m c par a).
  { unfold par_step. pose proof (Hl a ltac:(set_solver)) as E. destruct (m' !! a), (m !! a); try done. injection E as ->. done. }
  rewrite E. apply IH. set_solver.
Qed.

Lemma reparent_next c t : next (reparent c t) = next t.
Proof. unfold reparent. by destruct (_ =? _). Qed.
Lemma orphan_pid cur c t : pid (orphan cur c t) = pid t.
Proof. unfold orphan, unlink, reparent. by destruct (pid c =? ppid t), (cur =? _). Qed.
Lemma orphan_stay cur c t : next t <> cur -> next (orphan cur c t) = next t.
Proof. intros Hn. unfold orphan, unlink. rewrite reparent_next. replace (cur =? next t) with false by lia. apply reparent_next. Qed.

Lemma seg_next m p l q cur b t :
  seg m p l q -> q <> cur -> cur ∉ l -> b ∈ l -> m !! b = Some t -> next t <> cur.
Proof.
  revert p. induction l as [|a l IH]; intros p Hs Hq Hc Hb Ht; [set_solver|]. destruct Hs as (-> & _ & u & Hu & Hs).
  apply elem_of_cons in Hb as [-> |Hb]; [|eapply IH; [done|done|set_solver|done|done]].
  rewrite Hu in Ht. injection Ht as ->. destruct l as [|d l]; cbn [seg] in Hs; [by subst q|]. destruct Hs as (-> & _). set_solver.
Qed.

(** A part of the queue that does not lead to the exiting task. *)
Lemma exit_loop_seg n m cur c p l q par :
  seg m p l q -> NoDup l -> cur ∉ l -> m !! cur = Some c -> cur <> 0 -> q <> cur ->
  exists m', exit_loop (length l + n) m cur p par = exit_loop n m' cur q (par_of m c l par) /\
    forall a, m' !! a = if decide (a ∈ l) then orphan cur c <$> m !! a else m !! a.
Proof.
  revert m p par. induction l as [|a l IH]; intros m p par Hs Hnd Hcur Hc Hc0 Hq.
  { cbn [seg] in Hs. subst p. exists m. split; [done|]. intros a. by rewrite decide_False by set_solver. }
  destruct Hs as (-> & Ha & t & Ht & Hs). apply NoDup_cons in Hnd as [Hin Hnd].
  cbn [length Nat.add]. rewrite (exit_step _ m cur c a t par) by (done || set_solver).
  assert (Hnx : next t <> cur).
  { destruct l as [|b l]; cbn [seg] in Hs; [by subst q|]. destruct Hs as (-> & _). set_solver. }
  rewrite (orphan_stay cur c t Hnx).
  destruct (IH (<[a:=orphan cur c t]> m) (next t) (if pid t =? ppid c then a else par)) as (m' & Hm' & Hl).
  - eapply seg_frame; [done|]. intros b Hb. by rewrite lookup_insert_ne by set_solver.
  - done.
  - set_solver.
  - rewrite lookup_insert_ne by set_solver. done.
  - done.
  - done.
  - exists m'. rewrite Hm'. split.
    + f_equal. rewrite (par_of_ext m); [|intros b Hb; by rewrite lookup_insert_ne by set_solver].
      unfold par_of. cbn [fold_left]. unfold par_step at 3. by rewrite Ht.
    + intros b. rewrite Hl. destruct (decide (b = a)) as [->|Hb].
      * by rewrite decide_False, decide_True, lookup_insert_eq, Ht by set_solver.
      * rewrite lookup_insert_ne by done. destruct (decide (b ∈ l)); [by rewrite decide_True by set_solver|].
        by rewrite decide_False by set_solver.
Qed.

Lemma exit_loop_chain n m cur c p pre z post par :
  chain m p (pre ++ z :: cur :: post) -> NoDup (pre ++ z :: cur :: post) -> m !! cur = Some c ->
  (length (pre ++ z :: cur :: post) <= n)%nat ->
  exists m', exit_loop n m cur p par = Ok (par_of m c (pre ++ z :: post) par, m') /\
    (forall a, m' !! a = if decide (a ∈ pre ++ z :: post) then orphan cur c <$> m !! a else m !! a) /\
    chain m' p (pre ++ z :: post).
Proof.
  intros Hs Hnd Hc Hn. pose proof Hs as Hs0. apply seg_app in Hs as (r & H1 & -> & Hz & tz & Htz & Hzn & Hc0 & c' & Hc' & H2).
  rewrite Hc in Hc'. injection Hc' as <-.
  apply NoDup_app in Hnd as (Hnd1 & Hdis & Hnd2). apply NoDup_cons in Hnd2 as [Hz2 Hnd2]. apply NoDup_cons in Hnd2 as [Hcp Hnd2].
  rewrite length_app in Hn. cbn [length] in Hn.
  destruct (exit_loop_seg (n - length pre) m cur c p pre z par) as (m1 & E1 & L1); [done|done|set_solver|done|done|set_solver|].
  assert (Hc1 : m1 !! cur = Some c) by (rewrite L1, decide_False; [done|set_solver]).
  assert (Hz1 : m1 !! z = Some tz) by (rewrite L1, decide_False; [done|set_solver]).
  replace (length pre + (n - length pre))%nat with n in E1 by lia.
  replace (n - length pre)%nat with (S (length post + (n - length pre - S (length post)))) in E1 by lia.
  rewrite (exit_step _ m1 cur c z tz) in E1 by (done || set_solver).
  assert (Hzo : next (orphan cur c tz) = next c).
  { unfold orphan, unlink. rewrite reparent_next, Hzn, Z.eqb_refl. done. }
  rewrite Hzo in E1. set (m2 := <[z:=orphan cur c tz]> m1) in *.
  destruct (exit_loop_seg (n - length pre - S (length post)) m2 cur c (next c) post 0
    (if pid tz =? ppid c then z else par_of m c pre par)) as (m3 & E3 & L3).
  - eapply seg_frame; [done|]. intros b Hb. unfold m2. rewrite lookup_insert_ne by set_solver. by rewrite L1, decide_False by set_solver.
  - done.
  - done.
  - unfold m2. by rewrite lookup_insert_ne by set_solver.
  - done.
  - done.
  - rewrite E3 in E1. destruct (n - length pre - S (length post))%nat as [|k] eqn:Ek; [lia|]. cbn [exit_loop Z.eqb] in E1.
    assert (L : forall a, m3 !! a = if decide (a ∈ pre ++ z :: post) then orphan cur c <$> m !! a else m !! a).
    { intros a. rewrite L3. unfold m2. destruct (decide (a = z)) as [->|Hza].
      - by rewrite decide_False, decide_True, lookup_insert_eq, Htz by set_solver.
      - rewrite !lookup_insert_ne by done. rewrite L1. destruct (decide (a ∈ post)).
        + by rewrite decide_False, decide_True by set_solver.
        + destruct (decide (a ∈ pre)); [by rewrite decide_True by set_solver|by rewrite decide_False by set_solver]. }
    exists m3. split; [|split].
    + rewrite E1. do 2 f_equal. rewrite (par_of_ext m).
      * unfold par_of. rewrite fold_left_app. cbn [fold_left]. unfold par_step at 4. by rewrite Htz.
      * intros b Hb. unfold m2. rewrite lookup_insert_ne by set_solver. by rewrite L1, decide_False by set_solver.
    + exact L.
    + apply seg_app. exists z. split.
      * eapply seg_frame; [done|]. intros b Hb. rewrite L, decide_True by set_solver.
        destruct (seg_lookup _ _ _ _ _ H1 Hb) as (_ & tb & Htb). rewrite Htb. cbn. f_equal. apply orphan_stay.
        by eapply seg_next; [exact H1|set_solver|set_solver|exact Hb|].
      * split; [done|]. split; [done|]. exists (orphan cur c tz). rewrite L, decide_True, Htz by set_solver. split; [done|].
        rewrite Hzo. eapply seg_frame; [done|]. intros b Hb. rewrite L, decide_True by set_solver.
        destruct (seg_lookup _ _ _ _ _ H2 Hb) as (_ & tb & Htb). rewrite Htb. cbn. f_equal. apply orphan_stay.
        by eapply seg_next; [exact H2|done|done|exact Hb|].
Qed.
(** ** The choice of the next task *)
Lemma awake_visits ticks m l a : awake ticks (visits ticks m l) a <-> awake ticks m a.
Proof.
  unfold awake, holds. rewrite lookup_visits. case_decide; [|done]. destruct (m !! a) as [t|]; [|naive_solver]. cbn.
  split; intros (u & Hu & Hr); injection Hu as <-.
  - exists t. split; [done|]. rewrite wake_check_idem in Hr. exact Hr.
  - eexists. split; [done|]. by rewrite wake_check_idem.
Qed.
Lemma visits_app ticks m l1 l2 : visits ticks m (l1 ++ l2) = visits ticks (visits ticks m l1) l2.
Proof. unfold visits. apply fold_left_app. Qed.

Section Switch.
Variables (s : sys) (c : task) (post l : list Z).
Hypotheses (Hunlocked : switch_locked s = false)
  (Hcur0 : current_task s <> 0) (Hcur : tasks s !! current_task s = Some c)
  (Hpost : chain (tasks s) (next c) post) (Hpnd : NoDup post)
  (Hl : chain (tasks s) (task_queue s) l) (Hlnd : NoDup l).

Notation m := (tasks s).
Notation ticks := (timer_ticks s).
Notation asleep := (fun b => ~ awake ticks m b).

(** First the tasks behind the running one ... *)
Lemma switch_behind p1 a p2 :
  post = p1 ++ a :: p2 -> awake ticks m a -> Forall asleep p1 ->
  task_switch_inner s = Ok (a, with_current (with_tasks s (visits ticks m (p1 ++ [a]))) a).
Proof.
  intros -> Ha Hf. pose proof (seg_size _ _ _ _ Hpost Hpnd) as Hps. rewrite length_app in Hps. cbn [length] in Hps.
  destruct (seg_lookup _ _ _ _ a Hpost) as [Ha0 _]; [set_solver|].
  unfold task_switch_inner. st_run. rewrite Hunlocked. unfold task_at. rewrite (deref_Some _ _ c) by done. cbn [mbind res_bind].
  rewrite (pick_loop_hit _ _ _ _ p1 a p2 0); [|done| |done|done|unfold fuel; lia].
  - do 2 (rewrite (proj2 (Z.eqb_neq a 0) Ha0); cbn beta iota). done.
  - change (a :: p2) with ([a] ++ p2) in Hpnd. rewrite app_assoc in Hpnd. by apply NoDup_app in Hpnd as [? _].
Qed.

(** ... then the queue from its head. *)
Lemma switch_around l1 a l2 :
  Forall asleep post -> l = l1 ++ a :: l2 -> awake ticks m a -> Forall asleep l1 ->
  task_switch_inner s = Ok (a, with_current (with_tasks s (visits ticks m (post ++ l1 ++ [a]))) a).
Proof.
  intros Hno -> Ha Hf. pose proof (seg_size _ _ _ _ Hpost Hpnd) as Hps. pose proof (seg_size _ _ _ _ Hl Hlnd) as Hls.
  rewrite length_app in Hls. cbn [length] in Hls. destruct (seg_lookup _ _ _ _ a Hl) as [Ha0 _]; [set_solver|].
  unfold task_switch_inner. st_run. rewrite Hunlocked. unfold task_at. rewrite (deref_Some _ _ c) by done. cbn [mbind res_bind].
  rewrite (pick_loop_miss _ _ _ _ post) by (done || unfold fuel; lia). cbn [Z.eqb].
  rewrite (pick_loop_hit _ _ _ _ l1 a l2 0); [|by apply seg_visits| |by apply awake_visits| |unfold fuel; lia].
  - rewrite (proj2 (Z.eqb_neq a 0) Ha0). cbn beta iota. by rewrite <- visits_app.
  - change (a :: l2) with ([a] ++ l2) in Hlnd. rewrite app_assoc in Hlnd. by apply NoDup_app in Hlnd as [? _].
  - eapply Forall_impl; [done|]. cbn. intros b Hb Hb'. by apply awake_visits in Hb'.
Qed.

Lemma switch_panics : Forall asleep post -> Forall asleep l -> task_switch_inner s = Err EPanic.
Proof.
  intros Hno Hnl. pose proof (seg_size _ _ _ _ Hpost Hpnd) as Hps. pose proof (seg_size _ _ _ _ Hl Hlnd) as Hls.
  unfold task_switch_inner. st_run. rewrite Hunlocked. unfold task_at. rewrite (deref_Some _ _ c) by done. cbn [mbind res_bind].
  rewrite (pick_loop_miss _ _ _ _ post) by (done || unfold fuel; lia). cbn [Z.eqb].
  rewrite (pick_loop_miss _ _ _ _ l); [done|by apply seg_visits|done| |unfold fuel; lia].
  eapply Forall_impl; [done|]. cbn. intros b Hb Hb'. by apply awake_visits in Hb'.
Qed.

(** The three cases together. *)
Lemma switch_cases :
  (exists vis a, task_switch_inner s = Ok (a, with_current (with_tasks s (visits ticks m vis)) a) /\
     a ∈ post ++ l /\ awake ticks m a) \/
  task_switch_inner s = Err EPanic /\ Forall asleep l.
Proof.
  destruct (list_first (awake ticks m) post) as [(p1 & a & p2 & Hp & Ha & Hpf)|Hnone].
  { left. exists (p1 ++ [a]), a. split; [by eapply switch_behind|]. split; [subst post; set_solver|done]. }
  destruct (list_first (awake ticks m) l) as [(l1 & a & l2 & El & Ha & Hlf)|Hnl].
  - left. exists (post ++ l1 ++ [a]), a. split; [by eapply switch_around|]. split; [subst l; set_solver|done].
  - right. split; [by apply switch_panics|done].
Qed.
End Switch.
End Sched.
