(* ===== verification/SchedInv.v ===== *)
(** * The invariant of the scheduler

    Every operation of Sched.v keeps the queue, the wait queues and the
    families of the tasks in order; the theorems on reachable systems, on the
    choice of the next task and on exit and wait. *)
From S2P Require Import Prelude Pipe Sched.

Module SchedInv.
Import Sched.

(** ** The invariant *)
Definition live (x : task_states) : Prop := x = TASK_RUNNING \/ x = TASK_AWAKEN \/ x = TASK_SLEEPING.

(** [l] are the tasks of the queue: they begin with the first task, each has
    its parent in the queue, those that have exited are in exactly one wait
    queue, and no task is lost.  The copy of a task that handles a signal is one
    of a live task with its process id. *)
Record sane (s : sys) (l : list Z) : Prop := Sane {
  wf_chain : chain (tasks s) (task_queue s) l;
  wf_nodup : NoDup l;
  wf_init : exists a l' t, l = a :: l' /\ tasks s !! a = Some t /\ pid t = 1;
  wf_pids : forall a t, tasks s !! a = Some t -> a <> 0 /\ 1 <= pid t < next_pid s;
  wf_unique : forall a b t u, tasks s !! a = Some t -> tasks s !! b = Some u -> pid t = pid u -> a = b;
  wf_parent : forall a t, a ∈ l -> tasks s !! a = Some t -> pid t <> 1 ->
    exists b u, b ∈ l /\ b <> a /\ tasks s !! b = Some u /\ pid u = ppid t;
  wf_live : forall a t, a ∈ l -> tasks s !! a = Some t -> live (state t);
  wf_zombie : forall a t z, a ∈ l -> tasks s !! a = Some t -> z ∈ wait_queue t ->
    exists u, tasks s !! z = Some u /\ z ∉ l /\ state u = TASK_EXITING /\ wait_queue u = [];
  wf_waitq : forall a t, a ∈ l -> tasks s !! a = Some t -> NoDup (wait_queue t);
  wf_one_waitq : forall a b t u z, a ∈ l -> b ∈ l -> tasks s !! a = Some t -> tasks s !! b = Some u ->
    z ∈ wait_queue t -> z ∈ wait_queue u -> a = b;
  wf_all : forall z u, tasks s !! z = Some u -> z ∈ l \/ exists a t, a ∈ l /\ tasks s !! a = Some t /\ z ∈ wait_queue t;
  wf_sigs : forall g, g ∈ sigs_queue s -> exists a t, a ∈ l /\ tasks s !! a = Some t /\ pid t = s_pid g;
  wf_saved : forall a c t, tasks s !! a = Some c -> saved s !! a = Some t -> pid t = pid c /\ live (state t)
}.
(** The running task is one of the queue. *)
Definition wf (s : sys) (l : list Z) : Prop := sane s l /\ current_task s ∈ l.

(** Changes of the state and of the sleep of tasks. *)
Definition soft (t t' : task) : Prop :=
  pid t' = pid t /\ ppid t' = ppid t /\ next t' = next t /\ wait_queue t' = wait_queue t /\
  (live (state t) -> live (state t')) /\ (state t = TASK_EXITING -> state t' = TASK_EXITING).
Definition soft_map (m m' : gmap Z task) : Prop := forall a, option_Forall2 soft (m !! a) (m' !! a).

#[global] Instance soft_refl : Reflexive soft.
Proof. intros t. unfold soft. tauto. Qed.
#[global] Instance soft_trans : Transitive soft.
Proof. unfold soft. intros x y z (?&?&?&?&?&?) (?&?&?&?&?&?). repeat split; try congruence; tauto. Qed.
#[global] Instance soft_map_refl : Reflexive soft_map.
Proof. intros m a. reflexivity. Qed.
#[global] Instance soft_map_trans : Transitive soft_map.
Proof. intros x y z H1 H2 a. etransitivity; [apply H1|apply H2]. Qed.

Lemma soft_fwd m m' a t : soft_map m m' -> m !! a = Some t -> exists t', m' !! a = Some t' /\ soft t t'.
Proof. intros Hm Ht. specialize (Hm a). rewrite Ht in Hm. inversion Hm; subst; eauto. Qed.
Lemma soft_bwd m m' a t' : soft_map m m' -> m' !! a = Some t' -> exists t, m !! a = Some t /\ soft t t'.
Proof. intros Hm Ht. specialize (Hm a). rewrite Ht in Hm. inversion Hm; subst; eauto. Qed.

Lemma sane_soft s s' l :
  sane s l -> soft_map (tasks s) (tasks s') -> task_queue s' = task_queue s -> next_pid s' = next_pid s ->
  sigs_queue s' ⊆ sigs_queue s -> saved s' ⊆ saved s -> sane s' l.
Proof.
  intros [Hch Hnd Hin Hpid Huq Hpar Hlv Hz Hw How Hall Hsg Hsv] Hm Hq Hn Hsig Hsub. split.
  - rewrite Hq. eapply seg_frame; [done|]. intros a _. specialize (Hm a). inversion Hm as [x y Hs E1 E2|E1 E2]; [|done].
    cbn. f_equal. apply Hs.
  - done.
  - destruct Hin as (a & l' & t & -> & Ht & Hp). destruct (soft_fwd _ _ _ _ Hm Ht) as (t' & Ht' & Hs).
    exists a, l', t'. split; [done|]. split; [done|]. destruct Hs as [-> _]. done.
  - intros a t' Ht'. destruct (soft_bwd _ _ _ _ Hm Ht') as (t & Ht & Hs). rewrite Hn. destruct Hs as [-> _]. eauto.
  - intros a b t' u' Ht' Hu'. destruct (soft_bwd _ _ _ _ Hm Ht') as (t & Ht & -> & _).
    destruct (soft_bwd _ _ _ _ Hm Hu') as (u & Hu & -> & _). eauto.
  - intros a t' Ha Ht'. destruct (soft_bwd _ _ _ _ Hm Ht') as (t & Ht & -> & -> & _). intros Hp.
    destruct (Hpar a t Ha Ht Hp) as (b & u & Hb & Hne & Hu & E). destruct (soft_fwd _ _ _ _ Hm Hu) as (u' & Hu' & Hs).
    exists b, u'. destruct Hs as [-> _]. done.
  - intros a t' Ha Ht'. destruct (soft_bwd _ _ _ _ Hm Ht') as (t & Ht & Hs). apply Hs. eauto.
  - intros a t' z Ha Ht'. destruct (soft_bwd _ _ _ _ Hm Ht') as (t & Ht & Hs). destruct Hs as (_ & _ & _ & -> & _).
    intros Hzt. destruct (Hz a t z Ha Ht Hzt) as (u & Hu & ? & ? & ?). destruct (soft_fwd _ _ _ _ Hm Hu) as (u' & Hu' & Hs').
    exists u'. split; [done|]. split; [done|]. destruct Hs' as (_ & _ & _ & -> & _ & E). auto.
  - intros a t' Ha Ht'. destruct (soft_bwd _ _ _ _ Hm Ht') as (t & Ht & Hs). destruct Hs as (_ & _ & _ & -> & _). eauto.
  - intros a b t' u' z Ha Hb Ht' Hu'. destruct (soft_bwd _ _ _ _ Hm Ht') as (t & Ht & Hs). destruct Hs as (_ & _ & _ & -> & _).
    destruct (soft_bwd _ _ _ _ Hm Hu') as (u & Hu & Hs). destruct Hs as (_ & _ & _ & -> & _). eauto.
  - intros z u' Hu'. destruct (soft_bwd _ _ _ _ Hm Hu') as (u & Hu & _). destruct (Hall z u Hu) as [?|(a & t & Ha & Ht & Hzt)]; [auto|].
    right. destruct (soft_fwd _ _ _ _ Hm Ht) as (t' & Ht' & Hs). exists a, t'. destruct Hs as (_ & _ & _ & -> & _). done.
  - intros g Hg. destruct (Hsg g) as (a & t & Ha & Ht & E); [set_solver|]. destruct (soft_fwd _ _ _ _ Hm Ht) as (t' & Ht' & Hs).
    exists a, t'. destruct Hs as [-> _]. done.
  - intros a c' t Hc' Ht. destruct (soft_bwd _ _ _ _ Hm Hc') as (c & Hc & -> & _). apply (Hsv a c t Hc). by eapply lookup_weaken.
Qed.
(** ** Operations that change states only *)
Lemma deref_Ok {A} (m : gmap Z A) p v : deref m p = Ok v <-> p <> 0 /\ m !! p = Some v.
Proof.
  unfold deref. destruct (Z.eqb_spec p 0); [naive_solver|]. destruct (m !! p); naive_solver.
Qed.
Lemma task_at_Ok p s t s' : task_at p s = Ok (t, s') <-> s' = s /\ p <> 0 /\ tasks s !! p = Some t.
Proof. unfold task_at. rewrite bind_Ok. setoid_rewrite deref_Ok. naive_solver. Qed.
Lemma upd_task_Ok p f s u s' :
  upd_task p f s = Ok (u, s') -> exists t, (p <> 0 /\ tasks s !! p = Some t) /\ s' = with_tasks s (<[p:=f t]> (tasks s)).
Proof.
  unfold upd_task. intros H. apply st_bind_Ok in H as (t & s1 & Ht & H). apply task_at_Ok in Ht as (-> & Hp & Ht).
  injection H as <- <-. eauto.
Qed.

Lemma soft_insert m a t t' : m !! a = Some t -> soft t t' -> soft_map m (<[a:=t']> m).
Proof.
  intros Ht Hs b. destruct (decide (b = a)) as [->|]; [|by rewrite lookup_insert_ne].
  rewrite lookup_insert_eq, Ht. by constructor.
Qed.
Lemma soft_wake_check ticks t : soft t (wake_check ticks t).
Proof.
  unfold wake_check. destruct (_ && _ && _)%bool eqn:E; [|done]. rewrite !andb_true_iff in E. destruct E as [[E _] _].
  apply bool_decide_eq_true in E. unfold soft. cbn. rewrite E. unfold live. naive_solver.
Qed.
Lemma soft_woken t : state t = TASK_SLEEPING -> soft t (woken t).
Proof. intros E. unfold soft. cbn. rewrite E. unfold live. naive_solver. Qed.
Lemma soft_wake_on addr t : soft t (wake_on addr t).
Proof.
  unfold wake_on, sleeps_on. destruct (_ && _)%bool eqn:E; [|done]. apply andb_prop in E as [E _].
  apply bool_decide_eq_true in E. by apply soft_woken.
Qed.
Lemma soft_live t t' :
  live (state t) -> live (state t') -> pid t' = pid t -> ppid t' = ppid t -> next t' = next t -> wait_queue t' = wait_queue t ->
  soft t t'.
Proof. intros Hl ?????. unfold soft. repeat split; try done. intros E. rewrite E in Hl. unfold live in Hl. naive_solver. Qed.

Lemma soft_visits ticks m l : soft_map m (visits ticks m l).
Proof.
  intros a. rewrite lookup_visits. case_decide; [|done]. destruct (m !! a); cbn; constructor. apply soft_wake_check.
Qed.
Lemma only_wakes_soft s s' : only_wakes s s' -> soft_map (tasks s) (tasks s').
Proof.
  intros [Hm _] a. destruct (Hm a) as [-> |(t & -> & Ht & ->)]; [done|]. constructor. by apply soft_woken.
Qed.
#[local] Hint Resolve soft_visits soft_wake_check : core.

(** The tasks behind the running one. *)
Lemma chain_split m p l a :
  chain m p l -> a ∈ l -> exists t pre post, l = pre ++ a :: post /\ m !! a = Some t /\ a <> 0 /\ chain m (next t) post.
Proof.
  intros Hs Ha. apply list_elem_of_split in Ha as (pre & post & ->). pose proof Hs as Hs0.
  apply seg_app in Hs as (r & _ & -> & Ha0 & t & Ht & Hp). eauto 10.
Qed.

Lemma pick_wf s c post l s' u :
  sane s l -> current_task s <> 0 -> tasks s !! current_task s = Some c -> chain (tasks s) (next c) post -> NoDup post ->
  (switch_locked s = true -> current_task s ∈ l) -> (forall a, a ∈ post -> a ∈ l) ->
  pick_task s = Ok (u, s') -> wf s' l /\ sigs_queue s' = sigs_queue s.
Proof.
  intros Hs Hc0 Hc Hp Hnd Hlk Hsub Hrun. unfold pick_task in Hrun. apply st_bind_Ok in Hrun as (a & s1 & H1 & H2).
  injection H2 as <- <-. destruct (switch_locked s) eqn:El.
  { unfold task_switch_inner in H1. st_run. unfold mbind, st_bind, get in H1. rewrite El in H1. injection H1 as <- <-.
    split; [|done]. split; [|by apply Hlk]. by apply (sane_soft s). }
  destruct (switch_cases s c post l El Hc0 Hc Hp Hnd (wf_chain _ _ Hs) (wf_nodup _ _ Hs)) as [(vis & b & E & Hb & _)|[E _]];
    rewrite E in H1; [|done]. injection H1 as <- <-. split; [|done]. split; [|set_solver].
  apply (sane_soft s); [done|cbn; auto|done..].
Qed.

(** An operation of the running task that ends with a switch. *)
Lemma wf_pick s l s' u : wf s l -> pick_task s = Ok (u, s') -> wf s' l.
Proof.
  intros [Hs Hc] Hrun. destruct (chain_split _ _ _ _ (wf_chain _ _ Hs) Hc) as (c & pre & post & El & Ht & H0 & Hp).
  pose proof (wf_nodup _ _ Hs) as Hnd. rewrite El in Hnd. apply NoDup_app in Hnd as (_ & _ & Hnd). apply NoDup_cons in Hnd as [_ Hnd].
  eapply pick_wf; [..|exact Hrun]; try done. intros a Ha. rewrite El. set_solver.
Qed.

Lemma wf_lock s l b : wf s l -> wf (with_lock s b) l.
Proof. intros [Hs Hc]. split; [|done]. by apply (sane_soft s). Qed.

(** Changing one live task. *)
Lemma wf_upd s l a f s' u :
  wf s l -> a ∈ l ->
  (forall t, live (state t) -> live (state (f t)) /\ pid (f t) = pid t /\ ppid (f t) = ppid t /\ next (f t) = next t /\
    wait_queue (f t) = wait_queue t) ->
  upd_task a f s = Ok (u, s') -> wf s' l.
Proof.
  intros [Hs Hc] Ha Hf Hrun. destruct (seg_lookup _ _ _ _ a (wf_chain _ _ Hs) Ha) as (Ha0 & t & Ht).
  apply upd_task_Ok in Hrun as (t' & [_ Ht'] & ->). rewrite Ht in Ht'. injection Ht' as <-. pose proof (wf_live _ _ Hs a t Ha Ht) as Hl. destruct (Hf t Hl) as (?&?&?&?&?).
  split; [|done]. apply (sane_soft s); [done|cbn|done..]. eapply soft_insert; [done|]. by apply soft_live.
Qed.

Lemma wf_sleep_mark s l addr s' u : wf s l -> sleep_mark addr s = Ok (u, s') -> wf s' l.
Proof.
  intros Hw Hrun. unfold sleep_mark in Hrun.
  apply st_bind_Ok in Hrun as (? & s1 & E & Hrun). injection E as <- <-.
  apply st_bind_Ok in Hrun as (? & ? & E & Hrun). injection E as <- <-.
  apply st_bind_Ok in Hrun as (? & s2 & E & Hrun). injection Hrun as <- <-.
  apply wf_lock. eapply wf_upd; [by apply wf_lock|apply Hw| |exact E].
  intros t _. cbn. unfold live. auto 10.
Qed.

(** [wakeup] wakes exactly the tasks of the queue that sleep on the address. *)
Lemma wakeup_run s l addr :
  sane s l -> exists m', wakeup addr s = Ok (s32 (count_on addr (tasks s) l), with_lock (with_tasks s m') false) /\
    (forall a, m' !! a = if decide (a ∈ l) then wake_on addr <$> tasks s !! a else tasks s !! a) /\
    soft_map (tasks s) m'.
Proof.
  intros Hs. destruct (wakeup_loop_chain (fuel s) (tasks s) addr (task_queue s) l 0) as (m' & E & Hm').
  - apply Hs.
  - apply Hs.
  - pose proof (seg_size _ _ _ _ (wf_chain _ _ Hs) (wf_nodup _ _ Hs)). unfold fuel. lia.
  - exists m'. split; [|split; [done|]].
    + unfold wakeup, lock. st_run. change (fuel (with_lock s true)) with (fuel s). cbn [tasks task_queue with_lock].
      change (s32 0) with 0 in E. rewrite E. done.
    + intros a. rewrite Hm'. case_decide; [|done]. destruct (tasks s !! a); cbn; constructor. apply soft_wake_on.
Qed.

Lemma wf_wakeup s l addr s' u : wf s l -> wakeup addr s = Ok (u, s') -> wf s' l.
Proof.
  intros [Hs Hc] Hrun. destruct (wakeup_run s l addr Hs) as (m' & E & _ & Hm). rewrite E in Hrun. injection Hrun as <- <-.
  split; [|done]. by apply (sane_soft s).
Qed.

Lemma by_pid_run s l i :
  sane s l -> exists p, get_task_by_pid i s = Ok (p, s) /\
    (p = 0 /\ (forall a t, a ∈ l -> tasks s !! a = Some t -> pid t <> i) \/
     p ∈ l /\ exists t, tasks s !! p = Some t /\ pid t = i).
Proof.
  intros Hs. pose proof (seg_size _ _ _ _ (wf_chain _ _ Hs) (wf_nodup _ _ Hs)) as Hsize. unfold get_task_by_pid.
  destruct (list_first (holds (tasks s) (fun t => pid t =? i)) l) as [(l1 & a & l2 & El & Ha & Hf)|Hf].
  - exists a. erewrite find_task_hit; [|rewrite <- El; apply Hs|done|done|]. 
    + split; [done|]. right. split; [rewrite El; set_solver|]. destruct Ha as (t & Ht & E). exists t. split; [done|]. lia.
    + unfold fuel. rewrite El, length_app in Hsize. cbn [length] in Hsize. lia.
  - exists 0. erewrite find_task_miss; [|apply Hs|done|unfold fuel; lia]. split; [done|]. left. split; [done|].
    intros a t Ha Ht E. rewrite Forall_forall in Hf. apply (Hf a Ha). exists t. split; [done|]. lia.
Qed.

Lemma wf_kill s l i sn s' r : wf s l -> kill i sn s = Ok (r, s') -> wf s' l.
Proof.
  intros [Hs Hc] Hrun. unfold kill in Hrun. destruct (by_pid_run s l i Hs) as (p & E & Hp).
  apply st_bind_Ok in Hrun as (? & ? & E' & Hrun). rewrite E in E'. injection E' as <- <-.
  destruct (Z.eqb_spec p 0) as [|Hp0]; [injection Hrun as <- <-; done|]. injection Hrun as <- <-.
  destruct Hp as [[? _]|(Hpl & t & Ht & Hi)]; [done|]. split; [|done]. destruct Hs as [H1 H2 H3 H4 H5 H6 H7 H8 H9 H10 H11 H12 H13].
  split; try done. cbn. intros g [Hg|Hg]%elem_of_app; [eauto|]. apply list_elem_of_singleton in Hg as ->. exists p, t. done.
Qed.

Lemma wf_signal s l sn h s' r : wf s l -> signal sn h s = Ok (r, s') -> wf s' l.
Proof.
  intros Hw Hrun. unfold signal in Hrun. destruct (_ <? _) in Hrun; [|by injection Hrun as <- <-].
  destruct (_ && _)%bool in Hrun; [|by injection Hrun as <- <-].
  apply st_bind_Ok in Hrun as (? & ? & E & Hrun). injection E as <- <-.
  apply st_bind_Ok in Hrun as (c & ? & E & Hrun). apply task_at_Ok in E as (-> & _ & Hc).
  apply st_bind_Ok in Hrun as (? & ? & E & Hrun). destruct (sn <? 0); [done|]. injection E as <- <-.
  apply st_bind_Ok in Hrun as (old & ? & E & Hrun). unfold lift in E. destruct (rd _ _); [|done]. injection E as <- <-.
  apply st_bind_Ok in Hrun as (hs & ? & E & Hrun). unfold lift in E. destruct (wr _ _ _); [|done]. injection E as <- <-.
  injection Hrun as <- <-. destruct Hw as [Hs Hcur]. split; [|done]. apply (sane_soft s); [done|cbn|done..].
  eapply soft_insert; [done|]. done.
Qed.

(** ** Freeing a task *)
#[global] Instance only_wakes_refl : Reflexive only_wakes.
Proof. intros s. split; [intros a; by left|done]. Qed.
#[global] Instance only_wakes_trans : Transitive only_wakes.
Proof.
  intros x y z (Hm1 & ? & ? & ? & ? & ?) (Hm2 & ? & ? & ? & ? & ?). split; [|split_and!; congruence].
  intros a. destruct (Hm1 a) as [E1|(t & E1 & Ht & E1')]; destruct (Hm2 a) as [E2|(u & E2 & Hu & E2')].
  - left. congruence.
  - right. exists u. split_and!; congruence.
  - right. exists t. split_and!; congruence.
  - exfalso. rewrite E1' in E2. injection E2 as <-. done.
Qed.
(** A state with the same tasks. *)
Lemma only_wakes_same s s' :
  tasks s' = tasks s -> current_task s' = current_task s -> task_queue s' = task_queue s -> next_pid s' = next_pid s ->
  sigs_queue s' = sigs_queue s -> saved s' = saved s -> only_wakes s s'.
Proof. intros E ?????. split; [|done]. intros a. left. by rewrite E. Qed.

Section Freeing.
Context `{FsOps}.

Lemma fs_close_wakes n s u s' : fs_close n s = Ok (u, s') -> only_wakes s s'.
Proof. unfold fs_close. destruct (_ =? 0); [done|]. apply close_only_wakes. Qed.

Lemma close_files_wakes fs s u s' : close_files fs s = Ok (u, s') -> only_wakes s s'.
Proof.
  revert s. induction fs as [|f fs IH]; intros s Hrun; cbn [close_files] in Hrun; [by injection Hrun as <- <-|].
  destruct (f =? 0); [eauto|]. apply st_bind_Ok in Hrun as (? & ? & E & Hrun). injection E as <- <-.
  apply st_bind_Ok in Hrun as (x & s1 & E & Hrun). unfold lift in E. destruct (deref _ _); [|done]. injection E as <- <-.
  apply st_bind_Ok in Hrun as (? & s1 & E & Hrun). unfold kassert in E. destruct (negb _) in E; [|done]. injection E as <- <-.
  apply st_bind_Ok in Hrun as (? & s1 & E & Hrun). apply fs_close_wakes in E. etransitivity; [exact E|].
  apply st_bind_Ok in Hrun as (? & ? & E2 & Hrun). injection E2 as <- <-.
  apply st_bind_Ok in Hrun as (y & s2 & E2 & Hrun). unfold lift in E2. destruct (deref _ _) as [w|]; [|done]. injection E2 as <- <-.
  apply st_bind_Ok in Hrun as (? & s2 & E2 & Hrun). injection E2 as _ <-. etransitivity; [|exact (IH _ Hrun)].
  destruct (dup_cnt w =? 0); by apply only_wakes_same.
Qed.
Lemma close_shared_wakes fs s u s' : close_shared fs s = Ok (u, s') -> only_wakes s s'.
Proof.
  revert s. induction fs as [|f fs IH]; intros s Hrun; cbn [close_shared] in Hrun; [by injection Hrun as <- <-|].
  destruct (f =? 0); [eauto|]. apply st_bind_Ok in Hrun as (? & ? & E & Hrun). injection E as <- <-.
  apply st_bind_Ok in Hrun as (x & s1 & E & Hrun). unfold lift in E. destruct (deref _ _); [|done]. injection E as <- <-.
  apply st_bind_Ok in Hrun as (? & s1 & E & Hrun). apply fs_close_wakes in E. etransitivity; [exact E|].
  apply st_bind_Ok in Hrun as (? & ? & E2 & Hrun). injection E2 as <- <-.
  apply st_bind_Ok in Hrun as (y & s2 & E2 & Hrun). unfold lift in E2. destruct (deref _ _) as [w|]; [|done]. injection E2 as <- <-.
  apply st_bind_Ok in Hrun as (? & s2 & E2 & Hrun). injection E2 as _ <-. etransitivity; [|exact (IH _ Hrun)].
  by apply only_wakes_same.
Qed.

(** A freed task is gone; the others may have been woken up. *)
Lemma free_any_run p s u s' :
  free_any p s = Ok (u, s') ->
  exists s1, only_wakes s s1 /\ tasks s' = delete p (tasks s1) /\ current_task s' = current_task s /\
    task_queue s' = task_queue s /\ next_pid s' = next_pid s /\ sigs_queue s' = sigs_queue s /\ switch_locked s' = false /\ saved s' = saved s.
Proof.
  intros Hrun. unfold free_any in Hrun. apply st_bind_Ok in Hrun as (t & ? & E & Hrun). apply task_at_Ok in E as (-> & Hp & Ht).
  destruct (is_thread t).
  - unfold thread_free in Hrun. apply st_bind_Ok in Hrun as (t' & ? & E & Hrun). apply task_at_Ok in E as (-> & _).
    apply st_bind_Ok in Hrun as (? & ? & E & Hrun). injection E as _ <-.
    apply st_bind_Ok in Hrun as (? & s1 & E & Hrun). injection Hrun as _ <-. apply close_shared_wakes in E.
    exists s1. split; [etransitivity; [|exact E]; by apply only_wakes_same|]. destruct E as (_ & ? & ? & ? & ? & ?). done.
  - unfold task_free in Hrun. apply st_bind_Ok in Hrun as (? & ? & E & Hrun). unfold kassert in E. destruct (negb _) in E; [|done].
    injection E as _ <-. apply st_bind_Ok in Hrun as (t' & ? & E & Hrun). apply task_at_Ok in E as (-> & _).
    do 3 (apply st_bind_Ok in Hrun as (? & ? & E & Hrun); unfold kassert in E;
          match type of E with (if ?b then _ else _) _ = _ => destruct b end; [|done]; injection E as _ <-).
    apply st_bind_Ok in Hrun as (? & ? & E & Hrun). injection E as _ <-.
    apply st_bind_Ok in Hrun as (? & s1 & E & Hrun). injection Hrun as _ <-. apply close_files_wakes in E.
    exists s1. split; [etransitivity; [|exact E]; by apply only_wakes_same|]. destruct E as (_ & ? & ? & ? & ? & ?). done.
Qed.
End Freeing.

(** The first task of a wait queue is taken out and freed. *)
Lemma sane_reap s l a c z q :
  sane s l -> a ∈ l -> tasks s !! a = Some c -> wait_queue c = z :: q ->
  sane (with_tasks s (delete z (<[a:=set_waitq c q]> (tasks s)))) l.
Proof.
  intros Hs Ha Hc Hq. destruct (wf_zombie _ _ Hs a c z Ha Hc) as (uz & Huz & Hzl & _); [rewrite Hq; set_solver|].
  pose proof (wf_waitq _ _ Hs a c Ha Hc) as Hnd. rewrite Hq in Hnd. apply NoDup_cons in Hnd as [Hzq Hqnd].
  set (m' := delete z (<[a:=set_waitq c q]> (tasks s))).
  assert (Hbwd : forall b t', m' !! b = Some t' -> b <> z /\ exists t, tasks s !! b = Some t /\
    pid t' = pid t /\ ppid t' = ppid t /\ next t' = next t /\ state t' = state t /\
    (b = a /\ wait_queue t = z :: q /\ wait_queue t' = q \/ b <> a /\ wait_queue t' = wait_queue t)).
  { intros b t' Hb. unfold m' in Hb. destruct (decide (b = z)) as [->|Hbz]; [by rewrite lookup_delete_eq in Hb|].
    rewrite lookup_delete_ne in Hb by done. split; [done|]. destruct (decide (b = a)) as [->|Hba].
    - rewrite lookup_insert_eq in Hb. injection Hb as <-. exists c. cbn. auto 10.
    - rewrite lookup_insert_ne in Hb by done. exists t'. auto 10. }
  assert (Hfwd : forall b t, b <> z -> tasks s !! b = Some t -> exists t', m' !! b = Some t' /\
    pid t' = pid t /\ (b <> a -> wait_queue t' = wait_queue t) /\ (b = a -> wait_queue t' = q)).
  { intros b t Hbz Hb. unfold m'. rewrite lookup_delete_ne by done. destruct (decide (b = a)) as [->|Hba].
    - rewrite lookup_insert_eq. rewrite Hc in Hb. injection Hb as <-. eexists. split; [done|]. cbn. tauto.
    - rewrite lookup_insert_ne by done. exists t. tauto. }
  assert (Hneq : forall b, b ∈ l -> b <> z) by (intros b Hb ->; done).
  destruct Hs as [Hch Hlnd Hin Hpid Huq Hpar Hlv Hz Hw How Hall Hsg Hsv]. split; cbn [tasks task_queue next_pid sigs_queue saved with_tasks]; fold m'.
  - eapply seg_frame; [done|]. intros b Hb. unfold m'. rewrite lookup_delete_ne by (symmetry; auto).
    destruct (decide (b = a)) as [->|]; [by rewrite lookup_insert_eq, Hc|by rewrite lookup_insert_ne].
  - done.
  - destruct Hin as (i & l' & t & -> & Ht & Hp). destruct (Hfwd i t) as (t' & Ht' & E & _); [apply Hneq; set_solver|done|].
    exists i, l', t'. split_and!; [done|done|congruence].
  - intros b t' Hb. destruct (Hbwd _ _ Hb) as (_ & t & Ht & -> & _). eauto.
  - intros b d t' u' Hb Hd. destruct (Hbwd _ _ Hb) as (_ & t & Ht & -> & _). destruct (Hbwd _ _ Hd) as (_ & u & Hu & -> & _). eauto.
  - intros b t' Hbl Hb. destruct (Hbwd _ _ Hb) as (_ & t & Ht & -> & -> & _). intros Hp.
    destruct (Hpar b t Hbl Ht Hp) as (d & u & Hd & Hdb & Hu & E). destruct (Hfwd d u) as (u' & Hu' & E' & _); [auto|done|].
    exists d, u'. split_and!; [done|done|done|congruence].
  - intros b t' Hbl Hb. destruct (Hbwd _ _ Hb) as (_ & t & Ht & _ & _ & _ & -> & _). eauto.
  - intros b t' x Hbl Hb Hx. destruct (Hbwd _ _ Hb) as (_ & t & Ht & _ & _ & _ & _ & Hwq).
    assert (Hxt : x ∈ wait_queue t) by (destruct Hwq as [(_ & -> & E)|(_ & E)]; rewrite E in Hx; set_solver).
    destruct (Hz b t x Hbl Ht Hxt) as (u & Hu & Hxl & Hst & Hwu).
    assert (Hxz : x <> z).
    { intros ->. destruct Hwq as [(-> & _ & E)|(Hba & E)]; [rewrite E in Hx; done|].
      apply Hba. eapply (How b a t c z); try done. rewrite Hq. set_solver. }
    assert (Hxa : x <> a) by (intros ->; done).
    exists u. unfold m'. rewrite lookup_delete_ne, lookup_insert_ne by congruence. done.
  - intros b t' Hbl Hb. destruct (Hbwd _ _ Hb) as (_ & t & Ht & _ & _ & _ & _ & [(_ & _ & ->)|(_ & ->)]); eauto.
  - intros b d t' u' x Hbl Hdl Hb Hd Hx1 Hx2. destruct (Hbwd _ _ Hb) as (_ & t & Ht & _ & _ & _ & _ & Hw1).
    destruct (Hbwd _ _ Hd) as (_ & u & Hu & _ & _ & _ & _ & Hw2). eapply (How b d t u x); try done.
    + destruct Hw1 as [(_ & -> & E)|(_ & <-)]; [rewrite E in Hx1; set_solver|done].
    + destruct Hw2 as [(_ & -> & E)|(_ & <-)]; [rewrite E in Hx2; set_solver|done].
  - intros x u' Hx. destruct (Hbwd _ _ Hx) as (Hxz & u & Hu & _). destruct (Hall x u Hu) as [?|(b & t & Hbl & Ht & Hxt)]; [auto|].
    right. destruct (Hfwd b t) as (t' & Ht' & _ & E1 & E2); [auto|done|]. exists b, t'. split_and!; [done|done|].
    destruct (decide (b = a)) as [->|]; [|by rewrite E1]. rewrite E2 by done. rewrite Hc in Ht. injection Ht as <-. rewrite Hq in Hxt. set_solver.
  - intros g Hg. destruct (Hsg g Hg) as (b & t & Hbl & Ht & E). destruct (Hfwd b t) as (t' & Ht' & E' & _); [auto|done|].
    exists b, t'. split_and!; [done|done|congruence].
  - intros b c' t Hc' Ht. destruct (Hbwd _ _ Hc') as (_ & c0 & Hc0 & -> & _). eauto.
Qed.

Lemma soft_delete m m' z : soft_map m m' -> soft_map (delete z m) (delete z m').
Proof.
  intros Hm a. destruct (decide (a = z)) as [->|]; [by rewrite !lookup_delete_eq; constructor|]. rewrite !lookup_delete_ne by done. apply Hm.
Qed.

Lemma wf_wait_end `{FsOps} s l s' r : wf s l -> task_wait_end s = Ok (r, s') -> wf s' l.
Proof.
  intros [Hs Hcur] Hrun. unfold task_wait_end in Hrun. apply st_bind_Ok in Hrun as (? & ? & E & Hrun). injection E as _ <-.
  apply st_bind_Ok in Hrun as (? & ? & E & Hrun). injection E as <- <-.
  apply st_bind_Ok in Hrun as (c & ? & E & Hrun). apply task_at_Ok in E as (-> & Hc0 & Hc). cbn in Hc0, Hc.
  destruct (wait_queue c) as [|z q] eqn:Hq.
  { injection Hrun as _ <-. apply wf_lock. by apply wf_lock. }
  apply st_bind_Ok in Hrun as (t & ? & E & Hrun). apply task_at_Ok in E as (-> & _ & Ht).
  apply st_bind_Ok in Hrun as (? & s1 & E & Hrun). injection E as _ <-.
  apply st_bind_Ok in Hrun as (? & s2 & E & Hrun). injection Hrun as _ <-. apply free_any_run in E as (s3 & Hw & Htk & Hcu & Hqu & Hnp & Hsg & _ & Hsv).
  apply wf_lock. split; [|by rewrite Hcu]. apply (sane_soft (with_tasks s (delete z (<[current_task s:=set_waitq c q]> (tasks s))))).
  - by apply sane_reap.
  - rewrite Htk. apply soft_delete. by apply only_wakes_soft in Hw.
  - done.
  - done.
  - by rewrite Hsg.
  - by rewrite Hsv.
Qed.
(** ** A new task *)
Lemma clone_files_frame fs news s r s' :
  clone_files fs news s = Ok (r, s') -> exists f n p, s' = with_files s f n p.
Proof.
  revert news s r s'. induction fs as [|f fs IH]; intros news s r s' Hrun; cbn [clone_files] in Hrun.
  { injection Hrun as _ <-. exists (fobjs s), (nodes s), (pipes s). by destruct s. }
  destruct (f =? 0).
  { apply st_bind_Ok in Hrun as (? & ? & E & Hrun). injection Hrun as _ <-. eauto. }
  destruct news as [|a news]; [done|].
  apply st_bind_Ok in Hrun as (? & ? & E & Hrun). injection E as <- <-.
  apply st_bind_Ok in Hrun as (x & ? & E & Hrun). unfold lift in E. destruct (deref _ _) as [w|]; [|done]. injection E as <- <-.
  apply st_bind_Ok in Hrun as (? & ? & E & Hrun). destruct (f_node w =? 0); [done|]. injection E as _ <-.
  apply st_bind_Ok in Hrun as (? & ? & E & Hrun). injection E as _ <-.
  apply st_bind_Ok in Hrun as (? & s1 & E & Hrun). unfold fs_dup in E. apply bind_Ok in E as (d & _ & E).
  apply bind_Ok in E as (? & _ & E). injection E as _ <-.
  apply st_bind_Ok in Hrun as (? & s2 & E & Hrun). unfold pipe_share in E. apply bind_Ok in E as (e & _ & E).
  apply st_bind_Ok in Hrun as (? & s3 & E3 & Hrun). injection Hrun as _ <-. apply IH in E3 as (f3 & n3 & p3 & ->).
  destruct (Z.land _ _ =? 0) in E; [|apply bind_Ok in E as (? & _ & E)]; injection E as _ <-; cbn; eauto.
Qed.

Lemma sane_fork s l0 z tz a ch c :
  sane s (l0 ++ [z]) -> tasks s !! z = Some tz -> tasks s !! a = None -> a <> 0 ->
  current_task s ∈ l0 ++ [z] -> tasks s !! current_task s = Some c ->
  pid ch = next_pid s -> ppid ch = pid c -> next ch = 0 -> live (state ch) -> wait_queue ch = [] ->
  sane (with_saved (with_pid (with_tasks s (<[z:=set_next tz a]> (<[a:=ch]> (tasks s)))) (next_pid s + 1)) (delete a (saved s))) ((l0 ++ [z]) ++ [a]).
Proof.
  intros Hs Htz Ha Ha0 Hcur Hc Hpid1 Hppid1 Hnext1 Hlive1 Hwq1. set (l := l0 ++ [z]) in *.
  set (m' := <[z:=set_next tz a]> (<[a:=ch]> (tasks s))).
  assert (Hzl : z ∈ l) by (unfold l; set_solver). assert (Hza : z <> a) by (intros ->; congruence).
  assert (Hal : a ∉ l) by (intros Hin; destruct (seg_lookup _ _ _ _ _ (wf_chain _ _ Hs) Hin) as (_ & t & Ht); congruence).
  assert (Hma : m' !! a = Some ch) by (unfold m'; by rewrite lookup_insert_ne, lookup_insert_eq).
  assert (Hbwd : forall b t', m' !! b = Some t' -> b = a /\ t' = ch \/ b <> a /\ exists t, tasks s !! b = Some t /\
    pid t' = pid t /\ ppid t' = ppid t /\ state t' = state t /\ wait_queue t' = wait_queue t).
  { intros b t' Hb. destruct (decide (b = a)) as [->|Hba]; [left; split; [done|]; congruence|]. right. split; [done|].
    unfold m' in Hb. destruct (decide (b = z)) as [->|Hbz].
    - rewrite lookup_insert_eq in Hb. injection Hb as <-. exists tz. done.
    - rewrite !lookup_insert_ne in Hb by done. eauto 10. }
  assert (Hfwd : forall b t, tasks s !! b = Some t -> b <> a /\ exists t', m' !! b = Some t' /\
    pid t' = pid t /\ state t' = state t /\ wait_queue t' = wait_queue t).
  { intros b t Hb. assert (Hba : b <> a) by congruence. split; [done|]. unfold m'. destruct (decide (b = z)) as [->|Hbz].
    - rewrite lookup_insert_eq. rewrite Htz in Hb. injection Hb as <-. eexists. split; [done|]. done.
    - rewrite !lookup_insert_ne by done. eauto 10. }
  destruct Hs as [Hch Hlnd Hin Hpid Huq Hpar Hlv Hz Hw How Hall Hsg Hsv].
  split; cbn [tasks task_queue next_pid sigs_queue saved with_tasks with_pid with_saved]; fold m'.
  - apply seg_app. exists a. split; [|split; [done|]; split; [done|]; exists ch; done].
    unfold l in Hch. apply seg_app in Hch as (r & H1 & -> & Hz0 & tz' & Htz' & H2).
    apply seg_app. exists z. split; [|split; [done|]; split; [done|]; exists (set_next tz a); split; [unfold m'; by rewrite lookup_insert_eq|done]].
    eapply seg_frame; [done|]. intros b Hb. unfold m'. unfold l in Hlnd. apply NoDup_app in Hlnd as (_ & Hd & _).
    assert (b <> z) by (intros ->; apply (Hd z Hb); set_solver). assert (b <> a) by (intros ->; apply Hal; unfold l; set_solver).
    by rewrite !lookup_insert_ne by congruence.
  - apply NoDup_app. split; [done|]. split; [set_solver|]. apply NoDup_singleton.
  - destruct Hin as (i & l' & t & Hl & Ht & Hp). destruct (Hfwd i t Ht) as (_ & t' & Ht' & E & _).
    exists i, (l' ++ [a]), t'. rewrite Hl. split_and!; [done|done|congruence].
  - intros b t' Hb. destruct (Hbwd _ _ Hb) as [[-> ->]|(_ & t & Ht & -> & _)].
    + split; [done|]. destruct (Hpid _ _ Hc). lia.
    + destruct (Hpid _ _ Ht). split; [done|lia].
  - intros b d t' u' Hb Hd E. destruct (Hbwd _ _ Hb) as [[-> ->]|(_ & t & Ht & Hp1 & _)], (Hbwd _ _ Hd) as [[-> ->]|(_ & u & Hu & Hp2 & _)].
    + done.
    + destruct (Hpid _ _ Hu). lia.
    + destruct (Hpid _ _ Ht). lia.
    + apply (Huq b d t u Ht Hu). congruence.
  - intros b t' Hbl Hb Hp. destruct (Hbwd _ _ Hb) as [[-> ->]|(Hba & t & Ht & Hp1 & Hpp & _)].
    + destruct (Hfwd _ _ Hc) as (Hca & c' & Hc' & E & _). exists (current_task s), c'. split_and!; [set_solver|done|done|congruence].
    + rewrite Hp1 in Hp. destruct (Hpar b t) as (d & u & Hd & Hdb & Hu & E); [set_solver|done|done|].
      destruct (Hfwd _ _ Hu) as (_ & u' & Hu' & E' & _). exists d, u'. split_and!; [set_solver|done|done|congruence].
  - intros b t' Hbl Hb. destruct (Hbwd _ _ Hb) as [[-> ->]|(Hba & t & Ht & _ & _ & -> & _)]; [done|]. apply (Hlv b); [set_solver|done].
  - intros b t' x Hbl Hb Hx. destruct (Hbwd _ _ Hb) as [[-> ->]|(Hba & t & Ht & _ & _ & _ & E)]; [rewrite Hwq1 in Hx; set_solver|].
    rewrite E in Hx. destruct (Hz b t x) as (u & Hu & Hxl & Hst & Hwu); [set_solver|done|done|].
    destruct (Hfwd _ _ Hu) as (Hxa & u' & Hu' & _ & E1 & E2). exists u'. split_and!; [done|set_solver|congruence|congruence].
  - intros b t' Hbl Hb. destruct (Hbwd _ _ Hb) as [[-> ->]|(Hba & t & Ht & _ & _ & _ & ->)]; [rewrite Hwq1; apply NoDup_nil_2|].
    apply (Hw b); [set_solver|done].
  - intros b d t' u' x Hbl Hdl Hb Hd Hx1 Hx2.
    destruct (Hbwd _ _ Hb) as [[-> ->]|(Hba & t & Ht & _ & _ & _ & E1)]; [rewrite Hwq1 in Hx1; set_solver|].
    destruct (Hbwd _ _ Hd) as [[-> ->]|(Hda & u & Hu & _ & _ & _ & E2)]; [rewrite Hwq1 in Hx2; set_solver|].
    rewrite E1 in Hx1. rewrite E2 in Hx2. eapply (How b d); try done; set_solver.
  - intros x u' Hx. destruct (Hbwd _ _ Hx) as [[-> ->]|(Hxa & u & Hu & _)]; [left; set_solver|].
    destruct (Hall x u Hu) as [?|(b & t & Hbl & Ht & Hxt)]; [left; set_solver|]. right.
    destruct (Hfwd _ _ Ht) as (_ & t' & Ht' & _ & _ & E). exists b, t'. rewrite E. split_and!; [set_solver|done|done].
  - intros g Hg. destruct (Hsg g Hg) as (b & t & Hbl & Ht & E). destruct (Hfwd _ _ Ht) as (_ & t' & Ht' & E' & _).
    exists b, t'. split_and!; [set_solver|done|congruence].
  - intros b c' t Hc' Ht. apply lookup_delete_Some in Ht as [Hba Ht].
    destruct (Hbwd _ _ Hc') as [[-> _]|(_ & c0 & Hc0 & -> & _)]; [done|eauto].
Qed.

(** Linking a new task [ch] behind the last one, in a state [sx] that differs
    from [s] by that task only. *)
Lemma link_run s l a ch sx u s' :
  sane s l -> l <> [] -> tasks s !! a = None -> tasks sx = <[a:=ch]> (tasks s) -> task_queue sx = task_queue s ->
  (z ← get_last_task; upd_task z (fun x => set_next x a)) sx = Ok (u, s') ->
  exists l0 z tz, l = l0 ++ [z] /\ tasks s !! z = Some tz /\ z <> a /\
    s' = with_tasks (with_lock sx false) (<[z := set_next tz a]> (<[a := ch]> (tasks s))).
Proof.
  intros Hs Hl Ha Etk Equ Hrun. destruct (exists_last Hl) as (l0 & z0 & El). subst l.
  apply st_bind_Ok in Hrun as (z & s3 & E & Hrun).
  assert (Hz : z = z0 /\ s3 = with_lock sx false).
  { unfold get_last_task in E. apply st_bind_Ok in E as (? & ? & E1 & E). injection E1 as _ <-.
    apply st_bind_Ok in E as (? & ? & E1 & E). injection E1 as <- <-.
    apply st_bind_Ok in E as (z1 & ? & E1 & E). unfold lift in E1. rewrite (last_loop_chain _ _ _ l0 z0) in E1.
    - injection E1 as <- <-. by injection E as <- <-.
    - cbn. rewrite Etk, Equ. eapply seg_frame; [apply Hs|]. intros b Hb.
      destruct (seg_lookup _ _ _ _ _ (wf_chain _ _ Hs) Hb) as (_ & t & Ht). by rewrite lookup_insert_ne by congruence.
    - pose proof (seg_size _ _ _ _ (wf_chain _ _ Hs) (wf_nodup _ _ Hs)) as Hsz. rewrite length_app in Hsz. cbn [length] in Hsz.
      unfold fuel. cbn. rewrite Etk, map_size_insert_None by done. lia. }
  destruct Hz as [-> ->]. apply upd_task_Ok in Hrun as (tz & [Hz0 Htz] & ->). cbn in Htz.
  assert (Hza : z0 <> a).
  { assert (Hzl : z0 ∈ l0 ++ [z0]) by set_solver. destruct (seg_lookup _ _ _ _ _ (wf_chain _ _ Hs) Hzl) as (_ & t & Ht). congruence. }
  rewrite Etk, lookup_insert_ne in Htz by done. exists l0, z0, tz. cbn. by rewrite Etk.
Qed.

(** What [fork_int] does to a sane system. *)
Lemma fork_run s l a pd news r s' :
  wf s l -> tasks s !! a = None -> a <> 0 -> next_pid s < 2 ^ 31 - 1 -> fork_int a pd news s = Ok (r, s') ->
  r = next_pid s /\ wf s' (l ++ [a]) /\ current_task s' = current_task s /\ switch_locked s' = false /\
  exists c ch, tasks s !! current_task s = Some c /\ tasks s' !! a = Some ch /\
    pid ch = r /\ ppid ch = pid c /\ state ch = TASK_RUNNING /\ regs (img ch) = set_eax (regs (img c)) 0 /\
    page_directory (img ch) = pd /\ sig_handlers (img ch) = sig_handlers (img c).
Proof.
  intros Hw Ha Ha0 Hnp Hrun. pose proof Hw as [Hs Hcur]. unfold fork_int in Hrun.
  apply st_bind_Ok in Hrun as (? & ? & E & Hrun). injection E as _ <-.
  apply st_bind_Ok in Hrun as (? & s1 & E & Hrun). injection E as <- <-.
  apply st_bind_Ok in Hrun as (? & ? & E & Hrun). injection E as <- <-.
  apply st_bind_Ok in Hrun as (c & ? & E & Hrun). apply task_at_Ok in E as (-> & Hc0 & Hc). cbn in Hc0, Hc.
  assert (Hca : current_task s <> a) by (destruct (seg_lookup _ _ _ _ _ (wf_chain _ _ Hs) Hcur) as (_ & t & Ht); congruence).
  rewrite lookup_insert_ne in Hc by done.
  apply st_bind_Ok in Hrun as (fs & s2 & E & Hrun). apply clone_files_frame in E as (f & n & p & ->).
  apply st_bind_Ok in Hrun as (n0 & ? & E & Hrun). apply task_at_Ok in E as (-> & _ & Hn0). cbn in Hn0.
  rewrite lookup_insert_eq in Hn0. injection Hn0 as <-. cbn [pid ppid next state sleep_addr sleep_end_tick exit_status wait_queue is_thread img] in Hrun.
  apply st_bind_Ok in Hrun as (? & sx & E & Hrun). injection E as _ Esx.
  set (ch := Task (next_pid s) (pid c) 0 TASK_RUNNING 0 0 0 [] false _) in Esx.
  assert (Hn1 : next_pid s +i 1 = next_pid s + 1) by (destruct (wf_pids _ _ Hs _ _ Hc); apply s32_small; lia).
  apply st_bind_Ok in Hrun as (z & s3 & E & Hrun). apply st_bind_Ok in Hrun as (u & s4 & E2 & Hrun). injection Hrun as <- <-.
  destruct (link_run s l a ch sx u s4 Hs) as (l0 & z0 & tz & -> & Htz & Hza & Es4); [intros ->; set_solver|done| | | |].
  { by rewrite <- Esx; cbn; rewrite insert_insert_eq. }
  { by rewrite <- Esx. }
  { by rewrite (st_bind_eq _ _ _ _ _ E). }
  rewrite Es4, <- Esx. split; [done|]. split; [|split; [done|]; split; [done|]].
  - apply wf_lock. split; [|cbn; set_solver].
    eapply sane_soft; [apply (sane_fork s l0 z0 tz a ch c); try done; by left|done|done|cbn; by rewrite Hn1|done|done].
  - exists c, ch. split_and!; try done. cbn. by rewrite lookup_insert_ne, lookup_insert_eq by done.
Qed.

Lemma share_files_frame fs s r s' : share_files fs s = Ok (r, s') -> exists f n p, s' = with_files s f n p.
Proof.
  revert s r s'. induction fs as [|f fs IH]; intros s r s' Hrun; cbn [share_files] in Hrun.
  { injection Hrun as _ <-. exists (fobjs s), (nodes s), (pipes s). by destruct s. }
  apply st_bind_Ok in Hrun as (? & s1 & E & Hrun). apply st_bind_Ok in Hrun as (? & s2 & E2 & Hrun). injection Hrun as _ <-.
  apply IH in E2 as (f2 & n2 & p2 & ->). destruct (f =? 0).
  { injection E as _ <-. eauto. }
  apply st_bind_Ok in E as (? & ? & E1 & E). injection E1 as <- <-.
  apply st_bind_Ok in E as (w0 & ? & E1 & E). unfold lift in E1. destruct (deref _ _); [|done]. injection E1 as <- <-.
  unfold fs_dup in E. apply bind_Ok in E as (d & _ & E). apply bind_Ok in E as (? & _ & E). injection E as _ <-. cbn. eauto.
Qed.
(** What [thread_new] does to a sane system. *)
Lemma thread_run s l a pd ebp0 esp0 eip0 r s' :
  wf s l -> tasks s !! a = None -> a <> 0 -> next_pid s < 2 ^ 31 - 1 -> thread_new a pd ebp0 esp0 eip0 s = Ok (r, s') ->
  wf s' (l ++ [a]).
Proof.
  intros Hw Ha Ha0 Hnp Hrun. pose proof Hw as [Hs Hcur]. unfold thread_new in Hrun.
  apply st_bind_Ok in Hrun as (? & ? & E & Hrun). injection E as _ <-.
  apply st_bind_Ok in Hrun as (? & s1 & E & Hrun). injection E as <- <-.
  apply st_bind_Ok in Hrun as (? & ? & E & Hrun). injection E as <- <-.
  apply st_bind_Ok in Hrun as (c & ? & E & Hrun). apply task_at_Ok in E as (-> & Hc0 & Hc). cbn in Hc0, Hc.
  assert (Hca : current_task s <> a) by (destruct (seg_lookup _ _ _ _ _ (wf_chain _ _ Hs) Hcur) as (_ & t & Ht); congruence).
  rewrite lookup_insert_ne in Hc by done.
  apply st_bind_Ok in Hrun as (fs & s2 & E & Hrun). apply share_files_frame in E as (f & n & p & ->).
  apply st_bind_Ok in Hrun as (n0 & ? & E & Hrun). apply task_at_Ok in E as (-> & _ & Hn0). cbn in Hn0.
  rewrite lookup_insert_eq in Hn0. injection Hn0 as <-. cbn [pid ppid next state sleep_addr sleep_end_tick exit_status wait_queue is_thread img] in Hrun.
  apply st_bind_Ok in Hrun as (? & sx & E & Hrun). injection E as _ Esx.
  set (ch := Task (next_pid s) (pid c) 0 TASK_CREATING 0 0 0 [] true _) in Esx.
  assert (Hn1 : next_pid s +i 1 = next_pid s + 1) by (destruct (wf_pids _ _ Hs _ _ Hc); apply s32_small; lia).
  apply st_bind_Ok in Hrun as (z & s3 & E & Hrun). apply st_bind_Ok in Hrun as (u & s4 & E2 & Hrun).
  destruct (link_run s l a ch sx u s4 Hs) as (l0 & z0 & tz & -> & Htz & Hza & Es4); [intros ->; set_solver|done| | | |].
  { by rewrite <- Esx; cbn; rewrite insert_insert_eq. }
  { by rewrite <- Esx. }
  { by rewrite (st_bind_eq _ _ _ _ _ E). }
  apply st_bind_Ok in Hrun as (? & s5 & E3 & Hrun). injection Hrun as _ <-. apply upd_task_Ok in E3 as (ch' & [_ Hch'] & ->).
  rewrite Es4 in Hch'. cbn in Hch'. rewrite lookup_insert_ne, lookup_insert_eq in Hch' by done. injection Hch' as <-.
  apply wf_lock. split; [|rewrite Es4, <- Esx; cbn; set_solver]. rewrite Es4, <- Esx.
  match goal with |- sane (with_tasks _ (<[a := ?x]> _)) _ => set (run := x) end.
  eapply sane_soft; [apply (sane_fork s l0 z0 tz a run c); try done; by left| |done|cbn; by rewrite Hn1|done|done].
  cbn. by rewrite (insert_insert_ne _ a z0), insert_insert_eq by done.
Qed.
(** ** A task that exits *)
Lemma par_of_found m c l b u par :
  b ∈ l -> m !! b = Some u -> pid u = ppid c ->
  (forall a t, m !! a = Some t -> pid t = ppid c -> a = b) -> par_of m c l par = b.
Proof.
  intros Hb Hu Hp Huq. assert (Hstep : forall a par, par_step m c par a = par \/ par_step m c par a = b).
  { intros a q. unfold par_step. destruct (m !! a) as [t|] eqn:E; [|by left]. destruct (Z.eqb_spec (pid t) (ppid c)); [right; eauto|by left]. }
  assert (Hkeep : forall l', par_of m c l' b = b).
  { unfold par_of. induction l' as [|a l' IH]; [done|]. cbn [fold_left]. by destruct (Hstep a b) as [-> | ->]. }
  unfold par_of in *. revert par. induction l as [|a l IH]; intros par; [set_solver|]. cbn [fold_left].
  apply elem_of_cons in Hb as [<-|Hb]; [|by apply IH]. unfold par_step at 2. rewrite Hu, Hp, Z.eqb_refl. apply Hkeep.
Qed.

Lemma exit_setup s l c :
  wf s l -> tasks s !! current_task s = Some c -> pid c <> 1 ->
  exists pre z post b u m', l = pre ++ z :: current_task s :: post /\
    b ∈ pre ++ z :: post /\ tasks s !! b = Some u /\ pid u = ppid c /\
    (forall n par, (fuel s <= n)%nat -> exit_loop n (tasks s) (current_task s) (task_queue s) par = Ok (b, m')) /\
    (forall a, m' !! a = if decide (a ∈ pre ++ z :: post) then orphan (current_task s) c <$> tasks s !! a else tasks s !! a) /\
    chain m' (task_queue s) (pre ++ z :: post).
Proof.
  intros [Hs Hcur] Hc Hp. set (cur := current_task s) in *.
  destruct (wf_parent _ _ Hs cur c Hcur Hc Hp) as (b & u & Hb & Hbc & Hu & Hpu).
  destruct (wf_init _ _ Hs) as (i & l' & ti & El & Hti & Hpi).
  pose proof Hcur as Hcur'. apply list_elem_of_split in Hcur' as (pre & post & Esplit).
  destruct (exists_last (l:=pre)) as (pre' & z & ->).
  { intros ->. rewrite Esplit in El. injection El as Ei _. subst i. congruence. }
  clear El. rewrite <- app_assoc in Esplit. cbn [app] in Esplit. subst l.
  assert (Hbin : b ∈ pre' ++ z :: post).
  { rewrite elem_of_app, !elem_of_cons in Hb. rewrite elem_of_app, elem_of_cons. tauto. }
  pose proof (seg_size _ _ _ _ (wf_chain _ _ Hs) (wf_nodup _ _ Hs)) as Hsz.
  assert (Hpar : forall par, par_of (tasks s) c (pre' ++ z :: post) par = b).
  { intros par. apply (par_of_found _ _ _ b u); [done..|]. intros a t Ht E. apply (wf_unique _ _ Hs a b t u Ht Hu). congruence. }
  destruct (exit_loop_chain (fuel s) (tasks s) cur c (task_queue s) pre' z post 0) as (m' & E0 & Hm' & Hch);
    [apply Hs|apply Hs|done|unfold fuel; lia|].
  exists pre', z, post, b, u, m'. split_and!; try done. intros n par Hn.
  destruct (exit_loop_chain n (tasks s) cur c (task_queue s) pre' z post par) as (m2 & E2 & Hm2 & _);
    [apply Hs|apply Hs|done|unfold fuel in Hn; lia|].
  rewrite E2, Hpar. do 2 f_equal. apply map_eq. intros a. by rewrite Hm', Hm2.
Qed.

Lemma sane_exit s pre z post c b u st m' :
  sane s (pre ++ z :: current_task s :: post) -> tasks s !! current_task s = Some c -> pid c <> 1 ->
  b ∈ pre ++ z :: post -> tasks s !! b = Some u -> wait_queue c = [] ->
  (forall g, g ∈ sigs_queue s -> s_pid g <> pid c) ->
  (forall a, m' !! a = if decide (a ∈ pre ++ z :: post) then orphan (current_task s) c <$> tasks s !! a else tasks s !! a) ->
  chain m' (task_queue s) (pre ++ z :: post) ->
  let u' := orphan (current_task s) c u in
  sane (with_tasks s (<[b := set_waitq u' (wait_queue u' ++ [current_task s])]>
    (<[current_task s := set_state (set_status c st) TASK_EXITING]> m'))) (pre ++ z :: post).
Proof.
  intros Hs Hc Hpc Hb Hu Hwc Hsig Hm' Hch u'. set (cur := current_task s) in *. set (l := pre ++ z :: post) in *.
  set (ex := set_state (set_status c st) TASK_EXITING). set (m2 := <[b:=_]> _).
  assert (Hlsub : forall a, a ∈ l <-> a ∈ pre ++ z :: cur :: post /\ a <> cur).
  { pose proof (wf_nodup _ _ Hs) as Hnd. intros a. unfold l. split; [|set_solver]. intros Ha. split; [set_solver|]. intros ->.
    apply NoDup_app in Hnd as (_ & Hd & Hnd). apply NoDup_cons in Hnd as [Hzn Hnd]. apply NoDup_cons in Hnd as [Hcn _].
    apply elem_of_app in Ha as [Ha|Ha]; [apply (Hd cur Ha); set_solver|set_solver]. }
  assert (Hbc : b <> cur) by (by apply Hlsub in Hb as [_ ?]).
  assert (Hwu : wait_queue u' = wait_queue u) by (unfold u', orphan, unlink, reparent; by destruct (pid c =? _), (_ =? _)).
  assert (Horph : forall t, pid (orphan cur c t) = pid t /\ state (orphan cur c t) = state t /\
    wait_queue (orphan cur c t) = wait_queue t /\ ppid (orphan cur c t) = if pid c =? ppid t then 1 else ppid t).
  { intros t. unfold orphan, unlink, reparent. by destruct (pid c =? ppid t), (cur =? _). }
  assert (Hcurl : cur ∉ l) by (intros E; by apply Hlsub in E as [_ ?]).
  assert (Hm2c : m2 !! cur = Some ex) by (unfold m2; by rewrite lookup_insert_ne, lookup_insert_eq).
  assert (Hfwd : forall a t, tasks s !! a = Some t -> a <> cur -> exists t', m2 !! a = Some t' /\ pid t' = pid t /\
    state t' = state t /\ (a <> b -> wait_queue t' = wait_queue t) /\ (a = b -> wait_queue t' = wait_queue t ++ [cur]) /\
    (a ∈ l -> ppid t' = if pid c =? ppid t then 1 else ppid t)).
  { intros a t Ht Hac. unfold m2. destruct (decide (a = b)) as [->|Hab].
    - rewrite Hu in Ht. injection Ht as <-. rewrite lookup_insert_eq. eexists. split; [done|].
      destruct (Horph u) as (? & ? & ? & ?). cbn. rewrite Hwu. unfold u'. tauto.
    - rewrite !lookup_insert_ne by congruence. rewrite Hm', Ht. destruct (Horph t) as (? & ? & ? & ?). case_decide; cbn.
      + eexists. split; [done|]. tauto.
      + exists t. tauto. }
  assert (Hbwd : forall a t', m2 !! a = Some t' -> exists t, tasks s !! a = Some t /\ pid t' = pid t /\ (a <> cur ->
    state t' = state t /\ (a <> b -> wait_queue t' = wait_queue t) /\ (a = b -> wait_queue t' = wait_queue t ++ [cur]) /\
    (a ∈ l -> ppid t' = if pid c =? ppid t then 1 else ppid t))).
  { intros a t' Ha. destruct (decide (a = cur)) as [->|Hac]; [rewrite Hm2c in Ha; injection Ha as <-; by exists c|].
    assert (Hex : exists t, tasks s !! a = Some t).
    { unfold m2 in Ha. destruct (decide (a = b)) as [->|]; [eauto|]. rewrite !lookup_insert_ne in Ha by congruence. rewrite Hm' in Ha.
      destruct (tasks s !! a); [eauto|]. by case_decide. }
    destruct Hex as (t & Ht). destruct (Hfwd a t Ht Hac) as (t2 & Ht2 & ?). exists t. rewrite Ha in Ht2. injection Ht2 as <-. tauto. }
  destruct Hs as [_ Hlnd Hin Hpid Huq Hpar Hlv Hz Hw How Hall Hsg Hsv].
  split; cbn [tasks task_queue next_pid sigs_queue saved with_tasks]; fold m2.
  - eapply seg_frame; [exact Hch|]. intros a Ha. assert (a <> cur) by (intros ->; done). unfold m2.
    destruct (decide (a = b)) as [->|]; [|by rewrite !lookup_insert_ne by congruence]. by rewrite lookup_insert_eq, Hm', decide_True, Hu.
  - unfold l. apply NoDup_app in Hlnd as (H1 & Hd & H2). apply NoDup_cons in H2 as [Hz2 H2]. apply NoDup_cons in H2 as [_ H2].
    apply NoDup_app. split; [done|]. split; [set_solver|]. apply NoDup_cons. set_solver.
  - destruct Hin as (i & l' & ti & El & Hti & Hpi). assert (Hic : i <> cur) by (intros ->; congruence).
    destruct (Hfwd i ti Hti Hic) as (ti' & Hti' & E & _). destruct pre as [|x pre]; injection El as -> El.
    + exists i, post, ti'. split_and!; [done|done|congruence].
    + exists i, (pre ++ z :: post), ti'. split_and!; [done|done|congruence].
  - intros a t' Ha. destruct (Hbwd _ _ Ha) as (t & Ht & -> & _). eauto.
  - intros a d t' x' Ha Hd. destruct (Hbwd _ _ Ha) as (t & Ht & -> & _). destruct (Hbwd _ _ Hd) as (x & Hx & -> & _). eauto.
  - intros a t' Hal Ha Hp. apply Hlsub in Hal as Hal'. destruct Hal' as [Hal0 Hac]. destruct (Hbwd _ _ Ha) as (t & Ht & Ep & Hrest).
    destruct (Hrest Hac) as (_ & _ & _ & Epp). specialize (Epp Hal). rewrite Ep in Hp. rewrite Epp.
    destruct (Z.eqb_spec (pid c) (ppid t)) as [E|E].
    + destruct Hin as (i & l' & ti & El & Hti & Hpi). assert (Hic : i <> cur) by (intros ->; congruence).
      destruct (Hfwd i ti Hti Hic) as (ti' & Hti' & E' & _). exists i, ti'. split_and!; [|intros ->; congruence|done|congruence].
      apply Hlsub. split; [rewrite El; set_solver|done].
    + destruct (Hpar a t Hal0 Ht Hp) as (d & v & Hd & Hda & Hv & Ev).
      assert (Hdc : d <> cur) by (intros ->; congruence). destruct (Hfwd d v Hv Hdc) as (v' & Hv' & Ev' & _).
      exists d, v'. split_and!; [by apply Hlsub|done|done|congruence].
  - intros a t' Hal Ha. apply Hlsub in Hal as [Hal0 Hac]. destruct (Hbwd _ _ Ha) as (t & Ht & _ & Hrest).
    destruct (Hrest Hac) as (-> & _). eauto.
  - intros a t' x Hal Ha Hx. apply Hlsub in Hal as [Hal0 Hac]. destruct (Hbwd _ _ Ha) as (t & Ht & _ & Hrest).
    destruct (Hrest Hac) as (_ & E1 & E2 & _). destruct (decide (x = cur)) as [->|Hxc].
    { exists ex. split_and!; [done|done|done|done]. }
    assert (Hxt : x ∈ wait_queue t) by (destruct (decide (a = b)) as [Eab|Eab]; [rewrite E2 in Hx by done; set_solver|by rewrite E1 in Hx]).
    destruct (Hz a t x Hal0 Ht Hxt) as (v & Hv & Hxl & Hst & Hwv). destruct (Hfwd x v Hv Hxc) as (v' & Hv' & _ & Es & Ew & _).
    exists v'. assert (Hxb : x <> b) by (intros ->; apply Hxl; by apply Hlsub in Hb as [? _]).
    split_and!; [done|intros E; by apply Hlsub in E as [? _]|congruence|rewrite Ew by done; done].
  - intros a t' Hal Ha. apply Hlsub in Hal as [Hal0 Hac]. destruct (Hbwd _ _ Ha) as (t & Ht & _ & Hrest).
    destruct (Hrest Hac) as (_ & E1 & E2 & _). destruct (decide (a = b)) as [Eab|Eab]; [|rewrite E1 by done; eauto].
    rewrite E2 by done. apply NoDup_app. split; [eauto|]. split; [|apply NoDup_singleton]. intros x Hx Hxc.
    apply list_elem_of_singleton in Hxc as ->. destruct (Hz a t cur Hal0 Ht Hx) as (v & Hv & Hcl & _). apply Hcl. set_solver.
  - assert (Hnc : forall a t, a ∈ pre ++ z :: cur :: post -> tasks s !! a = Some t -> cur ∉ wait_queue t).
    { intros a t Hal Ht Hx. destruct (Hz a t cur Hal Ht Hx) as (v & Hv & Hcl & _). apply Hcl. set_solver. }
    intros a d t' v' x Hal Hdl Ha Hd Hx1 Hx2. apply Hlsub in Hal as [Hal0 Hac]. apply Hlsub in Hdl as [Hdl0 Hdc].
    destruct (Hbwd _ _ Ha) as (t & Ht & _ & Hr1). destruct (Hr1 Hac) as (_ & A1 & A2 & _).
    destruct (Hbwd _ _ Hd) as (v & Hv & _ & Hr2). destruct (Hr2 Hdc) as (_ & B1 & B2 & _).
    pose proof (Hnc a t Hal0 Ht). pose proof (Hnc d v Hdl0 Hv).
    destruct (decide (a = b)) as [Eab|Eab], (decide (d = b)) as [Edb|Edb]; [congruence|..].
    + rewrite A2 in Hx1 by done. rewrite B1 in Hx2 by done. eapply (How a d t v x); try done. set_solver.
    + rewrite A1 in Hx1 by done. rewrite B2 in Hx2 by done. eapply (How a d t v x); try done. set_solver.
    + rewrite A1 in Hx1 by done. rewrite B1 in Hx2 by done. eauto.
  - intros x v' Hx. destruct (decide (x = cur)) as [->|Hxc].
    { right. destruct (Hfwd b u Hu Hbc) as (t' & Ht' & _ & _ & _ & E & _). exists b, t'. split_and!; [done|done|]. rewrite E by done. set_solver. }
    destruct (Hbwd _ _ Hx) as (v & Hv & _). destruct (Hall x v Hv) as [Hxl|(a & t & Hal & Ht & Hxt)].
    { left. by apply Hlsub. }
    right. assert (Hac : a <> cur) by (intros ->; rewrite Hc in Ht; injection Ht as <-; rewrite Hwc in Hxt; set_solver).
    destruct (Hfwd a t Ht Hac) as (t' & Ht' & _ & _ & E1 & E2 & _). exists a, t'. split_and!; [by apply Hlsub|done|].
    destruct (decide (a = b)) as [Eab|Eab]; [rewrite E2 by done; set_solver|by rewrite E1].
  - intros g Hg. destruct (Hsg g Hg) as (a & t & Hal & Ht & E). assert (Hac : a <> cur).
    { intros ->. rewrite Hc in Ht. injection Ht as <-. by apply (Hsig g Hg). }
    destruct (Hfwd a t Ht Hac) as (t' & Ht' & E' & _). exists a, t'. split_and!; [by apply Hlsub|done|congruence].
  - intros a c' t Hc' Ht. destruct (Hbwd _ _ Hc') as (c0 & Hc0 & -> & _). eauto.
Qed.
End SchedInv.
