(* ===== verification/SchedRun.v ===== *)
(** * Runs of the scheduler

    The steps of the system are the operations of Sched.v; the theorems on the
    states that they reach, on the order in which tasks run, and on exit and
    wait. *)
From S2P Require Import Prelude Pipe Sched SchedInv.

Module SchedRun.
Import Sched SchedInv.

(** ** exit *)
Lemma task_at_run p s t : p <> 0 -> tasks s !! p = Some t -> task_at p s = Ok (t, s).
Proof. intros. by apply task_at_Ok. Qed.
Lemma upd_task_run p f s t :
  p <> 0 -> tasks s !! p = Some t -> upd_task p f s = Ok (tt, with_tasks s (<[p:=f t]> (tasks s))).
Proof. intros Hp Ht. unfold upd_task. by rewrite (st_bind_eq _ _ _ _ _ (task_at_run p s t Hp Ht)). Qed.

Definition no_signal (i : Z) (s : sys) : Prop := forall g, g ∈ sigs_queue s -> s_pid g <> i.
Lemma drop_signals_run i s : no_signal i s -> drop_signals i s = Ok (tt, s).
Proof.
  intros Hn. unfold drop_signals. destruct (existsb _ _) eqn:E; [|done]. apply existsb_exists in E as (g & Hg & Hi).
  apply list_elem_of_In in Hg. destruct (Hn g Hg). lia.
Qed.

(** What a task has become when it calls the scheduler in [task_exit]. *)
Definition zombie (c : task) (st : Z) : task := set_state (set_status c st) TASK_EXITING.

Section Exit.
Context `{FsOps}.

(** The state [s1] in which the exiting task calls the scheduler: it does not
    depend on what [parent] held before.  A parent that waits is woken up. *)
Lemma exit_forward s l c st :
  wf s l -> tasks s !! current_task s = Some c -> pid c <> 1 -> wait_queue c = [] -> no_signal (pid c) s ->
  exists pre z post b tb s1, l = pre ++ z :: current_task s :: post /\
    b ∈ pre ++ z :: post /\ tasks s !! b = Some tb /\ pid tb = ppid c /\
    (forall par0, exit_begin par0 st s = Ok (true, s1)) /\
    sigs_queue s1 = sigs_queue s /\ sane s1 (pre ++ z :: post) /\ current_task s1 = current_task s /\ switch_locked s1 = false /\
    timer_ticks s1 = timer_ticks s /\ tasks s1 !! current_task s = Some (zombie c st) /\ chain (tasks s1) (next c) post /\ NoDup post /\
    (exists t, tasks s1 !! b = Some t /\ wait_queue t = wait_queue tb ++ [current_task s] /\
       (is_thread c = false -> sleeps_on (wait_addr b) tb = true \/ ready tb = true -> ready t = true)) /\
    (forall a t, tasks s !! a = Some t -> a <> current_task s -> exists t', tasks s1 !! a = Some t' /\ (ready t = true -> ready t' = true)).
Proof.
  intros Hw Hc H1 Hwc Hsig. pose proof Hw as [Hs Hcur]. set (cur := current_task s) in *.
  assert (Hc0 : cur <> 0) by (by destruct (wf_pids _ _ Hs _ _ Hc)).
  destruct (exit_setup s l c Hw Hc H1) as (pre & z & post & b & tb & m' & El & Hb & Htb & Hpb & Hloop & Hm' & Hch). fold cur in El, Hloop, Hm'.
  assert (Hnd := wf_nodup _ _ Hs). rewrite El in Hnd. apply NoDup_app in Hnd as (_ & Hdis & Hnd).
  apply NoDup_cons in Hnd as [Hzn Hnd]. apply NoDup_cons in Hnd as [Hcn Hpnd].
  assert (Hcl : cur ∉ pre ++ z :: post).
  { intros Hin. apply elem_of_app in Hin as [Hin|Hin]; [apply (Hdis _ Hin); set_solver|set_solver]. }
  assert (Hbc : b <> cur) by (intros ->; done).
  assert (Hb0 : b <> 0) by (by destruct (wf_pids _ _ Hs _ _ Htb)).
  rewrite El in Hs. pose proof (sane_exit s pre z post c b tb st m' Hs Hc H1 Hb Htb Hwc Hsig Hm' Hch) as Hs2. fold cur in Hs2.
  set (u' := orphan cur c tb) in *. cbn zeta in Hs2. fold (zombie c st) in Hs2. set (m2 := <[b:=_]> _) in Hs2.
  assert (Hm'c : m' !! cur = Some c) by (by rewrite Hm', decide_False by done).
  assert (Hwu : wait_queue u' = wait_queue tb) by (unfold u', orphan, unlink, reparent; by destruct (_ =? _), (_ =? _)).
  assert (Hus : state u' = state tb) by (unfold u', orphan, unlink, reparent; by destruct (_ =? _), (_ =? _)).
  assert (Hua : sleep_addr u' = sleep_addr tb) by (unfold u', orphan, unlink, reparent; by destruct (_ =? _), (_ =? _)).
  assert (H2c : m2 !! cur = Some (zombie c st)) by (unfold m2; by rewrite lookup_insert_ne, lookup_insert_eq).
  assert (H2b : m2 !! b = Some (set_waitq u' (wait_queue u' ++ [cur]))) by (unfold m2; by rewrite lookup_insert_eq).
  assert (Hother : forall a t, tasks s !! a = Some t -> a <> cur -> exists t', m2 !! a = Some t' /\ state t' = state t /\
    (a ∈ post -> next t' = next t)).
  { intros a t Hta Hac. assert (Hnx : a ∈ post -> next (orphan cur c t) = next t).
    { intros Ha. apply orphan_stay. pose proof (wf_chain _ _ Hs) as Hc3. apply seg_app in Hc3 as (r & _ & _ & _ & tz & _ & _ & _ & c3 & _ & Hp3).
      by eapply seg_next; [exact Hp3|congruence|..]. }
    assert (Hst : state (orphan cur c t) = state t) by (unfold orphan, unlink, reparent; by destruct (_ =? _), (_ =? _)).
    unfold m2. destruct (decide (a = b)) as [->|Hab].
    - rewrite Htb in Hta. injection Hta as ->. rewrite lookup_insert_eq. eexists. split; [done|]. split; [exact Hst|exact Hnx].
    - rewrite !lookup_insert_ne by congruence. rewrite Hm', Hta. case_decide as Hin; cbn; [by eexists|].
      exists t. split; [done|]. done. }
  assert (Hpost : chain m2 (next c) post).
  { pose proof (wf_chain _ _ Hs) as Hc3. apply seg_app in Hc3 as (r & _ & _ & _ & tz & _ & _ & _ & c3 & Hc3 & Hp3).
    fold cur in Hc3. rewrite Hc in Hc3. injection Hc3 as <-. eapply seg_frame; [exact Hp3|]. intros a Ha.
    destruct (seg_lookup _ _ _ _ _ Hp3 Ha) as (_ & ta & Hta). destruct (Hother a ta Hta) as (t' & Ht' & _ & Hn); [intros ->; done|].
    rewrite Ht', Hta. cbn. by rewrite Hn. }
  set (sx := with_lock (with_tasks s m2) true).
  assert (Hrun : forall par0, exit_begin par0 st s =
    ((if is_thread c then mret tt else wakeup (wait_addr b);; mret tt);; lock false;; mret true) sx).
  { intros par0. unfold exit_begin. rewrite (st_bind_eq _ _ s tt (with_lock s true)) by done.
    rewrite (st_bind_eq _ _ _ (with_lock s true) (with_lock s true)) by done.
    rewrite (st_bind_eq _ _ _ _ _ (task_at_run cur (with_lock s true) c Hc0 Hc)).
    rewrite (proj2 (Z.eqb_neq _ _) H1). rewrite (st_bind_eq _ _ _ (b, m') (with_lock s true)).
    2:{ unfold lift. cbn [tasks current_task task_queue with_lock]. by rewrite Hloop. }
    set (sy := with_tasks (with_lock s true) m'). rewrite (st_bind_eq _ _ _ tt sy) by done.
    rewrite (st_bind_eq _ _ _ _ _ (task_at_run cur sy c Hc0 Hm'c)). rewrite Hwc. cbn [reap_children].
    rewrite (st_bind_eq _ _ _ tt sy) by done. rewrite (st_bind_eq _ _ _ _ _ (drop_signals_run (pid c) sy Hsig)).
    rewrite (proj2 (Z.eqb_neq b 0) Hb0). rewrite (st_bind_eq _ _ _ b sy) by done.
    rewrite (st_bind_eq _ _ _ _ _ (upd_task_run cur _ sy c Hc0 Hm'c)).
    assert (Hb' : (<[cur:=zombie c st]> m') !! b = Some u') by (rewrite lookup_insert_ne, Hm', decide_True, Htb by done; done).
    rewrite (st_bind_eq _ _ _ _ _ (upd_task_run b _ (with_tasks sy (<[cur:=zombie c st]> m')) u' Hb0 Hb')). done. }
  assert (Hready : forall m3, soft_map m2 m3 -> (forall a t, m2 !! a = Some t -> exists t', m3 !! a = Some t' /\ (ready t = true -> ready t' = true)) ->
    forall a t, tasks s !! a = Some t -> a <> cur -> exists t', m3 !! a = Some t' /\ (ready t = true -> ready t' = true)).
  { intros m3 _ Hm3 a t Hta Hac. destruct (Hother a t Hta Hac) as (t' & Ht' & Hst & _). destruct (Hm3 a t' Ht') as (t3 & Ht3 & Hr).
    exists t3. split; [done|]. intros Hrt. apply Hr. unfold ready in *. by rewrite Hst. }
  destruct (is_thread c) eqn:Eth.
  - exists pre, z, post, b, tb, (with_lock (with_tasks s m2) false). split_and!; try done.
    + eapply sane_soft; [exact Hs2|done..].
    + eexists. split; [exact H2b|]. split; [cbn; by rewrite Hwu|done].
    + apply (Hready m2); [done|]. eauto.
  - destruct (wakeup_run sx (pre ++ z :: post) (wait_addr b)) as (m3 & Ew & Hm3 & Hsoft).
    { eapply sane_soft; [exact Hs2|done..]. }
    cbn [sx with_lock with_tasks tasks] in Hm3, Hsoft.
    assert (H3c : m3 !! cur = Some (zombie c st)) by (by rewrite Hm3, decide_False).
    exists pre, z, post, b, tb, (with_lock (with_tasks s m3) false). split_and!; try done.
    + intros par0. rewrite Hrun. rewrite (st_bind_eq _ _ sx tt (with_lock (with_tasks s m3) false)); [done|].
      by rewrite (st_bind_eq _ _ _ _ _ Ew).
    + eapply sane_soft; [exact Hs2|done..].
    + eapply seg_frame; [exact Hpost|]. intros a _. specialize (Hsoft a). cbn.
      inversion Hsoft as [t1 t2 Hxy E1 E2|E1 E2]; [|done]. cbn. f_equal. apply Hxy.
    + exists (wake_on (wait_addr b) (set_waitq u' (wait_queue u' ++ [cur]))). cbn. rewrite Hm3, decide_True, H2b by done.
      split; [done|]. unfold wake_on. destruct (sleeps_on _ _) eqn:Esl.
      2:{ split; [cbn; by rewrite Hwu|]. intros _ [E|E]; [|unfold ready in *; cbn; by rewrite Hus].
          unfold sleeps_on in *. cbn in Esl. rewrite Hus, Hua, E in Esl. done. }
      by split; [cbn; by rewrite Hwu|].
    + apply (Hready m3 Hsoft). intros a t Ha. rewrite Hm3, Ha. case_decide; [|by eexists]. cbn. eexists. split; [done|].
      unfold wake_on. by destruct (sleeps_on _ _).
Qed.

(** A state from which the scheduler can choose: the running task may have left
    the queue [l], but the tasks behind it are in it. *)
Definition leaving (s : sys) (l : list Z) : Prop :=
  sane s l /\ exists c post, current_task s <> 0 /\ tasks s !! current_task s = Some c /\ chain (tasks s) (next c) post /\ NoDup post /\
    (switch_locked s = true -> current_task s ∈ l) /\ (forall a, a ∈ post -> a ∈ l).
Lemma wf_leaving s l : wf s l -> leaving s l.
Proof.
  intros [Hs Hc]. destruct (chain_split _ _ _ _ (wf_chain _ _ Hs) Hc) as (c & pre & post & El & Ht & H0 & Hp).
  pose proof (wf_nodup _ _ Hs) as Hnd. rewrite El in Hnd. apply NoDup_app in Hnd as (_ & _ & Hnd). apply NoDup_cons in Hnd as [_ Hnd].
  split; [done|]. exists c, post. split_and!; try done. intros a Ha. rewrite El. set_solver.
Qed.
Lemma leaving_pick s l u s' : leaving s l -> pick_task s = Ok (u, s') -> wf s' l /\ sigs_queue s' = sigs_queue s.
Proof. intros (Hs & c & post & H0 & Hc & Hp & Hnd & Hlk & Hsub). by apply (pick_wf s c post l). Qed.
Lemma leaving_tick s l n : leaving s l -> leaving (with_ticks s n) l.
Proof. intros (Hs & c & post & Hrest). split; [by apply (sane_soft s)|]. by exists c, post. Qed.

(** [task_exit] up to its switch. *)
Lemma exit_begin_run s l par0 st r s' :
  wf s l -> exit_begin par0 st s = Ok (r, s') -> if r then exists l', leaving s' l' else s' = with_lock s true.
Proof.
  intros Hw Hrun. pose proof Hrun as Hrun0. unfold exit_begin in Hrun.
  apply st_bind_Ok in Hrun as (? & ? & E & Hrun). injection E as _ <-.
  apply st_bind_Ok in Hrun as (? & ? & E & Hrun). injection E as <- <-.
  apply st_bind_Ok in Hrun as (c & ? & E & Hrun). apply task_at_Ok in E as (-> & Hc0 & Hc). cbn in Hc0, Hc.
  destruct (Z.eqb_spec (pid c) 1) as [H1|H1]; [by injection Hrun as <- <-|].
  destruct (exit_setup s l c Hw Hc H1) as (pre & z & post & b & tb & m' & El & Hb & Htb & Hpb & Hloop & Hm' & Hch).
  apply st_bind_Ok in Hrun as ([par m1] & ? & E & Hrun). unfold lift in E. cbn [tasks task_queue current_task with_lock] in E.
  rewrite Hloop in E by (unfold fuel; cbn; lia). injection E as <- <- <-.
  apply st_bind_Ok in Hrun as (? & ? & E & Hrun). injection E as _ <-.
  apply st_bind_Ok in Hrun as (c1 & ? & E & Hrun). apply task_at_Ok in E as (-> & _ & Hc1). cbn in Hc1.
  assert (Hcl : current_task s ∉ pre ++ z :: post).
  { destruct Hw as [Hs _]. assert (Hnd := wf_nodup _ _ Hs). rewrite El in Hnd. apply NoDup_app in Hnd as (_ & Hdis & Hnd).
    apply NoDup_cons in Hnd as [Hzn Hnd]. apply NoDup_cons in Hnd as [Hcn Hpnd].
    intros Hin. apply elem_of_app in Hin as [Hin|Hin]; [apply (Hdis _ Hin); set_solver|set_solver]. }
  rewrite Hm', decide_False in Hc1 by done. rewrite Hc in Hc1. injection Hc1 as <-.
  apply st_bind_Ok in Hrun as (? & ? & E & Hrun).
  assert (Hwc : wait_queue c = []).
  { destruct (wait_queue c) as [|y q]; [done|]. cbn [reap_children] in E. by apply st_bind_Ok in E as (? & ? & _ & E). }
  rewrite Hwc in E. injection E as _ <-. apply st_bind_Ok in Hrun as (? & ? & E & _).
  assert (Hsig : no_signal (pid c) s).
  { unfold drop_signals in E. destruct (existsb _ _) eqn:Ex; [done|]. intros g Hg Hi. apply not_true_iff_false in Ex. apply Ex.
    apply existsb_exists. exists g. split; [by apply list_elem_of_In|lia]. }
  destruct (exit_forward s l c st Hw Hc H1 Hwc Hsig)
    as (pre2 & z2 & post2 & b2 & tb2 & s1 & El2 & _ & _ & _ & Heq & _ & Hs1 & Hcu & Hlk & _ & Hz & Hp & Hpnd & _).
  rewrite (Heq par0) in Hrun0. injection Hrun0 as <- <-. exists (pre2 ++ z2 :: post2). split; [done|].
  exists (zombie c st), post2. rewrite Hcu. split_and!; try done; [by rewrite Hlk|]. intros a Ha. apply elem_of_app. right. apply elem_of_cons. by right.
Qed.
End Exit.

(** ** Signals and switches *)
Section Switches.
Context `{FsOps}.

Lemma wf_save s l u s' : wf s l -> save_task s = Ok (u, s') -> wf s' l.
Proof.
  intros [Hs Hcur] Hrun. unfold save_task in Hrun.
  apply st_bind_Ok in Hrun as (? & ? & E & Hrun). injection E as <- <-.
  apply st_bind_Ok in Hrun as (c & ? & E & Hrun). apply task_at_Ok in E as (-> & _ & Hc).
  apply st_bind_Ok in Hrun as (? & ? & E & Hrun). injection E as _ <-. injection Hrun as _ <-.
  split; [|done]. apply (sane_soft (with_saved s (<[current_task s := c]> (saved s)))); [|cbn|done..].
  - pose proof (wf_live _ _ Hs _ _ Hcur Hc) as Hl. destruct Hs as [H1 H2 H3 H4 H5 H6 H7 H8 H9 H10 H11 H12 H13]. split; try done.
    cbn. intros a t0 t Ht0 Ht. apply lookup_insert_Some in Ht as [[<- <-]|[_ Ht]]; [|eauto].
    rewrite Hc in Ht0. injection Ht0 as <-. done.
  - eapply soft_insert; [done|]. done.
Qed.

Section Deliveries.
Variables (switch : st sys unit) (par0 : Z).
Hypothesis Hswitch : forall s l u s', leaving s l -> switch s = Ok (u, s') -> exists l', wf s' l'.

Lemma exit_with_wf s l st r s' : wf s l -> exit_with switch par0 st s = Ok (r, s') -> exists l', wf s' l'.
Proof using Hswitch.
  intros Hw Hrun. unfold exit_with in Hrun. apply st_bind_Ok in Hrun as (b & s1 & E & Hrun).
  pose proof (exit_begin_run _ _ _ _ _ _ Hw E) as H1. destruct b.
  - destruct H1 as (l1 & H1). apply st_bind_Ok in Hrun as (? & s2 & E2 & Hrun). injection Hrun as _ <-. by eapply Hswitch.
  - injection Hrun as _ <-. subst s1. exists l. by apply wf_lock.
Qed.
Lemma deliver_wf s l sn h r s' : wf s l -> deliver switch par0 sn h s = Ok (r, s') -> exists l', wf s' l'.
Proof using Hswitch.
  intros Hw Hrun. unfold deliver in Hrun. destruct (h =? SIG_DFL).
  - destruct (sig_default sn) as [[|]|]; [by eapply exit_with_wf| |done]. injection Hrun as _ <-. by exists l.
  - destruct (h =? SIG_IGN); [injection Hrun as _ <-; by exists l|].
    apply st_bind_Ok in Hrun as (? & s1 & E & Hrun). injection Hrun as _ <-. exists l. by eapply wf_save.
Qed.
Lemma signals_loop_wf td : forall s l dn u s',
  wf s l -> (forall g, g ∈ dn ++ td -> g ∈ sigs_queue s) -> signals_loop switch par0 dn td s = Ok (u, s') -> exists l', wf s' l'.
Proof using Hswitch.
  induction td as [|g td IH]; intros s l dn u s' Hw Hsub Hrun; cbn [signals_loop] in Hrun.
  { injection Hrun as _ <-. by exists l. }
  apply st_bind_Ok in Hrun as (? & ? & E & Hrun). injection E as <- <-.
  apply st_bind_Ok in Hrun as (c & ? & E & Hrun). apply task_at_Ok in E as (-> & _).
  destruct (negb _) in Hrun.
  - apply st_bind_Ok in Hrun as (p & s1 & E & Hrun). destruct (by_pid_run s l (s_pid g) (proj1 Hw)) as (p' & E' & Hp).
    rewrite E' in E. injection E as <- <-. apply st_bind_Ok in Hrun as (? & s2 & E & Hrun).
    destruct (wf_sigs _ _ (proj1 Hw) g) as (a & t & Ha & Ht & Hpid); [set_solver|].
    destruct Hp as [[-> Hno]|[Hp _]]; [by destruct (Hno a t Ha Ht)|].
    assert (Hq : sigs_queue s2 = sigs_queue s) by (by apply upd_task_Ok in E as (x' & _ & ->)).
    eapply (IH s2 l (dn ++ [g])); [|rewrite Hq, <- app_assoc; exact Hsub|exact Hrun].
    eapply wf_upd; [done|exact Hp| |exact E]. intros y Hy. cbn beta. destruct (bool_decide (state y = TASK_SLEEPING)); [|done]. cbn. unfold live. auto 10.
  - apply st_bind_Ok in Hrun as (? & ? & E & Hrun). injection E as <- <-.
    apply st_bind_Ok in Hrun as (h & ? & E & Hrun). unfold lift in E. destruct (rd _ _); [|done]. injection E as <- <-.
    apply st_bind_Ok in Hrun as (b & s2 & E & Hrun). destruct b; [|done]. injection Hrun as _ <-.
    eapply deliver_wf; [|exact E]. destruct Hw as [Hs Hc]. split; [|done].
    apply (sane_soft s); [done|done|done|done|cbn; intros x Hx; apply Hsub; set_solver|done].
Qed.
Lemma switch_int_wf s l u s' : leaving s l -> switch_int switch par0 s = Ok (u, s') -> exists l', wf s' l'.
Proof using Hswitch.
  intros Hl Hrun. unfold switch_int in Hrun. apply st_bind_Ok in Hrun as (? & s1 & E & Hrun). destruct (leaving_pick _ _ _ _ Hl E) as [Hw _].
  unfold process_signals in Hrun. apply st_bind_Ok in Hrun as (? & ? & E2 & Hrun). injection E2 as <- <-.
  by eapply (signals_loop_wf (sigs_queue s1) s1 l []).
Qed.
End Deliveries.

Lemma timer_loop_wf par0 n : forall s l u s', leaving s l -> timer_loop par0 n s = Ok (u, s') -> exists l', wf s' l'.
Proof.
  induction n as [|n IH]; intros s l u s' Hl Hrun; [done|]. cbn [timer_loop] in Hrun.
  apply st_bind_Ok in Hrun as (? & ? & E & Hrun). injection E as _ <-. apply st_bind_Ok in Hrun as (? & ? & E & Hrun). injection E as <- <-.
  pose proof Hl as (_ & c & post & H0 & _). cbn [current_task with_ticks] in Hrun. rewrite (proj2 (Z.eqb_neq _ 0) H0) in Hrun.
  eapply (switch_int_wf (timer_loop par0 n) par0 IH); [|exact Hrun]. by apply leaving_tick.
Qed.
Lemma timer_wf par0 s l u s' : leaving s l -> timer_handler par0 s = Ok (u, s') -> exists l', wf s' l'.
Proof. apply timer_loop_wf. Qed.

Lemma sleep_on_wf par0 s l addr u s' : wf s l -> sleep_on par0 addr s = Ok (u, s') -> exists l', wf s' l'.
Proof.
  intros Hw Hrun. unfold sleep_on in Hrun. apply st_bind_Ok in Hrun as (? & s1 & E & Hrun).
  eapply (timer_wf par0); [|exact Hrun]. apply wf_leaving. by eapply wf_sleep_mark.
Qed.
Lemma sleep_onms_wf par0 s l addr ms u s' : wf s l -> sleep_onms par0 addr ms s = Ok (u, s') -> exists l', wf s' l'.
Proof.
  intros Hw Hrun. unfold sleep_onms in Hrun. apply st_bind_Ok in Hrun as (? & ? & E & Hrun). injection E as <- <-.
  apply st_bind_Ok in Hrun as (? & s1 & E & Hrun). eapply sleep_on_wf; [|exact Hrun].
  eapply wf_upd; [done|apply Hw| |exact E]. intros t Ht. done.
Qed.
Lemma wait_begin_wf par0 s l r s' : wf s l -> task_wait_begin par0 s = Ok (r, s') -> exists l', wf s' l'.
Proof.
  intros Hw Hrun. unfold task_wait_begin in Hrun. apply st_bind_Ok in Hrun as (? & ? & E & Hrun). injection E as <- <-.
  apply st_bind_Ok in Hrun as (c & s1 & E & Hrun). apply task_at_Ok in E as (-> & _).
  destruct (bool_decide _) in Hrun; [|injection Hrun as <- <-; by exists l].
  apply st_bind_Ok in Hrun as (? & s2 & E & Hrun). injection E as <- <-.
  apply st_bind_Ok in Hrun as (t & s2 & E & Hrun). unfold lift in E. destruct (find_task _ _ _ _); [|done]. injection E as <- <-.
  destruct (_ =? 0) in Hrun.
  - injection Hrun as <- <-. exists l. apply wf_lock. by apply wf_lock.
  - apply st_bind_Ok in Hrun as (? & s3 & E & Hrun). injection Hrun as <- <-. eapply sleep_on_wf; [|exact E]. by apply wf_lock.
Qed.
Lemma exit_wf par0 s l st u s' : wf s l -> task_exit par0 st s = Ok (u, s') -> exists l', wf s' l'.
Proof.
  intros Hw Hrun. unfold task_exit in Hrun. apply st_bind_Ok in Hrun as (? & s1 & E & Hrun). injection Hrun as _ <-.
  eapply (exit_with_wf (task_switch par0) par0); [|exact Hw|exact E]. intros. by eapply (timer_wf par0).
Qed.

(** More fuel makes no difference to the timer interrupt. *)
Lemma wakeup_sigs addr s r s' : wakeup addr s = Ok (r, s') -> sigs_queue s' = sigs_queue s.
Proof.
  intros Hrun. unfold wakeup in Hrun. apply st_bind_Ok in Hrun as (? & ? & E & Hrun). injection E as _ <-.
  apply st_bind_Ok in Hrun as (? & ? & E & Hrun). injection E as <- <-.
  apply st_bind_Ok in Hrun as ([n m] & ? & E & Hrun). unfold lift in E. destruct (wakeup_loop _ _ _ _ _) as [[n' m']|]; [|done].
  injection E as <- <- <-. by injection Hrun as _ <-.
Qed.
Lemma exit_begin_sigs par0 st s r s' : exit_begin par0 st s = Ok (r, s') -> sigs_queue s' = sigs_queue s.
Proof.
  intros Hrun. unfold exit_begin in Hrun. apply st_bind_Ok in Hrun as (? & ? & E & Hrun). injection E as _ <-.
  apply st_bind_Ok in Hrun as (? & ? & E & Hrun). injection E as <- <-.
  apply st_bind_Ok in Hrun as (c & ? & E & Hrun). apply task_at_Ok in E as (-> & _).
  destruct (_ =? 1) in Hrun; [by injection Hrun as _ <-|].
  apply st_bind_Ok in Hrun as ([par m] & s1 & E & Hrun). unfold lift in E. destruct (exit_loop _ _ _ _ _); [|done]. injection E as -> <-.
  apply st_bind_Ok in Hrun as (? & ? & E & Hrun). injection E as _ <-.
  apply st_bind_Ok in Hrun as (c1 & ? & E & Hrun). apply task_at_Ok in E as (-> & _).
  apply st_bind_Ok in Hrun as (? & ? & E & Hrun). destruct (wait_queue c1); [injection E as _ <-|by apply st_bind_Ok in E as (? & ? & _ & E)].
  apply st_bind_Ok in Hrun as (? & ? & E & Hrun). unfold drop_signals in E. destruct (existsb _ _); [done|]. injection E as _ <-.
  apply st_bind_Ok in Hrun as (q & s3 & E & Hrun).
  assert (Hq : sigs_queue s3 = sigs_queue s).
  { destruct (par =? 0); [|by injection E as _ <-]. unfold get_task_by_pid in E. apply bind_Ok in E as (? & _ & E). by injection E as _ <-. }
  apply st_bind_Ok in Hrun as (? & s4 & E4 & Hrun). apply upd_task_Ok in E4 as (? & _ & ->).
  apply st_bind_Ok in Hrun as (? & s5 & E5 & Hrun). apply upd_task_Ok in E5 as (? & _ & ->).
  apply st_bind_Ok in Hrun as (? & s6 & E6 & Hrun). injection Hrun as _ <-. cbn. rewrite <- Hq.
  destruct (is_thread c1); [by injection E6 as _ <-|]. apply st_bind_Ok in E6 as (? & s7 & E7 & E6). injection E6 as _ <-.
  by apply wakeup_sigs in E7.
Qed.
Lemma pick_sigs s u s' : pick_task s = Ok (u, s') -> sigs_queue s' = sigs_queue s.
Proof.
  intros Hrun. unfold pick_task in Hrun. apply st_bind_Ok in Hrun as (n & s1 & E & Hrun). injection Hrun as _ <-. cbn.
  unfold task_switch_inner in E. apply st_bind_Ok in E as (? & ? & E1 & E). injection E1 as <- <-.
  destruct (switch_locked s); [by injection E as _ <-|].
  apply st_bind_Ok in E as (c & ? & E1 & E). apply task_at_Ok in E1 as (-> & _).
  apply st_bind_Ok in E as ([n1 m1] & s2 & E1 & E). unfold lift in E1. destruct (pick_loop _ _ _ _); [|done]. injection E1 as -> <-.
  apply st_bind_Ok in E as ([n2 m2] & s3 & E1 & E). assert (Hs3 : s3 = s).
  { destruct (n1 =? 0); [|by injection E1 as _ _ <-]. unfold lift in E1. destruct (pick_loop _ _ _ _); [|done]. by injection E1 as _ <-. }
  destruct (n2 =? 0); [done|]. injection E as _ <-. by rewrite Hs3.
Qed.

Lemma st_bind_ext {A B} (m : st sys A) (f g : A -> st sys B) s :
  (forall a s', m s = Ok (a, s') -> f a s' = g a s') -> (a ← m; f a) s = (a ← m; g a) s.
Proof. intros Hfg. unfold mbind, st_bind. destruct (m s) as [[a s']|] eqn:E; [by apply Hfg|done]. Qed.

Section Fuel.
Variables (sw1 sw2 : st sys unit) (par0 : Z) (n : nat).
Hypothesis Hsw : forall s, (length (sigs_queue s) < n)%nat -> sw1 s = sw2 s.

Lemma deliver_ext sn h s : (length (sigs_queue s) < n)%nat -> deliver sw1 par0 sn h s = deliver sw2 par0 sn h s.
Proof using Hsw.
  intros Hn. unfold deliver. destruct (h =? SIG_DFL); [|done]. destruct (sig_default sn) as [[|]|]; [|done..].
  unfold exit_with. apply st_bind_ext. intros [|] s1 E; [|done]. apply exit_begin_sigs in E.
  unfold mbind, st_bind. rewrite (Hsw s1); [done|by rewrite E].
Qed.
Lemma signals_loop_ext td : forall dn s, (length (dn ++ td) <= n)%nat -> sigs_queue s = dn ++ td ->
  signals_loop sw1 par0 dn td s = signals_loop sw2 par0 dn td s.
Proof using Hsw.
  induction td as [|g td IH]; intros dn s Hn Hq; [done|]. cbn [signals_loop].
  apply st_bind_ext. intros ? ? E. injection E as <- <-. apply st_bind_ext. intros c s1 E. apply task_at_Ok in E as (-> & _).
  destruct (negb _).
  - apply st_bind_ext. intros p s1 E. unfold get_task_by_pid in E. apply bind_Ok in E as (? & _ & E). injection E as _ <-.
    apply st_bind_ext. intros ? s2 E2. apply upd_task_Ok in E2 as (? & _ & ->).
    apply IH; [by rewrite <- app_assoc|cbn; by rewrite <- app_assoc].
  - apply st_bind_ext. intros ? s1 E. injection E as _ <-. apply st_bind_ext. intros h s2 E. unfold lift in E.
    destruct (rd _ _); [|done]. injection E as _ <-. unfold mbind, st_bind. rewrite deliver_ext; [done|].
    cbn. rewrite length_app in *. cbn [length] in Hn. lia.
Qed.
End Fuel.

Lemma timer_loop_fuel par0 n : forall m s, (length (sigs_queue s) < n)%nat -> (length (sigs_queue s) < m)%nat ->
  timer_loop par0 n s = timer_loop par0 m s.
Proof.
  induction n as [|n IH]; intros [|m] s Hn Hm; [lia..|]. cbn [timer_loop].
  apply st_bind_ext. intros ? s0 E0. injection E0 as _ <-. apply st_bind_ext. intros ? ? E. injection E as <- <-.
  destruct (_ =? 0); [done|]. apply st_bind_ext. intros ? s1 E. apply pick_sigs in E. cbn in E.
  apply st_bind_ext. intros ? ? E1. injection E1 as <- <-.
  apply (signals_loop_ext _ _ par0 (length (sigs_queue s1))); [|done|done]. rewrite E. intros s2 Hs2. apply IH; lia.
Qed.
(** The number of pending signals is enough fuel. *)
Lemma timer_handler_fuel par0 n s : (length (sigs_queue s) < n)%nat -> timer_loop par0 n s = timer_handler par0 s.
Proof. intros Hn. unfold timer_handler. apply timer_loop_fuel; lia. Qed.

(** The return from a handler, if the task has kept its place in the queue and
    its parent meanwhile. *)
Definition kept_place (s : sys) : Prop := forall c t, tasks s !! current_task s = Some c -> saved s !! current_task s = Some t ->
  next t = next c /\ ppid t = ppid c.
Lemma handler_return_wf par0 s l u s' : wf s l -> kept_place s -> signal_handler_return par0 s = Ok (u, s') -> exists l', wf s' l'.
Proof.
  intros Hw Hk Hrun. pose proof Hw as [Hs Hcur]. unfold signal_handler_return in Hrun.
  apply st_bind_Ok in Hrun as (? & ? & E & Hrun). injection E as <- <-. destruct (saved s !! current_task s) as [t|] eqn:Et; [|done].
  apply st_bind_Ok in Hrun as (c & ? & E & Hrun). apply task_at_Ok in E as (-> & _ & Hc).
  destruct (Hk c t Hc Et) as [Hn Hp]. destruct (wf_saved _ _ Hs _ _ _ Hc Et) as [Hpid Hl].
  apply st_bind_Ok in Hrun as (? & ? & E & Hrun). injection E as _ <-. apply st_bind_Ok in Hrun as (? & ? & E & Hrun). injection E as _ <-.
  set (s1 := with_saved _ _) in Hrun.
  assert (Hw1 : wf s1 l).
  { split; [|done]. apply (sane_soft s); [done|cbn|done|done|done|cbn; apply delete_subseteq].
    eapply soft_insert; [done|]. apply soft_live; try done. by eapply wf_live. }
  destruct (bool_decide _) in Hrun; [|injection Hrun as _ <-; by exists l].
  apply st_bind_Ok in Hrun as (? & s2 & E & Hrun).
  eapply (switch_int_wf (timer_handler par0) par0 (timer_wf par0)); [|exact Hrun]. apply wf_leaving.
  eapply wf_upd; [exact Hw1|exact Hcur| |exact E]. intros y _. cbn. unfold live. auto 10.
Qed.
End Switches.
(** ** Steps of the system *)
Section Steps.
Context `{FsOps}.

(** What can happen: the timer interrupt, or an operation of the running
    task.  The address of a new task is fresh; [par0] is what the variable
    [parent] of [task_exit] holds. *)
Inductive step (s : sys) : sys -> Prop :=
| step_timer par0 s' : timer_handler par0 s = Ok (tt, s') -> step s s'
| step_sleep par0 addr s' : sleep_on par0 addr s = Ok (tt, s') -> step s s'
| step_sleep_ms par0 addr ms s' : sleep_onms par0 addr ms s = Ok (tt, s') -> step s s'
| step_wakeup addr n s' : wakeup addr s = Ok (n, s') -> step s s'
| step_fork a pd news i s' :
    tasks s !! a = None -> a <> 0 -> next_pid s < 2 ^ 31 - 1 -> fork_int a pd news s = Ok (i, s') -> step s s'
| step_thread a pd ebp0 esp0 eip0 i s' :
    tasks s !! a = None -> a <> 0 -> next_pid s < 2 ^ 31 - 1 -> thread_new a pd ebp0 esp0 eip0 s = Ok (i, s') -> step s s'
| step_wait par0 r s' : task_wait_begin par0 s = Ok (r, s') -> step s s'
| step_waited r s' : task_wait_end s = Ok (r, s') -> step s s'
| step_exit par0 st s' : task_exit par0 st s = Ok (tt, s') -> step s s'
| step_kill i sn r s' : kill i sn s = Ok (r, s') -> step s s'
| step_signal sn h r s' : signal sn h s = Ok (r, s') -> step s s'
| step_handler_return par0 s' : kept_place s -> signal_handler_return par0 s = Ok (tt, s') -> step s s'.

Lemma step_wf s s' l : wf s l -> step s s' -> exists l', wf s' l'.
Proof.
  intros Hw Hst. inversion Hst as [? ? E|? ? ? E|? ? ? ? E|? ? ? E|? ? ? ? ? Ha Ha0 Hp E|? ? ? ? ? ? ? Ha Ha0 Hp E|? ? ? E|? ? E|? ? ? E|? ? ? ? E|? ? ? ? E|? ? Hk E]; subst.
  - eapply timer_wf; [by apply wf_leaving|exact E].
  - by eapply sleep_on_wf.
  - by eapply sleep_onms_wf.
  - exists l. by eapply wf_wakeup.
  - eapply fork_run in E as (_ & E & _); eauto.
  - eapply thread_run in E; eauto.
  - by eapply wait_begin_wf.
  - exists l. by eapply wf_wait_end.
  - by eapply exit_wf.
  - exists l. by eapply wf_kill.
  - exists l. by eapply wf_signal.
  - by eapply handler_return_wf.
Qed.

Lemma init_files_wakes i tty0 news s r s' : init_files i tty0 news s = Ok (r, s') -> only_wakes s s'.
Proof.
  revert i s r. induction news as [|a news IH]; intros i s r Hrun; cbn [init_files] in Hrun; [by injection Hrun as _ <-|].
  apply st_bind_Ok in Hrun as (? & s1 & E & Hrun). injection E as _ <-.
  apply st_bind_Ok in Hrun as (? & s2 & E & Hrun). apply open_only_wakes in E.
  apply st_bind_Ok in Hrun as (? & s3 & E3 & Hrun). injection Hrun as _ <-. apply IH in E3.
  etransitivity; [|exact E3]. etransitivity; [|exact E]. by apply only_wakes_same.
Qed.

Lemma init_wf boot a pd root name0 tty0 f0 f1 f2 s :
  tasks boot = ∅ -> saved boot = ∅ -> a <> 0 -> task_init a pd root name0 tty0 f0 f1 f2 boot = Ok (tt, s) -> wf s [a].
Proof.
  intros Hb Hsv Ha Hrun. unfold task_init in Hrun.
  apply st_bind_Ok in Hrun as (? & ? & E & Hrun). injection E as _ <-.
  apply st_bind_Ok in Hrun as (? & ? & E & Hrun). injection E as _ <-.
  apply st_bind_Ok in Hrun as (? & ? & E & Hrun). injection E as <- <-.
  apply st_bind_Ok in Hrun as (? & ? & E & Hrun). injection E as _ <-.
  apply st_bind_Ok in Hrun as (? & ? & E & Hrun). apply upd_task_Ok in E as (t & [_ Ht] & ->). cbn in Ht.
  rewrite lookup_insert_eq in Ht. injection Ht as <-.
  apply st_bind_Ok in Hrun as (? & s1 & E & Hrun). injection E as _ <-.
  cbn [tasks current_task next_pid switch_locked timer_ticks sigs_queue fobjs nodes pipes saved with_tasks with_current with_pid with_lock with_saved] in Hrun.
  rewrite Hb, insert_insert_eq in Hrun.
  set (t0 := Task _ _ _ _ _ _ _ _ _ _) in Hrun.
  apply st_bind_Ok in Hrun as (fl & s2 & E & Hrun). apply init_files_wakes in E.
  apply st_bind_Ok in Hrun as (? & s3 & E3 & Hrun). injection Hrun as <-. apply wf_lock.
  set (s0 := Sys _ _ _ _ _ _ _ _ _ _ _) in E.
  assert (Hw0 : wf s0 [a]).
  { assert (Hlk : forall b u, tasks s0 !! b = Some u -> b = a /\ u = t0).
    { intros b u Hu. cbn in Hu. apply lookup_insert_Some in Hu as [[<- <-]|[_ Hu]]; [done|]. by rewrite lookup_empty in Hu. }
    split; [|cbn; set_solver]. split.
    - split; [done|]. split; [done|]. exists t0. split; [cbn; by rewrite lookup_insert_eq|done].
    - apply NoDup_singleton.
    - exists a, [], t0. split_and!; [done|cbn; by rewrite lookup_insert_eq|done].
    - intros b u Hu. apply Hlk in Hu as [-> ->]. split; [done|]. cbn. change (1 +i 1) with 2. lia.
    - intros b d u v Hu Hv _. apply Hlk in Hu as [-> _]. by apply Hlk in Hv as [-> _].
    - intros b u _ Hu Hp. apply Hlk in Hu as [-> ->]. done.
    - intros b u _ Hu. apply Hlk in Hu as [-> ->]. by left.
    - intros b u z _ Hu Hz. apply Hlk in Hu as [-> ->]. cbn in Hz. set_solver.
    - intros b u _ Hu. apply Hlk in Hu as [-> ->]. apply NoDup_nil_2.
    - intros b d u v z _ _ Hu _ Hz. apply Hlk in Hu as [-> ->]. cbn in Hz. set_solver.
    - intros b u Hu. apply Hlk in Hu as [-> ->]. left. set_solver.
    - cbn. set_solver.
    - cbn. intros b c t _ Ht. rewrite Hsv, delete_empty in Ht. by rewrite lookup_empty in Ht. }
  assert (Hw2 : wf s2 [a]).
  { pose proof (only_wakes_soft _ _ E) as Hsoft. destruct E as (_ & Hc & Hq & Hn & Hsg & Hsd). destruct Hw0 as [Hs0 Hc0].
    split; [|by rewrite Hc]. apply (sane_soft s0); [done|done|done|done|by rewrite Hsg|by rewrite Hsd]. }
  eapply wf_upd; [exact Hw2| | |exact E3]; [set_solver|]. done.
Qed.
End Steps.

(** ** The order of the tasks *)
Lemma NoDup_mid {A} (pre : list A) z c post : NoDup (pre ++ z :: c :: post) -> c ∉ pre ++ z :: post.
Proof.
  intros (_ & Hdis & Hnd)%NoDup_app. apply NoDup_cons in Hnd as [Hzn Hnd]. apply NoDup_cons in Hnd as [Hcn _].
  intros [Hin|Hin]%elem_of_app; [apply (Hdis _ Hin); set_solver|set_solver].
Qed.

(** The end of the sleep of a task lies before the tick [ticks]; a task that can run then. *)
Definition due (ticks : Z) (t : task) : Prop := state t = TASK_SLEEPING /\ 0 < sleep_end_tick t < ticks.
Definition runnable (ticks : Z) (t : task) : Prop := state t = TASK_RUNNING \/ state t = TASK_AWAKEN \/ due ticks t.
Definition runs (ticks : Z) (m : gmap Z task) (a : Z) : Prop := exists t, m !! a = Some t /\ runnable ticks t.

Lemma wake_check_due ticks t : due ticks t -> wake_check ticks t = set_end (set_state t TASK_RUNNING) 0.
Proof.
  intros (Hs & H0 & H1). unfold wake_check. rewrite bool_decide_true by done. cbn [andb].
  by replace ((0 <? sleep_end_tick t) && (sleep_end_tick t <? ticks))%bool with true by lia.
Qed.
Lemma wake_check_not ticks t : ~ due ticks t -> wake_check ticks t = t.
Proof.
  intros Hn. unfold wake_check. destruct (_ && _ && _)%bool eqn:E; [|done]. rewrite !andb_true_iff in E. destruct E as [[E E1] E2].
  apply bool_decide_eq_true in E. destruct Hn. split; [done|lia].
Qed.
Lemma due_dec ticks t : due ticks t \/ ~ due ticks t.
Proof. unfold due. destruct (decide (state t = TASK_SLEEPING)), (decide (0 < sleep_end_tick t)), (decide (sleep_end_tick t < ticks)); tauto. Qed.
Lemma ready_state t : ready t = true <-> state t = TASK_RUNNING \/ state t = TASK_AWAKEN.
Proof. unfold ready. rewrite orb_true_iff, !bool_decide_eq_true. done. Qed.
Lemma runs_awake ticks m a : runs ticks m a <-> awake ticks m a.
Proof.
  unfold runs, awake, holds. split; intros (t & Ht & Hr); exists t; (split; [done|]).
  - destruct Hr as [Hr|[Hr|Hr]]; [..|by rewrite wake_check_due].
    all: rewrite wake_check_not; [apply ready_state; tauto|]; intros [E _]; congruence.
  - destruct (due_dec ticks t) as [Hd|Hd]; [by right; right|]. rewrite wake_check_not in Hr by done. apply ready_state in Hr.
    unfold runnable. tauto.
Qed.

(** [r] are the tasks in the order in which the scheduler looks at them. *)
Definition cycle (l : list Z) (c : Z) (r : list Z) : Prop := exists pre post, l = pre ++ c :: post /\ r = post ++ pre ++ [c].

Lemma cycle_rotate l c r1 b r2 : cycle l c (r1 ++ b :: r2) -> cycle l b (r2 ++ r1 ++ [b]).
Proof.
  intros (pre & post & -> & E).
  assert (Hcase : (exists k, post = r1 ++ b :: k /\ r2 = k ++ pre ++ [c]) \/ (exists k, r1 = post ++ k /\ pre ++ [c] = k ++ b :: r2)).
  { revert post E. induction r1 as [|x r1 IH]; intros post E; destruct post as [|y post]; cbn [app] in E.
    - right. by exists [].
    - left. injection E as -> ->. by exists post.
    - right. by exists (x :: r1).
    - injection E as -> E. destruct (IH post E) as [(k & -> & ->)|(k & -> & Ek)]; [left; by exists k|right; by exists k]. }
  destruct Hcase as [(k & -> & ->)|(k & -> & Ek)].
  - exists (pre ++ c :: r1), k. split; by rewrite <- !app_assoc.
  - destruct r2 as [|x r2 _] using rev_ind.
    + apply app_inj_tail in Ek as [-> ->]. exists k, post. split; [done|]. cbn [app]. by rewrite <- app_assoc.
    + rewrite app_comm_cons, app_assoc in Ek. apply app_inj_tail in Ek as [-> ->].
      exists k, (r2 ++ x :: post). split; by rewrite <- !app_assoc.
Qed.

Lemma split_unique {A} (c : A) p1 q1 p2 q2 :
  NoDup (p1 ++ c :: q1) -> p1 ++ c :: q1 = p2 ++ c :: q2 -> p1 = p2 /\ q1 = q2.
Proof.
  revert p2. induction p1 as [|x p1 IH]; intros [|y p2] Hnd E; cbn [app] in *.
  - by injection E.
  - injection E as -> ->. apply NoDup_cons in Hnd as [Hn _]. destruct Hn. set_solver.
  - injection E as -> <-. apply NoDup_cons in Hnd as [Hn _]. destruct Hn. set_solver.
  - injection E as -> E. apply NoDup_cons in Hnd as [_ Hnd]. destruct (IH p2 Hnd E) as [-> ->]. done.
Qed.

Section Order.
Variables (s : sys) (l : list Z).
Hypotheses (Hw : wf s l) (Hunlocked : switch_locked s = false).

Notation asleep := (fun b => ~ awake (timer_ticks s) (tasks s) b).

Lemma cycle_exists : exists r, cycle l (current_task s) r.
Proof.
  destruct Hw as [_ Hc]. apply list_elem_of_split in Hc as (pre & post & E). exists (post ++ pre ++ [current_task s]). by exists pre, post.
Qed.

Lemma switch_cycle r :
  cycle l (current_task s) r ->
  (exists r1 a r2 vis, r = r1 ++ a :: r2 /\ Forall asleep r1 /\ awake (timer_ticks s) (tasks s) a /\
     task_switch_inner s = Ok (a, with_current (with_tasks s (visits (timer_ticks s) (tasks s) vis)) a) /\
     (forall b, b ∈ vis <-> b ∈ r1 ++ [a])) \/
  Forall asleep l /\ task_switch_inner s = Err EPanic.
Proof.
  intros (pre & post & El & ->). destruct Hw as [Hs Hc]. pose proof (wf_nodup _ _ Hs) as Hnd.
  destruct (chain_split _ _ _ _ (wf_chain _ _ Hs) Hc) as (c & pre' & post' & El' & Ht & H0 & Hp).
  assert (E : pre' = pre /\ post' = post).
  { rewrite El' in El. rewrite El' in Hnd. by apply (split_unique _ _ _ _ _ Hnd) in El. }
  destruct E as [-> ->]. clear El'. pose proof (wf_chain _ _ Hs) as Hch.
  assert (Hpnd : NoDup post) by (rewrite El in Hnd; apply NoDup_app in Hnd as (_ & _ & Hnd); by apply NoDup_cons in Hnd as [_ ?]).
  destruct (list_first (awake (timer_ticks s) (tasks s)) post) as [(p1 & a & p2 & Ep & Ha & Hf)|Hno].
  - left. exists p1, a, (p2 ++ pre ++ [current_task s]), (p1 ++ [a]).
    split_and!; [by rewrite Ep, <- app_assoc|done|done|by eapply switch_behind|done].
  - destruct (list_first (awake (timer_ticks s) (tasks s)) (pre ++ [current_task s])) as [(q1 & a & q2 & Eq & Ha & Hf)|Hno2].
    + left. exists (post ++ q1), a, q2, (post ++ q1 ++ [a]). split_and!.
      * by rewrite Eq, <- app_assoc.
      * by apply Forall_app.
      * done.
      * eapply (switch_around s c post l); try done. 
        rewrite El. change (current_task s :: post) with ([current_task s] ++ post). rewrite app_assoc, Eq, <- app_assoc. done.
      * set_solver.
    + right. assert (Hall : Forall asleep l).
      { rewrite El. apply Forall_app in Hno2 as [H1 H2]. apply Forall_app. split; [done|]. apply Forall_cons_1 in H2 as [H2 _]. by constructor. }
      split; [done|]. by eapply (switch_panics s c post l).
Qed.
End Order.
(** ** Fairness *)
Lemma ready_wake_check ticks t : ready t = true -> wake_check ticks t = t.
Proof.
  intros Hr. unfold wake_check, ready in *. destruct (bool_decide (state t = TASK_SLEEPING)) eqn:E; [|done].
  apply bool_decide_eq_true in E. rewrite E in Hr. done.
Qed.
Lemma awake_later ticks ticks' t : ticks <= ticks' -> ready (wake_check ticks t) = true -> ready (wake_check ticks' t) = true.
Proof.
  intros Ht. unfold wake_check. destruct (bool_decide (state t = TASK_SLEEPING)); cbn [andb]; [|done].
  destruct (Z.ltb_spec 0 (sleep_end_tick t)); cbn [andb]; [|done].
  destruct (Z.ltb_spec (sleep_end_tick t) ticks); [|by destruct (_ <? ticks')].
  by replace (sleep_end_tick t <? ticks') with true by lia.
Qed.
Lemma awake_next ticks ticks' m vis a :
  ticks <= ticks' -> awake ticks m a -> awake ticks' (visits ticks m vis) a.
Proof.
  intros Ht (t & Hta & Hr). unfold awake, holds. rewrite lookup_visits, Hta. case_decide; cbn; eexists; (split; [done|]).
  - rewrite ready_wake_check; done.
  - by eapply awake_later.
Qed.

Lemma first_prefix {A} (P : A -> Prop) r1 a r2 q1 b q2 :
  r1 ++ a :: r2 = q1 ++ b :: q2 -> P a -> Forall (fun x => ~ P x) q1 ->
  r1 = q1 /\ a = b /\ r2 = q2 \/ exists r, r1 = q1 ++ b :: r /\ q2 = r ++ a :: r2.
Proof.
  revert r1. induction q1 as [|y q1 IH]; intros [|x r1] E Ha Hf; cbn [app] in E; injection E as E1 E.
  - by left.
  - right. subst. by exists r1.
  - subst y. apply Forall_cons_1 in Hf as [Hf _]. done.
  - subst y. apply Forall_cons_1 in Hf as [_ Hf]. destruct (IH r1 E Ha Hf) as [(-> & -> & ->)|(r & -> & ->)]; [by left|right; by exists r].
Qed.

(** What the scheduler makes of the tasks: the sleep of some has ended. *)
Definition roused (t t' : task) : Prop := t' = t \/ state t = TASK_SLEEPING /\ t' = set_end (set_state t TASK_RUNNING) 0.
Definition kept (s s' : sys) : Prop :=
  sigs_queue s' = sigs_queue s /\ switch_locked s' = switch_locked s /\ forall a, option_Forall2 roused (tasks s !! a) (tasks s' !! a).
#[global] Instance kept_refl : Reflexive kept.
Proof. intros s. split_and!; try done. intros a. destruct (tasks s !! a); constructor. by left. Qed.
#[global] Instance kept_trans : Transitive kept.
Proof.
  intros x y z (S1 & L1 & H1) (S2 & L2 & H2). split_and!; [congruence..|]. intros a. specialize (H1 a). specialize (H2 a).
  inversion H1 as [t t' R1 E1 E2|E1 E2]; rewrite <- E2 in H2; inversion H2 as [u u' R2 E3 E4|E3 E4]; constructor.
  destruct R1 as [-> |(Hst & ->)]; [done|]. destruct R2 as [-> |(E & _)]; [by right|done].
Qed.
Lemma roused_wake_check ticks t : roused t (wake_check ticks t).
Proof.
  unfold wake_check. destruct (_ && _ && _)%bool eqn:E; [|by left]. rewrite !andb_true_iff in E. destruct E as [[E _] _].
  right. by apply bool_decide_eq_true in E.
Qed.
Lemma kept_visits s ticks vis b : kept s (with_current (with_ticks (with_tasks s (visits ticks (tasks s) vis)) ticks) b).
Proof.
  split_and!; try done. intros a. cbn. rewrite lookup_visits. case_decide; destruct (tasks s !! a); constructor; [apply roused_wake_check|by left].
Qed.

Section Fairness.
Context `{FsOps}.
Variable par0 : Z.

(** While no signal is pending, an interrupt of the timer is a tick and a
    choice of the next task. *)
Lemma timer_quiet s s1 :
  current_task s <> 0 -> pick_task (with_ticks s (timer_ticks s +u 1)) = Ok (tt, s1) -> sigs_queue s1 = [] ->
  timer_handler par0 s = Ok (tt, s1).
Proof.
  intros H0 Hp Hq. unfold timer_handler. cbn [timer_loop]. set (sw := timer_loop _ _).
  rewrite (st_bind_eq _ _ s tt (with_ticks s (timer_ticks s +u 1))) by done.
  rewrite (st_bind_eq _ _ _ (with_ticks s (timer_ticks s +u 1)) (with_ticks s (timer_ticks s +u 1))) by done.
  cbn [current_task with_ticks]. rewrite (proj2 (Z.eqb_neq _ 0) H0). unfold switch_int.
  rewrite (st_bind_eq _ _ _ _ _ Hp). unfold process_signals. rewrite (st_bind_eq _ _ s1 s1 s1) by done. by rewrite Hq.
Qed.

(** [k] interrupts of the timer. *)
Fixpoint ticks_run (k : nat) (s : sys) : res sys :=
  match k with O => Ok s | S k' => '(_, s') ← timer_handler par0 s; ticks_run k' s' end.

Lemma fair_cycle l a n : forall s r1 r2,
  wf s l -> switch_locked s = false -> sigs_queue s = [] -> cycle l (current_task s) (r1 ++ a :: r2) -> (length r1 <= n)%nat ->
  0 <= timer_ticks s -> timer_ticks s + Z.of_nat n + 1 < 2 ^ 32 -> awake (timer_ticks s + 1) (tasks s) a ->
  exists k s', (1 <= k <= S (length r1))%nat /\ ticks_run k s = Ok s' /\ current_task s' = a /\ wf s' l /\ kept s s'.
Proof.
  induction n as [n IH] using lt_wf_ind. intros s r1 r2 Hw Hlk Hsg Hring Hn Ht0 Ht Hawake.
  set (s0 := with_ticks s (timer_ticks s + 1)).
  assert (Hw0 : wf s0 l) by (destruct Hw as [Hs Hc]; split; [by apply (sane_soft s)|done]).
  assert (Hal : a ∈ l) by (destruct Hring as (pre & post & -> & E); assert (a ∈ post ++ pre ++ [current_task s]) by (rewrite <- E; set_solver); set_solver).
  assert (Hcur0 : current_task s <> 0) by (destruct Hw as [Hs Hc]; by destruct (seg_lookup _ _ _ _ _ (wf_chain _ _ Hs) Hc)).
  destruct (switch_cycle s0 l Hw0 Hlk _ Hring) as [(q1 & b & q2 & vis & Er & Hq & Hb & Hsw & _)|[Hall _]].
  2:{ rewrite Forall_forall in Hall. by destruct (Hall a Hal). }
  set (s1 := with_current (with_tasks s0 (visits (timer_ticks s0) (tasks s0) vis)) b) in Hsw.
  assert (Hp : pick_task s0 = Ok (tt, s1)) by (unfold pick_task; by rewrite (st_bind_eq _ _ _ _ _ Hsw)).
  assert (Hw1 : wf s1 l) by (by eapply wf_pick).
  assert (Hti : timer_handler par0 s = Ok (tt, s1)) by (apply timer_quiet; [done|by rewrite u32_small by lia|done]).
  assert (Hk1 : kept s s1) by (apply (kept_visits s (timer_ticks s + 1))).
  destruct (first_prefix _ _ _ _ _ _ _ Er Hawake Hq) as [(-> & -> & ->)|(r & -> & ->)].
  { exists 1%nat, s1. split_and!; try done; try lia. cbn [ticks_run]. by rewrite Hti. }
  rewrite length_app in Hn. cbn [length] in Hn.
  destruct (IH (length r)) with (s := s1) (r1 := r) (r2 := r2 ++ q1 ++ [b]) as (k & s2 & Hk & Hrun & Hcs & Hw2 & Hkept); try done.
  - lia.
  - change (current_task s1) with b. rewrite <- app_assoc in Hring. apply cycle_rotate in Hring. by rewrite <- app_assoc in Hring.
  - cbn. lia.
  - cbn. lia.
  - cbn. eapply awake_next; [|exact Hawake]. lia.
  - exists (S k), s2. rewrite length_app. cbn [length]. split; [lia|]. split; [cbn [ticks_run]; by rewrite Hti|].
    split_and!; [done|done|by etransitivity].
Qed.

(** The time until a task of the queue runs. *)
Lemma fair_run s l a :
  wf s l -> switch_locked s = false -> sigs_queue s = [] -> a ∈ l -> 0 <= timer_ticks s ->
  timer_ticks s + Z.of_nat (length l) < 2 ^ 32 - 1 -> awake (timer_ticks s + 1) (tasks s) a ->
  exists k s', (1 <= k <= length l)%nat /\ ticks_run k s = Ok s' /\ current_task s' = a /\ wf s' l /\ kept s s'.
Proof.
  intros Hw Hlk Hsg Ha Ht0 Ht Haw. destruct (cycle_exists s l Hw) as (r & Hr).
  assert (Har : a ∈ r) by (destruct Hr as (pre & post & -> & ->); set_solver).
  assert (Hlr : length r = length l) by (destruct Hr as (pre & post & -> & ->); rewrite !length_app; cbn [length]; lia).
  apply list_elem_of_split in Har as (r1 & r2 & ->). rewrite length_app in Hlr. cbn [length] in Hlr.
  destruct (fair_cycle l a (length r1) s r1 r2) as (k & s' & Hk & Hrun & Hc & Hw' & Hkept); [done|done|done|done|done|done|lia|done|].
  exists k, s'. split_and!; try done; lia.
Qed.
End Fairness.

(** ** exit and wait *)
Section ExitWait.
Context `{FsOps}.

Lemma close_files_none fs s : Forall (fun f => f = 0) fs -> close_files fs s = Ok (tt, s).
Proof. induction 1 as [|f fs -> _ IH]; [done|]. done. Qed.

Lemma free_zombie z t s :
  z <> 0 -> tasks s !! z = Some t -> state t = TASK_EXITING -> wait_queue t = [] -> is_thread t = false ->
  Forall (fun f => f = 0) (files (img t)) ->
  free_any z s = Ok (tt, with_lock (with_tasks s (delete z (tasks s))) false).
Proof.
  intros Hz Ht Hst Hwq Hth Hf. unfold free_any. rewrite (st_bind_eq _ _ _ _ _ (task_at_run z s t Hz Ht)), Hth.
  unfold task_free. rewrite (st_bind_eq _ _ s tt s) by (unfold kassert; by rewrite (proj2 (Z.eqb_neq z 0) Hz)).
  rewrite (st_bind_eq _ _ _ _ _ (task_at_run z s t Hz Ht)).
  rewrite (st_bind_eq _ _ s tt s) by (unfold kassert; by rewrite bool_decide_true).
  rewrite (st_bind_eq _ _ s tt s) by (unfold kassert; by rewrite bool_decide_true).
  rewrite (st_bind_eq _ _ s tt s) by (unfold kassert; by rewrite Hth).
  rewrite (st_bind_eq _ _ s tt (with_lock s true)) by done.
  by rewrite (st_bind_eq _ _ _ _ _ (close_files_none _ _ Hf)).
Qed.

(** [task_wait] of a task with one exited child. *)
Lemma wait_reaps par0 s l b tb z u :
  wf s l -> current_task s = b -> tasks s !! b = Some tb -> wait_queue tb = [z] ->
  tasks s !! z = Some u -> state u = TASK_EXITING -> wait_queue u = [] -> is_thread u = false -> Forall (fun f => f = 0) (files (img u)) ->
  task_wait_begin par0 s = Ok (Ready, s) /\
  exists s', task_wait_end s = Ok ((pid u, Some (exit_status u)), s') /\ tasks s' !! z = None /\ wf s' l.
Proof.
  intros Hw Hb Htb Hwq Hu Hst Hwu Hth Hf. pose proof Hw as [Hs _]. subst b.
  assert (Hb0 : current_task s <> 0) by (by destruct (wf_pids _ _ Hs _ _ Htb)).
  assert (Hz0 : z <> 0) by (by destruct (wf_pids _ _ Hs _ _ Hu)). split.
  { unfold task_wait_begin. rewrite (st_bind_eq _ _ s s s) by done. rewrite (st_bind_eq _ _ _ _ _ (task_at_run _ s tb Hb0 Htb)). by rewrite Hwq. }
  assert (Hne : current_task s <> z) by (intros E; rewrite E in Htb; congruence).
  assert (Hend : task_wait_end s = Ok ((pid u, Some (exit_status u)),
    with_lock (with_tasks s (delete z (<[current_task s:=set_waitq tb []]> (tasks s)))) false)).
  { unfold task_wait_end. rewrite (st_bind_eq _ _ s tt (with_lock s true)) by done.
    rewrite (st_bind_eq _ _ _ (with_lock s true) (with_lock s true)) by done.
    rewrite (st_bind_eq _ _ _ _ _ (task_at_run (current_task s) (with_lock s true) tb Hb0 Htb)), Hwq.
    rewrite (st_bind_eq _ _ _ _ _ (task_at_run z (with_lock s true) u Hz0 Hu)).
    set (s4 := with_tasks (with_lock s true) (<[current_task s:=set_waitq tb []]> (tasks s))). rewrite (st_bind_eq _ _ _ tt s4) by done.
    assert (Hz4 : tasks s4 !! z = Some u) by (cbn; by rewrite lookup_insert_ne by done).
    by rewrite (st_bind_eq _ _ _ _ _ (free_zombie z u s4 Hz0 Hz4 Hst Hwu Hth Hf)). }
  eexists. split; [exact Hend|]. split; [cbn; by rewrite lookup_delete_eq|]. by eapply wf_wait_end.
Qed.

Lemma exit_wait_run s l c st par0 b tb :
  wf s l -> tasks s !! current_task s = Some c -> pid c <> 1 -> wait_queue c = [] -> is_thread c = false ->
  Forall (fun f => f = 0) (files (img c)) -> sigs_queue s = [] ->
  tasks s !! b = Some tb -> pid tb = ppid c -> wait_queue tb = [] -> sleeps_on (wait_addr b) tb = true \/ ready tb = true ->
  0 <= timer_ticks s -> timer_ticks s + Z.of_nat (length l) < 2 ^ 32 - 2 ->
  exists s1 k s2 s3 l', task_exit par0 st s = Ok (tt, s1) /\ (k <= length l)%nat /\ ticks_run par0 k s1 = Ok s2 /\ current_task s2 = b /\
    task_wait_begin par0 s2 = Ok (Ready, s2) /\ task_wait_end s2 = Ok ((pid c, Some st), s3) /\
    tasks s3 !! current_task s = None /\ current_task s ∉ l' /\ wf s3 l'.
Proof.
  intros Hw Hc H1 Hwc Hth Hf Hsg Htb Hpb Hwb Hready Ht0 Ht. set (cur := current_task s) in *.
  destruct (exit_forward s l c st Hw Hc H1 Hwc) as (pre & z & post & b' & tb' & s1 & El & Hb & Htb' & Hpb' & Heq & Hsg1 & Hs1 & Hcu & Hlk & Htk & Hz & Hp & Hpnd & (t & Htt & Hwt & Hrt) & _).
  { intros g Hg. rewrite Hsg in Hg. set_solver. }
  fold cur in El, Hwt, Hcu, Hz.
  assert (b' = b) as -> by (eapply (wf_unique _ _ (proj1 Hw)); [exact Htb'|exact Htb|congruence]).
  rewrite Htb in Htb'. injection Htb' as <-. rewrite Hwb in Hwt. cbn [app] in Hwt. specialize (Hrt Hth Hready).
  assert (Hcur0 : cur <> 0) by (by destruct (wf_pids _ _ (proj1 Hw) _ _ Hc)).
  assert (Hcl : cur ∉ pre ++ z :: post) by (pose proof (wf_nodup _ _ (proj1 Hw)) as Hnd; rewrite El in Hnd; by apply (NoDup_mid pre z cur post)).
  assert (Hlen : length l = S (length (pre ++ z :: post))) by (rewrite El, !length_app; cbn [length]; lia).
  assert (Haw : forall n, awake n (tasks s1) b) by (intros n; exists t; split; [done|]; by rewrite ready_wake_check).
  set (s0 := with_ticks s1 (timer_ticks s1 + 1)).
  destruct (switch_cases s0 (zombie c st) post (pre ++ z :: post)) as [(vis & n & Esw & Hn & _)|[_ Hall]];
    [done|cbn; by rewrite Hcu|cbn; by rewrite Hcu|done|done|apply Hs1|apply Hs1| |].
  2:{ rewrite Forall_forall in Hall. by destruct (Hall b Hb). }
  set (s2 := with_current (with_tasks s0 (visits (timer_ticks s0) (tasks s0) vis)) n) in *.
  assert (Hpk : pick_task s0 = Ok (tt, s2)) by (unfold pick_task; by rewrite (st_bind_eq _ _ _ _ _ Esw)).
  assert (Hw2 : wf s2 (pre ++ z :: post)).
  { eapply (pick_wf s0 (zombie c st) post); [by apply (sane_soft s1)|cbn; by rewrite Hcu|cbn; by rewrite Hcu|done|done|cbn; by rewrite Hlk| |exact Hpk].
    intros a Ha. apply elem_of_app. right. apply elem_of_cons. by right. }
  assert (Hk2 : kept s1 s2) by (apply (kept_visits s1 (timer_ticks s1 + 1))).
  assert (Hex : task_exit par0 st s = Ok (tt, s2)).
  { unfold task_exit, exit_with. rewrite (st_bind_eq _ _ s true s2); [done|]. rewrite (st_bind_eq _ _ _ _ _ (Heq par0)).
    rewrite (st_bind_eq _ _ s1 tt s2); [done|]. apply timer_quiet; [by rewrite Hcu|by rewrite u32_small by lia|cbn; by rewrite Hsg1]. }
  assert (Hreach : exists k s3, (k <= length l)%nat /\ ticks_run par0 k s2 = Ok s3 /\ current_task s3 = b /\ wf s3 (pre ++ z :: post) /\ kept s1 s3).
  { destruct (decide (n = b)) as [->|Hnb]; [by exists 0%nat, s2; split_and!; [lia|..]|].
    destruct (fair_run par0 s2 (pre ++ z :: post) b) as (k & s3 & Hk & Hrun & Hc3 & Hw3 & Hk3); try done.
    - cbn. by rewrite Hsg1.
    - cbn. lia.
    - cbn. lia.
    - cbn. eapply awake_next; [|apply Haw]. lia.
    - exists k, s3. split_and!; try done; [lia|by etransitivity]. }
  destruct Hreach as (k & s3 & Hk & Hrun & Hc3 & Hw3 & (_ & _ & Hk3)).
  assert (Hb3 : exists tb3, tasks s3 !! b = Some tb3 /\ wait_queue tb3 = [cur]).
  { specialize (Hk3 b). rewrite Htt in Hk3. inversion Hk3 as [x y R E1 E2|]. exists y. split; [done|]. rewrite <- Hwt. by destruct R as [-> |(_ & ->)]. }
  assert (Hz3 : tasks s3 !! cur = Some (zombie c st)).
  { specialize (Hk3 cur). rewrite Hz in Hk3. inversion Hk3 as [x y R E1 E2|]. destruct R as [-> |(E & _)]; [done|]. by destruct x. }
  destruct Hb3 as (tb3 & Htb3 & Hwq3).
  destruct (wait_reaps par0 s3 (pre ++ z :: post) b tb3 cur (zombie c st)) as (Hbeg & s4 & Hend & Hgone & Hw4); try done.
  exists s2, k, s3, s4, (pre ++ z :: post). by split_and!.
Qed.
End ExitWait.
(** ** Files that wake tasks up *)
Lemma woke_trans o1 o2 o3 : woke o1 o2 -> woke o2 o3 -> woke o1 o3.
Proof.
  intros [-> |(t & -> & Ht & ->)]; [done|]. intros [-> |(u & E & Hu & ->)]; [right; by exists t|].
  injection E as <-. done.
Qed.
Lemma wakeup_loop_woke n m addr p cnt r m' a : wakeup_loop n m addr p cnt = Ok (r, m') -> woke (m !! a) (m' !! a).
Proof.
  revert m p cnt. induction n as [|n IH]; intros m p cnt Hrun; cbn [wakeup_loop] in Hrun; [done|].
  destruct (p =? 0); [injection Hrun as _ <-; by left|]. apply bind_Ok in Hrun as (t & Ht & Hrun). apply deref_Ok in Ht as [_ Ht].
  destruct (sleeps_on addr t) eqn:E; [|by eapply IH]. apply IH in Hrun. eapply woke_trans; [|exact Hrun].
  destruct (decide (a = p)) as [->|]; [|rewrite lookup_insert_ne by done; by left]. rewrite lookup_insert_eq. right. exists t.
  split; [done|]. split; [|done]. unfold sleeps_on in E. apply andb_prop in E as [E _]. by apply bool_decide_eq_true in E.
Qed.
Lemma wakeup_only_wakes addr s r s' : wakeup addr s = Ok (r, s') -> only_wakes s s'.
Proof.
  intros Hrun. unfold wakeup in Hrun. apply st_bind_Ok in Hrun as (? & ? & E & Hrun). injection E as _ <-.
  apply st_bind_Ok in Hrun as (? & ? & E & Hrun). injection E as <- <-.
  apply st_bind_Ok in Hrun as ([n m] & ? & E & Hrun). unfold lift in E. destruct (wakeup_loop _ _ _ _ _) as [[n' m']|] eqn:El; [|done].
  injection E as <- <- <-. injection Hrun as _ <-. split; [|done]. intros a. by eapply wakeup_loop_woke in El.
Qed.

(** [&pipe->read_pos] and [&pipe->write_pos] *)
Definition read_pos_addr (p : Z) : Z := p + 16.
Definition write_pos_addr (p : Z) : Z := p + 20.

(** The [close] function of pipes: readers or writers wake up. *)
Definition pipe_close (n : Z) : st sys unit :=
  s ← get;
  d ← lift (deref (nodes s) n);
  p ← lift (deref (pipes s) (n_ptr d));
  _ ← lift (spin_lock (Pipe.lock p));
  p ← (if n_flags d =? Pipe.O_RDONLY then mret (Pipe.set_counts p (Pipe.readers p -u 1) (Pipe.writers p))
       else if n_flags d =? Pipe.O_WRONLY then mret (Pipe.set_counts p (Pipe.readers p) (Pipe.writers p -u 1))
       else fail EPanic);
  let d' := FsNode (ref_count d -i 1) (n_lock d) (n_type d) (n_flags d) (n_ptr d) in
  wakeup (if n_flags d =? Pipe.O_RDONLY then write_pos_addr (n_ptr d) else read_pos_addr (n_ptr d));;
  modify (fun s => with_files s (fobjs s)
    (if ref_count d' =? 0 then delete n (nodes s) else <[n:=d']> (nodes s))
    (if ((Pipe.readers p =? 0) && (Pipe.writers p =? 0))%bool then delete (n_ptr d) (pipes s)
     else <[n_ptr d := Pipe.set_lock p 0]> (pipes s))).

#[local] Instance pipe_ops : FsOps.
Proof.
  refine {| close_node := pipe_close; open_node := fun _ _ => mret tt |}.
  - intros n s r s' Hrun. unfold pipe_close in Hrun. apply st_bind_Ok in Hrun as (? & ? & E & Hrun). injection E as <- <-.
    apply st_bind_Ok in Hrun as (d & ? & E & Hrun). unfold lift in E. destruct (deref _ _); [|done]. injection E as <- <-.
    apply st_bind_Ok in Hrun as (q & ? & E & Hrun). unfold lift in E. destruct (deref _ _); [|done]. injection E as <- <-.
    apply st_bind_Ok in Hrun as (? & ? & E & Hrun). unfold lift in E. destruct (spin_lock _); [|done]. injection E as <- <-.
    apply st_bind_Ok in Hrun as (q' & s1 & E & Hrun).
    assert (s1 = s) as ->.
    { destruct (_ =? Pipe.O_RDONLY) in E; [by injection E as _ <-|]. destruct (_ =? Pipe.O_WRONLY) in E; [by injection E as _ <-|done]. }
    apply st_bind_Ok in Hrun as (? & s2 & E2 & Hrun). apply wakeup_only_wakes in E2. injection Hrun as _ <-.
    etransitivity; [exact E2|]. by apply only_wakes_same.
  - intros n mode s r s' Hrun. injection Hrun as _ <-. done.
Defined.

(** ** A small system: the first task and the idle task *)
Definition boot0 : sys := Sys ∅ 0 0 0 false 0 [] ∅ {[ 500 := FsNode 1 0 0x2000 0 0 ]} ∅ ∅.
Definition run (m : st sys unit) (s : sys) : sys := match m s with Ok (_, s') => s' | Err _ => s end.
Definition init0 : sys := run (task_init 1000 8192 300 400 500 600 601 602) boot0.
Definition forked0 : sys := run (fork_int 2000 12288 [700; 701; 702];; mret tt) init0.
(** The child runs. *)
Definition child0 : sys := run (timer_handler 0) forked0.

Lemma wf_quiet s l s' :
  wf s l -> sigs_queue s = [] -> pick_task (with_ticks s (timer_ticks s +u 1)) = Ok (tt, s') -> wf s' l.
Proof. intros [Hs Hc] _ Hp. eapply wf_pick; [|exact Hp]. split; [by apply (sane_soft s)|done]. Qed.

Lemma child0_wf : wf child0 [1000; 2000].
Proof.
  assert (Hi : wf init0 [1000]).
  { apply (init_wf boot0 1000 8192 300 400 500 600 601 602); [reflexivity|reflexivity|discriminate|vm_compute; reflexivity]. }
  assert (Hf : wf forked0 [1000; 2000]).
  { apply (fork_run init0 [1000] 2000 12288 [700; 701; 702] 2 forked0 Hi); vm_compute; (reflexivity || discriminate). }
  apply (wf_quiet forked0 [1000; 2000] child0 Hf); vm_compute; reflexivity.
Qed.

(** The same with the files of the first task closed. *)
Definition close_all (t : task) : task :=
  let i := img t in
  Task (pid t) (ppid t) (next t) (state t) (sleep_addr t) (sleep_end_tick t) (exit_status t) (wait_queue t) (is_thread t)
    (Image (parent i) (uid i) (gid i) (ring i) (page_directory i) (sig_handlers i) (uheap i) (name i) (root_dir i) (cwd i)
       (replicate 6 0) (sid i) (pgrp i) (leads i) (tty i) (regs i)).
Definition closed0 : sys := run (upd_task 1000 close_all) init0.
Definition child1 : sys := run (fork_int 2000 12288 [];; timer_handler 0) closed0.
Lemma child1_wf : wf child1 [1000; 2000].
Proof.
  assert (Hi : wf init0 [1000]).
  { apply (init_wf boot0 1000 8192 300 400 500 600 601 602); [reflexivity|reflexivity|discriminate|vm_compute; reflexivity]. }
  assert (Hc : wf closed0 [1000]).
  { apply (wf_upd init0 [1000] 1000 close_all closed0 tt Hi); [set_solver|done|vm_compute; reflexivity]. }
  assert (Hf : wf (run (fork_int 2000 12288 [];; mret tt) closed0) [1000; 2000]).
  { apply (fork_run closed0 [1000] 2000 12288 [] 2 _ Hc); vm_compute; (reflexivity || discriminate). }
  apply (wf_quiet _ [1000; 2000] child1 Hf); vm_compute; reflexivity.
Qed.

(** ** Properties *)

(** C5: In every state that the steps of the system reach from the boot, the
    queue of the scheduler is a list without repetitions that begins with the
    first task and contains the running one, process ids are unique, every
    other task of the queue has its parent there, every task that has exited is
    in exactly one wait queue and no task is lost.  So the loop of [task_exit]
    ends with the parent of the running task in its variable, whatever that
    held before.  The steps are the timer interrupt and the operations of the
    running task: sleeping, waking others up, fork, threads, wait, exit and
    signals, with the signals that a switch delivers, and the return from a
    signal handler.  That last one copies an old image of the task over it, and
    is a step only if the task got neither a new successor in the queue nor a
    new parent while its handler ran; [handler_loses_child] shows the
    invariant fail without that. *)
Theorem sched_invariant `{FsOps} boot a pd root name0 tty0 f0 f1 f2 s0 s :
  tasks boot = ∅ -> saved boot = ∅ -> a <> 0 -> task_init a pd root name0 tty0 f0 f1 f2 boot = Ok (tt, s0) -> rtc step s0 s ->
  exists l, wf s l /\ forall c, tasks s !! current_task s = Some c -> pid c <> 1 ->
    exists b u m, b ∈ l /\ tasks s !! b = Some u /\ pid u = ppid c /\
      forall par0, exit_loop (fuel s) (tasks s) (current_task s) (task_queue s) par0 = Ok (b, m).
Proof.
  intros Hb Hsv Ha Hi Hrun. assert (Hw : exists l, wf s0 l) by (exists [a]; by eapply init_wf). clear Hi.
  induction Hrun as [s|s s1 s2 Hst _ IH].
  - destruct Hw as (l & Hw). exists l. split; [done|]. intros c Hc Hp.
    destruct (exit_setup s l c Hw Hc Hp) as (pre & z & post & b & u & m & El & Hin & Hu & Hpu & Hloop & _).
    exists b, u, m. split_and!; [|done|done|auto]. rewrite El. rewrite elem_of_app, elem_of_cons in Hin.
    rewrite elem_of_app, !elem_of_cons. tauto.
  - apply IH. destruct Hw as (l & Hw). by eapply step_wf.
Qed.

Lemma sched_invariant_witness :
  exists l, wf child0 l /\ forall c, tasks child0 !! current_task child0 = Some c -> pid c <> 1 ->
    exists b u m, b ∈ l /\ tasks child0 !! b = Some u /\ pid u = ppid c /\
      forall par0, exit_loop (fuel child0) (tasks child0) (current_task child0) (task_queue child0) par0 = Ok (b, m).
Proof.
  apply (sched_invariant boot0 1000 8192 300 400 500 600 601 602 init0 child0);
    [reflexivity|reflexivity|done|vm_compute; reflexivity|].
  apply rtc_l with forked0.
  - apply (step_fork init0 2000 12288 [700; 701; 702] 2); [vm_compute; reflexivity|done|vm_compute; reflexivity|vm_compute; reflexivity].
  - apply rtc_once, (step_timer forked0 0). vm_compute. reflexivity.
Defined.



(** C7: No task starves while no signal is pending.  A task of the queue that
    is running or awakened, or sleeps with a time that lies before the next
    tick, runs after at most as many timer interrupts as there are tasks,
    whatever the state of the others, if these do nothing but run until they
    are interrupted. *)
Theorem timer_fair `{FsOps} par0 s l a :
  wf s l -> switch_locked s = false -> sigs_queue s = [] -> a ∈ l -> 0 <= timer_ticks s ->
  timer_ticks s + Z.of_nat (length l) < 2 ^ 32 - 1 -> runs (timer_ticks s + 1) (tasks s) a ->
  exists k s', (1 <= k <= length l)%nat /\ ticks_run par0 k s = Ok s' /\ current_task s' = a /\ wf s' l.
Proof.
  intros Hw Hlk Hsg Ha Ht0 Ht Haw. apply runs_awake in Haw.
  destruct (fair_run par0 s l a) as (k & s' & Hk & Hrun & Hc & Hw' & _); [done..|]. by exists k, s'.
Qed.

Lemma timer_fair_witness :
  exists k s', (1 <= k <= 2)%nat /\ ticks_run 0 k child0 = Ok s' /\ current_task s' = 2000 /\ wf s' [1000; 2000].
Proof.
  apply (timer_fair 0 child0 [1000; 2000] 2000 child0_wf); [reflexivity|reflexivity|set_solver|vm_compute; discriminate|vm_compute; reflexivity|].
  eexists. split; [vm_compute; reflexivity|]. left. reflexivity.
Defined.

(** C8: exit and wait.  A task other than the first that is no thread, has no
    open files and no exited children to reap calls [task_exit] while no signal
    is pending.  If its parent has no exited child yet and waits in [task_wait]
    or is ready, the parent runs again after at most as many further timer
    interrupts as there are tasks, when nothing else happens; [task_wait] then
    does not sleep and returns the process id of the child and its exit status,
    and the child is freed. *)
Theorem exit_then_wait `{FsOps} s l c st par0 b tb :
  wf s l -> tasks s !! current_task s = Some c -> pid c <> 1 -> wait_queue c = [] -> is_thread c = false ->
  Forall (fun f => f = 0) (files (img c)) -> sigs_queue s = [] ->
  tasks s !! b = Some tb -> pid tb = ppid c -> wait_queue tb = [] -> sleeps_on (wait_addr b) tb = true \/ ready tb = true ->
  0 <= timer_ticks s -> timer_ticks s + Z.of_nat (length l) < 2 ^ 32 - 2 ->
  exists s1 k s2 s3 l', task_exit par0 st s = Ok (tt, s1) /\ (k <= length l)%nat /\ ticks_run par0 k s1 = Ok s2 /\ current_task s2 = b /\
    task_wait_begin par0 s2 = Ok (Ready, s2) /\ task_wait_end s2 = Ok ((pid c, Some st), s3) /\
    tasks s3 !! current_task s = None /\ current_task s ∉ l' /\ wf s3 l'.
Proof. apply exit_wait_run. Qed.

(** The parent sleeps in [task_wait] when its child exits. *)
Definition waiting1 : sys := run (fork_int 2000 12288 [];; task_wait_begin 0;; mret tt) closed0.
Lemma waiting1_wf : wf waiting1 [1000; 2000].
Proof.
  assert (Hi : wf init0 [1000]).
  { apply (init_wf boot0 1000 8192 300 400 500 600 601 602); [reflexivity|reflexivity|discriminate|vm_compute; reflexivity]. }
  assert (Hc : wf closed0 [1000]).
  { apply (wf_upd init0 [1000] 1000 close_all closed0 tt Hi); [set_solver|done|vm_compute; reflexivity]. }
  assert (Hf : wf (run (fork_int 2000 12288 [];; mret tt) closed0) [1000; 2000]).
  { apply (fork_run closed0 [1000] 2000 12288 [] 2 _ Hc); vm_compute; (reflexivity || discriminate). }
  set (s0 := run _ closed0) in Hf. set (s1 := run (sleep_mark (wait_addr 1000)) (with_lock s0 true)).
  assert (Hs1 : wf s1 [1000; 2000]).
  { apply (wf_sleep_mark (with_lock s0 true) [1000; 2000] (wait_addr 1000) s1 tt); [by apply wf_lock|vm_compute; reflexivity]. }
  apply (wf_quiet s1 [1000; 2000] waiting1 Hs1); vm_compute; reflexivity.
Qed.

Lemma exit_then_wait_witness :
  exists s1 k s2 s3 l', task_exit 77 3 waiting1 = Ok (tt, s1) /\ (k <= 2)%nat /\ ticks_run 77 k s1 = Ok s2 /\ current_task s2 = 1000 /\
    task_wait_begin 77 s2 = Ok (Ready, s2) /\ task_wait_end s2 = Ok ((2, Some 3), s3) /\
    tasks s3 !! 2000 = None /\ 2000 ∉ l' /\ wf s3 l'.
Proof.
  assert (Hc : exists c, tasks waiting1 !! 2000 = Some c /\ pid c = 2 /\ ppid c = 1 /\ wait_queue c = [] /\ is_thread c = false /\
    files (img c) = replicate 6 0) by (eexists; vm_compute; split_and!; reflexivity).
  assert (Hb : exists b, tasks waiting1 !! 1000 = Some b /\ pid b = 1 /\ wait_queue b = [] /\ sleeps_on (wait_addr 1000) b = true)
    by (eexists; vm_compute; split_and!; reflexivity).
  destruct Hc as (c & Hc & Hp & Hpp & Hw & Ht & Hf). destruct Hb as (b & Hb & Hpb & Hwb & Hr).
  assert (Hcur : current_task waiting1 = 2000) by (vm_compute; reflexivity). rewrite <- Hcur in Hc. rewrite <- Hp, <- Hcur.
  apply (exit_then_wait waiting1 [1000; 2000] c 3 77 1000 b waiting1_wf);
    [exact Hc|rewrite Hp; discriminate|exact Hw|exact Ht| |vm_compute; reflexivity|exact Hb|congruence|exact Hwb|left; exact Hr
    |vm_compute; discriminate|vm_compute; reflexivity].
  rewrite Hf. repeat constructor.
Defined.

(** When the first task exits, the scheduler stays locked. *)
Lemma init_exit_locks `{FsOps} s l c par0 st :
  wf s l -> tasks s !! current_task s = Some c -> pid c = 1 -> sigs_queue s = [] ->
  exists s', task_exit par0 st s = Ok (tt, s') /\ switch_locked s' = true /\
    exists s2, timer_handler par0 s' = Ok (tt, s2) /\ current_task s2 = current_task s /\ switch_locked s2 = true.
Proof.
  intros [Hs Hcur] Hc Hp Hsg. exists (with_lock s true). destruct (wf_pids _ _ Hs _ _ Hc) as [Hc0 _]. split_and!; [|done|].
  - unfold task_exit, exit_with, exit_begin. rewrite (st_bind_eq _ _ s false (with_lock s true)); [done|].
    rewrite (st_bind_eq _ _ s false (with_lock s true)); [done|]. rewrite (st_bind_eq _ _ s tt (with_lock s true)) by done.
    rewrite (st_bind_eq _ _ _ (with_lock s true) (with_lock s true)) by done.
    rewrite (st_bind_eq _ _ _ _ _ (task_at_run (current_task s) (with_lock s true) c Hc0 Hc)). by rewrite Hp.
  - eexists. split; [|split].
    + apply timer_quiet; [done|reflexivity|done].
    + done.
    + done.
Qed.

(** A parent that exits with an exited child in its wait queue reads a list
    node after it is freed. *)
Definition orphaned0 : sys := with_current (run (task_exit 0 3) child1) 1000.
Lemma exit_with_zombie :
  task_exit 0 0 (run (fork_int 4000 16384 [];; mret tt) orphaned0) = Ok (tt, with_lock (run (fork_int 4000 16384 [];; mret tt) orphaned0) true) /\
  forall c, tasks child1 !! 2000 = Some c ->
    task_exit 0 0 (with_tasks child1 (<[2000 := set_waitq c [3000]]> (<[3000 := zombie (set_ppid (set_next c 0) 2) 1]> (tasks child1)))) = Err EUaf.
Proof.
  split; [vm_compute; reflexivity|]. intros c Hc. vm_compute in Hc. injection Hc as <-. vm_compute. reflexivity.
Qed.

(** An ignored signal is deleted from the queue and its node is read again. *)
Lemma ignored_signal_uaf :
  process_signals (task_switch 0) 0 (run (signal 2 SIG_IGN;; kill 2 2;; mret tt) child1) = Err EUaf.
Proof. vm_compute. reflexivity. Qed.

(** A task that forks in a signal handler: the return from the handler copies
    the old [next] field over the new one, and the child is in no queue. *)
Definition in_handler : sys := run (signal 10 0x8000000;; kill 1 10;; timer_handler 0) closed0.
Lemma handler_loses_child :
  let s := run (fork_int 2000 12288 [];; signal_handler_return 0) in_handler in
  (exists c, tasks s !! 2000 = Some c /\ pid c = 2 /\ state c = TASK_RUNNING) /\ get_task_by_pid 2 s = Ok (0, s) /\
  ~ (exists l, wf s l).
Proof.
  cbn zeta. set (s := run _ in_handler). assert (Hno : get_task_by_pid 2 s = Ok (0, s)) by (vm_compute; reflexivity).
  assert (Hc : exists c, tasks s !! 2000 = Some c /\ pid c = 2 /\ state c = TASK_RUNNING) by (eexists; vm_compute; split_and!; reflexivity).
  clearbody s. split_and!; [done|done|]. intros (l & [Hs _]). destruct Hc as (c & Hc & Hp & Hst).
  destruct (by_pid_run s l 2 Hs) as (p & E & [[-> Hn]|(Hl & t & Ht & _)]).
  - destruct (wf_all _ _ Hs _ _ Hc) as [Hl|(a & t & Ha & Ht & Hz)]; [by apply (Hn _ _ Hl Hc)|].
    destruct (wf_zombie _ _ Hs _ _ _ Ha Ht Hz) as (u & Hu & _ & Hex & _). congruence.
  - rewrite E in Hno. injection Hno as ->. by destruct (wf_pids _ _ Hs _ _ Ht).
Qed.

(** A switch that a task asks for is a timer interrupt: it counts a tick. *)
Lemma switch_counts_tick :
  timer_ticks (run (task_switch 0) child0) = timer_ticks child0 + 1 /\
  timer_ticks (run (sleep_on 0 4) child0) = timer_ticks child0 + 1.
Proof. split; vm_compute; reflexivity. Qed.

(** At the tick [sleep_end_tick] itself a task goes on sleeping. *)
Lemma sleeps_one_tick_more t :
  state t = TASK_SLEEPING -> wake_check (sleep_end_tick t) t = t.
Proof. intros _. unfold wake_check. by rewrite Z.ltb_irrefl, andb_false_r. Qed.
End SchedRun.
