(* ===== verification/Malloc.v ===== *)
(** * The heap (src/lib/malloc.c, _sbrk of src/mem.c)

    The allocator on the bytes of its heap: block headers are read and written
    in memory, an access outside of the pages of the heap is a fault. *)
From S2P Require Import Prelude.

Module Malloc.

Definition PAGE_SIZE : Z := 0x1000.
Definition MAGIC_HEAD : Z := 0xDEADC0DE.
Definition MAGIC_END : Z := 0xDEADBABA.
(** [sizeof(block_meta_t)]: the fields are at 0, 4, 8 (a byte), 12 and 16. *)
Definition META : Z := 20.

(** ** Memory *)
Fixpoint load (m : gmap Z Z) (a : Z) (n : nat) : list Z :=
  match n with O => [] | S n' => m !!! a :: load m (a + 1) n' end.
Fixpoint store (m : gmap Z Z) (a : Z) (bs : list Z) : gmap Z Z :=
  match bs with [] => m | b :: bs' => store (<[a := b]> m) (a + 1) bs' end.

(** ** The break *)
Record heap_t := HeapT { start_addr : Z; end_addr : Z; max_addr : Z }.

Section Sbrk.
(** [frame_alloc] and [map] for the page at an address: the error of a failed
    assertion when there is no frame. *)
Variable page : Z -> res unit.

Fixpoint grow (iterations : nat) (h : heap_t) : res (bool * heap_t) :=
  match iterations with
  | O => Ok (true, h)
  | S n =>
      page (end_addr h);;
      let h := HeapT (start_addr h) (end_addr h +u PAGE_SIZE) (max_addr h) in
      if max_addr h <=? end_addr h then Ok (false, h) else grow n h
  end.

Fixpoint shrink (iterations : nat) (h : heap_t) : bool * heap_t :=
  match iterations with
  | O => (true, h)
  | S n =>
      let h := HeapT (start_addr h) (end_addr h -u PAGE_SIZE) (max_addr h) in
      if end_addr h <? start_addr h then (false, h) else shrink n h
  end.

Definition pages (increment : Z) : nat :=
  Z.to_nat (Z.quot increment PAGE_SIZE + (if Z.rem increment PAGE_SIZE =? 0 then 0 else 1)).

Definition _sbrk (increment : Z) (h : heap_t) : res (Z * heap_t) :=
  let ret := end_addr h in
  if increment =? 0 then Ok (ret, h)
  else
    '(ok, h) ← (if 0 <? increment then grow (pages increment) h
                else Ok (shrink (pages (s32 (- increment))) h));
    Ok (if (ok : bool) then ret else 2 ^ 32 - 1, h).

(** ** Headers *)
Record heap := Heap { first_block : Z; mem : gmap Z Z; sys : heap_t }.

Definition sbrk (increment : Z) : st heap Z := fun h =>
  '(r, b) ← _sbrk increment (sys h); Ok (r, Heap (first_block h) (mem h) b).

Definition valid (h : heap) (a n : Z) : bool :=
  ((start_addr (sys h) <=? a) && (a + n <=? end_addr (sys h)))%bool.

Definition ld (a : Z) (n : nat) : st heap (list Z) := fun h =>
  if valid h a (Z.of_nat n) then Ok (load (mem h) a n, h) else Err EOob.
Definition sto (a : Z) (bs : list Z) : st heap unit := fun h =>
  if valid h a (Z.of_nat (length bs))
  then Ok (tt, Heap (first_block h) (store (mem h) a bs) (sys h)) else Err EOob.
Definition ld32 (a : Z) : st heap Z := b ← ld a 4; mret (le_combine b).
Definition sto32 (a v : Z) : st heap unit := sto a (le_split 4 v).

Definition magic_head (p : Z) : st heap Z := ld32 p.
Definition size (p : Z) : st heap Z := ld32 (p +u 4).
Definition free_ (p : Z) : st heap bool := b ← ld (p +u 8) 1; mret (negb (le_combine b =? 0)).
Definition next (p : Z) : st heap Z := ld32 (p +u 12).
Definition magic_end (p : Z) : st heap Z := ld32 (p +u 16).
Definition set_magic_head (p : Z) : st heap unit := sto32 p MAGIC_HEAD.
Definition set_size (p v : Z) : st heap unit := sto32 (p +u 4) v.
Definition set_free (p : Z) (b : bool) : st heap unit := sto (p +u 8) [if b then 1 else 0].
Definition set_next (p v : Z) : st heap unit := sto32 (p +u 12) v.
Definition set_magic_end (p : Z) : st heap unit := sto32 (p +u 16) MAGIC_END.
Definition set_first (p : Z) : st heap unit := modify (fun h => Heap p (mem h) (sys h)).

(** ** Operations *)
Definition init_first_block : st heap Z :=
  p ← sbrk PAGE_SIZE;
  if p =? 2 ^ 32 - 1 then mret 0
  else
    set_first p;; set_free p true;; set_magic_head p;; set_magic_end p;;
    set_size p (PAGE_SIZE - META);; set_next p 0;; mret p.

(** Lines 52-53. *)
Definition align4 (size : Z) : Z := if size mod 4 =? 0 then size else (size / 4 +u 1) *u 4.

(** Lines 75-91: the block [p] is cut after [size] bytes. *)
Definition split_block (p sz : Z) : st heap Z :=
  s ← size p;
  kassert (sz +u META <=? s);;
  let next_size := s - sz -u META in
  n ← next p;
  set_size p sz;; set_free p false;; set_next p (p + META +u sz);;
  q ← next p; set_free q true;;
  q ← next p; set_size q next_size;;
  q ← next p; set_magic_head q;;
  q ← next p; set_magic_end q;;
  q ← next p; set_next q n;;
  mret (p +u META).

Fixpoint malloc_loop (fuel : nat) (sz p : Z) : st heap Z :=
  match fuel with
  | O => fail EFuel
  | S f =>
      if p =? 0 then mret 0
      else
        fr ← free_ p;
        if negb fr then n ← next p; malloc_loop f sz n
        else
          n ← next p; s ← size p;
          if ((n =? 0) && (s <? sz +u META))%bool then
            sbrk PAGE_SIZE;;
            s ← size p; set_size p (s +u PAGE_SIZE);;
            malloc_loop f sz p
          else if sz +u META <=? s then split_block p sz
          else malloc_loop f sz n
  end.

(** A heap of this many bytes has at most so many blocks. *)
Definition block_fuel (h : heap) : nat := Z.to_nat ((end_addr (sys h) - start_addr (sys h)) / META + 2).

Definition malloc (sz : Z) : st heap Z :=
  let sz := align4 sz in
  h ← get;
  (if first_block h =? 0 then init_first_block else mret 0);;
  h ← get;
  m ← magic_head (first_block h); kassert (m =? MAGIC_HEAD);;
  malloc_loop (block_fuel h + Z.to_nat ((sz +u META) / PAGE_SIZE) + 1) sz (first_block h).

(** [while (p->next) p = p->next;] *)
Fixpoint last_block (fuel : nat) (p : Z) : st heap Z :=
  match fuel with
  | O => fail EFuel
  | S f => n ← next p; if n =? 0 then mret p else last_block f n
  end.

Definition heap_contract : st heap unit :=
  h ← get;
  p ← last_block (block_fuel h) (first_block h);
  s ← size p;
  if PAGE_SIZE <? s then
    e ← sbrk 0;
    kassert ((p +u META) +u s =? e);;
    let new_end := Z.land (p +u META) 0xFFFFF000 +u PAGE_SIZE * 2 in
    set_size p (new_end -u (p +u META));;
    sbrk (s32 (new_end - e));;
    mret tt
  else mret tt.

(** Lines 139-142: [p] takes in the next block if it is free. *)
Definition merge_next (p : Z) : st heap unit :=
  n ← next p;
  nf ← (if n =? 0 then mret false else free_ n);
  if (nf : bool) then
    s ← size p; ns ← size n; set_size p (s +u (ns +u META));;
    nn ← next n; set_next p nn
  else mret tt.

(** Lines 143-146: the previous block, 0 for none, takes in [p] if it is free. *)
Definition merge_prev (prev p : Z) : st heap unit :=
  pf ← (if prev =? 0 then mret false else free_ prev);
  if (pf : bool) then
    s ← size prev; s' ← size p; set_size prev (s +u (s' +u META));;
    nn ← next p; set_next prev nn
  else mret tt.

Definition release (prev p : Z) : st heap unit :=
  m ← magic_head p; kassert (m =? MAGIC_HEAD);;
  m ← magic_end p; kassert (m =? MAGIC_END);;
  set_free p true;;
  merge_next p;;
  merge_prev prev p.

Fixpoint free_loop (fuel : nat) (ptr prev p : Z) : st heap unit :=
  match fuel with
  | O => fail EFuel
  | S f =>
      if p +u META =? ptr then release prev p
      else
        n ← next p;
        (if n =? 0 then
           fr ← free_ p;
           if (fr : bool) then
             m ← magic_head p; e ← magic_end p; s ← size p;
             if ((m =? MAGIC_HEAD) && (e =? MAGIC_END) && (0 <? s))%bool then fail EPanic else mret tt
           else mret tt
         else mret tt);;
        free_loop f ptr p n
  end.

Definition free (ptr : Z) : st heap unit :=
  if ptr =? 0 then mret tt
  else
    h ← get;
    free_loop (block_fuel h) ptr 0 (first_block h);;
    heap_contract.

Definition calloc (nmemb sz : Z) : st heap Z :=
  let nbytes := nmemb *u sz in
  p ← malloc nbytes;
  (if nbytes =? 0 then mret tt else sto p (replicate (Z.to_nat nbytes) 0));;
  mret p.

(** [memcpy] of [n] bytes. *)
Definition copy (dst src : Z) (n : nat) : st heap unit :=
  match n with O => mret tt | _ => bs ← ld src n; sto dst bs end.

Definition realloc (ptr sz : Z) : st heap Z :=
  if ptr =? 0 then malloc sz
  else
    (if sz =? 0 then free ptr else mret tt);;
    let p := ptr -u META in
    m ← magic_head p; kassert (m =? MAGIC_HEAD);;
    m ← magic_end p; kassert (m =? MAGIC_END);;
    n ← malloc sz;
    s ← size p;
    copy n ptr (Z.to_nat (if sz <? s then sz else s));;
    free ptr;;
    mret n.

(** ** Lemmas: memory *)
Lemma length_load m a n : length (load m a n) = n.
Proof. revert a. induction n; intros a; cbn; auto. Qed.

Lemma store_other m a bs x : (x < a \/ a + Z.of_nat (length bs) <= x) -> store m a bs !!! x = m !!! x.
Proof.
  revert m a. induction bs as [|b bs IH]; intros m a Hx; cbn [store length] in *; [done|].
  rewrite IH by lia. apply lookup_total_insert_ne. lia.
Qed.

Lemma load_ext m m' a n :
  (forall x, a <= x < a + Z.of_nat n -> m' !!! x = m !!! x) -> load m' a n = load m a n.
Proof.
  revert a. induction n as [|n IH]; intros a H; cbn [load]; [done|]. rewrite H by lia. f_equal. apply IH.
  intros x Hx. apply H. lia.
Qed.

Lemma load_store_ne m a bs x n :
  (x + Z.of_nat n <= a \/ a + Z.of_nat (length bs) <= x) -> load (store m a bs) x n = load m x n.
Proof. intros H. apply load_ext. intros y Hy. apply store_other. lia. Qed.

Lemma load_store m a bs : load (store m a bs) a (length bs) = bs.
Proof.
  revert m a. induction bs as [|b bs IH]; intros m a; cbn [store load length]; [done|]. f_equal; [|apply IH].
  rewrite store_other by lia. apply lookup_total_insert_eq.
Qed.

Definition word (m : gmap Z Z) (a : Z) : Z := le_combine (load m a 4).
Definition put32 (m : gmap Z Z) (a v : Z) : gmap Z Z := store m a (le_split 4 v).

Lemma word_put m a v : 0 <= v < 2 ^ 32 -> word (put32 m a v) a = v.
Proof.
  intros Hv. unfold word, put32. rewrite <- (length_le_split 4 v) at 2. rewrite load_store.
  by apply (le_combine_split 4).
Qed.
Lemma word_put_ne m a v x : x + 4 <= a \/ a + 4 <= x -> word (put32 m a v) x = word m x.
Proof. intros H. unfold word, put32. rewrite load_store_ne; [done|]. rewrite length_le_split. lia. Qed.
Lemma word_insert_ne m a b x : x + 4 <= a \/ a + 1 <= x -> word (<[a := b]> m) x = word m x.
Proof. intros H. unfold word. f_equal. apply load_ext. intros y Hy. apply lookup_total_insert_ne. lia. Qed.
Lemma byte_put_ne m a v x : x < a \/ a + 4 <= x -> put32 m a v !!! x = m !!! x.
Proof. intros H. apply store_other. rewrite length_le_split. lia. Qed.

(** [mem_simp] reads memory through writes. *)
Ltac mem_simp :=
  repeat first
    [ rewrite word_put by lia | rewrite word_put_ne by lia | rewrite word_insert_ne by lia
    | rewrite byte_put_ne by lia | rewrite lookup_total_insert_eq | rewrite lookup_total_insert_ne by lia ].

(** *** Headers *)
Definition hdr_ok (s : heap_t) (p : Z) : Prop :=
  0 < start_addr s <= p /\ p + META <= end_addr s /\ end_addr s < 2 ^ 32.

Definition set_mem (h : heap) (m : gmap Z Z) : heap := Heap (first_block h) m (sys h).

Section Fields.
Context {B : Type} (h : heap) (p : Z) (Hp : hdr_ok (sys h) p).

Lemma ld_bind a n (f : list Z -> st heap B) :
  p <= a -> a + Z.of_nat n <= p + META -> (ld a n ≫= f) h = f (load (mem h) a n) h.
Proof using Hp.
  intros H1 H2. apply st_bind_eq. unfold ld, valid. unfold hdr_ok in Hp.
  by replace ((start_addr (sys h) <=? a) && (a + Z.of_nat n <=? end_addr (sys h)))%bool with true by lia.
Qed.
Lemma sto_bind a bs (f : unit -> st heap B) :
  p <= a -> a + Z.of_nat (length bs) <= p + META -> (sto a bs ≫= f) h = f tt (set_mem h (store (mem h) a bs)).
Proof using Hp.
  intros H1 H2. apply st_bind_eq. unfold sto, valid. unfold hdr_ok in Hp.
  by replace ((start_addr (sys h) <=? a) && (a + Z.of_nat (length bs) <=? end_addr (sys h)))%bool with true by lia.
Qed.
Lemma field k : 0 <= k < META -> p +u k = p + k.
Proof using Hp. intros Hk. unfold hdr_ok, META in *. apply u32_small. lia. Qed.

Lemma st_assoc {S A A' C} (m : st S A) (f : A -> st S A') (g : A' -> st S C) s :
  ((m ≫= f) ≫= g) s = (m ≫= (fun a => f a ≫= g)) s.
Proof using. unfold mbind, st_bind. by destruct (m s) as [[a s']|]. Qed.
Lemma ret_bind {S A C} (a : A) (g : A -> st S C) s : (mret a ≫= g) s = g a s.
Proof using. done. Qed.

Lemma ld32_bind a (f : Z -> st heap B) :
  p <= a -> a + 4 <= p + META -> (ld32 a ≫= f) h = f (word (mem h) a) h.
Proof using Hp. intros H1 H2. unfold ld32. rewrite st_assoc. rewrite ld_bind by lia. done. Qed.
Lemma sto32_bind a v (f : unit -> st heap B) :
  p <= a -> a + 4 <= p + META -> (sto32 a v ≫= f) h = f tt (set_mem h (put32 (mem h) a v)).
Proof using Hp. intros H1 H2. unfold sto32. apply sto_bind; rewrite ?length_le_split; lia. Qed.

Lemma magic_head_bind (f : Z -> st heap B) : (magic_head p ≫= f) h = f (word (mem h) p) h.
Proof using Hp. unfold magic_head. apply ld32_bind; unfold META; lia. Qed.
Lemma size_bind (f : Z -> st heap B) : (size p ≫= f) h = f (word (mem h) (p + 4)) h.
Proof using Hp. unfold size. rewrite field by (unfold META; lia). apply ld32_bind; unfold META; lia. Qed.
Lemma next_bind (f : Z -> st heap B) : (next p ≫= f) h = f (word (mem h) (p + 12)) h.
Proof using Hp. unfold next. rewrite field by (unfold META; lia). apply ld32_bind; unfold META; lia. Qed.
Lemma magic_end_bind (f : Z -> st heap B) : (magic_end p ≫= f) h = f (word (mem h) (p + 16)) h.
Proof using Hp. unfold magic_end. rewrite field by (unfold META; lia). apply ld32_bind; unfold META; lia. Qed.
Lemma free_bind (f : bool -> st heap B) : (free_ p ≫= f) h = f (negb (mem h !!! (p + 8) =? 0)) h.
Proof using Hp.
  unfold free_. rewrite field by (unfold META; lia). rewrite st_assoc. rewrite ld_bind by (unfold META; lia).
  cbn [load le_combine]. by rewrite Z.mul_0_r, Z.add_0_r.
Qed.
Lemma set_magic_head_bind (f : unit -> st heap B) :
  (set_magic_head p ≫= f) h = f tt (set_mem h (put32 (mem h) p MAGIC_HEAD)).
Proof using Hp. unfold set_magic_head. apply sto32_bind; unfold META; lia. Qed.
Lemma set_size_bind v (f : unit -> st heap B) : (set_size p v ≫= f) h = f tt (set_mem h (put32 (mem h) (p + 4) v)).
Proof using Hp. unfold set_size. rewrite field by (unfold META; lia). apply sto32_bind; unfold META; lia. Qed.
Lemma set_next_bind v (f : unit -> st heap B) : (set_next p v ≫= f) h = f tt (set_mem h (put32 (mem h) (p + 12) v)).
Proof using Hp. unfold set_next. rewrite field by (unfold META; lia). apply sto32_bind; unfold META; lia. Qed.
Lemma set_magic_end_bind (f : unit -> st heap B) :
  (set_magic_end p ≫= f) h = f tt (set_mem h (put32 (mem h) (p + 16) MAGIC_END)).
Proof using Hp. unfold set_magic_end. rewrite field by (unfold META; lia). apply sto32_bind; unfold META; lia. Qed.
Lemma set_free_bind b (f : unit -> st heap B) :
  (set_free p b ≫= f) h = f tt (set_mem h (<[p + 8 := if b then 1 else 0]> (mem h))).
Proof using Hp.
  unfold set_free. rewrite field by (unfold META; lia). rewrite sto_bind; [done|..]; cbn; unfold META; lia.
Qed.
End Fields.

Lemma bind_ret {S A} (m : st S A) s : m s = (m ≫= mret) s.
Proof using. unfold mbind, st_bind. by destruct (m s) as [[]|]. Qed.
Lemma kassert_bind {S A} (b : bool) (f : unit -> st S A) s : b = true -> (kassert b ≫= f) s = f tt s.
Proof using. by intros ->. Qed.
Lemma get_bind {S A} (f : S -> st S A) s : (get ≫= f) s = f s s.
Proof using. done. Qed.

(** [exec] runs the next access to a header. *)
Ltac exec :=
  first
    [ rewrite magic_head_bind by done | rewrite size_bind by done | rewrite next_bind by done
    | rewrite magic_end_bind by done | rewrite free_bind by done
    | rewrite set_magic_head_bind by done | rewrite set_size_bind by done | rewrite set_next_bind by done
    | rewrite set_magic_end_bind by done | rewrite set_free_bind by done
    | rewrite ret_bind | rewrite get_bind | rewrite kassert_bind by done ];
  cbn [mem set_mem sys first_block].

(** The header of a block. *)
Record blk (m : gmap Z Z) (p sz : Z) (fr : bool) (nx : Z) : Prop := Blk {
  blk_head : word m p = MAGIC_HEAD;
  blk_size : word m (p + 4) = sz;
  blk_free : m !!! (p + 8) = if fr then 1 else 0;
  blk_next : word m (p + 12) = nx;
  blk_end : word m (p + 16) = MAGIC_END
}.

Lemma blk_ext m m' p sz fr nx :
  (forall x, p <= x < p + META -> m' !!! x = m !!! x) -> blk m p sz fr nx -> blk m' p sz fr nx.
Proof using.
  unfold META. intros H [H1 H2 H3 H4 H5].
  assert (Hw : forall a, p <= a -> a + 4 <= p + 20 -> word m' a = word m a).
  { intros a Ha1 Ha2. unfold word. f_equal. apply load_ext. intros x Hx. apply H. lia. }
  constructor; rewrite ?Hw by lia; try done. by rewrite H by lia.
Qed.

(** Only the bytes of two headers change. *)
Definition out_of (p x : Z) : Prop := x < p \/ p + META <= x.

Lemma split_block_run h p sz s n :
  hdr_ok (sys h) p -> hdr_ok (sys h) (p + META + sz) -> blk (mem h) p s true n ->
  0 <= sz -> sz + META <= s < 2 ^ 32 -> 0 <= n < 2 ^ 32 ->
  exists m', split_block p sz h = Ok (p + META, set_mem h m') /\
    blk m' p sz false (p + META + sz) /\ blk m' (p + META + sz) (s - sz - META) true n /\
    forall x, out_of p x -> out_of (p + META + sz) x -> m' !!! x = mem h !!! x.
Proof using.
  intros Hp Hq [H1 H2 H3 H4 H5] Hsz Hs Hn.
  assert (Hr : 0 < p /\ p + META + sz + META < 2 ^ 32) by (unfold hdr_ok in *; lia).
  unfold split_block. exec. rewrite H2. rewrite (u32_small (sz + META)) by (unfold META in *; lia).
  rewrite kassert_bind by lia. rewrite (u32_small (p + META)) by (unfold META in *; lia).
  rewrite (u32_small (p + META + sz)) by (unfold META in *; lia).
  replace (s - sz -u META) with (s - sz - META) by (unfold META in *; rewrite u32_small; lia).
  set (q := p + META + sz) in *. cbn zeta. exec. rewrite H4. do 4 exec.
  assert (Hm : q = p + 20 + sz) by (unfold q, META; lia). unfold META in *.
  assert (0 <= q < 2 ^ 32) by lia. assert (0 <= s - sz - 20 < 2 ^ 32) by lia.
  repeat first [progress mem_simp | exec].
  eexists. split; [unfold mret, st_ret; reflexivity|]. unfold MAGIC_HEAD, MAGIC_END in *.
  split; [|split].
  - constructor; mem_simp; try done; lia.
  - constructor; mem_simp; try done; lia.
  - unfold out_of, META. intros x Hx1 Hx2. mem_simp. done.
Qed.

(** *** The list of blocks *)
Notation layout := (list (Z * bool)).
Definition nxt (p sz : Z) (l : layout) : Z := match l with [] => 0 | _ => p + META + sz end.
Fixpoint chain (m : gmap Z Z) (p : Z) (l : layout) : Prop :=
  match l with
  | [] => True
  | (sz, fr) :: l' => blk m p sz fr (nxt p sz l') /\ chain m (p + META + sz) l'
  end.
Fixpoint total (l : layout) : Z :=
  match l with [] => 0 | (sz, _) :: l' => META + sz + total l' end.
(** The address and the size of the blocks in use. *)
Fixpoint alloc (p : Z) (l : layout) : list (Z * Z) :=
  match l with
  | [] => []
  | (sz, fr) :: l' => (if fr then [] else [(p + META, sz)]) ++ alloc (p + META + sz) l'
  end.
Fixpoint last_free (l : layout) : Prop :=
  match l with [] => False | [(_, fr)] => fr = true | _ :: l' => last_free l' end.
Definition sizes_ok (l : layout) : Prop := Forall (fun b => 0 <= b.1 /\ b.1 mod 4 = 0) l.
Definition in_data (a : list (Z * Z)) (x : Z) : Prop := exists q s, (q, s) ∈ a /\ q <= x < q + s.

Lemma total_ge l : sizes_ok l -> META * Z.of_nat (length l) <= total l.
Proof using. induction 1 as [|[sz fr] l [Hs _] _ IH]; cbn [total length fst] in *; unfold META in *; lia. Qed.

Lemma chain_ext m m' p l :
  sizes_ok l -> (forall x, p <= x < p + total l -> m' !!! x = m !!! x) -> chain m p l -> chain m' p l.
Proof using.
  intros Hs. revert p. induction Hs as [|[sz fr] l [Hsz _] Hs IH]; intros p Hm; cbn [chain total fst] in *; [done|].
  pose proof (total_ge l Hs) as Ht. unfold META in *. intros [Hb Hc]. split.
  - eapply blk_ext; [|done]. unfold META. intros x Hx. apply Hm. lia.
  - apply IH; [|done]. intros x Hx. apply Hm. lia.
Qed.

Lemma alloc_range p l q s :
  sizes_ok l -> (q, s) ∈ alloc p l -> p + META <= q /\ 0 <= s /\ q + s <= p + total l.
Proof using.
  intros Hs. revert p. induction Hs as [|[sz fr] l [Hsz _] Hs IH]; intros p Hq; cbn [alloc total fst] in *.
  - by apply elem_of_nil in Hq.
  - pose proof (total_ge l Hs) as Ht. unfold META in *. apply elem_of_app in Hq as [Hq|Hq].
    + destruct fr; [by apply elem_of_nil in Hq|]. apply list_elem_of_singleton in Hq. injection Hq as -> ->. lia.
    + apply IH in Hq. lia.
Qed.

Definition grown (s : heap_t) (k : nat) : heap_t :=
  HeapT (start_addr s) (end_addr s + Z.of_nat k * PAGE_SIZE) (max_addr s).
(** [k] more pages can be had. *)
Definition room (s : heap_t) (k : nat) : Prop :=
  (forall i, (i < k)%nat -> page (end_addr s + Z.of_nat i * PAGE_SIZE) = Ok tt) /\
  0 < start_addr s /\ end_addr s + Z.of_nat k * PAGE_SIZE < max_addr s /\ max_addr s < 2 ^ 32 /\
  max_addr s - start_addr s < 2 ^ 31.

Lemma room_next s k : room s (S k) -> room (grown s 1) k.
Proof using.
  intros (Hp & H0 & He & Hm & Hd). split; [|cbn; lia]. intros i Hi. cbn [grown end_addr].
  rewrite <- (Hp (S i)) by lia. f_equal. lia.
Qed.

Lemma sbrk_page_bind {B} h k (f : Z -> st heap B) :
  room (sys h) (S k) -> 0 <= end_addr (sys h) ->
  (sbrk PAGE_SIZE ≫= f) h = f (end_addr (sys h)) (Heap (first_block h) (mem h) (grown (sys h) 1)).
Proof using.
  intros (Hp & H0 & He & Hm & _) H1. apply st_bind_eq. unfold sbrk, _sbrk. change (pages PAGE_SIZE) with 1%nat.
  change (PAGE_SIZE =? 0) with false. change (0 <? PAGE_SIZE) with true. cbn [grow].
  specialize (Hp 0%nat ltac:(lia)). rewrite Z.add_0_r in Hp. rewrite Hp. unfold PAGE_SIZE in *. cbn [mbind res_bind].
  rewrite u32_small by lia. cbn [max_addr end_addr start_addr].
  replace (max_addr (sys h) <=? end_addr (sys h) + 4096) with false by lia. cbn [mbind res_bind]. done.
Qed.

(** What an allocation does to the blocks from [p] on. *)
Record mallocd (h : heap) (p : Z) (l : layout) (sz q : Z) (k : nat) (h' : heap) (l' : layout) : Prop := {
  md_chain : chain (mem h') p l';
  md_end : p + total l' = end_addr (sys h');
  md_sizes : sizes_ok l';
  md_last : last_free l';
  md_alloc : alloc p l' ≡ₚ (q, sz) :: alloc p l;
  md_sys : sys h' = grown (sys h) k;
  md_first : first_block h' = first_block h;
  md_data : forall x, x < p \/ in_data (alloc p l) x -> mem h' !!! x = mem h !!! x
}.

Lemma grown_0 s : grown s 0 = s.
Proof using. destruct s. unfold grown. cbn. f_equal. lia. Qed.
Lemma grown_grown s k : grown (grown s 1) k = grown s (S k).
Proof using. unfold grown. cbn [start_addr end_addr max_addr]. f_equal. lia. Qed.
Lemma set_mem_sys h m : sys (set_mem h m) = sys h.
Proof using. done. Qed.

(** A free block that is large enough, with the blocks [l] behind it. *)
Lemma split_mallocd h p sz s l :
  hdr_ok (sys h) p -> p + META + s + total l = end_addr (sys h) -> chain (mem h) p ((s, true) :: l) ->
  sizes_ok ((s, true) :: l) -> last_free ((s, true) :: l) -> 0 <= sz -> sz mod 4 = 0 -> sz + META <= s ->
  exists h', split_block p sz h = Ok (p + META, h') /\
    mallocd h p ((s, true) :: l) sz (p + META) 0 h' ((sz, false) :: (s - sz - META, true) :: l).
Proof using.
  intros Hp He [Hb Hc] Hs Hl Hsz H4 Hfit. apply Forall_cons in Hs as [[Hs0 Hs4] Hsl]. cbn [fst] in *.
  pose proof (total_ge l Hsl) as Ht.
  assert (Hq : hdr_ok (sys h) (p + META + sz)) by (unfold hdr_ok, META in *; lia).
  destruct (split_block_run h p sz s (nxt p s l)) as (m' & Hrun & Hb1 & Hb2 & Hm'); try done.
  { unfold hdr_ok, META in *. lia. }
  { unfold nxt. destruct l; unfold hdr_ok, META in *; [lia|]. cbn [length] in Ht. lia. }
  exists (set_mem h m'). split; [done|].
  assert (Hn : p + META + sz + META + (s - sz - META) = p + META + s) by lia.
  assert (Hm : forall x, p + META + s <= x -> m' !!! x = mem h !!! x).
  { intros x Hx. apply Hm'; unfold out_of, META in *; lia. }
  split.
  - cbn [chain mem set_mem]. split; [done|]. rewrite Hn. split.
    + replace (nxt (p + META + sz) (s - sz - META) l) with (nxt p s l); [done|].
      unfold nxt. destruct l; [done|]. lia.
    + eapply chain_ext; [done| |done]. intros x Hx. apply Hm. lia.
  - cbn [total set_mem sys]. unfold META in *. lia.
  - apply Forall_cons; split; [done|]. apply Forall_cons; split; [|done]. unfold META in *. cbn [fst]. split; [lia|].
    apply Z.mod_divide in Hs4 as [a Ha], H4 as [b Hb4]; [|lia..].
    replace (s - sz - 20) with ((a - b - 5) * 4) by lia. apply Z.mod_mul. lia.
  - cbn [last_free] in Hl |- *. destruct l; done.
  - cbn [alloc]. by rewrite Hn.
  - by rewrite grown_0.
  - done.
  - cbn [alloc app mem set_mem]. intros x [Hx|(q & t & Hq' & Hx)].
    + apply Hm'; unfold out_of, META in *; lia.
    + apply alloc_range in Hq' as (? & ? & ?); [|done]. apply Hm. unfold META in *. lia.
Qed.

Lemma negb_1 (fr : bool) : negb ((if fr then 1 else 0) =? 0) = fr.
Proof using. by destruct fr. Qed.

(** The last block grows page by page until it is large enough. *)
Lemma malloc_last k h p sz s f :
  hdr_ok (sys h) p -> p + META + s = end_addr (sys h) -> blk (mem h) p s true 0 ->
  0 <= s -> s mod 4 = 0 -> 0 <= sz -> sz mod 4 = 0 -> sz + META <= s + Z.of_nat k * PAGE_SIZE ->
  room (sys h) k -> (k < f)%nat ->
  exists k' h' l', (k' <= k)%nat /\ malloc_loop f sz p h = Ok (p + META, h') /\
    mallocd h p [(s, true)] sz (p + META) k' h' l'.
Proof using.
  revert h s f. induction k as [|k IH]; intros h s f Hp He Hb Hs0 Hs4 Hsz H4 Hfit Hr Hf;
    (destruct f as [|f]; [lia|]); cbn [malloc_loop];
    pose proof Hb as [H1 H2 H3 H5 H6]; pose proof Hp as (Hp0 & Hp1 & Hp2);
    (replace (p =? 0) with false by lia); pose proof Hr as (Hr1 & Hr2 & Hr3 & Hr4 & Hr5);
    assert (Hch : chain (mem h) p [(s, true)]) by (split; done);
    assert (Hsz1 : sizes_ok [(s, true)]) by (apply Forall_singleton; done);
    exec; rewrite H3; cbn [Z.eqb negb]; exec; rewrite H5; exec; rewrite H2;
    rewrite (u32_small (sz + META)) by (unfold META, PAGE_SIZE in *; lia); cbn [Z.eqb andb].
  2: destruct (Z.ltb_spec s (sz + META)) as [Hlt|Hge].
  1,3: destruct (split_mallocd h p sz s []) as (h' & Hrun & Hmd); try done;
    try (cbn [total]; lia); try (unfold PAGE_SIZE in *; lia);
    exists 0%nat, h', [(sz, false); (s - sz - META, true)]; (split; [lia|]); (split; [|done]);
    replace (s <? sz + META) with false by (unfold PAGE_SIZE in *; lia);
    replace (sz + META <=? s) with true by (unfold PAGE_SIZE in *; lia); done.
  erewrite sbrk_page_bind by (done || (unfold META in *; lia)). set (h1 := Heap (first_block h) (mem h) (grown (sys h) 1)).
  assert (Hp' : hdr_ok (sys h1) p) by (unfold hdr_ok, h1, grown, PAGE_SIZE in *; cbn; lia).
  exec. cbn [h1 mem]. rewrite H2. exec.
  rewrite u32_small by (unfold PAGE_SIZE, META in *; lia).
  set (h2 := set_mem h1 (put32 (mem h) (p + 4) (s + PAGE_SIZE))).
  destruct (IH h2 (s + PAGE_SIZE) f) as (k' & h' & l' & Hk' & Hrun & Hmd); try done; unfold PAGE_SIZE, META in *.
  - cbn. unfold PAGE_SIZE. lia.
  - unfold h2. cbn [mem set_mem h1]. constructor; unfold MAGIC_HEAD, MAGIC_END in *; mem_simp; done.
  - lia.
  - rewrite <- Z.add_mod_idemp_l, Hs4 by lia. done.
  - lia.
  - by apply room_next.
  - lia.
  - exists (S k'), h', l'. split; [lia|]. split; [done|]. destruct Hmd as [M1 M2 M3 M4 M5 M6 M7 M8].
    split; try done.
    + rewrite M6. cbn [h2 h1 set_mem sys]. by rewrite grown_grown.
    + intros x [Hx|(q & t & Hq & _)]; [|cbn in Hq; by apply elem_of_nil in Hq].
      rewrite M8 by (by left). cbn [h2 set_mem mem]. by mem_simp.
Qed.

(** The search from [p] on. *)
Lemma malloc_loop_run l k h p sz f :
  hdr_ok (sys h) p -> p + total l = end_addr (sys h) -> chain (mem h) p l -> sizes_ok l -> last_free l ->
  0 <= sz -> sz mod 4 = 0 -> sz + META <= Z.of_nat k * PAGE_SIZE -> room (sys h) k -> (length l + k <= f)%nat ->
  exists q k' h' l', (k' <= k)%nat /\ malloc_loop f sz p h = Ok (q, h') /\ mallocd h p l sz q k' h' l'.
Proof using.
  revert h p f. induction l as [|[s fr] l IH]; intros h p f Hp He Hc Hs Hl Hsz H4 Hfit Hr Hf; [done|].
  pose proof Hc as [Hb Hc']. apply Forall_cons in Hs as [[Hs0 Hs4] Hsl]. cbn [fst] in *.
  destruct l as [|b l].
  - cbn in Hl. subst fr. destruct (malloc_last k h p sz s f) as (k' & h' & l' & Hk & Hrun & Hmd); try done.
    1-2: cbn [total length] in *; lia.
    by exists (p + META), k', h', l'.
  - set (l0 := b :: l) in *. assert (Hn : nxt p s l0 = p + META + s) by done.
    pose proof (total_ge l0 Hsl) as Ht. cbn [total length] in He, Hf. destruct f as [|f]; [lia|].
    pose proof Hb as [H1 H2 H3 H5 H6]. pose proof Hp as (Hp0 & Hp1 & Hp2).
    assert (Hl0 : (1 <= length l0)%nat) by (cbn; lia).
    assert (Hp' : hdr_ok (sys h) (p + META + s)) by (unfold hdr_ok, META in *; lia).
    assert (Hskip : fr = false \/ s < sz + META ->
      malloc_loop (S f) sz p h = malloc_loop f sz (p + META + s) h).
    { intros Hc0. cbn [malloc_loop]. replace (p =? 0) with false by lia.
      exec. rewrite H3, negb_1. destruct fr; cbn [negb]; [|exec; by rewrite H5, Hn].
      destruct Hc0 as [|Hc0]; [done|]. exec. rewrite H5, Hn. exec. rewrite H2.
      destruct Hr as (_ & _ & Hr3 & Hr4 & _). rewrite (u32_small (sz + META)) by (unfold META, PAGE_SIZE in *; lia).
      replace (p + META + s =? 0) with false by (unfold META; lia). cbn [andb].
      by replace (sz + META <=? s) with false by lia. }
    destruct (decide (fr = false \/ s < sz + META)) as [Hd|Hd].
    + destruct (IH h (p + META + s) f) as (q & k' & h' & l' & Hk & Hrun & Hmd); try done; [lia|lia|].
      exists q, k', h', ((s, fr) :: l'). split; [done|]. split; [by rewrite Hskip|].
      destruct Hmd as [M1 M2 M3 M4 M5 M6 M7 M8].
      assert (Hl' : l' <> []) by (by destruct l').
      split; try done.
      * cbn [chain]. split; [|done].
        replace (nxt p s l') with (nxt p s l0) by (unfold nxt; by destruct l').
        eapply blk_ext; [|done]. unfold META in *. intros x Hx. apply M8. left. lia.
      * cbn [total]. lia.
      * by apply Forall_cons.
      * by destruct l'.
      * cbn [alloc]. rewrite M5. by rewrite Permutation_middle.
      * intros x [Hx|(q' & t & Hq & Hx)]; [apply M8; left; unfold META in *; lia|].
        cbn [alloc] in Hq. apply elem_of_app in Hq as [Hq|Hq]; [|apply M8; right; by exists q', t].
        destruct fr; [by apply elem_of_nil in Hq|]. apply list_elem_of_singleton in Hq. injection Hq as -> ->.
        apply M8. left. lia.
    + assert (Hfr : fr = true) by (destruct fr; tauto). subst fr.
      destruct (split_mallocd h p sz s l0) as (h' & Hrun & Hmd); try done; [lia|by apply Forall_cons|lia|].
      exists (p + META), 0%nat, h', ((sz, false) :: (s - sz - META, true) :: l0).
      split; [lia|]. split; [|done]. cbn [malloc_loop]. replace (p =? 0) with false by lia.
      exec. rewrite H3. cbn [Z.eqb negb]. exec. rewrite H5, Hn. exec. rewrite H2.
      destruct Hr as (_ & _ & Hr3 & Hr4 & _). rewrite (u32_small (sz + META)) by (unfold META, PAGE_SIZE in *; lia).
      replace (p + META + s =? 0) with false by (unfold META; lia). cbn [andb].
      by replace (sz + META <=? s) with true by lia.
Qed.

(** *** Separation and alignment *)
Lemma alloc_sep l p a1 q s a2 :
  sizes_ok l -> alloc p l = a1 ++ (q, s) :: a2 ->
  (forall y, y ∈ a1 -> y.1 + y.2 + META <= q) /\ (forall y, y ∈ a2 -> q + s + META <= y.1).
Proof using.
  revert p a1. induction l as [|[sz fr] l IH]; intros p a1 Hs Ha; cbn [alloc] in Ha; [by destruct a1|].
  pose proof Hs as Hs'. apply Forall_cons in Hs as [[Hs0 Hs4] Hsl]. cbn [fst] in *.
  destruct fr; cbn [app] in Ha; [by eapply IH|]. destruct a1 as [|y a1]; cbn [app] in Ha.
  - injection Ha as <- <- Ha. split; [by intros y Hy'; apply elem_of_nil in Hy'|]. intros [q' s'] Hy'. rewrite <- Ha in Hy'.
    apply alloc_range in Hy'; [cbn [fst]; lia|done].
  - injection Ha as <- Ha.
    destruct (IH _ _ Hsl Ha) as [H1 H2]. split; [|done]. intros z Hz. apply elem_of_cons in Hz as [->|Hz]; [|auto].
    cbn [fst snd]. assert (Hq : (q, s) ∈ alloc (p + META + sz) l).
    { rewrite Ha. apply elem_of_app. right. apply elem_of_cons. by left. }
    apply alloc_range in Hq; [lia|done].
Qed.

Lemma alloc_perm_sep l p q s r q' s' :
  sizes_ok l -> alloc p l ≡ₚ (q, s) :: r -> (q', s') ∈ r -> q + s + META <= q' \/ q' + s' + META <= q.
Proof using.
  intros Hs Hp Hr. destruct (Permutation_vs_cons_inv Hp) as (a1 & a2 & Ha). destruct (alloc_sep l p a1 q s a2 Hs Ha) as [H1 H2].
  rewrite Ha in Hp. symmetry in Hp. apply Permutation_cons_app_inv in Hp. rewrite Hp in Hr.
  apply elem_of_app in Hr as [Hr|Hr]; [right; by apply H1 in Hr|left; by apply H2 in Hr].
Qed.

Lemma alloc_aligned l p q s : sizes_ok l -> p mod 4 = 0 -> (q, s) ∈ alloc p l -> q mod 4 = 0.
Proof using.
  intros Hs. revert p. induction Hs as [|[sz fr] l [Hs0 Hs4] Hs IH]; intros p Hp Hq; cbn [alloc fst] in *.
  - by apply elem_of_nil in Hq.
  - assert (Hm : (p + META) mod 4 = 0) by (unfold META; by rewrite <- Z.add_mod_idemp_l, Hp by lia).
    apply elem_of_app in Hq as [Hq|Hq].
    + destruct fr; [by apply elem_of_nil in Hq|]. apply list_elem_of_singleton in Hq. by injection Hq as -> ->.
    + apply (IH (p + META + sz)); [|done]. by rewrite Z.add_mod, Hm, Hs4 by lia.
Qed.

(** ** The state of the heap *)
Record heap_ok (h : heap) (l : layout) : Prop := {
  ho_first : first_block h = start_addr (sys h);
  ho_chain : chain (mem h) (start_addr (sys h)) l;
  ho_end : start_addr (sys h) + total l = end_addr (sys h);
  ho_sizes : sizes_ok l;
  ho_last : last_free l;
  ho_start : 0 < start_addr (sys h) /\ start_addr (sys h) mod PAGE_SIZE = 0;
  ho_pages : end_addr (sys h) mod PAGE_SIZE = 0 /\ end_addr (sys h) < 2 ^ 32 /\
    end_addr (sys h) - start_addr (sys h) < 2 ^ 31
}.
(** Before the first allocation. *)
Definition heap_new (h : heap) : Prop :=
  first_block h = 0 /\ end_addr (sys h) = start_addr (sys h) /\ 0 < start_addr (sys h) < 2 ^ 32 /\
  start_addr (sys h) mod PAGE_SIZE = 0.

(** The blocks in use. *)
Definition in_use (h : heap) (l : layout) : list (Z * Z) := alloc (start_addr (sys h)) l.

Lemma align4_spec sz :
  0 <= sz <= 2 ^ 32 - 4 -> align4 sz mod 4 = 0 /\ sz <= align4 sz < sz + 4.
Proof using.
  intros Hs. unfold align4. pose proof (Z.div_mod sz 4 ltac:(lia)). pose proof (Z.mod_pos_bound sz 4 ltac:(lia)).
  destruct (Z.eqb_spec (sz mod 4) 0); [split; [done|lia]|].
  rewrite (u32_small (sz / 4 + 1)) by lia. rewrite u32_small by lia. split; [apply Z.mod_mul; lia|lia].
Qed.

(** The pages that are enough for an allocation in a full heap. *)
Definition need (sz : Z) : nat := Z.to_nat ((align4 sz + META) / PAGE_SIZE + 1).

Lemma heap_ok_nonempty h l : heap_ok h l -> l <> [].
Proof using. intros H. pose proof (ho_last h l H). by destruct l. Qed.

Lemma heap_ok_hdr h l : heap_ok h l -> hdr_ok (sys h) (start_addr (sys h)).
Proof using.
  intros H. destruct H as [H1 H2 H3 H4 H5 [H6 H7] (H8 & H9 & H10)]. pose proof (total_ge l H4).
  assert (1 <= length l)%nat by (destruct l; [done|cbn; lia]). unfold hdr_ok, META in *. lia.
Qed.

Lemma block_fuel_enough h l : heap_ok h l -> (length l + 1 < block_fuel h)%nat.
Proof using.
  intros H. unfold block_fuel. pose proof (total_ge l (ho_sizes h l H)). pose proof (ho_end h l H).
  replace (end_addr (sys h) - start_addr (sys h)) with (total l) by lia.
  assert (Z.of_nat (length l) <= total l / META) by (apply Z.div_le_lower_bound; unfold META in *; lia). lia.
Qed.

Lemma malloc_old h l sz :
  heap_ok h l -> 0 <= sz <= 2 ^ 32 - 4 -> room (sys h) (need sz) ->
  exists q k h' l', malloc sz h = Ok (q, h') /\ heap_ok h' l' /\
    mallocd h (start_addr (sys h)) l (align4 sz) q k h' l'.
Proof using.
  intros Ho Hsz Hr. pose proof Ho as [H1 H2 H3 H4 H5 [H6 H7] (H8 & H9 & H10)].
  destruct (align4_spec sz Hsz) as [Ha Hb]. unfold malloc. set (sz' := align4 sz) in *.
  pose proof (heap_ok_hdr h l Ho) as Hh. exec. rewrite H1. replace (start_addr (sys h) =? 0) with false by lia.
  do 2 exec. rewrite H1. exec.
  pose proof H2 as Hc. destruct l as [|[s fr] l]; [done|]. destruct Hc as [[Hm _ _ _ _] _]. rewrite Hm.
  rewrite kassert_bind by done.
  assert (Hu : sz' +u META = sz' + META).
  { destruct Hr as (_ & _ & Hr & Hmax & Hd). unfold need in Hr. fold sz' in Hr.
    assert (0 <= (sz' + META) / PAGE_SIZE) by (apply Z.div_pos; unfold META, PAGE_SIZE; lia).
    pose proof (Z.div_mod (sz' + META) PAGE_SIZE ltac:(unfold PAGE_SIZE; lia)).
    pose proof (Z.mod_pos_bound (sz' + META) PAGE_SIZE ltac:(unfold PAGE_SIZE; lia)).
    apply u32_small. unfold hdr_ok, META, PAGE_SIZE in *. lia. }
  destruct (malloc_loop_run ((s, fr) :: l) (need sz) h (start_addr (sys h)) sz'
    (block_fuel h + Z.to_nat ((sz' +u META) / PAGE_SIZE) + 1)) as (q & k & h' & l' & Hk & Hrun & Hmd); try done.
  - lia.
  - unfold need. fold sz'. pose proof (Z.div_mod (sz' + META) PAGE_SIZE ltac:(unfold PAGE_SIZE; lia)).
    pose proof (Z.mod_pos_bound (sz' + META) PAGE_SIZE ltac:(unfold PAGE_SIZE; lia)).
    assert (0 <= (sz' + META) / PAGE_SIZE) by (apply Z.div_pos; unfold META, PAGE_SIZE; lia).
    unfold PAGE_SIZE, META in *. lia.
  - rewrite Hu. unfold need. fold sz'. pose proof (block_fuel_enough h _ Ho).
    assert (0 <= (sz' + META) / PAGE_SIZE) by (apply Z.div_pos; unfold META, PAGE_SIZE; lia). lia.
  - exists q, k, h', l'. split; [done|]. split; [|done]. destruct Hmd as [M1 M2 M3 M4 M5 M6 M7 M8].
    rewrite M6 in *. split; rewrite ?M6; cbn [grown start_addr end_addr]; try done; [by rewrite M7|].
    destruct Hr as (_ & _ & Hr & Hmax & Hd). split; [|unfold PAGE_SIZE in *; lia]. by rewrite Z.mod_add by (unfold PAGE_SIZE; lia).
Qed.

(** *** Freeing *)

(** The list of blocks after a free, written without the code.  A block of
    [sz] bytes that is given back takes in the free block behind it, header
    and data, and the block before it, when that is free, takes it in. *)
Definition behind (sz : Z) (l2 : layout) : Z * layout :=
  match l2 with (n, true) :: l2' => (sz + META + n, l2') | _ => (sz, l2) end.
Definition before (l1 : layout) (x : Z) (l2 : layout) : layout :=
  match last l1 with
  | Some (n, true) => removelast l1 ++ (n + META + x, true) :: l2
  | _ => l1 ++ (x, true) :: l2
  end.
Definition joined (l1 : layout) (sz : Z) (l2 : layout) : layout :=
  before l1 (behind sz l2).1 (behind sz l2).2.
(** The last block, when it is free and larger than a page, is cut at the
    second page boundary behind the start of its data. *)
Definition cut (start : Z) (l : layout) : layout :=
  match last l with
  | Some (n, true) =>
      let q := start + total (removelast l) + META in
      if PAGE_SIZE <? n then removelast l ++ [(q / PAGE_SIZE * PAGE_SIZE + 2 * PAGE_SIZE - q, true)] else l
  | _ => l
  end.
(** No free block lies next to another. *)
Fixpoint coalesced (l : layout) : Prop :=
  match l with
  | (_, true) :: (((_, true) :: _) as l') => False
  | _ :: l' => coalesced l'
  | [] => True
  end.

Lemma last_snoc_layout (l : layout) b : last (l ++ [b]) = Some b /\ removelast (l ++ [b]) = l.
Proof using. split; [apply last_snoc|apply removelast_last]. Qed.

Lemma before_cons b l1 x l2 : l1 <> [] -> before (b :: l1) x l2 = b :: before l1 x l2.
Proof using.
  intros Hl. unfold before. rewrite last_cons. destruct l1 as [|c l1]; [done|].
  change (removelast (b :: c :: l1)) with (b :: removelast (c :: l1)).
  destruct (last (c :: l1)) as [[n []]|] eqn:E; try done. by apply last_None in E.
Qed.

Lemma cut_snoc start l1 n :
  cut start (l1 ++ [(n, true)]) =
    let q := start + total l1 + META in
    if PAGE_SIZE <? n then l1 ++ [(q / PAGE_SIZE * PAGE_SIZE + 2 * PAGE_SIZE - q, true)] else l1 ++ [(n, true)].
Proof using. unfold cut. by destruct (last_snoc_layout l1 (n, true)) as [-> ->]. Qed.

(** Freeing leaves no two free blocks next to each other. *)
Lemma coalesced_cons s fr l : coalesced ((s, fr) :: l) -> coalesced l.
Proof using. destruct fr; [destruct l as [|[? []] l]; done|done]. Qed.
Lemma coalesced_swap l1 x y l2 : coalesced (l1 ++ (x, true) :: l2) -> coalesced (l1 ++ (y, true) :: l2).
Proof using.
  induction l1 as [|[s fr] l1 IH]; [done|]. intros Hc. pose proof (coalesced_cons _ _ _ Hc) as Hc'. apply IH in Hc'.
  destruct fr; [|done]. destruct l1 as [|[? []] l1]; done.
Qed.
Lemma coalesced_tail l1 l2 : coalesced (l1 ++ l2) -> coalesced l2.
Proof using. induction l1 as [|[s fr] l1 IH]; [done|]. intros H%coalesced_cons. auto. Qed.
Lemma coalesced_join l1 sz l2 x l2' :
  behind sz l2 = (x, l2') -> coalesced (l1 ++ (sz, false) :: l2) -> coalesced ((x, true) :: l2').
Proof using.
  intros Hb H%coalesced_tail. cbn [coalesced] in H. destruct l2 as [|[n []] l2]; injection Hb as <- <-; try done.
Qed.
Lemma joined_coalesced l1 sz l2 : coalesced (l1 ++ (sz, false) :: l2) -> coalesced (joined l1 sz l2).
Proof using.
  intros Hc. unfold joined. destruct (behind sz l2) as [x l2'] eqn:Hb. cbn [fst snd].
  pose proof (coalesced_join _ _ _ _ _ Hb Hc) as Hx. clear Hb. revert Hc. generalize ((sz, false) :: l2). intros l0 Hc.
  induction l1 as [|[s fr] l1 IH]; [done|]. destruct l1 as [|c l1].
  - unfold before. cbn. destruct fr; [|done]. by apply (coalesced_swap [] x).
  - rewrite before_cons by done. pose proof (coalesced_cons _ _ _ Hc) as Hc'. apply IH in Hc'.
    destruct fr; [|done]. destruct c as [n fr2]. destruct fr2; [done|].
    destruct l1 as [|d l1]; [done|]. by rewrite before_cons in * by done.
Qed.
Lemma cut_coalesced start l : coalesced l -> coalesced (cut start l).
Proof using.
  intros Hc. unfold cut. destruct (last l) as [[n []]|] eqn:E; try done. destruct (PAGE_SIZE <? n); [|done].
  apply last_Some in E as [l' ->]. destruct (last_snoc_layout l' (n, true)) as [_ ->]. cbn zeta.
  by apply (coalesced_swap l' n).
Qed.

Lemma merge_next_run h p sz l :
  hdr_ok (sys h) p -> p + META + sz + total l = end_addr (sys h) -> chain (mem h) p ((sz, true) :: l) ->
  sizes_ok ((sz, true) :: l) -> last_free ((sz, true) :: l) ->
  exists m' x l', merge_next p h = Ok (tt, set_mem h m') /\ chain m' p ((x, true) :: l') /\
    x + total l' = sz + total l /\ sizes_ok ((x, true) :: l') /\ last_free ((x, true) :: l') /\
    alloc (p + META + x) l' = alloc (p + META + sz) l /\ behind sz l = (x, l') /\
    forall y, out_of p y -> m' !!! y = mem h !!! y.
Proof using.
  intros Hp He Hc Hs Hl. pose proof Hc as [[H1 H2 H3 H4 H5] Hc']. apply Forall_cons in Hs as [[Hs0 Hs4] Hsl].
  cbn [fst] in *. unfold merge_next. exec. rewrite H4. destruct l as [|[s2 f2] l].
  - cbn [nxt Z.eqb]. exec. exists (mem h), sz, []. split; [by destruct h|]. split_and!; try done. by apply Forall_singleton.
  - cbn [nxt]. cbn [chain] in Hc'. destruct Hc' as [[G1 G2 G3 G4 G5] Hc2].
    pose proof Hsl as Hsl'. apply Forall_cons in Hsl' as [[Hs20 Hs24] Hsl2]. cbn [fst] in *. cbn [total] in He.
    pose proof (total_ge l Hsl2) as Ht.
    assert (Hq : hdr_ok (sys h) (p + META + sz)) by (unfold hdr_ok, META in *; lia).
    replace (p + META + sz =? 0) with false by (unfold hdr_ok, META in *; lia).
    exec. rewrite G3. destruct f2; cbn [Z.eqb negb].
    + exec. rewrite H2. exec. rewrite G2. rewrite (u32_small (s2 + META)) by (unfold hdr_ok, META in *; lia).
      rewrite u32_small by (unfold hdr_ok, META in *; lia). exec.
      rewrite (bind_ret (next _ ≫= _)), st_assoc. exec.
      assert (Hw : word (put32 (mem h) (p + 4) (sz + (s2 + META))) (p + META + sz + 12) = nxt (p + META + sz) s2 l).
      { unfold META in *. by mem_simp. }
      rewrite Hw. exec. eexists _, (sz + (s2 + META)), l. split; [unfold mret, st_ret; reflexivity|].
      assert (Hv : 0 <= sz + (s2 + META) < 2 ^ 32) by (unfold hdr_ok, META in *; lia).
      assert (Hn : 0 <= nxt (p + META + sz) s2 l < 2 ^ 32).
      { unfold nxt. destruct l; unfold hdr_ok, META in *; [lia|]. cbn [length] in Ht. lia. }
      assert (He2 : p + META + (sz + (s2 + META)) = p + META + sz + META + s2) by lia.
      split_and!.
      * cbn [chain]. split.
        -- replace (nxt p (sz + (s2 + META)) l) with (nxt (p + META + sz) s2 l) by (unfold nxt; destruct l; [done|lia]).
           constructor; unfold MAGIC_HEAD, MAGIC_END in *; mem_simp; done.
        -- rewrite He2. eapply chain_ext; [done| |done]. unfold META in *. intros y Hy. by mem_simp.
      * cbn [total]. lia.
      * apply Forall_cons. split; [|done]. cbn [fst]. unfold META in *. split; [lia|].
        apply Z.mod_divide in Hs4 as [a Ha], Hs24 as [b Hb]; [|lia..].
        replace (sz + (s2 + 20)) with ((a + b + 5) * 4) by lia. apply Z.mod_mul. lia.
      * cbn [last_free] in Hl |- *. by destruct l.
      * cbn [alloc app]. by rewrite He2.
      * cbn [behind]. f_equal. lia.
      * unfold out_of, META in *. intros y Hy. by mem_simp.
    + exists (mem h), sz, ((s2, false) :: l). split; [by destruct h|]. split_and!; try done. by apply Forall_cons.
Qed.

Lemma merge_prev_run h p sp fp sz l :
  hdr_ok (sys h) p -> p + META + sp + META + sz + total l = end_addr (sys h) ->
  chain (mem h) p ((sp, fp) :: (sz, true) :: l) -> sizes_ok ((sp, fp) :: (sz, true) :: l) ->
  last_free ((sz, true) :: l) ->
  exists m' l', merge_prev p (p + META + sp) h = Ok (tt, set_mem h m') /\ chain m' p l' /\
    total l' = META + sp + META + sz + total l /\ sizes_ok l' /\ last_free l' /\
    alloc p l' = alloc p ((sp, fp) :: (sz, true) :: l) /\ l' = before [(sp, fp)] sz l /\
    forall y, out_of p y -> m' !!! y = mem h !!! y.
Proof using.
  intros Hp He Hc Hs Hl. pose proof Hc as [[H1 H2 H3 H4 H5] [[G1 G2 G3 G4 G5] Hc2]].
  pose proof Hs as Hs'. apply Forall_cons in Hs' as [[Hs0 Hs4] Hsl]. apply Forall_cons in Hsl as [[Hs20 Hs24] Hsl2].
  cbn [fst nxt] in *. pose proof (total_ge l Hsl2) as Ht.
  assert (Hq : hdr_ok (sys h) (p + META + sp)) by (unfold hdr_ok, META in *; lia).
  unfold merge_prev. replace (p =? 0) with false by (unfold hdr_ok in *; lia). exec. rewrite H3.
  destruct fp; cbn [Z.eqb negb].
  - exec. rewrite H2. exec. rewrite G2. rewrite (u32_small (sz + META)) by (unfold hdr_ok, META in *; lia).
    rewrite u32_small by (unfold hdr_ok, META in *; lia). exec.
    rewrite (bind_ret (next _ ≫= _)), st_assoc. exec.
    assert (Hw : word (put32 (mem h) (p + 4) (sp + (sz + META))) (p + META + sp + 12) = nxt (p + META + sp) sz l).
    { unfold META in *. by mem_simp. }
    rewrite Hw. exec. eexists _, ((sp + (sz + META), true) :: l). split; [unfold mret, st_ret; reflexivity|].
    assert (Hv : 0 <= sp + (sz + META) < 2 ^ 32) by (unfold hdr_ok, META in *; lia).
    assert (Hn : 0 <= nxt (p + META + sp) sz l < 2 ^ 32).
    { unfold nxt. destruct l; unfold hdr_ok, META in *; [lia|]. cbn [length] in Ht. lia. }
    assert (He2 : p + META + (sp + (sz + META)) = p + META + sp + META + sz) by lia.
    split_and!.
    + cbn [chain]. split.
      * replace (nxt p (sp + (sz + META)) l) with (nxt (p + META + sp) sz l) by (unfold nxt; destruct l; [done|lia]).
        constructor; unfold MAGIC_HEAD, MAGIC_END in *; mem_simp; done.
      * rewrite He2. eapply chain_ext; [done| |done]. unfold META in *. intros y Hy. by mem_simp.
    + cbn [total]. lia.
    + apply Forall_cons. split; [|done]. cbn [fst]. unfold META in *. split; [lia|].
      apply Z.mod_divide in Hs4 as [a Ha], Hs24 as [b Hb]; [|lia..].
      replace (sp + (sz + 20)) with ((a + b + 5) * 4) by lia. apply Z.mod_mul. lia.
    + cbn [last_free] in Hl |- *. by destruct l.
    + cbn [alloc app]. by rewrite He2.
    + unfold before. cbn. do 2 f_equal. lia.
    + unfold out_of, META in *. intros y Hy. by mem_simp.
  - exists (mem h), ((sp, false) :: (sz, true) :: l). split; [by destruct h|]. split_and!; try done. cbn [total]. lia.
Qed.

(** What freeing does to the blocks from [p] on. *)
Record freed (h : heap) (p : Z) (l : layout) (ptr sz : Z) (h' : heap) (l' : layout) : Prop := {
  fd_chain : chain (mem h') p l';
  fd_total : total l' = total l;
  fd_sizes : sizes_ok l';
  fd_last : last_free l';
  fd_alloc : alloc p l ≡ₚ (ptr, sz) :: alloc p l';
  fd_sys : sys h' = sys h;
  fd_first : first_block h' = first_block h;
  fd_layout : exists l1 l2, l = l1 ++ (sz, false) :: l2 /\ ptr = p + total l1 + META /\ l' = joined l1 sz l2;
  fd_data : forall x, x < p \/ p + total l <= x \/ in_data (alloc p l') x -> mem h' !!! x = mem h !!! x
}.

(** The assertions, the mark and the block behind. *)
Lemma release_half prev h p sz l :
  hdr_ok (sys h) p -> p + META + sz + total l = end_addr (sys h) -> chain (mem h) p ((sz, false) :: l) ->
  sizes_ok ((sz, false) :: l) -> last_free ((sz, false) :: l) ->
  exists m' x l', release prev p h = merge_prev prev p (set_mem h m') /\ chain m' p ((x, true) :: l') /\
    x + total l' = sz + total l /\ sizes_ok ((x, true) :: l') /\ last_free ((x, true) :: l') /\
    alloc (p + META + x) l' = alloc (p + META + sz) l /\ behind sz l = (x, l') /\
    forall y, out_of p y -> m' !!! y = mem h !!! y.
Proof using.
  intros Hp He [[H1 H2 H3 H4 H5] Hc] Hs Hl. destruct l as [|b l]; [done|].
  unfold release. exec. rewrite H1. exec. exec. rewrite H5. do 2 exec.
  set (h1 := set_mem h (<[p + 8 := 1]> (mem h))).
  destruct (merge_next_run h1 p sz (b :: l)) as (m' & x & l' & Hm & C1 & C2 & C3 & C4 & C5 & C7 & C6); try done.
  - unfold h1. cbn [mem set_mem]. split.
    + constructor; mem_simp; done.
    + eapply chain_ext; [by apply Forall_cons in Hs as [_ Hs]| |done].
      apply Forall_cons in Hs as [[Hs0 _] _]. cbn [fst] in Hs0. unfold META. intros y Hy. by mem_simp.
  - apply Forall_cons in Hs as [Hs0 Hs]. by apply Forall_cons.
  - exists m', x, l'. split; [by rewrite (st_bind_eq (merge_next p) _ _ _ _ Hm)|]. split_and!; try done.
    intros y Hy. rewrite C6 by done. cbn [h1 mem set_mem]. unfold out_of, META in *. by mem_simp.
Qed.

Lemma release_first h p sz l :
  hdr_ok (sys h) p -> p + META + sz + total l = end_addr (sys h) -> chain (mem h) p ((sz, false) :: l) ->
  sizes_ok ((sz, false) :: l) -> last_free ((sz, false) :: l) ->
  exists h' l', release 0 p h = Ok (tt, h') /\ freed h p ((sz, false) :: l) (p + META) sz h' l'.
Proof using.
  intros Hp He Hc Hs Hl.
  destruct (release_half 0 h p sz l Hp He Hc Hs Hl) as (m' & x & l' & Hrun & C1 & C2 & C3 & C4 & C5 & C7 & C6).
  exists (set_mem h m'), ((x, true) :: l'). rewrite Hrun. split; [done|].
  pose proof C3 as Hx. apply Forall_cons in Hx as [[Hx _] _]. cbn [fst] in Hx.
  pose proof Hs as Hz. apply Forall_cons in Hz as [[Hz _] Hsl]. cbn [fst] in Hz. pose proof (total_ge l Hsl).
  split; try done.
  - cbn [total]. lia.
  - cbn [alloc app]. by rewrite C5.
  - exists [], l. unfold joined. rewrite C7. cbn [total app before fst snd]. split_and!; [done|lia|done].
  - intros y Hy. apply C6. unfold out_of, META in *. destruct Hy as [Hy|[Hy|(q & t & Hq & Hy)]]; [lia| |].
    + cbn [total] in Hy. unfold META in Hy. lia.
    + cbn [alloc app] in Hq. apply alloc_range in Hq; [unfold META in *; lia|by apply Forall_cons in C3 as [_ C3]].
Qed.

Lemma release_prev h p sp fp sz l :
  hdr_ok (sys h) p -> p + META + sp + META + sz + total l = end_addr (sys h) ->
  chain (mem h) p ((sp, fp) :: (sz, false) :: l) -> sizes_ok ((sp, fp) :: (sz, false) :: l) ->
  last_free ((sz, false) :: l) ->
  exists h' l', release p (p + META + sp) h = Ok (tt, h') /\
    freed h p ((sp, fp) :: (sz, false) :: l) (p + META + sp + META) sz h' l'.
Proof using.
  intros Hp He [Hb Hc] Hs Hl. pose proof Hs as Hs'. apply Forall_cons in Hs' as [[Hs0 Hs4] Hsl]. cbn [fst] in *.
  pose proof Hsl as Hz. apply Forall_cons in Hz as [[Hz _] Hz']. cbn [fst] in Hz. pose proof (total_ge l Hz').
  destruct (release_half p h (p + META + sp) sz l) as (m' & x & l' & Hrun & C1 & C2 & C3 & C4 & C5 & C7 & C6); try done.
  { unfold hdr_ok, META in *. lia. }
  pose proof C3 as Hx. apply Forall_cons in Hx as [[Hx _] Hsl']. cbn [fst] in Hx. pose proof (total_ge l' Hsl').
  destruct (merge_prev_run (set_mem h m') p sp fp x l') as (m2 & l2 & Hrun2 & D1 & D2 & D3 & D4 & D5 & D7 & D6); try done.
  - cbn. lia.
  - cbn [mem set_mem]. split; [|done]. eapply blk_ext; [|done]. unfold out_of, META in *. intros y Hy. apply C6. lia.
  - by apply Forall_cons.
  - exists (set_mem h m2), l2. rewrite Hrun, Hrun2. split; [done|]. split; try done.
    + cbn [total] in *. lia.
    + rewrite D5. cbn [alloc app]. rewrite C5. by rewrite Permutation_middle.
    + exists [(sp, fp)], l. unfold joined. rewrite C7. cbn [total app fst snd]. split_and!; [done|lia|done].
    + intros y Hy. cbn [mem set_mem]. destruct (decide (out_of p y /\ out_of (p + META + sp) y)) as [[Ho1 Ho2]|Hin].
      { rewrite D6 by done. by apply C6. }
      exfalso. apply Hin. clear Hin. unfold out_of. destruct Hy as [Hy|[Hy|(q & t & Hq & Hy)]].
      * unfold META in *. lia.
      * cbn [total] in Hy. unfold META in *. lia.
      * rewrite D5 in Hq. cbn [alloc] in Hq. apply elem_of_app in Hq as [Hq|Hq].
        -- destruct fp; [by apply elem_of_nil in Hq|]. apply list_elem_of_singleton in Hq. injection Hq as -> ->.
           unfold META in *. lia.
        -- apply alloc_range in Hq; [|done]. unfold META in *. lia.
Qed.

(** Looking for the block. *)
Lemma head_alloc p s fr l ptr sz :
  sizes_ok ((s, fr) :: l) -> (ptr, sz) ∈ alloc p ((s, fr) :: l) ->
  if p + META =? ptr then fr = false /\ s = sz else (ptr, sz) ∈ alloc (p + META + s) l.
Proof using.
  intros Hs Hq. apply Forall_cons in Hs as [[Hs0 _] Hsl]. cbn [fst alloc] in *. apply elem_of_app in Hq as [Hq|Hq].
  - destruct fr; [by apply elem_of_nil in Hq|]. apply list_elem_of_singleton in Hq. injection Hq as -> ->.
    by rewrite Z.eqb_refl.
  - pose proof (alloc_range _ _ _ _ Hsl Hq). unfold META in *. by replace (p + 20 =? ptr) with false by lia.
Qed.

(** One step to the next block. *)
Lemma free_step f prev h p s fr l ptr sz :
  hdr_ok (sys h) p -> chain (mem h) p ((s, fr) :: l) -> sizes_ok ((s, fr) :: l) ->
  p + META + s + total l = end_addr (sys h) ->
  (ptr, sz) ∈ alloc (p + META + s) l ->
  free_loop (S f) ptr prev p h = free_loop f ptr p (p + META + s) h.
Proof using.
  intros Hp [[H1 H2 H3 H4 H5] _] Hs He Hq. apply Forall_cons in Hs as [[Hs0 _] Hsl]. cbn [fst] in *.
  pose proof (alloc_range _ _ _ _ Hsl Hq). cbn [free_loop].
  assert (Hu : p +u META = p + META) by (apply u32_small; unfold hdr_ok, META in *; lia).
  rewrite Hu. replace (p + META =? ptr) with false by (unfold META in *; lia). exec. rewrite H4.
  destruct l as [|b l]; [by apply elem_of_nil in Hq|]. cbn [nxt].
  replace (p + META + s =? 0) with false by (unfold hdr_ok, META in *; lia). by exec.
Qed.

Lemma free_loop_run l h p sp fp ptr sz f :
  hdr_ok (sys h) p -> p + META + sp + total l = end_addr (sys h) -> chain (mem h) p ((sp, fp) :: l) ->
  sizes_ok ((sp, fp) :: l) -> last_free l -> (ptr, sz) ∈ alloc (p + META + sp) l -> (length l <= f)%nat ->
  exists h' l', free_loop f ptr p (p + META + sp) h = Ok (tt, h') /\ freed h p ((sp, fp) :: l) ptr sz h' l'.
Proof using.
  revert h p sp fp f. induction l as [|[s fr] l IH]; intros h p sp fp f Hp He Hc Hs Hl Hq Hf; [by apply elem_of_nil in Hq|].
  destruct f as [|f]; [cbn in Hf; lia|]. pose proof Hs as Hs'. apply Forall_cons in Hs' as [[Hs0 Hs4] Hsl].
  pose proof Hsl as Hsl'. apply Forall_cons in Hsl' as [[Hs1 _] Hsl']. cbn [fst] in *. pose proof (total_ge l Hsl').
  cbn [total] in He. assert (Hq1 : hdr_ok (sys h) (p + META + sp)) by (unfold hdr_ok, META in *; lia).
  pose proof (head_alloc _ _ _ _ _ _ Hsl Hq) as Hd. destruct (Z.eqb_spec (p + META + sp + META) ptr) as [<-|Hne].
  - destruct Hd as [-> ->]. cbn [free_loop].
    rewrite (u32_small (p + META + sp + META)) by (unfold hdr_ok, META in *; lia). rewrite Z.eqb_refl.
    apply release_prev; try done. lia.
  - destruct Hc as [Hb Hc]. rewrite (free_step f p h _ s fr l ptr sz) by (done || lia).
    assert (Hl' : last_free l) by (destruct l; [by apply elem_of_nil in Hd|done]).
    destruct (IH h (p + META + sp) s fr f) as (h' & l' & Hrun & Hfd); try done; [lia|cbn in Hf; lia|].
    exists h', ((sp, fp) :: l'). split; [done|]. destruct Hfd as [F1 F2 F3 F4 F5 F6 F7 F9 F8].
    split; try done.
    + split; [|done]. replace (nxt p sp l') with (p + META + sp) by (by destruct l').
      eapply blk_ext; [|done]. unfold META in *. intros y Hy. apply F8. left. lia.
    + cbn [total] in *. lia.
    + by apply Forall_cons.
    + by destruct l'.
    + cbn [alloc app] in F5 |- *. rewrite F5. by rewrite Permutation_middle.
    + destruct F9 as (l1 & l2 & E1 & E2 & E3). exists ((sp, fp) :: l1), l2. rewrite E1, E3. cbn [total app].
      split_and!; [done|lia|]. unfold joined. rewrite before_cons; [done|]. intros ->. cbn [total] in E2. lia.
    + cbn [total] in *. intros y [Hy|[Hy|(q & t & Hq' & Hy)]].
      * apply F8. left. unfold META in *. lia.
      * apply F8. right. left. unfold META in *. lia.
      * cbn [alloc] in Hq'. apply elem_of_app in Hq' as [Hq'|Hq'].
        -- destruct fp; [by apply elem_of_nil in Hq'|]. apply list_elem_of_singleton in Hq'. injection Hq' as -> ->.
           apply F8. left. unfold META in *. lia.
        -- apply F8. right. right. by exists q, t.
Qed.

Lemma free_search h p l ptr sz f :
  hdr_ok (sys h) p -> p + total l = end_addr (sys h) -> chain (mem h) p l -> sizes_ok l -> last_free l ->
  (ptr, sz) ∈ alloc p l -> (length l <= f)%nat ->
  exists h' l', free_loop f ptr 0 p h = Ok (tt, h') /\ freed h p l ptr sz h' l'.
Proof using.
  intros Hp He Hc Hs Hl Hq Hf. destruct l as [|[s fr] l]; [done|]. destruct f as [|f]; [cbn in Hf; lia|].
  pose proof (head_alloc _ _ _ _ _ _ Hs Hq) as Hd. cbn [total] in He. destruct (Z.eqb_spec (p + META) ptr) as [<-|Hne].
  - destruct Hd as [-> ->]. cbn [free_loop]. rewrite (u32_small (p + META)) by (unfold hdr_ok, META in *; lia).
    rewrite Z.eqb_refl. apply release_first; try done. lia.
  - rewrite (free_step f 0 h p s fr l ptr sz) by (done || lia).
    assert (Hl' : last_free l) by (destruct l; [by apply elem_of_nil in Hd|done]).
    apply free_loop_run; try done; [lia|cbn in Hf; lia].
Qed.

(** *** Giving pages back *)
Lemma last_free_snoc l : last_free l -> exists l1 s, l = l1 ++ [(s, true)].
Proof using.
  induction l as [|[s fr] l IH]; intros Hl; [done|]. destruct l as [|b l].
  - cbn in Hl. subst. by exists [], s.
  - destruct (IH Hl) as (l1 & s' & ->). by exists ((s, fr) :: l1), s'.
Qed.
Lemma last_free_app l1 s : last_free (l1 ++ [(s, true)]).
Proof using. induction l1 as [|b l1 IH]; [done|]. destruct b, l1; done. Qed.
Lemma total_app l1 l2 : total (l1 ++ l2) = total l1 + total l2.
Proof using. induction l1 as [|[s fr] l1 IH]; cbn [total app]; [done|]. lia. Qed.
Lemma alloc_app p l1 l2 : alloc p (l1 ++ l2) = alloc p l1 ++ alloc (p + total l1) l2.
Proof using.
  revert p. induction l1 as [|[s fr] l1 IH]; intros p; cbn [alloc total app]; [by rewrite Z.add_0_r|].
  rewrite IH, app_assoc. do 2 f_equal. lia.
Qed.
Lemma alloc_last p l1 s : alloc p (l1 ++ [(s, true)]) = alloc p l1.
Proof using. rewrite alloc_app. cbn [alloc app]. by rewrite app_nil_r. Qed.

Lemma chain_last m p l1 s fr : sizes_ok l1 -> chain m p (l1 ++ [(s, fr)]) -> blk m (p + total l1) s fr 0.
Proof using.
  intros Hs. revert p. induction Hs as [|[s' fr'] l1 _ _ IH]; intros p [Hb Hc]; cbn [total].
  - by rewrite Z.add_0_r.
  - apply IH in Hc. by replace (p + (META + s' + total l1)) with (p + META + s' + total l1) by lia.
Qed.

Lemma chain_new_last m m' p l1 s fr s' fr' :
  sizes_ok l1 -> chain m p (l1 ++ [(s, fr)]) -> (forall x, p <= x < p + total l1 -> m' !!! x = m !!! x) ->
  blk m' (p + total l1) s' fr' 0 -> chain m' p (l1 ++ [(s', fr')]).
Proof using.
  intros Hs. revert p. induction Hs as [|[s0 fr0] l1 [Hs0 _] Hsl IH]; intros p Hc Hm Hb; cbn [app total chain fst] in *.
  - rewrite Z.add_0_r in Hb. by split.
  - pose proof (total_ge l1 Hsl). destruct Hc as [Hb0 Hc]. split.
    + replace (nxt p s0 (l1 ++ [(s', fr')])) with (nxt p s0 (l1 ++ [(s, fr)])) by (by destruct l1).
      eapply blk_ext; [|done]. unfold META in *. intros x Hx. apply Hm. lia.
    + apply IH; [done| |]. { unfold META in *. intros x Hx. apply Hm. lia. }
      by replace (p + META + s0 + total l1) with (p + (META + s0 + total l1)) by lia.
Qed.

Lemma last_block_run l1 h p s fr f :
  hdr_ok (sys h) p -> p + total (l1 ++ [(s, fr)]) = end_addr (sys h) -> chain (mem h) p (l1 ++ [(s, fr)]) ->
  sizes_ok (l1 ++ [(s, fr)]) -> (length l1 < f)%nat ->
  last_block f p h = Ok (p + total l1, h).
Proof using.
  revert p f. induction l1 as [|[s0 fr0] l1 IH]; intros p f Hp He Hc Hs Hf; (destruct f as [|f]; [lia|]);
    cbn [last_block app total length] in *; destruct Hc as [[H1 H2 H3 H4 H5] Hc]; exec; rewrite H4.
  - cbn [nxt Z.eqb]. by rewrite Z.add_0_r.
  - apply Forall_cons in Hs as [[Hs0 _] Hs]. cbn [fst] in *. pose proof (total_ge _ Hs) as Ht.
    rewrite length_app in Ht. cbn [length] in Ht.
    replace (nxt p s0 (l1 ++ [(s, fr)])) with (p + META + s0) by (by destruct l1).
    replace (p + META + s0 =? 0) with false by (unfold hdr_ok, META in *; lia).
    rewrite IH; [f_equal; f_equal; lia| |lia|done..|lia]. unfold hdr_ok, META in *. lia.
Qed.

Lemma page_mask x : 0 <= x < 2 ^ 32 -> Z.land x 0xFFFFF000 = x / PAGE_SIZE * PAGE_SIZE.
Proof using.
  intros Hx. change PAGE_SIZE with (2 ^ 12). rewrite <- Z.shiftr_div_pow2, <- Z.shiftl_mul_pow2 by lia.
  change 0xFFFFF000 with (Z.shiftl (Z.ones 20) 12). apply Z.bits_inj'. intros n Hn. rewrite Z.land_spec.
  destruct (Z.ltb_spec n 12).
  - by rewrite !Z.shiftl_spec_low, andb_false_r by lia.
  - rewrite !Z.shiftl_spec, Z.shiftr_spec by lia. replace (n - 12 + 12) with n by lia.
    destruct (Z.ltb_spec n 32).
    + by rewrite Z.ones_spec_low, andb_true_r by lia.
    + by rewrite (testbit_small x 32) by lia.
Qed.

Lemma shrink_run n h :
  start_addr h <= end_addr h - Z.of_nat n * PAGE_SIZE -> 0 < start_addr h -> end_addr h < 2 ^ 32 ->
  shrink n h = (true, HeapT (start_addr h) (end_addr h - Z.of_nat n * PAGE_SIZE) (max_addr h)).
Proof using.
  revert h. induction n as [|n IH]; intros h Hs H0 He; cbn [shrink].
  - destruct h. cbn. do 2 f_equal. lia.
  - unfold PAGE_SIZE in *. rewrite u32_small by lia. cbn [end_addr start_addr max_addr].
    replace (end_addr h - 4096 <? start_addr h) with false by lia.
    rewrite IH; cbn [end_addr start_addr max_addr]; [|lia..]. do 2 f_equal. lia.
Qed.

Lemma sbrk_back h n :
  start_addr (sys h) <= end_addr (sys h) - Z.of_nat n * PAGE_SIZE -> 0 < start_addr (sys h) -> end_addr (sys h) < 2 ^ 32 ->
  Z.of_nat n * PAGE_SIZE < 2 ^ 31 ->
  exists r, sbrk (- (Z.of_nat n * PAGE_SIZE)) h =
    Ok (r, Heap (first_block h) (mem h)
             (HeapT (start_addr (sys h)) (end_addr (sys h) - Z.of_nat n * PAGE_SIZE) (max_addr (sys h)))).
Proof using.
  intros Hs H0 He Hn. unfold sbrk, _sbrk, PAGE_SIZE in *. destruct n as [|n].
  - eexists. cbn [Z.of_nat Z.mul Z.opp Z.eqb mbind res_bind]. rewrite Z.sub_0_r. destruct h as [a b []]. done.
  - remember (Z.of_nat (S n)) as m eqn:Hm. assert (Hm0 : 0 < m) by lia.
    replace (- (m * 4096) =? 0) with false by lia. replace (0 <? - (m * 4096)) with false by lia.
    rewrite Z.opp_involutive, s32_small by lia.
    replace (pages (m * 4096)) with (S n).
    2:{ unfold pages, PAGE_SIZE. rewrite Z.quot_mul, Z.rem_mul by lia. cbn [Z.eqb]. lia. }
    rewrite shrink_run by (unfold PAGE_SIZE; lia). eexists. cbn [mbind res_bind]. unfold PAGE_SIZE. by rewrite <- Hm.
Qed.

(** The new end of the heap: the last block keeps between one and two pages. *)
Lemma new_end_spec q s e :
  0 < q -> q + s = e -> e < 2 ^ 32 -> e mod PAGE_SIZE = 0 -> PAGE_SIZE < s ->
  exists n, Z.land q 0xFFFFF000 +u PAGE_SIZE * 2 = e - Z.of_nat n * PAGE_SIZE /\
    e - Z.of_nat n * PAGE_SIZE = q / PAGE_SIZE * PAGE_SIZE + 2 * PAGE_SIZE /\
    q + PAGE_SIZE < e - Z.of_nat n * PAGE_SIZE.
Proof using.
  intros Hq He H32 Hm Hs. rewrite page_mask by (unfold PAGE_SIZE in *; lia). unfold PAGE_SIZE in *.
  pose proof (Z.div_mod q 4096 ltac:(lia)). pose proof (Z.mod_pos_bound q 4096 ltac:(lia)).
  apply Z.mod_divide in Hm as [d Hd]; [|lia].
  exists (Z.to_nat (d - q / 4096 - 2)). rewrite u32_small by lia. lia.
Qed.

Lemma sbrk_0_bind {B} h (f : Z -> st heap B) : (sbrk 0 ≫= f) h = f (end_addr (sys h)) h.
Proof using. apply st_bind_eq. unfold sbrk, _sbrk. cbn. by destruct h. Qed.

Lemma heap_contract_run h l :
  heap_ok h l ->
  exists h' l', heap_contract h = Ok (tt, h') /\ heap_ok h' l' /\ in_use h' l' = in_use h l /\
    start_addr (sys h') = start_addr (sys h) /\ max_addr (sys h') = max_addr (sys h) /\
    l' = cut (start_addr (sys h)) l /\
    forall x, in_data (in_use h l) x -> mem h' !!! x = mem h !!! x.
Proof using.
  intros Ho. pose proof Ho as [H1 H2 H3 H4 H5 [H6 H7] (H8 & H9 & H10)]. pose proof (heap_ok_hdr h l Ho) as Hh.
  destruct (last_free_snoc l H5) as (l1 & s & ->). pose proof (block_fuel_enough h _ Ho) as Hf.
  rewrite length_app in Hf. cbn [length] in Hf. unfold heap_contract. exec. rewrite H1.
  rewrite (st_bind_eq _ _ _ _ _ (last_block_run l1 h _ s true (block_fuel h) Hh H3 H2 H4 ltac:(lia))).
  pose proof H4 as H4'. apply Forall_app in H4' as [Hs1 Hs2]. apply Forall_singleton in Hs2 as [Hs0 Hs4]. cbn [fst] in *.
  pose proof (chain_last _ _ _ _ _ Hs1 H2) as Hb. pose proof Hb as [G1 G2 G3 G4 G5]. pose proof (total_ge l1 Hs1) as Ht1.
  set (p := start_addr (sys h) + total l1) in *. rewrite total_app in H3. cbn [total] in H3.
  assert (Hp : hdr_ok (sys h) p) by (unfold p, hdr_ok, META in *; lia). exec. rewrite G2.
  destruct (Z.ltb_spec PAGE_SIZE s) as [Hlt|Hge].
  2:{ exists h, (l1 ++ [(s, true)]). split_and!; try done. rewrite cut_snoc. cbn zeta.
      by replace (PAGE_SIZE <? s) with false by lia. }
  rewrite sbrk_0_bind.
  assert (Hp20 : p +u META = p + META) by (apply u32_small; unfold hdr_ok, META in *; lia). rewrite Hp20.
  assert (Hpe : p + META + s = end_addr (sys h)) by (unfold p; lia).
  assert (Hps : p + META +u s = end_addr (sys h)) by (rewrite u32_small; unfold hdr_ok, META in *; lia).
  rewrite Hps, kassert_bind by lia.
  destruct (new_end_spec (p + META) s (end_addr (sys h))) as (n & Hne & Hcut & Hlt2); try done.
  { unfold hdr_ok, META in *. lia. }
  cbn zeta. rewrite Hne. set (e' := end_addr (sys h) - Z.of_nat n * PAGE_SIZE) in *.
  exec. rewrite u32_small by (unfold hdr_ok, META, PAGE_SIZE in *; lia).
  set (h1 := set_mem h (put32 (mem h) (p + 4) (e' - (p + META)))).
  assert (Hinc : s32 (e' - end_addr (sys h)) = - (Z.of_nat n * PAGE_SIZE)).
  { unfold e'. rewrite s32_small; unfold hdr_ok, PAGE_SIZE, META in *; lia. }
  rewrite Hinc. destruct (sbrk_back h1 n) as (r & Hsb); try (cbn; unfold hdr_ok, PAGE_SIZE, META in *; lia).
  rewrite (st_bind_eq _ _ _ _ _ Hsb).
  exists (Heap (first_block h) (mem h1) (HeapT (start_addr (sys h)) e' (max_addr (sys h)))), (l1 ++ [(e' - (p + META), true)]).
  split; [done|]. unfold in_use. cbn [sys start_addr end_addr max_addr mem]. rewrite !alloc_last.
  assert (Hm4 : (e' - (p + META)) mod 4 = 0).
  { apply Z.mod_divide in H7 as [a Ha], H8 as [b Hb8]; [|unfold PAGE_SIZE; lia..].
    apply Z.mod_divide in Hs4 as [c Hc]; [|lia].
    replace (e' - (p + META)) with ((c - Z.of_nat n * 1024) * 4) by (unfold e', PAGE_SIZE in *; lia). apply Z.mod_mul. lia. }
  split; [|split_and!; try done].
  - split; try done; cbn [sys start_addr end_addr max_addr mem].
    + eapply chain_new_last; [done|done| |].
      * intros x Hx. cbn [h1 set_mem mem]. unfold p, META in *. by mem_simp.
      * fold p. cbn [h1 set_mem mem]. unfold hdr_ok, META, PAGE_SIZE in *.
        constructor; unfold MAGIC_HEAD, MAGIC_END in *; mem_simp; done.
    + rewrite total_app. cbn [total]. unfold p. lia.
    + apply Forall_app. split; [done|]. apply Forall_singleton. cbn [fst]. split; [unfold PAGE_SIZE in *; lia|done].
    + apply last_free_app.
    + unfold hdr_ok, META, PAGE_SIZE in *. split; [|lia]. unfold e'. rewrite <- H8.
      replace (end_addr (sys h) - Z.of_nat n * 4096) with (end_addr (sys h) + (- Z.of_nat n) * 4096) by lia.
      apply Z.mod_add. lia.
  - rewrite cut_snoc. cbn zeta. fold p. replace (PAGE_SIZE <? s) with true by lia. do 3 f_equal. unfold e'. lia.
  - intros x (q & t & Hq & Hx). apply alloc_range in Hq; [|done]. cbn [h1 set_mem mem].
    unfold p, META in *. by mem_simp.
Qed.

Lemma free_run h l ptr sz :
  heap_ok h l -> (ptr, sz) ∈ in_use h l ->
  exists h' l', free ptr h = Ok (tt, h') /\ heap_ok h' l' /\ in_use h l ≡ₚ (ptr, sz) :: in_use h' l' /\
    start_addr (sys h') = start_addr (sys h) /\ max_addr (sys h') = max_addr (sys h) /\
    (exists l1 l2, l = l1 ++ (sz, false) :: l2 /\ ptr = start_addr (sys h) + total l1 + META /\
      l' = cut (start_addr (sys h)) (joined l1 sz l2)) /\
    forall x, in_data (in_use h' l') x -> mem h' !!! x = mem h !!! x.
Proof using.
  intros Ho Hq. pose proof Ho as [H1 H2 H3 H4 H5 H6 H7]. pose proof (heap_ok_hdr h l Ho) as Hh.
  pose proof (alloc_range _ _ _ _ H4 Hq) as Hr. unfold free.
  replace (ptr =? 0) with false by (unfold hdr_ok, META in *; lia). exec. rewrite H1.
  destruct (free_search h (start_addr (sys h)) l ptr sz (block_fuel h)) as (h1 & l1 & Hrun & [F1 F2 F3 F4 F5 F6 F7 F9 F8]);
    try done; [pose proof (block_fuel_enough h l Ho); lia|].
  rewrite (st_bind_eq _ _ _ _ _ Hrun).
  assert (Ho1 : heap_ok h1 l1).
  { split; rewrite ?F6; try done; [by rewrite F7|lia]. }
  assert (Hu1 : in_use h1 l1 = alloc (start_addr (sys h)) l1) by (unfold in_use; by rewrite F6).
  destruct (heap_contract_run h1 l1 Ho1) as (h2 & l2 & Hrun2 & Ho2 & Hu2 & Hst & Hmx & Hen & Hd).
  exists h2, l2. split; [done|]. split; [done|]. rewrite Hu2. split; [by rewrite Hu1|].
  rewrite Hst, Hmx, F6. split_and!; try done.
  { destruct F9 as (a & b & E1 & E2 & E3). exists a, b. by rewrite Hen, E3, F6. }
  intros x Hx. rewrite Hd by done. apply F8. right. right. by rewrite <- Hu1.
Qed.

Lemma init_run h :
  heap_new h -> room (sys h) 1 ->
  exists h', init_first_block h = Ok (start_addr (sys h), h') /\
    heap_ok h' [(PAGE_SIZE - META, true)] /\ sys h' = grown (sys h) 1.
Proof using.
  intros (H1 & H2 & H3 & H4) Hr. pose proof Hr as (Hr1 & Hr2 & Hr3 & Hr4 & Hr5). unfold init_first_block.
  rewrite (sbrk_page_bind h 0) by (done || lia). rewrite H2.
  replace (start_addr (sys h) =? 2 ^ 32 - 1) with false by (unfold PAGE_SIZE in *; lia).
  set (p := start_addr (sys h)) in *.
  rewrite (st_bind_eq _ _ _ tt (Heap p (mem h) (grown (sys h) 1))) by done.
  set (h1 := Heap p (mem h) (grown (sys h) 1)).
  assert (Hp : hdr_ok (sys h1) p) by (unfold h1, hdr_ok, grown, META, PAGE_SIZE in *; cbn; lia).
  repeat exec. eexists. split; [unfold mret, st_ret; reflexivity|]. split; [|done].
  unfold set_mem, grown, h1. cbn [first_block mem sys]. split; cbn [first_block mem sys start_addr end_addr].
  - done.
  - split; [|done]. unfold META, MAGIC_HEAD, MAGIC_END, PAGE_SIZE in *. change (start_addr (grown (sys h) 1)) with p.
    constructor; mem_simp; done.
  - unfold grown. cbn [total start_addr end_addr]. rewrite H2. fold p. lia.
  - by apply Forall_singleton.
  - done.
  - unfold grown. cbn [start_addr]. fold p. lia.
  - unfold grown. cbn [start_addr end_addr]. rewrite H2. fold p. unfold PAGE_SIZE in *. split; [|lia].
    by rewrite Z.mod_add by lia.
Qed.

(** The header of a block in use. *)
Lemma chain_block m p l ptr s :
  sizes_ok l -> chain m p l -> (ptr, s) ∈ alloc p l -> exists nx, blk m (ptr - META) s false nx.
Proof using.
  intros Hs. revert p. induction Hs as [|[sz fr] l _ _ IH]; intros p Hc Hq; cbn [alloc chain] in *.
  - by apply elem_of_nil in Hq.
  - destruct Hc as [Hb Hc]. apply elem_of_app in Hq as [Hq|Hq]; [|by eapply IH].
    destruct fr; [by apply elem_of_nil in Hq|]. apply list_elem_of_singleton in Hq. injection Hq as -> ->.
    exists (nxt p sz l). by replace (p + META - META) with p by lia.
Qed.

(** Writing to the data of blocks in use. *)
Lemma chain_data m m' p l :
  sizes_ok l -> (forall x, p <= x -> ~ in_data (alloc p l) x -> m' !!! x = m !!! x) -> chain m p l -> chain m' p l.
Proof using.
  intros Hs. revert p. induction Hs as [|[sz fr] l [Hs0 Hs4] Hs IH]; intros p Hm; cbn [chain alloc fst] in *; [done|].
  assert (Hd : forall x, in_data ((if fr then [] else [(p + META, sz)]) ++ alloc (p + META + sz) l) x ->
    p + META <= x < p + META + sz \/ in_data (alloc (p + META + sz) l) x).
  { intros x (q & t & Hq & Hx). apply elem_of_app in Hq as [Hq|Hq]; [|right; by exists q, t].
    destruct fr; [by apply elem_of_nil in Hq|]. apply list_elem_of_singleton in Hq. injection Hq as -> ->. by left. }
  assert (Hd' : forall x, in_data (alloc (p + META + sz) l) x -> p + META + sz + META <= x).
  { intros x (q & t & Hq & Hx). apply alloc_range in Hq; [lia|done]. }
  intros [Hb Hc]. split.
  - eapply blk_ext; [|done]. intros x Hx. apply Hm; [lia|]. intros [Hi|Hi]%Hd; [lia|]. apply Hd' in Hi. unfold META in *. lia.
  - apply IH; [|done]. intros x Hx Hn. apply Hm; [unfold META in *; lia|]. by intros [Hi|Hi]%Hd; [lia|].
Qed.

Lemma copy_run h l q t p s n :
  heap_ok h l -> (q, t) ∈ in_use h l -> (p, s) ∈ in_use h l -> Z.of_nat n <= t -> Z.of_nat n <= s ->
  copy q p n h = Ok (tt, set_mem h (store (mem h) q (load (mem h) p n))) /\
  heap_ok (set_mem h (store (mem h) q (load (mem h) p n))) l.
Proof using.
  intros Ho Hq Hp Ht Hs. pose proof Ho as [H1 H2 H3 H4 H5 H6 H7].
  pose proof (alloc_range _ _ _ _ H4 Hq) as Rq. pose proof (alloc_range _ _ _ _ H4 Hp) as Rp. split.
  - unfold copy. destruct n as [|n]; [cbn; by destruct h|].
    assert (Hv : forall a, start_addr (sys h) <= a -> a + Z.of_nat (S n) <= end_addr (sys h) -> valid h a (Z.of_nat (S n)) = true).
    { intros a Ha1 Ha2. unfold valid. apply andb_true_intro. split; by apply Z.leb_le. }
    unfold ld, sto, mbind, st_bind. rewrite Hv by (unfold META in *; lia). rewrite length_load.
    rewrite Hv by (unfold META in *; lia). done.
  - split; try done. cbn [mem set_mem sys]. eapply chain_data; [done| |done].
    intros x Hx Hn. apply store_other. rewrite length_load.
    destruct (decide (x < q \/ q + Z.of_nat n <= x)); [done|]. exfalso. apply Hn. exists q, t. split; [done|lia].
Qed.

Lemma malloc_new h sz h1 :
  init_first_block h = Ok (start_addr (sys h), h1) -> first_block h = 0 -> first_block h1 <> 0 ->
  malloc sz h = malloc sz h1.
Proof using.
  intros Hi H0 H1. unfold malloc. rewrite !get_bind. rewrite H0. replace (first_block h1 =? 0) with false by lia.
  cbn [Z.eqb]. by rewrite (st_bind_eq _ _ _ _ _ Hi).
Qed.

(** [malloc] on a heap in order or not yet used. *)
Lemma malloc_run h l sz :
  heap_ok h l \/ heap_new h /\ l = [] ->
  0 <= sz <= 2 ^ 32 - 4 -> room (sys h) (S (need sz)) ->
  exists q h' l', malloc sz h = Ok (q, h') /\ heap_ok h' l' /\
    in_use h' l' ≡ₚ (q, align4 sz) :: in_use h l /\
    start_addr (sys h') = start_addr (sys h) /\ max_addr (sys h') = max_addr (sys h) /\
    forall x, in_data (in_use h l) x -> mem h' !!! x = mem h !!! x.
Proof using.
  intros [Ho|[Hn ->]] Hsz Hr.
  - destruct (malloc_old h l sz Ho Hsz) as (q & k & h' & l' & Hrun & Ho' & [M1 M2 M3 M4 M5 M6 M7 M8]).
    { destruct Hr as (R1 & R2 & R3 & R4 & R5). split; [|unfold PAGE_SIZE in *; lia]. intros i Hi. apply R1. lia. }
    exists q, h', l'. split; [done|]. split; [done|]. unfold in_use. rewrite M6. cbn [grown start_addr max_addr].
    split_and!; try done. intros x Hx. apply M8. by right.
  - destruct (init_run h Hn) as (h1 & Hi & Ho1 & Hs1).
    { destruct Hr as (R1 & R2 & R3 & R4 & R5). split; [|unfold PAGE_SIZE in *; lia]. intros i Hi. apply R1. lia. }
    rewrite (malloc_new h sz h1 Hi); [|apply Hn|rewrite (ho_first _ _ Ho1), Hs1; cbn; destruct Hn; lia].
    destruct (malloc_old h1 _ sz Ho1 Hsz) as (q & k & h' & l' & Hrun & Ho' & [M1 M2 M3 M4 M5 M6 M7 M8]).
    { rewrite Hs1. by apply room_next. }
    exists q, h', l'. split; [done|]. split; [done|]. unfold in_use. rewrite M6, Hs1. cbn [grown start_addr max_addr].
    rewrite Hs1 in M5. cbn [grown start_addr] in M5. split_and!; try done.
    intros x (q' & t & Hq & _). cbn in Hq. by apply elem_of_nil in Hq.
Qed.
End Sbrk.

(** ** Properties *)

(** C25: [malloc].  On a heap in order, or before its first use, and as long as
    the system has pages, [malloc] returns a block of the aligned size that
    lies at a multiple of 4, is added to the blocks in use and is at least a
    header away from each of them; the heap stays in order and the data of the
    other blocks is not touched. *)
Theorem malloc_spec page h l sz :
  heap_ok h l \/ heap_new h /\ l = [] -> 0 <= sz <= 2 ^ 32 - 4 -> room page (sys h) (S (need sz)) ->
  exists q h' l', malloc page sz h = Ok (q, h') /\ heap_ok h' l' /\
    in_use h' l' ≡ₚ (q, align4 sz) :: in_use h l /\ sz <= align4 sz < sz + 4 /\ q mod 4 = 0 /\
    (forall q' s', (q', s') ∈ in_use h l -> q + align4 sz + META <= q' \/ q' + s' + META <= q) /\
    forall x, in_data (in_use h l) x -> mem h' !!! x = mem h !!! x.
Proof.
  intros Ho Hsz Hr. destruct (malloc_run page h l sz Ho Hsz Hr) as (q & h' & l' & Hrun & Ho' & Hu & Hst & _ & Hd).
  exists q, h', l'. split; [done|]. split; [done|]. split; [done|]. split; [by apply align4_spec|].
  pose proof (ho_sizes _ _ Ho') as Hs'. split; [|split; [|done]].
  - apply (alloc_aligned l' (start_addr (sys h')) q (align4 sz)); [done| |].
    + destruct (ho_start _ _ Ho') as [_ Hm]. apply Z.mod_divide in Hm as [a Ha]; [|unfold PAGE_SIZE; lia].
      rewrite Ha. unfold PAGE_SIZE. replace (a * 0x1000) with (a * 1024 * 4) by lia. apply Z.mod_mul. lia.
    + fold (in_use h' l'). rewrite Hu. apply elem_of_cons. by left.
  - intros q' s' Hq. by eapply alloc_perm_sep.
Qed.

(** C26: [free].  Freeing a block in use removes exactly it from the blocks in
    use, keeps the heap in order and does not touch the data of the others.
    The list of blocks afterwards is stated exactly: the block has taken in the
    free block behind it, the free block before it has taken in both ([joined]),
    and, when the last block is then free and larger than a page, the heap ends
    at the second page boundary behind the start of that block's data ([cut]);
    the pages behind are given back.  The list determines the end of the heap.
    A heap without two free neighbours stays one. *)
Theorem free_spec page h l ptr sz :
  heap_ok h l -> (ptr, sz) ∈ in_use h l ->
  exists h' l' l1 l2, free page ptr h = Ok (tt, h') /\ heap_ok h' l' /\
    in_use h l ≡ₚ (ptr, sz) :: in_use h' l' /\
    l = l1 ++ (sz, false) :: l2 /\ ptr = start_addr (sys h) + total l1 + META /\
    l' = cut (start_addr (sys h)) (joined l1 sz l2) /\
    start_addr (sys h') = start_addr (sys h) /\ end_addr (sys h') = start_addr (sys h) + total l' /\
    (coalesced l -> coalesced l') /\
    forall x, in_data (in_use h' l') x -> mem h' !!! x = mem h !!! x.
Proof.
  intros Ho Hq. destruct (free_run page h l ptr sz Ho Hq) as (h' & l' & Hrun & Ho' & Hu & Hst & _ & (l1 & l2 & El & Ep & El') & Hd).
  exists h', l', l1, l2. split_and!; try done.
  - by rewrite <- (ho_end _ _ Ho'), Hst.
  - intros Hc. rewrite El'. apply cut_coalesced, joined_coalesced. by rewrite <- El.
Qed.

(** [realloc].  For a block in use and a size that is not 0 it returns a
    block of the aligned size with the old contents up to the smaller of the
    sizes; the old block is no longer in use, all others are as before. *)
Theorem realloc_spec page h l ptr s sz :
  heap_ok h l -> (ptr, s) ∈ in_use h l -> 0 < sz <= 2 ^ 32 - 4 -> room page (sys h) (S (need sz)) ->
  exists q h' l' rest, realloc page ptr sz h = Ok (q, h') /\ heap_ok h' l' /\
    in_use h l ≡ₚ (ptr, s) :: rest /\ in_use h' l' ≡ₚ (q, align4 sz) :: rest /\
    load (mem h') q (Z.to_nat (Z.min sz s)) = load (mem h) ptr (Z.to_nat (Z.min sz s)) /\
    forall x, in_data rest x -> mem h' !!! x = mem h !!! x.
Proof.
  intros Ho Hp Hsz Hr. pose proof (ho_sizes _ _ Ho) as Hs. pose proof (heap_ok_hdr h l Ho) as Hh.
  pose proof (alloc_range _ _ _ _ Hs Hp) as Rp. pose proof (ho_end _ _ Ho) as He.
  destruct (malloc_run page h l sz (or_introl Ho) ltac:(lia) Hr) as (q & h1 & l1 & Hm & Ho1 & Hu1 & Hst & Hmx & Hd1).
  destruct (align4_spec sz) as [_ Hal]; [lia|].
  assert (Hq1 : (q, align4 sz) ∈ in_use h1 l1) by (rewrite Hu1; apply elem_of_cons; by left).
  assert (Hp1 : (ptr, s) ∈ in_use h1 l1) by (rewrite Hu1; apply elem_of_cons; by right).
  set (n := Z.to_nat (Z.min sz s)).
  destruct (copy_run h1 l1 q (align4 sz) ptr s n Ho1 Hq1 Hp1) as [Hc Ho2]; [lia|lia|].
  set (h2 := set_mem h1 (store (mem h1) q (load (mem h1) ptr n))) in *.
  destruct (free_run page h2 l1 ptr s Ho2 Hp1) as (h3 & l3 & Hf & Ho3 & Hu3 & Hst3 & _ & _ & Hd3).
  change (in_use h2 l1) with (in_use h1 l1) in Hu3. rewrite Hu1 in Hu3.
  destruct (elem_of_Permutation (in_use h l) (ptr, s)) as [Hex _]. destruct (Hex Hp) as [rest Hrest].
  assert (Hu4 : in_use h3 l3 ≡ₚ (q, align4 sz) :: rest).
  { apply (Permutation_cons_inv (a := (ptr, s))). rewrite <- Hu3, Hrest. constructor. }
  destruct (chain_block _ _ _ _ _ Hs (ho_chain _ _ Ho) Hp) as [nx [B1 B2 B3 B4 B5]].
  destruct (chain_block _ _ _ _ _ (ho_sizes _ _ Ho1) (ho_chain _ _ Ho1) Hp1) as [nx1 [C1 C2 C3 C4 C5]].
  assert (Hk : hdr_ok (sys h) (ptr - META)) by (unfold hdr_ok, META in *; lia).
  pose proof (alloc_range _ _ _ _ (ho_sizes _ _ Ho1) Hp1) as Rp1. pose proof (heap_ok_hdr h1 l1 Ho1) as Hh1.
  assert (Hk1 : hdr_ok (sys h1) (ptr - META)).
  { pose proof (ho_end _ _ Ho1). unfold hdr_ok, META in *. lia. }
  exists q, h3, l3, rest. split; [|split; [done|split; [done|split; [done|split]]]].
  - unfold realloc. replace (ptr =? 0) with false by (unfold hdr_ok, META in *; lia).
    replace (sz =? 0) with false by lia. rewrite ret_bind. cbn zeta.
    rewrite u32_small by (unfold hdr_ok, META in *; lia). rewrite magic_head_bind by done.
    rewrite B1, kassert_bind, magic_end_bind, B5, kassert_bind by done.
    rewrite (st_bind_eq _ _ _ _ _ Hm), size_bind, C2 by done.
    replace (Z.to_nat (if sz <? s then sz else s)) with n by (unfold n; f_equal; destruct (Z.ltb_spec sz s); lia).
    by rewrite (st_bind_eq _ _ _ _ _ Hc), (st_bind_eq _ _ _ _ _ Hf).
  - rewrite (load_ext (mem h2)).
    + cbn [h2 set_mem mem]. rewrite <- (length_load (mem h1) ptr n) at 2. rewrite load_store.
      apply load_ext. intros x Hx. apply Hd1. exists ptr, s. split; [done|lia].
    + intros x Hx. apply Hd3. exists q, (align4 sz). split; [|lia]. rewrite Hu4. apply elem_of_cons. by left.
  - intros x (q' & t & Hq' & Hx). rewrite Hd3.
    + cbn [h2 set_mem mem]. assert (Hin : (q', t) ∈ in_use h l) by (rewrite Hrest; apply elem_of_cons; by right).
      rewrite store_other; [apply Hd1; by exists q', t|]. rewrite length_load.
      pose proof (alloc_perm_sep l1 _ q (align4 sz) _ q' t (ho_sizes _ _ Ho1) Hu1 Hin). unfold META in *. lia.
    + exists q', t. split; [|done]. rewrite Hu4. apply elem_of_cons. by right.
Qed.

(** A kernel heap before its first use, and after an allocation of 100 bytes. *)
Definition any_page (a : Z) : res unit := Ok tt.
Definition heap0 : heap := Heap 0 ∅ (HeapT 0xD0000000 0xD0000000 0xE0000000).
Definition heap1 : heap :=
  Eval vm_compute in match malloc any_page 100 heap0 with Ok (_, h) => h | Err _ => heap0 end.

Lemma any_room h k : (0 < start_addr h) -> end_addr h + Z.of_nat k * PAGE_SIZE < max_addr h -> max_addr h < 2 ^ 32 ->
  max_addr h - start_addr h < 2 ^ 31 -> room any_page h k.
Proof. by repeat split. Defined.

Lemma heap1_ok : heap_ok heap1 [(100, false); (3956, true)].
Proof.
  split.
  - reflexivity.
  - split; [|split; [|exact I]]; constructor; vm_compute; reflexivity.
  - reflexivity.
  - repeat (apply Forall_cons; split; [split; [discriminate|reflexivity]|]). apply Forall_nil. exact I.
  - reflexivity.
  - split; reflexivity.
  - repeat split.
Defined.

Lemma malloc_spec_witness :
  exists q h' l', malloc any_page 5000 heap0 = Ok (q, h') /\ heap_ok h' l' /\
    in_use h' l' ≡ₚ [(q, align4 5000)] /\ 5000 <= align4 5000 < 5000 + 4 /\ q mod 4 = 0 /\
    (forall q' s', (q', s') ∈ in_use heap0 [] -> q + align4 5000 + META <= q' \/ q' + s' + META <= q) /\
    forall x, in_data (in_use heap0 []) x -> mem h' !!! x = mem heap0 !!! x.
Proof.
  apply (malloc_spec any_page heap0 [] 5000); [|lia|].
  - right. unfold heap_new. cbn. repeat split.
  - apply any_room; vm_compute; reflexivity.
Defined.

Lemma heap1_block : (0xD0000014, 100) ∈ in_use heap1 [(100, false); (3956, true)].
Proof. apply (bool_decide_unpack _). vm_compute. exact I. Defined.

(** Two blocks are allocated and the first is freed: the second has a free
    block on each side, and more than two pages. *)
Definition heap2 : heap :=
  Eval vm_compute in
    match (p ← malloc any_page 100; malloc any_page 9000;; free any_page p) heap0 with
    | Ok (_, h) => h | Err _ => heap0 end.

Lemma heap2_ok : heap_ok heap2 [(100, true); (9000, false); (3128, true)].
Proof.
  split.
  - reflexivity.
  - split; [|split; [|split; [|exact I]]]; constructor; vm_compute; reflexivity.
  - reflexivity.
  - repeat (apply Forall_cons; split; [split; [discriminate|reflexivity]|]). apply Forall_nil. exact I.
  - reflexivity.
  - split; reflexivity.
  - repeat split.
Defined.

Lemma heap2_block : (0xD000008C, 9000) ∈ in_use heap2 [(100, true); (9000, false); (3128, true)].
Proof. apply (bool_decide_unpack _). vm_compute. exact I. Defined.

Lemma free_spec_witness :
  exists h' l' l1 l2, free any_page 0xD000008C heap2 = Ok (tt, h') /\ heap_ok h' l' /\
    in_use heap2 [(100, true); (9000, false); (3128, true)] ≡ₚ (0xD000008C, 9000) :: in_use h' l' /\
    [(100, true); (9000, false); (3128, true)] = l1 ++ (9000, false) :: l2 /\
    0xD000008C = start_addr (sys heap2) + total l1 + META /\
    l' = cut (start_addr (sys heap2)) (joined l1 9000 l2) /\
    start_addr (sys h') = start_addr (sys heap2) /\ end_addr (sys h') = start_addr (sys heap2) + total l' /\
    (coalesced [(100, true); (9000, false); (3128, true)] -> coalesced l') /\
    forall x, in_data (in_use h' l') x -> mem h' !!! x = mem heap2 !!! x.
Proof. apply free_spec; [apply heap2_ok|apply heap2_block]. Defined.

(** The three blocks become one of 8172 bytes, and one of three pages is given back. *)
Example free_joins_and_cuts :
  joined [(100, true)] 9000 [(3128, true)] = [(12268, true)] /\
  cut 0xD0000000 [(12268, true)] = [(8172, true)] /\
  exists h', free any_page 0xD000008C heap2 = Ok (tt, h') /\ end_addr (sys heap2) = 0xD0003000 /\
    end_addr (sys h') = 0xD0002000 /\ word (mem h') 0xD0000004 = 8172.
Proof. split; [reflexivity|]. split; [reflexivity|]. eexists. split; [vm_compute; reflexivity|]. repeat split. Qed.

Lemma realloc_spec_witness :
  exists q h' l' rest, realloc any_page 0xD0000014 300 heap1 = Ok (q, h') /\ heap_ok h' l' /\
    in_use heap1 [(100, false); (3956, true)] ≡ₚ (0xD0000014, 100) :: rest /\ in_use h' l' ≡ₚ (q, align4 300) :: rest /\
    load (mem h') q 100 = load (mem heap1) 0xD0000014 100 /\
    forall x, in_data rest x -> mem h' !!! x = mem heap1 !!! x.
Proof.
  apply (realloc_spec any_page heap1 [(100, false); (3956, true)] 0xD0000014 100 300).
  - apply heap1_ok.
  - apply heap1_block.
  - lia.
  - apply any_room; vm_compute; reflexivity.
Defined.

(** [realloc(ptr, 0)] frees the block, allocates it again, frees it once more
    and returns it: the caller holds a pointer to a free block. *)
Lemma realloc_0_returns_free_block :
  exists h', realloc any_page 0xD0000014 0 heap1 = Ok (0xD0000014, h') /\ heap_ok h' [(4076, true)].
Proof.
  eexists. split; [vm_compute; reflexivity|]. split; try reflexivity.
  - split; [constructor; vm_compute; reflexivity|exact I].
  - apply Forall_singleton. done.
  - done.
  - done.
Qed.

(** A size next to 2^32 wraps to 0: the block that [malloc] returns is empty. *)
Lemma malloc_wraps :
  align4 0xFFFFFFFD = 0 /\
  exists q h', malloc any_page 0xFFFFFFFD heap1 = Ok (q, h') /\ word (mem h') (q - META + 4) = 0.
Proof. split; [reflexivity|]. do 2 eexists. split; vm_compute; reflexivity. Qed.

(** The product of [calloc] wraps: 65536 * 65536 bytes are an empty block. *)
Lemma calloc_wraps :
  exists q h', calloc any_page 65536 65536 heap1 = Ok (q, h') /\ word (mem h') (q - META + 4) = 0.
Proof. do 2 eexists. split; vm_compute; reflexivity. Qed.

(** The result of [sbrk] is not tested: a heap of at most two pages serves
    9000 bytes from beyond its maximum. *)
Lemma malloc_ignores_limit :
  exists q h', malloc any_page 9000 (Heap 0 ∅ (HeapT 0xD0000000 0xD0000000 0xD0002000)) = Ok (q, h') /\
    max_addr (sys h') < q + 9000 /\ max_addr (sys h') < end_addr (sys h').
Proof. do 2 eexists. split; [vm_compute; reflexivity|]. split; vm_compute; reflexivity. Qed.
End Malloc.
