(* ===== verification/Mem.v ===== *)
(** * Physical and virtual memory (src/mem.c)

    The machine is the physical memory, as words at the multiples of 4, the
    register CR3 and the paging flag; a virtual address is translated by the
    directory and the tables that are themselves in the memory.  The free
    frames are linked by their first words. *)
From S2P Require Import Prelude.

Module Mem.

(** ** Constants *)
Definition PAGE_SIZE : Z := 4096.
Definition P_PRESENT : Z := 1.
Definition P_READ_WRITE : Z := 2.
Definition P_USER : Z := 4.
Definition RESV_PAGE : Z := 0xFFBFE000.
Definition PTABLES_ADDR : Z := 0xFFC00000.
Definition PDIR_ADDR : Z := 0xFFFFF000.
Definition KERNEL_STACK_HI : Z := 0xFF118000.
Definition USER_CODE_START_ADDR : Z := 0x10000000.
Definition USER_STACK_HI : Z := USER_CODE_START_ADDR - PAGE_SIZE.
Definition USER_STACK_LOW : Z := USER_STACK_HI - 10 * PAGE_SIZE.
Definition HEAP_START : Z := 0xD0000000.
Definition HEAP_END : Z := 0xE0000000.
Definition CRT_ADDR : Z := 0xB8000.
Definition MEM_USABLE : Z := 1.

(** ** The machine *)
Record mm := MM {
  phys : gmap Z Z; cr3 : Z; pg_on : bool; last_free_page : Z; num_pages : Z; total_pages : Z; kernel_dir : Z
}.
Definition with_phys (s : mm) (m : gmap Z Z) : mm :=
  MM m (cr3 s) (pg_on s) (last_free_page s) (num_pages s) (total_pages s) (kernel_dir s).
Definition with_free (s : mm) (a n : Z) : mm := MM (phys s) (cr3 s) (pg_on s) a n (total_pages s) (kernel_dir s).

Definition frame_of (e : Z) : Z := Z.land e 0xFFFFF000.
Definition present (e : Z) : bool := negb (Z.land e P_PRESENT =? 0).
Definition dir_index (v : Z) : Z := v / PAGE_SIZE / 1024.
Definition tbl_index (v : Z) : Z := (v / PAGE_SIZE) mod 1024.

Definition prd (m : gmap Z Z) (a : Z) : res Z := match m !! a with Some v => Ok v | None => Err EFault end.
Definition pwr (m : gmap Z Z) (a v : Z) : res (gmap Z Z) :=
  match m !! a with Some _ => Ok (<[a:=v]> m) | None => Err EFault end.

(** The page walk of the processor. *)
Definition walk (m : gmap Z Z) (dir v : Z) : res Z :=
  pde ← prd m (dir + 4 * dir_index v);
  if negb (present pde) then Err EFault
  else
    pte ← prd m (frame_of pde + 4 * tbl_index v);
    if negb (present pte) then Err EFault else Ok (frame_of pte + v mod PAGE_SIZE).
Definition translate (s : mm) (v : Z) : res Z := if pg_on s then walk (phys s) (cr3 s) v else Ok v.

Definition load (v : Z) : st mm Z := fun s => a ← translate s v; w ← prd (phys s) a; Ok (w, s).
Definition store (v w : Z) : st mm unit := fun s => a ← translate s v; m ← pwr (phys s) a w; Ok (tt, with_phys s m).

(** [memset(page, 0, PAGE_SIZE)] and [memcpy(page, page', PAGE_SIZE)] on
    aligned pages, word by word. *)
Fixpoint fill (n : nat) (v : Z) : st mm unit :=
  match n with O => mret tt | S n' => store v 0;; fill n' (v + 4) end.
Fixpoint copy (n : nat) (d v : Z) : st mm unit :=
  match n with O => mret tt | S n' => w ← load v; store d w;; copy n' (d + 4) (v + 4) end.
Definition words : nat := 1024.

(** ** Frames and mappings

    [map] allocates a frame for a new table, [frame_alloc] maps the frame at
    [RESV_PAGE]: the recursion ends when the table of [RESV_PAGE] exists. *)
Definition frame_alloc_with (map : Z -> Z -> Z -> st mm unit) : st mm Z :=
  s ← get;
  kassert (negb (last_free_page s =? 0));;
  let addr := last_free_page s in
  next ← (if pg_on s then
            map RESV_PAGE addr (Z.lor P_PRESENT P_READ_WRITE);;
            next ← load RESV_PAGE;
            store RESV_PAGE 0;;
            map RESV_PAGE 0 0;;
            mret next
          else
            next ← load addr;
            store addr 0;;
            mret next);
  modify (fun s => with_free s next (num_pages s -u 1));;
  mret addr.

Fixpoint map_fuel (n : nat) (virtual_addr physical_addr flags : Z) : st mm unit :=
  match n with
  | O => fail EFuel
  | S n' =>
      let table := PTABLES_ADDR + dir_index virtual_addr * PAGE_SIZE in
      pde ← load (PDIR_ADDR + 4 * dir_index virtual_addr);
      (if pde =? 0 then
         f ← frame_alloc_with (map_fuel n');
         store (PDIR_ADDR + 4 * dir_index virtual_addr) (Z.lor f flags);;
         fill words table
       else mret tt);;
      store (table + 4 * tbl_index virtual_addr) (Z.lor physical_addr flags)
  end.
Definition map : Z -> Z -> Z -> st mm unit := map_fuel 3.
Definition unmap (virtual_addr : Z) : st mm unit := map virtual_addr 0 0.
Definition frame_alloc : st mm Z := frame_alloc_with map.

Definition frame_calloc : st mm Z :=
  addr ← frame_alloc;
  s ← get;
  (if pg_on s then
     map RESV_PAGE addr (Z.lor P_PRESENT P_READ_WRITE);;
     fill words RESV_PAGE;;
     unmap RESV_PAGE
   else fill words addr);;
  mret addr.

Definition frame_free (addr : Z) : st mm unit :=
  kassert (Z.land addr 0xFFF =? 0);;
  s ← get;
  (if pg_on s then
     map RESV_PAGE addr (Z.lor P_PRESENT P_READ_WRITE);;
     store RESV_PAGE (last_free_page s);;
     unmap RESV_PAGE
   else store addr (last_free_page s));;
  modify (fun s => with_free s addr (num_pages s +u 1)).

Definition temp_map (page : Z) : st mm Z := map RESV_PAGE page (Z.lor P_PRESENT P_READ_WRITE);; mret RESV_PAGE.
Definition temp_unmap : st mm unit := unmap RESV_PAGE.

Definition is_mapped (addr : Z) : st mm bool :=
  pde ← load (PDIR_ADDR + 4 * dir_index addr);
  if negb (present pde) then mret false
  else pte ← load (PTABLES_ADDR + dir_index addr * PAGE_SIZE + 4 * tbl_index addr); mret (present pte).

Definition virt_to_phys (addr : Z) : st mm Z :=
  kassert (Z.land addr 0xFFF =? 0);;
  b ← is_mapped addr;
  if negb b then fail EPanic
  else pte ← load (PTABLES_ADDR + dir_index addr * PAGE_SIZE + 4 * tbl_index addr); mret (frame_of pte).

Definition free_page (page : Z) : st mm Z :=
  frame ← virt_to_phys page;
  if frame =? 0 then mret (-1)
  else fill words page;; unmap page;; frame_free frame;; mret 0.

(** ** Contiguous blocks *)

(** Lines 140-146: the first free frame that is followed by the frame below
    it, and the frame before it in the list. *)
Fixpoint block_hi (n : nat) (prev hi : Z) : st mm (Z * Z) :=
  match n with
  | O => fail EFuel
  | S n' =>
      if hi =? 0 then mret (prev, 0)
      else
        addr ← temp_map hi;
        w ← load addr;
        if hi -u PAGE_SIZE =? w then mret (prev, hi) else block_hi n' hi w
  end.
(** Lines 149-162: going down from [hi]; the result is [(found, low, hi, frames)]. *)
Fixpoint block_low (n : nat) (size low hi frames : Z) : st mm (bool * Z * Z * Z) :=
  match n with
  | O => fail EFuel
  | S n' =>
      if low =? 0 then mret (false, low, hi, frames)
      else
        addr ← temp_map low;
        w ← load addr;
        if low -u PAGE_SIZE =? w then
          let frames := frames -i 1 in
          if frames =? 1 then mret (true, w, hi, frames) else block_low n' size w hi frames
        else mret (false, low, low, size / PAGE_SIZE)
  end.
Fixpoint block_search (n : nat) (size prev hi frames : Z) : st mm (Z * Z) :=
  match n with
  | O => fail EFuel
  | S n' =>
      s ← get;
      '(prev, hi) ← block_hi (S (base.size (phys s))) prev hi;
      kassert (0 <? hi);;
      '(found, low, hi, frames) ← block_low (S (base.size (phys s))) size hi hi frames;
      if (found : bool) then mret (prev, low) else block_search n' size prev hi frames
  end.
Definition phys_block_alloc (size : Z) : st mm Z :=
  s ← get;
  '(prev, low) ← block_search (S (base.size (phys s))) size 0 (last_free_page s) (size / PAGE_SIZE);
  addr ← temp_map low;
  next ← load addr;
  (if negb (prev =? 0) then addr ← temp_map prev; store addr next
   else modify (fun s => with_free s next (num_pages s)));;
  temp_unmap;;
  mret low.

(** ** The start *)

(** The loop of [reserve_region]; [kend] is [kinfo.end]. *)
Fixpoint reserve_loop (n : nat) (kend addr length ptr : Z) : st mm unit :=
  match n with
  | O => fail EFuel
  | S n' =>
      if ptr -u addr <? length then
        (if ptr =? 0 then store addr 0
         else if ((CRT_ADDR <=? ptr) && (ptr <=? kend))%bool then mret tt
         else frame_free ptr);;
        reserve_loop n' kend addr length (ptr +u PAGE_SIZE)
      else mret tt
  end.
Definition reserve_region (kend addr length : Z) : st mm unit :=
  reserve_loop (Z.to_nat (length / PAGE_SIZE) + 2) kend addr length addr.
(** The entries of [kinfo.minfo]: base, length and type. *)
Fixpoint reserve_memory (kend : Z) (minfo : list (Z * Z * Z)) : st mm unit :=
  match minfo with
  | [] => mret tt
  | (base, length, type) :: l =>
      (if type =? MEM_USABLE then reserve_region kend (u32 base) (u32 length) else mret tt);;
      reserve_memory kend l
  end.

Definition recursively_map_page_directory (dir : Z) : st mm unit :=
  s ← get;
  if pg_on s then
    map RESV_PAGE dir (Z.lor P_PRESENT P_READ_WRITE);;
    store (RESV_PAGE + 4 * 1023) (Z.lor dir (Z.lor P_PRESENT P_READ_WRITE));;
    unmap RESV_PAGE
  else store (dir + 4 * 1023) (Z.lor dir (Z.lor P_PRESENT P_READ_WRITE)).

Definition identity_map_page (dir addr : Z) : st mm unit :=
  e ← load (dir + 4 * dir_index addr);
  (if negb (present e) then
     f ← frame_calloc; store (dir + 4 * dir_index addr) (Z.lor f (Z.lor P_PRESENT P_READ_WRITE))
   else mret tt);;
  e ← load (dir + 4 * dir_index addr);
  store (frame_of e + 4 * tbl_index addr) (Z.lor addr (Z.lor P_PRESENT P_READ_WRITE)).
Fixpoint identity_loop (n : nat) (kend dir addr : Z) : st mm unit :=
  match n with
  | O => fail EFuel
  | S n' =>
      if addr <=? kend then identity_map_page dir addr;; identity_loop n' kend dir (addr +u PAGE_SIZE) else mret tt
  end.
Definition identity_map_kernel (kend dir : Z) : st mm unit :=
  identity_loop (Z.to_nat (kend / PAGE_SIZE) + 2) kend dir CRT_ADDR;;
  f ← frame_calloc;
  store (dir + 4 * dir_index RESV_PAGE) (Z.lor f (Z.lor P_PRESENT P_READ_WRITE)).

(** The pages of the new kernel stack; [patch_stack] is assembly. *)
Fixpoint move_stack_up (i : nat) : st mm unit :=
  match i with
  | O => mret tt
  | S i' =>
      f ← frame_calloc;
      map (KERNEL_STACK_HI - PAGE_SIZE * Z.of_nat i) f (Z.lor P_PRESENT P_READ_WRITE);;
      move_stack_up i'
  end.

Definition mem_init (kend stack_size : Z) (minfo : list (Z * Z * Z)) : st mm unit :=
  modify (fun s => MM (phys s) (cr3 s) false 0 0 0 0);;
  reserve_memory kend minfo;;
  modify (fun s => MM (phys s) (cr3 s) (pg_on s) (last_free_page s) (num_pages s) (num_pages s) (kernel_dir s));;
  d ← frame_calloc;
  modify (fun s => MM (phys s) (cr3 s) (pg_on s) (last_free_page s) (num_pages s) (total_pages s) d);;
  identity_map_kernel kend d;;
  recursively_map_page_directory d;;
  modify (fun s => MM (phys s) d true (last_free_page s) (num_pages s) (total_pages s) (kernel_dir s));;
  move_stack_up (Z.to_nat (stack_size / PAGE_SIZE)).

(** ** Address spaces *)
Definition link_pde (new_dir old_dir pd_idx : Z) : st mm unit :=
  addr ← temp_map new_dir;
  e ← load (old_dir + 4 * pd_idx);
  store (addr + 4 * pd_idx) e;;
  temp_unmap.

(** The loop of [clone_pde] over the entries of the table. *)
Fixpoint clone_loop (n : nat) (pde pd_idx pt_idx : Z) : st mm unit :=
  match n with
  | O => mret tt
  | S n' =>
      e ← load (PTABLES_ADDR + pd_idx * PAGE_SIZE + 4 * pt_idx);
      (if present e then
         pte ← frame_calloc;
         addr ← temp_map pte;
         copy words addr (pd_idx * 1024 * PAGE_SIZE + pt_idx * PAGE_SIZE);;
         temp_unmap;;
         addr ← temp_map pde;
         store (addr + 4 * pt_idx) (Z.lor pte (Z.land e 0xFFF));;
         temp_unmap
       else mret tt);;
      clone_loop n' pde pd_idx (pt_idx + 1)
  end.
Definition clone_pde (new_dir old_dir pd_idx : Z) : st mm unit :=
  e ← load (old_dir + 4 * pd_idx);
  pde ← frame_calloc;
  addr ← temp_map new_dir;
  store (addr + 4 * pd_idx) (Z.lor pde (Z.land e 0xFFF));;
  temp_unmap;;
  clone_loop words pde pd_idx 0.

Fixpoint free_loop (n : nat) (pde pt_idx : Z) : st mm unit :=
  match n with
  | O => mret tt
  | S n' =>
      addr ← temp_map (frame_of pde);
      pte ← load (addr + 4 * pt_idx);
      temp_unmap;;
      (if present pte then frame_free (frame_of pte) else mret tt);;
      free_loop n' pde (pt_idx + 1)
  end.
Definition free_pde (dir pd_idx : Z) : st mm unit :=
  addr ← temp_map dir;
  pde ← load (addr + 4 * pd_idx);
  temp_unmap;;
  if present pde then free_loop words pde 0;; frame_free (frame_of pde) else mret tt.

(** Whether all address spaces share the 4 MB of an entry. *)
Definition shared (pd_idx : Z) : bool :=
  ((pd_idx <? USER_STACK_LOW / 1024 / PAGE_SIZE) ||
   ((HEAP_START / 1024 / PAGE_SIZE <=? pd_idx) && (pd_idx <? HEAP_END / 1024 / PAGE_SIZE)))%bool.

Fixpoint clone_dir_loop (n : nat) (new_dir pd_idx : Z) : st mm unit :=
  match n with
  | O => mret tt
  | S n' =>
      e ← load (PDIR_ADDR + 4 * pd_idx);
      (if present e then
         if shared pd_idx then link_pde new_dir PDIR_ADDR pd_idx else clone_pde new_dir PDIR_ADDR pd_idx
       else mret tt);;
      clone_dir_loop n' new_dir (pd_idx + 1)
  end.
Definition clone_directory : st mm Z :=
  new_dir ← frame_calloc;
  clone_dir_loop 1023 new_dir 0;;
  recursively_map_page_directory new_dir;;
  mret new_dir.

Fixpoint free_dir_loop (n : nat) (dir pd_idx : Z) : st mm unit :=
  match n with
  | O => mret tt
  | S n' =>
      (if shared pd_idx then mret tt else free_pde dir pd_idx);;
      free_dir_loop n' dir (pd_idx + 1)
  end.
Definition free_directory (dir : Z) : st mm unit :=
  p ← virt_to_phys PDIR_ADDR;
  kassert (negb (p =? dir));;
  free_dir_loop 1023 dir 0;;
  frame_free dir.
End Mem.
