(* ===== verification/MemSpec.v ===== *)
(** * The theorems on memory

    The invariant of the page tables and of the free frames, and what the
    operations of Mem.v do to the translation of addresses. *)
From S2P Require Import Prelude Mem.

Module MemSpec.
Import Mem.

(** ** Addresses *)
Definition aligned (a : Z) : Prop := a mod 4096 = 0 /\ 0 <= a < 2 ^ 32.

Lemma frame_of_div e : 0 <= e < 2 ^ 32 -> frame_of e = e / 4096 * 4096.
Proof.
  intros He. unfold frame_of. change 0xFFFFF000 with (Z.shiftl (Z.ones 20) 12).
  replace (e / 4096 * 4096) with (Z.shiftl (Z.shiftr e 12) 12) by (rewrite Z.shiftl_mul_pow2, Z.shiftr_div_pow2 by lia; done).
  apply Z.bits_inj'. intros n Hn.
  rewrite Z.land_spec. destruct (Z.ltb_spec n 12).
  - rewrite !Z.shiftl_spec_low by done. apply andb_false_r.
  - rewrite !Z.shiftl_spec, Z.shiftr_spec by lia. replace (n - 12 + 12) with n by lia.
    destruct (Z.ltb_spec n 32).
    + rewrite Z.ones_spec_low by lia. apply andb_true_r.
    + rewrite (testbit_small e 32 n) by lia. done.
Qed.
Lemma present_odd e : present e = Z.odd e.
Proof. unfold present, P_PRESENT. change 1 with (Z.ones 1). rewrite Z.land_ones by lia. change (2 ^ 1) with 2. rewrite Zmod_odd. by destruct (Z.odd e). Qed.

Lemma lor_flags a f : aligned a -> 0 <= f < 4096 -> Z.lor a f = a + f.
Proof.
  intros [Ha Hr] Hf. pose proof (lor_shiftl_add (a / 4096) f 12 ltac:(lia) ltac:(lia)) as E.
  rewrite Z.shiftl_mul_pow2 in E by lia. change (2 ^ 12) with 4096 in E.
  replace (a / 4096 * 4096) with a in E; [done|]. rewrite Z.mul_comm. apply Z.div_exact in Ha; lia.
Qed.
Lemma frame_of_lor a f : aligned a -> 0 <= f < 4096 -> frame_of (Z.lor a f) = a.
Proof.
  intros Ha Hf. rewrite lor_flags by done. destruct Ha as [Ha Hr].
  assert (Ha' : a = 4096 * (a / 4096)) by (apply Z.div_exact; lia).
  assert (Hb : a / 4096 < 2 ^ 20) by (apply Z.div_lt_upper_bound; lia).
  rewrite frame_of_div by lia. replace ((a + f) / 4096) with (a / 4096); [lia|].
  rewrite Ha' at 2. rewrite (Z.mul_comm 4096), Z.div_add_l by lia. rewrite (Z.div_small f) by lia. lia.
Qed.
Lemma present_lor a f : aligned a -> 0 <= f < 4096 -> present (Z.lor a f) = Z.odd f.
Proof.
  intros Ha Hf. rewrite lor_flags, present_odd, Z.odd_add by done. destruct Ha as [Ha _].
  assert (Ha' : a = 2 * (2048 * (a / 4096))) by (rewrite Z.mul_assoc; apply Z.div_exact; lia).
  rewrite Ha', Z.odd_mul. change (Z.odd 2) with false. cbn [andb]. by destruct (Z.odd f).
Qed.
Lemma frame_aligned e : 0 <= e < 2 ^ 32 -> aligned (frame_of e).
Proof.
  intros He. rewrite frame_of_div by done. split; [by rewrite Z.mod_mul by lia|].
  pose proof (Z.div_pos e 4096 ltac:(lia) ltac:(lia)). pose proof (Z.mul_div_le e 4096 ltac:(lia)). lia.
Qed.

(** Words of different frames, or at different places, are different. *)
Lemma word_inj x i y j :
  aligned x -> aligned y -> 0 <= i < 1024 -> 0 <= j < 1024 -> x + 4 * i = y + 4 * j -> x = y /\ i = j.
Proof.
  intros [Hx _] [Hy _] Hi Hj E. apply Z.mod_divide in Hx as [a ->]; [|lia]. apply Z.mod_divide in Hy as [b ->]; [|lia]. lia.
Qed.
Lemma word_ne x i y j :
  aligned x -> aligned y -> 0 <= i < 1024 -> 0 <= j < 1024 -> x <> y -> x + 4 * i <> y + 4 * j.
Proof. intros Hx Hy Hi Hj Hne E. by apply word_inj in E as [? _]. Qed.

Definition has_frame (m : gmap Z Z) (a : Z) : Prop := forall i, 0 <= i < 1024 -> exists w, m !! (a + 4 * i) = Some w.

Lemma index_bounds v : 0 <= v < 2 ^ 32 -> 0 <= dir_index v < 1024 /\ 0 <= tbl_index v < 1024.
Proof.
  intros Hv. unfold dir_index, tbl_index, PAGE_SIZE. split; [|apply Z.mod_pos_bound; lia].
  rewrite Z.div_div by lia. split; [apply Z.div_pos; lia|]. apply Z.div_lt_upper_bound; lia.
Qed.
(** A page is given by its two indices. *)
Lemma index_page v w :
  dir_index v = dir_index w -> tbl_index v = tbl_index w -> v / 4096 = w / 4096.
Proof.
  unfold dir_index, tbl_index, PAGE_SIZE. intros H1 H2. rewrite (Z.div_mod (v / 4096) 1024), (Z.div_mod (w / 4096) 1024) by lia. lia.
Qed.
Lemma index_in_page v i : aligned v -> 0 <= i < 4096 ->
  dir_index (v + i) = dir_index v /\ tbl_index (v + i) = tbl_index v /\ (v + i) mod 4096 = i /\ (v + i) / 4096 = v / 4096.
Proof.
  intros [Hv _] Hi. apply Z.mod_divide in Hv as [k ->]; [|lia].
  assert (E : (k * 4096 + i) / 4096 = k) by (rewrite Z.div_add_l, (Z.div_small i) by lia; lia).
  assert (E' : k * 4096 / 4096 = k) by (apply Z.div_mul; lia).
  unfold dir_index, tbl_index, PAGE_SIZE. rewrite E, E'. split_and!; try done. rewrite Z.add_comm, Z.mod_add by lia. apply Z.mod_small. lia.
Qed.
(** ** The invariant of the memory *)

(** The free frames from [a] on. *)
Fixpoint frames (m : gmap Z Z) (a : Z) (fl : list Z) : Prop :=
  match fl with
  | [] => a = 0
  | f :: fl' => a = f /\ aligned f /\ f <> 0 /\ has_frame m f /\ exists n, m !! f = Some n /\ frames m n fl'
  end.

(** The directory maps itself at its last entry; the tables of the other
    entries are frames of their own; no free frame is a table, the directory or
    mapped by a table. *)
Record base (s : mm) (fl : list Z) : Prop := Base {
  ok_on : pg_on s = true;
  ok_words : forall a w, phys s !! a = Some w -> 0 <= w < 2 ^ 32;
  ok_cr3 : aligned (cr3 s) /\ has_frame (phys s) (cr3 s) /\ cr3 s ∉ fl;
  ok_rec : phys s !! (cr3 s + 4 * 1023) = Some (Z.lor (cr3 s) 3);
  ok_dir : forall d e, 0 <= d < 1023 -> phys s !! (cr3 s + 4 * d) = Some e -> e <> 0 ->
    present e = true /\ has_frame (phys s) (frame_of e) /\ frame_of e <> cr3 s /\ frame_of e ∉ fl;
  ok_distinct : forall d d' e e', 0 <= d < 1023 -> 0 <= d' < 1023 ->
    phys s !! (cr3 s + 4 * d) = Some e -> phys s !! (cr3 s + 4 * d') = Some e' -> e <> 0 -> e' <> 0 ->
    frame_of e = frame_of e' -> d = d';
  ok_resv : exists e, phys s !! (cr3 s + 4 * 1022) = Some e /\ e <> 0;
  ok_pte : forall d t e w, 0 <= d < 1023 -> 0 <= t < 1024 -> phys s !! (cr3 s + 4 * d) = Some e -> e <> 0 ->
    phys s !! (frame_of e + 4 * t) = Some w -> present w = true -> frame_of w ∉ fl
}.
Record ok (s : mm) (fl : list Z) : Prop := Good {
  ok_base : base s fl;
  ok_free : frames (phys s) (last_free_page s) fl;
  ok_nodup : NoDup fl;
  ok_count : num_pages s = u32 (Z.of_nat (length fl))
}.

Lemma base_sub s fl fl' : base s fl -> (forall a, a ∈ fl' -> a ∈ fl) -> base s fl'.
Proof.
  intros [H1 H2 (H3a & H3b & H3c) H4 H5 H6 H7 H8] Hsub. split; try done.
  - split_and!; auto.
  - intros d e Hd He H0. destruct (H5 d e Hd He H0) as (?&?&?&?). split_and!; auto.
  - intros d t e w Hd Ht He H0 Hw Hp Hin. apply (H8 d t e w); auto.
Qed.

Lemma frames_in m a fl f : frames m a fl -> f ∈ fl -> aligned f /\ f <> 0 /\ has_frame m f.
Proof.
  revert a. induction fl as [|g fl IH]; intros a; [set_solver|]. intros (-> & Hal & H0 & Hf & n & _ & Hr) [-> |Hin]%elem_of_cons; eauto.
Qed.
(** The list depends on the words of its frames only. *)
Lemma frames_frame m m' a fl :
  frames m a fl -> (forall f i, f ∈ fl -> 0 <= i < 1024 -> m' !! (f + 4 * i) = m !! (f + 4 * i)) -> frames m' a fl.
Proof.
  revert a. induction fl as [|g fl IH]; intros a; [done|]. intros (-> & Hal & H0 & Hf & n & Hn & Hr) Hm.
  split_and!; try done.
  - intros i Hi. rewrite Hm by set_solver. auto.
  - exists n. split; [|apply IH; [done|]; intros f i Hfin; apply Hm; set_solver].
    rewrite <- (Z.add_0_r g). change (g + 0) with (g + 4 * 0). rewrite Hm; [|set_solver|lia]. by replace (g + 4 * 0) with g by lia.
Qed.

(** ** Page walks *)
Lemma prd_Some m a w : m !! a = Some w -> prd m a = Ok w.
Proof. intros H. unfold prd. by rewrite H. Qed.
Lemma pwr_Some m a w v : m !! a = Some w -> pwr m a v = Ok (<[a:=v]> m).
Proof. intros H. unfold pwr. by rewrite H. Qed.

Section Walks.
Variables (s : mm) (fl : list Z).
Hypothesis Hok : base s fl.

Lemma walk_entry v e w :
  phys s !! (cr3 s + 4 * dir_index v) = Some e -> present e = true ->
  phys s !! (frame_of e + 4 * tbl_index v) = Some w -> present w = true ->
  translate s v = Ok (frame_of w + v mod 4096).
Proof.
  intros He Hpe Hw Hpw. unfold translate, walk. rewrite (ok_on _ _ Hok), (prd_Some _ _ _ He). cbn [mbind res_bind].
  rewrite Hpe. cbn [negb]. rewrite (prd_Some _ _ _ Hw). cbn [mbind res_bind]. by rewrite Hpw.
Qed.

Lemma rec_entry : present (Z.lor (cr3 s) 3) = true /\ frame_of (Z.lor (cr3 s) 3) = cr3 s.
Proof. destruct (ok_cr3 _ _ Hok) as (Ha & _). split; [by rewrite present_lor|by rewrite frame_of_lor]. Qed.

Lemma pdir_index d : 0 <= d < 1024 ->
  dir_index (PDIR_ADDR + 4 * d) = 1023 /\ tbl_index (PDIR_ADDR + 4 * d) = 1023 /\ (PDIR_ADDR + 4 * d) mod 4096 = 4 * d.
Proof.
  intros Hd. destruct (index_in_page PDIR_ADDR (4 * d)) as (E1 & E2 & E3 & _); [split; [done|unfold PDIR_ADDR; lia]|lia|].
  rewrite E1, E2, E3. done.
Qed.
Lemma ptable_index d t : 0 <= d < 1024 -> 0 <= t < 1024 ->
  let v := PTABLES_ADDR + d * PAGE_SIZE + 4 * t in dir_index v = 1023 /\ tbl_index v = d /\ v mod 4096 = 4 * t.
Proof.
  intros Hd Ht v. destruct (index_in_page (PTABLES_ADDR + d * PAGE_SIZE) (4 * t)) as (E1 & E2 & E3 & _); [|lia|].
  - unfold PTABLES_ADDR, PAGE_SIZE. split; [|lia]. rewrite Z.mod_add by lia. done.
  - unfold v. rewrite E1, E2, E3. unfold dir_index, tbl_index, PTABLES_ADDR, PAGE_SIZE. rewrite Z.div_add by lia.
    change (0xFFC00000 / 4096) with (1023 * 1024). split_and!; [|rewrite Z.add_comm, Z.mod_add by lia; apply Z.mod_small; lia|done].
    rewrite Z.div_add_l, (Z.div_small d) by lia. lia.
Qed.

(** The directory and the tables appear in the last 4 MB. *)
Lemma translate_pdir d : 0 <= d < 1024 -> translate s (PDIR_ADDR + 4 * d) = Ok (cr3 s + 4 * d).
Proof.
  intros Hd. destruct (pdir_index d Hd) as (E1 & E2 & E3). destruct rec_entry as [Hp Hf].
  rewrite (walk_entry _ (Z.lor (cr3 s) 3) (Z.lor (cr3 s) 3)); [by rewrite Hf, E3|rewrite E1; apply Hok|done|rewrite Hf, E2; apply Hok|done].
Qed.
Lemma translate_ptable d t e :
  0 <= d < 1023 -> 0 <= t < 1024 -> phys s !! (cr3 s + 4 * d) = Some e -> e <> 0 ->
  translate s (PTABLES_ADDR + d * PAGE_SIZE + 4 * t) = Ok (frame_of e + 4 * t).
Proof.
  intros Hd Ht He H0. destruct (ptable_index d t ltac:(lia) Ht) as (E1 & E2 & E3). destruct rec_entry as [Hp Hf].
  destruct (ok_dir _ _ Hok d e Hd He H0) as (Hpe & _).
  rewrite (walk_entry _ (Z.lor (cr3 s) 3) e); [by rewrite E3|rewrite E1; apply Hok|done|by rewrite Hf, E2|done].
Qed.

Lemma dir_word d : 0 <= d < 1024 -> exists e, phys s !! (cr3 s + 4 * d) = Some e /\ 0 <= e < 2 ^ 32.
Proof.
  intros Hd. destruct (ok_cr3 _ _ Hok) as (_ & Hf & _). destruct (Hf d Hd) as (e & He). exists e. split; [done|]. by apply (ok_words _ _ Hok) in He.
Qed.
Lemma load_dir d e : 0 <= d < 1024 -> phys s !! (cr3 s + 4 * d) = Some e -> load (PDIR_ADDR + 4 * d) s = Ok (e, s).
Proof. intros Hd He. unfold load. rewrite translate_pdir by done. cbn [mbind res_bind]. by rewrite (prd_Some _ _ _ He). Qed.

Lemma table_aligned d e : 0 <= d < 1023 -> phys s !! (cr3 s + 4 * d) = Some e -> e <> 0 -> aligned (frame_of e).
Proof. intros Hd He H0. apply frame_aligned. by apply (ok_words _ _ Hok) in He. Qed.

(** [map] when the table is there: one word of the table changes. *)
Lemma map_present n v p f e :
  0 <= v < 2 ^ 32 -> dir_index v < 1023 -> phys s !! (cr3 s + 4 * dir_index v) = Some e -> e <> 0 ->
  map_fuel (S n) v p f s = Ok (tt, with_phys s (<[frame_of e + 4 * tbl_index v := Z.lor p f]> (phys s))).
Proof.
  intros Hv Hd He H0. destruct (index_bounds v Hv) as [Hdi Hti]. cbn [map_fuel].
  rewrite (st_bind_eq _ _ _ _ _ (load_dir _ e Hdi He)). replace (e =? 0) with false by lia.
  rewrite (st_bind_eq _ _ s tt s) by done. unfold store. rewrite (translate_ptable _ _ e) by (done || lia). cbn [mbind res_bind].
  destruct (ok_dir _ _ Hok (dir_index v) e ltac:(lia) He H0) as (_ & Hf & _). destruct (Hf _ Hti) as (w & Hw). by rewrite (pwr_Some _ _ _ _ Hw).
Qed.
End Walks.

(** ** Writes that keep the invariant *)
Lemma base_write s fl m' :
  base s fl ->
  (forall a w, phys s !! a = Some w -> exists w', m' !! a = Some w') ->
  (forall a w, m' !! a = Some w -> 0 <= w < 2 ^ 32) ->
  (forall d, 0 <= d < 1024 -> m' !! (cr3 s + 4 * d) = phys s !! (cr3 s + 4 * d)) ->
  (forall d t e w, 0 <= d < 1023 -> 0 <= t < 1024 -> phys s !! (cr3 s + 4 * d) = Some e -> e <> 0 ->
     m' !! (frame_of e + 4 * t) = Some w -> present w = true -> frame_of w ∉ fl) ->
  base (with_phys s m') fl.
Proof.
  intros [H1 H2 (H3a & H3b & H3c) H4 H5 H6 H7 H8] Hdom Hw Hdir Hpte.
  assert (Hhas : forall a, has_frame (phys s) a -> has_frame m' a) by (intros a Ha i Hi; destruct (Ha i Hi) as (w & E); eauto).
  split; cbn [pg_on phys cr3 with_phys]; try done.
  - split_and!; auto.
  - by rewrite Hdir by lia.
  - intros d e Hd He H0. rewrite Hdir in He by lia. destruct (H5 d e Hd He H0) as (?&?&?&?). split_and!; auto.
  - intros d d' e e' Hd Hd' He He'. rewrite Hdir in He, He' by lia. eauto.
  - by rewrite Hdir by lia.
  - intros d t e w Hd Ht He. rewrite Hdir in He by lia. eauto.
Qed.

(** The entry [t] of the table [d]. *)
Lemma base_pte s fl d t e w :
  base s fl -> 0 <= d < 1023 -> 0 <= t < 1024 -> phys s !! (cr3 s + 4 * d) = Some e -> e <> 0 -> 0 <= w < 2 ^ 32 ->
  (present w = true -> frame_of w ∉ fl) -> base (with_phys s (<[frame_of e + 4 * t := w]> (phys s))) fl.
Proof.
  intros Hb Hd Ht He H0 Hw Hpw. destruct (ok_dir _ _ Hb d e Hd He H0) as (Hpe & Hfe & Hne & Hnf).
  pose proof (table_aligned _ _ Hb d e Hd He H0) as Hae. destruct (ok_cr3 _ _ Hb) as (Hac & _).
  apply base_write; [done|..].
  - intros a w0 Ha. destruct (decide (a = frame_of e + 4 * t)) as [->|]; [rewrite lookup_insert_eq|rewrite lookup_insert_ne by congruence]; eauto.
  - intros a w0 Ha. apply lookup_insert_Some in Ha as [[_ <-]|[_ Ha]]; [done|]. by apply (ok_words _ _ Hb) in Ha.
  - intros d' Hd'. apply lookup_insert_ne. by apply word_ne.
  - intros d' t' e' w' Hd' Ht' He' H0' Hl Hp. pose proof (table_aligned _ _ Hb d' e' Hd' He' H0') as Hae'.
    apply lookup_insert_Some in Hl as [[_ <-]|[_ Hl]]; [auto|]. by apply (ok_pte _ _ Hb d' t' e' w').
Qed.

(** A word of a frame that is not part of the page tables. *)
Definition plain (s : mm) (a : Z) : Prop :=
  aligned a /\ a <> cr3 s /\ forall d e, 0 <= d < 1023 -> phys s !! (cr3 s + 4 * d) = Some e -> e <> 0 -> frame_of e <> a.
Lemma base_data s fl a i w w0 :
  base s fl -> plain s a -> 0 <= i < 1024 -> phys s !! (a + 4 * i) = Some w0 -> 0 <= w < 2 ^ 32 ->
  base (with_phys s (<[a + 4 * i := w]> (phys s))) fl.
Proof.
  intros Hb (Haa & Hne & Hnt) Hi Hw0 Hw. destruct (ok_cr3 _ _ Hb) as (Hac & _). apply base_write; [done|..].
  - intros x v Hx. destruct (decide (x = a + 4 * i)) as [->|]; [rewrite lookup_insert_eq|rewrite lookup_insert_ne by congruence]; eauto.
  - intros x v Hx. apply lookup_insert_Some in Hx as [[_ <-]|[_ Hx]]; [done|]. by apply (ok_words _ _ Hb) in Hx.
  - intros d' Hd'. apply lookup_insert_ne. by apply word_ne.
  - intros d' t' e' w' Hd' Ht' He' H0' Hl Hp. pose proof (table_aligned _ _ Hb d' e' Hd' He' H0') as Hae'.
    rewrite lookup_insert_ne in Hl; [by apply (ok_pte _ _ Hb d' t' e' w')|]. apply word_ne; try done. intros E. by apply (Hnt d' e').
Qed.
(** ** The reserved page *)
Lemma resv_index i : 0 <= i < 1024 ->
  dir_index (RESV_PAGE + 4 * i) = 1022 /\ tbl_index (RESV_PAGE + 4 * i) = 1022 /\ (RESV_PAGE + 4 * i) mod 4096 = 4 * i.
Proof.
  intros Hi. destruct (index_in_page RESV_PAGE (4 * i)) as (E1 & E2 & E3 & _); [split; [done|unfold RESV_PAGE; lia]|lia|].
  rewrite E1, E2, E3. done.
Qed.

(** The entry of the reserved page in its table. *)
Definition resv_slot (e : Z) : Z := frame_of e + 4 * 1022.

Section Resv.
Variables (s : mm) (fl : list Z) (e : Z).
Hypotheses (Hb : base s fl) (He : phys s !! (cr3 s + 4 * 1022) = Some e) (H0 : e <> 0).

Definition at_resv (a : Z) : mm := with_phys s (<[resv_slot e := Z.lor a 3]> (phys s)).

Lemma map_resv n p f :
  map_fuel (S n) RESV_PAGE p f s = Ok (tt, with_phys s (<[resv_slot e := Z.lor p f]> (phys s))).
Proof. exact (map_present s fl Hb n RESV_PAGE p f e ltac:(unfold RESV_PAGE; lia) eq_refl He H0). Qed.

Lemma lor3_range a : aligned a -> 0 <= Z.lor a 3 < 2 ^ 32.
Proof. intros Ha. apply lor_u32; [|lia]. by destruct Ha. Qed.

Lemma base_at_resv a fl' : aligned a -> a ∉ fl' -> (forall x, x ∈ fl' -> x ∈ fl) -> base (at_resv a) fl'.
Proof.
  intros Ha Hn Hsub. apply (base_pte s fl' 1022); [by eapply base_sub|lia|lia|done|done|by apply lor3_range|].
  intros _. by rewrite frame_of_lor.
Qed.
Lemma base_resv_0 : base (with_phys s (<[resv_slot e := 0]> (phys s))) fl.
Proof. by apply (base_pte s fl 1022). Qed.

Lemma translate_resv a i : aligned a -> 0 <= i < 1024 -> translate (at_resv a) (RESV_PAGE + 4 * i) = Ok (a + 4 * i).
Proof.
  intros Ha Hi. destruct (resv_index i Hi) as (E1 & E2 & E3).
  assert (Hb' : base (at_resv a) []) by (apply base_at_resv; [done|set_solver..]).
  destruct (ok_dir _ _ Hb 1022 e ltac:(lia) He H0) as (Hp & _ & Hne & _). destruct (ok_cr3 _ _ Hb) as (Hac & _).
  pose proof (table_aligned _ _ Hb 1022 e ltac:(lia) He H0) as Hae.
  rewrite (walk_entry (at_resv a) [] Hb' _ e (Z.lor a 3)).
  - by rewrite frame_of_lor, E3.
  - rewrite E1. cbn. rewrite lookup_insert_ne; [done|]. apply (word_ne _ 1022 _ 1022); (done || lia).
  - done.
  - rewrite E2. cbn. by rewrite lookup_insert_eq.
  - by rewrite present_lor.
Qed.

Lemma load_resv a w : aligned a -> phys (at_resv a) !! a = Some w -> load RESV_PAGE (at_resv a) = Ok (w, at_resv a).
Proof.
  intros Ha Hw. unfold load. pose proof (translate_resv a 0 Ha ltac:(lia)) as E. rewrite !Z.mul_0_r, !Z.add_0_r in E.
  rewrite E. cbn [mbind res_bind]. by rewrite (prd_Some _ _ _ Hw).
Qed.
Lemma store_resv a w v :
  aligned a -> phys (at_resv a) !! a = Some w ->
  store RESV_PAGE v (at_resv a) = Ok (tt, with_phys (at_resv a) (<[a := v]> (phys (at_resv a)))).
Proof.
  intros Ha Hw. unfold store. pose proof (translate_resv a 0 Ha ltac:(lia)) as E. rewrite !Z.mul_0_r, !Z.add_0_r in E.
  rewrite E. cbn [mbind res_bind]. by rewrite (pwr_Some _ _ _ _ Hw).
Qed.
End Resv.

Lemma ok_entry s fl : base s fl -> exists e, phys s !! (cr3 s + 4 * 1022) = Some e /\ e <> 0 /\ aligned (frame_of e) /\
  frame_of e <> cr3 s /\ frame_of e ∉ fl.
Proof.
  intros Hb. destruct (ok_resv _ _ Hb) as (e & He & H0). exists e. destruct (ok_dir _ _ Hb 1022 e ltac:(lia) He H0) as (_ & _ & Hne & Hnf).
  split_and!; try done. by apply (table_aligned _ _ Hb 1022).
Qed.
Lemma free_plain s fl a : base s fl -> a ∈ fl -> aligned a -> plain s a.
Proof.
  intros Hb Ha Hal. split; [done|]. destruct (ok_cr3 _ _ Hb) as (_ & _ & Hc). split; [by intros ->|].
  intros d e Hd He H0 <-. by destruct (ok_dir _ _ Hb d e Hd He H0) as (_ & _ & _ & ?).
Qed.
(** A frame that is not part of the page tables stays so. *)
Lemma plain_write s m' a :
  plain s a -> (forall d, 0 <= d < 1023 -> m' !! (cr3 s + 4 * d) = phys s !! (cr3 s + 4 * d)) -> plain (with_phys s m') a.
Proof.
  intros (Ha & Hc & Ht) Hdir. split_and!; try done. cbn. intros d e Hd He. rewrite Hdir in He by done. eauto.
Qed.

(** Lists of frames and writes outside of them. *)
Lemma frames_write m a fl x v : frames m a fl -> (forall f i, f ∈ fl -> 0 <= i < 1024 -> x <> f + 4 * i) -> frames (<[x:=v]> m) a fl.
Proof. intros Hf Hx. eapply frames_frame; [done|]. intros f i Hfin Hi. apply lookup_insert_ne. auto. Qed.
Lemma frame_word f : f = f + 4 * 0.
Proof. lia. Qed.

(** ** frame_alloc and frame_free *)
Section Alloc.
Variables (s : mm) (a : Z) (l : list Z).
Hypothesis Hok : ok s (a :: l).

Lemma alloc_facts :
  exists e nx, phys s !! (cr3 s + 4 * 1022) = Some e /\ e <> 0 /\ phys s !! a = Some nx /\ 0 <= nx < 2 ^ 32 /\
    last_free_page s = a /\ aligned a /\ a <> 0 /\ has_frame (phys s) a /\ plain s a /\ a ∉ l /\ a <> frame_of e /\
    aligned (frame_of e) /\ frame_of e ∉ l /\ frames (phys s) nx l.
Proof.
  pose proof (ok_base _ _ Hok) as Hb. destruct (ok_entry s _ Hb) as (e & He & H0 & Hae & _ & Hnf).
  destruct (ok_free _ _ Hok) as (Hl & Hal & Ha0 & Hfr & nx & Hnx & Hrest). exists e, nx.
  pose proof (ok_nodup _ _ Hok) as Hnd. apply NoDup_cons in Hnd as [Hna _].
  pose proof (ok_words _ _ Hb _ _ Hnx).
  assert (Hpl : plain s a) by (apply (free_plain s (a :: l)); [done|set_solver|done]).
  apply not_elem_of_cons in Hnf as [Hea Hel]. split_and!; (done || congruence || apply Hal || apply Hae || apply Hpl || lia).
Qed.

Lemma frame_alloc_run n :
  exists e nx, phys s !! (cr3 s + 4 * 1022) = Some e /\ phys s !! a = Some nx /\
    let s' := with_free (with_phys s (<[resv_slot e := 0]> (<[a := 0]> (phys s)))) nx (num_pages s -u 1) in
    frame_alloc_with (map_fuel (S n)) s = Ok (a, s') /\ ok s' l /\ plain s' a /\ has_frame (phys s') a.
Proof.
  destruct alloc_facts as (e & nx & He & H0 & Hnx & Hnxr & Hl & Hal & Ha0 & Hfr & Hpl & Hna & Hae' & Hae & Hel & Hrest).
  pose proof (ok_base _ _ Hok) as Hb. assert (Hb0 : base s l) by (eapply base_sub; [done|set_solver]).
  destruct (ok_cr3 _ _ Hb) as (Hac & _ & Hcl).
  exists e, nx. split; [done|]. split; [done|]. intros s'.
  set (s1 := at_resv s e a). set (R := resv_slot e) in *.
  assert (HRa : R <> a) by (unfold R, resv_slot; rewrite (frame_word a); apply word_ne; (done || lia || congruence)).
  assert (HRd : forall d, 0 <= d < 1024 -> cr3 s + 4 * d <> R).
  { intros d Hd. unfold R, resv_slot. apply word_ne; try done. destruct (ok_dir _ _ Hb 1022 e ltac:(lia) He H0) as (_ & _ & ? & _). congruence. }
  assert (Had : forall d, 0 <= d < 1024 -> cr3 s + 4 * d <> a).
  { intros d Hd. rewrite (frame_word a). apply word_ne; try done. destruct Hpl as (_ & ? & _). congruence. }
  assert (Hb1 : base s1 l) by (apply (base_at_resv s (a :: l) e); [done..|set_solver]).
  assert (Hp1 : plain s1 a).
  { apply plain_write; [done|]. intros d Hd. apply lookup_insert_ne. symmetry. apply HRd. lia. }
  set (s2 := with_phys s1 (<[a:=0]> (phys s1))).
  assert (Hb2 : base s2 l).
  { unfold s2. rewrite (frame_word a). eapply base_data; [done|done|lia|rewrite <- frame_word; cbn; rewrite lookup_insert_ne by done; exact Hnx|lia]. }
  assert (He2 : phys s2 !! (cr3 s2 + 4 * 1022) = Some e).
  { cbn. rewrite lookup_insert_ne by (symmetry; apply Had; lia). rewrite lookup_insert_ne; [done|]. symmetry. apply HRd. lia. }
  assert (Hphys : <[R:=0]> (phys s2) = <[R:=0]> (<[a:=0]> (phys s))).
  { cbn. fold R. rewrite (insert_insert_ne _ a R) by congruence. by rewrite insert_insert_eq. }
  assert (Hfa : frame_alloc_with (map_fuel (S n)) s = Ok (a, s')).
  { unfold frame_alloc_with. rewrite (st_bind_eq _ _ s s s) by done. rewrite Hl.
    rewrite (st_bind_eq _ _ s tt s) by (unfold kassert; by rewrite (proj2 (Z.eqb_neq a 0) Ha0)).
    rewrite (ok_on _ _ Hb).
    assert (Hw1 : phys s1 !! a = Some nx) by (cbn; by rewrite lookup_insert_ne).
    rewrite (st_bind_eq _ _ s nx (with_phys s2 (<[R := Z.lor 0 0]> (phys s2)))).
    2:{ rewrite (st_bind_eq _ _ _ _ _ (map_resv s _ e Hb He H0 n a 3)). fold (at_resv s e a). fold s1.
        rewrite (st_bind_eq _ _ _ _ _ (load_resv s _ e Hb He H0 a nx Hal Hw1)).
        rewrite (st_bind_eq _ _ _ _ _ (store_resv s _ e Hb He H0 a nx 0 Hal Hw1)).
        by rewrite (st_bind_eq _ _ _ _ _ (map_resv s2 _ e Hb2 He2 H0 n 0 0)). }
    change (Z.lor 0 0) with 0. fold R. rewrite Hphys. done. }
  assert (Hok' : ok s' l).
  { assert (Hb3 : base (with_phys s (<[R:=0]> (<[a:=0]> (phys s)))) l).
    { rewrite <- Hphys. apply (base_resv_0 s2 l e Hb2 He2 H0). }
    destruct Hb3 as [G1 G2 G3 G4 G5 G6 G7 G8]. split; [by split|..].
    - cbn. apply frames_write; [apply frames_write; [done|]|].
      + intros f i Hf Hi. rewrite (frame_word a). apply word_ne; try done; [by eapply frames_in|by intros ->].
      + intros f i Hf Hi. unfold R, resv_slot. apply word_ne; try done; [by eapply frames_in|by intros E; rewrite E in Hel].
    - apply (ok_nodup _ _) in Hok. by apply NoDup_cons in Hok as [_ ?].
    - cbn. rewrite (ok_count _ _ Hok). cbn [length]. unfold u32. rewrite Zminus_mod_idemp_l. f_equal. lia. }
  split_and!; [done|done| |].
  - assert (Hp3 : plain (with_phys s (<[R:=0]> (<[a:=0]> (phys s)))) a).
    { apply plain_write; [done|]. intros d Hd. rewrite !lookup_insert_ne; [done| |]; symmetry; (apply Had || apply HRd); lia. }
    exact Hp3.
  - intros i Hi. cbn. destruct (decide (a + 4 * i = R)) as [->|]; [rewrite lookup_insert_eq; eauto|rewrite lookup_insert_ne by congruence].
    destruct (decide (a + 4 * i = a)) as [->|]; [rewrite lookup_insert_eq; eauto|rewrite lookup_insert_ne by congruence]. auto.
Qed.
End Alloc.
(** ** Giving a frame back *)

(** No table maps the frame. *)
Definition unmapped (s : mm) (a : Z) : Prop :=
  forall d t e w, 0 <= d < 1023 -> 0 <= t < 1024 -> phys s !! (cr3 s + 4 * d) = Some e -> e <> 0 ->
    phys s !! (frame_of e + 4 * t) = Some w -> present w = true -> frame_of w <> a.

Lemma base_add s fl a : base s fl -> plain s a -> unmapped s a -> base s (a :: fl).
Proof.
  intros [H1 H2 (H3a & H3b & H3c) H4 H5 H6 H7 H8] (Hal & Hc & Ht) Hu. split; try done.
  - split_and!; try done. apply not_elem_of_cons. split; [congruence|done].
  - intros d e Hd He H0. destruct (H5 d e Hd He H0) as (?&?&?&?). split_and!; try done. apply not_elem_of_cons. split; [eauto|done].
  - intros d t e w Hd Hti He H0 Hw Hp. apply not_elem_of_cons. split; [by eapply Hu|by eapply H8].
Qed.

Lemma frame_free_run s fl a :
  ok s fl -> aligned a -> a <> 0 -> has_frame (phys s) a -> plain s a -> unmapped s a -> a ∉ fl ->
  exists e, phys s !! (cr3 s + 4 * 1022) = Some e /\
    let s' := with_free (with_phys s (<[resv_slot e := 0]> (<[a := last_free_page s]> (phys s)))) a (num_pages s +u 1) in
    frame_free a s = Ok (tt, s') /\ ok s' (a :: fl).
Proof.
  intros Hok Hal Ha0 Hfr Hpl Hun Hna. pose proof (ok_base _ _ Hok) as Hb.
  destruct (ok_entry s _ Hb) as (e & He & H0 & Hae & Hne & Hnf). destruct (ok_cr3 _ _ Hb) as (Hac & _ & Hcl).
  exists e. split; [done|]. intros s'. set (R := resv_slot e) in *. set (lf := last_free_page s) in *.
  assert (Hea : frame_of e <> a) by (destruct Hpl as (_ & _ & Ht); eapply Ht; [|exact He|exact H0]; lia).
  assert (Hca : cr3 s <> a) by (destruct Hpl as (_ & ? & _); congruence).
  assert (HRa : R <> a) by (unfold R, resv_slot; rewrite (frame_word a) at 1; apply word_ne; (done || lia)).
  assert (HRd : forall d, 0 <= d < 1024 -> cr3 s + 4 * d <> R) by (intros d Hd; unfold R, resv_slot; apply word_ne; (done || congruence)).
  assert (Had : forall d, 0 <= d < 1024 -> cr3 s + 4 * d <> a) by (intros d Hd; rewrite (frame_word a); apply word_ne; done).
  destruct (Hfr 0 ltac:(lia)) as (wa & Hwa). rewrite <- frame_word in Hwa.
  assert (Hlf : 0 <= lf < 2 ^ 32).
  { pose proof (ok_free _ _ Hok) as Hf. fold lf in Hf. destruct fl as [|g fl]; cbn in Hf; [lia|]. destruct Hf as (-> & [_ Hg] & _). done. }
  pose proof (base_add s fl a Hb Hpl Hun) as Hba.
  set (s1 := at_resv s e a). assert (Hb1 : base s1 fl) by (apply (base_at_resv s fl e); done).
  assert (Hp1 : plain s1 a).
  { apply plain_write; [done|]. intros d Hd. apply lookup_insert_ne. symmetry. apply HRd. lia. }
  assert (Hw1 : phys s1 !! a = Some wa) by (cbn; by rewrite lookup_insert_ne).
  set (s2 := with_phys s1 (<[a:=lf]> (phys s1))).
  assert (Hb2 : base s2 fl).
  { unfold s2. rewrite (frame_word a). eapply base_data; [done|done|lia|rewrite <- frame_word; exact Hw1|done]. }
  assert (He2 : phys s2 !! (cr3 s2 + 4 * 1022) = Some e).
  { cbn. rewrite lookup_insert_ne by (symmetry; apply Had; lia). rewrite lookup_insert_ne; [done|]. symmetry. apply HRd. lia. }
  assert (Hphys : <[R:=0]> (phys s2) = <[R:=0]> (<[a:=lf]> (phys s))).
  { cbn. fold R. rewrite (insert_insert_ne _ a R) by congruence. by rewrite insert_insert_eq. }
  split.
  - unfold frame_free. rewrite (st_bind_eq _ _ s tt s).
    2:{ unfold kassert. change 0xFFF with (Z.ones 12). rewrite Z.land_ones by lia. change (2 ^ 12) with 4096. destruct Hal as [Hm _]. by rewrite Hm. }
    rewrite (st_bind_eq _ _ s s s) by done. rewrite (ok_on _ _ Hb). fold lf.
    rewrite (st_bind_eq _ _ s tt (with_phys s2 (<[R := Z.lor 0 0]> (phys s2)))).
    + change (Z.lor 0 0) with 0. rewrite Hphys. done.
    + unfold map, unmap. rewrite (st_bind_eq _ _ _ _ _ (map_resv s _ e Hb He H0 2 a 3)). fold (at_resv s e a). fold s1.
      rewrite (st_bind_eq _ _ _ _ _ (store_resv s _ e Hb He H0 a wa lf Hal Hw1)).
      exact (map_resv s2 _ e Hb2 He2 H0 2 0 0).
  - assert (Hb3 : base (with_phys s (<[R:=0]> (<[a:=lf]> (phys s)))) (a :: fl)).
    { rewrite insert_insert_ne by congruence. set (s0 := with_phys s (<[R:=0]> (phys s))).
      assert (Hb0 : base s0 (a :: fl)) by (by apply (base_resv_0 s (a :: fl) e)).
      assert (Hp0 : plain s0 a) by (apply plain_write; [done|]; intros d Hd; apply lookup_insert_ne; symmetry; apply HRd; lia).
      change (base (with_phys s0 (<[a:=lf]> (phys s0))) (a :: fl)). rewrite (frame_word a) at 1.
      eapply base_data; [done|done|lia|rewrite <- frame_word; cbn; rewrite lookup_insert_ne by done; exact Hwa|done]. }
    destruct Hb3 as [G1 G2 G3 G4 G5 G6 G7 G8]. split; [by split|..].
    + cbn. split_and!; try done.
      * intros i Hi. destruct (decide (a + 4 * i = R)) as [->|]; [rewrite lookup_insert_eq; eauto|rewrite lookup_insert_ne by congruence].
        destruct (decide (a + 4 * i = a)) as [->|]; [rewrite lookup_insert_eq; eauto|rewrite lookup_insert_ne by congruence]. auto.
      * exists lf. split; [rewrite lookup_insert_ne by done; by rewrite lookup_insert_eq|].
        apply frames_write; [apply frames_write; [apply Hok|]|].
        -- intros f i Hf Hi. rewrite (frame_word a). apply word_ne; try done; [by eapply frames_in; [apply Hok|]|by intros ->].
        -- intros f i Hf Hi. unfold R, resv_slot. apply word_ne; try done; [by eapply frames_in; [apply Hok|]|by intros E; rewrite E in Hnf].
    + apply NoDup_cons. split; [done|apply Hok].
    + cbn. rewrite (ok_count _ _ Hok). cbn [length]. rewrite u32_add_l. f_equal. lia.
Qed.

(** ** Clearing a page *)
Fixpoint zeros (n : nat) (f k : Z) (m : gmap Z Z) : gmap Z Z :=
  match n with O => m | S n' => zeros n' f (k + 1) (<[f + 4 * k := 0]> m) end.

Lemma zeros_out n f k m x : (forall i, k <= i < k + Z.of_nat n -> x <> f + 4 * i) -> zeros n f k m !! x = m !! x.
Proof.
  revert k m. induction n as [|n IH]; intros k m Hx; [done|]. cbn [zeros]. rewrite IH by (intros i Hi; apply Hx; lia).
  apply lookup_insert_ne. intros E. apply (Hx k); lia.
Qed.
Lemma zeros_in n f k m i : k <= i < k + Z.of_nat n -> zeros n f k m !! (f + 4 * i) = Some 0.
Proof.
  revert k m. induction n as [|n IH]; intros k m Hi; [lia|]. cbn [zeros]. destruct (decide (i = k)) as [->|]; [|apply IH; lia].
  rewrite zeros_out by lia. apply lookup_insert_eq.
Qed.

Lemma fill_run n v k f e w s :
  pg_on s = true -> aligned v -> aligned f -> has_frame (phys s) f ->
  phys s !! (cr3 s + 4 * dir_index v) = Some e -> present e = true ->
  phys s !! (frame_of e + 4 * tbl_index v) = Some w -> present w = true -> frame_of w = f ->
  (forall i, 0 <= i < 1024 -> cr3 s + 4 * dir_index v <> f + 4 * i /\ frame_of e + 4 * tbl_index v <> f + 4 * i) ->
  0 <= k -> k + Z.of_nat n <= 1024 -> fill n (v + 4 * k) s = Ok (tt, with_phys s (zeros n f k (phys s))).
Proof.
  revert k s. induction n as [|n IH]; intros k s Hon Hv Hf Hfr He Hpe Hw Hpw Hwf Hout Hk Hn; cbn [fill zeros]; [by destruct s|].
  destruct (index_in_page v (4 * k) Hv ltac:(lia)) as (E1 & E2 & E3 & _).
  assert (Htr : translate s (v + 4 * k) = Ok (f + 4 * k)).
  { unfold translate, walk. rewrite Hon, E1, E2, (prd_Some _ _ _ He). cbn [mbind res_bind]. rewrite Hpe. cbn [negb].
    rewrite (prd_Some _ _ _ Hw). cbn [mbind res_bind]. rewrite Hpw. cbn [negb]. unfold PAGE_SIZE. by rewrite E3, Hwf. }
  destruct (Hfr k ltac:(lia)) as (w0 & Hw0). set (s1 := with_phys s (<[f + 4 * k := 0]> (phys s))).
  rewrite (st_bind_eq _ _ s tt s1). 2:{ unfold store. rewrite Htr. cbn [mbind res_bind]. by rewrite (pwr_Some _ _ _ _ Hw0). }
  replace (v + 4 * k + 4) with (v + 4 * (k + 1)) by lia. destruct (Hout k ltac:(lia)) as [O1 O2].
  rewrite (IH (k + 1) s1); try done; try lia.
  - intros i Hi. cbn. destruct (decide (f + 4 * i = f + 4 * k)) as [->|]; [rewrite lookup_insert_eq; eauto|rewrite lookup_insert_ne by congruence; auto].
  - cbn. by rewrite lookup_insert_ne by congruence.
  - cbn. by rewrite lookup_insert_ne by congruence.
Qed.
(** ** A new table *)
Lemma base_link s l d f e t w m' :
  base s l -> plain s f -> has_frame (phys s) f -> f ∉ l -> 0 <= d < 1023 -> 0 <= t < 1024 ->
  phys s !! (cr3 s + 4 * d) = Some 0 -> 0 <= e < 2 ^ 32 -> present e = true -> frame_of e = f ->
  0 <= w < 2 ^ 32 -> (present w = true -> frame_of w ∉ l) ->
  m' !! (cr3 s + 4 * d) = Some e -> (forall t', 0 <= t' < 1024 -> m' !! (f + 4 * t') = Some (if t' =? t then w else 0)) ->
  (forall x, x <> cr3 s + 4 * d -> (forall t', 0 <= t' < 1024 -> x <> f + 4 * t') -> m' !! x = phys s !! x) ->
  base (with_phys s m') l.
Proof.
  intros [H1 H2 (H3a & H3b & H3c) H4 H5 H6 H7 H8] (Hfa & Hfc & Hft) Hff Hfl Hd Ht Hd0 He Hpe Hef Hw Hpw Me Mf Mx.
  assert (Hdir : forall d', 0 <= d' < 1024 -> d' <> d -> m' !! (cr3 s + 4 * d') = phys s !! (cr3 s + 4 * d')).
  { intros d' Hd' Hne. apply Mx; [lia|]. intros t' Ht'. apply word_ne; (done || congruence). }
  assert (Htab : forall d' e' t', 0 <= d' < 1023 -> phys s !! (cr3 s + 4 * d') = Some e' -> e' <> 0 -> 0 <= t' < 1024 ->
    m' !! (frame_of e' + 4 * t') = phys s !! (frame_of e' + 4 * t')).
  { intros d' e' t' Hd' He' H0' Ht'. destruct (H5 d' e' Hd' He' H0') as (_ & _ & Hc & _).
    assert (aligned (frame_of e')) by (apply frame_aligned; eauto). pose proof (Hft d' e' Hd' He' H0').
    apply Mx; [apply word_ne; (done || lia)|]. intros t2 Ht2. by apply word_ne. }
  assert (Hhas : forall a, has_frame (phys s) a -> has_frame m' a).
  { intros a Ha i Hi. destruct (decide (a + 4 * i = cr3 s + 4 * d)) as [->|Hn1]; [eauto|].
    destruct (decide (aligned a /\ a = f)) as [[_ ->]|Hn2]; [rewrite Mf by done; eauto|].
    destruct (Ha i Hi) as (x & Hx).
    destruct (decide ((a + 4 * i - f) mod 4 = 0 /\ 0 <= (a + 4 * i - f) / 4 < 1024)) as [[Hm Hr]|Hn3].
    - replace (a + 4 * i) with (f + 4 * ((a + 4 * i - f) / 4)); [rewrite Mf by done; eauto|].
      apply Z.div_exact in Hm; [|lia]. lia.
    - exists x. rewrite Mx; [done|done|]. intros t' Ht' E. apply Hn3. rewrite E. replace (f + 4 * t' - f) with (t' * 4) by lia.
      rewrite Z.mod_mul, Z.div_mul by lia. done. }
  split; cbn [pg_on phys cr3 with_phys]; try done.
  - intros x v Hx. destruct (decide (x = cr3 s + 4 * d)) as [->|Hn1]; [rewrite Me in Hx; by injection Hx as <-|].
    destruct (decide ((x - f) mod 4 = 0 /\ 0 <= (x - f) / 4 < 1024)) as [[Hm Hr]|Hn3].
    + assert (Ex : x = f + 4 * ((x - f) / 4)) by (apply Z.div_exact in Hm; lia). rewrite Ex, Mf in Hx by done.
      injection Hx as <-. destruct (_ =? t); lia.
    + rewrite Mx in Hx; [eauto|done|]. intros t' Ht' E. apply Hn3. rewrite E. replace (f + 4 * t' - f) with (t' * 4) by lia.
      rewrite Z.mod_mul, Z.div_mul by lia. done.
  - split_and!; auto.
  - rewrite Hdir by lia. done.
  - intros d' e' Hd' He' H0'. destruct (decide (d' = d)) as [->|Hn].
    + rewrite Me in He'. injection He' as <-. rewrite Hef. split_and!; auto.
    + rewrite Hdir in He' by lia. destruct (H5 d' e' Hd' He' H0') as (?&?&?&?). split_and!; auto.
  - intros d1 d2 e1 e2 Hd1 Hd2 He1 He2 Hn1 Hn2 Efr. destruct (decide (d1 = d)) as [->|N1], (decide (d2 = d)) as [->|N2]; [done|..].
    + rewrite Me in He1. injection He1 as <-. rewrite Hdir in He2 by lia. rewrite Hef in Efr. by destruct (Hft d2 e2 Hd2 He2 Hn2).
    + rewrite Me in He2. injection He2 as <-. rewrite Hdir in He1 by lia. rewrite Hef in Efr. by destruct (Hft d1 e1 Hd1 He1 Hn1).
    + rewrite Hdir in He1, He2 by lia. eauto.
  - destruct H7 as (e7 & He7 & H70). exists e7. rewrite Hdir; [done|lia|]. intros <-. congruence.
  - intros d' t' e' w' Hd' Ht' He' H0' Hw' Hp'. destruct (decide (d' = d)) as [->|Hn].
    + rewrite Me in He'. injection He' as <-. rewrite Hef, Mf in Hw' by done. injection Hw' as <-.
      destruct (t' =? t); [auto|]. by rewrite present_odd in Hp'.
    + rewrite Hdir in He' by lia. rewrite (Htab d') in Hw' by done. eauto.
Qed.
(** ** map with a new table *)
#[local] Arguments zeros : simpl never.
#[local] Arguments fill : simpl never.
Lemma words_Z : Z.of_nat words = 1024.
Proof. reflexivity. Qed.
#[local] Opaque words.

Lemma map_new s f l v p flags n :
  ok s (f :: l) -> 0 <= v < 2 ^ 32 -> dir_index v < 1023 -> phys s !! (cr3 s + 4 * dir_index v) = Some 0 ->
  aligned p -> p ∉ l -> 0 <= flags < 4096 -> Z.odd flags = true ->
  exists e s', phys s !! (cr3 s + 4 * 1022) = Some e /\ map_fuel (S (S n)) v p flags s = Ok (tt, s') /\ ok s' l /\ cr3 s' = cr3 s /\
    phys s' !! (cr3 s + 4 * dir_index v) = Some (Z.lor f flags) /\
    (forall t, 0 <= t < 1024 -> phys s' !! (f + 4 * t) = Some (if t =? tbl_index v then Z.lor p flags else 0)) /\
    (forall x, x <> resv_slot e -> x <> cr3 s + 4 * dir_index v -> (forall t, 0 <= t < 1024 -> x <> f + 4 * t) ->
       phys s' !! x = phys s !! x).
Proof.
  intros Hok Hv Hdv Hd0 Hp Hpl Hfl Hodd. destruct (index_bounds v Hv) as [Hdi Hti]. set (d := dir_index v) in *. set (t := tbl_index v) in *.
  destruct (alloc_facts s f l Hok) as (e0 & nx0 & He0 & H00 & _ & _ & _ & Hfa & Hf0 & _ & Hpf & Hfl' & Hfe & Hae & _ & _).
  destruct (frame_alloc_run s f l Hok n) as (e & nx & He & Hnx & Hrun & Hok1 & Hp1 & Hf1). rewrite He0 in He. injection He as <-.
  set (s1 := with_free _ nx _) in *. pose proof (ok_base _ _ Hok) as Hb. pose proof (ok_base _ _ Hok1) as Hb1.
  destruct (ok_cr3 _ _ Hb) as (Hac & _). destruct Hpf as (_ & Hfc & Hft).
  assert (HRd : forall d, 0 <= d < 1024 -> cr3 s + 4 * d <> resv_slot e0).
  { intros d' Hd'. apply word_ne; try done. destruct (ok_dir _ _ Hb 1022 e0 ltac:(lia) He0 H00) as (_ & _ & ? & _). congruence. }
  assert (Hfd : forall d i, 0 <= d < 1024 -> 0 <= i < 1024 -> cr3 s + 4 * d <> f + 4 * i) by (intros d' i ??; apply word_ne; (done || congruence)).
  assert (Hdir1 : forall d', 0 <= d' < 1024 -> phys s1 !! (cr3 s + 4 * d') = phys s !! (cr3 s + 4 * d')).
  { intros d' Hd'. cbn. rewrite !lookup_insert_ne; [done| |]; symmetry; [rewrite (frame_word f); apply Hfd; lia|by apply HRd]. }
  set (E := Z.lor f flags). assert (HE : 0 <= E < 2 ^ 32) by (apply lor_u32; [apply Hfa|lia]).
  assert (HpE : present E = true) by (unfold E; by rewrite present_lor). assert (HfE : frame_of E = f) by (by apply frame_of_lor).
  set (s2 := with_phys s1 (<[cr3 s + 4 * d := E]> (phys s1))).
  set (s3 := with_phys s2 (zeros words f 0 (phys s2))).
  set (W := Z.lor p flags). assert (HW : 0 <= W < 2 ^ 32) by (apply lor_u32; [apply Hp|lia]).
  set (s4 := with_phys s3 (<[f + 4 * t := W]> (phys s3))).
  assert (H3f : forall i, 0 <= i < 1024 -> phys s3 !! (f + 4 * i) = Some 0) by (intros i Hi; apply (zeros_in words f 0 (phys s2) i); rewrite words_Z; lia).
  assert (H3x : forall x, (forall i, 0 <= i < 1024 -> x <> f + 4 * i) -> phys s3 !! x = phys s2 !! x).
  { intros x Hx. apply zeros_out. rewrite words_Z. intros i Hi. apply Hx. lia. }
  assert (H3d : phys s3 !! (cr3 s + 4 * d) = Some E) by (rewrite H3x by (intros i Hi; by apply Hfd); cbn; apply lookup_insert_eq).
  assert (Hrec3 : phys s3 !! (cr3 s + 4 * 1023) = Some (Z.lor (cr3 s) 3)).
  { rewrite H3x by (intros i Hi; apply Hfd; lia). cbn. rewrite lookup_insert_ne by lia. fold (phys s1). rewrite Hdir1 by lia. apply Hb. }
  destruct (rec_entry s _ Hb) as [Hprec Hfrec].
  assert (Hv2 : aligned (PTABLES_ADDR + d * PAGE_SIZE)).
  { unfold PTABLES_ADDR, PAGE_SIZE. split; [|lia]. rewrite Z.mod_add by lia. done. }
  destruct (ptable_index d 0 ltac:(lia) ltac:(lia)) as (I1 & I2 & _). rewrite Z.mul_0_r, Z.add_0_r in I1, I2.
  assert (Hfill : fill words (PTABLES_ADDR + d * PAGE_SIZE) s2 = Ok (tt, s3)).
  { rewrite (frame_word (PTABLES_ADDR + d * PAGE_SIZE)).
    apply (fill_run words (PTABLES_ADDR + d * PAGE_SIZE) 0 f (Z.lor (cr3 s) 3) E s2);
      [apply Hb1|exact Hv2|exact Hfa| | |exact Hprec| |exact HpE|exact HfE| |lia|rewrite words_Z; lia].
    - intros i Hi. destruct (decide (f + 4 * i = cr3 s + 4 * d)) as [Ex|]; [by destruct (Hfd d i Hdi Hi)|].
      change (phys s2) with (<[cr3 s + 4 * d := E]> (phys s1)). rewrite lookup_insert_ne by congruence. apply (Hf1 i Hi).
    - rewrite I1. change (cr3 s2) with (cr3 s). change (phys s2) with (<[cr3 s + 4 * d := E]> (phys s1)). rewrite lookup_insert_ne by lia. rewrite Hdir1 by lia. apply Hb.
    - rewrite Hfrec, I2. change (phys s2) with (<[cr3 s + 4 * d := E]> (phys s1)). apply lookup_insert_eq.
    - intros i Hi. rewrite I1, I2, Hfrec. change (cr3 s2) with (cr3 s). split; apply Hfd; lia. }
  assert (Hload : load (PDIR_ADDR + 4 * d) s = Ok (0, s)) by (by apply (load_dir s _ Hb)).
  assert (Hst2 : store (PDIR_ADDR + 4 * d) E s1 = Ok (tt, s2)).
  { unfold store. rewrite (translate_pdir s1 _ Hb1) by lia. cbn [mbind res_bind]. rewrite (pwr_Some _ _ 0); [done|].
    change (cr3 s1) with (cr3 s). by rewrite Hdir1. }
  assert (Hst4 : store (PTABLES_ADDR + d * PAGE_SIZE + 4 * t) W s3 = Ok (tt, s4)).
  { destruct (ptable_index d t ltac:(lia) Hti) as (J1 & J2 & J3). unfold store, translate, walk.
    change (pg_on s3) with (pg_on s). change (cr3 s3) with (cr3 s). rewrite (ok_on _ _ Hb), J1, (prd_Some _ _ _ Hrec3). cbn [mbind res_bind].
    rewrite Hprec, J2, Hfrec, (prd_Some _ _ _ H3d). cbn [negb mbind res_bind]. rewrite HpE, HfE. cbn [negb mbind res_bind]. unfold PAGE_SIZE in *. rewrite J3.
    by rewrite (pwr_Some _ _ _ _ (H3f t Hti)). }
  assert (Hmap : map_fuel (S (S n)) v p flags s = Ok (tt, s4)).
  { change (map_fuel (S (S n)) v p flags s) with
      ((pde ← load (PDIR_ADDR + 4 * d);
        (if pde =? 0 then f ← frame_alloc_with (map_fuel (S n)); store (PDIR_ADDR + 4 * d) (Z.lor f flags);; fill words (PTABLES_ADDR + d * PAGE_SIZE)
         else mret tt);; store (PTABLES_ADDR + d * PAGE_SIZE + 4 * t) (Z.lor p flags)) s).
    rewrite (st_bind_eq _ _ _ _ _ Hload). cbn [Z.eqb]. rewrite (st_bind_eq _ _ s tt s3); [exact Hst4|].
    rewrite (st_bind_eq _ _ _ _ _ Hrun). rewrite (st_bind_eq _ _ _ _ _ Hst2). exact Hfill. }
  assert (H4f : forall t', 0 <= t' < 1024 -> phys s4 !! (f + 4 * t') = Some (if t' =? t then W else 0)).
  { intros t' Ht'. change (phys s4) with (<[f + 4 * t := W]> (phys s3)). destruct (Z.eqb_spec t' t) as [->|Hn]; [by rewrite lookup_insert_eq|].
    rewrite lookup_insert_ne by lia. by apply H3f. }
  assert (H4x : forall x, x <> cr3 s + 4 * d -> (forall t', 0 <= t' < 1024 -> x <> f + 4 * t') -> phys s4 !! x = phys s1 !! x).
  { intros x Hx Hxf. change (phys s4) with (<[f + 4 * t := W]> (phys s3)). rewrite lookup_insert_ne by (intros Ex; by apply (Hxf t)).
    rewrite H3x by done. cbn. by rewrite lookup_insert_ne. }
  assert (H4d : phys s4 !! (cr3 s + 4 * d) = Some E).
  { change (phys s4) with (<[f + 4 * t := W]> (phys s3)). rewrite lookup_insert_ne; [done|]. symmetry. by apply Hfd. }
  exists e0, s4. split; [exact He0|]. split; [exact Hmap|]. split; [|split; [reflexivity|split; [exact H4d|split; [exact H4f|]]]].
  - assert (Hb4 : base (with_phys s1 (phys s4)) l).
    { apply (base_link s1 l d f E t W);
        [exact Hb1|exact Hp1|exact Hf1|exact Hfl'|lia|lia| |exact HE|exact HpE|exact HfE|exact HW| |exact H4d|exact H4f|exact H4x].
      - change (cr3 s1) with (cr3 s). by rewrite Hdir1.
      - intros _. unfold W. by rewrite frame_of_lor. }
    destruct Hb4 as [G1 G2 G3 G4 G5 G6 G7 G8]. split; [exact (Base _ _ G1 G2 G3 G4 G5 G6 G7 G8)|..].
    * change (last_free_page s4) with (last_free_page s1). eapply frames_frame; [apply Hok1|]. intros g i Hg Hi.
      assert (Hga : aligned g) by (by eapply frames_in; [apply Hok1|]).
      apply H4x; [apply word_ne; [exact Hga|exact Hac|exact Hi|exact Hdi|]|intros t' Ht'; apply word_ne; [exact Hga|exact Hfa|exact Hi|exact Ht'|]].
      + intros ->. destruct (ok_cr3 _ _ Hb1) as (_ & _ & Hx). exact (Hx Hg).
      + intros ->. contradiction.
    * apply Hok1.
    * apply Hok1.
  - intros x HxR Hxd Hxf. rewrite H4x by done. cbn. rewrite lookup_insert_ne by done.
    apply lookup_insert_ne. rewrite (frame_word f). intros Ex. symmetry in Ex. exact (Hxf 0 ltac:(lia) Ex).
Qed.
(** ** What the operations do to addresses *)

(** The pages that the operations do not use themselves. *)
Definition user_page (w : Z) : Prop := 0 <= w < 2 ^ 32 /\ dir_index w < 1023 /\ w / 4096 <> RESV_PAGE / 4096.
Definition same_pages (s s' : mm) (P : Z -> Prop) : Prop :=
  forall w, user_page w -> P (w / 4096) -> translate s' w = translate s w.
Definition same_data (s s' : mm) (P : Z -> Prop) : Prop :=
  forall a i, plain s a -> P a -> 0 <= i < 1024 -> phys s' !! (a + 4 * i) = phys s !! (a + 4 * i).

Lemma resv_not_user w : user_page w -> dir_index w = 1022 -> tbl_index w <> 1022.
Proof. intros (_ & _ & Hn) Hd Ht. apply Hn. by apply index_page. Qed.

Section Pages.
Variables (s : mm) (fl : list Z).
Hypothesis Hb : base s fl.

Lemma translate_same s' w :
  pg_on s' = true -> cr3 s' = cr3 s -> user_page w ->
  phys s' !! (cr3 s + 4 * dir_index w) = phys s !! (cr3 s + 4 * dir_index w) ->
  (forall e, phys s !! (cr3 s + 4 * dir_index w) = Some e -> e <> 0 ->
     phys s' !! (frame_of e + 4 * tbl_index w) = phys s !! (frame_of e + 4 * tbl_index w)) ->
  translate s' w = translate s w.
Proof.
  intros Hon Hc (Hw & Hd & _) Hdir Htab. destruct (index_bounds w Hw) as [Hdi Hti].
  destruct (dir_word _ _ Hb _ Hdi) as (e & He & _). unfold translate, walk. rewrite (ok_on _ _ Hb), Hon, Hc.
  rewrite (prd_Some _ _ e He), (prd_Some (phys s') _ e) by congruence. cbn [mbind res_bind].
  destruct (present e) eqn:Hpe; cbn [negb]; [|done]. assert (H0 : e <> 0) by (intros ->; discriminate).
  unfold prd. by rewrite Htab.
Qed.

(** An address that is translated has its two entries. *)
Lemma translate_inv v a :
  aligned v -> dir_index v < 1023 -> translate s v = Ok a ->
  exists e w, phys s !! (cr3 s + 4 * dir_index v) = Some e /\ e <> 0 /\ present e = true /\
    phys s !! (frame_of e + 4 * tbl_index v) = Some w /\ present w = true /\ frame_of w = a.
Proof.
  intros [Hm Hv] Hd. destruct (index_bounds v Hv) as [Hdi Hti]. destruct (dir_word _ _ Hb _ Hdi) as (e & He & _).
  unfold translate, walk. rewrite (ok_on _ _ Hb), (prd_Some _ _ _ He). cbn [mbind res_bind].
  destruct (present e) eqn:Hpe; cbn [negb]; [|done]. assert (H0 : e <> 0) by (intros ->; discriminate).
  destruct (ok_dir _ _ Hb (dir_index v) e ltac:(lia) He H0) as (_ & Hf & _). destruct (Hf _ Hti) as (w & Hw).
  rewrite (prd_Some _ _ _ Hw). cbn [mbind res_bind]. destruct (present w) eqn:Hpw; cbn [negb]; [|done].
  unfold PAGE_SIZE. rewrite Hm, Z.add_0_r. intros [= <-]. by exists e, w.
Qed.

(** A write into an entry of a table changes one page. *)
Lemma pte_pages v e x :
  0 <= v < 2 ^ 32 -> dir_index v < 1023 -> phys s !! (cr3 s + 4 * dir_index v) = Some e -> e <> 0 ->
  let s' := with_phys s (<[frame_of e + 4 * tbl_index v := x]> (phys s)) in
  same_pages s s' (fun g => g <> v / 4096) /\ same_data s s' (fun _ => True).
Proof.
  intros Hv Hd He H0 s'. destruct (index_bounds v Hv) as [Hdi Hti]. pose proof (table_aligned _ _ Hb (dir_index v) e ltac:(lia) He H0) as Hae.
  destruct (ok_dir _ _ Hb (dir_index v) e ltac:(lia) He H0) as (_ & _ & Hne & _). destruct (ok_cr3 _ _ Hb) as (Hac & _). split.
  - intros w Hw Hpg. pose proof Hw as (Hwr & Hwd & _). destruct (index_bounds w Hwr) as [Hwdi Hwti].
    apply translate_same; [apply Hb|done|done|apply lookup_insert_ne; by apply word_ne|].
    intros e' He' H0'. apply lookup_insert_ne. intros E.
    pose proof (table_aligned _ _ Hb (dir_index w) e' ltac:(lia) He' H0') as Hae'. apply word_inj in E as [E Et]; try done.
    apply Hpg. apply index_page; [|done]. symmetry. apply (ok_distinct _ _ Hb _ _ e e'); (done || lia).
  - intros a i (Haa & _ & Ht) _ Hi. apply lookup_insert_ne. apply word_ne; try done. apply (Ht (dir_index v)); (done || lia).
Qed.
End Pages.

(** The free list does not see a write into a table. *)
Lemma ok_pte_write s fl d t e w :
  ok s fl -> 0 <= d < 1023 -> 0 <= t < 1024 -> phys s !! (cr3 s + 4 * d) = Some e -> e <> 0 -> 0 <= w < 2 ^ 32 ->
  (present w = true -> frame_of w ∉ fl) -> ok (with_phys s (<[frame_of e + 4 * t := w]> (phys s))) fl.
Proof.
  intros Hok Hd Ht He H0 Hw Hp. pose proof (ok_base _ _ Hok) as Hb. split; [by apply (base_pte s fl d)| |apply Hok|apply Hok].
  cbn. apply frames_write; [apply Hok|]. intros f i Hf Hi. destruct (ok_dir _ _ Hb d e Hd He H0) as (_ & _ & _ & Hnf).
  apply word_ne; [by apply (table_aligned _ _ Hb d)|by eapply frames_in; [apply Hok|]|done|done|by intros E; rewrite E in Hnf].
Qed.
(** ** map, frame_alloc and free_page *)
Lemma translate_entry s fl v w e f :
  base s fl -> aligned v -> dir_index v < 1023 -> phys s !! (cr3 s + 4 * dir_index v) = Some e -> e <> 0 -> frame_of e = f ->
  phys s !! (f + 4 * tbl_index v) = Some w ->
  forall i, 0 <= i < 4096 -> translate s (v + i) = if present w then Ok (frame_of w + i) else Err EFault.
Proof.
  intros Hb Hv Hd He H0 <- Hw i Hi. destruct (index_in_page v i Hv Hi) as (E1 & E2 & E3 & _).
  destruct Hv as [_ Hv]. destruct (index_bounds v Hv) as [Hdi _].
  destruct (ok_dir _ _ Hb (dir_index v) e ltac:(lia) He H0) as (Hpe & _).
  destruct (present w) eqn:Hp.
  - rewrite (walk_entry s fl Hb (v + i) e w); [by rewrite E3|by rewrite E1|done|by rewrite E2|done].
  - unfold translate, walk. rewrite (ok_on _ _ Hb), E1, (prd_Some _ _ _ He). cbn [mbind res_bind]. rewrite Hpe. cbn [negb].
    rewrite E2, (prd_Some _ _ _ Hw). cbn [mbind res_bind]. by rewrite Hp.
Qed.

(** A new table does not change the pages of its directory entry either: they
    are mapped neither before nor after. *)
Lemma new_table_pages s s' f l e v flags W :
  base s (f :: l) -> base s' l -> aligned f -> f <> cr3 s -> plain s f -> 0 <= flags < 4096 -> Z.odd flags = true ->
  aligned v -> dir_index v < 1023 -> phys s !! (cr3 s + 4 * dir_index v) = Some 0 -> cr3 s' = cr3 s ->
  phys s !! (cr3 s + 4 * 1022) = Some e -> e <> 0 ->
  phys s' !! (cr3 s + 4 * dir_index v) = Some (Z.lor f flags) ->
  (forall t, 0 <= t < 1024 -> phys s' !! (f + 4 * t) = Some (if t =? tbl_index v then W else 0)) ->
  (forall x, x <> resv_slot e -> x <> cr3 s + 4 * dir_index v -> (forall t, 0 <= t < 1024 -> x <> f + 4 * t) ->
     phys s' !! x = phys s !! x) ->
  same_pages s s' (fun g => g <> v / 4096) /\ same_data s s' (fun a => a <> f).
Proof.
  intros Hb Hb' Hfa Hfc (_ & _ & Hft) Hfl Hodd [_ Hv] Hd Hd0 Hc He H0 Hdir Htab Hx.
  destruct (index_bounds v Hv) as [Hdi Hti]. destruct (ok_cr3 _ _ Hb) as (Hac & _).
  pose proof (table_aligned _ _ Hb 1022 e ltac:(lia) He H0) as Hae. destruct (ok_dir _ _ Hb 1022 e ltac:(lia) He H0) as (_ & _ & Hec & _).
  split.
  - intros w Hw Hpg. pose proof Hw as (Hwr & Hwd & _). destruct (index_bounds w Hwr) as [Hwdi Hwti].
    destruct (decide (dir_index w = dir_index v)) as [E|Hne].
    + assert (Ht : tbl_index w <> tbl_index v) by (intros Et; apply Hpg; by apply index_page).
      assert (Ef : frame_of (Z.lor f flags) = f) by (by apply frame_of_lor).
      unfold translate, walk. rewrite (ok_on _ _ Hb), (ok_on _ _ Hb'), Hc, E, (prd_Some _ _ _ Hd0), (prd_Some _ _ _ Hdir). cbn [mbind res_bind].
      rewrite present_lor, Hodd, Ef by done. cbn [negb]. rewrite (prd_Some _ _ _ (Htab _ Hwti)). cbn [mbind res_bind].
      rewrite (proj2 (Z.eqb_neq _ _) Ht). done.
    + apply (translate_same s (f :: l)); [done|apply Hb'|done|done| |].
      * apply Hx; [apply word_ne; (done || lia || congruence)|lia|intros t Ht; apply word_ne; (done || congruence)].
      * intros e' He' H0'. pose proof (table_aligned _ _ Hb (dir_index w) e' ltac:(lia) He' H0') as Hae'.
        destruct (ok_dir _ _ Hb (dir_index w) e' ltac:(lia) He' H0') as (_ & _ & Hec' & _).
        apply Hx; [|apply word_ne; (done || lia)|intros t Ht; apply word_ne; try done; apply (Hft (dir_index w)); (done || lia)].
        intros E. apply word_inj in E as [E Et]; try (done || lia).
        apply (resv_not_user w Hw); [|done]. apply (ok_distinct _ _ Hb _ 1022 e' e); (done || lia).
  - intros a i (Haa & Hac' & Hat) Haf Hi. apply Hx; [|apply word_ne; done|intros t Ht; apply word_ne; (done || congruence)].
    apply word_ne; try (done || lia). intros ->. by apply (Hat 1022 e ltac:(lia) He H0).
Qed.

(** C23: [map] maps the page: the invariant is kept, every address of the page
    translates into the frame, no other page changes and no frame outside the
    page tables changes; a frame is taken from the free list, for the table, when
    the directory has no table for the address. *)
Theorem map_spec s fl v p flags :
  ok s fl -> aligned v -> user_page v -> aligned p -> p ∉ fl -> 0 <= flags < 4096 -> Z.odd flags = true ->
  (phys s !! (cr3 s + 4 * dir_index v) = Some 0 -> fl <> []) ->
  exists s' k, map v p flags s = Ok (tt, s') /\ ok s' (drop k fl) /\
    k = (if bool_decide (phys s !! (cr3 s + 4 * dir_index v) = Some 0) then 1%nat else 0%nat) /\
    (forall i, 0 <= i < 4096 -> translate s' (v + i) = Ok (p + i)) /\
    same_pages s s' (fun g => g <> v / 4096) /\ same_data s s' (fun a => a ∉ fl).
Proof.
  intros Hok Hv Hu Hp Hpl Hfl Hodd Hfree. pose proof Hu as (Hvr & Hd & _). destruct (index_bounds v Hvr) as [Hdi Hti].
  pose proof (ok_base _ _ Hok) as Hb. destruct (dir_word _ _ Hb _ Hdi) as (e & He & _).
  assert (HW : 0 <= Z.lor p flags < 2 ^ 32) by (apply lor_u32; [apply Hp|lia]).
  assert (EW : frame_of (Z.lor p flags) = p) by (by apply frame_of_lor).
  assert (PW : present (Z.lor p flags) = true) by (by rewrite present_lor).
  destruct (decide (e = 0)) as [->|H0].
  - rewrite bool_decide_eq_true_2 by done. destruct fl as [|f l]; [by destruct (Hfree He)|].
    destruct (alloc_facts s f l Hok) as (e0 & nx0 & He0 & H00 & _ & _ & _ & Hfa & Hf0 & _ & Hpf & Hfl' & _).
    apply not_elem_of_cons in Hpl as [Hpf' Hpl].
    destruct (map_new s f l v p flags 1 Hok Hvr Hd He Hp Hpl Hfl Hodd) as (e1 & s' & He1 & Hrun & Hok' & Hc & Hdir & Htab & Hx).
    destruct (new_table_pages s s' f l e1 v flags (Z.lor p flags)) as [Hsp Hsd]; try done; [apply Hok'|by destruct Hpf as (_ & ? & _)|congruence|].
    exists s', 1%nat. split_and!; [exact Hrun|exact Hok'|done| |exact Hsp|].
    + intros i Hi. rewrite <- Hc in Hdir.
      rewrite (translate_entry s' l v (Z.lor p flags) (Z.lor f flags) f); [by rewrite PW, EW|apply Hok'|done|done|done| | |by rewrite Htab, Z.eqb_refl|done].
      * intros E. assert (P : present (Z.lor f flags) = true) by (by rewrite present_lor). by rewrite E in P.
      * by apply frame_of_lor.
    + intros a i Ha Hin Hi. apply Hsd; [done|set_solver|done].
  - rewrite bool_decide_eq_false_2 by congruence. set (s' := with_phys s (<[frame_of e + 4 * tbl_index v := Z.lor p flags]> (phys s))).
    assert (Hok' : ok s' fl) by (apply (ok_pte_write s fl (dir_index v)); (done || lia || by intros _; rewrite EW)).
    destruct (pte_pages s fl Hb v e (Z.lor p flags) Hvr Hd He H0) as [Hsp Hsd]. fold s' in Hsp, Hsd.
    exists s', 0%nat. split_and!; [exact (map_present s fl Hb 2 v p flags e Hvr Hd He H0)|exact Hok'|done| |exact Hsp|].
    + intros i Hi. destruct (ok_dir _ _ Hb (dir_index v) e ltac:(lia) He H0) as (_ & _ & Hne & _). destruct (ok_cr3 _ _ Hb) as (Hac & _).
      rewrite (translate_entry s' fl v (Z.lor p flags) e (frame_of e)); [by rewrite PW, EW|apply Hok'|done|done| |done|done|apply lookup_insert_eq|done].
      cbn. rewrite lookup_insert_ne; [done|]. apply word_ne; try done. by apply (table_aligned _ _ Hb (dir_index v) e ltac:(lia)).
    + intros a i Ha _ Hi. by apply Hsd.
Qed.
(** The writes of [frame_alloc] and [frame_free] change no page and no frame
    but the one that they take or give. *)
Lemma resv_writes s fl e a x ls np :
  base s fl -> plain s a -> phys s !! (cr3 s + 4 * 1022) = Some e -> e <> 0 ->
  let s' := with_free (with_phys s (<[resv_slot e := 0]> (<[a := x]> (phys s)))) ls np in
  same_pages s s' (fun _ => True) /\ same_data s s' (fun b => b <> a).
Proof.
  intros Hb (Haa & Hac & Hat) He H0 s'. destruct (ok_cr3 _ _ Hb) as (Hcc & _).
  pose proof (table_aligned _ _ Hb 1022 e ltac:(lia) He H0) as Hae. destruct (ok_dir _ _ Hb 1022 e ltac:(lia) He H0) as (_ & _ & Hec & _). split.
  - intros w Hw _. pose proof Hw as (Hwr & Hwd & _). destruct (index_bounds w Hwr) as [Hwdi Hwti].
    apply (translate_same s fl Hb); [apply Hb|done|done|cbn|cbn].
    + rewrite !lookup_insert_ne; [done|rewrite (frame_word a)|]; apply word_ne; (done || lia || congruence).
    + intros e' He' H0'. pose proof (table_aligned _ _ Hb (dir_index w) e' ltac:(lia) He' H0') as Hae'.
      rewrite !lookup_insert_ne; [done|rewrite (frame_word a); apply word_ne; try (done || lia)|].
      * intros E. symmetry in E. revert E. apply (Hat (dir_index w)); (done || lia).
      * intros E. apply word_inj in E as [E Et]; try (done || lia). apply (resv_not_user w Hw); [|done].
        symmetry. apply (ok_distinct _ _ Hb 1022 (dir_index w) e e'); (done || lia).
  - intros b i (Hbb & Hbc & Hbt) Hne Hi. cbn. rewrite !lookup_insert_ne; [done|rewrite (frame_word a); apply word_ne; (done || lia || congruence)|].
    apply word_ne; try (done || lia). apply (Hbt 1022); (done || lia).
Qed.

(** C24: [frame_alloc] takes the head of the free list: the frame is not 0, it is
    neither a table nor the directory, no table maps it and it is not free any
    more; no translation and no other frame changes.  With no free frame the
    assertion fails. *)
Theorem frame_alloc_spec s fl :
  ok s fl ->
  match fl with
  | [] => frame_alloc s = Err EAssert
  | a :: l => exists s', frame_alloc s = Ok (a, s') /\ ok s' l /\ a <> 0 /\ a ∉ l /\ plain s' a /\ unmapped s' a /\
      num_pages s' = num_pages s -u 1 /\ same_pages s s' (fun _ => True) /\ same_data s s' (fun b => b <> a)
  end.
Proof.
  intros Hok. destruct fl as [|a l].
  - unfold frame_alloc, frame_alloc_with. rewrite (st_bind_eq _ _ s s s) by done.
    pose proof (ok_free _ _ Hok) as Hf. cbn in Hf. by rewrite Hf.
  - destruct (alloc_facts s a l Hok) as (e0 & nx0 & He0 & H00 & _ & _ & _ & Hal & Ha0 & _ & Hpl & Hna & _).
    destruct (frame_alloc_run s a l Hok 2) as (e & nx & He & Hnx & Hrun & Hok' & Hp' & _). assert (e = e0) as -> by congruence.
    destruct (resv_writes s (a :: l) e0 a 0 nx (num_pages s -u 1) (ok_base _ _ Hok) Hpl He0 H00) as [Hsp Hsd].
    set (s' := with_free _ nx _) in *. exists s'. split_and!; [exact Hrun|exact Hok'|exact Ha0|exact Hna|exact Hp'| |done|exact Hsp|exact Hsd].
    intros d t e w Hd Ht Hde Hn Hw Hp <-. cbn in Hde, Hw. pose proof (ok_base _ _ Hok) as Hb. destruct (ok_cr3 _ _ Hb) as (Hcc & _).
    pose proof (table_aligned _ _ Hb 1022 e0 ltac:(lia) He0 H00) as Hae. destruct (ok_dir _ _ Hb 1022 e0 ltac:(lia) He0 H00) as (_ & _ & Hec & _).
    destruct Hpl as (_ & Hac & Hat). rewrite !lookup_insert_ne in Hde.
    2, 3: apply not_eq_sym; try rewrite (frame_word (frame_of w)); apply word_ne; (done || lia || congruence).
    apply lookup_insert_Some in Hw as [[_ <-]|[_ Hw]]; [discriminate|]. apply lookup_insert_Some in Hw as [[_ <-]|[_ Hw]]; [discriminate|].
    apply (ok_pte _ _ Hb d t e w Hd Ht Hde Hn Hw Hp). set_solver.
Qed.
(** ** free_page *)
Lemma virt_to_phys_run s fl v a :
  base s fl -> aligned v -> dir_index v < 1023 -> translate s v = Ok a -> virt_to_phys v s = Ok (a, s).
Proof.
  intros Hb Hv Hd Htr. destruct (translate_inv s fl Hb v a Hv Hd Htr) as (e & w & He & H0 & Hpe & Hw & Hpw & Ha).
  destruct Hv as [Hm Hv]. destruct (index_bounds v Hv) as [Hdi Hti].
  assert (Hl : load (PTABLES_ADDR + dir_index v * PAGE_SIZE + 4 * tbl_index v) s = Ok (w, s)).
  { unfold load. rewrite (translate_ptable s fl Hb (dir_index v) (tbl_index v) e) by (done || lia). cbn [mbind res_bind].
    by rewrite (prd_Some _ _ _ Hw). }
  unfold virt_to_phys. rewrite (st_bind_eq _ _ s tt s).
  2:{ unfold kassert. change 0xFFF with (Z.ones 12). rewrite Z.land_ones by lia. change (2 ^ 12) with 4096. by rewrite Hm. }
  rewrite (st_bind_eq _ _ s true s).
  2:{ unfold is_mapped. rewrite (st_bind_eq _ _ _ _ _ (load_dir s fl Hb _ _ Hdi He)), Hpe. cbn [negb]. rewrite (st_bind_eq _ _ _ _ _ Hl), Hpw. reflexivity. }
  cbn [negb]. rewrite (st_bind_eq _ _ _ _ _ Hl). by rewrite Ha.
Qed.

(** The frame is mapped at [v] and nowhere else. *)
Definition mapped_once (s : mm) (v a : Z) : Prop :=
  forall d t e w, 0 <= d < 1023 -> 0 <= t < 1024 -> phys s !! (cr3 s + 4 * d) = Some e -> e <> 0 ->
    phys s !! (frame_of e + 4 * t) = Some w -> present w = true -> frame_of w = a -> d = dir_index v /\ t = tbl_index v.

Lemma zeros_or n a x w k m : zeros n a k m !! x = Some w -> w = 0 \/ m !! x = Some w.
Proof.
  revert k m. induction n as [|n IH]; intros k m; [by right|].
  change (zeros (S n) a k m) with (zeros n a (k + 1) (<[a + 4 * k := 0]> m)). intros [E|E]%IH; [by left|].
  apply lookup_insert_Some in E as [[_ <-]|[_ E]]; [by left|by right].
Qed.
Lemma zeros_dom n a x w k m : m !! x = Some w -> exists w', zeros n a k m !! x = Some w'.
Proof.
  revert k m w. induction n as [|n IH]; intros k m w E; [by exists w|].
  change (zeros (S n) a k m) with (zeros n a (k + 1) (<[a + 4 * k := 0]> m)).
  destruct (decide (x = a + 4 * k)) as [->|Hn]; eapply IH; [apply lookup_insert_eq|rewrite lookup_insert_ne by congruence; exact E].
Qed.

(** Clearing a frame that is not part of the page tables. *)
Lemma zero_frame s fl a :
  ok s fl -> plain s a -> a ∉ fl -> has_frame (phys s) a ->
  let s' := with_phys s (zeros words a 0 (phys s)) in
  ok s' fl /\ (forall x, (forall i, 0 <= i < 1024 -> x <> a + 4 * i) -> phys s' !! x = phys s !! x).
Proof.
  intros Hok (Haa & Hac & Hat) Hna Hfr s'. pose proof (ok_base _ _ Hok) as Hb. destruct (ok_cr3 _ _ Hb) as (Hcc & _).
  assert (Hx : forall x, (forall i, 0 <= i < 1024 -> x <> a + 4 * i) -> zeros words a 0 (phys s) !! x = phys s !! x).
  { intros x Hx. apply zeros_out. intros i Hi. apply Hx. rewrite words_Z in Hi. lia. }
  pose proof (fun x w => zeros_or words a x w 0 (phys s)) as Hin. pose proof (fun x w => zeros_dom words a x w 0 (phys s)) as Hdom.
  split; [split|exact Hx].
  - apply base_write; [exact Hb|exact Hdom| | |].
    + intros x w E. apply Hin in E as [->|E]; [lia|by apply (ok_words _ _ Hb) in E].
    + intros d Hd. apply Hx. intros i Hi. by apply word_ne.
    + intros d t e w Hd Ht He H0 E Hp. apply Hin in E as [->|E]; [discriminate|]. by apply (ok_pte _ _ Hb d t e w).
  - eapply frames_frame; [apply Hok|]. intros f i Hf Hi. apply Hx. intros j Hj. apply word_ne; try done; [by eapply frames_in; [apply Hok|]|by intros ->].
  - apply Hok.
  - apply Hok.
Qed.
Lemma zero_frame_pages s fl a m' :
  base s fl -> plain s a ->
  (forall x, (forall i, 0 <= i < 1024 -> x <> a + 4 * i) -> m' !! x = phys s !! x) ->
  same_pages s (with_phys s m') (fun _ => True) /\ same_data s (with_phys s m') (fun b => b <> a) /\
  (forall d, 0 <= d < 1024 -> m' !! (cr3 s + 4 * d) = phys s !! (cr3 s + 4 * d)) /\
  (forall d e t, 0 <= d < 1023 -> phys s !! (cr3 s + 4 * d) = Some e -> e <> 0 -> 0 <= t < 1024 ->
     m' !! (frame_of e + 4 * t) = phys s !! (frame_of e + 4 * t)).
Proof.
  intros Hb (Haa & Hac & Hat) Hx. destruct (ok_cr3 _ _ Hb) as (Hcc & _).
  assert (Hd : forall d, 0 <= d < 1024 -> m' !! (cr3 s + 4 * d) = phys s !! (cr3 s + 4 * d)).
  { intros d Hd. apply Hx. intros i Hi. apply word_ne; (done || congruence). }
  assert (Ht : forall d e t, 0 <= d < 1023 -> phys s !! (cr3 s + 4 * d) = Some e -> e <> 0 -> 0 <= t < 1024 ->
     m' !! (frame_of e + 4 * t) = phys s !! (frame_of e + 4 * t)).
  { intros d e t Hdd He H0 Htt. apply Hx. intros i Hi. apply word_ne; try done; [exact (table_aligned _ _ Hb d e Hdd He H0)|exact (Hat d e Hdd He H0)]. }
  split_and!; [..|exact Hd|exact Ht].
  - intros w Hu _. pose proof Hu as (Hw & Hwd & _). destruct (index_bounds w Hw) as [Hdi Hti].
    apply (translate_same s fl Hb); [apply Hb|reflexivity|exact Hu|by apply Hd|]. intros e He H0. apply (Ht (dir_index w)); (done || lia).
  - intros b i (Hbb & _ & _) Hne Hi. apply Hx. intros j Hj. by apply word_ne.
Qed.

(** [free_page] on a page whose frame is mapped there only: afterwards the
    page faults, the frame is the first of the free frames, and neither the
    other pages nor the frames outside the page tables change. *)
Theorem free_page_spec s fl v a :
  ok s fl -> aligned v -> user_page v -> translate s v = Ok a -> a <> 0 -> plain s a -> has_frame (phys s) a -> mapped_once s v a ->
  exists s', free_page v s = Ok (0, s') /\ ok s' (a :: fl) /\ num_pages s' = num_pages s +u 1 /\
    (forall i, 0 <= i < 4096 -> translate s' (v + i) = Err EFault) /\
    same_pages s s' (fun g => g <> v / 4096) /\ same_data s s' (fun b => b <> a).
Proof.
  intros Hok Hv Hu Htr Ha0 Hpl Hfr Honce. pose proof Hu as (Hvr & Hd & _). destruct (index_bounds v Hvr) as [Hdi Hti].
  assert (Hd' : 0 <= dir_index v < 1023) by lia.
  pose proof (ok_base _ _ Hok) as Hb. destruct (translate_inv s fl Hb v a Hv Hd Htr) as (e & w & He & H0 & Hpe & Hw & Hpw & Ha).
  destruct (ok_cr3 _ _ Hb) as (Hcc & _). pose proof (table_aligned _ _ Hb (dir_index v) e ltac:(lia) He H0) as Hae.
  destruct (ok_dir _ _ Hb (dir_index v) e ltac:(lia) He H0) as (_ & _ & Hec & _). pose proof Hpl as (Haa & Hac & Hat).
  assert (Hna : a ∉ fl) by (rewrite <- Ha; apply (ok_pte _ _ Hb (dir_index v) (tbl_index v) e w); (done || lia)).
  destruct (zero_frame s fl a Hok Hpl Hna Hfr) as [Hok1 Hx1]. set (s1 := with_phys s (zeros words a 0 (phys s))) in *.
  destruct (zero_frame_pages s fl a (phys s1) Hb Hpl Hx1) as (Hsp1 & Hsd1 & Hd1 & Ht1). change (with_phys s (phys s1)) with s1 in *.
  assert (He1 : phys s1 !! (cr3 s + 4 * dir_index v) = Some e) by (rewrite Hd1 by done; exact He).
  assert (Hfill : fill words v s = Ok (tt, s1)).
  { rewrite (frame_word v). apply (fill_run words v 0 a e w s); [apply Hb|exact Hv|exact Haa|exact Hfr|exact He|exact Hpe|exact Hw|exact Hpw|exact Ha| |lia|rewrite words_Z; lia].
    intros i Hi. split; [exact (word_ne _ _ _ _ Hcc Haa Hdi Hi (not_eq_sym Hac))|exact (word_ne _ _ _ _ Hae Haa Hti Hi (Hat _ e Hd' He H0))]. }
  set (s2 := with_phys s1 (<[frame_of e + 4 * tbl_index v := Z.lor 0 0]> (phys s1))).
  assert (Hun : unmap v s1 = Ok (tt, s2)) by exact (map_present s1 fl (ok_base _ _ Hok1) 2 v 0 0 e Hvr Hd He1 H0).
  assert (Hok2 : ok s2 fl).
  { apply (ok_pte_write s1 fl (dir_index v) (tbl_index v) e (Z.lor 0 0) Hok1 Hd' Hti He1 H0); [change (Z.lor 0 0) with 0; lia|discriminate]. }
  destruct (pte_pages s1 fl (ok_base _ _ Hok1) v e (Z.lor 0 0) Hvr Hd He1 H0) as [Hsp2 Hsd2]. fold s2 in Hsp2, Hsd2.
  assert (Hdir2 : forall d, 0 <= d < 1024 -> phys s2 !! (cr3 s + 4 * d) = phys s !! (cr3 s + 4 * d)).
  { intros d Hdd. change (phys s2) with (<[frame_of e + 4 * tbl_index v := Z.lor 0 0]> (phys s1)).
    rewrite lookup_insert_ne by (by apply word_ne). by apply Hd1. }
  assert (Hpl1 : forall b, plain s b -> plain s1 b) by (intros b Hpb; apply plain_write; [exact Hpb|]; intros d Hdd; apply Hd1; lia).
  assert (Hpl2 : forall b, plain s b -> plain s2 b).
  { intros b (Hb1 & Hb2 & Hb3). split_and!; [exact Hb1|exact Hb2|]. intros d e' Hdd. change (cr3 s2) with (cr3 s). rewrite Hdir2 by lia. eauto. }
  assert (Hfr2 : has_frame (phys s2) a).
  { intros i Hi. change (phys s2) with (<[frame_of e + 4 * tbl_index v := Z.lor 0 0]> (phys s1)). exists 0.
    rewrite lookup_insert_ne; [apply (zeros_in words a 0 (phys s) i); rewrite words_Z; lia|]. exact (word_ne _ _ _ _ Hae Haa Hti Hi (Hat _ e Hd' He H0)). }
  assert (Hunm : unmapped s2 a).
  { intros d t e' w' Hdd Htt. change (cr3 s2) with (cr3 s). rewrite Hdir2 by lia. intros He' H0' Hw' Hp' Ef.
    change (phys s2) with (<[frame_of e + 4 * tbl_index v := Z.lor 0 0]> (phys s1)) in Hw'.
    apply lookup_insert_Some in Hw' as [[_ <-]|[Hne Hw']]; [discriminate|]. rewrite (Ht1 d e' t Hdd He' H0' Htt) in Hw'.
    destruct (Honce d t e' w' Hdd Htt He' H0' Hw' Hp' Ef) as [-> ->]. congruence. }
  destruct (frame_free_run s2 fl a Hok2 Haa Ha0 Hfr2 (Hpl2 a Hpl) Hunm Hna) as (e7 & He7 & Hrun & Hok3).
  assert (H07 : e7 <> 0). { destruct (ok_resv _ _ (ok_base _ _ Hok2)) as (x & Hx & Hx0). congruence. }
  destruct (resv_writes s2 fl e7 a (last_free_page s2) a (num_pages s2 +u 1) (ok_base _ _ Hok2) (Hpl2 a Hpl) He7 H07) as [Hsp3 Hsd3].
  set (s3 := with_free _ a _) in *.
  exists s3. split_and!; [|exact Hok3|done| | |].
  - unfold free_page. rewrite (st_bind_eq _ _ _ _ _ (virt_to_phys_run s fl v a Hb Hv Hd Htr)). rewrite (proj2 (Z.eqb_neq a 0) Ha0).
    rewrite (st_bind_eq _ _ _ _ _ Hfill), (st_bind_eq _ _ _ _ _ Hun). by rewrite (st_bind_eq _ _ _ _ _ Hrun).
  - intros i Hi. destruct (index_in_page v i Hv Hi) as (E1 & E2 & _ & E4). assert (Hvi : user_page (v + i)).
    { destruct Hu as (_ & Hu1 & Hu2). split; [|rewrite E1, E4; exact (conj Hu1 Hu2)]. destruct Hv as [Hm _]. apply Z.mod_divide in Hm as [q ->]; lia. }
    rewrite (Hsp3 (v + i) Hvi I). assert (Hl2 : phys s2 !! (frame_of e + 4 * tbl_index v) = Some 0) by apply lookup_insert_eq.
    rewrite <- (Hdir2 _ Hdi) in He.
    by rewrite (translate_entry s2 fl v 0 e (frame_of e) (ok_base _ _ Hok2) Hv Hd He H0 eq_refl Hl2 i Hi).
  - intros x Hux Hpx. rewrite (Hsp3 x Hux I), (Hsp2 x Hux Hpx). by apply Hsp1.
  - intros b i Hpb Hne Hi. rewrite (Hsd3 b i (Hpl2 b Hpb) Hne Hi), (Hsd2 b i (Hpl1 b Hpb) I Hi). by apply Hsd1.
Qed.
(** ** A memory

    The directory at 0x1000, the table of the reserved page at 0x2000, two free
    frames and the page 0x10000000 at 0x5000 through the table at 0x6000. *)
Definition blank : gmap Z Z := foldr (fun f m => zeros words f 0 m) ∅ [0x1000; 0x2000; 0x3000; 0x4000; 0x5000; 0x6000].
Definition entries : list (Z * Z) :=
  [(0x1FFC, 0x1003); (0x1FF8, 0x2003); (0x1100, 0x6003); (0x6000, 0x5003); (0x3000, 0x4000)].
Definition mem0 : gmap Z Z := foldr (fun p m => <[p.1 := p.2]> m) blank entries.
Definition mm0 : mm := MM mem0 0x1000 true 0x3000 2 6 0x1000.

Lemma blank_word x w : blank !! x = Some w -> w = 0.
Proof.
  unfold blank. generalize [0x1000; 0x2000; 0x3000; 0x4000; 0x5000; 0x6000]. intros l.
  induction l as [|f l IH]; [discriminate|]. cbn [foldr]. intros [E|E]%zeros_or; auto.
Qed.
Lemma entries_word (l : list (Z * Z)) (m : gmap Z Z) x w : foldr (fun (p : Z * Z) (m : gmap Z Z) => <[p.1 := p.2]> m) m l !! x = Some w -> (x, w) ∈ l \/ m !! x = Some w.
Proof.
  induction l as [|[y v] l IH]; cbn [foldr fst snd]; [by right|].
  intros [[-> ->]|[_ E]]%lookup_insert_Some; [left; set_solver|]. destruct (IH E); [left; set_solver|by right].
Qed.
Lemma mem0_word x w : mem0 !! x = Some w -> w = 0 \/ In (x, w) entries.
Proof. intros [E|E]%entries_word; [right; by apply list_elem_of_In|left; by apply blank_word in E]. Qed.

Lemma entries_dom (l : list (Z * Z)) (m : gmap Z Z) x w : m !! x = Some w -> exists w', foldr (fun (p : Z * Z) m => <[p.1 := p.2]> m) m l !! x = Some w'.
Proof.
  intros E. induction l as [|[y v] l IH]; cbn [foldr fst snd]; [eauto|].
  destruct (decide (x = y)) as [->|]; [rewrite lookup_insert_eq|rewrite lookup_insert_ne by congruence]; eauto.
Qed.
Lemma mem0_frame f : f ∈ [0x1000; 0x2000; 0x3000; 0x4000; 0x5000; 0x6000] -> has_frame mem0 f.
Proof.
  intros Hf i Hi. assert (Hb : exists w, blank !! (f + 4 * i) = Some w).
  { unfold blank. revert Hf. generalize [0x1000; 0x2000; 0x3000; 0x4000; 0x5000; 0x6000]. intros l.
    induction l as [|g l IH]; intros Hf; [set_solver|]. cbn [foldr]. apply elem_of_cons in Hf as [->|Hf].
    - exists 0. apply zeros_in. rewrite words_Z. lia.
    - destruct (IH Hf) as (w & Hw). by eapply zeros_dom. }
  destruct Hb as (w & Hw). by eapply entries_dom.
Qed.
Lemma mem0_entry x w : (x, w) ∈ entries -> NoDup entries.*1 -> mem0 !! x = Some w.
Proof.
  unfold mem0. generalize blank. induction entries as [|[y v] l IH]; intros m Hin Hnd; [set_solver|].
  cbn [foldr fst snd fmap list_fmap] in *. apply NoDup_cons in Hnd as [Hn Hnd]. apply elem_of_cons in Hin as [[= -> ->]|Hin]; [apply lookup_insert_eq|].
  rewrite lookup_insert_ne; [by apply IH|]. intros ->. apply Hn. apply list_elem_of_fmap. by exists (x, w).
Qed.
Lemma entries_nodup : NoDup entries.*1.
Proof. cbn. repeat constructor; set_solver. Qed.
Ltac in_list := apply list_elem_of_In; cbn; tauto.
Ltac mem0_cases H := apply mem0_word in H; cbn in H; decompose [or] H; clear H; simplify_eq; try lia.

Lemma mm0_base : base mm0 [0x3000; 0x4000].
Proof.
  assert (Hd : forall d e, 0 <= d < 1023 -> mem0 !! (0x1000 + 4 * d) = Some e -> e <> 0 -> d = 1022 /\ e = 0x2003 \/ d = 64 /\ e = 0x6003).
  { intros d e Hd He H0. mem0_cases He. }
  split; cbn [phys cr3 pg_on mm0].
  - reflexivity.
  - intros a w H. mem0_cases H.
  - split; [by split|]. split; [apply mem0_frame; in_list|]. clear. set_solver.
  - apply mem0_entry; [in_list|apply entries_nodup].
  - intros d e Hdd He H0. destruct (Hd d e Hdd He H0) as [[_ ->]|[_ ->]]; clear.
    + split; [reflexivity|]. change (frame_of 0x2003) with 0x2000. split; [apply mem0_frame; in_list|split; [discriminate|set_solver]].
    + split; [reflexivity|]. change (frame_of 0x6003) with 0x6000. split; [apply mem0_frame; in_list|split; [discriminate|set_solver]].
  - intros d d' e e' H1 H2 He He' H0 H0' Hf. destruct (Hd d e H1 He H0) as [[-> ->]|[-> ->]], (Hd d' e' H2 He' H0') as [[-> ->]|[-> ->]]; clear - Hf; (reflexivity || discriminate).
  - exists 0x2003. split; [apply mem0_entry; [in_list|apply entries_nodup]|discriminate].
  - intros d t e w H1 H2 He H0 Hw Hp. destruct (Hd d e H1 He H0) as [[-> ->]|[-> ->]].
    + change (frame_of 0x2003) with 0x2000 in Hw. clear Hd He H0. mem0_cases Hw.
    + change (frame_of 0x6003) with 0x6000 in Hw. clear Hd He H0. mem0_cases Hw. clear. change (frame_of 0x5003) with 0x5000. set_solver.
Qed.
Lemma mm0_ok : ok mm0 [0x3000; 0x4000].
Proof.
  split; [apply mm0_base| |by (repeat constructor; set_solver)|reflexivity]. cbn [frames phys last_free_page mm0].
  split; [reflexivity|]. split; [by split|]. split; [discriminate|]. split; [apply mem0_frame; in_list|].
  exists 0x4000. split; [apply mem0_entry; [in_list|apply entries_nodup]|].
  split; [reflexivity|]. split; [by split|]. split; [discriminate|]. split; [apply mem0_frame; in_list|].
  exists 0. split; [|reflexivity].
  destruct (mem0_frame 0x4000 ltac:(in_list) 0 ltac:(lia)) as (w & Hw). change (0x4000 + 4 * 0) with 0x4000 in Hw.
  rewrite Hw. mem0_cases Hw. reflexivity.
Qed.
Lemma mm0_facts :
  mem0 !! (0x1000 + 4 * 65) = Some 0 /\ translate mm0 0x10000000 = Ok 0x5000 /\ plain mm0 0x5000 /\ mapped_once mm0 0x10000000 0x5000.
Proof.
  assert (Hd : forall d e, 0 <= d < 1023 -> mem0 !! (0x1000 + 4 * d) = Some e -> e <> 0 -> d = 1022 /\ e = 0x2003 \/ d = 64 /\ e = 0x6003).
  { intros d e Hd He H0. mem0_cases He. }
  split; [|split; [|split]].
  - destruct (mem0_frame 0x1000 ltac:(in_list) 65 ltac:(lia)) as (w & Hw). rewrite Hw. mem0_cases Hw. reflexivity.
  - assert (He : mem0 !! (0x1000 + 4 * 64) = Some 0x6003) by (apply mem0_entry; [in_list|apply entries_nodup]).
    assert (Hw : mem0 !! 0x6000 = Some 0x5003) by (apply mem0_entry; [apply list_elem_of_In; cbn; tauto|apply entries_nodup]).
    rewrite (walk_entry mm0 _ mm0_base 0x10000000 0x6003 0x5003); [reflexivity|cbn [phys cr3 mm0]|reflexivity|cbn [phys mm0]|reflexivity].
    + change (dir_index 0x10000000) with 64. exact He.
    + change (frame_of 0x6003) with 0x6000. change (tbl_index 0x10000000) with 0. change (0x6000 + 4 * 0) with 0x6000. exact Hw.
  - split; [by split|split; [discriminate|]]. intros d e H1 He H0. cbn [phys cr3 mm0] in He.
    destruct (Hd d e H1 He H0) as [[_ ->]|[_ ->]]; discriminate.
  - intros d t e w H1 H2 He H0 Hw Hp Hf. cbn [phys cr3 mm0] in He, Hw. destruct (Hd d e H1 He H0) as [[-> ->]|[-> ->]].
    + change (frame_of 0x2003) with 0x2000 in Hw. clear Hd He H0. mem0_cases Hw.
    + change (frame_of 0x6003) with 0x6000 in Hw. clear Hd He H0. apply mem0_word in Hw. cbn in Hw.
      decompose [or] Hw; clear Hw; simplify_eq; try lia. split; [reflexivity|]. change (tbl_index 0x10000000) with 0. lia.
Qed.
Lemma user_10000000 : user_page 0x10000000.
Proof. split; [lia|]. split; [reflexivity|discriminate]. Qed.
Lemma user_10400000 : user_page 0x10400000.
Proof. split; [lia|]. split; [reflexivity|discriminate]. Qed.

Lemma map_spec_witness :
  exists s' k, map 0x10400000 0x5000 7 mm0 = Ok (tt, s') /\ ok s' (drop k [0x3000; 0x4000]) /\
    k = (if bool_decide (phys mm0 !! (cr3 mm0 + 4 * dir_index 0x10400000) = Some 0) then 1%nat else 0%nat) /\
    (forall i, 0 <= i < 4096 -> translate s' (0x10400000 + i) = Ok (0x5000 + i)) /\
    same_pages mm0 s' (fun g => g <> 0x10400000 / 4096) /\ same_data mm0 s' (fun a => a ∉ [0x3000; 0x4000]).
Proof.
  apply (map_spec mm0 [0x3000; 0x4000] 0x10400000 0x5000 7).
  - exact mm0_ok.
  - split; [reflexivity|lia].
  - exact user_10400000.
  - split; [reflexivity|lia].
  - set_solver.
  - lia.
  - reflexivity.
  - intros _. discriminate.
Defined.
Lemma frame_alloc_spec_witness :
  exists s', frame_alloc mm0 = Ok (0x3000, s') /\ ok s' [0x4000] /\ 0x3000 <> 0 /\ 0x3000 ∉ [0x4000] /\ plain s' 0x3000 /\ unmapped s' 0x3000 /\
      num_pages s' = num_pages mm0 -u 1 /\ same_pages mm0 s' (fun _ => True) /\ same_data mm0 s' (fun b => b <> 0x3000).
Proof. exact (frame_alloc_spec mm0 [0x3000; 0x4000] mm0_ok). Defined.
Lemma free_page_spec_witness :
  exists s', free_page 0x10000000 mm0 = Ok (0, s') /\ ok s' [0x5000; 0x3000; 0x4000] /\ num_pages s' = num_pages mm0 +u 1 /\
    (forall i, 0 <= i < 4096 -> translate s' (0x10000000 + i) = Err EFault) /\
    same_pages mm0 s' (fun g => g <> 0x10000000 / 4096) /\ same_data mm0 s' (fun b => b <> 0x5000).
Proof.
  destruct mm0_facts as (_ & H1 & H2 & H3).
  apply (free_page_spec mm0 [0x3000; 0x4000] 0x10000000 0x5000).
  - exact mm0_ok.
  - split; [reflexivity|lia].
  - exact user_10000000.
  - exact H1.
  - discriminate.
  - exact H2.
  - apply mem0_frame, list_elem_of_In. cbn. tauto.
  - exact H3.
Defined.
(** ** Corners *)

(** [unmap] of a page without a table takes a frame for the table with the
    flags 0: the table is not present and clearing it faults. *)
Lemma unmap_no_table s f l v :
  ok s (f :: l) -> 0 <= v < 2 ^ 32 -> dir_index v < 1023 -> phys s !! (cr3 s + 4 * dir_index v) = Some 0 -> unmap v s = Err EFault.
Proof.
  intros Hok Hv Hdv Hd0. destruct (index_bounds v Hv) as [Hdi Hti]. set (d := dir_index v) in *.
  destruct (alloc_facts s f l Hok) as (e0 & nx0 & He0 & H00 & _ & _ & _ & Hfa & Hf0 & _ & Hpf & _ & Hfe & Hae & _).
  destruct (frame_alloc_run s f l Hok 1) as (e & nx & He & Hnx & Hrun & Hok1 & _). rewrite He0 in He. injection He as <-.
  set (s1 := with_free _ nx _) in *. pose proof (ok_base _ _ Hok) as Hb. pose proof (ok_base _ _ Hok1) as Hb1.
  destruct (ok_cr3 _ _ Hb) as (Hac & _). destruct Hpf as (_ & Hfc & _).
  destruct (ok_dir _ _ Hb 1022 e0 ltac:(lia) He0 H00) as (_ & _ & Hec & _).
  assert (Hdir : forall k, 0 <= k < 1024 -> phys s1 !! (cr3 s + 4 * k) = phys s !! (cr3 s + 4 * k)).
  { intros k Hk. cbn. rewrite !lookup_insert_ne; [done|rewrite (frame_word f)|]; apply word_ne; (done || lia || congruence). }
  unfold unmap, map. set (g := Z.lor f 0).
  assert (Hg : present g = false) by (unfold g; by rewrite present_lor).
  set (s2 := with_phys s1 (<[cr3 s + 4 * d := g]> (phys s1))).
  assert (Hst : store (PDIR_ADDR + 4 * d) g s1 = Ok (tt, s2)).
  { unfold store. rewrite (translate_pdir s1 _ Hb1) by lia. cbn [mbind res_bind]. change (cr3 s1) with (cr3 s).
    rewrite (pwr_Some _ _ 0); [done|]. by rewrite Hdir. }
  assert (Hf : fill words (PTABLES_ADDR + d * PAGE_SIZE) s2 = Err EFault).
  { destruct (ptable_index d 0 ltac:(lia) ltac:(lia)) as (I1 & I2 & _). rewrite Z.mul_0_r, Z.add_0_r in I1, I2. destruct (rec_entry s _ Hb) as [Hp Hr].
    assert (E : store (PTABLES_ADDR + d * PAGE_SIZE) 0 s2 = Err EFault).
    { unfold store, translate, walk. change (pg_on s2) with (pg_on s). change (cr3 s2) with (cr3 s). rewrite (ok_on _ _ Hb), I1.
      change (phys s2) with (<[cr3 s + 4 * d := g]> (phys s1)). rewrite (prd_Some _ _ (Z.lor (cr3 s) 3)).
      2:{ rewrite lookup_insert_ne by lia. rewrite Hdir by lia. apply Hb. }
      cbn [mbind res_bind]. rewrite Hp. cbn [negb]. rewrite Hr, I2. rewrite (prd_Some _ _ g) by apply lookup_insert_eq. cbn [mbind res_bind]. by rewrite Hg. }
    change (fill words (PTABLES_ADDR + d * PAGE_SIZE) s2) with ((store (PTABLES_ADDR + d * PAGE_SIZE) 0;; fill 1023 (PTABLES_ADDR + d * PAGE_SIZE + 4)) s2).
    unfold mbind, st_bind. by rewrite E. }
  change (map_fuel 3 v 0 0 s) with
    ((pde ← load (PDIR_ADDR + 4 * d);
      (if pde =? 0 then f ← frame_alloc_with (map_fuel 2); store (PDIR_ADDR + 4 * d) (Z.lor f 0);; fill words (PTABLES_ADDR + d * PAGE_SIZE)
       else mret tt);; store (PTABLES_ADDR + d * PAGE_SIZE + 4 * tbl_index v) (Z.lor 0 0)) s).
  rewrite (st_bind_eq _ _ _ _ _ (load_dir s _ Hb d 0 Hdi Hd0)). cbn [Z.eqb]. unfold mbind at 1, st_bind at 1.
  rewrite (st_bind_eq _ _ _ _ _ Hrun). fold g. rewrite (st_bind_eq _ _ _ _ _ Hst). by rewrite Hf.
Qed.

(** The last frame of a region is freed although only a part of it is in the region. *)
Lemma reserve_partial_frame m :
  let s := MM (<[0x200000 := m]> (<[0x201000 := m]> ∅)) 0 false 0 0 0 0 in
  exists s', reserve_region 0x150000 0x200000 6000 s = Ok (tt, s') /\ last_free_page s' = 0x201000 /\ num_pages s' = 2.
Proof. eexists. split; [reflexivity|]. split; reflexivity. Qed.

(** Two adjacent free frames: a block of one page is not found, and a block of
    two does not change the number of free frames. *)
Definition mm1 : mm := MM (<[0x4000 := 0x3000]> (<[0x3000 := 0]> mem0)) 0x1000 true 0x4000 2 6 0x1000.
Lemma block_of_one_page : phys_block_alloc 4096 mm1 = Err EAssert.
Proof. vm_compute. reflexivity. Qed.
Lemma block_keeps_count : exists s', phys_block_alloc 8192 mm1 = Ok (0x3000, s') /\ last_free_page s' = 0 /\ num_pages s' = 2.
Proof.
  assert (H : match phys_block_alloc 8192 mm1 with Ok (a, s') => (a, last_free_page s', num_pages s') = (0x3000, 0, 2) | Err _ => False end)
    by (vm_compute; reflexivity).
  destruct (phys_block_alloc 8192 mm1) as [[a s']|]; [|done]. injection H as -> H1 H2. by exists s'.
Qed.
End MemSpec.
