(* ===== verification/Net.v ===== *)
(** * The network stack

    Frames and their conversions (src/net.c, ip.c), checksums (ip.c, udp.c),
    ICMP echo (icmp.c), the ARP cache (arp.c), routes (route.c), sockets (sock.c)
    and UDP (udp.c).  A frame is the array of its bytes; a field is read and
    written at its offset, little-endian as the processor does.  The lists of
    routes, sockets and buffers are the sequences that DList.v shows src/list.c
    to implement.  What the rest of the system does while a task sleeps is the
    argument [world]. *)
From S2P Require Import Prelude CString Bmap.

Module Net.

(** ** Fields of frames *)
Definition get8 (b : list Z) (o : nat) : res Z := rd b o.
Definition get16 (b : list Z) (o : nat) : res Z := x ← rd b o; y ← rd b (o + 1); Ok (x + 256 * y).
Definition get32 (b : list Z) (o : nat) : res Z := x ← get16 b o; y ← get16 b (o + 2); Ok (x + 65536 * y).
Definition put8 (b : list Z) (o : nat) (v : Z) : res (list Z) := wr b o (u8 v).
Definition put16 (b : list Z) (o : nat) (v : Z) : res (list Z) := b ← wr b o (v mod 256); wr b (o + 1) (v / 256 mod 256).
Definition put32 (b : list Z) (o : nat) (v : Z) : res (list Z) := b ← put16 b o (v mod 65536); put16 b (o + 2) (v / 65536).
(** [p->f = ntohs(p->f)] and [p->f = ntohl(p->f)]. *)
Definition swap16_at (b : list Z) (o : nat) : res (list Z) := v ← get16 b o; put16 b o (ntohs v).
Definition swap32_at (b : list Z) (o : nat) : res (list Z) := v ← get32 b o; put32 b o (ntohl v).

(** [set_endianess]: the first byte of the word 1. *)
Definition is_bige : bool := match le_split 4 1 with c :: _ => c =? 0 | [] => false end.

(** Offsets of the headers and their sizes. *)
Definition MAC_SIZE : nat := 6.
Definition ETH_HDR : nat := 14.
Definition IP_HDR : nat := 20.
Definition UDP_HDR : nat := 8.
Definition ARP_HDR : nat := 8.
Definition ARP_IPV4 : nat := 20.
Definition ETH_P_ARP : Z := 0x0806.
Definition ETH_P_IP : Z := 0x0800.
Definition IPV4 : Z := 4.
Definition IP_P_ICMP : Z := 1.
Definition IP_P_UDP : Z := 17.
Definition IFACE_MAX_IPS : nat := 4.

Definition buf2eth (b : list Z) : res (list Z) := swap16_at b 12.
Definition eth2buf (b : list Z) : res (list Z) := swap16_at b 12.

Definition make_ip (a b c d : Z) : Z := u32 (Z.lor (Z.lor (Z.lor (Z.shiftl a 24) (Z.shiftl b 16)) (Z.shiftl c 8)) d).

(** ** IP (ip.c) *)

(** The loop of [ip_csum] over the words of the buffer; the bytes are those
    that the pointer goes over. *)
Fixpoint csum_words (b : list Z) (sum : Z) : Z :=
  match b with
  | x :: y :: r => csum_words r (sum +u (x + 256 * y))
  | [x] => sum +u x
  | [] => sum
  end.
Fixpoint csum_fold (n : nat) (sum : Z) : res Z :=
  match n with
  | O => Err EFuel
  | S n' => if Z.shiftr sum 16 =? 0 then Ok sum else csum_fold n' (Z.land sum 0xFFFF +u Z.shiftr sum 16)
  end.
(** Folding a 32-bit sum takes two rounds. *)
Definition csum_of (bytes : list Z) : res Z := sum ← csum_fold 3 (csum_words bytes 0); Ok (u16 (Z.lnot sum)).
Definition ip_csum (b : list Z) (o : nat) (len : Z) : res Z := bytes ← rd_block b o (Z.to_nat len); csum_of bytes.

Definition iphlen (b : list Z) (o : nat) : res Z :=
  hlen ← get8 b o;
  let hlen := if is_bige then Z.shiftr hlen 4 else hlen in
  Ok (Z.shiftl (Z.land hlen 7) 2).

(** The bit-fields of the header: [version] and [ihl] are the low and the high
    half of the first byte; [flags] and [frag_offs] the low 3 and the high 13
    bits of the fourth word. *)
Definition version (b : list Z) (o : nat) : res Z := v ← get8 b o; Ok (Z.land v 15).
Definition ihl (b : list Z) (o : nat) : res Z := v ← get8 b o; Ok (Z.shiftr v 4).
Definition set_version_ihl (b : list Z) (o : nat) (ver len : Z) : res (list Z) := put8 b o (Z.lor (Z.land ver 15) (Z.shiftl (Z.land len 15) 4)).
Definition set_frag (b : list Z) (o : nat) (flags offs : Z) : res (list Z) :=
  put16 b (o + 6) (Z.lor (Z.land flags 7) (Z.shiftl (Z.land offs 0x1FFF) 3)).

Definition buf2ipv4 (b : list Z) (o : nat) : res (list Z) :=
  b ← (if is_bige then Ok b
       else
         ver ← version b o; len ← ihl b o;
         b ← set_version_ihl b o len ver;
         w ← get16 b (o + 6);
         let frg := ntohs w in
         set_frag b o (Z.land (Z.shiftr frg 13) 7) (Z.land frg 0x1FFF));
  b ← swap16_at b (o + 2); b ← swap16_at b (o + 4); b ← swap16_at b (o + 10);
  b ← swap32_at b (o + 12); swap32_at b (o + 16).

Definition ipv42buf (b : list Z) (o : nat) : res (list Z) :=
  b ← (if is_bige then Ok b
       else
         ver ← version b o; len ← ihl b o;
         b ← set_version_ihl b o len ver;
         val ← get16 b (o + 6);
         put16 b (o + 6) (htons (Z.lor (u16 (Z.shiftl (Z.land val 7) 13)) (Z.shiftr (Z.land val 0xFFF8) 3))));
  b ← swap16_at b (o + 2); b ← swap16_at b (o + 4); b ← swap16_at b (o + 10);
  b ← swap32_at b (o + 12); swap32_at b (o + 16).

Definition ip_len (b : list Z) (o : nat) : res Z := get16 b (o + 2).
Definition ip_proto (b : list Z) (o : nat) : res Z := get8 b (o + 9).
Definition ip_saddr (b : list Z) (o : nat) : res Z := get32 b (o + 12).
Definition ip_daddr (b : list Z) (o : nat) : res Z := get32 b (o + 16).
(** [ip_data], as an offset. *)
Definition ip_data (b : list Z) (o : nat) : res nat := n ← ihl b o; Ok (o + Z.to_nat (n * 4))%nat.
(** ** The state of the stack *)
Record netif := NetIf { if_id : Z; mac : list Z; ips : list Z; priv : bool }.
Record net_buf := NB { nic : Z; nb_size : Z; captured : bool; u_data : nat; u_len : Z; data : list Z }.
(** Interfaces are the elements of [netifs], by their indices. *)
Record route_t := Route { r_base : Z; r_mask : Z; r_gateway : Z; r_netif : nat }.
Inductive arp_status := ARPC_FREE | ARPC_PENDING | ARPC_SOLVED.
#[global] Instance arp_status_eq_dec : EqDecision arp_status.
Proof. solve_decision. Defined.
Record arp_entry := Arp { a_ip : Z; a_mac : list Z; status : arp_status; expire_ts : Z }.
Record sock_t := Sock {
  proto : Z; loc_ip : Z; loc_port : Z; rem_ip : Z; rem_port : Z; pid : Z; connected : bool;
  bufs : list net_buf; sk_netif : option nat
}.
Definition sock_ptr := positive.

(** What the stack does to the rest of the system: a frame handed to an
    interface, the tasks woken that sleep on an address. *)
Inductive chan := ChNetq | ChArp (i : Z) | ChSock (p : sock_ptr).
Inductive event := Send (i : nat) (frame : list Z) | Wakeup (c : chan).

Record net := NetS {
  netifs : list netif; netq : list net_buf; routes : list route_t; rt_lock : bool;
  arp_cache : list arp_entry; socks : list (sock_ptr * sock_t); next_sock : sock_ptr;
  udp_ports : Bmap.bmap_t; tcp_ports : Bmap.bmap_t;
  now : Z; self : Z; exiting : bool; nomem : bool; events : list event
}.
Definition set_netifs (s : net) x := NetS x (netq s) (routes s) (rt_lock s) (arp_cache s) (socks s) (next_sock s) (udp_ports s) (tcp_ports s) (now s) (self s) (exiting s) (nomem s) (events s).
Definition set_netq (s : net) x := NetS (netifs s) x (routes s) (rt_lock s) (arp_cache s) (socks s) (next_sock s) (udp_ports s) (tcp_ports s) (now s) (self s) (exiting s) (nomem s) (events s).
Definition set_routes (s : net) x := NetS (netifs s) (netq s) x (rt_lock s) (arp_cache s) (socks s) (next_sock s) (udp_ports s) (tcp_ports s) (now s) (self s) (exiting s) (nomem s) (events s).
Definition set_rt_lock (s : net) x := NetS (netifs s) (netq s) (routes s) x (arp_cache s) (socks s) (next_sock s) (udp_ports s) (tcp_ports s) (now s) (self s) (exiting s) (nomem s) (events s).
Definition set_arp (s : net) x := NetS (netifs s) (netq s) (routes s) (rt_lock s) x (socks s) (next_sock s) (udp_ports s) (tcp_ports s) (now s) (self s) (exiting s) (nomem s) (events s).
Definition set_socks (s : net) x := NetS (netifs s) (netq s) (routes s) (rt_lock s) (arp_cache s) x (next_sock s) (udp_ports s) (tcp_ports s) (now s) (self s) (exiting s) (nomem s) (events s).
Definition set_next (s : net) x := NetS (netifs s) (netq s) (routes s) (rt_lock s) (arp_cache s) (socks s) x (udp_ports s) (tcp_ports s) (now s) (self s) (exiting s) (nomem s) (events s).
Definition set_udp (s : net) x := NetS (netifs s) (netq s) (routes s) (rt_lock s) (arp_cache s) (socks s) (next_sock s) x (tcp_ports s) (now s) (self s) (exiting s) (nomem s) (events s).
Definition set_tcp (s : net) x := NetS (netifs s) (netq s) (routes s) (rt_lock s) (arp_cache s) (socks s) (next_sock s) (udp_ports s) x (now s) (self s) (exiting s) (nomem s) (events s).
Definition set_events (s : net) x := NetS (netifs s) (netq s) (routes s) (rt_lock s) (arp_cache s) (socks s) (next_sock s) (udp_ports s) (tcp_ports s) (now s) (self s) (exiting s) (nomem s) x.
Definition emit (e : event) : st net unit := modify (fun s => set_events s (events s ++ [e])).

(** ** Buffers and interfaces (net.c) *)
Definition NB_MAX_SIZE : Z := 2000.
Definition NETQ_MAX_ITEMS : nat := 256.

Definition net_buf_alloc (size nic_id : Z) : st net (option net_buf) :=
  s ← get;
  if decide (NETQ_MAX_ITEMS <= length (netq s))%nat then mret None
  else if NB_MAX_SIZE <? size then mret None
  else if nomem s then mret None
  else mret (Some (NB (u8 nic_id) (u16 size) false 0 0 (replicate (Z.to_nat size) 0))).

(** The result says whether the buffer is in the queue. *)
Definition netq_push (buf : net_buf) : st net bool :=
  s ← get;
  b ← (if decide (NETQ_MAX_ITEMS <= length (netq s))%nat then mret false
       else put (set_netq s (netq s ++ [buf]));; mret true);
  emit (Wakeup ChNetq);;
  mret b.
Definition netq_shift : st net (option net_buf) :=
  s ← get;
  match netq s with [] => mret None | b :: q => put (set_netq s q);; mret (Some b) end.

Definition netif_at (i : nat) : st net netif := s ← get; lift (rd (netifs s) i).

(** The first of the four places that holds [ip]. *)
Fixpoint ip_index (l : list Z) (ip : Z) : option nat :=
  match l with [] => None | x :: l' => if x =? ip then Some 0%nat else option_map S (ip_index l' ip) end.
Definition iface_add_ip (i : nat) (ip : Z) : st net Z :=
  f ← netif_at i;
  match ip_index (take IFACE_MAX_IPS (ips f)) 0 with
  | None => mret (-1)
  | Some k => modify (fun s => set_netifs s (<[i := NetIf (if_id f) (mac f) (<[k := ip]> (ips f)) (priv f)]> (netifs s)));; mret 0
  end.

(** ** Routes (route.c) *)
Definition rt_find (p : route_t -> bool) (l : list route_t) : option route_t := List.find p l.
Definition route_exists (b m : Z) : st net bool :=
  s ← get; mret (match rt_find (fun r => (r_base r =? b) && (r_mask r =? m))%bool (routes s) with Some _ => true | None => false end).

(** The loop of [route_add] and the insertion before the node where it stops. *)
Fixpoint route_insert (r : route_t) (l : list route_t) : list route_t :=
  match l with
  | [] => [r]
  | rt :: l' =>
      if r_base rt <? r_base r then r :: l
      else if ((r_base r =? r_base rt) && (r_mask rt <? r_mask r))%bool then r :: l
      else rt :: route_insert r l'
  end.
Definition route_add (b m gw : Z) (nif : nat) : st net Z :=
  let b := Z.land b m in
  e ← route_exists b m;
  if (e : bool) then mret (-1)
  else
    s ← get;
    if nomem s then mret (-1)
    else put (set_routes s (route_insert (Route b m gw nif) (routes s)));; mret 0.
Definition route_find (ip : Z) : st net (option route_t) :=
  s ← get; mret (rt_find (fun r => Z.land ip (r_mask r) =? r_base r) (routes s)).

Definition rt_spin_lock : st net unit := s ← get; if rt_lock s then fail EDeadlock else put (set_rt_lock s true).
Definition rt_spin_unlock : st net unit := modify (fun s => set_rt_lock s false).
(** [route_del] is also the free function of the list: [list_del] unlinks the
    node and calls it. *)
Fixpoint route_del (n : nat) (r : nat) : st net unit :=
  match n with
  | O => fail EFuel
  | S n' =>
      rt_spin_lock;;
      modify (fun s => set_routes s (take r (routes s) ++ drop (S r) (routes s)));;
      route_del n' r;;
      rt_spin_unlock
  end.
(** ** The ARP cache (arp.c) *)
Definition ARPCE_TTL_PENDING : Z := 2.
Definition ARPCE_TTL : Z := 300.
Definition ARP_CACHE_SIZE : nat := 32.
Definition HTYPE_ETH : Z := 1.
Definition PTYPE_IPV4 : Z := 0x800.
Definition ETH_HLEN : Z := 6.
Definition IPV4_PLEN : Z := 4.
Definition ARP_OP_REQ : Z := 1.
Definition ARP_OP_REP : Z := 2.
Definition arp_zero : arp_entry := Arp 0 (replicate MAC_SIZE 0) ARPC_FREE 0.

(** [p] is the offset of the ARP header, respectively of its body. *)
Definition buf2arph (b : list Z) (p : nat) : res (list Z) := b ← swap16_at b p; b ← swap16_at b (p + 2); swap16_at b (p + 6).
Definition arph2buf (b : list Z) (p : nat) : res (list Z) := b ← swap16_at b p; b ← swap16_at b (p + 2); swap16_at b (p + 6).
Definition buf2arpd (b : list Z) (p : nat) : res (list Z) := b ← swap32_at b (p + 6); swap32_at b (p + 16).
Definition arpd2buf (b : list Z) (p : nat) : res (list Z) := b ← swap32_at b (p + 6); swap32_at b (p + 16).

Definition arp_at (i : nat) : st net arp_entry := s ← get; lift (rd (arp_cache s) i).
Definition arp_put (i : nat) (e : arp_entry) : st net unit := s ← get; l ← lift (wr (arp_cache s) i e); put (set_arp s l).
Definition arp_cache_check_expired (i : nat) : st net unit :=
  s ← get; e ← arp_at i;
  if expire_ts e <? now s then arp_put i arp_zero else mret tt.

(** The loop of [arp_cache_get_mac] with [n] entries to go: the index, or -1,
    and the buffer [mac]. *)
Fixpoint get_mac_loop (n i : nat) (ip : Z) (m : list Z) : st net (Z * list Z) :=
  match n with
  | O => mret (-1, m)
  | S n' =>
      arp_cache_check_expired i;;
      e ← arp_at i;
      if (bool_decide (status e = ARPC_SOLVED) && (a_ip e =? ip))%bool then mret (Z.of_nat i, a_mac e)
      else get_mac_loop n' (S i) ip m
  end.
Definition arp_cache_get_mac (ip : Z) (m : list Z) : st net (Z * list Z) := get_mac_loop ARP_CACHE_SIZE 0 ip m.

Fixpoint set_mac_loop (n i : nat) (ip : Z) (m : list Z) : st net Z :=
  match n with
  | O => mret (-1)
  | S n' =>
      arp_cache_check_expired i;;
      e ← arp_at i;
      if ((a_ip e =? ip) && bool_decide (status e = ARPC_PENDING))%bool then
        s ← get; arp_put i (Arp (a_ip e) m ARPC_SOLVED (now s +u ARPCE_TTL));; mret (Z.of_nat i)
      else set_mac_loop n' (S i) ip m
  end.
Definition arp_cache_set_mac (ip : Z) (m : list Z) : st net Z := set_mac_loop ARP_CACHE_SIZE 0 ip m.

(** The search for a slot: the first free one, or else the one that expires
    first.  [mid] has no value before an entry with [expire_ts] below [min]. *)
Fixpoint slot_loop (n i : nat) (min : Z) (mid : option nat) : st net (option nat) :=
  match n with
  | O => mret mid
  | S n' =>
      arp_cache_check_expired i;;
      e ← arp_at i;
      if bool_decide (status e = ARPC_FREE) then mret (Some i)
      else if expire_ts e <? min then slot_loop n' (S i) (expire_ts e) (Some i)
      else slot_loop n' (S i) min mid
  end.
Definition arp_cache_set_pending (ip : Z) : st net nat :=
  r ← slot_loop ARP_CACHE_SIZE 0 0xFFFFFFFF None;
  match r with
  | None => fail EOob
  | Some i => s ← get; arp_put i (Arp ip (replicate MAC_SIZE 0) ARPC_PENDING (now s +u ARPCE_TTL_PENDING));; mret i
  end.

(** [memcpy] of [n] bytes inside a frame, and of a block into it. *)
Definition move (b : list Z) (d o n : nat) : res (list Z) := x ← rd_block b o n; wr_block b d x.
Definition send (i : nat) (b : list Z) (size : Z) : st net unit := f ← lift (rd_block b 0 (Z.to_nat size)); emit (Send i f).

Definition arp_size : Z := 42.

(** The reply, written over the request. *)
Definition arp_reply (b : list Z) (m : list Z) (ip : Z) : res (list Z) :=
  let p := ETH_HDR in let d := (ETH_HDR + ARP_HDR)%nat in
  b ← move b 0 6 MAC_SIZE;
  b ← wr_block b 6 m;
  b ← eth2buf b;
  b ← put16 b (p + 6) ARP_OP_REP;
  b ← arph2buf b p;
  sip ← get32 b (d + 6);
  b ← put32 b (d + 16) sip;
  b ← move b (d + 10) d MAC_SIZE;
  b ← put32 b (d + 6) ip;
  b ← wr_block b d m;
  arpd2buf b d.

Definition arp_process (buf : net_buf) : st net (Z * net_buf) :=
  let p := ETH_HDR in let d := (ETH_HDR + ARP_HDR)%nat in
  b ← lift (buf2eth (data buf));
  b ← lift (buf2arph b p);
  let out := fun b => NB (nic buf) (nb_size buf) (captured buf) (u_data buf) (u_len buf) b in
  htype ← lift (get16 b p); ptype ← lift (get16 b (p + 2));
  hlen ← lift (get8 b (p + 4)); plen ← lift (get8 b (p + 5)); op ← lift (get16 b (p + 6));
  if negb ((htype =? HTYPE_ETH) && (ptype =? PTYPE_IPV4))%bool then mret (-1, out b)
  else if negb ((hlen =? ETH_HLEN) && (plen =? IPV4_PLEN))%bool then mret (-1, out b)
  else if negb ((op =? ARP_OP_REQ) || (op =? ARP_OP_REP))%bool then mret (-1, out b)
  else if nb_size buf <? arp_size then mret (-1, out b)
  else
    b ← lift (buf2arpd b d);
    f ← netif_at (Z.to_nat (nic buf));
    if negb (priv f) then mret (-1, out b)
    else if op =? ARP_OP_REQ then
      dip ← lift (get32 b (d + 16));
      match ip_index (take IFACE_MAX_IPS (ips f)) dip with
      | None => mret (-1, out b)
      | Some k =>
          ip ← lift (rd (ips f) k);
          b ← lift (arp_reply b (mac f) ip);
          send (Z.to_nat (nic buf)) b arp_size;;
          mret (0, out b)
      end
    else
      sip ← lift (get32 b (d + 6)); smac ← lift (rd_block b d MAC_SIZE);
      i ← arp_cache_set_mac sip smac;
      if i <? 0 then mret (-1, out b) else emit (Wakeup (ChArp i));; mret (0, out b).

(** The request for [ip]. *)
Definition arp_request (f : netif) (ip : Z) (b : list Z) : res (list Z) :=
  let p := ETH_HDR in let d := (ETH_HDR + ARP_HDR)%nat in
  b ← wr_block b 0 (replicate MAC_SIZE 0xFF);
  b ← wr_block b 6 (mac f);
  b ← put16 b 12 ETH_P_ARP;
  b ← eth2buf b;
  b ← put16 b p HTYPE_ETH; b ← put16 b (p + 2) PTYPE_IPV4;
  b ← put8 b (p + 4) ETH_HLEN; b ← put8 b (p + 5) IPV4_PLEN; b ← put16 b (p + 6) ARP_OP_REQ;
  b ← arph2buf b p;
  b ← wr_block b d (mac f);
  ip0 ← rd (ips f) 0;
  b ← put32 b (d + 6) ip0;
  b ← wr_block b (d + 10) (replicate MAC_SIZE 0);
  b ← put32 b (d + 16) ip;
  arpd2buf b d.

Section World.
(** What happens until the sleeping task runs again. *)
Variable world : st net unit.

(** [m] is the buffer for the address; the result is the code and the buffer. *)
Definition arp_resolve (ip : Z) (m : list Z) : st net (Z * list Z) :=
  if ip =? 0xFFFFFFFF then mret (0, replicate MAC_SIZE 0)
  else
    '(r, m) ← arp_cache_get_mac ip m;
    if 0 <? r then mret (0, m)
    else
      b ← net_buf_alloc arp_size 0;
      match b with
      | None => mret (-1, m)
      | Some buf =>
          f ← netif_at 0;
          if negb (priv f) then mret (-1, m)
          else
            b ← lift (arp_request f ip (data buf));
            i ← arp_cache_set_pending ip;
            send 0 b arp_size;;
            world;;
            e ← arp_at i;
            if ((a_ip e =? ip) && bool_decide (status e = ARPC_SOLVED))%bool then mret (0, a_mac e)
            else arp_put i arp_zero;; mret (-1, m)
      end.
End World.
(** ** Sockets (sock.c) *)
Definition ADDR_ANY : Z := 0.
Definition S_UDP : Z := 0.
Definition S_TCP : Z := 1.
Definition SOCK_MAX_BUFS : nat := 4.
Definition MAX_SOCKS : nat := 32.
Definition MIN_PORT : Z := 32768.

Definition set_bufs (k : sock_t) x := Sock (proto k) (loc_ip k) (loc_port k) (rem_ip k) (rem_port k) (pid k) (connected k) x (sk_netif k).
Definition set_loc (k : sock_t) i p := Sock (proto k) i p (rem_ip k) (rem_port k) (pid k) (connected k) (bufs k) (sk_netif k).
Definition set_rem (k : sock_t) i p n := Sock (proto k) (loc_ip k) (loc_port k) i p (pid k) (connected k) (bufs k) n.
Definition set_sk_netif (k : sock_t) n := Sock (proto k) (loc_ip k) (loc_port k) (rem_ip k) (rem_port k) (pid k) (connected k) (bufs k) n.
Definition set_connected (k : sock_t) := Sock (proto k) (loc_ip k) (loc_port k) (rem_ip k) (rem_port k) (pid k) true (bufs k) (sk_netif k).

(** A socket is found by its address; a pointer to a freed one is dangling. *)
Fixpoint assoc (l : list (sock_ptr * sock_t)) (p : sock_ptr) : option sock_t :=
  match l with [] => None | (q, k) :: l' => if decide (q = p) then Some k else assoc l' p end.
Fixpoint update (l : list (sock_ptr * sock_t)) (p : sock_ptr) (f : sock_t -> sock_t) : list (sock_ptr * sock_t) :=
  match l with [] => [] | (q, k) :: l' => if decide (q = p) then (q, f k) :: l' else (q, k) :: update l' p f end.
Definition sock_at (p : sock_ptr) : st net sock_t :=
  s ← get; match assoc (socks s) p with Some k => mret k | None => fail EUaf end.
Definition upd_sock (p : sock_ptr) (f : sock_t -> sock_t) : st net unit := modify (fun s => set_socks s (update (socks s) p f)).

Definition sock_alloc (pr : Z) : st net (option sock_ptr) :=
  s ← get;
  if decide (length (socks s) = MAX_SOCKS) then mret None
  else if nomem s then mret None
  else
    let p := next_sock s in
    put (set_next (set_socks s (socks s ++ [(p, Sock pr 0 0 0 0 (self s) false [] None)])) (Pos.succ p));;
    mret (Some p).
(** [list_close] of a list with elements reads a freed node (DList.v). *)
Definition sock_free (p : sock_ptr) : st net unit :=
  k ← sock_at p;
  modify (fun s => set_socks s (filter (fun q => q.1 <> p) (socks s)));;
  if bool_decide (bufs k = []) then mret tt else fail EUaf.

Definition sock_set_loc_addr (p : sock_ptr) (ip port : Z) : st net Z :=
  k ← sock_at p;
  s ← get;
  match List.find (fun q => (proto q.2 =? proto k) && (loc_port q.2 =? port) && ((loc_ip q.2 =? ip) || (loc_ip q.2 =? 0)))%bool (socks s) with
  | Some _ => mret (-1)
  | None => upd_sock p (fun k => set_loc k ip port);; mret 0
  end.
Definition sock_set_netif (p : sock_ptr) (i : nat) : st net unit := _ ← sock_at p; upd_sock p (fun k => set_sk_netif k (Some i)).
Definition sock_set_rem_addr (p : sock_ptr) (ip port : Z) : st net Z :=
  k ← sock_at p;
  n ← (match sk_netif k with
       | Some n => mret (Some n)
       | None => r ← route_find ip; mret (option_map r_netif r)
       end);
  match n with
  | None => mret (-1)
  | Some n => upd_sock p (fun k => set_rem k ip port (Some n));; mret 0
  end.

Definition port_alloc (pr : Z) : st net Z :=
  s ← get;
  port ← (if pr =? S_UDP then '(b, m) ← lift (Bmap.bmap_get_free (udp_ports s)); put (set_udp s m);; mret b
          else if pr =? S_TCP then '(b, m) ← lift (Bmap.bmap_get_free (tcp_ports s)); put (set_tcp s m);; mret b
          else mret (-1));
  mret (if 0 <=? port then port +i MIN_PORT else port).
Definition port_free (pr port : Z) : st net unit :=
  let port := port -i MIN_PORT in
  s ← get;
  if pr =? S_UDP then '(_, m) ← lift (Bmap.bmap_free (udp_ports s) port); put (set_udp s m)
  else if pr =? S_TCP then '(_, m) ← lift (Bmap.bmap_free (tcp_ports s) port); put (set_tcp s m)
  else mret tt.
(** The result is the code and the port that [addr] holds afterwards. *)
Definition sock_bind (p : sock_ptr) (ip port : Z) : st net (Z * Z) :=
  k ← sock_at p;
  r ← (if port =? 0 then port_alloc (proto k) else mret port);
  if r <? 0 then mret (-1, port)
  else let port := u16 r in c ← sock_set_loc_addr p ip port; mret (if c <? 0 then -1 else 0, port).

(** ** UDP (udp.c) *)
Definition buf2udp (b : list Z) (u : nat) : res (list Z) := b ← swap16_at b u; b ← swap16_at b (u + 2); b ← swap16_at b (u + 4); swap16_at b (u + 6).
Definition udp2buf (b : list Z) (u : nat) : res (list Z) := b ← swap16_at b u; b ← swap16_at b (u + 2); b ← swap16_at b (u + 4); swap16_at b (u + 6).
Definition udp_sport (b : list Z) (u : nat) : res Z := get16 b u.
Definition udp_dport (b : list Z) (u : nat) : res Z := get16 b (u + 2).
Definition udp_len (b : list Z) (u : nat) : res Z := get16 b (u + 4).
Definition udp_check (b : list Z) (u : nat) : res Z := get16 b (u + 6).

(** The loop over the words from [ptr] on, [n] to go; the first four are
    header fields in host format. *)
Fixpoint udp_sum (n : nat) (i : nat) (b : list Z) (ptr : nat) (sum : Z) : res Z :=
  match n with
  | O => Ok sum
  | S n' => w ← get16 b ptr; udp_sum n' (S i) b (ptr + 2) (sum +u (if decide (i < 4)%nat then htons w else w))
  end.
Definition udp_csum (b : list Z) (u o : nat) : res Z :=
  saddr ← ip_saddr b o; daddr ← ip_daddr b o; pr ← ip_proto b o; len ← udp_len b u;
  let sum := 0 +u (htonl saddr mod 65536 + htonl saddr / 65536) in
  let sum := sum +u (htonl daddr mod 65536 + htonl daddr / 65536) in
  let sum := sum +u htons pr in
  let sum := sum +u htons len in
  sum ← udp_sum (Z.to_nat (len / 2)) 0 b u sum;
  sum ← (if len mod 2 =? 0 then Ok sum else x ← get8 b (u + Z.to_nat (2 * (len / 2))); Ok (sum +u x));
  let sum := Z.land sum 0xFFFF +u Z.shiftr sum 16 in
  Ok (u16 (Z.lnot sum)).

(** The condition on the socket in the loop of [udp_process]. *)
Definition udp_match (k : sock_t) (dport daddr sport saddr : Z) : bool :=
  ((proto k =? S_UDP) && (loc_port k =? dport) && ((loc_ip k =? 0) || (loc_ip k =? daddr)) &&
   ((rem_port k =? 0) || (rem_port k =? sport)) &&
   ((rem_ip k =? 0) || (rem_ip k =? 0xFFFFFFFF) || (rem_ip k =? saddr)))%bool.

Definition udp_process (buf : net_buf) : st net (Z * net_buf) :=
  let o := ETH_HDR in
  u ← lift (ip_data (data buf) o);
  b ← lift (buf2udp (data buf) u);
  let out := fun c d l => NB (nic buf) (nb_size buf) c d l b in
  check ← lift (udp_check b u);
  csum ← (if check =? 0 then mret 0 else lift (udp_csum b u o));
  if negb (csum =? 0) then mret (-1, out (captured buf) (u_data buf) (u_len buf))
  else
    dport ← lift (udp_dport b u); sport ← lift (udp_sport b u); len ← lift (udp_len b u);
    saddr ← lift (ip_saddr b o); daddr ← lift (ip_daddr b o);
    s ← get;
    match List.find (fun q => udp_match q.2 dport daddr sport saddr) (socks s) with
    | None => mret (0, out (captured buf) (u_data buf) (u_len buf))
    | Some (p, k) =>
        if decide (length (bufs k) < SOCK_MAX_BUFS)%nat then
          let buf := out true (u + UDP_HDR)%nat (len -u Z.of_nat UDP_HDR) in
          upd_sock p (fun k => set_bufs k (bufs k ++ [buf]));;
          emit (Wakeup (ChSock p));;
          mret (0, buf)
        else mret (0, out (captured buf) (u_data buf) (u_len buf))
    end.
Section UdpWorld.
Variable world : st net unit.

Definition udp_connect (p : sock_ptr) (ip port : Z) : st net Z :=
  k ← sock_at p;
  r ← (if loc_port k =? 0 then lp ← port_alloc S_UDP; sock_set_loc_addr p ADDR_ANY (u16 lp) else mret 0);
  if r <? 0 then mret (-1)
  else sock_set_rem_addr p ip port;; upd_sock p set_connected;; mret 0.

(** The result is the number of bytes and the bytes stored in the buffer. *)
Definition udp_read (p : sock_ptr) (size : Z) : st net (Z * list Z) :=
  k ← sock_at p; s ← get;
  if (bool_decide (bufs k = []) && exiting s)%bool then mret (-1, [])
  else
    (if bool_decide (bufs k = []) then world else mret tt);;
    k ← sock_at p;
    match bufs k with
    | [] => fail ENull
    | nbuf :: l =>
        let size := if u_len nbuf <? size then u_len nbuf else size in
        bytes ← lift (rd_block (data nbuf) (u_data nbuf) (Z.to_nat size));
        upd_sock p (fun k => set_bufs k l);;
        mret (s32 size, bytes)
    end.

Definition eth_set_dmac (m : list Z) (dest_ip : Z) : st net (Z * list Z) :=
  if dest_ip =? 0xFFFFFFFF then mret (0, replicate MAC_SIZE 0)
  else
    r ← route_find dest_ip;
    match r with
    | None => mret (-1, m)
    | Some r => arp_resolve world (if r_base r =? 0 then r_gateway r else dest_ip) m
    end.

(** The headers and the data, lines 243 to 272, over the zeroed buffer [b]. *)
Definition udp_build (b smac : list Z) (saddr daddr sport dport : Z) (bytes : list Z) : res (list Z) :=
  let o := ETH_HDR in
  let len := Z.of_nat (length bytes) in
  b ← wr_block b 6 smac;
  b ← put16 b 12 ETH_P_IP;
  b ← eth2buf b;
  b ← set_version_ihl b o IPV4 (Z.of_nat IP_HDR / 4);
  b ← put8 b (o + 1) 0;
  b ← put16 b (o + 2) (u16 (Z.of_nat IP_HDR + Z.of_nat UDP_HDR + len));
  b ← put16 b (o + 4) 0;
  b ← set_frag b o 2 0;
  b ← put8 b (o + 8) 64;
  b ← put8 b (o + 9) IP_P_UDP;
  b ← put16 b (o + 10) 0;
  b ← put32 b (o + 12) saddr;
  b ← put32 b (o + 16) daddr;
  u ← ip_data b o;
  b ← wr_block b (u + UDP_HDR) bytes;
  b ← put16 b u sport;
  b ← put16 b (u + 2) dport;
  b ← put16 b (u + 4) (u16 (Z.of_nat UDP_HDR + len));
  b ← put16 b (u + 6) 0;
  csum ← udp_csum b u o;
  b ← udp2buf b u;
  b ← put16 b (u + 6) csum;
  b ← ipv42buf b o;
  hlen ← iphlen b o;
  c ← ip_csum b o hlen;
  put16 b (o + 10) c.

Definition udp_write (p : sock_ptr) (buf : list Z) (len : Z) : st net Z :=
  k ← sock_at p;
  match sk_netif k with
  | None => fail ENull
  | Some i =>
      f ← netif_at i;
      let hdrs_len := Z.of_nat (ETH_HDR + IP_HDR + UDP_HDR) in
      let len := if 1500 - hdrs_len <? len then 1500 - hdrs_len else len in
      nb ← net_buf_alloc (hdrs_len + len) (if_id f);
      match nb with
      | None => mret (-1)
      | Some nbuf =>
          '(r, dmac) ← eth_set_dmac (replicate MAC_SIZE 0) (rem_ip k);
          if r <? 0 then mret (-1)
          else
            k ← sock_at p; f ← netif_at i;
            b ← lift (wr_block (data nbuf) 0 dmac);
            ip0 ← lift (rd (ips f) 0);
            bytes ← lift (if len <? 0 then Err EOob else rd_block buf 0 (Z.to_nat len));
            b ← lift (udp_build b (mac f) (if loc_ip k =? 0 then ip0 else loc_ip k) (rem_ip k) (loc_port k) (rem_port k) bytes);
            send i b (nb_size nbuf);;
            mret len
      end
  end.
Definition udp_close (p : sock_ptr) : st net Z := sock_free p;; mret 0.
End UdpWorld.

(** ** ICMP (icmp.c) *)
Definition ICMP_T_ECHO_REPLAY : Z := 0.
Definition ICMP_T_ECHO_REQUEST : Z := 8.
Definition buf2icmpv4 (b : list Z) (c : nat) : res (list Z) := swap16_at b (c + 2).
Definition icmpv42buf (b : list Z) (c : nat) : res (list Z) := swap16_at b (c + 2).
Definition icmp_len (len : Z) : Z := s32 (len -u Z.of_nat IP_HDR).

(** The reply, written over the request. *)
Definition echo_frame (b m : list Z) : res (list Z) :=
  let o := ETH_HDR in
  c ← ip_data b o;
  b ← put8 b c ICMP_T_ECHO_REPLAY;
  b ← put8 b (c + 1) 0;
  b ← put16 b (c + 2) 0;
  b ← icmpv42buf b c;
  len ← ip_len b o;
  cs ← ip_csum b c (icmp_len len);
  b ← put16 b (c + 2) cs;
  dip ← ip_daddr b o; sip ← ip_saddr b o;
  b ← put32 b (o + 16) sip;
  b ← put32 b (o + 12) dip;
  b ← put8 b (o + 8) 64;
  b ← put16 b (o + 10) 0;
  b ← ipv42buf b o;
  hlen ← iphlen b o;
  cs ← ip_csum b o hlen;
  b ← put16 b (o + 10) cs;
  b ← move b 0 6 MAC_SIZE;
  b ← wr_block b 6 m;
  eth2buf b.
Definition icmpv4_echo_reply (buf : net_buf) : st net (list Z) :=
  f ← netif_at (Z.to_nat (nic buf));
  b ← lift (echo_frame (data buf) (mac f));
  send (Z.to_nat (nic buf)) b (nb_size buf);;
  mret b.

Definition set_data (buf : net_buf) (b : list Z) : net_buf := NB (nic buf) (nb_size buf) (captured buf) (u_data buf) (u_len buf) b.
Definition icmpv4_process (buf : net_buf) : st net (Z * net_buf) :=
  let o := ETH_HDR in
  c ← lift (ip_data (data buf) o);
  len ← lift (ip_len (data buf) o);
  csum ← lift (ip_csum (data buf) c (icmp_len len));
  if negb (csum =? 0) then mret (-1, buf)
  else
    b ← lift (buf2icmpv4 (data buf) c);
    type ← lift (get8 b c);
    if type =? ICMP_T_ECHO_REQUEST then b ← icmpv4_echo_reply (set_data buf b); mret (0, set_data buf b)
    else mret (0, set_data buf b).

(** ** Reception *)
Definition ip_process (buf : net_buf) : st net (Z * net_buf) :=
  let o := ETH_HDR in
  b ← lift (buf2eth (data buf));
  hlen ← lift (iphlen b o);
  csum ← lift (ip_csum b o hlen);
  b ← lift (buf2ipv4 b o);
  f ← netif_at (Z.to_nat (nic buf));
  ver ← lift (version b o); len ← lift (ihl b o); ttl ← lift (get8 b (o + 8));
  let buf := set_data buf b in
  if negb (ver =? IPV4) then mret (-1, buf)
  else if len <? 5 then mret (-1, buf)
  else if ttl =? 0 then mret (-1, buf)
  else if negb (csum =? 0) then mret (-1, buf)
  else
    daddr ← lift (ip_daddr b o);
    let ip_found := if daddr =? 0xFFFFFFFF then true
                    else match ip_index (take IFACE_MAX_IPS (ips f)) daddr with Some _ => true | None => false end in
    if negb ip_found then mret (-1, buf)
    else
      pr ← lift (ip_proto b o);
      '(_, buf) ← (if pr =? IP_P_ICMP then icmpv4_process buf
                   else if pr =? IP_P_UDP then udp_process buf
                   else mret (0, buf));
      mret (0, buf).

Definition net_process (buf : net_buf) : st net (Z * net_buf) :=
  w ← lift (get16 (data buf) 12);
  if nb_size buf <? Z.of_nat ETH_HDR then mret (-1, buf)
  else
    '(_, buf) ← (if ntohs w =? ETH_P_ARP then arp_process buf
                 else if ntohs w =? ETH_P_IP then ip_process buf
                 else mret (0, buf));
    mret (0, buf).

(** One round of [net_task]; a buffer that no socket has captured is freed. *)
Definition net_task (world : st net unit) : st net unit :=
  s ← get;
  (if bool_decide (netq s = []) then world else mret tt);;
  b ← netq_shift;
  match b with
  | None => fail ENull
  | Some buf => net_process buf;; mret tt
  end.
End Net.
