(* ===== verification/NetWire.v ===== *)
(** * Frames on the wire

    The one's complement checksum against a sum modulo 65535, and the
    conversions of the headers between the order of the processor and that of
    the network. *)
From S2P Require Import Prelude CString Net.

Module NetWire.
Import Net.

(** ** The checksum *)

(** The sum of the little-endian words; an odd byte at the end counts alone. *)
Fixpoint wsum (b : list Z) : Z :=
  match b with
  | x :: y :: r => x + 256 * y + wsum r
  | [x] => x
  | [] => 0
  end.
(** The representative of a sum modulo 65535 that folding the carries yields:
    65535 rather than 0, unless the sum is 0. *)
Definition rep (w : Z) : Z := if w =? 0 then 0 else (w - 1) mod 65535 + 1.

Lemma list_ind2 {A} (P : list A -> Prop) :
  P [] -> (forall x, P [x]) -> (forall x y l, P l -> P (x :: y :: l)) -> forall l, P l.
Proof.
  intros H0 H1 H2 l. cut (P l /\ forall x, P (x :: l)); [by intros []|]. induction l as [|y l [IH1 IH2]]; [auto|].
  split; [apply IH2|]. intros x. by apply H2.
Qed.

Lemma wsum_app a b : Nat.Even (length a) -> wsum (a ++ b) = wsum a + wsum b.
Proof.
  revert b. induction a as [| |x y a IH] using list_ind2; intros b He; [done| |].
  - destruct He as [k Hk]. cbn in Hk. lia.
  - cbn [app wsum]. rewrite IH; [lia|]. destruct He as [k Hk]. exists (k - 1)%nat. cbn in Hk. lia.
Qed.
Lemma wsum_bound b : Forall is_byte b -> 0 <= wsum b <= 32768 * (Z.of_nat (length b) + 1).
Proof.
  unfold is_byte. induction b as [|x|x y b IH] using list_ind2; intros Hb; [cbn; lia| |].
  - apply Forall_cons in Hb as [? _]. cbn. lia.
  - apply Forall_cons in Hb as [? Hb]. apply Forall_cons in Hb as [? Hb]. specialize (IH Hb). cbn [wsum length]. lia.
Qed.
Lemma csum_words_wsum b sum :
  Forall is_byte b -> 0 <= sum -> sum + wsum b < 2 ^ 32 -> csum_words b sum = sum + wsum b.
Proof.
  revert sum. induction b as [|x|x y b IH] using list_ind2; intros sum Hb Hs Hlt; cbn [csum_words wsum] in *.
  - lia.
  - apply Forall_cons in Hb as [Hx _]. unfold is_byte in Hx. apply u32_small. lia.
  - apply Forall_cons in Hb as [Hx Hb]. apply Forall_cons in Hb as [Hy Hb]. pose proof (wsum_bound b Hb). unfold is_byte in Hx, Hy.
    rewrite u32_small by lia. rewrite IH by (done || lia). lia.
Qed.

Lemma fold_step sum : 0 <= sum < 2 ^ 32 -> Z.land sum 0xFFFF +u Z.shiftr sum 16 = sum mod 65536 + sum / 65536.
Proof.
  intros Hs. change 0xFFFF with (Z.ones 16). rewrite Z.land_ones, Z.shiftr_div_pow2 by lia. change (2 ^ 16) with 65536.
  pose proof (Z.mod_pos_bound sum 65536 ltac:(lia)). pose proof (Z.div_pos sum 65536 ltac:(lia) ltac:(lia)).
  assert (sum / 65536 < 65536) by (apply Z.div_lt_upper_bound; lia). apply u32_small. lia.
Qed.
Lemma rep_small s : 0 <= s < 65536 -> rep s = s.
Proof. intros Hs. unfold rep. destruct (Z.eqb_spec s 0); [lia|]. rewrite Z.mod_small; lia. Qed.
Lemma rep_mod s k : 0 < s -> rep (s + k * 65535) = rep s \/ s + k * 65535 <= 0.
Proof.
  intros Hs. unfold rep. destruct (Z.eqb_spec (s + k * 65535) 0), (Z.eqb_spec s 0); [lia..|lia|].
  left. replace (s + k * 65535 - 1) with (s - 1 + k * 65535) by lia. by rewrite Z.mod_add by lia.
Qed.
Lemma rep_fold sum : 0 <= sum -> rep (sum mod 65536 + sum / 65536) = rep sum.
Proof.
  intros Hs. pose proof (Z.div_mod sum 65536 ltac:(lia)) as E. pose proof (Z.mod_pos_bound sum 65536 ltac:(lia)). pose proof (Z.div_pos sum 65536 Hs ltac:(lia)).
  destruct (decide (sum = 0)) as [->|]; [done|].
  destruct (rep_mod (sum mod 65536 + sum / 65536) (sum / 65536)) as [E'|]; [nia|rewrite <- E'; f_equal; lia|lia].
Qed.
Lemma csum_fold_rep sum : 0 <= sum < 2 ^ 32 -> csum_fold 3 sum = Ok (rep sum).
Proof.
  assert (Hd : forall s n, 0 <= s < 2 ^ 32 ->
    csum_fold (S n) s = if s <? 65536 then Ok s else csum_fold n (s mod 65536 + s / 65536)).
  { intros s n Hs. cbn [csum_fold]. rewrite fold_step by done. rewrite Z.shiftr_div_pow2 by lia. change (2 ^ 16) with 65536.
    destruct (Z.ltb_spec s 65536); [by rewrite Z.div_small by lia|]. rewrite (proj2 (Z.eqb_neq _ _)); [done|].
    pose proof (Z.div_le_mono 65536 s 65536 ltac:(lia) ltac:(lia)) as H1. change (65536 / 65536) with 1 in H1. lia. }
  intros Hs. rewrite Hd by done. destruct (Z.ltb_spec sum 65536); [by rewrite rep_small by lia|].
  pose proof (Z.mod_pos_bound sum 65536 ltac:(lia)). assert (sum / 65536 < 65536) by (apply Z.div_lt_upper_bound; lia).
  pose proof (Z.div_pos sum 65536 ltac:(lia) ltac:(lia)). set (s1 := sum mod 65536 + sum / 65536).
  rewrite Hd by lia. rewrite <- rep_fold by lia. fold s1. destruct (Z.ltb_spec s1 65536); [by rewrite rep_small by lia|].
  assert (E : s1 / 65536 = 1) by (symmetry; apply Z.div_unique with (s1 - 65536); lia).
  assert (E' : s1 mod 65536 = s1 - 65536) by (symmetry; apply Z.mod_unique with 1; lia).
  rewrite <- rep_fold, E, E' by lia. rewrite Hd by lia. rewrite (proj2 (Z.ltb_lt _ _)) by lia. by rewrite rep_small by lia.
Qed.

Lemma rep_range s : 0 <= s -> 0 <= rep s <= 65535.
Proof. intros Hs. unfold rep. destruct (s =? 0); [lia|]. pose proof (Z.mod_pos_bound (s - 1) 65535 ltac:(lia)). lia. Qed.
Lemma u16_lnot x : 0 <= x < 65536 -> u16 (Z.lnot x) = 65535 - x.
Proof.
  intros Hx. unfold u16, Z.lnot. change (2 ^ 16) with 65536. symmetry. apply Z.mod_unique with (-1); lia.
Qed.

Lemma csum_of_rep bytes :
  Forall is_byte bytes -> Z.of_nat (length bytes) <= 65535 -> csum_of bytes = Ok (65535 - rep (wsum bytes)).
Proof.
  intros Hb Hl. pose proof (wsum_bound bytes Hb). unfold csum_of. rewrite csum_words_wsum by (done || lia).
  rewrite csum_fold_rep by lia. cbn [mbind res_bind]. pose proof (rep_range (0 + wsum bytes) ltac:(lia)). by rewrite u16_lnot by lia.
Qed.
Lemma rep_top s : 0 <= s -> rep s = 65535 <-> 0 < s /\ s mod 65535 = 0.
Proof.
  intros Hs. unfold rep. destruct (Z.eqb_spec s 0) as [->|]; [split; [discriminate|lia]|].
  pose proof (Z.mod_pos_bound (s - 1) 65535 ltac:(lia)). pose proof (Z.div_mod (s - 1) 65535 ltac:(lia)).
  split.
  - intros E. split; [lia|]. symmetry. apply Z.mod_unique with ((s - 1) / 65535 + 1); lia.
  - intros [_ E]. pose proof (Z.div_mod s 65535 ltac:(lia)). 
    assert (E2 : (s - 1) mod 65535 = 65534) by (symmetry; apply Z.mod_unique with (s / 65535 - 1); lia). lia.
Qed.
Lemma rep_complement s : 0 <= s -> rep (s + (65535 - rep s)) = 65535.
Proof.
  intros Hs. pose proof (rep_range s Hs). apply rep_top; [lia|]. destruct (decide (s = 0)) as [->|].
  - split; [|reflexivity]. change (rep 0) with 0. lia.
  - split; [lia|]. unfold rep. rewrite (proj2 (Z.eqb_neq s 0)) by done.
    pose proof (Z.div_mod (s - 1) 65535 ltac:(lia)). symmetry. apply Z.mod_unique with ((s - 1) / 65535 + 1); lia.
Qed.
(** A checksum that is stored where the word was 0 makes the checksum 0. *)
Lemma csum_stored pre post c :
  Forall is_byte (pre ++ 0 :: 0 :: post) -> Z.of_nat (length (pre ++ 0 :: 0 :: post)) <= 65535 -> Nat.Even (length pre) ->
  csum_of (pre ++ 0 :: 0 :: post) = Ok c -> 0 <= c < 65536 /\ csum_of (pre ++ c mod 256 :: c / 256 :: post) = Ok 0.
Proof.
  intros Hb Hl He Hc. rewrite csum_of_rep in Hc by done. injection Hc as <-. pose proof (wsum_bound _ Hb).
  pose proof (rep_range (wsum (pre ++ 0 :: 0 :: post)) ltac:(lia)) as Hr. set (c := 65535 - _) in *. assert (Hcr : 0 <= c < 65536) by lia. split; [done|].
  apply Forall_app in Hb as [Hb1 Hb2]. apply Forall_cons in Hb2 as [_ Hb2]. apply Forall_cons in Hb2 as [_ Hb2].
  assert (Hbytes : Forall is_byte (pre ++ c mod 256 :: c / 256 :: post)).
  { apply Forall_app. split; [done|]. apply Forall_cons. split; [apply Z.mod_pos_bound; lia|]. apply Forall_cons. split; [|done].
    split; [apply Z.div_pos; lia|apply Z.div_lt_upper_bound; lia]. }
  rewrite csum_of_rep; [|done|rewrite length_app in *; cbn [length] in *; lia]. f_equal.
  assert (E : wsum (pre ++ c mod 256 :: c / 256 :: post) = wsum (pre ++ 0 :: 0 :: post) + c).
  { rewrite !wsum_app by done. cbn [wsum]. pose proof (Z.div_mod c 256 ltac:(lia)). lia. }
  rewrite E. unfold c. rewrite rep_complement by lia. lia.
Qed.

(** [ip_csum] is the one's complement of the one's complement sum: 65535
    minus the sum of the words modulo 65535; it is 0 exactly when the sum is a
    positive multiple of 65535; and a buffer whose checksum word was 0 has
    checksum 0 once the computed value is stored there. *)
Theorem ip_csum_spec b o len bytes :
  Forall is_byte b -> 0 <= len <= 65535 -> rd_block b o (Z.to_nat len) = Ok bytes ->
  ip_csum b o len = Ok (65535 - rep (wsum bytes)) /\
  (ip_csum b o len = Ok 0 <-> 0 < wsum bytes /\ wsum bytes mod 65535 = 0) /\
  (forall pre post c, bytes = pre ++ 0 :: 0 :: post -> Nat.Even (length pre) -> ip_csum b o len = Ok c ->
     csum_of (pre ++ c mod 256 :: c / 256 :: post) = Ok 0).
Proof.
  intros Hb Hl Hrd. unfold ip_csum. rewrite Hrd. cbn [mbind res_bind].
  assert (Hby : Forall is_byte bytes /\ Z.of_nat (length bytes) <= 65535).
  { unfold rd_block in Hrd. destruct (decide _); [|done]. injection Hrd as <-. split; [by apply Forall_take, Forall_drop|].
    rewrite length_take. lia. }
  destruct Hby as [Hby Hbl]. rewrite csum_of_rep by done. pose proof (wsum_bound bytes Hby). split; [done|]. split.
  - rewrite <- rep_top by lia. split; [intros [= E]; lia|intros ->; done].
  - intros pre post c -> He Hc. rewrite <- csum_of_rep in Hc by done. by apply csum_stored.
Qed.
(** A header without checksum. *)
Lemma ip_csum_spec_witness :
  ip_csum [0; 0x45; 0; 0; 28; 0; 0; 0x40; 0] 1 8 = Ok 0xE37A.
Proof.
  destruct (ip_csum_spec [0; 0x45; 0; 0; 28; 0; 0; 0x40; 0] 1 8 [0x45; 0; 0; 28; 0; 0; 0x40; 0]) as [E _];
    [repeat constructor; unfold is_byte; lia|lia|reflexivity|]. rewrite E. vm_compute. reflexivity.
Defined.
(** ** Fields behind a prefix *)
Lemma rd_app {A} (e b : list A) o : rd (e ++ b) (length e + o) = rd b o.
Proof. unfold rd. by rewrite lookup_app_r, Nat.add_comm, Nat.add_sub by lia. Qed.
Lemma wr_app {A} (e b : list A) o v : wr (e ++ b) (length e + o) v = (b ← wr b o v; Ok (e ++ b)).
Proof.
  unfold wr. rewrite length_app. destruct (decide (o < length b)%nat).
  - rewrite decide_True by lia. cbn [mbind res_bind]. by rewrite insert_app_r.
  - rewrite decide_False by lia. done.
Qed.
Lemma rd_block_app {A} (e b : list A) o n : rd_block (e ++ b) (length e + o) n = rd_block b o n.
Proof.
  unfold rd_block. rewrite length_app. destruct (decide (o + n <= length b)%nat).
  - rewrite decide_True by lia. f_equal. f_equal. rewrite drop_app_ge by lia. f_equal. lia.
  - by rewrite decide_False by lia.
Qed.
Lemma wr_block_app {A} (e b : list A) o v : wr_block (e ++ b) (length e + o) v = (b ← wr_block b o v; Ok (e ++ b)).
Proof.
  unfold wr_block. rewrite length_app. destruct (decide (o + length v <= length b)%nat).
  - rewrite decide_True by lia. cbn [mbind res_bind]. f_equal. unfold splice. rewrite take_app_add, <- Nat.add_assoc, drop_app_add, <- app_assoc. done.
  - by rewrite decide_False by lia.
Qed.

(** An operation on a frame at an offset does the same behind a prefix. *)
Definition shifts (f : list Z -> nat -> res (list Z)) : Prop :=
  forall (e b : list Z) (o : nat), f (e ++ b) (length e + o)%nat = (b ← f b o; Ok (e ++ b)).
Definition reads {A} (f : list Z -> nat -> res A) : Prop := forall (e b : list Z) (o : nat), f (e ++ b) (length e + o)%nat = f b o.

Lemma res_assoc {A B C} (m : res A) (f : A -> res B) (g : B -> res C) :
  ((x ← m; f x) ≫= g) = (x ← m; f x ≫= g).
Proof. by destruct m. Qed.
Lemma res_bind_ext {A B} (m : res A) (f g : A -> res B) : (forall a, f a = g a) -> m ≫= f = m ≫= g.
Proof. intros H. destruct m; [apply H|done]. Qed.

Lemma get8_app : reads get8.
Proof. intros e b o. apply rd_app. Qed.
Lemma get16_app : reads get16.
Proof. intros e b o. unfold get16. by rewrite <- Nat.add_assoc, !rd_app. Qed.
Lemma get32_app : reads get32.
Proof. intros e b o. unfold get32. by rewrite <- Nat.add_assoc, !get16_app. Qed.
Lemma put8_app v : shifts (fun b o => put8 b o v).
Proof. intros e b o. apply wr_app. Qed.
Lemma put16_app v : shifts (fun b o => put16 b o v).
Proof.
  intros e b o. unfold put16. rewrite wr_app, !res_assoc. apply res_bind_ext. intros b'. cbn [mbind res_bind].
  by rewrite <- Nat.add_assoc, wr_app.
Qed.
Lemma put32_app v : shifts (fun b o => put32 b o v).
Proof.
  intros e b o. unfold put32. rewrite put16_app, !res_assoc. apply res_bind_ext. intros b'. cbn [mbind res_bind].
  by rewrite <- Nat.add_assoc, put16_app.
Qed.
Lemma swap16_app : shifts swap16_at.
Proof. intros e b o. unfold swap16_at. rewrite get16_app, res_assoc. apply res_bind_ext. intros v. apply put16_app. Qed.
Lemma swap32_app : shifts swap32_at.
Proof. intros e b o. unfold swap32_at. rewrite get32_app, res_assoc. apply res_bind_ext. intros v. apply put32_app. Qed.
(** ** Fields of explicit bytes *)
Lemma get8_hd x r : get8 (x :: r) 0 = Ok x.
Proof. done. Qed.
Lemma get16_hd x y r : get16 (x :: y :: r) 0 = Ok (x + 256 * y).
Proof. done. Qed.
Lemma get32_hd x y z w r : get32 (x :: y :: z :: w :: r) 0 = Ok (x + 256 * y + 65536 * (z + 256 * w)).
Proof. done. Qed.
Lemma put8_hd x r v : put8 (x :: r) 0 v = Ok (u8 v :: r).
Proof. unfold put8. by rewrite wr_in by (cbn; lia). Qed.
Lemma put16_hd x y r v : put16 (x :: y :: r) 0 v = Ok (v mod 256 :: v / 256 mod 256 :: r).
Proof. unfold put16. rewrite wr_in by (cbn; lia). cbn [mbind res_bind]. by rewrite wr_in by (cbn; lia). Qed.
Lemma put32_hd x y z w r v :
  put32 (x :: y :: z :: w :: r) 0 v =
  Ok ((v mod 65536) mod 256 :: v mod 65536 / 256 mod 256 :: (v / 65536) mod 256 :: v / 65536 / 256 mod 256 :: r).
Proof.
  unfold put32. rewrite put16_hd. cbn [mbind res_bind]. change (0 + 2)%nat with 2%nat. set (a := _ mod 256). set (b := _ mod 256).
  pose proof (put16_app (v / 65536) [a; b] (z :: w :: r) 0%nat) as E. cbn [length app Nat.add] in E. rewrite E, put16_hd. done.
Qed.
Lemma get8_S c l k : get8 (c :: l) (S k) = get8 l k.
Proof. exact (get8_app [c] l k). Qed.
Lemma get16_S c l k : get16 (c :: l) (S k) = get16 l k.
Proof. exact (get16_app [c] l k). Qed.
Lemma get32_S c l k : get32 (c :: l) (S k) = get32 l k.
Proof. exact (get32_app [c] l k). Qed.
Lemma put8_S c l k v : put8 (c :: l) (S k) v = (b ← put8 l k v; Ok (c :: b)).
Proof. exact (put8_app v [c] l k). Qed.
Lemma put16_S c l k v : put16 (c :: l) (S k) v = (b ← put16 l k v; Ok (c :: b)).
Proof. exact (put16_app v [c] l k). Qed.
Lemma put32_S c l k v : put32 (c :: l) (S k) v = (b ← put32 l k v; Ok (c :: b)).
Proof. exact (put32_app v [c] l k). Qed.
Lemma swap16_S c l k : swap16_at (c :: l) (S k) = (b ← swap16_at l k; Ok (c :: b)).
Proof. exact (swap16_app [c] l k). Qed.
Lemma swap32_S c l k : swap32_at (c :: l) (S k) = (b ← swap32_at l k; Ok (c :: b)).
Proof. exact (swap32_app [c] l k). Qed.

Lemma lo_byte x y : is_byte x -> (x + 256 * y) mod 256 = x.
Proof. unfold is_byte. intros Hx. rewrite (Z.mul_comm 256), Z.mod_add by lia. by apply Z.mod_small. Qed.
Lemma hi_byte x y : is_byte x -> is_byte y -> (x + 256 * y) / 256 mod 256 = y.
Proof. unfold is_byte. intros Hx Hy. rewrite (Z.mul_comm 256), Z.div_add, Z.div_small, Z.add_0_l by lia. by apply Z.mod_small. Qed.
Lemma swap16_hd x y r : is_byte x -> is_byte y -> swap16_at (x :: y :: r) 0 = Ok (y :: x :: r).
Proof.
  intros Hx Hy. unfold swap16_at. rewrite get16_hd. cbn [mbind res_bind]. unfold ntohs. rewrite swap16_bytes, put16_hd by done.
  by rewrite lo_byte, hi_byte by done.
Qed.
Lemma le4 x y z w : x + 256 * y + 65536 * (z + 256 * w) = le_combine [x; y; z; w].
Proof. cbn. lia. Qed.
Lemma swap32_hd x y z w r :
  is_byte x -> is_byte y -> is_byte z -> is_byte w -> swap32_at (x :: y :: z :: w :: r) 0 = Ok (w :: z :: y :: x :: r).
Proof.
  intros Hx Hy Hz Hw. unfold swap32_at. rewrite get32_hd. cbn [mbind res_bind]. unfold ntohl. rewrite swap32_rev, le4.
  change 4%nat with (length [x; y; z; w]). rewrite le_split_combine by (by rewrite !Forall_cons; split_and!). cbn [rev app]. rewrite <- le4, put32_hd.
  unfold is_byte in *. assert (E1 : (w + 256 * z + 65536 * (y + 256 * x)) mod 65536 = w + 256 * z).
  { rewrite (Z.mul_comm 65536), Z.mod_add by lia. apply Z.mod_small. lia. }
  assert (E2 : (w + 256 * z + 65536 * (y + 256 * x)) / 65536 = y + 256 * x).
  { rewrite (Z.mul_comm 65536), Z.div_add by lia. rewrite Z.div_small by lia. lia. }
  rewrite E1, E2. by rewrite !lo_byte, !hi_byte by done.
Qed.

(** [fields] runs the operations on a frame of explicit bytes. *)
Create HintDb bytes.
Ltac fields1 :=
  first
    [ rewrite get8_S | rewrite get16_S | rewrite get32_S | rewrite get8_hd | rewrite get16_hd | rewrite get32_hd
    | rewrite put8_S | rewrite put16_S | rewrite put32_S | rewrite put8_hd | rewrite put16_hd | rewrite put32_hd
    | rewrite swap16_S | rewrite swap32_S
    | rewrite swap16_hd by eauto with bytes | rewrite swap32_hd by eauto with bytes
    | rewrite res_assoc
    | progress cbn [mbind res_bind] ].
Ltac fields := repeat fields1.
(** ** Headers *)

(** The encodings of integers in front of the bytes [r]. *)
Definition le16 (v : Z) (r : list Z) : list Z := v mod 256 :: v / 256 mod 256 :: r.
Definition be16 (v : Z) (r : list Z) : list Z := v / 256 mod 256 :: v mod 256 :: r.
Definition le32 (v : Z) (r : list Z) : list Z := le16 (v mod 65536) (le16 (v / 65536) r).
Definition be32 (v : Z) (r : list Z) : list Z := be16 (v / 65536) (be16 (v mod 65536) r).

Lemma byte_mod x : is_byte (x mod 256).
Proof. apply Z.mod_pos_bound. lia. Qed.
#[local] Hint Resolve byte_mod : bytes.
Lemma le16_val v : 0 <= v < 65536 -> v mod 256 + 256 * (v / 256 mod 256) = v.
Proof.
  intros Hv. rewrite (Z.mod_small (v / 256)); [|split; [apply Z.div_pos; lia|apply Z.div_lt_upper_bound; lia]].
  pose proof (Z.div_mod v 256). lia.
Qed.
Lemma be16_val v : 0 <= v < 65536 -> v / 256 mod 256 + 256 * (v mod 256) = ntohs v.
Proof. intros Hv. rewrite <- (le16_val v Hv) at 3. unfold ntohs. by rewrite swap16_bytes by auto with bytes. Qed.
Lemma halves v : 0 <= v < 2 ^ 32 -> 0 <= v mod 65536 < 65536 /\ 0 <= v / 65536 < 65536 /\ v mod 65536 + 65536 * (v / 65536) = v.
Proof.
  intros Hv. pose proof (Z.mod_pos_bound v 65536 ltac:(lia)). pose proof (Z.div_mod v 65536 ltac:(lia)).
  split; [lia|]. split; [split; [apply Z.div_pos; lia|apply Z.div_lt_upper_bound; lia]|lia].
Qed.
Lemma le32_val v : 0 <= v < 2 ^ 32 ->
  (v mod 65536) mod 256 + 256 * (v mod 65536 / 256 mod 256) + 65536 * ((v / 65536) mod 256 + 256 * (v / 65536 / 256 mod 256)) = v.
Proof. intros Hv. destruct (halves v Hv) as (H1 & H2 & H3). by rewrite !le16_val. Qed.

Lemma byte_fields x r : Forall is_byte r -> Forall is_byte (le16 x r) /\ Forall is_byte (be16 x r) /\ Forall is_byte (le32 x r) /\ Forall is_byte (be32 x r).
Proof. intros Hr. unfold le32, be32, le16, be16. rewrite !Forall_cons. split_and!; auto with bytes. Qed.

(** The IP header, field by field: in the order of the processor, as
    [struct ipv4_hdr] lays it out, and in the order of the network. *)
Record iphdr := IPH {
  h_version : Z; h_ihl : Z; h_tos : Z; h_len : Z; h_id : Z; h_flags : Z; h_frag : Z;
  h_ttl : Z; h_proto : Z; h_csum : Z; h_saddr : Z; h_daddr : Z
}.
Definition host_ip (h : iphdr) (r : list Z) : list Z :=
  (h_version h + 16 * h_ihl h) :: h_tos h :: le16 (h_len h) (le16 (h_id h) (le16 (h_flags h + 8 * h_frag h)
    (h_ttl h :: h_proto h :: le16 (h_csum h) (le32 (h_saddr h) (le32 (h_daddr h) r))))).
Definition net_ip (h : iphdr) (r : list Z) : list Z :=
  (h_ihl h + 16 * h_version h) :: h_tos h :: be16 (h_len h) (be16 (h_id h) (be16 (8192 * h_flags h + h_frag h)
    (h_ttl h :: h_proto h :: be16 (h_csum h) (be32 (h_saddr h) (be32 (h_daddr h) r))))).
Definition ip_wf (h : iphdr) : Prop :=
  0 <= h_version h < 16 /\ 0 <= h_ihl h < 16 /\ is_byte (h_tos h) /\ 0 <= h_len h < 65536 /\ 0 <= h_id h < 65536 /\
  0 <= h_flags h < 8 /\ 0 <= h_frag h < 8192 /\ is_byte (h_ttl h) /\ is_byte (h_proto h) /\ 0 <= h_csum h < 65536 /\
  0 <= h_saddr h < 2 ^ 32 /\ 0 <= h_daddr h < 2 ^ 32.

(** *** Bit-fields *)
Lemma land_mod x n : 0 <= n -> Z.land x (Z.ones n) = x mod 2 ^ n.
Proof. intros Hn. by apply Z.land_ones. Qed.
Lemma nibbles a b : 0 <= a < 16 -> 0 <= b < 16 -> Z.land (a + 16 * b) 15 = a /\ Z.shiftr (a + 16 * b) 4 = b.
Proof.
  intros Ha Hb. change 15 with (Z.ones 4). rewrite land_mod, Z.shiftr_div_pow2 by lia. change (2 ^ 4) with 16.
  rewrite (Z.mul_comm 16), Z.mod_add, Z.div_add, Z.mod_small, Z.div_small by lia. lia.
Qed.
Lemma or_nibbles a b : 0 <= a < 16 -> 0 <= b < 16 -> u8 (Z.lor (Z.land a 15) (Z.shiftl (Z.land b 15) 4)) = a + 16 * b.
Proof.
  intros Ha Hb. change 15 with (Z.ones 4). rewrite !land_mod by lia. change (2 ^ 4) with 16. rewrite !Z.mod_small by lia.
  rewrite Z.lor_comm, lor_shiftl_add by lia. change (2 ^ 4) with 16. rewrite u8_small; lia.
Qed.
Lemma frag_split f g : 0 <= f < 8 -> 0 <= g < 8192 ->
  Z.land (Z.shiftr (8192 * f + g) 13) 7 = f /\ Z.land (8192 * f + g) 0x1FFF = g.
Proof.
  intros Hf Hg. change 7 with (Z.ones 3). change 0x1FFF with (Z.ones 13). rewrite !land_mod, Z.shiftr_div_pow2 by lia.
  change (2 ^ 13) with 8192. change (2 ^ 3) with 8. rewrite (Z.mul_comm 8192), Z.div_add_l, (Z.div_small g), Z.add_0_r, Z.mod_small by lia.
  split; [done|]. rewrite Z.add_comm, Z.mod_add, Z.mod_small by lia. done.
Qed.
Lemma frag_join f g : 0 <= f < 8 -> 0 <= g < 8192 ->
  Z.lor (Z.land f 7) (Z.shiftl (Z.land g 0x1FFF) 3) = f + 8 * g.
Proof.
  intros Hf Hg. change 7 with (Z.ones 3). change 0x1FFF with (Z.ones 13). rewrite !land_mod by lia.
  change (2 ^ 13) with 8192. change (2 ^ 3) with 8. rewrite !Z.mod_small by lia. rewrite Z.lor_comm, lor_shiftl_add by lia. change (2 ^ 3) with 8. lia.
Qed.
Lemma frag_net f g : 0 <= f < 8 -> 0 <= g < 8192 ->
  Z.lor (u16 (Z.shiftl (Z.land (f + 8 * g) 7) 13)) (Z.shiftr (Z.land (f + 8 * g) 0xFFF8) 3) = 8192 * f + g.
Proof.
  intros Hf Hg. change 0xFFF8 with (Z.shiftl (Z.ones 13) 3). rewrite Z.shiftr_land, Z.shiftr_shiftl_l by lia. change (3 - 3) with 0. rewrite Z.shiftl_0_r.
  change 7 with (Z.ones 3). rewrite !land_mod, Z.shiftr_div_pow2 by lia. change (2 ^ 13) with 8192. change (2 ^ 3) with 8.
  rewrite (Z.mul_comm 8 g), Z.mod_add, Z.div_add, (Z.div_small f), (Z.mod_small f), Z.add_0_l, (Z.mod_small g) by lia.
  rewrite Z.shiftl_mul_pow2 by lia. change (2 ^ 13) with 8192. rewrite u16_small by lia. pose proof (lor_shiftl_add f g 13 ltac:(lia) ltac:(lia)) as E.
  rewrite Z.shiftl_mul_pow2 in E by lia. change (2 ^ 13) with 8192 in E. rewrite E. lia.
Qed.
(** *** Conversions *)
Lemma at_0 {A} (f : list Z -> nat -> A) e b : f (e ++ b) (length e) = f (e ++ b) (length e + 0)%nat.
Proof. by rewrite Nat.add_0_r. Qed.

Ltac prefix :=
  first [ rewrite get8_app | rewrite get16_app | rewrite get32_app | rewrite put8_app | rewrite put16_app | rewrite put32_app
        | rewrite swap16_app | rewrite swap32_app ].
Ltac frame_ops := repeat first [ prefix | fields1 ].

Lemma get8_here e c l : get8 (e ++ c :: l) (length e) = Ok c.
Proof. by rewrite (at_0 get8), get8_app. Qed.
Lemma put8_here e c l v : put8 (e ++ c :: l) (length e) v = Ok (e ++ u8 v :: l).
Proof. rewrite (at_0 (fun b o => put8 b o v)), put8_app, put8_hd. done. Qed.

Lemma version_ihl e a b l : 0 <= a < 16 -> 0 <= b < 16 ->
  version (e ++ (a + 16 * b) :: l) (length e) = Ok a /\ ihl (e ++ (a + 16 * b) :: l) (length e) = Ok b.
Proof.
  intros Ha Hb. unfold version, ihl. rewrite get8_here. cbn [mbind res_bind]. destruct (nibbles a b Ha Hb) as [-> ->]. done.
Qed.
Lemma set_version_ihl_here e c a b l : 0 <= a < 16 -> 0 <= b < 16 ->
  set_version_ihl (e ++ c :: l) (length e) a b = Ok (e ++ (a + 16 * b) :: l).
Proof. intros Ha Hb. unfold set_version_ihl. by rewrite put8_here, or_nibbles. Qed.

Lemma ntohs_be16 v : 0 <= v < 65536 -> ntohs (v / 256 mod 256 + 256 * (v mod 256)) = v.
Proof. intros Hv. rewrite be16_val by done. unfold ntohs. by apply swap16_involutive. Qed.

Lemma htons_val v : 0 <= v < 65536 -> htons v = v / 256 mod 256 + 256 * (v mod 256).
Proof. intros Hv. symmetry. by apply be16_val. Qed.

Section Headers.
Variables (e r : list Z) (h : iphdr).
Hypotheses (Hwf : ip_wf h).

Lemma buf2ipv4_net : buf2ipv4 (e ++ net_ip h r) (length e) = Ok (e ++ host_ip h r).
Proof.
  destruct Hwf as (H1 & H2 & H3 & H4 & H5 & H6 & H7 & H8 & H9 & H10 & H11 & H12).
  destruct h as [ver il tos len id fl fr ttl pr cs sa da]. cbn [h_version h_ihl h_tos h_len h_id h_flags h_frag h_ttl h_proto h_csum h_saddr h_daddr] in *.
  unfold net_ip, host_ip, be32, be16, le32, le16. cbn [h_version h_ihl h_tos h_len h_id h_flags h_frag h_ttl h_proto h_csum h_saddr h_daddr].
  unfold buf2ipv4. change is_bige with false. cbv beta iota.
  match goal with |- context [version (e ++ _ :: ?l) _] => destruct (version_ihl e il ver l) as [E1 E2]; [done|done|] end.
  rewrite E1, E2. cbn [mbind res_bind]. rewrite set_version_ihl_here by done. cbn [mbind res_bind]. unfold set_frag.
  frame_ops. rewrite ntohs_be16 by lia. destruct (frag_split fl fr) as [-> ->]; [done|done|]. rewrite frag_join by done.
  frame_ops. reflexivity.
Qed.

Lemma ipv42buf_host : ipv42buf (e ++ host_ip h r) (length e) = Ok (e ++ net_ip h r).
Proof.
  destruct Hwf as (H1 & H2 & H3 & H4 & H5 & H6 & H7 & H8 & H9 & H10 & H11 & H12).
  destruct h as [ver il tos len id fl fr ttl pr cs sa da]. cbn [h_version h_ihl h_tos h_len h_id h_flags h_frag h_ttl h_proto h_csum h_saddr h_daddr] in *.
  unfold net_ip, host_ip, be32, be16, le32, le16. cbn [h_version h_ihl h_tos h_len h_id h_flags h_frag h_ttl h_proto h_csum h_saddr h_daddr].
  unfold ipv42buf. change is_bige with false. cbv beta iota.
  match goal with |- context [version (e ++ _ :: ?l) _] => destruct (version_ihl e ver il l) as [E1 E2]; [done|done|] end.
  rewrite E1, E2. cbn [mbind res_bind]. rewrite set_version_ihl_here by done. cbn [mbind res_bind].
  frame_ops. rewrite le16_val by lia. rewrite frag_net by done.
  assert (Hn : 0 <= 8192 * fl + fr < 65536) by lia. rewrite (htons_val _ Hn), lo_byte, hi_byte by auto with bytes. frame_ops. reflexivity.
Qed.
End Headers.
(** ** UDP *)
Definition host_udp (sp dp len cs : Z) (r : list Z) : list Z := le16 sp (le16 dp (le16 len (le16 cs r))).
Definition net_udp (sp dp len cs : Z) (r : list Z) : list Z := be16 sp (be16 dp (be16 len (be16 cs r))).

Lemma buf2udp_net e sp dp len cs r : buf2udp (e ++ net_udp sp dp len cs r) (length e) = Ok (e ++ host_udp sp dp len cs r).
Proof. unfold buf2udp, net_udp, host_udp, le16, be16. rewrite (at_0 swap16_at). frame_ops. reflexivity. Qed.
Lemma udp2buf_host e sp dp len cs r : udp2buf (e ++ host_udp sp dp len cs r) (length e) = Ok (e ++ net_udp sp dp len cs r).
Proof. unfold udp2buf, net_udp, host_udp, le16, be16. rewrite (at_0 swap16_at). frame_ops. reflexivity. Qed.

Lemma wsum_be16 v r : 0 <= v < 65536 -> wsum (be16 v r) = htons v + wsum r.
Proof. intros Hv. unfold be16. cbn [wsum]. by rewrite htons_val. Qed.
Lemma wsum_be32 v r : 0 <= v < 2 ^ 32 -> wsum (be32 v r) = htonl v mod 65536 + htonl v / 65536 + wsum r.
Proof.
  intros Hv. unfold be32, be16, htonl. cbn [wsum]. rewrite swap32_rev. cbn [le_split rev app le_combine].
  assert (E1 : v / 65536 / 256 mod 256 = v / 256 / 256 / 256 mod 256) by (rewrite !Z.div_div by lia; reflexivity).
  assert (E2 : (v / 65536) mod 256 = v / 256 / 256 mod 256) by (rewrite !Z.div_div by lia; reflexivity).
  assert (E3 : v mod 65536 / 256 mod 256 = v / 256 mod 256).
  { change 65536 with (256 * 256). rewrite Z.rem_mul_r by lia. apply hi_byte; apply byte_mod. }
  assert (E4 : (v mod 65536) mod 256 = v mod 256).
  { change 65536 with (256 * 256). rewrite Z.rem_mul_r by lia. apply lo_byte, byte_mod. }
  rewrite E1, E2, E3, E4. generalize (v mod 256), (v / 256 mod 256), (v / 256 / 256 mod 256), (v / 256 / 256 / 256 mod 256), (byte_mod v), (byte_mod (v / 256)), (byte_mod (v / 256 / 256)), (byte_mod (v / 256 / 256 / 256)).
  intros a b c d Ha Hb Hc Hd. unfold is_byte in *.
  replace (d + 256 * (c + 256 * (b + 256 * (a + 256 * 0)))) with (d + 256 * c + (b + 256 * a) * 65536) by lia.
  rewrite Z.mod_add, Z.div_add, Z.mod_small, Z.div_small by lia. lia.
Qed.
Lemma htons_range v : 0 <= v < 65536 -> 0 <= htons v < 65536.
Proof. intros Hv. rewrite htons_val by done. pose proof (byte_mod v). pose proof (byte_mod (v / 256)). unfold is_byte in *. lia. Qed.
Lemma htonl_range v : 0 <= v < 2 ^ 32 -> 0 <= htonl v mod 65536 < 65536 /\ 0 <= htonl v / 65536 < 65536.
Proof.
  intros Hv. split; [apply Z.mod_pos_bound; lia|]. unfold htonl. rewrite swap32_rev.
  assert (Hb : Forall is_byte (rev (le_split 4 v))) by apply Forall_rev, le_split_bytes.
  pose proof (le_combine_bound _ Hb) as H. rewrite length_rev, length_le_split in H. change (256 ^ Z.of_nat 4) with (2 ^ 32) in H.
  split; [apply Z.div_pos; lia|apply Z.div_lt_upper_bound; lia].
Qed.

(** The words behind the header, and the byte behind the last word. *)
Lemma udp_sum_tail n i pre l sum :
  (4 <= i)%nat -> Forall is_byte l -> (2 * n <= length l)%nat -> 0 <= sum -> sum + wsum l < 2 ^ 32 ->
  udp_sum n i (pre ++ l) (length pre) sum = Ok (sum + wsum (take (2 * n) l)).
Proof.
  revert i pre l sum. induction n as [|n IH]; intros i pre l sum Hi Hl Hn Hs Hlt; cbn [udp_sum].
  { change (2 * 0)%nat with 0%nat. rewrite take_0. cbn [wsum]. by rewrite Z.add_0_r. }
  destruct l as [|x [|y l]]; cbn [length] in Hn; try lia. apply Forall_cons in Hl as [Hx Hl]. apply Forall_cons in Hl as [Hy Hl].
  rewrite (at_0 get16), get16_app, get16_hd. cbn [mbind res_bind]. rewrite decide_False by lia.
  cbn [wsum] in Hlt. pose proof (wsum_bound l Hl). unfold is_byte in Hx, Hy. rewrite u32_small by lia.
  replace (pre ++ x :: y :: l) with ((pre ++ [x; y]) ++ l) by (by rewrite <- app_assoc).
  replace (length pre + 2)%nat with (length (pre ++ [x; y])) by (rewrite length_app; done).
  rewrite IH; [|lia|done|lia|lia|lia]. replace (2 * S n)%nat with (S (S (2 * n))) by lia. cbn [take wsum]. f_equal. lia.
Qed.
Lemma wsum_odd l : (length l mod 2 = 1)%nat -> exists x, l !! (2 * (length l / 2))%nat = Some x /\ wsum l = wsum (take (2 * (length l / 2)) l) + x.
Proof.
  intros Ho. pose proof (Nat.div_mod_eq (length l) 2). set (k := (2 * (length l / 2))%nat) in *.
  destruct (lookup_lt_is_Some_2 l k) as [x Hx]; [lia|]. exists x. split; [done|].
  rewrite <- (take_drop k l) at 1. rewrite wsum_app by (exists (length l / 2)%nat; rewrite length_take; lia).
  assert (Hd : drop k l = [x]).
  { rewrite (drop_S _ _ _ Hx). f_equal. apply drop_ge. lia. }
  by rewrite Hd.
Qed.
Lemma wsum_even (l : list Z) : (length l mod 2 = 0)%nat -> take (2 * (length l / 2)) l = l.
Proof. intros He. apply take_ge. pose proof (Nat.div_mod_eq (length l) 2). lia. Qed.
(** The bytes of a swapped word. *)
Lemma ntohl_bytes v : 0 <= v < 2 ^ 32 ->
  ntohl v mod 65536 mod 256 = v / 65536 / 256 mod 256 /\ ntohl v mod 65536 / 256 mod 256 = v / 65536 mod 256 /\
  ntohl v / 65536 mod 256 = v mod 65536 / 256 mod 256 /\ ntohl v / 65536 / 256 mod 256 = v mod 65536 mod 256.
Proof.
  intros Hv. pose proof (swap32_hd _ _ _ _ [] (byte_mod (v mod 65536)) (byte_mod (v mod 65536 / 256)) (byte_mod (v / 65536)) (byte_mod (v / 65536 / 256))) as H.
  unfold swap32_at in H. rewrite get32_hd in H. cbn [mbind res_bind] in H. rewrite le32_val, put32_hd in H by done.
  injection H as -> -> -> ->. done.
Qed.
Lemma be32_bytes v : 0 <= v < 2 ^ 32 ->
  (v / 65536 / 256 mod 256 + 256 * (v / 65536 mod 256)) + 65536 * (v mod 65536 / 256 mod 256 + 256 * (v mod 65536 mod 256)) = ntohl v.
Proof.
  intros Hv. assert (Hn : 0 <= ntohl v < 2 ^ 32).
  { destruct (htonl_range v Hv). unfold ntohl, htonl in *. pose proof (Z.div_mod (swap32 v) 65536). lia. }
  rewrite <- (le32_val (ntohl v) Hn). by destruct (ntohl_bytes v Hv) as (-> & -> & -> & ->).
Qed.
Lemma ntohl_inv v : 0 <= v < 2 ^ 32 -> ntohl (ntohl v) = v.
Proof. apply swap32_involutive. Qed.
End NetWire.
