(* ===== verification/NetSpec.v ===== *)
(** * Datagrams from one host to another

    The checksum of UDP, the frame that [udp_write] builds and what happens to
    it at the receiver; the replies to ICMP echo requests. *)
From S2P Require Import Prelude CString Bmap Net NetWire.

Module NetSpec.
Import Net NetWire.

(** ** The checksum of UDP *)

(** The bytes that the checksum goes over: the pseudo header and the datagram. *)
Definition pseudo (saddr daddr proto len : Z) (dgram : list Z) : list Z :=
  be32 saddr (be32 daddr (0 :: proto :: be16 len dgram)).
(** The single folding of [udp_csum]. *)
Definition fold1 (s : Z) : Z := s mod 65536 + s / 65536.

Lemma udp_sum_S n i e b k sum :
  udp_sum (S n) i (e ++ b) (length e + k) sum =
  (w ← get16 b k; udp_sum n (S i) (e ++ b) (length e + (k + 2)) (sum +u (if decide (i < 4)%nat then htons w else w))).
Proof. cbn [udp_sum]. rewrite get16_app. by rewrite Nat.add_assoc. Qed.
Lemma udp_sum_header n e sp dp len cs r sum :
  0 <= sp < 65536 -> 0 <= dp < 65536 -> 0 <= len < 65536 -> 0 <= cs < 65536 -> 0 <= sum < 2 ^ 31 ->
  udp_sum (S (S (S (S n)))) 0 (e ++ host_udp sp dp len cs r) (length e) sum =
  udp_sum n 4 (e ++ host_udp sp dp len cs r) (length e + 8) (sum + htons sp + htons dp + htons len + htons cs).
Proof.
  intros H1 H2 H3 H4 Hs. pose proof (htons_range _ H1). pose proof (htons_range _ H2). pose proof (htons_range _ H3). pose proof (htons_range _ H4).
  replace (length e) with (length e + 0)%nat at 1 by lia. unfold host_udp, le16.
  rewrite udp_sum_S, get16_hd. cbn [mbind res_bind]. rewrite le16_val, decide_True by (done || lia).
  rewrite udp_sum_S. cbn [Nat.add]. rewrite !get16_S, get16_hd. cbn [mbind res_bind]. rewrite le16_val, decide_True by (done || lia).
  rewrite udp_sum_S. cbn [Nat.add]. rewrite !get16_S, get16_hd. cbn [mbind res_bind]. rewrite le16_val, decide_True by (done || lia).
  rewrite udp_sum_S. cbn [Nat.add]. rewrite !get16_S, get16_hd. cbn [mbind res_bind]. rewrite le16_val, decide_True by (done || lia).
  rewrite (u32_small (sum + htons sp)), (u32_small (sum + htons sp + htons dp)), (u32_small (sum + htons sp + htons dp + htons len)) by lia.
  rewrite u32_small by lia. reflexivity.
Qed.

Section Csum.
Variables (e r : list Z) (h : iphdr) (sp dp cs : Z) (l : list Z).
Hypotheses (Hwf : ip_wf h) (Hsp : 0 <= sp < 65536) (Hdp : 0 <= dp < 65536) (Hcs : 0 <= cs < 65536)
  (Hl : Forall is_byte l) (Hlen : 8 + Z.of_nat (length l) < 65536).

Let len := 8 + Z.of_nat (length l).
Let frame := e ++ host_ip h (host_udp sp dp len cs l).
Definition csum_total : Z := wsum (pseudo (h_saddr h) (h_daddr h) (h_proto h) len (net_udp sp dp len cs l)).

Lemma frame_split : frame = (e ++ host_ip h []) ++ host_udp sp dp len cs l.
Proof. unfold frame. by rewrite <- app_assoc. Qed.
Lemma host_ip_length : length (e ++ host_ip h []) = (length e + 20)%nat.
Proof. by rewrite length_app. Qed.

Lemma host_fields :
  ip_saddr frame (length e) = Ok (h_saddr h) /\ ip_daddr frame (length e) = Ok (h_daddr h) /\
  ip_proto frame (length e) = Ok (h_proto h) /\ ip_len frame (length e) = Ok (h_len h) /\
  get8 frame (length e + 8) = Ok (h_ttl h).
Proof.
  destruct Hwf as (H1 & H2 & H3 & H4 & H5 & H6 & H7 & H8 & H9 & H10 & H11 & H12).
  unfold ip_saddr, ip_daddr, ip_proto, ip_len, frame, host_ip, le32, le16.
  split_and!; frame_ops; rewrite ?le32_val, ?le16_val by lia; reflexivity.
Qed.
Lemma udp_fields :
  let u := (length e + 20)%nat in
  udp_sport frame u = Ok sp /\ udp_dport frame u = Ok dp /\ udp_len frame u = Ok len /\ udp_check frame u = Ok cs.
Proof.
  intros u. unfold u. rewrite <- host_ip_length, frame_split. unfold udp_sport, udp_dport, udp_len, udp_check, host_udp, le16.
  rewrite (at_0 get16). split_and!; frame_ops; rewrite ?le16_val by (unfold len; lia); reflexivity.
Qed.
Lemma total_sum :
  csum_total = htonl (h_saddr h) mod 65536 + htonl (h_saddr h) / 65536 + (htonl (h_daddr h) mod 65536 + htonl (h_daddr h) / 65536)
    + htons (h_proto h) + htons len + htons sp + htons dp + htons len + htons cs + wsum l.
Proof.
  destruct Hwf as (H1 & H2 & H3 & H4 & H5 & H6 & H7 & H8 & H9 & H10 & H11 & H12). unfold is_byte in H9.
  unfold csum_total, pseudo. rewrite !wsum_be32 by lia.
  change (0 :: h_proto h :: be16 len (net_udp sp dp len cs l)) with ([0; h_proto h] ++ be16 len (net_udp sp dp len cs l)).
  rewrite wsum_app by (exists 1%nat; reflexivity). unfold net_udp. rewrite !wsum_be16 by (unfold len; lia). cbn [wsum].
  rewrite (htons_val (h_proto h)) by lia. rewrite (Z.div_small (h_proto h)), (Z.mod_small (h_proto h)) by lia. change (0 mod 256) with 0. lia.
Qed.

Lemma udp_csum_val : udp_csum frame (length e + 20) (length e) = Ok (u16 (Z.lnot (fold1 csum_total))) /\ 0 <= csum_total < 2 ^ 32.
Proof.
  destruct host_fields as (F1 & F2 & F3 & _). destruct udp_fields as (_ & _ & F4 & _).
  destruct Hwf as (H1 & H2 & H3 & H4 & H5 & H6 & H7 & H8 & H9 & H10 & H11 & H12). unfold is_byte in H9.
  assert (Hln : 0 <= len < 65536) by (unfold len; lia).
  pose proof (htonl_range _ H11) as [A1 A2]. pose proof (htonl_range _ H12) as [A3 A4].
  pose proof (htons_range (h_proto h) ltac:(lia)). pose proof (htons_range len Hln). pose proof (htons_range sp Hsp). pose proof (htons_range dp Hdp). pose proof (htons_range cs Hcs).
  pose proof (wsum_bound l Hl). pose proof total_sum as T. assert (HT : 0 <= csum_total < 2 ^ 32) by lia. split; [|exact HT].
  unfold udp_csum. rewrite F1, F2, F3, F4. cbn [mbind res_bind]. set (s0 := _ +u htons len).
  assert (Es : s0 = htonl (h_saddr h) mod 65536 + htonl (h_saddr h) / 65536 + (htonl (h_daddr h) mod 65536 + htonl (h_daddr h) / 65536) + htons (h_proto h) + htons len).
  { unfold s0. rewrite (u32_small (0 + _)) by lia. rewrite (u32_small (0 + _ + _)) by lia. rewrite (u32_small (0 + _ + _ + htons (h_proto h))) by lia. rewrite u32_small by lia. lia. }
  assert (Hdiv : len / 2 = 4 + Z.of_nat (length l) / 2) by (unfold len; apply (Z.div_add_l 4 2); lia).
  assert (Hn : Z.to_nat (len / 2) = S (S (S (S (length l / 2))))).
  { rewrite Hdiv. replace (Z.of_nat (length l) / 2) with (Z.of_nat (length l / 2)) by (rewrite Nat2Z.inj_div; reflexivity). lia. }
  assert (Hmod : len mod 2 = Z.of_nat (length l mod 2)).
  { unfold len. rewrite Nat2Z.inj_mod. change 8 with (4 * 2). rewrite Z.add_comm, Z.mod_add by lia. done. }
  assert (Hodd : len / 2 * 2 + len mod 2 = len) by (pose proof (Z.div_mod len 2); lia).
  rewrite Hn, Hmod. rewrite <- host_ip_length, frame_split. set (p := e ++ host_ip h []) in *.
  rewrite udp_sum_header by (done || lia). cbn [mbind res_bind]. set (s1 := s0 + _ + _ + _ + _).
  set (q := p ++ le16 sp (le16 dp (le16 len (le16 cs [])))).
  replace (p ++ host_udp sp dp len cs l) with (q ++ l) by (unfold q, host_udp, le16; by rewrite <- app_assoc).
  assert (Hq : length q = (length p + 8)%nat) by (unfold q; by rewrite length_app).
  rewrite <- Hq. pose proof (Nat.div_mod_eq (length l) 2) as Dl. rewrite udp_sum_tail by (done || lia).
  cbn [mbind res_bind]. replace (length p + Z.to_nat (2 * (len / 2)))%nat with (length q + 2 * (length l / 2))%nat.
  2:{ rewrite Hq, Hdiv. replace (Z.of_nat (length l) / 2) with (Z.of_nat (length l / 2)) by (rewrite Nat2Z.inj_div; reflexivity). lia. }
  assert (Hfin : forall x, x = csum_total -> Z.land x 0xFFFF +u Z.shiftr x 16 = fold1 csum_total).
  { intros x ->. unfold fold1. by apply fold_step. }
  assert (E1 : s1 + wsum l = csum_total) by (unfold s1; lia).
  assert (Hm : (length l mod 2 < 2)%nat) by (apply Nat.mod_upper_bound; lia).
  destruct (length l mod 2)%nat as [|[|k]] eqn:E; [| |lia].
  - change (Z.of_nat 0 =? 0) with true. cbn [mbind res_bind]. rewrite wsum_even by done. by rewrite Hfin.
  - change (Z.of_nat 1 =? 0) with false. destruct (wsum_odd l E) as (x & Hx & Ex). rewrite get8_app. unfold get8, rd. rewrite Hx. cbn [mbind res_bind].
    assert (Hxb : is_byte x) by (by eapply Forall_lookup_1 in Hx; [|exact Hl]). unfold is_byte in Hxb.
    assert (E2 : s1 + wsum (take (2 * (length l / 2)) l) + x = csum_total) by (rewrite <- Z.add_assoc, <- Ex; exact E1).
    rewrite E2, (u32_small csum_total) by exact HT. by rewrite Hfin.
Qed.
End Csum.
(** ** The frame of a datagram *)
Lemma be16_ntohs c r : 0 <= c < 65536 -> be16 (ntohs c) r = le16 c r.
Proof. intros Hc. unfold be16, le16, ntohs. change (swap16 c) with (htons c). rewrite htons_val by done. by rewrite lo_byte, hi_byte by apply byte_mod. Qed.
Lemma ntohs_range v : 0 <= v < 65536 -> 0 <= ntohs v < 65536.
Proof. apply htons_range. Qed.
Lemma htons_ntohs v : 0 <= v < 65536 -> htons (ntohs v) = v.
Proof. intros Hv. unfold htons, ntohs. by apply swap16_involutive. Qed.

Definition dgram_len (l : list Z) : Z := 8 + Z.of_nat (length l).
Definition udp_iph (cs saddr daddr : Z) (l : list Z) : iphdr := IPH 4 5 0 (20 + dgram_len l) 0 2 0 64 IP_P_UDP cs saddr daddr.
(** The checksum words, as they are stored. *)
Definition udp_cs (saddr daddr sp dp : Z) (l : list Z) : Z :=
  u16 (Z.lnot (fold1 (wsum (pseudo saddr daddr IP_P_UDP (dgram_len l) (net_udp sp dp (dgram_len l) 0 l))))).
Definition ip_cs (saddr daddr : Z) (l : list Z) : Z := 65535 - rep (wsum (net_ip (udp_iph 0 saddr daddr l) [])).

Definition eth_hdr (dmac smac : list Z) (hi lo : Z) : list Z := dmac ++ smac ++ [hi; lo].
Definition udp_frame (dmac smac : list Z) (saddr daddr sp dp : Z) (l : list Z) : list Z :=
  eth_hdr dmac smac 8 0 ++ net_ip (udp_iph (ntohs (ip_cs saddr daddr l)) saddr daddr l)
    (net_udp sp dp (dgram_len l) (ntohs (udp_cs saddr daddr sp dp l)) l).

Lemma wr_block_over (e x v y : list Z) : length x = length v -> wr_block (e ++ x ++ y) (length e) v = Ok (e ++ v ++ y).
Proof.
  intros Hl. rewrite (at_0 (fun b o => wr_block b o v)), wr_block_app. unfold wr_block. rewrite decide_True by (rewrite length_app; lia).
  cbn [mbind res_bind]. unfold splice. rewrite take_0, Nat.add_0_l, <- Hl, drop_app_length. done.
Qed.
Lemma rd_block_at (e x y : list Z) : rd_block (e ++ x ++ y) (length e) (length x) = Ok x.
Proof.
  rewrite (at_0 (fun b o => rd_block b o (length x))), rd_block_app. unfold rd_block. rewrite decide_True by (rewrite length_app; lia).
  by rewrite drop_0, take_app_length.
Qed.
Lemma app_eth (d s t r : list Z) : d ++ s ++ t ++ r = (d ++ s ++ t) ++ r.
Proof. by rewrite <- !app_assoc. Qed.

Lemma iphlen_net e h r : h_ihl h = 5 -> h_version h = 4 -> iphlen (e ++ net_ip h r) (length e) = Ok 20.
Proof. intros E1 E2. unfold iphlen, net_ip. rewrite get8_here, E1, E2. reflexivity. Qed.

Section Build.
Variables (d s l : list Z) (saddr daddr sp dp : Z).
Hypotheses (Hd : length d = 6%nat) (Hs : length s = 6%nat) (Hl : Forall is_byte l) (Hlen : Z.of_nat (length l) < 60000)
  (Hsa : 0 <= saddr < 2 ^ 32) (Hda : 0 <= daddr < 2 ^ 32) (Hsp : 0 <= sp < 65536) (Hdp : 0 <= dp < 65536).

Lemma eth_length hi lo : length (eth_hdr d s hi lo) = ETH_HDR.
Proof. unfold eth_hdr. rewrite !length_app, Hd, Hs. reflexivity. Qed.
Lemma eth_swap hi lo r : is_byte hi -> is_byte lo -> swap16_at (eth_hdr d s hi lo ++ r) 12 = Ok (eth_hdr d s lo hi ++ r).
Proof.
  intros H1 H2. unfold eth_hdr. rewrite <- !app_assoc. rewrite (app_assoc d s).
  replace 12%nat with (length (d ++ s) + 0)%nat by (rewrite length_app; lia). rewrite swap16_app. cbn [app]. rewrite swap16_hd by done.
  cbn [mbind res_bind]. rewrite <- app_assoc. done.
Qed.
Lemma udp_iph_wf cs : 0 <= cs < 65536 -> ip_wf (udp_iph cs saddr daddr l).
Proof using Hlen Hsa Hda. clear Hd Hs d s. intros Hc. unfold ip_wf, udp_iph, dgram_len, is_byte, IP_P_UDP. cbn. lia. Qed.
Lemma ip_cs_range : 0 <= ip_cs saddr daddr l < 65536 /\ Forall is_byte (net_ip (udp_iph 0 saddr daddr l) []).
Proof using Hlen Hsa Hda.
  clear Hd Hs d s.
  assert (Hb : Forall is_byte (net_ip (udp_iph 0 saddr daddr l) [])).
  { unfold net_ip, udp_iph, be32, be16, is_byte. cbn [h_version h_ihl h_tos h_len h_id h_flags h_frag h_ttl h_proto h_csum h_saddr h_daddr].
    rewrite !Forall_cons. unfold IP_P_UDP. split_and!; try apply Forall_nil_2; try lia; apply Z.mod_pos_bound; lia. }
  split; [|done]. unfold ip_cs. pose proof (wsum_bound _ Hb). pose proof (rep_range (wsum (net_ip (udp_iph 0 saddr daddr l) [])) ltac:(lia)). lia.
Qed.
Lemma udp_cs_range : 0 <= udp_cs saddr daddr sp dp l < 65536.
Proof using. apply u16_range. Qed.

(** Up to the headers in the order of the processor. *)
Lemma host_headers e :
  length e = ETH_HDR ->
  forall m (k : list Z -> res (list Z)), (b ← set_version_ihl (e ++ replicate 28 0 ++ m) (length e) IPV4 (Z.of_nat IP_HDR / 4);
  b ← put8 b (length e + 1) 0;
  b ← put16 b (length e + 2) (u16 (Z.of_nat IP_HDR + Z.of_nat UDP_HDR + Z.of_nat (length l)));
  b ← put16 b (length e + 4) 0;
  b ← set_frag b (length e) 2 0;
  b ← put8 b (length e + 8) 64;
  b ← put8 b (length e + 9) IP_P_UDP;
  b ← put16 b (length e + 10) 0;
  b ← put32 b (length e + 12) saddr;
  b ← put32 b (length e + 16) daddr; k b) = k (e ++ host_ip (udp_iph 0 saddr daddr l) (replicate 8 0 ++ m)).
Proof.
  intros He m k. cbn [replicate app]. change (Z.of_nat IP_HDR / 4) with 5. rewrite set_version_ihl_here by (unfold IPV4; lia). cbn [mbind res_bind].
  unfold set_frag. rewrite (frag_join 2 0) by lia.
  frame_ops. unfold host_ip, udp_iph, le32, le16, dgram_len. cbn [h_version h_ihl h_tos h_len h_id h_flags h_frag h_ttl h_proto h_csum h_saddr h_daddr].
  rewrite (u16_small (Z.of_nat IP_HDR + _ + _)) by (unfold IP_HDR, UDP_HDR; lia).
  replace (Z.of_nat IP_HDR + Z.of_nat UDP_HDR + Z.of_nat (length l)) with (20 + (8 + Z.of_nat (length l))) by (unfold IP_HDR, UDP_HDR; lia).
  rewrite (u8_small 0), (u8_small 64), (u8_small IP_P_UDP) by (unfold IP_P_UDP; lia). reflexivity.
Qed.

Lemma ip_cs_stored e r :
  let h := udp_iph 0 saddr daddr l in
  ip_csum (e ++ net_ip h r) (length e) 20 = Ok (ip_cs saddr daddr l) /\
  put16 (e ++ net_ip h r) (length e + 10) (ip_cs saddr daddr l) = Ok (e ++ net_ip (udp_iph (ntohs (ip_cs saddr daddr l)) saddr daddr l) r).
Proof.
  intros h. destruct ip_cs_range as [Hr Hb]. fold h in Hb. split.
  - unfold ip_csum. change (Z.to_nat 20) with (length (net_ip h [])). change (net_ip h r) with (net_ip h [] ++ r). rewrite rd_block_at. cbn [mbind res_bind].
    rewrite csum_of_rep; [done|done|cbn; lia].
  - unfold net_ip, h, udp_iph. cbn [h_version h_ihl h_tos h_len h_id h_flags h_frag h_ttl h_proto h_csum h_saddr h_daddr].
    rewrite be16_ntohs by done. unfold be16, le16, be32. frame_ops. reflexivity.
Qed.

Lemma udp_build_frame :
  udp_build (d ++ replicate 36 0 ++ replicate (length l) 0) s saddr daddr sp dp l = Ok (udp_frame d s saddr daddr sp dp l).
Proof.
  unfold udp_build. cbv zeta. set (e := eth_hdr d s 8 0).
  assert (Es : forall r, wr_block (d ++ replicate 36 0 ++ r) 6 s = Ok (d ++ s ++ replicate 30 0 ++ r)).
  { intros r. change (replicate 36 0) with (replicate 6 0 ++ replicate 30 0). rewrite <- app_assoc.
    pose proof (wr_block_over d (replicate 6 0) s (replicate 30 0 ++ r) (eq_sym Hs)) as E. by rewrite Hd in E. }
  rewrite Es. cbn [mbind res_bind].
  assert (E0 : forall r, put16 (d ++ s ++ replicate 30 0 ++ r) 12 ETH_P_IP = Ok (eth_hdr d s 0 8 ++ replicate 28 0 ++ r)).
  { intros r. unfold eth_hdr. rewrite (app_assoc d s). replace 12%nat with (length (d ++ s) + 0)%nat by (rewrite length_app; lia). cbn [replicate app]. rewrite put16_app, put16_hd.
    cbn [mbind res_bind]. by rewrite <- !app_assoc. }
  rewrite E0. cbn [mbind res_bind]. unfold eth2buf. rewrite eth_swap by (unfold is_byte; lia). cbn [mbind res_bind]. fold e.
  pose proof (eth_length 8 0) as He. fold e in He. rewrite <- !He.
  rewrite (host_headers e He (replicate (length l) 0)).
  set (h := udp_iph 0 saddr daddr l). assert (Hwf : ip_wf h) by (apply udp_iph_wf; lia).
  assert (Hdata : forall r, ip_data (e ++ host_ip h r) (length e) = Ok (length (e ++ host_ip h []))).
  { intros r. unfold ip_data, host_ip. destruct (version_ihl e (h_version h) (h_ihl h) (h_tos h :: le16 (h_len h) (le16 (h_id h) (le16 (h_flags h + 8 * h_frag h) (h_ttl h :: h_proto h :: le16 (h_csum h) (le32 (h_saddr h) (le32 (h_daddr h) r))))))) as [_ ->]; [cbn; lia|cbn; lia|].
    cbn [mbind res_bind]. f_equal. rewrite length_app. reflexivity. }
  rewrite Hdata. cbn [mbind res_bind]. change (host_ip h (replicate 8 0 ++ replicate (length l) 0)) with (host_ip h [] ++ replicate 8 0 ++ replicate (length l) 0).
  rewrite (app_assoc e). set (p := e ++ host_ip h []).
  assert (Hu : wr_block (p ++ replicate 8 0 ++ replicate (length l) 0) (length p + UDP_HDR) l = Ok (p ++ replicate 8 0 ++ l)).
  { rewrite (app_assoc p). replace (length p + UDP_HDR)%nat with (length (p ++ replicate 8 0)) by (rewrite length_app; done).
    rewrite <- (app_nil_r (replicate (length l) 0)), wr_block_over by (by rewrite length_replicate). by rewrite app_nil_r, <- app_assoc. }
  rewrite Hu. cbn [mbind res_bind].
  assert (Hh : forall k : list Z -> res (list Z),
    (b ← put16 (p ++ replicate 8 0 ++ l) (length p) sp; b ← put16 b (length p + 2) dp;
     b ← put16 b (length p + 4) (u16 (Z.of_nat UDP_HDR + Z.of_nat (length l))); b ← put16 b (length p + 6) 0; k b) =
    k (p ++ host_udp sp dp (dgram_len l) 0 l)).
  { intros k. cbn [replicate app]. rewrite (at_0 (fun b o => put16 b o sp)). frame_ops.
    rewrite u16_small by (unfold UDP_HDR; lia). reflexivity. }
  rewrite Hh.
  destruct (udp_csum_val e h sp dp 0 l Hwf Hsp Hdp ltac:(lia) Hl ltac:(lia)) as [Hcs _].
  rewrite <- (host_ip_length e h), frame_split in Hcs. change (8 + Z.of_nat (length l)) with (dgram_len l) in Hcs. fold p in Hcs. rewrite Hcs. cbn [mbind res_bind].
  change (u16 (Z.lnot (fold1 (csum_total h sp dp 0 l)))) with (udp_cs saddr daddr sp dp l). set (c := udp_cs saddr daddr sp dp l).
  rewrite udp2buf_host. cbn [mbind res_bind].
  assert (Hp : put16 (p ++ net_udp sp dp (dgram_len l) 0 l) (length p + 6) c = Ok (p ++ net_udp sp dp (dgram_len l) (ntohs c) l)).
  { unfold net_udp. rewrite be16_ntohs by apply udp_cs_range. unfold be16, le16. frame_ops. reflexivity. }
  rewrite Hp. cbn [mbind res_bind]. set (X := net_udp sp dp (dgram_len l) (ntohs c) l).
  unfold p. rewrite <- app_assoc. change (host_ip h [] ++ X) with (host_ip h X). rewrite ipv42buf_host by done. cbn [mbind res_bind].
  rewrite iphlen_net by done. cbn [mbind res_bind].
  destruct (ip_cs_stored e X) as [E1 E2]. fold h in E1, E2. rewrite E1. cbn [mbind res_bind]. exact E2.
Qed.
End Build.
(** ** Reception *)

(** The checksum of the sender passes at the receiver exactly when the single
    folding has absorbed all carries. *)
Lemma fold1_verifies t : 0 <= t < 2 ^ 32 - 65536 ->
  let c := u16 (Z.lnot (fold1 t)) in
  u16 (Z.lnot (fold1 (t + c))) = 0 <-> fold1 t < 65536.
Proof.
  intros Ht c. pose proof (Z.div_mod t 65536 ltac:(lia)) as Dt. pose proof (Z.mod_pos_bound t 65536 ltac:(lia)) as Mt.
  assert (Hd : 0 <= t / 65536 < 65535) by (split; [apply Z.div_pos; lia|apply Z.div_lt_upper_bound; lia]).
  assert (Hf : forall x q m, x = 65536 * q + m -> 0 <= m < 65536 -> fold1 x = m + q).
  { intros x q m E Hm. unfold fold1. rewrite (Z.div_unique x 65536 q m), (Z.mod_unique x 65536 q m) by lia. done. }
  assert (Hl : forall x q m, x = 65536 * q + m -> 0 <= m < 65536 -> u16 (Z.lnot x) = 65535 - m).
  { intros x q m E Hm. unfold u16, Z.lnot. change (2 ^ 16) with 65536. symmetry. apply Z.mod_unique with (- q - 1); lia. }
  set (q := t / 65536) in *. set (m := t mod 65536) in *. assert (F : fold1 t = m + q) by done.
  destruct (Z.ltb_spec (m + q) 65536).
  - assert (Ec : c = 65535 - (m + q)) by (unfold c; rewrite F; apply (Hl _ 0); lia).
    rewrite (Hf (t + c) q (65535 - q)) by lia. rewrite (Hl _ 0 65535) by lia. split; lia.
  - assert (Ec : c = 65535 - (m + q - 65536)) by (unfold c; rewrite F; apply (Hl _ 1); lia).
    rewrite (Hf (t + c) (q + 1) (65535 - q)) by lia. rewrite (Hl _ 1 0) by lia. split; lia.
Qed.

(** The sum behind the checksum of a datagram. *)
Definition udp_total (saddr daddr sp dp : Z) (l : list Z) : Z :=
  wsum (pseudo saddr daddr IP_P_UDP (dgram_len l) (net_udp sp dp (dgram_len l) 0 l)).

Section Receive.
Variables (d s l : list Z) (saddr daddr sp dp : Z).
Hypotheses (Hd : length d = 6%nat) (Hs : length s = 6%nat) (Hl : Forall is_byte l) (Hlen : Z.of_nat (length l) < 60000)
  (Hsa : 0 <= saddr < 2 ^ 32) (Hda : 0 <= daddr < 2 ^ 32) (Hsp : 0 <= sp < 65536) (Hdp : 0 <= dp < 65536).

Let c := udp_cs saddr daddr sp dp l.
Let h := udp_iph (ntohs (ip_cs saddr daddr l)) saddr daddr l.
Let e := eth_hdr d s 0 8.
(** The frame in the order of the processor. *)
Definition host_frame : list Z := e ++ host_ip h (host_udp sp dp (dgram_len l) (ntohs c) l).

Lemma h_wf : ip_wf h.
Proof. apply udp_iph_wf; try done. apply ntohs_range. by apply ip_cs_range. Qed.
Lemma csum_total_stored : csum_total h sp dp (ntohs c) l = udp_total saddr daddr sp dp l + c /\ 0 <= udp_total saddr daddr sp dp l < 2 ^ 32 - 65536.
Proof.
  pose proof h_wf as Hwf. pose proof (udp_cs_range l saddr daddr sp dp) as Hc. fold c in Hc.
  assert (E0 : csum_total h sp dp 0 l = udp_total saddr daddr sp dp l) by reflexivity. rewrite <- E0.
  assert (Hlen' : 8 + Z.of_nat (length l) < 65536) by lia.
  rewrite (total_sum h sp dp (ntohs c) l Hwf Hsp Hdp (ntohs_range _ Hc) Hlen'), (total_sum h sp dp 0 l Hwf Hsp Hdp ltac:(lia) Hlen').
  rewrite htons_ntohs by done. change (htons 0) with 0.
  pose proof (htonl_range saddr Hsa). pose proof (htonl_range daddr Hda). pose proof (htons_range IP_P_UDP ltac:(unfold IP_P_UDP; lia)).
  pose proof (htons_range (8 + Z.of_nat (length l)) ltac:(lia)). pose proof (htons_range sp Hsp). pose proof (htons_range dp Hdp). pose proof (wsum_bound l Hl).
  change (h_saddr h) with saddr. change (h_daddr h) with daddr. change (h_proto h) with IP_P_UDP. lia.
Qed.

Lemma udp_check_passes : fold1 (udp_total saddr daddr sp dp l) < 65536 <->
  (check ← udp_check host_frame (length e + 20); if check =? 0 then Ok 0 else udp_csum host_frame (length e + 20) (length e)) = Ok 0.
Proof.
  pose proof h_wf as Hwf. pose proof (udp_cs_range l saddr daddr sp dp) as Hc. fold c in Hc.
  destruct (udp_fields e h sp dp (ntohs c) l Hsp Hdp (ntohs_range _ Hc) ltac:(lia)) as (_ & _ & _ & F).
  destruct (udp_csum_val e h sp dp (ntohs c) l Hwf Hsp Hdp (ntohs_range _ Hc) Hl ltac:(lia)) as [V _].
  change (8 + Z.of_nat (length l)) with (dgram_len l) in F, V. fold host_frame in F, V.
  rewrite F. cbn [mbind res_bind]. destruct csum_total_stored as [E Ht]. rewrite E in V.
  pose proof (fold1_verifies _ Ht) as Hv. cbv zeta in Hv. fold (udp_total saddr daddr sp dp l) in *.
  change (u16 (Z.lnot (fold1 (udp_total saddr daddr sp dp l)))) with c in Hv. rewrite <- Hv.
  destruct (Z.eqb_spec (ntohs c) 0) as [E0|].
  - assert (Ec : c = 0) by (rewrite <- (htons_ntohs c Hc), E0; reflexivity). rewrite Ec in *.
    split; [done|]. intros _. rewrite Z.add_0_r.
    assert (Hu : u16 (Z.lnot (fold1 (udp_total saddr daddr sp dp l))) = c) by reflexivity. by rewrite Hu, Ec.
  - rewrite V. split; [by intros ->|by intros [= ->]].
Qed.
End Receive.
Lemma lift_bind {S A B} (m : res A) (k : A -> st S B) s :
  (lift m ≫= k) s = match m with Ok a => k a s | Err x => Err x end.
Proof. by destruct m. Qed.
Lemma ihl_host e h r : ip_wf h -> ihl (e ++ host_ip h r) (length e) = Ok (h_ihl h).
Proof. intros (H1 & H2 & _). unfold host_ip. by apply version_ihl. Qed.
Lemma version_host e h r : ip_wf h -> version (e ++ host_ip h r) (length e) = Ok (h_version h).
Proof. intros (H1 & H2 & _). unfold host_ip. by apply version_ihl. Qed.

Lemma ip_index_in q x : x ∈ q -> exists k, ip_index q x = Some k.
Proof.
  induction q as [|y q IH]; [by intros ?%elem_of_nil|]. intros Hin. cbn [ip_index]. destruct (Z.eqb_spec y x); [eauto|].
  apply elem_of_cons in Hin as [->|Hin]; [done|]. destruct (IH Hin) as [k ->]. eauto.
Qed.
Lemma netif_at_eq i f s : netifs s !! i = Some f -> netif_at i s = Ok (f, s).
Proof. intros E. unfold netif_at, mbind, st_bind, get, lift, rd. by rewrite E. Qed.

(** An IP packet without options that [net_process] accepts. *)
Definition ip_accepts (f : netif) (h : iphdr) : Prop :=
  ip_wf h /\ h_version h = 4 /\ h_ihl h = 5 /\ h_ttl h <> 0 /\ csum_of (net_ip h []) = Ok 0 /\
  (h_daddr h = 0xFFFFFFFF \/ h_daddr h ∈ take IFACE_MAX_IPS (ips f)).
(** Its data in the order of the processor goes to the protocol. *)
Lemma net_process_ip d s h X r j ni sz c u ul f :
  length d = 6%nat -> length s = 6%nat -> Z.to_nat ni = j -> netifs r !! j = Some f -> 14 <= sz -> ip_accepts f h ->
  let buf := NB ni sz c u ul (eth_hdr d s 0 8 ++ host_ip h X) in
  net_process (NB ni sz c u ul (eth_hdr d s 8 0 ++ net_ip h X)) r =
  match (if h_proto h =? IP_P_ICMP then icmpv4_process buf else if h_proto h =? IP_P_UDP then udp_process buf else mret (0, buf)) r with
  | Ok (_, b, r') => Ok (0, b, r') | Err x => Err x end.
Proof.
  intros Hd Hs Hj Hf Hsz (Hwf & Hv & Hi & Ht & Hc & Hip) buf. set (e := eth_hdr d s 0 8) in *.
  assert (He : length e = ETH_HDR) by (by apply eth_length).
  assert (H12 : get16 (eth_hdr d s 8 0 ++ net_ip h X) 12 = Ok 8).
  { unfold eth_hdr. rewrite (app_assoc d s), <- app_assoc. replace 12%nat with (length (d ++ s) + 0)%nat by (rewrite length_app; lia). by rewrite get16_app. }
  unfold net_process. cbn [data nb_size]. rewrite lift_bind, H12.
  replace (sz <? Z.of_nat ETH_HDR) with false by (symmetry; apply Z.ltb_ge; unfold ETH_HDR; lia).
  change (ntohs 8 =? ETH_P_ARP) with false. change (ntohs 8 =? ETH_P_IP) with true. cbv iota.
  unfold ip_process. cbv zeta. rewrite <- He. cbn [data]. unfold mbind at 1. unfold st_bind at 1.
  rewrite lift_bind. unfold buf2eth. rewrite eth_swap by (done || (unfold is_byte; lia)). fold e. rewrite lift_bind, iphlen_net by done.
  rewrite lift_bind. unfold ip_csum. change (Z.to_nat 20) with (length (net_ip h [])). change (net_ip h X) with (net_ip h [] ++ X) at 1. rewrite rd_block_at. cbn [mbind res_bind].
  rewrite Hc, lift_bind, buf2ipv4_net by done. cbn [nic]. rewrite Hj, (st_bind_eq _ _ _ _ _ (netif_at_eq _ _ _ Hf)).
  rewrite lift_bind, version_host, lift_bind, ihl_host, lift_bind by done.
  assert (Httl : get8 (e ++ host_ip h X) (length e + 8) = Ok (h_ttl h)) by (unfold host_ip, le32, le16; frame_ops; reflexivity).
  rewrite Httl, Hv, Hi, (proj2 (Z.eqb_neq _ 0) Ht). change (negb (4 =? IPV4)) with false. change (5 <? 5) with false. change (negb (0 =? 0)) with false. cbv iota.
  assert (Hda' : ip_daddr (e ++ host_ip h X) (length e) = Ok (h_daddr h)).
  { unfold ip_daddr, host_ip, le32, le16. frame_ops. rewrite le32_val; [done|apply Hwf]. }
  assert (Hpr : ip_proto (e ++ host_ip h X) (length e) = Ok (h_proto h)) by (unfold ip_proto, host_ip, le32, le16; frame_ops; reflexivity).
  rewrite lift_bind, Hda'. cbn [negb].
  replace (if h_daddr h =? 4294967295 then true else _) with true.
  2:{ destruct (Z.eqb_spec (h_daddr h) 4294967295) as [|Hn]; [done|]. destruct Hip as [|Hin]; [done|]. destruct (ip_index_in _ _ Hin) as [k ->]. done. }
  cbn [negb]. rewrite lift_bind, Hpr. unfold set_data. cbn [nic nb_size captured u_data u_len]. fold buf. unfold mbind, st_bind.
  match goal with |- context [(if ?c then ?a else ?b) r] => destruct ((if c then a else b) r) as [[[? ?] ?]|] end; done.
Qed.

Section Deliver.
Variables (d s l : list Z) (saddr daddr sp dp : Z).
Hypotheses (Hd : length d = 6%nat) (Hs : length s = 6%nat) (Hl : Forall is_byte l) (Hlen : Z.of_nat (length l) < 60000)
  (Hsa : 0 <= saddr < 2 ^ 32) (Hda : 0 <= daddr < 2 ^ 32) (Hsp : 0 <= sp < 65536) (Hdp : 0 <= dp < 65536).
Variables (r : net) (j : nat) (ni : Z) (sz : Z) (f : netif).
Hypotheses (Hj : Z.to_nat ni = j) (Hf : netifs r !! j = Some f) (Hip : daddr = 0xFFFFFFFF \/ daddr ∈ take IFACE_MAX_IPS (ips f))
  (Hsz : 14 <= sz).

Let c := udp_cs saddr daddr sp dp l.
Let h := udp_iph (ntohs (ip_cs saddr daddr l)) saddr daddr l.
Let e := eth_hdr d s 0 8.
Let hf := host_frame d s l saddr daddr sp dp.
(** The buffer of the frame and the one that a socket captures. *)
Definition in_buf : net_buf := NB ni sz false 0 0 (udp_frame d s saddr daddr sp dp l).
Definition out_buf : net_buf := NB ni sz true 42 (Z.of_nat (length l)) hf.

Lemma udp_process_frame :
  udp_process (NB ni sz false 0 0 (e ++ host_ip h (net_udp sp dp (dgram_len l) (ntohs c) l))) r =
  if fold1 (udp_total saddr daddr sp dp l) <? 65536 then
    match List.find (fun q => udp_match q.2 dp daddr sp saddr) (socks r) with
    | None => Ok (0, NB ni sz false 0 0 hf, r)
    | Some (p, k) =>
        if decide (length (bufs k) < SOCK_MAX_BUFS)%nat
        then Ok (0, out_buf, set_events (set_socks r (update (socks r) p (fun k => set_bufs k (bufs k ++ [out_buf])))) (events r ++ [Wakeup (ChSock p)]))
        else Ok (0, NB ni sz false 0 0 hf, r)
    end
  else Ok (-1, NB ni sz false 0 0 hf, r).
Proof.
  pose proof (h_wf l saddr daddr Hlen Hsa Hda) as Hwf. fold h in Hwf.
  pose proof (udp_cs_range l saddr daddr sp dp) as Hc. fold c in Hc.
  assert (He : length e = ETH_HDR) by (by apply eth_length).
  destruct (udp_fields e h sp dp (ntohs c) l Hsp Hdp (ntohs_range _ Hc) ltac:(lia)) as (F1 & F2 & F3 & F4).
  destruct (host_fields e h sp dp (ntohs c) l Hwf) as (F5 & F6 & _).
  change (8 + Z.of_nat (length l)) with (dgram_len l) in *. fold (host_frame d s l saddr daddr sp dp) in F1, F2, F3, F4, F5, F6. 
  change (e ++ host_ip h (host_udp sp dp (dgram_len l) (ntohs c) l)) with hf in *.
  pose proof (udp_check_passes d s l saddr daddr sp dp Hd Hs Hl Hlen Hsa Hda Hsp Hdp) as Hck. fold hf e in Hck.
  assert (Hdata : ip_data (e ++ host_ip h (net_udp sp dp (dgram_len l) (ntohs c) l)) (length e) = Ok (length e + 20)%nat).
  { unfold ip_data. rewrite ihl_host by done. reflexivity. }
  assert (Hb : buf2udp (e ++ host_ip h (net_udp sp dp (dgram_len l) (ntohs c) l)) (length e + 20) = Ok hf).
  { change (host_ip h ?x) with (host_ip h [] ++ x). rewrite (app_assoc e), <- (host_ip_length e h), buf2udp_net, <- app_assoc. reflexivity. }
  unfold udp_process. cbv zeta. rewrite <- He. cbn [data].
  rewrite lift_bind, Hdata. cbv beta iota. rewrite lift_bind, Hb. cbv beta iota. rewrite lift_bind, F4. cbv beta iota. cbn [nic nb_size captured u_data u_len].
  rewrite F4 in Hck. cbn [mbind res_bind] in Hck.
  set (m := if ntohs c =? 0 then _ else _). assert (Hm : m r = match (if ntohs c =? 0 then Ok 0 else udp_csum hf (length e + 20) (length e)) with Ok v => Ok (v, r) | Err x => Err x end).
  { unfold m. by destruct (ntohs c =? 0). }
  destruct (udp_csum_val e h sp dp (ntohs c) l Hwf Hsp Hdp (ntohs_range _ Hc) Hl ltac:(lia)) as [V _]. change (8 + Z.of_nat (length l)) with (dgram_len l) in V. fold hf in V.
  assert (Hv : exists v, (if ntohs c =? 0 then Ok 0 else udp_csum hf (length e + 20) (length e)) = Ok v) by (destruct (ntohs c =? 0); eauto).
  destruct Hv as [v Hv]. rewrite Hv in Hm, Hck. rewrite (st_bind_eq _ _ _ _ _ Hm).
  destruct (Z.ltb_spec (fold1 (udp_total saddr daddr sp dp l)) 65536) as [Hlt|Hge].
  - apply Hck in Hlt. injection Hlt as ->. change (negb (0 =? 0)) with false. cbv iota.
    rewrite lift_bind, F2. cbv beta iota. rewrite lift_bind, F1. cbv beta iota. rewrite lift_bind, F3. cbv beta iota. rewrite lift_bind, F5. cbv beta iota. rewrite lift_bind, F6. cbv beta iota.
    rewrite (st_bind_eq _ _ r r r) by done. change (h_daddr h) with daddr. change (h_saddr h) with saddr.
    destruct (List.find _ (socks r)) as [[p k]|]; [|done]. destruct (decide (length (bufs k) < SOCK_MAX_BUFS)%nat); [|done].
    replace (dgram_len l -u Z.of_nat UDP_HDR) with (Z.of_nat (length l)) by (unfold dgram_len, UDP_HDR; rewrite u32_small; lia).
    rewrite He. reflexivity.
  - rewrite (proj2 (Z.eqb_neq v 0)); [done|]. intros ->. assert (fold1 (udp_total saddr daddr sp dp l) < 65536) by (by apply Hck). lia.
Qed.
Lemma ip_header_ok : csum_of (net_ip h []) = Ok 0.
Proof.
  destruct (ip_cs_range l saddr daddr Hlen Hsa Hda) as [Hr Hb]. set (i := ip_cs saddr daddr l) in *.
  set (pre := firstn 10 (net_ip h [])). set (post := be32 saddr (be32 daddr [])).
  assert (E0 : net_ip (udp_iph 0 saddr daddr l) [] = pre ++ 0 :: 0 :: post) by reflexivity.
  assert (E1 : net_ip h [] = pre ++ i mod 256 :: i / 256 :: post).
  { unfold h, net_ip, udp_iph. cbn [h_version h_ihl h_tos h_len h_id h_flags h_frag h_ttl h_proto h_csum h_saddr h_daddr].
    fold i. rewrite (be16_ntohs i) by done. unfold le16. rewrite (Z.mod_small (i / 256)) by (split; [apply Z.div_pos; lia|apply Z.div_lt_upper_bound; lia]). reflexivity. }
  rewrite E1. rewrite E0 in Hb. apply csum_stored; [exact Hb|cbn; lia|by exists 5%nat|]. rewrite <- E0 in *.
  rewrite csum_of_rep; [reflexivity|done|cbn; lia].
Qed.

Lemma net_process_frame :
  net_process in_buf r = match udp_process (NB ni sz false 0 0 (e ++ host_ip h (net_udp sp dp (dgram_len l) (ntohs c) l))) r with
                         | Ok (_, b, r') => Ok (0, b, r') | Err x => Err x end.
Proof.
  pose proof (h_wf l saddr daddr Hlen Hsa Hda) as Hwf. fold h in Hwf.
  apply (net_process_ip d s h _ r j ni sz false 0 0 f); try done.
  split; [done|]. do 2 (split; [done|]). split; [cbn; lia|]. split; [apply ip_header_ok|exact Hip].
Qed.
End Deliver.
(** ** From udp_write to udp_read *)
Lemma assoc_update l q f k : assoc l q = Some k -> assoc (update l q f) q = Some (f k).
Proof.
  induction l as [|[q' k'] l IH]; [done|]. cbn [assoc update]. destruct (decide (q' = q)) as [->|Hn]; cbn [assoc].
  - rewrite decide_True by done. by intros [= ->].
  - rewrite decide_False by done. apply IH.
Qed.
Lemma sock_at_eq q k s : assoc (socks s) q = Some k -> sock_at q s = Ok (k, s).
Proof. intros E. unfold sock_at, mbind, st_bind, get. by rewrite E. Qed.

Lemma udp_frame_length d s sa da sp dp l : length d = 6%nat -> length s = 6%nat -> length (udp_frame d s sa da sp dp l) = (42 + length l)%nat.
Proof. intros Hd Hs. unfold udp_frame. by rewrite length_app, (eth_length d s Hd Hs). Qed.

Lemma udp_write_sends world p buf len s s1 k i f dmac ip0 bytes :
  assoc (socks s) p = Some k -> sk_netif k = Some i -> netifs s !! i = Some f ->
  (length (netq s) < NETQ_MAX_ITEMS)%nat -> nomem s = false ->
  0 <= len <= 1458 -> rd_block buf 0 (Z.to_nat len) = Ok bytes -> Forall is_byte bytes ->
  eth_set_dmac world (replicate MAC_SIZE 0) (rem_ip k) s = Ok (0, dmac, s1) -> length dmac = 6%nat ->
  assoc (socks s1) p = Some k -> netifs s1 !! i = Some f -> length (mac f) = 6%nat -> ips f !! 0%nat = Some ip0 ->
  0 <= ip0 < 2 ^ 32 -> 0 <= loc_ip k < 2 ^ 32 -> 0 <= rem_ip k < 2 ^ 32 -> 0 <= loc_port k < 65536 -> 0 <= rem_port k < 65536 ->
  let saddr := if loc_ip k =? 0 then ip0 else loc_ip k in
  let frame := udp_frame dmac (mac f) saddr (rem_ip k) (loc_port k) (rem_port k) bytes in
  udp_write world p buf len s = Ok (len, set_events s1 (events s1 ++ [Send i frame])).
Proof.
  intros Hk Hi Hf Hq Hm Hlen Hrd Hby Hdm Hd Hk1 Hf1 Hmac Hip0 Hr0 Hr1 Hr2 Hr3 Hr4 saddr frame.
  assert (Hbl : length bytes = Z.to_nat len).
  { unfold rd_block in Hrd. destruct (decide _); [|done]. injection Hrd as <-. rewrite length_take, length_drop. lia. }
  assert (Hsa : 0 <= saddr < 2 ^ 32) by (unfold saddr; destruct (loc_ip k =? 0); done).
  unfold udp_write. rewrite (st_bind_eq _ _ _ _ _ (sock_at_eq _ _ _ Hk)), Hi, (st_bind_eq _ _ _ _ _ (netif_at_eq _ _ _ Hf)).
  change (Z.of_nat (ETH_HDR + IP_HDR + UDP_HDR)) with 42. rewrite (proj2 (Z.ltb_ge (1500 - 42) len)) by lia.
  set (nb := NB (u8 (if_id f)) (u16 (42 + len)) false 0 0 (replicate (Z.to_nat (42 + len)) 0)).
  rewrite (st_bind_eq _ _ s (Some nb) s).
  2:{ unfold net_buf_alloc, mbind, st_bind, get. rewrite decide_False by lia. rewrite (proj2 (Z.ltb_ge NB_MAX_SIZE _)) by (unfold NB_MAX_SIZE; lia). by rewrite Hm. }
  rewrite (st_bind_eq _ _ _ _ _ Hdm). change (0 <? 0) with false. cbv iota.
  rewrite (st_bind_eq _ _ _ _ _ (sock_at_eq _ _ _ Hk1)), (st_bind_eq _ _ _ _ _ (netif_at_eq _ _ _ Hf1)).
  assert (Hz : data nb = [] ++ replicate 6 0 ++ replicate 36 0 ++ replicate (length bytes) 0).
  { unfold nb. cbn [data app]. rewrite <- !replicate_add. f_equal. lia. }
  assert (Hw : wr_block (data nb) 0 dmac = Ok (dmac ++ replicate 36 0 ++ replicate (length bytes) 0)).
  { rewrite Hz. apply (wr_block_over [] (replicate 6 0) dmac). by rewrite Hd. }
  rewrite lift_bind, Hw, lift_bind. unfold rd at 1. rewrite Hip0, lift_bind. rewrite (proj2 (Z.ltb_ge len 0)), Hrd by lia.
  fold saddr. rewrite lift_bind, (udp_build_frame dmac (mac f) bytes saddr (rem_ip k) (loc_port k) (rem_port k)) by (done || lia). fold frame.
  assert (Hfl : length frame = Z.to_nat (nb_size nb)).
  { unfold frame. rewrite udp_frame_length by done. unfold nb. cbn [nb_size]. rewrite u16_small by lia. lia. }
  rewrite (st_bind_eq _ _ s1 tt (set_events s1 (events s1 ++ [Send i frame]))); [done|].
  unfold send. rewrite lift_bind, <- Hfl. pose proof (rd_block_at [] frame []) as E. rewrite app_nil_r in E. cbn [app length] in E. by rewrite E.
Qed.

Lemma udp_read_payload world d s l sa da sp dp r q k ni sz size :
  length d = 6%nat -> length s = 6%nat -> Z.of_nat (length l) < 60000 ->
  assoc (socks r) q = Some k -> bufs k = [out_buf d s l sa da sp dp ni sz] -> Z.of_nat (length l) <= size ->
  udp_read world q size r = Ok (Z.of_nat (length l), l, set_socks r (update (socks r) q (fun k => set_bufs k []))).
Proof.
  intros Hd Hs Hlen Hk Hb Hsz. unfold udp_read. rewrite (st_bind_eq _ _ _ _ _ (sock_at_eq _ _ _ Hk)), (st_bind_eq _ _ r r r) by done.
  rewrite Hb. rewrite bool_decide_eq_false_2 by done. cbn [andb]. rewrite (st_bind_eq _ _ r tt r) by done.
  rewrite (st_bind_eq _ _ _ _ _ (sock_at_eq _ _ _ Hk)), Hb. unfold out_buf. cbn [u_len u_data data].
  replace (if _ <? _ then _ else _) with (Z.of_nat (length l)) by (destruct (Z.ltb_spec (Z.of_nat (length l)) size); lia).
  rewrite lift_bind, Nat2Z.id.
  assert (E : rd_block (host_frame d s l sa da sp dp) 42 (length l) = Ok l).
  { set (m := ntohs (udp_cs sa da sp dp l)).
    set (pre := eth_hdr d s 0 8 ++ host_ip (udp_iph (ntohs (ip_cs sa da l)) sa da l) (host_udp sp dp (dgram_len l) m [])).
    replace (host_frame d s l sa da sp dp) with (pre ++ l ++ []) by (unfold pre; rewrite app_nil_r, <- app_assoc; reflexivity).
    replace 42%nat with (length pre) by (unfold pre; rewrite length_app, (eth_length d s Hd Hs); reflexivity). apply rd_block_at. }
  rewrite E. rewrite (st_bind_eq _ _ r tt (set_socks r (update (socks r) q (fun k => set_bufs k [])))) by done.
  rewrite s32_small by lia. done.
Qed.
(** What [udp_write] needs: a socket with an interface, room for a buffer, a
    hardware address for the destination ([s1] is the state after its
    resolution). *)
Definition sender_ready (world : st net unit) (s s1 : net) (p : sock_ptr) (k : sock_t) (i : nat) (f : netif) (dmac : list Z) (ip0 : Z) : Prop :=
  assoc (socks s) p = Some k /\ sk_netif k = Some i /\ netifs s !! i = Some f /\
  (length (netq s) < NETQ_MAX_ITEMS)%nat /\ nomem s = false /\
  eth_set_dmac world (replicate MAC_SIZE 0) (rem_ip k) s = Ok (0, dmac, s1) /\ length dmac = 6%nat /\
  assoc (socks s1) p = Some k /\ netifs s1 !! i = Some f /\ length (mac f) = 6%nat /\ ips f !! 0%nat = Some ip0 /\
  0 <= ip0 < 2 ^ 32 /\ 0 <= loc_ip k < 2 ^ 32 /\ 0 <= rem_ip k < 2 ^ 32 /\ 0 <= loc_port k < 65536 /\ 0 <= rem_port k < 65536.
Definition source_ip (k : sock_t) (ip0 : Z) : Z := if loc_ip k =? 0 then ip0 else loc_ip k.
(** What reception needs: the interface has the address, and [q] is the first
    socket that matches; it has nothing to read. *)
Definition receiver_ready (r : net) (ni : Z) (f : netif) (q : sock_ptr) (k : sock_t) (daddr dport saddr sport : Z) : Prop :=
  netifs r !! Z.to_nat ni = Some f /\ (daddr = 0xFFFFFFFF \/ daddr ∈ take IFACE_MAX_IPS (ips f)) /\
  List.find (fun x => udp_match x.2 dport daddr sport saddr) (socks r) = Some (q, k) /\ assoc (socks r) q = Some k /\ bufs k = [].

(** C29: A datagram from [udp_write] to [udp_read]: the sender hands one frame to
    its interface; when it arrives at a host that is ready for it, the first
    matching socket captures it and [udp_read] returns the bytes that were
    written.  This is so exactly when the sum of the words does not carry twice;
    otherwise the checksum that [udp_csum] computed does not pass at the receiver
    and the datagram is dropped. *)
Theorem udp_delivery world world' s s1 p k i f dmac ip0 buf len bytes r ni f' q k' size :
  sender_ready world s s1 p k i f dmac ip0 ->
  0 <= len <= 1458 -> rd_block buf 0 (Z.to_nat len) = Ok bytes -> Forall is_byte bytes ->
  let saddr := source_ip k ip0 in
  receiver_ready r ni f' q k' (rem_ip k) (rem_port k) saddr (loc_port k) -> len <= size ->
  exists frame s2, udp_write world p buf len s = Ok (len, s2) /\ events s2 = events s1 ++ [Send i frame] /\
    Z.of_nat (length frame) = 42 + len /\
    exists b r', net_process (NB ni (42 + len) false 0 0 frame) r = Ok (0, b, r') /\
      if fold1 (udp_total saddr (rem_ip k) (loc_port k) (rem_port k) bytes) <? 65536
      then captured b = true /\ exists r'', udp_read world' q size r' = Ok (len, bytes, r'')
      else captured b = false /\ r' = r.
Proof.
  intros (Hk & Hi & Hf & Hq & Hm & Hdm & Hd & Hk1 & Hf1 & Hmac & Hip0 & R0 & R1 & R2 & R3 & R4) Hlen Hrd Hby saddr (Gf & Gip & Gfind & Gk & Gb) Hsz.
  assert (Hbl : length bytes = Z.to_nat len).
  { unfold rd_block in Hrd. destruct (decide _); [|done]. injection Hrd as <-. rewrite length_take, length_drop. lia. }
  assert (Hsa : 0 <= saddr < 2 ^ 32) by (unfold saddr, source_ip; destruct (loc_ip k =? 0); done).
  assert (Hl6 : Z.of_nat (length bytes) < 60000) by lia.
  set (frame := udp_frame dmac (mac f) saddr (rem_ip k) (loc_port k) (rem_port k) bytes).
  pose proof (udp_write_sends world p buf len s s1 k i f dmac ip0 bytes Hk Hi Hf Hq Hm Hlen Hrd Hby Hdm Hd Hk1 Hf1 Hmac Hip0 R0 R1 R2 R3 R4) as Hw.
  exists frame, (set_events s1 (events s1 ++ [Send i frame])). split; [exact Hw|]. split; [done|].
  split; [unfold frame; rewrite udp_frame_length by done; lia|].
  pose proof (net_process_frame dmac (mac f) bytes saddr (rem_ip k) (loc_port k) (rem_port k) Hd Hmac Hl6 Hsa R2 r (Z.to_nat ni) ni (42 + len) f' eq_refl Gf Gip ltac:(lia)) as Hnp.
  rewrite (udp_process_frame dmac (mac f) bytes saddr (rem_ip k) (loc_port k) (rem_port k) Hd Hmac Hby Hl6 Hsa R2 R3 R4 r (Z.to_nat ni) ni (42 + len) eq_refl), Gfind, Gb in Hnp. cbn [length] in Hnp. rewrite decide_True in Hnp by (unfold SOCK_MAX_BUFS; lia).
  unfold in_buf in Hnp. fold frame in Hnp. rewrite Hnp.
  destruct (fold1 _ <? 65536); [|by do 2 eexists].
  do 2 eexists. split; [reflexivity|]. split; [reflexivity|]. assert (El : Z.of_nat (length bytes) = len) by lia.
  pose proof (udp_read_payload world' dmac (mac f) bytes saddr (rem_ip k) (loc_port k) (rem_port k)) as Hread.
  match goal with |- exists _, udp_read _ _ _ ?r1 = _ => specialize (Hread r1 q
    (set_bufs k' [out_buf dmac (mac f) bytes saddr (rem_ip k) (loc_port k) (rem_port k) ni (42 + len)]) ni (42 + len) size Hd Hmac Hl6) end.
  rewrite El in Hread. eexists. apply Hread; [|reflexivity|exact Hsz].
  cbn [socks set_events set_socks app]. by rewrite (assoc_update _ _ _ k' Gk), Gb.
Qed.

(** Two hosts on a network; the address of the second is in the ARP cache of
    the first. *)
Definition ports0 : Bmap.bmap_t := Bmap.BM 1024 0 0 (replicate 32 0).
Definition host (ip : Z) (m : list Z) (rts : list route_t) (arp : list arp_entry) (k : sock_t) : net :=
  NetS [NetIf 0 m [ip; 0; 0; 0] true] [] rts false arp [(1%positive, k)] 2%positive ports0 ports0 10 1 false false [].
Definition mac_a : list Z := [2; 0; 0; 0; 0; 1].
Definition mac_b : list Z := [2; 0; 0; 0; 0; 2].
Definition sock_a : sock_t := Sock S_UDP 0 40000 0x0A000202 53 1 true [] (Some 0%nat).
Definition sock_b : sock_t := Sock S_UDP 0 53 0 0 1 false [] None.
Definition host_a : net :=
  host 0x0A000203 mac_a [Route 0x0A000200 0xFFFFFF00 0 0] (arp_zero :: Arp 0x0A000202 mac_b ARPC_SOLVED 100 :: replicate 30 arp_zero) sock_a.
Definition host_b : net := host 0x0A000202 mac_b [] (replicate 32 arp_zero) sock_b.
Definition host_a' : net := set_arp host_a (arp_zero :: Arp 0x0A000202 mac_b ARPC_SOLVED 100 :: replicate 30 arp_zero).

Lemma udp_delivery_witness :
  exists frame s2, udp_write (mret tt) 1%positive [1; 2; 3] 3 host_a = Ok (3, s2) /\ events s2 = [Send 0 frame] /\ Z.of_nat (length frame) = 42 + 3 /\
    exists b r', net_process (NB 0 45 false 0 0 frame) host_b = Ok (0, b, r') /\ captured b = true /\
      exists r'', udp_read (mret tt) 1%positive 512 r' = Ok (3, [1; 2; 3], r'').
Proof.
  destruct (udp_delivery (mret tt) (mret tt) host_a host_a' 1%positive sock_a 0%nat (NetIf 0 mac_a [0x0A000203; 0; 0; 0] true) mac_b 0x0A000203 [1; 2; 3] 3 [1; 2; 3]
    host_b 0 (NetIf 0 mac_b [0x0A000202; 0; 0; 0] true) 1%positive sock_b 512) as (frame & s2 & H1 & H2 & H3 & b & r' & H4 & H5).
  - unfold sender_ready. split_and!; first [reflexivity | (unfold NETQ_MAX_ITEMS; cbn; lia) | (cbn; lia)].
  - lia.
  - reflexivity.
  - repeat constructor; unfold is_byte; lia.
  - unfold receiver_ready. repeat split. right. set_solver.
  - lia.
  - exists frame, s2. split; [exact H1|]. split; [exact H2|]. split; [exact H3|]. exists b, r'. split; [exact H4|].
    match type of H5 with (if ?c then _ else _) => replace c with true in H5 by (vm_compute; reflexivity) end. exact H5.
Defined.
End NetSpec.
