(* ===== verification/NetTable.v ===== *)
(** * Routes, ARP and sockets

    The routing table finds the most specific route; what the ARP cache and the
    sockets do in some corners. *)
From S2P Require Import Prelude CString Bmap Net NetWire NetSpec.
From Stdlib Require Import Sorted.

Module NetTable.
Import Net NetWire NetSpec.

(** ** Longest prefixes *)

(** The mask of a network: the [k] low bits are 0, the others 1. *)
Definition prefix_mask (m : Z) : Prop := exists k, 0 <= k <= 32 /\ m = 2 ^ 32 - 2 ^ k.
Definition rt_matches (ip : Z) (r : route_t) : bool := Z.land ip (r_mask r) =? r_base r.

Lemma mask_shift k : 0 <= k <= 32 -> 2 ^ 32 - 2 ^ k = Z.shiftl (Z.ones (32 - k)) k.
Proof.
  intros Hk. rewrite Z.shiftl_mul_pow2, Z.ones_equiv by lia. replace (2 ^ 32) with (2 ^ (32 - k) * 2 ^ k); [lia|].
  rewrite <- Z.pow_add_r by lia. f_equal. lia.
Qed.
Lemma land_prefix ip k : 0 <= ip < 2 ^ 32 -> 0 <= k <= 32 -> Z.land ip (2 ^ 32 - 2 ^ k) = ip / 2 ^ k * 2 ^ k.
Proof.
  intros Hip Hk. rewrite mask_shift by done. rewrite <- Z.shiftr_div_pow2, <- Z.shiftl_mul_pow2 by lia.
  apply Z.bits_inj'. intros n Hn. rewrite Z.land_spec. destruct (Z.ltb_spec n k).
  - rewrite !Z.shiftl_spec_low by done. apply andb_false_r.
  - rewrite !Z.shiftl_spec, Z.shiftr_spec by lia. replace (n - k + k) with n by lia. destruct (Z.ltb_spec n 32).
    + rewrite Z.ones_spec_low by lia. apply andb_true_r.
    + by rewrite (testbit_small ip 32 n) by lia.
Qed.
Lemma mask_le k j : 0 <= k <= 32 -> 0 <= j <= 32 -> 2 ^ 32 - 2 ^ k < 2 ^ 32 - 2 ^ j -> j < k.
Proof. intros Hk Hj H. apply (Z.pow_lt_mono_r_iff 2); lia. Qed.
(** A longer prefix of the same address is a greater base. *)
Lemma longer_base ip m m' :
  0 <= ip < 2 ^ 32 -> prefix_mask m -> prefix_mask m' -> m < m' -> Z.land ip m <= Z.land ip m'.
Proof.
  intros Hip (k & Hk & ->) (j & Hj & ->) Hlt. apply mask_le in Hlt; [|done|done]. rewrite !land_prefix by done.
  assert (Hjp : 0 < 2 ^ j) by (apply Z.pow_pos_nonneg; lia). assert (Hkp : 0 < 2 ^ k) by (apply Z.pow_pos_nonneg; lia).
  assert (E : 2 ^ k = 2 ^ (k - j) * 2 ^ j) by (rewrite <- Z.pow_add_r by lia; f_equal; lia).
  pose proof (Z.mul_div_le ip (2 ^ k) Hkp) as Hle. set (D := ip / 2 ^ k) in *.
  assert (Eq : D * 2 ^ k = (D * 2 ^ (k - j)) * 2 ^ j) by (rewrite E; ring). rewrite Eq.
  apply Z.mul_le_mono_nonneg_r; [lia|]. apply Z.div_le_lower_bound; [done|]. lia.
Qed.

(** ** The table *)
Definition rt_before (r r' : route_t) : Prop := r_base r' < r_base r \/ (r_base r' = r_base r /\ r_mask r' < r_mask r).
Definition rt_sorted : list route_t -> Prop := StronglySorted rt_before.

Lemma route_insert_in r l x : x ∈ route_insert r l <-> x = r \/ x ∈ l.
Proof.
  induction l as [|y l IH]; cbn [route_insert]; [set_solver|]. destruct (r_base y <? r_base r); [set_solver|].
  destruct (_ && _)%bool; [set_solver|]. rewrite !elem_of_cons, IH. naive_solver.
Qed.
Lemma route_insert_sorted r l :
  rt_sorted l -> (forall x, x ∈ l -> ~ (r_base x = r_base r /\ r_mask x = r_mask r)) -> rt_sorted (route_insert r l).
Proof.
  unfold rt_sorted, rt_before. induction l as [|y l IH]; intros Hs Hn; cbn [route_insert]; [by repeat constructor|].
  apply StronglySorted_inv in Hs as [Hs Hy]. pose proof (Hn y ltac:(set_solver)) as Hny.
  assert (Hall : rt_before r y -> Forall (rt_before r) (y :: l)).
  { intros Hr. constructor; [done|]. eapply Forall_impl; [exact Hy|]. unfold rt_before in *. cbn. lia. }
  unfold rt_before in *. destruct (Z.ltb_spec (r_base y) (r_base r)).
  - constructor; [by constructor|]. apply Hall. lia.
  - destruct ((r_base r =? r_base y) && (r_mask y <? r_mask r))%bool eqn:E.
    + to_prop. constructor; [by constructor|]. apply Hall. lia.
    + constructor; [apply IH; [done|]; intros x Hx; apply Hn; set_solver|]. apply List.Forall_forall. intros x Hx%list_elem_of_In.
      apply route_insert_in in Hx as [->|Hx]; [|by eapply Forall_forall in Hy; [|exact Hx]].
      apply andb_false_iff in E as [E|E]; [apply Z.eqb_neq in E|apply Z.ltb_ge in E]; lia.
Qed.

Definition rt_wf (r : route_t) : Prop := 0 <= r_base r < 2 ^ 32 /\ prefix_mask (r_mask r).
(** The first route that matches is the most specific one. *)
Lemma rt_find_first l ip :
  rt_sorted l -> Forall rt_wf l -> 0 <= ip < 2 ^ 32 ->
  match rt_find (rt_matches ip) l with
  | Some r => r ∈ l /\ rt_matches ip r = true /\ forall x, x ∈ l -> rt_matches ip x = true -> r_mask x <= r_mask r
  | None => forall x, x ∈ l -> rt_matches ip x = false
  end.
Proof.
  intros Hs Hw Hip. unfold rt_find. induction l as [|y l IH]; cbn [List.find]; [set_solver|].
  apply StronglySorted_inv in Hs as [Hs Hy]. apply Forall_cons in Hw as [Hwy Hw]. specialize (IH Hs Hw).
  destruct (rt_matches ip y) eqn:E.
  - split; [set_solver|]. split; [done|]. intros x [-> |Hx]%elem_of_cons Hm; [done|].
    eapply Forall_forall in Hy; [|exact Hx]. eapply Forall_forall in Hw; [|exact Hx]. unfold rt_matches in *. to_prop.
    destruct (Z.le_gt_cases (r_mask x) (r_mask y)); [done|]. destruct Hwy as [_ Hwy], Hw as [_ Hw].
    pose proof (longer_base ip _ _ Hip Hwy Hw ltac:(lia)). unfold rt_before in Hy. lia.
  - destruct (List.find _ l) as [r|].
    + destruct IH as (H1 & H2 & H3). split; [set_solver|]. split; [done|]. intros x [-> |Hx]%elem_of_cons Hm; [congruence|auto].
    + intros x [-> |Hx]%elem_of_cons; auto.
Qed.
(** Routes added one after the other: base, mask, gateway, interface. *)
Fixpoint route_adds (l : list (Z * Z * Z * nat)) : st net unit :=
  match l with [] => mret tt | (b, m, g, n) :: l' => route_add b m g n;; route_adds l' end.

Lemma route_add_run s b m g n :
  nomem s = false -> rt_sorted (routes s) -> Forall rt_wf (routes s) -> 0 <= b < 2 ^ 32 -> prefix_mask m ->
  exists c s', route_add b m g n s = Ok (c, s') /\ nomem s' = false /\ rt_sorted (routes s') /\ Forall rt_wf (routes s') /\
    (forall x, x ∈ routes s' -> x ∈ routes s \/ x = Route (Z.land b m) m g n) /\
    (forall x, x ∈ routes s -> x ∈ routes s') /\
    (exists x, x ∈ routes s' /\ r_base x = Z.land b m /\ r_mask x = m).
Proof.
  intros Hm Hs Hw Hb Hp. unfold route_add. set (a := Z.land b m).
  unfold route_exists, mbind, st_bind, get, mret, st_ret.
  destruct (rt_find _ (routes s)) as [r|] eqn:E.
  - exists (-1), s. unfold rt_find in E. apply List.find_some in E as [Hin E]. to_prop. apply list_elem_of_In in Hin. split_and!; eauto.
  - rewrite Hm. cbn [put]. set (r := Route a m g n). exists 0, (set_routes s (route_insert r (routes s))).
    assert (Ha : 0 <= a < 2 ^ 32) by (by apply land_u32).
    assert (Hn : forall x, x ∈ routes s -> ~ (r_base x = r_base r /\ r_mask x = r_mask r)).
    { intros x Hx%list_elem_of_In [E1 E2]. pose proof (List.find_none _ _ E x Hx) as H. cbn in H, E1, E2. rewrite E1, E2, !Z.eqb_refl in H. done. }
    split; [done|]. cbn [nomem routes set_routes]. split; [done|]. split; [by apply route_insert_sorted|]. split.
    + apply Forall_forall. intros x [->|Hx]%route_insert_in; [by split|]. by eapply Forall_forall in Hw; [|exact Hx].
    + split_and!; [intros x [->|Hx]%route_insert_in; auto|intros x Hx; apply route_insert_in; auto|].
      exists r. split; [apply route_insert_in; by left|done].
Qed.

(** The table holds exactly the routes that were added. *)
Definition rt_holds (l : list route_t) (added : list (Z * Z * Z * nat)) : Prop :=
  (forall x, x ∈ l -> exists b, (b, r_mask x, r_gateway x, r_netif x) ∈ added /\ Z.land b (r_mask x) = r_base x) /\
  (forall b m g n, (b, m, g, n) ∈ added -> exists x, x ∈ l /\ r_base x = Z.land b m /\ r_mask x = m).
Lemma route_adds_run rs s old :
  nomem s = false -> rt_sorted (routes s) -> Forall rt_wf (routes s) ->
  (forall b m g n, (b, m, g, n) ∈ rs -> 0 <= b < 2 ^ 32 /\ prefix_mask m) -> rt_holds (routes s) old ->
  exists s', route_adds rs s = Ok (tt, s') /\ rt_sorted (routes s') /\ Forall rt_wf (routes s') /\ rt_holds (routes s') (rs ++ old).
Proof.
  revert s old. induction rs as [|[[[b m] g] n] rs IH]; intros s old Hm Hs Hw Hrs [H1 H2]; [by exists s|].
  destruct (Hrs b m g n (list_elem_of_here _ _)) as [Hb Hp].
  destruct (route_add_run s b m g n Hm Hs Hw Hb Hp) as (c & s1 & Hadd & Hm1 & Hs1 & Hw1 & K1 & K2 & K3).
  destruct (IH s1 ((b, m, g, n) :: old) Hm1 Hs1 Hw1) as (s' & Hrun & Hs' & Hw' & R1 & R2).
  - intros b' m' g' n' Hin. apply (Hrs b' m' g' n'). by right.
  - split.
    + intros x [Hx| ->]%K1; [destruct (H1 x Hx) as (b' & ? & ?); exists b'; split; [by right|done]|]. exists b. split; [by left|done].
    + intros b' m' g' n' [[= -> -> -> ->]|Hin]%elem_of_cons; [done|]. destruct (H2 _ _ _ _ Hin) as (x & Hx & ?). exists x. split; [by apply K2|done].
  - exists s'. split; [cbn [route_adds]; by rewrite (st_bind_eq _ _ _ _ _ Hadd)|]. split; [done|]. split; [done|].
    assert (Hc : forall y, y ∈ rs ++ (b, m, g, n) :: old <-> y ∈ ((b, m, g, n) :: rs) ++ old).
    { intros y. rewrite !elem_of_app, !elem_of_cons. tauto. }
    split; [intros x Hx; destruct (R1 x Hx) as (b' & Hi & ?); exists b'; split; [by apply Hc|done]|].
    intros b' m' g' n' Hin. apply (R2 b' m' g' n'). by apply Hc.
Qed.

(** C32: After any sequence of additions of routes with masks of prefixes to an
    empty table, [route_find] returns a route with the longest mask among all
    the added ones that match the address, and none exactly when no added route
    matches. *)
Theorem route_find_longest s rs ip :
  routes s = [] -> nomem s = false -> 0 <= ip < 2 ^ 32 ->
  (forall b m g n, (b, m, g, n) ∈ rs -> 0 <= b < 2 ^ 32 /\ prefix_mask m) ->
  exists s' r, route_adds rs s = Ok (tt, s') /\ route_find ip s' = Ok (r, s') /\
    match r with
    | Some r => Z.land ip (r_mask r) = r_base r /\ (exists b, (b, r_mask r, r_gateway r, r_netif r) ∈ rs /\ Z.land b (r_mask r) = r_base r) /\
        forall b m g n, (b, m, g, n) ∈ rs -> Z.land ip m = Z.land b m -> m <= r_mask r
    | None => forall b m g n, (b, m, g, n) ∈ rs -> Z.land ip m <> Z.land b m
    end.
Proof.
  intros He Hm Hip Hrs.
  destruct (route_adds_run rs s [] Hm) as (s' & Hrun & Hs' & Hw' & R1 & R2); [by rewrite He; constructor|by rewrite He; constructor|done| |].
  { split; [intros x; rewrite He; by intros ?%elem_of_nil|by intros ???? ?%elem_of_nil]. }
  rewrite app_nil_r in R1, R2. exists s', (rt_find (rt_matches ip) (routes s')). split; [done|]. split; [done|].
  pose proof (rt_find_first (routes s') ip Hs' Hw' Hip) as Hf. destruct (rt_find _ _) as [r|].
  - destruct Hf as (H1 & H2 & H3). unfold rt_matches in H2. to_prop. split; [done|]. split; [by apply R1|].
    intros b m g n Hin Heq. destruct (R2 _ _ _ _ Hin) as (x & Hx & E1 & <-). apply H3; [done|]. unfold rt_matches. apply Z.eqb_eq. by rewrite E1.
  - intros b m g n Hin Heq. destruct (R2 _ _ _ _ Hin) as (x & Hx & E1 & <-). specialize (Hf x Hx). unfold rt_matches in Hf. to_prop. by rewrite E1 in Hf.
Qed.

Definition some_routes : list (Z * Z * Z * nat) :=
  [(0, 0, 0x0A000201, 0%nat); (0x0A000200, 0xFFFFFF00, 0, 0%nat); (0x0A000000, 0xFF000000, 0, 1%nat)].
Lemma some_masks b m g n : (b, m, g, n) ∈ some_routes -> 0 <= b < 2 ^ 32 /\ prefix_mask m.
Proof.
  unfold some_routes. rewrite !elem_of_cons. intros [[= -> -> -> ->]|[[= -> -> -> ->]|[[= -> -> -> ->]|[]%elem_of_nil]]];
    (split; [lia|]); [exists 32|exists 8|exists 24]; (split; [lia|reflexivity]).
Qed.
Lemma route_find_longest_witness :
  exists s', route_adds some_routes (set_routes host_b []) = Ok (tt, s') /\ route_find 0x0A000207 s' = Ok (Some (Route 0x0A000200 0xFFFFFF00 0 0), s').
Proof.
  destruct (route_find_longest (set_routes host_b []) some_routes 0x0A000207) as (s' & r & H1 & H2 & _); [reflexivity|reflexivity|lia|apply some_masks|].
  set (rs := [Route 0x0A000200 0xFFFFFF00 0 0; Route 0x0A000000 0xFF000000 0 1; Route 0 0 0x0A000201 0]).
  assert (E : route_adds some_routes (set_routes host_b []) = Ok (tt, set_routes host_b rs)) by reflexivity.
  rewrite E in H1. injection H1 as <-. exists (set_routes host_b rs). split; [exact E|reflexivity].
Defined.
(** ** Corners *)

(** [list_del] calls the free function of the list, which is [route_del]. *)
Lemma route_del_deadlock n r s : route_del (S (S n)) r s = Err EDeadlock.
Proof. cbn [route_del]. unfold rt_spin_lock. st_run. by destruct (rt_lock s) eqn:E; [|cbn]. Qed.

(** A socket that has not read all its datagrams cannot be closed. *)
Lemma udp_close_unread s p k : assoc (socks s) p = Some k -> bufs k <> [] -> udp_close p s = Err EUaf.
Proof. intros Hk Hb. unfold udp_close, sock_free, sock_at. st_run. rewrite Hk. cbn. by rewrite bool_decide_false. Qed.
(** Closing a socket does not give its port back. *)
Lemma udp_close_ports s p r s' : udp_close p s = Ok (r, s') -> udp_ports s' = udp_ports s.
Proof.
  unfold udp_close, sock_free, sock_at. st_run. destruct (assoc (socks s) p) as [k|]; [|done]. cbn.
  destruct (bool_decide _); [|done]. by intros [= _ <-].
Qed.

(** A connection without a route succeeds; the next write uses a null interface. *)
Definition lost : net := host 0x0A000203 mac_a [] (replicate 32 arp_zero) (Sock S_UDP 0 40000 0 0 1 false [] None).
Lemma udp_connect_no_route :
  match udp_connect 1%positive 0x08080808 53 lost with
  | Ok (r, s) => r = 0 /\ udp_write (mret tt) 1%positive [1] 1 s = Err ENull
  | Err _ => False
  end.
Proof. vm_compute. by split. Qed.

(** The address of the peer is solved in the first entry of the cache, and
    [arp_resolve] still asks the network; the entry is not the pending one. *)
Definition host_c : net := set_arp host_a (Arp 0x0A000202 mac_b ARPC_SOLVED 100 :: replicate 31 arp_zero).
Lemma arp_first_entry :
  arp_cache_get_mac 0x0A000202 [] host_c = Ok (0, mac_b, host_c) /\
  match arp_resolve (mret tt) 0x0A000202 [] host_c with Ok (r, _, s) => r = -1 /\ length (events s) = 1%nat | Err _ => False end.
Proof. vm_compute. repeat split. Qed.

(** A datagram whose sum carries twice is lost. *)
Lemma udp_double_carry :
  match udp_write (mret tt) 1%positive [255; 255; 76; 92] 4 host_a with
  | Ok (r, s) => r = 4 /\
      match events s with
      | [Send 0 f] => match net_process (NB 0 46 false 0 0 f) host_b with Ok (_, b, s') => captured b = false /\ s' = host_b | Err _ => False end
      | _ => False
      end
  | Err _ => False
  end.
Proof. vm_compute. repeat split. Qed.

(** A request for 0.0.0.0 matches the unused places of the interface. *)
Definition any_request : list Z :=
  replicate 6 255 ++ mac_a ++ [8; 6; 0; 1; 8; 0; 6; 4; 0; 1] ++ mac_a ++ [10; 0; 2; 3] ++ replicate 10 0.
Lemma arp_any_address :
  match net_process (NB 0 42 false 0 0 any_request) host_b with Ok (_, s) => length (events s) = 1%nat | Err _ => False end.
Proof. vm_compute. reflexivity. Qed.

(** A reader that wakes up without a datagram reads the head of an empty list. *)
Lemma udp_read_spurious : udp_read (mret tt) 1%positive 10 host_b = Err ENull.
Proof. reflexivity. Qed.

(** The length of a header with [ihl] of 8 or more loses its high bit. *)
Lemma iphlen_options b o v : rd b o = Ok v -> 0 <= v < 256 -> iphlen b o = Ok (4 * (v mod 8)).
Proof.
  intros H Hv. unfold iphlen, get8. rewrite H. change is_bige with false. cbn [res_bind mbind].
  change 7 with (Z.ones 3). rewrite Z.shiftl_mul_pow2, Z.land_ones by lia. f_equal. change (2 ^ 2) with 4. change (2 ^ 3) with 8. lia.
Qed.
End NetTable.
