(* ===== verification/NetArp.v ===== *)
(** * Address resolution

    The request of [arp_resolve], the answer of [arp_process] of the host that
    has the address, and the resolution of the pending entry: src/arp.c of two
    hosts that exchange their frames. *)
From S2P Require Import Prelude CString Bmap Net NetWire NetSpec.

Module NetArp.
Import Net NetWire NetSpec.

(** ** Frames *)

(** A hardware address of six bytes. *)
Definition is_mac (m : list Z) : Prop := length m = 6%nat.
Lemma is_mac_bytes m : is_mac m -> exists a b c d e f, m = [a; b; c; d; e; f].
Proof. intros H. do 6 (destruct m; [done|]). destruct m; [|done]. by do 6 eexists. Qed.

(** The fields that the exchange uses, in the order of the network and of the
    processor, before the padding [pad]. *)
Definition arp_frame (d s : list Z) (op : Z) (sm : list Z) (sip : Z) (dm : list Z) (dip : Z) (pad : list Z) : list Z :=
  d ++ s ++ [8; 6; 0; 1; 8; 0; 6; 4; 0; op] ++ sm ++ be32 sip (dm ++ be32 dip pad).
Definition arp_head (d s : list Z) (op : Z) (sm : list Z) (sip : Z) (dm : list Z) (dip : Z) (pad : list Z) : list Z :=
  d ++ s ++ [6; 8; 1; 0; 0; 8; 6; 4; op; 0] ++ sm ++ be32 sip (dm ++ be32 dip pad).
Definition arp_host (d s : list Z) (op : Z) (sm : list Z) (sip : Z) (dm : list Z) (dip : Z) (pad : list Z) : list Z :=
  d ++ s ++ [6; 8; 1; 0; 0; 8; 6; 4; op; 0] ++ sm ++ le32 sip (dm ++ le32 dip pad).
Definition request (m : list Z) (ip0 ip : Z) : list Z := arp_frame (replicate 6 255) m 1 m ip0 (replicate 6 0) ip [].
Definition reply (m' m : list Z) (ip ip0 : Z) : list Z := arp_frame m m' 2 m' ip m ip0 [].

Lemma arp_frame_pad d s op sm sip dm dip pad : arp_frame d s op sm sip dm dip pad = arp_frame d s op sm sip dm dip [] ++ pad.
Proof.
  unfold arp_frame. change (be32 dip pad) with (be32 dip [] ++ pad). rewrite (app_assoc dm).
  change (be32 sip ((dm ++ be32 dip []) ++ pad)) with (be32 sip (dm ++ be32 dip []) ++ pad). by rewrite <- !app_assoc.
Qed.
Lemma arp_frame_length d s op sm sip dm dip :
  is_mac d -> is_mac s -> is_mac sm -> is_mac dm -> length (arp_frame d s op sm sip dm dip []) = 42%nat.
Proof. intros Hd Hs Hsm Hdm. unfold arp_frame, be32, be16. rewrite !length_app, Hd, Hs, Hsm. cbn [length]. rewrite length_app, Hdm. done. Qed.

(** Operations at fixed offsets on bytes, some of them unknown. *)
Ltac bytes_eval := cbv -[Z.modulo Z.div Z.mul Z.add ntohs ntohl htons u8].

Section Frames.
Variables (d s sm dm pad : list Z) (op sip dip : Z).
Hypotheses (Hd : is_mac d) (Hs : is_mac s) (Hsm : is_mac sm) (Hdm : is_mac dm) (Hop : 0 <= op < 256)
  (Hsip : 0 <= sip < 2 ^ 32) (Hdip : 0 <= dip < 2 ^ 32).

Ltac frame_bytes :=
  destruct (is_mac_bytes _ Hd) as (? & ? & ? & ? & ? & ? & ->), (is_mac_bytes _ Hs) as (? & ? & ? & ? & ? & ? & ->),
    (is_mac_bytes _ Hsm) as (? & ? & ? & ? & ? & ? & ->), (is_mac_bytes _ Hdm) as (? & ? & ? & ? & ? & ? & ->).

Lemma arp_frame_head : (b ← buf2eth (arp_frame d s op sm sip dm dip pad); buf2arph b ETH_HDR) = Ok (arp_head d s op sm sip dm dip pad).
Proof using Hd Hs Hop.
  clear Hsm Hdm. destruct (is_mac_bytes _ Hd) as (? & ? & ? & ? & ? & ? & ->), (is_mac_bytes _ Hs) as (? & ? & ? & ? & ? & ? & ->).
  pose proof (swap16_hd 0 op [] ltac:(unfold is_byte; lia) ltac:(unfold is_byte; lia)) as H. unfold swap16_at in H. rewrite get16_hd in H. cbn [mbind res_bind] in H.
  rewrite put16_hd in H. injection H as H1 H2. bytes_eval. rewrite H1, H2. reflexivity.
Qed.
Lemma arp_head_fields : let b := arp_head d s op sm sip dm dip pad in
  get16 b 14 = Ok HTYPE_ETH /\ get16 b 16 = Ok PTYPE_IPV4 /\ get8 b 18 = Ok ETH_HLEN /\ get8 b 19 = Ok IPV4_PLEN /\ get16 b 20 = Ok op.
Proof using Hd Hs.
  clear Hsm Hdm. destruct (is_mac_bytes _ Hd) as (? & ? & ? & ? & ? & ? & ->), (is_mac_bytes _ Hs) as (? & ? & ? & ? & ? & ? & ->).
  split_and!; [reflexivity..|]. bytes_eval. f_equal. lia.
Qed.
Lemma arp_head_host : buf2arpd (arp_head d s op sm sip dm dip pad) 22 = Ok (arp_host d s op sm sip dm dip pad).
Proof using Hd Hs Hsm Hdm Hsip Hdip.
  frame_bytes. bytes_eval. rewrite !be32_bytes, !ntohl_inv by done. reflexivity.
Qed.
Lemma arp_host_fields : let b := arp_host d s op sm sip dm dip pad in
  get32 b 28 = Ok sip /\ rd_block b 22 6 = Ok sm /\ get32 b 38 = Ok dip.
Proof using Hd Hs Hsm Hdm Hsip Hdip. frame_bytes. bytes_eval. rewrite !le32_val by done. done. Qed.
Lemma arp_reply_frame m ip :
  is_mac m -> 0 <= ip < 2 ^ 32 -> arp_reply (arp_host d s op sm sip dm dip pad) m ip = Ok (arp_frame s m 2 m ip sm sip pad).
Proof using Hd Hs Hsm Hdm Hsip.
  clear Hdip. intros Hm Hip. frame_bytes. destruct (is_mac_bytes _ Hm) as (? & ? & ? & ? & ? & ? & ->).
  bytes_eval. rewrite !(le32_val sip), !(le32_val ip) by done. destruct (ntohl_bytes sip Hsip) as (-> & -> & -> & ->), (ntohl_bytes ip Hip) as (-> & -> & -> & ->). reflexivity.
Qed.
Lemma arp_frame_block : rd_block (arp_frame d s op sm sip dm dip pad) 0 42 = Ok (arp_frame d s op sm sip dm dip []).
Proof using Hd Hs Hsm Hdm.
  clear Hsip Hdip Hop. rewrite arp_frame_pad. pose proof (rd_block_at [] (arp_frame d s op sm sip dm dip []) pad) as H.
  by rewrite arp_frame_length in H.
Qed.
End Frames.

Lemma arp_request_frame f ip ip0 :
  is_mac (mac f) -> ips f !! 0%nat = Some ip0 -> 0 <= ip0 < 2 ^ 32 -> 0 <= ip < 2 ^ 32 ->
  arp_request f ip (replicate 42 0) = Ok (request (mac f) ip0 ip).
Proof.
  intros Hm Hip H0 H1. destruct (is_mac_bytes _ Hm) as (? & ? & ? & ? & ? & ? & E).
  unfold arp_request, rd. rewrite Hip, E. bytes_eval. rewrite !le32_val by done.
  destruct (ntohl_bytes ip0 H0) as (-> & -> & -> & ->), (ntohl_bytes ip H1) as (-> & -> & -> & ->). reflexivity.
Qed.

(** ** Reception *)
Section Process.
Variables (s : net) (f : netif) (ni : Z) (sz : Z) (cap : bool) (ud : nat) (ul : Z).
Hypotheses (Hf : netifs s !! Z.to_nat ni = Some f) (Hp : priv f = true) (Hsz : 42 <= sz).
Variables (d sr sm dm pad : list Z) (sip dip : Z).
Hypotheses (Hd : is_mac d) (Hs : is_mac sr) (Hsm : is_mac sm) (Hdm : is_mac dm)
  (Hsip : 0 <= sip < 2 ^ 32) (Hdip : 0 <= dip < 2 ^ 32).

(** The common part: the headers are in order. *)
Lemma arp_process_head op : op = 1 \/ op = 2 -> forall r,
  (if op =? ARP_OP_REQ then
     match ip_index (take IFACE_MAX_IPS (ips f)) dip with
     | None => Ok (-1, NB ni sz cap ud ul (arp_host d sr op sm sip dm dip pad), s)
     | Some k => (ip ← lift (rd (ips f) k); b ← lift (arp_reply (arp_host d sr op sm sip dm dip pad) (mac f) ip);
                  send (Z.to_nat ni) b arp_size;; mret (0, NB ni sz cap ud ul b)) s
     end
   else (i ← arp_cache_set_mac sip sm;
         if i <? 0 then mret (-1, NB ni sz cap ud ul (arp_host d sr op sm sip dm dip pad))
         else emit (Wakeup (ChArp i));; mret (0, NB ni sz cap ud ul (arp_host d sr op sm sip dm dip pad))) s) = r ->
  arp_process (NB ni sz cap ud ul (arp_frame d sr op sm sip dm dip pad)) s = r.
Proof using Hf Hp Hsz Hd Hs Hsm Hdm Hsip Hdip.
  intros Hop r <-. assert (Ho : 0 <= op < 256) by lia.
  pose proof (arp_frame_head d sr sm dm pad op sip dip Hd Hs Ho) as H1.
  destruct (arp_head_fields d sr sm dm pad op sip dip Hd Hs) as (F1 & F2 & F3 & F4 & F5).
  pose proof (arp_head_host d sr sm dm pad op sip dip Hd Hs Hsm Hdm Hsip Hdip) as H2.
  destruct (arp_host_fields d sr sm dm pad op sip dip Hd Hs Hsm Hdm Hsip Hdip) as (G1 & G2 & G3).
  unfold arp_process. cbn [data nic nb_size captured u_data u_len]. rewrite lift_bind. destruct (buf2eth _) as [b0|] eqn:E0; [|done].
  cbn [mbind res_bind] in H1. rewrite lift_bind, H1.
  rewrite lift_bind. change ETH_HDR with 14%nat. change ARP_HDR with 8%nat. change MAC_SIZE with 6%nat. cbn [Nat.add].
  rewrite F1, lift_bind, F2, lift_bind, F3, lift_bind, F4, lift_bind, F5. rewrite !Z.eqb_refl. cbn [andb negb].
  assert (Eo : ((op =? ARP_OP_REQ) || (op =? ARP_OP_REP))%bool = true) by (destruct Hop as [-> | ->]; reflexivity).
  rewrite Eo. cbn [negb]. rewrite (proj2 (Z.ltb_ge sz arp_size)) by (unfold arp_size; lia).
  rewrite lift_bind, H2, (st_bind_eq _ _ _ _ _ (netif_at_eq _ _ _ Hf)), Hp. cbn [negb].
  destruct (op =? ARP_OP_REQ) eqn:E1.
  - rewrite lift_bind, G3. by destruct (ip_index _ _).
  - rewrite lift_bind, G1, lift_bind, G2. reflexivity.
Qed.

Lemma net_process_arp op :
  net_process (NB ni sz cap ud ul (arp_frame d sr op sm sip dm dip pad)) s =
  ('(_, buf) ← arp_process (NB ni sz cap ud ul (arp_frame d sr op sm sip dm dip pad)); mret (0, buf)) s.
Proof using Hsz Hd Hs.
  unfold net_process. cbn [data nb_size]. rewrite lift_bind.
  assert (E : get16 (arp_frame d sr op sm sip dm dip pad) 12 = Ok (8 + 256 * 6)).
  { destruct (is_mac_bytes _ Hd) as (? & ? & ? & ? & ? & ? & ->), (is_mac_bytes _ Hs) as (? & ? & ? & ? & ? & ? & ->). reflexivity. }
  rewrite E, (proj2 (Z.ltb_ge sz (Z.of_nat ETH_HDR))) by (unfold ETH_HDR; lia). reflexivity.
Qed.

(** A request for an address of the interface is answered with its hardware address. *)
Lemma answers : is_mac (mac f) -> dip ∈ take IFACE_MAX_IPS (ips f) ->
  exists b, net_process (NB ni sz cap ud ul (arp_frame d sr ARP_OP_REQ sm sip dm dip pad)) s =
    Ok (0, b, set_events s (events s ++ [Send (Z.to_nat ni) (arp_frame sr (mac f) 2 (mac f) dip sm sip [])])).
Proof using Hf Hp Hsz Hd Hs Hsm Hdm Hsip Hdip.
  intros Hm Hin. destruct (ip_index_in _ _ Hin) as [k Hk]. exists (NB ni sz cap ud ul (arp_frame sr (mac f) 2 (mac f) dip sm sip pad)).
  rewrite net_process_arp. erewrite st_bind_eq; [|apply arp_process_head; [by left|]; rewrite Hk; change (ARP_OP_REQ =? ARP_OP_REQ) with true; cbv iota; rewrite lift_bind].
  2:{ assert (E : rd (ips f) k = Ok dip).
      { clear -Hk. apply rd_Ok. revert k Hk. generalize IFACE_MAX_IPS as n. induction (ips f) as [|x l IH]; intros n k Hk; [by destruct n|].
        destruct n; [done|]. cbn [take ip_index] in Hk. destruct (Z.eqb_spec x dip) as [->|]; [by injection Hk as <-|].
        destruct (ip_index (take n l) dip) as [k'|] eqn:E; [|done]. injection Hk as <-. by apply (IH n). }
      rewrite E, lift_bind, (arp_reply_frame d sr sm dm pad ARP_OP_REQ sip dip Hd Hs Hsm Hdm Hsip _ _ Hm Hdip).
      erewrite st_bind_eq; [reflexivity|]. unfold send. rewrite lift_bind. change (Z.to_nat arp_size) with 42%nat.
      rewrite (arp_frame_block sr (mac f) (mac f) sm pad 2 dip sip Hs Hm Hm Hsm). reflexivity. }
  reflexivity.
Qed.
End Process.
(** ** The cache *)

(** An entry after [arp_cache_check_expired]. *)
Definition aged (s : net) (e : arp_entry) : arp_entry := if expire_ts e <? now s then arp_zero else e.
Lemma set_arp_id s : set_arp s (arp_cache s) = s.
Proof. by destruct s. Qed.
Lemma visit {A} i e (k : arp_entry -> st net A) s :
  arp_cache s !! i = Some e ->
  (arp_cache_check_expired i;; e ← arp_at i; k e) s = k (aged s e) (set_arp s (<[i := aged s e]> (arp_cache s))).
Proof.
  intros He. assert (Hl : (i < length (arp_cache s))%nat) by (apply lookup_lt_is_Some; eauto).
  rewrite (st_bind_eq _ _ s tt (set_arp s (<[i := aged s e]> (arp_cache s)))).
  - unfold arp_at, rd. st_run. cbn [arp_cache set_arp]. by rewrite list_lookup_insert_eq.
  - unfold arp_cache_check_expired, arp_at, arp_put, rd, wr, aged. st_run. rewrite He. destruct (_ <? _).
    + by rewrite decide_True.
    + by rewrite list_insert_id, set_arp_id.
Qed.

(** No entry is about [ip], except the one at [j]. *)
Definition idle (ip : Z) (e : arp_entry) : Prop := a_ip e = ip -> status e = ARPC_FREE.
Definition idle_but (j : nat) (ip : Z) (l : list arp_entry) : Prop :=
  length l = ARP_CACHE_SIZE /\ forall i e, l !! i = Some e -> i <> j -> idle ip e.
Definition quiet (ip : Z) (l : list arp_entry) : Prop :=
  length l = ARP_CACHE_SIZE /\ Forall (fun e => idle ip e /\ 0 <= expire_ts e < 0xFFFFFFFF) l.
Lemma aged_idle s ip e : idle ip e -> idle ip (aged s e).
Proof. unfold aged. by destruct (_ <? _). Qed.
Lemma quiet_aged s ip l i e : quiet ip l -> l !! i = Some e -> quiet ip (<[i := aged s e]> l) /\ idle ip (aged s e) /\ expire_ts (aged s e) < 0xFFFFFFFF.
Proof.
  intros [Hl Hq] He. pose proof Hq as He'. eapply Forall_lookup_1 in He' as [Hi Hr]; [|exact He].
  assert (Ha : idle ip (aged s e) /\ 0 <= expire_ts (aged s e) < 0xFFFFFFFF).
  { split; [by apply aged_idle|]. unfold aged. destruct (_ <? _); [cbn; lia|done]. }
  split; [|split; [apply Ha|apply Ha]]. split; [by rewrite length_insert|]. by apply Forall_insert.
Qed.
Lemma idle_but_aged s j ip l i e : idle_but j ip l -> l !! i = Some e -> idle_but j ip (<[i := aged s e]> l).
Proof.
  intros [Hl Hq] He. split; [by rewrite length_insert|]. intros i' e' H Hn. apply list_lookup_insert_Some in H as [(<- & <- & _)|[_ H]]; [|by eapply Hq].
  apply aged_idle. by eapply Hq.
Qed.

Lemma get_mac_miss ip m n : forall i s, quiet ip (arp_cache s) -> (i + n <= ARP_CACHE_SIZE)%nat ->
  exists l, quiet ip l /\ get_mac_loop n i ip m s = Ok (-1, m, set_arp s l).
Proof.
  induction n as [|n IH]; intros i s Hq Hn; [exists (arp_cache s); split; [done|by rewrite set_arp_id]|].
  destruct (lookup_lt_is_Some_2 (arp_cache s) i) as [e He]; [destruct Hq; lia|].
  destruct (quiet_aged s ip _ i e Hq He) as (Hq' & Hi & _). cbn [get_mac_loop]. rewrite (visit i e _ s He).
  replace (_ && _)%bool with false; [apply (IH _ (set_arp s _)); [done|lia]|].
  destruct (Z.eqb_spec (a_ip (aged s e)) ip) as [E|]; [|by rewrite andb_false_r]. by rewrite (Hi E).
Qed.
Lemma get_mac_hit ip m m' ts j n : forall i s,
  idle_but j ip (arp_cache s) -> arp_cache s !! j = Some (Arp ip m' ARPC_SOLVED ts) -> now s <= ts -> (i <= j < i + n)%nat -> (i + n <= ARP_CACHE_SIZE)%nat ->
  exists l, get_mac_loop n i ip m s = Ok (Z.of_nat j, m', set_arp s l).
Proof.
  induction n as [|n IH]; intros i s Hq Hj Hts Hij Hn; [lia|].
  destruct (lookup_lt_is_Some_2 (arp_cache s) i) as [e He]; [destruct Hq; lia|]. cbn [get_mac_loop]. rewrite (visit i e _ s He).
  destruct (decide (i = j)) as [->|Hne].
  - assert (e = Arp ip m' ARPC_SOLVED ts) as -> by congruence. unfold aged. cbn [expire_ts]. rewrite (proj2 (Z.ltb_ge ts (now s))) by done.
    cbn [status a_ip a_mac]. rewrite bool_decide_eq_true_2, Z.eqb_refl by done. by eexists.
  - replace (_ && _)%bool with false.
    + destruct (IH (S i) (set_arp s (<[i := aged s e]> (arp_cache s)))) as [l Hl]; [by apply idle_but_aged|by cbn; rewrite list_lookup_insert_ne by done|done|lia|lia|].
      exists l. exact Hl.
    + pose proof (aged_idle s ip e (proj2 Hq _ _ He Hne)) as Hi. destruct (Z.eqb_spec (a_ip (aged s e)) ip) as [E|]; [|by rewrite andb_false_r]. by rewrite (Hi E).
Qed.
Lemma set_mac_pending ip m m0 ts j n : forall i s,
  idle_but j ip (arp_cache s) -> arp_cache s !! j = Some (Arp ip m0 ARPC_PENDING ts) -> now s <= ts -> (i <= j < i + n)%nat -> (i + n <= ARP_CACHE_SIZE)%nat ->
  exists l, idle_but j ip l /\ l !! j = Some (Arp ip m ARPC_SOLVED (now s +u ARPCE_TTL)) /\
    set_mac_loop n i ip m s = Ok (Z.of_nat j, set_arp s l).
Proof.
  induction n as [|n IH]; intros i s Hq Hj Hts Hij Hn; [lia|].
  destruct (lookup_lt_is_Some_2 (arp_cache s) i) as [e He]; [destruct Hq; lia|]. cbn [set_mac_loop]. rewrite (visit i e _ s He).
  pose proof (idle_but_aged s j ip _ i e Hq He) as Hq'. destruct (decide (i = j)) as [->|Hne].
  - assert (e = Arp ip m0 ARPC_PENDING ts) as -> by congruence. unfold aged in *. cbn [expire_ts] in *. rewrite (proj2 (Z.ltb_ge ts (now s))) in * by done.
    cbn [status a_ip]. rewrite bool_decide_eq_true_2, Z.eqb_refl by done. cbn [andb]. set (l := <[j := _]> (arp_cache s)) in *.
    exists (<[j := Arp ip m ARPC_SOLVED (now s +u ARPCE_TTL)]> l). assert (Hl : (j < length l)%nat) by (rewrite (proj1 Hq'); lia).
    split; [|split; [by rewrite list_lookup_insert_eq|]].
    + split; [rewrite length_insert; apply Hq'|]. intros i' e' H Hi'. rewrite list_lookup_insert_ne in H by done. by eapply Hq'.
    + unfold arp_put, wr. st_run. cbn [arp_cache set_arp]. by rewrite decide_True.
  - replace (_ && _)%bool with false.
    + destruct (IH (S i) (set_arp s (<[i := aged s e]> (arp_cache s)))) as (l & H1 & H2 & H3); [done|by cbn; rewrite list_lookup_insert_ne by done|done|lia|lia|].
      exists l. split; [done|]. split; [exact H2|exact H3].
    + pose proof (aged_idle s ip e (proj2 Hq _ _ He Hne)) as Hi. destruct (Z.eqb_spec (a_ip (aged s e)) ip) as [E|]; [|done]. by rewrite (Hi E).
Qed.
Lemma slot_found ip n : forall i min mid s,
  quiet ip (arp_cache s) -> (i + n <= ARP_CACHE_SIZE)%nat ->
  match mid with Some j => (j < ARP_CACHE_SIZE)%nat | None => (0 < n)%nat /\ min = 0xFFFFFFFF end ->
  exists j l, (j < ARP_CACHE_SIZE)%nat /\ quiet ip l /\ slot_loop n i min mid s = Ok (Some j, set_arp s l).
Proof.
  induction n as [|n IH]; intros i min mid s Hq Hn Hmid.
  { destruct mid as [j|]; [|lia]. exists j, (arp_cache s). split; [done|]. split; [done|]. by rewrite set_arp_id. }
  destruct (lookup_lt_is_Some_2 (arp_cache s) i) as [e He]; [destruct Hq; lia|].
  destruct (quiet_aged s ip _ i e Hq He) as (Hq' & _ & Hr). cbn [slot_loop]. rewrite (visit i e _ s He).
  destruct (bool_decide _); [exists i; eexists; split; [lia|]; by split|].
  destruct (Z.ltb_spec (expire_ts (aged s e)) min) as [Hlt|Hge].
  - apply (IH (S i) _ (Some i) (set_arp s (<[i := aged s e]> (arp_cache s)))); [done|lia|lia].
  - destruct mid as [j|]; [|destruct Hmid; lia]. apply (IH (S i) _ (Some j) (set_arp s (<[i := aged s e]> (arp_cache s)))); [done|lia|done].
Qed.
(** ** The exchange *)

(** What [arp_resolve] needs to ask for [ip]. *)
Definition asks (s : net) (f : netif) (ip ip0 : Z) : Prop :=
  netifs s !! 0%nat = Some f /\ priv f = true /\ is_mac (mac f) /\ ips f !! 0%nat = Some ip0 /\ 0 <= ip0 < 2 ^ 32 /\
  0 <= ip < 0xFFFFFFFF /\ quiet ip (arp_cache s) /\ 0 <= now s /\ now s + ARPCE_TTL < 2 ^ 32 /\
  (length (netq s) < NETQ_MAX_ITEMS)%nat /\ nomem s = false.
(** The state in which it sleeps. *)
Definition asked (s : net) (l : list arp_entry) (j : nat) (ip : Z) (req : list Z) : net :=
  let s := set_arp s (<[j := Arp ip (replicate MAC_SIZE 0) ARPC_PENDING (now s +u ARPCE_TTL_PENDING)]> l) in
  set_events s (events s ++ [Send 0 req]).

Lemma quiet_pending ip l j e : quiet ip l -> idle_but j ip (<[j := e]> l).
Proof.
  intros [Hl Hq]. split; [by rewrite length_insert|]. intros i e' H Hn. rewrite list_lookup_insert_ne in H by done.
  eapply Forall_lookup_1 in Hq; [|exact H]. apply Hq.
Qed.

Lemma arp_resolve_asks s f ip ip0 m :
  asks s f ip ip0 -> exists j l, (j < ARP_CACHE_SIZE)%nat /\ quiet ip l /\
    forall world, arp_resolve world ip m s =
      (world;; e ← arp_at j;
       if ((a_ip e =? ip) && bool_decide (status e = ARPC_SOLVED))%bool then mret (0, a_mac e) else arp_put j arp_zero;; mret (-1, m))
      (asked s l j ip (request (mac f) ip0 ip)).
Proof.
  intros (Hf & Hp & Hm & Hip & H0 & H1 & Hq & Hn0 & Hn1 & Hnq & Hmem).
  destruct (get_mac_miss ip m ARP_CACHE_SIZE 0 s Hq (Nat.le_refl _)) as (l1 & Hq1 & E1).
  destruct (slot_found ip ARP_CACHE_SIZE 0 0xFFFFFFFF None (set_arp s l1) Hq1 (Nat.le_refl _)) as (j & l2 & Hj & Hq2 & E2); [split; [unfold ARP_CACHE_SIZE; lia|done]|].
  exists j, l2. split; [done|]. split; [done|]. intros world. unfold arp_resolve. rewrite (proj2 (Z.eqb_neq ip 0xFFFFFFFF)) by lia.
  rewrite (st_bind_eq _ _ _ _ _ E1). change (0 <? -1) with false. cbv iota.
  set (nb := NB (u8 0) (u16 arp_size) false 0 0 (replicate (Z.to_nat arp_size) 0)).
  rewrite (st_bind_eq _ _ _ (Some nb) (set_arp s l1)).
  2:{ unfold net_buf_alloc, mbind, st_bind, get. cbn [netq set_arp nomem]. rewrite decide_False by lia. by rewrite Hmem. }
  rewrite (st_bind_eq _ _ _ f (set_arp s l1)) by (by apply netif_at_eq). rewrite Hp. cbn [negb data nb]. change (Z.to_nat arp_size) with 42%nat.
  rewrite lift_bind, (arp_request_frame f ip ip0 Hm Hip H0) by lia.
  rewrite (st_bind_eq _ _ _ j (set_arp s (<[j := Arp ip (replicate MAC_SIZE 0) ARPC_PENDING (now s +u ARPCE_TTL_PENDING)]> l2))).
  2:{ unfold arp_cache_set_pending. rewrite (st_bind_eq _ _ _ _ _ E2). unfold arp_put, wr. st_run. cbn [arp_cache set_arp now].
      rewrite decide_True by (destruct Hq2 as [-> _]; done). done. }
  erewrite st_bind_eq; [reflexivity|]. unfold send. rewrite lift_bind.
  assert (E : rd_block (request (mac f) ip0 ip) 0 42 = Ok (request (mac f) ip0 ip)) by (apply arp_frame_block; done).
  change (Z.to_nat arp_size) with 42%nat. rewrite E. reflexivity.
Qed.

(** The reply solves the entry that is pending. *)
Lemma reply_solves s f l j ip m m' dm dip req sz pad :
  netifs s !! 0%nat = Some f -> priv f = true -> is_mac m' -> is_mac m -> is_mac dm -> 0 <= ip < 2 ^ 32 -> 0 <= dip < 2 ^ 32 ->
  quiet ip l -> (j < ARP_CACHE_SIZE)%nat -> 0 <= now s -> now s + ARPCE_TTL < 2 ^ 32 -> 42 <= sz ->
  exists b l', idle_but j ip l' /\ l' !! j = Some (Arp ip m' ARPC_SOLVED (now s + ARPCE_TTL)) /\
    net_process (NB 0 sz false 0 0 (arp_frame m m' ARP_OP_REP m' ip dm dip pad)) (asked s l j ip req) =
    Ok (0, b, set_events (set_arp s l') (events s ++ [Send 0 req] ++ [Wakeup (ChArp (Z.of_nat j))])).
Proof.
  intros Hf Hp Hm' Hm Hdm Hip Hdip Hq Hj Hn0 Hn1 Hsz. unfold ARPCE_TTL in *.
  assert (Hlen : (j < length l)%nat) by (destruct Hq as [-> _]; done).
  destruct (set_mac_pending ip m' (replicate MAC_SIZE 0) (now s +u ARPCE_TTL_PENDING) j ARP_CACHE_SIZE 0 (asked s l j ip req)) as (l' & Q1 & Q2 & Q3).
  - by apply quiet_pending.
  - cbn [asked arp_cache set_events set_arp]. by rewrite list_lookup_insert_eq.
  - unfold asked, ARPCE_TTL_PENDING. cbn [now set_events set_arp]. rewrite u32_small by lia. lia.
  - lia.
  - done.
  - exists (NB 0 sz false 0 0 (arp_host m m' ARP_OP_REP m' ip dm dip pad)), l'. split; [done|]. split.
    { rewrite Q2. cbn [asked now set_events set_arp]. unfold ARPCE_TTL. by rewrite u32_small by lia. }
    rewrite net_process_arp by done.
    rewrite (st_bind_eq _ _ _ (0, NB 0 sz false 0 0 (arp_host m m' ARP_OP_REP m' ip dm dip pad)) (set_events (set_arp s l') (events s ++ [Send 0 req] ++ [Wakeup (ChArp (Z.of_nat j))]))); [done|].
    apply (arp_process_head _ f); [exact Hf|done|done|done|done|done|done|done|done|by right|].
    change (ARP_OP_REP =? ARP_OP_REQ) with false. cbv iota. unfold arp_cache_set_mac. rewrite (st_bind_eq _ _ _ _ _ Q3).
    rewrite (proj2 (Z.ltb_ge (Z.of_nat j) 0)) by lia. cbn [asked set_events set_arp events]. rewrite app_assoc. reflexivity.
Qed.

(** C30: Address resolution between two hosts.  [arp_resolve] sends one frame,
    written out byte for byte: to ff:ff:ff:ff:ff:ff, from the hardware address
    of the asker, type ARP, a request for Ethernet and IPv4 that names the
    asker's two addresses and the address asked for.  The host that has that
    address sends back the reply, also written out: to the asker, from its own
    hardware address, with the same fields.  When the reply arrives while the
    asker sleeps, [arp_resolve] returns the hardware address of the host, and
    the cache finds it from then on until the entry expires. *)
Theorem arp_exchange s f ip ip0 m r ni f' pad pad' :
  asks s f ip ip0 -> netifs r !! ni = Some f' -> priv f' = true -> is_mac (mac f') -> ip ∈ take IFACE_MAX_IPS (ips f') ->
  let size l := 42 + Z.of_nat (length l) in
  let req := replicate 6 0xFF ++ mac f ++ [0x08; 0x06; 0; 1; 0x08; 0x00; 6; 4; 0; 1] ++
    mac f ++ be32 ip0 (replicate 6 0 ++ be32 ip []) in
  let rep := mac f ++ mac f' ++ [0x08; 0x06; 0; 1; 0x08; 0x00; 6; 4; 0; 2] ++
    mac f' ++ be32 ip (mac f ++ be32 ip0 []) in
  (exists b, net_process (NB (Z.of_nat ni) (size pad) false 0 0 (req ++ pad)) r = Ok (0, b, set_events r (events r ++ [Send ni rep]))) /\
    let world := net_process (NB 0 (size pad') false 0 0 (rep ++ pad'));; mret tt in
    exists j s', arp_resolve world ip m s = Ok (0, mac f', s') /\
      events s' = events s ++ [Send 0 req; Wakeup (ChArp (Z.of_nat j))] /\
      forall t m1, t <= now s + ARPCE_TTL -> exists s'',
        arp_cache_get_mac ip m1 (NetS (netifs s') (netq s') (routes s') (rt_lock s') (arp_cache s') (socks s') (next_sock s') (udp_ports s')
          (tcp_ports s') t (self s') (exiting s') (nomem s') (events s')) = Ok (Z.of_nat j, mac f', s'').
Proof.
  intros Ha Gf Gp Gm Gip size req rep. pose proof Ha as (Hf & Hp & Hm & Hip & H0 & H1 & _ & Hn0 & Hn1 & _).
  change req with (request (mac f) ip0 ip). change rep with (reply (mac f') (mac f) ip ip0). clear req rep.
  set (req := request (mac f) ip0 ip). set (rep := reply (mac f') (mac f) ip ip0). assert (Hi : 0 <= ip < 2 ^ 32) by lia.
  destruct (answers r f' (Z.of_nat ni) (size pad) false 0 0 ltac:(by rewrite Nat2Z.id) Gp ltac:(unfold size; lia) (replicate 6 255) (mac f) (mac f) (replicate 6 0) pad ip0 ip
    eq_refl Hm Hm eq_refl H0 Hi Gm Gip) as [b Hb].
  split; [exists b|].
  { unfold req, request. rewrite <- arp_frame_pad. change 1 with ARP_OP_REQ. rewrite Hb, Nat2Z.id. reflexivity. }
  cbv zeta. set (world := net_process (NB 0 (size pad') false 0 0 (rep ++ pad'));; mret tt).
  destruct (arp_resolve_asks s f ip ip0 m Ha) as (j & l & Hj & Hq & Hw). exists j.
  destruct (reply_solves s f l j ip (mac f) (mac f') (mac f) ip0 req (size pad') pad' Hf Hp Gm Hm Hm Hi H0 Hq Hj Hn0 Hn1 ltac:(unfold size; lia)) as (b' & l' & Q1 & Q2 & Q3).
  assert (Eframe : rep ++ pad' = arp_frame (mac f) (mac f') ARP_OP_REP (mac f') ip (mac f) ip0 pad') by (unfold rep, reply; by rewrite <- arp_frame_pad).
  exists (set_events (set_arp s l') (events s ++ [Send 0 req] ++ [Wakeup (ChArp (Z.of_nat j))])). split; [|split; [done|]].
  - rewrite Hw. fold req. erewrite st_bind_eq; [|unfold world; rewrite Eframe; erewrite st_bind_eq; [reflexivity|exact Q3]].
    unfold arp_at, rd. st_run. cbn [arp_cache set_events set_arp]. rewrite Q2. cbn [a_ip status a_mac]. by rewrite Z.eqb_refl, bool_decide_eq_true_2 by done.
  - intros t m1 Ht. match goal with |- exists s'', arp_cache_get_mac _ _ ?q = _ => set (s1 := q) end.
    destruct (get_mac_hit ip m1 (mac f') (now s + ARPCE_TTL) j ARP_CACHE_SIZE 0 s1 Q1 Q2 Ht) as [l1 Hl]; [lia|done|]. eexists. exact Hl.
Qed.

Definition asker : net := host 0x0A000203 mac_a [] (replicate 32 arp_zero) sock_a.
Lemma arp_exchange_witness :
  let req := replicate 6 0xFF ++ mac_a ++ [8; 6; 0; 1; 8; 0; 6; 4; 0; 1] ++ mac_a ++ [10; 0; 2; 3; 0; 0; 0; 0; 0; 0; 10; 0; 2; 2] in
  let rep := mac_a ++ mac_b ++ [8; 6; 0; 1; 8; 0; 6; 4; 0; 2] ++ mac_b ++ [10; 0; 2; 2] ++ mac_a ++ [10; 0; 2; 3] in
  (exists b, net_process (NB 0 60 false 0 0 (req ++ replicate 18 0)) host_b = Ok (0, b, set_events host_b [Send 0 rep])) /\
    exists s', arp_resolve (net_process (NB 0 60 false 0 0 (rep ++ replicate 18 0));; mret tt) 0x0A000202 [] asker = Ok (0, mac_b, s').
Proof.
  destruct (arp_exchange asker (NetIf 0 mac_a [0x0A000203; 0; 0; 0] true) 0x0A000202 0x0A000203 [] host_b 0 (NetIf 0 mac_b [0x0A000202; 0; 0; 0] true)
    (replicate 18 0) (replicate 18 0)) as (H1 & j & s' & H2 & _).
  - unfold asks, quiet. split_and!; try reflexivity; try (cbn; lia); [|unfold NETQ_MAX_ITEMS; cbn; lia].
    repeat constructor; cbn; try lia.
  - reflexivity.
  - reflexivity.
  - reflexivity.
  - set_solver.
  - split; [exact H1|]. exists s'. exact H2.
Defined.
End NetArp.
