(* ===== verification/NetIcmp.v ===== *)
(** * The echo of ICMP

    What [icmpv4_process] and [icmpv4_echo_reply] (src/icmp.c) make of an echo
    request that the IP layer accepts. *)
From S2P Require Import Prelude CString Bmap Net NetWire NetSpec.

Module NetIcmp.
Import Net NetWire NetSpec.

Lemma prefix_reads {A} (g : list Z -> nat -> res A) (e x : list Z) (o n : nat) :
  reads g -> length e = o -> g (e ++ x) (o + n)%nat = g x n.
Proof. intros Hg <-. apply Hg. Qed.

Lemma ip_fields e h r : ip_wf h -> ip_len (e ++ host_ip h r) (length e) = Ok (h_len h) /\
  ip_saddr (e ++ host_ip h r) (length e) = Ok (h_saddr h) /\ ip_daddr (e ++ host_ip h r) (length e) = Ok (h_daddr h).
Proof.
  intros (H1 & H2 & H3 & H4 & H5 & H6 & H7 & H8 & H9 & H10 & H11 & H12). unfold ip_len, ip_saddr, ip_daddr, host_ip, le32, le16.
  split_and!; frame_ops; [by rewrite le16_val|by rewrite le32_val..].
Qed.
Lemma ip_data_host e h r : ip_wf h -> h_ihl h = 5 -> ip_data (e ++ host_ip h r) (length e) = Ok (length (e ++ host_ip h [])).
Proof. intros Hw Hi. unfold ip_data. rewrite ihl_host, Hi by done. cbn [mbind res_bind]. f_equal. by rewrite length_app. Qed.
Lemma host_ip_app e h r : e ++ host_ip h r = (e ++ host_ip h []) ++ r.
Proof. by rewrite <- app_assoc. Qed.
Lemma net_ip_bytes h : ip_wf h -> Forall is_byte (net_ip h []).
Proof.
  unfold ip_wf, net_ip, be32, be16, is_byte. intros Hw. rewrite !Forall_cons. split_and!; try apply Forall_nil_2; try lia; apply Z.mod_pos_bound; lia.
Qed.

(** The header of the reply and its checksum. *)
Definition back (h : iphdr) (cs : Z) : iphdr :=
  IPH (h_version h) (h_ihl h) (h_tos h) (h_len h) (h_id h) (h_flags h) (h_frag h) 64 (h_proto h) cs (h_daddr h) (h_saddr h).
Definition back_cs (h : iphdr) : Z := 65535 - rep (wsum (net_ip (back h 0) [])).
Definition answer (h : iphdr) : iphdr := back h (ntohs (back_cs h)).
Lemma back_wf h cs : ip_wf h -> 0 <= cs < 65536 -> ip_wf (back h cs).
Proof. unfold ip_wf, back, is_byte. cbn [h_version h_ihl h_tos h_len h_id h_flags h_frag h_ttl h_proto h_csum h_saddr h_daddr]. lia. Qed.
Lemma back_cs_range h : ip_wf h -> 0 <= back_cs h < 65536.
Proof.
  intros Hw. pose proof (net_ip_bytes _ (back_wf h 0 Hw ltac:(lia))) as Hb. pose proof (wsum_bound _ Hb).
  pose proof (rep_range (wsum (net_ip (back h 0) [])) ltac:(lia)). unfold back_cs. lia.
Qed.
Lemma back_header h : csum_of (net_ip (back h 0) []) = Ok (back_cs h) -> ip_wf h -> csum_of (net_ip (answer h) []) = Ok 0.
Proof.
  intros Hc Hw. pose proof (net_ip_bytes _ (back_wf h 0 Hw ltac:(lia))) as Hb. pose proof (back_cs_range h Hw) as Hr.
  set (pre := firstn 10 (net_ip (back h 0) [])). set (post := be32 (h_daddr h) (be32 (h_saddr h) [])).
  assert (E0 : net_ip (back h 0) [] = pre ++ 0 :: 0 :: post) by reflexivity.
  assert (E1 : net_ip (answer h) [] = pre ++ back_cs h mod 256 :: back_cs h / 256 :: post).
  { unfold answer, back, net_ip. cbn [h_version h_ihl h_tos h_len h_id h_flags h_frag h_ttl h_proto h_csum h_saddr h_daddr].
    rewrite be16_ntohs by done. unfold le16. rewrite (Z.mod_small (back_cs h / 256)) by (split; [apply Z.div_pos; lia|apply Z.div_lt_upper_bound; lia]). reflexivity. }
  rewrite E1. rewrite E0 in Hb, Hc. apply csum_stored; [exact Hb|cbn; lia|by exists 5%nat|done].
Qed.

Section Echo.
Variables (d s m : list Z) (h : iphdr) (code x y : Z) (rest pad : list Z).
Hypotheses (Hd : length d = 6%nat) (Hs : length s = 6%nat) (Hm : length m = 6%nat) (Hw : ip_wf h) (Hv : h_version h = 4) (Hi : h_ihl h = 5)
  (Hlen : h_len h = 20 + Z.of_nat (length (8 :: code :: x :: y :: rest)))
  (Hb : Forall is_byte (8 :: code :: x :: y :: rest)).

(** The message of the reply. *)
Definition echo_sum : Z := 65535 - rep (wsum (0 :: 0 :: 0 :: 0 :: rest)).
Definition echo : list Z := 0 :: 0 :: le16 echo_sum rest.

Lemma echo_bytes : Forall is_byte (0 :: 0 :: 0 :: 0 :: rest) /\ csum_of (0 :: 0 :: 0 :: 0 :: rest) = Ok echo_sum /\ 0 <= echo_sum < 65536 /\ csum_of echo = Ok 0.
Proof using Hb Hlen Hw.
  clear Hd Hs Hm Hv Hi. assert (Hz : Forall is_byte (0 :: 0 :: 0 :: 0 :: rest)).
  { do 4 (apply Forall_cons in Hb as [_ Hb]). rewrite !Forall_cons. unfold is_byte. split_and!; (done || lia). }
  assert (Hl : Z.of_nat (length (0 :: 0 :: 0 :: 0 :: rest)) <= 65535).
  { assert (0 <= h_len h < 65536) by apply Hw. cbn [length] in *. lia. }
  assert (E : csum_of (0 :: 0 :: 0 :: 0 :: rest) = Ok echo_sum) by (by apply csum_of_rep). split; [done|]. split; [done|].
  destruct (csum_stored [0; 0] rest echo_sum Hz Hl ltac:(by exists 1%nat) E) as [Hr H]. split; [done|].
  unfold echo, le16. rewrite (Z.mod_small (echo_sum / 256)) by (split; [apply Z.div_pos; lia|apply Z.div_lt_upper_bound; lia]). exact H.
Qed.

(** The headers, from the processor's order to the network's. *)
Lemma reply_headers e r (k : list Z -> res (list Z)) :
  (dip ← ip_daddr (e ++ host_ip h r) (length e); sip ← ip_saddr (e ++ host_ip h r) (length e);
   b ← put32 (e ++ host_ip h r) (length e + 16) sip; b ← put32 b (length e + 12) dip; b ← put8 b (length e + 8) 64; b ← put16 b (length e + 10) 0;
   b ← ipv42buf b (length e); hlen ← iphlen b (length e); cs ← ip_csum b (length e) hlen; b ← put16 b (length e + 10) cs; k b) =
  k (e ++ net_ip (answer h) r).
Proof using Hw Hv Hi.
  clear Hd Hs Hm Hlen Hb. destruct (ip_fields e h r Hw) as (_ & Es & Ed). rewrite Ed. cbn [mbind res_bind]. rewrite Es. cbn [mbind res_bind].
  pose proof (back_wf h 0 Hw ltac:(lia)) as Hw0. pose proof (back_cs_range h Hw) as Hr.
  assert (E1 : forall g : list Z -> res (list Z), (b ← put32 (e ++ host_ip h r) (length e + 16) (h_saddr h); b ← put32 b (length e + 12) (h_daddr h); b ← put8 b (length e + 8) 64; b ← put16 b (length e + 10) 0; g b) =
    g (e ++ host_ip (back h 0) r)).
  { intros g. unfold host_ip, back. cbn [h_version h_ihl h_tos h_len h_id h_flags h_frag h_ttl h_proto h_csum h_saddr h_daddr].
    unfold le32, le16. frame_ops. reflexivity. }
  rewrite E1, ipv42buf_host by done. cbn [mbind res_bind]. rewrite iphlen_net by done. cbn [mbind res_bind].
  assert (E2 : csum_of (net_ip (back h 0) []) = Ok (back_cs h)) by (apply csum_of_rep; [by apply net_ip_bytes|cbn; lia]).
  assert (E4 : ip_csum (e ++ net_ip (back h 0) r) (length e) 20 = Ok (back_cs h)).
  { unfold ip_csum. pose proof (rd_block_at e (net_ip (back h 0) []) r) as E. change (length (net_ip (back h 0) [])) with 20%nat in E.
    change (Z.to_nat 20) with 20%nat. change (net_ip (back h 0) [] ++ r) with (net_ip (back h 0) r) in E. by rewrite E. }
  rewrite E4. cbn [mbind res_bind].
  assert (E3 : put16 (e ++ net_ip (back h 0) r) (length e + 10) (back_cs h) = Ok (e ++ net_ip (answer h) r)).
  { unfold answer, net_ip, back. cbn [h_version h_ihl h_tos h_len h_id h_flags h_frag h_ttl h_proto h_csum h_saddr h_daddr].
    rewrite be16_ntohs by done. unfold be16, le16, be32. frame_ops. reflexivity. }
  by rewrite E3.
Qed.

Lemma echo_frame_eq : echo_frame (eth_hdr d s 0 8 ++ host_ip h (8 :: code :: y :: x :: rest ++ pad)) m = Ok (eth_hdr s m 8 0 ++ net_ip (answer h) (echo ++ pad)).
Proof using Hd Hs Hm Hw Hv Hi Hlen Hb.
  destruct echo_bytes as (Hz & Ez & Hr & _). set (e := eth_hdr d s 0 8). assert (He : length e = ETH_HDR) by (by apply eth_length).
  unfold echo_frame. cbv zeta. rewrite <- He, ip_data_host by done. cbn [mbind res_bind]. rewrite (host_ip_app e h (8 :: _)). set (q := e ++ host_ip h []).
  assert (E1 : forall g : list Z -> res (list Z), (b ← put8 (q ++ 8 :: code :: y :: x :: rest ++ pad) (length q) ICMP_T_ECHO_REPLAY; b ← put8 b (length q + 1) 0;
    b ← put16 b (length q + 2) 0; b ← icmpv42buf b (length q); g b) = g (q ++ (0 :: 0 :: 0 :: 0 :: rest) ++ pad)).
  { intros g. rewrite (at_0 (fun b o => put8 b o ICMP_T_ECHO_REPLAY)). unfold icmpv42buf. cbn [app]. frame_ops. reflexivity. }
  rewrite E1.
  assert (El : ip_len (q ++ (0 :: 0 :: 0 :: 0 :: rest) ++ pad) (length e) = Ok (h_len h)) by (unfold q; rewrite <- host_ip_app; by apply ip_fields).
  rewrite El. cbn [mbind res_bind].
  assert (Hil : icmp_len (h_len h) = Z.of_nat (length (0 :: 0 :: 0 :: 0 :: rest))).
  { assert (0 <= h_len h < 65536) by apply Hw. unfold icmp_len, IP_HDR. rewrite Hlen in *. cbn [length] in *. rewrite u32_small, s32_small by lia. lia. }
  assert (E2 : ip_csum (q ++ (0 :: 0 :: 0 :: 0 :: rest) ++ pad) (length q) (icmp_len (h_len h)) = Ok echo_sum).
  { unfold ip_csum. rewrite Hil, Nat2Z.id, rd_block_at. cbn [mbind res_bind]. exact Ez. }
  rewrite E2. cbn [mbind res_bind].
  assert (E3 : put16 (q ++ (0 :: 0 :: 0 :: 0 :: rest) ++ pad) (length q + 2) echo_sum = Ok (q ++ echo ++ pad)).
  { unfold echo, le16. cbn [app]. frame_ops. reflexivity. }
  rewrite E3. cbn [mbind res_bind]. unfold q. rewrite <- host_ip_app, reply_headers.
  unfold e, eth_hdr, move. rewrite <- !app_assoc.
  assert (E4 : forall r, rd_block (d ++ s ++ r) 6 MAC_SIZE = Ok s) by (intros r; pose proof (rd_block_at d s r) as E; by rewrite Hd, Hs in E).
  rewrite E4. cbn [mbind res_bind].
  assert (E5 : forall r, wr_block (d ++ r) 0 s = Ok (s ++ r)) by (intros r; apply (wr_block_over [] d s r); by rewrite Hs).
  rewrite E5. cbn [mbind res_bind].
  assert (E6 : forall r, wr_block (s ++ s ++ r) 6 m = Ok (s ++ m ++ r)) by (intros r; pose proof (wr_block_over s s m r) as E; rewrite Hs, Hm in E; by apply E).
  rewrite E6. cbn [mbind res_bind]. unfold eth2buf. pose proof (eth_swap s m) as E. unfold eth_hdr in E.
  rewrite (app_assoc m), (app_assoc s), E by (done || (unfold is_byte; lia)). by rewrite <- !app_assoc.
Qed.
End Echo.
Section Received.
Variables (r : net) (j : nat) (ni : Z) (c : bool) (u : nat) (ul : Z) (f : netif) (d s : list Z) (h : iphdr) (type code x y : Z) (rest pad : list Z).
Let msg : list Z := type :: code :: x :: y :: rest.
Hypotheses (Hd : length d = 6%nat) (Hs : length s = 6%nat) (Hm : length (mac f) = 6%nat) (Hj : Z.to_nat ni = j) (Hf : netifs r !! j = Some f)
  (Hacc : ip_accepts f h) (Hp : h_proto h = IP_P_ICMP) (Hlen : h_len h = 20 + Z.of_nat (length msg)) (Hb : Forall is_byte msg).

Lemma icmpv4_process_eq sz :
  icmpv4_process (NB ni sz c u ul (eth_hdr d s 0 8 ++ host_ip h (msg ++ pad))) r =
  (csum ← lift (csum_of msg);
   if negb (csum =? 0) then mret (-1, NB ni sz c u ul (eth_hdr d s 0 8 ++ host_ip h (msg ++ pad)))
   else let b := eth_hdr d s 0 8 ++ host_ip h (type :: code :: y :: x :: rest ++ pad) in
     if type =? ICMP_T_ECHO_REQUEST
     then b ← icmpv4_echo_reply (NB ni sz c u ul b); mret (0, NB ni sz c u ul b) else mret (0, NB ni sz c u ul b)) r.
Proof using Hd Hs Hlen Hb Hacc.
  clear Hm Hj Hf Hp. destruct Hacc as (Hw & Hv & Hi & _). set (e := eth_hdr d s 0 8). assert (He : length e = ETH_HDR) by (by apply eth_length).
  unfold icmpv4_process. cbv zeta. cbn [data]. rewrite <- He, lift_bind, ip_data_host by done.
  destruct (ip_fields e h (msg ++ pad) Hw) as (El & _ & _). rewrite lift_bind, El.
  assert (Hil : icmp_len (h_len h) = Z.of_nat (length msg)).
  { assert (0 <= h_len h < 65536) by apply Hw. unfold icmp_len, IP_HDR. rewrite Hlen in *. cbn [length] in *. rewrite u32_small, s32_small by lia. lia. }
  assert (E2 : ip_csum (e ++ host_ip h (msg ++ pad)) (length (e ++ host_ip h [])) (icmp_len (h_len h)) = csum_of msg).
  { unfold ip_csum. rewrite Hil, Nat2Z.id, host_ip_app, rd_block_at. done. }
  rewrite lift_bind, E2. rewrite (csum_of_rep msg Hb) by (assert (0 <= h_len h < 65536) by apply Hw; lia). rewrite lift_bind.
  destruct (negb _); [done|]. assert (E3 : buf2icmpv4 (e ++ host_ip h (msg ++ pad)) (length (e ++ host_ip h [])) = Ok (e ++ host_ip h (type :: code :: y :: x :: rest ++ pad))).
  { rewrite (host_ip_app e h (msg ++ pad)), (host_ip_app e h (type :: _)). unfold buf2icmpv4, msg. cbn [app].
    do 2 (apply Forall_cons in Hb as [_ Hb]). apply Forall_cons in Hb as [Hx Hb]. apply Forall_cons in Hb as [Hy _].
    rewrite swap16_app, !swap16_S, swap16_hd by done. reflexivity. }
  rewrite lift_bind, E3, lift_bind.
  assert (E4 : get8 (e ++ host_ip h (type :: code :: y :: x :: rest ++ pad)) (length (e ++ host_ip h [])) = Ok type).
  { rewrite host_ip_app. apply get8_here. }
  rewrite E4. unfold set_data. cbn [nic nb_size captured u_data u_len]. cbv zeta. by destruct (type =? ICMP_T_ECHO_REQUEST).
Qed.
End Received.

Lemma frame_lengths d s m h code x y rest pad :
  length d = 6%nat -> length s = 6%nat -> length m = 6%nat ->
  let frame := eth_hdr d s 8 0 ++ net_ip h ((ICMP_T_ECHO_REQUEST :: code :: x :: y :: rest) ++ pad) in
  length frame = length (eth_hdr s m 8 0 ++ net_ip (answer h) (echo rest ++ pad)) /\ 14 <= Z.of_nat (length frame).
Proof. intros Hd Hs Hm frame. unfold frame. rewrite !length_app, !eth_length by done. unfold ETH_HDR. split; [done|lia]. Qed.
Lemma answer_accepted h f f' : ip_accepts f h -> h_saddr h ∈ take IFACE_MAX_IPS (ips f') -> ip_accepts f' (answer h).
Proof.
  intros (Hw & Hv & Hi & _) Hin. pose proof (back_cs_range h Hw) as Hr.
  split; [apply back_wf; [done|by apply ntohs_range]|]. do 2 (split; [done|]). split; [done|]. split; [|by right].
  apply back_header; [|done]. apply csum_of_rep; [apply net_ip_bytes, back_wf; (done || lia)|cbn; lia].
Qed.
(** A reply is only taken note of. *)
Lemma reply_received r j f d s h rest pad :
  length d = 6%nat -> length s = 6%nat -> netifs r !! j = Some f -> ip_accepts f h -> h_proto h = IP_P_ICMP ->
  h_len h = 20 + Z.of_nat (length (echo rest)) -> Forall is_byte (echo rest) -> csum_of (echo rest) = Ok 0 ->
  let frame := eth_hdr d s 8 0 ++ net_ip h (echo rest ++ pad) in
  exists b, net_process (NB (Z.of_nat j) (Z.of_nat (length frame)) false 0 0 frame) r = Ok (0, b, r).
Proof.
  intros Hd Hs Hf Ha Hp Hl Hb Hc frame. unfold frame. assert (Hge : 14 <= Z.of_nat (length frame)).
  { unfold frame. rewrite !length_app, !eth_length by done. unfold ETH_HDR. lia. }
  rewrite (net_process_ip d s h (echo rest ++ pad) r j (Z.of_nat j) _ false 0 0 f) by (done || exact Hge || apply Nat2Z.id).
  rewrite Hp. change (IP_P_ICMP =? IP_P_ICMP) with true. cbv iota.
  rewrite (icmpv4_process_eq r (Z.of_nat j) false 0 0 f d s h 0 0 _ _ rest pad Hd Hs Ha Hl Hb), lift_bind. change (csum_of (0 :: 0 :: _)) with (csum_of (echo rest)). rewrite Hc. by eexists.
Qed.

(** C31: An echo request that the IP layer accepts and whose checksum is right is
    answered with one frame: the hardware and the IP addresses are exchanged, the
    type is that of a reply, the data is the same; both checksums of the reply
    are right, and the host that asked accepts it and sends nothing.  With a
    wrong checksum nothing happens. *)
Theorem icmp_echo r j f d s h code x y rest pad :
  let msg := ICMP_T_ECHO_REQUEST :: code :: x :: y :: rest in
  length d = 6%nat -> length s = 6%nat -> length (mac f) = 6%nat -> netifs r !! j = Some f -> ip_accepts f h ->
  h_proto h = IP_P_ICMP -> h_len h = 20 + Z.of_nat (length msg) -> Forall is_byte msg ->
  let buf frame j := NB (Z.of_nat j) (Z.of_nat (length frame)) false 0 0 frame in
  let ans := eth_hdr s (mac f) 8 0 ++ net_ip (answer h) (echo rest ++ pad) in
  exists b, net_process (buf (eth_hdr d s 8 0 ++ net_ip h (msg ++ pad)) j) r =
      Ok (0, b, if bool_decide (csum_of msg = Ok 0) then set_events r (events r ++ [Send j ans]) else r) /\
    csum_of (echo rest) = Ok 0 /\
    forall r' j' f', netifs r' !! j' = Some f' -> h_saddr h ∈ take IFACE_MAX_IPS (ips f') ->
      ip_accepts f' (answer h) /\ exists b', net_process (buf ans j') r' = Ok (0, b', r').
Proof.
  intros msg Hd Hs Hm Hf Hacc Hp Hlen Hb buf ans. pose proof Hacc as (Hw & Hv & Hi & _).
  destruct (echo_bytes h code x y rest Hw Hlen Hb) as (_ & _ & Hr & Hz).
  set (frame := eth_hdr d s 8 0 ++ net_ip h (msg ++ pad)). destruct (frame_lengths d s (mac f) h code x y rest pad Hd Hs Hm) as [El Hge]. fold msg ans frame in El, Hge.
  cut (exists b, net_process (buf frame j) r = Ok (0, b, if bool_decide (csum_of msg = Ok 0) then set_events r (events r ++ [Send j ans]) else r)).
  { intros [b Hb']. exists b. split; [exact Hb'|]. split; [exact Hz|]. intros r' j' f' Hf' Hin. assert (Ha := answer_accepted h f f' Hacc Hin). split; [exact Ha|].
    eapply (reply_received r' j' f' s (mac f) (answer h)); try done.
    apply Forall_cons. split; [unfold is_byte; lia|]. apply Forall_cons. split; [unfold is_byte; lia|]. apply (byte_fields _ rest).
    by do 4 (apply Forall_cons in Hb as [_ Hb]). }
  unfold buf, frame. rewrite (net_process_ip d s h (msg ++ pad) r j (Z.of_nat j) _ false 0 0 f) by (done || exact Hge || apply Nat2Z.id).
  rewrite Hp. change (IP_P_ICMP =? IP_P_ICMP) with true. cbv iota.
  fold frame. unfold msg at 1. rewrite (icmpv4_process_eq r (Z.of_nat j) false 0 0 f d s h _ code x y rest pad Hd Hs Hacc Hlen Hb), lift_bind. fold msg.
  assert (Hc : csum_of msg = Ok (65535 - rep (wsum msg))) by (apply csum_of_rep; [done|]; assert (0 <= h_len h < 65536) by apply Hw; lia).
  rewrite Hc. destruct (Z.eqb_spec (65535 - rep (wsum msg)) 0) as [-> |Hn]; cbn [negb].
  - rewrite bool_decide_eq_true_2 by done. cbv zeta. change (ICMP_T_ECHO_REQUEST =? ICMP_T_ECHO_REQUEST) with true. cbv iota.
    erewrite st_bind_eq; [eexists; reflexivity|]. unfold icmpv4_echo_reply. cbn [nic data nb_size]. rewrite Nat2Z.id, (st_bind_eq _ _ _ _ _ (netif_at_eq _ _ _ Hf)), lift_bind.
    change (echo_frame _ _) with (echo_frame (eth_hdr d s 0 8 ++ host_ip h (8 :: code :: y :: x :: rest ++ pad)) (mac f)).
    rewrite (echo_frame_eq d s (mac f) h code x y rest pad) by done. fold ans. erewrite st_bind_eq; [reflexivity|].
    unfold send. rewrite lift_bind, Nat2Z.id, El. pose proof (rd_block_at [] ans []) as E. rewrite app_nil_r in E. cbn [app length] in E. by rewrite E.
  - rewrite bool_decide_eq_false_2 by congruence. by eexists.
Qed.

(** A ping with two bytes of data. *)
Definition ping : list Z := [8; 0; 0x94; 0xD8; 0x12; 0x34; 0; 1; 0x50; 0xF2].
Definition ping_header : iphdr := IPH 4 5 0 30 7 2 0 64 IP_P_ICMP 0x22D4 0x0A000203 0x0A000202.
Lemma icmp_echo_witness : exists b b' f,
  net_process (NB 0 44 false 0 0 (eth_hdr mac_b mac_a 8 0 ++ net_ip ping_header ping)) host_b = Ok (0, b, set_events host_b [Send 0 f]) /\
  net_process (NB 0 44 false 0 0 f) host_a = Ok (0, b', host_a).
Proof.
  destruct (icmp_echo host_b 0 (NetIf 0 mac_b [0x0A000202; 0; 0; 0] true) mac_b mac_a ping_header 0 0x94 0xD8 [0x12; 0x34; 0; 1; 0x50; 0xF2] [])
    as (b & H1 & _ & H2); [reflexivity|reflexivity|reflexivity|reflexivity| | | | |].
  - unfold ip_accepts, ip_wf, is_byte. split_and!; try (unfold ping_header, IP_P_ICMP; cbn; lia); [vm_compute; reflexivity|]. right. set_solver.
  - reflexivity.
  - reflexivity.
  - repeat (apply Forall_cons; split; [unfold is_byte, ICMP_T_ECHO_REQUEST; lia|]). apply Forall_nil_2.
  - destruct (H2 host_a 0%nat (NetIf 0 mac_a [0x0A000203; 0; 0; 0] true)) as [_ [b' H3]]; [reflexivity|apply list_elem_of_here|].
    exists b, b'. eexists. split; [exact H1|exact H3].
Defined.
End NetIcmp.
