(* ===== verification/Dns.v ===== *)
(** * The DNS client

    src/dns.c: names in the format of messages, headers, the query that is sent
    over a UDP socket of Net.v and the answers that are read back.  A message is
    the array [buf] of 512 bytes, a pointer into it the offset; [junk] is what an
    uninitialised variable holds.  The memory that answers occupy is not
    modelled; [nomem] of the state says whether allocations fail. *)
From S2P Require Import Prelude CString Bmap Net.

Module Dns.
Import Net.

Definition MAX_DNS_SERVERS : nat := 4.
Definition DNS_SRV_PORT : Z := 53.
Definition DNS_HDR : nat := 12.
Definition DNS_QUERY : nat := 4.
Definition DNS_BUF : nat := 512.
Definition DNS_T_A : Z := 1.
Definition DNS_T_NS : Z := 2.
Definition DNS_T_CNAME : Z := 5.
Definition DNS_T_MX : Z := 15.
Definition DNS_T_TXT : Z := 16.
Definition DNS_C_IN : Z := 1.
Definition DNS_RC_OK : Z := 0.

(** The table of servers. *)
Definition dns_add (servers : list Z) (ip : Z) : Z * list Z :=
  match ip_index (take MAX_DNS_SERVERS servers) 0 with
  | Some i => (0, <[i := ip]> servers)
  | None => (-1, servers)
  end.

(** ** Names *)

(** The loop of [host2dns_name]: [host] is what is left of the string, [b] the
    offset of [buf], [i] the length of the current label. *)
Fixpoint host2dns_loop (host buf : list Z) (b i : nat) (size : Z) : res (list Z * nat * Z) :=
  if size <=? 2 then Ok (buf, b, size)
  else match host with
       | [] => Err EOob
       | c :: host =>
           if c =? 0 then buf ← wr buf (b - (i + 1)) (u8 (Z.of_nat i)); Ok (buf, b, size)
           else if c =? 46 then
             buf ← wr buf (b - (i + 1)) (u8 (Z.of_nat i)); host2dns_loop host buf (S b) 0 (size -u 1)
           else buf ← wr buf b c; host2dns_loop host buf (S b) (S i) (size -u 1)
       end.
(** The name is written from [q] on; the result is the code and the buffer. *)
Definition host2dns_name (host buf : list Z) (q : nat) (size : Z) : res (Z * list Z) :=
  l ← strlen (Some host);
  if size <=? l +u 2 then Ok (-1, buf)
  else
    '(buf, b, size) ← host2dns_loop host buf (S q) 0 size;
    buf ← wr buf b 0;
    Ok (s32 (size -u 2), buf).

(** [*s], for a pointer that may be in front of the message. *)
Definition char_at (m : list Z) (s : Z) : res Z := if s <? 0 then Err EOob else rd m (Z.to_nat s).
(** [buf[i++] = c], where [out] holds the first [i] bytes of the [size] ones. *)
Definition push (out : list Z) (size c : Z) : res (list Z) :=
  if Z.of_nat (length out) <? size then Ok (out ++ [c]) else Err EOob.
Fixpoint copy_label (n : nat) (m : list Z) (s size : Z) (out : list Z) : res (Z * list Z) :=
  match n with
  | O => Ok (s, out)
  | S n' =>
      if Z.of_nat (length out) <? size
      then c ← char_at m s; out ← push out size c; copy_label n' m (s + 1) size out
      else Ok (s, out)
  end.
(** The loop of [dns2host_name]; the offset of a compressed name is a [char]. *)
Fixpoint dns2host_loop (fuel : nat) (nomem : bool) (m : list Z) (dns_size s n size : Z) (out : list Z) : res (option (list Z)) :=
  match fuel with
  | O => Err EFuel
  | S fuel =>
      c ← char_at m s;
      if ((c =? 0) || (dns_size <=? s))%bool then _ ← push out size 0; Ok (Some out)
      else
        out ← (if 0 <? n then push out size 46 else Ok out);
        let n := c in let s := s + 1 in
        if n =? 0xc0 then
          o ← char_at m s; dns2host_loop fuel nomem m dns_size (s8 o) 0 size out
        else
          let grow := size - Z.of_nat (length out) - 1 <=? n in
          if (grow && nomem)%bool then Ok None
          else
            let size := if grow then size * 2 else size in
            '(s, out) ← copy_label (Z.to_nat n) m s size out;
            dns2host_loop fuel nomem m dns_size s n size out
  end.
(** A label for every byte of the message is enough for a name that ends. *)
Definition dns2host_name (nomem : bool) (m : list Z) (dns_size s : Z) : res (option (list Z)) :=
  if nomem then Ok None else dns2host_loop (S (length m)) nomem m dns_size s 0 32 [].

(** ** Headers *)

(** The bit-fields of the second word, the low bits first. *)
Definition field (w lo n : Z) : Z := Z.land (Z.shiftr w lo) (Z.ones n).
Definition with_field (w lo n v : Z) : Z := Z.lor (Z.ldiff w (Z.shiftl (Z.ones n) lo)) (Z.shiftl (Z.land v (Z.ones n)) lo).
Definition dns2buf (b : list Z) : res (list Z) :=
  b ← swap16_at b 0; b ← swap16_at b 4; b ← swap16_at b 6; b ← swap16_at b 8; b ← swap16_at b 10;
  w ← get16 b 2;
  let flags := u16 (Z.lor (Z.lor (Z.lor (Z.lor (Z.lor (Z.lor (Z.lor (Z.lor (Z.lor
      (Z.shiftl (field w 0 1) 15) (Z.shiftl (field w 1 4) 11)) (Z.shiftl (field w 5 1) 10)) (Z.shiftl (field w 6 1) 9))
      (Z.shiftl (field w 7 1) 8)) (Z.shiftl (field w 8 1) 7)) (Z.shiftl (field w 9 1) 6)) (Z.shiftl (field w 10 1) 5))
      (Z.shiftl (field w 11 1) 4)) (field w 12 4)) in
  put16 b 2 (htons flags).
Definition buf2dns (b : list Z) : res (list Z) :=
  b ← swap16_at b 0; b ← swap16_at b 4; b ← swap16_at b 6; b ← swap16_at b 8; b ← swap16_at b 10;
  w ← get16 b 2;
  let flags := ntohs w in
  let w := with_field w 0 1 (Z.shiftr (Z.land flags (Z.shiftl 1 15)) 15) in
  let w := with_field w 1 4 (Z.shiftr (Z.land flags 0x7800) 11) in
  let w := with_field w 5 1 (Z.shiftr (Z.land flags (Z.shiftl 1 10)) 10) in
  let w := with_field w 6 1 (Z.shiftr (Z.land flags (Z.shiftl 1 9)) 9) in
  let w := with_field w 7 1 (Z.shiftr (Z.land flags (Z.shiftl 1 8)) 8) in
  let w := with_field w 8 1 (Z.shiftr (Z.land flags (Z.shiftl 1 7)) 7) in
  let w := with_field w 9 1 (Z.shiftr (Z.land flags (Z.shiftl 1 6)) 6) in
  let w := with_field w 10 1 (Z.shiftr (Z.land flags (Z.shiftl 1 5)) 5) in
  let w := with_field w 11 1 (Z.shiftr (Z.land flags (Z.shiftl 1 4)) 4) in
  let w := with_field w 12 4 (Z.land flags 0xF) in
  put16 b 2 w.
Definition rcode (b : list Z) : res Z := w ← get16 b 2; Ok (field w 12 4).
Definition buf2query (b : list Z) (q : nat) : res (list Z) := b ← swap16_at b (q + 2); swap16_at b q.

(** ** Answers *)
Inductive rdata := NoData | Ip (ip : Z) | Name (name : option (list Z)).
Record dns_answer := Answer { an_name : option (list Z); an_type : Z; an_class : Z; an_ttl : Z; an_prio : Z; an_r : rdata }.

Definition has_name (type : Z) : bool := ((type =? DNS_T_MX) || (type =? DNS_T_NS) || (type =? DNS_T_CNAME) || (type =? DNS_T_TXT))%bool.
(** One round of the loop of [dns_parse_response]: the answer at [p] and the
    offset of the next one. *)
Definition parse_answer (nomem : bool) (m : list Z) (len : Z) (p : nat) : res (dns_answer * nat) :=
  name ← dns2host_name nomem m len (Z.of_nat p);
  type ← get16 m (p + 2); class ← get16 m (p + 4); ttl ← get32 m (p + 6); dlen ← get16 m (p + 10);
  let type := ntohs type in let dlen := ntohs dlen in let q := (p + 12)%nat in
  let ans := Answer name type (ntohs class) (ntohl ttl) in
  if type =? DNS_T_A then ip ← get32 m q; Ok (ans 0 (Ip (ntohl ip)), (q + Z.to_nat dlen)%nat)
  else if type =? DNS_T_MX then
    prio ← get16 m q;
    n ← dns2host_name nomem m len (Z.of_nat (q + 2));
    Ok (ans (ntohs prio) (Name n), (q + 2 + Z.to_nat (u16 (dlen - 2)))%nat)
  else if has_name type then n ← dns2host_name nomem m len (Z.of_nat q); Ok (ans 0 (Name n), (q + Z.to_nat dlen)%nat)
  else Ok (ans 0 NoData, (q + Z.to_nat dlen)%nat).
Fixpoint parse_answers (n : nat) (nomem : bool) (m : list Z) (len : Z) (p : nat) : res (list dns_answer) :=
  match n with
  | O => Ok []
  | S n' => '(a, p) ← parse_answer nomem m len p; l ← parse_answers n' nomem m len p; Ok (a :: l)
  end.
Definition dns_parse_response (nomem : bool) (m : list Z) (len : Z) (p : nat) : res (option (list dns_answer)) :=
  count ← get16 m 6;
  if nomem then (if count =? 0 then Ok None else Err ENull)
  else l ← parse_answers (Z.to_nat count) nomem m len p; Ok (Some l).

(** The loop of [dns_recv] over the name of the question. *)
Fixpoint skip_name (fuel : nat) (m : list Z) (len : Z) (p : nat) : res nat :=
  match fuel with
  | O => Err EFuel
  | S fuel => c ← rd m p; if (negb (c =? 0) && (Z.of_nat p <? len))%bool then skip_name fuel m len (S p) else Ok p
  end.

(** ** The exchange *)
Section World.
Variable world : st net unit.

(** [stack] is the array [buf] of the caller before it is filled. *)
Definition dns_recv (stack : list Z) (p : sock_ptr) (id type : Z) : st net (option (list dns_answer)) :=
  '(n, bytes) ← udp_read world p (Z.of_nat DNS_BUF);
  b ← lift (wr_block stack 0 bytes);
  let len := u16 n in
  if len <? Z.of_nat DNS_HDR then mret None
  else
    b ← lift (buf2dns b);
    i ← lift (get16 b 0); rc ← lift (rcode b); qc ← lift (get16 b 4);
    if negb (i =? id) then mret None
    else if negb (rc =? DNS_RC_OK) then mret None
    else if negb (qc =? 1) then mret None
    else
      q ← lift (skip_name (S (length b)) b len DNS_HDR);
      c ← lift (rd b q);
      let q := S q in
      if negb (c =? 0) then mret None
      else
        b ← lift (buf2query b q);
        class ← lift (get16 b (q + 2)); ty ← lift (get16 b q); ac ← lift (get16 b 6);
        if negb (class =? DNS_C_IN) then mret None
        else if negb (ty =? type) then mret None
        else if 20 <? ac then mret None
        else s ← get; lift (dns_parse_response (nomem s) b len (q + DNS_QUERY)).

(** The message of [dns_send] and its length. *)
Definition dns_message (host : list Z) (id type : Z) : res (option (list Z * Z)) :=
  let b := replicate DNS_BUF 0 in
  b ← put16 b 0 id;
  w ← get16 b 2; b ← put16 b 2 (with_field w 0 1 0);
  w ← get16 b 2; b ← put16 b 2 (with_field w 7 1 1);
  b ← put16 b 4 1;
  b ← dns2buf b;
  let left := u16 (Z.of_nat DNS_BUF - Z.of_nat DNS_HDR) in
  '(r, b) ← host2dns_name host b DNS_HDR left;
  let left := u16 r in
  if left <? Z.of_nat DNS_QUERY then Ok None
  else
    let len := u16 (Z.of_nat DNS_BUF - left) in
    b ← put16 b (Z.to_nat len) (htons type);
    b ← put16 b (Z.to_nat len + 2) (htons DNS_C_IN);
    Ok (Some (b, u16 (len + Z.of_nat DNS_QUERY))).
Definition dns_send (p : sock_ptr) (host : list Z) (dns_id type : Z) : st net Z :=
  m ← lift (dns_message host dns_id type);
  match m with
  | None => mret (-1)
  | Some (b, len) => ret ← udp_write world p b len; mret (u16 ret)
  end.

Definition dns_make_id (host : list Z) : st net Z := s ← get; mret (self s).

Definition dns_query (servers : list Z) (stack host : list Z) (type : Z) : st net (option (list dns_answer)) :=
  server ← lift (rd servers 0);
  if server =? 0 then mret None
  else
    l ← lift (strlen (Some host));
    if 255 <? l then mret None
    else
      sock ← sock_alloc S_UDP;
      match sock with
      | None => fail ENull
      | Some p =>
          udp_connect p server DNS_SRV_PORT;;
          id ← dns_make_id host;
          r ← dns_send p host (u16 id) type;
          if r <? 0 then mret None
          else
            a ← dns_recv stack p (u16 id) type;
            udp_close p;;
            mret a
      end.

(** [junk] is the value of the uninitialised [ip]. *)
Definition dns_hostbyname (servers : list Z) (stack host : list Z) (junk : Z) : st net Z :=
  a ← dns_query servers stack host DNS_T_A;
  match a with
  | None => mret (u32 (-1))
  | Some l =>
      match List.find (fun a => an_type a =? DNS_T_A) l with
      | Some (Answer _ _ _ _ _ (Ip ip)) => mret ip
      | Some _ => fail EOob
      | None => mret junk
      end
  end.
End World.
End Dns.
