(* ===== verification/DnsSpec.v ===== *)
(** * Names, queries and answers

    What src/dns.c writes for a name is what it reads back; the references in a
    name that are followed and those that never end; and
    what [dns_recv] makes of the answer of a server. *)
From S2P Require Import Prelude CString Bmap Net NetWire NetSpec Dns.

Module DnsSpec.
Import Net NetWire NetSpec Dns.

(** ** Names *)

(** A name is a list of labels; [join] is its text, [wire] its encoding. *)
Definition is_label (l : list Z) : Prop := l <> [] /\ Forall (fun c => nzb c /\ c <> 46) l.
Fixpoint join (ls : list (list Z)) : list Z :=
  match ls with [] => [] | [l] => l | l :: ls => l ++ 46 :: join ls end.
Fixpoint labels (ls : list (list Z)) : list Z := match ls with [] => [] | l :: ls => Z.of_nat (length l) :: l ++ labels ls end.
Definition wire (ls : list (list Z)) : list Z := labels ls ++ [0].

Lemma labels_length ls : ls <> [] -> length (labels ls) = S (length (join ls)).
Proof.
  induction ls as [|l ls IH]; [done|]. intros _. cbn [labels length]. rewrite length_app. destruct ls as [|l' ls]; [cbn; lia|].
  rewrite IH by done. change (join (l :: l' :: ls)) with (l ++ 46 :: join (l' :: ls)). rewrite length_app. cbn [length]. lia.
Qed.
Lemma wr_mid (a b : list Z) x v : wr (a ++ x :: b) (length a) v = Ok (a ++ v :: b).
Proof. rewrite (at_0 (fun b o => wr b o v)), wr_app, wr_in by (cbn; lia). reflexivity. Qed.

Section Encode.
Variables (t : list Z).

(** The characters of a label, behind the place [x] of its length. *)
Lemma host2dns_chars cs : forall pre x l r host size,
  Forall (fun c => nzb c /\ c <> 46) cs -> (length cs <= length r)%nat -> 2 + Z.of_nat (length cs) < size < 2 ^ 32 ->
  host2dns_loop (cs ++ host) (pre ++ x :: l ++ r) (length pre + 1 + length l) (length l) size =
  host2dns_loop host (pre ++ x :: (l ++ cs) ++ drop (length cs) r) (length pre + 1 + length (l ++ cs)) (length (l ++ cs)) (size - Z.of_nat (length cs)).
Proof.
  induction cs as [|c cs IH]; intros pre x l r host size Hc Hr Hs; cbn [length] in *; [by rewrite !app_nil_r, Z.sub_0_r|].
  apply Forall_cons in Hc as [[H0 H1] Hc]. assert (H0' : c <> 0) by (unfold nzb in H0; lia). destruct r as [|y r]; [cbn in Hr; lia|]. cbn [length] in Hr.
  cbn [app host2dns_loop drop]. rewrite (proj2 (Z.leb_gt size 2)), (proj2 (Z.eqb_neq c 0)), (proj2 (Z.eqb_neq c 46)) by (done || lia).
  replace (length pre + 1 + length l)%nat with (length (pre ++ x :: l)) by (rewrite length_app; cbn; lia).
  change (pre ++ x :: l ++ y :: r) with (pre ++ (x :: l) ++ y :: r). rewrite app_assoc, wr_mid, <- app_assoc. cbn [mbind res_bind app].
  rewrite u32_small by lia. replace (S (length (pre ++ x :: l))) with (length pre + 1 + length (l ++ [c]))%nat by (rewrite !length_app; cbn; lia).
  change (l ++ c :: r) with (l ++ [c] ++ r). rewrite app_assoc. replace (S (length l)) with (length (l ++ [c])) by (rewrite length_app; cbn; lia).
  rewrite IH by (done || lia). rewrite <- !app_assoc. cbn [app]. f_equal. lia.
Qed.
Lemma host2dns_labels ls : forall pre x r size,
  ls <> [] -> Forall is_label ls -> (length (join ls) < length r)%nat -> 2 + Z.of_nat (length (join ls)) < size < 2 ^ 32 ->
  Forall (fun l => Z.of_nat (length l) < 256) ls ->
  host2dns_loop (join ls ++ 0 :: t) (pre ++ x :: r) (length pre + 1) 0 size =
  Ok (pre ++ labels ls ++ drop (length (join ls)) r, (length pre + length (labels ls))%nat, size - Z.of_nat (length (join ls))).
Proof.
  induction ls as [|l ls IH]; [done|]. intros pre x r size _ Hl Hr Hs H256.
  apply Forall_cons in Hl as [[Hn Hc] Hl]. apply Forall_cons in H256 as [H8 H256].
  assert (Hll : (length l <= length (join (l :: ls)))%nat) by (destruct ls; cbn [join]; rewrite ?length_app; lia).
  assert (E : forall host, host2dns_loop (l ++ host) (pre ++ x :: r) (length pre + 1) 0 size =
    host2dns_loop host (pre ++ x :: l ++ drop (length l) r) (length pre + 1 + length l) (length l) (size - Z.of_nat (length l))).
  { intros host. pose proof (host2dns_chars l pre x [] r host size Hc ltac:(lia) ltac:(lia)) as E. cbn [app length] in E. by rewrite Nat.add_0_r in E. }
  assert (Hw : forall q, wr (pre ++ x :: l ++ q) (length pre + 1 + length l - (length l + 1)) (u8 (Z.of_nat (length l))) = Ok (pre ++ Z.of_nat (length l) :: l ++ q)).
  { intros q. replace (length pre + 1 + length l - (length l + 1))%nat with (length pre) by lia. by rewrite wr_mid, u8_small by lia. }
  destruct ls as [|l' ls].
  - cbn [join labels] in *. rewrite E. cbn [host2dns_loop]. rewrite (proj2 (Z.leb_gt _ 2)) by lia. change (0 =? 0) with true. cbv iota.
    rewrite Hw, app_nil_r. cbn [mbind res_bind app length]. f_equal. f_equal. f_equal. lia.
  - change (join (l :: l' :: ls)) with (l ++ 46 :: join (l' :: ls)) in *. rewrite length_app in *. cbn [length] in *. rewrite <- app_assoc, E. cbn [app host2dns_loop].
    rewrite (proj2 (Z.leb_gt _ 2)) by lia. change (46 =? 0) with false. change (46 =? 46) with true. cbv iota. rewrite Hw. cbn [mbind res_bind].
    destruct (drop (length l) r) as [|y r'] eqn:Ed; [apply (f_equal length) in Ed; rewrite length_drop in Ed; cbn in Ed; lia|].
    assert (Hr' : length r' = (length r - length l - 1)%nat) by (apply (f_equal length) in Ed; rewrite length_drop in Ed; cbn in Ed; lia).
    change (pre ++ ?a :: l ++ y :: r') with (pre ++ (a :: l) ++ y :: r'). rewrite app_assoc.
    replace (S (length pre + 1 + length l)) with (length (pre ++ Z.of_nat (length l) :: l) + 1)%nat by (rewrite length_app; cbn; lia).
    rewrite u32_small, IH by (done || lia).
    assert (Ed' : drop (length (join (l' :: ls))) r' = drop (length l + S (length (join (l' :: ls)))) r) by (rewrite <- drop_drop, Ed; reflexivity).
    change (labels (l :: l' :: ls)) with (Z.of_nat (length l) :: l ++ labels (l' :: ls)). rewrite <- Ed', <- !app_assoc. cbn [app]. rewrite <- !app_assoc.
    f_equal. f_equal; [f_equal|lia]. rewrite !length_app. cbn [length]. rewrite length_app. lia.
Qed.
End Encode.

(** [host2dns_name] writes the encoding and says how much room is left. *)
Lemma host2dns_name_wire ls t pre r size :
  ls <> [] -> Forall is_label ls -> Forall (fun l => Z.of_nat (length l) < 256) ls ->
  (2 + length (join ls) <= length r)%nat -> 2 + Z.of_nat (length (join ls)) < size < 2 ^ 31 ->
  host2dns_name (join ls ++ 0 :: t) (pre ++ r) (length pre) size =
  Ok (size - Z.of_nat (length (join ls)) - 2, pre ++ wire ls ++ drop (2 + length (join ls)) r).
Proof.
  intros Hne Hl H8 Hr Hs. unfold host2dns_name.
  assert (Hj : Forall nzb (join ls)).
  { clear -Hl. induction ls as [|l ls IH]; [by constructor|]. apply Forall_cons in Hl as [[_ Hc] Hl].
    assert (Hc' : Forall nzb l) by (eapply Forall_impl; [exact Hc|]; cbn; tauto).
    destruct ls; [done|]. change (join (l :: l0 :: ls)) with (l ++ 46 :: join (l0 :: ls)). apply Forall_app. split; [done|]. constructor; [unfold nzb; lia|]. by apply IH. }
  rewrite (strlen_cstr _ (join ls)) by (lia || (split; [done|by exists t])). cbn [mbind res_bind].
  rewrite (proj2 (Z.leb_gt size _)) by (rewrite u32_small; lia).
  destruct r as [|x r]; [cbn in Hr; lia|]. cbn [length] in Hr. rewrite <- (Nat.add_1_r (length pre)), host2dns_labels by (done || lia). cbn [mbind res_bind].
  pose proof (labels_length ls Hne) as Hll. destruct (drop (length (join ls)) r) as [|y r'] eqn:Ed.
  { apply (f_equal length) in Ed. rewrite length_drop in Ed. cbn in Ed. lia. }
  rewrite app_assoc. replace (length pre + length (labels ls))%nat with (length (pre ++ labels ls)) by (by rewrite length_app). rewrite wr_mid.
  assert (Er : drop (2 + length (join ls)) (x :: r) = r').
  { change (drop (S (length (join ls))) r = r'). rewrite <- (Nat.add_1_r (length (join ls))), <- drop_drop, Ed. done. }
  rewrite Er. cbn [mbind res_bind]. rewrite u32_small, s32_small by lia. unfold wire. by rewrite <- !app_assoc.
Qed.

(** ** Reading names *)
Lemma char_mid (a b : list Z) c : char_at (a ++ c :: b) (Z.of_nat (length a)) = Ok c.
Proof. unfold char_at. rewrite (proj2 (Z.ltb_ge _ 0)), Nat2Z.id by lia. apply get8_here. Qed.
Lemma copy_label_eq l : forall a b size out,
  Z.of_nat (length out) + Z.of_nat (length l) <= size ->
  copy_label (length l) (a ++ l ++ b) (Z.of_nat (length a)) size out = Ok (Z.of_nat (length (a ++ l)), out ++ l).
Proof.
  induction l as [|c l IH]; intros a b size out Hs; cbn [length] in *; [by rewrite !app_nil_r|]. cbn [copy_label].
  rewrite (proj2 (Z.ltb_lt _ size)) by lia. cbn [app]. rewrite char_mid. cbn [mbind res_bind]. unfold push. rewrite (proj2 (Z.ltb_lt _ size)) by lia. cbn [mbind res_bind].
  change (a ++ c :: l ++ b) with (a ++ [c] ++ l ++ b). rewrite (app_assoc a). replace (Z.of_nat (length a) + 1) with (Z.of_nat (length (a ++ [c]))) by (rewrite length_app; cbn; lia).
  rewrite IH by (rewrite length_app; cbn; lia). by rewrite <- !app_assoc.
Qed.

(** The text of the labels, behind what has been read. *)
Definition dots (n : Z) (ls : list (list Z)) : list Z := match ls with [] => [] | _ => (if 0 <? n then [46] else []) ++ join ls end.
Definition short (l : list Z) : Prop := (0 < length l <= 31)%nat.
Lemma dots_cons n l ls : dots n (l :: ls) = (if 0 <? n then [46] else []) ++ l ++ match ls with [] => [] | _ => 46 :: join ls end.
Proof. unfold dots. f_equal. destruct ls; [by rewrite app_nil_r|done]. Qed.

(** The buffer has room: it holds fewer bytes than its size, and a label of at
    most 31 bytes needs at most one doubling. *)
Definition dot (n : Z) : list Z := if 0 <? n then [46] else [].
Lemma push_dot n size out :
  (0 < n -> Z.of_nat (length out) < size) -> (if 0 <? n then push out size 46 else Ok out) = Ok (out ++ dot n).
Proof.
  intros H. unfold dot, push. destruct (Z.ltb_spec 0 n); [|by rewrite app_nil_r]. by rewrite (proj2 (Z.ltb_lt _ size)) by lia.
Qed.

Lemma label_round a l b fuel dns_size n size out :
  short l -> Z.of_nat (length a) < dns_size -> 32 <= size -> Z.of_nat (length out) <= size ->
  (0 < n -> Z.of_nat (length out) < size) ->
  let k := Z.of_nat (length l) in
  exists size', 32 <= size' /\ Z.of_nat (length (out ++ dot n ++ l)) < size' /\
    dns2host_loop (S fuel) false (a ++ k :: l ++ b) dns_size (Z.of_nat (length a)) n size out =
    dns2host_loop fuel false (a ++ k :: l ++ b) dns_size (Z.of_nat (length a) + 1 + k) k size' (out ++ dot n ++ l).
Proof.
  intros Hsh Hd Hs Ho Hn k. unfold short in Hsh. cbn [dns2host_loop].
  assert (Hk : 0 < k <= 31) by (unfold k; lia). rewrite char_mid. cbn [mbind res_bind].
  rewrite (proj2 (Z.eqb_neq k 0)), (proj2 (Z.leb_gt dns_size _)) by lia. cbn [orb].
  rewrite (push_dot n size out Hn). cbn [mbind res_bind]. rewrite (proj2 (Z.eqb_neq k 192)) by lia. rewrite andb_false_r.
  set (out1 := out ++ dot n). assert (Ho1 : Z.of_nat (length out1) <= size).
  { unfold out1, dot. rewrite length_app. destruct (Z.ltb_spec 0 n); cbn [length]; lia. }
  set (size1 := if size - Z.of_nat (length out1) - 1 <=? k then size * 2 else size).
  assert (Hs1 : 32 <= size1 /\ Z.of_nat (length out1) + k < size1) by (unfold size1; destruct (Z.leb_spec (size - Z.of_nat (length out1) - 1) k); lia).
  exists size1. split; [lia|]. rewrite (app_assoc out). fold out1. split; [rewrite length_app; lia|].
  change (a ++ k :: l ++ b) with (a ++ [k] ++ l ++ b). rewrite (app_assoc a). replace (Z.to_nat k) with (length l) by lia.
  replace (Z.of_nat (length a) + 1) with (Z.of_nat (length (a ++ [k]))) by (rewrite length_app; cbn; lia).
  rewrite copy_label_eq by lia. cbn [mbind res_bind]. f_equal. rewrite !length_app. cbn [length]. lia.
Qed.

Lemma dns2host_labels ls : forall fuel a b dns_size n size out,
  Forall short ls -> (length ls < fuel)%nat -> Z.of_nat (length a + length (labels ls)) <= dns_size -> 32 <= size -> Z.of_nat (length out) < size ->
  dns2host_loop fuel false (a ++ wire ls ++ b) dns_size (Z.of_nat (length a)) n size out = Ok (Some (out ++ dots n ls)).
Proof.
  induction ls as [|l ls IH]; intros fuel a b dns_size n size out Hl Hf Hd Hs Ho; (destruct fuel as [|fuel]; [cbn in Hf; lia|]).
  - cbn [dns2host_loop]. cbn [wire labels app]. rewrite char_mid. cbn [mbind res_bind]. change (0 =? 0) with true. cbn [orb]. unfold push.
    rewrite (proj2 (Z.ltb_lt _ size)) by lia. cbn [mbind res_bind dots]. by rewrite app_nil_r.
  - apply Forall_cons in Hl as [Hsh Hl]. cbn [labels length] in Hd. rewrite length_app in Hd. cbn [length] in Hf.
    set (k := Z.of_nat (length l)). assert (Ew : a ++ wire (l :: ls) ++ b = a ++ k :: l ++ wire ls ++ b).
    { unfold wire. cbn [labels app]. rewrite <- !app_assoc. reflexivity. }
    rewrite Ew. destruct (label_round a l (wire ls ++ b) fuel dns_size n size out) as (size' & H1 & H2 & E); try done; [lia|lia|].
    fold k in E. rewrite E. replace (a ++ k :: l ++ wire ls ++ b) with ((a ++ [k] ++ l) ++ wire ls ++ b) by (by rewrite <- !app_assoc).
    replace (Z.of_nat (length a) + 1 + k) with (Z.of_nat (length (a ++ [k] ++ l))) by (rewrite !length_app; cbn; lia).
    rewrite IH; [|done|lia|rewrite !length_app; cbn [length]; lia|lia|lia].
    rewrite dots_cons. unfold dot. rewrite <- !app_assoc. do 4 f_equal. unfold short in Hsh. unfold dots. destruct ls; [done|]. by rewrite (proj2 (Z.ltb_lt 0 _)) by lia.
Qed.

Lemma labels_count ls : (length ls <= length (labels ls))%nat.
Proof. induction ls as [|l ls IH]; [done|]. cbn [labels length]. rewrite length_app. lia. Qed.
Lemma dots_first ls : dots 0 ls = join ls.
Proof. by destruct ls. Qed.
Lemma dns2host_name_wire ls a b dns_size :
  Forall short ls -> Z.of_nat (length a + length (labels ls)) <= dns_size ->
  dns2host_name false (a ++ wire ls ++ b) dns_size (Z.of_nat (length a)) = Ok (Some (join ls)).
Proof.
  intros Hl Hd. unfold dns2host_name. rewrite dns2host_labels; [by rewrite dots_first|done| |done|done|cbn; lia].
  pose proof (labels_count ls). rewrite !length_app. unfold wire. rewrite length_app. lia.
Qed.

(** What [host2dns_name] writes for a name whose labels have at most 31 bytes
    is the encoding of its labels, followed by the rest of the buffer, and
    [dns2host_name] reads the name back from any message that contains the
    encoding. *)
Theorem dns_name_roundtrip ls t pre r size :
  ls <> [] -> Forall is_label ls -> Forall (fun l => (length l <= 31)%nat) ls ->
  (2 + length (join ls) <= length r)%nat -> 2 + Z.of_nat (length (join ls)) < size < 2 ^ 31 ->
  exists m, host2dns_name (join ls ++ 0 :: t) (pre ++ r) (length pre) size = Ok (size - Z.of_nat (length (join ls)) - 2, m) /\
    m = pre ++ wire ls ++ drop (2 + length (join ls)) r /\
    forall a b dns_size, Z.of_nat (length a + length (join ls) + 1) <= dns_size ->
      dns2host_name false (a ++ wire ls ++ b) dns_size (Z.of_nat (length a)) = Ok (Some (join ls)).
Proof.
  intros Hne Hl H31 Hr Hs. eexists. split; [apply host2dns_name_wire; try done; eapply Forall_impl; [exact H31|]; cbn; lia|]. split; [done|].
  intros a b d Hd. apply dns2host_name_wire; [|rewrite labels_length by done; lia].
  apply Forall_forall. intros l Hin. eapply Forall_forall in Hl as [Hn _]; [|exact Hin]. eapply Forall_forall in H31; [|exact Hin].
  unfold short. destruct l; [done|]. cbn in *. lia.
Qed.
Definition www : list (list Z) := [[119; 119; 119]; [97; 98]].
Lemma dns_name_roundtrip_witness :
  exists m, host2dns_name [119; 119; 119; 46; 97; 98; 0] (replicate 20 0) 0 20 = Ok (12, m) /\ dns2host_name false m 8 0 = Ok (Some [119; 119; 119; 46; 97; 98]).
Proof.
  destruct (dns_name_roundtrip www [] [] (replicate 20 0) 20) as (m & H1 & -> & H2); [done| | |cbn; lia|cbn; lia|].
  - unfold www, is_label, nzb. rewrite !Forall_cons. split_and!; (apply Forall_nil_2 || done || lia).
  - unfold www. rewrite !Forall_cons. split_and!; (apply Forall_nil_2 || (cbn; lia)).
  - eexists. split; [exact H1|]. apply (H2 [] _ 8). cbn. lia.
Defined.

(** ** Names with references *)
Lemma char_at_Ok m s c : char_at m s = Ok c -> 0 <= s < Z.of_nat (length m).
Proof.
  unfold char_at, rd. destruct (Z.ltb_spec s 0); [done|]. destruct (m !! Z.to_nat s) as [x|] eqn:E; [|done]. intros [= ->].
  apply lookup_lt_Some in E. lia.
Qed.

(** The format of names in the protocol, for the offset [s] of a message that
    ends at [dns_size]: labels up to a byte 0, or up to a byte 192, behind which
    is the offset of the rest of the name.  [k] counts the labels and references
    that are met.  A label has at most 31 bytes, an offset is below 128, and the
    rest that a reference stands for is not empty. *)
Inductive name_at (m : list Z) (dns_size : Z) : Z -> list (list Z) -> nat -> Prop :=
  | NameEnd s : char_at m s = Ok 0 -> name_at m dns_size s [] 0
  | NameLabel a l b ls k :
      m = a ++ Z.of_nat (length l) :: l ++ b -> short l -> Z.of_nat (length a) < dns_size ->
      name_at m dns_size (Z.of_nat (length a) + 1 + Z.of_nat (length l)) ls k ->
      name_at m dns_size (Z.of_nat (length a)) (l :: ls) (S k)
  | NameRef s o ls k :
      char_at m s = Ok 192 -> char_at m (s + 1) = Ok o -> 0 <= o < 128 -> s < dns_size -> ls <> [] ->
      name_at m dns_size o ls k -> name_at m dns_size s ls (S k).
(** The name at [s] is a reference to the offset [o]. *)
Definition refers (m : list Z) (dns_size s o : Z) : Prop :=
  char_at m s = Ok 192 /\ char_at m (s + 1) = Ok o /\ 0 <= o < 128 /\ s < dns_size.

Lemma name_at_range m d s ls k : name_at m d s ls k -> 0 <= s < Z.of_nat (length m).
Proof. intros []; try (by eapply char_at_Ok). subst m. rewrite length_app. cbn [length]. lia. Qed.

(** The byte at the offset says which of the three cases it is. *)
Lemma name_at_cases m d s ls k : name_at m d s ls k ->
  (char_at m s = Ok 0 /\ k = 0%nat) \/
  (exists n ls' k', char_at m s = Ok n /\ 0 < n <= 31 /\ name_at m d (s + 1 + n) ls' k' /\ k = S k') \/
  (exists o k', char_at m s = Ok 192 /\ char_at m (s + 1) = Ok o /\ name_at m d o ls k' /\ k = S k').
Proof.
  intros [s' H0|a l b ls' k' Em Hl Ha Hn|s' o ls' k' H0 H1 Ho Hd Hne Hn]; [by left| |].
  - right. left. exists (Z.of_nat (length l)), ls', k'. unfold short in Hl. split; [rewrite Em; apply char_mid|]. split; [lia|done].
  - right. right. by exists o, k'.
Qed.

(** The name at an offset is unique. *)
Lemma name_at_unique m d s ls k : name_at m d s ls k -> forall ls' k', name_at m d s ls' k' -> k = k'.
Proof.
  induction 1 as [s H0|a l b ls k Em Hl Ha _ IH|s o ls k H0 H1 Ho Hd Hne _ IH];
    intros ls' k' [[E ->]|[(n & ls1 & k1 & E & Hr & Hn & ->)|(o' & k1 & E & E1 & Hn & ->)]]%name_at_cases.
  - done.
  - rewrite H0 in E. injection E. lia.
  - congruence.
  - rewrite Em, char_mid in E. unfold short in Hl. injection E. lia.
  - rewrite Em, char_mid in E. f_equal. assert (n = Z.of_nat (length l)) as -> by congruence. by eapply IH.
  - rewrite Em, char_mid in E. unfold short in Hl. injection E. lia.
  - congruence.
  - rewrite H0 in E. injection E. lia.
  - f_equal. assert (o' = o) as -> by congruence. by eapply IH.
Qed.

(** No offset is met twice, so there are fewer labels and references than bytes. *)
Lemma name_at_offsets m d s ls k : name_at m d s ls k ->
  exists ps : list nat, NoDup ps /\ length ps = S k /\ Forall (fun p => exists ls' j, (j <= k)%nat /\ name_at m d (Z.of_nat p) ls' j) ps.
Proof.
  assert (Hstep : forall s ls k ls1, name_at m d s ls (S k) ->
    (exists ps : list nat, NoDup ps /\ length ps = S k /\ Forall (fun p => exists ls' j, (j <= k)%nat /\ name_at m d (Z.of_nat p) ls' j) ps) ->
    ls1 = ls -> exists ps : list nat, NoDup ps /\ length ps = S (S k) /\ Forall (fun p => exists ls' j, (j <= S k)%nat /\ name_at m d (Z.of_nat p) ls' j) ps).
  { intros s1 ls1 k1 ? Hn (ps & Hnd & Hlen & Hps) _. pose proof (name_at_range _ _ _ _ _ Hn) as Hr. exists (Z.to_nat s1 :: ps). split_and!.
    - apply NoDup_cons. split; [|done]. intros Hin. apply (proj1 (Forall_forall _ _) Hps) in Hin as (ls' & j & Hj & Hn').
      rewrite Z2Nat.id in Hn' by lia. pose proof (name_at_unique _ _ _ _ _ Hn _ _ Hn'). lia.
    - cbn. lia.
    - apply Forall_cons. split; [exists ls1, (S k1); rewrite Z2Nat.id by lia; by split|].
      eapply Forall_impl; [exact Hps|]. intros p (ls' & j & Hj & Hn'). exists ls', j. split; [lia|done]. }
  induction 1 as [s H0|a l b ls k Em Hl Ha Hn IH|s o ls k H0 H1 Ho Hd Hne Hn IH].
  - exists [Z.to_nat s]. split_and!; [apply NoDup_singleton|done|]. apply Forall_singleton. exists [], 0%nat. split; [lia|].
    pose proof (char_at_Ok _ _ _ H0). rewrite Z2Nat.id by lia. by apply NameEnd.
  - eapply Hstep; [by econstructor|done|done].
  - eapply Hstep; [by econstructor|done|done].
Qed.
Lemma name_at_rounds m d s ls k : name_at m d s ls k -> (k < length m)%nat.
Proof.
  intros (ps & Hnd & Hlen & Hps)%name_at_offsets.
  assert (Hincl : incl ps (seq 0 (length m))).
  { intros p Hp. apply in_seq. apply list_elem_of_In in Hp. apply (proj1 (Forall_forall _ _) Hps) in Hp as (ls' & j & _ & Hn).
    apply name_at_range in Hn. lia. }
  apply NoDup_ListNoDup in Hnd. pose proof (NoDup_incl_length Hnd Hincl) as H. rewrite length_seq in H. lia.
Qed.

Lemma dns2host_name_at m d s ls k : name_at m d s ls k -> forall fuel n size out,
  (k < fuel)%nat -> 32 <= size -> Z.of_nat (length out) <= size -> (0 < n \/ ls = [] -> Z.of_nat (length out) < size) ->
  dns2host_loop fuel false m d s n size out = Ok (Some (out ++ dots n ls)).
Proof.
  induction 1 as [s H0|a l b ls k Em Hl Ha Hn IH|s o ls k H0 H1 Ho Hd Hne Hn IH]; intros fuel n size out Hf Hs Hle Hlt; (destruct fuel as [|fuel]; [lia|]).
  - cbn [dns2host_loop]. rewrite H0. cbn [mbind res_bind]. change (0 =? 0) with true. cbn [orb]. unfold push.
    rewrite (proj2 (Z.ltb_lt _ size)) by auto. cbn [mbind res_bind dots]. by rewrite app_nil_r.
  - rewrite Em. destruct (label_round a l b fuel d n size out) as (size' & S1 & S2 & E); try done; [auto|]. cbv zeta in E. rewrite E, <- Em.
    rewrite IH; [|lia|done|lia|auto].
    rewrite dots_cons. unfold dot. rewrite <- !app_assoc. do 4 f_equal. unfold short in Hl. unfold dots. destruct ls; [done|]. by rewrite (proj2 (Z.ltb_lt 0 _)) by lia.
  - cbn [dns2host_loop]. rewrite H0. cbn [mbind res_bind]. change (192 =? 0) with false. rewrite (proj2 (Z.leb_gt d s)) by lia. cbn [orb].
    rewrite push_dot by auto. cbn [mbind res_bind]. change (192 =? 192) with true. cbv iota. rewrite H1. cbn [mbind res_bind].
    replace (s8 o) with o by (unfold s8; change (2 ^ 7) with 128; change (2 ^ 8) with 256; rewrite Z.mod_small; lia).
    rewrite IH; [|lia|done| |intros [?|?]; [lia|done]].
    + rewrite <- app_assoc. unfold dots, dot. by destruct ls.
    + unfold dot. rewrite length_app. destruct (Z.ltb_spec 0 n); cbn [length]; [|lia]. specialize (Hlt (or_introl H)). lia.
Qed.

(** A circle of references. *)
Lemma dns2host_circle m d nomem size out fuel : forall s,
  tc (refers m d) s s -> dns2host_loop fuel nomem m d s 0 size out = Err EFuel.
Proof.
  induction fuel as [|fuel IH]; intros s Hc; [done|]. cbn [dns2host_loop].
  assert (exists o, refers m d s o /\ tc (refers m d) o o) as (o & (H0 & H1 & Ho & Hd) & Hc').
  { inversion Hc as [? ? Hr|? o ? Hr Ho]; subst; [by exists s|]. exists o. split; [done|]. by eapply tc_r. }
  rewrite H0. cbn [mbind res_bind]. change (192 =? 0) with false. rewrite (proj2 (Z.leb_gt d s)) by lia. change (0 <? 0) with false. cbn [orb mbind res_bind].
  change (192 =? 192) with true. cbv iota. rewrite H1. cbn [mbind res_bind].
  replace (s8 o) with o by (unfold s8; change (2 ^ 7) with 128; change (2 ^ 8) with 256; rewrite Z.mod_small; lia). by apply IH.
Qed.

(** C37: [dns2host_name] follows references.  A name at [s] in the format of the
    protocol, made of labels of at most 31 bytes and references to offsets
    below 128 that stand for at least one label, forward or backward and any
    number of them, is returned as its labels with dots between them; that it
    has a finite spelling ([name_at]) is all that is needed for the loop to end.
    References that lead back to the offset they start from never end: no
    number of rounds is enough.  (Larger offsets are read as negative, and
    longer labels can overflow the buffer: dns.c:190, dns.c:194.) *)
Theorem dns_name_references m dns_size s :
  (forall ls k, name_at m dns_size s ls k -> dns2host_name false m dns_size s = Ok (Some (join ls))) /\
  (tc (refers m dns_size) s s -> forall nomem fuel, dns2host_loop fuel nomem m dns_size s 0 32 [] = Err EFuel).
Proof.
  split.
  - intros ls k Hn. unfold dns2host_name. pose proof (name_at_rounds _ _ _ _ _ Hn).
    rewrite (dns2host_name_at _ _ _ _ _ Hn); [|lia|lia|done|done]. by rewrite <- dots_first.
  - intros Hc nomem fuel. by apply dns2host_circle.
Qed.
(** "a" and a reference to "b" and a reference to "c"; two references to each other. *)
Definition compressed : list Z := [1; 99; 0; 1; 98; 192; 0; 1; 97; 192; 3].
Lemma dns_name_references_witness :
  dns2host_name false compressed 11 7 = Ok (Some [97; 46; 98; 46; 99]) /\
  dns2host_loop 1000 false [192; 2; 192; 0] 4 0 0 32 [] = Err EFuel.
Proof.
  split.
  - apply (dns_name_references compressed 11 7) with (ls := [[97]; [98]; [99]]) (k := 5%nat).
    assert (Hsh : forall c : Z, short [c]) by (intros c; unfold short; cbn; lia).
    apply (NameLabel compressed 11 [1; 99; 0; 1; 98; 192; 0] [97] [192; 3]); [done|done|done|].
    apply (NameRef compressed 11 9 3); try done.
    apply (NameLabel compressed 11 [1; 99; 0] [98] [192; 0; 1; 97; 192; 3]); [done|done|done|].
    apply (NameRef compressed 11 5 0); try done.
    apply (NameLabel compressed 11 [] [99] [0; 1; 98; 192; 0; 1; 97; 192; 3]); [done|done|done|]. by apply NameEnd.
  - apply (dns_name_references [192; 2; 192; 0] 4 0). apply (tc_l _ 0 2); [by split_and!|]. apply tc_once. by split_and!.
Defined.

(** A label of 63 bytes behind one of 19 does not fit after one doubling. *)
Lemma dns_label_overflow :
  dns2host_name false (wire [replicate 19 97; replicate 63 98; [99]]) 200 0 = Err EOob.
Proof. vm_compute. reflexivity. Qed.
(** A name that ends with a dot gets an empty label, and its query a misplaced type. *)
Lemma dns_trailing_dot : host2dns_name [97; 46; 0] (replicate 8 7) 0 8 = Ok (4, [1; 97; 0; 0; 7; 7; 7; 7]).
Proof. reflexivity. Qed.

(** ** The query *)
Definition question (id type : Z) (ls : list (list Z)) : list Z :=
  be16 id [1; 0; 0; 1; 0; 0; 0; 0; 0; 0] ++ wire ls ++ be16 type (be16 1 []).

Lemma swapped v : 0 <= v < 65536 -> ntohs v mod 256 = v / 256 mod 256 /\ ntohs v / 256 mod 256 = v mod 256.
Proof.
  intros Hv. rewrite <- (be16_val v Hv). rewrite lo_byte, hi_byte by apply byte_mod. done.
Qed.
Lemma query_header id r : 0 <= id < 65536 ->
  (b ← put16 (replicate 12 0 ++ r) 0 id; w ← get16 b 2; b ← put16 b 2 (with_field w 0 1 0); w ← get16 b 2;
   b ← put16 b 2 (with_field w 7 1 1); b ← put16 b 4 1; dns2buf b) = Ok (be16 id [1; 0; 0; 1; 0; 0; 0; 0; 0; 0] ++ r).
Proof.
  intros Hid. unfold be16. cbn [replicate app]. rewrite put16_hd. cbn [mbind res_bind].
  assert (E : forall x y z, get16 (x :: y :: 0 :: 0 :: z) 2 = Ok 0) by reflexivity. rewrite E. cbn [mbind res_bind]. change (with_field 0 0 1 0) with 0.
  rewrite !put16_S, put16_hd. cbn [mbind res_bind]. change (0 mod 256) with 0. change (0 / 256 mod 256) with 0. rewrite E. cbn [mbind res_bind].
  change (with_field 0 7 1 1) with 128. rewrite !put16_S, put16_hd. cbn [mbind res_bind]. change (128 mod 256) with 128. change (128 / 256 mod 256) with 0.
  change (put16 (?a :: ?b :: ?c :: ?d :: 0 :: 0 :: ?r) 4 1) with (Ok (a :: b :: c :: d :: 1 :: 0 :: r)). cbn [mbind res_bind].
  unfold dns2buf. rewrite swap16_hd by apply byte_mod. cbn [mbind res_bind]. reflexivity.
Qed.
Lemma dns_message_question ls t id type :
  ls <> [] -> Forall is_label ls -> Forall (fun l => Z.of_nat (length l) < 256) ls -> (length (join ls) <= 255)%nat -> 0 <= id < 65536 -> 0 <= type < 65536 ->
  exists b, dns_message (join ls ++ 0 :: t) id type = Ok (Some (b, Z.of_nat (length (question id type ls)))) /\
    rd_block b 0 (length (question id type ls)) = Ok (question id type ls).
Proof.
  intros Hne Hl H8 Hj Hid Hty. set (h := be16 id [1; 0; 0; 1; 0; 0; 0; 0; 0; 0]). set (n := length (join ls)).
  assert (Hwl : length (wire ls) = (2 + n)%nat) by (unfold wire; rewrite length_app, labels_length by done; cbn; lia).
  assert (Hql : length (question id type ls) = (18 + n)%nat) by (unfold question; rewrite !length_app, Hwl; cbn; lia).
  exists (question id type ls ++ replicate (494 - n) 0). split; [|rewrite <- (app_nil_r (replicate _ _)); exact (rd_block_at [] (question id type ls) _)].
  unfold dns_message. change (replicate DNS_BUF 0) with (replicate 12 0 ++ replicate 500 0).
  pose proof (query_header id (replicate 500 0) Hid) as Hh.
  destruct (put16 _ 0 id) as [b1|] eqn:E1; [|done]. cbn [mbind res_bind] in *. destruct (get16 b1 2) as [w1|] eqn:E2; [|done]. cbn [mbind res_bind] in *.
  destruct (put16 b1 2 _) as [b2|] eqn:E3; [|done]. cbn [mbind res_bind] in *. destruct (get16 b2 2) as [w2|] eqn:E4; [|done]. cbn [mbind res_bind] in *.
  destruct (put16 b2 2 _) as [b3|] eqn:E5; [|done]. cbn [mbind res_bind] in *. destruct (put16 b3 4 1) as [b4|] eqn:E6; [|done]. cbn [mbind res_bind] in *.
  rewrite Hh. cbn [mbind res_bind]. fold h. change (u16 (Z.of_nat DNS_BUF - Z.of_nat DNS_HDR)) with 500. change DNS_HDR with (length h).
  rewrite host2dns_name_wire; [|done|done|done|rewrite length_replicate; lia|lia]. cbn [mbind res_bind]. fold n.
  rewrite u16_small by lia. rewrite (proj2 (Z.ltb_ge _ (Z.of_nat DNS_QUERY))) by (unfold DNS_QUERY; lia).
  change (Z.of_nat DNS_BUF) with 512. replace (512 - (500 - Z.of_nat n - 2)) with (Z.of_nat (length (h ++ wire ls))) by (rewrite length_app, Hwl; cbn [length h be16]; lia).
  assert (Hhl : (length (h ++ wire ls) = 14 + n)%nat) by (rewrite length_app, Hwl; reflexivity).
  rewrite (u16_small (Z.of_nat (length (h ++ wire ls)))) by lia. rewrite Nat2Z.id, drop_replicate. replace (500 - (2 + n))%nat with (4 + (494 - n))%nat by lia. rewrite replicate_add.
  rewrite (app_assoc h), (at_0 (fun b o => put16 b o (htons type))), put16_app. change (replicate 4 0) with [0; 0; 0; 0]. cbn [app]. rewrite put16_hd. cbn [mbind res_bind].
  rewrite put16_app, !put16_S, put16_hd. cbn [mbind res_bind].
  destruct (swapped type Hty) as [T1 T2]. unfold htons, ntohs in *. rewrite T1, T2.
  rewrite Hql, Hhl. do 3 f_equal.
  - unfold question. fold h. rewrite <- !app_assoc. reflexivity.
  - rewrite u16_small by (unfold DNS_QUERY; lia). unfold DNS_QUERY. lia.
Qed.

(** ** The answers *)

(** A record about the name of the question: an address, or a name of type
    [type], with a priority for MX. *)
Inductive rr := RrA (ttl ip : Z) | RrName (type ttl : Z) (ls : list (list Z)) | RrMx (ttl prio : Z) (ls : list (list Z)).
Definition rr_head (type ttl dlen : Z) : list Z := 192 :: 12 :: be16 type (be16 DNS_C_IN (be32 ttl (be16 dlen []))).
Definition rr_bytes (type ttl : Z) (data : list Z) : list Z := rr_head type ttl (Z.of_nat (length data)) ++ data.
Definition rr_wire (r : rr) : list Z :=
  match r with
  | RrA ttl ip => rr_bytes DNS_T_A ttl (be32 ip [])
  | RrName type ttl ls => rr_bytes type ttl (wire ls)
  | RrMx ttl prio ls => rr_bytes DNS_T_MX ttl (be16 prio (wire ls))
  end.
Definition rr_answer (host : list Z) (r : rr) : dns_answer :=
  match r with
  | RrA ttl ip => Answer (Some host) DNS_T_A DNS_C_IN ttl 0 (Ip ip)
  | RrName type ttl ls => Answer (Some host) type DNS_C_IN ttl 0 (Name (Some (join ls)))
  | RrMx ttl prio ls => Answer (Some host) DNS_T_MX DNS_C_IN ttl prio (Name (Some (join ls)))
  end.
Definition rr_wf (r : rr) : Prop :=
  match r with
  | RrA ttl ip => 0 <= ttl < 2 ^ 32 /\ 0 <= ip < 2 ^ 32
  | RrName type ttl ls => type ∈ [DNS_T_NS; DNS_T_CNAME; DNS_T_TXT] /\ 0 <= ttl < 2 ^ 32 /\ Forall short ls /\ Z.of_nat (length (wire ls)) < 65536
  | RrMx ttl prio ls => 0 <= ttl < 2 ^ 32 /\ 0 <= prio < 65536 /\ Forall short ls /\ Z.of_nat (length (wire ls)) < 65534
  end.

Lemma ntohs_inv v : 0 <= v < 65536 -> ntohs (ntohs v) = v.
Proof. apply swap16_involutive. Qed.

Lemma wire_length ls : length (wire ls) = S (length (labels ls)).
Proof. unfold wire. rewrite length_app. cbn. lia. Qed.

Section Parse.
Variables (m a : list Z) (len : Z) (host : list (list Z)).
Hypothesis Hhost : forall b, dns2host_name false (a ++ 192 :: 12 :: b) len (Z.of_nat (length a)) = Ok (Some (join host)).

Lemma parse_answer_head type ttl data b : 0 <= type < 65536 -> 0 <= ttl < 2 ^ 32 -> Z.of_nat (length data) < 65536 ->
  let m := a ++ rr_bytes type ttl data ++ b in
  parse_answer false m len (length a) =
  let ans := Answer (Some (join host)) type DNS_C_IN ttl in let q := (length a + 12)%nat in let dlen := Z.of_nat (length data) in
  if type =? DNS_T_A then ip ← get32 m q; Ok (ans 0 (Ip (ntohl ip)), (q + Z.to_nat dlen)%nat)
  else if type =? DNS_T_MX then
    prio ← get16 m q; n ← dns2host_name false m len (Z.of_nat (q + 2)); Ok (ans (ntohs prio) (Name n), (q + 2 + Z.to_nat (u16 (dlen - 2)))%nat)
  else if has_name type then n ← dns2host_name false m len (Z.of_nat q); Ok (ans 0 (Name n), (q + Z.to_nat dlen)%nat)
  else Ok (ans 0 NoData, (q + Z.to_nat dlen)%nat).
Proof using Hhost.
  intros Ht Htl Hd m0. set (k := Z.of_nat (length data)) in *. unfold parse_answer. cbv zeta.
  assert (E0 : dns2host_name false m0 len (Z.of_nat (length a)) = Ok (Some (join host))) by apply Hhost. rewrite E0. cbn [mbind res_bind].
  assert (E1 : get16 m0 (length a + 2) = Ok (type / 256 mod 256 + 256 * (type mod 256))) by (unfold m0; rewrite get16_app; reflexivity).
  assert (E2 : get16 m0 (length a + 4) = Ok 256) by (unfold m0; rewrite get16_app; reflexivity).
  assert (E3 : get32 m0 (length a + 6) = Ok (ttl / 65536 / 256 mod 256 + 256 * (ttl / 65536 mod 256) + 65536 * (ttl mod 65536 / 256 mod 256 + 256 * (ttl mod 65536 mod 256))))
    by (unfold m0; rewrite get32_app; reflexivity).
  assert (E4 : get16 m0 (length a + 10) = Ok (k / 256 mod 256 + 256 * (k mod 256))) by (unfold m0; rewrite get16_app; reflexivity).
  rewrite E1. cbn [mbind res_bind]. rewrite E2. cbn [mbind res_bind]. rewrite E3. cbn [mbind res_bind]. rewrite E4. cbn [mbind res_bind].
  rewrite (be32_bytes ttl Htl), !be16_val by lia. rewrite ntohl_inv, !ntohs_inv by (done || lia). change (ntohs 256) with DNS_C_IN. reflexivity.
Qed.

Lemma parse_answer_eq r b : rr_wf r -> Z.of_nat (length (a ++ rr_wire r)) <= len ->
  parse_answer false (a ++ rr_wire r ++ b) len (length a) = Ok (rr_answer (join host) r, length (a ++ rr_wire r)).
Proof using Hhost.
  intros Hw Hl.
  assert (Hq : forall type ttl data, let e := a ++ rr_head type ttl (Z.of_nat (length data)) in
    a ++ rr_bytes type ttl data ++ b = e ++ data ++ b /\ length e = (length a + 12)%nat /\ length (a ++ rr_bytes type ttl data) = (length e + length data)%nat).
  { intros type ttl data e. unfold rr_bytes, e. rewrite <- !app_assoc, !length_app. split; [done|]. split; [done|lia]. }
  destruct r as [ttl ip|type ttl ls|ttl prio ls]; cbn [rr_wf rr_wire rr_answer] in *.
  - destruct Hw as [Ht Hip]. rewrite parse_answer_head by (done || (cbn; lia)). cbv zeta. change (DNS_T_A =? DNS_T_A) with true. cbv iota.
    destruct (Hq DNS_T_A ttl (be32 ip [])) as (E1 & E2 & E3). rewrite E3, E1, <- E2, (at_0 get32), get32_app. cbn [be32 be16 app]. rewrite get32_hd. cbn [mbind res_bind].
    rewrite (be32_bytes ip Hip), ntohl_inv by done. reflexivity.
  - destruct Hw as (Hty & Ht & Hs & Hn). assert (Hh : (type =? DNS_T_A) = false /\ (type =? DNS_T_MX) = false /\ has_name type = true /\ 0 <= type < 65536).
    { apply elem_of_cons in Hty as [->|Hty]; [by split_and!|]. apply elem_of_cons in Hty as [->|Hty]; [by split_and!|]. apply list_elem_of_singleton in Hty as ->. by split_and!. }
    destruct Hh as (H1 & H2 & H3 & H4). rewrite parse_answer_head by (done || lia). cbv zeta. rewrite H1, H2, H3.
    destruct (Hq type ttl (wire ls)) as (E1 & E2 & E3). rewrite E1, <- E2. rewrite dns2host_name_wire; [|done|].
    2:{ rewrite E3 in Hl. pose proof (wire_length ls). lia. }
    cbn [mbind res_bind]. by rewrite Nat2Z.id, E3.
  - destruct Hw as (Ht & Hp & Hs & Hn). rewrite parse_answer_head by (done || (try unfold DNS_T_MX; cbn [length be16]; lia)). cbv zeta.
    change (DNS_T_MX =? DNS_T_A) with false. change (DNS_T_MX =? DNS_T_MX) with true. cbv iota.
    destruct (Hq DNS_T_MX ttl (be16 prio (wire ls))) as (E1 & E2 & E3). rewrite E3 in *. rewrite E1, <- E2, (at_0 get16), get16_app. cbn [be16 app]. rewrite get16_hd. cbn [mbind res_bind].
    rewrite be16_val, ntohs_inv by done. set (e := a ++ rr_head _ _ _) in *. set (p2 := [prio / 256 mod 256; prio mod 256]).
    change (prio / 256 mod 256 :: prio mod 256 :: wire ls ++ b) with (p2 ++ wire ls ++ b). rewrite (app_assoc e).
    replace (length e + 2)%nat with (length (e ++ p2)) by (by rewrite length_app).
    rewrite dns2host_name_wire; [|done|].
    2:{ rewrite length_app. cbn [length be16 p2] in *. pose proof (wire_length ls). lia. }
    cbn [mbind res_bind length be16] in *. rewrite length_app, u16_small by lia. cbn [length p2]. do 2 f_equal. lia.
Qed.
End Parse.

(** ** The response *)

(** A response to a question: header with the flags [fl] and counts, the
    question, the answers and whatever follows. *)
Definition response (id fl ns ar type : Z) (host : list (list Z)) (rs : list rr) (tail : list Z) : list Z :=
  be16 id (be16 fl (be16 1 (be16 (Z.of_nat (length rs)) (be16 ns (be16 ar []))))) ++ wire host ++ be16 type (be16 DNS_C_IN []) ++ concat (map rr_wire rs) ++ tail.

Section Response.
Variables (host : list (list Z)) (len : Z).
Hypothesis (Hhost : Forall short host).

(** A name that refers to the question. *)
Lemma host_reference h x b :
  length h = DNS_HDR -> Z.of_nat (length (h ++ wire host ++ x)) < len ->
  dns2host_name false ((h ++ wire host ++ x) ++ 192 :: 12 :: b) len (Z.of_nat (length (h ++ wire host ++ x))) = Ok (Some (join host)).
Proof using Hhost.
  intros Hh Hl. unfold dns2host_name. cbn [dns2host_loop]. set (a := h ++ wire host ++ x) in *.
  rewrite char_mid. cbn [mbind res_bind]. change (192 =? 0) with false. rewrite (proj2 (Z.leb_gt len _)) by lia. change (0 <? 0) with false. cbn [orb mbind res_bind].
  change (192 =? 192) with true. cbv iota. change (a ++ 192 :: 12 :: b) with (a ++ [192] ++ 12 :: b). rewrite (app_assoc a).
  replace (Z.of_nat (length a) + 1) with (Z.of_nat (length (a ++ [192]))) by (rewrite length_app; cbn; lia). rewrite char_mid. cbn [mbind res_bind].
  change (s8 12) with 12. pose proof (labels_count host). pose proof (wire_length host).
  assert (Ea : (a ++ [192]) ++ 12 :: b = h ++ wire host ++ x ++ [192] ++ 12 :: b) by (unfold a; by rewrite <- !app_assoc).
  assert (Hll : (length (labels host) < length a)%nat /\ Z.of_nat (length h + length (labels host)) <= len) by (unfold a in *; rewrite !length_app in *; lia).
  pose proof (dns2host_labels host (length (h ++ wire host ++ x ++ [192] ++ 12 :: b)) h (x ++ [192] ++ 12 :: b) len 0 32 [] Hhost) as E.
  rewrite <- Ea, dots_first, Hh in E. apply E; [rewrite !length_app; lia|rewrite <- Hh; lia|done|cbn; lia].
Qed.

Lemma parse_answers_eq rs tail h : forall x,
  length h = DNS_HDR -> Forall rr_wf rs -> Z.of_nat (length (h ++ wire host ++ x) + length (concat (map rr_wire rs))) <= len ->
  parse_answers (length rs) false ((h ++ wire host ++ x) ++ concat (map rr_wire rs) ++ tail) len (length (h ++ wire host ++ x)) =
  Ok (map (rr_answer (join host)) rs).
Proof using Hhost.
  intros x Hh. revert x. induction rs as [|r rs IH]; intros x Hw Hl; [done|]. apply Forall_cons in Hw as [Hr Hw].
  cbn [map concat length parse_answers] in *. rewrite (length_app (rr_wire r)) in Hl. set (a := h ++ wire host ++ x) in *. rewrite <- app_assoc.
  assert (Hn : (0 < length (rr_wire r))%nat) by (destruct r; apply Nat.lt_0_succ).
  rewrite (parse_answer_eq a len host); [|intros b; apply host_reference; [done|fold a; lia]|done|rewrite length_app; lia].
  cbn [mbind res_bind]. assert (Ea : a ++ rr_wire r = h ++ wire host ++ x ++ rr_wire r) by (unfold a; by rewrite <- !app_assoc).
  rewrite (app_assoc a), Ea, IH; [done|done|]. rewrite <- Ea, length_app. lia.
Qed.
End Response.

Lemma skip_name_eq l a b len fuel :
  Forall (fun c => c <> 0) l -> Z.of_nat (length a + length l) <= len -> (length l < fuel)%nat ->
  skip_name fuel (a ++ l ++ 0 :: b) len (length a) = Ok (length a + length l)%nat.
Proof.
  revert a fuel. induction l as [|c l IH]; intros a fuel Hl Hn Hf; (destruct fuel as [|fuel]; [cbn in Hf; lia|]); cbn [skip_name app length] in *.
  - change (rd (a ++ 0 :: b) (length a)) with (get8 (a ++ 0 :: b) (length a)). rewrite get8_here. cbn [mbind res_bind]. by rewrite Nat.add_0_r.
  - apply Forall_cons in Hl as [Hc Hl]. change (rd (a ++ c :: l ++ 0 :: b) (length a)) with (get8 (a ++ c :: l ++ 0 :: b) (length a)). rewrite get8_here. cbn [mbind res_bind].
    rewrite (proj2 (Z.eqb_neq c 0) Hc), (proj2 (Z.ltb_lt _ len)) by lia. cbn [negb andb].
    change (a ++ c :: l ++ 0 :: b) with (a ++ [c] ++ l ++ 0 :: b). rewrite (app_assoc a). replace (S (length a)) with (length (a ++ [c])) by (rewrite length_app; cbn; lia).
    rewrite IH by (done || (rewrite ?length_app; cbn [length]; lia)). rewrite length_app. cbn. f_equal. lia.
Qed.

Lemma labels_nonzero ls : Forall is_label ls -> Forall (fun l => Z.of_nat (length l) < 256) ls -> Forall (fun c => c <> 0) (labels ls).
Proof.
  induction ls as [|l ls IH]; intros Hl H8; [by constructor|]. apply Forall_cons in Hl as [[Hn Hc] Hl]. apply Forall_cons in H8 as [H1 H8]. cbn [labels].
  apply Forall_cons. split; [destruct l; [done|]; cbn; lia|]. apply Forall_app. split; [|by apply IH].
  eapply Forall_impl; [exact Hc|]. cbn. unfold nzb. lia.
Qed.

(** The header of a response in the order of the processor. *)
Lemma testbit_field w lo n i : 0 <= i -> 0 <= lo -> 0 <= n -> Z.testbit (field w lo n) i = (Z.testbit w (i + lo) && (i <? n))%bool.
Proof. intros Hi Hlo Hn. unfold field. rewrite Z.land_spec, Z.shiftr_spec by lia. by rewrite Z.testbit_ones_nonneg by lia. Qed.
Lemma field_with_field w lo n v : 0 <= lo -> 0 <= n -> field (with_field w lo n v) lo n = Z.land v (Z.ones n).
Proof.
  intros Hlo Hn. apply Z.bits_inj'. intros i Hi. rewrite testbit_field by lia. unfold with_field.
  rewrite Z.lor_spec, Z.ldiff_spec, !Z.shiftl_spec, !Z.land_spec by lia. replace (i + lo - lo) with i by lia. rewrite !Z.testbit_ones_nonneg by lia.
  by destruct (Z.testbit w (i + lo)), (Z.testbit v i), (i <? n).
Qed.
Lemma field_u16 w lo n : 0 <= lo -> 0 <= n -> lo + n <= 16 -> field (w mod 65536) lo n = field w lo n.
Proof.
  intros Hlo Hn Hs. apply Z.bits_inj'. intros i Hi. rewrite !testbit_field by lia. destruct (Z.ltb_spec i n); [|by rewrite !andb_false_r].
  change 65536 with (2 ^ 16). rewrite Z.mod_pow2_bits_low by lia. done.
Qed.
Lemma buf2dns_eq id fl qc ac ns ar r :
  0 <= id < 65536 -> 0 <= fl < 65536 -> 0 <= qc < 65536 -> 0 <= ac < 65536 ->
  exists h', buf2dns (be16 id (be16 fl (be16 qc (be16 ac (be16 ns (be16 ar [])))) ) ++ r) = Ok (h' ++ r) /\ length h' = DNS_HDR /\
    get16 (h' ++ r) 0 = Ok id /\ rcode (h' ++ r) = Ok (Z.land fl 15) /\ get16 (h' ++ r) 4 = Ok qc /\ get16 (h' ++ r) 6 = Ok ac.
Proof.
  intros Hid Hfl Hqc Hac. set (w0 := fl / 256 mod 256 + 256 * (fl mod 256)). unfold buf2dns.
  assert (E : forall k : list Z -> res (list Z), (b ← swap16_at (be16 id (be16 fl (be16 qc (be16 ac (be16 ns (be16 ar []))))) ++ r) 0; b ← swap16_at b 4; b ← swap16_at b 6; b ← swap16_at b 8;
    b ← swap16_at b 10; k b) = k (le16 id (be16 fl (le16 qc (le16 ac (le16 ns (le16 ar []))))) ++ r)).
  { intros k. unfold be16, le16. cbn [app]. rewrite swap16_hd by apply byte_mod. cbn [mbind res_bind].
    do 4 (rewrite !swap16_S, swap16_hd by apply byte_mod; cbn [mbind res_bind]). reflexivity. }
  rewrite E. assert (E2 : get16 (le16 id (be16 fl (le16 qc (le16 ac (le16 ns (le16 ar []))))) ++ r) 2 = Ok w0) by reflexivity.
  rewrite E2. cbn [mbind res_bind]. cbv zeta. set (w := with_field _ 12 4 _).
  assert (Hw : field w 12 4 = Z.land fl 15).
  { unfold w. rewrite field_with_field by lia. unfold w0. rewrite be16_val, ntohs_inv by done. change 15 with (Z.ones 4). by rewrite <- Z.land_assoc, Z.land_diag. }
  clearbody w. exists (le16 id (le16 w (le16 qc (le16 ac (le16 ns (le16 ar [])))))).
  split; [reflexivity|]. split; [reflexivity|]. split; [unfold le16; cbn [app]; by rewrite get16_hd, le16_val|].
  split; [|split; unfold le16; cbn [app]; rewrite !get16_S, get16_hd; by rewrite le16_val].
  unfold rcode. assert (E3 : get16 (le16 id (le16 w (le16 qc (le16 ac (le16 ns (le16 ar []))))) ++ r) 2 = Ok (w mod 65536)).
  { unfold le16. cbn [app]. rewrite !get16_S, get16_hd. f_equal. change 65536 with (256 * 256). rewrite (Z.rem_mul_r w 256 256) by lia. reflexivity. }
  rewrite E3. cbn [mbind res_bind]. by rewrite field_u16, Hw by lia.
Qed.

(** A socket that delivers [bytes] to the next [udp_read]: at once, or when
    [world] has run; [s2] is the state afterwards. *)
Definition delivers (world : st net unit) (p : sock_ptr) (bytes : list Z) (s s2 : net) : Prop :=
  exists k s1 k1 nb l, assoc (socks s) p = Some k /\ (bufs k = [] -> exiting s = false) /\
    (if bool_decide (bufs k = []) then world else mret tt) s = Ok (tt, s1) /\
    assoc (socks s1) p = Some k1 /\ bufs k1 = nb :: l /\ u_len nb = Z.of_nat (length bytes) /\
    rd_block (data nb) (u_data nb) (length bytes) = Ok bytes /\ s2 = set_socks s1 (update (socks s1) p (fun k => set_bufs k l)).
Lemma delivers_read world p bytes s s2 size :
  delivers world p bytes s s2 -> Z.of_nat (length bytes) <= size < 2 ^ 31 -> udp_read world p size s = Ok (Z.of_nat (length bytes), bytes, s2).
Proof.
  intros (k & s1 & k1 & nb & l & H1 & H2 & H3 & H4 & H5 & H6 & H7 & ->) Hs. unfold udp_read.
  rewrite (st_bind_eq _ _ _ _ _ (sock_at_eq _ _ _ H1)), (st_bind_eq _ _ s s s) by done.
  replace (_ && exiting s)%bool with false by (case_bool_decide; [by rewrite H2|done]).
  rewrite (st_bind_eq _ _ _ _ _ H3), (st_bind_eq _ _ _ _ _ (sock_at_eq _ _ _ H4)), H5, H6.
  replace (if _ <? _ then _ else _) with (Z.of_nat (length bytes)) by (destruct (Z.ltb_spec (Z.of_nat (length bytes)) size); lia).
  rewrite lift_bind, Nat2Z.id, H7. rewrite (st_bind_eq _ _ s1 tt (set_socks s1 (update (socks s1) p (fun k => set_bufs k l)))) by done.
  by rewrite s32_small by lia.
Qed.

Lemma buf2query_eq e type class r :
  buf2query (e ++ be16 type (be16 class r)) (length e) = Ok (e ++ le16 type (le16 class r)).
Proof. unfold buf2query, be16, le16. rewrite swap16_app, !swap16_S, swap16_hd by apply byte_mod. cbn [mbind res_bind]. rewrite (at_0 swap16_at), swap16_app, swap16_hd by apply byte_mod. done. Qed.

Lemma dns_recv_answers world stack p id type ls fl ns ar rs tail s s2 :
  let resp := response id fl ns ar type ls rs tail in
  Forall is_label ls -> Forall short ls -> 0 <= id < 65536 -> 0 <= type < 65536 -> 0 <= fl < 65536 -> Z.land fl 15 = 0 ->
  Forall rr_wf rs -> (length rs <= 20)%nat -> length stack = DNS_BUF -> (length resp <= DNS_BUF)%nat ->
  delivers world p resp s s2 -> nomem s2 = false ->
  dns_recv world stack p id type s = Ok (Some (map (rr_answer (join ls)) rs), s2).
Proof.
  intros resp Hl Hsh Hid Hty Hfl Hrc Hrs Hn Hst Hlen Hdel Hmem. unfold dns_recv.
  assert (Hb512 : Z.of_nat (length resp) <= Z.of_nat DNS_BUF < 2 ^ 31) by (clearbody resp; unfold DNS_BUF in *; lia).
  rewrite (st_bind_eq _ _ _ _ _ (delivers_read _ _ _ _ _ _ Hdel Hb512)).
  set (rest := drop (length resp) stack). assert (E0 : wr_block stack 0 resp = Ok (resp ++ rest)).
  { unfold wr_block, splice. rewrite decide_True by lia. rewrite take_0. done. }
  rewrite lift_bind, E0. set (qu := wire ls ++ be16 type (be16 DNS_C_IN []) ++ concat (map rr_wire rs) ++ tail).
  set (len := u16 (Z.of_nat (length resp))). assert (Elen : len = Z.of_nat (length resp)) by (apply u16_small; unfold DNS_BUF in *; lia).
  assert (Hrl : (length resp = 12 + length qu)%nat) by (unfold resp, response; rewrite length_app; reflexivity).
  assert (Hql : (length qu = S (length (labels ls)) + 4 + length (concat (map rr_wire rs)) + length tail)%nat) by (unfold qu; rewrite !length_app, wire_length; unfold be16; cbn [length]; lia).
  rewrite (proj2 (Z.ltb_ge len (Z.of_nat DNS_HDR))) by (unfold DNS_HDR; lia).
  destruct (buf2dns_eq id fl 1 (Z.of_nat (length rs)) ns ar (qu ++ rest) Hid Hfl ltac:(lia) ltac:(lia)) as (h & B0 & Bh & B1 & B2 & B3 & B4).
  assert (Eresp : resp ++ rest = be16 id (be16 fl (be16 1 (be16 (Z.of_nat (length rs)) (be16 ns (be16 ar []))))) ++ qu ++ rest) by (unfold resp, response; fold qu; by rewrite <- app_assoc).
  rewrite Eresp, lift_bind, B0, lift_bind, B1, lift_bind, B2, lift_bind, B3, Hrc, !Z.eqb_refl. cbn [negb].
  assert (Hnz : Forall (fun c => c <> 0) (labels ls)) by (apply labels_nonzero; [done|]; eapply Forall_impl; [exact Hsh|]; unfold short; cbn; lia).
  set (ans := concat (map rr_wire rs) ++ tail) in *.
  assert (Eq : h ++ qu ++ rest = h ++ labels ls ++ 0 :: be16 type (be16 DNS_C_IN (ans ++ rest))) by (unfold qu, wire; by rewrite <- !app_assoc).
  assert (E1 : skip_name (S (length (h ++ qu ++ rest))) (h ++ qu ++ rest) len DNS_HDR = Ok (length h + length (labels ls))%nat).
  { rewrite Eq, <- Bh at 1. rewrite Eq. apply skip_name_eq; [done|unfold DNS_HDR in *; lia|]. rewrite length_app, (length_app (labels ls)). lia. }
  rewrite lift_bind, E1, lift_bind. rewrite Eq, app_assoc, <- length_app.
  change (rd ((h ++ labels ls) ++ ?x) (length (h ++ labels ls))) with (get8 ((h ++ labels ls) ++ x) (length (h ++ labels ls))). rewrite get8_here.
  change (negb (0 =? 0)) with false. cbv iota zeta.
  set (e := h ++ wire ls). assert (Ee : forall r, (h ++ labels ls) ++ 0 :: r = e ++ r) by (intros r; unfold e, wire; by rewrite <- !app_assoc).
  assert (Hel : S (length (h ++ labels ls)) = length e) by (unfold e; rewrite !length_app, wire_length; lia).
  rewrite Ee, Hel, lift_bind, buf2query_eq, lift_bind.
  assert (G1 : get16 (e ++ le16 type (le16 DNS_C_IN (ans ++ rest))) (length e + 2) = Ok DNS_C_IN) by (rewrite get16_app; reflexivity).
  assert (G2 : get16 (e ++ le16 type (le16 DNS_C_IN (ans ++ rest))) (length e) = Ok type) by (rewrite (at_0 get16), get16_app; unfold le16; by rewrite get16_hd, le16_val).
  assert (G3 : get16 (e ++ le16 type (le16 DNS_C_IN (ans ++ rest))) 6 = Ok (Z.of_nat (length rs))).
  { rewrite <- B4. unfold e. rewrite <- !app_assoc. do 12 (destruct h as [|? h]; [done|]). reflexivity. }
  rewrite G1, lift_bind, G2, lift_bind, G3, !Z.eqb_refl, (proj2 (Z.ltb_ge 20 _)) by lia. cbn [negb]. rewrite (st_bind_eq _ _ s2 s2 s2) by done.
  unfold dns_parse_response. rewrite G3, Hmem. cbn [mbind res_bind]. rewrite Nat2Z.id.
  set (x := le16 type (le16 DNS_C_IN [])). change (le16 type (le16 DNS_C_IN (ans ++ rest))) with (x ++ ans ++ rest). unfold ans. rewrite <- app_assoc.
  replace (length e + DNS_QUERY)%nat with (length (h ++ wire ls ++ x)) by (unfold e; rewrite !length_app; unfold DNS_QUERY; cbn; lia).
  rewrite (app_assoc e). replace (e ++ x) with (h ++ wire ls ++ x) by (unfold e; by rewrite <- app_assoc).
  rewrite parse_answers_eq; [done|done|done|done|]. rewrite !length_app, wire_length, Bh. unfold DNS_HDR. cbn [length x le16]. unfold ans in Hql. rewrite Elen, Hrl, Hql. lia.
Qed.

(** C36: The client sends the question for a name in the format of the protocol,
    and [dns_recv] reads the answers to it.  The labels of the name have at most
    31 bytes (longer ones can overflow the buffer, dns.c:194).  The response that
    the socket delivers has at most 512 bytes and 20 answers; each of them is
    named by 0xC00C, the reference to the name of the question, and has an
    address as its data, or a name that is spelled without references and in
    labels of at most 31 bytes ([rr_wf]).  Then [dns_recv] returns these answers:
    addresses, names and priorities, in their order. *)
Theorem dns_resolves ls t id type :
  ls <> [] -> Forall is_label ls -> Forall short ls -> (length (join ls) <= 255)%nat -> 0 <= id < 65536 -> 0 <= type < 65536 ->
  (exists b, dns_message (join ls ++ 0 :: t) id type = Ok (Some (b, Z.of_nat (length (question id type ls)))) /\
    rd_block b 0 (length (question id type ls)) = Ok (question id type ls)) /\
  forall world stack p fl ns ar rs tail s s2,
    let resp := response id fl ns ar type ls rs tail in
    0 <= fl < 65536 -> Z.land fl 15 = DNS_RC_OK -> Forall rr_wf rs -> (length rs <= 20)%nat ->
    length stack = DNS_BUF -> (length resp <= DNS_BUF)%nat -> delivers world p resp s s2 -> nomem s2 = false ->
    dns_recv world stack p id type s = Ok (Some (map (rr_answer (join ls)) rs), s2).
Proof.
  intros Hne Hl Hsh Hj Hid Hty. split.
  - apply dns_message_question; try done. eapply Forall_impl; [exact Hsh|]. unfold short. cbn. lia.
  - intros. by apply (dns_recv_answers world stack p id type ls fl ns ar rs tail s s2).
Qed.

Definition www_answers : list rr := [RrName DNS_T_CNAME 60 [[99]; [100]]; RrA 300 0x5DB8D822].
Definition www_response : list Z := response 7 0x8180 0 0 DNS_T_A www www_answers [].
Definition asking (l : list net_buf) : net := set_socks host_b [(1%positive, Sock S_UDP 0 40000 0x08080808 53 1 true l (Some 0%nat))].
Lemma www_labels : Forall is_label www /\ Forall short www.
Proof. unfold www, is_label, short, nzb. rewrite !Forall_cons. split_and!; (apply Forall_nil_2 || done || lia || (cbn; lia)). Qed.
Lemma dns_resolves_witness :
  dns_recv (mret tt) (replicate 512 9) 1%positive 7 DNS_T_A (asking [NB 0 200 true 0 (Z.of_nat (length www_response)) www_response]) =
  Ok (Some [Answer (Some (join www)) 5 1 60 0 (Name (Some [99; 46; 100])); Answer (Some (join www)) 1 1 300 0 (Ip 0x5DB8D822)], asking []).
Proof.
  destruct (dns_resolves www [] 7 DNS_T_A) as [_ H]; [done|apply www_labels|apply www_labels|cbn; lia|lia|unfold DNS_T_A; lia|].
  apply (H (mret tt) (replicate 512 9) 1%positive 0x8180 0 0 www_answers [] _ (asking [])); [lia|done| |cbn; lia|done|apply Nat.leb_le; vm_compute; reflexivity| |done].
  - unfold www_answers, rr_wf, short. rewrite !Forall_cons. split_and!; try apply Forall_nil_2; try (cbn; lia); try set_solver.
  - unfold delivers. do 5 eexists. split_and!; reflexivity.
Defined.

(** ** Corners *)

(** The result of [udp_write] passes through 16 bits without a sign: an error
    is a length of 65535. *)
Lemma dns_send_error world p host id type b n s :
  dns_message host id type = Ok (Some (b, n)) -> (forall s', udp_write world p b n s = Ok (-1, s') -> dns_send world p host id type s = Ok (65535, s')).
Proof. intros E s' H. unfold dns_send. rewrite lift_bind, E. by rewrite (st_bind_eq _ _ _ _ _ H). Qed.
(** A reading that fails is taken for a message of 65535 bytes: here what the
    array held before is parsed. *)
Definition exiting_task : net :=
  NetS (netifs host_b) [] [] false [] (socks (asking [])) 2%positive ports0 ports0 10 1 true false [].
Lemma dns_recv_error :
  match dns_recv (mret tt) (www_response ++ replicate 400 0) 1%positive 7 DNS_T_A exiting_task with
  | Ok (Some l, _) => length l = 2%nat
  | _ => False
  end.
Proof. vm_compute. reflexivity. Qed.
(** Without an address among the answers the result is what [ip] held. *)
Lemma dns_hostbyname_junk world servers stack host junk s s' l :
  dns_query world servers stack host DNS_T_A s = Ok (Some l, s') -> Forall (fun a => an_type a <> DNS_T_A) l ->
  dns_hostbyname world servers stack host junk s = Ok (junk, s').
Proof.
  intros H Hl. unfold dns_hostbyname. rewrite (st_bind_eq _ _ _ _ _ H). replace (List.find _ l) with (@None dns_answer); [done|].
  symmetry. clear H. induction Hl as [|a l Ha Hl IH]; [done|]. cbn [List.find]. by rewrite (proj2 (Z.eqb_neq _ _) Ha).
Qed.
End DnsSpec.
