(* ===== verification/Dhcp.v ===== *)
(** * The DHCP client

    src/dhcp.c: the messages that the client builds, the options of the server's
    answers, the exchange over a broadcast UDP socket of Net.v and the interface,
    routes and DNS servers that an answer sets.  A message is the array [buf] of
    bytes, a pointer into it the offset; [stack] is what an uninitialised [buf]
    holds.  The debug output is not modelled, but the reading of its arguments
    is. *)
From S2P Require Import Prelude CString Bmap Net Dns.

Module Dhcp.
Import Net.

Definition DHCP_CLI_PORT : Z := 68.
Definition DHCP_SRV_PORT : Z := 67.
Definition COSIRIS_XID_BASE : Z := 0xC0510000.
Definition OP_REQUEST : Z := 1.
Definition MAGIC_COOKIE : Z := 0x63825363.
Definition OPT_SUBNET_MASK : Z := 1.
Definition OPT_ROUTER : Z := 3.
Definition OPT_DNS : Z := 6.
Definition OPT_HOST_NAME : Z := 12.
Definition OPT_REQUESTED_IP_ADDR : Z := 50.
Definition OPT_LEASE_TIME : Z := 51.
Definition OPT_MESSAGE_TYPE : Z := 53.
Definition OPT_SERVER_ID : Z := 54.
Definition OPT_PARAMETER_REQUEST_LIST : Z := 55.
Definition OPT_END : Z := 255.
Definition DHCP_DISCOVER : Z := 1.
Definition DHCP_OFFER : Z := 2.
Definition DHCP_REQUEST : Z := 3.
Definition DHCP_ACK : Z := 5.
Definition DHCP_NACK : Z := 6.

(** The offsets of the fields of [dhcp_hdr] and its size.  The compiler aligns
    the cookie to a multiple of 4: two bytes lie between it and [boot_file]. *)
Definition H_XID : nat := 4.
Definition H_YOUR_IP : nat := 16.
Definition H_CLI_MAC : nat := 28.
Definition H_COOKIE : nat := 236.
Definition DHCP_HDR : nat := 240.

Record dhcp_opts := Opts {
  type : Z; subnet_mask : Z; routers : list Z; num_routers : Z; dns : list Z; num_dns : Z; lease_time : Z; server_id : Z
}.
Definition opts_zero : dhcp_opts := Opts 0 0 (replicate 4 0) 0 (replicate 4 0) 0 0 0.
Definition set_type (o : dhcp_opts) x := Opts x (subnet_mask o) (routers o) (num_routers o) (dns o) (num_dns o) (lease_time o) (server_id o).
Definition set_mask (o : dhcp_opts) x := Opts (type o) x (routers o) (num_routers o) (dns o) (num_dns o) (lease_time o) (server_id o).
Definition set_routers (o : dhcp_opts) x n := Opts (type o) (subnet_mask o) x n (dns o) (num_dns o) (lease_time o) (server_id o).
Definition set_dns (o : dhcp_opts) x n := Opts (type o) (subnet_mask o) (routers o) (num_routers o) x n (lease_time o) (server_id o).
Definition set_lease (o : dhcp_opts) x := Opts (type o) (subnet_mask o) (routers o) (num_routers o) (dns o) (num_dns o) x (server_id o).
Definition set_server (o : dhcp_opts) x := Opts (type o) (subnet_mask o) (routers o) (num_routers o) (dns o) (num_dns o) (lease_time o) x.

(** ** Messages of the client *)
Definition dhcp_build_hdr (b : list Z) (xid : Z) (mac : list Z) : res (list Z) :=
  b ← put8 b 0 OP_REQUEST;
  b ← put8 b 1 HTYPE_ETH;
  b ← put8 b 2 (Z.of_nat MAC_SIZE);
  b ← put8 b 3 0;
  b ← put32 b H_XID (htonl xid);
  b ← put16 b 8 0;
  b ← put16 b 10 (htons 0x8000);
  b ← put32 b 24 0; b ← put32 b 20 0; b ← put32 b H_YOUR_IP 0; b ← put32 b 12 0;
  m ← rd_block mac 0 MAC_SIZE;
  b ← wr_block b H_CLI_MAC m;
  put32 b H_COOKIE (htonl MAGIC_COOKIE).

Definition xid_of (k : sock_t) : Z := COSIRIS_XID_BASE +u Z.land (pid k) 0xFFFF.

(** A run of [*ptr++ = c], and [memcpy(ptr, .., n); ptr += n]. *)
Definition append (d : list Z * nat) (l : list Z) : res (list Z * nat) :=
  b ← wr_block (d.1) (d.2) l; Ok (b, (d.2 + length l)%nat).
Definition append32 (d : list Z * nat) (v : Z) : res (list Z * nat) := b ← put32 (d.1) (d.2) v; Ok (b, (d.2 + 4)%nat).

(** The array of 512 bytes and the end of the message in it. *)
Definition discover_message (xid : Z) (smac : list Z) : res (list Z * nat) :=
  b ← dhcp_build_hdr (replicate 512 0) xid smac;
  d ← append (b, DHCP_HDR) [OPT_MESSAGE_TYPE; 1; DHCP_DISCOVER];
  d ← append d [OPT_PARAMETER_REQUEST_LIST; 3; OPT_SUBNET_MASK; OPT_ROUTER; OPT_DNS];
  append d [OPT_END].

(** [strcpy] of the name writes its terminator too, which the next option
    overwrites. *)
Definition cOSiris : list Z := [99; 79; 83; 105; 114; 105; 115].
Definition request_message (xid : Z) (dhcp : list Z) (opts : dhcp_opts) : res (list Z * nat) :=
  cli_mac ← rd_block dhcp H_CLI_MAC MAC_SIZE;
  b ← dhcp_build_hdr (replicate 512 0) xid cli_mac;
  d ← append (b, DHCP_HDR) [OPT_MESSAGE_TYPE; 1; DHCP_REQUEST];
  d ← append d [OPT_SERVER_ID; 4];
  d ← append32 d (htonl (server_id opts));
  d ← append d [OPT_REQUESTED_IP_ADDR; 4];
  your_ip ← get32 dhcp H_YOUR_IP;
  d ← append32 d your_ip;
  d ← append d [OPT_HOST_NAME; 7];
  b ← wr_block (d.1) (d.2) (cOSiris ++ [0]);
  d ← append (b, (d.2 + 7)%nat) [OPT_PARAMETER_REQUEST_LIST; 3];
  d ← append d [OPT_SUBNET_MASK; OPT_ROUTER; OPT_DNS];
  append d [OPT_END].

(** ** Options *)

(** The loop over the addresses of an option: [n] places to go, [i] the next
    one of [arr], [num] the counter; the counters have 8 bits. *)
Fixpoint opt_addrs (n i : nat) (b : list Z) (p : nat) (len : Z) (arr : list Z) (num : Z) : res (list Z * Z * nat * Z) :=
  match n with
  | O => Ok (arr, num, p, len)
  | S n' =>
      if 0 <? len then
        v ← get32 b p;
        arr ← wr arr i (ntohl v);
        opt_addrs n' (S i) b (p + 4) (u8 (len - 4)) arr (u8 (num + 1))
      else Ok (arr, num, p, len)
  end.
(** The [switch]: the options, the pointer and what is left of the length. *)
Definition parse_option (op len : Z) (b : list Z) (p : nat) (o : dhcp_opts) : res (dhcp_opts * nat * Z) :=
  if op =? OPT_MESSAGE_TYPE then v ← get8 b p; Ok (set_type o v, p, len)
  else if op =? OPT_SUBNET_MASK then v ← get32 b p; Ok (set_mask o (ntohl v), p, len)
  else if op =? OPT_ROUTER then
    '(arr, num, p, len) ← opt_addrs 4 0 b p len (routers o) (num_routers o); Ok (set_routers o arr num, p, len)
  else if op =? OPT_DNS then
    '(arr, num, p, len) ← opt_addrs 4 0 b p len (dns o) (num_dns o); Ok (set_dns o arr num, p, len)
  else if op =? OPT_LEASE_TIME then v ← get32 b p; Ok (set_lease o (ntohl v), p, len)
  else if op =? OPT_SERVER_ID then v ← get32 b p; Ok (set_server o (ntohl v), p, len)
  else _ ← get8 b p; Ok (o, p, len).
(** The loop over the options up to the offset [lim]. *)
Fixpoint opts_loop (fuel : nat) (b : list Z) (lim : Z) (p : nat) (o : dhcp_opts) : res dhcp_opts :=
  match fuel with
  | O => Err EFuel
  | S fuel =>
      if Z.of_nat p <? lim then
        c ← get8 b p;
        if c =? OPT_END then Ok o
        else
          op ← get8 b p; len ← get8 b (p + 1);
          '(o, p, len) ← parse_option op len b (p + 2) o;
          opts_loop fuel b lim (p + Z.to_nat len) o
      else Ok o
  end.
(** [dhcp + len] wraps around: it is the offset [s32 len].  Every round goes on
    by two bytes at least.  The result is [None] for -1. *)
Definition dhcp_parse_opts (b : list Z) (len : Z) : res (option dhcp_opts) :=
  cookie ← get32 b H_COOKIE;
  if negb (ntohl cookie =? MAGIC_COOKIE) then Ok None
  else o ← opts_loop (S (length b)) b (s32 len) DHCP_HDR opts_zero; Ok (Some o).

(** ** The exchange *)

(** The stack and the table of DNS servers of dns.c. *)
Record hstate := DS { netst : net; servers : list Z }.
Definition on_net {A} (m : st net A) : st hstate A := fun s =>
  match m (netst s) with Ok (a, n) => Ok (a, DS n (servers s)) | Err e => Err e end.
Definition dns_add_st (ip : Z) : st hstate Z := fun s => let '(r, l) := Dns.dns_add (servers s) ip in Ok (r, DS (netst s) l).

Definition set_ip0 (i : nat) (ip : Z) : st net unit :=
  f ← netif_at i;
  l ← lift (wr (ips f) 0 ip);
  modify (fun s => set_netifs s (<[i := NetIf (if_id f) (mac f) l (priv f)]> (netifs s))).
Fixpoint add_servers (n i : nat) (arr : list Z) : st hstate unit :=
  match n with
  | O => mret tt
  | S n' => ip ← lift (rd arr i); dns_add_st ip;; add_servers n' (S i) arr
  end.
Definition dhcp_set_netif (i : nat) (b : list Z) (opts : dhcp_opts) : st hstate Z :=
  your_ip ← lift (get32 b H_YOUR_IP);
  on_net (set_ip0 i (ntohl your_ip));;
  (if 0 <? num_routers opts then r ← lift (rd (routers opts) 0); on_net (route_add 0 0 r i) else mret 0);;
  (if negb (subnet_mask opts =? 0) then
     f ← on_net (netif_at i);
     ip ← lift (rd (ips f) 0);
     on_net (route_add (Z.land ip (subnet_mask opts)) (subnet_mask opts) 0 i)
   else mret 0);;
  add_servers (Z.to_nat (num_dns opts)) 0 (dns opts);;
  mret 0.

Section World.
Variable world : st net unit.
(** The array [buf] of a call of [dhcp_recv], by the calls that may follow. *)
Variable stack : nat -> list Z.

Definition dhcp_discover (p : sock_ptr) (smac : list Z) : st net Z :=
  k ← sock_at p;
  '(b, ptr) ← lift (discover_message (xid_of k) smac);
  udp_write world p b (Z.of_nat ptr).
Definition dhcp_request (p : sock_ptr) (dhcp : list Z) (opts : dhcp_opts) : st net Z :=
  k ← sock_at p;
  '(b, ptr) ← lift (request_message (xid_of k) dhcp opts);
  udp_write world p b (Z.of_nat ptr).

(** [depth] bounds the calls that the kernel stack has room for. *)
Fixpoint dhcp_recv (depth : nat) (p : sock_ptr) (i : nat) : st hstate Z :=
  match depth with
  | O => fail EFuel
  | S depth =>
      k ← on_net (sock_at p);
      '(len, bytes) ← on_net (udp_read world p 640);
      b ← lift (wr_block (stack depth) 0 bytes);
      x ← lift (get32 b H_XID);
      if negb (ntohl x =? xid_of k) then mret (-1)
      else
        o ← lift (dhcp_parse_opts b (u32 len));
        match o with
        | None => mret (-1)
        | Some opts =>
            if type opts =? DHCP_OFFER then on_net (dhcp_request p b opts);; dhcp_recv depth p i;; mret 0
            else if type opts =? DHCP_ACK then dhcp_set_netif i b opts;; mret 0
            else mret (-1)
        end
  end.

(** The socket of [dhcp_init], bound and connected; [sock_set_netif] uses it
    without a test. *)
Definition dhcp_socket (i : nat) : st net sock_ptr :=
  sock ← sock_alloc S_UDP;
  match sock with
  | None => fail ENull
  | Some p =>
      sock_set_netif p i;;
      sock_bind p ADDR_ANY DHCP_CLI_PORT;;
      udp_connect p (make_ip 255 255 255 255) DHCP_SRV_PORT;;
      mret p
  end.
Definition dhcp_init (depth : nat) (i : nat) : st hstate Z :=
  f ← on_net (netif_at i);
  if negb (priv f) then mret (-1)
  else
    on_net (set_ip0 i 0);;
    p ← on_net (dhcp_socket i);
    f ← on_net (netif_at i);
    on_net (dhcp_discover p (mac f));;
    ret ← dhcp_recv depth p i;
    on_net (udp_close p);;
    mret ret.
End World.
End Dhcp.
