(* ===== verification/DhcpSpec.v ===== *)
(** * The DHCP client: messages, options and the exchange

    A reference format of messages with its options, to which the messages of the
    client and the parser of options in Dhcp.v are related; the safety of the
    parser on any bytes; the exchange of four messages and the messages that the
    client rejects. *)
From S2P Require Import Prelude CString Bmap Net NetWire NetSpec NetTable NetArp Dns DnsSpec Dhcp.

Module DhcpSpec.
Import Net NetWire NetSpec NetTable Dhcp.
Import NetArp(is_mac, is_mac_bytes).
Import DnsSpec(delivers, delivers_read).

(** ** The format *)
Inductive opt := OType (t : Z) | OMask (m : Z) | ORouters (l : list Z) | ODns (l : list Z) | OLease (v : Z) | OServer (v : Z) | OOther (op : Z) (d : list Z).
Definition addrs (l : list Z) (r : list Z) : list Z := foldr be32 r l.
Definition opt_wire (x : opt) (r : list Z) : list Z :=
  match x with
  | OType t => 53 :: 1 :: t :: r
  | OMask m => 1 :: 4 :: be32 m r
  | ORouters l => 3 :: Z.of_nat (4 * length l) :: addrs l r
  | ODns l => 6 :: Z.of_nat (4 * length l) :: addrs l r
  | OLease v => 51 :: 4 :: be32 v r
  | OServer v => 54 :: 4 :: be32 v r
  | OOther op d => op :: Z.of_nat (length d) :: d ++ r
  end.
Definition opts_wire (l : list opt) (r : list Z) : list Z := foldr opt_wire r l.
Definition word (v : Z) : Prop := 0 <= v < 2 ^ 32.
Definition opt_wf (x : opt) : Prop :=
  match x with
  | OType t => is_byte t
  | OMask v | OLease v | OServer v => word v
  | ORouters l | ODns l => Forall word l /\ (length l < 64)%nat
  | OOther op d => op ∉ [0; 1; 3; 6; 51; 53; 54; 255] /\ (length d < 256)%nat
  end.
(** What an option stands for; at most four addresses of a kind are kept. *)
Definition opt_apply (o : dhcp_opts) (x : opt) : dhcp_opts :=
  let keep arr l := splice arr 0 (take 4 l) in let count n l := u8 (n + Z.of_nat (length (take 4 l))) in
  match x with
  | OType t => set_type o t
  | OMask m => set_mask o m
  | ORouters l => set_routers o (keep (routers o) l) (count (num_routers o) l)
  | ODns l => set_dns o (keep (dns o) l) (count (num_dns o) l)
  | OLease v => set_lease o v
  | OServer v => set_server o v
  | OOther _ _ => o
  end.

(** A message: what the client does not read is [pk_head] (4 bytes), [pk_mid]
    (8), [pk_addrs] (8), [pk_rest] (202) and what follows the options. *)
Record packet := Packet {
  pk_head : list Z; pk_xid : Z; pk_mid : list Z; pk_your : Z; pk_addrs : list Z; pk_mac : list Z; pk_rest : list Z;
  pk_opts : list opt; pk_tail : list Z
}.
Definition pk_header (m : packet) : list Z :=
  pk_head m ++ be32 (pk_xid m) [] ++ pk_mid m ++ be32 (pk_your m) [] ++ pk_addrs m ++ pk_mac m ++ pk_rest m.
Definition pk_body (m : packet) (r : list Z) : list Z := opts_wire (pk_opts m) (255 :: r).
Definition pk_wire (m : packet) : list Z := pk_header m ++ be32 MAGIC_COOKIE (pk_body m (pk_tail m)).
Definition pk_wf (m : packet) : Prop :=
  length (pk_head m) = 4%nat /\ word (pk_xid m) /\ length (pk_mid m) = 8%nat /\ word (pk_your m) /\ length (pk_addrs m) = 8%nat /\
  is_mac (pk_mac m) /\ length (pk_rest m) = 202%nat /\ Forall opt_wf (pk_opts m).
Definition pk_options (m : packet) : dhcp_opts := foldl opt_apply opts_zero (pk_opts m).

Lemma addrs_app l a b : addrs l (a ++ b) = addrs l a ++ b.
Proof. unfold addrs. induction l as [|x l IH]; [done|]. cbn [foldr]. by rewrite IH. Qed.
Lemma addrs_length l r : length (addrs l r) = (4 * length l + length r)%nat.
Proof. unfold addrs. induction l as [|x l IH]; [done|]. cbn [foldr be32 be16 length]. rewrite IH. lia. Qed.
Lemma opt_wire_app x a b : opt_wire x (a ++ b) = opt_wire x a ++ b.
Proof. destruct x; cbn [opt_wire app]; rewrite ?addrs_app, <- ?app_assoc; done. Qed.
Lemma opts_wire_app l a b : opts_wire l (a ++ b) = opts_wire l a ++ b.
Proof. unfold opts_wire. induction l as [|x l IH]; [done|]. cbn [foldr]. by rewrite IH, opt_wire_app. Qed.
Lemma opt_wire_nil x r : opt_wire x r = opt_wire x [] ++ r.
Proof. exact (opt_wire_app x [] r). Qed.
Lemma opts_wire_nil l r : opts_wire l r = opts_wire l [] ++ r.
Proof. exact (opts_wire_app l [] r). Qed.

(** ** Fields *)
Lemma get32_be e v r : word v -> get32 (e ++ be32 v r) (length e) = Ok (ntohl v).
Proof. intros Hv. rewrite (at_0 get32), get32_app. unfold be32, be16. rewrite get32_hd. f_equal. exact (be32_bytes v Hv). Qed.
Section Fields.
Variables (m : packet) (r : list Z).
Hypothesis Hm : pk_wf m.
Lemma pk_header_length : length (pk_header m) = 236%nat.
Proof using Hm. destruct Hm as (H1 & _ & H2 & _ & H3 & H4 & H5 & _). red in H4. unfold pk_header. rewrite !length_app, H1, H2, H3, H4, H5. done. Qed.
Lemma pk_fields : let b := pk_wire m ++ r in
  get32 b H_XID = Ok (ntohl (pk_xid m)) /\ get32 b H_YOUR_IP = Ok (ntohl (pk_your m)) /\ rd_block b H_CLI_MAC MAC_SIZE = Ok (pk_mac m) /\
  get32 b H_COOKIE = Ok (ntohl MAGIC_COOKIE).
Proof using Hm.
  pose proof pk_header_length as Hl. destruct Hm as (H1 & Hx & H2 & Hy & H3 & H4 & _ & _). red in H4. unfold pk_wire. split_and!.
  - unfold pk_header. rewrite <- !app_assoc. change H_XID with 4%nat. rewrite <- H1. by apply (get32_be _ (pk_xid m)).
  - unfold pk_header. rewrite <- !app_assoc, (app_assoc (pk_head m)), (app_assoc _ (pk_mid m)).
    replace H_YOUR_IP with (length ((pk_head m ++ be32 (pk_xid m) []) ++ pk_mid m)) by (rewrite !length_app, H1, H2; done). by apply (get32_be _ (pk_your m)).
  - unfold pk_header. rewrite <- !app_assoc, (app_assoc (pk_head m)), (app_assoc _ (pk_mid m)), (app_assoc _ (be32 (pk_your m) [])), (app_assoc _ (pk_addrs m)).
    replace H_CLI_MAC with (length ((((pk_head m ++ be32 (pk_xid m) []) ++ pk_mid m) ++ be32 (pk_your m) []) ++ pk_addrs m)) by (rewrite !length_app, H1, H2, H3; done).
    replace MAC_SIZE with (length (pk_mac m)) by done. apply rd_block_at.
  - rewrite <- app_assoc. change H_COOKIE with 236%nat. rewrite <- Hl. change (be32 MAGIC_COOKIE (pk_body m (pk_tail m)) ++ r) with (be32 MAGIC_COOKIE (pk_body m (pk_tail m) ++ r)).
    apply get32_be. done.
Qed.
End Fields.

(** ** Options of the format *)
Lemma u8_add_l a b : u8 (u8 a + b) = u8 (a + b).
Proof. apply Z.add_mod_idemp_l. lia. Qed.

Lemma opt_addrs_eq l : forall n i e r arr num, Forall word l -> (i + n = length arr)%nat -> (length l < 64)%nat -> 0 <= num < 256 ->
  let k := length (take n l) in
  opt_addrs n i (e ++ addrs l r) (length e) (Z.of_nat (4 * length l)) arr num =
  Ok (splice arr i (take n l), u8 (num + Z.of_nat k), (length e + 4 * k)%nat, Z.of_nat (4 * (length l - n))).
Proof.
  induction l as [|x l IH]; intros n i e r arr num Hw Hi Hl Hn; (destruct n as [|n]; cbn [opt_addrs take length]).
  1-3: cbn zeta; rewrite ?Nat.mul_0_r; change (Z.of_nat 0) with 0; rewrite splice_nil, Z.add_0_r, (u8_small num), ?Nat.add_0_r, ?Nat.sub_0_r by done; done.
  cbn [length] in Hl. apply Forall_cons in Hw as [Hx Hw]. rewrite (proj2 (Z.ltb_lt 0 _)) by lia. cbn [addrs foldr].
  fold (addrs l r). rewrite get32_be by done. cbn [mbind res_bind]. rewrite ntohl_inv, wr_in by (done || lia). cbn [mbind res_bind].
  replace (u8 (Z.of_nat (4 * S (length l)) - 4)) with (Z.of_nat (4 * length l)) by (rewrite u8_small; lia).
  set (e' := e ++ be32 x []). replace (e ++ be32 x (addrs l r)) with (e' ++ addrs l r) by (unfold e'; by rewrite <- app_assoc).
  assert (He : length e' = (length e + 4)%nat) by (unfold e'; by rewrite length_app). rewrite <- He.
  rewrite IH; [|done|rewrite length_insert; lia|lia|apply u8_range].
  rewrite splice_cons by (rewrite length_take; lia). rewrite u8_add_l, He. cbn zeta. f_equal. repeat (f_equal; try lia).
Qed.

Definition opts_ok (o : dhcp_opts) : Prop :=
  is_byte (type o) /\ word (subnet_mask o) /\ (Forall word (routers o) /\ length (routers o) = 4%nat /\ is_byte (num_routers o)) /\
  (Forall word (dns o) /\ length (dns o) = 4%nat /\ is_byte (num_dns o)) /\ word (lease_time o) /\ word (server_id o).
Lemma opts_zero_ok : opts_ok opts_zero.
Proof. unfold opts_ok, is_byte, word. cbn. split_and!; (lia || done || (repeat (apply Forall_cons_2; [lia|]); apply Forall_nil_2)). Qed.
Lemma splice_addrs arr l : Forall word arr -> length arr = 4%nat -> Forall word l ->
  Forall word (splice arr 0 (take 4 l)) /\ length (splice arr 0 (take 4 l)) = 4%nat.
Proof.
  intros Ha Hn Hl. split; [|rewrite length_splice; rewrite ?length_take; lia].
  unfold splice. rewrite take_0. cbn [app]. apply Forall_app. split; [by apply Forall_take|by apply Forall_drop].
Qed.
Lemma opt_apply_ok o x : opts_ok o -> opt_wf x -> opts_ok (opt_apply o x).
Proof.
  intros (H1 & H2 & (H3 & H4 & H5) & (H6 & H7 & H8) & H9 & H10) Hx.
  destruct x; cbn [opt_wf opt_apply] in *; unfold opts_ok; cbn [set_type set_mask set_routers set_dns set_lease set_server type subnet_mask routers num_routers dns num_dns lease_time server_id].
  3: destruct (splice_addrs (routers o) l H3 H4) as [? ?]; [by destruct Hx|]. 4: destruct (splice_addrs (dns o) l H6 H7) as [? ?]; [by destruct Hx|].
  all: split_and!; try done; apply u8_range.
Qed.

Lemma get8_at e x y r : get8 (e ++ x :: y :: r) (length e) = Ok x /\ get8 (e ++ x :: y :: r) (length e + 1) = Ok y.
Proof. split; [apply get8_here|]. by rewrite get8_app. Qed.

(** The tests of the [switch] on a known code. *)
Ltac closed_tests :=
  repeat match goal with |- context [?a =? ?b] =>
    let v := eval vm_compute in (a =? b) in
    match v with true => change (a =? b) with true | false => change (a =? b) with false end
  end; cbv iota.
(** One round of the loop reads one option of the format. *)
Lemma opts_round e x c r lim o fuel : opts_ok o -> opt_wf x -> Z.of_nat (length e) < lim ->
  opts_loop (S fuel) (e ++ opt_wire x (c :: r)) lim (length e) o =
  opts_loop fuel (e ++ opt_wire x (c :: r)) lim (length (e ++ opt_wire x [])) (opt_apply o x).
Proof.
  intros (H1 & H2 & (H3 & H4 & H5) & (H6 & H7 & H8) & H9 & H10) Hx Hl. cbn [opts_loop]. rewrite (proj2 (Z.ltb_lt _ _) Hl).
  assert (Hrd : forall a n d, get8 (e ++ a :: n :: d) (length e) = Ok a /\ get8 (e ++ a :: n :: d) (length e + 1) = Ok n) by (intros; apply get8_at).
  assert (He2 : forall a n, length (e ++ [a; n]) = (length e + 2)%nat) by (intros; by rewrite length_app).
  assert (Hs2 : forall a n d, e ++ a :: n :: d = (e ++ [a; n]) ++ d) by (intros; by rewrite <- app_assoc).
  destruct x as [t|v|l|l|v|v|op d]; cbn [opt_wire opt_wf opt_apply] in *.
  3,4: destruct Hx as [Hw Hlen].
  7: destruct Hx as [Hop Hlen].
  all: match goal with |- context [?y ++ ?a :: ?n :: ?z] => destruct (Hrd a n z) as [-> ->] end; cbn [mbind res_bind].
  all: unfold parse_option.
  1-6: closed_tests.
  - rewrite Hs2, <- (He2 53 1), get8_here. cbn [mbind res_bind]. f_equal. rewrite !length_app. cbn. lia.
  - rewrite Hs2, <- (He2 1 4), get32_be by done.
    cbn [mbind res_bind]. rewrite ntohl_inv by done. f_equal. rewrite !length_app. cbn. lia.
  - rewrite Hs2, <- (He2 3 (Z.of_nat (4 * length l))), opt_addrs_eq by (done || lia). cbn [mbind res_bind]. f_equal.
    rewrite !length_app, length_take. cbn [length]. rewrite addrs_length. cbn [length]. lia.
  - rewrite Hs2, <- (He2 6 (Z.of_nat (4 * length l))), opt_addrs_eq by (done || lia). cbn [mbind res_bind]. f_equal.
    rewrite !length_app, length_take. cbn [length]. rewrite addrs_length. cbn [length]. lia.
  - rewrite Hs2, <- (He2 51 4), get32_be by done. cbn [mbind res_bind]. rewrite ntohl_inv by done. f_equal. rewrite !length_app. cbn. lia.
  - rewrite Hs2, <- (He2 54 4), get32_be by done. cbn [mbind res_bind]. rewrite ntohl_inv by done. f_equal. rewrite !length_app. cbn. lia.
  - repeat (apply not_elem_of_cons in Hop as [? Hop]).
    assert (Hno : (op =? OPT_END) = false /\ (op =? OPT_MESSAGE_TYPE) = false /\ (op =? OPT_SUBNET_MASK) = false /\ (op =? OPT_ROUTER) = false /\ (op =? OPT_DNS) = false /\
      (op =? OPT_LEASE_TIME) = false /\ (op =? OPT_SERVER_ID) = false) by (split_and!; by apply Z.eqb_neq).
    destruct Hno as (-> & -> & -> & -> & -> & -> & ->).
    assert (Hv : exists v, get8 ((e ++ [op; Z.of_nat (length d)]) ++ d ++ c :: r) (length (e ++ [op; Z.of_nat (length d)])) = Ok v)
      by (destruct d; eexists; cbn [app]; apply get8_here).
    destruct Hv as [v Hv]. rewrite Hs2, <- (He2 op (Z.of_nat (length d))), Hv. cbn [mbind res_bind]. f_equal. rewrite !length_app. cbn [length]. rewrite length_app. cbn [length]. lia.
Qed.
Lemma opt_wire_length x : (2 <= length (opt_wire x []))%nat.
Proof. destruct x; cbn [opt_wire length]; lia. Qed.
Lemma opts_loop_wire l : forall e o fuel lim r, opts_ok o -> Forall opt_wf l -> (length l < fuel)%nat -> Z.of_nat (length (e ++ opts_wire l [])) < lim ->
  opts_loop fuel (e ++ opts_wire l (255 :: r)) lim (length e) o = Ok (foldl opt_apply o l).
Proof.
  induction l as [|x l IH]; intros e o fuel lim r Ho Hw Hf Hl; (destruct fuel as [|fuel]; [cbn in Hf; lia|]).
  - unfold opts_wire in *. cbn [foldr foldl opts_loop] in *. rewrite app_nil_r in Hl. rewrite (proj2 (Z.ltb_lt _ _) Hl), get8_here. done.
  - apply Forall_cons in Hw as [Hx Hw]. cbn [opts_wire foldr foldl length] in *. change (foldr opt_wire (255 :: r) l) with (opts_wire l (255 :: r)). change (foldr opt_wire [] l) with (opts_wire l []) in Hl.
    assert (Hs : forall y, e ++ opt_wire x y = (e ++ opt_wire x []) ++ y) by (intros y; by rewrite <- app_assoc, <- opt_wire_nil).
    rewrite Hs, length_app in Hl. destruct (opts_wire l (255 :: r)) as [|c z] eqn:E.
    { exfalso. apply (f_equal length) in E. rewrite (opts_wire_nil l (255 :: r)), length_app in E. cbn in E. lia. }
    rewrite opts_round; [|done|done|rewrite length_app in Hl; lia]. rewrite Hs, <- E. apply IH; [by apply opt_apply_ok|done|lia|by rewrite length_app].
Qed.
Lemma opts_wire_count l : (length l <= length (opts_wire l []))%nat.
Proof.
  unfold opts_wire. induction l as [|x l IH]; [done|]. cbn [foldr length].
  rewrite opt_wire_nil, length_app. pose proof (opt_wire_length x). lia.
Qed.

Lemma parse_packet m r len :
  pk_wf m -> Z.of_nat (length (pk_header m ++ be32 MAGIC_COOKIE (pk_body m []))) <= len < 2 ^ 31 ->
  dhcp_parse_opts (pk_wire m ++ r) len = Ok (Some (pk_options m)).
Proof.
  intros Hm Hl. destruct (pk_fields m r Hm) as (_ & _ & _ & Hc). pose proof (pk_header_length m Hm) as Hh. unfold dhcp_parse_opts. rewrite Hc. cbn [mbind res_bind].
  change (negb (ntohl (ntohl MAGIC_COOKIE) =? MAGIC_COOKIE)) with false. cbv iota. rewrite s32_small by lia.
  set (e := pk_header m ++ be32 MAGIC_COOKIE []).
  assert (He : length e = DHCP_HDR) by (unfold e; rewrite length_app, Hh; done).
  assert (Hs : pk_wire m ++ r = e ++ opts_wire (pk_opts m) (255 :: pk_tail m ++ r)).
  { unfold pk_wire, pk_body, e. rewrite <- !app_assoc. f_equal. unfold be32, be16. cbn [app]. do 4 f_equal. by rewrite <- opts_wire_app. }
  assert (Hn : (length e + length (opts_wire (pk_opts m) []) + 1)%nat = length (pk_header m ++ be32 MAGIC_COOKIE (pk_body m []))).
  { unfold pk_body, e. rewrite (opts_wire_nil _ [255]). unfold be32, be16. rewrite !length_app. cbn [length]. rewrite length_app. cbn [length]. lia. }
  rewrite Hs, <- He. pose proof (opts_wire_count (pk_opts m)).
  rewrite opts_loop_wire; [done|apply opts_zero_ok|by destruct Hm as (_ & _ & _ & _ & _ & _ & _ & ?)| |rewrite length_app; lia].
  rewrite length_app, (opts_wire_nil _ (255 :: _)), length_app. lia.
Qed.

(** *** What the options of a message say, field by field *)
Definition as_type (x : opt) : option Z := match x with OType v => Some v | _ => None end.
Definition as_mask (x : opt) : option Z := match x with OMask v => Some v | _ => None end.
Definition as_lease (x : opt) : option Z := match x with OLease v => Some v | _ => None end.
Definition as_server (x : opt) : option Z := match x with OServer v => Some v | _ => None end.
Definition as_routers (x : opt) : option (list Z) := match x with ORouters v => Some v | _ => None end.
Definition as_dns (x : opt) : option (list Z) := match x with ODns v => Some v | _ => None end.
(** The value of a kind of option that is given last. *)
Definition given {A} (as_ : opt -> option A) (l : list opt) (none : A) : A := default none (last (omap as_ l)).
(** A kind of option occurs at most once. *)
Definition at_most_once {A} (as_ : opt -> option A) (l : list opt) : Prop := (length (omap as_ l) <= 1)%nat.

Lemma given_cons {A} (as_ : opt -> option A) x l none :
  given as_ (x :: l) none = given as_ l (default none (as_ x)).
Proof.
  unfold given. cbn [omap list_omap]. change (list_omap _ _ as_ l) with (omap as_ l).
  destruct (as_ x) as [v|]; [|done]. rewrite last_cons. by destruct (last (omap as_ l)).
Qed.

(** A field that every option of its kind sets is the last of their values. *)
Lemma foldl_given (get : dhcp_opts -> Z) (as_ : opt -> option Z) :
  (forall o x, get (opt_apply o x) = default (get o) (as_ x)) ->
  forall l o, get (foldl opt_apply o l) = given as_ l (get o).
Proof. intros H l. induction l as [|x l IH]; intros o; [done|]. cbn [foldl]. by rewrite IH, H, given_cons. Qed.

(** The addresses of a list that occurs at most once. *)
Definition kept (arr : list Z) (num : Z) : list Z := take (Z.to_nat num) arr.
Lemma foldl_kept (arr : dhcp_opts -> list Z) (num : dhcp_opts -> Z) (as_ : opt -> option (list Z)) :
  (forall o x, as_ x = None -> arr (opt_apply o x) = arr o /\ num (opt_apply o x) = num o) ->
  (forall o x l, as_ x = Some l -> arr (opt_apply o x) = splice (arr o) 0 (take 4 l) /\
    num (opt_apply o x) = u8 (num o + Z.of_nat (length (take 4 l)))) ->
  forall l o, at_most_once as_ l -> length (arr o) = 4%nat -> num o = 0 ->
    kept (arr (foldl opt_apply o l)) (num (foldl opt_apply o l)) = take 4 (given as_ l []) /\
    num (foldl opt_apply o l) = Z.min 4 (Z.of_nat (length (given as_ l []))).
Proof.
  intros Hnone Hsome. unfold at_most_once, kept.
  assert (Hrest : forall l o, omap as_ l = [] -> arr (foldl opt_apply o l) = arr o /\ num (foldl opt_apply o l) = num o).
  { induction l as [|x l IH]; intros o E; [done|]. cbn [omap list_omap foldl] in *. destruct (as_ x) eqn:Ex; [done|].
    destruct (IH (opt_apply o x) E) as [-> ->]. by apply Hnone. }
  induction l as [|x l IH]; intros o Hl Ha Hn.
  - cbn [foldl]. unfold given. cbn. rewrite Hn. done.
  - rewrite given_cons. cbn [foldl omap list_omap] in *. change (list_omap _ _ as_ l) with (omap as_ l) in Hl.
    destruct (as_ x) as [v|] eqn:Ex; cbn [default] in *.
    + cbn [length] in Hl. destruct (omap as_ l) eqn:E; [|cbn in Hl; lia]. unfold given. rewrite E. cbn [last default].
      destruct (Hrest l (opt_apply o x) E) as [-> ->], (Hsome o x v Ex) as [-> ->].
      assert (Hk : (length (take 4 v) <= 4)%nat) by (rewrite length_take; lia).
      rewrite Hn, Z.add_0_l, u8_small by lia. unfold splice. rewrite take_0, Nat2Z.id. cbn [app].
      rewrite take_app_length. split; [done|]. rewrite length_take. unfold id. lia.
    + destruct (Hnone o x Ex) as [E1 E2]. apply IH; [done|by rewrite E1|by rewrite E2].
Qed.

(** C34: The options of a well-formed message are parsed to what they say, field
    by field.  The message has the format of the protocol with two exceptions:
    there is no pad option, whose single byte 0 the parser takes for an option
    with a length (finding at dhcp.c:193), and the lists of routers and of name
    servers are given at most once (a second list is counted on top of the
    first, dhcp.c:204).  For any order of the options, any others in between and
    any bytes behind the end mark: type, mask, lease time and server are the
    values given last, or 0; the first four routers and name servers are kept,
    in order, and their numbers say how many.  Without the cookie nothing is
    parsed. *)
Theorem dhcp_options_parse m r len :
  pk_wf m -> at_most_once as_routers (pk_opts m) -> at_most_once as_dns (pk_opts m) ->
  Z.of_nat (length (pk_header m ++ be32 MAGIC_COOKIE (pk_body m []))) <= len < 2 ^ 31 ->
  (exists o, dhcp_parse_opts (pk_wire m ++ r) len = Ok (Some o) /\
    type o = given as_type (pk_opts m) 0 /\ subnet_mask o = given as_mask (pk_opts m) 0 /\
    lease_time o = given as_lease (pk_opts m) 0 /\ server_id o = given as_server (pk_opts m) 0 /\
    take (Z.to_nat (num_routers o)) (routers o) = take 4 (given as_routers (pk_opts m) []) /\
    num_routers o = Z.min 4 (Z.of_nat (length (given as_routers (pk_opts m) []))) /\
    take (Z.to_nat (num_dns o)) (dns o) = take 4 (given as_dns (pk_opts m) []) /\
    num_dns o = Z.min 4 (Z.of_nat (length (given as_dns (pk_opts m) [])))) /\
  forall b cookie, get32 b H_COOKIE = Ok cookie -> ntohl cookie <> MAGIC_COOKIE -> dhcp_parse_opts b len = Ok None.
Proof.
  intros Hm Hr Hd Hl. split.
  - exists (pk_options m). split; [by apply parse_packet|]. unfold pk_options.
    destruct (foldl_kept routers num_routers as_routers ltac:(by intros o []) ltac:(by intros o [] l' [= ->]) (pk_opts m) opts_zero Hr eq_refl eq_refl) as [R1 R2].
    destruct (foldl_kept dns num_dns as_dns ltac:(by intros o []) ltac:(by intros o [] l' [= ->]) (pk_opts m) opts_zero Hd eq_refl eq_refl) as [D1 D2].
    split_and!; try done; [apply (foldl_given type as_type)|apply (foldl_given subnet_mask as_mask)|
      apply (foldl_given lease_time as_lease)|apply (foldl_given server_id as_server)]; by intros o [].
  - intros b cookie E Hc. unfold dhcp_parse_opts. rewrite E. cbn [mbind res_bind]. by rewrite (proj2 (Z.eqb_neq _ _) Hc).
Qed.

(** ** Any bytes *)
Section Any.
Variable b : list Z.
Hypothesis Hb : Forall is_byte b.
Lemma get8_any p : (p < length b)%nat -> exists v, get8 b p = Ok v /\ is_byte v.
Proof using Hb.
  intros Hp. destruct (lookup_lt_is_Some_2 b p Hp) as [v Hv]. exists v. unfold get8, rd. rewrite Hv. split; [done|]. by apply (proj1 (Forall_lookup _ _) Hb p).
Qed.
Lemma swap32_word v : word v -> word (ntohl v).
Proof. intros Hv. destruct (htonl_range v Hv) as [? ?]. unfold word, ntohl, htonl in *. pose proof (Z.div_mod (swap32 v) 65536). lia. Qed.
Lemma get32_any p : (p + 4 <= length b)%nat -> exists v, get32 b p = Ok v /\ word (ntohl v).
Proof using Hb.
  intros Hp. destruct (get8_any p) as (x & Ex & Hx); [lia|]. destruct (get8_any (p + 1)) as (y & Ey & Hy); [lia|].
  destruct (get8_any (p + 2)) as (z & Ez & Hz); [lia|]. destruct (get8_any (p + 2 + 1)) as (w & Ew & Hw); [lia|].
  unfold get8 in *. exists (x + 256 * y + 65536 * (z + 256 * w)). unfold get32, get16. rewrite Ex. cbn [mbind res_bind]. rewrite Ey. cbn [mbind res_bind]. rewrite Ez. cbn [mbind res_bind].
  rewrite Ew. split; [done|]. apply swap32_word. unfold word, is_byte in *. lia.
Qed.
Lemma opt_addrs_any n : forall i p len arr num, (i + n = length arr)%nat -> Forall word arr -> is_byte num -> is_byte len -> (p + 4 * n <= length b)%nat ->
  exists arr' num' p' len', opt_addrs n i b p len arr num = Ok (arr', num', p', len') /\ Forall word arr' /\ length arr' = length arr /\ is_byte num' /\ (p <= p')%nat.
Proof using Hb.
  induction n as [|n IH]; intros i p len arr num Hi Ha Hn Hl Hp; cbn [opt_addrs]; [by exists arr, num, p, len|].
  destruct (0 <? len); [|by exists arr, num, p, len].
  destruct (get32_any p) as (v & -> & Hv); [lia|]. cbn [mbind res_bind]. rewrite wr_in by lia. cbn [mbind res_bind].
  destruct (IH (S i) (p + 4)%nat (u8 (len - 4)) (<[i:=ntohl v]> arr) (u8 (num + 1))) as (arr' & num' & p' & len' & -> & H1 & H2 & H3 & H4);
    [rewrite length_insert; lia|by apply Forall_insert|apply u8_range|apply u8_range|lia|].
  rewrite length_insert in H2. exists arr', num', p', len'. split_and!; done || lia.
Qed.
Lemma parse_option_any op len p o : opts_ok o -> is_byte len -> (p + 16 <= length b)%nat ->
  exists o' p' len', parse_option op len b p o = Ok (o', p', len') /\ opts_ok o' /\ (p <= p')%nat.
Proof using Hb.
  intros (H1 & H2 & (H3 & H4 & H5) & (H6 & H7 & H8) & H9 & H10) Hl Hp. unfold parse_option, opts_ok.
  destruct (get8_any p) as (v & Ev & Hv); [lia|]. destruct (get32_any p) as (w & Ew & Hw); [lia|].
  destruct (opt_addrs_any 4 0 p len (routers o) (num_routers o)) as (ra & rn & rp & rl & Er & R1 & R2 & R3 & R4); [by rewrite H4|done|done|done|lia|].
  destruct (opt_addrs_any 4 0 p len (dns o) (num_dns o)) as (da & dn & dp & dl & Ed & D1 & D2 & D3 & D4); [by rewrite H7|done|done|done|lia|].
  rewrite Ev, Ew, Er, Ed. cbn [mbind res_bind].
  repeat match goal with |- context [if op =? ?x then _ else _] => destruct (op =? x) end; do 3 eexists; (split; [reflexivity|]);
    cbn [set_type set_mask set_routers set_dns set_lease set_server type subnet_mask routers num_routers dns num_dns lease_time server_id]; split_and!; done || lia || congruence || apply R3 || apply D3.
Qed.
Lemma opts_loop_any lim fuel : forall p o, opts_ok o -> lim + 17 <= Z.of_nat (length b) -> (Z.to_nat lim - p < fuel)%nat ->
  exists o', opts_loop fuel b lim p o = Ok o' /\ opts_ok o'.
Proof using Hb.
  induction fuel as [|fuel IH]; intros p o Ho Hl Hf; [lia|]. cbn [opts_loop]. destruct (Z.ltb_spec (Z.of_nat p) lim) as [Hp|]; [|by eexists].
  destruct (get8_any p) as (c & Ec & Hc); [lia|]. destruct (get8_any (p + 1)) as (n & En & Hn); [lia|]. rewrite Ec, En. cbn [mbind res_bind].
  destruct (c =? OPT_END); [by eexists|]. destruct (parse_option_any c n (p + 2) o Ho Hn) as (o' & p' & l' & -> & Ho' & Hp'); [lia|]. cbn [mbind res_bind].
  apply IH; [done|done|]. lia.
Qed.
End Any.

(** C35: Whatever the bytes of the array are, the parser ends, reads nothing beyond
    the array and yields options whose fields have their types, as long as the
    message ends 17 bytes before the array does. *)
Theorem dhcp_opts_typed b len :
  Forall is_byte b -> (DHCP_HDR <= length b)%nat -> 0 <= len -> len + 17 <= Z.of_nat (length b) < 2 ^ 31 ->
  exists r, dhcp_parse_opts b len = Ok r /\ forall o, r = Some o -> opts_ok o.
Proof.
  intros Hb H0 Hp Hl. unfold dhcp_parse_opts. destruct (get32_any b Hb H_COOKIE) as (v & -> & _); [unfold DHCP_HDR, H_COOKIE in *; lia|]. cbn [mbind res_bind].
  destruct (negb _); [by exists None|]. rewrite s32_small by lia.
  destruct (opts_loop_any b Hb len (S (length b)) DHCP_HDR opts_zero opts_zero_ok) as (o & -> & Ho); [lia|lia|]. cbn [mbind res_bind].
  exists (Some o). split; [done|]. by intros ? [= <-].
Qed.

(** ** The messages of the client *)
Definition discover_packet (xid : Z) (mac : list Z) : packet :=
  Packet [1; 1; 6; 0] xid [0; 0; 128; 0; 0; 0; 0; 0] 0 (replicate 8 0) mac (replicate 202 0) [OType 1; OOther 55 [1; 3; 6]] [].
Definition request_packet (xid : Z) (mac : list Z) (yi sid : Z) : packet :=
  Packet [1; 1; 6; 0] xid [0; 0; 128; 0; 0; 0; 0; 0] 0 (replicate 8 0) mac (replicate 202 0)
    [OType 3; OServer sid; OOther 50 (be32 yi []); OOther 12 cOSiris; OOther 55 [1; 3; 6]] [].

(** Rewriting behind a [←]. *)
#[local] Instance res_bind_proper A B : Proper (pointwise_relation A (=) ==> (=) ==> (=)) (@mbind res _ A B).
Proof. intros f g E m ? <-. by apply res_bind_ext. Qed.
Lemma wr_single (b : list Z) o v : wr b o v = wr_block b o [v].
Proof.
  unfold wr, wr_block. cbn [length]. destruct (decide (o < length b)%nat).
  - rewrite decide_True by lia. by rewrite splice_single.
  - by rewrite decide_False by lia.
Qed.
Lemma wr_block_join (b : list Z) o v w : v <> [] -> (b ← wr_block b o v; wr_block b (o + length v) w) = wr_block b o (v ++ w).
Proof.
  intros Hv. unfold wr_block. rewrite length_app. destruct (decide (o + length v <= length b)%nat); cbn [mbind res_bind].
  - rewrite length_splice by done. destruct (decide (o + length v + length w <= length b)%nat).
    + rewrite decide_True by lia. by rewrite splice_app.
    + by rewrite decide_False by lia.
  - by rewrite decide_False by lia.
Qed.
Lemma put16_block b o v : put16 b o v = wr_block b o (le16 v []).
Proof. unfold put16. rewrite wr_single. setoid_rewrite wr_single. exact (wr_block_join b o [v mod 256] [v / 256 mod 256] ltac:(done)). Qed.
Lemma put32_block b o v : put32 b o v = wr_block b o (le32 v []).
Proof. unfold put32. rewrite put16_block. setoid_rewrite put16_block. exact (wr_block_join b o (le16 (v mod 65536) []) (le16 (v / 65536) []) ltac:(done)). Qed.
Lemma put32_be b o v : word v -> put32 b o (ntohl v) = wr_block b o (be32 v []).
Proof. intros Hv. rewrite put32_block. unfold le32, le16. destruct (ntohl_bytes v Hv) as (-> & -> & -> & ->). done. Qed.

Lemma be32_nil v r : be32 v r = be32 v [] ++ r.
Proof. done. Qed.
Lemma four_bytes v : exists a b c d, be32 v [] = [a; b; c; d].
Proof. by do 4 eexists. Qed.

(** Four bytes for a word in network order. *)
Ltac abstract_word v Hv x0 x1 x2 x3 :=
  change (htonl v) with (ntohl v) in *;
  let E := fresh "E" in pose proof (fun b o => put32_be b o v Hv) as E;
  revert E; destruct (four_bytes v) as (x0 & x1 & x2 & x3 & ->); generalize (ntohl v); intros ? E; with_strategy opaque [put32] setoid_rewrite E; clear E.

Lemma discover_message_eq xid mac : word xid -> is_mac mac -> let w := pk_wire (discover_packet xid mac) in
  discover_message xid mac = Ok (w ++ replicate (512 - length w) 0, length w).
Proof.
  intros Hx Hm. cbv zeta. unfold pk_wire, pk_header, pk_body, discover_message, dhcp_build_hdr. cbn [pk_head pk_xid pk_mid pk_your pk_addrs pk_mac pk_rest pk_opts pk_tail discover_packet].
  destruct (is_mac_bytes mac Hm) as (m0 & m1 & m2 & m3 & m4 & m5 & ->). abstract_word xid Hx x0 x1 x2 x3.
  vm_compute. reflexivity.
Qed.
Lemma request_message_eq xid mac yi dhcp o : word xid -> is_mac mac -> word yi -> word (server_id o) ->
  get32 dhcp H_YOUR_IP = Ok (ntohl yi) -> rd_block dhcp H_CLI_MAC MAC_SIZE = Ok mac ->
  let w := pk_wire (request_packet xid mac yi (server_id o)) in
  request_message xid dhcp o = Ok (w ++ replicate (512 - length w) 0, length w).
Proof.
  intros Hx Hm Hy Hs Gy Gm. cbv zeta. unfold pk_wire, pk_header, pk_body, request_message. rewrite Gm, Gy. cbn [mbind res_bind]. unfold dhcp_build_hdr, append32.
  cbn [pk_head pk_xid pk_mid pk_your pk_addrs pk_mac pk_rest pk_opts pk_tail request_packet opts_wire foldr opt_wire].
  destruct (is_mac_bytes mac Hm) as (m0 & m1 & m2 & m3 & m4 & m5 & ->). abstract_word xid Hx x0 x1 x2 x3.
  revert Hs. generalize (server_id o). intros sid Hs. rewrite (be32_nil sid). abstract_word yi Hy y0 y1 y2 y3. abstract_word sid Hs s0 s1 s2 s3.
  vm_compute. reflexivity.
Qed.

(** ** What an acknowledged message configures *)
Definition with_ip (f : netif) (ip : Z) : netif := NetIf (if_id f) (mac f) (<[0%nat := ip]> (ips f)) (priv f).
Definition route_after (l : list route_t) (b m g : Z) (n : nat) : list route_t :=
  match rt_find (fun r => (r_base r =? Z.land b m) && (r_mask r =? m))%bool l with Some _ => l | None => route_insert (Route (Z.land b m) m g n) l end.
Definition routes_of (o : dhcp_opts) (ip : Z) (i : nat) (l : list route_t) : list route_t :=
  let l := if 0 <? num_routers o then route_after l 0 0 (nth 0 (routers o) 0) i else l in
  if subnet_mask o =? 0 then l else route_after l (Z.land ip (subnet_mask o)) (subnet_mask o) 0 i.
Definition servers_of (o : dhcp_opts) (l : list Z) : list Z := foldl (fun l ip => (Dns.dns_add l ip).2) l (take (Z.to_nat (num_dns o)) (dns o)).
Definition configured (o : dhcp_opts) (ip : Z) (i : nat) (f : netif) (s : net) : net :=
  set_routes (set_netifs s (<[i := with_ip f ip]> (netifs s))) (routes_of o ip i (routes s)).

Lemma on_net_bind {A B} (m : st net A) (k : A -> st hstate B) n l a n' : m n = Ok (a, n') -> (on_net m ≫= k) (DS n l) = k a (DS n' l).
Proof. intros E. apply st_bind_eq. unfold on_net. cbn [netst servers]. by rewrite E. Qed.
Lemma set_ip0_eq i ip f s : netifs s !! i = Some f -> ips f <> [] -> set_ip0 i ip s = Ok (tt, set_netifs s (<[i := with_ip f ip]> (netifs s))).
Proof.
  intros Hf Hn. unfold set_ip0. rewrite (st_bind_eq _ _ _ _ _ (netif_at_eq _ _ _ Hf)), lift_bind, wr_in by (destruct (ips f); [done|cbn; lia]). done.
Qed.
Lemma set_routes_id s : set_routes s (routes s) = s.
Proof. by destruct s. Qed.
Lemma route_add_eq b m g n s : nomem s = false -> exists c, route_add b m g n s = Ok (c, set_routes s (route_after (routes s) b m g n)).
Proof.
  intros Hm. unfold route_add, route_exists, route_after, mbind, st_bind, get, mret, st_ret.
  destruct (rt_find _ (routes s)); [eexists; by rewrite set_routes_id|]. rewrite Hm. by eexists.
Qed.
Lemma add_servers_eq arr n : forall i s, (i + n <= length arr)%nat ->
  add_servers n i arr s = Ok (tt, DS (netst s) (foldl (fun l ip => (Dns.dns_add l ip).2) (servers s) (take n (drop i arr)))).
Proof.
  induction n as [|n IH]; intros i s Hi; cbn [add_servers]; [by destruct s|].
  destruct (lookup_lt_is_Some_2 arr i) as [ip Hip]; [lia|]. rewrite lift_bind. unfold rd. rewrite Hip.
  rewrite (st_bind_eq _ _ s (Dns.dns_add (servers s) ip).1 (DS (netst s) (Dns.dns_add (servers s) ip).2)) by (unfold dns_add_st; by destruct (Dns.dns_add (servers s) ip)).
  rewrite IH by lia. cbn [netst servers]. by rewrite (drop_S arr ip i Hip).
Qed.

Lemma dhcp_set_netif_eq i b o ip f s l : nomem s = false -> netifs s !! i = Some f -> ips f <> [] -> word ip -> get32 b H_YOUR_IP = Ok (ntohl ip) ->
  opts_ok o -> num_dns o <= 4 -> dhcp_set_netif i b o (DS s l) = Ok (0, DS (configured o ip i f s) (servers_of o l)).
Proof.
  intros Hm Hf Hn Hip Hy (_ & _ & (_ & Hr & _) & (_ & Hd & [Hd0 _]) & _) Hd4. unfold dhcp_set_netif. rewrite lift_bind, Hy, ntohl_inv by done.
  rewrite (on_net_bind _ _ _ _ _ _ (set_ip0_eq i ip f s Hf Hn)). set (s1 := set_netifs s _).
  set (l1 := if 0 <? num_routers o then route_after (routes s) 0 0 (nth 0 (routers o) 0) i else routes s).
  assert (E1 : exists c, (if 0 <? num_routers o then r ← lift (rd (routers o) 0); on_net (route_add 0 0 r i) else mret 0) (DS s1 l) = Ok (c, DS (set_routes s1 l1) l)).
  { unfold l1. destruct (0 <? num_routers o); [|exists 0; by destruct s]. destruct (routers o) as [|r rs]; [done|]. rewrite lift_bind. cbn [rd lookup list_lookup nth].
    destruct (route_add_eq 0 0 r i s1) as [c E]; [done|]. exists c. unfold on_net. cbn [netst servers]. by rewrite E. }
  destruct E1 as [c1 E1]. rewrite (st_bind_eq _ _ _ _ _ E1). clear E1.
  assert (Hf2 : netifs (set_routes s1 l1) !! i = Some (with_ip f ip)) by (cbn [netifs set_routes s1 set_netifs]; apply list_lookup_insert_eq; by apply lookup_lt_Some in Hf).
  assert (E2 : exists c, (if negb (subnet_mask o =? 0) then g ← on_net (netif_at i); ip ← lift (rd (ips g) 0); on_net (route_add (Z.land ip (subnet_mask o)) (subnet_mask o) 0 i) else mret 0)
    (DS (set_routes s1 l1) l) = Ok (c, DS (configured o ip i f s) l)).
  { unfold configured, routes_of. fold l1 s1. destruct (subnet_mask o =? 0); cbn [negb]; [by exists 0|].
    rewrite (on_net_bind _ _ _ _ _ _ (netif_at_eq _ _ _ Hf2)), lift_bind. cbn [with_ip ips]. destruct (ips f) as [|x xs]; [done|]. cbn [insert list_insert rd lookup list_lookup].
    destruct (route_add_eq (Z.land ip (subnet_mask o)) (subnet_mask o) 0 i (set_routes s1 l1)) as [c E]; [done|]. exists c. unfold on_net. cbn [netst servers]. by rewrite E. }
  destruct E2 as [c2 E2]. rewrite (st_bind_eq _ _ _ _ _ E2). clear E2.
  rewrite (st_bind_eq _ _ _ _ _ (add_servers_eq (dns o) (Z.to_nat (num_dns o)) 0 _ ltac:(lia))). done.
Qed.

(** The routing that follows from an empty table. *)
Lemma configured_routes o ip i f s dst : routes s = [] -> 0 < num_routers o -> 0 < subnet_mask o -> 0 <= ip ->
  route_find dst (configured o ip i f s) =
  Ok (Some (if Z.land dst (subnet_mask o) =? Z.land ip (subnet_mask o) then Route (Z.land ip (subnet_mask o)) (subnet_mask o) 0 i else Route 0 0 (nth 0 (routers o) 0) i), configured o ip i f s).
Proof.
  intros Hr Hn Hm Hip. set (B := Z.land ip (subnet_mask o)). unfold configured, routes_of. rewrite Hr, (proj2 (Z.ltb_lt _ _) Hn), (proj2 (Z.eqb_neq _ 0)) by lia.
  assert (Hb : 0 <= B) by (apply Z.land_nonneg; lia).
  assert (E : route_after (route_after [] 0 0 (nth 0 (routers o) 0) i) B (subnet_mask o) 0 i = [Route B (subnet_mask o) 0 i; Route 0 0 (nth 0 (routers o) 0) i]).
  { unfold route_after. rewrite Z.land_0_l. cbn [rt_find List.find route_insert r_base r_mask]. replace (Z.land B (subnet_mask o)) with B by (unfold B; by rewrite <- Z.land_assoc, Z.land_diag).
    rewrite (proj2 (Z.eqb_neq 0 (subnet_mask o))), andb_false_r by lia. destruct (Z.ltb_spec 0 B); [done|]. replace B with 0 by lia. by rewrite (proj2 (Z.ltb_lt 0 _)) by lia. }
  fold B. rewrite E. unfold route_find, mbind, st_bind, get, mret, st_ret. cbn [routes set_routes rt_find List.find r_mask r_base].
  destruct (Z.land dst (subnet_mask o) =? B); [done|]. by rewrite Z.land_0_r.
Qed.

(** ** The exchange *)
Definition bcast : Z := 0xFFFFFFFF.
(** The socket of the client of the interface [i], for the task of [s]. *)
Definition client_sock (s : net) (i : nat) : sock_t := Sock S_UDP 0 DHCP_CLI_PORT bcast DHCP_SRV_PORT (self s) true [] (Some i).
Definition opened (s : net) (i : nat) (f : netif) : net :=
  set_next (set_socks (set_netifs s (<[i := with_ip f 0]> (netifs s))) (socks s ++ [(next_sock s, client_sock s i)])) (Pos.succ (next_sock s)).
(** What the client needs to start: an interface with a driver, a free socket
    and nobody at its port. *)
Definition can_start (s : net) (i : nat) (f : netif) : Prop :=
  netifs s !! i = Some f /\ priv f = true /\ ips f <> [] /\ is_mac (mac f) /\ Forall is_byte (mac f) /\
  (length (socks s) < MAX_SOCKS)%nat /\ (length (netq s) < NETQ_MAX_ITEMS)%nat /\ nomem s = false /\ assoc (socks s) (next_sock s) = None /\
  Forall (fun q => loc_port q.2 <> DHCP_CLI_PORT) (socks s).

Lemma assoc_snoc l p k : assoc l p = None -> assoc (l ++ [(p, k)]) p = Some k.
Proof.
  induction l as [|[q x] l IH]; cbn [assoc app]; intros H; [by rewrite decide_True|]. destruct (decide (q = p)); [done|]. by apply IH.
Qed.
Lemma update_snoc l p k g : assoc l p = None -> update (l ++ [(p, k)]) p g = l ++ [(p, g k)].
Proof.
  induction l as [|[q x] l IH]; cbn [assoc update app]; intros H; [by rewrite decide_True|]. destruct (decide (q = p)); [done|]. by rewrite IH.
Qed.
Lemma find_none_at (port ip : Z) l : Forall (fun q : sock_ptr * sock_t => loc_port q.2 <> port) l ->
  List.find (fun q => (proto q.2 =? S_UDP) && (loc_port q.2 =? port) && ((loc_ip q.2 =? ip) || (loc_ip q.2 =? 0)))%bool l = None.
Proof. induction 1 as [|q l Hq _ IH]; [done|]. cbn [List.find]. by rewrite (proj2 (Z.eqb_neq _ _) Hq), andb_false_r. Qed.

Lemma dhcp_socket_opens s i f : can_start s i f ->
  dhcp_socket i (set_netifs s (<[i := with_ip f 0]> (netifs s))) = Ok (next_sock s, opened s i f).
Proof.
  intros (Hf & _ & _ & _ & _ & Hn & _ & Hm & Ha & Hp). unfold dhcp_socket. set (s0 := set_netifs s _). set (p := next_sock s).
  set (st k := set_next (set_socks s0 (socks s ++ [(p, k)])) (Pos.succ p)).
  assert (E1 : sock_alloc S_UDP s0 = Ok (Some p, st (Sock S_UDP 0 0 0 0 (self s) false [] None))).
  { unfold sock_alloc, mbind, st_bind, get. cbn [socks s0 set_netifs nomem]. rewrite decide_False by lia. by rewrite Hm. }
  assert (Hat : forall k, sock_at p (st k) = Ok (k, st k)) by (intros k; apply sock_at_eq; by apply assoc_snoc).
  assert (Hup : forall g k, upd_sock p g (st k) = Ok (tt, st (g k))).
  { intros g k. unfold upd_sock, modify. cbn [st socks set_socks set_next]. by rewrite update_snoc. }
  rewrite (st_bind_eq _ _ _ _ _ E1).
  erewrite st_bind_eq; [|unfold sock_set_netif; rewrite (st_bind_eq _ _ _ _ _ (Hat _)); apply Hup].
  erewrite st_bind_eq.
  2:{ unfold sock_bind. rewrite (st_bind_eq _ _ _ _ _ (Hat _)). cbn [Z.eqb DHCP_CLI_PORT]. rewrite (st_bind_eq _ _ _ 68 _ eq_refl). change (68 <? 0) with false. cbv iota zeta. change (u16 68) with 68.
      unfold sock_set_loc_addr. rewrite (st_bind_eq _ _ (st _) 0 (st (set_loc (set_sk_netif (Sock S_UDP 0 0 0 0 (self s) false [] None) (Some i)) ADDR_ANY 68))); [reflexivity|].
      rewrite (st_bind_eq _ _ _ _ _ (Hat _)), (st_bind_eq _ _ _ _ _ eq_refl). cbn [set_sk_netif proto st socks set_socks set_next].
      rewrite find_none_at; [by rewrite (st_bind_eq _ _ _ _ _ (Hup _ _))|]. apply Forall_app. split; [done|]. by apply Forall_singleton. }
  erewrite st_bind_eq.
  2:{ unfold udp_connect. rewrite (st_bind_eq _ _ _ _ _ (Hat _)). cbn [set_loc set_sk_netif loc_port proto rem_ip rem_port pid connected bufs sk_netif]. change (68 =? 0) with false. cbv iota.
      rewrite (st_bind_eq _ _ _ 0 _ eq_refl). change (0 <? 0) with false. cbv iota. unfold sock_set_rem_addr.
      rewrite (st_bind_eq _ _ (st _) 0 (st (set_rem (set_loc (set_sk_netif (Sock S_UDP 0 0 0 0 (self s) false [] None) (Some i)) ADDR_ANY 68) bcast 67 (Some i)))).
      - rewrite (st_bind_eq _ _ _ _ _ (Hup _ _)). reflexivity.
      - rewrite (st_bind_eq _ _ _ _ _ (Hat _)). cbn [set_loc set_sk_netif sk_netif]. rewrite (st_bind_eq _ _ _ (Some i) _ eq_refl), (st_bind_eq _ _ _ _ _ (Hup _ _)). reflexivity. }
  reflexivity.
Qed.

(** The client [k] at work over the interface [i], whose address is not set. *)
Definition client_in (k : sock_t) (p : sock_ptr) (i : nat) (f : netif) (s : net) : Prop :=
  (exists l, assoc (socks s) p = Some (set_bufs k l)) /\ netifs s !! i = Some (with_ip f 0) /\ (length (netq s) < NETQ_MAX_ITEMS)%nat /\ nomem s = false.
Definition broadcast (f : netif) (m : packet) : list Z := udp_frame (replicate 6 0) (mac f) 0 bcast DHCP_CLI_PORT DHCP_SRV_PORT (pk_wire m).
Definition sent (s : net) (i : nat) (frame : list Z) : net := set_events s (events s ++ [Send i frame]).

Lemma client_writes world s0 p i f s m : let k := client_sock s0 i in
  client_in k p i f s -> is_mac (mac f) -> ips f <> [] -> Z.of_nat (length (pk_wire m)) <= 1458 -> Forall is_byte (pk_wire m) -> forall rest,
  udp_write world p (pk_wire m ++ rest) (Z.of_nat (length (pk_wire m))) s = Ok (Z.of_nat (length (pk_wire m)), sent s i (broadcast f m)).
Proof.
  intros k ((l & Hk) & Hf & Hq & Hn) Hm Hi Hl Hb rest.
  assert (Hrd : rd_block (pk_wire m ++ rest) 0 (Z.to_nat (Z.of_nat (length (pk_wire m)))) = Ok (pk_wire m)) by (rewrite Nat2Z.id; exact (rd_block_at [] (pk_wire m) rest)).
  assert (Hip : ips (with_ip f 0) !! 0%nat = Some 0) by (cbn [with_ip ips]; destruct (ips f); done).
  refine (udp_write_sends world p _ _ s s (set_bufs k l) i (with_ip f 0) (replicate 6 0) 0 _ Hk _ Hf Hq Hn _ Hrd Hb _ _ Hk Hf Hm Hip _ _ _ _ _);
    first [reflexivity | lia | (cbn [set_bufs k client_sock loc_ip rem_ip loc_port rem_port]; unfold bcast, DHCP_CLI_PORT, DHCP_SRV_PORT; lia)].
Qed.

Lemma word_bytes v r : Forall is_byte r -> Forall is_byte (be32 v r).
Proof. intros. by apply (byte_fields v r). Qed.
Lemma bytes_all l : bytesb l = true -> Forall is_byte l.
Proof. apply bytesb_true. Qed.
Lemma discover_wire xid mac : is_mac mac -> Forall is_byte mac -> length (pk_wire (discover_packet xid mac)) = 249%nat /\ Forall is_byte (pk_wire (discover_packet xid mac)).
Proof.
  intros Hm Hb. split; [destruct (is_mac_bytes mac Hm) as (a & b & c & d & e & g & ->); reflexivity|].
  unfold pk_wire, pk_header. cbn [pk_head pk_xid pk_mid pk_your pk_addrs pk_mac pk_rest discover_packet].
  repeat (apply Forall_app; split); try done; try (apply word_bytes); by apply bytesb_true.
Qed.
Lemma request_wire xid mac yi sid : is_mac mac -> Forall is_byte mac ->
  length (pk_wire (request_packet xid mac yi sid)) = 270%nat /\ Forall is_byte (pk_wire (request_packet xid mac yi sid)).
Proof.
  intros Hm Hb. split; [destruct (is_mac_bytes mac Hm) as (a & b & c & d & e & g & ->); reflexivity|].
  unfold pk_wire, pk_header, pk_body. cbn [pk_head pk_xid pk_mid pk_your pk_addrs pk_mac pk_rest pk_opts pk_tail request_packet].
  repeat (apply Forall_app; split); try done; try (by apply bytesb_true); apply word_bytes; [by apply bytesb_true..|].
  cbn [opts_wire foldr opt_wire]. do 5 (apply Forall_cons_2; [unfold is_byte; lia|]). apply word_bytes. do 2 (apply Forall_cons_2; [unfold is_byte; cbn; lia|]).
  apply Forall_app. split; [apply word_bytes; by apply Forall_nil_2|]. by apply bytesb_true.
Qed.

(** A reply to the client of the task of [s]. *)
Definition replies (s : net) (i : nat) (m : packet) (t : Z) : Prop :=
  pk_wf m /\ pk_xid m = xid_of (client_sock s i) /\ type (pk_options m) = t /\ (length (pk_wire m) <= 640)%nat /\ Forall is_byte (pk_mac m).

Lemma pk_options_ok m : pk_wf m -> opts_ok (pk_options m).
Proof.
  intros (_ & _ & _ & _ & _ & _ & _ & Hw). unfold pk_options. generalize opts_zero opts_zero_ok. induction (pk_opts m) as [|x l IH]; intros o Ho; [done|].
  apply Forall_cons in Hw as [Hx Hw]. cbn [foldl]. apply IH; [done|]. by apply opt_apply_ok.
Qed.
Section Recv.
Variables (world : st net unit) (stack : nat -> list Z).
Hypothesis (Hstack : forall n, length (stack n) = 640%nat).
Variables (s0 : net) (p : sock_ptr) (i : nat) (f : netif).
Let k := client_sock s0 i.

(** Every message that arrives is read and its options are parsed. *)
Lemma recv_reads d m t s s2 l : client_in k p i f s -> replies s0 i m t -> delivers world p (pk_wire m) s s2 ->
  exists b, dhcp_recv world stack (S d) p i (DS s l) =
    (if t =? DHCP_OFFER then on_net (dhcp_request world p b (pk_options m));; dhcp_recv world stack d p i;; mret 0
     else if t =? DHCP_ACK then dhcp_set_netif i b (pk_options m);; mret 0 else mret (-1)) (DS s2 l) /\
    get32 b H_YOUR_IP = Ok (ntohl (pk_your m)) /\ rd_block b H_CLI_MAC MAC_SIZE = Ok (pk_mac m).
Proof using Hstack.
  intros ((bl & Hk) & _) (Hw & Hx & Ht & Hl & _) Hd. set (r := drop (length (pk_wire m)) (stack d)). exists (pk_wire m ++ r).
  destruct (pk_fields m r Hw) as (F1 & F2 & F3 & _). split; [|done]. cbn [dhcp_recv].
  rewrite (on_net_bind _ _ _ _ _ _ (sock_at_eq _ _ _ Hk)).
  assert (Hln : Z.of_nat (length (pk_wire m)) <= 640 < 2 ^ 31) by lia. rewrite (on_net_bind _ _ _ _ _ _ (delivers_read _ _ _ _ _ _ Hd Hln)).
  assert (E : wr_block (stack d) 0 (pk_wire m) = Ok (pk_wire m ++ r)) by (unfold wr_block, splice; rewrite decide_True, take_0 by (rewrite Hstack; lia); done).
  rewrite lift_bind, E, lift_bind, F1, ntohl_inv, Hx by apply Hw. change (xid_of (set_bufs k bl)) with (xid_of (client_sock s0 i)). rewrite Z.eqb_refl. cbn [negb].
  assert (Hp : dhcp_parse_opts (pk_wire m ++ r) (u32 (Z.of_nat (length (pk_wire m)))) = Ok (Some (pk_options m))).
  { assert (Hle : Z.of_nat (length (pk_header m ++ be32 MAGIC_COOKIE (pk_body m []))) <= Z.of_nat (length (pk_wire m))).
    { unfold pk_wire, pk_body. rewrite !length_app, (opts_wire_nil _ [255]), (opts_wire_nil _ (255 :: pk_tail m)). unfold be32, be16. cbn [length]. rewrite !length_app. cbn [length]. lia. }
    rewrite u32_small by lia. apply parse_packet; [done|lia]. }
  rewrite lift_bind, Hp, Ht. done.
Qed.

Lemma recv_offer d m s s2 l : client_in k p i f s -> is_mac (mac f) -> ips f <> [] -> replies s0 i m DHCP_OFFER -> delivers world p (pk_wire m) s s2 -> client_in k p i f s2 ->
  dhcp_recv world stack (S d) p i (DS s l) =
  (dhcp_recv world stack d p i;; mret 0) (DS (sent s2 i (broadcast f (request_packet (xid_of k) (pk_mac m) (pk_your m) (server_id (pk_options m))))) l).
Proof using Hstack.
  intros Hc Hm Hi Hr Hd Hc2. destruct (recv_reads d m _ s s2 l Hc Hr Hd) as (b & -> & Hy & Hmac). change (DHCP_OFFER =? DHCP_OFFER) with true. cbv iota.
  destruct Hr as (Hw & _ & _ & _ & Hb). pose proof (pk_options_ok m Hw) as (_ & _ & _ & _ & _ & Hsid). destruct Hw as (_ & Hxw & _ & Hyw & _ & Hmw & _).
  set (rp := request_packet _ _ _ _). destruct (request_wire (xid_of k) (pk_mac m) (pk_your m) (server_id (pk_options m)) Hmw Hb) as [Hrl Hrb]. fold rp in Hrl, Hrb.
  pose proof Hc2 as ((bl & Hk) & _). erewrite on_net_bind; [reflexivity|].
  unfold dhcp_request. rewrite (st_bind_eq _ _ _ _ _ (sock_at_eq _ _ _ Hk)). change (xid_of (set_bufs k bl)) with (xid_of k).
  rewrite lift_bind, (request_message_eq (xid_of k) (pk_mac m) (pk_your m)) by (done || apply u32_range). fold rp. cbv zeta.
  apply (client_writes world s0 p i f s2 rp Hc2 Hm Hi); [lia|done].
Qed.

Lemma recv_ack d m s s2 l : client_in k p i f s -> ips f <> [] -> replies s0 i m DHCP_ACK -> num_dns (pk_options m) <= 4 -> delivers world p (pk_wire m) s s2 -> client_in k p i f s2 ->
  dhcp_recv world stack (S d) p i (DS s l) = Ok (0, DS (configured (pk_options m) (pk_your m) i (with_ip f 0) s2) (servers_of (pk_options m) l)).
Proof using Hstack.
  intros Hc Hi Hr Hn Hd (_ & Hf & _ & Hm). destruct (recv_reads d m _ s s2 l Hc Hr Hd) as (b & -> & Hy & _). change (DHCP_ACK =? DHCP_OFFER) with false. change (DHCP_ACK =? DHCP_ACK) with true. cbv iota.
  pose proof (pk_options_ok m (proj1 Hr)) as Ho. destruct Hr as ((_ & _ & _ & Hyw & _) & _).
  rewrite (st_bind_eq _ _ _ _ _ (dhcp_set_netif_eq i b (pk_options m) (pk_your m) (with_ip f 0) s2 l Hm Hf ltac:(cbn; by destruct (ips f)) Hyw Hy Ho Hn)). done.
Qed.
End Recv.

Definition closed (p : sock_ptr) (s : net) : net := set_socks s (filter (fun q => q.1 <> p) (socks s)).
Lemma udp_close_eq p k s : assoc (socks s) p = Some k -> bufs k = [] -> udp_close p s = Ok (0, closed p s).
Proof.
  intros Hk Hb. unfold udp_close, sock_free. erewrite st_bind_eq; [reflexivity|]. rewrite (st_bind_eq _ _ _ _ _ (sock_at_eq _ _ _ Hk)), Hb.
  by rewrite (st_bind_eq _ _ s tt (closed p s)).
Qed.
Lemma with_ip_twice f a b : with_ip (with_ip f a) b = with_ip f b.
Proof. unfold with_ip. cbn [if_id mac ips priv]. by rewrite list_insert_insert_eq. Qed.

Lemma opened_client s i f fr : can_start s i f -> client_in (client_sock s i) (next_sock s) i f (sent (opened s i f) i fr) /\
  client_in (client_sock s i) (next_sock s) i f (opened s i f).
Proof.
  intros (Hf & _ & _ & _ & _ & _ & Hq & Hm & Ha & _). unfold client_in. cbn [opened sent socks netifs netq nomem set_events set_socks set_next set_netifs].
  rewrite assoc_snoc by done. split; (split_and!; [by exists []|apply list_lookup_insert_eq; by apply lookup_lt_Some in Hf|done|done]).
Qed.

(** C33: The exchange of four messages: [dhcp_init] broadcasts a DISCOVER of the
    format; when the server's OFFER arrives it broadcasts a REQUEST for the address
    and the server of the OFFER; when the ACK arrives it returns 0, the interface
    has the address of the ACK, the routes and DNS servers are those of its
    options, and the socket is closed.  On a machine without routes the ACK's
    subnet is then reached directly and every other address through its router. *)
Theorem dhcp_configures world stack s i f d l offer ack s2 s4 :
  (forall n, length (stack n) = 640%nat) -> can_start s i f ->
  let p := next_sock s in let k := client_sock s i in let o := pk_options ack in
  let s1 := sent (opened s i f) i (broadcast f (discover_packet (xid_of k) (mac f))) in
  replies s i offer DHCP_OFFER -> delivers world p (pk_wire offer) s1 s2 -> client_in k p i f s2 ->
  let s3 := sent s2 i (broadcast f (request_packet (xid_of k) (pk_mac offer) (pk_your offer) (server_id (pk_options offer)))) in
  replies s i ack DHCP_ACK -> num_dns o <= 4 -> delivers world p (pk_wire ack) s3 s4 -> client_in k p i f s4 -> assoc (socks s4) p = Some k ->
  let s5 := configured o (pk_your ack) i f (closed p s4) in
  dhcp_init world stack (S (S d)) i (DS s l) = Ok (0, DS s5 (servers_of o l)) /\ netifs s5 !! i = Some (with_ip f (pk_your ack)) /\
  (routes s4 = [] -> 0 < num_routers o -> 0 < subnet_mask o -> forall dst, exists g, route_find dst s5 = Ok (Some g, s5) /\
    if Z.land dst (subnet_mask o) =? Z.land (pk_your ack) (subnet_mask o) then r_gateway g = 0 /\ r_base g = Z.land (pk_your ack) (subnet_mask o)
    else r_gateway g = nth 0 (routers o) 0 /\ r_base g = 0).
Proof.
  intros Hst Hs p k o s1 Ho Hd1 Hc2 s3 Ha Hn Hd2 Hc4 Hk4 s5. destruct (opened_client s i f (broadcast f (discover_packet (xid_of k) (mac f))) Hs) as [Hc1 Hc0].
  pose proof Hs as (Hf & Hp & Hi & Hm & Hmb & _ & _ & _ & Hfree & _). pose proof Hc4 as (_ & Hf4 & _ & _). split_and!.
  - unfold dhcp_init. rewrite (on_net_bind _ _ _ _ _ _ (netif_at_eq _ _ _ Hf)), Hp. cbn [negb].
    rewrite (on_net_bind _ _ _ _ _ _ (set_ip0_eq i 0 f s Hf Hi)), (on_net_bind _ _ _ _ _ _ (dhcp_socket_opens s i f Hs)). fold p.
    rewrite (on_net_bind _ _ _ _ _ _ (netif_at_eq _ _ _ (proj1 (proj2 Hc0)))). cbn [with_ip mac].
    destruct (discover_wire (xid_of k) (mac f) Hm Hmb) as [Hwl Hwb].
    assert (E : dhcp_discover world p (mac f) (opened s i f) = Ok (249, s1)).
    { unfold dhcp_discover. rewrite (st_bind_eq _ _ _ _ _ (sock_at_eq p k (opened s i f) (assoc_snoc _ _ k Hfree))).
      rewrite lift_bind, (discover_message_eq (xid_of k) (mac f)) by (done || apply u32_range). cbv zeta.
      rewrite (client_writes world s p i f (opened s i f) (discover_packet (xid_of k) (mac f)) Hc0 Hm Hi) by (done || lia). by rewrite Hwl. }
    rewrite (on_net_bind _ _ _ _ _ _ E). clear E.
    assert (E : dhcp_recv world stack (S (S d)) p i (DS s1 l) = Ok (0, DS (configured o (pk_your ack) i f s4) (servers_of o l))).
    { rewrite (recv_offer world stack Hst s p i f (S d) offer s1 s2 l Hc1 Hm Hi Ho Hd1 Hc2). fold k s3.
      assert (Hc3 : client_in k p i f s3) by exact Hc2.
      rewrite (st_bind_eq _ _ _ _ _ (recv_ack world stack Hst s p i f d ack s3 s4 l Hc3 Hi Ha Hn Hd2 Hc4)). unfold configured. rewrite with_ip_twice. done. }
    rewrite (st_bind_eq _ _ _ _ _ E). clear E. rewrite (on_net_bind _ _ _ _ _ _ (udp_close_eq p k (configured o (pk_your ack) i f s4) Hk4 eq_refl)). done.
  - cbn [s5 configured netifs set_routes set_netifs closed set_socks]. apply list_lookup_insert_eq. by apply lookup_lt_Some in Hf4.
  - intros Hr H1 H2 dst. eexists. split; [apply configured_routes; try done; apply Ha|]. destruct (_ =? _); done.
Qed.

(** A message that is not for the client, has no cookie or is neither an OFFER
    nor an ACK is taken from the socket and configures nothing: the result is -1
    and interface, routes and DNS servers stay. *)
Theorem dhcp_rejects world stack d p i k s s2 l bytes x c :
  length (stack d) = 640%nat -> assoc (socks s) p = Some k -> delivers world p bytes s s2 -> (length bytes <= 640)%nat ->
  let b := bytes ++ drop (length bytes) (stack d) in
  get32 b H_XID = Ok x -> get32 b H_COOKIE = Ok c ->
  (ntohl x <> xid_of k \/ ntohl c <> MAGIC_COOKIE \/ exists o, dhcp_parse_opts b (Z.of_nat (length bytes)) = Ok (Some o) /\ type o ∉ [DHCP_OFFER; DHCP_ACK]) ->
  dhcp_recv world stack (S d) p i (DS s l) = Ok (-1, DS s2 l).
Proof.
  intros Hst Hk Hd Hl b Hx Hc Hbad. cbn [dhcp_recv]. rewrite (on_net_bind _ _ _ _ _ _ (sock_at_eq _ _ _ Hk)).
  rewrite (on_net_bind _ _ _ _ _ _ (delivers_read _ _ _ _ _ 640 Hd ltac:(lia))).
  assert (E : wr_block (stack d) 0 bytes = Ok b) by (unfold wr_block, splice; rewrite decide_True, take_0 by (rewrite Hst; lia); done).
  rewrite lift_bind, E, lift_bind, Hx. destruct (Z.eqb_spec (ntohl x) (xid_of k)) as [He|]; [|done]. cbn [negb]. rewrite lift_bind, u32_small by lia.
  destruct Hbad as [Hn|[Hn|(o & Ho & Ht)]]; [done| |].
  - unfold dhcp_parse_opts. rewrite Hc. cbn [mbind res_bind]. by rewrite (proj2 (Z.eqb_neq _ _) Hn).
  - rewrite Ho. repeat (apply not_elem_of_cons in Ht as [? Ht]). by rewrite !(proj2 (Z.eqb_neq _ _)).
Qed.

(** ** A server *)
Definition server_packet (t : Z) : packet :=
  Packet [2; 1; 6; 0] 0xC0510001 (replicate 8 0) 0x0A00020F (replicate 8 0) mac_a (replicate 202 0)
    [OType t; OServer 0x0A000202; OOther 28 [10; 0; 2; 255]; OMask 0xFFFFFF00; ORouters [0x0A000202]; ODns [0x0A000203; 0x08080808]; OLease 86400] [].
Lemma server_packet_wf t : is_byte t -> pk_wf (server_packet t).
Proof.
  intros Ht. unfold pk_wf, word. cbn [server_packet pk_head pk_xid pk_mid pk_your pk_addrs pk_mac pk_rest pk_opts]. split_and!; try done; try lia.
  rewrite !Forall_cons. cbn [opt_wf]. unfold word. rewrite !Forall_cons. split_and!; try apply Forall_nil_2; try lia; try done; try (cbn; lia). set_solver.
Qed.
Definition arrives (m : packet) (s : net) : net :=
  set_socks s (update (socks s) 1%positive (fun k => set_bufs k [NB 0 700 true 0 (Z.of_nat (length (pk_wire m))) (pk_wire m)])).
Definition taken (s : net) : net := set_socks s (update (socks s) 1%positive (fun k => set_bufs k [])).
(** The option for the type is behind the 42 bytes of the frame's headers; a
    REQUEST is answered with [verdict]. *)
Definition server (verdict : Z) : st net unit := fun s =>
  match last (events s) with
  | Some (Send _ frame) => Ok (tt, arrives (server_packet (if nth 284 frame 0 =? DHCP_DISCOVER then DHCP_OFFER else verdict)) s)
  | _ => Ok (tt, s)
  end.
Definition fresh : net := NetS [NetIf 0 mac_a [0; 0; 0; 0] true] [] [] false (replicate 32 arp_zero) [] 1%positive ports0 ports0 10 1 false false [].

Lemma dhcp_options_parse_witness :
  exists o, dhcp_parse_opts (pk_wire (server_packet DHCP_ACK) ++ replicate 8 9) (Z.of_nat (length (pk_wire (server_packet DHCP_ACK)))) =
    Ok (Some o) /\ type o = 5 /\ subnet_mask o = 0xFFFFFF00 /\ lease_time o = 86400 /\ server_id o = 0x0A000202 /\
    take (Z.to_nat (num_routers o)) (routers o) = [0x0A000202] /\ num_routers o = 1 /\
    take (Z.to_nat (num_dns o)) (dns o) = [0x0A000203; 0x08080808] /\ num_dns o = 2.
Proof.
  apply (dhcp_options_parse (server_packet DHCP_ACK) (replicate 8 9)); [apply server_packet_wf; unfold is_byte, DHCP_ACK; lia| | |].
  - apply Nat.leb_le. reflexivity.
  - apply Nat.leb_le. reflexivity.
  - split; [apply Z.leb_le; vm_compute; reflexivity|apply Z.ltb_lt; vm_compute; reflexivity].
Defined.
Lemma dhcp_opts_typed_witness :
  exists r, dhcp_parse_opts (replicate 236 0 ++ be32 MAGIC_COOKIE (replicate 400 3)) 623 = Ok r /\ forall o, r = Some o -> opts_ok o.
Proof.
  apply dhcp_opts_typed; [apply bytesb_true; vm_compute; reflexivity|apply Nat.leb_le; vm_compute; reflexivity|lia|].
  split; [apply Z.leb_le; vm_compute; reflexivity|apply Z.ltb_lt; vm_compute; reflexivity].
Defined.

Definition stale : nat -> list Z := fun _ => replicate 640 9.
Definition nic0 : netif := NetIf 0 mac_a [0; 0; 0; 0] true.
Lemma fresh_starts : can_start fresh 0 nic0.
Proof.
  unfold can_start, MAX_SOCKS, NETQ_MAX_ITEMS. split_and!; try done; try (cbn; lia); try apply Forall_nil_2. by apply bytesb_true.
Qed.
Lemma server_replies t : t = DHCP_OFFER \/ t = DHCP_ACK \/ t = DHCP_NACK -> replies fresh 0 (server_packet t) t.
Proof.
  intros Ht. assert (Hb : is_byte t) by (by destruct Ht as [->|[->| ->]]).
  split; [by apply server_packet_wf|]. split; [done|]. split; [done|]. split; [|by apply bytesb_true].
  destruct Ht as [->|[->| ->]]; apply Nat.leb_le; vm_compute; reflexivity.
Qed.
Lemma server_delivers v m s k : server v s = Ok (tt, arrives m s) -> assoc (socks s) 1%positive = Some k -> bufs k = [] -> exiting s = false ->
  delivers (server v) 1%positive (pk_wire m) s (taken (arrives m s)).
Proof.
  intros Hs Hk Hb He. exists k, (arrives m s), (set_bufs k [NB 0 700 true 0 (Z.of_nat (length (pk_wire m))) (pk_wire m)]), (NB 0 700 true 0 (Z.of_nat (length (pk_wire m))) (pk_wire m)), [].
  rewrite Hb. split_and!; try done; [exact (assoc_update _ _ _ k Hk)|]. cbn [data u_data]. pose proof (rd_block_at [] (pk_wire m) []) as E. rewrite app_nil_r in E. exact E.
Qed.

Definition w1 : net := sent (opened fresh 0 nic0) 0 (broadcast nic0 (discover_packet 0xC0510001 mac_a)).
Definition w3 : net := sent (taken (arrives (server_packet DHCP_OFFER) w1)) 0 (broadcast nic0 (request_packet 0xC0510001 mac_a 0x0A00020F 0x0A000202)).
Lemma dhcp_configures_witness :
  exists s5, dhcp_init (server DHCP_ACK) stale 2 0 (DS fresh [0; 0; 0; 0]) = Ok (0, DS s5 [0x0A000203; 0x08080808; 0; 0]) /\
    netifs s5 = [NetIf 0 mac_a [0x0A00020F; 0; 0; 0] true].
Proof.
  destruct (dhcp_configures (server DHCP_ACK) stale fresh 0 nic0 0 [0; 0; 0; 0] (server_packet DHCP_OFFER) (server_packet DHCP_ACK)
    (taken (arrives (server_packet DHCP_OFFER) w1)) (taken (arrives (server_packet DHCP_ACK) w3))) as [H _].
  - done.
  - apply fresh_starts.
  - apply server_replies. by left.
  - apply (server_delivers _ _ w1 (client_sock fresh 0)); vm_compute; reflexivity.
  - split_and!; [by exists []|done|apply Nat.ltb_lt; vm_compute; reflexivity|done].
  - apply server_replies. by (right; left).
  - apply Z.leb_le. vm_compute. reflexivity.
  - apply (server_delivers _ _ w3 (client_sock fresh 0)); vm_compute; reflexivity.
  - split_and!; [by exists []|done|apply Nat.ltb_lt; vm_compute; reflexivity|done].
  - done.
  - eexists. split; [rewrite H; vm_compute; reflexivity|]. vm_compute. reflexivity.
Defined.
Lemma dhcp_rejects_witness :
  exists s2, dhcp_recv (server DHCP_NACK) stale 1 1%positive 0 (DS w3 []) = Ok (-1, DS s2 []) /\ netifs s2 = netifs w3.
Proof.
  eexists. split.
  - apply (dhcp_rejects (server DHCP_NACK) stale 0 1%positive 0 (client_sock fresh 0) w3 (taken (arrives (server_packet DHCP_NACK) w3)) [] (pk_wire (server_packet DHCP_NACK)) (ntohl 0xC0510001) (ntohl MAGIC_COOKIE)).
    + done.
    + done.
    + apply (server_delivers _ _ w3 (client_sock fresh 0)); vm_compute; reflexivity.
    + apply Nat.leb_le. vm_compute. reflexivity.
    + vm_compute. reflexivity.
    + vm_compute. reflexivity.
    + right. right. exists (pk_options (server_packet DHCP_NACK)). split; [vm_compute; reflexivity|]. cbn. unfold DHCP_OFFER, DHCP_ACK, DHCP_NACK. set_solver.
  - reflexivity.
Defined.

(** ** Corners *)
Definition raw (opts : list Z) : list Z := take 640 (pk_header (server_packet DHCP_ACK) ++ be32 MAGIC_COOKIE (opts ++ replicate 400 255)).

(** An option at the end of the array is read beyond it. *)
Lemma opts_past_end : dhcp_parse_opts (raw (concat (replicate 200 [2; 0]))) 640 = Err EOob.
Proof. vm_compute. reflexivity. Qed.
(** A list of addresses whose length is no multiple of 4: the 8-bit length wraps
    and four addresses are read. *)
Lemma odd_length_wraps : match dhcp_parse_opts (raw [3; 2; 10; 0]) 640 with Ok (Some o) => num_routers o = 4 | _ => False end.
Proof. vm_compute. reflexivity. Qed.
(** A second list of servers adds to the count but is stored over the first:
    [dhcp_set_netif] then reads beyond [dns]. *)
Lemma second_list_overruns :
  match dhcp_parse_opts (raw (opts_wire [ODns [1; 2; 3; 4]; ODns [5]] [])) 640 with
  | Ok (Some o) => num_dns o = 5 /\ dns o = [5; 2; 3; 4] /\ dhcp_set_netif 0 (raw []) o (DS fresh [0; 0; 0; 0]) = Err EOob
  | _ => False
  end.
Proof. vm_compute. repeat split. Qed.
(** The pad option 0 has no length in the protocol; here the next option is
    taken for one. *)
Lemma pad_swallows_option : match dhcp_parse_opts (raw [0; 53; 1; 5]) 640 with Ok (Some o) => type o = 0 | _ => False end.
Proof. vm_compute. reflexivity. Qed.
(** The result of the [dhcp_recv] after a REQUEST is dropped: a refused REQUEST
    is a success without an address. *)
Lemma refusal_is_success :
  match dhcp_init (server DHCP_NACK) stale 5 0 (DS fresh [0; 0; 0; 0]) with
  | Ok (r, DS s l) => r = 0 /\ netifs s = netifs fresh /\ routes s = [] /\ l = [0; 0; 0; 0]
  | Err _ => False
  end.
Proof. vm_compute. repeat split. Qed.
(** Every OFFER is answered by a deeper call: a server that sends nothing else
    uses up any stack. *)
Lemma offers_exhaust_stack : dhcp_init (server DHCP_OFFER) stale 12 0 (DS fresh [0; 0; 0; 0]) = Err EFuel.
Proof. vm_compute. reflexivity. Qed.
(** Without a free socket [dhcp_init] uses the null pointer. *)
Lemma no_socket_is_null : dhcp_init (server DHCP_ACK) stale 5 0 (DS (set_socks fresh (replicate 32 (7%positive, sock_b))) []) = Err ENull.
Proof. vm_compute. reflexivity. Qed.
End DhcpSpec.
