(* ===== verification/Vfs.v ===== *)
(** * The virtual file system

    src/vfs.c and src/vfs.h: the operations of a node are those of its driver,
    which [driver] gives for the tag [n_drv]; what the drivers keep is the state
    of type [D].  The state also has the descriptors of the current task, which
    Sysfile.v works on.  Strings of the heap are the objects that [malloc]
    returns; their release is not modelled. *)
From stdpp Require Import gmap.
From S2P Require Import Prelude CString Path.

Module Vfs.
Import Path.

Definition FS_DIRECTORY : Z := 0x4000.
Definition FS_CHARDEVICE : Z := 0x2000.
Definition FS_PIPE : Z := 0x1000.
Definition FS_FILE : Z := 0x8000.
Definition S_IFMT : Z := 0xF000.
Definition S_IFCHR : Z := 0x2000.
Definition S_IFBLK : Z := 0x6000.
Definition O_RDONLY : Z := 0.
Definition O_WRONLY : Z := 1.
Definition O_RDWR : Z := 2.
Definition O_CREAT : Z := 0x040.
Definition O_TRUNC : Z := 0x200.
Definition O_APPEND : Z := 0x400.

(** A node, with the tag of its driver in place of the function pointers and
    [ptr]; the fields that only drivers use (ctime, mtime, addrs, impl)
    are left out. *)
Definition nptr := positive.
Definition fptr := positive.
Record fs_node (drv : Type) := FsNode {
  n_name : list Z; n_mask : Z; n_major : Z; n_minor : Z; n_uid : Z; n_gid : Z; n_type : Z; n_flags : Z; n_inode : Z; n_size : Z;
  ref_count : Z; num_links : Z; n_atime : Z; n_lock : Z; n_drv : drv
}.
(** [struct file] of sysfile.h. *)
Record file := File { f_mode : Z; f_flags : Z; offs : Z; f_node : option nptr; dup_cnt : Z }.
(** The nodes and the state [dev] of the drivers; whether [calloc] fails; the
    descriptors, the current directory and the root of the current task; the
    file structures of all tasks. *)
Record vst (drv D : Type) := Vst {
  nodes : gmap nptr (fs_node drv); next_node : nptr; fs_root : nptr; dev : D; nomem : bool;
  files : list (option fptr); fstore : gmap fptr file; next_file : fptr; cwd : list Z; root_dir : option nptr
}.
#[global] Arguments FsNode {drv}. #[global] Arguments n_name {drv}. #[global] Arguments n_mask {drv}. #[global] Arguments n_major {drv}.
#[global] Arguments n_minor {drv}. #[global] Arguments n_uid {drv}. #[global] Arguments n_gid {drv}. #[global] Arguments n_type {drv}. #[global] Arguments n_flags {drv}.
#[global] Arguments n_inode {drv}. #[global] Arguments n_size {drv}. #[global] Arguments ref_count {drv}. #[global] Arguments num_links {drv}.
#[global] Arguments n_atime {drv}. #[global] Arguments n_lock {drv}. #[global] Arguments n_drv {drv}.
#[global] Arguments Vst {drv D}. #[global] Arguments nodes {drv D}. #[global] Arguments fs_root {drv D}. #[global] Arguments next_node {drv D}. #[global] Arguments dev {drv D}.
#[global] Arguments nomem {drv D}. #[global] Arguments files {drv D}. #[global] Arguments fstore {drv D}. #[global] Arguments next_file {drv D}.
#[global] Arguments cwd {drv D}. #[global] Arguments root_dir {drv D}.

(** The operations of a node; one that is missing is a null pointer. *)
Record node_ops (drv D : Type) := Ops {
  op_read : option (nptr -> Z -> Z -> st (vst drv D) (Z * list Z));
  op_write : option (nptr -> Z -> Z -> list Z -> st (vst drv D) Z);
  op_open : option (nptr -> Z -> st (vst drv D) unit);
  op_close : option (nptr -> st (vst drv D) unit);
  op_readdir : option (nptr -> Z -> st (vst drv D) (option (Z * list Z)));
  op_finddir : option (nptr -> list Z -> st (vst drv D) (option nptr));
  op_mkdir : option (nptr -> list Z -> Z -> st (vst drv D) (option nptr));
  op_creat : option (nptr -> list Z -> Z -> st (vst drv D) (option nptr));
  op_mknod : option (nptr -> list Z -> Z -> Z -> st (vst drv D) (option nptr));
  op_truncate : option (nptr -> Z -> st (vst drv D) Z);
  op_unlink : option (nptr -> list Z -> st (vst drv D) Z);
  op_link : option (nptr -> nptr -> list Z -> st (vst drv D) Z);
  op_ioctl : option (nptr -> Z -> Z -> st (vst drv D) Z)
}.
#[global] Arguments Ops {drv D}.
#[global] Arguments op_read {drv D}.
#[global] Arguments op_write {drv D}.
#[global] Arguments op_open {drv D}.
#[global] Arguments op_close {drv D}.
#[global] Arguments op_readdir {drv D}.
#[global] Arguments op_finddir {drv D}.
#[global] Arguments op_mkdir {drv D}.
#[global] Arguments op_creat {drv D}.
#[global] Arguments op_mknod {drv D}.
#[global] Arguments op_truncate {drv D}.
#[global] Arguments op_unlink {drv D}.
#[global] Arguments op_link {drv D}.
#[global] Arguments op_ioctl {drv D}.

(** What the rest of the kernel gives to these two files: the operations behind
    the tag of a node, what [malloc] returns, the table [devices] of dev.c, the
    two ends that [pipe_new] makes with their common pipe, and what [pipe->readers++]
    or [pipe->writers++] does to the pipe of a node. *)
Class Kernel (drv D : Type) := {
  driver : drv -> node_ops drv D;
  malloc : Z -> list Z;
  devices : Z -> option (nptr -> Z -> st (vst drv D) unit);
  new_pipe : D -> drv * drv * D;
  pipe_readers_inc : drv -> D -> D;
  pipe_writers_inc : drv -> D -> D
}.

Section Nodes.
Context {drv D : Type} `{!Kernel drv D}.
Notation fs_node := (fs_node drv).
Notation vst := (vst drv D).
Notation node_ops := (node_ops drv D).

Definition with_ref (x : fs_node) r : fs_node := FsNode (n_name x) (n_mask x) (n_major x) (n_minor x) (n_uid x) (n_gid x) (n_type x) (n_flags x) (n_inode x) (n_size x) r (num_links x) (n_atime x) (n_lock x) (n_drv x).
Definition with_size (x : fs_node) z : fs_node := FsNode (n_name x) (n_mask x) (n_major x) (n_minor x) (n_uid x) (n_gid x) (n_type x) (n_flags x) (n_inode x) z (ref_count x) (num_links x) (n_atime x) (n_lock x) (n_drv x).
Definition with_owner (x : fs_node) u g : fs_node := FsNode (n_name x) (n_mask x) (n_major x) (n_minor x) u g (n_type x) (n_flags x) (n_inode x) (n_size x) (ref_count x) (num_links x) (n_atime x) (n_lock x) (n_drv x).
Definition with_mask (x : fs_node) m : fs_node := FsNode (n_name x) m (n_major x) (n_minor x) (n_uid x) (n_gid x) (n_type x) (n_flags x) (n_inode x) (n_size x) (ref_count x) (num_links x) (n_atime x) (n_lock x) (n_drv x).
Definition with_lock (x : fs_node) l : fs_node := FsNode (n_name x) (n_mask x) (n_major x) (n_minor x) (n_uid x) (n_gid x) (n_type x) (n_flags x) (n_inode x) (n_size x) (ref_count x) (num_links x) (n_atime x) l (n_drv x).
Definition set_nodes (s : vst) x : vst := Vst x (next_node s) (fs_root s) (dev s) (nomem s) (files s) (fstore s) (next_file s) (cwd s) (root_dir s).
Definition set_dev (s : vst) x : vst := Vst (nodes s) (next_node s) (fs_root s) x (nomem s) (files s) (fstore s) (next_file s) (cwd s) (root_dir s).
Definition set_files (s : vst) x : vst := Vst (nodes s) (next_node s) (fs_root s) (dev s) (nomem s) x (fstore s) (next_file s) (cwd s) (root_dir s).
Definition set_fstore (s : vst) x : vst := Vst (nodes s) (next_node s) (fs_root s) (dev s) (nomem s) (files s) x (next_file s) (cwd s) (root_dir s).
Definition set_next (s : vst) x : vst := Vst (nodes s) (next_node s) (fs_root s) (dev s) (nomem s) (files s) (fstore s) x (cwd s) (root_dir s).
Definition set_cwd (s : vst) x : vst := Vst (nodes s) (next_node s) (fs_root s) (dev s) (nomem s) (files s) (fstore s) (next_file s) x (root_dir s).
Definition set_root (s : vst) x : vst := Vst (nodes s) (next_node s) (fs_root s) (dev s) (nomem s) (files s) (fstore s) (next_file s) (cwd s) x.

Definition node_at (n : nptr) : st vst fs_node := s ← get; match nodes s !! n with Some x => mret x | None => fail EUaf end.
Definition put_node (n : nptr) (x : fs_node) : st vst unit := modify (fun s => set_nodes s (<[n := x]> (nodes s))).
Definition deref (o : option nptr) : st vst nptr := match o with Some n => mret n | None => fail ENull end.

Definition ops_at (n : nptr) : st vst node_ops := x ← node_at n; mret (driver (n_drv x)).

Definition fs_open (n : nptr) (flags : Z) : st vst unit := o ← ops_at n; match op_open o with Some f => f n flags | None => mret tt end.
Definition fs_close (n : option nptr) : st vst unit :=
  match n with None => fail EPanic | Some n => o ← ops_at n; match op_close o with Some f => f n | None => mret tt end end.
Definition fs_read (n : nptr) (offset size : Z) : st vst (Z * list Z) := o ← ops_at n; match op_read o with Some f => f n offset size | None => fun s => Ok ((0, []), s) end.
Definition fs_write (n : nptr) (offset size : Z) (buffer : list Z) : st vst Z :=
  o ← ops_at n; match op_write o with Some f => f n offset size buffer | None => mret 0 end.
Definition is_dir (x : fs_node) : bool := negb (Z.land (n_type x) FS_DIRECTORY =? 0).
Definition fs_readdir (n : nptr) (index : Z) : st vst (option (Z * list Z)) :=
  x ← node_at n; match op_readdir (driver (n_drv x)) with Some f => if is_dir x then f n index else mret None | None => mret None end.
Definition fs_finddir (n : nptr) (name : list Z) : st vst (option nptr) :=
  x ← node_at n; match op_finddir (driver (n_drv x)) with Some f => if is_dir x then f n name else mret None | None => mret None end.
Definition fs_mkdir (n : nptr) (name : list Z) (mode : Z) : st vst (option nptr) :=
  x ← node_at n;
  if negb (is_dir x) then mret None
  else
    c ← fs_finddir n name;
    match c with
    | Some _ => mret None
    | None => o ← ops_at n; match op_mkdir o with Some f => f n name mode | None => mret None end
    end.
Definition spin_lock (l : Z) : res Z := if l =? 0 then Ok 1 else Err EDeadlock.
Definition fs_dup (n : nptr) : st vst unit :=
  x ← node_at n;
  l ← lift (spin_lock (n_lock x));
  let x := with_lock x l in
  put_node n (with_lock (with_ref x (ref_count x +i 1)) 0).

(** The characters of the string at an offset of an object. *)
Definition cstring (m : list Z) (p : nat) : res (list Z) := n ← strlen (Some (drop p m)); rd_block m p (Z.to_nat n).
(** [if (node && node->inode != 1) node->ref_count--;] *)
Definition leave (node : option nptr) : st vst unit :=
  match node with
  | Some n => x ← node_at n; if n_inode x =? 1 then mret tt else put_node n (with_ref x (ref_count x -i 1))
  | None => mret tt
  end.
(** The loop of [fs_namei] over the string [str], whose slashes are terminators now. *)
Fixpoint namei_loop (fuel : nat) (str : list Z) (p : nat) (len : Z) (node : option nptr) : st vst (option nptr) :=
  match fuel with
  | O => fail EFuel
  | S fuel =>
      if negb (0 <? len) then mret node
      else
        c ← lift (rd str p);
        '(stop, node) ← (if c =? 0 then mret (false, node)
          else
            leave node;;
            s ← get;
            name ← lift (cstring str p);
            r ← fs_finddir (match node with Some n => n | None => fs_root s end) name;
            mret (bool_decide (r = None), r));
        if (stop : bool) then mret node
        else n ← lift (strlen (Some (drop p str))); namei_loop fuel str (p + Z.to_nat n + 1) (s32 (len - n - 1)) node
  end.
Definition fs_namei (path : list Z) : st vst (option nptr) :=
  c ← lift (rd path 0);
  kassert (negb (c =? 0));;
  if negb (c =? SLASH) then fail EPanic
  else
    len ← lift (strlen (Some path));
    s ← get;
    if len =? 1 then mret (Some (fs_root s))
    else
      str ← lift (strdup malloc path);
      let str := map (fun c => if c =? SLASH then 0 else c) (take (Z.to_nat len) str) ++ drop (Z.to_nat len) str in
      namei_loop (S (S (Z.to_nat len))) str 0 len None.

(** The loop of [fs_creat] from the end of the path back to the last slash. *)
Fixpoint last_part (path : list Z) (p : nat) : res nat :=
  match p with O => Ok O | S p' => c ← rd path p'; if c =? SLASH then Ok p else last_part path p' end.
Definition fs_creat (path : list Z) (mode : Z) : st vst (option nptr) :=
  c ← lift (rd path 0);
  kassert (c =? SLASH);;
  dirname ← lift (strdup malloc path);
  len ← lift (strlen (Some dirname));
  p ← lift (last_part dirname (Z.to_nat len));
  filename ← lift (cstring dirname p);
  dirname ← lift (wr dirname p 0);
  parent ← fs_namei dirname;
  match parent with
  | None => mret None
  | Some n => o ← ops_at n; match op_creat o with Some f => f n filename mode | None => mret None end
  end.
Definition fs_mknod (dir : nptr) (filename : list Z) (mode dv : Z) : st vst (option nptr) :=
  o ← ops_at dir; match op_mknod o with Some f => f dir filename mode dv | None => mret None end.
Definition fs_truncate (n : option nptr) (length : Z) : st vst Z :=
  kassert (bool_decide (n <> None));;
  n ← deref n; o ← ops_at n; match op_truncate o with Some f => f n length | None => mret (-1) end.

(** Whether the directory has an entry besides [.] and [..]; [n] entries at most. *)
Fixpoint has_entries (fuel : nat) (node : nptr) (idx : Z) : st vst bool :=
  match fuel with
  | O => fail EFuel
  | S fuel =>
      d ← fs_readdir node idx;
      match d with
      | None => mret false
      | Some (ino, name) => if ((0 <? ino) && negb (bool_decide (name = [DOT])) && negb (bool_decide (name = [DOT; DOT])))%bool then mret true else has_entries fuel node (idx +u 1)
      end
  end.
(** [dirname] and [filename] are the arrays of the caller's frame; a directory
    has fewer than [entries] entries. *)
Definition fs_unlink (entries : nat) (frame path : list Z) : st vst Z :=
  s ← get;
  p ← lift (canonize_path malloc (cwd s) path);
  '(dirname, filename) ← lift (bname p frame frame);
  parent ← fs_namei dirname;
  pn ← deref parent;
  name ← lift (cstring filename 0);
  node ← fs_finddir pn name;
  px ← node_at pn;
  if negb (n_type px =? FS_DIRECTORY) then mret (-1)
  else match node with
  | None => mret (-1)
  | Some n =>
      x ← node_at n;
      found ← (if n_type x =? FS_DIRECTORY then has_entries entries n 0 else mret false);
      if (found : bool) then mret (-1)
      else
        fs_close (Some n);;
        o ← ops_at pn;
        match op_unlink o with Some f => f pn name | None => mret (-1) end
  end.
Definition fs_link (parent node : nptr) (name : list Z) : st vst Z :=
  o ← ops_at parent; match op_link o with Some f => f parent node name | None => fail ENull end.
Definition fs_ioctl (n : nptr) (request argp : Z) : st vst Z := o ← ops_at n; match op_ioctl o with Some f => f n request argp | None => mret (-1) end.

Definition fs_rename (oldname newname : list Z) : Z := -1.
(** The result is the code and the node. *)
Definition fs_open_namei (path : list Z) (flags mode : Z) : st vst (Z * option nptr) :=
  s ← get;
  p ← lift (canonize_path malloc (cwd s) path);
  n ← fs_namei p;
  n ← (match n with
       | None => if negb (Z.land flags O_CREAT =? 0) then fs_creat p mode else mret None
       | Some n => mret (Some n)
       end);
  t ← (if (negb (Z.land flags O_TRUNC =? 0) && negb (Z.land flags (Z.lor O_RDWR O_WRONLY) =? 0))%bool then fs_truncate n 0 else mret 0);
  if t <? 0 then mret (-1, n)
  else mret (match n with Some _ => 0 | None => -1 end, n).
End Nodes.
End Vfs.
