(* ===== verification/Sysfile.v ===== *)
(** * Descriptors and the file system calls

    src/sysfile.c over src/vfs.c, the device table of src/dev.c, and what
    src/task.c and src/thread.c do with the descriptors of a task.  The table
    [files] of the current task is the list of its [num_files] slots. *)
From stdpp Require Import gmap.
From S2P Require Import Prelude CString Path Vfs.

Module Sysfile.
Import Path Vfs.

Definition MAX_OPEN_FILES : Z := 64.
Definition FS_BLOCKDEVICE : Z := 0x6000.
Definition SEEK_SET : Z := 0.
Definition SEEK_CUR : Z := 1.
Definition SEEK_END : Z := 2.
Definition USER_STACK_LOW : Z := 0x10000000 - 4096 - 10 * 4096.
Definition NDEV : Z := 16.

Record stat := Stat {
  st_dev : Z; st_ino : Z; st_mode : Z; st_nlink : Z; st_uid : Z; st_gid : Z; st_rdev : Z; st_size : Z;
  st_atime : Z; st_mtime : Z; st_ctime : Z
}.

Section Calls.
Context {drv D : Type} `{!Kernel drv D}.
Notation fs_node := (fs_node drv).
Notation vst := (vst drv D).

(** ** File structures and slots *)
Definition file_at (f : fptr) : st vst file := s ← get; match fstore s !! f with Some x => mret x | None => fail EUaf end.
Definition put_file (f : fptr) (x : file) : st vst unit := modify (fun s => set_fstore s (<[f := x]> (fstore s))).
Definition free_file (f : fptr) : st vst unit := file_at f;; modify (fun s => set_fstore s (delete f (fstore s))).
Definition with_offs (x : file) o := File (f_mode x) (f_flags x) o (f_node x) (dup_cnt x).
Definition with_node (x : file) n := File (f_mode x) (f_flags x) (offs x) n (dup_cnt x).
Definition with_dup (x : file) d := File (f_mode x) (f_flags x) (offs x) (f_node x) d.
Definition with_flags (x : file) m fl := File m fl (offs x) (f_node x) (dup_cnt x).
Definition num_files (s : vst) : Z := Z.of_nat (length (files s)).
Definition slot (fd : Z) : st vst (option fptr) := s ← get; if fd <? 0 then fail EOob else lift (rd (files s) (Z.to_nat fd)).
Definition set_slot (fd : Z) (f : option fptr) : st vst unit :=
  s ← get; if fd <? 0 then fail EOob else l ← lift (wr (files s) (Z.to_nat fd) f); put (set_files s l).
Definition non_null {A} (o : option A) : st vst A := match o with Some a => mret a | None => fail ENull end.

Definition file_alloc : st vst (option fptr) :=
  s ← get;
  if nomem s then mret None
  else
    let f := next_file s in
    put (set_next (set_fstore s (<[f := File 0 0 0 None 0]> (fstore s))) (Pos.succ f));;
    mret (Some f).

(** The first empty slot, or the number of slots. *)
Fixpoint first_free (l : list (option fptr)) : nat :=
  match l with [] => O | None :: _ => O | Some _ :: l => S (first_free l) end.
Definition fd_alloc : st vst Z :=
  s ← get;
  let n := num_files s in
  let fd := Z.of_nat (first_free (files s)) in
  if fd =? n then
    if MAX_OPEN_FILES <? fd then mret (-1)
    else
      let n' := if MAX_OPEN_FILES <=? n * 2 then MAX_OPEN_FILES else n * 2 in
      put (set_files s (files s ++ replicate (Z.to_nat (n' - n)) None));;
      mret fd
  else mret fd.

Definition fd_is_valid (fd : Z) : st vst bool :=
  s ← get;
  if num_files s <? fd then mret false
  else if fd <? 0 then mret false
  else f ← slot fd; mret (bool_decide (f <> None)).
(** The structure and the node of a valid descriptor. *)
Definition fd_file (fd : Z) : st vst fptr := f ← slot fd; non_null f.
Definition fd_node (fd : Z) : st vst nptr := f ← fd_file fd; x ← file_at f; non_null (f_node x).

Definition dev_open (n : nptr) (flags : Z) : st vst unit :=
  x ← node_at n;
  if Z.land (n_type x) S_IFMT =? S_IFCHR then
    if NDEV <=? n_major x then fail EOob
    else match devices (n_major x) with Some open => open n flags | None => mret tt end
  else mret tt.

(** ** Opening and closing *)
Definition sys_open (filename : list Z) (flags mode : Z) : st vst Z :=
  fd ← fd_alloc;
  if fd <? 0 then mret (-1)
  else
    file ← file_alloc;
    f ← non_null file;
    '(r, node) ← fs_open_namei filename flags mode;
    x ← file_at f;
    put_file f (with_node x node);;
    match node with
    | Some n =>
        if r <? 0 then fs_close (Some n);; free_file f;; set_slot fd None;; mret (-1)
        else
          nx ← node_at n;
          x ← file_at f;
          let o := if (negb (Z.land flags O_APPEND =? 0) &&
                       (negb (Z.land flags O_WRONLY =? 0) || negb (Z.land flags O_RDWR =? 0)))%bool
                   then n_size nx else 0 in
          put_file f (with_flags (with_offs x o) (u16 mode) (u16 flags));;
          set_slot fd (Some f);;
          let t := Z.land (n_type nx) S_IFMT in
          (if ((t =? S_IFCHR) || (t =? S_IFBLK))%bool then dev_open n flags else mret tt);;
          mret fd
    | None => free_file f;; set_slot fd None;; mret (-1)
    end.

Definition sys_close (fd : Z) : st vst Z :=
  v ← fd_is_valid fd;
  if negb v then mret (-1)
  else
    f ← fd_file fd;
    x ← file_at f;
    if dup_cnt x <? 0 then mret (-1)
    else
      fs_close (f_node x);;
      x ← file_at f;
      (if dup_cnt x =? 0 then free_file f else put_file f (with_dup x (dup_cnt x -i 1)));;
      set_slot fd None;;
      mret 0.

(** ** Status of a file *)
Definition populate_stat_buf (n : nptr) (buf : stat) : st vst stat :=
  x ← node_at n;
  mret (Stat 0 (u16 (n_inode x)) (u16 (Z.lor (n_type x) (n_mask x))) (u8 (num_links x)) (u16 (n_uid x)) (u8 (n_gid x))
          (makedev (n_major x) (n_minor x)) (n_size x) (n_atime x) (st_mtime buf) (st_ctime buf)).
Definition sys_stat (path : list Z) (buf : stat) : st vst (Z * stat) :=
  '(r, n) ← fs_open_namei path O_RDONLY 493;
  if r <? 0 then mret (-1, buf)
  else n' ← non_null n; buf ← populate_stat_buf n' buf; fs_close n;; mret (0, buf).
Definition sys_lstat (path : list Z) (buf : stat) : st vst (Z * stat) :=
  '(r, n) ← fs_open_namei path O_RDONLY 493;
  if r <? 0 then mret (-1, buf)
  else n' ← non_null n; buf ← populate_stat_buf n' buf; fs_close n;; mret (0, buf).
Definition sys_fstat (fd : Z) (buf : stat) : st vst (Z * stat) :=
  v ← fd_is_valid fd;
  if negb v then mret (-1, buf) else n ← fd_node fd; buf ← populate_stat_buf n buf; mret (0, buf).

(** ** Reading and writing *)
Definition sys_read (fd count : Z) : st vst (Z * list Z) :=
  v ← fd_is_valid fd;
  if negb v then mret (-1, [])
  else
    f ← fd_file fd;
    x ← file_at f;
    n ← non_null (f_node x);
    nx ← node_at n;
    if ((n_size nx <=? offs x) && negb (n_type nx =? FS_CHARDEVICE) && negb (n_type nx =? FS_PIPE))%bool then mret (0, [])
    else
      '(bytes, buf) ← fs_read n (offs x) count;
      x ← file_at f;
      put_file f (with_offs x (offs x +u bytes));;
      mret (s32 bytes, buf).
Definition sys_write (fd : Z) (buf : list Z) (count : Z) : st vst Z :=
  v ← fd_is_valid fd;
  if negb v then mret (-1)
  else
    f ← fd_file fd;
    x ← file_at f;
    n ← non_null (f_node x);
    bytes ← fs_write n (offs x) count buf;
    x ← file_at f;
    put_file f (with_offs x (offs x +u bytes));;
    mret (s32 bytes).
Definition write := sys_write.
Definition sys_isatty (fd : Z) : st vst Z :=
  v ← fd_is_valid fd;
  if negb v then mret 0 else f ← fd_file fd; x ← file_at f; mret (if (bool_decide (f_node x <> None) && negb (FS_CHARDEVICE =? 0))%bool then 1 else 0).
(** [off_t] is unsigned: -1 is 0xFFFFFFFF. *)
Definition sys_lseek (fd offset whence : Z) : st vst Z :=
  v ← fd_is_valid fd;
  if negb v then mret (u32 (-1))
  else
    f ← fd_file fd;
    x ← file_at f;
    if whence =? SEEK_SET then
      n ← non_null (f_node x);
      nx ← node_at n;
      if n_size nx <? offset then mret (u32 (-1)) else put_file f (with_offs x offset);; mret offset
    else if whence =? SEEK_CUR then
      n ← non_null (f_node x);
      nx ← node_at n;
      if n_size nx <? offset +u offs x then mret (u32 (-1))
      else put_file f (with_offs x (offs x +u offset));; mret (offs x +u offset)
    else if whence =? SEEK_END then put_file f (with_offs x offset);; mret offset
    else mret (offs x).
Definition sys_ftruncate (fd len : Z) : st vst Z :=
  v ← fd_is_valid fd;
  if negb v then mret (-1) else f ← fd_file fd; x ← file_at f; fs_truncate (f_node x) len.
(** A pointer below the user stack gets the task killed. *)
Definition sys_ioctl (fd request argp : Z) : st vst Z :=
  if argp <? USER_STACK_LOW then fail EFault
  else v ← fd_is_valid fd; if negb v then mret 0 else n ← fd_node fd; fs_ioctl n request argp.

(** ** Calls on paths *)
Definition sys_chdir (path : list Z) : st vst Z :=
  s ← get;
  p ← lift (canonize_path malloc (cwd s) path);
  '(r, n) ← fs_open_namei p O_RDONLY 511;
  if r <? 0 then mret (-1)
  else
    n' ← non_null n;
    x ← node_at n';
    if negb (is_dir x) then fs_close n;; mret (-1)
    else modify (fun s => set_cwd s p);; fs_close n;; mret 0.
Definition sys_chroot (path : list Z) : st vst Z :=
  '(r, n) ← fs_open_namei path O_RDONLY 511;
  if r <? 0 then mret (-1)
  else
    n' ← non_null n;
    x ← node_at n';
    if negb (is_dir x) then fs_close n;; mret (-1) else modify (fun s => set_root s n);; mret 0.
Definition sys_chown (filename : list Z) (uid gid : Z) : st vst Z :=
  '(r, n) ← fs_open_namei filename O_RDONLY 511;
  if r <? 0 then mret (-1)
  else n' ← non_null n; x ← node_at n'; put_node n' (with_owner x (u32 uid) (u32 gid));; fs_close n;; mret 0.
Definition sys_chmod (filename : list Z) (mode : Z) : st vst Z :=
  '(r, n) ← fs_open_namei filename O_RDONLY 511;
  if r <? 0 then mret (-1)
  else n' ← non_null n; x ← node_at n'; put_node n' (with_mask x (u32 mode));; fs_close n;; mret 0.

(** [while (tmp && tmp[strlen(tmp) - 1] == '/') tmp[strlen(tmp) - 1] = 0;] *)
Fixpoint strip_slashes (fuel : nat) (tmp : list Z) : res (list Z) :=
  match fuel with
  | O => Err EFuel
  | S fuel =>
      n ← strlen (Some tmp);
      if n =? 0 then Err EOob
      else c ← rd tmp (Z.to_nat n - 1); if c =? SLASH then tmp ← wr tmp (Z.to_nat n - 1) 0; strip_slashes fuel tmp else Ok tmp
  end.
(** [sys_mkdir] up to its calls of the file system: the directory and the new name. *)
Definition split_last (cwd path : list Z) : res (option (list Z * list Z)) :=
  c ← rd path 0;
  tmp ← (if negb (c =? SLASH) then
           n ← strlen (Some cwd);
           m ← strlen (Some path);
           tmp ← strcat (replicate (Z.to_nat (n + m + 4)) 0) cwd;
           tmp ← strcat tmp [SLASH; 0];
           strcat tmp path
         else strdup malloc path);
  tmp ← strip_slashes (S (length tmp)) tmp;
  len ← strlen (Some tmp);
  i ← last_slash tmp (Z.to_nat len);
  if Z.of_nat i =? len then Ok None
  else
    dirname ← strdup malloc tmp;
    dirname ← wr dirname i 0;
    basename ← strdup malloc tmp;
    basename ← memmove basename 0 (i + 1) (len - Z.of_nat i);
    basename ← wr basename (Z.to_nat len - i) 0;
    Ok (Some (dirname, basename)).
Definition sys_mkdir (path : option (list Z)) (mode : Z) : st vst Z :=
  match path with
  | None => mret (-1)
  | Some path =>
      s ← get;
      d ← lift (split_last (cwd s) path);
      match d with
      | None => mret (-1)
      | Some (dirname, basename) =>
          '(r, dir) ← fs_open_namei dirname O_RDONLY 511;
          if r <? 0 then mret (-1)
          else
            dn ← non_null dir;
            name ← lift (cstring basename 0);
            file ← fs_finddir dn name;
            if bool_decide (file <> None) then fs_close dir;; fs_close file;; mret (-1)
            else
              file ← fs_mkdir dn name mode;
              if bool_decide (file = None) then fs_close dir;; mret (-1)
              else fs_close file;; fs_close dir;; mret 0
      end
  end.
(** The result is the caller's array. *)
Definition sys_getcwd (buf : list Z) (size : Z) : st vst (option (list Z)) :=
  s ← get;
  len ← lift (strlen (Some (cwd s)));
  if size <? len +u 1 then mret None
  else b ← lift (strncpy buf (cwd s) (Z.to_nat len)); b ← lift (wr b (Z.to_nat len) 0); mret (Some b).
(** [entries] and [frame] are those of [fs_unlink]. *)
Definition sys_unlink (entries : nat) (frame path : list Z) : st vst Z :=
  '(r, n) ← fs_open_namei path O_RDONLY 0;
  if r <? 0 then mret (-1) else fs_close n;; fs_unlink entries frame path.

(** ** Directories *)
Definition sys_opendir (dirname : list Z) : st vst (option fptr) :=
  fd ← sys_open dirname O_RDONLY 0;
  if fd =? 0 then mret None
  else
    d ← fd_file fd;
    n ← fd_node fd;
    nx ← node_at n;
    if negb (is_dir nx) then sys_close fd;; mret None else mret (Some d).
Fixpoint closedir_loop (l : list (option fptr)) (fd : Z) (dir : fptr) : st vst Z :=
  match l with
  | [] => mret (-1)
  | f :: l => if bool_decide (f = Some dir) then sys_close fd;; mret 0 else closedir_loop l (fd + 1) dir
  end.
Definition sys_closedir (dir : fptr) : st vst Z := s ← get; closedir_loop (files s) 0 dir.
(** The entry is its inode and the array [d_name]. *)
Definition sys_readdir (dir : fptr) (d_name : list Z) : st vst (Z * option (Z * list Z)) :=
  x ← file_at dir;
  n ← non_null (f_node x);
  d ← fs_readdir n (offs x);
  match d with
  | None => mret (-1, None)
  | Some (ino, name) =>
      b ← lift (strncpy d_name (name ++ [0]) (length d_name - 1));
      x ← file_at dir;
      put_file dir (with_offs x (offs x +u 1));;
      mret (0, Some (ino, b))
  end.
Definition sys_readlink (pathname buf : list Z) (bufsiz : Z) : st vst Z := mret (-1).

(** ** Sharing *)
Definition sys_dup (oldfd : Z) : st vst Z :=
  s ← get;
  let valid := ((0 <=? oldfd) && (oldfd <? num_files s) && bool_decide (mjoin (files s !! Z.to_nat oldfd) <> None))%bool in
  if negb valid then mret (-1)
  else
    fd ← fd_alloc;
    if fd <? 0 then mret (-1)
    else
      f ← fd_file oldfd;
      set_slot fd (Some f);;
      x ← file_at f;
      n ← non_null (f_node x);
      fs_dup n;;
      x ← file_at f;
      put_file f (with_dup x (dup_cnt x +i 1));;
      mret fd.

Definition new_node (name : list Z) (flags : Z) (tag : drv) : st vst nptr :=
  s ← get;
  let n := next_node s in
  put (Vst (<[n := FsNode name 0 0 0 0 0 FS_PIPE flags 0 0 0 0 0 0 tag]> (nodes s)) (Pos.succ n) (fs_root s) (dev s) (nomem s)
         (files s) (fstore s) (next_file s) (cwd s) (root_dir s));;
  mret n.
(** [pipe_new]: the two ends of a pipe, ["read_pipe"] and ["write_pipe"]. *)
Definition pipe_new : st vst (nptr * nptr) :=
  s ← get;
  if nomem s then fail ENull
  else
    let '(r, w, d) := new_pipe (dev s) in
    put (set_dev s d);;
    rn ← new_node [114; 101; 97; 100; 95; 112; 105; 112; 101] O_RDONLY r;
    wn ← new_node [119; 114; 105; 116; 101; 95; 112; 105; 112; 101] O_WRONLY w;
    mret (rn, wn).
Definition node_open (n : nptr) (flags : Z) : st vst unit :=
  o ← ops_at n; match op_open o with Some f => f n flags | None => fail ENull end.
Definition sys_pipe : st vst (Z * Z * Z) :=
  '(rn, wn) ← pipe_new;
  fin ← file_alloc;
  fout ← file_alloc;
  fi ← non_null fin;
  x ← file_at fi;
  put_file fi (with_node (with_flags x (f_mode x) O_RDONLY) (Some rn));;
  fo ← non_null fout;
  x ← file_at fo;
  put_file fo (with_node (with_flags x (f_mode x) O_WRONLY) (Some wn));;
  fd_alloc;;
  inn ← fd_alloc;
  set_slot inn (Some fi);;
  out ← fd_alloc;
  set_slot out (Some fo);;
  node_open rn O_RDONLY;;
  node_open wn O_WRONLY;;
  mret (0, inn, out).

(** ** Names *)

(** [parent0] and [frame] are what the frame of the call holds before
    [parent] and [file] are assigned. *)
Definition sys_link (parent0 : option nptr) (frame oldpath newpath : list Z) : st vst Z :=
  s ← get;
  old ← lift (canonize_path malloc (cwd s) oldpath);
  new ← lift (canonize_path malloc (cwd s) newpath);
  '(r, node) ← fs_open_namei new O_RDONLY 0;
  p ← (if r =? 0 then n ← non_null node; x ← node_at n; if negb (is_dir x) then fs_close node;; mret None else mret (Some node)
       else mret (Some parent0));
  match p with
  | None => mret (-1)
  | Some parent =>
      '(r, node) ← fs_open_namei old O_RDWR 0;
      if r <? 0 then mret (-1)
      else
        n ← non_null node;
        q ← (match parent with
             | Some p => mret (Some (p, frame))
             | None =>
                 '(new_dir, file) ← lift (bname newpath frame frame);
                 '(r, parent) ← fs_open_namei new_dir O_RDWR 0;
                 if r <? 0 then fs_close node;; mret None
                 else
                   p ← non_null parent;
                   x ← node_at p;
                   if negb (is_dir x) then fs_close parent;; fs_close node;; mret None else mret (Some (p, file))
             end);
        match q with
        | None => mret (-1)
        | Some (p, file) =>
            c ← lift (rd file 0);
            file ← (if c =? 0 then '(_, file) ← lift (bname oldpath frame file); mret file else mret file);
            name ← lift (cstring file 0);
            ret ← fs_link p n name;
            fs_close (Some p);;
            fs_close node;;
            mret ret
        end
  end.
Definition sys_rename (entries : nat) (frame oldpath newpath : list Z) : st vst Z :=
  s ← get;
  old ← lift (canonize_path malloc (cwd s) oldpath);
  new ← lift (canonize_path malloc (cwd s) newpath);
  c ← lift (strcmp old new);
  if c =? 0 then mret (-1)
  else
    '(dir, file) ← lift (bname new frame frame);
    '(r, node) ← fs_open_namei old O_RDWR 0;
    if r <? 0 then mret (-1)
    else
      n ← non_null node;
      '(r, parent) ← fs_open_namei dir O_RDWR 0;
      if r <? 0 then fs_close node;; mret (-1)
      else
        p ← non_null parent;
        '(r, tnode) ← fs_open_namei new O_RDWR 0;
        (if r =? 0 then fs_unlink entries frame new;; mret tt else mret tt);;
        name ← lift (cstring file 0);
        ret ← fs_link p n name;
        if ret <? 0 then
          t ← non_null tnode;
          tx ← node_at t;
          fs_link p t (n_name tx);;
          fs_close node;;
          mret ret
        else
          fs_unlink entries frame old;;
          match tnode with Some t => fs_close (Some t) | None => mret tt end;;
          fs_close parent;;
          fs_close node;;
          mret ret.

(** ** The descriptors of a new and of a finished task *)

(** The loop of [fork_int]: the table of the child. *)
Fixpoint clone_files (l : list (option fptr)) : st vst (list (option fptr)) :=
  match l with
  | [] => mret []
  | None :: l => t ← clone_files l; mret (None :: t)
  | Some f :: l =>
      g ← file_alloc;
      x ← file_at f;
      match f_node x with
      | None => fail EPanic
      | Some n =>
          g ← non_null g;
          put_file g x;;
          fs_dup n;;
          nx ← node_at n;
          (if negb (Z.land (n_type nx) FS_PIPE =? 0) then
             modify (fun s => set_dev s ((if n_flags nx =? O_RDONLY then pipe_readers_inc else pipe_writers_inc) (n_drv nx) (dev s)))
           else mret tt);;
          t ← clone_files l;
          mret (Some g :: t)
      end
  end.
(** The loop of [task_free]. *)
Fixpoint free_files (l : list (option fptr)) : st vst unit :=
  match l with
  | [] => mret tt
  | None :: l => free_files l
  | Some f :: l =>
      x ← file_at f;
      kassert (bool_decide (f_node x <> None));;
      fs_close (f_node x);;
      x ← file_at f;
      (if dup_cnt x =? 0 then free_file f else put_file f (with_dup x (dup_cnt x -i 1)));;
      free_files l
  end.
(** The loops of [thread_new] and [thread_free]. *)
Fixpoint share_files (l : list (option fptr)) : st vst unit :=
  match l with
  | [] => mret tt
  | None :: l => share_files l
  | Some f :: l => x ← file_at f; n ← non_null (f_node x); fs_dup n;; share_files l
  end.
Fixpoint unshare_files (l : list (option fptr)) : st vst unit :=
  match l with
  | [] => mret tt
  | None :: l => unshare_files l
  | Some f :: l => x ← file_at f; fs_close (f_node x);; x ← file_at f; put_file f (with_dup x (dup_cnt x -i 1));; unshare_files l
  end.
End Calls.
End Sysfile.
