(* ===== verification/RamFs.v ===== *)
(** * A file system in memory

    A kernel for Vfs.v and Sysfile.v on which the examples run: the root
    directory, node 1, holds the file "a", node 2, whose bytes are the state of
    the drivers; it grows where it is written.  Pipes can be made but are empty. *)
From stdpp Require Import gmap.
From S2P Require Import Prelude CString Path Vfs Sysfile.

Module RamFs.
Import Path Vfs Sysfile.

Inductive tag := Root | Reg | PipeEnd.
Notation rst := (vst tag (list Z)).

Definition ram_read (n : nptr) (off size : Z) : st rst (Z * list Z) :=
  s ← get;
  let b := take (Z.to_nat size) (drop (Z.to_nat off) (dev s)) in
  mret (Z.of_nat (length b), b).
(** The bytes [b] put into [c] at [off], which is at most its length. *)
Definition overwrite (c : list Z) (off : Z) (b : list Z) : list Z :=
  take (Z.to_nat off) c ++ b ++ drop (Z.to_nat off + length b) c.
Definition ram_write (n : nptr) (off size : Z) (b : list Z) : st rst Z :=
  s ← get;
  if Z.of_nat (length (dev s)) <? off then mret 0
  else
    let c := overwrite (dev s) off (take (Z.to_nat size) b) in
    modify (fun s => set_dev s c);;
    x ← node_at n;
    put_node n (with_size x (Z.of_nat (length c)));;
    mret (Z.of_nat (length (take (Z.to_nat size) b))).
Definition ram_close (n : nptr) : st rst unit := x ← node_at n; put_node n (with_ref x (ref_count x - 1)).
Definition ram_finddir (n : nptr) (name : list Z) : st rst (option nptr) :=
  if bool_decide (name = [97]) then fs_dup 2%positive;; mret (Some 2%positive) else mret None.
Definition ram_truncate (n : nptr) (len : Z) : st rst Z :=
  modify (fun s => set_dev s (take (Z.to_nat len) (dev s)));;
  s ← get;
  x ← node_at n;
  put_node n (with_size x (Z.of_nat (length (dev s))));;
  mret 0.

Definition ram_ops (t : tag) : node_ops tag (list Z) :=
  match t with
  | Root => Ops None None None (Some ram_close) None (Some ram_finddir) None None None None None None None
  | Reg => Ops (Some ram_read) (Some ram_write) None (Some ram_close) None None None None None (Some ram_truncate) None None None
  | PipeEnd => Ops None None (Some (fun _ _ => mret tt)) (Some ram_close) None None None None None None None None None
  end.
#[global] Instance ram_kernel : Kernel tag (list Z) := {
  driver := ram_ops;
  malloc n := replicate (Z.to_nat n) 0;
  devices _ := None;
  new_pipe d := (PipeEnd, PipeEnd, d);
  pipe_readers_inc _ d := d;
  pipe_writers_inc _ d := d
}.

Definition hello : list Z := [104; 101; 108; 108; 111].
Definition root_node : fs_node tag := FsNode [47] 493 0 0 0 0 FS_DIRECTORY 0 1 0 1 1 0 0 Root.
Definition file_node : fs_node tag := FsNode [97] 420 0 0 0 0 FS_FILE 0 2 5 0 1 0 0 Reg.
(** A task with an empty table of six slots, whose directory is the root. *)
Definition ram0 : rst :=
  Vst (<[1%positive := root_node]> (<[2%positive := file_node]> ∅)) 3%positive 1%positive hello false (replicate 6 None) ∅ 1%positive [47; 0] None.
Definition path_a : list Z := [47; 97; 0].
End RamFs.
