(* ===== verification/SysSpec.v ===== *)
(** * The descriptor table

    For drivers that leave descriptors alone ([QuietDrivers]): the count
    [dup_cnt] of every file structure is one less than the number of slots that
    hold it, through every call of Sysfile.v, [fork] and the end of a task; and
    the allocation of descriptors. *)
From stdpp Require Import gmap.
From S2P Require Import Prelude CString Path Vfs Sysfile RamFs.

Module SysSpec.
Import Path Vfs Sysfile.

(** ** Computations that leave the descriptors alone *)
Section Quiet.
Context {drv D : Type}.
Notation vst := (vst drv D).

Definition same_files (s s' : vst) : Prop :=
  files s' = files s /\ fstore s' = fstore s /\ next_file s' = next_file s.
Definition quiet {A} (m : st vst A) : Prop := forall s a s', m s = Ok (a, s') -> same_files s s'.

#[global] Instance same_files_preorder : PreOrder same_files.
Proof. split; [done|]. intros s1 s2 s3 (? & ? & ?) (? & ? & ?). repeat split; congruence. Qed.

Lemma quiet_ret {A} (a : A) : quiet (mret a).
Proof. intros s b s' H. inv_res. by injection H as <- <-. Qed.
Lemma quiet_bind {A B} (m : st vst A) (f : A -> st vst B) : quiet m -> (forall a, quiet (f a)) -> quiet (m ≫= f).
Proof. intros Hm Hf s b s' H. inv_res. etrans; [by eapply Hm|by eapply Hf]. Qed.
Lemma quiet_fail {A} e : quiet (fail (A:=A) e).
Proof. by intros s b s' H. Qed.
Lemma quiet_get : quiet get.
Proof. intros s b s' H. by injection H as <- <-. Qed.
Lemma quiet_lift {A} (m : res A) : quiet (lift m).
Proof. intros s b s' H. unfold lift in H. destruct m; by inversion H. Qed.
Lemma quiet_modify f : (forall s, same_files s (f s)) -> quiet (modify f).
Proof. intros Hf s b s' H. injection H as <- <-. apply Hf. Qed.
Lemma quiet_kassert b : quiet (kassert b).
Proof. destruct b; [apply quiet_ret|apply quiet_fail]. Qed.
End Quiet.

Create HintDb quiet.
#[export] Hint Resolve quiet_ret quiet_fail quiet_get quiet_lift quiet_kassert : quiet.
#[export] Hint Extern 1 (same_files _ _) => by repeat split : quiet.

(** [quiet_tac] goes through a computation, by cases on its tests; [quiet_ops_at]
    is the step for the operations of a node. *)
Ltac quiet_ops_at := fail.
Ltac quiet_tac :=
  repeat first
  [ progress intros
  | solve [eauto with quiet]
  | quiet_ops_at
  | apply quiet_bind
  | apply quiet_modify
  | match goal with |- quiet (match ?x with _ => _ end) => destruct x eqn:? end
  | match goal with |- quiet ((match ?x with _ => _ end)) => destruct x end ].

(** Every operation of every driver, and the [open] of every device. *)
Record quiet_ops {drv D} (o : node_ops drv D) : Prop := {
  q_read f n a b : op_read o = Some f -> quiet (f n a b);
  q_write f n a b c : op_write o = Some f -> quiet (f n a b c);
  q_open f n a : op_open o = Some f -> quiet (f n a);
  q_close f n : op_close o = Some f -> quiet (f n);
  q_readdir f n a : op_readdir o = Some f -> quiet (f n a);
  q_finddir f n a : op_finddir o = Some f -> quiet (f n a);
  q_mkdir f n a b : op_mkdir o = Some f -> quiet (f n a b);
  q_creat f n a b : op_creat o = Some f -> quiet (f n a b);
  q_mknod f n a b c : op_mknod o = Some f -> quiet (f n a b c);
  q_truncate f n a : op_truncate o = Some f -> quiet (f n a);
  q_unlink f n a : op_unlink o = Some f -> quiet (f n a);
  q_link f n m a : op_link o = Some f -> quiet (f n m a);
  q_ioctl f n a b : op_ioctl o = Some f -> quiet (f n a b)
}.
Class QuietDrivers (drv D : Type) `{!Kernel drv D} : Prop := {
  quiet_driver t : quiet_ops (driver t);
  quiet_devices mj f n fl : devices mj = Some f -> quiet (f n fl)
}.

Section Frames.
Context {drv D : Type} `{HK : !Kernel drv D} `{!QuietDrivers drv D}.
Notation vst := (vst drv D).
#[local] Hint Resolve q_read q_write q_open q_close q_readdir q_finddir q_mkdir q_creat q_mknod q_truncate q_unlink q_link q_ioctl
  quiet_driver quiet_devices : quiet.

Lemma quiet_node_at n : quiet (node_at (drv:=drv) (D:=D) n).
Proof. unfold node_at. quiet_tac. Qed.
Lemma quiet_put_node n x : quiet (put_node (drv:=drv) (D:=D) n x).
Proof. unfold put_node. quiet_tac. Qed.
Lemma quiet_non_null {A} (o : option A) : quiet (non_null (drv:=drv) (D:=D) o).
Proof. unfold non_null. quiet_tac. Qed.
Lemma quiet_deref o : quiet (deref (drv:=drv) (D:=D) o).
Proof. unfold deref. quiet_tac. Qed.
#[local] Hint Resolve quiet_node_at quiet_put_node quiet_non_null quiet_deref : quiet.

Lemma quiet_ops_at n : quiet (ops_at (drv:=drv) (D:=D) n).
Proof. unfold ops_at. quiet_tac. Qed.

Lemma ops_at_driver n (s : vst) o s' : ops_at n s = Ok (o, s') -> s' = s /\ exists t, o = driver t.
Proof.
  unfold ops_at, node_at. st_run. destruct (nodes s !! n); [|done]. intros H. injection H as <- <-. split; [done|by eexists].
Qed.
Lemma quiet_with_ops {A} n (g : node_ops drv D -> st vst A) : (forall t, quiet (g (driver t))) -> quiet (o ← ops_at n; g o).
Proof. intros Hg s b s' H. inv_res. destruct (ops_at_driver _ _ _ _ H0) as [-> [t ->]]. by eapply Hg. Qed.

Ltac quiet_ops_at ::= apply quiet_with_ops.

Lemma quiet_fs_close n : quiet (fs_close (drv:=drv) (D:=D) n).
Proof. destruct n as [n|]; [|apply quiet_fail]. unfold fs_close. quiet_tac. Qed.
Lemma quiet_fs_read n o k : quiet (fs_read (drv:=drv) (D:=D) n o k).
Proof. unfold fs_read. quiet_tac. Qed.
Lemma quiet_fs_write n o k b : quiet (fs_write (drv:=drv) (D:=D) n o k b).
Proof. unfold fs_write. quiet_tac. Qed.
Lemma quiet_fs_readdir n i : quiet (fs_readdir (drv:=drv) (D:=D) n i).
Proof. unfold fs_readdir. quiet_tac. Qed.
Lemma quiet_fs_finddir n i : quiet (fs_finddir (drv:=drv) (D:=D) n i).
Proof. unfold fs_finddir. quiet_tac. Qed.
Lemma quiet_fs_truncate n k : quiet (fs_truncate (drv:=drv) (D:=D) n k).
Proof. unfold fs_truncate. quiet_tac. Qed.
Lemma quiet_fs_link p n k : quiet (fs_link (drv:=drv) (D:=D) p n k).
Proof. unfold fs_link. quiet_tac. Qed.
Lemma quiet_fs_ioctl n r k : quiet (fs_ioctl (drv:=drv) (D:=D) n r k).
Proof. unfold fs_ioctl. quiet_tac. Qed.
Lemma quiet_node_open n k : quiet (node_open (drv:=drv) (D:=D) n k).
Proof. unfold node_open. quiet_tac. Qed.
#[local] Hint Resolve quiet_fs_close quiet_fs_read quiet_fs_write quiet_fs_readdir quiet_fs_finddir quiet_fs_truncate
  quiet_fs_link quiet_fs_ioctl quiet_node_open : quiet.

Lemma quiet_fs_mkdir n k m : quiet (fs_mkdir (drv:=drv) (D:=D) n k m).
Proof. unfold fs_mkdir. quiet_tac. Qed.
Lemma quiet_fs_dup n : quiet (fs_dup (drv:=drv) (D:=D) n).
Proof. unfold fs_dup. quiet_tac. Qed.
Lemma quiet_leave n : quiet (leave (drv:=drv) (D:=D) n).
Proof. unfold leave. quiet_tac. Qed.
#[local] Hint Resolve quiet_leave : quiet.
Lemma quiet_namei_loop f str p len node : quiet (namei_loop (drv:=drv) (D:=D) f str p len node).
Proof. revert p len node. induction f as [|f IH]; intros; cbn [namei_loop]; quiet_tac. Qed.
#[local] Hint Resolve quiet_fs_mkdir quiet_fs_dup quiet_namei_loop : quiet.
Lemma quiet_fs_namei p : quiet (fs_namei (drv:=drv) (D:=D) p).
Proof. unfold fs_namei. quiet_tac. Qed.
#[local] Hint Resolve quiet_fs_namei : quiet.
Lemma quiet_fs_creat p m : quiet (fs_creat (drv:=drv) (D:=D) p m).
Proof. unfold fs_creat. quiet_tac. Qed.
Lemma quiet_has_entries f n i : quiet (has_entries (drv:=drv) (D:=D) f n i).
Proof. revert i. induction f as [|f IH]; intros; cbn [has_entries]; quiet_tac. Qed.
#[local] Hint Resolve quiet_fs_creat quiet_has_entries : quiet.
Lemma quiet_fs_unlink e fr p : quiet (fs_unlink (drv:=drv) (D:=D) e fr p).
Proof. unfold fs_unlink. quiet_tac. Qed.
Lemma quiet_fs_open_namei p fl m : quiet (fs_open_namei (drv:=drv) (D:=D) p fl m).
Proof. unfold fs_open_namei. quiet_tac. Qed.
Lemma quiet_dev_open n fl : quiet (dev_open (drv:=drv) (D:=D) n fl).
Proof. unfold dev_open. quiet_tac. Qed.
End Frames.

(** ** Counting the slots of a structure *)
Definition refs (l : list (option fptr)) (f : fptr) : nat := length (filter (fun o => o = Some f) l).

Lemma refs_app l k f : refs (l ++ k) f = (refs l f + refs k f)%nat.
Proof. unfold refs. by rewrite filter_app, length_app. Qed.
Lemma refs_cons o l f : refs (o :: l) f = ((if decide (o = Some f) then 1 else 0) + refs l f)%nat.
Proof. unfold refs. rewrite filter_cons. by case_decide. Qed.
Lemma refs_pad k f : refs (replicate k None) f = 0%nat.
Proof. induction k as [|k IH]; [done|]. cbn [replicate]. rewrite refs_cons, IH. by case_decide. Qed.
Lemma refs_length l f : (refs l f <= length l)%nat.
Proof. apply length_filter. Qed.
Lemma refs_insert l i o o' f : l !! i = Some o ->
  (refs (<[i := o']> l) f + (if decide (o = Some f) then 1 else 0) = refs l f + (if decide (o' = Some f) then 1 else 0))%nat.
Proof.
  intros Hi. rewrite insert_take_drop by by eapply lookup_lt_Some.
  rewrite <- (take_drop_middle l i o Hi) at 3. rewrite !refs_app, !refs_cons. lia.
Qed.
Lemma refs_pos l i f : l !! i = Some (Some f) -> (0 < refs l f)%nat.
Proof. intros Hi. rewrite <- (take_drop_middle l i _ Hi), refs_app, refs_cons, decide_True by done. lia. Qed.
Lemma refs_zero l f : refs l f = 0%nat -> Some f ∉ l.
Proof. intros H Hf. apply list_elem_of_lookup in Hf as [i Hi]. apply refs_pos in Hi. lia. Qed.

(** A structure that exists is in one slot more than its [dup_cnt]; no slot
    holds a structure that does not exist. *)
Definition balanced (l : list (option fptr)) (m : gmap fptr file) : Prop := forall f,
  match m !! f with
  | Some x => Z.of_nat (refs l f) = dup_cnt x + 1 /\ (0 < refs l f)%nat
  | None => refs l f = 0%nat
  end.
Lemma balanced_refs l k m : (forall f, refs l f = refs k f) -> balanced l m -> balanced k m.
Proof. intros H Hl f. specialize (Hl f). by rewrite <- H. Qed.
Lemma balanced_live l m f : balanced l m -> (0 < refs l f)%nat -> exists x, m !! f = Some x /\ Z.of_nat (refs l f) = dup_cnt x + 1.
Proof. intros H Hf. specialize (H f). destruct (m !! f) as [x|]; [exists x; naive_solver|lia]. Qed.
(** Only one structure changes its count. *)
Lemma balanced_update l k m f o :
  balanced l m -> (forall g, g <> f -> refs k g = refs l g) ->
  match o with Some x => Z.of_nat (refs k f) = dup_cnt x + 1 /\ (0 < refs k f)%nat | None => refs k f = 0%nat end ->
  balanced k (partial_alter (fun _ => o) f m).
Proof.
  intros H Hk Ho g. destruct (decide (g = f)) as [->|Hg].
  - rewrite lookup_partial_alter_eq. exact Ho.
  - rewrite lookup_partial_alter_ne by congruence. rewrite Hk by done. apply H.
Qed.
Lemma balanced_set l k m f x :
  balanced l m -> (forall g, g <> f -> refs k g = refs l g) ->
  Z.of_nat (refs k f) = dup_cnt x + 1 -> (0 < refs k f)%nat -> balanced k (<[f := x]> m).
Proof. intros. by apply (balanced_update l k m f (Some x)). Qed.
Lemma balanced_del l k m f :
  balanced l m -> (forall g, g <> f -> refs k g = refs l g) -> refs k f = 0%nat -> balanced k (delete f m).
Proof. intros. by apply (balanced_update l k m f None). Qed.
(** A change that keeps the count. *)
Lemma balanced_keep l m f x y : balanced l m -> m !! f = Some x -> dup_cnt y = dup_cnt x -> balanced l (<[f := y]> m).
Proof. intros H Hx Hd. pose proof (H f) as Hf. rewrite Hx in Hf. apply (balanced_set l); [done|done|..]; rewrite ?Hd; tauto. Qed.

(** The invariant; [others] are the slots of the other tasks, and the pointers
    that a call holds before it stores them. *)
Record desc_inv {drv D} (others : list (option fptr)) (s : vst drv D) : Prop := {
  di_balanced : balanced (files s ++ others) (fstore s);
  di_fresh : forall f, (next_file s <= f)%positive -> fstore s !! f = None;
  di_slots : Z.of_nat (length (files s)) <= MAX_OPEN_FILES;
  di_nodes : forall i f, files s !! i = Some (Some f) -> exists x, fstore s !! f = Some x /\ f_node x <> None
}.
Lemma desc_inv_same {drv D} others (s s' : vst drv D) : same_files s s' -> desc_inv others s -> desc_inv others s'.
Proof. intros (Hf & Hm & Hn) [H1 H2 H3 H4]. constructor; rewrite ?Hf, ?Hm, ?Hn; done. Qed.
Lemma desc_inv_refs {drv D} others others' (s : vst drv D) :
  (forall f, refs others f = refs others' f) -> desc_inv others s -> desc_inv others' s.
Proof.
  intros H [H1 H2 H3 H4]. constructor; try done. apply (balanced_refs (files s ++ others)); [|done].
  intros f. by rewrite !refs_app, H.
Qed.

(** ** Calls that change no count *)
Section Preserve.
Context {drv D : Type} `{HK : !Kernel drv D} `{!QuietDrivers drv D}.
Context (others : list (option fptr)).
Notation vst := (vst drv D).
#[local] Hint Resolve quiet_node_at quiet_put_node quiet_non_null quiet_deref quiet_fs_close quiet_fs_read quiet_fs_write
  quiet_fs_readdir quiet_fs_finddir quiet_fs_truncate quiet_fs_link quiet_fs_ioctl quiet_node_open quiet_fs_mkdir quiet_fs_dup
  quiet_fs_namei quiet_fs_unlink quiet_fs_open_namei quiet_dev_open : quiet.

Definition pres {A} (P Q : vst -> Prop) (m : st vst A) : Prop := forall s a s', P s -> m s = Ok (a, s') -> Q s'.
(** The invariant, and perhaps what a structure holds. *)
Definition inv_at (k : option (fptr * file)) (s : vst) : Prop :=
  desc_inv others s /\ match k with Some (f, x) => fstore s !! f = Some x | None => True end.

Lemma pres_bind {A B} P R Q (m : st vst A) (f : A -> st vst B) : pres P R m -> (forall a, pres R Q (f a)) -> pres P Q (m ≫= f).
Proof. intros Hm Hf s b s' Hs H. inv_res. eapply Hf; [|exact H]. by eapply Hm. Qed.
Lemma pres_quiet {A} k (m : st vst A) : quiet m -> pres (inv_at k) (inv_at k) m.
Proof.
  intros Hq s a s' [Hi Hk] H. specialize (Hq _ _ _ H). split; [by apply (desc_inv_same _ s)|].
  destruct k as [[f x]|]; [|done]. destruct Hq as (_ & -> & _). done.
Qed.
Lemma pres_forget {A} k Q (m : st vst A) : pres (inv_at None) Q m -> pres (inv_at k) Q m.
Proof. intros Hm s a s' [Hi _]. by apply Hm. Qed.
Lemma pres_ret {A} k (a : A) : pres (inv_at k) (inv_at None) (mret a).
Proof. apply pres_forget, pres_quiet, quiet_ret. Qed.
Lemma pres_last {A} k (m : st vst A) : quiet m -> pres (inv_at k) (inv_at None) m.
Proof. intros. by apply pres_forget, pres_quiet. Qed.
Lemma file_at_Ok f (s : vst) x s' : file_at f s = Ok (x, s') <-> s' = s /\ fstore s !! f = Some x.
Proof.
  unfold file_at. st_run. destruct (fstore s !! f) as [y|]; [|naive_solver]. split; [intros H; injection H as -> ->; done|].
  intros [-> E]. by injection E as ->.
Qed.
Lemma pres_file_at {B} k Q f (g : file -> st vst B) :
  (forall x, pres (inv_at (Some (f, x))) Q (g x)) -> pres (inv_at k) Q (x ← file_at f; g x).
Proof. intros Hg s b s' [Hi _] H. inv_res. apply file_at_Ok in H0 as [-> Hx]. by eapply Hg. Qed.
Lemma desc_inv_keep f x y (s : vst) : desc_inv others s -> fstore s !! f = Some x -> f_node y = f_node x -> dup_cnt y = dup_cnt x ->
  desc_inv others (set_fstore s (<[f := y]> (fstore s))).
Proof.
  intros [H1 H2 H3 H4] Hx Hn Hd. constructor; cbn; [by eapply balanced_keep| |done|].
  - intros g Hg. rewrite lookup_insert_ne; [by apply H2|]. intros ->. by rewrite H2 in Hx.
  - intros i g Hg. destruct (H4 i g Hg) as (z & Hz & Hnz). destruct (decide (g = f)) as [->|].
    + rewrite lookup_insert_eq. exists y. split; [done|]. rewrite Hn. congruence.
    + rewrite lookup_insert_ne by done. by exists z.
Qed.
Lemma pres_put {B} Q f x y (m : st vst B) : f_node y = f_node x -> dup_cnt y = dup_cnt x ->
  pres (inv_at None) Q m -> pres (inv_at (Some (f, x))) Q (put_file f y;; m).
Proof.
  intros Hn Hd Hm s b s' [Hi Hx] H. inv_res. injection H0 as <- <-.
  eapply Hm; [|exact H]. split; [|done]. by apply (desc_inv_keep f x).
Qed.
Lemma quiet_slot fd : quiet (slot (drv:=drv) (D:=D) fd).
Proof. unfold slot. quiet_tac. Qed.
#[local] Hint Resolve quiet_slot : quiet.
Lemma quiet_fd_is_valid fd : quiet (fd_is_valid (drv:=drv) (D:=D) fd).
Proof. unfold fd_is_valid. quiet_tac. Qed.
Lemma quiet_fd_file fd : quiet (fd_file (drv:=drv) (D:=D) fd).
Proof. unfold fd_file. quiet_tac. Qed.
Lemma quiet_file_at f : quiet (file_at (drv:=drv) (D:=D) f).
Proof. unfold file_at. quiet_tac. Qed.
#[local] Hint Resolve quiet_fd_is_valid quiet_fd_file quiet_file_at : quiet.
Lemma quiet_fd_node fd : quiet (fd_node (drv:=drv) (D:=D) fd).
Proof. unfold fd_node. quiet_tac. Qed.
Lemma quiet_populate n b : quiet (populate_stat_buf (drv:=drv) (D:=D) n b).
Proof. unfold populate_stat_buf. quiet_tac. Qed.
#[local] Hint Resolve quiet_fd_node quiet_populate : quiet.

(** [pres_tac] goes through a call that changes at most the offset of a structure. *)
Ltac pres_tac :=
  repeat first
  [ progress intros
  | apply pres_ret
  | apply pres_file_at
  | apply pres_put; [done|done|]
  | apply pres_last; solve [quiet_tac]
  | eapply pres_bind; [apply pres_quiet; solve [quiet_tac]|]
  | match goal with |- pres _ _ (match ?x with _ => _ end) => destruct x eqn:? end ].

(** The calls that neither make nor end a descriptor. *)
Inductive plain_call :=
| CRead (fd count : Z) | CWrite (fd : Z) (buf : list Z) (count : Z) | CLseek (fd offset whence : Z) | CFtruncate (fd len : Z)
| CIoctl (fd request argp : Z) | CIsatty (fd : Z) | CFstat (fd : Z) (buf : stat) | CStat (path : list Z) (buf : stat)
| CLstat (path : list Z) (buf : stat) | CChdir (path : list Z) | CChroot (path : list Z) | CChown (path : list Z) (uid gid : Z)
| CChmod (path : list Z) (mode : Z) | CMkdir (path : option (list Z)) (mode : Z) | CGetcwd (buf : list Z) (size : Z)
| CUnlink (entries : nat) (frame path : list Z) | CReaddir (dir : fptr) (d_name : list Z)
| CLink (parent : option nptr) (frame oldpath newpath : list Z) | CRename (entries : nat) (frame oldpath newpath : list Z).
Definition exec_plain (c : plain_call) : st vst unit :=
  match c with
  | CRead fd n => sys_read fd n;; mret tt
  | CWrite fd b n => sys_write fd b n;; mret tt
  | CLseek fd o w => sys_lseek fd o w;; mret tt
  | CFtruncate fd l => sys_ftruncate fd l;; mret tt
  | CIoctl fd r a => sys_ioctl fd r a;; mret tt
  | CIsatty fd => sys_isatty fd;; mret tt
  | CFstat fd b => sys_fstat fd b;; mret tt
  | CStat p b => sys_stat p b;; mret tt
  | CLstat p b => sys_lstat p b;; mret tt
  | CChdir p => sys_chdir p;; mret tt
  | CChroot p => sys_chroot p;; mret tt
  | CChown p u g => sys_chown p u g;; mret tt
  | CChmod p m => sys_chmod p m;; mret tt
  | CMkdir p m => sys_mkdir p m;; mret tt
  | CGetcwd b n => sys_getcwd b n;; mret tt
  | CUnlink e f p => sys_unlink e f p;; mret tt
  | CReaddir d b => sys_readdir d b;; mret tt
  | CLink p f a b => sys_link p f a b;; mret tt
  | CRename e f a b => sys_rename e f a b;; mret tt
  end.

Lemma pres_read fd n : pres (inv_at None) (inv_at None) (sys_read fd n).
Proof. unfold sys_read. pres_tac. Qed.
Lemma pres_lseek fd o w : pres (inv_at None) (inv_at None) (sys_lseek fd o w).
Proof. unfold sys_lseek. pres_tac. Qed.
Lemma pres_write fd b n : pres (inv_at None) (inv_at None) (sys_write fd b n).
Proof. unfold sys_write. pres_tac. Qed.
Lemma pres_readdir d b : pres (inv_at None) (inv_at None) (sys_readdir d b).
Proof. unfold sys_readdir. pres_tac. Qed.
Lemma exec_plain_pres c : pres (inv_at None) (inv_at None) (exec_plain c).
Proof.
  destruct c; cbn [exec_plain]; (eapply pres_bind; [|intros; apply pres_ret]);
    [apply pres_read|apply pres_write|apply pres_lseek|..];
    unfold sys_ftruncate, sys_ioctl, sys_isatty, sys_fstat, sys_stat, sys_lstat, sys_chdir, sys_chroot, sys_chown, sys_chmod,
      sys_mkdir, sys_getcwd, sys_unlink, sys_link, sys_rename; try apply pres_readdir; pres_tac.
Qed.
End Preserve.

(** ** Making and ending descriptors *)
Section Descriptors.
Context {drv D : Type} `{HK : !Kernel drv D} `{!QuietDrivers drv D}.
Notation vst := (vst drv D).

Lemma first_free_le (l : list (option fptr)) : (first_free l <= length l)%nat.
Proof. induction l as [|[f|] l IH]; cbn; lia. Qed.
Lemma first_free_taken (l : list (option fptr)) i : (i < first_free l)%nat -> exists f, l !! i = Some (Some f).
Proof. revert i. induction l as [|[f|] l IH]; intros [|i] Hi; cbn in *; try lia; [by eexists|]. apply IH. lia. Qed.
Lemma first_free_empty (l : list (option fptr)) o : l !! first_free l = Some o -> o = None.
Proof. induction l as [|[f|] l IH]; cbn; [done|done|]. by intros [= <-]. Qed.

Lemma fd_alloc_run (s : vst) : Z.of_nat (length (files s)) <= MAX_OPEN_FILES ->
  exists k, fd_alloc s = Ok (Z.of_nat (first_free (files s)), set_files s (files s ++ replicate k None)) /\
    Z.of_nat (length (files s) + k) <= MAX_OPEN_FILES /\
    ((0 < length (files s))%nat -> (first_free (files s) < length (files s) + k)%nat \/ Z.of_nat (first_free (files s)) = MAX_OPEN_FILES).
Proof.
  intros Hl. unfold fd_alloc, num_files. st_run. pose proof (first_free_le (files s)) as Hf. unfold MAX_OPEN_FILES in *.
  destruct (Z.of_nat (first_free (files s)) =? Z.of_nat (length (files s))) eqn:E; to_prop.
  - replace (64 <? Z.of_nat (first_free (files s))) with false by lia.
    eexists. split; [reflexivity|]. destruct (64 <=? Z.of_nat (length (files s)) * 2) eqn:E2; to_prop; lia.
  - exists 0%nat. cbn [replicate]. rewrite app_nil_r. split; [by destruct s|lia].
Qed.

Lemma set_slot_Ok fd o (s : vst) r : set_slot fd o s = Ok r <->
  0 <= fd /\ (Z.to_nat fd < length (files s))%nat /\ r = (tt, set_files s (<[Z.to_nat fd := o]> (files s))).
Proof.
  unfold set_slot, wr. st_run. destruct (Z.ltb_spec fd 0); [split; [done|lia]|].
  destruct (decide (Z.to_nat fd < length (files s))%nat) as [Hd|Hd].
  - split; [intros H0; injection H0 as <-; done|]. intros (_ & _ & ->). done.
  - split; [done|lia].
Qed.

(** A slot that holds a structure. *)
Definition taken (s : vst) (i : nat) : Prop := exists f, files s !! i = Some (Some f).
(** A slot that is empty, or that is missing because the table is full. *)
Definition vacant (s : vst) (fd : Z) : Prop := forall o, files s !! Z.to_nat fd = Some o -> o = None.

Lemma desc_inv_pad os (s : vst) k : desc_inv os s -> Z.of_nat (length (files s) + k) <= MAX_OPEN_FILES ->
  desc_inv os (set_files s (files s ++ replicate k None)).
Proof.
  intros [H1 H2 H3 H4] Hk. constructor; cbn; [|done| |].
  - eapply balanced_refs; [|exact H1]. intros f. rewrite !refs_app, refs_pad. lia.
  - by rewrite length_app, length_replicate.
  - intros i f Hi. apply lookup_app_Some in Hi as [Hi|[_ Hi]]; [by eapply H4|]. apply lookup_replicate in Hi as [Hi _]. done.
Qed.
Lemma fd_alloc_inv os (s : vst) fd s' : desc_inv os s -> fd_alloc s = Ok (fd, s') ->
  desc_inv os s' /\ fstore s' = fstore s /\ 0 <= fd /\ vacant s' fd /\ (forall i o, files s !! i = Some o -> files s' !! i = Some o).
Proof.
  intros Hi H. destruct (fd_alloc_run s (di_slots _ _ Hi)) as (k & Hrun & Hk & _). rewrite H in Hrun. injection Hrun as -> ->.
  split; [by apply desc_inv_pad|]. split; [done|]. split; [lia|]. split.
  - intros o. rewrite Nat2Z.id. cbn. intros Ho. apply lookup_app_Some in Ho as [Ho|[_ Ho]]; [by apply first_free_empty in Ho|].
    by apply lookup_replicate in Ho as [-> _].
  - intros i o Ho. cbn. by apply lookup_app_l_Some.
Qed.

(** A new structure is first held by the call alone. *)
Lemma file_alloc_inv os (s : vst) g s' : desc_inv os s -> file_alloc s = Ok (g, s') ->
  match g with
  | None => s' = s
  | Some f => desc_inv (Some f :: os) s' /\ files s' = files s /\ fstore s' !! f = Some (File 0 0 0 None 0) /\
      fstore s !! f = None /\ fstore s' = <[f := File 0 0 0 None 0]> (fstore s)
  end.
Proof.
  intros [H1 H2 H3 H4] H. unfold file_alloc in H. revert H. st_run. destruct (nomem s); intros H; injection H as <- <-; [done|].
  assert (Hn : fstore s !! next_file s = None) by (apply H2; lia).
  pose proof (H1 (next_file s)) as Hz. rewrite Hn, refs_app in Hz.
  cbn. split; [|split; [done|split; [apply lookup_insert_eq|done]]]. constructor; cbn.
  - apply (balanced_set (files s ++ os)); [done|..]; intros; rewrite !refs_app, refs_cons; [rewrite decide_False by congruence; lia|..];
      rewrite decide_True by done; cbn; lia.
  - intros f Hf. rewrite lookup_insert_ne by lia. apply H2. lia.
  - done.
  - intros i f Hf. destruct (H4 i f Hf) as (x & Hx & ?). exists x. split; [|done]. rewrite lookup_insert_ne by congruence. done.
Qed.
(** Storing it moves the reference to the table. *)
Lemma link_inv os f x fd (s : vst) r : desc_inv (Some f :: os) s -> fstore s !! f = Some x -> f_node x <> None -> vacant s fd ->
  set_slot fd (Some f) s = Ok r -> desc_inv os r.2.
Proof.
  intros [H1 H2 H3 H4] Hx Hn Hv H. apply set_slot_Ok in H as (Hp & Hl & ->). cbn.
  apply lookup_lt_is_Some in Hl as [o Ho]. pose proof (Hv _ Ho) as ->. constructor; cbn.
  - eapply balanced_refs; [|exact H1]. intros g. rewrite !refs_app, refs_cons.
    pose proof (refs_insert (files s) _ None (Some f) g Ho) as Hr. repeat case_decide; simplify_eq; lia.
  - done.
  - by rewrite length_insert.
  - intros i g Hg. destruct (decide (i = Z.to_nat fd)) as [->|].
    + rewrite list_lookup_insert_eq in Hg by by eapply lookup_lt_Some. injection Hg as <-. by exists x.
    + rewrite list_lookup_insert_ne in Hg by done. by eapply H4.
Qed.
(** Releasing a structure that one pointer holds. *)
Lemma free_file_inv os f x (s : vst) r : desc_inv (Some f :: os) s -> fstore s !! f = Some x -> dup_cnt x = 0 ->
  free_file f s = Ok r -> desc_inv os r.2 /\ files r.2 = files s.
Proof.
  intros [H1 H2 H3 H4] Hx Hd H. unfold free_file in H. destruct r as [[] s']. inv_res. apply file_at_Ok in H0 as [-> Hf].
  injection H as <-. pose proof (H1 f) as Hz. rewrite Hx, refs_app, refs_cons, decide_True in Hz by done. destruct Hz as [Hz _].
  assert (Hfl : refs (files s) f = 0%nat) by lia. cbn. split; [|done]. constructor; cbn.
  - apply (balanced_del (files s ++ Some f :: os)); [done|..]; intros; rewrite !refs_app, ?refs_cons; [rewrite decide_False by congruence|]; lia.
  - intros g Hg. destruct (decide (g = f)) as [->|]; [apply lookup_delete_eq|]. rewrite lookup_delete_ne by done. by apply H2.
  - done.
  - intros i g Hg. destruct (H4 i g Hg) as (z & Hz2 & ?). exists z. split; [|done]. rewrite lookup_delete_ne; [done|].
    intros ->. apply refs_pos in Hg. lia.
Qed.
(** Emptying a slot hands its reference to the call. *)
Lemma unlink_inv os f fd (s : vst) r : desc_inv os s -> files s !! Z.to_nat fd = Some (Some f) -> set_slot fd None s = Ok r ->
  desc_inv (Some f :: os) r.2.
Proof.
  intros [H1 H2 H3 H4] Hf H. apply set_slot_Ok in H as (Hp & Hl & ->). cbn. constructor; cbn.
  - eapply balanced_refs; [|exact H1]. intros g. rewrite !refs_app, refs_cons.
    pose proof (refs_insert (files s) _ _ None g Hf) as Hr. repeat case_decide; simplify_eq; lia.
  - done.
  - by rewrite length_insert.
  - intros i g Hg. destruct (decide (i = Z.to_nat fd)) as [->|].
    + rewrite list_lookup_insert_eq in Hg by by eapply lookup_lt_Some. done.
    + rewrite list_lookup_insert_ne in Hg by done. by eapply H4.
Qed.

(** Fewer slots than an [int] counts. *)
Definition few (os : list (option fptr)) : Prop := Z.of_nat (length os) < 2 ^ 30.

Lemma count_bound os (s : vst) f x : desc_inv os s -> few os -> fstore s !! f = Some x -> 0 <= dup_cnt x < 2 ^ 30 + 64.
Proof.
  intros [H1 _ H3 _] Hfew Hx. specialize (H1 f). rewrite Hx in H1. unfold few, MAX_OPEN_FILES in *.
  pose proof (refs_length (files s ++ os) f) as Hl. rewrite length_app in Hl. lia.
Qed.
(** Lowering the count, or releasing the structure, drops one reference. *)
Definition lower (f : fptr) (x : file) : st vst unit :=
  if dup_cnt x =? 0 then free_file f else put_file f (with_dup x (dup_cnt x -i 1)).
Lemma set_count_inv os os' f x d (s : vst) : desc_inv os s -> fstore s !! f = Some x ->
  (forall g, g <> f -> refs os' g = refs os g) -> Z.of_nat (refs (files s ++ os') f) = d + 1 -> 0 <= d ->
  desc_inv os' (set_fstore s (<[f := with_dup x d]> (fstore s))).
Proof.
  intros [H1 H2 H3 H4] Hx Ho Hd Hp. constructor; cbn; [|..|done|].
  - apply (balanced_set (files s ++ os)); [done| |done|lia]. intros g Hg. by rewrite !refs_app, Ho.
  - intros g Hg. rewrite lookup_insert_ne; [by apply H2|]. intros ->. by rewrite H2 in Hx.
  - intros i g Hg. destruct (H4 i g Hg) as (z & Hz & Hnz). destruct (decide (g = f)) as [->|].
    + rewrite lookup_insert_eq. eexists. split; [done|]. cbn. congruence.
    + rewrite lookup_insert_ne by done. by exists z.
Qed.
Lemma lower_inv os f x (s : vst) r : desc_inv (Some f :: os) s -> few os -> fstore s !! f = Some x ->
  lower f x s = Ok r -> desc_inv os r.2 /\ files r.2 = files s.
Proof.
  intros Hi Hfew Hx. unfold lower. destruct (dup_cnt x =? 0) eqn:E; to_prop; intros H; [by apply (free_file_inv os f x s)|].
  injection H as <-. cbn. split; [|done].
  assert (few (Some f :: os) \/ dup_cnt x < 2 ^ 31) as Hb.
  { right. pose proof (di_balanced _ _ Hi f) as Hz. rewrite Hx in Hz. pose proof (refs_length (files s ++ Some f :: os) f) as Hl.
    rewrite length_app in Hl. cbn [length] in Hl. pose proof (di_slots _ _ Hi). unfold few, MAX_OPEN_FILES in *. lia. }
  pose proof (di_balanced _ _ Hi f) as Hz. rewrite Hx, refs_app, refs_cons, decide_True in Hz by done.
  assert (1 <= dup_cnt x < 2 ^ 31) by (destruct Hb as [Hb|]; [|lia]; pose proof (count_bound _ _ _ _ Hi Hb Hx); lia).
  rewrite s32_small by lia. apply (set_count_inv (Some f :: os)); [done|done| | |lia].
  - intros g Hg. rewrite refs_cons. rewrite decide_False by congruence. lia.
  - rewrite refs_app. lia.
Qed.
Lemma raise_inv os f x (s : vst) : desc_inv os s -> few os -> fstore s !! f = Some x ->
  desc_inv (Some f :: os) (set_fstore s (<[f := with_dup x (dup_cnt x +i 1)]> (fstore s))).
Proof.
  intros Hi Hfew Hx. pose proof (count_bound _ _ _ _ Hi Hfew Hx) as Hb. rewrite s32_small by lia.
  pose proof (di_balanced _ _ Hi f) as Hz. rewrite Hx, refs_app in Hz.
  apply (set_count_inv os); [done|done| | |lia].
  - intros g Hg. rewrite refs_cons, decide_False by congruence. lia.
  - rewrite refs_app, refs_cons, decide_True by done. lia.
Qed.

Lemma slot_Ok fd (s : vst) o s' : slot fd s = Ok (o, s') <-> s' = s /\ 0 <= fd /\ files s !! Z.to_nat fd = Some o.
Proof.
  unfold slot. st_run. destruct (Z.ltb_spec fd 0); [split; [done|lia]|]. unfold rd.
  destruct (files s !! Z.to_nat fd) as [p|]; [|naive_solver]. split; [intros E; injection E as -> ->; done|].
  intros (-> & _ & E). by injection E as ->.
Qed.
Lemma fd_file_Ok fd (s : vst) f s' : fd_file fd s = Ok (f, s') <-> s' = s /\ 0 <= fd /\ files s !! Z.to_nat fd = Some (Some f).
Proof.
  unfold fd_file. rewrite st_bind_Ok. setoid_rewrite slot_Ok. unfold non_null. split.
  - intros (o & s1 & (-> & H0 & Hs) & H). destruct o as [g|]; [|done]. injection H as -> ->. done.
  - intros (-> & H0 & Hs). exists (Some f), s. done.
Qed.
(** The two steps of [sys_close] in its order: the slot is emptied last. *)
Lemma release_inv os f x fd (s s2 s3 : vst) u v : desc_inv os s -> few os -> 0 <= fd -> files s !! Z.to_nat fd = Some (Some f) ->
  fstore s !! f = Some x -> lower f x s = Ok (u, s2) -> set_slot fd None s2 = Ok (v, s3) -> desc_inv os s3.
Proof.
  intros Hi Hfew Hp Hf Hx Hlow Hset. set (s1 := set_files s (<[Z.to_nat fd := None]> (files s))).
  assert (Hs1 : set_slot fd None s = Ok (tt, s1)) by (apply set_slot_Ok; split; [done|]; split; [by eapply lookup_lt_Some|done]).
  pose proof (unlink_inv _ _ _ _ _ Hi Hf Hs1) as Hi1. apply set_slot_Ok in Hset as (_ & _ & [= _ ->]).
  assert (Hl : lower f x s1 = Ok (u, set_files s2 (<[Z.to_nat fd := None]> (files s2)))).
  { revert Hlow. unfold lower, free_file, file_at, put_file. st_run. destruct (dup_cnt x =? 0).
    - change (fstore s1) with (fstore s). rewrite Hx. intros E. injection E as <- <-. done.
    - intros E. injection E as <- <-. done. }
  apply (lower_inv os f x s1 _ Hi1 Hfew Hx Hl).
Qed.
Lemma close_inv os fd (s : vst) r s' : desc_inv os s -> few os -> sys_close fd s = Ok (r, s') -> desc_inv os s'.
Proof.
  intros Hi Hfew H. unfold sys_close in H. apply st_bind_Ok in H as (v & s0 & Hv & H). apply quiet_fd_is_valid in Hv.
  apply (desc_inv_same _ _ _ Hv) in Hi. clear Hv. destruct (negb v); [by injection H as <- <-|].
  apply st_bind_Ok in H as (f & ? & Hf & H). apply fd_file_Ok in Hf as (-> & Hp & Hf).
  apply st_bind_Ok in H as (x & ? & Hx & H). apply file_at_Ok in Hx as [-> _].
  destruct (dup_cnt x <? 0); [by injection H as <- <-|].
  apply st_bind_Ok in H as ([] & s1 & Hc & H). apply quiet_fs_close in Hc. apply (desc_inv_same _ _ _ Hc) in Hi.
  destruct Hc as (Hfl & _). rewrite <- Hfl in Hf. apply st_bind_Ok in H as (y & ? & Hy & H). apply file_at_Ok in Hy as [-> Hy].
  apply st_bind_Ok in H as (u & s2 & Hlow & H). apply st_bind_Ok in H as (w & s3 & Hset & H). injection H as _ <-.
  by eapply release_inv.
Qed.

(** A structure that only the running call holds. *)
Definition held (os : list (option fptr)) (f : fptr) (x : file) (s : vst) : Prop :=
  desc_inv (Some f :: os) s /\ fstore s !! f = Some x /\ dup_cnt x = 0.
Lemma held_same os f x (s s' : vst) : same_files s s' -> held os f x s -> held os f x s'.
Proof. intros Hs (Hi & Hx & Hd). split; [by eapply desc_inv_same|]. destruct Hs as (_ & -> & _). done. Qed.
Lemma held_put os f x y (s : vst) r : held os f x s -> dup_cnt y = 0 -> put_file f y s = Ok r ->
  held os f y r.2 /\ files r.2 = files s /\ fstore r.2 = <[f := y]> (fstore s).
Proof.
  intros ([H1 H2 H3 H4] & Hx & Hd) Hy H. injection H as <-. cbn. split; [|done]. split; [|split; [apply lookup_insert_eq|done]].
  pose proof (H1 f) as Hz. rewrite Hx, refs_app, refs_cons, decide_True in Hz by done. constructor; cbn.
  - eapply balanced_keep; [done|done|lia].
  - intros g Hg. rewrite lookup_insert_ne; [by apply H2|]. intros ->. by rewrite H2 in Hx.
  - done.
  - intros i g Hg. destruct (H4 i g Hg) as (z & Hz2 & Hnz). exists z. split; [|done]. rewrite lookup_insert_ne; [done|].
    intros ->. apply refs_pos in Hg. lia.
Qed.
Lemma file_alloc_held os (s : vst) f s' : desc_inv os s -> file_alloc s = Ok (Some f, s') ->
  held os f (File 0 0 0 None 0) s' /\ files s' = files s /\ fstore s !! f = None /\ fstore s' = <[f := File 0 0 0 None 0]> (fstore s).
Proof. intros Hi H. apply (file_alloc_inv os) in H as (? & ? & ? & ? & ?); [|done]. done. Qed.

(** The error path of [sys_open]. *)
Lemma abandon_inv os f x fd (s : vst) r s' : held os f x s -> vacant s fd ->
  (free_file f;; set_slot fd None;; mret (-1)) s = Ok (r, s') -> desc_inv os s'.
Proof.
  intros (Hi & Hx & Hd) Hv E. inv_res. destruct (free_file_inv _ _ _ _ _ Hi Hx Hd H) as [Hi1 Hf1]. cbn in Hi1, Hf1.
  apply set_slot_Ok in H0 as (_ & Hl & [= _ ->]). injection E as _ <-. apply lookup_lt_is_Some in Hl as [o Ho].
  rewrite Hf1 in Ho. pose proof (Hv _ Ho) as ->. eapply desc_inv_same; [|exact Hi1].
  rewrite Hf1, list_insert_id by done. by rewrite <- Hf1.
Qed.
Lemma open_inv os p fl m (s : vst) r s' : desc_inv os s -> sys_open p fl m s = Ok (r, s') -> desc_inv os s'.
Proof.
  intros Hi H. unfold sys_open in H. apply st_bind_Ok in H as (fd & s1 & Hfd & H).
  destruct (fd_alloc_inv _ _ _ _ Hi Hfd) as (Hi1 & _ & Hp & Hv & _). replace (fd <? 0) with false in H by lia.
  apply st_bind_Ok in H as (g & s2 & Hg & H). apply st_bind_Ok in H as (f & s2' & Hn & H). destruct g as [f'|]; [|done].
  injection Hn as -> ->. destruct (file_alloc_held _ _ _ _ Hi1 Hg) as (Hh & Hfl & _).
  apply st_bind_Ok in H as ([rr node] & s3 & Ho & H). apply quiet_fs_open_namei in Ho. apply (held_same _ _ _ _ _ Ho) in Hh.
  destruct Ho as (Hfl3 & _). apply st_bind_Ok in H as (x & ? & Hx & H). apply file_at_Ok in Hx as [-> Hx].
  pose proof Hh as (_ & Hx0 & _). rewrite Hx0 in Hx. injection Hx as <-.
  apply st_bind_Ok in H as ([] & s4 & Hput & H). apply (held_put _ _ _ _ _ _ Hh) in Hput as (Hh4 & Hfl4 & _); [|done]. cbn in Hh4, Hfl4.
  assert (Hv4 : vacant s4 fd) by (unfold vacant; rewrite Hfl4, Hfl3, Hfl; exact Hv). clear Hv Hfd Hg Hh.
  destruct node as [n|]; [|eapply abandon_inv; [exact Hh4|exact Hv4|exact H]]. destruct (rr <? 0).
  - apply st_bind_Ok in H as ([] & s5 & Hc & H). apply quiet_fs_close in Hc.
    eapply abandon_inv; [by eapply held_same| |exact H]. destruct Hc as (Hf5 & _). unfold vacant. by rewrite Hf5.
  - apply st_bind_Ok in H as (nx & s5 & Hn & H). apply quiet_node_at in Hn. apply (held_same _ _ _ _ _ Hn) in Hh4.
    destruct Hn as (Hf5 & _). apply st_bind_Ok in H as (y & ? & Hy & H). apply file_at_Ok in Hy as [-> Hy].
    pose proof Hh4 as (_ & Hy0 & _). rewrite Hy0 in Hy. injection Hy as <-. cbn zeta in H.
    apply st_bind_Ok in H as ([] & s6 & Hput & H). apply (held_put _ _ _ _ _ _ Hh4) in Hput as ((Hi6 & Hx6 & _) & Hf6 & _); [|done].
    apply st_bind_Ok in H as ([] & s7 & Hset & H). eapply link_inv in Hset; [|exact Hi6|exact Hx6|done|by unfold vacant; cbn in Hf6; rewrite Hf6, Hf5].
    apply st_bind_Ok in H as ([] & s8 & Hd & H). injection H as _ <-. eapply desc_inv_same; [|exact Hset].
    destruct ((_ =? _) || (_ =? _))%bool in Hd; [exact (quiet_dev_open _ _ _ _ _ Hd)|]. by injection Hd as <-.
Qed.

Lemma dup_inv os fd (s : vst) r s' : desc_inv os s -> few os -> sys_dup fd s = Ok (r, s') -> desc_inv os s'.
Proof.
  intros Hi Hfew H. unfold sys_dup in H. apply st_bind_Ok in H as (? & ? & [= <- <-] & H). destruct (negb _); [by injection H as _ <-|].
  apply st_bind_Ok in H as (d & s1 & Hd & H). destruct (fd_alloc_inv _ _ _ _ Hi Hd) as (Hi1 & _ & Hp & Hv & _).
  replace (d <? 0) with false in H by lia.
  apply st_bind_Ok in H as (f & ? & Hf & H). apply fd_file_Ok in Hf as (-> & _ & Hf).
  apply st_bind_Ok in H as ([] & s2 & Hset & H). apply st_bind_Ok in H as (x & ? & Hx & H). apply file_at_Ok in Hx as [-> Hx].
  apply st_bind_Ok in H as (n & ? & Hn & H). destruct (f_node x) as [n'|] eqn:En; [|done]. injection Hn as -> <-.
  apply st_bind_Ok in H as ([] & s3 & Hdup & H). apply quiet_fs_dup in Hdup. destruct Hdup as (Hf3 & Hm3 & Hn3).
  apply st_bind_Ok in H as (y & ? & Hy & H). apply file_at_Ok in Hy as [-> Hy]. rewrite Hm3 in Hy.
  apply st_bind_Ok in H as ([] & s4 & [= <-] & H). injection H as _ <-.
  apply set_slot_Ok in Hset as (Hp1 & Hl & [= ->]). cbn in Hx, Hy. rewrite Hx in Hy. injection Hy as <-.
  pose proof (raise_inv _ _ _ _ Hi1 Hfew Hx) as Hr. set (s1' := set_fstore s1 _) in Hr.
  assert (Hset : set_slot d (Some f) s1' = Ok (tt, set_files s1' (<[Z.to_nat d := Some f]> (files s1')))) by by apply set_slot_Ok.
  apply (link_inv os f (with_dup x (dup_cnt x +i 1))) in Hset; [|done|cbn; apply lookup_insert_eq|cbn; by rewrite En|exact Hv].
  eapply desc_inv_same; [|exact Hset]. split; [exact Hf3|]. split; [cbn; by rewrite Hm3|exact Hn3].
Qed.

Lemma closedir_inv os l fd dir (s : vst) r s' : desc_inv os s -> few os -> closedir_loop l fd dir s = Ok (r, s') -> desc_inv os s'.
Proof.
  intros Hi Hfew. revert fd. induction l as [|o l IH]; intros fd H; cbn in H; [by injection H as _ <-|].
  case_bool_decide; [|by eapply IH]. apply st_bind_Ok in H as (? & s1 & Hc & H). injection H as _ <-. by eapply close_inv.
Qed.
Lemma opendir_inv os p (s : vst) r s' : desc_inv os s -> few os -> sys_opendir p s = Ok (r, s') -> desc_inv os s'.
Proof.
  intros Hi Hfew H. unfold sys_opendir in H. apply st_bind_Ok in H as (fd & s1 & Ho & H). apply (open_inv _ _ _ _ _ _ _ Hi) in Ho.
  destruct (fd =? 0); [by injection H as _ <-|].
  apply st_bind_Ok in H as (f & ? & Hf & H). apply fd_file_Ok in Hf as (-> & _).
  apply st_bind_Ok in H as (n & s2 & Hn & H). apply quiet_fd_node in Hn. apply (desc_inv_same _ _ _ Hn) in Ho.
  apply st_bind_Ok in H as (nx & s3 & Hx & H). apply quiet_node_at in Hx. apply (desc_inv_same _ _ _ Hx) in Ho.
  destruct (negb _); [|by injection H as _ <-]. apply st_bind_Ok in H as (c & s4 & Hc & H). injection H as _ <-. by eapply close_inv.
Qed.

Lemma quiet_pipe_new : quiet (pipe_new (drv:=drv) (D:=D)).
Proof.
  intros s b s' H. revert H. unfold pipe_new, new_node. st_run. destruct (nomem s); [done|].
  destruct (new_pipe (dev s)) as [[r w] e]. intros H. by injection H as _ <-.
Qed.
Lemma desc_inv_swap o o' os (s : vst) : desc_inv (o :: o' :: os) s -> desc_inv (o' :: o :: os) s.
Proof. apply desc_inv_refs. intros f. rewrite !refs_cons. lia. Qed.
(** The two structures of a pipe. *)
Lemma two_held os (s : vst) a b s1 s2 : desc_inv os s -> file_alloc s = Ok (Some a, s1) -> file_alloc s1 = Ok (Some b, s2) ->
  a <> b /\ held (Some b :: os) a (File 0 0 0 None 0) s2 /\ held (Some a :: os) b (File 0 0 0 None 0) s2.
Proof.
  intros Hi Ha Hb. destruct (file_alloc_held _ _ _ _ Hi Ha) as ((Hi1 & Hx1 & _) & _).
  destruct (file_alloc_held _ _ _ _ Hi1 Hb) as ((Hi2 & Hx2 & _) & _ & Hn & Hm).
  assert (a <> b) by congruence. split; [done|]. split; [|done]. split; [by apply desc_inv_swap|]. split; [|done].
  rewrite Hm, lookup_insert_ne; done.
Qed.
Lemma held_two_put os a b x y z (s : vst) r : a <> b -> held (Some b :: os) a x s -> held (Some a :: os) b z s -> dup_cnt y = 0 ->
  put_file a y s = Ok r -> held (Some b :: os) a y r.2 /\ held (Some a :: os) b z r.2.
Proof.
  intros Hne Ha (_ & Hz & Hd) Hy H. destruct (held_put _ _ _ _ _ _ Ha Hy H) as ((Hi & Hx & Hdy) & _ & Hm). split; [done|].
  split; [by apply desc_inv_swap|]. split; [|done]. rewrite Hm, lookup_insert_ne; done.
Qed.
(** Storing one of two: the other is still held. *)
Lemma slot_held os a b x z fd (s s1 : vst) u : held (Some b :: os) a x s -> fstore s !! b = Some z -> dup_cnt z = 0 -> f_node x <> None ->
  vacant s fd -> set_slot fd (Some a) s = Ok (u, s1) -> held os b z s1.
Proof.
  intros (Hi & Hx & _) Hz Hd Hn Hv H. pose proof (link_inv _ _ _ _ _ _ Hi Hx Hn Hv H) as Hi1. split; [done|]. split; [|done].
  apply set_slot_Ok in H as (_ & _ & [= _ ->]). done.
Qed.
Lemma fd_alloc_held os f x (s : vst) fd s' : held os f x s -> fd_alloc s = Ok (fd, s') -> held os f x s' /\ fstore s' = fstore s /\ vacant s' fd.
Proof.
  intros (Hi & Hx & Hd) H. destruct (fd_alloc_inv _ _ _ _ Hi H) as (Hi1 & Hm & _ & Hv & _). split; [|done]. split; [done|]. by rewrite Hm.
Qed.

Lemma pipe_inv os (s : vst) r s' : desc_inv os s -> sys_pipe s = Ok (r, s') -> desc_inv os s'.
Proof.
  intros Hi H. unfold sys_pipe in H. apply st_bind_Ok in H as ([rn wn] & s1 & Hp & H). apply quiet_pipe_new in Hp.
  apply (desc_inv_same _ _ _ Hp) in Hi. apply st_bind_Ok in H as (fin & s2 & Ha & H). apply st_bind_Ok in H as (fout & s3 & Hb & H).
  apply st_bind_Ok in H as (a & ? & Hn & H). destruct fin as [fi|]; [|done]. injection Hn as -> <-.
  apply st_bind_Ok in H as (x & ? & Hx & H). apply file_at_Ok in Hx as [-> Hx].
  apply st_bind_Ok in H as ([] & s4 & Hpa & H). apply st_bind_Ok in H as (b & ? & Hn & H). destruct fout as [fo|]; [|done]. injection Hn as -> <-.
  destruct (two_held _ _ _ _ _ _ Hi Ha Hb) as (Hne & Hha & Hhb). pose proof Hha as (_ & Hx2 & _). rewrite Hx2 in Hx. injection Hx as <-.
  eapply (held_two_put _ a b) in Hpa as [Hha4 Hhb4]; [|done|exact Hha|exact Hhb|done]. cbn in Hha4, Hhb4.
  apply st_bind_Ok in H as (y & ? & Hy & H). apply file_at_Ok in Hy as [-> Hy]. pose proof Hhb4 as (_ & Hy2 & _). rewrite Hy2 in Hy. injection Hy as <-.
  apply st_bind_Ok in H as ([] & s5 & Hpb & H).
  eapply (held_two_put _ b a) in Hpb as [Hhb5 Hha5]; [|by intros ->|exact Hhb4|exact Hha4|done]. cbn in Hha5, Hhb5.
  apply st_bind_Ok in H as (o1 & s6 & Ho & H). apply (fd_alloc_held _ _ _ _ _ _ Hha5) in Ho as (Hha6 & Hm6 & _).
  apply st_bind_Ok in H as (inn & s7 & Ho & H). apply (fd_alloc_held _ _ _ _ _ _ Hha6) in Ho as (Hha7 & Hm7 & Hv7).
  apply st_bind_Ok in H as ([] & s8 & Hs & H). destruct Hhb5 as (_ & Hb5 & Hd5). rewrite <- Hm6, <- Hm7 in Hb5.
  eapply (slot_held _ a b) in Hs; [|exact Hha7|exact Hb5|done|done|exact Hv7].
  apply st_bind_Ok in H as (out & s9 & Ho & H). apply (fd_alloc_held _ _ _ _ _ _ Hs) in Ho as ((Hi9 & Hx9 & _) & _ & Hv9).
  apply st_bind_Ok in H as ([] & s10 & Hset & H). eapply link_inv in Hset; [|exact Hi9|exact Hx9|done|exact Hv9]. cbn in Hset.
  apply st_bind_Ok in H as ([] & s11 & H1 & H). apply quiet_node_open in H1. apply (desc_inv_same _ _ _ H1) in Hset.
  apply st_bind_Ok in H as ([] & s12 & H2 & H). apply quiet_node_open in H2. apply (desc_inv_same _ _ _ H2) in Hset. by injection H as _ <-.
Qed.

(** ** The table of a new and of a finished task *)
(** The copy of a table has a structure of its own for each slot. *)
Definition copied (s s' : vst) (o o' : option fptr) : Prop :=
  match o, o' with
  | None, None => True
  | Some f, Some g => fstore s' !! g = fstore s !! f /\ fstore s !! g = None
  | _, _ => False
  end.
Definition unshared (s : vst) (l : list (option fptr)) : Prop := forall f, Some f ∈ l -> exists x, fstore s !! f = Some x /\ dup_cnt x = 0.
Lemma unshared_cons s o l : unshared s (o :: l) -> unshared s l.
Proof. intros H f Hf. apply H. by right. Qed.
Definition store_grows (s s' : vst) : Prop := forall f x, fstore s !! f = Some x -> fstore s' !! f = Some x.
Lemma copied_grows (s s1 s2 s3 : vst) l t : store_grows s s1 -> store_grows s2 s3 -> unshared s l ->
  Forall2 (copied s1 s2) l t -> Forall2 (copied s s3) l t.
Proof.
  intros Hg1 Hg2 Hu H. induction H as [|o o' l t Ho H IH]; constructor; [|apply IH; by eapply unshared_cons].
  destruct o as [f|], o' as [g|]; cbn in *; try done. destruct Ho as [Hgf Hn]. destruct (Hu f) as (x & Hx & _); [by left|].
  rewrite (Hg1 _ _ Hx) in Hgf. rewrite Hx. split; [by apply Hg2|]. destruct (fstore s !! g) as [z|] eqn:Ez; [|done].
  apply Hg1 in Ez. congruence.
Qed.

(** One iteration of the loop of [fork]. *)
Lemma clone_step os f (s s1 s2 s3 s4 : vst) g x n nx u v w : desc_inv os s -> file_alloc s = Ok (Some g, s1) ->
  fstore s1 !! f = Some x -> dup_cnt x = 0 -> f <> g -> put_file g x s1 = Ok (u, s2) -> fs_dup n s2 = Ok (v, s3) ->
  (if negb (Z.land (n_type nx) FS_PIPE =? 0) then
     modify (fun s => set_dev s ((if n_flags nx =? O_RDONLY then pipe_readers_inc else pipe_writers_inc) (n_drv nx) (dev s)))
   else mret tt) s3 = Ok (w, s4) ->
  desc_inv (Some g :: os) s4 /\ store_grows s s4 /\ fstore s4 !! g = Some x /\ fstore s !! g = None.
Proof.
  intros Hi Ha Hx Hd Hne Hp Hdup Hm. destruct (file_alloc_held _ _ _ _ Hi Ha) as (Hh & _ & Hn & Hst).
  apply (held_put _ _ _ _ _ _ Hh) in Hp as (Hh2 & _ & Hst2); [|done]. cbn in Hh2, Hst2.
  apply quiet_fs_dup in Hdup.
  assert (Hs : same_files s3 s4) by (destruct (negb _) in Hm; by injection Hm as <- <-).
  assert (Hs2 : same_files s2 s4) by by etrans. apply (held_same _ _ _ _ _ Hs2) in Hh2 as (Hi4 & Hx4 & _).
  split; [done|]. split; [|done]. intros h z Hz. destruct Hs2 as (_ & -> & _). rewrite Hst2, Hst.
  rewrite !lookup_insert_ne; [done|congruence..].
Qed.
Lemma clone_inv l os (s : vst) t s' : desc_inv os s -> unshared s l -> clone_files l s = Ok (t, s') ->
  desc_inv (os ++ t) s' /\ Forall2 (copied s s') l t /\ store_grows s s'.
Proof.
  revert os s t s'. induction l as [|[f|] l IH]; intros os s t s' Hi Hu H; cbn in H.
  - injection H as <- <-. rewrite app_nil_r. split; [done|]. split; [constructor|]. by intros ? ?.
  - apply st_bind_Ok in H as (og & s1 & Ha & H). apply st_bind_Ok in H as (x & ? & Hx & H). apply file_at_Ok in Hx as [-> Hx].
    destruct (f_node x) as [n|]; [|done]. apply st_bind_Ok in H as (g & ? & Hn & H). destruct og as [g'|]; [|done]. injection Hn as -> <-.
    apply st_bind_Ok in H as (u & s2 & Hp & H). apply st_bind_Ok in H as (v & s3 & Hdup & H).
    apply st_bind_Ok in H as (nx & s3' & Hnx & H). assert (s3' = s3) as ->.
    { revert Hnx. unfold node_at. st_run. destruct (nodes s3 !! n); [|done]. intros E. by injection E. }
    apply st_bind_Ok in H as (w & s4 & Hm & H). apply st_bind_Ok in H as (t' & s5 & Hc & H). injection H as <- <-.
    destruct (Hu f) as (y & Hy & Hyd); [by left|]. destruct (file_alloc_held _ _ _ _ Hi Ha) as (_ & _ & Hng & Hst).
    assert (Hne : f <> g) by congruence. assert (Hxy : x = y).
    { rewrite Hst, lookup_insert_ne in Hx by done. congruence. } subst y.
    destruct (clone_step _ _ _ _ _ _ _ _ _ _ _ _ _ _ Hi Ha Hx Hyd Hne Hp Hdup Hm) as (Hi4 & Hg4 & Hxg & _).
    assert (Hu4 : unshared s4 l).
    { intros h Hh. destruct (Hu h) as (z & Hz & Hzd); [by right|]. exists z. split; [by apply Hg4|done]. }
    destruct (IH _ _ _ _ Hi4 Hu4 Hc) as (Hi5 & Hcp & Hg5). split; [|split].
    + eapply desc_inv_refs; [|exact Hi5]. intros h. rewrite !refs_app, !refs_cons. lia.
    + constructor; [cbn; rewrite Hy; split; [by apply Hg5|done]|]. eapply copied_grows; [exact Hg4| |by eapply unshared_cons|exact Hcp]. by intros ? ?.
    + intros h z Hz. by apply Hg5, Hg4.
  - apply st_bind_Ok in H as (t' & s5 & Hc & H). injection H as <- <-.
    destruct (IH _ _ _ _ Hi (unshared_cons _ _ _ Hu) Hc) as (Hi5 & Hcp & Hg5). split; [|split; [by constructor|done]].
    eapply desc_inv_refs; [|exact Hi5]. intros h. rewrite !refs_app, !refs_cons. case_decide; [done|lia].
Qed.

Lemma free_files_inv l os (s : vst) r s' : desc_inv (l ++ os) s -> few (l ++ os) -> free_files l s = Ok (r, s') -> desc_inv os s'.
Proof.
  revert s. induction l as [|[f|] l IH]; intros s Hi Hfew H; cbn in H; [by injection H as _ <-|..];
    (assert (Hf : few (l ++ os)) by (unfold few in *; cbn in Hfew; lia)).
  - apply st_bind_Ok in H as (x & ? & Hx & H). apply file_at_Ok in Hx as [-> _].
    apply st_bind_Ok in H as ([] & s1 & Hk & H). apply quiet_kassert in Hk. apply (desc_inv_same _ _ _ Hk) in Hi.
    apply st_bind_Ok in H as ([] & s2 & Hc & H). apply quiet_fs_close in Hc. apply (desc_inv_same _ _ _ Hc) in Hi.
    apply st_bind_Ok in H as (y & ? & Hy & H). apply file_at_Ok in Hy as [-> Hy].
    apply st_bind_Ok in H as (u & s3 & Hlow & H). destruct (lower_inv _ _ _ _ _ Hi Hf Hy Hlow) as [Hi3 _]. by eapply IH.
  - apply (IH s); [|done|done]. eapply desc_inv_refs; [|exact Hi]. intros h. change ((None :: l) ++ os) with (None :: (l ++ os)). rewrite refs_cons. by case_decide.
Qed.
(** ** The calls of a program *)
Inductive call :=
| Plain (c : plain_call) | COpen (path : list Z) (flags mode : Z) | CClose (fd : Z) | CDup (fd : Z) | CPipe
| COpendir (path : list Z) | CClosedir (dir : fptr).
Definition exec (c : call) : st vst unit :=
  match c with
  | Plain c => exec_plain c
  | COpen p fl m => sys_open p fl m;; mret tt
  | CClose fd => sys_close fd;; mret tt
  | CDup fd => sys_dup fd;; mret tt
  | CPipe => sys_pipe;; mret tt
  | COpendir p => sys_opendir p;; mret tt
  | CClosedir d => sys_closedir d;; mret tt
  end.
Fixpoint run (l : list call) : st vst unit := match l with [] => mret tt | c :: l => exec c;; run l end.

Lemma exec_inv os c (s s' : vst) u : desc_inv os s -> few os -> exec c s = Ok (u, s') -> desc_inv os s'.
Proof.
  intros Hi Hfew H. destruct c as [c|p fl m|fd|fd| |p|d]; cbn [exec] in H;
    [|apply st_bind_Ok in H as (r & s1 & Hc & H); injection H as _ <-..].
  - eapply (exec_plain_pres os c s u s'); [|exact H]. done.
  - by eapply open_inv.
  - by eapply close_inv.
  - by eapply dup_inv.
  - by eapply pipe_inv.
  - by eapply opendir_inv.
  - eapply closedir_inv; [exact Hi|done|exact Hc].
Qed.
End Descriptors.

(** ** Theorems *)
Section Theorems.
Context {drv D : Type} `{HK : !Kernel drv D} `{!QuietDrivers drv D}.
Notation vst := (vst drv D).

Lemma exec_list_inv os l (s s' : vst) u : desc_inv os s -> few os -> run l s = Ok (u, s') -> desc_inv os s'.
Proof.
  revert s. induction l as [|c l IH]; intros s Hi Hfew H; cbn [run] in H; [by injection H as _ <-|].
  apply st_bind_Ok in H as (v & s1 & Hc & H). eapply IH; [|done|exact H]. by eapply exec_inv.
Qed.

(** C12: descriptors and file structures stay in balance.  Whatever calls a
    task makes, each structure is in exactly one slot more than its [dup_cnt]
    (so it lives as long as the last descriptor that holds it, and no longer),
    no slot holds a structure that is gone, every descriptor has a node, and the
    table has at most [MAX_OPEN_FILES] slots.  [os] are the slots of the other
    tasks. *)
Theorem descriptors_balanced os l (s s' : vst) u :
  desc_inv os s -> few os -> run l s = Ok (u, s') -> desc_inv os s'.
Proof. apply exec_list_inv. Qed.

(** C13: the descriptors of a new and of a finished task.  The table that [fork]
    makes of a table without duplicates has a new structure with the same node
    and offset for each descriptor; the balance holds with the child's table
    among the others.  When [task_free] has closed the table [l] of a task, it
    holds without it, and the structures that no other slot holds are gone. *)
Theorem fork_exit_balanced os l (s s' : vst) :
  (forall t, desc_inv os s -> unshared s l -> clone_files l s = Ok (t, s') ->
     desc_inv (os ++ t) s' /\ Forall2 (copied s s') l t /\ store_grows s s') /\
  (desc_inv (l ++ os) s -> few (l ++ os) -> free_files l s = Ok (tt, s') ->
     desc_inv os s' /\ forall f, Some f ∉ files s' ++ os -> fstore s' !! f = None).
Proof.
  split; [intros t Hi Hu H; by apply clone_inv|]. intros Hi Hfew H.
  pose proof (free_files_inv _ _ _ _ _ Hi Hfew H) as Hi'. split; [done|]. intros f Hf.
  pose proof (di_balanced _ _ Hi' f) as Hb. destruct (fstore s' !! f) as [x|]; [|done]. destruct Hb as [_ Hb].
  exfalso. apply Hf. unfold refs in Hb. destruct (filter _ _) as [|o r] eqn:E; [cbn in Hb; lia|].
  assert (o ∈ filter (fun o => o = Some f) (files s' ++ os)) as Ho by (rewrite E; by left).
  by apply list_elem_of_filter in Ho as [-> Ho].
Qed.

(** C14: [fd_alloc].  With 1 to 64 slots it returns the first empty one,
    doubling the table up to 64 slots if there is none; no slot that was there
    changes.  When all 64 are taken the descriptor it returns is 64, which is
    outside of the table: storing a file there is out of bounds. *)
Theorem fd_alloc_lowest (s : vst) : 0 < num_files s <= MAX_OPEN_FILES ->
  exists fd s', fd_alloc s = Ok (fd, s') /\ 0 <= fd <= MAX_OPEN_FILES /\
    (forall i, (i < Z.to_nat fd)%nat -> taken s i) /\
    (forall i o, files s !! i = Some o -> files s' !! i = Some o) /\
    num_files s <= num_files s' <= MAX_OPEN_FILES /\
    (if fd =? MAX_OPEN_FILES then num_files s = MAX_OPEN_FILES /\ forall f, set_slot fd (Some f) s' = Err EOob
     else files s' !! Z.to_nat fd = Some None).
Proof.
  unfold num_files. intros [Hp Hl]. destruct (fd_alloc_run s Hl) as (k & Hrun & Hk & Hin). specialize (Hin ltac:(lia)).
  eexists _, _. split; [exact Hrun|]. pose proof (first_free_le (files s)) as Hf. rewrite Nat2Z.id. cbn [files set_files].
  split; [lia|]. split; [apply first_free_taken|]. split; [intros i o Ho; by apply lookup_app_l_Some|].
  split; [rewrite length_app, length_replicate; lia|].
  destruct (_ =? _) eqn:E; to_prop.
  - split; [lia|]. intros f. unfold set_slot, wr. st_run. replace (_ <? 0) with false by lia. cbn [files set_files].
    rewrite Nat2Z.id, decide_False; [done|]. rewrite length_app, length_replicate. lia.
  - destruct (lookup_lt_is_Some_2 (files s ++ replicate k None) (first_free (files s))) as [o Ho];
      [rewrite length_app, length_replicate; lia|]. rewrite Ho. f_equal.
    apply lookup_app_Some in Ho as [Ho|[_ Ho]]; [by apply first_free_empty in Ho|]. by apply lookup_replicate in Ho as [-> _].
Qed.
End Theorems.

(** ** Examples, and where the code leaves its intent *)
Section Examples.
Import RamFs.

#[local] Hint Resolve quiet_node_at quiet_put_node quiet_fs_dup : quiet.
#[global] Instance ram_quiet : QuietDrivers tag (list Z).
Proof.
  split; [|done]. intros t. destruct t; constructor; cbn [driver ram_kernel ram_ops op_read op_write op_open op_close op_readdir op_finddir op_mkdir
    op_creat op_mknod op_truncate op_unlink op_link op_ioctl]; intros; simplify_eq;
    unfold ram_read, ram_write, ram_close, ram_finddir, ram_truncate; quiet_tac.
Qed.

Lemma ram0_inv : desc_inv [] ram0.
Proof.
  constructor; cbn [files fstore ram0].
  - intros f. rewrite lookup_empty, app_nil_r. apply refs_pad.
  - intros f _. apply lookup_empty.
  - vm_compute. discriminate.
  - intros i f Hi. by apply lookup_replicate in Hi as [? _].
Qed.

(** Open "/a" twice, duplicate, make a pipe, write, close, list, close. *)
Definition some_calls : list call :=
  [COpen path_a O_RDWR 0; COpen path_a O_RDONLY 0; CDup 0; CPipe; Plain (CWrite 2 [1; 2; 3] 3); CClose 0; CClose 2;
   Plain (CRead 1 4); COpen [47; 98; 0] O_RDONLY 0; CClose 1].
Lemma descriptors_balanced_witness : match run some_calls ram0 with Ok (_, s') => desc_inv [] s' | Err _ => False end.
Proof.
  destruct (run some_calls ram0) as [[u s']|e] eqn:E; [|vm_compute in E; discriminate E].
  apply (descriptors_balanced [] some_calls ram0 s' u); [exact ram0_inv|vm_compute; reflexivity|exact E].
Defined.

(** Two open files, copied for a child that then ends. *)
Definition two_open : list call := [COpen path_a O_RDWR 0; COpen path_a O_RDONLY 0].
Lemma fork_exit_balanced_witness :
  match run two_open ram0 with
  | Ok (_, s) =>
      match clone_files (files s) s with
      | Ok (t, s1) =>
          (desc_inv ([] ++ t) s1 /\ Forall2 (copied s s1) (files s) t /\ store_grows s s1) /\
          match free_files t s1 with
          | Ok (_, s2) => desc_inv [] s2 /\ forall f, Some f ∉ files s2 ++ [] -> fstore s2 !! f = None
          | Err _ => False
          end
      | Err _ => False
      end
  | Err _ => False
  end.
Proof.
  destruct (run two_open ram0) as [[u s]|e] eqn:E; [|vm_compute in E; discriminate E].
  assert (Hi : desc_inv [] s) by (apply (exec_list_inv [] two_open ram0 s u); [exact ram0_inv|vm_compute; reflexivity|exact E]).
  assert (Hu : unshared s (files s)).
  { intros f Hf. vm_compute in E. injection E as _ <-. cbn [files] in Hf. rewrite !elem_of_cons in Hf.
    destruct Hf as [[= ->]|[[= ->]|Hf]]; [eexists; split; reflexivity..|]. set_solver. }
  destruct (clone_files (files s) s) as [[t s1]|e] eqn:Ec.
  2: { vm_compute in E. injection E as _ <-. vm_compute in Ec. discriminate Ec. }
  destruct (fork_exit_balanced [] (files s) s s1) as [Hc _].
  assert (Hc' := Hc t Hi Hu Ec). split; [exact Hc'|].
  destruct (free_files t s1) as [[[] s2]|e] eqn:Ef.
  - destruct (fork_exit_balanced [] t s1 s2) as [_ Hx]. apply Hx; [|vm_compute in E; injection E as _ <-; vm_compute in Ec;
      injection Ec as <- _; vm_compute; reflexivity|exact Ef].
    rewrite app_nil_r. exact (proj1 Hc').
  - vm_compute in E. injection E as _ <-. vm_compute in Ec. injection Ec as <- <-. vm_compute in Ef. discriminate Ef.
Defined.
Lemma fd_alloc_lowest_witness :
  exists fd s', fd_alloc ram0 = Ok (fd, s') /\ 0 <= fd <= MAX_OPEN_FILES /\
    (forall i, (i < Z.to_nat fd)%nat -> taken ram0 i) /\
    (forall i o, files ram0 !! i = Some o -> files s' !! i = Some o) /\
    num_files ram0 <= num_files s' <= MAX_OPEN_FILES /\
    (if fd =? MAX_OPEN_FILES then num_files ram0 = MAX_OPEN_FILES /\ forall f, set_slot fd (Some f) s' = Err EOob
     else files s' !! Z.to_nat fd = Some None).
Proof. apply (fd_alloc_lowest ram0). split; vm_compute; [reflexivity|discriminate]. Defined.

(** [fork] copies [dup_cnt] too: a descriptor that was duplicated becomes two
    structures that each count one more holder, and neither is ever released. *)
Lemma fork_after_dup_leaks :
  match (run [COpen path_a O_RDWR 0; CDup 0];; s ← get; t ← clone_files (files s); free_files t;; mret t) ram0 with
  | Ok (t, s) => t = [Some 2%positive; Some 3%positive; None; None; None; None] /\
      dup_cnt <$> fstore s !! 2%positive = Some 0 /\ dup_cnt <$> fstore s !! 3%positive = Some 0
  | Err _ => False
  end.
Proof. vm_compute. repeat split. Qed.
(** A thread shares the structures without counting itself, and lowers the
    counts when it ends: after that the descriptors cannot be closed. *)
Lemma thread_exit_unbalanced :
  match (run [COpen path_a O_RDWR 0];; s ← get; share_files (files s);; unshare_files (files s);; sys_close 0) ram0 with
  | Ok (r, s) => r = -1 /\ files s !! 0%nat = Some (Some 1%positive) | Err _ => False
  end.
Proof. vm_compute. repeat split. Qed.
(** [open] of a missing file with [O_TRUNC] fails an assertion. *)
Lemma open_trunc_missing : sys_open [47; 98; 0] (Z.lor O_RDWR O_TRUNC) 0 ram0 = Err EAssert.
Proof. vm_compute. reflexivity. Qed.
(** [open] dereferences the structure it could not allocate. *)
Lemma open_no_memory : sys_open path_a O_RDONLY 0 (Vst (nodes ram0) 3%positive 1%positive hello true (files ram0) ∅ 1%positive [47; 0] None) = Err ENull.
Proof. vm_compute. reflexivity. Qed.
(** [fd_is_valid] accepts the number of slots as a descriptor. *)
Lemma fd_is_valid_end : fd_is_valid 6 ram0 = Err EOob.
Proof. vm_compute. reflexivity. Qed.
(** [opendir] of a missing directory reads the slot before the table, and it
    reports an error, with the structure left open, for descriptor 0. *)
Lemma opendir_fails : sys_opendir [47; 98; 0] ram0 = Err EOob /\
  match sys_opendir [47; 0] ram0 with Ok (d, s) => d = None /\ files s !! 0%nat = Some (Some 1%positive) | Err _ => False end.
Proof. vm_compute. repeat split. Qed.
(** Every open file is a terminal; [SEEK_END] does not look at the size. *)
Lemma isatty_lseek_file :
  match (sys_open path_a O_RDWR 0;; t ← sys_isatty 0; o ← sys_lseek 0 0 SEEK_END; mret (t, o)) ram0 with
  | Ok (r, _) => r = (1, 0) | Err _ => False
  end.
Proof. vm_compute. reflexivity. Qed.
(** [mkdir] at the root looks for the directory "": the current one. *)
Lemma mkdir_root_name : split_last [47; 100; 0] [47; 98; 0] = Ok (Some ([0; 98; 0], [98; 0; 0])) /\
  split_last [47; 100; 0] [47; 0] = Err EOob.
Proof. vm_compute. split; reflexivity. Qed.
(** [fs_unlink] in a directory that does not exist follows a null pointer. *)
Lemma unlink_no_parent : fs_unlink 8 (replicate 512 0) [47; 98; 47; 99; 0] ram0 = Err ENull.
Proof. vm_compute. reflexivity. Qed.
End Examples.
End SysSpec.
