(* ===== verification/SysFiles.v ===== *)
(** * Paths and open files

    [fs_namei] is the walk over the components of its path; the calls on a
    descriptor implement an open file, which is a sequence of bytes with a
    position that all duplicates share, over any node that behaves as a file of
    bytes ([ByteFile]).  The file system of RamFs.v is such a node here, and
    that of cofs in SysCofs.v. *)
From stdpp Require Import gmap.
From S2P Require Import Prelude CString Path Vfs Sysfile RamFs SysSpec.

Module SysFiles.
Import Path Vfs Sysfile SysSpec.

(** ** Walking a path *)
Section Walk.
Context {drv D : Type} `{HK : !Kernel drv D}.
Notation vst := (vst drv D).

(** The nodes on the way are left again. *)
Fixpoint walk (node : option nptr) (cs : list (list Z)) : st vst (option nptr) :=
  match cs with
  | [] => mret node
  | c :: cs =>
      leave node;;
      s ← get;
      r ← fs_finddir (match node with Some n => n | None => fs_root s end) c;
      match r with None => mret None | Some n => walk (Some n) cs end
  end.

(** What is left of the path: each component with the terminator that replaced
    the slash after it. *)
Definition segments (cs : list (list Z)) : list Z := cs ≫= (fun c => c ++ [0]).
Lemma cut_segments cs z : map (fun c => if c =? SLASH then 0 else c) (enc cs) ++ 0 :: z = segments ([] :: map (map (fun c => if c =? SLASH then 0 else c)) cs) ++ z.
Proof.
  unfold segments. cbn. induction cs as [|c cs IH]; [done|]. rewrite enc_cons. cbn. rewrite map_app, <- !app_assoc. cbn.
  f_equal. f_equal. exact IH.
Qed.
Lemma cut_component c : component c -> map (fun c => if c =? SLASH then 0 else c) c = c.
Proof.
  intros [_ Hs]. rewrite <- (map_id c) at 2. apply map_ext_in. intros x Hx. destruct (Z.eqb_spec x SLASH) as [->|]; [|done].
  by apply list_elem_of_In in Hx.
Qed.

(** The component at an offset of the cut path. *)
Lemma segment_at str p c cs z : Forall nzb c -> drop p str = segments (c :: cs) ++ z ->
  is_cstr (drop p str) c /\ drop (p + length c + 1) str = segments cs ++ z.
Proof.
  intros Hc Hd. assert (E : drop p str = c ++ 0 :: segments cs ++ z) by (rewrite Hd; unfold segments; cbn; by rewrite <- !app_assoc).
  split; [split; [done|by eexists]|]. rewrite <- Nat.add_assoc, <- drop_drop, E, drop_app_add'; done.
Qed.
Lemma segments_cons c cs : length (segments (c :: cs)) = (length c + 1 + length (segments cs))%nat.
Proof. unfold segments. cbn. rewrite !length_app. cbn. lia. Qed.

Lemma namei_loop_walk f str p cs z node (s : vst) :
  Forall (Forall nzb) cs -> drop p str = segments cs ++ z -> (Z.of_nat (length (segments cs)) < 2 ^ 31)%Z -> (length (segments cs) < f)%nat ->
  namei_loop f str p (Z.of_nat (length (segments cs)) - 1) node s = walk node (filter (fun c => c <> []) cs) s.
Proof.
  revert p cs node s. induction f as [|f IH]; intros p cs node s Hn Hd Hl Hf; [lia|].
  destruct cs as [|c cs]; [done|]. apply Forall_cons in Hn as [Hc Hn]. rewrite segments_cons in *.
  destruct (segment_at _ _ _ _ _ Hc Hd) as [Hs Hd2]. cbn [namei_loop]. rewrite filter_cons.
  assert (Hrest : forall node s, (n ← lift (strlen (Some (drop p str)));
      namei_loop f str (p + Z.to_nat n + 1) (s32 (Z.of_nat (length c + 1 + length (segments cs)) - 1 - n - 1)) node) s =
    walk node (filter (fun c => c <> []) cs) s).
  { intros nd t. rewrite (strlen_cstr _ _ Hs) by lia. st_run. rewrite Nat2Z.id, s32_small by lia.
    rewrite <- (IH _ cs nd t Hn Hd2) by lia. f_equal. lia. }
  destruct c as [|x c].
  - cbn [length] in *. destruct (Z.ltb_spec 0 (Z.of_nat (0 + 1 + length (segments cs)) - 1)).
    + cbn [negb]. assert (H0 : rd str p = Ok 0). { apply rd_Ok. rewrite <- (Nat.add_0_r p), <- lookup_drop, Hd. done. }
      rewrite H0. rewrite <- Hrest. st_run. done.
    + cbn [negb]. destruct cs as [|d cs]; [done|]. rewrite segments_cons in *. lia.
  - replace (0 <? _) with true by (symmetry; apply Z.ltb_lt; cbn [length]; lia). cbn [negb].
    assert (H0 : rd str p = Ok x). { apply rd_Ok. rewrite <- (Nat.add_0_r p), <- lookup_drop, Hd. done. }
    rewrite H0. rewrite decide_True by done. cbn [walk].
    apply Forall_cons in Hc as [Hx Hc].
    assert (Hname : cstring str p = Ok (x :: c)).
    { unfold cstring. rewrite (strlen_cstr _ _ Hs) by lia. cbn [mbind res_bind]. unfold rd_block. rewrite Nat2Z.id.
      destruct Hs as [_ [w Hw]]. pose proof (f_equal length Hw) as Hlw. rewrite length_drop, length_app in Hlw. cbn [length] in Hlw.
      case_decide; [|cbn [length] in *; lia]. rewrite Hw. by rewrite take_app_length. }
    unfold mbind, st_bind, lift, get. cbn beta iota. replace (x =? 0) with false by (symmetry; by apply nzb_nz). cbn beta iota.
    destruct (leave node s) as [[[] s1]|e]; [|done]. rewrite Hname. cbn beta iota.
    destruct (fs_finddir _ (x :: c) s1) as [[[n|] s2]|e]; [|done..].
    rewrite <- (Hrest (Some n) s2). done.
Qed.

Lemma strdup_cstr m s : (forall n, (Z.to_nat n <= length (malloc n))%nat) -> is_cstr m s -> (Z.of_nat (length s) + 1 < 2 ^ 31)%Z ->
  exists r, strdup malloc m = Ok r /\ is_cstr r s.
Proof.
  intros Hmal Hs Hl. unfold strdup. rewrite (strlen_cstr _ _ Hs) by lia. cbn [mbind res_bind]. rewrite u32_small by lia.
  pose proof (Hmal (Z.of_nat (length s) + 1)) as Hm.
  destruct (strcpy_run (malloc (Z.of_nat (length s) + 1)) _ _ Hs ltac:(lia)) as [-> [Hn (z & Hz)]].
  cbn [mbind res_bind]. rewrite Hz, wr_in by (rewrite length_app; cbn; lia).
  rewrite Nat2Z.id, list_insert_id by by rewrite list_lookup_middle. eexists. split; [done|]. split; [done|by eexists].
Qed.

Lemma length_segments cs : length (segments ([] :: cs)) = (length (enc cs) + 1)%nat.
Proof. induction cs as [|c cs IH]; [done|]. rewrite enc_cons. rewrite !segments_cons in *. cbn [length] in *. rewrite length_app. lia. Qed.
Lemma cut_components cs : Forall component cs -> map (map (fun c => if c =? SLASH then 0 else c)) cs = cs.
Proof. induction 1 as [|c cs Hc _ IH]; [done|]. cbn. by rewrite IH, (cut_component c). Qed.

(** C11: [fs_namei].  On an absolute path of the components [cs] it ends, stays
    inside of its strings and is the walk from the root that looks each of the
    components that are not empty up in the node before it, gives that node
    back, and stops where a component is missing; the path "/" is the root. *)
Theorem namei_walks m cs (s : vst) :
  (forall n, (Z.to_nat n <= length (malloc n))%nat) -> is_cstr m (enc cs) -> Forall component cs -> cs <> [] ->
  (Z.of_nat (length (enc cs)) + 1 < 2 ^ 31)%Z ->
  fs_namei m s = if bool_decide (cs = [[]]) then Ok (Some (fs_root s), s) else walk None (filter (fun c => c <> []) cs) s.
Proof.
  intros Hmal Hm Hcs Hne Hl. unfold fs_namei. destruct cs as [|c cs]; [done|]. pose proof (strlen_cstr _ _ Hm ltac:(lia)) as Hlen.
  destruct (strdup_cstr m _ Hmal Hm Hl) as (str & Hstr & [Hnz (z & Hz)]).
  assert (H0 : rd m 0 = Ok SLASH) by (destruct Hm as [_ [w ->]]; done).
  rewrite H0. unfold lift at 1. unfold mbind at 1, st_bind at 1. cbn beta iota. rewrite Hlen, Hstr. st_run. cbn [negb Z.eqb SLASH Pos.eqb].
  case_bool_decide as Hroot.
  - injection Hroot as -> ->. done.
  - destruct (Z.eqb_spec (Z.of_nat (length (enc (c :: cs)))) 1) as [E|E].
    { rewrite enc_cons in E. cbn [length] in E. rewrite length_app in E. destruct c; [|cbn in E; lia].
      destruct cs as [|d cs]; [done|]. rewrite enc_cons in E. cbn in E. lia. }
    rewrite Hz, Nat2Z.id, take_app_length, drop_app_length, cut_segments, cut_components by done.
    pose proof (length_segments (c :: cs)) as Hls.
    replace (Z.of_nat (length (enc (c :: cs)))) with (Z.of_nat (length (segments ([] :: c :: cs))) - 1)%Z by lia.
    unfold mret, st_ret. cbn beta iota. rewrite (namei_loop_walk _ _ 0 ([] :: c :: cs) z); [done| |done|lia|lia].
    constructor; [constructor|]. eapply Forall_impl; [exact Hcs|]. by intros d [Hd _].
Qed.
End Walk.

(** "//a" in the file system of RamFs.v. *)
Lemma namei_walks_witness :
  fs_namei (enc [[]; [97]] ++ [0]) RamFs.ram0 =
    (if bool_decide ([[]; [97]] = [[]]) then Ok (Some (fs_root RamFs.ram0), RamFs.ram0)
     else walk None (filter (fun c => c <> []) [[]; [97]]) RamFs.ram0) /\
  match fs_namei (enc [[]; [97]] ++ [0]) RamFs.ram0 with Ok (r, _) => r = Some 2%positive | Err _ => False end.
Proof.
  split; [|vm_compute; reflexivity]. apply (namei_walks _ [[]; [97]] RamFs.ram0).
  - intros k. cbn. by rewrite length_replicate.
  - split; [|by exists []]. cbn. repeat (apply Forall_cons; split; [unfold nzb, SLASH; lia|]). by apply Forall_nil_2.
  - repeat (apply Forall_cons; split; [split; [first [by apply Forall_nil_2|apply Forall_cons; split; [unfold nzb; lia|by apply Forall_nil_2]]
      |unfold SLASH; set_solver]|]). by apply Forall_nil_2.
  - discriminate.
  - vm_compute. reflexivity.
Defined.

(** ** Open files *)

(** What a driver promises for a node that is a file of bytes: [holds c k] says
    that the bytes are [c] and that there is room for [k] units more, of which
    a write of [n] bytes takes [need n]; [max] bounds the file. *)
Class ByteFile {drv D : Type} `{!Kernel drv D} (n : nptr) (holds : list Z -> nat -> vst drv D -> Prop) (need : Z -> nat) (max : Z) : Prop := {
  bf_max : max < 2 ^ 31;
  bf_node c k s : holds c k s -> Z.of_nat (length c) <= max /\
    exists x, nodes s !! n = Some x /\ n_size x = Z.of_nat (length c) /\ n_type x = FS_FILE /\ n_lock x = 0;
  bf_descr c k s s' : holds c k s -> nodes s' = nodes s -> dev s' = dev s -> holds c k s';
  bf_ref c k s x r : holds c k s -> nodes s !! n = Some x -> holds c k (set_nodes s (<[n := with_ref x r]> (nodes s)));
  bf_read c k s off size : holds c k s -> 0 <= off < Z.of_nat (length c) -> 0 <= size -> off + size < 2 ^ 32 ->
    exists s', let b := take (Z.to_nat size) (drop (Z.to_nat off) c) in
      fs_read n off size s = Ok ((Z.of_nat (length b), b), s') /\ holds c k s' /\ same_files s s';
  bf_write c k s off b : let size := Z.of_nat (length b) in
    holds c (need size + k)%nat s -> 0 <= off <= Z.of_nat (length c) -> off + size <= max -> Forall is_byte b ->
    exists s', fs_write n off size b s = Ok (size, s') /\ holds (RamFs.overwrite c off b) k s' /\ same_files s s'
}.

(** The specification: a file with a position. *)
Record afile := AFile { a_bytes : list Z; a_pos : Z }.
Definition a_read (k : Z) (f : afile) : (Z * list Z) * afile :=
  let b := take (Z.to_nat k) (drop (Z.to_nat (a_pos f)) (a_bytes f)) in
  ((Z.of_nat (length b), b), AFile (a_bytes f) (a_pos f + Z.of_nat (length b))).
Definition a_write (b : list Z) (f : afile) : Z * afile :=
  (Z.of_nat (length b), AFile (RamFs.overwrite (a_bytes f) (a_pos f) b) (a_pos f + Z.of_nat (length b))).
(** -1 leaves the position; [SEEK_END] does not look at the size. *)
Definition a_seek (o whence : Z) (f : afile) : Z * afile :=
  let go p := (p, AFile (a_bytes f) p) in
  let size := Z.of_nat (length (a_bytes f)) in
  if whence =? SEEK_SET then if size <? o then (u32 (-1), f) else go o
  else if whence =? SEEK_CUR then if size <? u32 (o + a_pos f) then (u32 (-1), f) else go (u32 (o + a_pos f))
  else if whence =? SEEK_END then go o
  else (a_pos f, f).

Section Session.
Context {drv D : Type} `{HK : !Kernel drv D}.
Context (n : nptr) (holds : list Z -> nat -> vst drv D -> Prop) (need : Z -> nat) (max : Z) `{HB : !ByteFile n holds need max}.
Notation vst := (vst drv D).

(** The descriptors [fds] are one open file. *)
Record opened (fds : list Z) (a : afile) (k : nat) (s : vst) : Prop := {
  op_holds : holds (a_bytes a) k s;
  op_pos : 0 <= a_pos a < 2 ^ 32;
  op_file : exists f x, fstore s !! f = Some x /\ offs x = a_pos a /\ f_node x = Some n /\
    (forall fd, fd ∈ fds -> 0 <= fd /\ files s !! Z.to_nat fd = Some (Some f))
}.

Lemma fd_is_valid_Ok fd f (s : vst) : 0 <= fd -> files s !! Z.to_nat fd = Some (Some f) -> fd_is_valid fd s = Ok (true, s).
Proof.
  intros Hp Hf. apply lookup_lt_Some in Hf as Hl. unfold fd_is_valid, num_files, slot, rd. st_run.
  replace (Z.of_nat (length (files s)) <? fd) with false by lia. replace (fd <? 0) with false by lia. st_run.
  replace (fd <? 0) with false by lia. by rewrite Hf.
Qed.
(** The common start of the calls on a descriptor. *)
Lemma fd_open {B} fd f x (s : vst) (g : fptr -> file -> st vst B) (e : st vst B) : 0 <= fd -> files s !! Z.to_nat fd = Some (Some f) ->
  fstore s !! f = Some x ->
  (v ← fd_is_valid fd; if negb v then e else f ← fd_file fd; x ← file_at f; g f x) s = g f x s.
Proof.
  intros Hp Hf Hx. rewrite (st_bind_eq _ _ _ _ _ (fd_is_valid_Ok _ _ _ Hp Hf)). cbn [negb].
  rewrite (st_bind_eq _ _ s f s) by by apply fd_file_Ok. by rewrite (st_bind_eq _ _ s x s) by by apply file_at_Ok.
Qed.

(** Moving the position of the structure of an open file. *)
Lemma opened_move fds a a' k f x (s s' : vst) p : fstore s' !! f = Some x -> f_node x = Some n -> a_bytes a' = a_bytes a ->
  holds (a_bytes a) k s' -> a_pos a' = p -> 0 <= p < 2 ^ 32 -> (forall fd, fd ∈ fds -> 0 <= fd /\ files s' !! Z.to_nat fd = Some (Some f)) ->
  opened fds a' k (set_fstore s' (<[f := with_offs x p]> (fstore s'))).
Proof.
  intros Hx Hn Hb Hh Hp Hr Hf. constructor; [|by rewrite Hp|].
  - rewrite Hb. by eapply bf_descr.
  - exists f, (with_offs x p). split; [apply lookup_insert_eq|]. done.
Qed.

Lemma session_read fds fd a k (s : vst) cnt : opened fds a k s -> fd ∈ fds -> 0 <= cnt -> a_pos a + cnt < 2 ^ 32 ->
  exists s', sys_read fd cnt s = Ok ((a_read cnt a).1, s') /\ opened fds (a_read cnt a).2 k s'.
Proof.
  intros [Hh Hp (f & x & Hx & Ho & Hn & Hfds)] Hfd Hc Hov. destruct (Hfds _ Hfd) as [Hfp Hf].
  destruct (bf_node _ _ _ Hh) as [Hlen (nx & Hnx & Hsz & Hty & _)]. pose proof bf_max as Hmax. unfold sys_read.
  erewrite fd_open by done. rewrite Hn. unfold non_null. rewrite (st_bind_eq _ _ s n s) by done.
  rewrite (st_bind_eq _ _ s nx s) by (unfold node_at; st_run; by rewrite Hnx). rewrite Hsz, Hty, Ho.
  destruct (Z.leb_spec (Z.of_nat (length (a_bytes a))) (a_pos a)).
  - cbn [andb negb]. exists s. unfold a_read. rewrite drop_ge, take_nil by lia. split; [done|].
    constructor; [done|cbn; lia|]. exists f, x. cbn. rewrite Z.add_0_r. done.
  - cbn [andb]. destruct (bf_read _ _ _ (a_pos a) cnt Hh ltac:(lia) Hc Hov) as (s' & Hr & Hh' & (Hfl & Hst & _)).
    erewrite st_bind_eq by exact Hr. cbn beta iota. rewrite (st_bind_eq _ _ s' x s') by (apply file_at_Ok; by rewrite Hst).
    set (b := take _ _) in *. assert (Hb : Z.of_nat (length b) <= max - a_pos a) by (unfold b; rewrite length_take, length_drop; lia).
    rewrite Ho, (u32_small (_ + _)), s32_small by lia. eexists. split; [reflexivity|].
    apply (opened_move fds a); cbn; rewrite ?Hfl, ?Hst; try done; lia.
Qed.
Lemma session_write fds fd a k (s : vst) b : let size := Z.of_nat (length b) in
  opened fds a (need size + k)%nat s -> fd ∈ fds -> Forall is_byte b -> a_pos a <= Z.of_nat (length (a_bytes a)) -> a_pos a + size <= max ->
  exists s', sys_write fd b size s = Ok ((a_write b a).1, s') /\ opened fds (a_write b a).2 k s'.
Proof.
  cbn zeta. intros [Hh Hp (f & x & Hx & Ho & Hn & Hfds)] Hfd Hb Hle Hm. destruct (Hfds _ Hfd) as [Hfp Hf]. pose proof bf_max as Hmax.
  unfold sys_write. erewrite fd_open by done. rewrite Hn. unfold non_null. rewrite (st_bind_eq _ _ s n s) by done.
  destruct (bf_write (a_bytes a) k s (a_pos a) b Hh ltac:(lia) Hm Hb) as (s' & Hr & Hh' & (Hfl & Hst & _)). rewrite Ho.
  erewrite st_bind_eq by exact Hr. cbn beta. rewrite (st_bind_eq _ _ s' x s') by (apply file_at_Ok; by rewrite Hst).
  rewrite Ho, (u32_small (_ + _)), s32_small by lia. eexists. split; [reflexivity|].
  apply (opened_move fds (a_write b a).2); cbn; rewrite ?Hfl, ?Hst; try done; lia.
Qed.
Lemma session_seek fds fd a k (s : vst) o w : opened fds a k s -> fd ∈ fds -> 0 <= o < 2 ^ 32 ->
  exists s', sys_lseek fd o w s = Ok ((a_seek o w a).1, s') /\ opened fds (a_seek o w a).2 k s'.
Proof.
  intros Hop Hfd Hor. pose proof Hop as [Hh Hp (f & x & Hx & Ho & Hn & Hfds)]. destruct (Hfds _ Hfd) as [Hfp Hf].
  destruct (bf_node _ _ _ Hh) as [Hlen (nx & Hnx & Hsz & Hty & _)]. unfold sys_lseek. erewrite fd_open by done.
  assert (Hnode : forall (B : Type) (g : fs_node drv -> st vst B), (y ← non_null (f_node x); z ← node_at y; g z) s = g nx s).
  { intros B g. rewrite Hn. unfold non_null, node_at. st_run. by rewrite Hnx. }
  assert (Hmove : forall p, 0 <= p < 2 ^ 32 -> opened fds (AFile (a_bytes a) p) k (set_fstore s (<[f := with_offs x p]> (fstore s))))
    by (intros p ?; by apply (opened_move fds a)).
  unfold a_seek. destruct (w =? SEEK_SET); [|destruct (w =? SEEK_CUR); [|destruct (w =? SEEK_END)]].
  - rewrite Hnode, Hsz. destruct (_ <? o); [by exists s|]. eexists. split; [reflexivity|]. by apply Hmove.
  - rewrite Hnode, Hsz, Ho, (Z.add_comm (a_pos a)). destruct (_ <? _); [by exists s|]. eexists. split; [reflexivity|]. apply Hmove, u32_range.
  - eexists. split; [reflexivity|]. by apply Hmove.
  - exists s. rewrite Ho. done.
Qed.
Lemma session_dup fds fd a k (s : vst) : opened fds a k s -> fd ∈ fds -> 0 < num_files s <= MAX_OPEN_FILES ->
  Z.of_nat (first_free (files s)) < MAX_OPEN_FILES ->
  exists s', sys_dup fd s = Ok (Z.of_nat (first_free (files s)), s') /\ opened (Z.of_nat (first_free (files s)) :: fds) a k s'.
Proof.
  intros [Hh Hp (f & x & Hx & Ho & Hn & Hfds)] Hfd [Hnf1 Hnf2] Hfree. destruct (Hfds _ Hfd) as [Hfp Hf]. apply lookup_lt_Some in Hf as Hfl.
  destruct (fd_alloc_run s Hnf2) as (j & Hrun & _ & Hin). specialize (Hin ltac:(unfold num_files in *; lia)).
  unfold sys_dup. rewrite (st_bind_eq get _ s s s) by done. unfold num_files in *.
  replace (0 <=? fd) with true by lia. replace (fd <? _) with true by lia. rewrite Hf. cbn [mjoin option_join andb].
  rewrite bool_decide_eq_true_2 by done. cbn [negb]. erewrite st_bind_eq by exact Hrun.
  replace (Z.of_nat _ <? 0) with false by lia. set (s1 := set_files s _) in *.
  assert (Hf1 : forall i o, files s !! i = Some o -> files s1 !! i = Some o) by (intros i o Hi; cbn; by apply lookup_app_l_Some).
  rewrite (st_bind_eq _ _ s1 f s1) by (apply fd_file_Ok; split; [done|]; split; [done|]; by apply Hf1).
  set (ff := first_free (files s)) in *. set (s2 := set_files s1 (<[ff := Some f]> (files s1))).
  assert (Hl : (ff < length (files s1))%nat) by (cbn; rewrite length_app, length_replicate; lia).
  rewrite (st_bind_eq _ _ s1 tt s2) by (apply set_slot_Ok; rewrite Nat2Z.id; split; [lia|]; split; [exact Hl|done]).
  rewrite (st_bind_eq _ _ s2 x s2) by by apply file_at_Ok. rewrite Hn. unfold non_null. rewrite (st_bind_eq _ _ s2 n s2) by done.
  assert (Hh2 : holds (a_bytes a) k s2) by by apply (bf_descr _ _ s).
  destruct (bf_node _ _ _ Hh2) as [_ (nx & Hnx & _ & _ & Hlock)]. set (s3 := set_nodes s2 (<[n := with_ref nx (ref_count nx +i 1)]> (nodes s2))).
  rewrite (st_bind_eq (fs_dup n) _ s2 tt s3) by (unfold fs_dup, node_at, put_node; st_run; rewrite Hnx; st_run; rewrite Hlock; unfold spin_lock; st_run; do 3 f_equal; destruct nx; cbn in *; by subst).
  rewrite (st_bind_eq _ _ s3 x s3) by by apply file_at_Ok. eexists. split; [reflexivity|].
  constructor; [|done|].
  - apply (bf_descr _ _ s3); [|done|done]. by apply bf_ref.
  - exists f, (with_dup x (dup_cnt x +i 1)). split; [apply lookup_insert_eq|]. split; [done|]. split; [done|].
    intros d Hd. change (files _) with (<[ff := Some f]> (files s1)). apply elem_of_cons in Hd as [->|Hd].
    + split; [lia|]. rewrite Nat2Z.id. by apply list_lookup_insert_eq.
    + destruct (Hfds _ Hd) as [Hd0 Hd1]. split; [done|]. rewrite list_lookup_insert_ne; [by apply Hf1|].
      intros E. unfold ff in E. rewrite <- E in Hd1. by apply first_free_empty in Hd1.
Qed.

(** Sequences of calls. *)
Inductive fop := ORead (fd cnt : Z) | OWrite (fd : Z) (b : list Z) | OSeek (fd o whence : Z).
Definition op_fd (o : fop) : Z := match o with ORead fd _ => fd | OWrite fd _ => fd | OSeek fd _ _ => fd end.
Definition exec_fop (o : fop) : st vst (Z * list Z) :=
  match o with
  | ORead fd k => sys_read fd k
  | OWrite fd b => r ← sys_write fd b (Z.of_nat (length b)); mret (r, [])
  | OSeek fd o w => r ← sys_lseek fd o w; mret (r, [])
  end.
Definition a_fop (o : fop) (a : afile) : (Z * list Z) * afile :=
  match o with
  | ORead _ k => a_read k a
  | OWrite _ b => let '(r, a) := a_write b a in ((r, []), a)
  | OSeek _ o w => let '(r, a) := a_seek o w a in ((r, []), a)
  end.
(** The bounds within which the calls are those of the specification: no wrap
    of the position, no write after the end or beyond the limit of the file. *)
Definition legal1 (o : fop) (a : afile) : Prop :=
  match o with
  | ORead _ k => 0 <= k /\ a_pos a + k < 2 ^ 32
  | OWrite _ b => Forall is_byte b /\ a_pos a <= Z.of_nat (length (a_bytes a)) /\ a_pos a + Z.of_nat (length b) <= max
  | OSeek _ o _ => 0 <= o < 2 ^ 32
  end.
Definition cost (o : fop) : nat := match o with OWrite _ b => need (Z.of_nat (length b)) | _ => 0 end.
Fixpoint legal (fds : list Z) (l : list fop) (a : afile) : Prop :=
  match l with [] => True | o :: l => op_fd o ∈ fds /\ legal1 o a /\ legal fds l (a_fop o a).2 end.
Fixpoint exec_fops (l : list fop) : st vst (list (Z * list Z)) :=
  match l with [] => mret [] | o :: l => r ← exec_fop o; rs ← exec_fops l; mret (r :: rs) end.
Fixpoint a_fops (l : list fop) (a : afile) : list (Z * list Z) * afile :=
  match l with [] => ([], a) | o :: l => let '(r, a) := a_fop o a in let '(rs, a) := a_fops l a in (r :: rs, a) end.

Lemma step_refines fds o a k (s : vst) : opened fds a (cost o + k) s -> op_fd o ∈ fds -> legal1 o a ->
  exists s', exec_fop o s = Ok ((a_fop o a).1, s') /\ opened fds (a_fop o a).2 k s'.
Proof.
  destruct o as [fd c|fd b|fd o w]; cbn [cost op_fd legal1 exec_fop a_fop].
  - intros Ho Hfd [H1 H2]. by apply session_read.
  - intros Ho Hfd (H1 & H2 & H3). destruct (session_write fds fd a k s b Ho Hfd H1 H2 H3) as (s' & Hr & Ho').
    exists s'. unfold a_write in *. rewrite (st_bind_eq _ _ _ _ _ Hr). done.
  - intros Ho Hfd H1. destruct (session_seek fds fd a k s o w Ho Hfd H1) as (s' & Hr & Ho').
    exists s'. rewrite (st_bind_eq _ _ _ _ _ Hr). by destruct (a_seek o w a).
Qed.

(** C9: a descriptor is an open file.  Any sequence of [read], [write] and
    [lseek] calls through descriptors of one structure (also duplicates, which
    share the position) ends without an error, returns what the file of bytes
    with a position returns, and leaves the descriptors on the file that the
    specification leaves; [dup] gives the first empty slot one more descriptor
    of the same file. *)
Theorem open_file_refines fds a k (s : vst) :
  (forall l, opened fds a (sum_list (cost <$> l) + k) s -> legal fds l a ->
     exists s', exec_fops l s = Ok ((a_fops l a).1, s') /\ opened fds (a_fops l a).2 k s') /\
  (forall fd, opened fds a k s -> fd ∈ fds -> 0 < num_files s <= MAX_OPEN_FILES -> Z.of_nat (first_free (files s)) < MAX_OPEN_FILES ->
     exists s', sys_dup fd s = Ok (Z.of_nat (first_free (files s)), s') /\ opened (Z.of_nat (first_free (files s)) :: fds) a k s').
Proof.
  split; [|intros; by apply session_dup]. intros l. revert a s. induction l as [|o l IH]; intros a s Ho Hl; [by exists s|].
  destruct Hl as (Hfd & H1 & Hl). cbn [fmap list_fmap sum_list sum_list_with] in Ho.
  destruct (step_refines fds o a (sum_list (cost <$> l) + k) s) as (s1 & Hr & Ho1); [by rewrite Nat.add_assoc|done|done|].
  destruct (IH _ _ Ho1 Hl) as (s' & Hrs & Ho'). exists s'. cbn [exec_fops a_fops].
  rewrite (st_bind_eq _ _ _ _ _ Hr), (st_bind_eq _ _ _ _ _ Hrs). destruct (a_fop o a) as [r a1]. cbn [fst snd] in *.
  by destruct (a_fops l a1).
Qed.

(** C10: reading back through another descriptor.  What [write] stores through
    [fd], a duplicate [fd'] that seeks back to where it was stored reads. *)
Theorem write_seek_read fds fd fd' a k (s : vst) b :
  opened fds a (need (Z.of_nat (length b)) + k) s -> fd ∈ fds -> fd' ∈ fds -> Forall is_byte b ->
  a_pos a <= Z.of_nat (length (a_bytes a)) -> a_pos a + Z.of_nat (length b) <= max ->
  exists s1 s2 s3, sys_write fd b (Z.of_nat (length b)) s = Ok (Z.of_nat (length b), s1) /\
    sys_lseek fd' (a_pos a) SEEK_SET s1 = Ok (a_pos a, s2) /\
    sys_read fd' (Z.of_nat (length b)) s2 = Ok ((Z.of_nat (length b), b), s3) /\
    opened fds (a_write b a).2 k s3.
Proof.
  intros Ho Hfd Hfd' Hb Hle Hm. destruct Ho as [Hh Hp Hf] eqn:E. clear E. pose proof bf_max as Hmax.
  destruct (session_write fds fd a k s b) as (s1 & H1 & Ho1); [by constructor|done..|]. exists s1.
  set (c := RamFs.overwrite (a_bytes a) (a_pos a) b). assert (Hc : drop (Z.to_nat (a_pos a)) c = b ++ drop (Z.to_nat (a_pos a) + length b) (a_bytes a)).
  { unfold c, RamFs.overwrite. rewrite drop_app_length'; [done|]. rewrite length_take. lia. }
  assert (Hlc : (Z.to_nat (a_pos a) + length b <= length c)%nat).
  { unfold c, RamFs.overwrite. rewrite !length_app, length_take. lia. }
  destruct (session_seek fds fd' _ k s1 (a_pos a) SEEK_SET Ho1 Hfd' Hp) as (s2 & H2 & Ho2).
  unfold a_seek in H2, Ho2. cbn [a_write a_bytes snd Z.eqb SEEK_SET fst] in H2, Ho2. fold c in H2, Ho2.
  replace (Z.of_nat (length c) <? a_pos a) with false in H2, Ho2 by lia.
  destruct (session_read fds fd' _ k s2 (Z.of_nat (length b)) Ho2 Hfd' ltac:(lia)) as (s3 & H3 & Ho3); [cbn; lia|].
  unfold a_read in H3, Ho3. cbn [a_bytes a_pos fst snd] in H3, Ho3. rewrite Nat2Z.id, Hc, take_app_length in H3, Ho3.
  exists s2, s3. split; [exact H1|]. split; [exact H2|]. split; [exact H3|]. exact Ho3.
Qed.
End Session.
End SysFiles.
