(* ===== verification/SysCofs.v ===== *)
(** * Open files of cofs

    The node of vfs.h whose driver is cofs: its [read], [write] and [truncate]
    are those of Cofs.v on a node of the cache, and by the contracts of CofsRW.v
    it is a file of bytes ([ByteFile]), so what SysFiles.v shows of descriptors
    holds for the files of the disk. *)
From stdpp Require Import gmap.
From S2P Require Import Prelude CString BlockDev HdQueue Cofs CofsBlocks CofsInode CofsFiles CofsRW Vfs Sysfile RamFs SysSpec SysFiles.

Module SysCofs.
Import Cofs CofsBlocks CofsInode CofsFiles CofsRW Vfs Sysfile SysSpec SysFiles.

Section OnCofs.
Context {S : Type} `{Hd : BlockDev S} `{!BlockDevLaws S}.
Notation fs := (Cofs.fs (S:=S)).
Notation cst := (vst nat fs).

(** An operation on the cached node behind a node.  The [struct fs_node] is one
    object in the source: its size here follows the one of the cache. *)
Definition on_cofs {A} (n : nptr) (m : nat -> st fs A) : st cst A :=
  x ← Vfs.node_at n;
  s ← get;
  '(r, d) ← lift (m (n_drv x) (Vfs.dev s));
  put (Vfs.set_dev s d);;
  y ← lift (match cache d !! n_drv x with Some y => Ok y | None => Err EOob end);
  put_node n (Vfs.with_size x (size y));;
  mret r.
Definition cofs_ops : node_ops nat fs :=
  Ops
    (Some (fun n off sz => '(k, b) ← on_cofs n (fun i => cofs_read i off sz (replicate (Z.to_nat sz) 0)); mret (k, take (Z.to_nat k) b)))
    (Some (fun n off sz b => on_cofs n (fun i => cofs_write i off sz b)))
    None None None None None None None
    (Some (fun n len => on_cofs n (fun i => cofs_truncate i len)))
    None None None.
#[global] Instance cofs_kernel : Kernel nat fs := {
  driver _ := cofs_ops;
  malloc n := replicate (Z.to_nat n) 0;
  devices _ := None;
  new_pipe d := (0%nat, 0%nat, d);
  pipe_readers_inc _ d := d;
  pipe_writers_inc _ d := d
}.

(** The bytes of a file of cofs with room for [k] more blocks. *)
Definition cofs_holds (n : nptr) (c : list Z) (k : nat) (s : cst) : Prop :=
  exists nx x a, nodes s !! n = Some nx /\ (n_type nx = FS_FILE /\ n_lock nx = 0) /\ n_size nx = size x /\
    file_ok (Vfs.dev s) (n_drv nx) x a /\ inode_ok (Vfs.dev s) a (inode x) /\ has_free (Vfs.dev s) k /\
    size x <= MAX_FILE_SIZE_times_BLOCK_SIZE /\ c = contents (Vfs.dev s) x a.

Lemma file_ok_same (s s' : fs) n x a : same s s' -> file_ok s n x a ->
  file_ok s' n x a /\ contents s' x a = contents s x a.
Proof.
  intros Hs Hf. pose proof (file_inv_same s s' a Hs (fo_inv _ _ _ _ Hf)) as G. pose proof Hs as [(E & _) _].
  pose proof (fo_size _ _ _ _ Hf) as Hsz. split.
  - constructor; [rewrite E; apply Hf|apply Hf|apply G|done|]. intros k Hk.
    pose proof (path_leaf _ (fbn_range k ltac:(lia))) as [Hl _].
    rewrite (ex_path _ _ _ _ (gr_ex _ _ _ _ G) _ Hl); apply (fo_covered _ _ _ _ Hf); lia.
  - apply fbytes_ext. intros k Hk. apply (fbyte_same s s'); [done|apply Hf|lia|]. apply (fo_covered _ _ _ _ Hf); lia.
Qed.
Lemma keep_same (s s' : fs) a inum k : same s s' -> file_inv s a -> inode_ok s a inum -> has_free s k -> inode_ok s' a inum /\ has_free s' k.
Proof.
  intros Hs Hf Hio Hk. pose proof (file_inv_same s s' a Hs Hf) as G. split; [by apply (inode_ok_extends s s' a a); [apply G|]|].
  pose proof Hs as [(E & _) _]. apply (has_free_same s); [apply super_num; by rewrite E| |done].
  intros x Hx. apply same_allocated; [done|]. pose proof (fi_alloc _ _ Hf) as (_ & (_ & _ & Hbv) & _). by apply Hbv.
Qed.

(** Running an operation that leaves the node with [y]. *)
Lemma on_cofs_run {A} n (m : nat -> st fs A) (s : cst) nx r d y : nodes s !! n = Some nx -> m (n_drv nx) (Vfs.dev s) = Ok (r, d) ->
  cache d !! n_drv nx = Some y ->
  on_cofs n m s = Ok (r, set_nodes (Vfs.set_dev s d) (<[n := Vfs.with_size nx (size y)]> (nodes s))).
Proof. intros Hn Hm Hy. unfold on_cofs, Vfs.node_at, put_node. st_run. rewrite Hn, Hm. st_run. by rewrite Hy. Qed.

Lemma length_contents (s : fs) x a : 0 <= size x -> Z.of_nat (length (contents s x a)) = size x.
Proof. intros. unfold contents. rewrite length_fbytes. lia. Qed.

(** The bytes that a read leaves at the beginning of the buffer. *)
Lemma read_out (c : list Z) off sz : 0 <= off <= Z.of_nat (length c) -> 0 <= sz ->
  let k := Z.min sz (Z.of_nat (length c) - off) in let b := take (Z.to_nat sz) (drop (Z.to_nat off) c) in
  (k, take (Z.to_nat k) (splice (replicate (Z.to_nat sz) 0) 0 (take (Z.to_nat k) (drop (Z.to_nat off) c)))) = (Z.of_nat (length b), b).
Proof.
  intros Ho Hs k b. assert (Hb : take (Z.to_nat k) (drop (Z.to_nat off) c) = b).
  { unfold b, k. destruct (Z.min_spec sz (Z.of_nat (length c) - off)) as [[? ->]|[? ->]]; [done|].
    rewrite !take_ge; [done|rewrite length_drop; lia..]. }
  assert (Hl : length b = Z.to_nat k) by (rewrite <- Hb, length_take, length_drop; lia).
  rewrite Hb. f_equal; [rewrite Hl; lia|]. unfold splice. cbn [take]. by rewrite <- Hl, app_nil_l, take_app_length.
Qed.

(** The contract of cofs is that of a file of bytes; a write of [sz] bytes takes
    at most [3 * loop_fuel sz] blocks. *)
#[global] Instance cofs_byte_file n : ByteFile n (cofs_holds n) (fun sz => 3 * loop_fuel sz)%nat MAX_FILE_SIZE_times_BLOCK_SIZE.
Proof.
  assert (Hmax : MAX_FILE_SIZE_times_BLOCK_SIZE = 8388742) by reflexivity. constructor.
  - lia.
  - intros c k s (nx & x & a & Hn & Hty & Hsz & Hok & _ & _ & Hm & ->). pose proof (fo_size _ _ _ _ Hok).
    rewrite length_contents by lia. split; [done|]. exists nx. by destruct Hty.
  - intros c k s s' (nx & x & a & H) En Ed. exists nx, x, a. by rewrite En, Ed.
  - intros c k s x r (nx & y & a & Hn & H) Hx. rewrite Hn in Hx. injection Hx as <-.
    exists (with_ref nx r), y, a. split; [apply lookup_insert_eq|]. exact H.
  - intros c k s off sz (nx & x & a & Hn & Hty & Hsz & Hok & Hio & Hk & Hm & ->) Ho Hs Hov.
    pose proof (fo_size _ _ _ _ Hok). rewrite length_contents in Ho by lia. cbn zeta.
    destruct (cofs_read_run (Vfs.dev s) (n_drv nx) x a off sz (replicate (Z.to_nat sz) 0) Hok) as (d & Hr & Hsame);
      [lia|lia|lia|rewrite length_replicate; lia|].
    destruct (file_ok_same _ _ _ _ _ Hsame Hok) as [Hok' Hc']. destruct (keep_same _ _ _ _ _ Hsame (fo_inv _ _ _ _ Hok) Hio Hk) as [Hio' Hk'].
    eexists. split.
    { unfold fs_read, ops_at, Vfs.node_at. st_run. rewrite Hn. st_run. cbn [driver cofs_kernel cofs_ops op_read].
      rewrite (st_bind_eq _ _ _ _ _ (on_cofs_run _ _ _ _ _ _ _ Hn Hr (fo_node _ _ _ _ Hok'))). st_run. do 2 f_equal. rewrite <- (length_contents (Vfs.dev s) x a) by lia. apply read_out; rewrite ?length_contents; lia. }
    split.
    + exists (Vfs.with_size nx (size x)), x, a. split; [apply lookup_insert_eq|]. split; [exact Hty|]. split_and!; try done.
    + done.
  - intros c k s off b. cbn zeta. intros (nx & x & a & Hn & Hty & Hsz & Hok & Hio & Hk & Hm & ->) Ho Hmx Hb.
    pose proof (fo_size _ _ _ _ Hok). rewrite length_contents in Ho by lia.
    destruct (cofs_write_run (Vfs.dev s) (n_drv nx) x a off (Z.of_nat (length b)) b k) as (d & a' & Hr & Hw & Hio' & Hk');
      [done|done|lia|lia|lia|done|lia|done|].
    rewrite Nat2Z.id, firstn_all in Hw. destruct Hw as [Hok' Hc' _ _ _ _]. set (x' := Cofs.with_size _ _) in *.
    eexists. split.
    { unfold fs_write, ops_at, Vfs.node_at. st_run. rewrite Hn. st_run. cbn [driver cofs_kernel cofs_ops op_write].
      exact (on_cofs_run _ _ _ _ _ _ _ Hn Hr (fo_node _ _ _ _ Hok')). }
    split; [|done]. exists (Vfs.with_size nx (size x')), x', a'. split; [apply lookup_insert_eq|].
    split; [exact Hty|]. split; [done|]. split; [exact Hok'|]. split; [exact Hio'|]. split; [done|]. split; [cbn; lia|]. exact (eq_sym Hc').
Qed.
End OnCofs.

(** ** An open file of the disk of CofsRW.v

    Its file holds the five bytes "hello"; descriptors 0 and 1 are duplicates. *)
Definition demo_vnode : fs_node nat := FsNode [] 420 0 0 0 0 FS_FILE 0 2 5 1 1 0 0 0%nat.
Definition demo_tasks : vst nat (Cofs.fs (S:=HdQueue.hdq)) :=
  Vst (<[2%positive := demo_vnode]> ∅) 3%positive 1%positive demo false [Some 1%positive; Some 1%positive; None; None; None; None]
    (<[1%positive := File 0 O_RDWR 0 (Some 2%positive) 1]> ∅) 2%positive [47; 0] None.
Definition demo_file : afile := AFile RamFs.hello 0.

Lemma demo_opened k : (k <= 30)%nat -> opened 2%positive (cofs_holds 2%positive) [0; 1] demo_file k demo_tasks.
Proof.
  intros Hk. constructor.
  - exists demo_vnode, demo_node, demo_addrs. split; [reflexivity|]. split; [by split|]. split; [reflexivity|].
    split; [exact demo_ok|]. split; [exact demo_inode_ok|]. split; [by apply demo_free|]. split; [vm_compute; discriminate|].
    vm_compute. reflexivity.
  - cbn. lia.
  - exists 1%positive, (File 0 O_RDWR 0 (Some 2%positive) 1). split; [reflexivity|]. split; [reflexivity|]. split; [reflexivity|].
    intros fd Hfd. rewrite !elem_of_cons in Hfd. destruct Hfd as [->|[->|Hfd]]; [split; [lia|reflexivity]..|]. set_solver.
Qed.

(** Writing through one, reading through the other; the third descriptor. *)
Definition demo_fops : list fop := [OWrite 0 [1; 2; 3]; ORead 1 1; OSeek 1 0 SEEK_SET; ORead 0 9].
Lemma open_file_refines_witness :
  (exists s', exec_fops demo_fops demo_tasks = Ok ((a_fops demo_fops demo_file).1, s') /\
     opened 2%positive (cofs_holds 2%positive) [0; 1] (a_fops demo_fops demo_file).2 4 s') /\
  (a_fops demo_fops demo_file).1 = [(3, []); (1, [108]); (0, []); (5, [1; 2; 3; 108; 111])] /\
  (exists s', sys_dup 1 demo_tasks = Ok (Z.of_nat (first_free (files demo_tasks)), s') /\
     opened 2%positive (cofs_holds 2%positive) (Z.of_nat (first_free (files demo_tasks)) :: [0; 1]) demo_file 4 s').
Proof.
  destruct (open_file_refines 2%positive (cofs_holds 2%positive) _ _ [0; 1] demo_file 4 demo_tasks) as [H1 H2]. split; [|split; [reflexivity|]].
  - apply H1; [apply demo_opened; vm_compute; lia|].
    repeat split; first [by left|by (right; left)|lia|apply bytesb_true; reflexivity|vm_compute; reflexivity|vm_compute; discriminate].
  - apply H2; [apply demo_opened; lia|by (right; left)|vm_compute; split; [reflexivity|discriminate]|vm_compute; reflexivity].
Defined.
Lemma write_seek_read_witness :
  exists s1 s2 s3, sys_write 0 [1; 2; 3] 3 demo_tasks = Ok (3, s1) /\ sys_lseek 1 0 SEEK_SET s1 = Ok (0, s2) /\
    sys_read 1 3 s2 = Ok ((3, [1; 2; 3]), s3) /\
    opened 2%positive (cofs_holds 2%positive) [0; 1] (a_write [1; 2; 3] demo_file).2 4 s3.
Proof.
  apply (write_seek_read 2%positive (cofs_holds 2%positive) _ _ [0; 1] 0 1 demo_file 4 demo_tasks [1; 2; 3]);
    [apply demo_opened; vm_compute; lia|by left|by (right; left)|apply bytesb_true; reflexivity|vm_compute; discriminate|vm_compute; discriminate].
Defined.
End SysCofs.
