(* ===== verification/Stdio.v ===== *)
(** * Buffered streams

    src/lib/file.c and the FILE of src/include/stdio.h over the system calls,
    which the class [Unix] provides: the streams are the slots of [_iob]; a FILE
    pointer is the number of its slot.  Buffers are lists of bytes. *)
From S2P Require Import Prelude CString.

Module Stdio.

Definition EOF : Z := -1.
Definition OPEN_MAX : Z := 10.
Definition BUF_SIZE : Z := 512.
Definition GETLINE_INIT_SIZE : Z := 16.
Definition IOB_INIT_NUMSLOTS : Z := 16.
Definition F_RDONLY : Z := 1.
Definition F_WRONLY : Z := 2.
Definition F_RDWR : Z := 4.
Definition F_UNBUF : Z := 8.
Definition F_EOF : Z := 16.
Definition F_ERR : Z := 32.
Definition O_RDONLY : Z := 0.
Definition O_WRONLY : Z := 1.
Definition O_RDWR : Z := 2.
Definition O_CREAT : Z := 0x040.
Definition O_TRUNC : Z := 0x200.
Definition O_APPEND : Z := 0x400.

Record FILE := File { buf : option (list Z); head : Z; tail : Z; size : Z; flags : Z; fd : Z }.
Definition empty_file : FILE := File None 0 0 0 0 0.
Definition with_buf (x : FILE) b := File b (head x) (tail x) (size x) (flags x) (fd x).
Definition with_head (x : FILE) h := File (buf x) h (tail x) (size x) (flags x) (fd x).
Definition with_tail (x : FILE) t := File (buf x) (head x) t (size x) (flags x) (fd x).
Definition with_size (x : FILE) s := File (buf x) (head x) (tail x) s (flags x) (fd x).
Definition with_flags (x : FILE) f := File (buf x) (head x) (tail x) (size x) f (fd x).
Definition with_fd (x : FILE) d := File (buf x) (head x) (tail x) (size x) (flags x) d.

(** The calls the library makes: a read returns its result and the bytes it
    stored; [umalloc] gives the cells of a new object, or none. *)
Class Unix (S : Type) := {
  uopen : list Z -> Z -> Z -> st S Z;
  uread : Z -> Z -> st S (Z * list Z);
  uwrite : Z -> list Z -> st S Z;
  uclose : Z -> st S Z;
  umalloc : Z -> option (list Z)
}.

(** The program: [_iob], a null pointer before [_iob_init], and the system. *)
Record io (S : Type) := Io { iob : option (list FILE); sys : S }.
#[global] Arguments Io {S}. #[global] Arguments iob {S}. #[global] Arguments sys {S}.

Definition has (x : FILE) (f : Z) : bool := negb (Z.land (flags x) f =? 0).
Definition IOB_EMPTY (x : FILE) : bool := tail x =? head x.
Definition IOB_FULL (x : FILE) : bool := size x <=? head x -i tail x.

Section Streams.
Context {S : Type} `{!Unix S}.
Notation io := (io S).

Definition call {A} (m : st S A) : st io A := fun s => match m (sys s) with Ok (a, t) => Ok (a, Io (iob s) t) | Err e => Err e end.
Definition slots : st io (list FILE) := s ← get; match iob s with Some l => mret l | None => fail ENull end.
Definition stream (f : nat) : st io FILE := l ← slots; lift (rd l f).
Definition set_stream (f : nat) (x : FILE) : st io unit := l ← slots; l ← lift (wr l f x); modify (fun s => Io (Some l) (sys s)).
Definition buffer (x : FILE) : st io (list Z) := match buf x with Some b => mret b | None => fail ENull end.
(** [pos % fp->size], the offset of a cell. *)
Definition rel (x : FILE) (pos : Z) : res nat :=
  if size x =? 0 then Err EDiv else let r := Z.rem pos (size x) in if r <? 0 then Err EOob else Ok (Z.to_nat r).

(** [realloc]: the old cells as far as the new size goes. *)
Definition realloc (old : option (list Z)) (n : Z) : option (list Z) :=
  match umalloc n with
  | None => None
  | Some m => let b := default [] old in let k := Nat.min (length b) (length m) in Some (take k b ++ drop k m)
  end.
(** The result is the pointer that [_alloc_buf] returns. *)
Definition _alloc_buf (f : nat) (sz : Z) : st io (option (list Z)) :=
  x ← stream f;
  let bsize := if (has x F_UNBUF && (0 <? sz))%bool then 1 else sz in
  match realloc (buf x) bsize with
  | None => set_stream f (with_buf x None);; mret None
  | Some b => set_stream f (with_size (with_buf x (Some b)) bsize);; mret (Some b)
  end.
(** [fp->buf = _alloc_buf(fp, size);] *)
Definition set_buf (f : nat) (sz : Z) : st io unit := b ← _alloc_buf f sz; x ← stream f; set_stream f (with_buf x b).

Definition _iob_init : st io Z :=
  s ← get;
  match iob s with
  | Some _ => mret (-1)
  | None =>
      match umalloc 8, umalloc (IOB_INIT_NUMSLOTS * 24) with
      | Some _, Some _ =>
          put (Io (Some (replicate (Z.to_nat IOB_INIT_NUMSLOTS) empty_file)) (sys s));;
          x ← stream 0; set_stream 0 (with_flags (with_fd x 0) F_RDONLY);; set_buf 0 BUF_SIZE;;
          x ← stream 1; set_stream 1 (with_flags (with_fd x 1) F_WRONLY);; set_buf 1 BUF_SIZE;;
          x ← stream 2; set_stream 2 (with_flags (with_fd x 2) (Z.lor F_WRONLY F_UNBUF));; set_buf 2 1;;
          mret 0
      | Some _, None => put (Io (Some []) (sys s));; mret (-1)
      | None, _ => mret (-1)
      end
  end.

Fixpoint free_slot (l : list FILE) : nat := match l with [] => O | x :: l => if flags x =? 0 then O else Datatypes.S (free_slot l) end.
Definition _alloc_file : st io (option nat) :=
  l ← slots;
  let f := free_slot l in
  if decide (f = length l) then
    if OPEN_MAX <=? Z.of_nat (length l) then mret None
    else
      match umalloc (2 * Z.of_nat (length l) * 24) with
      | None => mret None
      | Some _ => modify (fun s => Io (Some (l ++ replicate (length l) empty_file)) (sys s));; mret (Some f)
      end
  else mret (Some f).

Definition _fill_buf (f : nat) : st io Z :=
  x ← stream f;
  if has x (Z.lor F_EOF (Z.lor F_ERR F_WRONLY)) then mret EOF
  else
    kassert (bool_decide (buf x <> None));;
    b ← buffer x;
    rel_pos ← lift (rel x (head x));
    '(num_bytes, bytes) ← call (uread (fd x) (u32 (size x - Z.of_nat rel_pos)));
    if num_bytes <=? 0 then
      set_stream f (with_flags x (Z.lor (flags x) (if num_bytes =? 0 then F_EOF else F_ERR)));; mret EOF
    else
      b ← lift (wr_block b rel_pos bytes);
      set_stream f (with_head (with_buf x (Some b)) (head x +i num_bytes));;
      mret num_bytes.
Definition _flush_buf (f : nat) : st io Z :=
  x ← stream f;
  if has x (Z.lor F_EOF (Z.lor F_ERR F_RDONLY)) then mret EOF
  else
    kassert (bool_decide (buf x <> None));;
    b ← buffer x;
    let n := head x -i tail x in
    let n := if (negb (n =? 0) && has x F_UNBUF)%bool then 1 else n in
    rel_pos ← lift (rel x (tail x));
    bytes ← lift (rd_block b rel_pos (Z.to_nat (u32 n)));
    num_bytes ← call (uwrite (fd x) bytes);
    if num_bytes <=? 0 then set_stream f (with_flags x (Z.lor (flags x) F_ERR));; mret EOF
    else set_stream f (with_tail x (tail x +i num_bytes));; mret num_bytes.

Definition feof (f : nat) : st io Z := x ← stream f; mret (Z.land (flags x) F_EOF).
(** The byte at [tail], which moves on. *)
Definition take_char (f : nat) : st io Z :=
  x ← stream f;
  b ← buffer x;
  i ← lift (rel x (tail x));
  c ← lift (rd b i);
  set_stream f (with_tail x (tail x +i 1));;
  mret c.
(** The byte [c] stored at [head]. *)
Definition store_char (f : nat) (c : Z) : st io unit :=
  x ← stream f;
  b ← buffer x;
  i ← lift (rel x (head x));
  b ← lift (wr b i (u8 c));
  set_stream f (with_head (with_buf x (Some b)) (head x +i 1)).
Definition fgetc (f : nat) : st io Z :=
  x ← stream f;
  r ← (if IOB_EMPTY x then _fill_buf f else mret 0);
  if r <? 0 then mret EOF else c ← take_char f; mret (schar c).
Definition fputc (c : Z) (f : nat) : st io Z :=
  store_char f c;;
  x ← stream f;
  r ← (if (IOB_FULL x || has x F_UNBUF)%bool then _flush_buf f else mret 0);
  if r <? 0 then mret EOF else mret c.
Definition getc (f : nat) : st io Z := fgetc f.
Definition getchar : st io Z := getc 0.
Definition putc (c : Z) (f : nat) : st io Z := fputc c f.
Definition putchar (c : Z) : st io Z := putc c 1.

(** At most [sz] characters are read. *)
Fixpoint fgets_loop (fuel : nat) (s : list Z) (i : nat) (sz : Z) (f : nat) : st io (list Z * nat) :=
  match fuel with
  | O => fail EFuel
  | Datatypes.S fuel =>
      c ← getc f;
      let c := s8 c in
      if (negb (c =? EOF) && (Z.of_nat i <? sz - 1))%bool then
        s ← lift (wr s i (u8 c));
        if c =? 10 then mret (s, Datatypes.S i) else fgets_loop fuel s (Datatypes.S i) sz f
      else mret (s, i)
  end.
(** The array and whether the result is [s]; otherwise it is NULL. *)
Definition fgets (s : list Z) (sz : Z) (f : nat) : st io (list Z * bool) :=
  '(s, i) ← fgets_loop (Datatypes.S (Z.to_nat sz)) s 0 sz f;
  s ← lift (wr s i 0);
  mret (s, negb (i =? 0)%nat).

(** The line and its size; [fuel] bounds the characters of the line. *)
Fixpoint getline_loop (fuel : nat) (line : option (list Z)) (n : Z) (i : nat) (f : nat) : st io (list Z * Z * nat) :=
  match fuel with
  | O => fail EFuel
  | Datatypes.S fuel =>
      let grow := (bool_decide (line = None) || (n <=? Z.of_nat i + 1))%bool in
      let n := if grow then if n =? 0 then GETLINE_INIT_SIZE else n *u 2 else n in
      s ← (match (if grow then realloc line n else line) with Some s => mret s | None => fail ENull end);
      c ← getc f;
      let c := s8 c in
      if c =? EOF then mret (s, n, i)
      else
        s ← lift (wr s i (u8 c));
        if c =? 10 then mret (s, n, Datatypes.S i) else getline_loop fuel (Some s) n (Datatypes.S i) f
  end.
Definition getline (fuel : nat) (line : option (list Z)) (n : Z) (f : nat) : st io (Z * list Z * Z) :=
  '(s, n, i) ← getline_loop fuel line n 0 f;
  s ← lift (wr s i 0);
  x ← stream f;
  mret (if has x (Z.lor F_EOF F_ERR) then EOF else Z.of_nat i, s, n).

Fixpoint fputs (s : list Z) (f : nat) : st io Z :=
  match s with
  | [] => fail EOob
  | c :: s => if c =? 0 then mret 0 else r ← fputc (schar c) f; if r <? 0 then mret EOF else fputs s f
  end.

(** [rest] bytes of [nmemb * size] are to come; [i] are done, [j] items. *)
Fixpoint fread_loop (rest : nat) (p : list Z) (i : nat) (sz : Z) (j : Z) (f : nat) : st io (list Z * Z) :=
  match rest with
  | O => mret (p, j)
  | Datatypes.S rest =>
      x ← stream f;
      r ← (if IOB_EMPTY x then _fill_buf f else mret 0);
      if r <? 0 then mret (p, j)
      else
        c ← take_char f;
        p ← lift (wr p i c);
        fread_loop rest p (Datatypes.S i) sz (if Z.of_nat (Datatypes.S i) mod sz =? 0 then j +u 1 else j) f
  end.
Definition fread (p : list Z) (sz nmemb : Z) (f : nat) : st io (list Z * Z) := fread_loop (Z.to_nat (nmemb *u sz)) p 0 sz 0 f.
Fixpoint fwrite_loop (rest : nat) (p : list Z) (i : nat) (sz : Z) (j : Z) (f : nat) : st io Z :=
  match rest with
  | O => mret j
  | Datatypes.S rest =>
      c ← lift (rd p i);
      store_char f c;;
      x ← stream f;
      r ← (if IOB_FULL x then _flush_buf f else mret 0);
      if r <? 0 then mret j
      else fwrite_loop rest p (Datatypes.S i) sz (if Z.of_nat (Datatypes.S i) mod sz =? 0 then j +u 1 else j) f
  end.
Definition fwrite (p : list Z) (sz nmemb : Z) (f : nat) : st io Z := fwrite_loop (Z.to_nat (nmemb *u sz)) p 0 sz 0 f.

(** The test of the direction is on [O_RDONLY], which is 0. *)
Definition fflush_one (f : nat) : st io Z :=
  x ← stream f;
  if has x O_RDONLY then set_stream f (with_tail x (head x));; mret 0
  else r ← _flush_buf f; mret (if r <? 0 then EOF else 0).
Fixpoint fflush_loop (n f : nat) (ret : Z) : st io Z :=
  match n with
  | O => mret ret
  | Datatypes.S n =>
      x ← stream f;
      r ← (if has x (Z.lor F_RDWR F_WRONLY) then fflush_one f else mret 0);
      fflush_loop n (Datatypes.S f) (if r =? -1 then -1 else ret)
  end.
Definition fflush (f : option nat) : st io Z :=
  match f with Some f => fflush_one f | None => l ← slots; fflush_loop (length l) 0 0 end.
Definition fclose (f : nat) : st io Z :=
  fflush (Some f);;
  x ← stream f;
  ret ← call (uclose (fd x));
  set_stream f empty_file;;
  mret ret.

Definition fopen (path mode : list Z) : st io (option nat) :=
  m ← lift (rd mode 0);
  if negb ((m =? 114) || (m =? 119) || (m =? 97))%bool then mret None
  else
    o ← _alloc_file;
    match o with
    | None => mret None
    | Some f =>
        let fl := if m =? 119 then Z.lor O_CREAT O_TRUNC else if m =? 97 then Z.lor O_CREAT O_APPEND else 0 in
        plus ← lift (rd mode 1);
        let fl := Z.lor fl (if plus =? 43 then O_RDWR else if m =? 114 then O_RDONLY else O_WRONLY) in
        d ← call (uopen path fl (if m =? 114 then 0 else 438));
        x ← stream f;
        set_stream f (with_fd x d);;
        if d <? 0 then mret None
        else
          x ← stream f;
          set_stream f (with_flags x
            (if negb (Z.land fl O_RDONLY =? 0) then F_RDONLY else if negb (Z.land fl O_WRONLY =? 0) then F_WRONLY else F_RDWR));;
          set_buf f BUF_SIZE;;
          x ← stream f;
          set_stream f (with_tail (with_head x 0) 0);;
          mret (Some f)
    end.
Fixpoint close_loop (n f : nat) : st io unit :=
  match n with O => mret tt | Datatypes.S n => x ← stream f; (if 0 <? flags x then fclose f;; mret tt else mret tt);; close_loop n (Datatypes.S f) end.
Definition _iob_destroy : st io unit :=
  s ← get;
  match iob s with None => mret tt | Some l => close_loop (length l) 0;; modify (fun s => Io None (sys s)) end.
End Streams.
End Stdio.
