(* ===== verification/StdioSpec.v ===== *)
(** * Streams as sequences of bytes

    What a program puts into an output stream reaches its descriptor in order,
    what an input stream returns are the bytes of its descriptor in order; a
    descriptor is a [Sink] or a [Source].  Errors stop a stream for good. *)
From S2P Require Import Prelude CString Stdio.
Import Stdio.

Module StdioSpec.

(** A descriptor that takes bytes: [sink w k] says that the bytes [w] have been
    written and that [k] writes of at most [BUF_SIZE] bytes may follow. *)
Record Sink {S} `{!Unix S} (d : Z) (sink : list Z -> nat -> S -> Prop) : Prop := {
  sink_write w k s b : sink w (1 + k)%nat s -> Z.of_nat (length b) <= BUF_SIZE -> Forall is_byte b ->
    exists s', uwrite d b s = Ok (Z.of_nat (length b), s') /\ sink (w ++ b) k s'
}.
(** A descriptor that gives bytes: [source r] says that [r] are left.  A read
    may give fewer than it is asked for, but none only at the end. *)
Record Source {S} `{!Unix S} (d : Z) (source : list Z -> S -> Prop) : Prop := {
  source_bytes r s : source r s -> Forall is_byte r;
  source_read r s n : source r s -> 0 < n <= BUF_SIZE ->
    exists b r' s', uread d n s = Ok ((Z.of_nat (length b), b), s') /\ r = b ++ r' /\ Z.of_nat (length b) <= n /\
      (b = [] -> r = []) /\ source r' s'
}.

Section Spec.
Context {S : Type} `{!Unix S}.
Notation io := (io S).

(** Stream [f] is [x]; the other streams are those of [l]. *)
Definition at_slot (l : list FILE) (f : nat) (x : FILE) (s : io) : Prop := (f < length l)%nat /\ iob s = Some (<[f := x]> l).

Lemma stream_run l f x s : at_slot l f x s -> stream f s = Ok (x, s).
Proof.
  intros [Hf Hs]. unfold stream, slots. st_run. rewrite Hs. st_run. unfold rd. by rewrite list_lookup_insert_eq.
Qed.
Lemma set_stream_run l f x y s : at_slot l f x s -> set_stream f y s = Ok (tt, Io (Some (<[f := y]> l)) (sys s)).
Proof.
  intros [Hf Hs]. unfold set_stream, slots. st_run. rewrite Hs. st_run. rewrite wr_in by by rewrite length_insert.
  by rewrite list_insert_insert_eq.
Qed.
Lemma at_slot_new l f x t : (f < length l)%nat -> at_slot l f x (Io (Some (<[f := x]> l)) t).
Proof. done. Qed.
Lemma call_run {A} (m : st S A) a t s : m (sys s) = Ok (a, t) -> call m s = Ok (a, Io (iob s) t).
Proof. intros H. unfold call. by rewrite H. Qed.

(** The positions of a stream with a buffer of [BUF_SIZE] bytes. *)
Definition buffered (x : FILE) (b : list Z) (d : Z) : Prop :=
  buf x = Some b /\ length b = Z.to_nat BUF_SIZE /\ size x = BUF_SIZE /\ fd x = d /\ Forall is_byte b /\
  0 <= tail x <= head x /\ head x < 2 ^ 31.
Lemma rel_run x b d p : buffered x b d -> 0 <= p -> rel x p = Ok (Z.to_nat (p mod BUF_SIZE)).
Proof.
  intros (_ & _ & Hs & _) Hp. unfold rel. rewrite Hs. change (BUF_SIZE =? 0) with false. cbn zeta.
  rewrite Z.rem_mod_nonneg by (unfold BUF_SIZE; lia). pose proof (Z.mod_pos_bound p BUF_SIZE). unfold BUF_SIZE in *.
  by replace (p mod 512 <? 0) with false by lia.
Qed.
Lemma rel_lt p : (Z.to_nat (p mod BUF_SIZE) < Z.to_nat BUF_SIZE)%nat.
Proof. pose proof (Z.mod_pos_bound p BUF_SIZE). unfold BUF_SIZE in *. lia. Qed.

(** ** Output *)
Definition plain_out (x : FILE) : Prop := has x F_UNBUF = false /\ has x (Z.lor F_EOF (Z.lor F_ERR F_RDONLY)) = false.

Context (d : Z) (sink : list Z -> nat -> S -> Prop) (HS : Sink d sink).

(** The bytes [w] have been put into stream [f], and [n] more may be: those in
    the buffer start at a multiple of its size, as long as nothing was flushed
    from a buffer that was not full. *)
Definition out_at (l : list FILE) (f : nat) (w : list Z) (n : nat) (s : io) : Prop :=
  exists x b out, at_slot l f x s /\ buffered x b d /\ plain_out x /\ tail x mod BUF_SIZE = 0 /\ head x - tail x < BUF_SIZE /\
    head x + Z.of_nat n < 2 ^ 31 /\ w = out ++ take (Z.to_nat (head x - tail x)) b /\
    sink out ((Z.to_nat (head x - tail x) + n) / Z.to_nat BUF_SIZE + 1) (sys s).

(** The part of the buffer between [tail] and [head]. *)
Lemma pending_block x b : buffered x b d -> tail x mod BUF_SIZE = 0 -> head x - tail x <= BUF_SIZE ->
  rd_block b (Z.to_nat (tail x mod BUF_SIZE)) (Z.to_nat (u32 (head x -i tail x))) = Ok (take (Z.to_nat (head x - tail x)) b).
Proof.
  intros (_ & Hl & _ & _ & _ & Ht & Hh) Hm Hn. rewrite Hm, s32_small, u32_small by (unfold BUF_SIZE in *; lia).
  unfold rd_block. rewrite decide_True; [done|]. rewrite Hl. change (Z.to_nat 0) with 0%nat. lia.
Qed.

Lemma flush_run l f x b out k s : at_slot l f x s -> buffered x b d -> plain_out x -> tail x mod BUF_SIZE = 0 ->
  head x - tail x <= BUF_SIZE -> sink out (1 + k)%nat (sys s) ->
  exists t, sink (out ++ take (Z.to_nat (head x - tail x)) b) k t /\
    _flush_buf f s =
      if head x - tail x <=? 0 then Ok (-1, Io (Some (<[f := with_flags x (Z.lor (flags x) F_ERR)]> l)) t)
      else Ok (head x - tail x, Io (Some (<[f := with_tail x (head x)]> l)) t).
Proof.
  intros Hs Hb [Hu Hp] Hm Hn Hk. pose proof Hb as (Hbuf & Hl & Hsz & Hfd & Hby & Ht & Hh).
  set (p := take (Z.to_nat (head x - tail x)) b) in *.
  assert (Hlp : Z.of_nat (length p) = head x - tail x) by (unfold p; rewrite length_take; unfold BUF_SIZE in *; lia).
  destruct (sink_write _ _ HS _ _ _ p Hk) as (t & Hw & Ht'); [lia|by apply Forall_take|]. exists t. split; [done|].
  unfold _flush_buf. rewrite (st_bind_eq _ _ _ _ _ (stream_run _ _ _ _ Hs)), Hp, Hbuf. unfold buffer. rewrite Hbuf.
  rewrite bool_decide_eq_true_2 by done. unfold kassert. rewrite !(st_bind_eq (mret _) _ s _ s) by done. rewrite Hu, andb_false_r.
  rewrite (st_bind_eq (lift _) _ s _ s) by (unfold lift; rewrite (rel_run x b d) by (done || lia); done). cbn beta.
  rewrite (st_bind_eq (lift _) _ s _ s) by (unfold lift; by rewrite (pending_block x b)). cbn beta. fold p. rewrite Hfd.
  rewrite (st_bind_eq _ _ _ _ _ (call_run _ _ _ _ Hw)), Hlp. pose proof Hs as [Hf Hio].
  assert (Hs2 : at_slot l f x (Io (iob s) t)) by (split; done).
  destruct (head x - tail x <=? 0) eqn:E; rewrite (st_bind_eq _ _ _ _ _ (set_stream_run _ _ _ _ _ Hs2)); [done|].
  replace (tail x +i (head x - tail x)) with (head x) by (rewrite s32_small; lia). done.
Qed.

Lemma store_run l f x b c s : at_slot l f x s -> buffered x b d -> head x < 2 ^ 31 - 1 -> 0 <= c < 256 ->
  let b' := <[Z.to_nat (head x mod BUF_SIZE) := c]> b in let y := with_head (with_buf x (Some b')) (head x + 1) in
  store_char f c s = Ok (tt, Io (Some (<[f := y]> l)) (sys s)) /\ buffered y b' d.
Proof.
  intros Hs Hb Hm Hc. pose proof Hb as (Hbuf & Hl & Hsz & Hfd & Hby & Ht & Hh). cbn zeta. split.
  - unfold store_char. rewrite (st_bind_eq _ _ _ _ _ (stream_run _ _ _ _ Hs)). unfold buffer. rewrite Hbuf.
    rewrite (st_bind_eq (mret _) _ s _ s) by done. rewrite (st_bind_eq (lift _) _ s _ s) by (unfold lift; rewrite (rel_run x b d) by (done || lia); done).
    cbn beta. rewrite u8_small by done. rewrite (st_bind_eq (lift _) _ s _ s) by (unfold lift; rewrite wr_in by (rewrite Hl; apply rel_lt); done).
    cbn beta. rewrite (set_stream_run _ _ _ _ _ Hs), s32_small by lia. done.
  - split; [done|]. split; [by rewrite length_insert|]. cbn. split; [done|]. split; [done|]. split; [by apply Forall_insert|]. lia.
Qed.
(** The byte stored is the last of the pending ones. *)
Lemma pending_snoc (b : list Z) t h c : length b = Z.to_nat BUF_SIZE -> 0 <= t <= h -> t mod BUF_SIZE = 0 -> h - t < BUF_SIZE ->
  take (Z.to_nat (h + 1 - t)) (<[Z.to_nat (h mod BUF_SIZE) := c]> b) = take (Z.to_nat (h - t)) b ++ [c].
Proof.
  intros Hl Ht Hm Hn. assert (Hh : h mod BUF_SIZE = h - t).
  { rewrite <- (Z.mod_small (h - t) BUF_SIZE) by (unfold BUF_SIZE in *; lia).
    rewrite Zminus_mod, Hm, Z.sub_0_r. by rewrite Z.mod_mod by (unfold BUF_SIZE; lia). }
  rewrite Hh. replace (Z.to_nat (h + 1 - t)) with (Datatypes.S (Z.to_nat (h - t))) by lia.
  rewrite (take_S_r _ _ c) by (apply list_lookup_insert_eq; rewrite Hl; unfold BUF_SIZE in *; lia). by rewrite take_insert_ge by lia.
Qed.

(** One byte more: the common step of [fputc] and [fwrite]. *)
Lemma put_char_run l f w n c s : out_at l f w (1 + n) s -> 0 <= c < 256 ->
  exists s1 x s2 r, store_char f c s = Ok (tt, s1) /\ stream f s1 = Ok (x, s1) /\ has x F_UNBUF = false /\
    (if IOB_FULL x then _flush_buf f else mret 0) s1 = Ok (r, s2) /\ 0 <= r /\ out_at l f (w ++ [c]) n s2.
Proof.
  intros (x & b & out & Hs & Hb & Hp & Hm & Hn & Hh & -> & Hk) Hc. pose proof Hb as (_ & Hl & _ & _ & _ & Ht & _).
  destruct (store_run l f x b c s Hs Hb ltac:(lia) Hc) as [Hst Hb']. set (b' := <[_ := c]> b) in *. set (y := with_head _ _) in *.
  assert (Hp' : plain_out y) by exact Hp. assert (Hs' : at_slot l f y (Io (Some (<[f := y]> l)) (sys s))) by (split; [apply Hs|done]).
  assert (Hpend : take (Z.to_nat (head y - tail y)) b' = take (Z.to_nat (head x - tail x)) b ++ [c]) by (by apply pending_snoc).
  enough (exists s2 r, (if IOB_FULL y then _flush_buf f else mret 0) (Io (Some (<[f := y]> l)) (sys s)) = Ok (r, s2) /\ 0 <= r /\
    out_at l f ((out ++ take (Z.to_nat (head x - tail x)) b) ++ [c]) n s2) as (s2 & r & H1 & H2 & H3).
  { eexists _, y, s2, r. split; [exact Hst|]. split; [by apply (stream_run l)|]. split; [apply Hp'|]. done. }
  assert (Hfull : IOB_FULL y = (BUF_SIZE <=? head x + 1 - tail x)).
  { unfold IOB_FULL. cbn [head tail y with_head with_buf size]. rewrite s32_small by (unfold BUF_SIZE in *; lia). by destruct Hb as (_ & _ & -> & _). }
  assert (HB : Z.to_nat BUF_SIZE = 512%nat) by reflexivity. rewrite HB in *.
  rewrite Hfull. destruct (Z.leb_spec BUF_SIZE (head x + 1 - tail x)) as [Hge|Hlt].
  - assert (Hd : head x - tail x = 511) by (unfold BUF_SIZE in *; lia).
    destruct (flush_run l f y b' out (n / 512 + 1) _ Hs' Hb' Hp') as (t & Hsink & Hfl);
      [exact Hm|cbn; unfold BUF_SIZE in *; lia| |].
    { cbn [sys]. replace (1 + (n / 512 + 1))%nat with ((Z.to_nat (head x - tail x) + (1 + n)) / 512 + 1)%nat; [exact Hk|].
      rewrite Hd. replace (Z.to_nat 511 + (1 + n))%nat with (n + 1 * 512)%nat by lia. rewrite Nat.div_add by lia. lia. }
    change (head y - tail y) with (head x + 1 - tail x) in *. replace (_ <=? 0) with false in Hfl by lia. eexists _, _. split; [exact Hfl|]. split; [lia|].
    exists (with_tail y (head y)), b', (out ++ take (Z.to_nat (head x - tail x)) b ++ [c]). split; [split; [apply Hs|done]|].
    split; [destruct Hb' as (H1 & H2 & H3 & H4 & H5 & H6 & H7); split_and!; try done; cbn in *; lia|]. split; [done|].
    cbn [tail head y with_tail with_head with_buf]. rewrite Z.sub_diag. split.
    { replace (head x + 1) with (tail x + 1 * BUF_SIZE) by (unfold BUF_SIZE; lia). rewrite Z.mod_add by (unfold BUF_SIZE; lia). exact Hm. }
    split; [unfold BUF_SIZE; lia|]. split; [lia|]. split; [by rewrite take_0, app_nil_r, app_assoc|].
    rewrite <- Hpend. exact Hsink.
  - eexists _, _. split; [reflexivity|]. split; [lia|]. exists y, b', out. split; [exact Hs'|]. split; [done|]. split; [done|]. split; [exact Hm|].
    change (head y - tail y) with (head x + 1 - tail x) in *. split; [lia|]. split; [cbn; lia|].
    split; [by rewrite Hpend, app_assoc|]. cbn [sys].
    replace (Z.to_nat (head x + 1 - tail x) + n)%nat with (Z.to_nat (head x - tail x) + (1 + n))%nat by lia. exact Hk.
Qed.

Lemma fputc_run l f w n c s : out_at l f w (1 + n) s -> exists s', fputc c f s = Ok (c, s') /\ out_at l f (w ++ [u8 c]) n s'.
Proof.
  intros Ho. destruct (put_char_run l f w n (u8 c) s Ho (u8_range c)) as (s1 & x & s2 & r & Hst & Hx & Hu & Hfl & Hr & Ho2).
  exists s2. split; [|done]. unfold fputc.
  assert (Hst' : store_char f c s = Ok (tt, s1)) by (rewrite <- Hst; unfold store_char; by rewrite (u8_small (u8 c)) by apply u8_range).
  rewrite (st_bind_eq _ _ _ _ _ Hst'), (st_bind_eq _ _ _ _ _ Hx), Hu, orb_false_r, (st_bind_eq _ _ _ _ _ Hfl).
  by replace (r <? 0) with false by lia.
Qed.
Lemma div_step i sz : 0 < sz -> (Z.of_nat (Datatypes.S i)) / sz = Z.of_nat i / sz + (if Z.of_nat (Datatypes.S i) mod sz =? 0 then 1 else 0).
Proof.
  intros Hz. pose proof (Z.div_mod (Z.of_nat i) sz ltac:(lia)) as H1. pose proof (Z.mod_pos_bound (Z.of_nat i) sz Hz) as B1.
  pose proof (Z.div_mod (Z.of_nat (Datatypes.S i)) sz ltac:(lia)) as H2. pose proof (Z.mod_pos_bound (Z.of_nat (Datatypes.S i)) sz Hz) as B2.
  destruct (Z.eqb_spec (Z.of_nat (Datatypes.S i) mod sz) 0) as [E|E]; nia.
Qed.
Lemma fwrite_loop_run l f m p i sz w n s : out_at l f w (m + n) s -> Forall is_byte p -> (i + m <= length p)%nat -> 0 < sz -> Z.of_nat (i + m) < 2 ^ 32 ->
  exists s', fwrite_loop m p i sz (Z.of_nat i / sz) f s = Ok (Z.of_nat (i + m) / sz, s') /\ out_at l f (w ++ take m (drop i p)) n s'.
Proof.
  revert i w s. induction m as [|m IH]; intros i w s Ho Hp Hl Hz Hm; cbn [fwrite_loop].
  - exists s. rewrite take_0, app_nil_r, Nat.add_0_r. done.
  - destruct (lookup_lt_is_Some_2 p i) as [c Hc]; [lia|]. assert (Hcb : 0 <= c < 256) by exact (Forall_lookup_1 _ _ _ _ Hp Hc).
    rewrite (st_bind_eq (lift _) _ s c s) by (unfold lift; by rewrite (proj2 (rd_Ok p i c) Hc)).
    destruct (put_char_run l f w (m + n) c s Ho Hcb) as (s1 & x & s2 & r & Hst & Hx & _ & Hfl & Hr & Ho2).
    rewrite (st_bind_eq _ _ _ _ _ Hst), (st_bind_eq _ _ _ _ _ Hx), (st_bind_eq _ _ _ _ _ Hfl). replace (r <? 0) with false by lia.
    destruct (IH (Datatypes.S i) (w ++ [c]) s2 Ho2 Hp ltac:(lia) Hz ltac:(lia)) as (s' & Hrun & Ho').
    exists s'. split.
    + rewrite Nat.add_succ_r. rewrite <- Nat.add_succ_l, <- Hrun. f_equal. rewrite div_step by done.
      assert (0 <= Z.of_nat i / sz <= Z.of_nat i) by (split; [apply Z.div_pos; lia|apply Z.div_le_upper_bound; nia]).
      destruct (_ =? 0); [rewrite u32_small by lia; lia|lia].
    + rewrite (drop_S _ _ _ Hc). cbn [take]. by rewrite <- app_assoc in Ho'.
Qed.
Lemma fputs_run l f t r w n s : out_at l f w (length t + n) s -> Forall (fun c => 0 < c < 128) t ->
  exists s', fputs (t ++ 0 :: r) f s = Ok (0, s') /\ out_at l f (w ++ t) n s'.
Proof.
  revert w s. induction t as [|c t IH]; intros w s Ho Ht; cbn [fputs app].
  - exists s. by rewrite app_nil_r.
  - apply Forall_cons in Ht as [Hc Ht]. replace (c =? 0) with false by lia. rewrite schar_ascii by lia.
    destruct (fputc_run l f w (length t + n) c s Ho) as (s1 & H1 & Ho1). rewrite (st_bind_eq _ _ _ _ _ H1). replace (c <? 0) with false by lia.
    rewrite u8_small in Ho1 by lia. destruct (IH _ _ Ho1 Ht) as (s' & H2 & Ho2). exists s'. split; [done|]. by rewrite <- app_assoc in Ho2.
Qed.
(** [fflush] hands everything over; with nothing to hand over it fails. *)
Lemma fflush_run l f w n s : out_at l f w n s ->
  exists r x t k, fflush (Some f) s = Ok (r, Io (Some (<[f := x]> l)) t) /\ (f < length l)%nat /\ sink w k t /\
    exists y, stream f s = Ok (y, s) /\
      ((r = 0 /\ tail y < head y /\ has x F_ERR = false) \/ (r = -1 /\ tail y = head y /\ has x F_ERR = true)).
Proof.
  intros (x & b & out & Hs & Hb & Hp & Hm & Hn & Hh & -> & Hk). rewrite Nat.add_1_r in Hk. change (Datatypes.S ?k) with (1 + k)%nat in Hk.
  destruct (flush_run l f x b out _ s Hs Hb Hp Hm ltac:(lia) Hk) as (t & Hsink & Hfl).
  unfold fflush, fflush_one. rewrite (st_bind_eq _ _ _ _ _ (stream_run _ _ _ _ Hs)).
  replace (has x O_RDONLY) with false by (unfold has, O_RDONLY; by rewrite Z.land_0_r).
  pose proof Hb as (_ & _ & _ & _ & _ & Ht & _). pose proof Hs as [Hlt _].
  destruct (Z.leb_spec (head x - tail x) 0).
  - rewrite (st_bind_eq _ _ _ _ _ Hfl). eexists _, _, t, _. split; [reflexivity|]. split; [done|]. split; [exact Hsink|]. exists x. split; [by apply (stream_run l)|]. right. split; [done|]. split; [lia|].
    unfold has. cbn [flags with_flags]. rewrite Z.land_lor_distr_l. change (Z.land F_ERR F_ERR) with 32.
    apply negb_true_iff, Z.eqb_neq. intros E. apply Z.lor_eq_0_iff in E. lia.
  - rewrite (st_bind_eq _ _ _ _ _ Hfl). replace (_ <? 0) with false by lia. eexists _, _, t, _. split; [reflexivity|]. split; [done|]. split; [exact Hsink|].
    exists x. split; [by apply (stream_run l)|]. left. split; [done|]. split; [lia|]. destruct Hp as [_ Hp]. unfold has in *. cbn [flags with_tail]. apply negb_false_iff, Z.eqb_eq in Hp. apply negb_false_iff, Z.eqb_eq.
    rewrite !Z.land_lor_distr_r in Hp. apply Z.lor_eq_0_iff in Hp as [_ Hp]. by apply Z.lor_eq_0_iff in Hp as [Hp _].
Qed.

(** The calls of a program on an output stream. *)
Inductive wop := WPut (c : Z) | WPuts (t r : list Z) | WWrite (p : list Z) (sz nmemb : Z).
Definition wop_bytes (o : wop) : list Z :=
  match o with WPut c => [u8 c] | WPuts t _ => t | WWrite p sz nmemb => take (Z.to_nat (nmemb * sz)) p end.
Definition wop_ok (o : wop) : Prop :=
  match o with
  | WPut _ => True
  | WPuts t _ => Forall (fun c => 0 < c < 128) t
  | WWrite p sz nmemb => Forall is_byte p /\ 0 < sz /\ 0 <= nmemb /\ nmemb * sz < 2 ^ 32 /\ nmemb * sz <= Z.of_nat (length p)
  end.
Definition wop_result (o : wop) : Z := match o with WPut c => c | WPuts _ _ => 0 | WWrite _ _ nmemb => nmemb end.
Definition exec_wop (o : wop) (f : nat) : st io Z :=
  match o with WPut c => fputc c f | WPuts t r => fputs (t ++ 0 :: r) f | WWrite p sz nmemb => fwrite p sz nmemb f end.
Fixpoint exec_wops (l : list wop) (f : nat) : st io (list Z) :=
  match l with [] => mret [] | o :: l => r ← exec_wop o f; rs ← exec_wops l f; mret (r :: rs) end.
Definition wops_bytes (l : list wop) : list Z := l ≫= wop_bytes.

Lemma exec_wop_run l f o w n s : out_at l f w (length (wop_bytes o) + n) s -> wop_ok o ->
  exists s', exec_wop o f s = Ok (wop_result o, s') /\ out_at l f (w ++ wop_bytes o) n s'.
Proof.
  destruct o as [c|t r|p sz nmemb]; cbn [wop_bytes wop_ok wop_result exec_wop]; intros Ho Hok.
  - by apply fputc_run.
  - by apply fputs_run.
  - destruct Hok as (Hp & Hz & Hn0 & Hov & Hl). rewrite length_take, Nat.min_l in Ho by lia.
    destruct (fwrite_loop_run l f (Z.to_nat (nmemb * sz)) p 0 sz w n s Ho Hp ltac:(lia) Hz ltac:(lia)) as (s' & Hr & Ho').
    exists s'. split; [|done]. unfold fwrite. rewrite u32_small by lia. rewrite Z.div_0_l in Hr by lia. rewrite Hr.
    do 2 f_equal. rewrite Nat.add_0_l, Z2Nat.id by lia. by apply Z.div_mul; lia.
Qed.

Lemma exec_wops_run l f ops w n s : out_at l f w (length (wops_bytes ops) + n) s -> Forall wop_ok ops ->
  exists s', exec_wops ops f s = Ok (wop_result <$> ops, s') /\ out_at l f (w ++ wops_bytes ops) n s'.
Proof.
  revert w s. induction ops as [|o ops IH]; intros w s Ho Hok; [exists s; by rewrite app_nil_r|].
  apply Forall_cons in Hok as [Hok Hoks]. cbn [wops_bytes mbind list_bind] in *. rewrite length_app, <- Nat.add_assoc in Ho.
  destruct (exec_wop_run l f o w _ s Ho Hok) as (s1 & H1 & Ho1). destruct (IH _ _ Ho1 Hoks) as (s' & H2 & Ho2).
  exists s'. cbn [exec_wops fmap list_fmap]. rewrite (st_bind_eq _ _ _ _ _ H1), (st_bind_eq _ _ _ _ _ H2). by rewrite app_assoc.
Qed.

End Spec.

(** ** Input *)
Section Input.
Context {S : Type} `{!Unix S}.
Notation io := (io S).
Context (d : Z) (source : list Z -> S -> Prop) (HS : Source d source).

(** The bytes [r] are still to come from stream [f]: those of the buffer, which
    lie before its end, and those of the descriptor. *)
Definition in_at (l : list FILE) (f : nat) (r : list Z) (s : io) : Prop :=
  exists x b r1, at_slot l f x s /\ buffered x b d /\ has x (Z.lor F_ERR F_WRONLY) = false /\
    tail x mod BUF_SIZE + (head x - tail x) <= BUF_SIZE /\ head x + Z.of_nat (length r1) < 2 ^ 31 /\
    r = take (Z.to_nat (head x - tail x)) (drop (Z.to_nat (tail x mod BUF_SIZE)) b) ++ r1 /\ (has x F_EOF = true -> r1 = []) /\
    source r1 (sys s).

Lemma has_lor x a b : has x (Z.lor a b) = (has x a || has x b)%bool.
Proof.
  unfold has. rewrite Z.land_lor_distr_r. destruct (Z.eqb_spec (Z.lor (Z.land (flags x) a) (Z.land (flags x) b)) 0) as [E|E].
  - apply Z.lor_eq_0_iff in E as [-> ->]. done.
  - destruct (Z.eqb_spec (Z.land (flags x) a) 0) as [Ea|]; [|done]. destruct (Z.eqb_spec (Z.land (flags x) b) 0) as [Eb|]; [|done].
    rewrite Ea, Eb in E. done.
Qed.
Lemma has_set x a b : has (with_flags x (Z.lor (flags x) a)) b = (has x b || negb (Z.land a b =? 0))%bool.
Proof.
  unfold has. cbn [flags with_flags]. rewrite Z.land_lor_distr_l.
  destruct (Z.eqb_spec (Z.lor (Z.land (flags x) b) (Z.land a b)) 0) as [E|E].
  - apply Z.lor_eq_0_iff in E as [-> ->]. done.
  - destruct (Z.eqb_spec (Z.land (flags x) b) 0) as [Ea|]; [|done]. destruct (Z.eqb_spec (Z.land a b) 0) as [Eb|]; [|done].
    rewrite Ea, Eb in E. done.
Qed.

Lemma Forall_splice (P : Z -> Prop) b i v : Forall P b -> Forall P v -> Forall P (splice b i v).
Proof. intros Hb Hv. unfold splice. rewrite !Forall_app. split_and!; [by apply Forall_take|done|by apply Forall_drop]. Qed.

(** [_fill_buf] on a stream whose buffer is empty. *)
Lemma fill_buf_run l f x b r s : at_slot l f x s -> buffered x b d -> has x (Z.lor F_ERR F_WRONLY) = false -> has x F_EOF = false ->
  tail x = head x -> head x + Z.of_nat (length r) < 2 ^ 31 -> source r (sys s) ->
  exists n s1, _fill_buf f s = Ok (n, s1) /\ in_at l f r s1 /\ (n < 0 <-> r = []) /\
    (r <> [] -> exists y, stream f s1 = Ok (y, s1) /\ tail y < head y).
Proof.
  intros Hs Hb Hp He Heq Hh Hr. pose proof Hb as (Hbuf & Hl & Hsz & Hfd & Hby & Ht & Hh2). set (i := head x mod BUF_SIZE).
  assert (Hi : 0 <= i < BUF_SIZE) by (apply Z.mod_pos_bound; unfold BUF_SIZE; lia).
  destruct (source_read _ _ HS r (sys s) (BUF_SIZE - i) Hr ltac:(lia)) as (v & r' & t & Hrd & -> & Hlv & Hv & Hr').
  pose proof (source_bytes _ _ HS _ _ Hr) as Hbr. apply Forall_app in Hbr as [Hbv _].
  assert (Hrun : forall K : Z * list Z -> st io Z, (v ← call (uread (fd x) (u32 (size x - Z.of_nat (Z.to_nat i)))); K v) s =
    K (Z.of_nat (length v), v) (Io (iob s) t)).
  { intros K. rewrite Hsz, Hfd, Z2Nat.id, u32_small by (unfold BUF_SIZE in *; lia). by rewrite (st_bind_eq _ _ _ _ _ (call_run _ _ _ _ Hrd)). }
  assert (Hs2 : at_slot l f x (Io (iob s) t)) by exact Hs. pose proof Hs as [Hf _].
  unfold _fill_buf. rewrite (st_bind_eq _ _ _ _ _ (stream_run _ _ _ _ Hs)), has_lor, He, Hp, Hbuf. unfold buffer. rewrite Hbuf.
  rewrite bool_decide_eq_true_2 by done. unfold kassert. cbn [orb]. rewrite !(st_bind_eq (mret _) _ s _ s) by done.
  rewrite (st_bind_eq (lift _) _ s (Z.to_nat i) s) by (unfold lift; rewrite (rel_run x b d) by (done || lia); done). rewrite Hrun.
  destruct (Z.leb_spec (Z.of_nat (length v)) 0) as [Hz|Hpos].
  - destruct v; [|cbn in Hz; lia]. specialize (Hv eq_refl). cbn [app] in *. subst r'. cbn [length Z.of_nat Z.eqb].
    rewrite (st_bind_eq _ _ _ _ _ (set_stream_run _ _ _ _ _ Hs2)). do 2 eexists. split; [reflexivity|]. split; [|split; [done|done]].
    exists (with_flags x (Z.lor (flags x) F_EOF)), b, []. split; [done|]. split; [done|].
    split; [rewrite has_lor, !has_set; rewrite has_lor in Hp; apply orb_false_elim in Hp as [-> ->]; done|].
    cbn [tail head with_flags]. rewrite Heq, Z.sub_diag. split; [fold i; lia|]. split; [cbn; lia|]. done.
  - assert (Hvn : v <> []) by (intros ->; cbn in Hpos; lia). rewrite length_app in Hh.
    assert (Hw : wr_block b (Z.to_nat i) v = Ok (splice b (Z.to_nat i) v)).
    { unfold wr_block. rewrite decide_True; [done|]. rewrite Hl. unfold BUF_SIZE in *. lia. }
    rewrite Hw. rewrite (st_bind_eq (lift _) _ (Io (iob s) t) (splice b (Z.to_nat i) v) (Io (iob s) t)) by done.
    rewrite (st_bind_eq _ _ _ _ _ (set_stream_run _ _ _ _ _ Hs2)), s32_small by lia. do 2 eexists. split; [reflexivity|].
    set (y := with_head _ _). split; [|split; [split; [lia|intros E; apply app_nil in E as [? _]; done]|]].
    + exists y, (splice b (Z.to_nat i) v), r'. split; [done|]. unfold buffered. cbn [buf size fd tail head y with_head with_buf].
      split; [split_and!; try done; try lia; [rewrite length_splice; [done|rewrite Hl; unfold BUF_SIZE in *; lia]|by apply Forall_splice]|].
      split; [exact Hp|]. rewrite Heq. fold i. split; [lia|]. split; [lia|]. split; [|split; [|exact Hr']].
      * replace (head x + Z.of_nat (length v) - head x) with (Z.of_nat (length v)) by lia. rewrite Nat2Z.id, splice_read; [done|].
        rewrite Hl. unfold BUF_SIZE in *. lia.
      * change (has y F_EOF) with (has x F_EOF). by rewrite He.
    + intros _. exists y. split; [by apply (stream_run l)|]. cbn. lia.
Qed.

(** Before the next byte is taken: it is in the buffer, or there is none. *)
Lemma ready_run l f r s : in_at l f r s ->
  exists x n s1, stream f s = Ok (x, s) /\ (if IOB_EMPTY x then _fill_buf f else mret 0) s = Ok (n, s1) /\ in_at l f r s1 /\
    (n < 0 <-> r = []) /\ (r <> [] -> exists y, stream f s1 = Ok (y, s1) /\ tail y < head y).
Proof.
  intros Hin. pose proof Hin as (x & b & r1 & Hs & Hb & Hp & Hm & Hh & Hr & He & Hsrc). pose proof Hb as (Hbuf & Hl & Hsz & Hfd & Hby & Ht & Hh2).
  exists x. pose proof (Z.mod_pos_bound (tail x) BUF_SIZE ltac:(unfold BUF_SIZE; lia)) as Hi. unfold IOB_EMPTY.
  destruct (Z.eqb_spec (tail x) (head x)) as [Heq|Hne].
  - rewrite Heq, Z.sub_diag, take_0 in Hr. cbn [app] in Hr. subst r1. destruct (has x F_EOF) eqn:Ee.
    + exists (-1), s. specialize (He eq_refl). subst r. split; [by apply (stream_run l)|]. split; [|split; [done|split; [done|done]]].
      unfold _fill_buf. rewrite (st_bind_eq _ _ _ _ _ (stream_run _ _ _ _ Hs)), has_lor, Ee. done.
    + destruct (fill_buf_run l f x b r s Hs Hb Hp Ee Heq Hh Hsrc) as (n & s1 & H1 & H2 & H3 & H4).
      exists n, s1. split; [by apply (stream_run l)|]. done.
  - exists 0, s. split; [by apply (stream_run l)|]. split; [done|]. split; [done|]. split; [|intros _; exists x; split; [by apply (stream_run l)|lia]].
    split; [lia|]. intros ->. symmetry in Hr. apply app_nil in Hr as [Hr _]. apply (f_equal length) in Hr. rewrite length_take, length_drop, Hl in Hr.
    cbn in Hr. unfold BUF_SIZE in *. lia.
Qed.
Lemma mod_succ p : 0 <= p -> (p + 1) mod BUF_SIZE = if p mod BUF_SIZE =? BUF_SIZE - 1 then 0 else p mod BUF_SIZE + 1.
Proof.
  intros Hp. pose proof (Z.mod_pos_bound p BUF_SIZE ltac:(unfold BUF_SIZE; lia)) as B. rewrite (Z.div_mod p BUF_SIZE) at 1 by (unfold BUF_SIZE; lia).
  rewrite <- Z.add_assoc, Z.add_comm, (Z.mul_comm BUF_SIZE), Z.mod_add by (unfold BUF_SIZE; lia).
  destruct (Z.eqb_spec (p mod BUF_SIZE) (BUF_SIZE - 1)) as [->|E]; [reflexivity|]. apply Z.mod_small. lia.
Qed.
Lemma take_run l f x c r s : in_at l f (c :: r) s -> stream f s = Ok (x, s) -> tail x < head x ->
  exists s', take_char f s = Ok (c, s') /\ in_at l f r s' /\ 0 <= c < 256.
Proof.
  intros (x' & b & r1 & Hs & Hb & Hp & Hm & Hh & Hr & He & Hsrc) Hx Hlt. rewrite (stream_run _ _ _ _ Hs) in Hx. simplify_eq.
  pose proof Hb as (Hbuf & Hl & Hsz & Hfd & Hby & Ht & Hh2). set (t := tail x mod BUF_SIZE) in *.
  assert (Hti : 0 <= t < BUF_SIZE) by (apply Z.mod_pos_bound; unfold BUF_SIZE; lia).
  assert (HB : Z.to_nat BUF_SIZE = 512%nat) by reflexivity. rewrite HB in Hl.
  destruct (lookup_lt_is_Some_2 b (Z.to_nat t)) as [c' Hc]; [unfold BUF_SIZE in *; lia|].
  replace (Z.to_nat (head x - tail x)) with (Datatypes.S (Z.to_nat (head x - (tail x + 1)))) in Hr by lia.
  rewrite (drop_S _ _ _ Hc) in Hr. cbn [take app] in Hr. injection Hr as -> Hr.
  unfold take_char. rewrite (st_bind_eq _ _ _ _ _ (stream_run _ _ _ _ Hs)). unfold buffer. rewrite Hbuf.
  rewrite (st_bind_eq (mret _) _ s _ s) by done. rewrite (st_bind_eq (lift _) _ s (Z.to_nat t) s) by (unfold lift; rewrite (rel_run x b d) by (done || lia); done).
  rewrite (st_bind_eq (lift _) _ s c' s) by (unfold lift; by rewrite (proj2 (rd_Ok b _ c') Hc)).
  rewrite (st_bind_eq _ _ _ _ _ (set_stream_run _ _ _ _ _ Hs)), s32_small by lia. eexists. split; [reflexivity|]. split; [|by apply (Forall_lookup_1 _ _ _ _ Hby Hc)].
  exists (with_tail x (tail x + 1)), b, r1. split; [split; [apply Hs|done]|]. split; [split_and!; try done; cbn in *; lia|]. split; [exact Hp|].
  cbn [tail head with_tail]. rewrite mod_succ by lia. fold t. rewrite Hr.
  destruct (Z.eqb_spec t (BUF_SIZE - 1)) as [E|E].
  - replace (head x - (tail x + 1)) with 0 by lia. rewrite take_0. split; [unfold BUF_SIZE; lia|]. split; [lia|]. done.
  - replace (Z.to_nat (t + 1)) with (Datatypes.S (Z.to_nat t)) by lia. split; [lia|]. split; [lia|]. done.
Qed.

Lemma fgetc_run l f r s : in_at l f r s ->
  exists s', fgetc f s = Ok (match r with c :: _ => schar c | [] => EOF end, s') /\ in_at l f (drop 1 r) s'.
Proof.
  intros Hin. destruct (ready_run l f r s Hin) as (x & n & s1 & Hx & Hn & Hin1 & Hiff & Hne). unfold fgetc.
  rewrite (st_bind_eq _ _ _ _ _ Hx), (st_bind_eq _ _ _ _ _ Hn). destruct r as [|c r].
  - replace (n <? 0) with true by (symmetry; apply Z.ltb_lt; by apply Hiff). by exists s1.
  - assert (~ n < 0) by (intros H; by apply Hiff in H). replace (n <? 0) with false by lia.
    destruct Hne as (y & Hy & Hlt); [done|]. destruct (take_run l f y c r s1 Hin1 Hy Hlt) as (s2 & H2 & Hin2 & _).
    rewrite (st_bind_eq _ _ _ _ _ H2). by exists s2.
Qed.
(** [fread_loop] with [m] bytes to go. *)
Lemma fread_loop_run l f m p i sz r s : in_at l f r s -> (i + m <= length p)%nat -> 0 < sz -> Z.of_nat (i + m) < 2 ^ 32 ->
  exists s', fread_loop m p i sz (Z.of_nat i / sz) f s =
      Ok ((splice p i (take m r), Z.of_nat (i + Nat.min m (length r)) / sz), s') /\ in_at l f (drop m r) s'.
Proof.
  revert p i r s. induction m as [|m IH]; intros p i r s Hin Hl Hz Hm; cbn [fread_loop].
  - exists s. rewrite take_0, splice_nil, Nat.add_0_r. done.
  - destruct (ready_run l f r s Hin) as (x & n & s1 & Hx & Hn & Hin1 & Hiff & Hne).
    rewrite (st_bind_eq _ _ _ _ _ Hx), (st_bind_eq _ _ _ _ _ Hn). destruct r as [|c r].
    + replace (n <? 0) with true by (symmetry; apply Z.ltb_lt; by apply Hiff). exists s1. cbn [take drop length Nat.min].
      by rewrite splice_nil, Nat.add_0_r.
    + assert (~ n < 0) by (intros H; by apply Hiff in H). replace (n <? 0) with false by lia.
      destruct Hne as (y & Hy & Hlt); [done|]. destruct (take_run l f y c r s1 Hin1 Hy Hlt) as (s2 & H2 & Hin2 & Hc).
      rewrite (st_bind_eq _ _ _ _ _ H2). rewrite (st_bind_eq (lift _) _ s2 (<[i := c]> p) s2) by (unfold lift; by rewrite wr_in by lia).
      destruct (IH (<[i := c]> p) (Datatypes.S i) r s2 Hin2) as (s' & Hrun & Hin'); [rewrite length_insert; lia|done|lia|].
      exists s'. split; [|exact Hin']. cbn [take length Nat.min]. rewrite <- splice_cons by (rewrite length_take; lia).
      rewrite Nat.add_succ_r, <- Nat.add_succ_l, <- Hrun. f_equal. rewrite div_step by done.
      assert (0 <= Z.of_nat i / sz <= Z.of_nat i) by (split; [apply Z.div_pos; lia|apply Z.div_le_upper_bound; nia]).
      destruct (_ =? 0); [rewrite u32_small by lia; lia|lia].
Qed.

(** The calls of a program on an input stream, their results and what they take. *)
Inductive rop := RGet | RRead (p : list Z) (sz nmemb : Z).
Inductive rres := RChar (c : Z) | RItems (p : list Z) (n : Z).
Definition rop_len (o : rop) : nat := match o with RGet => 1 | RRead _ sz nmemb => Z.to_nat (nmemb * sz) end.
Definition rop_ok (o : rop) : Prop :=
  match o with RGet => True | RRead p sz nmemb => 0 < sz /\ 0 <= nmemb /\ nmemb * sz < 2 ^ 32 /\ nmemb * sz <= Z.of_nat (length p) end.
Definition rop_result (o : rop) (r : list Z) : rres :=
  match o with
  | RGet => RChar (match r with c :: _ => schar c | [] => EOF end)
  | RRead p sz nmemb => RItems (splice p 0 (take (rop_len o) r)) (Z.min nmemb (Z.of_nat (length r) / sz))
  end.
Definition exec_rop (o : rop) (f : nat) : st io rres :=
  match o with RGet => c ← fgetc f; mret (RChar c) | RRead p sz nmemb => '(q, n) ← fread p sz nmemb f; mret (RItems q n) end.
Fixpoint exec_rops (l : list rop) (f : nat) : st io (list rres) :=
  match l with [] => mret [] | o :: l => r ← exec_rop o f; rs ← exec_rops l f; mret (r :: rs) end.
Fixpoint rops_results (l : list rop) (r : list Z) : list rres :=
  match l with [] => [] | o :: l => rop_result o r :: rops_results l (drop (rop_len o) r) end.
Definition rops_len (l : list rop) : nat := list_sum (rop_len <$> l).

Lemma min_div a b sz : 0 < sz -> 0 <= a -> 0 <= b -> Z.min (a * sz) b / sz = Z.min a (b / sz).
Proof.
  intros Hz Ha Hb. destruct (Z.min_spec (a * sz) b) as [[H ->]|[H ->]].
  - rewrite Z.div_mul by lia. rewrite Z.min_l; [done|]. apply Z.div_le_lower_bound; lia.
  - rewrite Z.min_r; [done|]. apply Z.div_le_upper_bound; lia.
Qed.
Lemma exec_rop_run l f o r s : in_at l f r s -> rop_ok o ->
  exists s', exec_rop o f s = Ok (rop_result o r, s') /\ in_at l f (drop (rop_len o) r) s'.
Proof.
  destruct o as [|p sz nmemb]; cbn [rop_ok rop_result exec_rop rop_len]; intros Hin Hok.
  - destruct (fgetc_run l f r s Hin) as (s' & H1 & Hin'). exists s'. by rewrite (st_bind_eq _ _ _ _ _ H1).
  - destruct Hok as (Hz & Hn0 & Hov & Hl).
    destruct (fread_loop_run l f (Z.to_nat (nmemb * sz)) p 0 sz r s Hin ltac:(lia) Hz ltac:(lia)) as (s' & Hr & Hin').
    exists s'. split; [|done]. unfold fread. rewrite u32_small by lia. rewrite Z.div_0_l in Hr by lia. rewrite (st_bind_eq _ _ _ _ _ Hr).
    rewrite Nat.add_0_l, Nat2Z.inj_min, Z2Nat.id, min_div by lia. done.
Qed.
Lemma exec_rops_run l f ops r s : in_at l f r s -> Forall rop_ok ops ->
  exists s', exec_rops ops f s = Ok (rops_results ops r, s') /\ in_at l f (drop (rops_len ops) r) s'.
Proof.
  revert r s. induction ops as [|o ops IH]; intros r s Hin Hok; [by exists s|].
  apply Forall_cons in Hok as [Hok Hoks]. destruct (exec_rop_run l f o r s Hin Hok) as (s1 & H1 & Hin1).
  destruct (IH _ _ Hin1 Hoks) as (s' & H2 & Hin2). exists s'. cbn [exec_rops rops_results].
  rewrite (st_bind_eq _ _ _ _ _ H1), (st_bind_eq _ _ _ _ _ H2). split; [done|]. by rewrite drop_drop in Hin2.
Qed.

(** C17: an input stream returns the bytes of its descriptor.  Any sequence of
    [fgetc] and [fread] calls terminates and returns, in order and with none lost
    or repeated, the bytes that the descriptor has left, however many of them
    each system call delivers: [fgetc] the next one as a [char], [fread] as many
    whole items as there are, stored in order from the start of the object; at
    the end of the input they return [EOF] and the items so far.  What was not
    taken is still to come. *)
Theorem stream_reads l f ops r s : in_at l f r s -> Forall rop_ok ops ->
  exists s', exec_rops ops f s = Ok (rops_results ops r, s') /\ in_at l f (drop (rops_len ops) r) s'.
Proof. apply exec_rops_run. Qed.
End Input.

(** ** Errors *)
Section Errors.
Context {S : Type} `{!Unix S}.
Notation io := (io S).
Context (d g : Z) (Hg : g = F_EOF \/ g = F_ERR).

(** Stream [f] carries the mark [g]; [n] more bytes may be stored. *)
Definition stuck_at (l : list FILE) (f n : nat) (s : io) : Prop :=
  exists x b, at_slot l f x s /\ buffered x b d /\ has x g = true /\ head x + Z.of_nat n < 2 ^ 31.
Lemma stuck_le l f n m s : (n <= m)%nat -> stuck_at l f m s -> stuck_at l f n s.
Proof. intros H (x & b & H1 & H2 & H3 & H4). exists x, b. split_and!; try done. lia. Qed.
Lemma has_mark x a : has x g = true -> has x (Z.lor F_EOF (Z.lor F_ERR a)) = true.
Proof. intros H. rewrite !has_lor. destruct Hg as [-> | ->]; rewrite H; by rewrite ?orb_true_r. Qed.

Lemma fill_stuck l f n s : stuck_at l f n s -> _fill_buf f s = Ok (EOF, s).
Proof. intros (x & b & Hs & _ & Hx & _). unfold _fill_buf. by rewrite (st_bind_eq _ _ _ _ _ (stream_run _ _ _ _ Hs)), has_mark. Qed.
Lemma flush_stuck l f n s : stuck_at l f n s -> _flush_buf f s = Ok (EOF, s).
Proof. intros (x & b & Hs & _ & Hx & _). unfold _flush_buf. by rewrite (st_bind_eq _ _ _ _ _ (stream_run _ _ _ _ Hs)), has_mark. Qed.
Lemma flush_if_stuck l f n s (c : bool) : stuck_at l f n s ->
  (if c then _flush_buf f else mret 0) s = Ok (if c then EOF else 0, s).
Proof. intros H. destruct c; [by apply (flush_stuck l f n)|done]. Qed.
Lemma store_stuck l f n c s : stuck_at l f (1 + n) s -> 0 <= c < 256 ->
  exists x s1, store_char f c s = Ok (tt, s1) /\ stream f s1 = Ok (x, s1) /\ stuck_at l f n s1 /\ sys s1 = sys s.
Proof.
  intros (x & b & Hs & Hb & Hx & Hn) Hc. destruct (store_run d l f x b c s Hs Hb ltac:(lia) Hc) as [Hst Hb'].
  pose proof Hs as [Hf _]. eexists _, _. split; [exact Hst|]. split; [by apply (stream_run l)|]. split; [|done].
  eexists _, _. split; [by apply at_slot_new|]. split; [exact Hb'|]. split; [exact Hx|cbn; lia].
Qed.
Lemma take_stuck l f n s x : stuck_at l f n s -> stream f s = Ok (x, s) -> IOB_EMPTY x = false ->
  exists c s', take_char f s = Ok (c, s') /\ stuck_at l f n s' /\ sys s' = sys s.
Proof.
  intros (x' & b & Hs & Hb & Hx & Hn) Hst He. rewrite (stream_run _ _ _ _ Hs) in Hst. simplify_eq. apply Z.eqb_neq in He.
  pose proof Hb as (Hbuf & Hl & Hsz & Hfd & Hby & Ht & Hh2). pose proof Hs as [Hf _]. pose proof (rel_lt (tail x)) as Hi.
  destruct (lookup_lt_is_Some_2 b (Z.to_nat (tail x mod BUF_SIZE))) as [c Hc]; [lia|].
  unfold take_char. rewrite (st_bind_eq _ _ _ _ _ (stream_run _ _ _ _ Hs)). unfold buffer. rewrite Hbuf. rewrite (st_bind_eq (mret _) _ s _ s) by done.
  rewrite (st_bind_eq (lift _) _ s (Z.to_nat (tail x mod BUF_SIZE)) s) by (unfold lift; by rewrite (rel_run x b d _ Hb) by lia).
  rewrite (st_bind_eq (lift _) _ s c s) by (unfold lift; by rewrite (proj2 (rd_Ok b _ c) Hc)).
  rewrite (st_bind_eq _ _ _ _ _ (set_stream_run _ _ _ _ _ Hs)), s32_small by lia. eexists _, _. split; [reflexivity|]. split; [|done].
  eexists _, b. split; [by apply at_slot_new|]. split; [split_and!; try done; cbn; lia|]. split; [exact Hx|exact Hn].
Qed.
Lemma fill_if_stuck l f n s x : stuck_at l f n s -> (if IOB_EMPTY x then _fill_buf f else mret 0) s = Ok (if IOB_EMPTY x then EOF else 0, s).
Proof. intros H. destruct (IOB_EMPTY x); [by apply (fill_stuck l f n)|done]. Qed.
Lemma stuck_stream l f n s : stuck_at l f n s -> exists x, stream f s = Ok (x, s) /\ has x g = true.
Proof. intros (x & b & Hs & _ & Hx & _). exists x. split; [by apply (stream_run l)|done]. Qed.

(** A call that returns without a call of the system. *)
Definition quiet {A} (l : list FILE) (f k n : nat) (m : st io A) : Prop :=
  forall s, stuck_at l f (k + n) s -> exists a s', m s = Ok (a, s') /\ stuck_at l f n s' /\ sys s' = sys s.
Lemma fgetc_quiet l f n : quiet l f 0 n (fgetc f).
Proof.
  intros s Hs. destruct (stuck_stream _ _ _ _ Hs) as (x & Hx & _). unfold fgetc.
  rewrite (st_bind_eq _ _ _ _ _ Hx), (st_bind_eq _ _ _ _ _ (fill_if_stuck _ _ _ _ x Hs)). destruct (IOB_EMPTY x) eqn:E.
  - by exists EOF, s.
  - destruct (take_stuck l f _ s x Hs Hx E) as (c & s' & Ht & Hs' & Hsy). cbn [Z.ltb Z.compare]. rewrite (st_bind_eq _ _ _ _ _ Ht). by exists (schar c), s'.
Qed.
Lemma fread_loop_quiet l f n m p i sz j : (i + m <= length p)%nat -> quiet l f 0 n (fread_loop m p i sz j f).
Proof.
  revert p i j. induction m as [|m IH]; intros p i j Hl s Hs; cbn [fread_loop]; [by exists (p, j), s|].
  destruct (stuck_stream _ _ _ _ Hs) as (x & Hx & _).
  rewrite (st_bind_eq _ _ _ _ _ Hx), (st_bind_eq _ _ _ _ _ (fill_if_stuck _ _ _ _ x Hs)). destruct (IOB_EMPTY x) eqn:E; [by exists (p, j), s|].
  destruct (take_stuck l f _ s x Hs Hx E) as (c & s1 & Ht & Hs1 & Hsy). cbn [Z.ltb Z.compare]. rewrite (st_bind_eq _ _ _ _ _ Ht).
  rewrite (st_bind_eq (lift _) _ s1 (<[i := c]> p) s1) by (unfold lift; by rewrite wr_in by lia). rewrite <- Hsy.
  apply IH; [rewrite length_insert; lia|done].
Qed.
Lemma fputc_quiet l f n c : quiet l f 1 n (fputc c f).
Proof.
  intros s Hs. destruct (store_stuck l f n (u8 c) s Hs (u8_range c)) as (x & s1 & Hst & Hx & Hs1 & Hsy).
  assert (Hst' : store_char f c s = Ok (tt, s1)) by (rewrite <- Hst; unfold store_char; by rewrite (u8_small (u8 c)) by apply u8_range).
  unfold fputc. rewrite (st_bind_eq _ _ _ _ _ Hst'), (st_bind_eq _ _ _ _ _ Hx), (st_bind_eq _ _ _ _ _ (flush_if_stuck _ _ _ _ _ Hs1)).
  destruct (_ || _)%bool; eexists _, s1; (split; [reflexivity|done]).
Qed.
Lemma fputs_quiet l f n t r : quiet l f (length t) n (fputs (t ++ 0 :: r) f).
Proof.
  induction t as [|c t IH]; intros s Hs; cbn [fputs app]; [by exists 0, s|].
  destruct (c =? 0); [exists 0, s; split; [done|]; split; [eapply stuck_le; [|exact Hs]; cbn [length]; lia|done]|].
  destruct (fputc_quiet l f (length t + n) (schar c) s Hs) as (a & s1 & H1 & Hs1 & Hsy). rewrite (st_bind_eq _ _ _ _ _ H1).
  destruct (a <? 0); [|rewrite <- Hsy; by apply IH]. exists EOF, s1. split; [done|]. split; [eapply stuck_le; [|exact Hs1]; cbn [length]; lia|done].
Qed.
Lemma fwrite_loop_quiet l f n m p i sz j : (i + m <= length p)%nat -> Forall is_byte p -> quiet l f m n (fwrite_loop m p i sz j f).
Proof.
  revert i j. induction m as [|m IH]; intros i j Hl Hp s Hs; cbn [fwrite_loop]; [by exists j, s|].
  destruct (lookup_lt_is_Some_2 p i) as [c Hc]; [lia|]. assert (Hcb : 0 <= c < 256) by exact (Forall_lookup_1 _ _ _ _ Hp Hc).
  rewrite (st_bind_eq (lift _) _ s c s) by (unfold lift; by rewrite (proj2 (rd_Ok p i c) Hc)).
  destruct (store_stuck l f (m + n) c s Hs Hcb) as (x & s1 & Hst & Hx & Hs1 & Hsy).
  rewrite (st_bind_eq _ _ _ _ _ Hst), (st_bind_eq _ _ _ _ _ Hx), (st_bind_eq _ _ _ _ _ (flush_if_stuck _ _ _ _ _ Hs1)). rewrite <- Hsy.
  destruct (IOB_FULL x); [|by apply IH; [lia|..]]. exists j, s1. split; [done|]. split; [eapply stuck_le; [|exact Hs1]; cbn [length]; lia|done].
Qed.

(** Any call on one stream. *)
Inductive sop := SIn (o : rop) | SOut (o : wop) | SFlush.
Definition sop_ok (o : sop) : Prop :=
  match o with
  | SIn o => rop_ok o
  | SOut (WWrite p sz nmemb) => Forall is_byte p /\ 0 < sz /\ 0 <= nmemb /\ nmemb * sz < 2 ^ 32 /\ nmemb * sz <= Z.of_nat (length p)
  | _ => True
  end.
Definition sop_len (o : sop) : nat := match o with SOut o => length (wop_bytes o) | _ => 0 end.
Definition exec_sop (o : sop) (f : nat) : st io unit :=
  match o with SIn o => exec_rop o f;; mret tt | SOut o => exec_wop o f;; mret tt | SFlush => fflush (Some f);; mret tt end.
Fixpoint exec_sops (l : list sop) (f : nat) : st io unit := match l with [] => mret tt | o :: l => exec_sop o f;; exec_sops l f end.

Lemma quiet_call_bind {A B} l f k n (m : st io A) (K : A -> B) : quiet l f k n m -> quiet l f k n (a ← m; mret (K a)).
Proof. intros H s Hs. destruct (H s Hs) as (a & s' & H1 & H2). exists (K a), s'. by rewrite (st_bind_eq _ _ _ _ _ H1). Qed.
Lemma exec_sop_quiet l f n o : sop_ok o -> quiet l f (sop_len o) n (exec_sop o f).
Proof.
  destruct o as [[|p sz nmemb]|[c|t r|p sz nmemb]|]; cbn [sop_ok rop_ok sop_len wop_bytes exec_sop exec_rop exec_wop]; intros Hok; apply quiet_call_bind.
  - by apply quiet_call_bind, fgetc_quiet.
  - intros s Hs. destruct Hok as (Hz & Hn0 & Hov & Hl). unfold fread. rewrite u32_small by lia.
    destruct (fread_loop_quiet l f n (Z.to_nat (nmemb * sz)) p 0 sz 0 ltac:(lia) s Hs) as ([q k] & s' & H1 & H2).
    exists (RItems q k), s'. by rewrite (st_bind_eq _ _ _ _ _ H1).
  - apply fputc_quiet.
  - apply fputs_quiet.
  - destruct Hok as (Hp & Hz & Hn0 & Hov & Hl). rewrite length_take, Nat.min_l by lia. unfold fwrite. rewrite u32_small by lia.
    apply fwrite_loop_quiet; [lia|done].
  - intros s Hs. destruct (stuck_stream _ _ _ _ Hs) as (x & Hx & _). unfold fflush, fflush_one. rewrite (st_bind_eq _ _ _ _ _ Hx).
    replace (has x O_RDONLY) with false by (unfold has, O_RDONLY; by rewrite Z.land_0_r).
    rewrite (st_bind_eq _ _ _ _ _ (flush_stuck _ _ _ _ Hs)). by exists EOF, s.
Qed.
Lemma exec_sops_quiet l f n ops : Forall sop_ok ops -> quiet l f (list_sum (sop_len <$> ops)) n (exec_sops ops f).
Proof.
  induction ops as [|o ops IH]; intros Hok s Hs; [by exists tt, s|]. apply Forall_cons in Hok as [Hok Hoks]. cbn in Hs. rewrite <- Nat.add_assoc in Hs.
  destruct (exec_sop_quiet l f _ o Hok s Hs) as (a & s1 & H1 & Hs1 & Hsy). cbn [exec_sops]. rewrite (st_bind_eq _ _ _ _ _ H1), <- Hsy.
  by apply IH.
Qed.
End Errors.

(** A system call of [_fill_buf] or [_flush_buf] that fails with the result [k]. *)
Definition fails {S} `{!Unix S} (d k : Z) (t : S) (m : st (io S) Z) (g : Z) (f : nat) (x : FILE) (s : io S) : Prop :=
  (m = _fill_buf f /\ has x (Z.lor F_EOF (Z.lor F_ERR F_WRONLY)) = false /\ g = (if k =? 0 then F_EOF else F_ERR) /\
    exists v, uread d (BUF_SIZE - head x mod BUF_SIZE) (sys s) = Ok ((k, v), t)) \/
  (m = _flush_buf f /\ plain_out x /\ tail x mod BUF_SIZE + (head x - tail x) <= BUF_SIZE /\ g = F_ERR /\
    exists b, buf x = Some b /\ uwrite d (take (Z.to_nat (head x - tail x)) (drop (Z.to_nat (tail x mod BUF_SIZE)) b)) (sys s) = Ok (k, t)).
Lemma has_set_self x g : g = F_EOF \/ g = F_ERR -> has (with_flags x (Z.lor (flags x) g)) g = true.
Proof. intros Hg. rewrite has_set. destruct Hg as [-> | ->]; by rewrite orb_true_r. Qed.
Lemma fails_mark {S} `{!Unix S} d k t m g f x l b (s : io S) : fails d k t m g f x s -> k <= 0 -> at_slot l f x s -> buffered x b d ->
  let y := with_flags x (Z.lor (flags x) g) in m s = Ok (EOF, Io (Some (<[f := y]> l)) t) /\ (g = F_EOF \/ g = F_ERR).
Proof.
  intros Hf Hk Hs Hb. pose proof Hb as (Hbuf & Hl & Hsz & Hfd & Hby & Ht & Hh). cbn zeta. assert (Hs2 : at_slot l f x (Io (iob s) t)) by exact Hs.
  assert (Hbu : forall K : list Z -> st (io S) Z, (kassert (bool_decide (buf x <> None));; b ← buffer x; K b) s = K b s).
  { intros K. rewrite bool_decide_eq_true_2 by (by rewrite Hbuf). unfold kassert, buffer. by rewrite Hbuf. }
  destruct Hf as [(-> & Hp & -> & v & Hrd)|(-> & [Hu Hp] & Hm & -> & b' & Hb' & Hwr)].
  - split; [|destruct (k =? 0); auto]. unfold _fill_buf. rewrite (st_bind_eq _ _ _ _ _ (stream_run _ _ _ _ Hs)), Hp, Hbu.
    rewrite (st_bind_eq (lift _) _ s (Z.to_nat (head x mod BUF_SIZE)) s) by (unfold lift; by rewrite (rel_run x b d _ Hb) by lia).
    pose proof (Z.mod_pos_bound (head x) BUF_SIZE ltac:(unfold BUF_SIZE; lia)) as Hi.
    rewrite Hsz, Hfd, Z2Nat.id, u32_small by (unfold BUF_SIZE in *; lia). rewrite (st_bind_eq _ _ _ _ _ (call_run _ _ _ _ Hrd)).
    replace (k <=? 0) with true by lia. by rewrite (st_bind_eq _ _ _ _ _ (set_stream_run _ _ _ _ _ Hs2)).
  - split; [|auto]. rewrite Hbuf in Hb'. injection Hb' as <-. unfold _flush_buf. rewrite (st_bind_eq _ _ _ _ _ (stream_run _ _ _ _ Hs)), Hp, Hbu, Hu, andb_false_r.
    pose proof (Z.mod_pos_bound (tail x) BUF_SIZE ltac:(unfold BUF_SIZE; lia)) as Hi.
    rewrite (st_bind_eq (lift _) _ s (Z.to_nat (tail x mod BUF_SIZE)) s) by (unfold lift; by rewrite (rel_run x b d _ Hb) by lia).
    rewrite s32_small, u32_small by lia. rewrite (st_bind_eq (lift _) _ s (take (Z.to_nat (head x - tail x)) (drop (Z.to_nat (tail x mod BUF_SIZE)) b)) s).
    2: { unfold lift, rd_block. rewrite decide_True; [done|]. rewrite Hl. unfold BUF_SIZE in *. lia. }
    rewrite Hfd, (st_bind_eq _ _ _ _ _ (call_run _ _ _ _ Hwr)). replace (k <=? 0) with true by lia.
    by rewrite (st_bind_eq _ _ _ _ _ (set_stream_run _ _ _ _ _ Hs2)).
Qed.

(** C18: an error stops a stream for good.  When [read] gives nothing the
    stream is marked with [F_EOF], when [read] or [write] fails it is marked
    with [F_ERR] (and [write] of nothing counts as a failure), nothing else of it
    changes and the result is [EOF]; from then on no sequence of calls on this
    stream, for input, output or [fflush], makes another system call, none of
    them runs out of the buffer or faults, and the mark stays. *)
Theorem errors_stick {S} `{!Unix S} d k t m g f x l b ops (s : io S) : at_slot l f x s -> buffered x b d -> fails d k t m g f x s -> k <= 0 ->
  Forall sop_ok ops -> head x + Z.of_nat (list_sum (sop_len <$> ops)) < 2 ^ 31 ->
  exists s1 s2 y, m s = Ok (EOF, s1) /\ stream f s1 = Ok (with_flags x (Z.lor (flags x) g), s1) /\ sys s1 = t /\
    exec_sops ops f s1 = Ok (tt, s2) /\ sys s2 = t /\ stream f s2 = Ok (y, s2) /\ has y g = true.
Proof.
  intros Hs Hb Hf Hk Hok Hn. destruct (fails_mark d k t m g f x l b s Hf Hk Hs Hb) as [Hm Hg].
  set (y := with_flags _ _) in *. set (s1 := Io _ t) in Hm. pose proof Hs as [Hlt _].
  assert (Hst : stuck_at d g l f (list_sum (sop_len <$> ops) + 0) s1).
  { exists y, b. split; [done|]. split; [exact Hb|]. split; [by apply has_set_self|]. rewrite Nat.add_0_r. exact Hn. }
  destruct (exec_sops_quiet d g Hg l f 0 ops Hok s1 Hst) as ([] & s2 & H2 & Hs2 & Hsy).
  destruct (stuck_stream _ _ _ _ _ _ Hs2) as (z & Hz & Hzg). exists s1, s2, z. split_and!; try done. by apply (stream_run l).
Qed.
End StdioSpec.
