(* ===== verification/StdioSys.v ===== *)
(** * Streams over descriptors

    The streams of Stdio.v on the system calls of Sysfile.v: an open file at its
    end is a [Sink], an open file is a [Source], so what StdioSpec.v shows of
    streams holds for the files of the kernel, and two streams on duplicates of
    one descriptor give a round trip through the file. *)
From stdpp Require Import gmap.
From S2P Require Import Prelude CString BlockDev HdQueue Cofs CofsBlocks CofsInode CofsFiles CofsRW Vfs Sysfile RamFs SysSpec SysFiles SysCofs Stdio StdioSpec.

Module StdioSys.
Import Vfs Sysfile SysFiles StdioSpec.

(** The system calls behind the library; [umem] is the allocator of the
    program. *)
Definition sysfile_unix {drv D} `{!Kernel drv D} (umem : Z -> option (list Z)) : Stdio.Unix (vst drv D) := {|
  Stdio.uopen := sys_open;
  Stdio.uread := sys_read;
  Stdio.uwrite d b := sys_write d b (Z.of_nat (length b));
  Stdio.uclose := sys_close;
  Stdio.umalloc := umem
|}.

Section OnFiles.
Context {drv D : Type} `{HK : !Kernel drv D}.
Context (n : nptr) (holds : list Z -> nat -> vst drv D -> Prop) (need : Z -> nat) (max : Z) `{HB : !ByteFile n holds need max}.
Context (umem : Z -> option (list Z)) (unit : nat) (Hunit : forall sz, 0 <= sz <= Stdio.BUF_SIZE -> (need sz <= unit)%nat).
Notation vst := (vst drv D).
#[local] Instance unix : Stdio.Unix vst := sysfile_unix umem.

(** The file was [base]; [w] has been appended, and there is room for [k] writes. *)
Definition appended (fds base : list Z) (w : list Z) (k : nat) (s : vst) : Prop :=
  exists j, opened n holds fds (AFile (base ++ w) (Z.of_nat (length (base ++ w)))) j s /\ (k * unit <= j)%nat /\
    Z.of_nat (length (base ++ w)) + 512 * Z.of_nat k <= max /\ Forall is_byte (base ++ w).
(** The bytes from the position on are left. *)
Definition remaining (fds : list Z) (r : list Z) (s : vst) : Prop :=
  exists a j, opened n holds fds a j s /\ 0 <= a_pos a <= Z.of_nat (length (a_bytes a)) /\ r = drop (Z.to_nat (a_pos a)) (a_bytes a) /\
    Forall is_byte (a_bytes a).

Lemma overwrite_end c b : RamFs.overwrite c (Z.of_nat (length c)) b = c ++ b.
Proof. unfold RamFs.overwrite. by rewrite Nat2Z.id, firstn_all, (drop_ge c), app_nil_r by lia. Qed.
Lemma append_sink fds base d : d ∈ fds -> Sink d (appended fds base).
Proof.
  intros Hd. constructor. intros w k s b (j & Ho & Hj & Hm & Hby) Hl Hb. set (c := base ++ w) in *. change Stdio.BUF_SIZE with 512 in *.
  pose proof (Hunit (Z.of_nat (length b)) ltac:(change Stdio.BUF_SIZE with 512; lia)) as Hn.
  replace j with (need (Z.of_nat (length b)) + (j - need (Z.of_nat (length b))))%nat in Ho by lia.
  destruct (session_write n holds need max fds d _ _ s b Ho Hd Hb) as (s' & Hw & Ho'); [cbn; lia|cbn; lia|].
  exists s'. split; [exact Hw|]. unfold a_write in Ho'. cbn [a_bytes a_pos snd] in Ho'. rewrite overwrite_end in Ho'.
  exists (j - need (Z.of_nat (length b)))%nat. unfold c in *. rewrite app_assoc.
  replace (Z.of_nat (length ((base ++ w) ++ b))) with (Z.of_nat (length (base ++ w)) + Z.of_nat (length b)) by (rewrite (length_app (base ++ w)); lia).
  split; [exact Ho'|]. split; [lia|]. split; [lia|]. by apply Forall_app.
Qed.
Lemma file_source fds d : d ∈ fds -> Source d (remaining fds).
Proof.
  intros Hd. constructor.
  - intros r s (a & j & _ & _ & -> & Hb). by apply Forall_drop.
  - intros r s k (a & j & Ho & Hp & -> & Hb) Hk. change Stdio.BUF_SIZE with 512 in *. pose proof bf_max as Hmax.
    destruct (bf_node _ _ _ (op_holds _ _ _ _ _ _ Ho)) as [Hlen _].
    destruct (session_read n holds need max fds d a j s k Ho Hd ltac:(lia) ltac:(lia)) as (s' & Hr & Ho').
    unfold a_read in Hr, Ho'. cbn [fst snd] in Hr, Ho'. set (b := take (Z.to_nat k) (drop (Z.to_nat (a_pos a)) (a_bytes a))) in *.
    assert (Hlb : length b = Nat.min (Z.to_nat k) (length (a_bytes a) - Z.to_nat (a_pos a))) by (unfold b; by rewrite length_take, length_drop).
    exists b, (drop (Z.to_nat k) (drop (Z.to_nat (a_pos a)) (a_bytes a))), s'. split; [exact Hr|]. split; [unfold b; by rewrite take_drop|].
    split; [lia|]. split.
    { intros E. rewrite E in Hlb. cbn in Hlb. apply nil_length_inv. rewrite length_drop. lia. }
    eexists _, j. split; [exact Ho'|]. cbn [a_pos a_bytes]. split; [lia|]. split; [|done].
    rewrite drop_drop. destruct (Nat.min_spec (Z.to_nat k) (length (a_bytes a) - Z.to_nat (a_pos a))) as [[H1 H2]|[H1 H2]].
    + f_equal. lia.
    + rewrite !drop_ge by lia. done.
Qed.

End OnFiles.

(** ** Two streams on the file of SysCofs.v

    Slot 0 writes through descriptor 0, slot 1 reads through descriptor 1; the
    position is at the end of the five bytes "hello". *)
Definition demo_end : vst nat (Cofs.fs (S:=HdQueue.hdq)) :=
  set_fstore SysCofs.demo_tasks (<[1%positive := File 0 O_RDWR 5 (Some 2%positive) 1]> ∅).
Definition demo_buf : list Z := replicate 512 0.
Definition demo_out : Stdio.FILE := Stdio.File (Some demo_buf) 0 0 512 Stdio.F_WRONLY 0.
Definition demo_in : Stdio.FILE := Stdio.File (Some demo_buf) 0 0 512 Stdio.F_RDONLY 1.
Definition demo_io : Stdio.io (vst nat (Cofs.fs (S:=HdQueue.hdq))) := Stdio.Io (Some [demo_out; demo_in]) demo_end.
Definition demo_umem (k : Z) : option (list Z) := Some (replicate (Z.to_nat k) 0).
Definition cofs_unit : nat := 3 * Cofs.loop_fuel 512.
#[local] Instance demo_unix : Stdio.Unix (vst nat (Cofs.fs (S:=HdQueue.hdq))) := sysfile_unix demo_umem.

Lemma cofs_unit_enough sz : 0 <= sz <= Stdio.BUF_SIZE -> (3 * Cofs.loop_fuel sz <= cofs_unit)%nat.
Proof.
  change Stdio.BUF_SIZE with 512. intros H. unfold cofs_unit, Cofs.loop_fuel. pose proof (Z.div_le_mono sz 512 BlockDev.BLOCK_SIZE ltac:(done) ltac:(lia)). lia.
Qed.
Lemma demo_end_opened k : (k <= 30)%nat -> opened 2%positive (SysCofs.cofs_holds 2%positive) [0; 1] (AFile RamFs.hello 5) k demo_end.
Proof.
  intros Hk. destruct (SysCofs.demo_opened k Hk) as [Hh _ _]. constructor; [by apply (bf_descr _ _ SysCofs.demo_tasks)|cbn; lia|].
  exists 1%positive, (File 0 O_RDWR 5 (Some 2%positive) 1). split; [reflexivity|]. split; [reflexivity|]. split; [reflexivity|].
  intros fd Hfd. rewrite !elem_of_cons in Hfd. destruct Hfd as [->|[->|Hfd]]; [split; [lia|reflexivity]..|]. set_solver.
Qed.
Lemma demo_buffered x d : Stdio.buf x = Some demo_buf -> Stdio.size x = 512 -> Stdio.fd x = d -> Stdio.head x = 0 -> Stdio.tail x = 0 -> buffered x demo_buf d.
Proof. intros H1 H2 H3 H4 H5. split_and!; try done; try lia. by apply Forall_replicate. Qed.
Lemma demo_out_at m : (m < 512)%nat ->
  out_at 0 (appended 2%positive (SysCofs.cofs_holds 2%positive) Cofs.MAX_FILE_SIZE_times_BLOCK_SIZE cofs_unit [0; 1] RamFs.hello) [demo_out; demo_in] 0 [] m demo_io.
Proof.
  intros Hm. exists demo_out, demo_buf, []. split; [split; [cbn; lia|done]|]. split; [by apply demo_buffered|]. split; [done|]. split; [done|]. split; [done|].
  split; [cbn; lia|]. split; [done|]. change (Z.to_nat _ + m)%nat with m. change (Z.to_nat Stdio.BUF_SIZE) with 512%nat. rewrite Nat.div_small by done.
  exists 30%nat. rewrite app_nil_r. split; [by apply demo_end_opened|]. split; [vm_compute; lia|]. split; [vm_compute; discriminate|].
  apply bytesb_true. reflexivity.
Qed.
Lemma demo_in_at : in_at 1 (remaining 2%positive (SysCofs.cofs_holds 2%positive) [0; 1]) [demo_out; demo_in] 1 RamFs.hello
  (Stdio.Io (Some [demo_out; demo_in]) SysCofs.demo_tasks).
Proof.
  exists demo_in, demo_buf, RamFs.hello. split; [split; [cbn; lia|done]|]. split; [by apply demo_buffered|]. split; [done|]. split; [done|]. split; [done|].
  split; [done|]. split; [done|]. exists SysCofs.demo_file, 4%nat. split; [apply SysCofs.demo_opened; lia|]. split; [cbn; lia|]. split; [done|]. apply bytesb_true. reflexivity.
Qed.

(** "ab" item by item, "c" and "de" put; read as "abc" and one byte at a time. *)
Definition demo_wops : list wop := [WWrite [97; 98] 1 2; WPut 99; WPuts [100; 101] [0]].
Definition demo_rops : list rop := [RRead [0; 0; 0; 0] 3 1; RGet; RGet; RGet; RRead [7] 1 1].
Lemma demo_wops_ok : Forall wop_ok demo_wops.
Proof.
  apply Forall_cons. split; [cbn; split; [apply bytesb_true; reflexivity|lia]|]. apply Forall_cons. split; [done|].
  apply Forall_cons. split; [|by apply Forall_nil_2]. cbn. repeat (apply Forall_cons; split; [lia|]). by apply Forall_nil_2.
Qed.
Lemma demo_rops_ok : Forall rop_ok demo_rops.
Proof. repeat (apply Forall_cons; split; [cbn; lia|]). by apply Forall_nil_2. Qed.
Lemma stream_reads_witness :
  (exists s', exec_rops demo_rops 1 (Stdio.Io (Some [demo_out; demo_in]) SysCofs.demo_tasks) = Ok (rops_results demo_rops RamFs.hello, s') /\
     in_at 1 (remaining 2%positive (SysCofs.cofs_holds 2%positive) [0; 1]) [demo_out; demo_in] 1 [] s') /\
  rops_results demo_rops RamFs.hello = [RItems [104; 101; 108; 0] 1; RChar 108; RChar 111; RChar (-1); RItems [7] 0].
Proof.
  split; [|reflexivity].
  apply (stream_reads 1 _ (file_source 2%positive (SysCofs.cofs_holds 2%positive) _ _ demo_umem [0; 1] 1 ltac:(by right; left))
    [demo_out; demo_in] 1 demo_rops RamFs.hello).
  - exact demo_in_at.
  - exact demo_rops_ok.
Defined.
(** A stream on a descriptor that is not open: its first write fails. *)
Definition demo_closed : Stdio.FILE := Stdio.File (Some demo_buf) 5 0 512 Stdio.F_RDWR 3.
Definition demo_sops : list sop := [SOut (WPut 65); SIn RGet; SFlush; SIn (RRead [0; 0] 1 2); SOut (WWrite [1; 2; 3] 1 3)].
Lemma errors_stick_witness :
  exists s1 s2 y, Stdio._flush_buf 0 (Stdio.Io (Some [demo_closed; demo_in]) demo_end) = Ok (-1, s1) /\
    Stdio.stream 0 s1 = Ok (Stdio.with_flags demo_closed 36, s1) /\ Stdio.sys s1 = demo_end /\
    exec_sops demo_sops 0 s1 = Ok (tt, s2) /\ Stdio.sys s2 = demo_end /\ Stdio.stream 0 s2 = Ok (y, s2) /\ Stdio.has y Stdio.F_ERR = true.
Proof.
  apply (errors_stick 3 (-1) demo_end (Stdio._flush_buf 0) Stdio.F_ERR 0 demo_closed [demo_closed; demo_in] demo_buf demo_sops).
  - split; [cbn; lia|done].
  - split_and!; try done. by apply Forall_replicate.
  - right. split; [done|]. split; [done|]. split; [done|]. split; [done|]. exists demo_buf. split; [done|]. reflexivity.
  - done.
  - repeat (apply Forall_cons; split; [cbn; first [done|lia|split; [apply bytesb_true; reflexivity|lia]]|]). by apply Forall_nil_2.
  - vm_compute. reflexivity.
Defined.

(** ** Corners

    On the file system of RamFs.v, whose file "/a" holds "hello". *)
Section Corners.
#[local] Instance ram_unix : Stdio.Unix (vst RamFs.tag (list Z)) := sysfile_unix demo_umem.
Notation rio := (Stdio.io (vst RamFs.tag (list Z))).
Definition rio0 (c : list Z) : rio :=
  Stdio.Io None (Vst (<[1%positive := RamFs.root_node]> (<[2%positive := Vfs.with_size RamFs.file_node (Z.of_nat (length c))]> ∅))
    3%positive 1%positive c false (replicate 6 None) ∅ 1%positive [47; 0] None).
(** [_iob_init], then [fopen("/a", mode)]. *)
Definition opened_as (mode c : list Z) : res (nat * rio) :=
  match (Stdio._iob_init;; Stdio.fopen RamFs.path_a mode) (rio0 c) with Ok (Some f, s) => Ok (f, s) | Ok (None, _) => Err ENull | Err e => Err e end.
Definition after {A} (mode c : list Z) (m : nat -> st rio A) (P : A -> rio -> Prop) : Prop :=
  match opened_as mode c with Ok (f, s) => match m f s with Ok (a, s') => P a s' | Err _ => False end | Err _ => False end.

(** [flags & O_RDONLY] is 0: a stream opened with "r" is marked [F_RDWR]. *)
Lemma fopen_read_is_rdwr : after [114; 0] RamFs.hello (fun f => Stdio.stream f) (fun x _ => Stdio.flags x = Stdio.F_RDWR).
Proof. vm_compute. reflexivity. Qed.
(** [fclose] of an input stream writes what it has read ahead into the file. *)
Lemma fclose_writes_input : after [114; 0] RamFs.hello (fun f => c ← Stdio.fgetc f; Stdio.fclose f;; mret c)
  (fun c s => c = 104 /\ dev (Stdio.sys s) = RamFs.hello ++ [101; 108; 108; 111]).
Proof. vm_compute. split; reflexivity. Qed.
(** After a flush in the middle of the buffer, a full buffer is flushed beyond
    its end. *)
Lemma flush_past_buffer :
  match opened_as [119; 0] [] with
  | Ok (f, s) => match (Stdio.fwrite (replicate 100 1) 1 100 f;; Stdio.fflush (Some f);; Stdio.fwrite (replicate 512 2) 1 512 f) s with
                 | Ok _ => False | Err e => e = EOob end
  | Err _ => False
  end.
Proof. vm_compute. reflexivity. Qed.
(** Flushing a stream with nothing to write stops it: later output is lost. *)
Lemma empty_flush_stops : after [119; 0] [] (fun f => r ← Stdio.fflush (Some f); k ← Stdio.fwrite (replicate 512 2) 1 512 f; mret (r, k))
  (fun '(r, k) s => r = -1 /\ k = 511 /\ dev (Stdio.sys s) = []).
Proof. vm_compute. split_and!; reflexivity. Qed.
(** The character after a line that does not fit is lost. *)
Lemma fgets_loses_character : after [114; 0] RamFs.hello (fun f => '(l, b) ← Stdio.fgets [0; 0; 0] 3 f; c ← Stdio.fgetc f; mret (l, b, c))
  (fun r _ => r = ([104; 101; 0], true, 108)) /\
  after [114; 0] [104; 101; 1; 2] (fun f => '(l, b) ← Stdio.fgets [0; 0; 0] 3 f; c ← Stdio.fgetc f; mret c) (fun c _ => c = 2).
Proof. vm_compute. split; reflexivity. Qed.
(** [getline] stores a last line without a newline and returns [EOF]. *)
Lemma getline_last_line : after [114; 0] RamFs.hello (fun f => Stdio.getline 100 None 0 f)
  (fun '(r, l, n) _ => r = -1 /\ n = 16 /\ take 6 l = RamFs.hello ++ [0]).
Proof. vm_compute. split_and!; reflexivity. Qed.
(** The byte 255 reads as [EOF], before the end of the file. *)
Lemma fgetc_byte_255 : after [114; 0] [255; 65] (fun f => c ← Stdio.fgetc f; e ← Stdio.feof f; d ← Stdio.fgetc f; mret (c, e, d))
  (fun r _ => r = (-1, 0, 65)).
Proof. vm_compute. reflexivity. Qed.
(** [fputs] stops with [EOF] after a byte above 127, which is written. *)
Lemma fputs_above_127 : after [119; 0] [] (fun f => r ← Stdio.fputs [65; 200; 66; 0] f; Stdio.fflush (Some f);; mret r)
  (fun r s => r = -1 /\ dev (Stdio.sys s) = [65; 200]).
Proof. vm_compute. split; reflexivity. Qed.
(** No more than the first 16 streams: [slots >= OPEN_MAX] already holds. *)
Lemma alloc_file_never_grows (l : list Stdio.FILE) t :
  length l = Z.to_nat Stdio.IOB_INIT_NUMSLOTS -> Forall (fun x => Stdio.flags x <> 0) l ->
  Stdio._alloc_file (Stdio.Io (Some l) t : rio) = Ok (None, Stdio.Io (Some l) t).
Proof.
  intros Hl Hf. assert (E : Stdio.free_slot l = length l).
  { clear Hl. induction Hf as [|x l Hx _ IH]; [done|]. cbn. destruct (Z.eqb_spec (Stdio.flags x) 0); [done|]. by rewrite IH. }
  unfold Stdio._alloc_file. rewrite (st_bind_eq Stdio.slots _ _ l (Stdio.Io (Some l) t)) by done. cbn zeta. rewrite E, decide_True by done. by rewrite Hl.
Qed.
End Corners.
End StdioSys.
