(* ===== verification/Crt.v ===== *)
(** * The screen

    src/ansi.c, the state machine of the escape sequences, and src/crt.c, which
    shows characters in the video memory.  The memory is the list of its 16-bit
    cells from [CRT_ADDR] to [CRT_END_ADDR]; the ports are the class [Ports]. *)
From S2P Require Import Prelude CString.

Module Crt.

(** ** Escape sequences *)
Definition ANSI_ESC : Z := 27.
Definition ANSI_BRA : Z := 91.
Definition ANSI_MAX_CHARS : Z := 10.
Inductive ansi_stat_t := ANSI_NONE | ANSI_IN_ESC | ANSI_IN_BRA | ANSI_IN_NUM1 | ANSI_IN_NUM2 | ANSI_IN_FIN.
Record ansi_stat := Astat { stat : ansi_stat_t; n1 : Z; n2 : Z; c1 : Z; c2 : Z; cnt : Z }.
Definition ansi_zero : ansi_stat := Astat ANSI_NONE 0 0 0 0 0.
Definition with_stat (s : ansi_stat) x := Astat x (n1 s) (n2 s) (c1 s) (c2 s) (cnt s).
Definition with_n1 (s : ansi_stat) x := Astat (stat s) x (n2 s) (c1 s) (c2 s) (cnt s).
Definition with_n2 (s : ansi_stat) x := Astat (stat s) (n1 s) x (c1 s) (c2 s) (cnt s).
Definition with_c1 (s : ansi_stat) x := Astat (stat s) (n1 s) (n2 s) x (c2 s) (cnt s).
Definition with_c2 (s : ansi_stat) x := Astat (stat s) (n1 s) (n2 s) (c1 s) x (cnt s).
Definition with_cnt (s : ansi_stat) x := Astat (stat s) (n1 s) (n2 s) (c1 s) (c2 s) x.
(** The values of the enumeration. *)
Definition code (x : ansi_stat_t) : Z :=
  match x with ANSI_NONE => 0 | ANSI_IN_ESC => 1 | ANSI_IN_BRA => 2 | ANSI_IN_NUM1 => 3 | ANSI_IN_NUM2 => 4 | ANSI_IN_FIN => 5 end.
Definition is_stat (s : ansi_stat) (x : ansi_stat_t) : bool := code (stat s) =? code x.
Definition digit (c : Z) : bool := ((48 <=? c) && (c <=? 57))%bool.
(** [st->stat > ANSI_IN_ESC && st->stat < ANSI_IN_FIN] *)
Definition in_sequence (s : ansi_stat) : bool :=
  ((code ANSI_IN_ESC <? code (stat s)) && (code (stat s) <? code ANSI_IN_FIN))%bool.
(** The new state; what the function returns is its [stat]. *)
Definition ansi_stat_switch (st : ansi_stat) (c : Z) : ansi_stat :=
  let st := with_cnt st (u8 (cnt st + 1)) in
  let st := if (is_stat st ANSI_IN_FIN || (ANSI_MAX_CHARS <? cnt st))%bool then ansi_zero else st in
  if (is_stat st ANSI_NONE && (c =? ANSI_ESC))%bool then with_stat st ANSI_IN_ESC
  else if (is_stat st ANSI_IN_ESC && ((c =? ANSI_BRA) || (c =? 79) || (c =? 99)))%bool then
    if c =? 79 then with_stat (with_c2 st 79) ANSI_IN_BRA
    else if c =? 99 then with_stat (with_c1 st c) ANSI_IN_FIN
    else with_stat st ANSI_IN_BRA
  else if (is_stat st ANSI_IN_BRA && digit c)%bool then with_stat (with_n1 st (c - 48)) ANSI_IN_NUM1
  else if (is_stat st ANSI_IN_BRA && (c =? 63))%bool then with_stat (with_c2 st 63) ANSI_IN_NUM1
  else if (is_stat st ANSI_IN_NUM1 && digit c)%bool then with_n1 st (u32 (n1 st * 10 + c - 48))
  else if (is_stat st ANSI_IN_NUM1 && (c =? 59))%bool then with_stat (with_n2 st 0) ANSI_IN_NUM2
  else if (is_stat st ANSI_IN_NUM2 && digit c)%bool then with_n2 st (u32 (n2 st * 10 + c - 48))
  else if (in_sequence st && (((65 <=? c) && (c <=? 90)) || ((97 <=? c) && (c <=? 122)) || (c =? 126)))%bool then
    with_stat (with_c1 st c) ANSI_IN_FIN
  else with_stat (with_cnt st 0) ANSI_NONE.

(** ** The controller *)
Definition TAB_SPACES : Z := 8.
Definition CRTC_PORT : Z := 0x3D4.
Definition CRTC_DATA : Z := 0x3D5.
Definition CRT_ADDR : Z := 0xB8000.
Definition CRT_END_ADDR : Z := 0xC0000.
Definition CRT_COLS : Z := 80.
Definition CRT_ROWS : Z := 25.
Definition CRT_MAX_ROWS : Z := CRT_ROWS.
Definition CRT_DEF_ATTR : Z := 0x700.
Definition ansi_to_col : list Z := [0; 4; 2; 6; 1; 5; 3; 7].

Record crt := Crt { buf : list Z; attr : Z; cols : Z; rows : Z; x : Z; y : Z; scroll : Z; astat : ansi_stat }.
Definition with_buf (s : crt) v := Crt v (attr s) (cols s) (rows s) (x s) (y s) (scroll s) (astat s).
Definition with_attr (s : crt) v := Crt (buf s) v (cols s) (rows s) (x s) (y s) (scroll s) (astat s).
Definition with_x (s : crt) v := Crt (buf s) (attr s) (cols s) (rows s) v (y s) (scroll s) (astat s).
Definition with_y (s : crt) v := Crt (buf s) (attr s) (cols s) (rows s) (x s) v (scroll s) (astat s).
Definition with_scroll (s : crt) v := Crt (buf s) (attr s) (cols s) (rows s) (x s) (y s) v (astat s).
Definition with_astat (s : crt) v := Crt (buf s) (attr s) (cols s) (rows s) (x s) (y s) (scroll s) v.

Class Ports (P : Type) := {
  outb : Z -> Z -> P -> P;
  inb : Z -> P -> Z * P;
  serial_debug : ansi_stat -> P -> P
}.
Record scr (P : Type) := Scr { dev : crt; ports : P }.
#[global] Arguments Scr {P}. #[global] Arguments dev {P}. #[global] Arguments ports {P}.

Definition CRT_POS (s : crt) : Z := cols s * y s + x s.
Definition blank (s : crt) : Z := Z.lor 32 (attr s).

Section Screen.
Context {P : Type} `{!Ports P}.
Notation scr := (scr P).

Definition get_crt : st scr crt := s ← get; mret (dev s).
Definition put_crt (x : crt) : st scr unit := modify (fun s => Scr x (ports s)).
Definition out (port byte : Z) : st scr unit := modify (fun s => Scr (dev s) (outb port (u8 byte) (ports s))).
Definition inp (port : Z) : st scr Z := s ← get; let '(b, p) := inb port (ports s) in put (Scr (dev s) p);; mret (u8 b).
(** [crt.buf[i] = v] *)
Definition cell (i v : Z) : st scr unit :=
  s ← get_crt; if i <? 0 then fail EOob else b ← lift (wr (buf s) (Z.to_nat i) (u16 v)); put_crt (with_buf s b).
(** [for (i = from; i < to; i++) crt.buf[base + i] = ' ' | crt.attr;] for the [n] cells to fill. *)
Fixpoint clear (n : nat) (i : Z) : st scr unit :=
  match n with O => mret tt | S n => s ← get_crt; cell i (blank s);; clear n (i + 1) end.

Definition crt_get_cursor : st scr Z :=
  out CRTC_PORT 0x0E;; h ← inp CRTC_DATA;
  out CRTC_PORT 0x0F;; l ← inp CRTC_DATA;
  mret (Z.lor (Z.shiftl h 8) l).
Definition crt_set_cursor (pos : Z) : st scr unit :=
  out CRTC_PORT 0x0E;; out CRTC_DATA (Z.land (Z.shiftr pos 8) 0xFF);;
  out CRTC_PORT 0x0F;; out CRTC_DATA (Z.land pos 0xFF).
Definition crt_cursor_on : st scr unit :=
  out CRTC_PORT 0x0A;; b ← inp CRTC_DATA; out CRTC_DATA (Z.lor (Z.land b 0xC0) 0x00);;
  out CRTC_PORT 0x0B;; b ← inp 0x3E0; out CRTC_DATA (Z.lor (Z.land b 0xE0) 0x0E).
Definition crt_cursor_off : st scr unit := out CRTC_PORT 0x0A;; out CRTC_DATA 0x20.
Definition crt_set_cursor_xy (x y : Z) : st scr unit :=
  let x := u16 x in
  let y := u16 y in
  kassert (y <? CRT_MAX_ROWS);;
  s ← get_crt;
  kassert (x <? cols s);;
  let s := with_y (with_x s x) y in
  put_crt s;; crt_set_cursor (CRT_POS s).
Definition crt_scroll_to_line (line : Z) : st scr unit :=
  s ← get_crt;
  let line := if line <? rows s then rows s else line in
  let line := if y s <? line then y s else line in
  let offs := if rows s <? line then (line - rows s) * cols s else 0 in
  put_crt (with_scroll s (u16 line));;
  out CRTC_PORT 0x0C;; out CRTC_DATA (Z.shiftr offs 8);;
  out CRTC_PORT 0x0D;; out CRTC_DATA (Z.land offs 0xFF).
Definition crt_reset : st scr unit :=
  s ← get_crt;
  put_crt (with_attr (with_y (with_x s 0) 0) CRT_DEF_ATTR);;
  clear (Z.to_nat (cols s * CRT_MAX_ROWS)) 0;;
  crt_set_cursor 0;;
  crt_scroll_to_line 0.
Definition crt_init (memory : list Z) : st scr unit :=
  s ← get_crt;
  put_crt (Crt memory CRT_DEF_ATTR CRT_COLS CRT_ROWS (x s) (y s) (scroll s) (astat s));;
  pos ← crt_get_cursor;
  s ← get_crt;
  let pos := if rows s - 1 <? pos / cols s then 0 else pos in
  put_crt (with_y (with_x s (u16 (pos mod cols s))) (u16 (pos / cols s)));;
  crt_cursor_on.

(** ** Colours *)
Definition crt_set_color (color bright : Z) : st scr unit :=
  s ← get_crt;
  let bg_color := Z.land (Z.shiftr (attr s) 8) (Z.shiftl 0xF 4) in
  let color := if u8 bright =? 0 then color else u8 (color + 8) in
  put_crt (with_attr s (u16 (Z.shiftl (Z.lor bg_color (Z.land color 0x0F)) 8))).
Definition crt_set_background (bg_color bright : Z) : st scr unit :=
  s ← get_crt;
  let color := Z.land (Z.shiftr (attr s) 8) 0x0F in
  let bg_color := if u8 bright =? 0 then bg_color else u8 (bg_color + 8) in
  put_crt (with_attr s (u16 (Z.shiftl (Z.lor (u8 (Z.shiftl (Z.land bg_color 0x0F) 4)) color) 8))).
Definition crt_reverse_video : st scr unit :=
  s ← get_crt;
  let bg_color := Z.land (attr s) 0x0F in
  let text_color := Z.land (Z.shiftr (attr s) 8) 0x0F in
  crt_set_color bg_color 0;; crt_set_background text_color 0.
Definition ansi_unknown : st scr unit := modify (fun s => Scr (dev s) (serial_debug (astat (dev s)) (ports s))).

(** [n] is taken as 1 when the first number of the sequence is 0. *)
Definition MIN_ONE (s : crt) (n : Z) : Z := if n1 (astat s) =? 0 then 1 else n.
Definition crt_handle_ansi (c : Z) : st scr unit :=
  s ← get_crt;
  let n1 := s32 (Crt.n1 (astat s)) in
  let n2 := s32 (Crt.n2 (astat s)) in
  let line := y s * cols s in
  if c =? 99 then crt_reset
  else if c =? 109 then
    if n1 =? 0 then put_crt (with_attr s CRT_DEF_ATTR)
    else if ((30 <=? n1) && (n1 <=? 37))%bool then k ← lift (rd ansi_to_col (Z.to_nat (n1 - 30))); crt_set_color k n2
    else if ((40 <=? n1) && (n1 <=? 47))%bool then k ← lift (rd ansi_to_col (Z.to_nat (n1 - 40))); crt_set_background k n2
    else if n1 =? 7 then crt_reverse_video
    else if n1 =? 39 then crt_set_background (Z.land CRT_DEF_ATTR 0x0F) 0
    else ansi_unknown
  else if c =? 65 then crt_set_cursor_xy (x s) (y s - MIN_ONE s n1)
  else if c =? 66 then crt_set_cursor_xy (x s) (y s + MIN_ONE s n1)
  else if c =? 67 then crt_set_cursor_xy (x s + MIN_ONE s n1) (y s)
  else if c =? 68 then crt_set_cursor_xy (x s - MIN_ONE s n1) (y s)
  else if c =? 75 then
    if n1 =? 1 then clear (Z.to_nat (x s)) line
    else if n1 =? 2 then clear (Z.to_nat (cols s)) line
    else clear (Z.to_nat (cols s - x s)) (line + x s)
  else if ((Crt.n1 (astat s) =? 25) && (c2 (astat s) =? 63))%bool then
    if c =? 104 then crt_cursor_on else if c =? 108 then crt_cursor_off else mret tt
  else if c =? 72 then crt_set_cursor_xy (MIN_ONE s n2 - 1) (MIN_ONE s n1 - 1)
  else ansi_unknown.
Definition crt_scroll_up : st scr unit := s ← get_crt; crt_scroll_to_line (scroll s - 10).
Definition crt_scroll_down : st scr unit := s ← get_crt; crt_scroll_to_line (scroll s + 10).

(** ** Characters *)
(** [memcpy] goes upwards, cell by cell. *)
Definition crt_lf : st scr unit :=
  s ← get_crt;
  let s := with_y s (u16 (y s - 1)) in
  b ← lift (memmove_up (buf s) 0 (Z.to_nat (cols s)) (Z.to_nat (cols s * y s)));
  put_crt (with_buf s b);;
  clear (Z.to_nat (cols s)) (y s * cols s).
Definition lf_below : st scr unit := s ← get_crt; if rows s * cols s <=? CRT_POS s then crt_lf else mret tt.
Definition crt_putc (c : Z) : st scr unit :=
  s ← get_crt;
  let st := ansi_stat_switch (astat s) c in
  put_crt (with_astat s st);;
  if negb (is_stat st ANSI_NONE) then (if is_stat st ANSI_IN_FIN then crt_handle_ansi c else mret tt)
  else
    s ← get_crt;
    (if cols s <? x s then put_crt (with_y (with_x s (x s mod cols s)) (u16 (y s + 1)));; lf_below else mret tt);;
    s ← get_crt;
    (if c =? 10 then put_crt (with_y s (u16 (y s + 1)));; lf_below
     else if c =? 13 then put_crt (with_x s 0)
     else if c =? 8 then
       let s := if ((x s =? 0) && (0 <? y s))%bool then with_y (with_x s (cols s)) (u16 (y s - 1)) else s in
       put_crt (with_x s (u16 (x s - 1)))
     else if c =? 9 then put_crt (with_x s (u16 (Z.land (x s + TAB_SPACES) (Z.lnot (TAB_SPACES - 1)))))
     else cell (CRT_POS s) (Z.lor c (attr s));; s ← get_crt; put_crt (with_x s (u16 (x s + 1))));;
    s ← get_crt; crt_set_cursor (CRT_POS s).
Fixpoint crt_puts (l : list Z) : st scr unit := match l with [] => mret tt | c :: l => crt_putc c;; crt_puts l end.
End Screen.
End Crt.
