(* ===== verification/CrtSpec.v ===== *)
(** * What the screen shows

    The escape sequences that the machine of src/ansi.c understands, the cells
    that src/crt.c may touch, and text as the lines of the screen. *)
From S2P Require Import Prelude CString Crt.
Import Crt.

Module CrtSpec.

(** ** Memory *)
Section Safety.
Context {P : Type} `{!Ports P}.
Notation scr := (scr P).

(** The errors of [m] satisfy [EP], and its results satisfy [Q]. *)
Section Errors.
Context (EP : err -> Prop).
Definition wp {A} (m : st scr A) (Q : A -> scr -> Prop) (s : scr) : Prop :=
  match m s with Ok (a, s') => Q a s' | Err e => EP e end.
Lemma wp_bind {A B} (m : st scr A) (f : A -> st scr B) Q s : wp m (fun a s' => wp (f a) Q s') s -> wp (m ≫= f) Q s.
Proof. unfold wp, mbind, st_bind. by destruct (m s) as [[a s']|]. Qed.
Lemma wp_ret {A} (a : A) (Q : A -> scr -> Prop) s : Q a s -> wp (mret a) Q s.
Proof. done. Qed.
Lemma wp_get (Q : crt -> scr -> Prop) s : Q (dev s) s -> wp get_crt Q s.
Proof. done. Qed.
Lemma wp_put x (Q : unit -> scr -> Prop) s : Q tt (Scr x (ports s)) -> wp (put_crt x) Q s.
Proof. done. Qed.
Lemma wp_out port b (Q : unit -> scr -> Prop) s : (forall p, Q tt (Scr (dev s) p)) -> wp (out port b) Q s.
Proof. intros H. apply H. Qed.
Lemma wp_in port (Q : Z -> scr -> Prop) s : (forall b p, Q b (Scr (dev s) p)) -> wp (inp port) Q s.
Proof. intros H. unfold wp, inp. st_run. destruct (inb port (ports s)) as [b p]. apply H. Qed.
Lemma wp_kassert b (Q : unit -> scr -> Prop) s : EP EAssert -> (b = true -> Q tt s) -> wp (kassert b) Q s.
Proof. intros HE H. destruct b; [by apply H|done]. Qed.
Lemma wp_rd {A} (l : list A) i (Q : A -> scr -> Prop) s : (i < length l)%nat -> (forall a, l !! i = Some a -> Q a s) -> wp (lift (rd l i)) Q s.
Proof. intros Hi H. destruct (lookup_lt_is_Some_2 _ _ Hi) as [a Ha]. unfold wp, lift. rewrite (proj2 (rd_Ok l i a) Ha). by apply H. Qed.
Lemma wp_mono {A} (m : st scr A) (Q Q' : A -> scr -> Prop) s : wp m Q s -> (forall a s', Q a s' -> Q' a s') -> wp m Q' s.
Proof. unfold wp. destruct (m s) as [[a s']|]; auto. Qed.
Lemma wp_cell i v (Q : unit -> scr -> Prop) s : 0 <= i < Z.of_nat (length (buf (dev s))) ->
  Q tt (Scr (with_buf (dev s) (<[Z.to_nat i := u16 v]> (buf (dev s)))) (ports s)) -> wp (cell i v) Q s.
Proof.
  intros Hi H. unfold wp, cell, get_crt. st_run. replace (i <? 0) with false by lia. rewrite wr_in by lia. exact H.
Qed.

(** The cells from 2008 on, which the screen never touches, are [m]. *)
Record screen_ok (m : list Z) (s : crt) : Prop := {
  so_cols : cols s = 80; so_rows : rows s = 25;
  so_len : length (buf s) = Z.to_nat ((CRT_END_ADDR - CRT_ADDR) / 2);
  so_x : 0 <= x s <= 88; so_y : 0 <= y s <= 24;
  so_rest : drop 2008 (buf s) = m
}.
Definition stays (m : list Z) : unit -> scr -> Prop := fun _ s => screen_ok m (dev s).

Lemma cell_ok m s i v : screen_ok m s -> 0 <= i <= 2007 -> screen_ok m (with_buf s (<[Z.to_nat i := u16 v]> (buf s))).
Proof.
  intros [Hc Hr Hl Hx Hy Hm] Hi. constructor; try done; cbn; [by rewrite length_insert|]. rewrite drop_insert_lt by lia. done.
Qed.
Lemma pos_memory m s : screen_ok m s -> Z.of_nat (length (buf s)) = 16384.
Proof. intros H. by rewrite (so_len _ _ H). Qed.
Lemma wp_clear m n i s (Q : unit -> scr -> Prop) : screen_ok m (dev s) -> 0 <= i -> i + Z.of_nat n <= 2008 ->
  (forall b, length b = length (buf (dev s)) -> drop 2008 b = m -> Q tt (Scr (with_buf (dev s) b) (ports s))) -> wp (clear n i) Q s.
Proof.
  revert i s. induction n as [|n IH]; intros i s Hs Hi Hn HQ; cbn [clear].
  - apply wp_ret. destruct s as [[? ? ? ? ? ? ? ?] ?]. apply (HQ _ eq_refl). apply Hs.
  - apply wp_bind, wp_get, wp_bind. pose proof (pos_memory _ _ Hs). apply wp_cell; [lia|].
    apply IH; [apply cell_ok; [done|lia]|lia|lia|]. cbn. intros b Hb. apply HQ. by rewrite Hb, length_insert.
Qed.
Lemma wp_set_cursor pos (Q : unit -> scr -> Prop) s : (forall p, Q tt (Scr (dev s) p)) -> wp (crt_set_cursor pos) Q s.
Proof. intros H. unfold crt_set_cursor. do 3 (apply wp_bind, wp_out; intros ?). apply wp_out. intros ?. apply H. Qed.

(** Changes of a state that keep [screen_ok]. *)
Lemma ok_attr m s a : screen_ok m s -> screen_ok m (with_attr s a).
Proof. by intros []. Qed.
Lemma ok_astat m s a : screen_ok m s -> screen_ok m (with_astat s a).
Proof. by intros []. Qed.
Lemma ok_x m s v : screen_ok m s -> 0 <= v <= 88 -> screen_ok m (with_x s v).
Proof. by intros []. Qed.
Lemma ok_y m s v : screen_ok m s -> 0 <= v <= 24 -> screen_ok m (with_y s v).
Proof. by intros []. Qed.
Lemma ok_buf m s b : screen_ok m s -> length b = length (buf s) -> drop 2008 b = m -> screen_ok m (with_buf s b).
Proof. intros [] H1 H2. constructor; try done. cbn. by rewrite H1. Qed.

Lemma set_cursor_xy_ok m a b s : EP EAssert -> screen_ok m (dev s) -> wp (crt_set_cursor_xy a b) (stays m) s.
Proof.
  intros HE Hs. unfold crt_set_cursor_xy. apply wp_bind, wp_kassert; [done|]. intros Hy. apply wp_bind, wp_get, wp_bind, wp_kassert; [done|]. intros Hx.
  apply wp_bind, wp_put, wp_set_cursor. intros p. unfold CRT_MAX_ROWS, CRT_ROWS in Hy. rewrite (so_cols _ _ Hs) in Hx.
  pose proof (u16_range a). pose proof (u16_range b). apply ok_y; [apply ok_x; [done|lia]|lia].
Qed.
Lemma scroll_to_line_ok m l s : screen_ok m (dev s) -> wp (crt_scroll_to_line l) (stays m) s.
Proof.
  intros Hs. unfold crt_scroll_to_line. apply wp_bind, wp_get. cbn zeta. apply wp_bind, wp_put. do 3 (apply wp_bind, wp_out; intros ?). apply wp_out. intros ?.
  by destruct Hs.
Qed.
Lemma set_color_ok m a b s : screen_ok m (dev s) -> wp (crt_set_color a b) (stays m) s.
Proof. intros Hs. unfold crt_set_color. apply wp_bind, wp_get, wp_put. by apply ok_attr. Qed.
Lemma set_background_ok m a b s : screen_ok m (dev s) -> wp (crt_set_background a b) (stays m) s.
Proof. intros Hs. unfold crt_set_background. apply wp_bind, wp_get, wp_put. by apply ok_attr. Qed.
Lemma reset_ok m s : screen_ok m (dev s) -> wp crt_reset (stays m) s.
Proof.
  intros Hs. unfold crt_reset. apply wp_bind, wp_get, wp_bind, wp_put, wp_bind. rewrite (so_cols _ _ Hs).
  assert (H0 : screen_ok m (with_attr (with_y (with_x (dev s) 0) 0) CRT_DEF_ATTR)) by (apply ok_attr, ok_y; [apply ok_x; [done|lia]|lia]).
  apply (wp_clear m); [exact H0|lia|vm_compute; discriminate|]. cbn [dev]. intros b Hl Hd. apply wp_bind, wp_set_cursor. intros p.
  apply scroll_to_line_ok. apply ok_buf; done.
Qed.
Lemma clear_line_ok m n i s : screen_ok m (dev s) -> 0 <= i -> i + Z.of_nat n <= 2008 -> wp (clear n i) (stays m) s.
Proof. intros Hs Hi Hn. apply (wp_clear m); [done..|]. intros b Hl Hd. by apply ok_buf. Qed.
(** The final characters of the sequences that move the cursor. *)
Definition moves_cursor (c : Z) : bool := ((65 <=? c) && (c <=? 68) || (c =? 72))%bool.
Lemma handle_ansi_ok m c s : (moves_cursor c = true -> EP EAssert) -> screen_ok m (dev s) -> wp (crt_handle_ansi c) (stays m) s.
Proof.
  intros HE Hs. pose proof Hs as [Hc Hr Hl Hx Hy Hm]. unfold crt_handle_ansi. apply wp_bind, wp_get. cbn zeta. rewrite Hc.
  repeat match goal with
  | |- wp (if ?b then _ else _) _ _ => destruct b eqn:?
  | |- wp (crt_set_cursor_xy _ _) _ _ => apply set_cursor_xy_ok; [apply HE; unfold moves_cursor; lia|done]
  | |- wp (crt_set_background _ _) _ _ => by apply set_background_ok
  | |- wp (clear _ _) _ _ => apply clear_line_ok; [done|lia|lia]
  end.
  - by apply reset_ok.
  - apply wp_put. by apply ok_attr.
  - apply wp_bind, wp_rd; [cbn; lia|]. intros k _. by apply set_color_ok.
  - apply wp_bind, wp_rd; [cbn; lia|]. intros k _. by apply set_background_ok.
  - apply wp_bind, wp_get, wp_bind. eapply wp_mono; [by apply set_color_ok|]. intros ? s'. apply set_background_ok.
  - by destruct s.
  - unfold crt_cursor_on. repeat first [apply wp_bind, wp_out; intros ?|apply wp_bind, wp_in; intros ? ?]. apply wp_out. intros ?. exact Hs.
  - unfold crt_cursor_off. apply wp_bind, wp_out. intros ?. apply wp_out. intros ?. exact Hs.
  - by apply wp_ret.
  - by destruct s.
Qed.

(** A line feed, where [y] may be one beyond the last line. *)
Lemma lf_ok m s : screen_ok m (with_y (dev s) 0) -> 1 <= y (dev s) <= 25 ->
  wp crt_lf (fun _ s' => screen_ok m (dev s') /\ x (dev s') = x (dev s)) s.
Proof.
  intros [Hc Hr Hl Hx _ Hm] Hy. cbn in Hc, Hr, Hl, Hx, Hm. unfold crt_lf. apply wp_bind, wp_get. cbn zeta. change (cols (with_y ?s ?v)) with (cols s).
  change (buf (with_y ?s ?v)) with (buf s). change (y (with_y ?s ?v)) with v. rewrite Hc, u16_small by lia.
  set (n := Z.to_nat (80 * (y (dev s) - 1))). assert (Hn : (n <= 1920)%nat) by (unfold n; lia).
  assert (Hlen : Z.of_nat (length (buf (dev s))) = 16384) by (by rewrite Hl).
  apply wp_bind. unfold wp at 1. unfold lift. rewrite memmove_up_spec by lia.
  set (b := splice _ _ _). assert (Hb : length b = length (buf (dev s)) /\ drop 2008 b = m).
  { unfold b. split.
    - rewrite length_splice; [done|]. rewrite length_take, length_drop. lia.
    - unfold splice. rewrite take_0. cbn [app]. rewrite drop_app_ge by (rewrite length_take, length_drop; lia).
      rewrite drop_drop, <- Hm, length_take, length_drop. f_equal. lia. }
  apply wp_bind, wp_put. destruct Hb as [Hb1 Hb2].
  assert (Hok : screen_ok m (with_buf (with_y (dev s) (y (dev s) - 1)) b)) by (constructor; cbn; try done; [by rewrite Hb1|lia]).
  apply (wp_clear m); [exact Hok|lia|lia|]. intros b' Hl' Hd'. split; [|done]. apply (ok_buf m _ b' Hok Hl' Hd').
Qed.
Lemma lf_below_ok m s : screen_ok m (with_y (dev s) 0) -> 0 <= y (dev s) <= 25 ->
  wp lf_below (fun _ s' => screen_ok m (dev s') /\ x (dev s') = x (dev s)) s.
Proof.
  intros Hs Hy. pose proof Hs as [Hc Hr Hl Hx _ Hm]. cbn in Hc, Hr, Hl, Hx, Hm. unfold lf_below. apply wp_bind, wp_get. unfold CRT_POS. rewrite Hc, Hr.
  destruct (Z.leb_spec (25 * 80) (80 * y (dev s) + x (dev s))) as [Hge|Hlt]; [apply lf_ok; [done|lia]|].
  apply wp_ret. split; [|done]. constructor; try done. lia.
Qed.

(** Before a character is shown, the cursor is at most at the end of a line. *)
Definition wrap : st scr unit :=
  s ← get_crt; if cols s <? x s then put_crt (with_y (with_x s (x s mod cols s)) (u16 (y s + 1)));; lf_below else mret tt.
Lemma wrap_ok m s : screen_ok m (dev s) -> wp wrap (fun _ s' => screen_ok m (dev s') /\ 0 <= x (dev s') <= 80 /\
  (x (dev s) <= 80 -> s' = s) /\ (80 < x (dev s) -> 0 < x (dev s'))) s.
Proof.
  intros Hs. pose proof Hs as [Hc Hr Hl Hx Hy Hm]. unfold wrap. apply wp_bind, wp_get. rewrite Hc. destruct (Z.ltb_spec 80 (x (dev s))).
  - pose proof (Z.mod_pos_bound (x (dev s)) 80 ltac:(lia)). rewrite u16_small by lia. apply wp_bind, wp_put.
    eapply wp_mono; [apply (lf_below_ok m); [by constructor; cbn; try done; lia|cbn; lia]|]. cbn. intros _ s' [H1 ->]. split_and!; [done|lia..|].
    intros _. pose proof (Z.div_mod (x (dev s)) 80 ltac:(lia)). assert (x (dev s) / 80 = 1) by (symmetry; apply (Z.div_unique_pos _ _ _ (x (dev s) - 80)); lia). lia.
  - apply wp_ret. split_and!; [done|lia|lia|done|lia].
Qed.
(** The action for a character, with the cursor on the line. *)
Definition show (c : Z) : st scr unit :=
  s ← get_crt;
  if c =? 10 then put_crt (with_y s (u16 (y s + 1)));; lf_below
  else if c =? 13 then put_crt (with_x s 0)
  else if c =? 8 then
    let s := if ((x s =? 0) && (0 <? y s))%bool then with_y (with_x s (cols s)) (u16 (y s - 1)) else s in
    put_crt (with_x s (u16 (x s - 1)))
  else if c =? 9 then put_crt (with_x s (u16 (Z.land (x s + TAB_SPACES) (Z.lnot (TAB_SPACES - 1)))))
  else cell (CRT_POS s) (Z.lor c (attr s));; s ← get_crt; put_crt (with_x s (u16 (x s + 1))).
Lemma tab_stop v : 0 <= v <= 80 -> 0 <= u16 (Z.land (v + TAB_SPACES) (Z.lnot (TAB_SPACES - 1))) <= 88.
Proof.
  intros Hv. unfold TAB_SPACES. change (Z.lnot (8 - 1)) with (Z.lnot (Z.ones 3)). rewrite <- Z.ldiff_land, Z.ldiff_ones_r by lia.
  rewrite Z.shiftr_div_pow2, Z.shiftl_mul_pow2 by lia. change (2 ^ 3) with 8. pose proof (Z.div_mod (v + 8) 8 ltac:(lia)).
  pose proof (Z.mod_pos_bound (v + 8) 8 ltac:(lia)). rewrite u16_small by lia. lia.
Qed.
Lemma show_ok m c s : screen_ok m (dev s) -> x (dev s) <= 80 -> (c = 8 -> 0 < x (dev s) \/ 0 < y (dev s)) -> wp (show c) (stays m) s.
Proof.
  intros Hs Hx80 Hb. pose proof Hs as [Hc Hr Hl Hx Hy Hm]. unfold show. apply wp_bind, wp_get.
  destruct (c =? 10); [|destruct (c =? 13); [|destruct (c =? 8) eqn:?; [|destruct (c =? 9)]]].
  - apply wp_bind, wp_put. rewrite u16_small by lia. eapply wp_mono; [apply (lf_below_ok m); [by constructor|cbn; lia]|]. by intros ? s' [].
  - apply wp_put. apply ok_x; [done|lia].
  - apply wp_put. cbn zeta. rewrite Hc. destruct ((x (dev s) =? 0) && (0 <? y (dev s)))%bool eqn:E.
    + to_prop. cbn. rewrite !u16_small by lia. constructor; cbn; try done; lia.
    + assert (0 < x (dev s)). { apply andb_false_iff in E. destruct (Hb ltac:(lia)); [done|]. destruct E; to_prop; lia. }
      rewrite u16_small by lia. apply ok_x; [done|lia].
  - apply wp_put. apply ok_x; [done|]. apply tab_stop. lia.
  - apply wp_bind. unfold CRT_POS. rewrite Hc. pose proof (pos_memory _ _ Hs). apply wp_cell; [lia|].
    apply wp_bind, wp_get, wp_put. cbn. rewrite (u16_small (x (dev s) + 1)) by lia. apply ok_x; [apply cell_ok; [done|lia]|cbn; lia].
Qed.
Lemma text_ok m c s : screen_ok m (dev s) -> (c = 8 -> 0 < x (dev s) \/ 0 < y (dev s)) ->
  wp (wrap;; show c;; s ← get_crt; crt_set_cursor (CRT_POS s)) (stays m) s.
Proof.
  intros Hs Hb. apply wp_bind. eapply wp_mono; [by apply (wrap_ok m)|]. cbn beta. intros _ s1 (H1 & Hx & Hsame & Hpos).
  apply wp_bind. eapply wp_mono; [apply (show_ok m); [done|lia|]|].
  - intros Hc. destruct (Z.leb_spec (x (dev s)) 80); [rewrite Hsame by done; by apply Hb|]. left. by apply Hpos.
  - intros ? s2 H2. apply wp_bind, wp_get, wp_set_cursor. intros p. exact H2.
Qed.
End Errors.

Lemma crt_putc_parts c s : let st := ansi_stat_switch (astat (dev s)) c in let s1 := Scr (with_astat (dev s) st) (ports s) in
  crt_putc c s = (if negb (is_stat st ANSI_NONE) then (if is_stat st ANSI_IN_FIN then crt_handle_ansi c else mret tt)
    else wrap;; show c;; s ← get_crt; crt_set_cursor (CRT_POS s)) s1.
Proof. reflexivity. Qed.

(** C21: whatever is written to the screen stays in the video memory.  A
    character, also one that ends an escape sequence with any numbers, leaves the
    cursor on one of the 25 lines, no further right than column 88, and changes
    no cell from the 2009th on (the cells 2001 to 2008 lie behind the screen of
    2000 cells and may be written, see [column_81_lost]); the only way it can
    fail is the assertion of a cursor movement that would leave the screen.  The
    exception is a backspace with the cursor in the first column of the first
    line. *)
Theorem crt_stays_in_memory m c s : screen_ok m (dev s) -> (c = 8 -> 0 < x (dev s) \/ 0 < y (dev s)) ->
  match crt_putc c s with
  | Ok (_, s') => screen_ok m (dev s')
  | Err e => e = EAssert /\ is_stat (ansi_stat_switch (astat (dev s)) c) ANSI_IN_FIN = true /\ moves_cursor c = true
  end.
Proof.
  intros Hs Hb. rewrite crt_putc_parts. cbn zeta. set (st := ansi_stat_switch (astat (dev s)) c).
  set (s1 := Scr (with_astat (dev s) st) (ports s)). assert (Hs1 : screen_ok m (dev s1)) by by apply ok_astat.
  destruct (is_stat st ANSI_NONE) eqn:E1; cbn [negb].
  - pose proof (text_ok (fun _ => False) m c s1 Hs1 Hb) as Hw. unfold wp, stays in Hw.
    match goal with H : match ?r with _ => _ end |- _ => by destruct r as [[[] s']|e] end.
  - destruct (is_stat st ANSI_IN_FIN) eqn:E2; [|exact Hs1].
    pose proof (handle_ansi_ok (fun e => e = EAssert /\ moves_cursor c = true) m c s1) as Hw. unfold wp, stays in Hw.
    destruct (crt_handle_ansi c s1) as [[[] s']|e]; [by apply Hw|]. by destruct Hw.
Qed.
(** ** Escape sequences *)
Lemma puts_app l k s : crt_puts (l ++ k) s = (crt_puts l;; crt_puts k) s.
Proof.
  revert s. induction l as [|c l IH]; intros s; [done|]. cbn [app crt_puts]. unfold mbind at 1 2 3, st_bind. 
  destruct (crt_putc c s) as [[[] s1]|e]; [|done]. exact (IH s1).
Qed.
(** The state [s] with the machine in [a]. *)
Definition in_ansi (s : scr) (a : ansi_stat) : scr := Scr (with_astat (dev s) a) (ports s).
Lemma putc_inside c a s : let st := ansi_stat_switch a c in stat st <> ANSI_NONE -> stat st <> ANSI_IN_FIN ->
  crt_putc c (in_ansi s a) = Ok (tt, in_ansi s st).
Proof.
  cbn zeta. intros H1 H2. rewrite crt_putc_parts. cbn [in_ansi dev with_astat astat ports]. unfold is_stat.
  destruct (stat (ansi_stat_switch a c)); done.
Qed.
Lemma puts_inside c l a s st : ansi_stat_switch a c = st -> stat st <> ANSI_NONE -> stat st <> ANSI_IN_FIN ->
  crt_puts (c :: l) (in_ansi s a) = crt_puts l (in_ansi s st).
Proof. intros <- H1 H2. cbn [crt_puts]. by rewrite (st_bind_eq _ _ _ _ _ (putc_inside c a s H1 H2)). Qed.

Definition decimal (v0 : Z) (ds : list Z) : Z := fold_left (fun v d => v * 10 + d) ds v0.
Definition chars (ds : list Z) : list Z := (fun d => d + 48) <$> ds.
Definition is_digit (d : Z) : Prop := 0 <= d <= 9.
Lemma decimal_bound v0 ds : Forall is_digit ds -> 0 <= v0 -> 0 <= decimal v0 ds < (v0 + 1) * 10 ^ Z.of_nat (length ds).
Proof.
  revert v0. induction ds as [|d ds IH]; intros v0 Hd Hv; [cbn; lia|]. apply Forall_cons in Hd as [H Hd]. unfold is_digit in H.
  cbn [decimal fold_left length]. destruct (IH (v0 * 10 + d) Hd ltac:(lia)) as [I1 I2]. split; [exact I1|].
  rewrite Nat2Z.inj_succ, Z.pow_succ_r by lia. unfold decimal in I2. nia.
Qed.
Lemma pow10_le n : (n <= 8)%nat -> 10 ^ Z.of_nat n <= 100000000.
Proof. intros. change 100000000 with (10 ^ 8). apply Z.pow_le_mono_r; lia. Qed.
Lemma digit_char d : is_digit d -> digit (d + 48) = true.
Proof. unfold is_digit, digit. lia. Qed.

(** The digits of a number, in a machine that has seen less than
    [ANSI_MAX_CHARS] characters. *)
Lemma switch_num1 a d : stat a = ANSI_IN_NUM1 -> 0 <= cnt a < 10 -> 0 <= n1 a < 100000000 -> is_digit d ->
  ansi_stat_switch a (d + 48) = Astat ANSI_IN_NUM1 (n1 a * 10 + d) (n2 a) (c1 a) (c2 a) (cnt a + 1).
Proof.
  destruct a as [st v1 v2 k1 k2 k]. cbn. intros -> Hk Hv Hd. unfold ansi_stat_switch. cbn [with_cnt cnt stat n1 n2 c1 c2]. rewrite u8_small by lia.
  unfold ANSI_MAX_CHARS. replace (10 <? k + 1) with false by lia. cbn. rewrite (digit_char d Hd). unfold is_digit in Hd.
  unfold with_n1. cbn. rewrite u32_small by lia. f_equal. lia.
Qed.
Lemma switch_num2 a d : stat a = ANSI_IN_NUM2 -> 0 <= cnt a < 10 -> 0 <= n2 a < 100000000 -> is_digit d ->
  ansi_stat_switch a (d + 48) = Astat ANSI_IN_NUM2 (n1 a) (n2 a * 10 + d) (c1 a) (c2 a) (cnt a + 1).
Proof.
  destruct a as [st v1 v2 k1 k2 k]. cbn. intros -> Hk Hv Hd. unfold ansi_stat_switch. cbn [with_cnt cnt stat n1 n2 c1 c2]. rewrite u8_small by lia.
  unfold ANSI_MAX_CHARS. replace (10 <? k + 1) with false by lia. cbn. rewrite (digit_char d Hd). unfold is_digit in Hd.
  unfold with_n2. cbn. rewrite u32_small by lia. f_equal. lia.
Qed.
Lemma puts_digits1 ds l s v1 v2 k1 k2 k : Forall is_digit ds -> 0 <= k -> k + Z.of_nat (length ds) <= 10 -> 0 <= v1 ->
  (v1 + 1) * 10 ^ Z.of_nat (length ds) <= 100000000 ->
  crt_puts (chars ds ++ l) (in_ansi s (Astat ANSI_IN_NUM1 v1 v2 k1 k2 k)) =
  crt_puts l (in_ansi s (Astat ANSI_IN_NUM1 (decimal v1 ds) v2 k1 k2 (k + Z.of_nat (length ds)))).
Proof.
  revert v1 k. induction ds as [|d ds IH]; intros v1 k Hd Hk Hn Hv Hb; [cbn; by rewrite Z.add_0_r|].
  apply Forall_cons in Hd as [H Hd]. cbn [length] in *. rewrite Nat2Z.inj_succ, Z.pow_succ_r in Hb by lia.
  pose proof (Z.pow_pos_nonneg 10 (Z.of_nat (length ds)) ltac:(lia) ltac:(lia)). unfold is_digit in *. cbn [chars fmap list_fmap app].
  erewrite puts_inside; [|apply switch_num1; cbn; [done|lia|nia|done]|done|done]. cbn [n1 n2 c1 c2 cnt].
  unfold chars in IH. rewrite IH; [|done|lia|lia|lia|nia]. cbn [decimal fold_left]. do 3 f_equal. lia.
Qed.
Lemma puts_digits2 ds l s v1 v2 k1 k2 k : Forall is_digit ds -> 0 <= k -> k + Z.of_nat (length ds) <= 10 -> 0 <= v2 ->
  (v2 + 1) * 10 ^ Z.of_nat (length ds) <= 100000000 ->
  crt_puts (chars ds ++ l) (in_ansi s (Astat ANSI_IN_NUM2 v1 v2 k1 k2 k)) =
  crt_puts l (in_ansi s (Astat ANSI_IN_NUM2 v1 (decimal v2 ds) k1 k2 (k + Z.of_nat (length ds)))).
Proof.
  revert v2 k. induction ds as [|d ds IH]; intros v2 k Hd Hk Hn Hv Hb; [cbn; by rewrite Z.add_0_r|].
  apply Forall_cons in Hd as [H Hd]. cbn [length] in *. rewrite Nat2Z.inj_succ, Z.pow_succ_r in Hb by lia.
  pose proof (Z.pow_pos_nonneg 10 (Z.of_nat (length ds)) ltac:(lia) ltac:(lia)). unfold is_digit in *. cbn [chars fmap list_fmap app].
  erewrite puts_inside; [|apply switch_num2; cbn; [done|lia|nia|done]|done|done]. cbn [n1 n2 c1 c2 cnt].
  unfold chars in IH. rewrite IH; [|done|lia|lia|lia|nia]. cbn [decimal fold_left]. do 3 f_equal. lia.
Qed.
(** [ESC \[ n1 ; n2 f], with both, the first or none of the numbers. *)
Definition sequence (ns : list (list Z)) (f : Z) : list Z :=
  ANSI_ESC :: ANSI_BRA :: match ns with [] => [f] | [ds] => chars ds ++ [f] | ds :: es :: _ => chars ds ++ 59 :: chars es ++ [f] end.
Definition number (ns : list (list Z)) (i : nat) : Z := decimal 0 (default [] (ns !! i)).
Definition final (c : Z) : Prop := 65 <= c <= 90 \/ 97 <= c <= 122 \/ c = 126.
(** No sequence is open, and no number is left of a broken one. *)
Definition fresh (a : ansi_stat) : Prop := a = ansi_zero \/ stat a = ANSI_IN_FIN.
Definition well_formed (ns : list (list Z)) : Prop :=
  (length ns <= 2)%nat /\ Forall (Forall is_digit) ns /\ (forall ds, ns !! 0%nat = Some ds -> ds <> []).

Lemma switch_text a c : fresh a -> c <> ANSI_ESC -> ansi_stat_switch a c = ansi_zero.
Proof.
  intros Ha Hc. apply Z.eqb_neq in Hc. destruct Ha as [-> | H]; [unfold ansi_stat_switch; cbn; by rewrite Hc|].
  destruct a as [st v w k1 k2 k]. cbn in H. subst st. unfold ansi_stat_switch. cbn. by rewrite Hc.
Qed.
Lemma switch_esc a : fresh a -> exists k, (k = 0 \/ k = 1) /\ ansi_stat_switch a ANSI_ESC = Astat ANSI_IN_ESC 0 0 0 0 k.
Proof.
  intros [-> | H]; [by exists 1; auto|]. exists 0. split; [auto|]. destruct a as [st v w k1 k2 k]. cbn in H. by subst st.
Qed.
Lemma switch_first v k1 k2 k d : 0 <= k < 10 -> is_digit d ->
  ansi_stat_switch (Astat ANSI_IN_BRA 0 v k1 k2 k) (d + 48) = Astat ANSI_IN_NUM1 d v k1 k2 (k + 1).
Proof.
  intros Hk Hd. unfold ansi_stat_switch. cbn [with_cnt cnt stat n1 n2 c1 c2]. rewrite u8_small by lia. unfold ANSI_MAX_CHARS.
  replace (10 <? k + 1) with false by lia. cbn. rewrite (digit_char d Hd). unfold with_stat, with_n1. cbn. f_equal. lia.
Qed.
Lemma switch_semicolon v w k1 k2 k : 0 <= k < 10 ->
  ansi_stat_switch (Astat ANSI_IN_NUM1 v w k1 k2 k) 59 = Astat ANSI_IN_NUM2 v 0 k1 k2 (k + 1).
Proof.
  intros Hk. unfold ansi_stat_switch. cbn [with_cnt cnt stat n1 n2 c1 c2]. rewrite u8_small by lia. unfold ANSI_MAX_CHARS.
  by replace (10 <? k + 1) with false by lia.
Qed.
Lemma switch_final st v w k1 k2 k f : in_sequence (Astat st v w k1 k2 k) = true -> 0 <= k < 10 -> final f ->
  ansi_stat_switch (Astat st v w k1 k2 k) f = Astat ANSI_IN_FIN v w f k2 (k + 1).
Proof.
  intros Hst Hk Hf. unfold ansi_stat_switch. cbn [with_cnt cnt stat n1 n2 c1 c2]. rewrite u8_small by lia. unfold ANSI_MAX_CHARS.
  replace (10 <? k + 1) with false by lia. unfold final in Hf.
  assert (Hd : digit f = false) by (unfold digit; lia). assert (E : ((65 <=? f) && (f <=? 90) || (97 <=? f) && (f <=? 122) || (f =? 126))%bool = true) by lia.
  destruct st; try discriminate; cbn; rewrite ?Hd, ?E; replace (f =? 63) with false by lia; replace (f =? 59) with false by lia; reflexivity.
Qed.
Lemma puts_final st v w k1 k2 k f s : in_sequence (Astat st v w k1 k2 k) = true -> 0 <= k < 10 -> final f ->
  crt_puts [f] (in_ansi s (Astat st v w k1 k2 k)) = crt_handle_ansi f (in_ansi s (Astat ANSI_IN_FIN v w f k2 (k + 1))).
Proof.
  intros Hst Hk Hf. assert (E : crt_putc f (in_ansi s (Astat st v w k1 k2 k)) = crt_handle_ansi f (in_ansi s (Astat ANSI_IN_FIN v w f k2 (k + 1)))).
  { rewrite crt_putc_parts. cbn [in_ansi dev with_astat astat ports]. rewrite switch_final by done. reflexivity. }
  cbn [crt_puts]. unfold mbind at 1, st_bind. rewrite E. by destruct (crt_handle_ansi f _) as [[[] s']|e].
Qed.
Lemma in_ansi_id s : s = in_ansi s (astat (dev s)).
Proof. by destruct s as [[] ?]. Qed.
Lemma length_chars ds : length (chars ds) = length ds.
Proof. apply length_fmap. Qed.

Lemma sequence_run ns f s : fresh (astat (dev s)) -> well_formed ns -> final f -> (length (sequence ns f) <= 10)%nat ->
  exists k, crt_puts (sequence ns f) s = crt_handle_ansi f (in_ansi s (Astat ANSI_IN_FIN (number ns 0) (number ns 1) f 0 k)).
Proof.
  intros Ha (Hns & Hd & Hne) Hf Hl. destruct (switch_esc _ Ha) as (k & Hk & Hesc). assert (E : forall l, crt_puts l s = crt_puts l (in_ansi s (astat (dev s)))) by (intros l; by rewrite <- in_ansi_id).
  rewrite E. unfold sequence in *. cbn [length] in Hl.
  rewrite (puts_inside _ _ _ _ _ Hesc) by done.
  rewrite (puts_inside ANSI_BRA _ _ _ (Astat ANSI_IN_BRA 0 0 0 0 (k + 1))); [|by destruct Hk as [-> | ->]|done|done].
  assert (Hb : forall n, (n <= 7)%nat -> 100000000 >= 10 * 10 ^ Z.of_nat n).
  { intros n Hn. pose proof (Z.pow_le_mono_r 10 (Z.of_nat n) 7 ltac:(lia) ltac:(lia)). change (10 ^ 7) with 10000000 in H. lia. }
  destruct ns as [|[|d ds] [|es [|]]]; cbn [length] in Hns; try lia; try (by destruct (Hne [] eq_refl)).
  - exists (k + 2). rewrite puts_final by (done || lia). unfold number. cbn. do 3 f_equal. lia.
  - apply Forall_cons in Hd as [Hd _]. apply Forall_cons in Hd as [Hd Hds]. rewrite length_app, length_chars in Hl. cbn [length] in Hl.
    pose proof (Hb (length ds) ltac:(lia)). pose proof (Z.pow_pos_nonneg 10 (Z.of_nat (length ds)) ltac:(lia) ltac:(lia)). unfold is_digit in Hd.
    cbn [chars fmap list_fmap app]. rewrite (puts_inside _ _ _ _ _ (switch_first 0 0 0 (k + 1) d ltac:(lia) Hd)) by done.
    change (list_fmap _ _ (fun d0 => d0 + 48) ds) with (chars ds).
    rewrite puts_digits1 by (done || lia || nia). eexists. rewrite puts_final by (done || lia). reflexivity.
  - apply Forall_cons in Hd as [Hd Hes]. apply Forall_cons in Hes as [Hes _]. apply Forall_cons in Hd as [Hd Hds].
    rewrite !length_app, length_chars in Hl. cbn [length] in Hl. rewrite length_app, length_chars in Hl. cbn [length] in Hl.
    pose proof (Hb (length ds) ltac:(lia)). pose proof (Z.pow_pos_nonneg 10 (Z.of_nat (length ds)) ltac:(lia) ltac:(lia)). unfold is_digit in Hd.
    pose proof (Hb (length es) ltac:(lia)). pose proof (Z.pow_pos_nonneg 10 (Z.of_nat (length es)) ltac:(lia) ltac:(lia)).
    cbn [chars fmap list_fmap app]. rewrite (puts_inside _ _ _ _ _ (switch_first 0 0 0 (k + 1) d ltac:(lia) Hd)) by done.
    change (list_fmap _ _ (fun d0 => d0 + 48) ds) with (chars ds). change (list_fmap _ _ (fun d0 => d0 + 48) es) with (chars es).
    rewrite puts_digits1 by (done || lia || nia). erewrite (puts_inside 59); [|apply switch_semicolon; lia|done|done].
    rewrite puts_digits2 by (done || lia || nia). eexists. rewrite puts_final by (done || lia). reflexivity.
Qed.
(** C22: when no escape sequence is open and no number of a broken one is left,
    a sequence of at most [ANSI_MAX_CHARS] characters, with no number, one or two
    numbers of any digits, does what its last character says with exactly these
    numbers, and nothing is shown of it; so, on a screen of 80 columns,
    [ESC \[ line ; column H] with a line from 1 to 25 and a column from 1 to 80
    puts the cursor there and changes no cell; after the sequence a character of
    text is text again. *)
Theorem ansi_sequence_executes ns f s : fresh (astat (dev s)) -> well_formed ns -> final f -> (length (sequence ns f) <= 10)%nat ->
  (exists k, let a := Astat ANSI_IN_FIN (number ns 0) (number ns 1) f 0 k in
     crt_puts (sequence ns f) s = crt_handle_ansi f (in_ansi s a) /\ fresh a /\
     forall c, c <> ANSI_ESC -> stat (ansi_stat_switch a c) = ANSI_NONE) /\
  (f = 72 -> cols (dev s) = 80 -> 1 <= number ns 0 <= 25 -> 1 <= number ns 1 <= 80 ->
     exists a p, crt_puts (sequence ns f) s =
       Ok (tt, Scr (Crt (buf (dev s)) (attr (dev s)) 80 (rows (dev s)) (number ns 1 - 1) (number ns 0 - 1) (scroll (dev s)) a) p)).
Proof.
  intros Ha Hns Hf Hl. destruct (sequence_run ns f s Ha Hns Hf Hl) as (k & Hrun). split.
  - exists k. cbn zeta. split; [exact Hrun|]. assert (Hfr : fresh (Astat ANSI_IN_FIN (number ns 0) (number ns 1) f 0 k)) by by right.
    split; [exact Hfr|]. intros c Hc. by rewrite (switch_text _ _ Hfr Hc).
  - intros -> Hcol H0 H1. rewrite Hrun. unfold crt_handle_ansi, get_crt. st_run. cbn [in_ansi dev with_astat astat Crt.n1 Crt.n2 Z.eqb Pos.eqb].
    assert (E : ((number ns 0 =? 25) && (c2 (Astat ANSI_IN_FIN (number ns 0) (number ns 1) 72 0 k) =? 63))%bool = false) by (cbn; apply andb_false_r).
    rewrite E. unfold crt_set_cursor_xy, MIN_ONE, get_crt. st_run. cbn [with_astat astat Crt.n1 dev].
    replace (number ns 0 =? 0) with false by lia. rewrite !s32_small by lia. rewrite !u16_small by lia.
    unfold CRT_MAX_ROWS, CRT_ROWS. replace (number ns 0 - 1 <? 25) with true by lia. st_run. cbn [with_astat cols dev ports].
    change (cols (dev (in_ansi s _))) with (cols (dev s)). rewrite Hcol. replace (number ns 1 - 1 <? 80) with true by lia. st_run. eexists _, _. unfold crt_set_cursor, out. st_run.
    cbn [dev ports put_crt]. unfold with_x, with_y. cbn. rewrite <- Hcol. reflexivity.
Qed.

(** ** Text *)
Definition glyph (a c : Z) : Z := u16 (Z.lor c a).
Definition blank_row (a : Z) : list Z := replicate 80 (glyph a 32).
(** A line of text, filled up with blanks. *)
Definition row (a : Z) (t : list Z) : list Z := (glyph a <$> t) ++ replicate (80 - length t) (glyph a 32).
Definition printable (c : Z) : Prop := 32 <= c < 127.
(** The 25 lines after [ls] have been written: the last 24 of them, then blanks. *)
Definition view (a : Z) (ls : list (list Z)) : list (list Z) :=
  let shown := drop (length ls - 24) (row a <$> ls) in shown ++ replicate (25 - length shown) (blank_row a).

Lemma concat_insert {A} (n : nat) (rs : list (list A)) (j i : nat) v r : Forall (fun r => length r = n) rs -> rs !! j = Some r -> (i < n)%nat ->
  <[(n * j + i)%nat := v]> (concat rs) = concat (<[j := <[i := v]> r]> rs).
Proof.
  revert j. induction rs as [|q rs IH]; intros j Hf Hj Hi; [done|]. apply Forall_cons in Hf as [Hq Hf]. destruct j as [|j].
  - injection Hj as ->. rewrite Nat.mul_0_r. cbn. by rewrite insert_app_l by lia.
  - cbn [concat insert list_insert]. rewrite <- IH by done. rewrite insert_app_r_alt by (rewrite Hq; lia). f_equal. f_equal. lia.
Qed.
Lemma length_concat {A} n (rs : list (list A)) : Forall (fun r => length r = n) rs -> length (concat rs) = (n * length rs)%nat.
Proof. induction 1 as [|r rs Hr _ IH]; [cbn; lia|]. cbn [concat length]. rewrite length_app, Hr, IH. lia. Qed.

(** The screen is [rs], the cursor at ([i], [j]). *)
Record shows (m : list Z) (a : Z) (rs : list (list Z)) (i j : Z) (s : crt) : Prop := {
  sh_ok : screen_ok m s; sh_attr : attr s = a; sh_fresh : fresh (astat s);
  sh_rows : length rs = 25%nat /\ Forall (fun r => length r = 80%nat) rs;
  sh_buf : take 2000 (buf s) = concat rs;
  sh_pos : x s = i /\ y s = j
}.
Lemma length_memory m s : screen_ok m s -> (2008 < length (buf s))%nat.
Proof. intros H. pose proof (pos_memory _ _ H). lia. Qed.

(** The characters of a line go through the whole of [crt_putc]. *)
Lemma putc_text m a rs i j c s : shows m a rs i j (dev s) -> c <> ANSI_ESC -> i <= 80 ->
  crt_putc c s = (show c;; s ← get_crt; crt_set_cursor (CRT_POS s)) (in_ansi s ansi_zero).
Proof.
  intros [Hok Ha Hf Hr Hb [Hx Hy]] Hc Hi. rewrite crt_putc_parts, switch_text by done. cbn zeta. change (is_stat ansi_zero ANSI_NONE) with true.
  cbn [negb]. unfold wrap. unfold mbind at 1, st_bind. unfold get_crt at 1. st_run. cbn [dev with_astat cols x].
  rewrite (so_cols _ _ Hok), Hx. replace (80 <? i) with false by lia. reflexivity.
Qed.
Lemma putc_printable m a rs r i j c s : shows m a rs i j (dev s) -> printable c -> 0 <= i < 80 -> rs !! Z.to_nat j = Some r ->
  exists s', crt_putc c s = Ok (tt, s') /\ shows m a (<[Z.to_nat j := <[Z.to_nat i := glyph a c]> r]> rs) (i + 1) j (dev s').
Proof.
  intros Hs Hc Hi Hr. rewrite (putc_text m a rs i j) by (try done; unfold printable, ANSI_ESC in *; lia).
  destruct Hs as [Hok Ha Hf [Hl Hlr] Hb [Hx Hy]]. pose proof (so_y _ _ Hok). pose proof (length_memory _ _ Hok). unfold printable in Hc.
  unfold show. replace (c =? 10) with false by lia. replace (c =? 13) with false by lia. replace (c =? 8) with false by lia. replace (c =? 9) with false by lia.
  unfold cell, get_crt. st_run. cbn [in_ansi dev with_astat]. unfold CRT_POS. cbn [cols x y with_astat buf attr]. rewrite (so_cols _ _ Hok), Hx, Hy, Ha.
  replace (80 * j + i <? 0) with false by lia. rewrite wr_in by lia. unfold put_crt. st_run. cbn [dev x with_buf with_astat].
  rewrite Hx, (u16_small (i + 1)) by lia.
  eexists. split; [reflexivity|]. cbn [dev put_crt].
  assert (Hok2 : screen_ok m (with_x (with_buf (with_astat (dev s) ansi_zero) (<[Z.to_nat (80 * j + i) := u16 (Z.lor c a)]> (buf (dev s)))) (i + 1))).
  { apply ok_x; [|lia]. apply (cell_ok m (with_astat (dev s) ansi_zero)); [by apply ok_astat|lia]. }
  constructor; [exact Hok2|done|by left| | |].
  - rewrite length_insert. split; [done|]. apply Forall_insert; [done|]. rewrite length_insert. by apply (Forall_lookup_1 _ _ _ _ Hlr Hr).
  - cbn [buf with_x with_buf]. rewrite take_insert_lt by lia. rewrite Hb. replace (Z.to_nat (80 * j + i)) with (80 * Z.to_nat j + Z.to_nat i)%nat by lia.
    apply concat_insert; [done|done|lia].
  - cbn. done.
Qed.
Lemma putc_cr m a rs i j s : shows m a rs i j (dev s) -> i <= 80 -> exists s', crt_putc 13 s = Ok (tt, s') /\ shows m a rs 0 j (dev s').
Proof.
  intros Hs Hi. rewrite (putc_text m a rs i j) by done. destruct Hs as [Hok Ha Hf Hr Hb [Hx Hy]]. eexists. split; [reflexivity|].
  constructor; try done; [|by left]. apply ok_x; [by apply ok_astat|lia].
Qed.
(** [clear] in memory. *)
Lemma clear_run n i (s : scr) : 0 <= i -> i + Z.of_nat n <= Z.of_nat (length (buf (dev s))) ->
  clear n i s = Ok (tt, Scr (with_buf (dev s) (splice (buf (dev s)) (Z.to_nat i) (replicate n (glyph (attr (dev s)) 32)))) (ports s)).
Proof.
  revert i s. induction n as [|n IH]; intros i s Hi Hn; cbn [clear replicate].
  - rewrite splice_nil. by destruct s as [[] ?].
  - unfold get_crt, cell, put_crt. st_run. cbn [dev]. replace (i <? 0) with false by lia. unfold get_crt. st_run. rewrite wr_in by lia. st_run. cbn [ports].
    rewrite IH by (cbn; rewrite ?length_insert; lia). cbn [dev buf with_buf attr ports].
    rewrite <- splice_cons by (rewrite length_replicate; lia). replace (Z.to_nat (i + 1)) with (Datatypes.S (Z.to_nat i)) by lia. done.
Qed.
Lemma clear_oob n i (s : scr) : 0 <= i <= Z.of_nat (length (buf (dev s))) -> Z.of_nat (length (buf (dev s))) < i + Z.of_nat n -> clear n i s = Err EOob.
Proof.
  revert i s. induction n as [|n IH]; intros i s Hi Hn; [lia|]. cbn [clear]. unfold get_crt, cell, put_crt. st_run.
  replace (i <? 0) with false by lia. unfold get_crt. st_run. destruct (decide (i < Z.of_nat (length (buf (dev s))))) as [Hl|Hl].
  - rewrite wr_in by lia. st_run. apply IH; cbn; rewrite length_insert; lia.
  - unfold wr. by rewrite decide_False by lia.
Qed.
Lemma concat_drop {A} n (rs : list (list A)) : Forall (fun r => length r = n) rs -> drop n (concat rs) = concat (drop 1 rs).
Proof. intros [|r q Hr _]; [by destruct n|]. cbn [concat drop]. by rewrite drop_app_length', drop_0. Qed.
(** The cells after a line feed on the last line. *)
Lemma scrolled (m : list Z) rs g b : length rs = 25%nat -> Forall (fun r => length r = 80%nat) rs -> take 2000 b = concat rs -> drop 2008 b = m -> (2008 < length b)%nat ->
  let b' := splice (splice b 0 (take 1920 (drop 80 b))) 1920 (replicate 80 g) in
  take 2000 b' = concat (drop 1 rs ++ [replicate 80 g]) /\ drop 2008 b' = m /\ length b' = length b.
Proof.
  intros Hl Hlr Hb Hm Hlen. cbn zeta. assert (HB : take 1920 (drop 80 b) = concat (drop 1 rs)).
  { rewrite <- (concat_drop 80) by done. rewrite <- Hb, skipn_firstn_comm. done. }
  rewrite HB. assert (Hlc : length (concat (drop 1 rs)) = 1920%nat).
  { rewrite (length_concat 80) by by apply Forall_drop. rewrite length_drop, Hl. reflexivity. }
  assert (E : splice (splice b 0 (concat (drop 1 rs))) 1920 (replicate 80 g) = (concat (drop 1 rs) ++ replicate 80 g) ++ drop 2000 b).
  { unfold splice. rewrite take_0, Hlc, length_replicate. cbn [app]. rewrite (take_app_length' (concat (drop 1 rs)) _ 1920) by done.
    rewrite (drop_app_ge (concat (drop 1 rs))) by (rewrite Hlc; lia). by rewrite Hlc, drop_drop, app_assoc. }
  assert (Hl2 : length (concat (drop 1 rs) ++ replicate 80 g) = 2000%nat) by (by rewrite length_app, Hlc, length_replicate).
  rewrite E. split_and!.
  - rewrite take_app_length' by done. rewrite concat_app. cbn [concat]. by rewrite app_nil_r.
  - rewrite drop_app_ge by (rewrite Hl2; lia). by rewrite Hl2, drop_drop.
  - rewrite length_app, Hl2, length_drop. lia.
Qed.
Lemma putc_lf m a rs j s : shows m a rs 0 j (dev s) ->
  exists s', crt_putc 10 s = Ok (tt, s') /\
    (if j <? 24 then shows m a rs 0 (j + 1) (dev s') else shows m a (drop 1 rs ++ [blank_row a]) 0 24 (dev s')).
Proof.
  intros Hs. rewrite (putc_text m a rs 0 j) by (done || lia). destruct Hs as [Hok Ha Hf [Hl Hlr] Hb [Hx Hy]].
  pose proof (so_y _ _ Hok). pose proof (length_memory _ _ Hok). unfold show. change (10 =? 10) with true. cbn iota.
  unfold lf_below, crt_lf, get_crt, put_crt. st_run. cbn [in_ansi dev with_astat y with_y]. unfold CRT_POS. cbn [cols rows x y with_y with_astat].
  rewrite (so_cols _ _ Hok), (so_rows _ _ Hok), Hx, Hy, !(u16_small (j + 1)) by lia.
  destruct (Z.ltb_spec j 24) as [Hj|Hj].
  - replace (25 * 80 <=? 80 * (j + 1) + 0) with false by lia. eexists. split; [reflexivity|].
    constructor; try done; [|by left]. apply ok_y; [by apply ok_astat|lia].
  - replace (25 * 80 <=? 80 * (j + 1) + 0) with true by lia. replace j with 24 by lia. cbn [dev with_y y cols buf with_astat].
    rewrite (so_cols _ _ Hok). change (u16 (24 + 1 - 1)) with 24. change (Z.to_nat 80) with 80%nat. change (Z.to_nat (80 * 24)) with 1920%nat.
    rewrite memmove_up_spec by lia. cbn iota. rewrite clear_run; cbn [dev buf with_buf with_y attr ports with_astat];
      [|lia|rewrite length_splice by (rewrite length_take, length_drop; lia); lia].
    change (Z.to_nat (24 * 80)) with 1920%nat. rewrite Ha.
    destruct (scrolled m rs (glyph a 32) (buf (dev s)) Hl Hlr Hb (so_rest _ _ Hok) ltac:(done)) as (H1 & H2 & H3).
    set (b := splice (splice _ _ _) _ _) in *. eexists. split; [reflexivity|]. cbn [dev].
    constructor; [|done|by left| |exact H1|done].
    + constructor; cbn; [apply Hok|apply Hok|rewrite H3; apply Hok|rewrite Hx; lia|lia|done].
    + rewrite length_app, length_drop, Hl. split; [done|]. apply Forall_app. split; [by apply Forall_drop|]. by repeat constructor.
Qed.
Lemma puts_cons c l s s' : crt_putc c s = Ok (tt, s') -> crt_puts (c :: l) s = crt_puts l s'.
Proof. intros H. cbn [crt_puts]. by rewrite (st_bind_eq _ _ _ _ _ H). Qed.
Lemma puts_printable m a rs r i j t l s : shows m a rs i j (dev s) -> Forall printable t -> 0 <= i -> i + Z.of_nat (length t) <= 80 ->
  rs !! Z.to_nat j = Some r ->
  exists s', crt_puts (t ++ l) s = crt_puts l s' /\
    shows m a (<[Z.to_nat j := splice r (Z.to_nat i) (glyph a <$> t)]> rs) (i + Z.of_nat (length t)) j (dev s').
Proof.
  revert rs r i s. induction t as [|c t IH]; intros rs r i s Hs Ht Hi Hl Hr.
  - exists s. rewrite Z.add_0_r. cbn [fmap list_fmap app]. by rewrite splice_nil, list_insert_id by done.
  - apply Forall_cons in Ht as [Hc Ht]. cbn [length] in Hl. assert (Hlr : length r = 80%nat) by (by apply (Forall_lookup_1 _ _ _ _ (proj2 (sh_rows _ _ _ _ _ _ Hs)) Hr)).
    apply lookup_lt_Some in Hr as Hj.
    destruct (putc_printable m a rs r i j c s Hs Hc ltac:(lia) Hr) as (s1 & H1 & Hs1). cbn [app]. rewrite (puts_cons _ _ _ _ H1).
    destruct (IH _ (<[Z.to_nat i := glyph a c]> r) (i + 1) s1 Hs1 Ht ltac:(lia) ltac:(lia)) as (s2 & H2 & Hs2); [by apply list_lookup_insert_eq|].
    exists s2. split; [exact H2|]. rewrite list_insert_insert_eq in Hs2. replace (Z.to_nat (i + 1)) with (Datatypes.S (Z.to_nat i)) in Hs2 by lia.
    rewrite splice_cons in Hs2 by (rewrite length_fmap; lia). cbn [fmap list_fmap length].
    replace (i + Z.of_nat (Datatypes.S (length t))) with (i + 1 + Z.of_nat (length t)) by lia. exact Hs2.
Qed.
Lemma row_splice a t : (length t <= 80)%nat -> splice (blank_row a) 0 (glyph a <$> t) = row a t.
Proof. intros H. unfold splice, blank_row, row. rewrite take_0, length_fmap. cbn [app plus]. by rewrite drop_replicate. Qed.

(** The view while lines are added. *)
Lemma view_cursor a ls : view a ls !! Nat.min (length ls) 24 = Some (blank_row a).
Proof.
  unfold view. rewrite lookup_app_r by (rewrite length_drop, length_fmap; lia). apply lookup_replicate_2. rewrite length_drop, length_fmap. lia.
Qed.
Lemma view_snoc a ls t :
  view a (ls ++ [t]) = let rs := <[Nat.min (length ls) 24 := row a t]> (view a ls) in
    if decide (length ls < 24)%nat then rs else drop 1 rs ++ [blank_row a].
Proof.
  unfold view. set (sh := drop (length ls - 24) (row a <$> ls)). assert (Hsh : length sh = Nat.min (length ls) 24) by (unfold sh; rewrite length_drop, length_fmap; lia).
  rewrite <- Hsh. cbn zeta. rewrite (insert_app_r_alt sh) by lia. rewrite Nat.sub_diag.
  replace (25 - length sh)%nat with (Datatypes.S (24 - length sh)) by lia. cbn [replicate insert list_insert].
  rewrite fmap_app, length_app. cbn [length fmap list_fmap]. case_decide as Hn.
  - replace (length ls + 1 - 24)%nat with 0%nat by lia. assert (E : sh = row a <$> ls) by (unfold sh; by replace (length ls - 24)%nat with 0%nat by lia).
    rewrite drop_0, <- E, length_app. cbn [length]. replace (25 - (length sh + 1))%nat with (24 - length sh)%nat by lia. by rewrite <- app_assoc.
  - assert (E : drop (length ls + 1 - 24) ((row a <$> ls) ++ [row a t]) = drop 1 sh ++ [row a t]).
    { unfold sh. rewrite drop_drop, drop_app_le by (rewrite length_fmap; lia). do 2 f_equal. lia. }
    rewrite E, length_app, length_drop. cbn [length]. replace (24 - length sh)%nat with 0%nat by lia.
    replace (25 - (length sh - 1 + 1))%nat with 1%nat by lia. cbn [replicate]. rewrite drop_app_le by lia. by rewrite <- app_assoc.
Qed.

(** The text of the lines, as the terminal sends it. *)
Definition text (ls : list (list Z)) : list Z := concat (map (fun t => t ++ [13; 10]) ls).
Definition line_ok (t : list Z) : Prop := Forall printable t /\ (length t <= 80)%nat.
Lemma puts_line m a ls t l s : shows m a (view a ls) 0 (Z.min (Z.of_nat (length ls)) 24) (dev s) -> line_ok t ->
  exists s', crt_puts ((t ++ [13; 10]) ++ l) s = crt_puts l s' /\
    shows m a (view a (ls ++ [t])) 0 (Z.min (Z.of_nat (length (ls ++ [t]))) 24) (dev s').
Proof.
  intros Hs [Ht Hl]. set (j := Z.min (Z.of_nat (length ls)) 24) in *. assert (Hj : Z.to_nat j = Nat.min (length ls) 24) by lia.
  destruct (puts_printable m a _ (blank_row a) 0 j t ([13; 10] ++ l) s Hs Ht ltac:(lia) ltac:(lia)) as (s1 & H1 & Hs1); [rewrite Hj; apply view_cursor|].
  rewrite <- app_assoc, H1. change (Z.to_nat 0) with 0%nat in Hs1. rewrite row_splice in Hs1 by done.
  destruct (putc_cr m a _ _ j s1 Hs1 ltac:(lia)) as (s2 & H2 & Hs2). destruct (putc_lf m a _ j s2 Hs2) as (s3 & H3 & Hs3).
  exists s3. cbn [app]. rewrite (puts_cons _ _ _ _ H2), (puts_cons _ _ _ _ H3). split; [done|].
  rewrite view_snoc. cbn zeta. rewrite Hj in Hs3. rewrite length_app. cbn [length]. case_decide; destruct (Z.ltb_spec j 24); try lia.
  - by replace (Z.min (Z.of_nat (length ls + 1)) 24) with (j + 1) by lia.
  - by replace (Z.min (Z.of_nat (length ls + 1)) 24) with 24 by lia.
Qed.
Lemma puts_lines m a ls ks s : shows m a (view a ls) 0 (Z.min (Z.of_nat (length ls)) 24) (dev s) -> Forall line_ok ks ->
  exists s', crt_puts (text ks) s = Ok (tt, s') /\ shows m a (view a (ls ++ ks)) 0 (Z.min (Z.of_nat (length (ls ++ ks))) 24) (dev s').
Proof.
  revert ls s. induction ks as [|t ks IH]; intros ls s Hs Hk; [exists s; by rewrite app_nil_r|]. apply Forall_cons in Hk as [Ht Hk].
  destruct (puts_line m a ls t (text ks) s Hs Ht) as (s1 & H1 & Hs1). destruct (IH _ _ Hs1 Hk) as (s2 & H2 & Hs2).
  exists s2. rewrite <- app_assoc in Hs2. split; [|exact Hs2]. by rewrite <- H2, <- H1.
Qed.

(** [ESC c] clears the screen. *)
Lemma puts_reset m l s : screen_ok m (dev s) -> fresh (astat (dev s)) ->
  exists s', crt_puts (ANSI_ESC :: 99 :: l) s = crt_puts l s' /\ shows m CRT_DEF_ATTR (view CRT_DEF_ATTR []) 0 0 (dev s').
Proof.
  intros Hok Hf. destruct (switch_esc _ Hf) as (k & Hk & Hesc).
  assert (E : crt_puts (ANSI_ESC :: 99 :: l) s = crt_puts (ANSI_ESC :: 99 :: l) (in_ansi s (astat (dev s)))) by (by rewrite <- in_ansi_id).
  rewrite E, (puts_inside _ _ _ _ _ Hesc) by done. pose proof (pos_memory _ _ Hok) as Hlen. set (a := Astat ANSI_IN_ESC 0 0 0 0 k).
  set (t := with_attr (with_y (with_x (with_astat (dev s) (Astat ANSI_IN_FIN 0 0 99 0 (k + 1))) 0) 0) CRT_DEF_ATTR).
  set (b := splice (buf (dev s)) 0 (replicate 2000 (glyph CRT_DEF_ATTR 32))). assert (Hlb : length b = length (buf (dev s))) by (unfold b; rewrite length_splice; [done|rewrite length_replicate; lia]).
  assert (Hsb : b = replicate 2000 (glyph CRT_DEF_ATTR 32) ++ drop 2000 (buf (dev s))) by (unfold b, splice; by rewrite take_0, length_replicate).
  assert (Hrun : exists p, crt_putc 99 (in_ansi s a) = Ok (tt, Scr (with_scroll (with_buf t b) 0) p)).
  { rewrite crt_putc_parts. cbn [in_ansi dev with_astat astat ports].
    assert (Hsw : ansi_stat_switch a 99 = Astat ANSI_IN_FIN 0 0 99 0 (k + 1)) by (by destruct Hk as [-> | ->]). rewrite Hsw.
    unfold crt_handle_ansi, crt_reset, get_crt, put_crt. st_run. cbn [is_stat stat code Z.eqb Pos.eqb negb dev astat with_astat cols ports].
    rewrite (so_cols _ _ Hok). change (Z.to_nat (80 * CRT_MAX_ROWS)) with 2000%nat. rewrite clear_run by (cbn; lia).
    change (Z.to_nat 0) with 0%nat. cbn [dev attr with_attr buf with_x with_y with_astat ports]. fold b. fold t.
    unfold crt_scroll_to_line, crt_set_cursor, out, get_crt, put_crt. st_run. cbn [dev ports with_buf rows y t with_attr with_y with_x with_astat].
    rewrite (so_rows _ _ Hok). by eexists. }
  destruct Hrun as [p Hrun]. eexists. split; [by apply puts_cons|]. cbn [dev].
  clear Hlen. constructor; [|reflexivity|by right| | |by split].
  - constructor; cbn; [apply Hok|apply Hok|rewrite Hlb; apply Hok|lia|lia|]. rewrite Hsb, drop_app_ge by (rewrite length_replicate; lia).
    rewrite length_replicate, drop_drop. apply Hok.
  - split; [done|]. by apply Forall_replicate.
  - cbn [buf with_scroll with_buf]. rewrite Hsb, take_app_length'; [done|]. by rewrite length_replicate.
Qed.

(** The screen shows the text.  From any state between two escape
    sequences, after the screen is cleared and lines of at most 80 printable
    characters are written, however many, it shows the last 24 of them in order,
    each filled up with blanks, and blank lines after them; the cursor is below
    the last line, and the rest of the video memory is as it was. *)
Theorem screen_shows_text m ls s : screen_ok m (dev s) -> fresh (astat (dev s)) -> Forall line_ok ls ->
  exists s', crt_puts (ANSI_ESC :: 99 :: text ls) s = Ok (tt, s') /\ screen_ok m (dev s') /\
    take 2000 (buf (dev s')) = concat (view CRT_DEF_ATTR ls) /\ x (dev s') = 0 /\ y (dev s') = Z.min (Z.of_nat (length ls)) 24.
Proof.
  intros Hok Hf Hls. destruct (puts_reset m (text ls) s Hok Hf) as (s1 & H1 & Hs1).
  destruct (puts_lines m CRT_DEF_ATTR [] ls s1 Hs1 Hls) as (s2 & H2 & [Hok2 _ _ _ Hb [Hx Hy]]). exists s2. by rewrite H1.
Qed.
End Safety.

(** ** A screen

    The ports log what is written to them. *)
#[local] Instance log_ports : Ports (list (Z * Z)) := {| outb port b l := l ++ [(port, b)]; inb _ l := (0, l); serial_debug _ l := l |}.
Definition at_xy (i j : Z) : scr (list (Z * Z)) := Scr (Crt (replicate (Z.to_nat 16384) 0) CRT_DEF_ATTR 80 25 i j 0 ansi_zero) [].
Lemma at_xy_ok i j : 0 <= i <= 88 -> 0 <= j <= 24 -> screen_ok (replicate (Z.to_nat 14376) 0) (dev (at_xy i j)).
Proof.
  intros Hi Hj. constructor; cbn [at_xy dev cols rows buf x y]; done.
Qed.

(** A tabulator at the end of the last line. *)
Lemma crt_stays_in_memory_witness :
  match crt_putc 9 (at_xy 80 24) with
  | Ok (_, s') => screen_ok (replicate (Z.to_nat 14376) 0) (dev s')
  | Err e => e = EAssert /\ is_stat (ansi_stat_switch (astat (dev (at_xy 80 24))) 9) ANSI_IN_FIN = true /\ moves_cursor 9 = true
  end.
Proof. apply (crt_stays_in_memory (replicate (Z.to_nat 14376) 0) 9 (at_xy 80 24)); [apply at_xy_ok; lia|lia]. Defined.
(** [ESC \[ 1 2 ; 4 0 H]: line 12, column 40. *)
Lemma ansi_sequence_executes_witness :
  (exists k, let a := Astat ANSI_IN_FIN (number [[1; 2]; [4; 0]] 0) (number [[1; 2]; [4; 0]] 1) 72 0 k in
     crt_puts (sequence [[1; 2]; [4; 0]] 72) (at_xy 3 3) = crt_handle_ansi 72 (in_ansi (at_xy 3 3) a) /\ fresh a /\
     forall c, c <> ANSI_ESC -> stat (ansi_stat_switch a c) = ANSI_NONE) /\
  (exists a p, crt_puts [27; 91; 49; 50; 59; 52; 48; 72] (at_xy 3 3) =
     Ok (tt, Scr (Crt (replicate (Z.to_nat 16384) 0) CRT_DEF_ATTR 80 25 39 11 0 a) p)).
Proof.
  destruct (ansi_sequence_executes [[1; 2]; [4; 0]] 72 (at_xy 3 3)) as [H1 H2].
  - by left.
  - split; [cbn; lia|]. split; [|by intros ds [= <-]]. repeat (apply Forall_cons; split; [repeat (apply Forall_cons; split; [unfold is_digit; lia|]); by apply Forall_nil_2|]). by apply Forall_nil_2.
  - unfold final. lia.
  - cbn. lia.
  - split; [exact H1|]. apply H2; try done; vm_compute; split; discriminate.
Defined.
(** "hi" and an empty line, from the middle of the screen. *)
Lemma screen_shows_text_witness :
  exists s', crt_puts (ANSI_ESC :: 99 :: text [[104; 105]; []]) (at_xy 7 9) = Ok (tt, s') /\ screen_ok (replicate (Z.to_nat 14376) 0) (dev s') /\
    take 2000 (buf (dev s')) = concat (view CRT_DEF_ATTR [[104; 105]; []]) /\ x (dev s') = 0 /\ y (dev s') = 2.
Proof.
  apply (screen_shows_text (replicate (Z.to_nat 14376) 0) [[104; 105]; []] (at_xy 7 9)); [apply at_xy_ok; lia|by left|].
  repeat (apply Forall_cons; split; [split; [repeat (apply Forall_cons; split; [unfold printable; lia|]); by apply Forall_nil_2|cbn; lia]|]). by apply Forall_nil_2.
Defined.

(** ** Corners *)
(** A program that moves the cursor off the screen stops the kernel. *)
Lemma cursor_down_asserts : crt_puts [27; 91; 57; 57; 66] (at_xy 0 0) = Err EAssert.
Proof. vm_compute. reflexivity. Qed.
(** [MIN_ONE] tests the first number also for the second. *)
Lemma home_one_number_asserts : crt_puts [27; 91; 53; 72] (at_xy 0 0) = Err EAssert.
Proof. vm_compute. reflexivity. Qed.
(** A backspace at the origin wraps [x], and erasing up to it leaves the memory. *)
Lemma backspace_at_origin :
  match crt_putc 8 (at_xy 0 0) with Ok (_, s) => x (dev s) = 65535 | Err _ => False end /\
  crt_puts [8; 27; 91; 49; 75] (at_xy 0 0) = Err EOob.
Proof.
  split; [vm_compute; reflexivity|].
  assert (E : exists s, crt_puts [8; 27; 91; 49] (at_xy 0 0) = Ok (tt, s) /\ dev s = Crt (replicate (Z.to_nat 16384) 0) CRT_DEF_ATTR 80 25 65535 0 0 (Astat ANSI_IN_NUM1 1 0 0 0 3))
    by (eexists; split; vm_compute; reflexivity).
  destruct E as (s & E & Hs). rewrite (puts_app [8; 27; 91; 49] [75]), (st_bind_eq _ _ _ _ _ E). rewrite (in_ansi_id s), Hs. cbn [astat].
  rewrite puts_final; [|reflexivity|cbn; lia|unfold final; lia]. unfold crt_handle_ansi, get_crt. st_run. cbn [in_ansi dev with_astat]. rewrite Hs.
  cbn [Crt.n1 astat x y cols Z.eqb Pos.eqb s32]. apply clear_oob; cbn [dev in_ansi buf with_astat]; rewrite Hs; cbn [buf x y cols with_astat]; rewrite length_replicate; lia.
Qed.
(** The 81st character of the last line is written behind the screen and lost
    when the screen scrolls. *)
Lemma column_81_lost :
  match crt_puts (replicate 82 65) (at_xy 0 24) with
  | Ok (_, s) => length (filter (fun c => c = glyph CRT_DEF_ATTR 65) (take 2000 (buf (dev s)))) = 81%nat
  | Err _ => False
  end.
Proof. vm_compute. reflexivity. Qed.
(** A character above 127 is sign-extended over the attributes. *)
Lemma high_character_attr : match crt_putc (-56) (at_xy 0 0) with Ok (_, s) => buf (dev s) !! 0%nat = Some 0xFFC8 | Err _ => False end.
Proof. vm_compute. reflexivity. Qed.
(** The number of a broken sequence is kept: [ESC \[ 5 *], then the sequence that
    hides the cursor, which does not. *)
Lemma stale_number :
  match crt_puts [27; 91; 63; 50; 53; 108] (at_xy 0 0) with Ok (_, s) => last (ports s) = Some (CRTC_DATA, 0x20) | Err _ => False end /\
  match crt_puts [27; 91; 53; 42; 27; 91; 63; 50; 53; 108] (at_xy 0 0) with
  | Ok (_, s) => last (ports s) <> Some (CRTC_DATA, 0x20) /\ n1 (astat (dev s)) = 525
  | Err _ => False
  end.
Proof. split; vm_compute; [reflexivity|split; [discriminate|reflexivity]]. Qed.
(** Scrolling never moves the start of the display. *)
Lemma scroll_never_moves m line (s : scr (list (Z * Z))) : screen_ok m (dev s) ->
  exists s', crt_scroll_to_line line s = Ok (tt, s') /\ ports s' = ports s ++ [(CRTC_PORT, 0x0C); (CRTC_DATA, 0); (CRTC_PORT, 0x0D); (CRTC_DATA, 0)].
Proof.
  intros Hs. unfold crt_scroll_to_line, get_crt, put_crt, out. st_run. cbn [dev ports outb log_ports]. pose proof (so_y _ _ Hs). rewrite (so_rows _ _ Hs), (so_cols _ _ Hs).
  set (l := if line <? 25 then 25 else line). assert (25 <= l) by (unfold l; destruct (Z.ltb_spec line 25); lia).
  replace (y (dev s) <? l) with true by lia. replace (25 <? y (dev s)) with false by lia. eexists. split; [reflexivity|]. cbn [ports]. by rewrite <- !app_assoc.
Qed.
(** The colour of the background is lost when the video is reversed. *)
Lemma reverse_loses_background :
  match crt_puts [27; 91; 52; 52; 109; 27; 91; 55; 109] (at_xy 0 0) with Ok (_, s) => attr (dev s) = 0x7000 | Err _ => False end.
Proof. vm_compute. reflexivity. Qed.
End CrtSpec.
