(* ===== verification/Tty.v ===== *)
(** * Terminals

    src/tty.c: the line editor, the input queue and the device operations.  A
    [tty_t *] is the slot of the terminal in [tty_devs]; the rest of the kernel
    (the display, signals, other tasks, user memory) is the class [Host]. *)
From S2P Require Import Prelude CString RingBuf.

Module Tty.

Definition TTY_MAJOR : Z := 4.
Definition NTTY : Z := 1.
Definition NTTYS : Z := 4.
Definition TTY_IN_BUF_SIZE : Z := 128.
Definition TTY_OUT_BUF_SIZE : Z := 128.
Definition TTY_LN_BUF_SIZE : Z := 512.
(** [sizeof(tty_t)] *)
Definition TTY_SIZE : Z := 604.
Definition CTRL (key : Z) : Z := key - 64.
(** Characters of [c_cc] *)
Definition VINTR : nat := 0.
Definition VQUIT : nat := 1.
Definition VERASE : nat := 2.
Definition VKILL : nat := 3.
Definition VEOF : nat := 4.
Definition VTIME : nat := 5.
Definition VMIN : nat := 6.
Definition VSTART : nat := 8.
Definition VSTOP : nat := 9.
Definition VSUSP : nat := 10.
Definition VEOL : nat := 11.
Definition VREPRINT : nat := 12.
Definition VWERASE : nat := 14.
Definition VLNEXT : nat := 15.
Definition VEOL2 : nat := 16.
Definition NCCS : nat := 32.
(** Flags *)
Definition BRKINT : Z := 1.
Definition ICRNL : Z := 2.
Definition IGNCR : Z := 8.
Definition INLCR : Z := 32.
Definition ISTRIP : Z := 128.
Definition OPOST : Z := 1.
Definition ONLCR : Z := 2.
Definition CREAD : Z := 128.
Definition ISIG : Z := 1.
Definition ICANON : Z := 2.
Definition ECHO : Z := 8.
Definition ECHOE : Z := 16.
Definition ECHOK : Z := 32.
Definition IEXTEN : Z := 512.
(** Requests *)
Definition TCGETS : Z := 0x5401.
Definition TCSETS : Z := 0x5402.
Definition TIOCGPGRP : Z := 0x540F.
Definition TIOCSPGRP : Z := 0x5410.
Definition TIOCGWINSZ : Z := 0x5413.
Definition TIOCSWINSZ : Z := 0x5414.
Definition SIGINT : Z := 2.
Definition SIGQUIT : Z := 3.
Definition SIGSEGV : Z := 11.
Definition SIGCONT : Z := 18.
Definition SIGTSTP : Z := 20.
Definition USER_STACK_LOW : Z := 0x10000000 - 4096 - 10 * 4096.
Definition CRT_COLS : Z := 80.
Definition CRT_ROWS : Z := 25.

Record termios := Termios { c_iflag : Z; c_oflag : Z; c_cflag : Z; c_lflag : Z; c_cc : list Z }.
Record winsize := Winsize { ws_row : Z; ws_col : Z; ws_xpixel : Z; ws_ypixel : Z }.
Record tty_line_t := Line { buf : list Z; ed : Z; len : Z }.
Inductive putc_t := crt_driver | serial_driver.
Record tty_t := Tty {
  winsz : winsize; tios : termios; cin : RingBuf.ring_buf_t; cout : RingBuf.ring_buf_t; line : tty_line_t;
  putc : putc_t; minor : Z; ctrl_pid : Z; fg_pid : Z
}.
Definition with_winsz (t : tty_t) v := Tty v (tios t) (cin t) (cout t) (line t) (putc t) (minor t) (ctrl_pid t) (fg_pid t).
Definition with_tios (t : tty_t) v := Tty (winsz t) v (cin t) (cout t) (line t) (putc t) (minor t) (ctrl_pid t) (fg_pid t).
Definition with_cin (t : tty_t) v := Tty (winsz t) (tios t) v (cout t) (line t) (putc t) (minor t) (ctrl_pid t) (fg_pid t).
Definition with_cout (t : tty_t) v := Tty (winsz t) (tios t) (cin t) v (line t) (putc t) (minor t) (ctrl_pid t) (fg_pid t).
Definition with_line (t : tty_t) v := Tty (winsz t) (tios t) (cin t) (cout t) v (putc t) (minor t) (ctrl_pid t) (fg_pid t).
Definition with_fg_pid (t : tty_t) v := Tty (winsz t) (tios t) (cin t) (cout t) (line t) (putc t) (minor t) (ctrl_pid t) v.

Record sys (W : Type) := Sys { tty_devs : list (option tty_t); world : W }.
#[global] Arguments Sys {W}. #[global] Arguments tty_devs {W}. #[global] Arguments world {W}.

(** What the terminals use of the kernel.  [wakeup], [sleep_on] and
    [task_switch] let other tasks run, which may use the terminals. *)
Class Host (W : Type) := {
  crt_putc : Z -> Z -> st W unit;
  serial_putc : Z -> Z -> st W unit;
  kill : Z -> Z -> st W unit;
  ps : st W unit;
  kprintf_fg_pid : Z -> st W unit;
  cofs_dump_cache : st W unit;
  wakeup : nat -> st (sys W) unit;
  sleep_on : nat -> st (sys W) unit;
  task_switch : st (sys W) unit;
  exiting : W -> bool;
  running : W -> bool;
  current_sid : W -> Z;
  current_pid : W -> Z;
  malloc : Z -> option (list Z);
  copy_termios_out : Z -> termios -> st W unit;
  copy_termios_in : Z -> st W termios;
  copy_winsize_out : Z -> winsize -> st W unit;
  copy_winsize_in : Z -> st W winsize;
  store_pid : Z -> Z -> st W unit;
  load_pid : Z -> st W Z
}.

Definition on (flags f : Z) : bool := negb (Z.land flags f =? 0).
Definition cc (t : tty_t) (i : nat) : Z := default 0 (c_cc (tios t) !! i).

Section Terminals.
Context {W : Type} `{!Host W}.
Notation sys := (sys W).

Definition host {A} (m : st W A) : st sys A := fun s => match m (world s) with Ok (a, w) => Ok (a, Sys (tty_devs s) w) | Err e => Err e end.
(** [tty_devs[i]] *)
Definition tty_dev (i : Z) : st sys (option tty_t) := s ← get; if i <? 0 then fail EOob else lift (rd (tty_devs s) (Z.to_nat i)).
Definition tty_at (p : nat) : st sys tty_t := s ← get; o ← lift (rd (tty_devs s) p); match o with Some t => mret t | None => fail EUaf end.
Definition put_dev (p : nat) (o : option tty_t) : st sys unit := s ← get; l ← lift (wr (tty_devs s) p o); put (Sys l (world s)).
Definition upd_tty (p : nat) (f : tty_t -> tty_t) : st sys unit := t ← tty_at p; put_dev p (Some (f t)).

(** ** Output *)
Definition putc_of (t : tty_t) (c : Z) : st sys unit := host (match putc t with crt_driver => crt_putc c (minor t) | serial_driver => serial_putc c (minor t) end).
Definition tty_oput (p : nat) (c : Z) : st sys unit :=
  t ← tty_at p;
  (if (on (c_oflag (tios t)) OPOST && (c =? 10) && on (c_oflag (tios t)) ONLCR)%bool then putc_of t 13 else mret tt);;
  t ← tty_at p; putc_of t c.
Fixpoint tty_oputs (p : nat) (s : list Z) : st sys unit := match s with [] => mret tt | c :: s => tty_oput p c;; tty_oputs p s end.
Definition tty_echo (p : nat) (c : Z) : st sys unit :=
  if ((32 <=? c) || (c =? 10))%bool then tty_oput p c else tty_oput p 94;; tty_oput p (s8 (c + 64)).

(** ** Input *)
Definition tty_iput (p : nat) (c : Z) : st sys unit :=
  t ← tty_at p;
  rb ← lift (RingBuf.rb_putc (cin t) (u8 c));
  upd_tty p (fun t => with_cin t rb);;
  t ← tty_at p;
  if (RingBuf.rb_is_full (cin t) || (c =? 10) || negb (on (c_lflag (tios t)) ICANON))%bool then wakeup p;; task_switch else mret tt.

Definition tty_set_defaults (p : nat) : st sys unit :=
  t ← tty_at p;
  let cc := c_cc (tios t) in
  let cc := <[VINTR := CTRL 88]> (<[VQUIT := CTRL 92]> (<[VERASE := 8]> (<[VKILL := CTRL 85]> (<[VEOF := CTRL 68]> (<[VTIME := 0]> (<[VMIN := 1]>
            (<[VSTART := CTRL 81]> (<[VSTOP := CTRL 83]> (<[VSUSP := CTRL 90]> (<[VEOL := 10]> (<[VREPRINT := CTRL 82]> (<[VWERASE := CTRL 87]>
            (<[VLNEXT := CTRL 86]> cc))))))))))))) in
  let io := Termios (Z.lor ICRNL BRKINT) (Z.lor ONLCR OPOST) CREAD
              (Z.lor ECHO (Z.lor ECHOE (Z.lor ECHOK (Z.lor ISIG (Z.lor IEXTEN ICANON))))) cc in
  upd_tty p (fun t => with_cout (with_cin (with_tios t io) (RingBuf.rb_reset (cin t))) (RingBuf.rb_reset (cout t))).

(** [ln->ed = ln->len = ln->buf[0] = 0;] *)
Definition clear_line (p : nat) : st sys unit :=
  t ← tty_at p; b ← lift (wr (buf (line t)) 0 0); upd_tty p (fun t => with_line t (Line b 0 0)).
(** [for (; i < ln->len; i++) tty_iput(tty, ln->buf[i]);] an index beyond the
    array ends it, so [fuel] is its size and one more. *)
Fixpoint feed_line (fuel : nat) (p : nat) (i : nat) : st sys unit :=
  match fuel with
  | O => fail EFuel
  | S fuel =>
      t ← tty_at p;
      if Z.of_nat i <? len (line t) then b ← lift (rd (buf (line t)) i); tty_iput p (schar b);; feed_line fuel p (S i) else mret tt
  end.
Definition feed (p : nat) : st sys unit := feed_line (Z.to_nat TTY_LN_BUF_SIZE + 1) p 0.
(** [for (; i < ln->len; i++) tty_echo(tty, ln->buf[i]);] *)
Fixpoint echo_line (fuel : nat) (p : nat) (i : nat) : st sys unit :=
  match fuel with
  | O => fail EFuel
  | S fuel =>
      t ← tty_at p;
      if Z.of_nat i <? len (line t) then b ← lift (rd (buf (line t)) i); tty_echo p (schar b);; echo_line fuel p (S i) else mret tt
  end.
(** [memmove(ln->buf + dst, ln->buf + src, n)] *)
Definition move_line (p : nat) (dst src n : Z) : st sys unit :=
  if ((dst <? 0) || (src <? 0))%bool then fail EOob
  else t ← tty_at p; b ← lift (memmove (buf (line t)) (Z.to_nat dst) (Z.to_nat src) (u32 n)); upd_tty p (fun t => with_line t (Line b (ed (line t)) (len (line t)))).
Definition signal_fg (p : nat) (sig : Z) : st sys unit := t ← tty_at p; if fg_pid t =? 0 then mret tt else host (kill (fg_pid t) sig).
(** [ln->buf[ln->ed++] = c; ln->len++;] *)
Definition insert_char (p : nat) (c : Z) : st sys unit :=
  t ← tty_at p;
  let ln := line t in
  if ed ln <? 0 then fail EOob
  else b ← lift (wr (buf ln) (Z.to_nat (ed ln)) (u8 c)); upd_tty p (fun t => with_line t (Line b (ed ln +i 1) (len ln +i 1))).
Definition erase_char (p : nat) (lf : Z) : st sys unit :=
  t ← tty_at p;
  let ln := line t in
  if ed ln =? 0 then mret tt
  else
    move_line p (ed ln - 1) (ed ln) (len ln - ed ln + 1);;
    upd_tty p (fun t => with_line t (Line (buf (line t)) (ed (line t) -i 1) (len (line t) -i 1)));;
    if negb (on lf ECHO) then mret tt
    else
      t ← tty_at p;
      if ed (line t) =? len (line t) then tty_oputs p [8; 32; 8]
      else
        tty_oputs p [27; 91; 49; 68];; tty_oputs p [27; 91; 115];;
        echo_line (Z.to_nat TTY_LN_BUF_SIZE + 1) p (Z.to_nat (ed (line t)));;
        tty_oput p 32;; tty_oputs p [27; 91; 117].
Definition tty_editor (p : nat) (c : Z) : st sys unit :=
  t ← tty_at p;
  let lf := c_lflag (tios t) in
  let ln := line t in
  let echo := if on lf ECHO then tty_echo p c else mret tt in
  if ((c =? cc t VEOL) || (c =? cc t VEOL2) || (c =? 10) || (TTY_LN_BUF_SIZE - 1 <=? u32 (len ln)))%bool then
    (if on lf ECHO then tty_oput p c else mret tt);;
    feed p;; tty_iput p c;; clear_line p
  else if c =? cc t VERASE then erase_char p lf
  else if c =? cc t VKILL then clear_line p;; if on lf ECHO then tty_oputs p [27; 91; 71; 27; 91; 50; 75] else mret tt
  else if c =? cc t VINTR then clear_line p;; signal_fg p SIGINT;; echo
  else if c =? cc t VQUIT then clear_line p;; signal_fg p SIGQUIT;; echo
  else if c =? cc t VEOF then (if len ln =? 0 then mret tt else feed p;; clear_line p);; wakeup p;; echo
  else if c =? cc t VSUSP then signal_fg p SIGTSTP;; echo
  else if c =? cc t VSTART then signal_fg p SIGCONT;; echo
  else if c =? CTRL 76 then tty_set_defaults p;; tty_oputs p [27; 99];; echo
  else if c =? CTRL 80 then host ps
  else if c =? CTRL 70 then host (kprintf_fg_pid (fg_pid t))
  else if c =? CTRL 79 then host cofs_dump_cache
  else
    (if ed ln =? len ln then mret tt else move_line p (ed ln + 1) (ed ln) (len ln - ed ln));;
    insert_char p c;;
    echo.
(** A character from the device, [None] being the null pointer. *)
Definition tty_in (p : option nat) (c : Z) : st sys unit :=
  match p with
  | None => mret tt
  | Some p =>
      t ← tty_at p;
      let ifl := c_iflag (tios t) in
      let loc := c_lflag (tios t) in
      if ((c =? 13) && on ifl IGNCR)%bool then mret tt
      else
        let c := if c =? 10 then if on ifl INLCR then 13 else c else if c =? 13 then if on ifl ICRNL then 10 else c else c in
        let c := if on ifl ISTRIP then Z.land c 0x7F else c in
        if on loc ICANON then tty_editor p c else (if on loc ECHO then tty_echo p c else mret tt);; tty_iput p c
  end.

(** ** The device *)
Fixpoint write_loop (size : nat) (p : nat) (b : list Z) (i : nat) : st sys unit :=
  match size with O => mret tt | S size => c ← lift (rd b i); tty_oput p (schar c);; write_loop size p b (S i) end.
Definition tty_write (major minor : Z) (size : Z) (b : list Z) : st sys Z :=
  o ← tty_dev minor;
  match o with
  | None => mret (u32 (-1))
  | Some _ => kassert (major =? TTY_MAJOR);; write_loop (Z.to_nat size) (Z.to_nat minor) b 0;; mret size
  end.
(** [size] bytes are left to read, [n] have been; the result says whether the task is exiting. *)
Fixpoint read_loop (size : nat) (p : nat) (b : list Z) (n : nat) : st sys (Z * list Z) :=
  match size with
  | O => mret (Z.of_nat n, b)
  | S size =>
      t ← tty_at p;
      s ← get;
      if (RingBuf.rb_is_empty (cin t) && exiting (world s))%bool then mret (u32 (-1), b)
      else
        (if (RingBuf.rb_is_empty (cin t) && running (world s))%bool then sleep_on p else mret tt);;
        t ← tty_at p;
        if RingBuf.rb_is_empty (cin t) then mret (Z.of_nat n, b)
        else
          '(c, rb) ← lift (RingBuf.rb_getc (cin t));
          upd_tty p (fun t => with_cin t rb);;
          b ← lift (wr b n c);
          if ((schar c =? 10) || negb (on (c_lflag (tios t)) ICANON))%bool then mret (Z.of_nat (S n), b)
          else read_loop size p b (S n)
  end.
Definition tty_read (major minor : Z) (size : Z) (b : list Z) : st sys (Z * list Z) :=
  o ← tty_dev minor;
  match o with
  | None => mret (u32 (-1), b)
  | Some _ => kassert (major =? TTY_MAJOR);; read_loop (Z.to_nat size) (Z.to_nat minor) b 0
  end.

Definition validate_usr_ptr (ptr : Z) : st sys unit :=
  if ptr <? USER_STACK_LOW then s ← get; host (kill (current_pid (world s)) SIGSEGV);; task_switch else mret tt.
(** [p] is [node->minor]. *)
Definition tty_ioctl (major minor : Z) (request argp : Z) : st sys Z :=
  o ← tty_dev minor;
  match o with
  | None => mret (-1)
  | Some _ =>
      kassert (major =? TTY_MAJOR);;
      let p := Z.to_nat minor in
      if argp =? 0 then mret (-1)
      else if request =? TCGETS then validate_usr_ptr argp;; t ← tty_at p; host (copy_termios_out argp (tios t));; mret 0
      else if request =? TCSETS then validate_usr_ptr argp;; x ← host (copy_termios_in argp); upd_tty p (fun t => with_tios t x);; mret 0
      else if request =? TIOCGWINSZ then validate_usr_ptr argp;; t ← tty_at p; host (copy_winsize_out argp (winsz t));; mret 0
      else if request =? TIOCSWINSZ then validate_usr_ptr argp;; x ← host (copy_winsize_in argp); upd_tty p (fun t => with_winsz t x);; mret 0
      else if request =? TIOCGPGRP then validate_usr_ptr argp;; t ← tty_at p; host (store_pid argp (fg_pid t));; mret 0
      else if request =? TIOCSPGRP then validate_usr_ptr argp;; x ← host (load_pid argp); upd_tty p (fun t => with_fg_pid t x);; mret 0
      else mret (-1)
  end.

(** Closing gives the new reference count of the node. *)
Definition tty_close (major minor ref_count : Z) : st sys Z :=
  o ← tty_dev minor;
  kassert (major =? TTY_MAJOR);;
  let ref_count := ref_count -i 1 in
  (if (bool_decide (o <> None) && (ref_count =? 0))%bool then put_dev (Z.to_nat minor) None else mret tt);;
  mret ref_count.
(** Whether the operations have been attached to the node. *)
Definition tty_open (major node_minor : Z) : st sys bool :=
  kassert (major =? TTY_MAJOR);;
  o ← tty_dev node_minor;
  match o with
  | Some _ => mret true
  | None =>
      match malloc TTY_SIZE, RingBuf.rb_new malloc TTY_IN_BUF_SIZE, RingBuf.rb_new malloc TTY_OUT_BUF_SIZE with
      | Some _, Some i, Some o =>
          s ← get;
          let crt := node_minor <? NTTY in
          put_dev (Z.to_nat node_minor) (Some (Tty
            (if crt then Winsize CRT_ROWS CRT_COLS 0 0 else Winsize 0 0 0 0) (Termios 0 0 0 0 (replicate NCCS 0)) i o
            (Line (replicate (Z.to_nat TTY_LN_BUF_SIZE) 0) 0 0) (if crt then crt_driver else serial_driver)
            node_minor (current_sid (world s)) (current_pid (world s))));;
          tty_set_defaults (Z.to_nat node_minor);;
          mret true
      | _, _, _ => mret false
      end
  end.
End Terminals.
End Tty.
