(* ===== verification/TtySpec.v ===== *)
(** * Lines of a terminal

    The editor of src/tty.c keeps the line a reference editor keeps and hands
    the same bytes to the readers; [tty_read] returns a line; what [tty_write]
    is given appears on the screen of CrtSpec.v. *)
From S2P Require Import Prelude CString RingBuf Crt CrtSpec Tty.
Import Tty.

Module TtySpec.

(** ** The reference editor

    The line and the bytes handed to the readers, with the characters that
    [tty_set_defaults] gives their meaning. *)
Definition edit (a : list Z * list Z) (c : Z) : list Z * list Z :=
  let '(ln, out) := a in
  let c := if c =? 13 then 10 else c in
  if ((c =? 10) || (c =? 0) || (511 <=? Z.of_nat (length ln)))%bool then ([], out ++ ln ++ [u8 c])
  else if c =? CTRL 72 then (removelast ln, out)
  else if ((c =? CTRL 85) || (c =? CTRL 88) || (c =? CTRL 92))%bool then ([], out)
  else if c =? CTRL 68 then ([], out ++ ln)
  else if ((c =? CTRL 90) || (c =? CTRL 81) || (c =? CTRL 80) || (c =? CTRL 70) || (c =? CTRL 79))%bool then (ln, out)
  else (ln ++ [u8 c], out).

Definition default_termios : termios :=
  Termios 3 3 128 571 [24; 28; 8; 21; 4; 0; 1; 0; 17; 19; 26; 10; 18; 0; 23; 22; 0; 0; 0; 0; 0; 0; 0; 0; 0; 0; 0; 0; 0; 0; 0; 0].

Section Spec.
Context {W : Type} `{!Host W}.
Notation sys := (sys W).
Context (p : nat) (got : list Z -> W -> Prop).
Definition at_tty (t : tty_t) (s : sys) : Prop := tty_devs s !! p = Some (Some t).

(** The kernel around the terminal: [got l] says that the readers have taken
    [l].  Output and signals leave that alone; when other tasks run, a reader
    may take bytes from the front of the queue. *)
Definition calm (m : st W unit) : Prop := forall l w, got l w -> exists w', m w = Ok (tt, w') /\ got l w'.
Record Calm : Prop := {
  calm_crt c m : calm (crt_putc c m);
  calm_serial c m : calm (serial_putc c m);
  calm_kill q n : calm (kill q n);
  calm_ps : calm ps;
  calm_fg q : calm (kprintf_fg_pid q);
  calm_dump : calm cofs_dump_cache;
  calm_wakeup ds l w : got l w -> exists w', wakeup p (Sys ds w) = Ok (tt, Sys ds w') /\ got l w';
  calm_switch s t l q : at_tty t s -> RingBuf.rb_wf (cin t) -> RingBuf.rb_queue (cin t) = Some <$> q -> got l (world s) ->
    exists k rb s', task_switch s = Ok (tt, s') /\ at_tty (with_cin t rb) s' /\ RingBuf.rb_wf rb /\ RingBuf.size rb = RingBuf.size (cin t) /\
      RingBuf.rb_queue rb = Some <$> drop k q /\ got (l ++ take k q) (world s')
}.
Context (HC : Calm).

Lemma tty_at_run t s : at_tty t s -> tty_at p s = Ok (t, s).
Proof. intros H. unfold tty_at. st_run. by rewrite (proj2 (rd_Ok _ _ _) H). Qed.
Lemma upd_tty_run t s f : at_tty t s -> exists s', upd_tty p f s = Ok (tt, s') /\ at_tty (f t) s' /\ world s' = world s.
Proof.
  intros H. apply lookup_lt_Some in H as Hl. unfold upd_tty. rewrite (st_bind_eq _ _ _ _ _ (tty_at_run _ _ H)). unfold put_dev. st_run.
  rewrite wr_in by done. eexists. split; [reflexivity|]. split; [by apply list_lookup_insert_eq|done].
Qed.

(** Calls that change nothing of the terminals. *)
Definition quiet (m : st sys unit) : Prop := forall l t s, at_tty t s -> got l (world s) ->
  exists s', m s = Ok (tt, s') /\ at_tty t s' /\ got l (world s').
Lemma quiet_mret : quiet (mret tt).
Proof. intros l t s Ht Hg. by exists s. Qed.
Lemma quiet_then m n : quiet m -> quiet n -> quiet (m;; n).
Proof.
  intros Hm Hn l t s Ht Hg. destruct (Hm l t s Ht Hg) as (s1 & H1 & Ht1 & Hg1). destruct (Hn l t s1 Ht1 Hg1) as (s2 & H2 & H).
  exists s2. by rewrite (st_bind_eq _ _ _ _ _ H1).
Qed.
Lemma quiet_at (f : tty_t -> st sys unit) : (forall t, quiet (f t)) -> quiet (t ← tty_at p; f t).
Proof. intros Hf l t s Ht Hg. rewrite (st_bind_eq _ _ _ _ _ (tty_at_run _ _ Ht)). by apply Hf. Qed.
Lemma quiet_host m : calm m -> quiet (host m).
Proof. intros Hm l t s Ht Hg. destruct (Hm l (world s) Hg) as (w & H & Hg'). eexists. unfold host. by rewrite H. Qed.
Lemma quiet_if (b : bool) m n : quiet m -> quiet n -> quiet (if b then m else n).
Proof. by destruct b. Qed.
Lemma quiet_putc t c : quiet (putc_of t c).
Proof. unfold putc_of. apply quiet_host. destruct (putc t); apply HC. Qed.
Lemma quiet_oput c : quiet (tty_oput p c).
Proof. unfold tty_oput. apply quiet_at. intros t. apply quiet_then; [apply quiet_if; [apply quiet_putc|apply quiet_mret]|]. apply quiet_at. intros. apply quiet_putc. Qed.
Lemma quiet_oputs l : quiet (tty_oputs p l).
Proof. induction l; cbn [tty_oputs]; [apply quiet_mret|]. apply quiet_then; [apply quiet_oput|done]. Qed.
Lemma quiet_echo c : quiet (tty_echo p c).
Proof. unfold tty_echo. apply quiet_if; [apply quiet_oput|]. apply quiet_then; apply quiet_oput. Qed.
Lemma quiet_signal n : quiet (signal_fg p n).
Proof. unfold signal_fg. apply quiet_at. intros t. apply quiet_if; [apply quiet_mret|]. apply quiet_host, HC. Qed.
Lemma quiet_wakeup : quiet (wakeup p).
Proof. intros l t [ds w] Ht Hg. destruct (calm_wakeup HC ds l w Hg) as (w' & H & Hg'). by exists (Sys ds w'). Qed.

(** The bytes [l] have been handed to the readers of terminal [t], and its queue
    has room for [rm] more. *)
Definition handed (rm : nat) (l : list Z) (t : tty_t) (s : sys) : Prop :=
  exists g q, at_tty t s /\ got g (world s) /\ RingBuf.rb_wf (cin t) /\ (length q + rm <= Z.to_nat (RingBuf.size (cin t)))%nat /\
    RingBuf.rb_queue (cin t) = Some <$> q /\ l = g ++ q.
Lemma quiet_handed {rm} m l t s : quiet m -> handed rm l t s -> exists s', m s = Ok (tt, s') /\ handed rm l t s'.
Proof.
  intros Hm (g & q & Ht & Hg & Hwf & Hf & Hq & ->). destruct (Hm g t s Ht Hg) as (s' & H1 & H2 & H3). exists s'. split; [done|]. by exists g, q.
Qed.
Lemma handed_upd {rm} l t s f : handed rm l t s -> cin (f t) = cin t -> exists s', upd_tty p f s = Ok (tt, s') /\ handed rm l (f t) s'.
Proof.
  intros (g & q & Ht & Hg & Hwf & Hf & Hq & ->) Hc. destruct (upd_tty_run t s f Ht) as (s' & H1 & H2 & H3). exists s'. split; [done|].
  exists g, q. rewrite Hc, H3. done.
Qed.
Lemma handed_at {rm} l t s : handed rm l t s -> tty_at p s = Ok (t, s).
Proof. intros (g & q & Ht & _). by apply tty_at_run. Qed.

(** One byte more in the queue. *)
Lemma iput_run {rm} l t s c : handed (S rm) l t s -> exists rb s', tty_iput p c s = Ok (tt, s') /\ handed rm (l ++ [u8 c]) (with_cin t rb) s'.
Proof.
  intros (g & q & Ht & Hg & Hwf & Hrm & Hq & ->).
  assert (Hf : RingBuf.rb_is_full (cin t) = false).
  { apply (f_equal length) in Hq. unfold RingBuf.rb_queue in Hq. rewrite RingBuf.length_ring_contents, length_fmap in Hq.
    unfold RingBuf.rb_is_full. destruct Hwf as (_ & _ & _ & _ & Hle). pose proof (u32_range (RingBuf.head (cin t) - RingBuf.tail (cin t))). lia. }
  destruct (RingBuf.rb_putc_enqueues (cin t) (u8 c) Hwf Hf) as (rb & Hrb & Hwf' & Hq' & _).
  assert (Hsz : RingBuf.size rb = RingBuf.size (cin t)).
  { unfold RingBuf.rb_putc in Hrb. destruct (_ =? 0); [done|]. apply bind_Ok in Hrb as (? & _ & Hrb). by injection Hrb as <-. }
  unfold tty_iput. rewrite (st_bind_eq _ _ _ _ _ (tty_at_run _ _ Ht)). rewrite (st_bind_eq (lift _) _ s rb s) by (unfold lift; by rewrite Hrb).
  destruct (upd_tty_run t s (fun t => with_cin t rb) Ht) as (s1 & H1 & Ht1 & Hw1). rewrite (st_bind_eq _ _ _ _ _ H1), (st_bind_eq _ _ _ _ _ (tty_at_run _ _ Ht1)).
  assert (Hq2 : RingBuf.rb_queue rb = Some <$> (q ++ [u8 c])) by (rewrite Hq', Hq; by rewrite fmap_app). rewrite <- app_assoc. rewrite <- Hw1 in Hg.
  destruct (_ || _)%bool eqn:E.
  - destruct (quiet_wakeup g _ s1 Ht1 Hg) as (s2 & H2 & Ht2 & Hg2). rewrite (st_bind_eq _ _ _ _ _ H2).
    destruct (calm_switch HC s2 _ g _ Ht2 Hwf' Hq2 Hg2) as (k & rb' & s3 & H3 & Ht3 & Hwf3 & Hf3 & Hq3 & Hg3).
    exists rb', s3. split; [exact H3|]. exists (g ++ take k (q ++ [u8 c])), (drop k (q ++ [u8 c])). split; [exact Ht3|]. split; [exact Hg3|]. split; [done|].
    split; [cbn [cin with_cin] in *; rewrite Hf3, Hsz, length_drop, length_app; cbn [length]; lia|]. split; [exact Hq3|].
    rewrite <- app_assoc. by rewrite take_drop.
  - exists rb, s1. split; [done|]. exists g, (q ++ [u8 c]). cbn [cin with_cin].
    split; [done|]. split; [done|]. split; [done|]. split; [rewrite Hsz, length_app; cbn [length]; lia|]. done.
Qed.
(** ** The editor *)
(** Terminal [t] holds the line [ln]; the edit position is its end. *)
Record line_is (t : tty_t) (ln : list Z) : Prop := {
  li_len : ed (line t) = Z.of_nat (length ln) /\ len (line t) = Z.of_nat (length ln);
  li_buf : length (buf (line t)) = Z.to_nat TTY_LN_BUF_SIZE /\ take (length ln) (buf (line t)) = ln;
  li_max : Z.of_nat (length ln) <= 511;
  li_bytes : Forall is_byte ln
}.
Lemma line_lookup t ln i b : line_is t ln -> ln !! i = Some b -> buf (line t) !! i = Some b.
Proof. intros H Hi. apply lookup_lt_Some in Hi as Hl. rewrite <- (proj2 (li_buf _ _ H)) in Hi. by rewrite lookup_take_lt in Hi. Qed.
Lemma u8_schar b : is_byte b -> u8 (schar b) = b.
Proof.
  unfold is_byte, schar, s8, u8. intros Hb. rewrite Zminus_mod_idemp_l. replace (b + 2 ^ 7 - 2 ^ 7) with b by lia. by apply Z.mod_small.
Qed.
Lemma feed_line_run {rm} fuel i l t ln s : handed (length ln - i + rm) l t s -> line_is t ln -> (i <= length ln)%nat -> (length ln - i < fuel)%nat ->
  exists rb s', feed_line fuel p i s = Ok (tt, s') /\ handed rm (l ++ drop i ln) (with_cin t rb) s'.
Proof.
  revert i l t s. induction fuel as [|fuel IH]; intros i l t s Hh Hl Hi Hf; [lia|]. cbn [feed_line].
  rewrite (st_bind_eq _ _ _ _ _ (handed_at _ _ _ Hh)), (proj2 (li_len _ _ Hl)). destruct (Z.ltb_spec (Z.of_nat i) (Z.of_nat (length ln))) as [Hlt|Hge].
  - destruct (lookup_lt_is_Some_2 ln i) as [b Hb]; [lia|]. pose proof (Forall_lookup_1 _ _ _ _ (li_bytes _ _ Hl) Hb) as Hbyte.
    rewrite (st_bind_eq (lift _) _ s b s) by (unfold lift; by rewrite (proj2 (rd_Ok _ _ _) (line_lookup _ _ _ _ Hl Hb))).
    replace (length ln - i + rm)%nat with (S (length ln - S i + rm)) in Hh by lia.
    destruct (iput_run l t s (schar b) Hh) as (rb & s1 & H1 & Hh1). rewrite (st_bind_eq _ _ _ _ _ H1). rewrite u8_schar in Hh1 by done.
    destruct (IH (S i) _ _ s1 Hh1) as (rb2 & s2 & H2 & Hh2); [by destruct Hl|lia|lia|]. exists rb2, s2. split; [exact H2|].
    rewrite (drop_S _ _ _ Hb). rewrite <- app_assoc in Hh2. exact Hh2.
  - exists (cin t), s. split; [done|]. rewrite drop_ge, app_nil_r by lia. replace (length ln - i + rm)%nat with rm in Hh by lia. by destruct t.
Qed.

(** The state of the editor refines [edit]. *)
Definition editing (rm : nat) (a : list Z * list Z) (s : sys) : Prop :=
  exists t, handed rm a.2 t s /\ line_is t a.1 /\ tios t = default_termios.
Lemma clear_line_run {rm} l t ln s : handed rm l t s -> line_is t ln -> exists t' s', clear_line p s = Ok (tt, s') /\ handed rm l t' s' /\ line_is t' [] /\ tios t' = tios t.
Proof.
  intros Hh [[He Hl] [Hb _] _ _]. unfold clear_line. rewrite (st_bind_eq _ _ _ _ _ (handed_at _ _ _ Hh)).
  rewrite (st_bind_eq (lift _) _ s (<[0%nat := 0]> (buf (line t))) s) by (unfold lift; by rewrite wr_in by (rewrite Hb; unfold TTY_LN_BUF_SIZE; lia)).
  destruct (handed_upd l t s (fun t0 => with_line t0 (Line (<[0%nat := 0]> (buf (line t))) 0 0)) Hh eq_refl) as (s' & H1 & H2).
  eexists _, s'. split; [exact H1|]. split; [exact H2|]. split; [|done]. constructor; cbn; try done. by rewrite length_insert.
Qed.
Lemma quiet_editing {rm} m a s : quiet m -> editing rm a s -> exists s', m s = Ok (tt, s') /\ editing rm a s'.
Proof. intros Hm (t & Hh & H). destruct (quiet_handed m _ _ _ Hm Hh) as (s' & H1 & H2). exists s'. split; [done|]. by exists t. Qed.
Lemma clear_editing {rm} ln out s : editing rm (ln, out) s -> exists s', clear_line p s = Ok (tt, s') /\ editing rm ([], out) s'.
Proof.
  intros (t & Hh & Hl & Hd). destruct (clear_line_run _ _ _ _ Hh Hl) as (t' & s' & H1 & H2 & H3 & H4). exists s'. split; [done|]. exists t'. by rewrite H4.
Qed.
Lemma feed_editing {rm} ln out s : editing (length ln + rm) (ln, out) s -> exists s', feed p s = Ok (tt, s') /\ editing rm (ln, out ++ ln) s'.
Proof.
  intros (t & Hh & Hl & Hd). cbn [fst snd] in *. pose proof (li_max _ _ Hl).
  destruct (feed_line_run (Z.to_nat TTY_LN_BUF_SIZE + 1) 0 out t ln s ltac:(rewrite Nat.sub_0_r; exact Hh) Hl) as (rb & s' & H1 & H2); [lia|unfold TTY_LN_BUF_SIZE; lia|].
  exists s'. split; [exact H1|]. exists (with_cin t rb). rewrite drop_0 in H2. split; [exact H2|]. split; [by destruct Hl|done].
Qed.
Lemma iput_editing {rm} ln out s c : editing (S rm) (ln, out) s -> exists s', tty_iput p c s = Ok (tt, s') /\ editing rm (ln, out ++ [u8 c]) s'.
Proof.
  intros (t & Hh & Hl & Hd). destruct (iput_run out t s c Hh) as (rb & s' & H1 & H2). exists s'. split; [done|]. exists (with_cin t rb).
  split; [exact H2|]. split; [by destruct Hl|done].
Qed.
Lemma insert_editing {rm} ln out s c : editing rm (ln, out) s -> Z.of_nat (length ln) < 511 ->
  exists s', insert_char p c s = Ok (tt, s') /\ editing rm (ln ++ [u8 c], out) s'.
Proof.
  intros (t & Hh & [[He Hl] [Hb Hk] Hm Hby] & Hd) Hlt. cbn [fst snd] in *. unfold insert_char. rewrite (st_bind_eq _ _ _ _ _ (handed_at _ _ _ Hh)). cbn zeta.
  rewrite He, Hl. replace (Z.of_nat (length ln) <? 0) with false by lia. rewrite Nat2Z.id.
  rewrite (st_bind_eq (lift _) _ s (<[length ln := u8 c]> (buf (line t))) s) by (unfold lift; by rewrite wr_in by (rewrite Hb; unfold TTY_LN_BUF_SIZE; lia)).
  destruct (handed_upd _ t s (fun t0 => with_line t0 (Line (<[length ln := u8 c]> (buf (line t))) (Z.of_nat (length ln) +i 1) (Z.of_nat (length ln) +i 1))) Hh eq_refl) as (s' & H1 & H2).
  exists s'. split; [exact H1|]. eexists. split; [exact H2|]. split; [|done]. rewrite s32_small in * by lia.
  constructor; cbn [line with_line ed len buf fst]; rewrite ?length_app; cbn [length]; try lia.
  - rewrite length_insert. split; [done|]. rewrite Nat.add_1_r.
    rewrite (take_S_r _ _ (u8 c)) by (apply list_lookup_insert_eq; rewrite Hb; unfold TTY_LN_BUF_SIZE; lia). by rewrite take_insert_ge, Hk by lia.
  - apply Forall_app. split; [done|]. apply Forall_singleton. apply u8_range.
Qed.
Lemma take_removelast (l : list Z) : removelast l = take (length l - 1) l.
Proof. rewrite removelast_firstn_len. f_equal. lia. Qed.
Lemma move_run {rm} l t s d k n b : handed rm l t s -> 0 <= d -> 0 <= k -> memmove (buf (line t)) (Z.to_nat d) (Z.to_nat k) (u32 n) = Ok b ->
  exists s', move_line p d k n s = Ok (tt, s') /\ handed rm l (with_line t (Line b (ed (line t)) (len (line t)))) s'.
Proof.
  intros Hh Hd Hk Hm. unfold move_line. replace ((d <? 0) || (k <? 0))%bool with false by lia.
  rewrite (st_bind_eq _ _ _ _ _ (handed_at _ _ _ Hh)). rewrite (st_bind_eq (lift _) _ s b s) by (unfold lift; by rewrite Hm).
  by apply (handed_upd l t s).
Qed.
Lemma erase_editing {rm} ln out s : editing rm (ln, out) s -> exists s', erase_char p 571 s = Ok (tt, s') /\ editing rm (removelast ln, out) s'.
Proof.
  intros (t & Hh & [[He Hl] [Hb Hk] Hm Hby] & Hd). cbn [fst snd] in *. unfold erase_char. rewrite (st_bind_eq _ _ _ _ _ (handed_at _ _ _ Hh)). cbn zeta.
  rewrite He. destruct (Z.eqb_spec (Z.of_nat (length ln)) 0) as [E|E].
  { exists s. split; [done|]. destruct ln; [|cbn in E; lia]. exists t. done. }
  set (n := length ln) in *. assert (HB : length (buf (line t)) = 512%nat) by (rewrite Hb; reflexivity). rewrite Hl.
  set (b := splice (buf (line t)) (n - 1) (take 1 (drop n (buf (line t))))).
  assert (Hmv : memmove (buf (line t)) (Z.to_nat (Z.of_nat n - 1)) (Z.to_nat (Z.of_nat n)) (u32 (Z.of_nat n - Z.of_nat n + 1)) = Ok b).
  { rewrite Z.sub_diag. change (u32 (0 + 1)) with 1. unfold memmove. rewrite decide_True by lia. change (Z.to_nat 1) with 1%nat.
    rewrite memmove_up_spec by lia. unfold b. rewrite Nat2Z.id. do 2 f_equal. lia. }
  destruct (move_run _ _ s (Z.of_nat n - 1) (Z.of_nat n) _ b Hh ltac:(lia) ltac:(lia) Hmv) as (s1 & H1 & Hh1). rewrite (st_bind_eq _ _ _ _ _ H1).
  destruct (handed_upd _ _ s1 (fun t => with_line t (Line (buf (line t)) (ed (line t) -i 1) (len (line t) -i 1))) Hh1 eq_refl) as (s2 & H2 & Hh2).
  rewrite (st_bind_eq _ _ _ _ _ H2). change (negb (on 571 ECHO)) with false. cbn iota. rewrite (st_bind_eq _ _ _ _ _ (handed_at _ _ _ Hh2)).
  cbn [line with_line ed len buf] in *. rewrite He, Hl, Z.eqb_refl, s32_small in * by lia.
  apply quiet_editing; [apply quiet_oputs|]. eexists. split; [exact Hh2|]. split; [|done]. cbn [fst]. rewrite take_removelast. fold n.
  assert (Hln : length (take (n - 1) ln) = (n - 1)%nat) by (rewrite length_take; lia).
  constructor; cbn [line with_line ed len buf]; rewrite ?Hln; [lia| |lia|by apply Forall_take]. split.
  - unfold b. rewrite length_splice; [done|]. rewrite length_take, length_drop. lia.
  - unfold b, splice. rewrite take_app_length' by (rewrite length_take; lia). rewrite <- Hk at 1. rewrite take_take. f_equal. lia.
Qed.

Lemma on_default : on 571 ECHO = true /\ on 571 ICANON = true.
Proof. done. Qed.
Lemma quiet_echo_if c (b : bool) : quiet (if b then tty_echo p c else mret tt).
Proof. apply quiet_if; [apply quiet_echo; done|apply quiet_mret]. Qed.
(** Runs [m], then [n], on the state of the editor. *)
Lemma then_editing {r1 r2 r3} (m n : st sys unit) a b c s : (forall s, editing r1 a s -> exists s', m s = Ok (tt, s') /\ editing r2 b s') ->
  (forall s, editing r2 b s -> exists s', n s = Ok (tt, s') /\ editing r3 c s') -> editing r1 a s -> exists s', (m;; n) s = Ok (tt, s') /\ editing r3 c s'.
Proof.
  intros Hm Hn Ha. destruct (Hm s Ha) as (s1 & H1 & Hb). destruct (Hn s1 Hb) as (s2 & H2 & Hc). exists s2. by rewrite (st_bind_eq _ _ _ _ _ H1).
Qed.
(** The parts of the editor that are followed by the echo. *)
Lemma echo_editing {rm} k a s : editing rm a s -> exists s', tty_echo p k s = Ok (tt, s') /\ editing rm a s'.
Proof. intros H. apply quiet_editing; [apply quiet_echo|done]. Qed.
Lemma signal_editing {rm} n k a s : editing rm a s -> exists s', (signal_fg p n;; tty_echo p k) s = Ok (tt, s') /\ editing rm a s'.
Proof. intros H. eapply (then_editing _ _ a a); [intros; apply quiet_editing; [apply quiet_signal|done]|intros; by apply echo_editing|done]. Qed.
Lemma kill_editing {rm} m ln out s : (forall s, editing rm ([], out) s -> exists s', m s = Ok (tt, s') /\ editing rm ([], out) s') -> editing rm (ln, out) s ->
  exists s', (clear_line p;; m) s = Ok (tt, s') /\ editing rm ([], out) s'.
Proof. intros Hm H. eapply (then_editing _ _ (ln, out) ([], out)); [intros s1 H1; by eapply clear_editing|done|done]. Qed.
Lemma eol_editing {rm} k ln out s : editing (length ln + S rm) (ln, out) s ->
  exists s', (tty_oput p k;; feed p;; tty_iput p k;; clear_line p) s = Ok (tt, s') /\ editing rm ([], out ++ ln ++ [u8 k]) s'.
Proof.
  intros Hed. eapply (then_editing _ _ _ (ln, out)); [intros; apply quiet_editing; [apply quiet_oput|done]| |exact Hed].
  intros s1 H1. eapply (then_editing _ _ _ (ln, out ++ ln) _ s1); [intros; by apply feed_editing| |exact H1].
  intros s2 H2. eapply (then_editing _ _ _ (ln, (out ++ ln) ++ [u8 k]) _ s2); [intros; by apply iput_editing| |exact H2].
  intros s3 H3. rewrite <- app_assoc in H3. by eapply clear_editing.
Qed.
Lemma eof_editing {rm} k ln out s : editing (length ln + rm) (ln, out) s ->
  exists s', ((if Z.of_nat (length ln) =? 0 then mret tt else feed p;; clear_line p);; wakeup p;; tty_echo p k) s = Ok (tt, s') /\ editing rm ([], out ++ ln) s'.
Proof.
  intros Hed. apply (then_editing (r1 := (length ln + rm)%nat) (r2 := rm) _ _ (ln, out) ([], out ++ ln)); [| |done].
  - intros s1 H1. destruct (Z.eqb_spec (Z.of_nat (length ln)) 0) as [E|E].
    + exists s1. split; [done|]. destruct ln; [|cbn in E; lia]. by rewrite app_nil_r.
    + eapply (then_editing _ _ (ln, out) (ln, out ++ ln)); [intros; by apply feed_editing|intros s2 H2; by eapply clear_editing|done].
  - intros s1 H1. eapply (then_editing _ _ _ ([], out ++ ln) _ s1); [intros; apply quiet_editing; [apply quiet_wakeup|done]|intros; by apply echo_editing|done].
Qed.
(** The bytes that a character hands over. *)
Definition over (a : list Z * list Z) (c : Z) : nat := (length (edit a c).2 - length a.2)%nat.
Lemma editing_room n m a s : editing n a s -> n = m -> editing m a s.
Proof. by intros H <-. Qed.
Ltac room := let H := fresh in intros H; eapply editing_room; [exact H|]; cbn [fst snd orb]; rewrite ?length_app; cbn [length]; lia.
Lemma in_editing {rm} a c s : editing (over a c + rm) a s -> c <> CTRL 76 -> exists s', tty_in (Some p) c s = Ok (tt, s') /\ editing rm (edit a c) s'.
Proof.
  intros Hed Hl. destruct a as [ln out]. pose proof Hed as (t & Hh & Hli & Hd). cbn [fst snd] in *. pose proof (li_len _ _ Hli) as [He Hle]. pose proof (li_max _ _ Hli) as Hmx.
  unfold tty_in. rewrite (st_bind_eq _ _ _ _ _ (handed_at _ _ _ Hh)). cbn zeta. rewrite Hd. change (on (c_iflag default_termios) IGNCR) with false.
  rewrite andb_false_r. change (on (c_iflag default_termios) INLCR) with false. change (on (c_iflag default_termios) ICRNL) with true.
  change (on (c_iflag default_termios) ISTRIP) with false. change (on (c_lflag default_termios) ICANON) with true. cbn iota.
  replace (if c =? 10 then c else if c =? 13 then 10 else c) with (if c =? 13 then 10 else c) by (destruct (Z.eqb_spec c 10), (Z.eqb_spec c 13); lia).
  revert Hed. unfold over, edit. set (k := if c =? 13 then 10 else c). assert (Hk : (k =? CTRL 76) = false) by (apply Z.eqb_neq; unfold k; by destruct (c =? 13)).
  unfold tty_editor. rewrite (st_bind_eq _ _ _ _ _ (handed_at _ _ _ Hh)). cbn zeta. unfold cc. rewrite Hd, Hle, He.
  cbn [c_cc default_termios lookup list_lookup VEOL VEOL2 VERASE VKILL VINTR VQUIT VEOF VSUSP VSTART default c_lflag]. unfold id.
  change (on 571 ECHO) with true. cbn iota. rewrite u32_small by lia. change (TTY_LN_BUF_SIZE - 1) with 511.
  replace ((k =? 10) || (k =? 0) || (k =? 10) || (511 <=? Z.of_nat (length ln)))%bool with ((k =? 10) || (k =? 0) || (511 <=? Z.of_nat (length ln)))%bool
    by (destruct (k =? 10), (k =? 0); done).
  destruct ((k =? 10) || (k =? 0) || (511 <=? Z.of_nat (length ln)))%bool eqn:Eeol; [intros Hed; apply eol_editing; revert Hed; room|].
  assert (Hq : forall m, quiet m -> editing rm (ln, out) s -> exists s', m s = Ok (tt, s') /\ editing rm (ln, out) s')
    by (intros m Hm Hed; by apply quiet_editing).
  rewrite Hk. change (k =? CTRL 72) with (k =? 8). change (k =? CTRL 85) with (k =? 21). change (k =? CTRL 88) with (k =? 24).
  change (k =? CTRL 92) with (k =? 28). change (k =? CTRL 68) with (k =? 4). change (k =? CTRL 90) with (k =? 26). change (k =? CTRL 81) with (k =? 17).
  destruct (k =? 8); [intros Hed; apply erase_editing; revert Hed; room|].
  destruct (k =? 21); [intros Hed; apply (kill_editing _ ln); [intros; by apply quiet_editing; [apply quiet_oputs|]|revert Hed; room]|].
  destruct (k =? 24); [intros Hed; apply (kill_editing _ ln); [intros; by apply signal_editing|revert Hed; room]|].
  destruct (k =? 28); [intros Hed; apply (kill_editing _ ln); [intros; by apply signal_editing|revert Hed; room]|]. cbn [orb].
  destruct (k =? 4); [intros Hed; apply eof_editing; revert Hed; room|].
  destruct (k =? 26); [intros Hed; apply signal_editing; revert Hed; room|]. destruct (k =? 17); [intros Hed; apply signal_editing; revert Hed; room|]. cbn [orb].
  destruct (k =? CTRL 80); [intros Hed; apply Hq; [apply quiet_host, HC|revert Hed; room]|].
  destruct (k =? CTRL 70); [intros Hed; apply Hq; [apply quiet_host, HC|revert Hed; room]|].
  destruct (k =? CTRL 79); [intros Hed; apply Hq; [apply quiet_host, HC|revert Hed; room]|]. cbn [orb].
  rewrite Z.eqb_refl. apply orb_false_elim in Eeol as [_ Eeol]. intros Hed. assert (Hed' : editing rm (ln, out) s) by (revert Hed; room).
  eapply (then_editing (r2 := rm) _ _ (ln, out) (ln, out)); [intros; by apply quiet_editing; [apply quiet_mret|]| |exact Hed']. intros s1 H1.
  eapply (then_editing _ _ (ln, out) (ln ++ [u8 k], out)); [intros; apply insert_editing; [done|lia]|intros; by apply echo_editing|done].
Qed.

Fixpoint type (cs : list Z) : st sys unit := match cs with [] => mret tt | c :: cs => tty_in (Some p) c;; type cs end.
Lemma edit_grows a c : (length a.2 <= length (edit a c).2)%nat.
Proof.
  destruct a as [ln out]. unfold edit. cbn zeta.
  repeat match goal with |- context [if ?b then _ else _] => destruct b end; cbn [snd]; rewrite ?length_app; lia.
Qed.
Lemma edits_grow cs a : (length a.2 <= length (fold_left edit cs a).2)%nat.
Proof. revert a. induction cs as [|c cs IH]; intros a; cbn [fold_left]; [done|]. etransitivity; [apply (edit_grows a c)|apply IH]. Qed.


(** ** Reading *)
(** The line at the front of a queue, as far as [size] bytes. *)
Fixpoint front (size : nat) (q : list Z) : list Z :=
  match size, q with S n, c :: q => c :: (if schar c =? 10 then [] else front n q) | _, _ => [] end.
(** The queue holds a whole line or [size] bytes. *)
Definition complete (size : nat) (q : list Z) : Prop := (size <= length q)%nat \/ 10 ∈ q.
Lemma front_length size q : (length (front size q) <= size)%nat /\ (length (front size q) <= length q)%nat.
Proof. revert q. induction size as [|n IH]; intros [|c q]; cbn [front length]; try lia. destruct (_ =? 10); cbn [length]; [lia|]. specialize (IH q). lia. Qed.
Lemma tty_read_loop_run size t s b n q : at_tty t s -> RingBuf.rb_wf (cin t) -> RingBuf.rb_queue (cin t) = Some <$> q -> on (c_lflag (tios t)) ICANON = true ->
  complete size q -> (n + size <= length b)%nat ->
  exists rb s', read_loop size p b n s = Ok ((Z.of_nat (n + length (front size q)), splice b n (front size q)), s') /\ at_tty (with_cin t rb) s' /\
    RingBuf.rb_wf rb /\ RingBuf.rb_queue rb = Some <$> drop (length (front size q)) q /\ world s' = world s.
Proof.
  revert t s b n q. induction size as [|m IH]; intros t s b n q Ht Hwf Hq Hc Hcomp Hb; cbn [read_loop front].
  - exists (cin t), s. cbn [length]. rewrite Nat.add_0_r, splice_nil, drop_0. split_and!; try done. by destruct t.
  - rewrite (st_bind_eq _ _ _ _ _ (tty_at_run _ _ Ht)). unfold get. rewrite (st_bind_eq (fun s => Ok (s, s)) _ s s s) by done.
    destruct q as [|c q]. { destruct Hcomp as [H|H]; [cbn in H; lia|]. by apply elem_of_nil in H. }
    assert (He : RingBuf.rb_is_empty (cin t) = false).
    { unfold RingBuf.rb_is_empty. apply Z.eqb_neq. intros E. unfold RingBuf.rb_queue in Hq. rewrite E, Z.sub_diag in Hq. discriminate. }
    rewrite He. cbn [andb]. rewrite (st_bind_eq (mret tt) _ s tt s) by done. rewrite (st_bind_eq _ _ _ _ _ (tty_at_run _ _ Ht)), He.
    destruct (RingBuf.rb_getc_dequeues (cin t) Hwf He) as (c' & rb & Hg & Hwf1 & Hq1 & _). rewrite Hq in Hq1. cbn [fmap list_fmap] in Hq1.
    injection Hq1 as <- Hq1. rewrite (st_bind_eq (lift _) _ s (c, rb) s) by (unfold lift; by rewrite Hg). cbn beta iota.
    destruct (upd_tty_run t s (fun t => with_cin t rb) Ht) as (s1 & H1 & Ht1 & Hw1). rewrite (st_bind_eq _ _ _ _ _ H1).
    rewrite (st_bind_eq (lift _) _ s1 (<[n := c]> b) s1) by (unfold lift; by rewrite wr_in by lia). rewrite Hc, orb_false_r.
    pose proof (front_length m q). destruct (Z.eqb_spec (schar c) 10) as [E|E].
    + exists rb, s1. cbn [length drop]. rewrite splice_single by lia. replace (n + 1)%nat with (S n) by lia. rewrite drop_0. done.
    + destruct (IH (with_cin t rb) s1 (<[n := c]> b) (S n) q) as (rb2 & s2 & H2 & Ht2 & Hwf2 & Hq2 & Hw2); [done|done|done|done| |rewrite length_insert; lia|].
      { destruct Hcomp as [H0|H0]; [left; cbn in H0; lia|right]. apply elem_of_cons in H0 as [<-|]; [done|done]. }
      exists rb2, s2. rewrite splice_cons in H2 by lia. cbn [length drop]. replace (n + S (length (front m q)))%nat with (S n + length (front m q))%nat by lia.
      rewrite Hw2, Hw1. done.
Qed.
Lemma tty_dev_run minor t s : 0 <= minor -> Z.to_nat minor = p -> at_tty t s -> tty_dev minor s = Ok (Some t, s).
Proof. intros Hm Hp Ht. unfold tty_dev. st_run. replace (minor <? 0) with false by lia. by rewrite Hp, (proj2 (rd_Ok _ _ _) Ht). Qed.
(** Reading a line.  While the queue holds a whole line, or as much as
    is asked for, [tty_read] does not sleep: it returns the bytes up to and with
    the first new line, at most [size] of them, stores them in order at the start of the
    buffer and nothing else, and takes exactly them from the queue.  With an
    empty queue a task that exits gets the error and changes nothing. *)
Theorem tty_read_line minor size b t s q : 0 <= minor -> Z.to_nat minor = p -> at_tty t s -> RingBuf.rb_wf (cin t) ->
  RingBuf.rb_queue (cin t) = Some <$> q -> on (c_lflag (tios t)) ICANON = true -> (Z.to_nat size <= length b)%nat ->
  (complete (Z.to_nat size) q -> let r := front (Z.to_nat size) q in
     exists rb s', tty_read TTY_MAJOR minor size b s = Ok ((Z.of_nat (length r), splice b 0 r), s') /\ at_tty (with_cin t rb) s' /\
       RingBuf.rb_wf rb /\ RingBuf.rb_queue rb = Some <$> drop (length r) q) /\
  (0 < size -> q = [] -> exiting (world s) = true -> tty_read TTY_MAJOR minor size b s = Ok ((2 ^ 32 - 1, b), s)).
Proof.
  intros Hm Hp Ht Hwf Hq Hc Hb. unfold tty_read. rewrite (st_bind_eq _ _ _ _ _ (tty_dev_run _ _ _ Hm Hp Ht)), Z.eqb_refl, Hp.
  unfold kassert. rewrite !(st_bind_eq (mret tt) _ s tt s) by done. split.
  - intros Hcomp. destruct (tty_read_loop_run (Z.to_nat size) t s b 0 q Ht Hwf Hq Hc Hcomp Hb) as (rb & s' & H1 & H2 & H3 & H4 & _).
    by exists rb, s'.
  - intros Hs -> He. destruct (Z.to_nat size) as [|n] eqn:E; [lia|]. cbn [read_loop]. rewrite (st_bind_eq _ _ _ _ _ (tty_at_run _ _ Ht)).
    rewrite (st_bind_eq get _ s s s) by done. assert (Hemp : RingBuf.rb_is_empty (cin t) = true).
    { destruct Hwf as (_ & _ & Hh & Htl & _). unfold RingBuf.rb_is_empty. apply Z.eqb_eq. apply (f_equal length) in Hq.
      unfold RingBuf.rb_queue in Hq. rewrite length_ring_contents in Hq. cbn in Hq. apply ring_dist_0; [done|done|].
      pose proof (u32_range (RingBuf.head (cin t) - RingBuf.tail (cin t))). lia. }
    by rewrite Hemp, He.
Qed.
End Spec.

(** ** The display *)
Section Display.
Import CrtSpec.
Context {P : Type} `{!Crt.Ports P} `{!Host (Crt.scr P)} (Hcrt : forall c m, crt_putc c m = Crt.crt_putc c).
Notation sys := (sys (Crt.scr P)).
Context (p : nat).

(** What a terminal sends for the bytes of a program. *)
Definition expand (b : list Z) : list Z := concat (map (fun c => if schar c =? 10 then [13; 10] else [schar c]) b).
Definition plain_output (t : tty_t) : Prop := putc t = crt_driver /\ on (c_oflag (tios t)) OPOST = true /\ on (c_oflag (tios t)) ONLCR = true.
Lemma host_then (m n : st (Crt.scr P) unit) (s : sys) : (host m;; host n) s = host (m;; n) s.
Proof. unfold host, mbind, st_bind. by destruct (m (world s)) as [[[] w]|]. Qed.
Lemma host_congr (m : st (Crt.scr P) unit) (k1 k2 : st sys unit) (s : sys) :
  (forall w, k1 (Sys (tty_devs s) w) = k2 (Sys (tty_devs s) w)) -> (host m;; k1) s = (host m;; k2) s.
Proof. intros Hk. unfold mbind, st_bind, host. destruct (m (world s)) as [[[] w]|]; [apply Hk|done]. Qed.
Lemma host_puts_cons c l (s : sys) : host (Crt.crt_puts (c :: l)) s = (host (Crt.crt_putc c);; host (Crt.crt_puts l)) s.
Proof. by rewrite host_then. Qed.
Lemma host_puts_one c (s : sys) : host (Crt.crt_puts [c]) s = host (Crt.crt_putc c) s.
Proof. rewrite host_puts_cons. unfold mbind, st_bind, host. by destruct (Crt.crt_putc c (world s)) as [[[] w]|]. Qed.
Lemma host_puts_app l k (s : sys) : host (Crt.crt_puts (l ++ k)) s = (host (Crt.crt_puts l);; host (Crt.crt_puts k)) s.
Proof. rewrite host_then. unfold host. by rewrite puts_app. Qed.
Lemma oput_puts t s c : at_tty p t s -> plain_output t -> tty_oput p c s = host (Crt.crt_puts (if c =? 10 then [13; 10] else [c])) s.
Proof.
  intros Ht (Hp & Ho & Hn). unfold tty_oput. rewrite (st_bind_eq _ _ _ _ _ (tty_at_run p _ _ Ht)), Ho, Hn, andb_true_r. unfold putc_of. rewrite Hp, Hcrt. cbn [andb].
  assert (Hlast : forall w, (t ← tty_at p; putc_of t c) (Sys (tty_devs s) w) = host (Crt.crt_puts [c]) (Sys (tty_devs s) w)).
  { intros w. rewrite (st_bind_eq (tty_at p) _ _ t (Sys (tty_devs s) w)) by (by apply tty_at_run). unfold putc_of. by rewrite Hp, Hcrt, host_puts_one. }
  destruct (Z.eqb_spec c 10) as [->|Hc].
  - rewrite host_puts_cons. by apply host_congr.
  - rewrite (st_bind_eq (mret tt) _ s tt s) by done. destruct s as [ds w]. apply Hlast.
Qed.
Lemma write_loop_puts n t s b i : at_tty p t s -> plain_output t -> (i + n <= length b)%nat ->
  write_loop n p b i s = host (Crt.crt_puts (expand (take n (drop i b)))) s.
Proof.
  intros Ht Hp. revert s i Ht. induction n as [|n IH]; intros s i Ht Hn; cbn [write_loop]; [by destruct s|].
  destruct (lookup_lt_is_Some_2 b i) as [c Hc]; [lia|]. rewrite (st_bind_eq (lift _) _ s c s) by (unfold lift; by rewrite (proj2 (rd_Ok _ _ _) Hc)).
  rewrite (drop_S _ _ _ Hc). change (expand (take (S n) (c :: drop (S i) b))) with ((if schar c =? 10 then [13; 10] else [schar c]) ++ expand (take n (drop (S i) b))).
  rewrite host_puts_app. rewrite <- (host_congr _ (write_loop n p b (S i))) by (intros w; by apply IH; [|lia]).
  unfold mbind, st_bind. by rewrite (oput_puts t s (schar c) Ht Hp).
Qed.

(** The bytes of a program that clears the screen and prints lines. *)
Definition printed (ls : list (list Z)) : list Z := [27; 99] ++ concat (map (fun t => t ++ [10]) ls).
Lemma expand_app b c : expand (b ++ c) = expand b ++ expand c.
Proof. unfold expand. by rewrite map_app, concat_app. Qed.
Lemma expand_printable t : Forall printable t -> expand t = t.
Proof.
  induction 1 as [|c t Hc _ IH]; [done|]. change (expand (c :: t)) with ((if schar c =? 10 then [13; 10] else [schar c]) ++ expand t).
  unfold printable in Hc. rewrite schar_ascii, IH by lia. by replace (c =? 10) with false by lia.
Qed.
Lemma expand_printed ls : Forall line_ok ls -> expand (printed ls) = Crt.ANSI_ESC :: 99 :: text ls.
Proof.
  intros Hls. unfold printed. rewrite expand_app. cbn [expand]. change (expand [27; 99]) with [27; 99]. unfold Crt.ANSI_ESC. cbn [app]. do 2 f_equal.
  induction Hls as [|t ls [Ht _] _ IH]; [done|]. cbn [map concat]. rewrite !expand_app, IH, expand_printable by done. cbn [text map concat]. by rewrite <- !app_assoc.
Qed.

(** C20: lines of text that a program writes to its terminal are on the screen.
    On a terminal that translates LF to CR and LF, with no escape sequence open,
    [tty_write] of [ESC c], which clears the screen, followed by any number of
    lines of at most 80 printable ASCII characters, each ended by LF, succeeds,
    accepts all of the bytes, and leaves the last 24 lines on the display, blanks
    after them and the cursor below; the terminals do not change. *)
Theorem terminal_shows_text t ls m minor (s : sys) : 0 <= minor -> Z.to_nat minor = p -> at_tty p t s -> plain_output t -> Forall line_ok ls ->
  screen_ok m (Crt.dev (world s)) -> fresh (Crt.astat (Crt.dev (world s))) ->
  exists s', tty_write TTY_MAJOR minor (Z.of_nat (length (printed ls))) (printed ls) s = Ok (Z.of_nat (length (printed ls)), s') /\
    tty_devs s' = tty_devs s /\ take 2000 (Crt.buf (Crt.dev (world s'))) = concat (view Crt.CRT_DEF_ATTR ls) /\
    Crt.x (Crt.dev (world s')) = 0 /\ Crt.y (Crt.dev (world s')) = Z.min (Z.of_nat (length ls)) 24.
Proof.
  intros Hm Hp Ht Hpl Hls Hok Hf. destruct (puts_reset m (text ls) (world s) Hok Hf) as (w1 & H1 & Hw1).
  destruct (puts_lines m Crt.CRT_DEF_ATTR [] ls w1 Hw1 Hls) as (w2 & H2 & [_ _ _ _ Hb [Hx Hy]]).
  exists (Sys (tty_devs s) w2). split; [|done]. unfold tty_write. rewrite (st_bind_eq _ _ _ _ _ (tty_dev_run p _ _ _ Hm Hp Ht)), Z.eqb_refl, Hp.
  unfold kassert. rewrite (st_bind_eq (mret tt) _ s tt s) by done. rewrite Nat2Z.id. rewrite (st_bind_eq _ _ s tt (Sys (tty_devs s) w2)); [done|].
  rewrite (write_loop_puts _ t) by done. rewrite drop_0, firstn_all, expand_printed by done. unfold host. by rewrite H1, H2.
Qed.
End Display.

(** ** A terminal

    Its reader takes what is queued whenever it runs ([drained]), or never. *)
Definition bytes_of (l : list (option Z)) : list Z := omap id l.
Lemma bytes_of_queue q : bytes_of (Some <$> q) = q.
Proof. induction q as [|c q IH]; [done|]. cbn. f_equal. exact IH. Qed.
Definition drain (s : sys (list Z)) : sys (list Z) :=
  match tty_devs s !! 0%nat with
  | Some (Some t) => Sys (<[0%nat := Some (with_cin t (RingBuf.rb_reset (cin t)))]> (tty_devs s)) (world s ++ bytes_of (RingBuf.rb_queue (cin t)))
  | _ => s
  end.
Definition demo_host (reads : bool) : Host (list Z) := {|
  crt_putc _ _ := mret tt; serial_putc _ _ := mret tt; kill _ _ := mret tt; ps := mret tt; kprintf_fg_pid _ := mret tt; cofs_dump_cache := mret tt;
  wakeup _ := mret tt; sleep_on _ := mret tt; task_switch := fun s => Ok (tt, if reads then drain s else s);
  exiting _ := false; running _ := true; current_sid _ := 1; current_pid _ := 2; malloc n := Some (replicate (Z.to_nat n) 0);
  copy_termios_out _ _ := mret tt; copy_termios_in _ := mret default_termios; copy_winsize_out _ _ := mret tt;
  copy_winsize_in _ := mret (Winsize 0 0 0 0); store_pid _ _ := mret tt; load_pid _ := mret 0
|}.
Lemma demo_calm : @Calm (list Z) (demo_host true) 0 eq.
Proof.
  constructor; try (intros; intros l w ->; by exists w).
  - intros ds l w ->. by exists w.
  - intros [ds w] t l q Ht (Hs & Hl & Hh & Htl & Hle) Hq ->. cbn in Ht |- *.
    exists (length q), (RingBuf.rb_reset (cin t)), (drain (Sys ds w)). split; [done|]. unfold drain. cbn [tty_devs world].
    unfold at_tty in *. cbn [tty_devs] in Ht. rewrite Ht. cbn [tty_devs world]. pose proof Hs as [[Hp1 Hp2] _].
    split; [apply list_lookup_insert_eq; by apply lookup_lt_Some in Ht|]. split; [|split; [|split]].
    + split; [exact Hs|]. split; [exact Hl|]. split; [done|]. split; [done|]. cbn [RingBuf.head RingBuf.tail RingBuf.size RingBuf.rb_reset]. rewrite Z.sub_diag. change (u32 0) with 0. lia.
    + done.
    + rewrite drop_all. reflexivity.
    + by rewrite Hq, bytes_of_queue, firstn_all.
Qed.
(** What [tty_open] makes. *)
Definition demo_ring : RingBuf.ring_buf_t := RingBuf.RB (replicate 128 0) 0 0 128.
Definition demo_tty : tty_t := Tty (Winsize 25 80 0 0) default_termios demo_ring demo_ring (Line (replicate 512 0) 0 0) crt_driver 0 1 2.
Definition demo_sys : sys (list Z) := Sys [Some demo_tty; None; None; None; None] [].
Lemma tty_open_demo : @tty_open _ (demo_host true) 4 0 (Sys [None; None; None; None; None] []) = Ok (true, demo_sys).
Proof. vm_compute. reflexivity. Qed.
Lemma demo_ring_wf : RingBuf.rb_wf demo_ring.
Proof. split; [split; [cbn; lia|by exists 33554432]|]. split; [done|]. split; [cbn; lia|]. split; [cbn; lia|]. vm_compute. discriminate. Qed.
Lemma demo_editing : editing 0 eq 128 ([], []) demo_sys.
Proof.
  exists demo_tty. split; [|split; [|done]].
  - exists [], []. split; [done|]. split; [done|]. split; [exact demo_ring_wf|]. done.
  - constructor; cbn; [done|done|lia|by apply Forall_nil_2].
Qed.

(** "ab", erase, "c", return; then "x", kill, "y". *)
Definition demo_typed : list Z := [97; 98; 8; 99; 13; 120; 21; 121].
(** A queue with two lines. *)
Definition two_lines : RingBuf.ring_buf_t := RingBuf.RB (<[127%nat := 97]> (<[0%nat := 10]> (<[1%nat := 98]> (replicate 128 0)))) 130 127 128.
Definition read_sys : sys (list Z) := Sys [Some (with_cin demo_tty two_lines); None; None; None; None] [].
Lemma tty_read_line_witness :
  (complete 5 [97; 10; 98] -> let r := front 5 [97; 10; 98] in
     exists rb s', @tty_read _ (demo_host true) TTY_MAJOR 0 5 [1; 1; 1; 1; 1] read_sys = Ok ((Z.of_nat (length r), splice [1; 1; 1; 1; 1] 0 r), s') /\
       at_tty 0 (with_cin (with_cin demo_tty two_lines) rb) s' /\ RingBuf.rb_wf rb /\ RingBuf.rb_queue rb = Some <$> drop (length r) [97; 10; 98]) /\
  complete 5 [97; 10; 98] /\ front 5 [97; 10; 98] = [97; 10].
Proof.
  split; [|split; [right; by right; left|reflexivity]].
  apply (@tty_read_line _ (demo_host true) 0 0 5 [1; 1; 1; 1; 1] (with_cin demo_tty two_lines) read_sys [97; 10; 98]).
  - lia.
  - reflexivity.
  - reflexivity.
  - split; [split; [cbn; lia|by exists 33554432]|]. split; [done|]. split; [cbn; lia|]. split; [cbn; lia|]. vm_compute. discriminate.
  - reflexivity.
  - reflexivity.
  - cbn. lia.
Defined.
(** The display of CrtSpec.v behind a terminal. *)
Definition screen_host : Host (Crt.scr (list (Z * Z))) := {|
  crt_putc c _ := @Crt.crt_putc _ CrtSpec.log_ports c; serial_putc _ _ := mret tt; kill _ _ := mret tt; ps := mret tt; kprintf_fg_pid _ := mret tt;
  cofs_dump_cache := mret tt; wakeup _ := mret tt; sleep_on _ := mret tt; task_switch := mret tt; exiting _ := false; running _ := true;
  current_sid _ := 1; current_pid _ := 2; malloc _ := None; copy_termios_out _ _ := mret tt; copy_termios_in _ := mret default_termios;
  copy_winsize_out _ _ := mret tt; copy_winsize_in _ := mret (Winsize 0 0 0 0); store_pid _ _ := mret tt; load_pid _ := mret 0
|}.
Definition hi_lines : list (list Z) := [[104; 105]; []; [33]].
Lemma terminal_shows_text_witness :
  exists s', @tty_write _ screen_host TTY_MAJOR 0 (Z.of_nat (length (printed hi_lines))) (printed hi_lines) (Sys [Some demo_tty] (CrtSpec.at_xy 4 4)) =
      Ok (Z.of_nat (length (printed hi_lines)), s') /\
    tty_devs s' = [Some demo_tty] /\ take 2000 (Crt.buf (Crt.dev (world s'))) = concat (CrtSpec.view Crt.CRT_DEF_ATTR hi_lines) /\
    Crt.x (Crt.dev (world s')) = 0 /\ Crt.y (Crt.dev (world s')) = Z.min (Z.of_nat (length hi_lines)) 24.
Proof.
  apply (@terminal_shows_text _ CrtSpec.log_ports screen_host (fun _ _ => eq_refl) 0 demo_tty hi_lines (replicate (Z.to_nat 14376) 0) 0).
  - lia.
  - reflexivity.
  - reflexivity.
  - done.
  - repeat (apply Forall_cons; split; [split; [repeat (apply Forall_cons; split; [unfold CrtSpec.printable; lia|]); by apply Forall_nil_2|cbn; lia]|]). by apply Forall_nil_2.
  - apply CrtSpec.at_xy_ok; lia.
  - by left.
Defined.

(** ** Corners *)
Definition typed_sys (reads : bool) (cs : list Z) : res (sys (list Z)) := match @type _ (demo_host reads) 0 cs demo_sys with Ok (_, s) => Ok s | Err e => Err e end.
Definition read_sys_line (s : sys (list Z)) : res (list Z) :=
  match @tty_read _ (demo_host false) TTY_MAJOR 0 200 (replicate 200 0) s with Ok ((n, b), _) => Ok (take (Z.to_nat n) b) | Err e => Err e end.
(** A line longer than the queue overwrites its own start when no reader
    empties the queue in between: 130 characters are read as the last three. *)
Lemma long_line_overwrites :
  match typed_sys false (replicate 100 97 ++ replicate 28 98 ++ [99; 100; 10]) with
  | Ok s => match read_sys_line s with Ok l => l = [99; 100; 10] | Err _ => False end
  | Err _ => False
  end.
Proof. vm_compute. reflexivity. Qed.
(** Control-L throws away lines that wait to be read. *)
Lemma control_l_drops_input :
  match typed_sys false [97; 10; 12] with Ok s => match tty_devs s !! 0%nat with Some (Some t) => RingBuf.rb_is_empty (cin t) = true | _ => False end | Err _ => False end.
Proof. vm_compute. reflexivity. Qed.
(** The character 0 ends a line, since [VEOL2] is never set. *)
Lemma nul_ends_line : edit ([97], []) 0 = ([], [97; 0]) /\ cc demo_tty VEOL2 = 0.
Proof. split; reflexivity. Qed.
(** With a full line every character ends it, also the one that erases. *)
Lemma full_line_erase : edit (replicate 511 97, []) 8 = ([], replicate 511 97 ++ [8]).
Proof. vm_compute. reflexivity. Qed.
(** End of file after some characters hands them over, but the reader goes on
    waiting for the new line. *)
Definition asleep_host : Host (list Z) := let h := demo_host false in {|
  crt_putc := @crt_putc _ h; serial_putc := @serial_putc _ h; kill := @kill _ h; ps := @ps _ h; kprintf_fg_pid := @kprintf_fg_pid _ h;
  cofs_dump_cache := @cofs_dump_cache _ h; wakeup := @wakeup _ h; sleep_on _ := fail EBlock; task_switch := @task_switch _ h;
  exiting := @exiting _ h; running := @running _ h; current_sid := @current_sid _ h; current_pid := @current_pid _ h; malloc := @malloc _ h;
  copy_termios_out := @copy_termios_out _ h; copy_termios_in := @copy_termios_in _ h; copy_winsize_out := @copy_winsize_out _ h;
  copy_winsize_in := @copy_winsize_in _ h; store_pid := @store_pid _ h; load_pid := @load_pid _ h
|}.
Lemma eof_keeps_waiting :
  match typed_sys false [97; 98; 4] with
  | Ok s => @tty_read _ asleep_host TTY_MAJOR 0 8 (replicate 8 0) s = Err EBlock
  | Err _ => False
  end.
Proof. vm_compute. reflexivity. Qed.
End TtySpec.
